(* ===== verification/_CoqProject ===== *)
-Q . S2P
Prelude.v
Mem.v
CompilerRt.v
Stream.v
Sha.v
Sha2.v
Sha256.v
Sha512.v
Sha1.v
Util.v
Alloc.v
Base64.v
Chacha20.v
Poly1305.v
Aes.v
Curve25519.v
X25519.v
Io.v
Tar.v
TarIx.v
Untar.v
TarTool.v
WebPacker.v
Modm.v
EdTable.v
EdPoint.v
Ed25519.v
RouterSys.v
Fds.v
Telnet.v
Modem.v
Netlink.v
Config.v
Dhcp.v
DhcpServer.v
DhcpClient.v
DhcpSession.v
DhcpExchange.v
PacketDumper.v
Iptables.v
Ksmb.v
Disk.v
Hostapd.v
Router.v
RouterRun.v
RouterLease.v
Ssh.v
SshPacket.v
SshKex.v
SshEnds.v
SshSession.v
SshServer.v
SshStart.v
Init.v
