(* ===== verification/Prelude.v ===== *)
(** * A verification of the hc library and the router

    The repository holds a C library that uses no other ([src/hc/core/hc]), command line
    tools made with it ([src/hc/tools]), examples, and a home router that is one process on
    a bare Linux kernel ([src/router]).  This development models the library's algorithms,
    the tar, untar and web packer tools, the whole of the router process and the
    process that starts it, and proves what they compute.  Of the examples the SSH client ([src/hc/examples/ssh]) is
    modelled, which puts most of the cryptography together.

    ** How the code is modelled

    A [uintN_t] is a [Z] that is reduced by [wrap N] where C reduces it, a signed one is
    [swrap N]; bytes are [Z] below 256 ([bytes]), memory is a list of them and a pointer an
    offset ([mem_copy], [get], [set], [le_split], [le_combine]).  A loop whose bound is not
    structural has fuel; the definition says why what it is given is enough, and the
    theorems show that the result is reached.  [debug_CHECK], [debug_ASSERT] and
    [debug_ASSUME] are those of the release build.

    The outside is an interface or a script.  The library's heap and file calls are
    classes ([Alloc.HeapOps], [Io.FileOps], [Tar]'s platform functions), and the Unix and Linux
    variants of the tools are instances of them over a file system ([TarIx.kern]).  The
    router's kernel ([RouterSys]) is a list of answers that are used up by its system
    calls, whose trace is the behaviour; a theorem for every list of answers holds whatever
    the kernel does.  A computation ends [Done], in a failed check ([Fatal]), in undefined
    behaviour, or out of fuel.

    ** The library

    - [Prelude]: machine integers, bytes, memory, lists, tactics and hint databases.
    - [Mem] ([mem.c]), [CompilerRt] ([compilerRt/mem.c], [mul128.c]), [Util] ([util.c],
      [math.c]), [Alloc] ([allocator.c], [linux/heap.c]), [Io] ([ix/util.c]), [Base64]
      ([base64.c]): each function computes what its name says, on every input, and writes
      nothing else.
    - [Stream], [Sha], [Sha2], [Sha256], [Sha512], [Sha1] ([crypto/sha*.c]): the block
      buffering once for all three, and each hash equals FIPS 180-4's of the
      concatenated input, however it is cut into updates.
    - [Chacha20], [Poly1305], [Aes] ([crypto/chacha20.c], [poly1305.c], [aes*.c]): equal
      to RFC 8439 and FIPS 197; for Poly1305 wherever its last reduction, which never
      happens ([poly1305_unreduced]), is not needed.
    - [Curve25519], [X25519], [Modm], [EdTable], [EdPoint], [Ed25519]
      ([crypto/curve25519.c], [x25519.c], [ed25519.c]): limb arithmetic without overflow, the
      ladder, the scalars modulo the group order, the point formulas, the two
      precomputed tables, and on top of them RFC 7748's function and RFC 8032's signing
      and verification.  The ladder of the reference starts at bit 255, as the code's does;
      that the curve's points form a group is not proved, the reference computes with
      the same addition formulas.

    ** The tools

    - [Tar], [TarIx] ([tools/tar]), [Untar] ([tools/untar]), [TarTool]: options, the walk
      over a directory, records and their ends; what tar writes of a tree, untar makes
      again, from the command line to the system calls ([tar_untar_roundtrip]).
    - [WebPacker] ([tools/webPacker]): includes are replaced in place in one growing
      allocation; no include is left in what it writes.

    ** The router

    [src/router/router/router.c] includes all of it in one file; the components share one
    buffer of 66000 bytes, which is passed through where a handler uses it.

    - [RouterSys]: the kernel, the monad, what can be said of all its computations ([emits],
      [ensures]).  [Fds]: accounting for descriptors.
    - [Telnet] ([telnetServer.c]): the terminal gets what a byte at a time automaton
      emits, however the network cuts the bytes; what a network virtual terminal shows is
      what the shell wrote.
    - [Modem] ([modemClient.c]): the packed command queue implements a queue of
      commands; the message "ip" is answered with the WAN address; three ways to go wrong.
    - [Netlink] ([netlink/*.c], [acpi.c]), [Config] ([config.c]), [Iptables]
      ([iptables.c]), [Ksmb] ([ksmb.c]), [Hostapd] ([hostapd.c]): messages and tables by
      their contents, the walks over what the kernel answers.
    - [Dhcp] (options), [DhcpServer], [DhcpClient], [DhcpSession], [DhcpExchange]
      ([dhcp.h], [dhcpServer.c], [dhcpClient.c]): every packet, the table of leases, the timer
      that is always armed again, and both sides put together until the client holds the
      server's address.
    - [PacketDumper] ([packetDumper.c]): the filter program on the BPF machine, the pcap
      stream read back, no descriptor lost.
    - [Disk] ([disk.c]): the search of /dev ends with the right disk mounted.
    - [Router], [RouterRun], [RouterLease] ([router.c]): [start] with its event loop and
      dispatch; the loop ends only by the power button and keeps every component's
      invariant, the shutdown gives everything back, and the WAN's name server reaches
      the LAN's clients.  What the telnet handlers' reads and the stacks of the children leave
      in the shared buffer is a parameter ([Router.Memory]): the theorems hold for any.

    ** The first process

    - [Init] ([src/router/init/init.c]): mounts, starts the shell and the router, reports every
      child that ends; whatever the kernel answers, the machine is powered off exactly when
      the router has exited with status 0 ([init_start_correct]).

    ** The SSH client

    [src/hc/examples/ssh] connects to a server, exchanges keys and asks for a service.  Its
    system calls are those of [RouterSys].

    - [Ssh] ([client.c], [proto.h]): the receive buffer that is mapped twice in a row, packets
      in the clear and under chacha20-poly1305@openssh.com.  [SshPacket]: what is sent is the
      packet of RFC 4253, and what was sent is received again, however the stream is cut
      ([ssh_send_correct], [ssh_message_roundtrip]).
    - [SshKex] ([client.c], [ssh.c]): identification, KEXINIT, curve25519-sha256, NEWKEYS, the
      service request, [client_init], [client_deinit] and [start].
    - [SshEnds]: every loop ends.  [SshSession]: 0 is returned only to a server that has
      signed the exchange ([ssh_connect_authenticated]).  [SshServer]: a server that keeps to
      the protocol is accepted ([ssh_connect_completes]).  [SshStart]: the program as a
      whole, its descriptors included ([ssh_start_correct]).  Which host key signs is not
      the theorems' matter, since the client compares it with nothing.

    ** Fuel

    A loop over bytes has their number and one; a loop that makes a system call per turn has
    the number of the kernel's answers and one, because without answers every call fails;
    the walks over netlink messages and attributes have the size of the buffer, because
    every step that goes on moves by at least four bytes or stays in place for ever; the
    event loop's theorem is for any fuel; the SSH ciphers have the size of the packet.

    ** Not modelled

    The system call wrappers, process entry and thread-local storage ([linux/sys.c],
    [helpers], [vdso.c], [tls.c]: single instructions and the machine's stack); the headers
    that declare other systems' interfaces ([gl.h], [egl.h], [x11.h], [drm.h], [jni.h], [efi.h],
    [elf.h], [windows.h], [freebsd.h]; of [linux.h] only what the modelled code
    uses); windows and graphics; the support for Windows, FreeBSD, WebAssembly and
    Android and their variants of the tools; the kernel and boot loader of the OS example;
    [router/utilities], which start other programs; the other examples; [util_abort]; the checks that only the debug build makes. *)
From Stdlib Require Import ZArith List Lia Bool String Ascii.
Import ListNotations.
Open Scope Z_scope.
Abbreviation length := List.length.
Abbreviation concat := List.concat.

(** ** Machine integers *)

(** [wrap w x] is the value of [x] stored in an unsigned [w]-bit object. *)
Definition wrap (w x : Z) : Z := x mod 2 ^ w.

Abbreviation u8 := (wrap 8).
Abbreviation u16 := (wrap 16).
Abbreviation u32 := (wrap 32).
Abbreviation u64 := (wrap 64).
Abbreviation u128 := (wrap 128).

(** [swrap w x]: conversion to a signed two's complement [w]-bit object. *)
Definition swrap (w x : Z) : Z := (x + 2 ^ (w - 1)) mod 2 ^ w - 2 ^ (w - 1).

Abbreviation i8 := (swrap 8).
Abbreviation i32 := (swrap 32).
Abbreviation i64 := (swrap 64).

Declare Scope word_scope.
Delimit Scope word_scope with w.
Infix "<<" := Z.shiftl (at level 52, left associativity) : word_scope.
Infix ">>" := Z.shiftr (at level 52, left associativity) : word_scope.
Infix "&" := Z.land (at level 53, left associativity) : word_scope.
Infix "^^" := Z.lxor (at level 54, left associativity) : word_scope.
Infix ".|" := Z.lor (at level 56, left associativity) : word_scope.
Open Scope word_scope.

(** Rotations of an unsigned [w]-bit value ([__builtin_rotateleft32] and friends). *)
Definition rotl (w x n : Z) : Z := wrap w (x << n) .| (x >> (w - n)).
Definition rotr (w x n : Z) : Z := (x >> n) .| wrap w (x << (w - n)).

(** ** Bytes, buffers and arrays

    A buffer is the list of its bytes; an array of integers is the list of its
    elements.  [get] reads an element, [set] writes one, [mem_copy] is
    [hc_MEMCPY(&dst[off], src, len)] and [mem_set] is [hc_MEMSET(&dst[off], b, n)].
    An access outside the list is never taken by the code under the length
    hypotheses of the theorems; there a read gives 0 and a write is ignored. *)
Definition is_byte (b : Z) : Prop := 0 <= b < 256.
Definition bytes (l : list Z) : Prop := Forall is_byte l.

Definition get (l : list Z) (i : nat) : Z := nth i l 0.

Fixpoint set {A} (l : list A) (i : nat) (v : A) : list A :=
  match l, i with
  | [], _ => []
  | _ :: t, O => v :: t
  | h :: t, S j => h :: set t j v
  end.

Definition mem_copy {A} (dst : list A) (off : nat) (src : list A) : list A :=
  firstn off dst ++ firstn (length dst - off) src ++ skipn (off + length src) dst.

Definition mem_set (dst : list Z) (off n : nat) (b : Z) : list Z :=
  mem_copy dst off (repeat b n).

(** A string or character literal of the source as bytes.  [char] is unsigned in
    every build ([-funsigned-char] in [hc/core/cc.sh]). *)
Definition str (s : string) : list Z :=
  map (fun c => Z.of_N (N_of_ascii c)) (list_ascii_of_string s).

(** Little endian value of a byte list, and the [n] low bytes of a value. *)
Fixpoint le_combine (l : list Z) : Z :=
  match l with
  | [] => 0
  | b :: t => b + 256 * le_combine t
  end.

Fixpoint le_split (n : nat) (x : Z) : list Z :=
  match n with
  | O => []
  | S m => x mod 256 :: le_split m (x / 256)
  end.

(** ** Word lemmas *)

Lemma wrap_small w x : 0 <= x < 2 ^ w -> wrap w x = x.
Proof. apply Z.mod_small. Qed.

Lemma wrap_bound w x : 0 <= w -> 0 <= wrap w x < 2 ^ w.
Proof. intros. apply Z.mod_pos_bound, Z.pow_pos_nonneg; lia. Qed.

Lemma wrap_wrap w x : 0 <= w -> wrap w (wrap w x) = wrap w x.
Proof. intros. apply wrap_small, wrap_bound; lia. Qed.

Lemma wrap_add_l w x y : wrap w (wrap w x + y) = wrap w (x + y).
Proof. apply Zplus_mod_idemp_l. Qed.

Lemma wrap_add_r w x y : wrap w (x + wrap w y) = wrap w (x + y).
Proof. apply Zplus_mod_idemp_r. Qed.

Lemma swrap_small w x : 0 < w -> - 2 ^ (w - 1) <= x < 2 ^ (w - 1) -> swrap w x = x.
Proof.
  intros Hw Hx. unfold swrap.
  replace (2 ^ w) with (2 * 2 ^ (w - 1)) by (rewrite <- Z.pow_succ_r by lia; f_equal; lia).
  rewrite Z.mod_small; lia.
Qed.

(** Masking with [2^n - 1] is reduction modulo [2^n]. *)
Lemma land_mask n x m : 0 <= n -> m = Z.ones n -> x & m = x mod 2 ^ n.
Proof. intros ? ->. now apply Z.land_ones. Qed.

Lemma shiftr_div x n : 0 <= n -> x >> n = x / 2 ^ n.
Proof. apply Z.shiftr_div_pow2. Qed.

Lemma shiftl_mul x n : 0 <= n -> x << n = x * 2 ^ n.
Proof. apply Z.shiftl_mul_pow2. Qed.

Lemma testbit_high w x i : 0 <= x < 2 ^ w -> w <= i -> Z.testbit x i = false.
Proof.
  intros Hx Hi. destruct (Z.ltb_spec w 0).
  - rewrite Z.pow_neg_r in Hx by lia. lia.
  - rewrite <- (Z.mod_small x (2 ^ w)) by lia. now apply Z.mod_pow2_bits_high.
Qed.

(** An [or] of values with disjoint bit ranges is a sum. *)
Lemma lor_add n a b : 0 <= n -> 0 <= a < 2 ^ n -> a .| b * 2 ^ n = a + b * 2 ^ n.
Proof.
  intros Hn Ha. rewrite <- Z.shiftl_mul_pow2 by lia.
  assert (a & (b << n) = 0) as Hdisj.
  { apply Z.bits_inj'. intros i Hi. rewrite Z.land_spec, Z.bits_0, Z.shiftl_spec by lia.
    destruct (Z.ltb_spec i n).
    - rewrite (Z.testbit_neg_r b) by lia. apply andb_false_r.
    - now rewrite (testbit_high n a) by lia. }
  rewrite <- Z.lxor_lor by exact Hdisj. symmetry. now apply Z.add_nocarry_lxor.
Qed.

(** A value is a [w]-bit value exactly when its bits from [w] on are clear. *)
Lemma bits_bound w x :
  0 <= w -> (forall i, w <= i -> Z.testbit x i = false) -> 0 <= x < 2 ^ w.
Proof.
  intros Hw Hx. replace x with (x mod 2 ^ w); [apply Z.mod_pos_bound; lia|].
  apply Z.bits_inj'. intros i Hi. destruct (Z.ltb_spec i w).
  - apply Z.mod_pow2_bits_low; lia.
  - now rewrite Z.mod_pow2_bits_high, Hx by lia.
Qed.

Section WordBounds.
Context (w a b : Z) (Hw : 0 <= w).

Lemma lxor_bound : 0 <= a < 2 ^ w -> 0 <= b < 2 ^ w -> 0 <= a ^^ b < 2 ^ w.
Proof using Hw.
  intros. apply bits_bound; [lia|]. intros i Hi.
  now rewrite Z.lxor_spec, !(testbit_high w) by lia.
Qed.

Lemma lor_bound : 0 <= a < 2 ^ w -> 0 <= b < 2 ^ w -> 0 <= a .| b < 2 ^ w.
Proof using Hw.
  intros. apply bits_bound; [lia|]. intros i Hi.
  now rewrite Z.lor_spec, !(testbit_high w) by lia.
Qed.

Lemma land_bound_l : 0 <= a < 2 ^ w -> 0 <= a & b < 2 ^ w.
Proof using Hw.
  intros. apply bits_bound; [lia|]. intros i Hi.
  now rewrite Z.land_spec, (testbit_high w a) by lia.
Qed.

Lemma land_bound_r : 0 <= b < 2 ^ w -> 0 <= a & b < 2 ^ w.
Proof using Hw.
  intros. apply bits_bound; [lia|]. intros i Hi.
  now rewrite Z.land_spec, (testbit_high w b), andb_false_r by lia.
Qed.

Lemma shiftr_bound n : 0 <= n -> 0 <= a < 2 ^ w -> 0 <= a >> n < 2 ^ w.
Proof using Hw.
  intros Hn Ha. rewrite shiftr_div by lia. split; [apply Z.div_pos; lia|].
  apply Z.le_lt_trans with a; [|lia]. apply Z.div_le_upper_bound; [lia|].
  assert (0 < 2 ^ n) by lia. nia.
Qed.
End WordBounds.

Lemma rotl_bound w x n : 0 <= n <= w -> 0 <= x < 2 ^ w -> 0 <= rotl w x n < 2 ^ w.
Proof.
  intros. apply lor_bound; [lia|apply wrap_bound; lia|apply shiftr_bound; lia].
Qed.

Lemma rotr_bound w x n : 0 <= n <= w -> 0 <= x < 2 ^ w -> 0 <= rotr w x n < 2 ^ w.
Proof.
  intros. apply lor_bound; [lia|apply shiftr_bound; lia|apply wrap_bound; lia].
Qed.

(** ** Automation *)

(** Side conditions about byte lists and word bounds. *)
Create HintDb hc discriminated.

(** Lengths of lists. *)
Create Rewrite HintDb lens.
#[export] Hint Rewrite @length_app @length_firstn @length_skipn @length_map @repeat_length
  @length_rev @length_seq : lens.
Ltac lens := autorewrite with lens in *; simpl length in *; try lia.

(** ** List and buffer lemmas *)

Lemma length_set {A} (l : list A) i v : length (set l i v) = length l.
Proof. revert i. induction l; destruct i; simpl; auto. Qed.

Lemma get_set_eq l i v : (i < length l)%nat -> get (set l i v) i = v.
Proof. revert i. induction l; destruct i; simpl; intros; try lia; auto. apply IHl; lia. Qed.

Lemma get_set_ne l i j v : i <> j -> get (set l i v) j = get l j.
Proof.
  revert i j. induction l; destruct i, j; simpl; intros; try congruence; auto.
  apply IHl; lia.
Qed.

Lemma length_mem_copy {A} (dst : list A) off src :
  (off + length src <= length dst)%nat -> length (mem_copy dst off src) = length dst.
Proof.
  intros. unfold mem_copy.
  rewrite !length_app, !length_firstn, length_skipn. lia.
Qed.

(** In range, [mem_copy] is the plain splice. *)
Lemma mem_copy_eq {A} (dst : list A) off src :
  (off + length src <= length dst)%nat ->
  mem_copy dst off src = firstn off dst ++ src ++ skipn (off + length src) dst.
Proof. intros. unfold mem_copy. rewrite (firstn_all2 src) by lia. reflexivity. Qed.

Lemma firstn_mem_copy {A} (dst : list A) off src :
  (off + length src <= length dst)%nat ->
  firstn (off + length src) (mem_copy dst off src) = firstn off dst ++ src.
Proof.
  intros. rewrite mem_copy_eq by lia. rewrite app_assoc, firstn_app.
  rewrite length_app, length_firstn, Nat.min_l by lia.
  rewrite Nat.sub_diag, firstn_O, app_nil_r.
  apply firstn_all2. rewrite length_app, length_firstn. lia.
Qed.

Lemma mem_set_end (buf : list Z) r : (r <= length buf)%nat ->
  mem_set buf r (length buf - r) 0 = firstn r buf ++ repeat 0 (length buf - r).
Proof.
  intros Hr. unfold mem_set. rewrite mem_copy_eq by lens.
  rewrite skipn_all2, app_nil_r by lens. reflexivity.
Qed.

Lemma firstn_set_r (buf : list Z) r v : (r < length buf)%nat ->
  firstn (S r) (set buf r v) = firstn r buf ++ [v].
Proof.
  revert r. induction buf as [|b buf IH]; intros [|r] Hr; simpl in *; try lia; [reflexivity|].
  f_equal. apply IH. lia.
Qed.

Lemma get_firstn l n i : (i < n)%nat -> get (firstn n l) i = get l i.
Proof.
  intros Hi. unfold get. rewrite nth_firstn. now rewrite (proj2 (Nat.ltb_lt i n)) by lia.
Qed.

Lemma get_app_l l1 l2 i : (i < length l1)%nat -> get (l1 ++ l2) i = get l1 i.
Proof. apply app_nth1. Qed.

(** A loop that fills the elements [0 .. n-1] in order. *)
Lemma fold_set_firstn (F : nat -> Z) n l : (n <= length l)%nat ->
  firstn n (fold_left (fun l i => set l i (F i)) (seq 0 n) l) = map F (seq 0 n).
Proof.
  intros Hn. assert (forall m, length (fold_left (fun l i => set l i (F i)) (seq 0 m) l) = length l) as Hlen.
  { induction m; [reflexivity|]. rewrite seq_S, fold_left_app. cbn [fold_left]. now rewrite length_set. }
  induction n; [reflexivity|]. rewrite seq_S, fold_left_app, map_app. cbn [fold_left Nat.add map].
  rewrite firstn_set_r by (rewrite Hlen; lia). now rewrite IHn by lia.
Qed.

Lemma fold_set_ext (F G : nat -> Z) js l : (forall i, In i js -> F i = G i) ->
  fold_left (fun l i => set l i (F i)) js l = fold_left (fun l i => set l i (G i)) js l.
Proof.
  revert l. induction js as [|j js IH]; intros l H; cbn [fold_left]; [reflexivity|].
  rewrite (H j) by now left. apply IH. intros. apply H. now right.
Qed.

Lemma length_fold_set (F : nat -> Z) (g : nat -> nat) js l :
  length (fold_left (fun l i => set l (g i) (F i)) js l) = length l.
Proof. revert l. induction js; intros; cbn [fold_left]; [reflexivity|]. now rewrite IHjs, length_set. Qed.

Lemma bytes_app l1 l2 : bytes (l1 ++ l2) <-> bytes l1 /\ bytes l2.
Proof. apply Forall_app. Qed.

Lemma bytes_firstn n l : bytes l -> bytes (firstn n l).
Proof. intros H. rewrite <- (firstn_skipn n l) in H. now apply bytes_app in H. Qed.

Lemma bytes_skipn n l : bytes l -> bytes (skipn n l).
Proof. intros H. rewrite <- (firstn_skipn n l) in H. now apply bytes_app in H. Qed.

Lemma bytes_repeat b n : is_byte b -> bytes (repeat b n).
Proof. intros Hb. induction n; simpl; constructor; auto. Qed.

Lemma bytes_mem_copy dst off src : bytes dst -> bytes src -> bytes (mem_copy dst off src).
Proof.
  intros. unfold mem_copy. rewrite !bytes_app.
  auto using bytes_firstn, bytes_skipn.
Qed.

Lemma length_le_split n x : length (le_split n x) = n.
Proof. revert x. induction n; simpl; auto. Qed.

Lemma bytes_le_split n x : bytes (le_split n x).
Proof.
  revert x. induction n; simpl; constructor; [|apply IHn].
  apply Z.mod_pos_bound; lia.
Qed.

Lemma le_combine_bound l : bytes l -> 0 <= le_combine l < 256 ^ Z.of_nat (length l).
Proof.
  induction 1 as [|b l Hb Hl IH]; simpl length; [simpl; lia|].
  rewrite Nat2Z.inj_succ, Z.pow_succ_r by lia. cbn [le_combine].
  unfold is_byte in Hb. lia.
Qed.

Lemma le_combine_split n x : le_combine (le_split n x) = x mod 256 ^ Z.of_nat n.
Proof.
  revert x. induction n; intros x; [now rewrite Z.mod_1_r|].
  cbn [le_split le_combine]. rewrite IHn, Nat2Z.inj_succ, Z.pow_succ_r by lia.
  rewrite Z.rem_mul_r by lia. lia.
Qed.

Lemma le_split_combine l : bytes l -> le_split (length l) (le_combine l) = l.
Proof.
  induction 1 as [|b l Hb Hl IH]; cbn [length le_split le_combine]; [reflexivity|].
  unfold is_byte in Hb. rewrite (Z.mul_comm 256), Z_mod_plus_full, Z.div_add by lia.
  rewrite (Z.mod_small b), (Z.div_small b), Z.add_0_l, IH by lia. reflexivity.
Qed.

Lemma le_combine_app l1 l2 :
  le_combine (l1 ++ l2) = le_combine l1 + 256 ^ Z.of_nat (length l1) * le_combine l2.
Proof.
  induction l1; cbn [app le_combine length]; [change (256 ^ Z.of_nat 0) with 1; lia|].
  rewrite IHl1, Nat2Z.inj_succ, Z.pow_succ_r by lia. lia.
Qed.

#[export] Hint Resolve bytes_firstn bytes_skipn bytes_mem_copy bytes_le_split : hc.
#[export] Hint Resolve bytes_repeat le_combine_bound : hc.
#[export] Hint Rewrite @length_set length_le_split : lens.

Lemma firstn_app_l {A} (l l' : list A) n : (n <= length l)%nat -> firstn n (l ++ l') = firstn n l.
Proof.
  intros Hn. rewrite firstn_app. replace (n - length l)%nat with 0%nat by lia.
  now rewrite firstn_O, app_nil_r.
Qed.

Lemma firstn_repeat_le {A} (x : A) n m : (m <= n)%nat -> firstn m (repeat x n) = repeat x m.
Proof.
  intros H. replace n with (m + (n - m))%nat by lia. rewrite repeat_app, firstn_app_l by (rewrite repeat_length; lia).
  apply firstn_all2. rewrite repeat_length. lia.
Qed.

Lemma skipn_exact {A} (p q : list A) n : n = length p -> skipn n (p ++ q) = q.
Proof. intros ->. now rewrite skipn_app, skipn_all, Nat.sub_diag. Qed.

Lemma le_split_add n m x : le_split (n + m) x = le_split n x ++ le_split m (x / 256 ^ Z.of_nat n).
Proof.
  revert x. induction n as [|n IH]; intros x; cbn [Nat.add le_split app].
  - change (256 ^ Z.of_nat 0) with 1. now rewrite Z.div_1_r.
  - f_equal. rewrite IH, Nat2Z.inj_succ, Z.pow_succ_r, Z.div_div by lia. reflexivity.
Qed.

Lemma le_split_mod n x : le_split n (x mod 256 ^ Z.of_nat n) = le_split n x.
Proof.
  rewrite <- le_combine_split. rewrite <- (length_le_split n x) at 1.
  apply le_split_combine, bytes_le_split.
Qed.

(** Concatenating the bytes of two words. *)
Lemma le_split_cat n m a b : 0 <= a < 256 ^ Z.of_nat n ->
  le_split n a ++ le_split m b = le_split (n + m) (a + 256 ^ Z.of_nat n * b).
Proof.
  intros Ha. rewrite le_split_add, <- (le_split_mod n (a + _)).
  rewrite (Z.mul_comm (256 ^ _)), Z_mod_plus_full, Z.div_add, Z.mod_small, Z.div_small by lia. reflexivity.
Qed.

(** Part of a little endian number. *)
Lemma le_combine_firstn n l : bytes l -> le_combine (firstn n l) = le_combine l mod 256 ^ Z.of_nat n.
Proof.
  intros Hb. rewrite <- (firstn_skipn n l) at 2. rewrite le_combine_app.
  pose proof (le_combine_bound (firstn n l) (bytes_firstn n l Hb)) as Hf.
  rewrite length_firstn in *. destruct (Nat.le_gt_cases n (length l)).
  - rewrite Nat.min_l in * by lia. rewrite (Z.mul_comm (256 ^ _)), Z_mod_plus_full. symmetry. now apply Z.mod_small.
  - rewrite Nat.min_r in * by lia. rewrite skipn_all2 by lia. cbn [le_combine]. rewrite Z.mul_0_r, Z.add_0_r.
    symmetry. apply Z.mod_small. split; [lia|]. apply Z.lt_le_trans with (256 ^ Z.of_nat (length l)); [lia|].
    apply Z.pow_le_mono_r; lia.
Qed.

Lemma le_combine_skipn n l : bytes l -> le_combine (skipn n l) = le_combine l / 256 ^ Z.of_nat n.
Proof.
  intros Hb. destruct (Nat.le_gt_cases n (length l)).
  - rewrite <- (firstn_skipn n l) at 2. rewrite le_combine_app, length_firstn, Nat.min_l by lia.
    pose proof (le_combine_bound (firstn n l) (bytes_firstn n l Hb)) as Hf.
    rewrite length_firstn, Nat.min_l in Hf by lia.
    rewrite (Z.mul_comm (256 ^ _)), Z.div_add, (Z.div_small (le_combine (firstn n l))) by lia. lia.
  - rewrite skipn_all2 by lia. symmetry. apply Z.div_small. pose proof (le_combine_bound l Hb).
    split; [lia|]. apply Z.lt_le_trans with (256 ^ Z.of_nat (length l)); [lia|]. apply Z.pow_le_mono_r; lia.
Qed.

Lemma firstn_set_ge (m : list Z) q v p : (p <= q)%nat -> firstn p (set m q v) = firstn p m.
Proof.
  revert q p. induction m as [|x m IH]; intros [|q] [|p] H; cbn; try lia; try reflexivity. f_equal. apply IH. lia.
Qed.

(** Four stores in a row splice four elements. *)
Lemma set4 (m : list Z) out c0 c1 c2 c3 : (out + 4 <= length m)%nat ->
  set (set (set (set m out c0) (out + 1) c1) (out + 2) c2) (out + 3) c3
  = firstn out m ++ [c0; c1; c2; c3] ++ skipn (out + 4) m.
Proof.
  revert out. induction m as [|x m IH]; intros [|out] H; [cbn in H; lia..| |].
  - destruct m as [|x1 [|x2 [|x3 m]]]; cbn in H; try lia. reflexivity.
  - cbn [Nat.add set firstn skipn app length] in *. f_equal. apply IH. lia.
Qed.

(** [xor] works limb by limb. *)
Lemma limb_lxor n a c : 0 <= n -> 0 <= a < 2 ^ n -> a + 2 ^ n * c = a ^^ (c << n).
Proof.
  intros Hn Ha. rewrite (Z.mul_comm (2 ^ n)), <- shiftl_mul by lia. apply Z.add_nocarry_lxor.
  apply Z.bits_inj'. intros i Hi. rewrite Z.land_spec, Z.bits_0, Z.shiftl_spec by lia.
  destruct (Z.ltb_spec i n); [rewrite (Z.testbit_neg_r c) by lia; apply andb_false_r|].
  now rewrite (testbit_high n a) by lia.
Qed.

Lemma lxor_limb n a b c d : 0 <= n -> 0 <= a < 2 ^ n -> 0 <= b < 2 ^ n ->
  (a + 2 ^ n * c) ^^ (b + 2 ^ n * d) = (a ^^ b) + 2 ^ n * (c ^^ d).
Proof.
  intros Hn Ha Hb. rewrite !limb_lxor by (try apply lxor_bound; lia). rewrite Z.shiftl_lxor.
  rewrite !Z.lxor_assoc. f_equal. rewrite <- !Z.lxor_assoc. f_equal. apply Z.lxor_comm.
Qed.

(** Bitwise equations: compare bit by bit and split on the operand bits. *)
Ltac bitwise :=
  apply Z.bits_inj'; intros ?i ?Hi;
  repeat (rewrite Z.lxor_spec || rewrite Z.land_spec || rewrite Z.lor_spec
          || rewrite Z.lnot_spec by assumption);
  repeat match goal with |- context [Z.testbit ?x ?i] => destruct (Z.testbit x i) end;
  reflexivity.
