(* ===== verification/Mem.v ===== *)
(** * Byte access and comparison ([src/hc/core/hc/mem.c])

    Loads and stores of little and big endian integers, the lexicographic
    comparison [mem_compare] and the constant time [mem_compareConstantTime].
    A pointer argument is the list of the bytes from it on; a store returns the
    buffer after the write at the given offset.  The hosts are little endian. *)
From Stdlib Require Import ZArith List Lia Bool.
From S2P Require Import Prelude.
Import ListNotations.

(** [hc_BSWAP16/32/64] on an [n]-byte value. *)
Definition bswap (n : nat) (x : Z) : Z := le_combine (rev (le_split n x)).

Fixpoint mem_compare (left right : list Z) (size : nat) : Z :=
  match size with
  | O => 0
  | S size' =>
      let diff := get left 0 - get right 0 in
      if negb (diff =? 0) then diff
      else mem_compare (skipn 1 left) (skipn 1 right) size'
  end.

(** The loop body runs for [i = 0 .. size - 1] with no early exit. *)
Definition mem_compareConstantTime (left right : list Z) (size : nat) : Z :=
  fold_left (fun x i => x .| (get left i ^^ get right i)) (seq 0 size) 0.

Definition mem_loadU16 (l : list Z) : Z := le_combine (firstn 2 l).
Definition mem_loadU32 (l : list Z) : Z := le_combine (firstn 4 l).
Definition mem_loadU64 (l : list Z) : Z := le_combine (firstn 8 l).
Definition mem_storeU16 (out : list Z) (off : nat) (x : Z) : list Z := mem_copy out off (le_split 2 x).
Definition mem_storeU32 (out : list Z) (off : nat) (x : Z) : list Z := mem_copy out off (le_split 4 x).
Definition mem_storeU64 (out : list Z) (off : nat) (x : Z) : list Z := mem_copy out off (le_split 8 x).

Definition mem_loadU16BE (l : list Z) : Z := bswap 2 (le_combine (firstn 2 l)).
Definition mem_loadU32BE (l : list Z) : Z := bswap 4 (le_combine (firstn 4 l)).
Definition mem_loadU64BE (l : list Z) : Z := bswap 8 (le_combine (firstn 8 l)).
Definition mem_storeU16BE (out : list Z) (off : nat) (x : Z) : list Z := mem_copy out off (le_split 2 (bswap 2 x)).
Definition mem_storeU32BE (out : list Z) (off : nat) (x : Z) : list Z := mem_copy out off (le_split 4 (bswap 4 x)).
Definition mem_storeU64BE (out : list Z) (off : nat) (x : Z) : list Z := mem_copy out off (le_split 8 (bswap 8 x)).

(** ** Specification side: big endian values *)

(** The integer whose big endian digits are the bytes of [l]. *)
Definition be_combine (l : list Z) : Z := fold_left (fun acc b => 256 * acc + b) l 0.

(** The [n] byte big endian representation of [x]. *)
Definition be_split (n : nat) (x : Z) : list Z := rev (le_split n x).

Lemma be_combine_rev l : be_combine (rev l) = le_combine l.
Proof.
  unfold be_combine. rewrite <- fold_left_rev_right, rev_involutive.
  induction l; cbn [fold_right le_combine]; [reflexivity|]. rewrite IHl. lia.
Qed.

Lemma le_combine_rev l : le_combine (rev l) = be_combine l.
Proof. now rewrite <- be_combine_rev, rev_involutive. Qed.

Lemma be_combine_bound l : bytes l -> 0 <= be_combine l < 256 ^ Z.of_nat (length l).
Proof.
  intros H. rewrite <- le_combine_rev, <- length_rev.
  apply le_combine_bound. now apply Forall_rev.
Qed.

Lemma length_be_split n x : length (be_split n x) = n.
Proof. unfold be_split. now rewrite length_rev, length_le_split. Qed.

Lemma bytes_be_split n x : bytes (be_split n x).
Proof. apply Forall_rev, bytes_le_split. Qed.

#[export] Hint Rewrite length_be_split : lens.
#[export] Hint Resolve bytes_be_split : hc.

Lemma le_split_bswap n x : le_split n (bswap n x) = be_split n x.
Proof.
  unfold bswap, be_split.
  rewrite <- (length_le_split n x) at 1. rewrite <- length_rev.
  apply le_split_combine, Forall_rev, bytes_le_split.
Qed.

Lemma bswap_load n l : bytes l -> (n <= length l)%nat ->
  bswap n (le_combine (firstn n l)) = be_combine (firstn n l).
Proof.
  intros Hl Hn. unfold bswap.
  assert (length (firstn n l) = n) as Hlen by (rewrite length_firstn; lia).
  rewrite <- Hlen at 1. rewrite le_split_combine by auto with hc.
  apply le_combine_rev.
Qed.

Lemma mem_loadU32BE_spec l : bytes l -> (4 <= length l)%nat ->
  mem_loadU32BE l = be_combine (firstn 4 l).
Proof. apply bswap_load. Qed.

Lemma mem_loadU64BE_spec l : bytes l -> (8 <= length l)%nat ->
  mem_loadU64BE l = be_combine (firstn 8 l).
Proof. apply bswap_load. Qed.

Lemma be_combine_split n x : be_combine (be_split n x) = x mod 256 ^ Z.of_nat n.
Proof. unfold be_split. rewrite be_combine_rev. apply le_combine_split. Qed.

(** Reading back a big endian store gives the value truncated to its width. *)
Lemma mem_loadU64BE_storeU64BE out off x :
  bytes out -> (off + 8 <= length out)%nat ->
  mem_loadU64BE (skipn off (mem_storeU64BE out off x)) = u64 x.
Proof.
  intros Hb Hoff. rewrite mem_loadU64BE_spec.
  - unfold mem_storeU64BE. rewrite le_split_bswap, mem_copy_eq by lens.
    rewrite skipn_app, skipn_all2 by lens.
    rewrite length_firstn, Nat.min_l, Nat.sub_diag by lia. cbn [app skipn].
    rewrite firstn_app, firstn_all2, length_be_split by lens.
    rewrite Nat.sub_diag, firstn_O, app_nil_r. apply be_combine_split.
  - unfold mem_storeU64BE. rewrite le_split_bswap. auto with hc.
  - unfold mem_storeU64BE. rewrite length_skipn, length_mem_copy; lens.
Qed.

(** ** Comparison *)

(** Lexicographic order of two byte strings of the same length. *)
Fixpoint lex (l r : list Z) : comparison :=
  match l, r with
  | a :: l', b :: r' => match a ?= b with Eq => lex l' r' | c => c end
  | _, _ => Eq
  end.

Lemma lex_refl l : lex l l = Eq.
Proof. induction l; simpl; [reflexivity|]. now rewrite Z.compare_refl. Qed.

(** The sign of [mem_compare] is the lexicographic order of the first [size] bytes. *)
Lemma mem_compare_lex size : forall left right,
  (size <= length left)%nat -> (size <= length right)%nat ->
  (mem_compare left right size ?= 0) = lex (firstn size left) (firstn size right).
Proof.
  induction size; intros [|a l] [|b r] Hl Hr; cbn [mem_compare firstn lex];
    try reflexivity; try (simpl in *; lia).
  change (get (a :: l) 0) with a. change (get (b :: r) 0) with b.
  destruct (Z.eqb_spec (a - b) 0).
  - replace b with a by lia. rewrite Z.compare_refl. cbn [negb skipn].
    apply IHsize; simpl in *; lia.
  - cbn [negb]. rewrite (Z.compare_sub a b).
    destruct (Z.compare_spec (a - b) 0); congruence || reflexivity.
Qed.

Lemma lex_eq l r : length l = length r -> lex l r = Eq -> l = r.
Proof.
  revert r. induction l; intros [|b r] Hlen H; simpl in *; try congruence.
  destruct (Z.compare_spec a b); try discriminate. subst. f_equal. auto.
Qed.

Lemma mem_compare_zero size left right :
  (size <= length left)%nat -> (size <= length right)%nat ->
  mem_compare left right size = 0 <-> firstn size left = firstn size right.
Proof.
  intros Hl Hr. pose proof (mem_compare_lex size left right Hl Hr) as H. split; intros E.
  - rewrite E in H. apply lex_eq; [lens|]. now symmetry.
  - rewrite E, lex_refl in H. now apply Z.compare_eq.
Qed.

(** The [or] accumulator is zero exactly when every accumulated byte is. *)
Lemma fold_lor_zero (f : nat -> Z) js acc :
  fold_left (fun x i => x .| f i) js acc = 0 <-> acc = 0 /\ Forall (fun i => f i = 0) js.
Proof.
  revert acc. induction js as [|i js IH]; intros acc; cbn [fold_left].
  - intuition.
  - rewrite IH, Z.lor_eq_0_iff, Forall_cons_iff. tauto.
Qed.

(** [mem_compareConstantTime] decides the same question as [mem_compare],
    and as equality of the two byte strings: all three agree on zero. *)
Theorem mem_compareConstantTime_correct size left right :
  (size <= length left)%nat -> (size <= length right)%nat ->
  (mem_compareConstantTime left right size = 0 <-> mem_compare left right size = 0) /\
  (mem_compareConstantTime left right size = 0 <-> firstn size left = firstn size right).
Proof.
  intros Hl Hr. rewrite mem_compare_zero by assumption.
  enough (mem_compareConstantTime left right size = 0 <-> firstn size left = firstn size right)
    as H by (rewrite H; tauto).
  unfold mem_compareConstantTime.
  rewrite (fold_lor_zero (fun i => get left i ^^ get right i)), Forall_forall. split.
  - intros [_ H]. apply (nth_ext _ _ 0 0); [lens|]. intros i Hi.
    rewrite length_firstn in Hi. rewrite !nth_firstn.
    destruct (i <? size)%nat eqn:E; [|reflexivity].
    apply Z.lxor_eq, H, in_seq. apply Nat.ltb_lt in E. lia.
  - intros H. split; [reflexivity|]. intros i Hi%in_seq.
    assert (nth i (firstn size left) 0 = nth i (firstn size right) 0) as E by now rewrite H.
    rewrite !nth_firstn in E. rewrite (proj2 (Nat.ltb_lt i size)) in E by lia.
    unfold get. rewrite E. apply Z.lxor_nilpotent.
Qed.

Lemma mem_compareConstantTime_correct_witness :
  mem_compareConstantTime [1; 2; 3] [1; 2; 4] 2 = 0 <-> firstn 2 [1; 2; 3] = firstn 2 [1; 2; 4].
Proof. apply (mem_compareConstantTime_correct 2 [1; 2; 3] [1; 2; 4]); simpl; lia. Defined.
