(* ===== verification/CompilerRt.v ===== *)
(** * The compiler runtime ([src/hc/core/hc/compilerRt])

    [memset] and [memmove] of [mem.c] over a flat memory (the list of its bytes,
    an address is an index), so that overlapping ranges are really shared, and
    the 64 by 64 to 128 bit product [mul128_64x64] of [mul128.c]. *)
From Stdlib Require Import ZArith List Lia Bool.
From S2P Require Import Prelude.
Import ListNotations.

(** ** memset *)

(** The [while (n >= 16)] loop: returns the memory and the remaining [n]. *)
Fixpoint memset_loop (fuel : nat) (m : list Z) (dest n : nat) (expanded : Z) : list Z * nat :=
  match fuel with
  | O => (m, n)
  | S fuel' =>
      if (16 <=? n)%nat then
        let n := (n - 16)%nat in
        let m := mem_copy m (dest + n) (le_split 8 expanded) in
        let m := mem_copy m (dest + n + 8) (le_split 8 expanded) in
        memset_loop fuel' m dest n expanded
      else (m, n)
  end.

Definition memset (m : list Z) (dest : nat) (c : Z) (n : nat) : list Z :=
  let expanded := u64 (0x0101010101010101 * (c & 0xFF)) in
  let '(m, n) := memset_loop n m dest n expanded in
  if (n =? 0)%nat then m
  else if (8 <=? n)%nat then
    let m := mem_copy m dest (firstn 8 (le_split 8 expanded)) in
    mem_copy m (dest + n - 8) (firstn 8 (le_split 8 expanded))
  else if (4 <=? n)%nat then
    let m := mem_copy m dest (firstn 4 (le_split 8 expanded)) in
    mem_copy m (dest + n - 4) (firstn 4 (le_split 8 expanded))
  else if (2 <=? n)%nat then
    let m := mem_copy m dest (firstn 2 (le_split 8 expanded)) in
    mem_copy m (dest + n - 2) (firstn 2 (le_split 8 expanded))
  else set m dest (u8 expanded).

(** ** memmove *)

(** [hc_MEMCPY(&temp, s, k)]: the [k] bytes at address [s]. *)
Definition read (m : list Z) (s k : nat) : list Z := firstn k (skipn s m).

(** [do { ... i += 16; } while (i < iEnd)], ascending. *)
Fixpoint memmove_up (fuel : nat) (m : list Z) (d s i iEnd : nat) : list Z :=
  match fuel with
  | O => m
  | S fuel' =>
      let temp := read m (s + i) 16 in
      let m := mem_copy m (d + i) temp in
      let i := (i + 16)%nat in
      if (i <? iEnd)%nat then memmove_up fuel' m d s i iEnd else m
  end.

(** [do { n -= 16; ... } while (n >= 16)], descending; returns the remaining [n]. *)
Fixpoint memmove_down (fuel : nat) (m : list Z) (d s n : nat) : list Z * nat :=
  match fuel with
  | O => (m, n)
  | S fuel' =>
      let n := (n - 16)%nat in
      let temp := read m (s + n) 16 in
      let m := mem_copy m (d + n) temp in
      if (16 <=? n)%nat then memmove_down fuel' m d s n else (m, n)
  end.

(** The two possibly overlapping [k]-byte moves of a tail of [n] bytes. *)
Definition memmove_tail (m : list Z) (d s n k : nat) : list Z :=
  let temp1 := read m s k in
  let temp2 := read m (s + n - k) k in
  let m := mem_copy m d temp1 in
  mem_copy m (d + n - k) temp2.

(** What is left after the 16 byte loops: fewer than 16 bytes. *)
Definition memmove_rest (m : list Z) (d s n : nat) : list Z :=
  if (n =? 0)%nat then m
  else if (8 <=? n)%nat then memmove_tail m d s n 8
  else if (4 <=? n)%nat then memmove_tail m d s n 4
  else if (2 <=? n)%nat then memmove_tail m d s n 2
  else set m d (get m s).

(** [iEnd] is [n & ~(size_t)15] and the rest [n & 15]. *)
Definition memmove (m : list Z) (dest src n : nat) : list Z :=
  let '(m, d, s, n) :=
    if (16 <=? n)%nat then
      if (dest <? src)%nat then
        let iEnd := (n - n mod 16)%nat in
        let m := memmove_up n m dest src 0 iEnd in
        (m, (dest + iEnd)%nat, (src + iEnd)%nat, (n mod 16)%nat)
      else
        let '(m, n) := memmove_down n m dest src n in
        (m, dest, src, n)
    else (m, dest, src, n) in
  memmove_rest m d s n.

(** ** mul128 *)

(** The two [uint64_t] halves of the result union, as the code updates them. *)
Definition mul128_64x64 (a b : Z) : Z :=
  let r0 := u64 ((a & 0xFFFFFFFF) * (b & 0xFFFFFFFF)) in
  let temp := r0 >> 32 in
  let r0 := r0 & 0xFFFFFFFF in
  let temp := u64 (temp + u64 ((a >> 32) * (b & 0xFFFFFFFF))) in
  let r0 := u64 (r0 + u64 ((temp & 0xFFFFFFFF) << 32)) in
  let r1 := temp >> 32 in
  let temp := r0 >> 32 in
  let r0 := r0 & 0xFFFFFFFF in
  let temp := u64 (temp + u64 ((b >> 32) * (a & 0xFFFFFFFF))) in
  let r0 := u64 (r0 + u64 ((temp & 0xFFFFFFFF) << 32)) in
  let r1 := u64 (r1 + (temp >> 32)) in
  let r1 := u64 (r1 + u64 ((a >> 32) * (b >> 32))) in
  r0 + 2 ^ 64 * r1.

(** ** Pointwise reading of copies *)

Lemma nth_mem_copy (m : list Z) d l j :
  (d + length l <= length m)%nat ->
  nth j (mem_copy m d l) 0 =
  if ((d <=? j) && (j <? d + length l))%nat then nth (j - d) l 0 else nth j m 0.
Proof.
  intros H. rewrite mem_copy_eq by lia.
  destruct (Nat.leb_spec d j), (Nat.ltb_spec j (d + length l)); cbn [andb].
  - rewrite app_nth2, app_nth1 by lens. f_equal. lens.
  - rewrite app_nth2, app_nth2, nth_skipn by lens. f_equal. lens.
  - rewrite app_nth1, nth_firstn by lens.
    now rewrite (proj2 (Nat.ltb_lt j d)) by lia.
  - lia.
Qed.

Lemma nth_read m s k j : (j < k)%nat -> nth j (read m s k) 0 = nth (s + j) m 0.
Proof.
  intros. unfold read. rewrite nth_firstn, nth_skipn.
  now rewrite (proj2 (Nat.ltb_lt j k)) by lia.
Qed.

Lemma length_read m s k : (s + k <= length m)%nat -> length (read m s k) = k.
Proof. intros. unfold read. lens. Qed.

(** [written m0 m d f lo hi]: [m] is [m0] with the values [f lo .. f (hi-1)] stored
    at the addresses [d + lo .. d + hi - 1]. *)
Definition written (m0 m : list Z) (d : nat) (f : nat -> Z) (lo hi : nat) : Prop :=
  length m = length m0 /\
  forall j, nth j m 0 =
    if ((d + lo <=? j) && (j <? d + hi))%nat then f (j - d)%nat else nth j m0 0.

(** The bytes of the source range, as they were in [m0], placed in the destination. *)
Abbreviation moved m0 m d s lo hi := (written m0 m d (fun i => nth (s + i) m0 0) lo hi).

Ltac bool_lia := repeat match goal with
  | |- context [(?a <=? ?b)%nat] => destruct (Nat.leb_spec a b)
  | |- context [(?a <? ?b)%nat] => destruct (Nat.ltb_spec a b)
  end; cbn [andb]; try lia.

Lemma written_refl m d f x : written m m d f x x.
Proof. split; [reflexivity|]. intros j. bool_lia; reflexivity. Qed.

Lemma written_write m0 m d f lo hi a l lo' hi' :
  written m0 m d f lo hi ->
  (d + a + length l <= length m0)%nat ->
  (forall i, (i < length l)%nat -> nth i l 0 = f (a + i)%nat) ->
  (lo <= hi)%nat -> (a <= hi)%nat -> (lo <= a + length l)%nat ->
  lo' = Nat.min lo a -> hi' = Nat.max hi (a + length l) ->
  written m0 (mem_copy m (d + a) l) d f lo' hi'.
Proof.
  intros [Hlen Hm] Hfit Hl ? ? ? -> ->. split; [rewrite length_mem_copy; lia|].
  intros j. rewrite nth_mem_copy by lia.
  bool_lia; try (rewrite Hm; bool_lia; reflexivity).
  rewrite Hl by lia. f_equal. lia.
Qed.

(** The whole range written is one copy of the written values. *)
Lemma written_all m0 m d f l :
  (d + length l <= length m0)%nat -> (forall i, (i < length l)%nat -> nth i l 0 = f i) ->
  written m0 m d f 0 (length l) -> m = mem_copy m0 d l.
Proof.
  intros Hd Hl [Hlen Hm]. apply (nth_ext _ _ 0 0); [rewrite length_mem_copy; lia|].
  intros j _. rewrite Hm, nth_mem_copy by lia. rewrite Nat.add_0_r.
  bool_lia; [|reflexivity..]. now rewrite Hl by lia.
Qed.

(** Reading source bytes that the move has not yet overwritten. *)
Lemma moved_read m0 m d s lo hi a k i :
  moved m0 m d s lo hi -> (i < k)%nat ->
  (s + a + i < d + lo)%nat \/ (d + hi <= s + a + i)%nat ->
  nth i (read m (s + a) k) 0 = nth (s + (a + i)) m0 0.
Proof.
  intros [Hlen Hm] Hi Hdis. rewrite nth_read, Hm by lia. bool_lia; f_equal; lia.
Qed.

Lemma set_mem_copy (m : list Z) i v : (i < length m)%nat -> set m i v = mem_copy m i [v].
Proof.
  intros Hi. apply (nth_ext _ _ 0 0); [rewrite length_set, length_mem_copy; simpl; lia|].
  intros j _. rewrite nth_mem_copy by (simpl; lia). cbn [length].
  destruct (Nat.eq_dec i j) as [<-|Hne].
  - change (nth i (set m i v) 0) with (get (set m i v) i).
    rewrite get_set_eq by exact Hi. bool_lia. now rewrite Nat.sub_diag.
  - change (nth j (set m i v) 0) with (get (set m i v) j).
    rewrite get_set_ne by exact Hne. bool_lia; reflexivity.
Qed.

Section Memmove.
Context (m0 : list Z) (d s n : nat).
Context (Hd : (d + n <= length m0)%nat) (Hs : (s + n <= length m0)%nat).

Lemma memmove_up_moved : (d < s)%nat -> forall fuel m i iEnd,
  (iEnd <= n)%nat -> (iEnd mod 16 = 0)%nat -> (i mod 16 = 0)%nat -> (i < iEnd)%nat ->
  (iEnd - i <= 16 * fuel)%nat ->
  moved m0 m d s 0 i -> moved m0 (memmove_up fuel m d s i iEnd) d s 0 iEnd.
Proof using Hd Hs.
  intros Hds fuel. induction fuel as [|fuel IH]; intros m i iEnd ? HiE Hi ? ? Hm; [lia|].
  cbn [memmove_up].
  assert (length m = length m0) as Hlen by apply Hm.
  assert (i + 16 <= iEnd)%nat as Hfit.
  { apply Nat.Div0.div_exact in HiE, Hi; lia. }
  assert (length (read m (s + i) 16) = 16%nat) as Hr by (apply length_read; lia).
  assert (moved m0 (mem_copy m (d + i) (read m (s + i) 16)) d s 0 (i + 16)) as Hm'.
  { eapply written_write; [exact Hm|lia|..]; try lia.
    intros k Hk. eapply moved_read; [exact Hm|lia|lia]. }
  destruct (Nat.ltb_spec (i + 16) iEnd).
  - apply IH; try assumption; try lia. rewrite <- (Nat.mul_1_l 16) at 1.
    now rewrite Nat.Div0.mod_add.
  - replace iEnd with (i + 16)%nat by lia. exact Hm'.
Qed.

Lemma memmove_down_moved : (s <= d)%nat -> forall fuel m r,
  (16 <= r <= n)%nat -> (r <= fuel)%nat -> moved m0 m d s r n ->
  exists r', snd (memmove_down fuel m d s r) = r' /\ (r' < 16)%nat /\
    moved m0 (fst (memmove_down fuel m d s r)) d s r' n.
Proof using Hd Hs.
  intros Hds fuel. induction fuel as [|fuel IH]; intros m r ? ? Hm; [lia|].
  cbn [memmove_down].
  assert (length m = length m0) as Hlen by apply Hm.
  assert (length (read m (s + (r - 16)) 16) = 16%nat) as Hr by (apply length_read; lia).
  assert (moved m0 (mem_copy m (d + (r - 16)) (read m (s + (r - 16)) 16)) d s (r - 16) n) as Hm'.
  { eapply written_write; [exact Hm|lia|..]; try lia.
    intros k Hk. eapply moved_read; [exact Hm|lia|lia]. }
  destruct (Nat.leb_spec 16 (r - 16)).
  - apply IH; try assumption; lia.
  - exists (r - 16)%nat. split; [reflexivity|]. split; [lia|exact Hm'].
Qed.

(** The tail covers the [r] bytes that start at offset [a]; [lo .. hi] were moved. *)
Lemma memmove_tail_moved m a r k lo hi lo' hi' :
  moved m0 m d s lo hi -> (k <= r <= 2 * k)%nat -> (a + r <= n)%nat ->
  (lo <= hi)%nat -> (a <= hi)%nat -> (lo <= a + r)%nat ->
  (hi = a /\ d < s \/ lo = a + r /\ s <= d)%nat ->
  lo' = Nat.min lo a -> hi' = Nat.max hi (a + r) ->
  moved m0 (memmove_tail m (d + a) (s + a) r k) d s lo' hi'.
Proof using Hd Hs.
  intros Hm ? ? ? ? ? Hdir -> ->. unfold memmove_tail.
  assert (length m = length m0) as Hlen by apply Hm.
  replace (s + a + r - k)%nat with (s + (a + r - k))%nat by lia.
  replace (d + a + r - k)%nat with (d + (a + r - k))%nat by lia.
  assert (length (read m (s + a) k) = k) as Hr1 by (apply length_read; lia).
  assert (length (read m (s + (a + r - k)) k) = k) as Hr2 by (apply length_read; lia).
  split; [rewrite !length_mem_copy; rewrite ?length_mem_copy; lia|].
  intros j. destruct Hm as [_ Hm].
  rewrite !nth_mem_copy by (rewrite ?length_mem_copy; lia). rewrite Hr1, Hr2.
  bool_lia; rewrite ?nth_read, ?Hm by lia; bool_lia; f_equal; lia.
Qed.

Lemma memmove_rest_moved m a r lo hi lo' hi' :
  moved m0 m d s lo hi -> (r < 16)%nat -> (a + r <= n)%nat ->
  (lo <= hi)%nat -> (a <= hi)%nat -> (lo <= a + r)%nat ->
  (hi = a /\ d < s \/ lo = a + r /\ s <= d)%nat ->
  lo' = Nat.min lo a -> hi' = Nat.max hi (a + r) ->
  moved m0 (memmove_rest m (d + a) (s + a) r) d s lo' hi'.
Proof using Hd Hs.
  intros Hm ? ? ? ? ? Hdir -> ->. unfold memmove_rest.
  destruct (Nat.eqb_spec r 0) as [->|]; [|destruct (Nat.leb_spec 8 r);
    [|destruct (Nat.leb_spec 4 r); [|destruct (Nat.leb_spec 2 r)]]];
    try (eapply memmove_tail_moved; try exact Hm; lia).
  - replace (Nat.min lo a) with lo by lia. replace (Nat.max hi (a + 0)) with hi by lia. exact Hm.
  - destruct Hm as [Hlen Hm]. rewrite set_mem_copy by lia.
    eapply written_write; [split; [exact Hlen|exact Hm]|..]; cbn [length]; try lia.
    intros [|i] Hi; [|lia]. cbn [nth]. unfold get. rewrite Hm. bool_lia; f_equal; lia.
Qed.
End Memmove.

(** ** memset *)

Lemma le_split_expanded c :
  le_split 8 (u64 (0x0101010101010101 * (c & 0xFF))) = repeat (c & 0xFF) 8.
Proof.
  assert (0 <= c & 0xFF < 256) as Hb by (apply (land_bound_r 8); lia).
  assert (bytes (repeat (c & 0xFF) 8)) as Hbs by now apply bytes_repeat.
  rewrite wrap_small by lia.
  rewrite <- (le_split_combine _ Hbs) at 1. f_equal. cbn [repeat le_combine]. lia.
Qed.

Lemma nth_repeat_in (b : Z) n i : (i < n)%nat -> nth i (repeat b n) 0 = b.
Proof. intros H. apply nth_repeat_lt. exact H. Qed.

Lemma firstn_expanded b e k :
  le_split 8 e = repeat b 8 -> (k <= 8)%nat -> firstn k (le_split 8 e) = repeat b k.
Proof.
  intros Hexp Hk. rewrite Hexp. apply (nth_ext _ _ 0 0); [lens|]. intros i Hi.
  rewrite length_firstn, repeat_length in Hi.
  rewrite nth_firstn, !nth_repeat_in by lia. now rewrite (proj2 (Nat.ltb_lt i k)) by lia.
Qed.

Section Memset.
Context (m0 : list Z) (dest n : nat) (b expanded : Z).
Context (Hfit : (dest + n <= length m0)%nat) (Hexp : le_split 8 expanded = repeat b 8).

Lemma memset_loop_written fuel : forall m r,
  (r <= n)%nat -> (r <= fuel)%nat -> written m0 m dest (fun _ => b) r n ->
  (snd (memset_loop fuel m dest r expanded) < 16)%nat /\
  (snd (memset_loop fuel m dest r expanded) <= n)%nat /\
  written m0 (fst (memset_loop fuel m dest r expanded)) dest (fun _ => b)
    (snd (memset_loop fuel m dest r expanded)) n.
Proof using Hfit Hexp.
  induction fuel as [|fuel IH]; intros m r ? ? Hm; cbn [memset_loop].
  - cbn [fst snd]. repeat split; try lia; apply Hm.
  - destruct (Nat.leb_spec 16 r); [|cbn [fst snd]; repeat split; try lia; apply Hm].
    apply IH; [lia..|]. rewrite Hexp, <- Nat.add_assoc.
    destruct Hm as [Hlen Hm]. split; [rewrite !length_mem_copy; rewrite ?length_mem_copy; lens|].
    intros j. rewrite !nth_mem_copy by (rewrite ?length_mem_copy; lens).
    rewrite repeat_length. bool_lia; rewrite ?nth_repeat_in, ?Hm by lia; bool_lia; reflexivity.
Qed.

Lemma memset_tail_written m r k :
  written m0 m dest (fun _ => b) r n -> (k <= r <= 2 * k)%nat -> (r <= n)%nat ->
  written m0 (mem_copy (mem_copy m dest (repeat b k)) (dest + r - k) (repeat b k))
    dest (fun _ => b) 0 n.
Proof using Hfit.
  intros [Hlen Hm] ? ?. split; [rewrite !length_mem_copy; rewrite ?length_mem_copy; lens|].
  intros j. rewrite !nth_mem_copy by (rewrite ?length_mem_copy; lens).
  rewrite repeat_length. bool_lia; rewrite ?nth_repeat_in, ?Hm by lia; bool_lia; reflexivity.
Qed.
End Memset.

(** [memset] stores the byte [c & 0xFF] at each of the [n] addresses from
    [dest] on, and changes no other byte. *)
Theorem memset_correct m dest c n :
  (dest + n <= length m)%nat -> memset m dest c n = mem_copy m dest (repeat (c & 0xFF) n).
Proof.
  intros Hfit. pose proof (le_split_expanded c) as Hexp.
  apply (written_all m _ dest (fun _ => c & 0xFF)); rewrite ?repeat_length; [lia|..].
  { intros. now apply nth_repeat_in. }
  unfold memset. set (e := u64 _) in *.
  destruct (memset_loop_written m dest n (c & 0xFF) e Hfit Hexp n m n
    ltac:(lia) ltac:(lia) (written_refl _ _ _ _)) as (H16 & Hle & Hw).
  destruct (memset_loop n m dest n e) as [m1 r]. cbn [fst snd] in *.
  destruct (Nat.eqb_spec r 0) as [->|]; [exact Hw|].
  destruct (Nat.leb_spec 8 r); [|destruct (Nat.leb_spec 4 r); [|destruct (Nat.leb_spec 2 r)]];
    try (rewrite !(firstn_expanded (c & 0xFF)) by (exact Hexp || lia);
         apply memset_tail_written; auto; lia).
  assert (r = 1%nat) as -> by lia. destruct Hw as [Hlen Hm].
  rewrite set_mem_copy by lia. rewrite <- (Nat.add_0_r dest) at 1.
  eapply written_write; [split; [exact Hlen|exact Hm]|..]; cbn [length]; try lia.
  intros [|i] Hi; [|lia]. cbn [nth]. change (u8 e) with (hd 0 (le_split 8 e)). now rewrite Hexp.
Qed.

Lemma memset_correct_witness :
  memset (repeat 7 30) 2 0x1FE 27 = mem_copy (repeat 7 30) 2 (repeat 0xFE 27).
Proof. apply (memset_correct (repeat 7 30) 2 0x1FE 27); vm_compute; lia. Defined.

Lemma memmove_spec m dest src n :
  (dest + n <= length m)%nat -> (src + n <= length m)%nat ->
  memmove m dest src n = mem_copy m dest (firstn n (skipn src m)).
Proof.
  intros Hd Hs. pose proof (length_read m src n Hs) as Hlen.
  apply (written_all m _ dest (fun i => nth (src + i) m 0)); fold (read m src n); rewrite ?Hlen; try lia.
  { intros i Hi. now apply nth_read. }
  unfold memmove.
  assert (n mod 16 < 16 /\ n = 16 * (n / 16) + n mod 16)%nat as [Hr Hn]
    by (split; [apply Nat.mod_upper_bound|apply Nat.div_mod_eq]; lia).
  destruct (Nat.leb_spec 16 n); [destruct (Nat.ltb_spec dest src)|].
  - assert (moved m (memmove_up n m dest src 0 (n - n mod 16)) dest src 0 (n - n mod 16)).
    { apply (memmove_up_moved _ _ _ n); try lia; [|reflexivity|apply written_refl].
      replace (n - n mod 16)%nat with (n / 16 * 16)%nat by lia. apply Nat.Div0.mod_mul. }
    eapply (memmove_rest_moved _ _ _ n); try eassumption; lia.
  - destruct (memmove_down_moved m dest src n Hd Hs ltac:(lia) n m n ltac:(lia) ltac:(lia)
      (written_refl _ _ _ _)) as (r & Hsnd & Hr16 & Hmv).
    destruct (memmove_down n m dest src n) as [m1 r1]. cbn [fst snd] in *. subst r1.
    rewrite <- (Nat.add_0_r dest), <- (Nat.add_0_r src) at 1.
    eapply (memmove_rest_moved _ _ _ n); try exact Hmv; lia.
  - rewrite <- (Nat.add_0_r dest), <- (Nat.add_0_r src) at 1.
    destruct (Nat.ltb_spec dest src).
    + eapply (memmove_rest_moved _ _ _ n); try apply (written_refl m dest _ 0); lia.
    + eapply (memmove_rest_moved _ _ _ n); try apply (written_refl m dest _ n); lia.
Qed.

(** [memmove] implements the byte copy of the C library, also when the two
    ranges overlap: afterwards the destination holds the bytes that the source
    range held before the call, and every other byte is unchanged. *)
Theorem memmove_correct m dest src n :
  (dest + n <= length m)%nat -> (src + n <= length m)%nat ->
  memmove m dest src n = mem_copy m dest (firstn n (skipn src m)).
Proof. apply memmove_spec. Qed.

Lemma memmove_correct_witness :
  memmove (map Z.of_nat (seq 0 40)) 3 1 37 = mem_copy (map Z.of_nat (seq 0 40)) 3 (map Z.of_nat (seq 1 37)).
Proof. apply (memmove_correct (map Z.of_nat (seq 0 40)) 3 1 37); vm_compute; lia. Defined.

Lemma mul_split m x y : m <> 0 ->
  x * y = m * m * (x / m * (y / m)) + m * (x / m * (y mod m)) + m * (y / m * (x mod m)) + x mod m * (y mod m).
Proof.
  intros Hm. rewrite (Z.div_mod x m Hm) at 1. rewrite (Z.div_mod y m Hm) at 1. ring.
Qed.

Lemma mul_bound a b A B : 0 <= a < A -> 0 <= b < B -> 0 <= a * b <= (A - 1) * (B - 1).
Proof. nia. Qed.

(** the multiplication used where the target has no 128 bit product:
    for 64 bit operands the two halves hold the exact product. *)
Theorem mul128_64x64_correct a b :
  0 <= a < 2 ^ 64 -> 0 <= b < 2 ^ 64 -> mul128_64x64 a b = a * b.
Proof.
  intros Ha Hb. unfold mul128_64x64.
  rewrite !(land_mask 32) by (reflexivity || lia).
  rewrite !shiftr_div, !shiftl_mul by lia.
  assert (0 <= a / 2 ^ 32 < 2 ^ 32) as Ha1 by (split; [apply Z.div_pos|apply Z.div_lt_upper_bound]; lia).
  assert (0 <= b / 2 ^ 32 < 2 ^ 32) as Hb1 by (split; [apply Z.div_pos|apply Z.div_lt_upper_bound]; lia).
  pose proof (Z.mod_pos_bound a (2 ^ 32) ltac:(lia)) as Ha0.
  pose proof (Z.mod_pos_bound b (2 ^ 32) ltac:(lia)) as Hb0.
  rewrite (mul_split (2 ^ 32) a b) by lia.
  pose proof (mul_bound _ _ _ _ Ha0 Hb0) as H00. pose proof (mul_bound _ _ _ _ Ha1 Hb0) as H10.
  pose proof (mul_bound _ _ _ _ Hb1 Ha0) as H01. pose proof (mul_bound _ _ _ _ Ha1 Hb1) as H11.
  generalize dependent (a mod 2 ^ 32 * (b mod 2 ^ 32)).
  generalize dependent (a / 2 ^ 32 * (b mod 2 ^ 32)).
  generalize dependent (b / 2 ^ 32 * (a mod 2 ^ 32)).
  generalize dependent (a / 2 ^ 32 * (b / 2 ^ 32)).
  intros p11 H11 p01 H01 p10 H10 p00 H00. clear - p11 H11 p01 H01 p10 H10 p00 H00.
  rewrite (wrap_small 64 p11), (wrap_small 64 p01), (wrap_small 64 p10), (wrap_small 64 p00) by lia.
  set (t := u64 (p00 / 2 ^ 32 + p10)).
  assert (t = p00 / 2 ^ 32 + p10) as Et
    by (apply wrap_small; Z.to_euclidean_division_equations; lia).
  clearbody t. unfold wrap. Z.to_euclidean_division_equations; lia.
Qed.

Lemma mul128_64x64_correct_witness :
  mul128_64x64 (2 ^ 64 - 1) (2 ^ 64 - 3) = (2 ^ 64 - 1) * (2 ^ 64 - 3).
Proof. apply (mul128_64x64_correct (2 ^ 64 - 1) (2 ^ 64 - 3)); lia. Defined.
