(* ===== verification/Stream.v ===== *)
(** * Block buffering shared by the hashes and Poly1305

    [sha1_update], [sha256_update], [sha512_update] and [poly1305_update] are the
    same code over different cores: they keep a partial block in [buffer], and
    feed whole blocks to the core.  [BlockSink] is the interface of a core,
    [update] the code against that interface; each hash file instantiates it.
    [chunk_inv] states what a stream holds after the message [msg], and
    [update_inv] that every update preserves it, however the message is cut. *)
From Stdlib Require Import ZArith List Lia Bool.
From S2P Require Import Prelude.
Import ListNotations.

(** A core consumes [n] blocks from the head of the input. *)
Class BlockSink (core : Type) := {
  block_size : nat;
  absorb : core -> list Z -> nat -> core }.

(** What [update] relies on; [core_ok] is the range invariant of the core's fields. *)
Class BlockSinkLaws (core : Type) `{BlockSink core} := {
  block_size_pos : (0 < block_size)%nat;
  core_ok : core -> Prop;
  core_ok_absorb : forall c l n, core_ok c -> core_ok (absorb c l n);
  absorb_0 : forall c l, core_ok c -> absorb c l 0 = c;
  absorb_add : forall c l n m,
    absorb c l (n + m) = absorb (absorb c l n) (skipn (n * block_size) l) m;
  absorb_prefix : forall c l l' n, (n * block_size <= length l)%nat ->
    absorb c (l ++ l') n = absorb c l n }.

(** The fields [buffer] and [bufferSize] of the C structs beside the core. *)
Record stream (core : Type) := Stream {
  st_core : core;
  buffer : list Z;
  bufferSize : nat }.
Arguments Stream {core}. Arguments st_core {core}.
Arguments buffer {core}. Arguments bufferSize {core}.

Section Update.
Context {core : Type} `{BlockSink core}.

(** After the partial block: whole blocks go to the core, the rest is buffered. *)
Definition update_rest (c : core) (buf inp : list Z) : stream core :=
  let size := length inp in
  let numBlocks := (size / block_size)%nat in
  let c := if (0 <? numBlocks)%nat then absorb c inp numBlocks else c in
  let bufferSize := (size mod block_size)%nat in
  let buf :=
    if (0 <? bufferSize)%nat
    then mem_copy buf 0 (firstn bufferSize (skipn (size - size mod block_size) inp))
    else buf in
  Stream c buf bufferSize.

Definition update (self : stream core) (inp : list Z) : stream core :=
  if (0 <? bufferSize self)%nat then
    let numToRead := Nat.min (block_size - bufferSize self) (length inp) in
    let buf := mem_copy (buffer self) (bufferSize self) (firstn numToRead inp) in
    let bufferSize := (bufferSize self + numToRead)%nat in
    if (bufferSize <? block_size)%nat then Stream (st_core self) buf bufferSize
    else update_rest (absorb (st_core self) buf 1) buf (skipn numToRead inp)
  else update_rest (st_core self) (buffer self) inp.

(** [chunk_inv c0 self msg]: the core started at [c0] has absorbed the whole
    blocks of [msg], and the buffer holds the rest. *)
Record chunk_inv (c0 : core) (self : stream core) (msg : list Z) : Prop := {
  ci_buffer : length (buffer self) = block_size;
  ci_size : bufferSize self = (length msg mod block_size)%nat;
  ci_core : st_core self = absorb c0 msg (length msg / block_size);
  ci_rest : firstn (bufferSize self) (buffer self)
            = skipn (length msg / block_size * block_size) msg }.

Context `{!BlockSinkLaws core}.

Lemma divmod_block n : (n = n / block_size * block_size + n mod block_size /\
  n mod block_size < block_size)%nat.
Proof using BlockSinkLaws0.
  pose proof block_size_pos. split; [|apply Nat.mod_upper_bound; lia].
  rewrite Nat.mul_comm. apply Nat.div_mod_eq.
Qed.

Lemma divmod_unique n q r : (n = q * block_size + r -> r < block_size ->
  n / block_size = q /\ n mod block_size = r)%nat.
Proof using BlockSinkLaws0.
  intros -> Hr. rewrite Nat.add_comm. pose proof block_size_pos.
  rewrite Nat.div_add, Nat.Div0.mod_add, Nat.div_small, Nat.mod_small by lia. lia.
Qed.

(** The unbuffered case, from a message that ends on a block boundary. *)
Lemma update_rest_inv c0 c buf msg inp q :
  core_ok c0 ->
  length buf = block_size -> length msg = (q * block_size)%nat -> c = absorb c0 msg q ->
  chunk_inv c0 (update_rest c buf inp) (msg ++ inp).
Proof using BlockSinkLaws0.
  intros Hc0 Hbuf Hmsg ->. destruct (divmod_block (length inp)) as [Hdm Hlt].
  destruct (divmod_unique (length (msg ++ inp)) (q + length inp / block_size)
    (length inp mod block_size)) as [Hd Hm]; [rewrite length_app; lia|lia|].
  unfold update_rest.
  set (n := (length inp / block_size)%nat) in *.
  set (r := (length inp mod block_size)%nat) in *.
  assert (r <= length inp)%nat by (apply Nat.Div0.mod_le).
  assert (length (firstn r (skipn (length inp - r) inp)) = r) as Hr by lens.
  constructor; cbn [buffer bufferSize st_core]; rewrite ?Hd, ?Hm.
  - destruct (Nat.ltb_spec 0 r); [rewrite length_mem_copy|]; lia.
  - reflexivity.
  - rewrite absorb_add, (absorb_prefix c0 msg inp q), skipn_app, skipn_all2 by lia.
    rewrite Hmsg, Nat.sub_diag. cbn [app skipn].
    destruct (Nat.ltb_spec 0 n); [reflexivity|].
    replace n with 0%nat by lia. symmetry. now apply absorb_0, core_ok_absorb.
  - rewrite skipn_app, (skipn_all2 msg) by lia. cbn [app].
    replace ((q + n) * block_size - length msg)%nat with (length inp - r)%nat by lia.
    destruct (Nat.ltb_spec 0 r).
    + rewrite <- Hr at 1. rewrite <- (Nat.add_0_l (length _)).
      rewrite firstn_mem_copy by lia. cbn [firstn app]. apply firstn_all2. lens.
    + replace r with 0%nat by lia. now rewrite Nat.sub_0_r, skipn_all.
Qed.

Theorem update_inv c0 self msg inp :
  core_ok c0 -> chunk_inv c0 self msg -> chunk_inv c0 (update self inp) (msg ++ inp).
Proof using BlockSinkLaws0.
  intros Hc0 [Hbuf Hsize Hcore Hrest]. destruct (divmod_block (length msg)) as [Hdm Hlt].
  set (q := (length msg / block_size)%nat) in *. unfold update.
  destruct (Nat.ltb_spec 0 (bufferSize self)) as [Hpos|Hzero].
  2:{ apply (update_rest_inv _ _ _ _ _ q); [assumption..|lia|assumption]. }
  set (k := Nat.min (block_size - bufferSize self) (length inp)).
  assert (length (firstn k inp) = k) as Hk by lens.
  assert (firstn (bufferSize self + k) (mem_copy (buffer self) (bufferSize self) (firstn k inp))
          = skipn (q * block_size) msg ++ firstn k inp) as Hbuf'.
  { rewrite <- Hk at 1. rewrite firstn_mem_copy by lia. now rewrite Hrest. }
  destruct (Nat.ltb_spec (bufferSize self + k) block_size).
  - assert (k = length inp) as -> by lia. rewrite firstn_all in *.
    destruct (divmod_unique (length (msg ++ inp)) q (bufferSize self + length inp)) as [Hd Hm];
      [rewrite length_app; lia|lia|].
    constructor; cbn [buffer bufferSize st_core]; rewrite ?Hd, ?Hm.
    + rewrite length_mem_copy; lia.
    + reflexivity.
    + rewrite absorb_prefix by lia. exact Hcore.
    + rewrite Hbuf', skipn_app. f_equal.
      replace (q * block_size - length msg)%nat with 0%nat by lia. reflexivity.
  - assert (bufferSize self + k = block_size)%nat as Hfull by lia.
    replace (msg ++ inp) with ((msg ++ firstn k inp) ++ skipn k inp)
      by (now rewrite <- app_assoc, firstn_skipn).
    apply (update_rest_inv _ _ _ _ _ (q + 1)); [assumption|rewrite length_mem_copy; lia|lens|].
    rewrite absorb_add, absorb_prefix, <- Hcore by lia. f_equal.
    rewrite skipn_app. replace (q * block_size - length msg)%nat with 0%nat by lia.
    cbn [skipn]. rewrite <- Hbuf', Hfull. symmetry. apply firstn_all2.
    rewrite length_mem_copy; lia.
Qed.

(** Any sequence of updates absorbs the concatenation of its inputs. *)
Theorem updates_inv c0 self msg chunks :
  core_ok c0 -> chunk_inv c0 self msg ->
  chunk_inv c0 (fold_left update chunks self) (msg ++ concat chunks).
Proof using BlockSinkLaws0.
  intros Hc0. revert self msg. induction chunks as [|inp chunks IH]; intros self msg Hinv; cbn [fold_left concat].
  - now rewrite app_nil_r.
  - rewrite app_assoc. now apply IH, update_inv.
Qed.

(** A freshly initialised stream has absorbed nothing. *)
Lemma init_inv c0 buf : core_ok c0 -> length buf = block_size -> chunk_inv c0 (Stream c0 buf 0) [].
Proof using BlockSinkLaws0.
  intros Hc0 Hbuf. pose proof block_size_pos.
  constructor; cbn [st_core buffer bufferSize length]; rewrite ?Nat.Div0.mod_0_l, ?Nat.Div0.div_0_l; auto.
  symmetry. now apply absorb_0.
Qed.
End Update.
