(* ===== verification/Sha.v ===== *)
(** * What the three SHA implementations share

    [struct sha1], [struct sha256] and [struct sha512] hold the same fields, and
    their [update] and [finish] functions are the same code with other constants.
    The section [MerkleDamgard] models that code once, over the block size, the
    offset of the length field, the compression of one block and the stores of
    the length; [Sha1.v], [Sha256.v] and [Sha512.v] instantiate it.

    The reference is the padding and iteration of FIPS 180-4 ([md_pad],
    [md_hash]); [md_finish_correct] shows that streaming the message through
    [update] in any pieces and finishing computes it. *)
From Stdlib Require Import ZArith List Lia Bool.
From S2P Require Import Prelude Mem Stream.
Import ListNotations.

(** The fields [state] and [blockCounter]; [buffer] and [bufferSize] are those of
    [Stream.stream]. *)
Record sha_core := ShaCore { state : list Z; blockCounter : Z }.

Section MerkleDamgard.
(** Block size, offset of the length field, one iteration of the [do] loop of
    [_sha*_blocks] (the state and the input pointer), and the stores of the
    message length ([blockCounter] and [bufferSize]) into the buffer. *)
Context (bs lenOff : nat) (block : list Z -> list Z -> list Z).
Context (store_len : list Z -> Z -> nat -> list Z).

(** [do { ...; in += BLOCK_SIZE; } while (--numBlocks)]; every call has [numBlocks > 0]. *)
Fixpoint md_blocks (numBlocks : nat) (st inp : list Z) : list Z :=
  match numBlocks with
  | O => st
  | S n => md_blocks n (block st inp) (skipn bs inp)
  end.

(** [_sha*_blocks(&self->state[0], in, numBlocks); self->blockCounter += numBlocks]. *)
Definition md_absorb (c : sha_core) (inp : list Z) (numBlocks : nat) : sha_core :=
  ShaCore (md_blocks numBlocks (state c) inp) (u64 (blockCounter c + Z.of_nat numBlocks)).

(** The final state words. *)
Definition md_finish (self : stream sha_core) : list Z :=
  let st := state (st_core self) in
  let r := bufferSize self in
  let buf := set (buffer self) r 0x80 in
  let r := S r in
  let '(st, buf, r) :=
    if (lenOff <? r)%nat then
      let buf := mem_set buf r (bs - r) 0 in
      (md_blocks 1 st buf, buf, 0%nat)
    else (st, buf, r) in
  let buf := mem_set buf r (lenOff - r) 0 in
  let buf := store_len buf (blockCounter (st_core self)) (bufferSize self) in
  md_blocks 1 st buf.

(** ** Reference: FIPS 180-4, sections 5.1 and 6 *)

Definition md_pad_zeros (len : nat) : nat :=
  Z.to_nat ((Z.of_nat lenOff - Z.of_nat len - 1) mod Z.of_nat bs).

Definition md_pad (msg : list Z) : list Z :=
  msg ++ [0x80] ++ repeat 0 (md_pad_zeros (length msg))
      ++ be_split (bs - lenOff) (8 * Z.of_nat (length msg)).

Definition md_hash (iv msg : list Z) : list Z :=
  md_blocks (length (md_pad msg) / bs) iv (md_pad msg).

(** ** The compression loop as a block sink *)

Lemma md_blocks_add st inp n m :
  md_blocks (n + m) st inp = md_blocks m (md_blocks n st inp) (skipn (n * bs) inp).
Proof using.
  revert st inp. induction n; intros; cbn [Nat.add md_blocks Nat.mul]; [reflexivity|].
  rewrite IHn, skipn_skipn. f_equal. f_equal. lia.
Qed.

Context (block_prefix : forall st l l', (bs <= length l)%nat -> block st (l ++ l') = block st l).

Lemma md_blocks_prefix st l l' n :
  (n * bs <= length l)%nat -> md_blocks n st (l ++ l') = md_blocks n st l.
Proof using block_prefix.
  revert st l. induction n; intros st l Hn; cbn [md_blocks]; [reflexivity|].
  rewrite block_prefix by lia. rewrite skipn_app.
  replace (bs - length l)%nat with 0%nat by lia. cbn [skipn].
  apply IHn. lens.
Qed.

Definition md_sink : BlockSink sha_core := {| block_size := bs; absorb := md_absorb |}.
Local Existing Instance md_sink.

Context (Hoff : (0 < lenOff < bs)%nat).

Lemma md_sink_laws : BlockSinkLaws sha_core.
Proof using block_prefix Hoff.
  refine {| core_ok := fun c => 0 <= blockCounter c < 2 ^ 64 |}; cbn [block_size absorb md_sink].
  - lia.
  - intros. apply wrap_bound. lia.
  - intros [st ctr] l Hc. unfold md_absorb. cbn [md_blocks state blockCounter] in *.
    now rewrite Z.add_0_r, wrap_small.
  - intros c l n m. unfold md_absorb. cbn [state blockCounter].
    rewrite md_blocks_add, wrap_add_l. f_equal. f_equal. lia.
  - intros. unfold md_absorb. now rewrite md_blocks_prefix.
Defined.

(** ** Finishing *)

(** The length stores write the bit count, big endian, when it fits. *)
Context (store_len_ok : forall buf ctr r, length buf = bs -> 0 <= ctr < 2 ^ 64 -> (r < bs)%nat ->
  8 * (ctr * Z.of_nat bs + Z.of_nat r) < 256 ^ Z.of_nat (bs - lenOff) ->
  store_len buf ctr r = firstn lenOff buf ++ be_split (bs - lenOff) (8 * (ctr * Z.of_nat bs + Z.of_nat r))).

Lemma md_pad_zeros_spec q r : (r < bs)%nat ->
  md_pad_zeros (q * bs + r) =
  (if (lenOff <? S r)%nat then (bs - S r) + lenOff else lenOff - S r)%nat.
Proof using Hoff.
  intros Hr. unfold md_pad_zeros. destruct (Nat.ltb_spec lenOff (S r)).
  - rewrite <- (Z.mod_unique _ (Z.of_nat bs) (- Z.of_nat q - 1)
      (Z.of_nat (bs - S r + lenOff))); lia.
  - rewrite <- (Z.mod_unique _ (Z.of_nat bs) (- Z.of_nat q) (Z.of_nat (lenOff - S r))); lia.
Qed.

Lemma md_blocks_tail st pre tail q n : length pre = (q * bs)%nat ->
  md_blocks (q + n) st (pre ++ tail) = md_blocks n (md_blocks q st pre) tail.
Proof using block_prefix.
  intros Hpre. rewrite md_blocks_add, md_blocks_prefix by (clear - Hpre; lia).
  rewrite skipn_app, <- Hpre, skipn_all, Nat.sub_diag. reflexivity.
Qed.

(** Zeroing up to the length field. *)
Lemma firstn_mem_set (buf : list Z) r : length buf = bs -> (r <= lenOff)%nat ->
  firstn lenOff (mem_set buf r (lenOff - r) 0) = firstn r buf ++ repeat 0 (lenOff - r).
Proof using Hoff.
  intros Hb Hr. unfold mem_set.
  replace lenOff with (r + length (repeat 0%Z (lenOff - r)))%nat at 1 by lens.
  apply firstn_mem_copy. lens.
Qed.

(** Streaming the message in and finishing computes the padded iteration. *)
Theorem md_finish_correct iv self msg :
  chunk_inv (ShaCore iv 0) self msg ->
  8 * Z.of_nat (length msg) < 256 ^ Z.of_nat (bs - lenOff) ->
  Z.of_nat (length msg) < 2 ^ 64 ->
  md_finish self = md_hash iv msg.
Proof using block_prefix Hoff store_len_ok.
  intros [Hbuf Hsize Hcore Hrest] Hbits Hlen. pose proof md_sink_laws.
  cbn [block_size absorb md_sink] in *.
  destruct (divmod_block (length msg)) as [Hdm Hlt]. cbn [block_size md_sink] in Hdm, Hlt.
  rewrite <- Hsize in Hdm, Hlt.
  set (q := (length msg / bs)%nat) in *. set (r := bufferSize self) in *.
  set (rest := skipn (q * bs) msg) in *.
  unfold md_finish. fold r. rewrite Hcore. unfold md_absorb. cbn [state blockCounter].
  rewrite Z.add_0_l, wrap_small by nia.
  set (st := md_blocks q iv msg).
  set (lenb := be_split (bs - lenOff) (8 * Z.of_nat (length msg))).
  assert (forall buf, length buf = bs -> store_len buf (Z.of_nat q) r = firstn lenOff buf ++ lenb) as Hstore.
  { intros buf Hb. unfold lenb. replace (Z.of_nat (length msg)) with (Z.of_nat q * Z.of_nat bs + Z.of_nat r) by lia.
    apply store_len_ok; nia. }
  assert (length rest = r) as Hrlen by (unfold rest; lens).
  assert (firstn (S r) (set (buffer self) r 0x80) = rest ++ [0x80]) as Hset
    by (rewrite firstn_set_r, Hrest; [reflexivity|lia]).
  assert (length (set (buffer self) r 0x80) = bs) as Hsl by lens.
  assert (md_pad msg = firstn (q * bs) msg ++ (rest ++ [0x80]) ++
    repeat 0 (md_pad_zeros (length msg)) ++ lenb) as Hpad.
  { unfold md_pad. rewrite <- (firstn_skipn (q * bs) msg) at 1. now rewrite <- !app_assoc. }
  assert (length lenb = (bs - lenOff)%nat) as Hlenb by (unfold lenb; lens).
  assert (length (firstn (q * bs) msg) = (q * bs)%nat) as Hpre by lens.
  assert (md_blocks q iv (firstn (q * bs) msg) = st) as Hst.
  { unfold st. rewrite <- (firstn_skipn (q * bs) msg) at 2. now rewrite md_blocks_prefix by lia. }
  unfold md_hash. rewrite Hpad, Hdm, md_pad_zeros_spec by lia.
  destruct (Nat.ltb_spec lenOff (S r)).
  - set (b1 := (rest ++ [0x80]) ++ repeat 0 (bs - S r)).
    assert (mem_set (set (buffer self) r 0x80) (S r) (bs - S r) 0 = b1) as ->
      by (unfold b1; rewrite <- Hset, <- Hsl; apply mem_set_end; lia).
    assert (length b1 = bs) as Hb1 by (unfold b1; lens).
    rewrite Hstore by (unfold mem_set; rewrite length_mem_copy; lens).
    rewrite firstn_mem_set by lia. cbn [firstn app]. rewrite Nat.sub_0_r.
    replace ((rest ++ [0x80]) ++ repeat 0 (bs - S r + lenOff) ++ lenb)
      with (b1 ++ (repeat 0 lenOff ++ lenb)) by (unfold b1; now rewrite repeat_app, <- !app_assoc).
    destruct (divmod_unique (length (firstn (q * bs) msg ++ b1 ++ repeat 0 lenOff ++ lenb)) (q + 2) 0)
      as [Hq _]; cbn [block_size md_sink] in *; [lens|lia|rewrite Hq].
    rewrite md_blocks_tail by assumption. change 2%nat with (1 + 1)%nat.
    rewrite md_blocks_tail, Hst by lia. reflexivity.
  - rewrite Hstore by (unfold mem_set; rewrite length_mem_copy; lens).
    rewrite firstn_mem_set, Hset by lia. rewrite <- app_assoc.
    destruct (divmod_unique (length (firstn (q * bs) msg ++ (rest ++ [0x80]) ++
      repeat 0 (lenOff - S r) ++ lenb)) (q + 1) 0) as [Hq _]; cbn [block_size md_sink] in *; [lens|lia|rewrite Hq].
    rewrite md_blocks_tail, Hst by assumption. now rewrite <- !app_assoc.
Qed.
End MerkleDamgard.

(** Two block functions that agree on whole blocks of bytes iterate alike. *)
Lemma md_blocks_ext bs block block' n : forall st inp,
  (forall st l, bytes l -> (bs <= length l)%nat -> block st l = block' st l) ->
  bytes inp -> (n * bs <= length inp)%nat ->
  md_blocks bs block n st inp = md_blocks bs block' n st inp.
Proof.
  induction n as [|n IH]; intros st inp Hext Hb Hlen; cbn [md_blocks]; [reflexivity|].
  rewrite Hext by (assumption || lia). apply IH; auto with hc. lens.
Qed.

Lemma bytes_md_pad bs lenOff msg : bytes msg -> bytes (md_pad bs lenOff msg).
Proof.
  intros Hm. unfold md_pad. rewrite !bytes_app. repeat split; auto with hc.
  - repeat constructor; lia.
  - apply bytes_repeat. unfold is_byte. lia.
Qed.

Lemma md_hash_ext bs lenOff block block' iv msg :
  (0 < bs)%nat ->
  (forall st l, bytes l -> (bs <= length l)%nat -> block st l = block' st l) ->
  bytes msg -> md_hash bs lenOff block iv msg = md_hash bs lenOff block' iv msg.
Proof.
  intros Hbs Hext Hm. apply md_blocks_ext; auto using bytes_md_pad.
  rewrite Nat.mul_comm. apply Nat.Div0.mul_div_le.
Qed.

(** The digest stores: [mem_storeU32BE(hash + (i << 2), state[i])] for each word. *)
Definition store_words (wb : nat) (words : list Z) : list Z :=
  flat_map (fun x => le_split wb (bswap wb x)) words.

(** The first [n] big endian words of a block. *)
Definition load_words (wb n : nat) (inp : list Z) : list Z :=
  map (fun i => be_combine (firstn wb (skipn (wb * i) inp))) (seq 0 n).

Lemma store_words_be wb words : store_words wb words = flat_map (be_split wb) words.
Proof.
  unfold store_words. induction words; cbn [flat_map]; [reflexivity|].
  now rewrite le_split_bswap, IHwords.
Qed.
