(* ===== verification/Sha2.v ===== *)
(** * The SHA-2 compression function

    [_sha256_blocks] and [_sha512_blocks] have the same body over 32 and 64 bit
    words.  Both keep the working variables in a sliding window of an array: at
    round [i] the variables [h g f e d c b a] are [r[i] .. r[i+7]], and no value
    is ever moved.  [sha2_block] models that body over the word size, the number
    of rounds, the constants and the four sigma functions; [Fips.block] is the
    compression function of FIPS 180-4 with its eight rotating variables, and
    [sha2_block_fips] proves the two equal. *)
From Stdlib Require Import ZArith List Lia Bool.
From S2P Require Import Prelude Mem Sha.
Import ListNotations.

(** [_sha256_CH], [_sha512_CH] and [_sha256_MAJ], [_sha512_MAJ]. *)
Definition sha2_CH (x y z : Z) : Z := z ^^ (x & (y ^^ z)).
Definition sha2_MAJ (x y z : Z) : Z := (x & (y ^^ z)) ^^ (y & z).

Section Sha2.
Context (wb rounds : nat) (K : list Z) (loadBE : list Z -> Z).
Context (SIGMA0_A SIGMA1_A SIGMA0_B SIGMA1_B : Z -> Z).
Abbreviation uw := (wrap (8 * Z.of_nat wb)).

(** Round [i] on the arrays [w] and [r]. *)
Definition sha2_round (wr : list Z * list Z) (i : nat) : list Z * list Z :=
  let '(w, r) := wr in
  let x := uw (get r i + get w i + get K i + SIGMA1_B (get r (i + 3))
               + sha2_CH (get r (i + 3)) (get r (i + 2)) (get r (i + 1))) in
  let r := set r (i + 4) (uw (get r (i + 4) + x)) in
  let r := set r (i + 8) (uw (x + SIGMA0_B (get r (i + 7))
               + sha2_MAJ (get r (i + 7)) (get r (i + 6)) (get r (i + 5)))) in
  let w :=
    if (i <? rounds - 16)%nat
    then set w (i + 16) (uw (get w i + get w (i + 9) + SIGMA1_A (get w (i + 14)) + SIGMA0_A (get w (i + 1))))
    else w in
  (w, r).

(** One iteration of the [do] loop.  The local arrays are zero here and
    uninitialised in C; every element is written before it is read. *)
Definition sha2_block (st inp : list Z) : list Z :=
  let r := fold_left (fun r i => set r (7 - i) (get st i)) (seq 0 8) (repeat 0 (rounds + 8)) in
  let w := fold_left (fun w i => set w i (loadBE (skipn (wb * i) inp))) (seq 0 16) (repeat 0 rounds) in
  let '(w, r) := fold_left sha2_round (seq 0 rounds) (w, r) in
  map (fun i => uw (get st i + get r (rounds + 7 - i))) (seq 0 8).
End Sha2.

(** ** Reference: FIPS 180-4, sections 4.1.2 and 6.2.2 *)
Module Fips.
Section Compression.
Context (wb rounds : nat) (K : list Z).
Context (sigma0 sigma1 Sigma0 Sigma1 : Z -> Z).
Abbreviation uw := (wrap (8 * Z.of_nat wb)).

Definition Ch (x y z : Z) : Z := (x & y) ^^ (Z.lnot x & z).
Definition Maj (x y z : Z) : Z := (x & y) ^^ (x & z) ^^ (y & z).

(** [W_t] from the schedule so far. *)
Definition schedule_word (W : list Z) (t : nat) : Z :=
  uw (sigma1 (get W (t - 2)) + get W (t - 7) + sigma0 (get W (t - 15)) + get W (t - 16)).

Definition schedule (M : list Z) : list Z :=
  fold_left (fun W t => W ++ [schedule_word W t]) (seq 16 (rounds - 16)) M.

Record vars := Vars { a : Z; b : Z; c : Z; d : Z; e : Z; f : Z; g : Z; h : Z }.

Definition step (W : list Z) (v : vars) (t : nat) : vars :=
  let T1 := uw (h v + Sigma1 (e v) + Ch (e v) (f v) (g v) + get K t + get W t) in
  let T2 := uw (Sigma0 (a v) + Maj (a v) (b v) (c v)) in
  Vars (uw (T1 + T2)) (a v) (b v) (c v) (uw (d v + T1)) (e v) (f v) (g v).

Definition block (H inp : list Z) : list Z :=
  let W := schedule (load_words wb 16 inp) in
  let v := fold_left (step W) (seq 0 rounds)
    (Vars (get H 0) (get H 1) (get H 2) (get H 3) (get H 4) (get H 5) (get H 6) (get H 7)) in
  [uw (get H 0 + a v); uw (get H 1 + b v); uw (get H 2 + c v); uw (get H 3 + d v);
   uw (get H 4 + e v); uw (get H 5 + f v); uw (get H 6 + g v); uw (get H 7 + h v)].
End Compression.

(** The constants: the first [8 * wb] bits of the fractional parts of square and
    cube roots of the first primes (sections 4.2.2, 4.2.3, 5.3). *)
Fixpoint root_bits (k : Z) (fuel : nat) (n x bit : Z) : Z :=
  match fuel with
  | O => x
  | S fuel' =>
      let y := x + bit in
      root_bits k fuel' n (if y ^ k <=? n then y else x) (bit / 2)
  end.

(** Integer [k]-th root of [n < 2^(k*b)]. *)
Definition iroot (k : Z) (bits : nat) (n : Z) : Z :=
  root_bits k bits n 0 (2 ^ (Z.of_nat bits - 1)).

Definition is_prime (n : nat) : bool :=
  (2 <=? n)%nat && forallb (fun k => negb (n mod k =? 0)%nat) (seq 2 (n - 2)).

Definition primes (below : nat) : list Z := map Z.of_nat (filter is_prime (seq 0 below)).

(** The first [wbits] bits of the fractional part of the [k]-th root of [p]. *)
Definition frac_root (k wbits p : Z) : Z :=
  wrap wbits (iroot k (Z.to_nat wbits + 8) (p * 2 ^ (k * wbits))).
End Fips.

(** ** Equivalence *)

Lemma sha2_CH_fips x y z : sha2_CH x y z = Fips.Ch x y z.
Proof. unfold sha2_CH, Fips.Ch. bitwise. Qed.

Lemma sha2_MAJ_fips x y z : sha2_MAJ x y z = Fips.Maj x y z.
Proof. unfold sha2_MAJ, Fips.Maj. bitwise. Qed.

Section Equivalence.
Context (wb rounds : nat) (K : list Z) (loadBE : list Z -> Z).
Context (SIGMA0_A SIGMA1_A SIGMA0_B SIGMA1_B : Z -> Z).
Context (Hrounds : (16 <= rounds)%nat).
Context (loadBE_spec : forall l, bytes l -> (wb <= length l)%nat -> loadBE l = be_combine (firstn wb l)).
Abbreviation round := (sha2_round wb rounds K SIGMA0_A SIGMA1_A SIGMA0_B SIGMA1_B).
Abbreviation sched M k :=
  (fold_left (fun W t => W ++ [Fips.schedule_word wb SIGMA0_A SIGMA1_A W t]) (seq 16 k) M).
Abbreviation step := (Fips.step wb K SIGMA0_B SIGMA1_B).

Lemma sched_S M k :
  sched M (S k) = sched M k ++ [Fips.schedule_word wb SIGMA0_A SIGMA1_A (sched M k) (16 + k)].
Proof. now rewrite seq_S, fold_left_app. Qed.

Lemma length_sched M k : length M = 16%nat -> length (sched M k) = (16 + k)%nat.
Proof.
  intros HM. induction k as [|k IH]; [simpl; lia|]. rewrite sched_S, length_app, IH. simpl. lia.
Qed.

(** Later words do not change earlier ones. *)
Lemma get_sched M k m t : length M = 16%nat -> (t < 16 + k)%nat -> (k <= m)%nat ->
  get (sched M m) t = get (sched M k) t.
Proof.
  intros HM Ht Hkm. induction m as [|m IH]; [now replace k with 0%nat by lia|].
  destruct (Nat.eq_dec k (S m)) as [->|]; [reflexivity|].
  rewrite sched_S, get_app_l; [apply IH; lia|]. rewrite length_sched; lia.
Qed.

(** The window of [r] at round [i] holds the working variables. *)
Definition window (r : list Z) (i : nat) (v : Fips.vars) : Prop :=
  get r i = Fips.h v /\ get r (i + 1) = Fips.g v /\ get r (i + 2) = Fips.f v /\
  get r (i + 3) = Fips.e v /\ get r (i + 4) = Fips.d v /\ get r (i + 5) = Fips.c v /\
  get r (i + 6) = Fips.b v /\ get r (i + 7) = Fips.a v.

Definition round_inv (M : list Z) (v0 : Fips.vars) (i : nat) (wr : list Z * list Z) : Prop :=
  let k := Nat.min i (rounds - 16) in
  length (fst wr) = rounds /\ length (snd wr) = (rounds + 8)%nat /\
  firstn (16 + k) (fst wr) = sched M k /\
  window (snd wr) i (fold_left (step (Fips.schedule wb rounds SIGMA0_A SIGMA1_A M)) (seq 0 i) v0).

Ltac get_set :=
  repeat ((rewrite get_set_eq by (rewrite ?length_set, ?repeat_length; lia)) || (rewrite get_set_ne by lia)).

Lemma round_step M v0 i wr : length M = 16%nat -> (i < rounds)%nat ->
  round_inv M v0 i wr -> round_inv M v0 (S i) (round wr i).
Proof using Hrounds.
  destruct wr as [w r]. unfold round_inv. cbn [fst snd]. intros HM Hi (Hw & Hr & Hpre & Hwin).
  rewrite seq_S, fold_left_app, Nat.add_0_l. cbn [fold_left].
  set (v := fold_left _ _ v0) in *. destruct Hwin as (H0 & H1 & H2 & H3 & H4 & H5 & H6 & H7).
  assert (forall t, (t < 16 + Nat.min i (rounds - 16))%nat ->
    get w t = get (sched M (Nat.min i (rounds - 16))) t) as Hget.
  { intros t Ht. rewrite <- Hpre. symmetry. now apply get_firstn. }
  assert (get w i = get (Fips.schedule wb rounds SIGMA0_A SIGMA1_A M) i) as Hwi.
  { rewrite Hget by lia. symmetry. apply get_sched; lia. }
  cbn [sha2_round]. set (x := wrap _ (get r i + _ + _ + _ + _)).
  assert (x = wrap (8 * Z.of_nat wb) (Fips.h v + SIGMA1_B (Fips.e v)
    + Fips.Ch (Fips.e v) (Fips.f v) (Fips.g v) + get K i
    + get (Fips.schedule wb rounds SIGMA0_A SIGMA1_A M) i)) as Hx.
  { unfold x. rewrite H0, H1, H2, H3, Hwi, sha2_CH_fips. f_equal. lia. }
  clearbody x. unfold window. cbn [fst snd Fips.step Fips.a Fips.b Fips.c Fips.d Fips.e Fips.f Fips.g Fips.h].
  rewrite <- Hx.
  repeat split; [destruct (i <? rounds - 16)%nat; lens|lens|..].
  - destruct (Nat.ltb_spec i (rounds - 16)).
    + rewrite !Nat.min_l in * by lia. replace (16 + S i)%nat with (S (i + 16)) by lia.
      rewrite firstn_set_r by lia. rewrite sched_S. rewrite (Nat.add_comm i 16), Hpre.
      f_equal. f_equal. rewrite !Hget by lia.
      generalize (sched M i). intros W. unfold Fips.schedule_word.
      replace (16 + i - 2)%nat with (i + 14)%nat by lia. replace (16 + i - 7)%nat with (i + 9)%nat by lia.
      replace (16 + i - 15)%nat with (i + 1)%nat by lia. replace (16 + i - 16)%nat with i by lia.
      f_equal. lia.
    + rewrite !Nat.min_r in * by lia. exact Hpre.
  - get_set. now replace (S i) with (i + 1)%nat by lia.
  - get_set. now replace (S i + 1)%nat with (i + 2)%nat by lia.
  - get_set. now replace (S i + 2)%nat with (i + 3)%nat by lia.
  - replace (S i + 3)%nat with (i + 4)%nat by lia. get_set. now rewrite H4.
  - get_set. now replace (S i + 4)%nat with (i + 5)%nat by lia.
  - get_set. now replace (S i + 5)%nat with (i + 6)%nat by lia.
  - get_set. now replace (S i + 6)%nat with (i + 7)%nat by lia.
  - replace (S i + 7)%nat with (i + 8)%nat by lia. get_set.
    rewrite H5, H6, H7, sha2_MAJ_fips, wrap_add_r. f_equal. lia.
Qed.

Lemma rounds_inv M v0 wr n : length M = 16%nat -> (n <= rounds)%nat ->
  round_inv M v0 0 wr -> round_inv M v0 n (fold_left round (seq 0 n) wr).
Proof using Hrounds.
  intros HM Hn H0. induction n as [|n IH]; [exact H0|].
  rewrite seq_S, fold_left_app. cbn [Nat.add fold_left]. apply round_step; [assumption|lia|].
  apply IH. lia.
Qed.

Theorem sha2_block_fips st inp : bytes inp -> (16 * wb <= length inp)%nat ->
  sha2_block wb rounds K loadBE SIGMA0_A SIGMA1_A SIGMA0_B SIGMA1_B st inp
  = Fips.block wb rounds K SIGMA0_A SIGMA1_A SIGMA0_B SIGMA1_B st inp.
Proof using Hrounds loadBE_spec.
  intros Hb Hlen. unfold sha2_block, Fips.block.
  set (M := load_words wb 16 inp). set (v0 := Fips.Vars _ _ _ _ _ _ _ _).
  set (r0 := fold_left _ _ (repeat 0 (rounds + 8))). set (w0 := fold_left _ _ (repeat 0 rounds)).
  assert (round_inv M v0 0 (w0, r0)) as Hinv.
  { unfold round_inv. cbn [fst snd Nat.min Nat.add fold_left seq].
    assert (length r0 = (rounds + 8)%nat) as Hr0 by (unfold r0; rewrite length_fold_set; lens).
    assert (length w0 = rounds) as Hw0 by (unfold w0; rewrite (length_fold_set _ (fun i => i)); lens).
    assert (firstn 16 w0 = M) as HM.
    { unfold w0. rewrite fold_set_firstn by lens. apply map_ext_in. intros i Hi%in_seq.
      apply loadBE_spec; [auto with hc|]. rewrite length_skipn. nia. }
    unfold window. repeat split; try assumption;
      unfold r0; cbn [seq fold_left Nat.sub Nat.add]; get_set; reflexivity. }
  apply (rounds_inv _ _ _ rounds) in Hinv; [|reflexivity|lia].
  destruct (fold_left round (seq 0 rounds) (w0, r0)) as [w r].
  destruct Hinv as (_ & _ & _ & H0 & H1 & H2 & H3 & H4 & H5 & H6 & H7). cbn [fst snd] in *.
  cbn [seq map].
  replace (rounds + 7 - 0)%nat with (rounds + 7)%nat by lia.
  replace (rounds + 7 - 1)%nat with (rounds + 6)%nat by lia.
  replace (rounds + 7 - 2)%nat with (rounds + 5)%nat by lia.
  replace (rounds + 7 - 3)%nat with (rounds + 4)%nat by lia.
  replace (rounds + 7 - 4)%nat with (rounds + 3)%nat by lia.
  replace (rounds + 7 - 5)%nat with (rounds + 2)%nat by lia.
  replace (rounds + 7 - 6)%nat with (rounds + 1)%nat by lia.
  replace (rounds + 7 - 7)%nat with rounds by lia.
  now rewrite H0, H1, H2, H3, H4, H5, H6, H7.
Qed.

Lemma sha2_block_prefix st l l' : (forall l l', (wb <= length l)%nat -> loadBE (l ++ l') = loadBE l) ->
  (16 * wb <= length l)%nat ->
  sha2_block wb rounds K loadBE SIGMA0_A SIGMA1_A SIGMA0_B SIGMA1_B st (l ++ l')
  = sha2_block wb rounds K loadBE SIGMA0_A SIGMA1_A SIGMA0_B SIGMA1_B st l.
Proof using.
  intros Hload Hlen. unfold sha2_block.
  rewrite (fold_set_ext _ (fun i => loadBE (skipn (wb * i) l))); [reflexivity|].
  intros i Hi%in_seq. rewrite skipn_app.
  replace (wb * i - length l)%nat with 0%nat by (clear - Hi Hlen; nia). cbn [skipn].
  apply Hload. rewrite length_skipn. clear - Hi Hlen. nia.
Qed.
End Equivalence.
