(* ===== verification/Sha256.v ===== *)
(** * SHA-256 ([src/hc/core/hc/crypto/sha256.c])

    The functions of [sha256.c] over the shared models of [Stream.v], [Sha.v] and
    [Sha2.v], the FIPS 180-4 reference with its constants recomputed from the
    roots of primes, and the correctness theorem. *)
From Stdlib Require Import ZArith List Lia Bool.
From S2P Require Import Prelude Mem Stream Sha Sha2.
Import ListNotations.

Definition sha256_SIGMA0_A (x : Z) : Z := rotr 32 x 7 ^^ rotr 32 x 18 ^^ (x >> 3).
Definition sha256_SIGMA1_A (x : Z) : Z := rotr 32 x 17 ^^ rotr 32 x 19 ^^ (x >> 10).
Definition sha256_SIGMA0_B (x : Z) : Z := rotr 32 x 2 ^^ rotr 32 x 13 ^^ rotr 32 x 22.
Definition sha256_SIGMA1_B (x : Z) : Z := rotr 32 x 6 ^^ rotr 32 x 11 ^^ rotr 32 x 25.

Definition sha256_round : list Z :=
  [0x428A2F98; 0x71374491; 0xB5C0FBCF; 0xE9B5DBA5; 0x3956C25B; 0x59F111F1; 0x923F82A4; 0xAB1C5ED5;
   0xD807AA98; 0x12835B01; 0x243185BE; 0x550C7DC3; 0x72BE5D74; 0x80DEB1FE; 0x9BDC06A7; 0xC19BF174;
   0xE49B69C1; 0xEFBE4786; 0x0FC19DC6; 0x240CA1CC; 0x2DE92C6F; 0x4A7484AA; 0x5CB0A9DC; 0x76F988DA;
   0x983E5152; 0xA831C66D; 0xB00327C8; 0xBF597FC7; 0xC6E00BF3; 0xD5A79147; 0x06CA6351; 0x14292967;
   0x27B70A85; 0x2E1B2138; 0x4D2C6DFC; 0x53380D13; 0x650A7354; 0x766A0ABB; 0x81C2C92E; 0x92722C85;
   0xA2BFE8A1; 0xA81A664B; 0xC24B8B70; 0xC76C51A3; 0xD192E819; 0xD6990624; 0xF40E3585; 0x106AA070;
   0x19A4C116; 0x1E376C08; 0x2748774C; 0x34B0BCB5; 0x391C0CB3; 0x4ED8AA4A; 0x5B9CCA4F; 0x682E6FF3;
   0x748F82EE; 0x78A5636F; 0x84C87814; 0x8CC70208; 0x90BEFFFA; 0xA4506CEB; 0xBEF9A3F7; 0xC67178F2].

(** One iteration of the [do] loop of [_sha256_blocks], and the loop. *)
Definition sha256_block (st inp : list Z) : list Z :=
  sha2_block 4 64 sha256_round mem_loadU32BE
    sha256_SIGMA0_A sha256_SIGMA1_A sha256_SIGMA0_B sha256_SIGMA1_B st inp.

Definition sha256_blocks (st inp : list Z) (numBlocks : nat) : list Z :=
  md_blocks 64 sha256_block numBlocks st inp.

(** [struct sha256]: [state] and [blockCounter] are the core, [buffer] and
    [bufferSize] those of the stream. *)
Abbreviation sha256 := (stream sha_core).

#[local] Instance sha256_sink : BlockSink sha_core := md_sink 64 sha256_block.

Definition sha256_iv : list Z :=
  [0x6A09E667; 0xBB67AE85; 0x3C6EF372; 0xA54FF53A; 0x510E527F; 0x9B05688C; 0x1F83D9AB; 0x5BE0CD19].

Definition sha256_init (self : sha256) : sha256 :=
  Stream (ShaCore sha256_iv 0) (buffer self) 0.

Definition sha256_update (self : sha256) (inp : list Z) : sha256 := update self inp.

(** [mem_storeU64BE(&self->buffer[56], numBits)]. *)
Definition sha256_store_len (buf : list Z) (blockCounter : Z) (bufferSize : nat) : list Z :=
  let numBits := u64 (u64 (u64 (blockCounter << 6) + Z.of_nat bufferSize) << 3) in
  mem_storeU64BE buf 56 numBits.

Definition sha256_finish (self : sha256) : list Z :=
  store_words 4 (md_finish 64 56 sha256_block sha256_store_len self).

(** ** Reference: SHA-256 of FIPS 180-4 *)

Definition fips_K256 : list Z := map (Fips.frac_root 3 32) (firstn 64 (Fips.primes 312)).
Definition fips_H256 : list Z := map (Fips.frac_root 2 32) (firstn 8 (Fips.primes 312)).

Definition fips_block256 : list Z -> list Z -> list Z :=
  Fips.block 4 64 fips_K256 sha256_SIGMA0_A sha256_SIGMA1_A sha256_SIGMA0_B sha256_SIGMA1_B.

Definition fips_sha256 (msg : list Z) : list Z :=
  flat_map (be_split 4) (md_hash 64 56 fips_block256 fips_H256 msg).

(** ** Correctness *)

Lemma sha256_round_fips : sha256_round = fips_K256.
Proof. vm_compute. reflexivity. Qed.

Lemma sha256_iv_fips : sha256_iv = fips_H256.
Proof. vm_compute. reflexivity. Qed.

Lemma sha256_block_fips st inp : bytes inp -> (64 <= length inp)%nat ->
  sha256_block st inp = fips_block256 st inp.
Proof.
  intros Hb Hl. unfold sha256_block, fips_block256. rewrite <- sha256_round_fips.
  apply sha2_block_fips; [lia|apply mem_loadU32BE_spec|assumption|lia].
Qed.

Lemma sha256_block_prefix st l l' : (64 <= length l)%nat ->
  sha256_block st (l ++ l') = sha256_block st l.
Proof.
  intros Hl. apply sha2_block_prefix; [|lia]. intros. unfold mem_loadU32BE.
  now rewrite firstn_app_l by lia.
Qed.

#[local] Instance sha256_laws : BlockSinkLaws sha_core := md_sink_laws 64 56 _ sha256_block_prefix ltac:(lia).

Lemma sha256_store_len_ok buf ctr r : length buf = 64%nat -> 0 <= ctr < 2 ^ 64 -> (r < 64)%nat ->
  8 * (ctr * Z.of_nat 64 + Z.of_nat r) < 256 ^ Z.of_nat (64 - 56) ->
  sha256_store_len buf ctr r = firstn 56 buf ++ be_split (64 - 56) (8 * (ctr * Z.of_nat 64 + Z.of_nat r)).
Proof.
  intros Hb Hc Hr Hlt. change (256 ^ Z.of_nat (64 - 56)) with (2 ^ 64) in Hlt.
  unfold sha256_store_len, mem_storeU64BE. rewrite le_split_bswap, !shiftl_mul by lia.
  rewrite (wrap_small 64 (ctr * _)), (wrap_small 64 (_ + _)), wrap_small by lia.
  rewrite mem_copy_eq by lens.
  rewrite skipn_all2, app_nil_r by lens. do 2 f_equal. lia.
Qed.

Lemma sha256_spec self chunks :
  length (buffer self) = 64%nat -> bytes (concat chunks) ->
  Z.of_nat (length (concat chunks)) < 2 ^ 61 ->
  sha256_finish (fold_left sha256_update chunks (sha256_init self)) = fips_sha256 (concat chunks).
Proof.
  intros Hbuf Hb Hlen. unfold sha256_finish, fips_sha256. rewrite store_words_be. f_equal.
  rewrite <- sha256_iv_fips, <- (md_hash_ext _ _ sha256_block);
    [|lia|exact sha256_block_fips|assumption].
  apply (md_finish_correct 64 56 _ _ sha256_block_prefix ltac:(lia) sha256_store_len_ok).
  - apply (updates_inv _ _ []); [cbn; lia|]. apply init_inv; [cbn; lia|assumption].
  - change (256 ^ Z.of_nat (64 - 56)) with (2 ^ 64). lia.
  - lia.
Qed.

(** C16: SHA-256 as streamed by [sha256_init], any sequence of [sha256_update]
    calls and [sha256_finish] is the SHA-256 of FIPS 180-4 of the concatenated
    input, for every message shorter than 2^61 bytes and whatever the buffer
    held before. *)
Theorem sha256_correct self chunks :
  length (buffer self) = 64%nat -> bytes (concat chunks) ->
  Z.of_nat (length (concat chunks)) < 2 ^ 61 ->
  sha256_finish (fold_left sha256_update chunks (sha256_init self)) = fips_sha256 (concat chunks).
Proof. exact (sha256_spec self chunks). Qed.

(** "abc", in two pieces. *)
Lemma sha256_correct_witness :
  sha256_finish (fold_left sha256_update [[97]; [98; 99]]
    (sha256_init (Stream (ShaCore [] 0) (repeat 0 64) 0)))
  = [0xBA; 0x78; 0x16; 0xBF; 0x8F; 0x01; 0xCF; 0xEA; 0x41; 0x41; 0x40; 0xDE; 0x5D; 0xAE; 0x22; 0x23;
     0xB0; 0x03; 0x61; 0xA3; 0x96; 0x17; 0x7A; 0x9C; 0xB4; 0x10; 0xFF; 0x61; 0xF2; 0x00; 0x15; 0xAD].
Proof.
  rewrite (sha256_correct (Stream (ShaCore [] 0) (repeat 0 64) 0) [[97]; [98; 99]]);
    [vm_compute; reflexivity|reflexivity|repeat constructor; lia|vm_compute; reflexivity].
Defined.

(** ** A hash in progress *)

(** [h] has been initialised and has absorbed [msg]. *)
Definition hashed (h : sha256) (msg : list Z) : Prop :=
  exists self chunks, length (buffer self) = 64%nat /\ h = fold_left sha256_update chunks (sha256_init self) /\ msg = concat chunks.

Lemma hashed_init self : length (buffer self) = 64%nat -> hashed (sha256_init self) [].
Proof. intros H. exists self, []. auto. Qed.

Lemma hashed_update h msg inp : hashed h msg -> hashed (sha256_update h inp) (msg ++ inp).
Proof.
  intros (self & chunks & Hl & -> & ->). exists self, (chunks ++ [inp]). split; [exact Hl|]. rewrite fold_left_app, concat_app. cbn [concat]. now rewrite app_nil_r.
Qed.

Lemma hashed_finish h msg : hashed h msg -> bytes msg -> Z.of_nat (length msg) < 2 ^ 61 -> sha256_finish h = fips_sha256 msg.
Proof. intros (self & chunks & Hl & -> & ->) Hb Hs. now apply sha256_spec. Qed.

Lemma sha256_update_buffer h inp : length (buffer h) = 64%nat -> (bufferSize h < 64)%nat -> length (buffer (sha256_update h inp)) = 64%nat /\ (bufferSize (sha256_update h inp) < 64)%nat.
Proof.
  intros Hl Hs. unfold sha256_update, update, update_rest, block_size, sha256_sink, md_sink.
  assert (forall n, n mod 64 < 64)%nat as Hm by (intros; apply Nat.mod_upper_bound; lia).
  assert (forall b n (l : list Z), length b = 64%nat -> (n < 64)%nat -> length (mem_copy b 0 (firstn n l)) = 64%nat) as Hc by (intros b n l Hb Hn; rewrite length_mem_copy; rewrite ?length_firstn; lia).
  assert (length (mem_copy (buffer h) (bufferSize h) (firstn (Nat.min (64 - bufferSize h) (length inp)) inp)) = 64%nat) as He by (rewrite length_mem_copy; rewrite ?length_firstn; lia).
  destruct (Nat.ltb_spec 0 (bufferSize h)); [destruct (Nat.ltb_spec (bufferSize h + Nat.min (64 - bufferSize h) (length inp)) 64)|];
    cbn [buffer bufferSize]; split; try exact He; try apply Hm; try assumption; destruct (0 <? _)%nat; try assumption; apply Hc; try assumption; apply Hm.
Qed.

Lemma hashed_buffer h msg : hashed h msg -> length (buffer h) = 64%nat.
Proof.
  intros (self & chunks & Hl & -> & _). assert (length (buffer (sha256_init self)) = 64%nat /\ (bufferSize (sha256_init self) < 64)%nat) as H by (split; [exact Hl|cbn; lia]).
  revert H. generalize (sha256_init self). clear. induction chunks as [|c chunks IH]; intros h [H1 H2]; [exact H1|]. cbn [fold_left]. apply IH. now apply sha256_update_buffer.
Qed.

Lemma length_sha256 h : length (sha256_finish h) = 32%nat.
Proof. unfold sha256_finish, store_words, md_finish. destruct (if (56 <? _)%nat then _ else _) as [[st buf] r]. reflexivity. Qed.

Lemma bytes_sha256 h : bytes (sha256_finish h).
Proof. unfold sha256_finish, store_words. apply Forall_flat_map, Forall_forall. intros x _. apply bytes_le_split. Qed.
