(* ===== verification/Sha512.v ===== *)
(** * SHA-512 ([src/hc/core/hc/crypto/sha512.c])

    The functions of [sha512.c], SHA-384 included, over the shared models of
    [Stream.v], [Sha.v] and [Sha2.v], the FIPS 180-4 reference with its constants
    recomputed from the roots of primes, and the correctness theorem. *)
From Stdlib Require Import ZArith List Lia Bool.
From S2P Require Import Prelude Mem Stream Sha Sha2.
Import ListNotations.

Definition sha512_SIGMA0_A (x : Z) : Z := rotr 64 x 1 ^^ rotr 64 x 8 ^^ (x >> 7).
Definition sha512_SIGMA1_A (x : Z) : Z := rotr 64 x 19 ^^ rotr 64 x 61 ^^ (x >> 6).
Definition sha512_SIGMA0_B (x : Z) : Z := rotr 64 x 28 ^^ rotr 64 x 34 ^^ rotr 64 x 39.
Definition sha512_SIGMA1_B (x : Z) : Z := rotr 64 x 14 ^^ rotr 64 x 18 ^^ rotr 64 x 41.

Definition sha512_round : list Z :=
  [0x428A2F98D728AE22; 0x7137449123EF65CD; 0xB5C0FBCFEC4D3B2F; 0xE9B5DBA58189DBBC;
   0x3956C25BF348B538; 0x59F111F1B605D019; 0x923F82A4AF194F9B; 0xAB1C5ED5DA6D8118;
   0xD807AA98A3030242; 0x12835B0145706FBE; 0x243185BE4EE4B28C; 0x550C7DC3D5FFB4E2;
   0x72BE5D74F27B896F; 0x80DEB1FE3B1696B1; 0x9BDC06A725C71235; 0xC19BF174CF692694;
   0xE49B69C19EF14AD2; 0xEFBE4786384F25E3; 0x0FC19DC68B8CD5B5; 0x240CA1CC77AC9C65;
   0x2DE92C6F592B0275; 0x4A7484AA6EA6E483; 0x5CB0A9DCBD41FBD4; 0x76F988DA831153B5;
   0x983E5152EE66DFAB; 0xA831C66D2DB43210; 0xB00327C898FB213F; 0xBF597FC7BEEF0EE4;
   0xC6E00BF33DA88FC2; 0xD5A79147930AA725; 0x06CA6351E003826F; 0x142929670A0E6E70;
   0x27B70A8546D22FFC; 0x2E1B21385C26C926; 0x4D2C6DFC5AC42AED; 0x53380D139D95B3DF;
   0x650A73548BAF63DE; 0x766A0ABB3C77B2A8; 0x81C2C92E47EDAEE6; 0x92722C851482353B;
   0xA2BFE8A14CF10364; 0xA81A664BBC423001; 0xC24B8B70D0F89791; 0xC76C51A30654BE30;
   0xD192E819D6EF5218; 0xD69906245565A910; 0xF40E35855771202A; 0x106AA07032BBD1B8;
   0x19A4C116B8D2D0C8; 0x1E376C085141AB53; 0x2748774CDF8EEB99; 0x34B0BCB5E19B48A8;
   0x391C0CB3C5C95A63; 0x4ED8AA4AE3418ACB; 0x5B9CCA4F7763E373; 0x682E6FF3D6B2B8A3;
   0x748F82EE5DEFB2FC; 0x78A5636F43172F60; 0x84C87814A1F0AB72; 0x8CC702081A6439EC;
   0x90BEFFFA23631E28; 0xA4506CEBDE82BDE9; 0xBEF9A3F7B2C67915; 0xC67178F2E372532B;
   0xCA273ECEEA26619C; 0xD186B8C721C0C207; 0xEADA7DD6CDE0EB1E; 0xF57D4F7FEE6ED178;
   0x06F067AA72176FBA; 0x0A637DC5A2C898A6; 0x113F9804BEF90DAE; 0x1B710B35131C471B;
   0x28DB77F523047D84; 0x32CAAB7B40C72493; 0x3C9EBE0A15C9BEBC; 0x431D67C49C100D4C;
   0x4CC5D4BECB3E42B6; 0x597F299CFC657E2A; 0x5FCB6FAB3AD6FAEC; 0x6C44198C4A475817].

(** One iteration of the [do] loop of [_sha512_blocks], and the loop. *)
Definition sha512_block (st inp : list Z) : list Z :=
  sha2_block 8 80 sha512_round mem_loadU64BE
    sha512_SIGMA0_A sha512_SIGMA1_A sha512_SIGMA0_B sha512_SIGMA1_B st inp.

Definition sha512_blocks (st inp : list Z) (numBlocks : nat) : list Z :=
  md_blocks 128 sha512_block numBlocks st inp.

(** [struct sha512]: [state] and [blockCounter] are the core, [buffer] and
    [bufferSize] those of the stream. *)
Abbreviation sha512 := (stream sha_core).

#[local] Instance sha512_sink : BlockSink sha_core := md_sink 128 sha512_block.

Definition sha512_iv : list Z :=
  [0x6A09E667F3BCC908; 0xBB67AE8584CAA73B; 0x3C6EF372FE94F82B; 0xA54FF53A5F1D36F1;
   0x510E527FADE682D1; 0x9B05688C2B3E6C1F; 0x1F83D9ABFB41BD6B; 0x5BE0CD19137E2179].

Definition sha384_iv : list Z :=
  [0xCBBB9D5DC1059ED8; 0x629A292A367CD507; 0x9159015A3070DD17; 0x152FECD8F70E5939;
   0x67332667FFC00B31; 0x8EB44A8768581511; 0xDB0C2E0D64F98FA7; 0x47B5481DBEFA4FA4].

Definition sha512_init (self : sha512) : sha512 :=
  Stream (ShaCore sha512_iv 0) (buffer self) 0.

Definition sha512_init384 (self : sha512) : sha512 :=
  Stream (ShaCore sha384_iv 0) (buffer self) 0.

Definition sha512_update (self : sha512) (inp : list Z) : sha512 := update self inp.

(** The high half of [numBits] goes to [buffer[112]], the low half to [buffer[120]]. *)
Definition sha512_store_len (buf : list Z) (blockCounter : Z) (bufferSize : nat) : list Z :=
  let numBits := u128 (u128 (u128 (blockCounter << 7) + Z.of_nat bufferSize) << 3) in
  let buf := mem_storeU64BE buf 112 (numBits >> 64) in
  mem_storeU64BE buf 120 (u64 numBits).

Definition sha512_finish (self : sha512) : list Z :=
  store_words 8 (md_finish 128 112 sha512_block sha512_store_len self).

(** ** Reference: SHA-512 of FIPS 180-4 *)

Definition fips_K512 : list Z := map (Fips.frac_root 3 64) (firstn 80 (Fips.primes 410)).
Definition fips_H512 : list Z := map (Fips.frac_root 2 64) (firstn 8 (Fips.primes 410)).

Definition fips_block512 : list Z -> list Z -> list Z :=
  Fips.block 8 80 fips_K512 sha512_SIGMA0_A sha512_SIGMA1_A sha512_SIGMA0_B sha512_SIGMA1_B.

Definition fips_sha512 (msg : list Z) : list Z :=
  flat_map (be_split 8) (md_hash 128 112 fips_block512 fips_H512 msg).

(** ** Correctness *)

Lemma sha512_round_fips : sha512_round = fips_K512.
Proof. vm_compute. reflexivity. Qed.

Lemma sha512_iv_fips : sha512_iv = fips_H512.
Proof. vm_compute. reflexivity. Qed.

Lemma sha512_block_fips st inp : bytes inp -> (128 <= length inp)%nat ->
  sha512_block st inp = fips_block512 st inp.
Proof.
  intros Hb Hl. unfold sha512_block, fips_block512. rewrite <- sha512_round_fips.
  apply sha2_block_fips; [lia|apply mem_loadU64BE_spec|assumption|lia].
Qed.

Lemma sha512_block_prefix st l l' : (128 <= length l)%nat ->
  sha512_block st (l ++ l') = sha512_block st l.
Proof.
  intros Hl. apply sha2_block_prefix; [|lia]. intros. unfold mem_loadU64BE.
  now rewrite firstn_app_l by lia.
Qed.

#[local] Instance sha512_laws : BlockSinkLaws sha_core := md_sink_laws 128 112 _ sha512_block_prefix ltac:(lia).

Lemma be_split_halves x : be_split 8 (x >> 64) ++ be_split 8 (u64 x) = be_split 16 x.
Proof.
  rewrite shiftr_div by lia. unfold be_split. rewrite <- rev_app_distr. f_equal.
  change 16%nat with (8 + 8)%nat. rewrite le_split_add. change (256 ^ Z.of_nat 8) with (2 ^ 64).
  f_equal. apply (le_split_mod 8).
Qed.

Lemma sha512_store_len_ok buf ctr r : length buf = 128%nat -> 0 <= ctr < 2 ^ 64 -> (r < 128)%nat ->
  8 * (ctr * Z.of_nat 128 + Z.of_nat r) < 256 ^ Z.of_nat (128 - 112) ->
  sha512_store_len buf ctr r = firstn 112 buf ++ be_split (128 - 112) (8 * (ctr * Z.of_nat 128 + Z.of_nat r)).
Proof.
  intros Hb Hc Hr Hlt. change (256 ^ Z.of_nat (128 - 112)) with (2 ^ 128) in Hlt.
  change (128 - 112)%nat with 16%nat.
  unfold sha512_store_len, mem_storeU64BE. rewrite !le_split_bswap, !shiftl_mul by lia.
  rewrite (wrap_small 128 (ctr * _)), (wrap_small 128 (_ + _)), (wrap_small 128) by lia.
  replace ((ctr * 2 ^ 7 + Z.of_nat r) * 2 ^ 3) with (8 * (ctr * Z.of_nat 128 + Z.of_nat r)) by lia.
  generalize (8 * (ctr * Z.of_nat 128 + Z.of_nat r)). intros n.
  rewrite <- be_split_halves. rewrite (mem_copy_eq _ 120) by (rewrite length_mem_copy; lens).
  replace 120%nat with (112 + length (be_split 8 (n >> 64)))%nat at 1 by lens.
  rewrite firstn_mem_copy by lens. rewrite <- app_assoc. do 2 f_equal.
  rewrite skipn_all2, app_nil_r by (rewrite length_mem_copy; lens). reflexivity.
Qed.

Lemma sha512_stream iv buf chunks :
  length buf = 128%nat -> bytes (concat chunks) -> Z.of_nat (length (concat chunks)) < 2 ^ 64 ->
  sha512_finish (fold_left sha512_update chunks (Stream (ShaCore iv 0) buf 0))
  = flat_map (be_split 8) (md_hash 128 112 fips_block512 iv (concat chunks)).
Proof.
  intros Hbuf Hb Hlen. unfold sha512_finish. rewrite store_words_be. f_equal.
  rewrite <- (md_hash_ext _ _ sha512_block); [|lia|exact sha512_block_fips|assumption].
  apply (md_finish_correct 128 112 _ _ sha512_block_prefix ltac:(lia) sha512_store_len_ok).
  - apply (updates_inv _ _ []); [cbn; lia|]. apply init_inv; [cbn; lia|assumption].
  - change (256 ^ Z.of_nat (128 - 112)) with (2 ^ 128). lia.
  - lia.
Qed.

Lemma sha512_spec self chunks :
  length (buffer self) = 128%nat -> bytes (concat chunks) ->
  Z.of_nat (length (concat chunks)) < 2 ^ 64 ->
  sha512_finish (fold_left sha512_update chunks (sha512_init self)) = fips_sha512 (concat chunks).
Proof.
  intros. unfold fips_sha512, sha512_init. rewrite <- sha512_iv_fips. now apply sha512_stream.
Qed.

(** SHA-512 as streamed by [sha512_init], any sequence of [sha512_update]
    calls and [sha512_finish] is the SHA-512 of FIPS 180-4 of the concatenated
    input, for every message shorter than 2^64 bytes and whatever the buffer
    held before. *)
Theorem sha512_correct self chunks :
  length (buffer self) = 128%nat -> bytes (concat chunks) ->
  Z.of_nat (length (concat chunks)) < 2 ^ 64 ->
  sha512_finish (fold_left sha512_update chunks (sha512_init self)) = fips_sha512 (concat chunks).
Proof. exact (sha512_spec self chunks). Qed.

(** "abc", in two pieces. *)
Lemma sha512_correct_witness :
  sha512_finish (fold_left sha512_update [[97]; [98; 99]]
    (sha512_init (Stream (ShaCore [] 0) (repeat 0 128) 0)))
  = [0xDD; 0xAF; 0x35; 0xA1; 0x93; 0x61; 0x7A; 0xBA; 0xCC; 0x41; 0x73; 0x49; 0xAE; 0x20; 0x41; 0x31;
     0x12; 0xE6; 0xFA; 0x4E; 0x89; 0xA9; 0x7E; 0xA2; 0x0A; 0x9E; 0xEE; 0xE6; 0x4B; 0x55; 0xD3; 0x9A;
     0x21; 0x92; 0x99; 0x2A; 0x27; 0x4F; 0xC1; 0xA8; 0x36; 0xBA; 0x3C; 0x23; 0xA3; 0xFE; 0xEB; 0xBD;
     0x45; 0x4D; 0x44; 0x23; 0x64; 0x3C; 0xE8; 0x0E; 0x2A; 0x9A; 0xC9; 0x4F; 0xA5; 0x4C; 0xA4; 0x9F].
Proof.
  rewrite (sha512_correct (Stream (ShaCore [] 0) (repeat 0 128) 0) [[97]; [98; 99]]);
    [vm_compute; reflexivity|reflexivity|repeat constructor; lia|vm_compute; reflexivity].
Defined.

(** SHA-384: the initial value from the 9th to the 16th prime, truncated output. *)
Definition fips_H384 : list Z := map (Fips.frac_root 2 64) (firstn 8 (skipn 8 (Fips.primes 410))).

Definition fips_sha384 (msg : list Z) : list Z :=
  firstn 48 (flat_map (be_split 8) (md_hash 128 112 fips_block512 fips_H384 msg)).

Lemma sha384_iv_fips : sha384_iv = fips_H384.
Proof. vm_compute. reflexivity. Qed.

(** after [sha512_init384] the first 48 bytes of the digest, which is what
    the hash tool prints, are the SHA-384 of FIPS 180-4. *)
Theorem sha384_correct self chunks :
  length (buffer self) = 128%nat -> bytes (concat chunks) ->
  Z.of_nat (length (concat chunks)) < 2 ^ 64 ->
  firstn 48 (sha512_finish (fold_left sha512_update chunks (sha512_init384 self)))
  = fips_sha384 (concat chunks).
Proof.
  intros. unfold fips_sha384, sha512_init384. rewrite <- sha384_iv_fips. f_equal.
  now apply sha512_stream.
Qed.

Lemma sha384_correct_witness :
  firstn 48 (sha512_finish (fold_left sha512_update [[97; 98]; []; [99]]
    (sha512_init384 (Stream (ShaCore [] 0) (repeat 7 128) 0))))
  = [0xCB; 0x00; 0x75; 0x3F; 0x45; 0xA3; 0x5E; 0x8B; 0xB5; 0xA0; 0x3D; 0x69; 0x9A; 0xC6; 0x50; 0x07;
     0x27; 0x2C; 0x32; 0xAB; 0x0E; 0xDE; 0xD1; 0x63; 0x1A; 0x8B; 0x60; 0x5A; 0x43; 0xFF; 0x5B; 0xED;
     0x80; 0x86; 0x07; 0x2B; 0xA1; 0xE7; 0xCC; 0x23; 0x58; 0xBA; 0xEC; 0xA1; 0x34; 0xC8; 0x25; 0xA7].
Proof.
  rewrite (sha384_correct (Stream (ShaCore [] 0) (repeat 7 128) 0) [[97; 98]; []; [99]]);
    [vm_compute; reflexivity|reflexivity|repeat constructor; lia|vm_compute; reflexivity].
Defined.
