(* ===== verification/Sha1.v ===== *)
(** * SHA-1 ([src/hc/core/hc/crypto/sha1.c])

    The compression loop of [_sha1_blocks] keeps its five working variables in a
    sliding window of the array [r]; [Fips1] is the function of FIPS 180-4 with
    five rotating variables and its constants recomputed as square roots.  The
    streaming functions instantiate [Stream.v] and [Sha.v]. *)
From Stdlib Require Import ZArith List Lia Bool.
From S2P Require Import Prelude Mem Stream Sha Sha2 Sha256.
Import ListNotations.

(** The round functions and constants of the four loops. *)
Definition sha1_f (i : nat) (b c d : Z) : Z :=
  if (i <? 20)%nat then (b & (c ^^ d)) ^^ d
  else if (i <? 40)%nat then b ^^ c ^^ d
  else if (i <? 60)%nat then ((b .| c) & d) .| (b & c)
  else b ^^ c ^^ d.

Definition sha1_k (i : nat) : Z :=
  if (i <? 20)%nat then 0x5A827999
  else if (i <? 40)%nat then 0x6ED9EBA1
  else if (i <? 60)%nat then 0x8F1BBCDC
  else 0xCA62C1D6.

Definition sha1_round (w r : list Z) (i : nat) : list Z :=
  let r := set r (i + 5) (u32 (get r i + get w i + sha1_k i + rotl 32 (get r (i + 4)) 5
             + sha1_f i (get r (i + 3)) (get r (i + 2)) (get r (i + 1)))) in
  set r (i + 3) (rotl 32 (get r (i + 3)) 30).

(** One iteration of the [do] loop of [_sha1_blocks].  The local arrays are zero
    here and uninitialised in C; every element is written before it is read. *)
Definition sha1_block (st inp : list Z) : list Z :=
  let r := repeat 0 85 in
  let r := set r 0 (get st 4) in
  let r := set r 1 (get st 3) in
  let r := set r 2 (get st 2) in
  let r := set r 3 (get st 1) in
  let r := set r 4 (get st 0) in
  let w := fold_left (fun w i => set w i (mem_loadU32BE (skipn (4 * i) inp))) (seq 0 16) (repeat 0 80) in
  let w := fold_left (fun w i => set w (i + 16)
    (rotl 32 (get w (i + 13) ^^ get w (i + 8) ^^ get w (i + 2) ^^ get w i) 1)) (seq 0 64) w in
  let r := fold_left (sha1_round w) (seq 0 80) r in
  [u32 (get st 0 + get r 84); u32 (get st 1 + get r 83); u32 (get st 2 + get r 82);
   u32 (get st 3 + get r 81); u32 (get st 4 + get r 80)].

Definition sha1_blocks (st inp : list Z) (numBlocks : nat) : list Z :=
  md_blocks 64 sha1_block numBlocks st inp.

(** [struct sha1]. *)
Abbreviation sha1 := (stream sha_core).

#[local] Instance sha1_sink : BlockSink sha_core := md_sink 64 sha1_block.

Definition sha1_init (self : sha1) : sha1 :=
  Stream (ShaCore [0x67452301; 0xEFCDAB89; 0x98BADCFE; 0x10325476; 0xC3D2E1F0] 0) (buffer self) 0.

Definition sha1_update (self : sha1) (inp : list Z) : sha1 := update self inp.

(** [mem_storeU64BE(&self->buffer[56], numBits)]. *)
Definition sha1_store_len (buf : list Z) (blockCounter : Z) (bufferSize : nat) : list Z :=
  let numBits := u64 (u64 (u64 (blockCounter << 6) + Z.of_nat bufferSize) << 3) in
  mem_storeU64BE buf 56 numBits.

Definition sha1_finish (self : sha1) : list Z :=
  store_words 4 (md_finish 64 56 sha1_block sha1_store_len self).

(** ** Reference: SHA-1 of FIPS 180-4 *)
Module Fips1.

Definition f (t : nat) (x y z : Z) : Z :=
  match (t / 20)%nat with
  | 0%nat => (x & y) ^^ (Z.lnot x & z)
  | 2%nat => (x & y) ^^ (x & z) ^^ (y & z)
  | _ => x ^^ y ^^ z
  end.

(** Section 4.2.1; the values are 2^30 times the square roots of 2, 3, 5, 10. *)
Definition K (t : nat) : Z :=
  Fips.iroot 2 40 (nth (t / 20) [2; 3; 5; 10] 0 * 2 ^ 60).

Definition schedule_word (W : list Z) (t : nat) : Z :=
  rotl 32 (get W (t - 3) ^^ get W (t - 8) ^^ get W (t - 14) ^^ get W (t - 16)) 1.

Definition schedule (M : list Z) : list Z :=
  fold_left (fun W t => W ++ [schedule_word W t]) (seq 16 64) M.

Record vars := Vars { a : Z; b : Z; c : Z; d : Z; e : Z }.

Definition step (W : list Z) (v : vars) (t : nat) : vars :=
  let T := u32 (rotl 32 (a v) 5 + f t (b v) (c v) (d v) + e v + K t + get W t) in
  Vars T (a v) (rotl 32 (b v) 30) (c v) (d v).

Definition block (H inp : list Z) : list Z :=
  let W := schedule (load_words 4 16 inp) in
  let v := fold_left (step W) (seq 0 80)
    (Vars (get H 0) (get H 1) (get H 2) (get H 3) (get H 4)) in
  [u32 (get H 0 + a v); u32 (get H 1 + b v); u32 (get H 2 + c v);
   u32 (get H 3 + d v); u32 (get H 4 + e v)].

(** Section 5.3.1: the bytes 01 23 .. ef fe .. 10 and f0 e1 d2 c3, little endian words. *)
Definition H0 : list Z :=
  [le_combine [0x01; 0x23; 0x45; 0x67]; le_combine [0x89; 0xAB; 0xCD; 0xEF];
   le_combine [0xFE; 0xDC; 0xBA; 0x98]; le_combine [0x76; 0x54; 0x32; 0x10];
   le_combine [0xF0; 0xE1; 0xD2; 0xC3]].

Definition sha1 (msg : list Z) : list Z := flat_map (be_split 4) (md_hash 64 56 block H0 msg).
End Fips1.

(** ** Correctness *)

Lemma div_between i q : (q * 20 <= i -> i < q * 20 + 20 -> i / 20 = q)%nat.
Proof. intros. symmetry. apply (Nat.div_unique _ _ _ (i - q * 20)); lia. Qed.

Lemma sha1_f_fips i x y z : (i < 80)%nat -> sha1_f i x y z = Fips1.f i x y z.
Proof.
  intros Hi. unfold sha1_f, Fips1.f.
  destruct (Nat.ltb_spec i 20); [rewrite (div_between i 0) by lia; bitwise|].
  destruct (Nat.ltb_spec i 40); [now rewrite (div_between i 1) by lia|].
  destruct (Nat.ltb_spec i 60); [rewrite (div_between i 2) by lia; bitwise|].
  now rewrite (div_between i 3) by lia.
Qed.

Lemma sha1_k_fips i : (i < 80)%nat -> sha1_k i = Fips1.K i.
Proof.
  intros Hi. unfold sha1_k, Fips1.K.
  destruct (Nat.ltb_spec i 20); [now rewrite (div_between i 0) by lia|].
  destruct (Nat.ltb_spec i 40); [now rewrite (div_between i 1) by lia|].
  destruct (Nat.ltb_spec i 60); [now rewrite (div_between i 2) by lia|].
  now rewrite (div_between i 3) by lia.
Qed.

Abbreviation sched1 M k := (fold_left (fun W t => W ++ [Fips1.schedule_word W t]) (seq 16 k) M).

Lemma sched1_S M k : sched1 M (S k) = sched1 M k ++ [Fips1.schedule_word (sched1 M k) (16 + k)].
Proof. now rewrite seq_S, fold_left_app. Qed.

(** The second loop over [w] extends the words in place. *)
Lemma sha1_schedule w n : length w = 80%nat -> (n <= 64)%nat ->
  let w' := fold_left (fun w i => set w (i + 16)
    (rotl 32 (get w (i + 13) ^^ get w (i + 8) ^^ get w (i + 2) ^^ get w i) 1)) (seq 0 n) w in
  length w' = 80%nat /\ firstn (16 + n) w' = sched1 (firstn 16 w) n.
Proof.
  intros Hw. induction n as [|n IH]; intros Hn; [now split|].
  destruct IH as [Hl Hf]; [lia|]. rewrite seq_S, fold_left_app, Nat.add_0_l. cbn [fold_left].
  set (w' := fold_left _ _ w) in *. split; [lens|].
  replace (16 + S n)%nat with (S (n + 16)) by lia. rewrite firstn_set_r by lia.
  rewrite sched1_S, <- Hf, (Nat.add_comm n 16). do 2 f_equal. unfold Fips1.schedule_word.
  rewrite !get_firstn by lia.
  replace (16 + n - 3)%nat with (n + 13)%nat by lia. replace (16 + n - 8)%nat with (n + 8)%nat by lia.
  replace (16 + n - 14)%nat with (n + 2)%nat by lia. now replace (16 + n - 16)%nat with n by lia.
Qed.

(** The window of [r] at round [i] holds the working variables. *)
Definition window1 (r : list Z) (i : nat) (v : Fips1.vars) : Prop :=
  length r = 85%nat /\ get r i = Fips1.e v /\ get r (i + 1) = Fips1.d v /\
  get r (i + 2) = Fips1.c v /\ get r (i + 3) = Fips1.b v /\ get r (i + 4) = Fips1.a v.

Ltac get_set1 :=
  repeat ((rewrite get_set_eq by (rewrite ?length_set, ?repeat_length; lia)) || (rewrite get_set_ne by lia)).

Lemma sha1_round_step w r i v : (i < 80)%nat -> window1 r i v ->
  window1 (sha1_round w r i) (S i) (Fips1.step w v i).
Proof.
  intros Hi (Hl & H0 & H1 & H2 & H3 & H4). unfold sha1_round, Fips1.step, window1.
  rewrite sha1_f_fips, sha1_k_fips by assumption.
  cbn [Fips1.a Fips1.b Fips1.c Fips1.d Fips1.e].
  replace (S i) with (i + 1)%nat by lia. rewrite <- !Nat.add_assoc. cbn [Nat.add].
  repeat split; [lens|get_set1; congruence..|].
  get_set1. rewrite H0, H1, H2, H3, H4. f_equal. lia.
Qed.

Lemma sha1_rounds w r v n : (n <= 80)%nat -> window1 r 0 v ->
  window1 (fold_left (sha1_round w) (seq 0 n) r) n (fold_left (Fips1.step w) (seq 0 n) v).
Proof.
  intros Hn H0. induction n as [|n IH]; [exact H0|].
  rewrite seq_S, !fold_left_app. apply sha1_round_step; [lia|]. apply IH. lia.
Qed.

Lemma sha1_block_fips st inp : bytes inp -> (64 <= length inp)%nat ->
  sha1_block st inp = Fips1.block st inp.
Proof.
  intros Hb Hl. unfold sha1_block, Fips1.block.
  set (w0 := fold_left _ (seq 0 16) _). set (w := fold_left _ (seq 0 64) w0).
  assert (length w0 = 80%nat) as Hw0 by (unfold w0; rewrite (length_fold_set _ (fun i => i)); lens).
  assert (firstn 16 w0 = load_words 4 16 inp) as HM.
  { unfold w0. rewrite fold_set_firstn by lens. apply map_ext_in. intros i Hi%in_seq.
    apply mem_loadU32BE_spec; [auto with hc|]. rewrite length_skipn. lia. }
  destruct (sha1_schedule w0 64) as [Hwl Hw]; [assumption|lia|]. fold w in Hwl, Hw.
  rewrite HM in Hw. change (16 + 64)%nat with 80%nat in Hw. rewrite firstn_all2 in Hw by lia.
  unfold Fips1.schedule. rewrite <- Hw. set (v0 := Fips1.Vars _ _ _ _ _).
  set (r0 := set _ _ _).
  assert (window1 r0 0 v0) as Hwin by (repeat split).
  apply (sha1_rounds w _ _ 80) in Hwin; [|lia].
  destruct Hwin as (_ & H0 & H1 & H2 & H3 & H4). cbn [Nat.add] in *.
  now rewrite H0, H1, H2, H3, H4.
Qed.

Lemma sha1_block_prefix st l l' : (64 <= length l)%nat -> sha1_block st (l ++ l') = sha1_block st l.
Proof.
  intros Hl. unfold sha1_block.
  rewrite (fold_set_ext _ (fun i => mem_loadU32BE (skipn (4 * i) l))); [reflexivity|].
  intros i Hi%in_seq. rewrite skipn_app. replace (4 * i - length l)%nat with 0%nat by lia.
  cbn [skipn]. unfold mem_loadU32BE. rewrite firstn_app_l; [reflexivity|]. lens.
Qed.

#[local] Instance sha1_laws : BlockSinkLaws sha_core := md_sink_laws 64 56 _ sha1_block_prefix ltac:(lia).

(** SHA-1 as streamed by [sha1_init], any sequence of [sha1_update] calls and
    [sha1_finish] is the SHA-1 of FIPS 180-4 of the concatenated input, for every
    message shorter than 2^61 bytes and whatever the buffer held before. *)
Theorem sha1_correct self chunks :
  length (buffer self) = 64%nat -> bytes (concat chunks) ->
  Z.of_nat (length (concat chunks)) < 2 ^ 61 ->
  sha1_finish (fold_left sha1_update chunks (sha1_init self)) = Fips1.sha1 (concat chunks).
Proof.
  intros Hbuf Hb Hlen. unfold sha1_finish, Fips1.sha1. rewrite store_words_be. f_equal.
  rewrite <- (md_hash_ext _ _ sha1_block); [|lia|exact sha1_block_fips|assumption].
  apply (md_finish_correct 64 56 _ _ sha1_block_prefix ltac:(lia) sha256_store_len_ok).
  - apply (updates_inv _ _ []); [cbn; lia|]. apply init_inv; [cbn; lia|assumption].
  - change (256 ^ Z.of_nat (64 - 56)) with (2 ^ 64). lia.
  - lia.
Qed.

(** "abc", in two pieces. *)
Lemma sha1_correct_witness :
  sha1_finish (fold_left sha1_update [[97]; [98; 99]]
    (sha1_init (Stream (ShaCore [] 0) (repeat 0 64) 0)))
  = [0xA9; 0x99; 0x3E; 0x36; 0x47; 0x06; 0x81; 0x6A; 0xBA; 0x3E;
     0x25; 0x71; 0x78; 0x50; 0xC2; 0x6C; 0x9C; 0xD0; 0xD8; 0x9D].
Proof.
  rewrite (sha1_correct (Stream (ShaCore [] 0) (repeat 0 64) 0) [[97]; [98; 99]]);
    [vm_compute; reflexivity|reflexivity|repeat constructor; lia|vm_compute; reflexivity].
Defined.
