(* ===== verification/Util.v ===== *)
(** * Strings and numbers ([src/hc/core/hc/util.c])

    C strings, environment lookup, number printing and number parsing.  A pointer
    is the list of the bytes from it on.  The printers write backwards from
    [bufferEnd], so they take the buffer and the index of [bufferEnd] and return
    the buffer and the index of the first character.  The parsers return the
    value of the function and, when it is stored, the new [*number]. *)
From Stdlib Require Import ZArith List Lia Bool String.
From S2P Require Import Prelude.
Import ListNotations.

(** ** C strings *)

Fixpoint util_cstrLen (cstring : list Z) : nat :=
  match cstring with
  | [] => O
  | c :: rest => if c =? 0 then O else S (util_cstrLen rest)
  end.

Fixpoint util_cstrCmp (left right : list Z) : Z :=
  let diff := get left 0 - get right 0 in
  if negb (diff =? 0) || (get left 0 =? 0) then diff
  else match left with
       | [] => diff
       | _ :: left' => util_cstrCmp left' (skipn 1 right)
       end.

(** The [size] UTF-16 units written to [dest]. *)
Definition util_strToUtf16 (src : list Z) (size : nat) : list Z := map u16 (firstn size src).

(** The inner loop: the rest of [env] after [name], or [None] for [goto noMatch]. *)
Fixpoint getEnv_match (env name : list Z) : option (list Z) :=
  match name with
  | [] => Some env
  | c :: name' =>
      if c =? 0 then Some env
      else if (get env 0 =? 0) || negb (get env 0 =? c) then None
      else getEnv_match (skipn 1 env) name'
  end.

Fixpoint util_getEnv (envp : list (list Z)) (name : list Z) : option (list Z) :=
  match envp with
  | [] => None
  | env :: envp' =>
      match getEnv_match env name with
      | Some rest => if get rest 0 =? 61 then Some (skipn 1 rest) else util_getEnv envp' name
      | None => util_getEnv envp' name
      end
  end.

(** ** Printing *)

(** [do { *--bufferEnd = '0' + n % 10; n /= 10; } while (n != 0)] *)
Fixpoint dec_loop (fuel : nat) (buf : list Z) (bufferEnd : nat) (n : Z) : list Z * nat :=
  match fuel with
  | O => (buf, bufferEnd)
  | S fuel' =>
      let bufferEnd := (bufferEnd - 1)%nat in
      let buf := set buf bufferEnd (u8 (48 + n mod 10)) in
      let n := n / 10 in
      if n =? 0 then (buf, bufferEnd) else dec_loop fuel' buf bufferEnd n
  end.

(** A 64 bit number has at most 20 decimal digits, so 20 iterations suffice. *)
Definition util_uintToStr (buf : list Z) (bufferEnd : nat) (number : Z) : list Z * nat :=
  dec_loop 20 buf bufferEnd number.

Definition util_intToStr (buf : list Z) (bufferEnd : nat) (number : Z) : list Z * nat :=
  let n := if number <? 0 then u64 (- u64 number) else u64 number in
  let '(buf, bufferEnd) := dec_loop 20 buf bufferEnd n in
  if number <? 0 then (set buf (bufferEnd - 1) 45, (bufferEnd - 1)%nat) else (buf, bufferEnd).

Definition util_hexTable : list Z := Eval cbv in str "0123456789ABCDEF".

Fixpoint hex_loop (fuel : nat) (buf : list Z) (bufferEnd : nat) (number : Z) : list Z * nat :=
  match fuel with
  | O => (buf, bufferEnd)
  | S fuel' =>
      let buf := set buf (bufferEnd - 1) (get util_hexTable (Z.to_nat (number & 0xF))) in
      let buf := set buf (bufferEnd - 2) (get util_hexTable (Z.to_nat ((number >> 4) & 0xF))) in
      let bufferEnd := (bufferEnd - 2)%nat in
      let number := number >> 8 in
      if number =? 0 then (buf, bufferEnd) else hex_loop fuel' buf bufferEnd number
  end.

(** Eight bytes, two characters each. *)
Definition util_uintToHex (buf : list Z) (bufferEnd : nat) (number : Z) : list Z * nat :=
  hex_loop 8 buf bufferEnd number.

(** ** Parsing *)

(** The loop of the three parsers, over the digit value of a character ([None] for
    [break]), the overflow test and the accumulation.  [None]: [return -1]. *)
Section ParseLoop.
Context (digitValue : Z -> option Z) (overflows : Z -> Z -> bool) (push : Z -> Z -> Z).

Fixpoint parse_loop (buf : list Z) (maxChars i result : Z) : option (Z * Z) :=
  if negb (i <? maxChars) then Some (i, result)
  else match buf with
       | [] => Some (i, result)
       | c :: buf' =>
           match digitValue c with
           | None => Some (i, result)
           | Some d =>
               if overflows result d then None
               else parse_loop buf' maxChars (i + 1) (push result d)
           end
       end.
End ParseLoop.

Definition UINT64_MAX : Z := 2 ^ 64 - 1.
Definition INT64_MAX : Z := 2 ^ 63 - 1.

Definition dec_digit (c : Z) : option Z :=
  let d := u64 (c - 48) in if 9 <? d then None else Some d.

Definition util_strToUint (buf : list Z) (maxChars : Z) : Z * option Z :=
  match parse_loop dec_digit (fun r d => u64 (UINT64_MAX - d) / 10 <? r)
          (fun r d => u64 (r * 10 + d)) buf maxChars 0 0 with
  | None => (-1, None)
  | Some (i, result) => (i, if 0 <? i then Some result else None)
  end.

Definition util_strToInt (buf : list Z) (maxChars : Z) : Z * option Z :=
  if maxChars <=? 0 then (0, None)
  else
    let negative := if get buf 0 =? 45 then 1 else 0 in
    let maxNumber := u64 (INT64_MAX + negative) in
    match parse_loop dec_digit (fun r d => u64 (maxNumber - d) / 10 <? r)
            (fun r d => u64 (r * 10 + d)) (skipn (Z.to_nat negative) buf) maxChars negative 0 with
    | None => (-1, None)
    | Some (i, result) =>
        if negative <? i then (i, Some (i64 (u64 (result * u64 (1 - u64 (negative << 1))))))
        else (0, None)
    end.

Definition hex_digit (c : Z) : option Z :=
  let d := u64 (c - 48) in
  if 9 <? d then
    let d := u64 (d + u64 (48 - 65)) in
    if 5 <? d then
      let d := u64 (d + u64 (65 - 97)) in
      if 5 <? d then None else Some (u64 (d + 10))
    else Some (u64 (d + 10))
  else Some d.

Definition util_hexToUint (buf : list Z) (maxChars : Z) : Z * option Z :=
  match parse_loop hex_digit (fun r _ => (UINT64_MAX >> 4) <? r)
          (fun r d => u64 (r << 4) .| d) buf maxChars 0 0 with
  | None => (-1, None)
  | Some (i, result) => (i, if 0 <? i then Some result else None)
  end.

(** ** Specification *)

Fixpoint take_digits (digitValue : Z -> option Z) (l : list Z) : list Z :=
  match l with
  | [] => []
  | c :: l' => match digitValue c with None => [] | Some d => d :: take_digits digitValue l' end
  end.

(** The number with the digits [ds] after the number [acc]. *)
Definition value (base acc : Z) (ds : list Z) : Z := fold_left (fun a d => base * a + d) ds acc.

(** What a printer did: [text] sits right before [bufferEnd], nothing else changed. *)
Definition printed (buf : list Z) (bufferEnd : nat) (r : list Z * nat) (text : list Z) : Prop :=
  (snd r + length text)%nat = bufferEnd /\
  fst r = firstn (snd r) buf ++ text ++ skipn bufferEnd buf.

(** What a parser returns for the digits [ds] of a number up to [max], after [skipped]
    characters. *)
Definition parsed (max skipped : Z) (sign : Z) (base : Z) (ds : list Z) : Z * option Z :=
  if value base 0 ds <=? max then
    match ds with
    | [] => (0, None)
    | _ => (skipped + Z.of_nat (length ds), Some (sign * value base 0 ds))
    end
  else (-1, None).

(** ** Parsing *)

Lemma value_app base acc l1 l2 : value base acc (l1 ++ l2) = value base (value base acc l1) l2.
Proof. apply fold_left_app. Qed.

Lemma value_ge base acc ds : 1 <= base -> 0 <= acc -> Forall (fun d => 0 <= d < base) ds ->
  acc <= value base acc ds.
Proof.
  intros Hb. revert acc. induction ds as [|d ds IH]; intros acc Ha Hd; [cbn; lia|].
  inversion Hd; subst. cbn [value fold_left]. change (acc <= value base (base * acc + d) ds).
  assert (acc <= base * acc + d) by nia.
  apply Z.le_trans with (base * acc + d); [lia|]. apply IH; auto; lia.
Qed.

Lemma value_lower base acc ds : 1 <= base -> 0 <= acc -> Forall (fun d => 0 <= d < base) ds ->
  acc * base ^ Z.of_nat (length ds) <= value base acc ds.
Proof.
  intros Hb. revert acc. induction ds as [|d ds IH]; intros acc Ha Hd; [cbn; lia|].
  inversion Hd; subst. cbn [length]. rewrite Nat2Z.inj_succ, Z.pow_succ_r by lia.
  apply Z.le_trans with ((base * acc + d) * base ^ Z.of_nat (length ds)); [|apply IH; auto; nia].
  assert (0 < base ^ Z.of_nat (length ds)) by (apply Z.pow_pos_nonneg; lia). nia.
Qed.

Lemma take_digits_range dv base l : (forall c d, dv c = Some d -> 0 <= d < base) ->
  Forall (fun d => 0 <= d < base) (take_digits dv l).
Proof.
  intros Hdv. induction l as [|c l IH]; cbn [take_digits]; [constructor|].
  destruct (dv c) eqn:E; constructor; eauto.
Qed.

Section ParseSpec.
Context (dv : Z -> option Z) (overflows : Z -> Z -> bool) (push : Z -> Z -> Z) (base max : Z).
Context (Hbase : 1 <= base) (Hdv : forall c d, dv c = Some d -> 0 <= d < base).
Context (Hov : forall r d, 0 <= r <= max -> 0 <= d < base -> overflows r d = (max <? base * r + d)).
Context (Hpush : forall r d, 0 <= r -> 0 <= d < base -> base * r + d <= max -> push r d = base * r + d).

Lemma parse_loop_spec buf maxChars : forall i r, 0 <= r <= max ->
  let ds := take_digits dv (firstn (Z.to_nat (maxChars - i)) buf) in
  parse_loop dv overflows push buf maxChars i r =
  if value base r ds <=? max then Some (i + Z.of_nat (length ds), value base r ds) else None.
Proof using Hbase Hdv Hov Hpush.
  induction buf as [|c buf IH]; intros i r Hr; cbn [parse_loop].
  - rewrite firstn_nil. cbn. rewrite (proj2 (Z.leb_le _ _)), Z.add_0_r by lia. now destruct (i <? maxChars).
  - destruct (Z.ltb_spec i maxChars) as [Hi|Hi]; cbn [negb].
    2: { replace (Z.to_nat (maxChars - i)) with 0%nat by lia. cbn.
         now rewrite (proj2 (Z.leb_le _ _)), Z.add_0_r by lia. }
    replace (Z.to_nat (maxChars - i)) with (S (Z.to_nat (maxChars - (i + 1)))) by lia.
    cbn [firstn take_digits]. destruct (dv c) as [d|] eqn:Ed.
    2: { cbn. now rewrite (proj2 (Z.leb_le _ _)), Z.add_0_r by lia. }
    pose proof (Hdv _ _ Ed) as Hd. rewrite Hov by lia.
    cbn [value fold_left length]. set (ds := take_digits _ _) in *.
    change (fold_left _ ds (base * r + d)) with (value base (base * r + d) ds).
    destruct (Z.ltb_spec max (base * r + d)).
    + assert (base * r + d <= value base (base * r + d) ds)
        by (apply value_ge; [lia|nia|now apply take_digits_range]).
      now rewrite (proj2 (Z.leb_gt _ _)) by lia.
    + rewrite Hpush, IH by nia. fold ds. rewrite Nat2Z.inj_succ.
      destruct (_ <=? max); [|reflexivity]. do 2 f_equal. lia.
Qed.
End ParseSpec.

Lemma dec_digit_range c d : dec_digit c = Some d -> 0 <= d < 10.
Proof.
  unfold dec_digit. pose proof (wrap_bound 64 (c - 48)).
  destruct (Z.ltb_spec 9 (u64 (c - 48))); intros [= <-]; lia.
Qed.

Lemma dec_digit_char d : 0 <= d < 10 -> dec_digit (48 + d) = Some d.
Proof.
  intros Hd. unfold dec_digit. replace (48 + d - 48) with d by lia. rewrite wrap_small by lia.
  now rewrite (proj2 (Z.ltb_ge _ _)) by lia.
Qed.

Lemma dec_overflows max r d : 9 <= max < 2 ^ 64 -> 0 <= r <= max -> 0 <= d < 10 ->
  (u64 (max - d) / 10 <? r) = (max <? 10 * r + d).
Proof.
  intros Hm Hr Hd. rewrite wrap_small by lia.
  pose proof (Z.div_mod (max - d) 10). pose proof (Z.mod_pos_bound (max - d) 10).
  destruct (Z.ltb_spec ((max - d) / 10) r), (Z.ltb_spec max (10 * r + d)); lia.
Qed.

Lemma dec_push max r d : max < 2 ^ 64 -> 0 <= r -> 0 <= d < 10 -> 10 * r + d <= max ->
  u64 (r * 10 + d) = 10 * r + d.
Proof. intros. rewrite wrap_small; lia. Qed.

(** [util_strToUint] reads the longest run of decimal digits within [maxChars]
    and returns their count and value; it returns -1 exactly when that value
    exceeds [UINT64_MAX] and 0, storing nothing, when there is no digit. *)
Lemma util_strToUint_digits buf maxChars :
  util_strToUint buf maxChars
  = parsed UINT64_MAX 0 1 10 (take_digits dec_digit (firstn (Z.to_nat maxChars) buf)).
Proof.
  unfold util_strToUint, parsed. rewrite (parse_loop_spec _ _ _ 10 UINT64_MAX).
  - rewrite Z.sub_0_r. set (ds := take_digits _ _). destruct (_ <=? _); [|reflexivity].
    destruct ds; [reflexivity|]. cbn [length]. rewrite (proj2 (Z.ltb_lt _ _)) by lia.
    f_equal. f_equal. lia.
  - lia.
  - exact dec_digit_range.
  - intros. apply dec_overflows; unfold UINT64_MAX in *; lia.
  - intros. apply (dec_push UINT64_MAX); unfold UINT64_MAX in *; lia.
  - unfold UINT64_MAX. lia.
Qed.

Lemma u64_neg x : 0 <= x <= 2 ^ 63 -> i64 (u64 (x * u64 (1 - u64 (1 << 1)))) = - x.
Proof.
  intros Hx. change (u64 (1 - u64 (1 << 1))) with (2 ^ 64 - 1).
  destruct (Z.eq_dec x 0) as [->|]; [reflexivity|].
  assert (u64 (x * (2 ^ 64 - 1)) = 2 ^ 64 - x) as ->.
  { unfold wrap. symmetry. apply (Z.mod_unique_pos _ _ (x - 1)); lia. }
  unfold swrap. change (2 ^ (64 - 1)) with (2 ^ 63).
  rewrite <- (Z.mod_unique_pos (2 ^ 64 - x + 2 ^ 63) (2 ^ 64) 1 (2 ^ 63 - x)) by lia. lia.
Qed.

(** [util_strToInt] reads an optional minus sign and the longest run of decimal
    digits within [maxChars]; it returns -1 exactly when the magnitude exceeds
    [INT64_MAX], or [INT64_MAX + 1] after a minus sign, so that the whole range of
    [int64_t] parses, and 0 when there is no digit. *)
Lemma util_strToInt_digits buf maxChars :
  util_strToInt buf maxChars =
  if maxChars <=? 0 then (0, None)
  else if get buf 0 =? 45
  then parsed (INT64_MAX + 1) 1 (-1) 10
         (take_digits dec_digit (firstn (Z.to_nat (maxChars - 1)) (skipn 1 buf)))
  else parsed INT64_MAX 0 1 10 (take_digits dec_digit (firstn (Z.to_nat maxChars) buf)).
Proof.
  unfold util_strToInt. destruct (Z.leb_spec maxChars 0); [reflexivity|].
  destruct (get buf 0 =? 45); rewrite (wrap_small 64) by (unfold INT64_MAX; lia).
  - rewrite (parse_loop_spec _ _ _ 10 (INT64_MAX + 1)) by
      (try exact dec_digit_range; intros; try apply dec_overflows; try apply (dec_push (INT64_MAX + 1));
       unfold INT64_MAX in *; lia).
    change (Z.to_nat 1) with 1%nat. set (ds := take_digits _ _).
    pose proof (value_ge 10 0 ds ltac:(lia) ltac:(lia) (take_digits_range _ _ _ dec_digit_range)).
    unfold parsed. destruct (Z.leb_spec (value 10 0 ds) (INT64_MAX + 1)); [|reflexivity].
    destruct ds as [|d ds']; [reflexivity|]. cbn [length].
    rewrite (proj2 (Z.ltb_lt _ _)), u64_neg by (unfold INT64_MAX in *; lia). do 2 f_equal; lia.
  - rewrite (parse_loop_spec _ _ _ 10 (INT64_MAX + 0)) by
      (try exact dec_digit_range; intros; try apply dec_overflows; try apply (dec_push (INT64_MAX + 0));
       unfold INT64_MAX in *; lia).
    change (Z.to_nat 0) with 0%nat. cbn [skipn]. rewrite Z.sub_0_r, Z.add_0_r. set (ds := take_digits _ _).
    pose proof (value_ge 10 0 ds ltac:(lia) ltac:(lia) (take_digits_range _ _ _ dec_digit_range)).
    unfold parsed. destruct (Z.leb_spec (value 10 0 ds) INT64_MAX); [|reflexivity].
    destruct ds as [|d ds']; [reflexivity|]. cbn [length].
    rewrite (proj2 (Z.ltb_lt _ _)) by lia. do 2 f_equal.
    change (u64 (1 - u64 (0 << 1))) with 1. unfold INT64_MAX in *.
    rewrite Z.mul_1_r, wrap_small, swrap_small by lia. lia.
Qed.

Lemma hex_digit_range c d : hex_digit c = Some d -> 0 <= d < 16.
Proof.
  unfold hex_digit. set (d0 := u64 (c - 48)). set (d1 := u64 (d0 + _)). set (d2 := u64 (d1 + _)).
  pose proof (wrap_bound 64 (c - 48) ltac:(lia)) as H0. fold d0 in H0.
  pose proof (wrap_bound 64 (d0 + u64 (48 - 65)) ltac:(lia)) as H1. fold d1 in H1.
  pose proof (wrap_bound 64 (d1 + u64 (65 - 97)) ltac:(lia)) as H2. fold d2 in H2.
  clearbody d0 d1 d2.
  destruct (Z.ltb_spec 9 d0); [|intros [= <-]; lia].
  destruct (Z.ltb_spec 5 d1); [destruct (Z.ltb_spec 5 d2); [discriminate|]|];
    intros [= <-]; rewrite wrap_small; lia.
Qed.

Lemma hex_push r d : 0 <= r -> 0 <= d < 16 -> 16 * r + d <= UINT64_MAX ->
  u64 (r << 4) .| d = 16 * r + d.
Proof.
  intros. unfold UINT64_MAX in *. rewrite shiftl_mul, wrap_small, Z.lor_comm, lor_add by lia. lia.
Qed.

(** [util_hexToUint] reads the longest run of hexadecimal digits (either case)
    within [maxChars] and returns their count and value, -1 exactly when the value
    exceeds [UINT64_MAX], and 0 when there is no digit. *)
Lemma util_hexToUint_digits buf maxChars :
  util_hexToUint buf maxChars
  = parsed UINT64_MAX 0 1 16 (take_digits hex_digit (firstn (Z.to_nat maxChars) buf)).
Proof.
  unfold util_hexToUint, parsed. rewrite (parse_loop_spec _ _ _ 16 UINT64_MAX).
  - rewrite Z.sub_0_r. set (ds := take_digits _ _). destruct (_ <=? _); [|reflexivity].
    destruct ds; [reflexivity|]. cbn [length]. rewrite (proj2 (Z.ltb_lt _ _)) by lia.
    f_equal. f_equal. lia.
  - lia.
  - exact hex_digit_range.
  - intros r d Hr Hd. change (UINT64_MAX >> 4) with (2 ^ 60 - 1). unfold UINT64_MAX in *.
    destruct (Z.ltb_spec (2 ^ 60 - 1) r), (Z.ltb_spec (2 ^ 64 - 1) (16 * r + d)); lia.
  - exact hex_push.
  - unfold UINT64_MAX. lia.
Qed.

(** ** Printing *)

Lemma set_split (l : list Z) i v : (i < length l)%nat ->
  set l i v = firstn i l ++ v :: skipn (S i) l.
Proof.
  revert i. induction l as [|x l IH]; intros [|i] Hi; cbn in *; [lia|lia|reflexivity|].
  f_equal. apply IH. lia.
Qed.

Lemma printed_cons buf e v r text : (0 < e <= length buf)%nat ->
  printed (set buf (e - 1) v) (e - 1) r text -> printed buf e r (text ++ [v]).
Proof.
  intros He [Hp Hr]. rewrite set_split in Hr by lia. split; [lens|]. rewrite Hr. clear Hr.
  rewrite firstn_app_l by lens. rewrite firstn_firstn, Nat.min_l by lia.
  rewrite skipn_app, skipn_all2 by lens. rewrite length_firstn, Nat.min_l, Nat.sub_diag by lia.
  rewrite skipn_O. replace (S (e - 1)) with e by lia. now rewrite <- app_assoc.
Qed.

Lemma printed_nil buf e : printed buf e (buf, e) [].
Proof. split; cbn; [lia|]. symmetry. apply firstn_skipn. Qed.

Definition dec_chars (ds : list Z) : list Z := map (fun d => 48 + d) ds.

(** The digits written for [n]: its decimal expansion without leading zeros. *)
Definition decimal (n : Z) (ds : list Z) : Prop :=
  Forall (fun d => 0 <= d < 10) ds /\ value 10 0 ds = n /\
  (0 < length ds)%nat /\ (get ds 0 = 0 -> ds = [0]).

Lemma dec_loop_digits fuel : forall k buf e n, 0 <= n < 10 ^ Z.of_nat k -> (0 < k <= fuel)%nat ->
  (k <= e <= length buf)%nat ->
  exists ds, decimal n ds /\ (length ds <= k)%nat /\ printed buf e (dec_loop fuel buf e n) (dec_chars ds).
Proof.
  induction fuel as [|fuel IH]; intros k buf e n Hn Hk He; [lia|]. cbn [dec_loop]. destruct k as [|k]; [lia|].
  pose proof (Z.mod_pos_bound n 10) as Hm. pose proof (Z.div_mod n 10) as Hd.
  rewrite (wrap_small 8) by lia. rewrite Nat2Z.inj_succ, Z.pow_succ_r in Hn by lia.
  destruct (Z.eqb_spec (n / 10) 0) as [E|E].
  - exists [n mod 10]. split; [|split; [cbn; lia|apply (printed_cons _ _ _ _ []); [lia|apply printed_nil]]].
    unfold decimal. cbn. repeat split; [repeat constructor; lia|lia|lia|now intros ->].
  - assert (0 <= n / 10) by (apply Z.div_pos; lia).
    assert (0 < k)%nat by (destruct k; [cbn in Hn; lia|lia]).
    destruct (IH k (set buf (e - 1) (48 + n mod 10)) (e - 1)%nat (n / 10)) as (ds & (Hr & Hv & Hl & Hz) & Hlen & Hp);
      [lia|lia|lens|]. exists (ds ++ [n mod 10]).
    split; [|split; [lens|unfold dec_chars; rewrite map_app; now apply printed_cons; [lia|]]].
    split; [apply Forall_app; split; [assumption|repeat constructor; lia]|].
    split; [rewrite value_app, Hv; unfold value; cbn [fold_left]; lia|]. split; [lens|].
    unfold get in *. rewrite app_nth1 by lia. intros ->%Hz. cbn in Hv. lia.
Qed.

Lemma dec_loop_spec fuel buf e n : 0 <= n < 10 ^ Z.of_nat fuel -> (0 < fuel)%nat -> (fuel <= e <= length buf)%nat ->
  exists ds, decimal n ds /\ (length ds <= fuel)%nat /\ printed buf e (dec_loop fuel buf e n) (dec_chars ds).
Proof. intros Hn Hf He. apply dec_loop_digits; auto. Qed.

Lemma take_dec_chars ds rest : Forall (fun d => 0 <= d < 10) ds ->
  take_digits dec_digit (firstn (length (dec_chars ds)) (dec_chars ds ++ rest)) = ds.
Proof.
  intros H. rewrite firstn_app_l, firstn_all by lia.
  induction H as [|d ds Hd Hds IH]; cbn [dec_chars map take_digits]; [reflexivity|].
  rewrite dec_digit_char by assumption. now f_equal.
Qed.

Lemma dec_chars_sign ds : Forall (fun d => 0 <= d < 10) ds -> get (dec_chars ds) 0 <> 45.
Proof. unfold get. destruct 1; cbn [dec_chars map nth]; lia. Qed.

Lemma printed_sign buf e b p text : (1 <= p)%nat -> (e <= length buf)%nat ->
  printed buf e (b, p) text -> printed buf e (set b (p - 1) 45, (p - 1)%nat) (45 :: text).
Proof.
  intros Hp He [Hl Hb]. cbn [fst snd] in *. subst b. split; cbn [fst snd length]; [lia|].
  rewrite set_split by lens. rewrite firstn_app_l by lens. rewrite firstn_firstn, Nat.min_l by lia.
  rewrite skipn_app, skipn_all2 by lens. rewrite length_firstn.
  replace (S (p - 1) - Nat.min p (length buf))%nat with 0%nat by lia. now rewrite skipn_O.
Qed.

Lemma get_dec_chars ds : (0 < length ds)%nat -> (get ds 0 = 0 -> ds = [0]) ->
  get (dec_chars ds) 0 = 48 -> dec_chars ds = [48].
Proof. unfold get. destruct ds as [|d ds]; cbn [length dec_chars map nth]; [lia|]. intros _ H E.
  assert (d :: ds = [0]) as [= -> ->] by (apply H; lia). reflexivity.
Qed.

(** [util_uintToStr] writes at most 20 characters right before [bufferEnd],
    changes nothing else, writes no leading zero, and [util_strToUint] reads the
    number back from them, for every 64 bit number. *)
Theorem util_uintToStr_roundtrip buf e n :
  0 <= n < 2 ^ 64 -> (20 <= e <= length buf)%nat ->
  exists text, printed buf e (util_uintToStr buf e n) text /\
    (0 < length text <= 20)%nat /\ (get text 0 = 48 -> text = [48]) /\
    forall rest, util_strToUint (text ++ rest) (Z.of_nat (length text))
                 = (Z.of_nat (length text), Some n).
Proof.
  intros Hn He. destruct (dec_loop_spec 20 buf e n) as (ds & (Hr & Hv & Hl & Hz) & Hlen & Hp); [lia..|].
  exists (dec_chars ds). split; [exact Hp|]. split; [unfold dec_chars; lens|].
  split; [now apply get_dec_chars|]. intros rest.
  rewrite util_strToUint_digits, Nat2Z.id, take_dec_chars by assumption. unfold parsed, UINT64_MAX.
  rewrite Hv, (proj2 (Z.leb_le _ _)) by lia. unfold dec_chars. rewrite length_map.
  destruct ds; [cbn in Hl; lia|]. f_equal; (lia || (f_equal; lia)).
Qed.

Lemma util_uintToStr_roundtrip_witness :
  (exists text, printed (repeat 7 24) 20 (util_uintToStr (repeat 7 24) 20 UINT64_MAX) text /\
    (0 < length text <= 20)%nat /\ (get text 0 = 48 -> text = [48]) /\
    forall rest, util_strToUint (text ++ rest) (Z.of_nat (length text))
                 = (Z.of_nat (length text), Some UINT64_MAX)) /\
  util_uintToStr (repeat 7 24) 20 UINT64_MAX = (str "18446744073709551615" ++ [7; 7; 7; 7], 0%nat).
Proof.
  split; [|vm_compute; reflexivity].
  apply (util_uintToStr_roundtrip (repeat 7 24) 20 UINT64_MAX); [unfold UINT64_MAX; lia|cbn; lia].
Defined.

(** [util_intToStr] of a number of at most [k] digits: the characters it writes, and the
    room that they need. *)
Lemma util_intToStr_digits k buf e n : (0 < k <= 20)%nat -> Z.abs n < 10 ^ Z.of_nat k -> - 2 ^ 63 <= n < 2 ^ 63 ->
  let room := if n <? 0 then S k else k in
  (room <= e <= length buf)%nat ->
  exists text, printed buf e (util_intToStr buf e n) text /\ (0 < length text <= room)%nat /\
    forall rest, util_strToInt (text ++ rest) (Z.of_nat (length text)) = (Z.of_nat (length text), Some n).
Proof.
  cbv zeta. intros Hk Hn Hn' He. unfold util_intToStr.
  assert ((if n <? 0 then u64 (- u64 n) else u64 n) = Z.abs n) as ->.
  { destruct (Z.ltb_spec n 0); [|rewrite wrap_small by lia; lia].
    unfold wrap. rewrite <- (Z.mod_unique_pos n (2 ^ 64) (-1) (n + 2 ^ 64)) by lia.
    symmetry. apply (Z.mod_unique_pos _ _ (-1)); lia. }
  destruct (dec_loop_digits 20 k buf e (Z.abs n)) as (ds & (Hr & Hv & Hl & Hz) & Hlen & Hp); [lia..|destruct (n <? 0); lia|].
  assert (length (dec_chars ds) = length ds) as Hdl by (unfold dec_chars; lens).
  destruct (dec_loop 20 buf e (Z.abs n)) as [b' p] eqn:Edec. pose proof (proj1 Hp) as Hp1. cbn [snd] in Hp1.
  destruct (Z.ltb_spec n 0) as [Hneg|Hneg].
  - exists (45 :: dec_chars ds). split; [now apply printed_sign; [lia..|]|].
    split; [cbn; lia|]. intros rest. rewrite util_strToInt_digits. cbn [length app get nth skipn Z.eqb Pos.eqb].
    rewrite (proj2 (Z.leb_gt _ _)) by lia.
    replace (Z.to_nat (_ - 1)) with (length (dec_chars ds)) by lia.
    rewrite take_dec_chars by assumption. unfold parsed, INT64_MAX.
    rewrite Hv, (proj2 (Z.leb_le _ _)) by lia. rewrite Hdl. destruct ds; [cbn in Hl; lia|].
    f_equal; (lia || (f_equal; lia)).
  - exists (dec_chars ds). split; [exact Hp|]. split; [lia|]. intros rest.
    rewrite util_strToInt_digits, (proj2 (Z.leb_gt _ _)) by lia.
    rewrite (get_app_l (dec_chars ds)), Nat2Z.id, take_dec_chars by (assumption || lia).
    rewrite (proj2 (Z.eqb_neq _ _)) by (apply dec_chars_sign; assumption).
    unfold parsed, INT64_MAX. rewrite Hv, (proj2 (Z.leb_le _ _)) by lia. rewrite Hdl.
    destruct ds; [cbn in Hl; lia|]. f_equal; (lia || (f_equal; lia)).
Qed.

(** [util_intToStr] writes at most 20 characters right before [bufferEnd],
    changes nothing else, and [util_strToInt] reads the number back from them, for
    every value of [int64_t], [INT64_MIN] included. *)
Theorem util_intToStr_roundtrip buf e n :
  - 2 ^ 63 <= n < 2 ^ 63 -> (20 <= e <= length buf)%nat ->
  exists text, printed buf e (util_intToStr buf e n) text /\
    (0 < length text <= 20)%nat /\
    forall rest, util_strToInt (text ++ rest) (Z.of_nat (length text))
                 = (Z.of_nat (length text), Some n).
Proof.
  intros Hn He. destruct (util_intToStr_digits 19 buf e n) as (text & Hp & Hl & Hr); [lia|lia|lia|destruct (n <? 0); lia|].
  exists text. split; [exact Hp|]. split; [destruct (n <? 0); lia|exact Hr].
Qed.

Lemma util_intToStr_roundtrip_witness :
  (exists text, printed (repeat 7 20) 20 (util_intToStr (repeat 7 20) 20 (- 2 ^ 63)) text /\
    (0 < length text <= 20)%nat /\
    forall rest, util_strToInt (text ++ rest) (Z.of_nat (length text))
                 = (Z.of_nat (length text), Some (- 2 ^ 63))) /\
  util_intToStr (repeat 7 20) 20 (- 2 ^ 63) = (str "-9223372036854775808", 0%nat).
Proof.
  split; [|vm_compute; reflexivity].
  apply (util_intToStr_roundtrip (repeat 7 20) 20 (- 2 ^ 63)); [lia|cbn; lia].
Defined.

(** the three parsers read the longest run of digits within [maxChars] (decimal,
    decimal after an optional minus sign, hexadecimal of either case) and return the
    number of characters and the exact value; they return -1 exactly when the value
    does not fit [uint64_t] or [int64_t], and 0 without storing anything when there
    is no digit. *)
Theorem util_parse_correct buf maxChars :
  util_strToUint buf maxChars
    = parsed UINT64_MAX 0 1 10 (take_digits dec_digit (firstn (Z.to_nat maxChars) buf)) /\
  util_strToInt buf maxChars =
    (if maxChars <=? 0 then (0, None)
     else if get buf 0 =? 45
     then parsed (INT64_MAX + 1) 1 (-1) 10
            (take_digits dec_digit (firstn (Z.to_nat (maxChars - 1)) (skipn 1 buf)))
     else parsed INT64_MAX 0 1 10 (take_digits dec_digit (firstn (Z.to_nat maxChars) buf))) /\
  util_hexToUint buf maxChars
    = parsed UINT64_MAX 0 1 16 (take_digits hex_digit (firstn (Z.to_nat maxChars) buf)).
Proof.
  split; [|split]; [apply util_strToUint_digits|apply util_strToInt_digits|apply util_hexToUint_digits].
Qed.

(** ** Hexadecimal printing *)

Definition hex_chars (ds : list Z) : list Z := map (fun d => get util_hexTable (Z.to_nat d)) ds.

Lemma hex_digit_char d : 0 <= d < 16 -> hex_digit (get util_hexTable (Z.to_nat d)) = Some d.
Proof.
  intros Hd. assert (exists k, (k < 16)%nat /\ d = Z.of_nat k) as (k & Hk & ->)
    by (exists (Z.to_nat d); lia). rewrite Nat2Z.id.
  do 16 (destruct k as [|k]; [reflexivity|]). lia.
Qed.

Lemma take_hex_chars ds rest : Forall (fun d => 0 <= d < 16) ds ->
  take_digits hex_digit (firstn (length (hex_chars ds)) (hex_chars ds ++ rest)) = ds.
Proof.
  intros H. rewrite firstn_app_l, firstn_all by lia.
  induction H as [|d ds Hd Hds IH]; cbn [hex_chars map take_digits]; [reflexivity|].
  rewrite hex_digit_char by assumption. now f_equal.
Qed.

Lemma nibbles n : 0 <= n ->
  n & 0xF = n mod 16 /\ (n >> 4) & 0xF = (n / 16) mod 16 /\ n >> 8 = n / 256 /\
  n = 256 * (n / 256) + 16 * ((n / 16) mod 16) + n mod 16.
Proof.
  intros Hn. rewrite !(land_mask 4), !shiftr_div by (lia || reflexivity).
  change (2 ^ 4) with 16. change (2 ^ 8) with 256. repeat split.
  assert (n / 256 = n / 16 / 16) by (rewrite Z.div_div by lia; reflexivity).
  pose proof (Z.div_mod n 16). pose proof (Z.div_mod (n / 16) 16). lia.
Qed.

Lemma hex_loop_spec fuel : forall buf e n, 0 <= n < 256 ^ Z.of_nat fuel -> (0 < fuel)%nat ->
  (2 * fuel <= e <= length buf)%nat ->
  exists ds, Forall (fun d => 0 <= d < 16) ds /\ value 16 0 ds = n /\
    (0 < length ds <= 2 * fuel)%nat /\ printed buf e (hex_loop fuel buf e n) (hex_chars ds).
Proof.
  induction fuel as [|fuel IH]; intros buf e n Hn Hf He; [lia|]. cbn [hex_loop].
  destruct (nibbles n) as (-> & -> & -> & Hsum); [lia|].
  pose proof (Z.mod_pos_bound n 16) as Hlo. pose proof (Z.mod_pos_bound (n / 16) 16) as Hhi.
  set (lo := n mod 16) in *. set (hi := (n / 16) mod 16) in *.
  rewrite Nat2Z.inj_succ, Z.pow_succ_r in Hn by lia.
  assert (0 <= n / 256) by (apply Z.div_pos; lia).
  replace (e - 2)%nat with (e - 1 - 1)%nat by lia.
  set (c1 := get _ (Z.to_nat lo)). set (c2 := get _ (Z.to_nat hi)).
  assert (forall ds, printed (set (set buf (e - 1) c1) (e - 1 - 1) c2) (e - 1 - 1)
      (if n / 256 =? 0 then (set (set buf (e - 1) c1) (e - 1 - 1) c2, (e - 1 - 1)%nat)
       else hex_loop fuel (set (set buf (e - 1) c1) (e - 1 - 1) c2) (e - 1 - 1) (n / 256)) (hex_chars ds) ->
    printed buf e
      (if n / 256 =? 0 then (set (set buf (e - 1) c1) (e - 1 - 1) c2, (e - 1 - 1)%nat)
       else hex_loop fuel (set (set buf (e - 1) c1) (e - 1 - 1) c2) (e - 1 - 1) (n / 256))
      (hex_chars (ds ++ [hi; lo]))) as Hstep.
  { intros ds Hp. unfold hex_chars. rewrite map_app. cbn [map]. fold c1 c2.
    replace (map _ ds ++ [c2; c1]) with ((hex_chars ds ++ [c2]) ++ [c1]) by now rewrite <- app_assoc.
    apply printed_cons; [lia|]. apply printed_cons; [lens|]. exact Hp. }
  destruct (Z.eqb_spec (n / 256) 0) as [E|E].
  - exists ([] ++ [hi; lo]). split; [repeat constructor; lia|].
    split; [unfold value; cbn [app fold_left]; lia|]. split; [cbn; lia|]. apply Hstep, printed_nil.
  - assert (0 < fuel)%nat by (destruct fuel; [cbn in Hn; lia|lia]).
    destruct (IH (set (set buf (e - 1) c1) (e - 1 - 1) c2) (e - 1 - 1)%nat (n / 256))
      as (ds & Hr & Hv & Hl & Hp); [lia|lia|lens|]. exists (ds ++ [hi; lo]).
    split; [apply Forall_app; split; [assumption|repeat constructor; lia]|].
    split; [rewrite value_app, Hv; unfold value; cbn [fold_left]; lia|]. split; [lens|]. now apply Hstep.
Qed.

(** [util_uintToHex] writes at most 16 characters right before [bufferEnd],
    changes nothing else, and [util_hexToUint] reads the number back from them. *)
Theorem util_uintToHex_roundtrip buf e n :
  0 <= n < 2 ^ 64 -> (16 <= e <= length buf)%nat ->
  exists text, printed buf e (util_uintToHex buf e n) text /\
    (0 < length text <= 16)%nat /\
    forall rest, util_hexToUint (text ++ rest) (Z.of_nat (length text))
                 = (Z.of_nat (length text), Some n).
Proof.
  intros Hn He. destruct (hex_loop_spec 8 buf e n) as (ds & Hr & Hv & Hl & Hp); [lia..|].
  assert (length (hex_chars ds) = length ds) as Hdl by (unfold hex_chars; lens).
  exists (hex_chars ds). split; [exact Hp|]. split; [lia|]. intros rest.
  rewrite util_hexToUint_digits, Nat2Z.id, take_hex_chars by assumption. unfold parsed, UINT64_MAX.
  rewrite Hv, (proj2 (Z.leb_le _ _)) by lia. rewrite Hdl.
  destruct ds; [cbn in Hl; lia|]. f_equal; (lia || (f_equal; lia)).
Qed.

Lemma util_uintToHex_roundtrip_witness :
  (exists text, printed (repeat 7 16) 16 (util_uintToHex (repeat 7 16) 16 0xBEEF12) text /\
    (0 < length text <= 16)%nat /\
    forall rest, util_hexToUint (text ++ rest) (Z.of_nat (length text))
                 = (Z.of_nat (length text), Some 0xBEEF12)) /\
  util_uintToHex (repeat 7 16) 16 0xBEEF12 = (repeat 7 10 ++ str "BEEF12", 10%nat).
Proof.
  split; [|vm_compute; reflexivity].
  apply (util_uintToHex_roundtrip (repeat 7 16) 16 0xBEEF12); [lia|cbn; lia].
Defined.

(** ** C strings and the environment *)

(** Reference: what follows [pre] in [l]. *)
Fixpoint strip_prefix (pre l : list Z) : option (list Z) :=
  match pre, l with
  | [], _ => Some l
  | p :: pre', c :: l' => if p =? c then strip_prefix pre' l' else None
  | _ :: _, [] => None
  end.

Definition no_nul (l : list Z) : Prop := Forall (fun c => c <> 0) l.

Lemma util_cstrLen_spec s rest : no_nul s -> util_cstrLen (s ++ 0 :: rest) = length s.
Proof.
  induction 1 as [|c s Hc Hs IH]; [reflexivity|]. cbn [app util_cstrLen length].
  rewrite (proj2 (Z.eqb_neq c 0)) by assumption. now f_equal.
Qed.

Lemma getEnv_match_spec name env : no_nul name ->
  getEnv_match env (name ++ [0]) = strip_prefix name env.
Proof.
  intros Hn. revert env. induction Hn as [|c name Hc Hn IH]; intros env; [destruct env; reflexivity|].
  cbn [app getEnv_match]. rewrite (proj2 (Z.eqb_neq c 0)) by assumption.
  destruct env as [|e env]; cbn [get nth strip_prefix skipn]; [reflexivity|].
  destruct (Z.eqb_spec e 0) as [->|].
  - now rewrite (proj2 (Z.eqb_neq c 0)) by assumption.
  - rewrite (Z.eqb_sym c e). destruct (e =? c); [apply IH|reflexivity].
Qed.

Lemma strip_prefix_snoc pre c l : strip_prefix (pre ++ [c]) l =
  match strip_prefix pre l with
  | Some (d :: l') => if c =? d then Some l' else None
  | _ => None
  end.
Proof.
  revert l. induction pre as [|p pre IH]; intros [|d l]; cbn; try reflexivity.
  destruct (p =? d); [apply IH|reflexivity].
Qed.

(** [util_getEnv] returns what follows "NAME=" in the first entry of the
    environment that starts with it, and nothing when no entry does. *)
Theorem util_getEnv_spec envp name : no_nul name ->
  util_getEnv envp (name ++ [0]) =
  hd_error (flat_map (fun env => match strip_prefix (name ++ [61]) env with
                                 | Some v => [v] | None => [] end) envp).
Proof.
  intros Hn. induction envp as [|env envp IH]; [reflexivity|].
  cbn [util_getEnv flat_map]. rewrite getEnv_match_spec, strip_prefix_snoc by assumption.
  destruct (strip_prefix name env) as [[|d v]|]; cbn [get nth skipn]; try exact IH.
  rewrite (Z.eqb_sym 61 d). destruct (d =? 61); [reflexivity|exact IH].
Qed.

Lemma util_getEnv_spec_witness :
  util_getEnv [str "HOME=/root"; str "AB=1"; str "A=2"; str "A=3"] (str "A" ++ [0]) = Some (str "2").
Proof. rewrite util_getEnv_spec; [reflexivity|repeat constructor; discriminate]. Defined.
