(* ===== verification/Alloc.v ===== *)
(** * Alignment, greatest common divisors and the allocator

    [src/hc/core/hc/math.c], [allocator.c] and [linux/heap.c].  The allocator
    reserves a range of addresses once and commits and decommits pages of it.  It
    is written against the four [heap_*] functions, here the class [Heap]; the laws
    in [HeapLaws] say which addresses are accessible after each call and which
    contents are kept, and [linux_heap_laws] derives them for [linux/heap.c] from
    the documented behaviour of [mmap] and [mprotect]. *)
From Stdlib Require Import ZArith List Lia Bool Znumtheory.
From S2P Require Import Prelude.
Import ListNotations.

(** ** [math.c] *)

Definition math_ALIGN_FORWARD (X ALIGN : Z) : Z := (X + (ALIGN - 1)) & Z.lnot (ALIGN - 1).
Definition math_ALIGN_BACKWARD (X ALIGN : Z) : Z := X & Z.lnot (ALIGN - 1).
Definition math_ALIGN_REMAINDER (X ALIGN : Z) : Z := X & (ALIGN - 1).
Definition math_PAD_BYTES (X ALIGN : Z) : Z := (- X) & (ALIGN - 1).
Definition math_RANGES_OVERLAP (X_START X_END Y_START Y_END : Z) : bool :=
  (X_START <? Y_END) && (Y_START <? X_END).

(** [while (b != 0) { temp = a % b; a = b; b = temp; }] *)
Fixpoint gcd_loop (fuel : nat) (a b : Z) : option Z :=
  match fuel with
  | O => None
  | S fuel' => if b =? 0 then Some a else gcd_loop fuel' b (a mod b)
  end.

(** [b] halves every second iteration, so two iterations per bit suffice. *)
Definition math_gcd64 (a b : Z) : option Z := gcd_loop 130 a b.
Definition math_gcd32 (a b : Z) : option Z := gcd_loop 66 a b.

Lemma ones_sub n : 2 ^ n - 1 = Z.ones n.
Proof. rewrite Z.ones_equiv. lia. Qed.

Section Align.
Context (n X : Z) (Hn : 0 <= n).
Abbreviation A := (2 ^ n).

Lemma align_backward_div : math_ALIGN_BACKWARD X A = X / A * A.
Proof using Hn.
  unfold math_ALIGN_BACKWARD. rewrite <- Z.ldiff_land, ones_sub, Z.ldiff_ones_r by lia.
  now rewrite shiftl_mul, shiftr_div by lia.
Qed.

Lemma align_forward_div : math_ALIGN_FORWARD X A = (X + (A - 1)) / A * A.
Proof using Hn.
  unfold math_ALIGN_FORWARD. rewrite <- Z.ldiff_land, ones_sub, Z.ldiff_ones_r by lia.
  now rewrite shiftl_mul, shiftr_div by lia.
Qed.

(** The forward alignment is the multiple of [ALIGN] in [X, X + ALIGN). *)
Lemma align_forward_bound :
  X <= math_ALIGN_FORWARD X A < X + A /\ (A | math_ALIGN_FORWARD X A).
Proof using Hn.
  rewrite align_forward_div. split; [|apply Z.divide_factor_r].
  assert (0 < A) by (apply Z.pow_pos_nonneg; lia).
  pose proof (Z.div_mod (X + (A - 1)) A). pose proof (Z.mod_pos_bound (X + (A - 1)) A). lia.
Qed.

Lemma align_pad : math_ALIGN_FORWARD X A = X + math_PAD_BYTES X A.
Proof using Hn.
  unfold math_PAD_BYTES. rewrite ones_sub, Z.land_ones, align_forward_div by lia.
  assert (0 < A) by (apply Z.pow_pos_nonneg; lia).
  pose proof (Z.div_mod (- X) A). pose proof (Z.mod_pos_bound (- X) A).
  rewrite <- (Z.div_unique (X + (A - 1)) A (- ((- X) / A)) (A - 1 - (- X) mod A)); lia.
Qed.
End Align.

(** for a power of two [ALIGN], [math_ALIGN_FORWARD] is the least multiple of
    [ALIGN] not below [X], [math_ALIGN_BACKWARD] the greatest not above it,
    [math_ALIGN_REMAINDER] the distance from the latter and [math_PAD_BYTES] the
    distance to the former, also for negative [X]. *)
Theorem math_align_correct n X : 0 <= n ->
  let A := 2 ^ n in
  (forall m, (A | m) -> X <= m -> math_ALIGN_FORWARD X A <= m) /\
  X <= math_ALIGN_FORWARD X A /\ (A | math_ALIGN_FORWARD X A) /\
  (forall m, (A | m) -> m <= X -> m <= math_ALIGN_BACKWARD X A) /\
  math_ALIGN_BACKWARD X A <= X /\ (A | math_ALIGN_BACKWARD X A) /\
  math_ALIGN_REMAINDER X A = X - math_ALIGN_BACKWARD X A /\
  math_PAD_BYTES X A = math_ALIGN_FORWARD X A - X.
Proof.
  intros Hn A. destruct (align_forward_bound n X Hn) as [Hf Hd].
  assert (0 < A) by (apply Z.pow_pos_nonneg; lia).
  rewrite (align_pad n X Hn) in Hf, Hd. unfold A.
  rewrite (align_pad n X Hn), (align_backward_div n X Hn). fold A in Hf, Hd |- *.
  pose proof (Z.div_mod X A). pose proof (Z.mod_pos_bound X A).
  split.
  { intros m [k ->] Hm. destruct Hd as [j Hj]. rewrite Hj in *.
    assert (j < k + 1) by (apply (Z.mul_lt_mono_pos_r A); lia). apply Z.mul_le_mono_nonneg_r; lia. }
  split; [lia|]. split; [assumption|].
  split; [intros m [k ->] Hm; apply Z.mul_le_mono_nonneg_r, Z.div_le_lower_bound; lia|]. split; [lia|]. split; [apply Z.divide_factor_r|].
  split; [|lia]. unfold math_ALIGN_REMAINDER, A. rewrite ones_sub, Z.land_ones by lia. fold A. lia.
Qed.

Lemma math_align_correct_witness :
  math_ALIGN_FORWARD 4097 (2 ^ 12) = 8192 /\ math_PAD_BYTES 1000 (2 ^ 9) = 24.
Proof.
  destruct (math_align_correct 12 4097 ltac:(lia)) as (H & _).
  destruct (math_align_correct 9 1000 ltac:(lia)) as (_ & _ & _ & _ & _ & _ & _ & ->).
  split; [|reflexivity]. apply Z.le_antisymm; [apply (H 8192); [now exists 2|lia]|].
  vm_compute. discriminate.
Defined.

Lemma gcd_loop_spec k : forall a b fuel, 0 <= a -> 0 <= b < 2 ^ Z.of_nat k -> (2 * k < fuel)%nat ->
  gcd_loop fuel a b = Some (Z.gcd a b).
Proof.
  induction k as [|k IH]; intros a b fuel Ha Hb Hf.
  - destruct fuel as [|fuel]; [lia|]. replace b with 0 by (change (2 ^ Z.of_nat 0) with 1 in Hb; lia).
    cbn. now rewrite Z.gcd_0_r, Z.abs_eq.
  - destruct fuel as [|[|fuel]]; [lia|lia|]. cbn [gcd_loop].
    destruct (Z.eqb_spec b 0) as [->|Hb0]; [now rewrite Z.gcd_0_r, Z.abs_eq|].
    rewrite (Z.gcd_comm a b), <- (Z.gcd_mod a b), Z.gcd_comm by assumption.
    pose proof (Z.mod_pos_bound a b). set (c := a mod b) in *.
    destruct (Z.eqb_spec c 0) as [->|Hc0]; [now rewrite Z.gcd_0_r, Z.abs_eq by lia|].
    rewrite (Z.gcd_comm b c), <- (Z.gcd_mod b c), Z.gcd_comm by assumption.
    pose proof (Z.mod_pos_bound b c). pose proof (Z.div_mod b c).
    assert (1 <= b / c) by (apply Z.div_le_lower_bound; lia).
    rewrite Nat2Z.inj_succ, Z.pow_succ_r in Hb by lia.
    apply IH; [lia|nia|lia].
Qed.

(** [math_gcd64] and [math_gcd32] terminate within two iterations per bit and
    return the greatest common divisor, for all unsigned arguments (zero included). *)
Theorem math_gcd_correct a b :
  (0 <= a -> 0 <= b < 2 ^ 64 -> math_gcd64 a b = Some (Z.gcd a b)) /\
  (0 <= a -> 0 <= b < 2 ^ 32 -> math_gcd32 a b = Some (Z.gcd a b)).
Proof. split; intros; [apply (gcd_loop_spec 64)|apply (gcd_loop_spec 32)]; (lia || assumption). Qed.

Lemma math_gcd_correct_witness :
  math_gcd64 (2 ^ 40 * 15) (2 ^ 20 * 21) = Some (2 ^ 20 * 3) /\ math_gcd32 1071 462 = Some 21.
Proof.
  split; [rewrite (proj1 (math_gcd_correct _ _)) by lia | rewrite (proj2 (math_gcd_correct _ _)) by lia];
    vm_compute; reflexivity.
Defined.

(** ** The heap interface ([heap_reserve] .. [heap_decommit]) *)

Class Heap (world : Type) := {
  heap_reserve : world -> Z -> world * Z;
  heap_unreserve : world -> Z -> Z -> world;
  heap_commit : world -> Z -> Z -> world * Z;
  heap_decommit : world -> Z -> Z -> world }.

(** [accessible w x]: the byte at address [x] can be read and written; [peek w x] is
    its value.  A failed commit may have changed some pages of its range. *)
Class HeapLaws (world : Type) `{Heap world} := {
  accessible : world -> Z -> bool;
  peek : world -> Z -> Z;
  commit_inside : forall w a n x, 0 <= snd (heap_commit w a n) -> a <= x < a + n ->
    accessible (fst (heap_commit w a n)) x = true;
  commit_outside : forall w a n x, ~ a <= x < a + n ->
    accessible (fst (heap_commit w a n)) x = accessible w x /\
    peek (fst (heap_commit w a n)) x = peek w x;
  decommit_outside : forall w a n x, ~ a <= x < a + n ->
    accessible (heap_decommit w a n) x = accessible w x /\ peek (heap_decommit w a n) x = peek w x }.

Record allocator := Allocator { mem : Z; size : Z; reserveSize : Z }.

Section Allocator.
Context {world : Type} `{Heap world} (allocator_PAGE_SIZE : Z).

(** [self] is left half written when the reservation fails, as in the code. *)
Definition allocator_init (w : world) (self : allocator) (reserveSize : Z) : world * allocator * Z :=
  let reserveSize := math_ALIGN_FORWARD reserveSize allocator_PAGE_SIZE in
  let '(w, m) := heap_reserve w reserveSize in
  if m =? 0 then (w, Allocator m (size self) reserveSize, -1)
  else (w, Allocator m 0 reserveSize, 0).

Definition allocator_deinit (w : world) (self : allocator) : world :=
  heap_unreserve w (mem self) (reserveSize self).

Definition allocator_resize (w : world) (self : allocator) (newSize : Z) : world * allocator * Z :=
  let commitSize := math_ALIGN_FORWARD (size self) allocator_PAGE_SIZE in
  let newCommitSize := math_ALIGN_FORWARD newSize allocator_PAGE_SIZE in
  let diff := newCommitSize - commitSize in
  let out w := (w, Allocator (mem self) newSize (reserveSize self), 0) in
  if diff =? 0 then out w
  else if diff <? 0 then out (heap_decommit w (mem self + newCommitSize) (- diff))
  else if reserveSize self <? newCommitSize then (w, self, -1)
  else
    let '(w, status) := heap_commit w (mem self + commitSize) diff in
    if status <? 0 then (w, self, -1) else out w.
End Allocator.

(** ** [linux/heap.c] over the system calls it makes *)

Class MemorySyscalls (world : Type) := {
  sys_mmap : world -> Z -> Z -> Z -> Z -> world * Z;  (* address size prot flags *)
  sys_munmap : world -> Z -> Z -> world * Z;
  sys_mprotect : world -> Z -> Z -> Z -> world * Z }.

Definition PROT_NONE : Z := 0.
Definition PROT_READ : Z := 1.
Definition PROT_WRITE : Z := 2.
Definition MAP_PRIVATE : Z := 0x02.
Definition MAP_FIXED : Z := 0x10.
Definition MAP_ANONYMOUS : Z := 0x20.

Section LinuxHeap.
Context {world : Type} `{MemorySyscalls world}.

Definition linux_heap_reserve (w : world) (size : Z) : world * Z :=
  let '(w, mem) := sys_mmap w 0 size PROT_NONE (MAP_PRIVATE .| MAP_ANONYMOUS) in
  if i64 mem <? 0 then (w, 0) else (w, mem).

Definition linux_heap_unreserve (w : world) (address size : Z) : world :=
  fst (sys_munmap w address size).

Definition linux_heap_commit (w : world) (address size : Z) : world * Z :=
  sys_mprotect w address size (PROT_READ .| PROT_WRITE).

Definition linux_heap_decommit (w : world) (address size : Z) : world :=
  fst (sys_mmap w address size PROT_NONE (MAP_FIXED .| MAP_PRIVATE .| MAP_ANONYMOUS)).

#[global] Instance linux_heap : Heap world := {
  heap_reserve := linux_heap_reserve; heap_unreserve := linux_heap_unreserve;
  heap_commit := linux_heap_commit; heap_decommit := linux_heap_decommit }.

(** mprotect(2) and mmap(2) with [MAP_FIXED] change only the given range, and a
    successful mprotect with read and write makes the whole range accessible. *)
Context (acc : world -> Z -> bool) (val : world -> Z -> Z).
Context (mprotect_rw : forall w a n x, 0 <= snd (sys_mprotect w a n 3) -> a <= x < a + n ->
  acc (fst (sys_mprotect w a n 3)) x = true).
Context (mprotect_outside : forall w a n p x, ~ a <= x < a + n ->
  acc (fst (sys_mprotect w a n p)) x = acc w x /\ val (fst (sys_mprotect w a n p)) x = val w x).
Context (mmap_fixed_outside : forall w a n p f x, Z.testbit f 4 = true -> ~ a <= x < a + n ->
  acc (fst (sys_mmap w a n p f)) x = acc w x /\ val (fst (sys_mmap w a n p f)) x = val w x).

Definition linux_heap_laws : HeapLaws world.
Proof using mprotect_rw mprotect_outside mmap_fixed_outside.
  refine {| accessible := acc; peek := val |}.
  - exact mprotect_rw.
  - intros w a n x. apply mprotect_outside.
  - intros w a n x. apply mmap_fixed_outside. reflexivity.
Defined.
End LinuxHeap.

(** ** The allocator's invariant *)

Section AllocatorSpec.
Context {world : Type} `{HeapLaws world} (pageShift : Z) (HpageShift : 0 <= pageShift).
Abbreviation PAGE := (2 ^ pageShift).
Abbreviation up x := (math_ALIGN_FORWARD x PAGE).

(** The pages of the first [size] bytes are committed and inside the reservation. *)
Record alloc_inv (w : world) (self : allocator) : Prop := {
  ai_size : 0 <= size self;
  ai_reserve : up (size self) <= reserveSize self;
  ai_accessible : forall x, mem self <= x < mem self + up (size self) -> accessible w x = true }.

(** What [allocator_resize] did to the memory: nothing outside the reservation, and
    the bytes that belong to the allocation before and after keep their values. *)
Definition resized (w w' : world) (self self' : allocator) : Prop :=
  (forall x, ~ mem self <= x < mem self + reserveSize self ->
     accessible w' x = accessible w x /\ peek w' x = peek w x) /\
  (forall x, mem self <= x < mem self + Z.min (size self) (size self') -> peek w' x = peek w x).

Lemma up_bounds x : x <= up x < x + PAGE.
Proof using HpageShift. now apply align_forward_bound. Qed.

Lemma up_mono x y : x <= y -> up x <= up y.
Proof using HpageShift.
  intros Hxy. rewrite !align_forward_div by assumption.
  assert (0 < PAGE) by (apply Z.pow_pos_nonneg; lia).
  apply Z.mul_le_mono_nonneg_r, Z.div_le_mono; lia.
Qed.

Lemma up_zero : up 0 = 0.
Proof using HpageShift.
  rewrite align_forward_div by assumption. assert (0 < PAGE) by (apply Z.pow_pos_nonneg; lia).
  rewrite Z.div_small; lia.
Qed.

Lemma allocator_init_inv w self n : 0 <= n ->
  let '(w', self', status) := allocator_init PAGE w self n in
  (status = 0 /\ mem self' <> 0 /\ size self' = 0 /\ n <= reserveSize self' < n + PAGE /\ alloc_inv w' self')
  \/ (status = -1 /\ mem self' = 0).
Proof using HpageShift.
  intros Hn. unfold allocator_init. destruct (heap_reserve w _) as [w' m].
  pose proof (up_bounds n). destruct (Z.eqb_spec m 0) as [->|Hm]; [right; now split|left].
  repeat (split; [easy || (cbn; lia)|]). split; cbn; [lia|rewrite up_zero; lia|]. rewrite up_zero. lia.
Qed.

Lemma allocator_resize_inv w self newSize : alloc_inv w self -> 0 <= newSize ->
  let '(w', self', status) := allocator_resize PAGE w self newSize in
  alloc_inv w' self' /\ resized w w' self self' /\
  ((status = 0 /\ self' = Allocator (mem self) newSize (reserveSize self)) \/
   (status = -1 /\ self' = self /\ up (size self) < up newSize)).
Proof using HpageShift.
  intros [Hs Hr Ha] Hnew. unfold allocator_resize, resized. pose proof (up_mono (size self) newSize).
  pose proof (up_mono newSize (size self)). pose proof (up_bounds newSize). pose proof (up_bounds (size self)).
  set (c := up (size self)) in *. set (c' := up newSize) in *.
  destruct (Z.eqb_spec (c' - c) 0) as [E|E].
  { repeat split; cbn; fold c'; try lia; try (now left); intros; apply Ha; lia. }
  destruct (Z.ltb_spec (c' - c) 0) as [Hlt|Hge].
  { repeat split; cbn; fold c'; try lia; try (now left); intros;
      try (apply decommit_outside; lia).
    destruct (decommit_outside w (mem self + c') (- (c' - c)) x) as [-> _]; [lia|]. apply Ha. lia. }
  destruct (Z.ltb_spec (reserveSize self) c').
  { repeat split; fold c; try lia; try assumption. right. repeat split; lia. }
  destruct (heap_commit w (mem self + c) (c' - c)) as [w' st] eqn:Ec.
  pose proof (fun x => commit_inside w (mem self + c) (c' - c) x) as Hin.
  pose proof (fun x => commit_outside w (mem self + c) (c' - c) x) as Hout.
  rewrite Ec in Hin, Hout. cbn [fst snd] in *.
  destruct (Z.ltb_spec st 0).
  { repeat split; fold c; try lia; intros; try (apply Hout; lia); try (right; repeat split; lia).
    destruct (Hout x) as [-> _]; [lia|]. apply Ha. lia. }
  repeat split; cbn; fold c'; try lia; try (now left); intros; try (apply Hout; lia).
  destruct (Z_lt_dec x (mem self + c)); [|apply Hin; lia].
  destruct (Hout x) as [-> _]; [lia|]. apply Ha. lia.
Qed.

(** A client's sequence of resizes, stopping nowhere: a failed one leaves the size. *)
Fixpoint resizes (w : world) (self : allocator) (sizes : list Z) : world * allocator :=
  match sizes with
  | [] => (w, self)
  | n :: rest => let '(w, self, _) := allocator_resize PAGE w self n in resizes w self rest
  end.

(** after a successful [allocator_init] and any sequence of [allocator_resize]
    calls, failed ones included, the allocation lies inside the reservation and
    every byte of its pages is accessible; the base address never moves. *)
Theorem allocator_safe w self n sizes :
  0 <= n -> Forall (fun s => 0 <= s) sizes ->
  snd (allocator_init PAGE w self n) = 0 ->
  let '(w1, self1, _) := allocator_init PAGE w self n in
  let '(w2, self2) := resizes w1 self1 sizes in
  alloc_inv w2 self2 /\ mem self2 = mem self1 /\ reserveSize self2 = reserveSize self1 /\
  size self2 <= reserveSize self1.
Proof using HpageShift.
  intros Hn Hsizes Hok. pose proof (allocator_init_inv w self n Hn) as Hi.
  destruct (allocator_init PAGE w self n) as [[w1 self1] st]. cbn in Hok. subst st.
  destruct Hi as [(_ & _ & _ & _ & Hinv)|[? _]]; [|discriminate].
  clear w self Hn. revert w1 self1 Hinv. induction Hsizes as [|k sizes Hk Hsizes IH]; intros w self Hinv.
  - cbn. repeat split; try apply Hinv. pose proof (up_bounds (size self)).
    destruct Hinv. lia.
  - cbn [resizes]. pose proof (allocator_resize_inv w self k Hinv Hk) as Hr.
    destruct (allocator_resize PAGE w self k) as [[w' self'] st]. destruct Hr as (Hinv' & _ & Hself).
    specialize (IH w' self' Hinv'). destruct (resizes w' self' sizes) as [w2 self2].
    assert (mem self' = mem self /\ reserveSize self' = reserveSize self) as [Em Er]
      by (destruct Hself as [[_ ->]|(_ & -> & _)]; now split).
    now rewrite <- Em, <- Er.
Qed.

(** [allocator_resize] of a valid allocation either succeeds with the new size or
    fails leaving the allocator as it was, and fails only when it has to commit more
    pages; either way the invariant holds, no byte outside the reservation changes
    and the bytes that stay in the allocation keep their values. *)
Theorem allocator_resize_correct w self newSize : alloc_inv w self -> 0 <= newSize ->
  let '(w', self', status) := allocator_resize PAGE w self newSize in
  alloc_inv w' self' /\ resized w w' self self' /\
  ((status = 0 /\ self' = Allocator (mem self) newSize (reserveSize self)) \/
   (status = -1 /\ self' = self /\ up (size self) < up newSize)).
Proof using HpageShift. apply allocator_resize_inv. Qed.
End AllocatorSpec.

(** ** A concrete address space *)
Module DemoHeap.

(** Accessible addresses; everything reads 0.  At most [limit] bytes per commit. *)
Record demo := Demo { pages : Z -> bool; limit : Z }.

Definition in_range (a n x : Z) : bool := (a <=? x) && (x <? a + n).

#[global] Instance demo_syscalls : MemorySyscalls demo := {
  sys_mmap w a n p f :=
    if Z.testbit f 4 then (Demo (fun x => negb (in_range a n x) && pages w x) (limit w), a)
    else (w, 0x10000);
  sys_munmap w a n := (Demo (fun x => negb (in_range a n x) && pages w x) (limit w), 0);
  sys_mprotect w a n p :=
    if limit w <? n then (w, -12) else (Demo (fun x => in_range a n x || pages w x) (limit w), 0) }.

Lemma in_range_spec a n x : in_range a n x = true <-> a <= x < a + n.
Proof. unfold in_range. rewrite andb_true_iff, Z.leb_le, Z.ltb_lt. reflexivity. Qed.

Lemma in_range_false a n x : ~ a <= x < a + n -> in_range a n x = false.
Proof. rewrite <- in_range_spec. now destruct (in_range a n x). Qed.

#[global] Instance demo_laws : HeapLaws demo.
Proof.
  apply (linux_heap_laws pages (fun _ _ => 0)).
  - intros w a n x. cbn. destruct (limit w <? n); cbn; [lia|]. intros _ Hx%in_range_spec. now rewrite Hx.
  - intros w a n p x Hx%in_range_false. cbn. destruct (limit w <? n); cbn; [auto|]. now rewrite Hx.
  - intros w a n p f x Hf Hx%in_range_false. cbn -[Z.testbit]. rewrite Hf. cbn. now rewrite Hx.
Defined.

Definition demo0 : demo := Demo (fun _ => false) 20000.
End DemoHeap.
Import DemoHeap.

Lemma allocator_safe_witness :
  let r1 := allocator_init (2 ^ 12) demo0 (Allocator 0 0 0) 100000 in
  let r2 := resizes 12 (fst (fst r1)) (snd (fst r1)) [5000; 90000; 200] in
  snd r2 = Allocator 0x10000 200 102400 /\ accessible (fst r2) (0x10000 + 100) = true.
Proof.
  intros r1 r2.
  pose proof (allocator_safe 12 ltac:(lia) demo0 (Allocator 0 0 0) 100000 [5000; 90000; 200]
    ltac:(lia) ltac:(repeat constructor; lia) eq_refl) as H.
  assert (snd r2 = Allocator 0x10000 200 102400) as E by (vm_compute; reflexivity).
  fold r1 in H. clearbody r1. destruct r1 as [[w1 self1] st]. cbn [fst snd] in r2. fold r2 in H.
  clearbody r2. destruct r2 as [w2 self2]. cbn [fst snd] in *. subst self2. split; [reflexivity|].
  apply H. cbn [mem size]. change (math_ALIGN_FORWARD 200 (2 ^ 12)) with 4096. lia.
Defined.

Lemma allocator_resize_correct_witness :
  let '(w', self', status) := allocator_resize (2 ^ 12) demo0 (Allocator 0x10000 0 8192) 9000 in
  status = -1 /\ self' = Allocator 0x10000 0 8192.
Proof.
  pose proof (allocator_resize_correct 12 ltac:(lia) demo0 (Allocator 0x10000 0 8192) 9000) as H.
  destruct (allocator_resize (2 ^ 12) demo0 (Allocator 0x10000 0 8192) 9000) as [[w' self'] st] eqn:E.
  assert (alloc_inv 12 demo0 (Allocator 0x10000 0 8192)) as Hinv.
  { split; cbn [size mem reserveSize]; [lia|vm_compute; discriminate|].
    change (math_ALIGN_FORWARD 0 (2 ^ 12)) with 0. lia. }
  destruct (H Hinv ltac:(lia)) as (_ & _ & [[-> _]|(-> & -> & _)]); [|now split].
  vm_compute in E. discriminate.
Defined.
