(* ===== verification/Base64.v ===== *)
(** * Base64 ([src/hc/core/hc/base64.c])

    The encoder runs over one memory with the positions of [out] and [in], since
    the code promises to work in place when the input sits at the end of the output
    buffer.  The reference encodes 24 bit groups as in RFC 4648; a reference
    decoder shows that the encoding loses nothing. *)
From Stdlib Require Import ZArith List Lia Bool String.
From S2P Require Import Prelude.
Import ListNotations.

Definition base64_table : list Z :=
  Eval cbv in str "ABCDEFGHIJKLMNOPQRSTUVWXYZabcdefghijklmnopqrstuvwxyz0123456789+/".

Definition table (i : Z) : Z := get base64_table (Z.to_nat i).

Definition base64_ENCODE_SIZE (INPUT_SIZE : nat) : nat := ((INPUT_SIZE + 2) / 3 * 4)%nat.

(** [while (end - in >= 3)]; the result is the memory, [out] and [in]. *)
Fixpoint base64_loop (fuel : nat) (m : list Z) (out inp end_ : nat) : list Z * nat * nat :=
  match fuel with
  | O => (m, out, inp)
  | S fuel' =>
      if (3 <=? end_ - inp)%nat then
        let input0 := get m inp in
        let input1 := get m (inp + 1) in
        let input2 := get m (inp + 2) in
        let m := set m out (table (input0 >> 2)) in
        let m := set m (out + 1) (table (u32 ((input0 & 0x3) << 4) .| (input1 >> 4))) in
        let m := set m (out + 2) (table (u32 ((input1 & 0xF) << 2) .| (input2 >> 6))) in
        let m := set m (out + 3) (table (input2 & 0x3F)) in
        base64_loop fuel' m (out + 4) (inp + 3) end_
      else (m, out, inp)
  end.

(** The rest of the function: one or two bytes are left, or none. *)
Definition base64_tail (st : list Z * nat * nat) (end_ : nat) : list Z :=
  let '(m, out, inp) := st in
  let remaining := (end_ - inp)%nat in
  if (0 <? remaining)%nat then
    let input0 := get m inp in
    let m := set m out (table (input0 >> 2)) in
    let m :=
      if (remaining =? 1)%nat then
        let m := set m (out + 1) (table (u32 ((input0 & 0x3) << 4))) in
        set m (out + 2) 61
      else
        let input1 := get m (inp + 1) in
        let m := set m (out + 1) (table (u32 ((input0 & 0x3) << 4) .| (input1 >> 4))) in
        set m (out + 2) (table (u32 ((input1 & 0xF) << 2))) in
    set m (out + 3) 61
  else m.

(** Every iteration consumes three bytes, so [inSize] iterations are enough. *)
Definition base64_encode (m : list Z) (out inp inSize : nat) : list Z :=
  let end_ := (inp + inSize)%nat in
  base64_tail (base64_loop inSize m out inp end_) end_.

(** ** Reference: RFC 4648, section 4 *)

(** The four sextets of a 24 bit group. *)
Definition sextets (v : Z) : list Z := [v / 2 ^ 18; v / 2 ^ 12 mod 64; v / 2 ^ 6 mod 64; v mod 64].

Fixpoint rfc_encode (l : list Z) : list Z :=
  match l with
  | a :: b :: c :: l' => map table (sextets (2 ^ 16 * a + 2 ^ 8 * b + c)) ++ rfc_encode l'
  | [a; b] => map table (firstn 3 (sextets (2 ^ 16 * a + 2 ^ 8 * b))) ++ [61]
  | [a] => map table (firstn 2 (sextets (2 ^ 16 * a))) ++ [61; 61]
  | [] => []
  end.

Fixpoint find_index (c : Z) (l : list Z) (i : Z) : option Z :=
  match l with
  | [] => None
  | x :: l' => if x =? c then Some i else find_index c l' (i + 1)
  end.

Definition sextet_of (c : Z) : option Z := find_index c base64_table 0.

Fixpoint rfc_decode (l : list Z) : option (list Z) :=
  match l with
  | [] => Some []
  | c0 :: c1 :: c2 :: c3 :: l' =>
      match sextet_of c0, sextet_of c1, sextet_of c2, sextet_of c3 with
      | Some a, Some b, Some c, Some d =>
          let v := 2 ^ 18 * a + 2 ^ 12 * b + 2 ^ 6 * c + d in
          option_map (app [v / 2 ^ 16; v / 2 ^ 8 mod 256; v mod 256]) (rfc_decode l')
      | Some a, Some b, Some c, None =>
          let v := 2 ^ 18 * a + 2 ^ 12 * b + 2 ^ 6 * c in Some [v / 2 ^ 16; v / 2 ^ 8 mod 256]
      | Some a, Some b, None, None => Some [(2 ^ 18 * a + 2 ^ 12 * b) / 2 ^ 16]
      | _, _, _, _ => None
      end
  | _ => None
  end.

(** ** Arithmetic of one group *)

Lemma sextet_of_table i : 0 <= i < 64 -> sextet_of (table i) = Some i.
Proof.
  intros Hi. assert (exists k, (k < 64)%nat /\ i = Z.of_nat k) as (k & Hk & ->)
    by (exists (Z.to_nat i); lia). unfold table. rewrite Nat2Z.id.
  do 64 (destruct k as [|k]; [reflexivity|]). lia.
Qed.

Lemma sextet_of_pad : sextet_of 61 = None.
Proof. reflexivity. Qed.

Section Group.
Context (a b c : Z) (Ha : is_byte a) (Hb : is_byte b) (Hc : is_byte c).

(** The divisions and remainders of the code and of the reference. *)
Lemma group_bits :
  a >> 2 = a / 4 /\ u32 ((a & 0x3) << 4) = 16 * (a mod 4) /\ a / 4 < 64 /\
  u32 ((a & 0x3) << 4) .| (b >> 4) = 16 * (a mod 4) + b / 16 /\
  u32 ((b & 0xF) << 2) = 4 * (b mod 16) /\
  u32 ((b & 0xF) << 2) .| (c >> 6) = 4 * (b mod 16) + c / 64 /\ c & 0x3F = c mod 64.
Proof using Ha Hb Hc.
  unfold is_byte in *. rewrite (land_mask 2), (land_mask 4), (land_mask 6) by (lia || reflexivity).
  rewrite !shiftl_mul, !shiftr_div by lia.
  change (2 ^ 2) with 4. change (2 ^ 4) with 16. change (2 ^ 6) with 64.
  assert (0 <= a mod 4 < 4 /\ 0 <= b mod 16 < 16) by (split; apply Z.mod_pos_bound; lia).
  assert (0 <= b / 16 < 16 /\ 0 <= c / 64 < 4 /\ a / 4 < 64)
    by (repeat split; try apply Z.div_pos; try apply Z.div_lt_upper_bound; lia).
  rewrite !(wrap_small 32) by lia. rewrite !(Z.lor_comm (_ * _)).
  rewrite (lor_add 4 (b / 16)), (lor_add 2 (c / 64)) by lia.
  repeat split; lia.
Qed.

Lemma sextets_group :
  sextets (2 ^ 16 * a + 2 ^ 8 * b + c)
  = [a / 4; 16 * (a mod 4) + b / 16; 4 * (b mod 16) + c / 64; c mod 64].
Proof using Ha Hb Hc.
  unfold sextets, is_byte in *.
  change (2 ^ 16) with 65536. change (2 ^ 8) with 256. change (2 ^ 18) with 262144.
  change (2 ^ 12) with 4096. change (2 ^ 6) with 64.
  repeat apply (f_equal2 (@cons Z)); try reflexivity;
    Z.to_euclidean_division_equations; lia.
Qed.

(** Decoding the sextets gives the bytes back. *)
Lemma group_decode v :
  v = 2 ^ 18 * (a / 4) + 2 ^ 12 * (16 * (a mod 4) + b / 16) + 2 ^ 6 * (4 * (b mod 16) + c / 64) + c mod 64 ->
  v / 2 ^ 16 = a /\ v / 2 ^ 8 mod 256 = b /\ v mod 256 = c.
Proof using Ha Hb Hc.
  unfold is_byte in *. change (2 ^ 16) with 65536. change (2 ^ 8) with 256. change (2 ^ 18) with 262144.
  change (2 ^ 12) with 4096. change (2 ^ 6) with 64. intros E.
  assert (v = 65536 * a + 256 * b + c) as -> by (Z.to_euclidean_division_equations; lia).
  clear E. repeat split; Z.to_euclidean_division_equations; lia.
Qed.
End Group.

Lemma is_byte_0 : is_byte 0.
Proof. unfold is_byte. lia. Qed.

Lemma sextet_ranges a b c : is_byte a -> is_byte b -> is_byte c ->
  0 <= a / 4 < 64 /\ 0 <= 16 * (a mod 4) + b / 16 < 64 /\ 0 <= 4 * (b mod 16) + c / 64 < 64 /\ 0 <= c mod 64 < 64.
Proof. unfold is_byte. intros. repeat split; Z.to_euclidean_division_equations; lia. Qed.

(** Induction three elements at a time. *)
Lemma triple_ind (P : list Z -> Prop) :
  P [] -> (forall a, P [a]) -> (forall a b, P [a; b]) ->
  (forall a b c l, P l -> P (a :: b :: c :: l)) -> forall l, P l.
Proof.
  intros H0 H1 H2 H3. fix IH 1. intros [|a [|b [|c l]]]; [exact H0|apply H1|apply H2|apply H3, IH].
Qed.

Lemma rfc_roundtrip l : bytes l -> rfc_decode (rfc_encode l) = Some l.
Proof.
  pose proof is_byte_0 as Hz.
  induction l as [|a|a b|a b c l IH] using triple_ind; intros Hl; [reflexivity|..];
    unfold bytes in *; repeat match goal with H : Forall _ (_ :: _) |- _ => inversion H; subst; clear H end.
  - cbn [rfc_encode]. replace (2 ^ 16 * a) with (2 ^ 16 * a + 2 ^ 8 * 0 + 0) by lia.
    rewrite sextets_group by assumption. destruct (sextet_ranges a 0 0) as (? & ? & _); [assumption..|].
    cbn [map firstn app rfc_decode]. rewrite !sextet_of_table, sextet_of_pad by assumption.
    destruct (group_decode a 0 0 ltac:(assumption) Hz Hz _ eq_refl) as (E & _ & _).
    do 2 f_equal. rewrite <- E at 3. f_equal. change (0 mod 16) with 0. change (0 / 64) with 0. change (0 mod 64) with 0. lia.
  - cbn [rfc_encode]. replace (2 ^ 16 * a + 2 ^ 8 * b) with (2 ^ 16 * a + 2 ^ 8 * b + 0) by lia.
    rewrite sextets_group by assumption. destruct (sextet_ranges a b 0) as (? & ? & ? & _); [assumption..|].
    cbn [map firstn app rfc_decode]. rewrite !sextet_of_table, sextet_of_pad by assumption.
    destruct (group_decode a b 0 ltac:(assumption) ltac:(assumption) Hz _ eq_refl) as (Ea & Eb & _).
    change (0 mod 64) with 0 in Ea, Eb. change (0 / 64) with 0 in *. rewrite !Z.add_0_r in *. cbv zeta. now rewrite Ea, Eb.
  - cbn [rfc_encode]. rewrite sextets_group by assumption.
    destruct (sextet_ranges a b c) as (? & ? & ? & ?); [assumption..|].
    cbn [map app rfc_decode]. rewrite !sextet_of_table, IH by assumption. cbv zeta.
    destruct (group_decode a b c ltac:(assumption) ltac:(assumption) ltac:(assumption) _ eq_refl) as (-> & -> & ->).
    reflexivity.
Qed.

(** ** The encoder over memory *)

Lemma length_rfc_encode l : length (rfc_encode l) = base64_ENCODE_SIZE (length l).
Proof.
  unfold base64_ENCODE_SIZE. induction l as [|a|a b|a b c l IH] using triple_ind; try reflexivity.
  cbn [rfc_encode length map sextets app]. rewrite IH.
  replace (S (S (S (length l))) + 2)%nat with (1 * 3 + (length l + 2))%nat by lia.
  rewrite Nat.div_add_l by lia. lia.
Qed.

(** [slice m p n]: the [n] bytes at [p]. *)
Definition slice (m : list Z) (p n : nat) : list Z := firstn n (skipn p m).

Lemma slice_cons m p n : (p < length m)%nat -> slice m p (S n) = get m p :: slice m (p + 1) n.
Proof.
  intros Hp. unfold slice. rewrite Nat.add_1_r. revert p Hp.
  induction m as [|x m IH]; intros [|p] Hp; cbn in *; try lia; [reflexivity|]. apply IH. lia.
Qed.

Lemma skipn_set_lt (m : list Z) q v p : (q < p)%nat -> skipn p (set m q v) = skipn p m.
Proof.
  revert q p. induction m as [|x m IH]; intros [|q] [|p] H; cbn; try lia; try reflexivity. apply IH. lia.
Qed.

(** Where the input may sit relative to the output. *)
Definition placed (out inp n : nat) : Prop :=
  (inp + n <= out \/ out + base64_ENCODE_SIZE n <= inp + n)%nat.

Lemma encode_size_3 n : base64_ENCODE_SIZE (3 + n) = (4 + base64_ENCODE_SIZE n)%nat.
Proof.
  unfold base64_ENCODE_SIZE. replace (3 + n + 2)%nat with (1 * 3 + (n + 2))%nat by lia.
  rewrite Nat.div_add_l by lia. lia.
Qed.

Lemma encode_size_ge n : (n <= base64_ENCODE_SIZE n)%nat /\ (0 < n -> n < base64_ENCODE_SIZE n)%nat.
Proof.
  unfold base64_ENCODE_SIZE. pose proof (Nat.div_mod_eq (n + 2) 3). pose proof (Nat.mod_upper_bound (n + 2) 3). lia.
Qed.

Definition spliced (m : list Z) (out inp n : nat) : list Z :=
  firstn out m ++ rfc_encode (slice m inp n) ++ skipn (out + base64_ENCODE_SIZE n) m.

Lemma splice4 (m cs : list Z) out inp n : length cs = 4%nat ->
  (out + 4 <= length m)%nat -> (inp + n <= out \/ out + 4 <= inp)%nat ->
  let m' := firstn out m ++ cs ++ skipn (out + 4) m in
  length m' = length m /\ slice m' inp n = slice m inp n /\
  firstn (out + 4) m' = firstn out m ++ cs /\ forall k, skipn (out + 4 + k) m' = skipn (out + 4 + k) m.
Proof.
  intros Hc Hm Hp m'. unfold m'. assert (length (firstn out m ++ cs) = (out + 4)%nat) as Hl by lens.
  rewrite app_assoc. repeat split.
  - lens.
  - unfold slice. destruct Hp.
    + rewrite !firstn_skipn_comm, firstn_app_l by (rewrite Hl; lia). f_equal.
      rewrite firstn_app_l by lens. now rewrite firstn_firstn, Nat.min_l by lia.
    + f_equal. rewrite skipn_app, Hl, skipn_all2, skipn_skipn by (rewrite Hl; lia).
      cbn [app]. f_equal. lia.
  - rewrite firstn_app_l, firstn_all2 by (rewrite Hl; lia). reflexivity.
  - intros k. rewrite skipn_app, Hl, skipn_all2, skipn_skipn by (rewrite Hl; lia).
    cbn [app]. f_equal. lia.
Qed.

Lemma slice_bytes m inp n : (inp + n <= length m)%nat -> bytes (slice m inp n) ->
  forall i, (i < n)%nat -> is_byte (get m (inp + i)).
Proof.
  intros Hm Hb i Hi. unfold bytes in Hb. rewrite Forall_forall in Hb. apply Hb.
  replace (get m (inp + i)) with (nth i (slice m inp n) 0).
  - apply nth_In. unfold slice. lens.
  - unfold slice, get. rewrite nth_firstn, (proj2 (Nat.ltb_lt i n)) by lia. apply nth_skipn.
Qed.

Lemma base64_short m out inp n : (n < 3)%nat ->
  (inp + n <= length m)%nat -> (out + base64_ENCODE_SIZE n <= length m)%nat -> placed out inp n ->
  bytes (slice m inp n) -> base64_tail (m, out, inp) (inp + n) = spliced m out inp n.
Proof.
  intros Hn Hi Ho Hp Hb. unfold base64_tail, spliced.
  pose proof (slice_bytes _ _ _ Hi Hb) as Hget. replace (inp + n - inp)%nat with n by lia.
  destruct n as [|[|[|]]]; [| | |lia].
  - cbn. rewrite Nat.add_0_r, firstn_skipn. reflexivity.
  - cbn [Nat.ltb Nat.leb Nat.eqb]. rewrite set4 by exact Ho. rewrite slice_cons by lia.
    pose proof (Hget 0%nat ltac:(lia)) as Ha. rewrite Nat.add_0_r in Ha.
    destruct (group_bits (get m inp) 0 0 Ha is_byte_0 is_byte_0) as (-> & -> & _).
    cbn [slice firstn rfc_encode].
    replace (2 ^ 16 * get m inp) with (2 ^ 16 * get m inp + 2 ^ 8 * 0 + 0) by lia.
    rewrite sextets_group by (assumption || exact is_byte_0). change (0 / 16) with 0. now rewrite Z.add_0_r.
  - cbn [Nat.ltb Nat.leb Nat.eqb]. rewrite get_set_ne by (unfold placed in Hp; cbn in Hp; lia).
    rewrite set4 by exact Ho. rewrite !slice_cons by lia.
    pose proof (Hget 0%nat ltac:(lia)) as Ha. rewrite Nat.add_0_r in Ha. pose proof (Hget 1%nat ltac:(lia)) as Hb1.
    destruct (group_bits (get m inp) (get m (inp + 1)) 0 Ha Hb1 is_byte_0) as (-> & _ & _ & -> & -> & _).
    cbn [slice firstn rfc_encode].
    replace (2 ^ 16 * get m inp + 2 ^ 8 * get m (inp + 1))
      with (2 ^ 16 * get m inp + 2 ^ 8 * get m (inp + 1) + 0) by lia.
    rewrite sextets_group by (assumption || exact is_byte_0). change (0 / 64) with 0. now rewrite Z.add_0_r.
Qed.

Lemma base64_encode_mem fuel : forall m out inp n, (n <= fuel)%nat ->
  (inp + n <= length m)%nat -> (out + base64_ENCODE_SIZE n <= length m)%nat -> placed out inp n ->
  bytes (slice m inp n) ->
  base64_tail (base64_loop fuel m out inp (inp + n)) (inp + n) = spliced m out inp n.
Proof.
  induction fuel as [|fuel IH]; intros m out inp n Hn Hi Ho Hp Hb.
  { apply base64_short; (assumption || lia). }
  cbn [base64_loop]. replace (inp + n - inp)%nat with n by lia.
  destruct (Nat.leb_spec 3 n) as [H3|H3]; [|now apply base64_short].
  pose proof (slice_bytes _ _ _ Hi Hb) as Hget.
  assert (exists k, n = 3 + k)%nat as [k ->] by (exists (n - 3)%nat; lia).
  rewrite encode_size_3 in *. unfold placed in *. rewrite encode_size_3 in Hp.
  pose proof (encode_size_ge k) as [Hk Hk1].
  rewrite set4 by lia.
  pose proof (Hget 0%nat ltac:(lia)) as Ha. rewrite Nat.add_0_r in Ha.
  pose proof (Hget 1%nat ltac:(lia)) as Hb1. pose proof (Hget 2%nat ltac:(lia)) as Hc.
  destruct (group_bits _ _ _ Ha Hb1 Hc) as (-> & _ & _ & -> & _ & -> & ->).
  pose proof (sextets_group _ _ _ Ha Hb1 Hc) as Hsx. set (cs := [_; _; _; _]).
  assert (slice m inp (3 + k) = get m inp :: get m (inp + 1) :: get m (inp + 2) :: slice m (inp + 3) k) as Hs.
  { cbn [Nat.add]. rewrite !slice_cons by lia. now rewrite <- !Nat.add_assoc. }
  destruct (splice4 m cs out (inp + 3) k eq_refl) as (Hl & Hsl & Hf & Hsk); [lia|lia|].
  set (m' := firstn out m ++ cs ++ skipn (out + 4) m) in *.
  replace (inp + (3 + k))%nat with (inp + 3 + k)%nat by lia. rewrite Hs in Hb.
  rewrite IH; [|lia|lia|lia|lia|rewrite Hsl; exact (Forall_inv_tail (Forall_inv_tail (Forall_inv_tail Hb)))].
  unfold spliced. rewrite Hf, Hsk, Hsl, Hs, encode_size_3. cbn [rfc_encode].
  rewrite Hsx, <- !app_assoc, Nat.add_assoc. reflexivity.
Qed.

(** C40: [base64_encode] replaces exactly the [base64_ENCODE_SIZE] bytes at [out] by the
    RFC 4648 encoding of the input as it was before the call, both for separate
    buffers and, as its comment promises, in place with the input at the end of the
    output buffer; decoding the result gives the input back. *)
Theorem base64_encode_correct m out inp n :
  (inp + n <= length m)%nat -> (out + base64_ENCODE_SIZE n <= length m)%nat -> placed out inp n ->
  bytes (slice m inp n) ->
  base64_encode m out inp n
    = firstn out m ++ rfc_encode (slice m inp n) ++ skipn (out + base64_ENCODE_SIZE n) m /\
  rfc_decode (slice (base64_encode m out inp n) out (base64_ENCODE_SIZE n)) = Some (slice m inp n).
Proof.
  intros Hi Ho Hp Hb. unfold base64_encode. rewrite base64_encode_mem by (assumption || lia).
  split; [reflexivity|]. unfold spliced. set (e := rfc_encode (slice m inp n)).
  assert (length e = base64_ENCODE_SIZE n) as He
    by (unfold e; rewrite length_rfc_encode; f_equal; unfold slice; lens).
  replace (slice (firstn out m ++ e ++ _) out _) with e; [now apply rfc_roundtrip|].
  unfold slice at 1. rewrite skipn_app, skipn_all2 by lens.
  rewrite length_firstn, Nat.min_l, Nat.sub_diag, skipn_O by lia. cbn [app].
  rewrite firstn_app_l, firstn_all2 by lia. reflexivity.
Qed.

(** "Many h" in place, in a buffer of 8 bytes with the input at its end. *)
Lemma base64_encode_correct_witness :
  base64_encode ([0; 0] ++ str "Many h") 0 2 6 = str "TWFueSBo" /\ base64_encode (str "M....") 1 0 1 = str "MTQ==".
Proof.
  split.
  - rewrite (proj1 (base64_encode_correct ([0; 0] ++ str "Many h") 0 2 6 ltac:(cbn; lia) ltac:(cbn; lia)
      ltac:(right; cbn; lia) ltac:(repeat constructor; cbn; lia))). reflexivity.
  - rewrite (proj1 (base64_encode_correct (str "M....") 1 0 1 ltac:(cbn; lia) ltac:(cbn; lia)
      ltac:(left; cbn; lia) ltac:(repeat constructor; cbn; lia))). reflexivity.
Defined.
