(* ===== verification/Chacha20.v ===== *)
(** * ChaCha20 ([src/hc/core/hc/crypto/chacha20.c])

    [union chacha20] is its 64 bytes; the [u32] view reads and writes little endian
    words.  The reference is the block function of RFC 8439 (and, for [initOrig],
    the original one with a 64 bit counter), on a matrix of four rows: a round works
    on whole rows, and the diagonal rounds rotate the rows instead of renaming the
    lanes. *)
From Stdlib Require Import ZArith List Lia Bool String.
From S2P Require Import Prelude Mem.
Import ListNotations.

(** [_chacha20_QUARTER_ROUND(A, B, C, D)] on the elements [a b c d] of the array. *)
Definition chacha20_QUARTER_ROUND (x : list Z) (a b c d : nat) : list Z :=
  let x := set x a (u32 (get x a + get x b)) in
  let x := set x d (get x d ^^ get x a) in
  let x := set x d (rotl 32 (get x d) 16) in
  let x := set x c (u32 (get x c + get x d)) in
  let x := set x b (get x b ^^ get x c) in
  let x := set x b (rotl 32 (get x b) 12) in
  let x := set x a (u32 (get x a + get x b)) in
  let x := set x d (get x d ^^ get x a) in
  let x := set x d (rotl 32 (get x d) 8) in
  let x := set x c (u32 (get x c + get x d)) in
  let x := set x b (get x b ^^ get x c) in
  set x b (rotl 32 (get x b) 7).

(** The body of the loop. *)
Definition chacha20_rounds (x : list Z) : list Z :=
  let x := chacha20_QUARTER_ROUND x 0 4 8 12 in
  let x := chacha20_QUARTER_ROUND x 1 5 9 13 in
  let x := chacha20_QUARTER_ROUND x 2 6 10 14 in
  let x := chacha20_QUARTER_ROUND x 3 7 11 15 in
  let x := chacha20_QUARTER_ROUND x 0 5 10 15 in
  let x := chacha20_QUARTER_ROUND x 1 6 11 12 in
  let x := chacha20_QUARTER_ROUND x 2 7 8 13 in
  chacha20_QUARTER_ROUND x 3 4 9 14.

(** The [u32] view of the union. *)
Definition view_u32 (self : list Z) : list Z := map (fun i => mem_loadU32 (skipn (4 * i) self)) (seq 0 16).

(** The result is the 64 bytes of [*outStream]. *)
Definition chacha20_block (self : list Z) : list Z :=
  let local := fold_left (fun x _ => chacha20_rounds x) (seq 0 10) (view_u32 self) in
  flat_map (fun i => le_split 4 (u32 (get local i + get (view_u32 self) i))) (seq 0 16).

Definition chacha20_init (self : list Z) : list Z :=
  let self := mem_storeU64 self 0 0x3320646E61707865 in
  mem_storeU64 self 8 0x6B20657479622D32.

Definition chacha20_initIetf (self key : list Z) (blockCounter nonceSender nonce : Z) : list Z :=
  let self := chacha20_init self in
  let self := mem_copy self 16 (firstn 32 key) in
  let self := mem_storeU32 self 48 blockCounter in
  let self := mem_storeU32 self 52 nonceSender in
  mem_storeU64 self 56 nonce.

Definition chacha20_initOrig (self key : list Z) (blockCounter nonce : Z) : list Z :=
  let self := chacha20_init self in
  let self := mem_copy self 16 (firstn 32 key) in
  let self := mem_storeU64 self 48 blockCounter in
  mem_storeU64 self 56 nonce.

(** ** Reference: RFC 8439, section 2 *)
Module Rfc8439.

Fixpoint zip (f : Z -> Z -> Z) (l r : list Z) : list Z :=
  match l, r with
  | x :: l', y :: r' => f x y :: zip f l' r'
  | _, _ => []
  end.

Definition add32 (x y : Z) : Z := u32 (x + y).

Record matrix := Matrix { rowa : list Z; rowb : list Z; rowc : list Z; rowd : list Z }.

(** [a += b; d ^= a; d <<<= n; c += d; b ^= c; b <<<= m] on whole rows. *)
Definition half_round (n m : Z) (s : matrix) : matrix :=
  let a := zip add32 (rowa s) (rowb s) in
  let d := map (fun x => rotl 32 x n) (zip Z.lxor (rowd s) a) in
  let c := zip add32 (rowc s) d in
  let b := map (fun x => rotl 32 x m) (zip Z.lxor (rowb s) c) in
  Matrix a b c d.

Definition column_round (s : matrix) : matrix := half_round 8 7 (half_round 16 12 s).

Definition rot {A} (k : nat) (l : list A) : list A := skipn k l ++ firstn k l.

Definition diagonal_round (s : matrix) : matrix :=
  let s := column_round (Matrix (rowa s) (rot 1 (rowb s)) (rot 2 (rowc s)) (rot 3 (rowd s))) in
  Matrix (rowa s) (rot 3 (rowb s)) (rot 2 (rowc s)) (rot 1 (rowd s)).

Definition to_matrix (w : list Z) : matrix :=
  Matrix (firstn 4 w) (firstn 4 (skipn 4 w)) (firstn 4 (skipn 8 w)) (firstn 4 (skipn 12 w)).
Definition of_matrix (s : matrix) : list Z := rowa s ++ rowb s ++ rowc s ++ rowd s.

Definition inner (w : list Z) : list Z := of_matrix (diagonal_round (column_round (to_matrix w))).

(** [n] little endian 32 bit words. *)
Fixpoint words (n : nat) (l : list Z) : list Z :=
  match n with
  | O => []
  | S n' => le_combine (firstn 4 l) :: words n' (skipn 4 l)
  end.

(** [input]: the last 16 bytes of the state, counter and nonce. *)
Definition block (key input : list Z) : list Z :=
  let s := words 16 (str "expand 32-byte k" ++ key ++ input) in
  flat_map (le_split 4) (zip add32 (Nat.iter 10 inner s) s).
End Rfc8439.

(** ** Correctness *)

Lemma list16 (x : list Z) : length x = 16%nat ->
  exists a b c d e f g h i j k l m n o p, x = [a; b; c; d; e; f; g; h; i; j; k; l; m; n; o; p].
Proof.
  intros H. do 16 (destruct x as [|? x]; [discriminate H|]). destruct x; [|discriminate H].
  repeat eexists.
Qed.

(** Renaming lanes is rotating rows. *)
Lemma chacha20_rounds_inner x : length x = 16%nat -> chacha20_rounds x = Rfc8439.inner x.
Proof.
  intros H. destruct (list16 x H) as (a & b & c & d & e & f & g & h & i & j & k & l & m & n & o & p & ->).
  clear H.
  cbv [chacha20_rounds Rfc8439.inner Rfc8439.of_matrix Rfc8439.diagonal_round Rfc8439.column_round
    Rfc8439.to_matrix Rfc8439.half_round Rfc8439.zip Rfc8439.rot Rfc8439.rowa Rfc8439.rowb Rfc8439.rowc
    Rfc8439.rowd Rfc8439.add32 chacha20_QUARTER_ROUND get set nth firstn skipn app map].
  reflexivity.
Qed.

Lemma length_QUARTER_ROUND x a b c d : length (chacha20_QUARTER_ROUND x a b c d) = length x.
Proof. do 12 refine (eq_trans (length_set _ _ _) _). reflexivity. Qed.
#[export] Hint Rewrite length_QUARTER_ROUND : lens.

Lemma chacha20_loop x n : length x = 16%nat ->
  fold_left (fun x _ => chacha20_rounds x) (seq 0 n) x = Nat.iter n Rfc8439.inner x /\
  length (Nat.iter n Rfc8439.inner x) = 16%nat.
Proof.
  intros H. induction n as [|n [IH IHl]]; [now split|].
  rewrite seq_S, fold_left_app, IH. cbn [fold_left Nat.iter nat_rect].
  change (nat_rect _ x (fun _ => Rfc8439.inner) n) with (Nat.iter n Rfc8439.inner x) in *.
  rewrite <- chacha20_rounds_inner by assumption. split; [reflexivity|]. unfold chacha20_rounds. lens.
Qed.

Lemma view_words self : view_u32 self = Rfc8439.words 16 self.
Proof. unfold view_u32, mem_loadU32. cbn [seq map Rfc8439.words]. rewrite !skipn_skipn. reflexivity. Qed.

Lemma chacha20_block_correct self :
  chacha20_block self =
  flat_map (le_split 4) (Rfc8439.zip Rfc8439.add32
    (Nat.iter 10 Rfc8439.inner (Rfc8439.words 16 self)) (Rfc8439.words 16 self)).
Proof.
  unfold chacha20_block. rewrite view_words.
  destruct (chacha20_loop (Rfc8439.words 16 self) 10 eq_refl) as [-> Hl].
  set (x := Nat.iter 10 _ _) in *. set (y := Rfc8439.words 16 self).
  assert (length y = 16%nat) as Hy by reflexivity. clearbody x y.
  destruct (list16 x Hl) as (a & b & c & d & e & f & g & h & i & j & k & l & m & n & o & p & ->).
  destruct (list16 y Hy) as (a' & b' & c' & d' & e' & f' & g' & h' & i' & j' & k' & l' & m' & n' & o' & p' & ->).
  reflexivity.
Qed.

Lemma chacha20_init_bytes self : length self = 64%nat ->
  chacha20_init self = str "expand 32-byte k" ++ skipn 16 self.
Proof.
  intros H. unfold chacha20_init, mem_storeU64. rewrite !mem_copy_eq by (rewrite ?length_mem_copy; lens).
  rewrite <- (firstn_skipn 16 self) at 1 2. do 64 (destruct self as [|? self]; [discriminate H|]).
  reflexivity.
Qed.

(** A store right after the part already written. *)
Lemma store_next (pre rest a : list Z) off : length pre = off -> (length a <= length rest)%nat ->
  mem_copy (pre ++ rest) off a = (pre ++ a) ++ skipn (length a) rest.
Proof.
  intros <- H. rewrite mem_copy_eq by lens. rewrite firstn_app_l, firstn_all by lia.
  rewrite skipn_app, skipn_all2 by lia.
  replace (length pre + length a - length pre)%nat with (length a) by lia. now rewrite <- app_assoc.
Qed.

(** C18: after [chacha20_initIetf], whatever the object held before, [chacha20_block]
    is the ChaCha20 block function of RFC 8439 on the key, the 32 bit counter and
    the 96 bit nonce formed by [nonceSender] and [nonce]; after [chacha20_initOrig]
    it is the original ChaCha20 with 64 bit counter and nonce. *)
Theorem chacha20_correct self key blockCounter nonceSender nonce blockCounter64 :
  length self = 64%nat -> length key = 32%nat ->
  chacha20_block (chacha20_initIetf self key blockCounter nonceSender nonce)
    = Rfc8439.block key (le_split 4 blockCounter ++ le_split 4 nonceSender ++ le_split 8 nonce) /\
  chacha20_block (chacha20_initOrig self key blockCounter64 nonce)
    = Rfc8439.block key (le_split 8 blockCounter64 ++ le_split 8 nonce).
Proof.
  intros Hs Hk. unfold chacha20_initIetf, chacha20_initOrig. rewrite chacha20_init_bytes by assumption.
  rewrite (firstn_all2 key) by lia. unfold mem_storeU32, mem_storeU64, Rfc8439.block.
  rewrite !chacha20_block_correct. set (k := str "expand 32-byte k").
  assert (length k = 16%nat) as Hlk by reflexivity. clearbody k.
  split; rewrite !store_next by lens; rewrite skipn_all2 by lens; now rewrite app_nil_r, <- !app_assoc.
Qed.

(** The block of RFC 8439, section 2.3.2 (its first and last words). *)
Lemma chacha20_correct_witness :
  let out := chacha20_block (chacha20_initIetf (repeat 0xAA 64) (map Z.of_nat (seq 0 32)) 1 0x9000000 0x4A000000) in
  out = Rfc8439.block (map Z.of_nat (seq 0 32)) [1; 0; 0; 0; 0; 0; 0; 9; 0; 0; 0; 0x4A; 0; 0; 0; 0] /\
  firstn 4 out = [0x10; 0xF1; 0xE7; 0xE4] /\ skipn 60 out = [0xA2; 0x50; 0x3C; 0x4E].
Proof.
  intros out. unfold out.
  rewrite (proj1 (chacha20_correct (repeat 0xAA 64) (map Z.of_nat (seq 0 32)) 1 0x9000000 0x4A000000 0
    eq_refl eq_refl)).
  split; [|split]; vm_compute; reflexivity.
Defined.
