(* ===== verification/Poly1305.v ===== *)
(** * Poly1305 ([src/hc/core/hc/crypto/poly1305.c])

    The accumulator and the multiplier are kept in limbs of 44, 44 and 42 bits;
    [_poly1305_blocks] multiplies with 128 bit products and reduces partially.
    [poly1305_update] is the buffering code of [Stream.v].  The reference is RFC
    8439, section 2.5, over unbounded integers.

    [poly1305_finish] subtracts 2^43 where p = 2^130 - 5 asks for 2^42, so its last
    conditional subtraction never happens: the tag is the one of the RFC whenever
    the accumulator modulo p is at least 5 ([poly1305_correct]), and wrong for some
    messages otherwise ([poly1305_unreduced]). *)
From Stdlib Require Import ZArith List Lia Bool String.
From S2P Require Import Prelude Mem Stream.
Import ListNotations.

(** [r], [h] and [pad] of [struct poly1305]; [buffer] and [bufferSize] are those of
    the stream. *)
Record poly_core := PolyCore {
  r0 : Z; r1 : Z; r2 : Z; h0 : Z; h1 : Z; h2 : Z; pad0 : Z; pad1 : Z }.

(** One iteration of the loop of [_poly1305_blocks]. *)
Definition poly1305_block (hibit : Z) (self : poly_core) (inp : list Z) : poly_core :=
  let s1 := u64 (r1 self * 20) in
  let s2 := u64 (r2 self * 20) in
  let t0 := mem_loadU64 inp in
  let t1 := mem_loadU64 (skipn 8 inp) in
  let h0 := u64 (h0 self + (t0 & 0xFFFFFFFFFFF)) in
  let h1 := u64 (h1 self + (((t0 >> 44) .| u64 (t1 << 20)) & 0xFFFFFFFFFFF)) in
  let h2 := u64 (h2 self + (((t1 >> 24) & 0x3FFFFFFFFFF) .| hibit)) in
  let d0 := u128 (u128 (h0 * r0 self) + u128 (h1 * s2) + u128 (h2 * s1)) in
  let d1 := u128 (u128 (h0 * r1 self) + u128 (h1 * r0 self) + u128 (h2 * s2)) in
  let d2 := u128 (u128 (h0 * r2 self) + u128 (h1 * r1 self) + u128 (h2 * r0 self)) in
  let h0 := u64 d0 & 0xFFFFFFFFFFF in
  let d1 := u128 (d1 + u64 (d0 >> 44)) in
  let h1 := u64 d1 & 0xFFFFFFFFFFF in
  let d2 := u128 (d2 + u64 (d1 >> 44)) in
  let h2 := u64 d2 & 0x3FFFFFFFFFF in
  let h0 := u64 (h0 + u64 (u64 (d2 >> 42) * 5)) in
  let h1 := u64 (h1 + (h0 >> 44)) in
  let h0 := h0 & 0xFFFFFFFFFFF in
  PolyCore (r0 self) (r1 self) (r2 self) h0 h1 h2 (pad0 self) (pad1 self).

(** [do { ... } while (--numBlocks)]; every call has [numBlocks > 0]. *)
Fixpoint poly1305_blocks (hibit : Z) (self : poly_core) (inp : list Z) (numBlocks : nat) : poly_core :=
  match numBlocks with
  | O => self
  | S n => poly1305_blocks hibit (poly1305_block hibit self inp) (skipn 16 inp) n
  end.

#[local] Instance poly_sink : BlockSink poly_core := {
  block_size := 16; absorb := poly1305_blocks 0x10000000000 }.

(** [struct poly1305]. *)
Abbreviation poly1305 := (stream poly_core).

Definition poly1305_init (self : poly1305) (key : list Z) : poly1305 :=
  let t0 := mem_loadU64 key in
  let t1 := mem_loadU64 (skipn 8 key) in
  Stream
    (PolyCore (t0 & 0xFFC0FFFFFFF) (((t0 >> 44) .| u64 (t1 << 20)) & 0xFFFFFC0FFFF)
      ((t1 >> 24) & 0x00FFFFFFC0F) 0 0 0 (mem_loadU64 (skipn 16 key)) (mem_loadU64 (skipn 24 key)))
    (buffer self) 0.

Definition poly1305_update (self : poly1305) (inp : list Z) : poly1305 := update self inp.

(** The partial block. *)
Definition poly1305_last (self : poly1305) : poly_core :=
  if (0 <? bufferSize self)%nat then
    let i := bufferSize self in
    let buf := set (buffer self) i 1 in
    let buf := mem_set buf (S i) (16 - S i) 0 in
    poly1305_blocks 0 (st_core self) buf 1
  else st_core self.

(** The full carry. *)
Definition poly1305_carry (h0 h1 h2 : Z) : Z * Z * Z :=
  let h2 := u64 (h2 + (h1 >> 44)) in
  let h1 := h1 & 0xFFFFFFFFFFF in
  let h0 := u64 (h0 + u64 ((h2 >> 42) * 5)) in
  let h2 := h2 & 0x3FFFFFFFFFF in
  let h1 := u64 (h1 + (h0 >> 44)) in
  let h0 := h0 & 0xFFFFFFFFFFF in
  let h2 := u64 (h2 + (h1 >> 44)) in
  let h1 := h1 & 0xFFFFFFFFFFF in
  let h0 := u64 (h0 + u64 ((h2 >> 42) * 5)) in
  let h2 := h2 & 0x3FFFFFFFFFF in
  let h1 := u64 (h1 + (h0 >> 44)) in
  let h0 := h0 & 0xFFFFFFFFFFF in
  (h0, h1, h2).

(** The conditional subtraction of p. *)
Definition poly1305_select (h0 h1 h2 : Z) : Z * Z * Z :=
  let g0 := u64 (h0 + 5) in
  let g1 := u64 (h1 + (g0 >> 44)) in
  let g2 := u64 (h2 + (g1 >> 44) - 0x80000000000) in
  let g0 := g0 & 0xFFFFFFFFFFF in
  let g1 := g1 & 0xFFFFFFFFFFF in
  let c := u64 ((g2 >> 63) - 1) in
  let g0 := g0 & c in
  let g1 := g1 & c in
  let g2 := g2 & c in
  let c := u64 (Z.lnot c) in
  ((h0 & c) .| g0, (h1 & c) .| g1, (h2 & c) .| g2).

(** The addition of the pad and the stores. *)
Definition poly1305_tag (h0 h1 h2 t0 t1 : Z) : list Z :=
  let h0 := u64 (h0 + (t0 & 0xFFFFFFFFFFF)) in
  let h1 := u64 (h1 + u64 ((((t0 >> 44) .| u64 (t1 << 20)) & 0xFFFFFFFFFFF) + (h0 >> 44))) in
  let h2 := u64 (h2 + u64 (((t1 >> 24) & 0x3FFFFFFFFFF) + (h1 >> 44))) in
  let h0 := h0 & 0xFFFFFFFFFFF in
  let h1 := h1 & 0xFFFFFFFFFFF in
  let h2 := h2 & 0x3FFFFFFFFFF in
  let h0' := h0 .| u64 (h1 << 44) in
  let h1' := (h1 >> 20) .| u64 (h2 << 24) in
  le_split 8 h0' ++ le_split 8 h1'.

Definition poly1305_finish (self : poly1305) : list Z :=
  let c := poly1305_last self in
  let '(h0, h1, h2) := poly1305_carry (h0 c) (h1 c) (h2 c) in
  let '(h0, h1, h2) := poly1305_select h0 h1 h2 in
  poly1305_tag h0 h1 h2 (pad0 c) (pad1 c).

(** ** Reference: RFC 8439, section 2.5 *)
Module Rfc.

Definition p : Z := 2 ^ 130 - 5.

Definition clamp (r : Z) : Z := r & 0x0FFFFFFC0FFFFFFC0FFFFFFC0FFFFFFF.

(** One block: the bytes with a one byte appended, as a number. *)
Definition step (r acc : Z) (blk : list Z) : Z := (acc + le_combine (blk ++ [1])) * r mod p.

Fixpoint accumulate (n : nat) (r acc : Z) (msg : list Z) : Z :=
  match n with
  | O => acc
  | S n' => accumulate n' r (step r acc (firstn 16 msg)) (skipn 16 msg)
  end.

(** The accumulator after the whole message. *)
Definition acc (key msg : list Z) : Z :=
  accumulate ((length msg + 15) / 16) (clamp (le_combine (firstn 16 key))) 0 msg.

Definition mac (key msg : list Z) : list Z :=
  le_split 16 ((acc key msg + le_combine (firstn 16 (skipn 16 key))) mod 2 ^ 128).
End Rfc.

(** ** Limbs *)

(** The value of three limbs. *)
Definition val3 (x0 x1 x2 : Z) : Z := x0 + 2 ^ 44 * x1 + 2 ^ 88 * x2.

Lemma land44 x : x & 0xFFFFFFFFFFF = x mod 2 ^ 44.
Proof. now apply land_mask. Qed.

Lemma land42 x : x & 0x3FFFFFFFFFF = x mod 2 ^ 42.
Proof. now apply land_mask. Qed.

(** A mask below 2^n only sees the low [n] bits. *)
Lemma land_low n x m : 0 <= n -> 0 <= m < 2 ^ n -> x & m = (x mod 2 ^ n) & m.
Proof.
  intros Hn Hm. rewrite <- Z.land_ones by lia. rewrite <- Z.land_assoc. f_equal.
  symmetry. rewrite Z.land_comm, Z.land_ones by lia. now apply Z.mod_small.
Qed.

(** [and] works limb by limb. *)
Lemma land_limb n a b c d : 0 <= n -> 0 <= a < 2 ^ n -> 0 <= b < 2 ^ n ->
  (a + 2 ^ n * c) & (b + 2 ^ n * d) = (a & b) + 2 ^ n * (c & d).
Proof.
  intros Hn Ha Hb. rewrite !(Z.mul_comm (2 ^ n)), <- !lor_add by (try apply land_bound_l; lia).
  rewrite <- !shiftl_mul by lia. rewrite Z.land_lor_distr_l, !Z.land_lor_distr_r, <- Z.shiftl_land.
  assert (forall x y, 0 <= x < 2 ^ n -> x & (y << n) = 0) as Hz.
  { intros x y Hx. apply Z.bits_inj'. intros i Hi. rewrite Z.land_spec, Z.bits_0, Z.shiftl_spec by lia.
    destruct (Z.ltb_spec i n); [rewrite (Z.testbit_neg_r y) by lia; apply andb_false_r|].
    now rewrite (testbit_high n x) by lia. }
  rewrite (Hz a d), (Z.land_comm (c << n) b), (Hz b c) by assumption.
  now rewrite Z.lor_0_r, Z.lor_0_l.
Qed.

Section Load.
Context (t0 t1 : Z) (Ht0 : 0 <= t0 < 2 ^ 64) (Ht1 : 0 <= t1 < 2 ^ 64).

Lemma mid_limb : (t0 >> 44) .| u64 (t1 << 20) = t0 / 2 ^ 44 + 2 ^ 20 * (t1 mod 2 ^ 44).
Proof using Ht0 Ht1.
  rewrite shiftl_mul, shiftr_div by lia.
  assert (u64 (t1 * 2 ^ 20) = (t1 mod 2 ^ 44) * 2 ^ 20) as ->.
  { unfold wrap. change (2 ^ 64) with (2 ^ 44 * 2 ^ 20). rewrite Z.mul_mod_distr_r; lia. }
  rewrite lor_add; [lia|lia|]. Z.to_euclidean_division_equations; lia.
Qed.

Lemma mid_limb_mod : ((t0 >> 44) .| u64 (t1 << 20)) mod 2 ^ 44 = t0 / 2 ^ 44 + 2 ^ 20 * (t1 mod 2 ^ 24).
Proof using Ht0 Ht1. rewrite mid_limb. Z.to_euclidean_division_equations; lia. Qed.

Lemma load_limbs :
  let l0 := t0 & 0xFFFFFFFFFFF in
  let l1 := ((t0 >> 44) .| u64 (t1 << 20)) & 0xFFFFFFFFFFF in
  let l2 := (t1 >> 24) & 0x3FFFFFFFFFF in
  0 <= l0 < 2 ^ 44 /\ 0 <= l1 < 2 ^ 44 /\ 0 <= l2 < 2 ^ 40 /\ val3 l0 l1 l2 = t0 + 2 ^ 64 * t1.
Proof using Ht0 Ht1.
  cbv zeta. rewrite !land44, land42, mid_limb_mod, shiftr_div by lia. unfold val3.
  Z.to_euclidean_division_equations; lia.
Qed.

(** The masks of [poly1305_init] are the clamp. *)
Lemma clamp_limbs :
  let l0 := t0 & 0xFFC0FFFFFFF in
  let l1 := ((t0 >> 44) .| u64 (t1 << 20)) & 0xFFFFFC0FFFF in
  let l2 := (t1 >> 24) & 0x00FFFFFFC0F in
  0 <= l0 < 2 ^ 44 /\ 0 <= l1 < 2 ^ 44 /\ 0 <= l2 < 2 ^ 36 /\
  val3 l0 l1 l2 = Rfc.clamp (t0 + 2 ^ 64 * t1).
Proof using Ht0 Ht1.
  destruct load_limbs as (B0 & B1 & B2 & Hv). cbv zeta in *.
  rewrite land44 in B0, B1. rewrite !land44, land42 in Hv. rewrite land42 in B2.
  rewrite (land_low 44 t0), (land_low 44 (_ .| _)), (land_low 42 (t1 >> 24)) by lia.
  set (x0 := t0 mod 2 ^ 44) in *. set (x1 := (_ .| _) mod 2 ^ 44) in *. set (x2 := (t1 >> 24) mod 2 ^ 42) in *.
  split; [apply land_bound_r; lia|]. split; [apply land_bound_r; lia|]. split; [apply land_bound_r; lia|].
  rewrite <- Hv. unfold Rfc.clamp, val3.
  replace (x0 + 2 ^ 44 * x1 + 2 ^ 88 * x2) with (x0 + 2 ^ 44 * (x1 + 2 ^ 44 * x2)) by lia.
  change 0x0FFFFFFC0FFFFFFC0FFFFFFC0FFFFFFF with (0xFFC0FFFFFFF + 2 ^ 44 * (0xFFFFFC0FFFF + 2 ^ 44 * 0x00FFFFFFC0F)).
  rewrite !land_limb by lia. lia.
Qed.
End Load.

(** ** One block *)

(** The limbs between blocks. *)
Record core_inv (c : poly_core) : Prop := {
  ci_r0 : 0 <= r0 c < 2 ^ 44; ci_r1 : 0 <= r1 c < 2 ^ 44; ci_r2 : 0 <= r2 c < 2 ^ 36;
  ci_h0 : 0 <= h0 c < 2 ^ 44; ci_h1 : 0 <= h1 c < 2 ^ 44 + 2 ^ 20; ci_h2 : 0 <= h2 c < 2 ^ 42 }.

Definition hval (c : poly_core) : Z := val3 (h0 c) (h1 c) (h2 c).
Definition rval (c : poly_core) : Z := val3 (r0 c) (r1 c) (r2 c).
Abbreviation p := Rfc.p.

Lemma prod_bound x y n m : 0 <= x < 2 ^ n -> 0 <= y < 2 ^ m -> 0 <= n -> 0 <= m -> 0 <= x * y < 2 ^ (n + m).
Proof. intros. rewrite Z.pow_add_r by lia. nia. Qed.

(** The multiplication and partial reduction, over integers. *)
Lemma mul_reduce a0 a1 a2 b0 b1 b2 :
  0 <= a0 < 2 ^ 45 -> 0 <= a1 < 2 ^ 46 -> 0 <= a2 < 2 ^ 43 ->
  0 <= b0 < 2 ^ 44 -> 0 <= b1 < 2 ^ 44 -> 0 <= b2 < 2 ^ 36 ->
  let d0 := a0 * b0 + a1 * (b2 * 20) + a2 * (b1 * 20) in
  let d1 := a0 * b1 + a1 * b0 + a2 * (b2 * 20) in
  let d2 := a0 * b2 + a1 * b1 + a2 * b0 in
  let d1' := d1 + d0 / 2 ^ 44 in
  let d2' := d2 + d1' / 2 ^ 44 in
  let e0 := d0 mod 2 ^ 44 + d2' / 2 ^ 42 * 5 in
  0 <= d0 < 2 ^ 100 /\ 0 <= d1' < 2 ^ 100 /\ 0 <= d2' < 2 ^ 100 /\
  0 <= d0 / 2 ^ 44 < 2 ^ 60 /\ 0 <= d1' / 2 ^ 44 < 2 ^ 60 /\ 0 <= d2' / 2 ^ 42 < 2 ^ 56 /\
  0 <= e0 < 2 ^ 60 /\
  exists k, val3 (e0 mod 2 ^ 44) (d1' mod 2 ^ 44 + e0 / 2 ^ 44) (d2' mod 2 ^ 42)
            = val3 a0 a1 a2 * val3 b0 b1 b2 - k * p.
Proof.
  intros Ha0 Ha1 Ha2 Hb0 Hb1 Hb2. intros d0 d1 d2 d1' d2' e0.
  pose proof (prod_bound a0 b0 45 44 Ha0 Hb0 ltac:(lia) ltac:(lia)).
  pose proof (prod_bound a0 b1 45 44 Ha0 Hb1 ltac:(lia) ltac:(lia)).
  pose proof (prod_bound a0 b2 45 36 Ha0 Hb2 ltac:(lia) ltac:(lia)).
  pose proof (prod_bound a1 b0 46 44 Ha1 Hb0 ltac:(lia) ltac:(lia)).
  pose proof (prod_bound a1 b1 46 44 Ha1 Hb1 ltac:(lia) ltac:(lia)).
  pose proof (prod_bound a1 b2 46 36 Ha1 Hb2 ltac:(lia) ltac:(lia)).
  pose proof (prod_bound a2 b0 43 44 Ha2 Hb0 ltac:(lia) ltac:(lia)).
  pose proof (prod_bound a2 b1 43 44 Ha2 Hb1 ltac:(lia) ltac:(lia)).
  pose proof (prod_bound a2 b2 43 36 Ha2 Hb2 ltac:(lia) ltac:(lia)).
  assert (val3 a0 a1 a2 * val3 b0 b1 b2
    = d0 + 2 ^ 44 * d1 + 2 ^ 88 * d2 + (4 * (a1 * b2 + a2 * b1) + 2 ^ 46 * (a2 * b2)) * p) as Hprod
    by (unfold val3, d0, d1, d2, p; ring).
  assert (0 <= d0 < 2 ^ 92) as B0 by (unfold d0; lia).
  assert (0 <= d1 < 2 ^ 92) as B1 by (unfold d1; lia).
  assert (0 <= d2 < 2 ^ 92) as B2 by (unfold d2; lia).
  pose proof (Z.div_mod d0 (2 ^ 44) ltac:(lia)). pose proof (Z.mod_pos_bound d0 (2 ^ 44) ltac:(lia)).
  assert (0 <= d0 / 2 ^ 44 < 2 ^ 60) by lia.
  assert (0 <= d1' < 2 ^ 93) by (unfold d1'; lia).
  pose proof (Z.div_mod d1' (2 ^ 44) ltac:(lia)). pose proof (Z.mod_pos_bound d1' (2 ^ 44) ltac:(lia)).
  assert (0 <= d1' / 2 ^ 44 < 2 ^ 60) by lia.
  assert (0 <= d2' < 2 ^ 93) by (unfold d2'; lia).
  pose proof (Z.div_mod d2' (2 ^ 42) ltac:(lia)). pose proof (Z.mod_pos_bound d2' (2 ^ 42) ltac:(lia)).
  assert (0 <= d2' / 2 ^ 42 < 2 ^ 56) by lia.
  assert (0 <= e0 < 2 ^ 60) by (unfold e0; lia).
  repeat (split; [lia|]).
  exists (4 * (a1 * b2 + a2 * b1) + 2 ^ 46 * (a2 * b2) + d2' / 2 ^ 42). rewrite Hprod.
  pose proof (Z.div_mod e0 (2 ^ 44) ltac:(lia)).
  assert (d1' = d1 + d0 / 2 ^ 44) by reflexivity. assert (d2' = d2 + d1' / 2 ^ 44) by reflexivity.
  assert (e0 = d0 mod 2 ^ 44 + d2' / 2 ^ 42 * 5) by reflexivity.
  unfold val3, Rfc.p. clearbody e0 d2' d1' d2 d1 d0. clear Hprod. lia.
Qed.

Lemma load16 l : (16 <= length l)%nat -> bytes l ->
  let t0 := mem_loadU64 l in
  let t1 := mem_loadU64 (skipn 8 l) in
  0 <= t0 < 2 ^ 64 /\ 0 <= t1 < 2 ^ 64 /\ t0 + 2 ^ 64 * t1 = le_combine (firstn 16 l).
Proof.
  intros Hl Hb. cbv zeta. unfold mem_loadU64.
  assert (firstn 16 l = firstn 8 l ++ firstn 8 (skipn 8 l)) as Hsplit.
  { rewrite <- (firstn_skipn 8 (firstn 16 l)). rewrite firstn_firstn, skipn_firstn_comm. reflexivity. }
  pose proof (le_combine_bound (firstn 8 l) (bytes_firstn _ _ Hb)) as H0.
  pose proof (le_combine_bound (firstn 8 (skipn 8 l)) (bytes_firstn _ _ (bytes_skipn _ _ Hb))) as H1.
  rewrite Hsplit, le_combine_app. rewrite !length_firstn, ?length_skipn, !Nat.min_l in * by lia.
  change (256 ^ Z.of_nat 8) with (2 ^ 64) in *. lia.
Qed.

(** [l2 | hibit] adds the bit. *)
Lemma lor_hibit l2 hibit : 0 <= l2 < 2 ^ 40 -> hibit = 0 \/ hibit = 2 ^ 40 -> l2 .| hibit = l2 + hibit.
Proof.
  intros Hl [->| ->]; [rewrite Z.lor_0_r; lia|]. rewrite <- (Z.mul_1_l (2 ^ 40)) at 1. rewrite lor_add; lia.
Qed.

Lemma poly1305_block_spec hibit c inp : core_inv c -> hibit = 0 \/ hibit = 2 ^ 40 ->
  (16 <= length inp)%nat -> bytes inp ->
  core_inv (poly1305_block hibit c inp) /\
  exists k, hval (poly1305_block hibit c inp)
    = (hval c + le_combine (firstn 16 inp) + 2 ^ 88 * hibit) * rval c - k * p.
Proof.
  intros [R0 R1 R2 H0 H1 H2] Hhi Hlen Hb. unfold poly1305_block.
  destruct (load16 inp Hlen Hb) as (T0 & T1 & <-). cbv zeta in T0, T1.
  set (t0 := mem_loadU64 inp) in *. set (t1 := mem_loadU64 (skipn 8 inp)) in *.
  destruct (load_limbs t0 t1 T0 T1) as (L0 & L1 & L2 & <-). cbv zeta in L0, L1, L2 |- *.
  set (l0 := t0 & _) in *. set (l1 := (_ .| _) & _) in *. set (l2 := (t1 >> 24) & _) in *.
  rewrite (lor_hibit l2) by assumption. clearbody l0 l1 l2. clear t0 t1 T0 T1 Hlen Hb inp.
  rewrite (wrap_small 64 (r1 c * 20)), (wrap_small 64 (r2 c * 20)) by lia.
  rewrite (wrap_small 64 (h0 c + l0)), (wrap_small 64 (h1 c + l1)), (wrap_small 64 (h2 c + (l2 + hibit))) by lia.
  destruct (mul_reduce (h0 c + l0) (h1 c + l1) (h2 c + (l2 + hibit)) (r0 c) (r1 c) (r2 c))
    as (D0 & D1 & D2 & Q0 & Q1 & Q2 & E0 & k & Hk); [lia..|].
  cbv zeta in *. set (a0 := h0 c + l0) in *. set (a1 := h1 c + l1) in *. set (a2 := h2 c + (l2 + hibit)) in *.
  assert (forall x y, 0 <= x < 2 ^ 46 -> 0 <= y < 2 ^ 49 -> u128 (x * y) = x * y) as Hm.
  { intros x y Hx Hy. apply wrap_small. pose proof (prod_bound x y 46 49 Hx Hy ltac:(lia) ltac:(lia)). lia. }
  rewrite !Hm by (unfold a0, a1, a2; lia). clear Hm.
  set (d0 := a0 * r0 c + _ + _) in *. rewrite (wrap_small 128 d0) by lia.
  rewrite !shiftr_div by lia. rewrite (wrap_small 64 (d0 / 2 ^ 44)) by lia.
  set (d1 := a0 * r1 c + _ + _) in *. set (d2 := a0 * r2 c + _ + _) in *.
  assert (0 <= d1 /\ 0 <= d2) as [D1' D2'].
  { unfold d1, d2, a0, a1, a2. split; repeat apply Z.add_nonneg_nonneg; apply Z.mul_nonneg_nonneg; lia. }
  rewrite (wrap_small 128 d1), (wrap_small 128 (d1 + _)) by lia.
  rewrite (wrap_small 64 ((d1 + _) / 2 ^ 44)), (wrap_small 128 d2), (wrap_small 128 (d2 + _)) by lia.
  rewrite !(wrap_small 64 ((d2 + _) / 2 ^ 42)), (wrap_small 64 ((d2 + _) / 2 ^ 42 * 5)) by lia.
  rewrite !land44, land42.
  assert (forall x n, 0 <= n <= 64 -> u64 x mod 2 ^ n = x mod 2 ^ n) as Hmod.
  { intros x n Hn. unfold wrap. apply Z.mod_mod_divide. exists (2 ^ (64 - n)).
    rewrite <- Z.pow_add_r by lia. f_equal. lia. }
  rewrite !Hmod by lia. clear Hmod.
  set (d1' := d1 + _) in *. set (d2' := d2 + _) in *. set (e0 := d0 mod 2 ^ 44 + _) in *.
  rewrite !(wrap_small 64 e0) by lia.
  pose proof (Z.mod_pos_bound d1' (2 ^ 44) ltac:(lia)). pose proof (Z.mod_pos_bound d2' (2 ^ 42) ltac:(lia)).
  pose proof (Z.mod_pos_bound e0 (2 ^ 44) ltac:(lia)).
  assert (0 <= e0 / 2 ^ 44 < 2 ^ 16) by (split; [apply Z.div_pos|apply Z.div_lt_upper_bound]; lia).
  rewrite (wrap_small 64 (d1' mod 2 ^ 44 + _)) by lia.
  split; [constructor; cbn [r0 r1 r2 h0 h1 h2]; lia|]. exists k. unfold hval, rval. cbn [h0 h1 h2]. rewrite Hk.
  f_equal. f_equal. unfold a0, a1, a2, val3. lia.
Qed.

Lemma block_fields hibit c inp :
  rval (poly1305_block hibit c inp) = rval c /\ pad0 (poly1305_block hibit c inp) = pad0 c /\
  pad1 (poly1305_block hibit c inp) = pad1 c.
Proof. repeat split. Qed.

(** ** Streaming *)

Lemma blocks_add hibit c inp n m : poly1305_blocks hibit c inp (n + m)
  = poly1305_blocks hibit (poly1305_blocks hibit c inp n) (skipn (n * 16) inp) m.
Proof.
  revert c inp. induction n as [|n IH]; intros c inp; [reflexivity|].
  cbn [Nat.add poly1305_blocks]. rewrite IH, skipn_skipn. do 2 f_equal. lia.
Qed.

Lemma blocks_prefix hibit c l l' n : (n * 16 <= length l)%nat ->
  poly1305_blocks hibit c (l ++ l') n = poly1305_blocks hibit c l n.
Proof.
  revert c l. induction n as [|n IH]; intros c l Hl; [reflexivity|]. cbn [poly1305_blocks].
  rewrite skipn_app. replace (16 - length l)%nat with 0%nat by lia. rewrite skipn_O.
  rewrite IH by lens. f_equal. unfold poly1305_block, mem_loadU64.
  rewrite skipn_app. replace (8 - length l)%nat with 0%nat by lia. rewrite skipn_O.
  now rewrite !firstn_app_l by lens.
Qed.

#[local] Instance poly_laws : BlockSinkLaws poly_core.
Proof.
  refine {| core_ok := fun _ => True |}.
  - cbn. lia.
  - auto.
  - reflexivity.
  - intros. apply blocks_add.
  - intros. now apply blocks_prefix.
Defined.

(** The blocks of a message accumulate as in the RFC, up to multiples of p. *)
Lemma blocks_spec n : forall c msg a, core_inv c -> (n * 16 <= length msg)%nat -> bytes msg ->
  (exists k, hval c = a + k * p) ->
  let c' := poly1305_blocks (2 ^ 40) c msg n in
  core_inv c' /\ rval c' = rval c /\ pad0 c' = pad0 c /\ pad1 c' = pad1 c /\
  exists k, hval c' = Rfc.accumulate n (rval c) a msg + k * p.
Proof.
  induction n as [|n IH]; intros c msg a Hc Hl Hb [k Hk]; [cbn; eauto 6|].
  cbn [poly1305_blocks Rfc.accumulate].
  destruct (poly1305_block_spec (2 ^ 40) c msg) as (Hc1 & k1 & Hk1); [auto..|lia|assumption|].
  destruct (block_fields (2 ^ 40) c msg) as (Er & Ep0 & Ep1).
  destruct (IH (poly1305_block (2 ^ 40) c msg) (skipn 16 msg) (Rfc.step (rval c) a (firstn 16 msg)))
    as (Hc' & Hr & H0 & H1 & Hh); [assumption|lens|auto with hc| |].
  - unfold Rfc.step. rewrite le_combine_app. rewrite length_firstn, Nat.min_l by lia.
    change (256 ^ Z.of_nat 16 * le_combine [1]) with (2 ^ 88 * 2 ^ 40).
    set (x := (a + _) * rval c). rewrite Hk1, Hk. pose proof (Z.div_mod x p ltac:(unfold Rfc.p; lia)).
    exists (x / p + k * rval c - k1). unfold x in *. nia.
  - rewrite Er in *. cbv zeta. rewrite Hr, H0, H1, Ep0, Ep1. auto.
Qed.

(** ** Finishing *)

Lemma poly1305_carry_spec a0 a1 a2 : 0 <= a0 < 2 ^ 44 -> 0 <= a1 < 2 ^ 44 + 2 ^ 20 -> 0 <= a2 < 2 ^ 42 ->
  let '(x0, x1, x2) := poly1305_carry a0 a1 a2 in
  0 <= x0 < 2 ^ 44 /\ 0 <= x1 < 2 ^ 44 /\ 0 <= x2 < 2 ^ 42 /\
  exists k, val3 x0 x1 x2 = val3 a0 a1 a2 - k * p.
Proof.
  intros H0 H1 H2. unfold poly1305_carry. rewrite !land44, !land42, !shiftr_div by lia.
  assert (0 <= a1 / 2 ^ 44 <= 1) by (Z.to_euclidean_division_equations; lia).
  rewrite (wrap_small 64 (a2 + _)) by lia. set (c2 := a2 + _) in *.
  assert (0 <= c2 / 2 ^ 42 <= 1) by (unfold c2; Z.to_euclidean_division_equations; lia).
  rewrite (wrap_small 64 (c2 / 2 ^ 42 * 5)), (wrap_small 64 (a0 + _)) by lia. set (c0 := a0 + _) in *.
  assert (0 <= c0 / 2 ^ 44 <= 1) by (unfold c0; Z.to_euclidean_division_equations; lia).
  pose proof (Z.mod_pos_bound a1 (2 ^ 44) ltac:(lia)). rewrite (wrap_small 64 (a1 mod _ + _)) by lia.
  set (c1 := a1 mod _ + _) in *.
  assert (0 <= c1 / 2 ^ 44 <= 1) by (unfold c1; Z.to_euclidean_division_equations; lia).
  pose proof (Z.mod_pos_bound c2 (2 ^ 42) ltac:(lia)). rewrite (wrap_small 64 (c2 mod _ + _)) by lia.
  set (b2 := c2 mod _ + _) in *.
  assert (0 <= b2 / 2 ^ 42 <= 1) by (unfold b2; Z.to_euclidean_division_equations; lia).
  pose proof (Z.mod_pos_bound c0 (2 ^ 44) ltac:(lia)).
  rewrite (wrap_small 64 (b2 / 2 ^ 42 * 5)), (wrap_small 64 (c0 mod _ + _)) by lia. set (b0 := c0 mod _ + _) in *.
  pose proof (Z.mod_pos_bound c1 (2 ^ 44) ltac:(lia)).
  assert (b0 / 2 ^ 44 = 0) as Hb0 by (apply Z.div_small; unfold b0, b2, c0, c1, c2 in *; clear - H0 H1 H2; Z.to_euclidean_division_equations; lia).
  rewrite Hb0, Z.add_0_r, (wrap_small 64 (c1 mod _)) by lia.
  pose proof (Z.mod_pos_bound b0 (2 ^ 44) ltac:(lia)). pose proof (Z.mod_pos_bound b2 (2 ^ 42) ltac:(lia)).
  repeat (split; [lia|]). exists (c2 / 2 ^ 42 + b2 / 2 ^ 42).
  pose proof (Z.div_mod a1 (2 ^ 44) ltac:(lia)). pose proof (Z.div_mod c0 (2 ^ 44) ltac:(lia)).
  pose proof (Z.div_mod c1 (2 ^ 44) ltac:(lia)). pose proof (Z.div_mod c2 (2 ^ 42) ltac:(lia)).
  pose proof (Z.div_mod b0 (2 ^ 44) ltac:(lia)). pose proof (Z.div_mod b2 (2 ^ 42) ltac:(lia)).
  assert (c2 = a2 + a1 / 2 ^ 44 /\ c0 = a0 + c2 / 2 ^ 42 * 5 /\ c1 = a1 mod 2 ^ 44 + c0 / 2 ^ 44 /\
    b2 = c2 mod 2 ^ 42 + c1 / 2 ^ 44 /\ b0 = c0 mod 2 ^ 44 + b2 / 2 ^ 42 * 5) by (repeat split; reflexivity).
  clearbody b0 b2 c0 c1 c2. unfold val3, Rfc.p. lia.
Qed.

(** The conditional subtraction is never taken: g2 is always negative. *)
Lemma poly1305_select_id a0 a1 a2 : 0 <= a0 < 2 ^ 44 -> 0 <= a1 < 2 ^ 44 -> 0 <= a2 < 2 ^ 42 ->
  poly1305_select a0 a1 a2 = (a0, a1, a2).
Proof.
  intros H0 H1 H2. unfold poly1305_select. rewrite !(shiftr_div _ 44) by lia.
  rewrite (wrap_small 64 (a0 + 5)) by lia. set (g0 := a0 + 5).
  assert (0 <= g0 / 2 ^ 44 <= 1) by (unfold g0; Z.to_euclidean_division_equations; lia).
  rewrite (wrap_small 64 (a1 + _)) by lia. set (g1 := a1 + _).
  assert (0 <= g1 / 2 ^ 44 <= 1) by (unfold g1; Z.to_euclidean_division_equations; lia).
  set (g2 := u64 (a2 + _ - _)).
  assert (g2 >> 63 = 1) as ->.
  { rewrite shiftr_div by lia. unfold g2, wrap. rewrite <- (Z.mod_unique_pos _ (2 ^ 64) (-1) (a2 + g1 / 2 ^ 44 - 2 ^ 43 + 2 ^ 64)) by lia.
    symmetry. apply (Z.div_unique_pos _ _ _ (a2 + g1 / 2 ^ 44 - 2 ^ 43 + 2 ^ 63)); lia. }
  change (u64 (1 - 1)) with 0. change (u64 (Z.lnot 0)) with (Z.ones 64).
  rewrite !Z.land_0_r, !Z.lor_0_r, !Z.land_ones, !Z.mod_small by lia. reflexivity.
Qed.

Lemma le_split_join a b : 0 <= a < 2 ^ 64 -> le_split 8 a ++ le_split 8 b = le_split 16 (a + 2 ^ 64 * b).
Proof.
  intros Ha. change 16%nat with (8 + 8)%nat. rewrite le_split_add. change (256 ^ Z.of_nat 8) with (2 ^ 64).
  rewrite <- (le_split_mod 8 (a + _)). change (256 ^ Z.of_nat 8) with (2 ^ 64).
  rewrite (Z.mul_comm (2 ^ 64)), Z_mod_plus_full, Z.div_add, Z.mod_small, Z.div_small by lia. reflexivity.
Qed.

Lemma poly1305_tag_spec a0 a1 a2 t0 t1 :
  0 <= a0 < 2 ^ 44 -> 0 <= a1 < 2 ^ 44 -> 0 <= a2 < 2 ^ 42 -> 0 <= t0 < 2 ^ 64 -> 0 <= t1 < 2 ^ 64 ->
  poly1305_tag a0 a1 a2 t0 t1 = le_split 16 ((val3 a0 a1 a2 + (t0 + 2 ^ 64 * t1)) mod 2 ^ 128).
Proof.
  intros H0 H1 H2 T0 T1. destruct (load_limbs t0 t1 T0 T1) as (L0 & L1 & L2 & <-). cbv zeta in *.
  unfold poly1305_tag. set (l0 := t0 & _) in *. set (l1 := (_ .| _) & _) in *. set (l2 := (t1 >> 24) & _) in *.
  clearbody l0 l1 l2. clear t0 t1 T0 T1. rewrite !land44, land42, !shiftr_div, !shiftl_mul by lia.
  rewrite !(wrap_small 64 (a0 + l0)) by lia. set (b0 := a0 + l0).
  assert (0 <= b0 / 2 ^ 44 <= 1) by (unfold b0; Z.to_euclidean_division_equations; lia).
  rewrite (wrap_small 64 (l1 + _)), !(wrap_small 64 (a1 + _)) by lia. set (b1 := a1 + (l1 + _)).
  assert (0 <= b1 / 2 ^ 44 <= 2) by (unfold b1; Z.to_euclidean_division_equations; lia).
  rewrite (wrap_small 64 (l2 + _)), !(wrap_small 64 (a2 + _)) by lia. set (b2 := a2 + (l2 + _)).
  pose proof (Z.mod_pos_bound b0 (2 ^ 44) ltac:(lia)). pose proof (Z.mod_pos_bound b1 (2 ^ 44) ltac:(lia)).
  pose proof (Z.mod_pos_bound b2 (2 ^ 42) ltac:(lia)).
  set (c0 := b0 mod 2 ^ 44) in *. set (c1 := b1 mod 2 ^ 44) in *. set (c2 := b2 mod 2 ^ 42) in *.
  assert (u64 (c1 * 2 ^ 44) = c1 mod 2 ^ 20 * 2 ^ 44) as ->
    by (unfold wrap; change (2 ^ 64) with (2 ^ 20 * 2 ^ 44); apply Z.mul_mod_distr_r; lia).
  assert (u64 (c2 * 2 ^ 24) = c2 mod 2 ^ 40 * 2 ^ 24) as ->
    by (unfold wrap; change (2 ^ 64) with (2 ^ 40 * 2 ^ 24); apply Z.mul_mod_distr_r; lia).
  assert (0 <= c1 / 2 ^ 20 < 2 ^ 24) by (split; [apply Z.div_pos|apply Z.div_lt_upper_bound]; lia).
  rewrite !lor_add by lia.
  pose proof (Z.mod_pos_bound c1 (2 ^ 20) ltac:(lia)). pose proof (Z.mod_pos_bound c2 (2 ^ 40) ltac:(lia)).
  rewrite le_split_join by lia. f_equal.
  pose proof (Z.div_mod c1 (2 ^ 20) ltac:(lia)). pose proof (Z.div_mod c2 (2 ^ 40) ltac:(lia)).
  pose proof (Z.div_mod b0 (2 ^ 44) ltac:(lia)). pose proof (Z.div_mod b1 (2 ^ 44) ltac:(lia)).
  pose proof (Z.div_mod b2 (2 ^ 42) ltac:(lia)).
  apply (Z.mod_unique_pos _ _ (c2 / 2 ^ 40 + 4 * (b2 / 2 ^ 42))); [lia|].
  assert (b0 = a0 + l0 /\ b1 = a1 + (l1 + b0 / 2 ^ 44) /\ b2 = a2 + (l2 + b1 / 2 ^ 44)) by (repeat split; reflexivity).
  unfold c0, c1, c2 in *. clearbody b0 b1 b2. unfold val3. lia.
Qed.

(** ** Correctness *)

Lemma accumulate_add n m r a msg : Rfc.accumulate (n + m) r a msg
  = Rfc.accumulate m r (Rfc.accumulate n r a msg) (skipn (n * 16) msg).
Proof.
  revert a msg. induction n as [|n IH]; intros a msg; [reflexivity|].
  cbn [Nat.add Rfc.accumulate]. rewrite IH, skipn_skipn. do 2 f_equal. lia.
Qed.

Lemma accumulate_bound n r a msg : 0 <= a < p -> 0 <= Rfc.accumulate n r a msg < p.
Proof.
  revert a msg. induction n as [|n IH]; intros a msg Ha; [exact Ha|]. apply IH.
  apply Z.mod_pos_bound. unfold Rfc.p. lia.
Qed.

Lemma le_combine_zeros l n : le_combine (l ++ repeat 0 n) = le_combine l.
Proof.
  rewrite le_combine_app. replace (le_combine (repeat 0 n)) with 0; [lia|].
  induction n; cbn [repeat le_combine]; lia.
Qed.

(** The state after [poly1305_last]. *)
Lemma poly1305_last_spec c0 self msg : core_inv c0 -> hval c0 = 0 -> bytes msg ->
  chunk_inv c0 self msg ->
  let c := poly1305_last self in
  core_inv c /\ pad0 c = pad0 c0 /\ pad1 c = pad1 c0 /\
  exists k, hval c = Rfc.accumulate ((length msg + 15) / 16) (rval c0) 0 msg + k * p.
Proof.
  intros Hc0 Hh0 Hb [Hbuf Hsize Hcore Hrest]. cbn [block_size poly_sink absorb] in *.
  destruct (divmod_block (length msg)) as [Hdm Hlt]. cbn [block_size poly_sink] in Hdm, Hlt.
  rewrite <- Hsize in Hdm, Hlt. set (q := (length msg / 16)%nat) in *. set (r := bufferSize self) in *.
  destruct (blocks_spec q c0 msg 0) as (Hc & Hr & Hp0 & Hp1 & k & Hk); [assumption|lia|assumption|exists 0; lia|].
  cbv zeta. change (2 ^ 40) with 0x10000000000 in *. rewrite <- Hcore in *. unfold poly1305_last. fold r.
  destruct (Nat.ltb_spec 0 r) as [Hpos|Hzero].
  - set (rest := skipn (q * 16) msg) in *. set (buf := mem_set _ _ _ _).
    assert (length rest = r) as Hrl by (unfold rest; lens).
    assert (buf = (rest ++ [1]) ++ repeat 0 (16 - S r)) as Hbufv.
    { unfold buf. replace (16 - S r)%nat with (length (set (buffer self) r 1%Z) - S r)%nat by lens.
      rewrite mem_set_end by lens. now rewrite firstn_set_r, Hrest by lens. }
    assert (bytes buf) as Hbb.
    { rewrite Hbufv, !bytes_app. repeat split; [unfold rest; auto with hc|repeat constructor; lia|].
      apply bytes_repeat. unfold is_byte. lia. }
    assert (length buf = 16%nat) as Hbl by (rewrite Hbufv; lens).
    cbn [poly1305_blocks].
    destruct (poly1305_block_spec 0 (st_core self) buf) as (Hc' & k' & Hk'); [auto..|lia|assumption|].
    destruct (block_fields 0 (st_core self) buf) as (_ & Ep0 & Ep1).
    split; [assumption|]. split; [congruence|]. split; [congruence|].
    replace ((length msg + 15) / 16)%nat with (q + 1)%nat
      by (apply (Nat.div_unique _ _ _ (r - 1)); lia).
    rewrite accumulate_add. fold rest. cbn [Rfc.accumulate]. rewrite firstn_all2 by lia.
    rewrite Hk', Hk, Hr, firstn_all2, Hbufv, le_combine_zeros by lia.
    unfold Rfc.step. set (a := Rfc.accumulate q _ _ _). set (x := (a + _) * _).
    pose proof (Z.div_mod x p ltac:(unfold Rfc.p; lia)).
    exists (x / p + k * rval c0 - k'). unfold x in *. nia.
  - split; [assumption|]. split; [assumption|]. split; [assumption|].
    replace ((length msg + 15) / 16)%nat with q by (apply (Nat.div_unique _ _ _ 15); lia).
    exists k. exact Hk.
Qed.

(** The tag does not depend on what the object held before. *)
Lemma poly1305_last_ext c0 s1 s2 msg : chunk_inv c0 s1 msg -> chunk_inv c0 s2 msg -> poly1305_last s1 = poly1305_last s2.
Proof.
  intros [B1 S1 C1 R1] [B2 S2 C2 R2]. cbn [block_size poly_sink] in *. unfold poly1305_last. rewrite S2, <- S1, C1, C2.
  pose proof (Nat.mod_upper_bound (length msg) 16 ltac:(lia)) as Hlt. rewrite <- S1 in Hlt.
  destruct (0 <? bufferSize s1)%nat; [|reflexivity]. f_equal.
  assert (forall s : poly1305, length (buffer s) = 16%nat -> mem_set (set (buffer s) (bufferSize s1) 1) (S (bufferSize s1)) (16 - S (bufferSize s1)) 0
    = (firstn (bufferSize s1) (buffer s) ++ [1]) ++ repeat 0 (16 - S (bufferSize s1))) as E.
  { intros s Hs. replace (16 - S (bufferSize s1))%nat with (length (set (buffer s) (bufferSize s1) 1%Z) - S (bufferSize s1))%nat by lens.
    rewrite mem_set_end by lens. now rewrite firstn_set_r by lia. }
  rewrite !E by assumption. rewrite R1. rewrite S1, <- S2, R2. reflexivity.
Qed.

Lemma poly1305_finish_ext self1 self2 key msg : length (buffer self1) = 16%nat -> length (buffer self2) = 16%nat ->
  poly1305_finish (poly1305_update (poly1305_init self1 key) msg) = poly1305_finish (poly1305_update (poly1305_init self2 key) msg).
Proof.
  intros H1 H2. unfold poly1305_finish. set (c := st_core (poly1305_init self1 key)).
  rewrite (poly1305_last_ext c _ (poly1305_update (poly1305_init self2 key) msg) msg); [reflexivity| |];
    (apply (update_inv c _ [] msg); [exact I|]; apply init_inv; [exact I|assumption]).
Qed.

(** The tag in terms of the accumulator of the RFC. *)
Lemma poly1305_finish_spec self key chunks :
  length (buffer self) = 16%nat -> length key = 32%nat -> bytes key -> bytes (concat chunks) ->
  exists H, 0 <= H < 2 ^ 130 /\ H mod p = Rfc.acc key (concat chunks) /\
    poly1305_finish (fold_left poly1305_update chunks (poly1305_init self key))
    = le_split 16 ((H + le_combine (firstn 16 (skipn 16 key))) mod 2 ^ 128).
Proof.
  intros Hbuf Hk Hkb Hb. unfold poly1305_init.
  destruct (load16 key ltac:(lia) Hkb) as (T0 & T1 & HT). cbv zeta in *.
  destruct (clamp_limbs _ _ T0 T1) as (R0 & R1 & R2 & HR). cbv zeta in *. rewrite HT in HR.
  destruct (load16 (skipn 16 key)) as (P0 & P1 & HP); [lens|auto with hc|]. cbv zeta in *.
  rewrite skipn_skipn in HP, P1. change (8 + 16)%nat with 24%nat in *.
  set (c0 := PolyCore _ _ _ _ _ _ _ _).
  assert (core_inv c0) as Hc0 by (constructor; cbn [r0 r1 r2 h0 h1 h2 c0]; assumption || lia).
  destruct (poly1305_last_spec c0 (fold_left poly1305_update chunks (Stream c0 (buffer self) 0)) (concat chunks))
    as (Hc & Hp0 & Hp1 & k & Hacc); [assumption|reflexivity|assumption| |].
  { apply (updates_inv _ _ []); [exact I|]. apply init_inv; [exact I|assumption]. }
  unfold poly1305_finish. set (c := poly1305_last _) in *. clearbody c.
  change (pad0 c0) with (mem_loadU64 (skipn 16 key)) in Hp0.
  change (pad1 c0) with (mem_loadU64 (skipn 24 key)) in Hp1.
  pose proof (poly1305_carry_spec (h0 c) (h1 c) (h2 c) (ci_h0 _ Hc) (ci_h1 _ Hc) (ci_h2 _ Hc)) as Hcar.
  destruct (poly1305_carry (h0 c) (h1 c) (h2 c)) as [[x0 x1] x2]. destruct Hcar as (X0 & X1 & X2 & k' & Hk').
  rewrite poly1305_select_id, Hp0, Hp1, poly1305_tag_spec, HP by assumption.
  exists (val3 x0 x1 x2). split; [unfold val3; lia|]. split; [|reflexivity].
  rewrite Hk'. change (val3 (h0 c) (h1 c) (h2 c)) with (hval c). rewrite Hacc.
  unfold Rfc.acc. rewrite <- HR. change (val3 _ _ _) with (rval c0).
  set (a := Rfc.accumulate _ _ _ _).
  assert (0 <= a < p) as Ha by (apply accumulate_bound; unfold Rfc.p; lia).
  replace (a + k * p - k' * p) with (a + (k - k') * p) by lia.
  rewrite Z_mod_plus_full. now apply Z.mod_small.
Qed.

Lemma poly1305_spec self key chunks :
  length (buffer self) = 16%nat -> length key = 32%nat -> bytes key -> bytes (concat chunks) ->
  5 <= Rfc.acc key (concat chunks) ->
  poly1305_finish (fold_left poly1305_update chunks (poly1305_init self key)) = Rfc.mac key (concat chunks).
Proof.
  intros Hbuf Hk Hkb Hb Hacc.
  destruct (poly1305_finish_spec self key chunks Hbuf Hk Hkb Hb) as (H & HH & Hm & ->).
  unfold Rfc.mac. rewrite <- Hm in *.
  assert (H mod p = H) as ->; [|reflexivity].
  apply Z.mod_small. destruct (Z_lt_dec H p); [lia|exfalso].
  rewrite <- (Z.mod_unique_pos H p 1 (H - p)) in Hacc; unfold Rfc.p in *; lia.
Qed.


(** The example of RFC 8439, section 2.5.2, in three pieces. *)
Definition rfc_key : list Z :=
  [0x85; 0xD6; 0xBE; 0x78; 0x57; 0x55; 0x6D; 0x33; 0x7F; 0x44; 0x52; 0xFE; 0x42; 0xD5; 0x06; 0xA8;
   0x01; 0x03; 0x80; 0x8A; 0xFB; 0x0D; 0xB2; 0xFD; 0x4A; 0xBF; 0xF6; 0xAF; 0x41; 0x49; 0xF5; 0x1B].


(** the final reduction is incomplete: there is a one block message and key (the
    seventh vector of RFC 8439, appendix A.3) whose accumulator ends in [p, 2^130),
    and for which the tag computed is not the one of the RFC. *)
Theorem poly1305_unreduced :
  exists self key msg,
    length (buffer self) = 16%nat /\ length key = 32%nat /\ bytes key /\ bytes msg /\
    Rfc.mac key msg = 3 :: repeat 0 15 /\
    poly1305_finish (poly1305_update (poly1305_init self key) msg) = 254 :: repeat 255 15.
Proof.
  exists (Stream (PolyCore 0 0 0 0 0 0 0 0) (repeat 0 16) 0), (2 :: repeat 0 31), (repeat 255 16).
  repeat split; try reflexivity; try (repeat constructor; lia).
Qed.
