(* ===== verification/Aes.v ===== *)
(** * AES ([src/hc/core/hc/crypto/aes.c], [aes128.c], [aes256.c])

    The code works on four little endian words per state, with one table that fuses
    SubBytes and MixColumns and the rotations of its entries, and expands the key in
    the same word form.  The reference is FIPS 197 on a matrix of bytes, with the
    S-box computed from inversion in GF(2^8) and the affine map; both tables are
    checked against it entry by entry. *)
From Stdlib Require Import ZArith List Lia Bool.
From S2P Require Import Prelude Mem.
Import ListNotations.

Definition aes_sboxTable : list Z :=
  [0x63; 0x7C; 0x77; 0x7B; 0xF2; 0x6B; 0x6F; 0xC5; 0x30; 0x01; 0x67; 0x2B; 0xFE; 0xD7; 0xAB; 0x76;
   0xCA; 0x82; 0xC9; 0x7D; 0xFA; 0x59; 0x47; 0xF0; 0xAD; 0xD4; 0xA2; 0xAF; 0x9C; 0xA4; 0x72; 0xC0;
   0xB7; 0xFD; 0x93; 0x26; 0x36; 0x3F; 0xF7; 0xCC; 0x34; 0xA5; 0xE5; 0xF1; 0x71; 0xD8; 0x31; 0x15;
   0x04; 0xC7; 0x23; 0xC3; 0x18; 0x96; 0x05; 0x9A; 0x07; 0x12; 0x80; 0xE2; 0xEB; 0x27; 0xB2; 0x75;
   0x09; 0x83; 0x2C; 0x1A; 0x1B; 0x6E; 0x5A; 0xA0; 0x52; 0x3B; 0xD6; 0xB3; 0x29; 0xE3; 0x2F; 0x84;
   0x53; 0xD1; 0x00; 0xED; 0x20; 0xFC; 0xB1; 0x5B; 0x6A; 0xCB; 0xBE; 0x39; 0x4A; 0x4C; 0x58; 0xCF;
   0xD0; 0xEF; 0xAA; 0xFB; 0x43; 0x4D; 0x33; 0x85; 0x45; 0xF9; 0x02; 0x7F; 0x50; 0x3C; 0x9F; 0xA8;
   0x51; 0xA3; 0x40; 0x8F; 0x92; 0x9D; 0x38; 0xF5; 0xBC; 0xB6; 0xDA; 0x21; 0x10; 0xFF; 0xF3; 0xD2;
   0xCD; 0x0C; 0x13; 0xEC; 0x5F; 0x97; 0x44; 0x17; 0xC4; 0xA7; 0x7E; 0x3D; 0x64; 0x5D; 0x19; 0x73;
   0x60; 0x81; 0x4F; 0xDC; 0x22; 0x2A; 0x90; 0x88; 0x46; 0xEE; 0xB8; 0x14; 0xDE; 0x5E; 0x0B; 0xDB;
   0xE0; 0x32; 0x3A; 0x0A; 0x49; 0x06; 0x24; 0x5C; 0xC2; 0xD3; 0xAC; 0x62; 0x91; 0x95; 0xE4; 0x79;
   0xE7; 0xC8; 0x37; 0x6D; 0x8D; 0xD5; 0x4E; 0xA9; 0x6C; 0x56; 0xF4; 0xEA; 0x65; 0x7A; 0xAE; 0x08;
   0xBA; 0x78; 0x25; 0x2E; 0x1C; 0xA6; 0xB4; 0xC6; 0xE8; 0xDD; 0x74; 0x1F; 0x4B; 0xBD; 0x8B; 0x8A;
   0x70; 0x3E; 0xB5; 0x66; 0x48; 0x03; 0xF6; 0x0E; 0x61; 0x35; 0x57; 0xB9; 0x86; 0xC1; 0x1D; 0x9E;
   0xE1; 0xF8; 0x98; 0x11; 0x69; 0xD9; 0x8E; 0x94; 0x9B; 0x1E; 0x87; 0xE9; 0xCE; 0x55; 0x28; 0xDF;
   0x8C; 0xA1; 0x89; 0x0D; 0xBF; 0xE6; 0x42; 0x68; 0x41; 0x99; 0x2D; 0x0F; 0xB0; 0x54; 0xBB; 0x16].

Definition aes_encTable : list Z :=
  [0xA56363C6; 0x847C7CF8; 0x997777EE; 0x8D7B7BF6; 0x0DF2F2FF; 0xBD6B6BD6; 0xB16F6FDE; 0x54C5C591;
   0x50303060; 0x03010102; 0xA96767CE; 0x7D2B2B56; 0x19FEFEE7; 0x62D7D7B5; 0xE6ABAB4D; 0x9A7676EC;
   0x45CACA8F; 0x9D82821F; 0x40C9C989; 0x877D7DFA; 0x15FAFAEF; 0xEB5959B2; 0xC947478E; 0x0BF0F0FB;
   0xECADAD41; 0x67D4D4B3; 0xFDA2A25F; 0xEAAFAF45; 0xBF9C9C23; 0xF7A4A453; 0x967272E4; 0x5BC0C09B;
   0xC2B7B775; 0x1CFDFDE1; 0xAE93933D; 0x6A26264C; 0x5A36366C; 0x413F3F7E; 0x02F7F7F5; 0x4FCCCC83;
   0x5C343468; 0xF4A5A551; 0x34E5E5D1; 0x08F1F1F9; 0x937171E2; 0x73D8D8AB; 0x53313162; 0x3F15152A;
   0x0C040408; 0x52C7C795; 0x65232346; 0x5EC3C39D; 0x28181830; 0xA1969637; 0x0F05050A; 0xB59A9A2F;
   0x0907070E; 0x36121224; 0x9B80801B; 0x3DE2E2DF; 0x26EBEBCD; 0x6927274E; 0xCDB2B27F; 0x9F7575EA;
   0x1B090912; 0x9E83831D; 0x742C2C58; 0x2E1A1A34; 0x2D1B1B36; 0xB26E6EDC; 0xEE5A5AB4; 0xFBA0A05B;
   0xF65252A4; 0x4D3B3B76; 0x61D6D6B7; 0xCEB3B37D; 0x7B292952; 0x3EE3E3DD; 0x712F2F5E; 0x97848413;
   0xF55353A6; 0x68D1D1B9; 0x00000000; 0x2CEDEDC1; 0x60202040; 0x1FFCFCE3; 0xC8B1B179; 0xED5B5BB6;
   0xBE6A6AD4; 0x46CBCB8D; 0xD9BEBE67; 0x4B393972; 0xDE4A4A94; 0xD44C4C98; 0xE85858B0; 0x4ACFCF85;
   0x6BD0D0BB; 0x2AEFEFC5; 0xE5AAAA4F; 0x16FBFBED; 0xC5434386; 0xD74D4D9A; 0x55333366; 0x94858511;
   0xCF45458A; 0x10F9F9E9; 0x06020204; 0x817F7FFE; 0xF05050A0; 0x443C3C78; 0xBA9F9F25; 0xE3A8A84B;
   0xF35151A2; 0xFEA3A35D; 0xC0404080; 0x8A8F8F05; 0xAD92923F; 0xBC9D9D21; 0x48383870; 0x04F5F5F1;
   0xDFBCBC63; 0xC1B6B677; 0x75DADAAF; 0x63212142; 0x30101020; 0x1AFFFFE5; 0x0EF3F3FD; 0x6DD2D2BF;
   0x4CCDCD81; 0x140C0C18; 0x35131326; 0x2FECECC3; 0xE15F5FBE; 0xA2979735; 0xCC444488; 0x3917172E;
   0x57C4C493; 0xF2A7A755; 0x827E7EFC; 0x473D3D7A; 0xAC6464C8; 0xE75D5DBA; 0x2B191932; 0x957373E6;
   0xA06060C0; 0x98818119; 0xD14F4F9E; 0x7FDCDCA3; 0x66222244; 0x7E2A2A54; 0xAB90903B; 0x8388880B;
   0xCA46468C; 0x29EEEEC7; 0xD3B8B86B; 0x3C141428; 0x79DEDEA7; 0xE25E5EBC; 0x1D0B0B16; 0x76DBDBAD;
   0x3BE0E0DB; 0x56323264; 0x4E3A3A74; 0x1E0A0A14; 0xDB494992; 0x0A06060C; 0x6C242448; 0xE45C5CB8;
   0x5DC2C29F; 0x6ED3D3BD; 0xEFACAC43; 0xA66262C4; 0xA8919139; 0xA4959531; 0x37E4E4D3; 0x8B7979F2;
   0x32E7E7D5; 0x43C8C88B; 0x5937376E; 0xB76D6DDA; 0x8C8D8D01; 0x64D5D5B1; 0xD24E4E9C; 0xE0A9A949;
   0xB46C6CD8; 0xFA5656AC; 0x07F4F4F3; 0x25EAEACF; 0xAF6565CA; 0x8E7A7AF4; 0xE9AEAE47; 0x18080810;
   0xD5BABA6F; 0x887878F0; 0x6F25254A; 0x722E2E5C; 0x241C1C38; 0xF1A6A657; 0xC7B4B473; 0x51C6C697;
   0x23E8E8CB; 0x7CDDDDA1; 0x9C7474E8; 0x211F1F3E; 0xDD4B4B96; 0xDCBDBD61; 0x868B8B0D; 0x858A8A0F;
   0x907070E0; 0x423E3E7C; 0xC4B5B571; 0xAA6666CC; 0xD8484890; 0x05030306; 0x01F6F6F7; 0x120E0E1C;
   0xA36161C2; 0x5F35356A; 0xF95757AE; 0xD0B9B969; 0x91868617; 0x58C1C199; 0x271D1D3A; 0xB99E9E27;
   0x38E1E1D9; 0x13F8F8EB; 0xB398982B; 0x33111122; 0xBB6969D2; 0x70D9D9A9; 0x898E8E07; 0xA7949433;
   0xB69B9B2D; 0x221E1E3C; 0x92878715; 0x20E9E9C9; 0x49CECE87; 0xFF5555AA; 0x78282850; 0x7ADFDFA5;
   0x8F8C8C03; 0xF8A1A159; 0x80898909; 0x170D0D1A; 0xDABFBF65; 0x31E6E6D7; 0xC6424284; 0xB86868D0;
   0xC3414182; 0xB0999929; 0x772D2D5A; 0x110F0F1E; 0xCBB0B07B; 0xFC5454A8; 0xD6BBBB6D; 0x3A16162C].

Definition sbox (i : Z) : Z := get aes_sboxTable (Z.to_nat i).
Definition enc (i : Z) : Z := get aes_encTable (Z.to_nat i).

(** The four words of the state. *)
Record words := Words { x0 : Z; x1 : Z; x2 : Z; x3 : Z }.

(** [y0 .. y3] are the same expression with the words rotated. *)
Definition aes_mix (a b c d : Z) : Z :=
  enc (a & 0xFF) ^^ rotr 32 (enc ((b >> 8) & 0xFF)) 24 ^^ rotr 32 (enc ((c >> 16) & 0xFF)) 16
  ^^ rotr 32 (enc (d >> 24)) 8.

(** The body of the loop. *)
Definition aes_round (roundKeys : list Z) (x : words) (i : nat) : words :=
  let y0 := aes_mix (x0 x) (x1 x) (x2 x) (x3 x) in
  let y1 := aes_mix (x1 x) (x2 x) (x3 x) (x0 x) in
  let y2 := aes_mix (x2 x) (x3 x) (x0 x) (x1 x) in
  let y3 := aes_mix (x3 x) (x0 x) (x1 x) (x2 x) in
  Words (y0 ^^ get roundKeys i) (y1 ^^ get roundKeys (i + 1))
    (y2 ^^ get roundKeys (i + 2)) (y3 ^^ get roundKeys (i + 3)).

(** The last round without MixColumns; again one expression with rotated words. *)
Definition aes_last (k a b c d : Z) : Z :=
  k ^^ sbox (a & 0xFF) ^^ u32 (sbox ((b >> 8) & 0xFF) << 8) ^^ u32 (sbox ((c >> 16) & 0xFF) << 16)
  ^^ u32 (sbox (d >> 24) << 24).

(** [for (i = 4; i < numRoundsX4; i += 4)]; the result is the 16 bytes of [out]. *)
Definition aes_rounds (inp roundKeys : list Z) (numRoundsX4 : nat) : list Z :=
  let x := Words (mem_loadU32 inp ^^ get roundKeys 0) (mem_loadU32 (skipn 4 inp) ^^ get roundKeys 1)
    (mem_loadU32 (skipn 8 inp) ^^ get roundKeys 2) (mem_loadU32 (skipn 12 inp) ^^ get roundKeys 3) in
  let x := fold_left (fun x j => aes_round roundKeys x (4 * j)) (seq 1 (numRoundsX4 / 4 - 1)) x in
  le_split 4 (aes_last (get roundKeys numRoundsX4) (x0 x) (x1 x) (x2 x) (x3 x)) ++
  le_split 4 (aes_last (get roundKeys (numRoundsX4 + 1)) (x1 x) (x2 x) (x3 x) (x0 x)) ++
  le_split 4 (aes_last (get roundKeys (numRoundsX4 + 2)) (x2 x) (x3 x) (x0 x) (x1 x)) ++
  le_split 4 (aes_last (get roundKeys (numRoundsX4 + 3)) (x3 x) (x0 x) (x1 x) (x2 x)).

(** The rotated and the plain substitution of a key word. *)
Definition aes_rot_sub (t : Z) : Z :=
  u32 (sbox (t & 0xFF) << 24) ^^ u32 (sbox (t >> 24) << 16) ^^ u32 (sbox ((t >> 16) & 0xFF) << 8)
  ^^ sbox ((t >> 8) & 0xFF).
Definition aes_sub (t : Z) : Z :=
  u32 (sbox (t >> 24) << 24) ^^ u32 (sbox ((t >> 16) & 0xFF) << 16) ^^ u32 (sbox ((t >> 8) & 0xFF) << 8)
  ^^ sbox (t & 0xFF).

(** [for (i = 4; i < 44; i += 4)] of [aes128_block]: [temp0 .. temp3], [pow], [roundKeys]. *)
Definition aes128_expand_step (st : words * Z * list Z) (i : nat) : words * Z * list Z :=
  let '(t, pow, roundKeys) := st in
  let temp0 := x0 t ^^ (pow ^^ aes_rot_sub (x3 t)) in
  let pow := if (i =? 32)%nat then 0x1B else u32 (pow << 1) in
  let roundKeys := set roundKeys i temp0 in
  let temp1 := x1 t ^^ temp0 in
  let roundKeys := set roundKeys (i + 1) temp1 in
  let temp2 := x2 t ^^ temp1 in
  let roundKeys := set roundKeys (i + 2) temp2 in
  let temp3 := x3 t ^^ temp2 in
  let roundKeys := set roundKeys (i + 3) temp3 in
  (Words temp0 temp1 temp2 temp3, pow, roundKeys).

Definition aes128_expand (key : list Z) : list Z :=
  let t := Words (mem_loadU32 key) (mem_loadU32 (skipn 4 key)) (mem_loadU32 (skipn 8 key))
    (mem_loadU32 (skipn 12 key)) in
  let roundKeys := set (set (set (set (repeat 0 44) 0 (x0 t)) 1 (x1 t)) 2 (x2 t)) 3 (x3 t) in
  snd (fold_left (fun st j => aes128_expand_step st (4 * j)) (seq 1 10) (t, 1, roundKeys)).

Definition aes128_block (inp key : list Z) : list Z := aes_rounds inp (aes128_expand key) 40.

(** [for (i = 8;; i += 8)] of [aes256_block]: [temp0 .. temp3], [temp4 .. temp7], [pow],
    [roundKeys]; the loop leaves after the first half at [i == 56]. *)
Definition aes256_expand_step (st : words * words * Z * list Z) (i : nat) : words * words * Z * list Z :=
  let '(t, t', pow, roundKeys) := st in
  let temp0 := x0 t ^^ (pow ^^ aes_rot_sub (x3 t')) in
  let pow := u32 (pow << 1) in
  let roundKeys := set roundKeys i temp0 in
  let temp1 := x1 t ^^ temp0 in
  let roundKeys := set roundKeys (i + 1) temp1 in
  let temp2 := x2 t ^^ temp1 in
  let roundKeys := set roundKeys (i + 2) temp2 in
  let temp3 := x3 t ^^ temp2 in
  let roundKeys := set roundKeys (i + 3) temp3 in
  let t := Words temp0 temp1 temp2 temp3 in
  if (i =? 56)%nat then (t, t', pow, roundKeys)
  else
    let temp4 := x0 t' ^^ aes_sub temp3 in
    let roundKeys := set roundKeys (i + 4) temp4 in
    let temp5 := x1 t' ^^ temp4 in
    let roundKeys := set roundKeys (i + 5) temp5 in
    let temp6 := x2 t' ^^ temp5 in
    let roundKeys := set roundKeys (i + 6) temp6 in
    let temp7 := x3 t' ^^ temp6 in
    let roundKeys := set roundKeys (i + 7) temp7 in
    (t, Words temp4 temp5 temp6 temp7, pow, roundKeys).

Definition aes256_expand (key : list Z) : list Z :=
  let load i := mem_loadU32 (skipn (4 * i) key) in
  let t := Words (load 0%nat) (load 1%nat) (load 2%nat) (load 3%nat) in
  let t' := Words (load 4%nat) (load 5%nat) (load 6%nat) (load 7%nat) in
  let roundKeys := fold_left (fun rk i => set rk i (load i)) (seq 0 8) (repeat 0 60) in
  snd (fold_left (fun st j => aes256_expand_step st (8 * j)) (seq 1 7) (t, t', 1, roundKeys)).

Definition aes256_block (inp key : list Z) : list Z := aes_rounds inp (aes256_expand key) 56.

(** ** Reference: FIPS 197 *)
Module Fips197.

(** Multiplication in GF(2^8) modulo x^8 + x^4 + x^3 + x + 1. *)
Definition xtime (a : Z) : Z := if a <? 128 then 2 * a else (2 * a) ^^ 0x11B.

Fixpoint gmul_loop (n : nat) (a b : Z) : Z :=
  match n with
  | O => 0
  | S n' => (if Z.odd b then a else 0) ^^ gmul_loop n' (xtime a) (b / 2)
  end.
Definition gmul : Z -> Z -> Z := gmul_loop 8.

Definition ginv (a : Z) : Z := Nat.iter 254 (gmul a) 1.

Definition affine (b : Z) : Z :=
  fold_left (fun acc i => acc ^^ rotl 8 b i) [1; 2; 3; 4] b ^^ 0x63.

Definition S_box (a : Z) : Z := affine (ginv a).

(** A state is the list of its four columns. *)
Definition column := list Z.
Definition state := list column.

Fixpoint xor_col (k l : column) : column :=
  match k, l with
  | x :: k', y :: l' => x ^^ y :: xor_col k' l'
  | _, _ => []
  end.

Fixpoint AddRoundKey (s : state) (k : list column) : state :=
  match s, k with
  | c :: s', w :: k' => xor_col c w :: AddRoundKey s' k'
  | _, _ => []
  end.

Definition SubBytes (s : state) : state := map (map S_box) s.

(** Row [r] of column [c] comes from column [c + r]. *)
Definition ShiftRows (s : state) : state :=
  map (fun c => map (fun r => get (nth ((c + r) mod 4) s []) r) (seq 0 4)) (seq 0 4).

(** [s'(r) = 2 s(r) + 3 s(r+1) + s(r+2) + s(r+3)]. *)
Definition MixColumn (c : column) : column :=
  map (fun r => gmul (get c r) 2 ^^ gmul (get c ((r + 1) mod 4)) 3
                ^^ get c ((r + 2) mod 4) ^^ get c ((r + 3) mod 4)) (seq 0 4).

Definition RotWord (w : column) : column := skipn 1 w ++ firstn 1 w.

Definition Rcon (j : nat) : column := [Nat.iter (j - 1) xtime 1; 0; 0; 0].

Definition next_word (Nk : nat) (w : list column) (i : nat) : column :=
  let temp := nth (i - 1) w [] in
  let temp :=
    if (i mod Nk =? 0)%nat then xor_col (map S_box (RotWord temp)) (Rcon (i / Nk))
    else if (6 <? Nk)%nat && (i mod Nk =? 4)%nat then map S_box temp else temp in
  xor_col (nth (i - Nk) w []) temp.

(** The columns of a byte string. *)
Definition columns (n : nat) (l : list Z) : list column :=
  map (fun i => firstn 4 (skipn (4 * i) l)) (seq 0 n).

Definition KeyExpansion (Nk Nr : nat) (key : list Z) : list column :=
  fold_left (fun w i => w ++ [next_word Nk w i]) (seq Nk (4 * (Nr + 1) - Nk)) (columns Nk key).

Definition round_key (w : list column) (i : nat) : list column := firstn 4 (skipn (4 * i) w).

Definition cipher (Nr : nat) (w : list column) (inp : list Z) : list Z :=
  let s := AddRoundKey (columns 4 inp) (round_key w 0) in
  let s := fold_left (fun s i =>
    AddRoundKey (map MixColumn (ShiftRows (SubBytes s))) (round_key w i)) (seq 1 (Nr - 1)) s in
  concat (AddRoundKey (ShiftRows (SubBytes s)) (round_key w Nr)).

Definition aes128 (inp key : list Z) : list Z := cipher 10 (KeyExpansion 4 10 key) inp.
Definition aes256 (inp key : list Z) : list Z := cipher 14 (KeyExpansion 8 14 key) inp.
End Fips197.

(** ** Tables *)
Import Fips197.

Definition word (c : column) : Z := le_combine c.
Definition col_ok (c : column) : Prop := length c = 4%nat /\ bytes c.

(** Everything the proofs need of one table entry. *)
Definition entry_ok (k : nat) : bool :=
  let b := Z.of_nat k in
  let s := S_box b in
  let d := gmul s 2 in
  let t := gmul s 3 in
  (sbox b =? s) && (0 <=? s) && (s <? 256) && (0 <=? d) && (d <? 256) && (0 <=? t) && (t <? 256) &&
  (enc b =? word [d; s; s; t]) && (rotr 32 (enc b) 24 =? word [t; d; s; s]) &&
  (rotr 32 (enc b) 16 =? word [s; t; d; s]) && (rotr 32 (enc b) 8 =? word [s; s; t; d]).

Lemma tables_ok : forallb entry_ok (seq 0 256) = true.
Proof. vm_compute. reflexivity. Qed.

Lemma entry b : is_byte b ->
  let s := S_box b in
  let d := gmul s 2 in
  let t := gmul s 3 in
  sbox b = s /\ is_byte s /\ is_byte d /\ is_byte t /\
  enc b = word [d; s; s; t] /\ rotr 32 (enc b) 24 = word [t; d; s; s] /\
  rotr 32 (enc b) 16 = word [s; t; d; s] /\ rotr 32 (enc b) 8 = word [s; s; t; d].
Proof.
  intros Hb. pose proof tables_ok as H. rewrite forallb_forall in H.
  specialize (H (Z.to_nat b)). unfold is_byte in Hb.
  assert (In (Z.to_nat b) (seq 0 256)) as Hin by (apply in_seq; lia). specialize (H Hin).
  unfold entry_ok in H. rewrite Z2Nat.id in H by lia. cbv zeta in *.
  rewrite !andb_true_iff, !Z.eqb_eq, !Z.leb_le, !Z.ltb_lt in H. unfold is_byte. intuition lia.
Qed.

(** ** Words as columns *)

Lemma word_xor k l : bytes k -> bytes l -> length k = length l -> word k ^^ word l = word (xor_col k l).
Proof.
  intros Hk. revert l. induction Hk as [|x k Hx Hk IH]; intros [|y l] Hl Hlen; try discriminate; [reflexivity|].
  inversion Hl; subst. cbn [word le_combine xor_col] in *. change 256 with (2 ^ 8).
  rewrite lxor_limb by (unfold is_byte in *; lia). f_equal. f_equal. apply IH; auto.
Qed.

Lemma bytes_xor_col k l : bytes k -> bytes l -> bytes (xor_col k l).
Proof.
  intros Hk. revert l. induction Hk as [|x k Hx Hk IH]; intros [|y l] Hl; try constructor.
  - inversion Hl; subst. unfold is_byte in *. apply (lxor_bound 8); lia.
  - inversion Hl; subst. now apply IH.
Qed.

Lemma length_xor_col k l : length (xor_col k l) = Nat.min (length k) (length l).
Proof. revert l. induction k; intros [|y l]; cbn; auto. Qed.

Lemma xor_col_comm k l : xor_col k l = xor_col l k.
Proof. revert l. induction k; intros [|y l]; cbn; try reflexivity. rewrite Z.lxor_comm. now f_equal. Qed.

Lemma col_ok_xor k l : col_ok k -> col_ok l -> col_ok (xor_col k l).
Proof.
  intros [Hk Bk] [Hl Bl]. split; [rewrite length_xor_col; lia|now apply bytes_xor_col].
Qed.

Lemma word_xor_col k l : col_ok k -> col_ok l -> word k ^^ word l = word (xor_col k l).
Proof. intros [Hk Bk] [Hl Bl]. apply word_xor; congruence || assumption. Qed.
#[local] Hint Resolve col_ok_xor : hc.

Lemma le_split_word c : col_ok c -> le_split 4 (word c) = c.
Proof. intros [Hl Hb]. rewrite <- Hl. now apply le_split_combine. Qed.

Lemma col_ok_inv c : col_ok c ->
  exists a b d e, c = [a; b; d; e] /\ is_byte a /\ is_byte b /\ is_byte d /\ is_byte e.
Proof.
  intros [Hl Hb]. do 4 (destruct c as [|? c]; [discriminate|]). destruct c; [|discriminate].
  unfold bytes in Hb. rewrite !Forall_cons_iff in Hb. repeat eexists; apply Hb.
Qed.

Lemma col_ok4 a b c d : is_byte a -> is_byte b -> is_byte c -> is_byte d -> col_ok [a; b; c; d].
Proof. intros. split; [reflexivity|repeat constructor; apply H || apply H0 || apply H1 || apply H2]. Qed.

Section Bytes.
Context (a b c d : Z) (Ha : is_byte a) (Hb : is_byte b) (Hc : is_byte c) (Hd : is_byte d).

(** The byte extractions of the code. *)
Lemma word_bytes :
  word [a; b; c; d] & 0xFF = a /\ (word [a; b; c; d] >> 8) & 0xFF = b /\
  (word [a; b; c; d] >> 16) & 0xFF = c /\ word [a; b; c; d] >> 24 = d.
Proof using Ha Hb Hc Hd.
  unfold is_byte in *. unfold word. cbn [le_combine].
  rewrite !(land_mask 8), !shiftr_div by (lia || reflexivity).
  change (2 ^ 8) with 256. change (2 ^ 16) with 65536. change (2 ^ 24) with 16777216.
  repeat split; Z.to_euclidean_division_equations; lia.
Qed.

(** Shifting a byte into place. *)
Lemma word_shifts :
  a = word [a; 0; 0; 0] /\ u32 (b << 8) = word [0; b; 0; 0] /\
  u32 (c << 16) = word [0; 0; c; 0] /\ u32 (d << 24) = word [0; 0; 0; d].
Proof using Ha Hb Hc Hd.
  unfold is_byte in *. unfold word. cbn [le_combine]. rewrite !shiftl_mul, !wrap_small by lia. lia.
Qed.

(** Four shifted bytes make the word. *)
Lemma word_assemble : a ^^ u32 (b << 8) ^^ u32 (c << 16) ^^ u32 (d << 24) = word [a; b; c; d].
Proof using Ha Hb Hc Hd.
  destruct word_shifts as (E & -> & -> & ->). rewrite E at 1.
  assert (is_byte 0) by (unfold is_byte; lia).
  rewrite !word_xor_col by (repeat apply col_ok_xor; apply col_ok4; assumption).
  cbn [xor_col]. rewrite !Z.lxor_0_r, !Z.lxor_0_l. reflexivity.
Qed.
End Bytes.

(** [aes_mix] is SubBytes, the selection of ShiftRows and MixColumns of one column. *)
Lemma aes_mix_spec a0 a1 a2 a3 b0 b1 b2 b3 c0 c1 c2 c3 d0 d1 d2 d3 :
  col_ok [a0; a1; a2; a3] -> col_ok [b0; b1; b2; b3] -> col_ok [c0; c1; c2; c3] -> col_ok [d0; d1; d2; d3] ->
  let m := MixColumn [S_box a0; S_box b1; S_box c2; S_box d3] in
  aes_mix (word [a0; a1; a2; a3]) (word [b0; b1; b2; b3]) (word [c0; c1; c2; c3]) (word [d0; d1; d2; d3])
  = word m /\ col_ok m.
Proof.
  intros Ha Hb Hc Hd m.
  destruct (col_ok_inv _ Ha) as (? & ? & ? & ? & [= <- <- <- <-] & A0 & A1 & A2 & A3).
  destruct (col_ok_inv _ Hb) as (? & ? & ? & ? & [= <- <- <- <-] & B0 & B1 & B2 & B3).
  destruct (col_ok_inv _ Hc) as (? & ? & ? & ? & [= <- <- <- <-] & C0 & C1 & C2 & C3).
  destruct (col_ok_inv _ Hd) as (? & ? & ? & ? & [= <- <- <- <-] & D0 & D1 & D2 & D3).
  unfold aes_mix.
  destruct (word_bytes a0 a1 a2 a3 A0 A1 A2 A3) as (-> & _).
  destruct (word_bytes b0 b1 b2 b3 B0 B1 B2 B3) as (_ & -> & _).
  destruct (word_bytes c0 c1 c2 c3 C0 C1 C2 C3) as (_ & _ & -> & _).
  destruct (word_bytes d0 d1 d2 d3 D0 D1 D2 D3) as (_ & _ & _ & ->).
  destruct (entry a0 A0) as (_ & Sa & Sa2 & Sa3 & -> & _). destruct (entry b1 B1) as (_ & Sb & Sb2 & Sb3 & _ & -> & _).
  destruct (entry c2 C2) as (_ & Sc & Sc2 & Sc3 & _ & _ & -> & _).
  destruct (entry d3 D3) as (_ & Sd & Sd2 & Sd3 & _ & _ & _ & ->). cbv zeta in *.
  rewrite !word_xor_col by (repeat apply col_ok_xor; apply col_ok4; assumption).
  assert (xor_col (xor_col (xor_col
      [gmul (S_box a0) 2; S_box a0; S_box a0; gmul (S_box a0) 3]
      [gmul (S_box b1) 3; gmul (S_box b1) 2; S_box b1; S_box b1])
      [S_box c2; gmul (S_box c2) 3; gmul (S_box c2) 2; S_box c2])
      [S_box d3; S_box d3; gmul (S_box d3) 3; gmul (S_box d3) 2] = m) as E.
  { cbv [m MixColumn get xor_col map seq nth Nat.modulo Nat.divmod Nat.add Nat.sub fst snd].
    repeat apply (f_equal2 (@cons Z)); try reflexivity; bitwise. }
  split; [now rewrite E|]. rewrite <- E. repeat apply col_ok_xor; apply col_ok4; assumption.
Qed.

Lemma aes_last_spec k a0 a1 a2 a3 b0 b1 b2 b3 c0 c1 c2 c3 d0 d1 d2 d3 :
  col_ok k -> col_ok [a0; a1; a2; a3] -> col_ok [b0; b1; b2; b3] -> col_ok [c0; c1; c2; c3] -> col_ok [d0; d1; d2; d3] ->
  le_split 4 (aes_last (word k) (word [a0; a1; a2; a3]) (word [b0; b1; b2; b3]) (word [c0; c1; c2; c3]) (word [d0; d1; d2; d3]))
  = xor_col [S_box a0; S_box b1; S_box c2; S_box d3] k.
Proof.
  intros Hk Ha Hb Hc Hd.
  destruct (col_ok_inv _ Ha) as (? & ? & ? & ? & [= <- <- <- <-] & A0 & A1 & A2 & A3).
  destruct (col_ok_inv _ Hb) as (? & ? & ? & ? & [= <- <- <- <-] & B0 & B1 & B2 & B3).
  destruct (col_ok_inv _ Hc) as (? & ? & ? & ? & [= <- <- <- <-] & C0 & C1 & C2 & C3).
  destruct (col_ok_inv _ Hd) as (? & ? & ? & ? & [= <- <- <- <-] & D0 & D1 & D2 & D3).
  unfold aes_last.
  destruct (word_bytes a0 a1 a2 a3 A0 A1 A2 A3) as (-> & _).
  destruct (word_bytes b0 b1 b2 b3 B0 B1 B2 B3) as (_ & -> & _).
  destruct (word_bytes c0 c1 c2 c3 C0 C1 C2 C3) as (_ & _ & -> & _).
  destruct (word_bytes d0 d1 d2 d3 D0 D1 D2 D3) as (_ & _ & _ & ->).
  destruct (entry a0 A0) as (-> & Sa & _). destruct (entry b1 B1) as (-> & Sb & _).
  destruct (entry c2 C2) as (-> & Sc & _). destruct (entry d3 D3) as (-> & Sd & _).
  rewrite !Z.lxor_assoc, <- !(Z.lxor_assoc (S_box a0)), <- (Z.lxor_assoc (_ ^^ _)).
  rewrite word_assemble by assumption.
  rewrite word_xor_col by (assumption || now apply col_ok4).
  rewrite xor_col_comm. apply le_split_word, col_ok_xor; [now apply col_ok4|assumption].
Qed.

(** ** The rounds *)

(** A state of four good columns, and its words. *)
Definition state_ok (s : state) : Prop :=
  exists a b c d, s = [a; b; c; d] /\ col_ok a /\ col_ok b /\ col_ok c /\ col_ok d.
Definition words_of (s : state) : words :=
  Words (word (nth 0 s [])) (word (nth 1 s [])) (word (nth 2 s [])) (word (nth 3 s [])).

Lemma state_ok4 a b c d : col_ok a -> col_ok b -> col_ok c -> col_ok d -> state_ok [a; b; c; d].
Proof. intros. exists a, b, c, d. auto. Qed.

Lemma round_key4 w i : (4 * i + 4 <= length w)%nat ->
  round_key w i = [nth (4 * i) w []; nth (4 * i + 1) w []; nth (4 * i + 2) w []; nth (4 * i + 3) w []].
Proof.
  intros Hl. unfold round_key.
  assert (forall j, nth (4 * i + j) w [] = nth j (skipn (4 * i) w) []) as E by (intros; now rewrite nth_skipn).
  rewrite <- (Nat.add_0_r (4 * i)) at 2. rewrite !E. assert (4 <= length (skipn (4 * i) w))%nat by lens.
  destruct (skipn (4 * i) w) as [|a [|b [|c [|d l]]]]; cbn in *; try lia. reflexivity.
Qed.

Section Rounds.
Context (w : list column) (Hw : Forall col_ok w).
Abbreviation roundKeys := (map word w).

Lemma get_words i : get roundKeys i = word (nth i w []).
Proof. unfold get. change 0 with (word []). apply map_nth. Qed.

Lemma col_ok_nth i : (i < length w)%nat -> col_ok (nth i w []).
Proof using Hw. intros Hi. rewrite Forall_forall in Hw. now apply Hw, nth_In. Qed.

Lemma words_of_xor s i : state_ok s -> (4 * i + 4 <= length w)%nat ->
  state_ok (AddRoundKey s (round_key w i)) /\
  words_of (AddRoundKey s (round_key w i)) =
  Words (x0 (words_of s) ^^ get roundKeys (4 * i)) (x1 (words_of s) ^^ get roundKeys (4 * i + 1))
    (x2 (words_of s) ^^ get roundKeys (4 * i + 2)) (x3 (words_of s) ^^ get roundKeys (4 * i + 3)).
Proof using Hw.
  intros (a & b & c & d & -> & Ha & Hb & Hc & Hd) Hl. rewrite round_key4, !get_words by assumption.
  assert (col_ok (nth (4 * i) w []) /\ col_ok (nth (4 * i + 1) w []) /\ col_ok (nth (4 * i + 2) w [])
    /\ col_ok (nth (4 * i + 3) w [])) as (K0 & K1 & K2 & K3) by (repeat split; apply col_ok_nth; lia).
  cbn [AddRoundKey]. split; [apply state_ok4; now apply col_ok_xor|].
  unfold words_of. cbn [nth x0 x1 x2 x3]. now rewrite !word_xor_col by assumption.
Qed.

Lemma aes_round_spec s i : state_ok s -> (4 * i + 4 <= length w)%nat ->
  let s' := AddRoundKey (map MixColumn (ShiftRows (SubBytes s))) (round_key w i) in
  state_ok s' /\ aes_round roundKeys (words_of s) (4 * i) = words_of s'.
Proof using Hw.
  intros (a & b & c & d & -> & Ha & Hb & Hc & Hd) Hl. cbv zeta.
  destruct (col_ok_inv _ Ha) as (a0 & a1 & a2 & a3 & -> & _). destruct (col_ok_inv _ Hb) as (b0 & b1 & b2 & b3 & -> & _).
  destruct (col_ok_inv _ Hc) as (c0 & c1 & c2 & c3 & -> & _). destruct (col_ok_inv _ Hd) as (d0 & d1 & d2 & d3 & -> & _).
  change (map MixColumn (ShiftRows (SubBytes _))) with
    [MixColumn [S_box a0; S_box b1; S_box c2; S_box d3]; MixColumn [S_box b0; S_box c1; S_box d2; S_box a3];
     MixColumn [S_box c0; S_box d1; S_box a2; S_box b3]; MixColumn [S_box d0; S_box a1; S_box b2; S_box c3]].
  destruct (aes_mix_spec _ _ _ _ _ _ _ _ _ _ _ _ _ _ _ _ Ha Hb Hc Hd) as [E0 M0].
  destruct (aes_mix_spec _ _ _ _ _ _ _ _ _ _ _ _ _ _ _ _ Hb Hc Hd Ha) as [E1 M1].
  destruct (aes_mix_spec _ _ _ _ _ _ _ _ _ _ _ _ _ _ _ _ Hc Hd Ha Hb) as [E2 M2].
  destruct (aes_mix_spec _ _ _ _ _ _ _ _ _ _ _ _ _ _ _ _ Hd Ha Hb Hc) as [E3 M3].
  destruct (words_of_xor [MixColumn [S_box a0; S_box b1; S_box c2; S_box d3]; MixColumn [S_box b0; S_box c1; S_box d2; S_box a3];
     MixColumn [S_box c0; S_box d1; S_box a2; S_box b3]; MixColumn [S_box d0; S_box a1; S_box b2; S_box c3]] i)
    as [Hok ->]; [now apply state_ok4|assumption|].
  split; [exact Hok|]. unfold aes_round, words_of. cbn [nth x0 x1 x2 x3]. now rewrite E0, E1, E2, E3.
Qed.

Lemma aes_rounds_loop s n : state_ok s -> (4 * n + 4 <= length w)%nat ->
  let f := fun s i => AddRoundKey (map MixColumn (ShiftRows (SubBytes s))) (round_key w i) in
  state_ok (fold_left f (seq 1 n) s) /\
  fold_left (fun x j => aes_round roundKeys x (4 * j)) (seq 1 n) (words_of s) = words_of (fold_left f (seq 1 n) s).
Proof using Hw.
  intros Hs Hn f. induction n as [|n IH]; [now split|].
  destruct IH as [Hok E]; [lia|]. rewrite seq_S, !fold_left_app, E. cbn [fold_left].
  destruct (aes_round_spec _ (1 + n) Hok) as [Hok' E']; [lia|]. now split.
Qed.

Lemma aes_last_round s n : state_ok s -> (4 * n + 4 <= length w)%nat ->
  let x := words_of s in
  le_split 4 (aes_last (get roundKeys (4 * n)) (x0 x) (x1 x) (x2 x) (x3 x)) ++
  le_split 4 (aes_last (get roundKeys (4 * n + 1)) (x1 x) (x2 x) (x3 x) (x0 x)) ++
  le_split 4 (aes_last (get roundKeys (4 * n + 2)) (x2 x) (x3 x) (x0 x) (x1 x)) ++
  le_split 4 (aes_last (get roundKeys (4 * n + 3)) (x3 x) (x0 x) (x1 x) (x2 x))
  = concat (AddRoundKey (ShiftRows (SubBytes s)) (round_key w n)).
Proof using Hw.
  intros (a & b & c & d & -> & Ha & Hb & Hc & Hd) Hl. cbv zeta. rewrite round_key4, !get_words by assumption.
  assert (col_ok (nth (4 * n) w []) /\ col_ok (nth (4 * n + 1) w []) /\ col_ok (nth (4 * n + 2) w [])
    /\ col_ok (nth (4 * n + 3) w [])) as (K0 & K1 & K2 & K3) by (repeat split; apply col_ok_nth; lia).
  destruct (col_ok_inv _ Ha) as (a0 & a1 & a2 & a3 & -> & _). destruct (col_ok_inv _ Hb) as (b0 & b1 & b2 & b3 & -> & _).
  destruct (col_ok_inv _ Hc) as (c0 & c1 & c2 & c3 & -> & _). destruct (col_ok_inv _ Hd) as (d0 & d1 & d2 & d3 & -> & _).
  unfold words_of. cbn [nth x0 x1 x2 x3]. rewrite !aes_last_spec by assumption.
  change (ShiftRows (SubBytes _)) with
    [[S_box a0; S_box b1; S_box c2; S_box d3]; [S_box b0; S_box c1; S_box d2; S_box a3];
     [S_box c0; S_box d1; S_box a2; S_box b3]; [S_box d0; S_box a1; S_box b2; S_box c3]].
  cbn [AddRoundKey List.concat]. now rewrite app_nil_r.
Qed.

Lemma columns_ok n l : bytes l -> (4 * n <= length l)%nat -> Forall col_ok (columns n l).
Proof.
  intros Hb Hl. unfold columns. apply Forall_map, Forall_forall. intros i Hi%in_seq.
  split; [lens|auto with hc].
Qed.

Lemma aes_rounds_fips inp Nr : bytes inp -> length inp = 16%nat -> (1 <= Nr)%nat -> length w = (4 * (Nr + 1))%nat ->
  aes_rounds inp roundKeys (4 * Nr) = cipher Nr w inp.
Proof using Hw.
  intros Hb Hl Hnr Hlw. unfold aes_rounds, cipher.
  pose proof (columns_ok 4 inp Hb ltac:(lia)) as Hcols. set (s0 := columns 4 inp) in *.
  assert (state_ok s0) as Hs0.
  { unfold s0, columns in *. cbn [map seq] in *. rewrite !Forall_cons_iff in Hcols. apply state_ok4; apply Hcols. }
  assert (words_of s0 = Words (mem_loadU32 inp) (mem_loadU32 (skipn 4 inp)) (mem_loadU32 (skipn 8 inp))
    (mem_loadU32 (skipn 12 inp))) as Ew by reflexivity.
  destruct (words_of_xor s0 0 Hs0) as [Hs1 E1]; [lia|]. rewrite Ew in E1. cbn [x0 x1 x2 x3] in E1.
  change (4 * 0)%nat with 0%nat in E1. cbn [Nat.add] in E1. rewrite <- E1.
  replace (4 * Nr / 4 - 1)%nat with (Nr - 1)%nat by (rewrite Nat.mul_comm, Nat.div_mul; lia).
  destruct (aes_rounds_loop _ (Nr - 1) Hs1) as [Hok ->]; [lia|].
  apply aes_last_round; [assumption|lia].
Qed.
End Rounds.

(** ** Key expansion *)

Lemma aes_rot_sub_spec a b c d : col_ok [a; b; c; d] ->
  aes_rot_sub (word [a; b; c; d]) = word (map S_box (RotWord [a; b; c; d])) /\ col_ok (map S_box (RotWord [a; b; c; d])).
Proof.
  intros H. destruct (col_ok_inv _ H) as (? & ? & ? & ? & [= <- <- <- <-] & A & B & C & D).
  unfold aes_rot_sub. destruct (word_bytes a b c d A B C D) as (-> & -> & -> & ->).
  destruct (entry a A) as (-> & Sa & _). destruct (entry b B) as (-> & Sb & _).
  destruct (entry c C) as (-> & Sc & _). destruct (entry d D) as (-> & Sd & _). cbn [RotWord skipn firstn app map].
  split; [|now apply col_ok4]. rewrite <- word_assemble by assumption. bitwise.
Qed.

Lemma aes_sub_spec a b c d : col_ok [a; b; c; d] ->
  aes_sub (word [a; b; c; d]) = word (map S_box [a; b; c; d]) /\ col_ok (map S_box [a; b; c; d]).
Proof.
  intros H. destruct (col_ok_inv _ H) as (? & ? & ? & ? & [= <- <- <- <-] & A & B & C & D).
  unfold aes_sub. destruct (word_bytes a b c d A B C D) as (-> & -> & -> & ->).
  destruct (entry a A) as (-> & Sa & _). destruct (entry b B) as (-> & Sb & _).
  destruct (entry c C) as (-> & Sc & _). destruct (entry d D) as (-> & Sd & _). cbn [map].
  split; [|now apply col_ok4]. rewrite <- word_assemble by assumption. bitwise.
Qed.

(** The words of the expansion after [n] steps. *)
Definition expanded (Nk : nat) (key : list Z) (n : nat) : list column :=
  fold_left (fun w i => w ++ [next_word Nk w i]) (seq Nk n) (columns Nk key).

Lemma KeyExpansion_expanded Nk Nr n key : (4 * (Nr + 1) - Nk)%nat = n ->
  KeyExpansion Nk Nr key = expanded Nk key n.
Proof. now intros <-. Qed.

Lemma expanded_S Nk key n :
  expanded Nk key (S n) = expanded Nk key n ++ [next_word Nk (expanded Nk key n) (Nk + n)].
Proof. unfold expanded. now rewrite seq_S, fold_left_app. Qed.

Lemma nth_tail (U l : list column) k : nth (length U + k) (U ++ l) [] = nth k l [].
Proof. apply app_nth2_plus. Qed.

(** The next word depends on the last [Nk] ones. *)
Lemma next_word_4 U a b c d i : i = (length U + 4)%nat ->
  next_word 4 (U ++ [a; b; c; d]) i =
  xor_col a (if (i mod 4 =? 0)%nat then xor_col (map S_box (RotWord d)) (Rcon (i / 4)) else d).
Proof.
  intros ->. unfold next_word. replace (length U + 4 - 1)%nat with (length U + 3)%nat by lia.
  replace (length U + 4 - 4)%nat with (length U + 0)%nat by lia. now rewrite !nth_tail.
Qed.

Lemma next_word_8 U a b c d e f g h i : i = (length U + 8)%nat ->
  next_word 8 (U ++ [a; b; c; d; e; f; g; h]) i =
  xor_col a (if (i mod 8 =? 0)%nat then xor_col (map S_box (RotWord h)) (Rcon (i / 8))
             else if (i mod 8 =? 4)%nat then map S_box h else h).
Proof.
  intros ->. unfold next_word. replace (length U + 8 - 1)%nat with (length U + 7)%nat by lia.
  replace (length U + 8 - 8)%nat with (length U + 0)%nat by lia. now rewrite !nth_tail.
Qed.

Lemma divmod_at n q r i : (0 < n -> r < n -> i = n * q + r -> i / n = q /\ i mod n = r)%nat.
Proof. intros Hn Hr ->. split; symmetry; [eapply Nat.div_unique|eapply Nat.mod_unique]; eauto. Qed.

Lemma expanded_next4 key n U a b c d : expanded 4 key n = U ++ [a; b; c; d] -> length U = n ->
  expanded 4 key (S n) = (U ++ [a]) ++ [b; c; d; xor_col a
    (if ((4 + n) mod 4 =? 0)%nat then xor_col (map S_box (RotWord d)) (Rcon ((4 + n) / 4)) else d)].
Proof.
  intros HE HU. rewrite expanded_S, HE, (next_word_4 U) by lia. now rewrite <- !app_assoc.
Qed.

Lemma expanded_next8 key n U a b c d e f g h :
  expanded 8 key n = U ++ [a; b; c; d; e; f; g; h] -> length U = n ->
  expanded 8 key (S n) = (U ++ [a]) ++ [b; c; d; e; f; g; h; xor_col a
    (if ((8 + n) mod 8 =? 0)%nat then xor_col (map S_box (RotWord h)) (Rcon ((8 + n) / 8))
     else if ((8 + n) mod 8 =? 4)%nat then map S_box h else h)].
Proof.
  intros HE HU. rewrite expanded_S, HE, (next_word_8 U) by lia. now rewrite <- !app_assoc.
Qed.

(** Four words of AES-128 at once. *)
Lemma expanded_4 key j U a b c d : expanded 4 key (4 * j) = U ++ [a; b; c; d] -> length U = (4 * j)%nat ->
  let a' := xor_col a (xor_col (map S_box (RotWord d)) (Rcon (S j))) in
  let b' := xor_col b a' in
  let c' := xor_col c b' in
  let d' := xor_col d c' in
  expanded 4 key (4 * S j) = (U ++ [a; b; c; d]) ++ [a'; b'; c'; d'].
Proof.
  intros HE HU. cbv zeta. replace (4 * S j)%nat with (S (S (S (S (4 * j))))) by lia.
  apply expanded_next4 in HE; [|assumption].
  destruct (divmod_at 4 (S j) 0 (4 + 4 * j)) as [Hd Hm]; [lia..|]. rewrite Hd, Hm in HE. clear Hd Hm.
  apply expanded_next4 in HE; [|lens].
  destruct (divmod_at 4 (S j) 1 (4 + S (4 * j))) as [_ Hm]; [lia..|]. rewrite Hm in HE. clear Hm.
  apply expanded_next4 in HE; [|lens].
  destruct (divmod_at 4 (S j) 2 (4 + S (S (4 * j)))) as [_ Hm]; [lia..|]. rewrite Hm in HE. clear Hm.
  apply expanded_next4 in HE; [|lens].
  destruct (divmod_at 4 (S j) 3 (4 + S (S (S (4 * j))))) as [_ Hm]; [lia..|]. rewrite Hm in HE. clear Hm.
  rewrite HE, <- !app_assoc. reflexivity.
Qed.

(** Four words of AES-256: the first and the second half of an iteration. *)
Lemma expanded_8a key j U a b c d e f g h :
  expanded 8 key (8 * j) = U ++ [a; b; c; d; e; f; g; h] -> length U = (8 * j)%nat ->
  let a' := xor_col a (xor_col (map S_box (RotWord h)) (Rcon (S j))) in
  let b' := xor_col b a' in
  let c' := xor_col c b' in
  let d' := xor_col d c' in
  expanded 8 key (8 * j + 4) = (U ++ [a; b; c; d]) ++ [e; f; g; h; a'; b'; c'; d'].
Proof.
  intros HE HU. cbv zeta. replace (8 * j + 4)%nat with (S (S (S (S (8 * j))))) by lia.
  apply expanded_next8 in HE; [|assumption].
  destruct (divmod_at 8 (S j) 0 (8 + 8 * j)) as [Hd Hm]; [lia..|]. rewrite Hd, Hm in HE. clear Hd Hm.
  apply expanded_next8 in HE; [|lens].
  destruct (divmod_at 8 (S j) 1 (8 + S (8 * j))) as [_ Hm]; [lia..|]. rewrite Hm in HE. clear Hm.
  apply expanded_next8 in HE; [|lens].
  destruct (divmod_at 8 (S j) 2 (8 + S (S (8 * j)))) as [_ Hm]; [lia..|]. rewrite Hm in HE. clear Hm.
  apply expanded_next8 in HE; [|lens].
  destruct (divmod_at 8 (S j) 3 (8 + S (S (S (8 * j))))) as [_ Hm]; [lia..|]. rewrite Hm in HE. clear Hm.
  rewrite HE, <- !app_assoc. reflexivity.
Qed.

Lemma expanded_8b key j U a b c d e f g h :
  expanded 8 key (8 * j + 4) = U ++ [a; b; c; d; e; f; g; h] -> length U = (8 * j + 4)%nat ->
  let a' := xor_col a (map S_box h) in
  let b' := xor_col b a' in
  let c' := xor_col c b' in
  let d' := xor_col d c' in
  expanded 8 key (8 * S j) = (U ++ [a; b; c; d]) ++ [e; f; g; h; a'; b'; c'; d'].
Proof.
  intros HE HU. cbv zeta. replace (8 * S j)%nat with (S (S (S (S (8 * j + 4))))) by lia.
  apply expanded_next8 in HE; [|assumption].
  destruct (divmod_at 8 (S j) 4 (8 + (8 * j + 4))) as [_ Hm]; [lia..|]. rewrite Hm in HE. clear Hm.
  apply expanded_next8 in HE; [|lens].
  destruct (divmod_at 8 (S j) 5 (8 + S (8 * j + 4))) as [_ Hm]; [lia..|]. rewrite Hm in HE. clear Hm.
  apply expanded_next8 in HE; [|lens].
  destruct (divmod_at 8 (S j) 6 (8 + S (S (8 * j + 4)))) as [_ Hm]; [lia..|]. rewrite Hm in HE. clear Hm.
  apply expanded_next8 in HE; [|lens].
  destruct (divmod_at 8 (S j) 7 (8 + S (S (S (8 * j + 4))))) as [_ Hm]; [lia..|]. rewrite Hm in HE. clear Hm.
  rewrite HE, <- !app_assoc. reflexivity.
Qed.

Lemma pow_xtime j : (j <= 9)%nat ->
  is_byte (Nat.iter j xtime 1) /\
  ((j < 9)%nat -> (if (4 * S j =? 32)%nat then 0x1B else u32 (Nat.iter j xtime 1 << 1)) = Nat.iter (S j) xtime 1).
Proof.
  intros Hj. do 10 (destruct j as [|j]; [split; [vm_compute; now split|]; intros; (reflexivity || lia)|]). lia.
Qed.

Lemma Rcon_ok j : (1 <= j <= 10)%nat -> word (Rcon j) = Nat.iter (j - 1) xtime 1 /\ col_ok (Rcon j).
Proof.
  intros Hj. destruct (pow_xtime (j - 1)) as [Hb _]; [lia|].
  split; [unfold Rcon, word; cbn [le_combine]; lia|]. unfold Rcon. apply col_ok4; unfold is_byte in *; lia.
Qed.

(** The four new words, as words and as columns. *)
Lemma new_words a b c d r pow s : col_ok a -> col_ok b -> col_ok c -> col_ok d -> col_ok r -> col_ok s ->
  pow = word r ->
  let a' := xor_col a (xor_col s r) in
  let b' := xor_col b a' in
  let c' := xor_col c b' in
  let d' := xor_col d c' in
  col_ok a' /\ col_ok b' /\ col_ok c' /\ col_ok d' /\
  word a ^^ (pow ^^ word s) = word a' /\ word b ^^ word a' = word b' /\
  word c ^^ word b' = word c' /\ word d ^^ word c' = word d'.
Proof.
  intros Ha Hb Hc Hd Hr Hs -> a' b' c' d'.
  assert (col_ok a') by (unfold a'; auto with hc). assert (col_ok b') by (unfold b'; auto with hc).
  assert (col_ok c') by (unfold c'; auto with hc). assert (col_ok d') by (unfold d'; auto with hc).
  repeat (split; [assumption|]).
  rewrite !word_xor_col by auto with hc. rewrite (xor_col_comm r s). auto.
Qed.

Lemma firstn_set4 (rk : list Z) i c0 c1 c2 c3 : (i + 4 <= length rk)%nat ->
  let rk' := set (set (set (set rk i c0) (i + 1) c1) (i + 2) c2) (i + 3) c3 in
  length rk' = length rk /\ firstn (i + 4) rk' = firstn i rk ++ [c0; c1; c2; c3].
Proof.
  intros H. cbv zeta. split; [lens|]. rewrite set4 by assumption. rewrite app_assoc.
  rewrite firstn_app_l, firstn_all2 by lens. reflexivity.
Qed.

Lemma rot_sub_col d : col_ok d -> aes_rot_sub (word d) = word (map S_box (RotWord d)) /\ col_ok (map S_box (RotWord d)).
Proof. intros H. destruct (col_ok_inv d H) as (a & b & c & e & -> & _). now apply aes_rot_sub_spec. Qed.

Lemma sub_col d : col_ok d -> aes_sub (word d) = word (map S_box d) /\ col_ok (map S_box d).
Proof. intros H. destruct (col_ok_inv d H) as (a & b & c & e & -> & _). now apply aes_sub_spec. Qed.

(** After [j] iterations of the expansion loop of [aes128_block]. *)
Definition inv128 (key : list Z) (j : nat) (st : words * Z * list Z) : Prop :=
  exists U a b c d,
    expanded 4 key (4 * j) = U ++ [a; b; c; d] /\ length U = (4 * j)%nat /\
    Forall col_ok (U ++ [a; b; c; d]) /\ fst (fst st) = Words (word a) (word b) (word c) (word d) /\
    ((j <= 9)%nat -> snd (fst st) = Nat.iter j xtime 1) /\ length (snd st) = 44%nat /\
    firstn (4 * j + 4) (snd st) = map word (U ++ [a; b; c; d]).

Lemma inv128_step key j st : (j < 10)%nat -> inv128 key j st ->
  inv128 key (S j) (aes128_expand_step st (4 * S j)).
Proof.
  intros Hj (U & a & b & c & d & HE & HU & Hok & Ht & Hp & Hl & Hrk).
  destruct st as [[t pow] rk]. cbn [fst snd] in *. subst t. specialize (Hp ltac:(lia)).
  pose proof Hok as Hok'. apply Forall_app in Hok' as [HokU Htl]. rewrite !Forall_cons_iff in Htl.
  destruct Htl as (Ha & Hb & Hc & Hd & _).
  pose proof (expanded_4 key j U a b c d HE HU) as HE'. cbv zeta in HE'.
  destruct (rot_sub_col d Hd) as [Hs Hsok]. destruct (Rcon_ok (S j)) as [Hr Hrok]; [lia|].
  replace (S j - 1)%nat with j in Hr by lia.
  destruct (new_words a b c d (Rcon (S j)) pow (map S_box (RotWord d))) as (A & B & C & D & Ea & Eb & Ec & Ed);
    [assumption..|congruence|].
  unfold aes128_expand_step. cbn [x0 x1 x2 x3]. rewrite Hs, Ea, Eb, Ec, Ed.
  set (a' := xor_col a _) in *. set (b' := xor_col b a') in *. set (c' := xor_col c b') in *.
  set (d' := xor_col d c') in *.
  destruct (firstn_set4 rk (4 * S j) (word a') (word b') (word c') (word d')) as [Hl' Hf]; [lia|].
  exists (U ++ [a; b; c; d]), a', b', c', d'. cbn [fst snd].
  split; [exact HE'|]. split; [lens|]. split; [apply Forall_app; split; [exact Hok|rewrite !Forall_cons_iff; auto 10]|].
  split; [reflexivity|]. split; [intros Hj9; rewrite Hp; apply pow_xtime; lia|]. split; [congruence|].
  rewrite Hf. replace (4 * S j)%nat with (4 * j + 4)%nat by lia. rewrite Hrk.
  now rewrite (map_app word (U ++ _)).
Qed.

Lemma inv128_init key : bytes key -> length key = 16%nat ->
  let t := Words (mem_loadU32 key) (mem_loadU32 (skipn 4 key)) (mem_loadU32 (skipn 8 key)) (mem_loadU32 (skipn 12 key)) in
  inv128 key 0 (t, 1, set (set (set (set (repeat 0 44) 0 (x0 t)) 1 (x1 t)) 2 (x2 t)) 3 (x3 t)).
Proof.
  intros Hb Hl t. pose proof (columns_ok 4 key Hb ltac:(lia)) as Hc.
  exists [], (firstn 4 key), (firstn 4 (skipn 4 key)), (firstn 4 (skipn 8 key)), (firstn 4 (skipn 12 key)).
  repeat split. exact Hc.
Qed.

Lemma aes128_expand_fips key : bytes key -> length key = 16%nat ->
  aes128_expand key = map word (KeyExpansion 4 10 key) /\ Forall col_ok (KeyExpansion 4 10 key) /\
  length (KeyExpansion 4 10 key) = 44%nat.
Proof.
  intros Hb Hl. unfold aes128_expand. set (t := Words _ _ _ _). set (rk := set _ _ _).
  assert (forall n, (n <= 10)%nat ->
    inv128 key n (fold_left (fun st j => aes128_expand_step st (4 * j)) (seq 1 n) (t, 1, rk))) as Hinv.
  { induction n as [|n IH]; intros Hn; [now apply inv128_init|].
    rewrite seq_S, fold_left_app. cbn [fold_left Nat.add]. apply inv128_step; [lia|]. apply IH. lia. }
  destruct (Hinv 10%nat (le_n _)) as (U & a & b & c & d & HE & HU & Hok & _ & _ & Hl' & Hrk).
  rewrite (KeyExpansion_expanded 4 10 (4 * 10)), HE by reflexivity.
  rewrite firstn_all2 in Hrk by lia. split; [exact Hrk|]. split; [exact Hok|now rewrite length_app, HU].
Qed.

(** After [j] iterations of the expansion loop of [aes256_block] ([j <= 6]). *)
Definition inv256 (key : list Z) (j : nat) (st : words * words * Z * list Z) : Prop :=
  exists U a b c d e f g h,
    expanded 8 key (8 * j) = U ++ [a; b; c; d; e; f; g; h] /\ length U = (8 * j)%nat /\
    Forall col_ok (U ++ [a; b; c; d; e; f; g; h]) /\
    fst (fst (fst st)) = Words (word a) (word b) (word c) (word d) /\
    snd (fst (fst st)) = Words (word e) (word f) (word g) (word h) /\
    snd (fst st) = Nat.iter j xtime 1 /\ length (snd st) = 60%nat /\
    firstn (8 * j + 8) (snd st) = map word (U ++ [a; b; c; d; e; f; g; h]).

(** One iteration up to the [break]: the round keys so far. *)
Lemma inv256_half key j st : (j < 7)%nat -> inv256 key j st ->
  let st' := aes256_expand_step st (8 * S j) in
  exists U a b c d e f g h,
    expanded 8 key (8 * j + 4) = U ++ [a; b; c; d; e; f; g; h] /\ length U = (8 * j + 4)%nat /\
    Forall col_ok (U ++ [a; b; c; d; e; f; g; h]) /\
    fst (fst (fst st')) = Words (word e) (word f) (word g) (word h) /\
    snd (fst (fst st)) = Words (word a) (word b) (word c) (word d) /\
    firstn (8 * j + 12) (snd st') = map word (U ++ [a; b; c; d; e; f; g; h]) /\
    length (snd st') = 60%nat /\
    ((j < 6)%nat -> inv256 key (S j) st').
Proof.
  intros Hj (U & a & b & c & d & e & f & g & h & HE & HU & Hok & Ht & Ht' & Hp & Hl & Hrk).
  destruct st as [[[t t'] pow] rk]. cbn [fst snd] in *. subst t t'.
  pose proof Hok as Hok'. apply Forall_app in Hok' as [HokU Htl]. rewrite !Forall_cons_iff in Htl.
  destruct Htl as (Ha & Hb & Hc & Hd & He & Hf & Hg & Hh & _).
  pose proof (expanded_8a key j U a b c d e f g h HE HU) as HE'. cbv zeta in HE'.
  destruct (rot_sub_col h Hh) as [Hs Hsok]. destruct (Rcon_ok (S j)) as [Hr Hrok]; [lia|].
  replace (S j - 1)%nat with j in Hr by lia.
  destruct (new_words a b c d (Rcon (S j)) pow (map S_box (RotWord h))) as (A & B & C & D & Ea & Eb & Ec & Ed);
    [assumption..|congruence|].
  unfold aes256_expand_step. cbn [x0 x1 x2 x3]. rewrite Hs, Ea, Eb, Ec, Ed.
  set (a' := xor_col a _) in *. set (b' := xor_col b a') in *. set (c' := xor_col c b') in *.
  set (d' := xor_col d c') in *.
  destruct (firstn_set4 rk (8 * S j) (word a') (word b') (word c') (word d')) as [Hl' Hfs]; [lia|].
  set (rk' := set _ (8 * S j + 3) (word d')) in *.
  assert (firstn (8 * j + 12) rk' = map word ((U ++ [a; b; c; d]) ++ [e; f; g; h; a'; b'; c'; d'])) as Hrk'.
  { replace (8 * j + 12)%nat with (8 * S j + 4)%nat by lia. rewrite Hfs.
    replace (8 * S j)%nat with (8 * j + 8)%nat by lia. rewrite Hrk.
    change [word a'; word b'; word c'; word d'] with (map word [a'; b'; c'; d']).
    rewrite <- map_app. f_equal. now rewrite <- !app_assoc. }
  assert (Forall col_ok ((U ++ [a; b; c; d]) ++ [e; f; g; h; a'; b'; c'; d'])) as Hok2
    by (rewrite !Forall_app, !Forall_cons_iff; auto 20).
  exists (U ++ [a; b; c; d]), e, f, g, h, a', b', c', d'.
  split; [exact HE'|]. split; [lens|]. split; [exact Hok2|].
  destruct (Nat.eqb_spec (8 * S j) 56) as [E56|E56]; cbn [fst snd].
  { repeat (split; [assumption || congruence || reflexivity|]). lia. }
  destruct (sub_col d' D) as [Hsd Hsdok].
  pose proof (expanded_8b key j (U ++ [a; b; c; d]) e f g h a' b' c' d' HE' ltac:(lens)) as HE2. cbv zeta in HE2.
  rewrite Hsd, !word_xor_col by auto with hc.
  set (e' := xor_col e _) in *. set (f' := xor_col f e') in *. set (g' := xor_col g f') in *.
  set (h' := xor_col h g') in *.
  assert (col_ok e' /\ col_ok f' /\ col_ok g' /\ col_ok h') as (He' & Hf' & Hg' & Hh').
  { assert (col_ok e') by (unfold e'; auto with hc). assert (col_ok f') by (unfold f'; auto with hc).
    assert (col_ok g') by (unfold g'; auto with hc). unfold h'. auto with hc. }
  destruct (firstn_set4 rk' (8 * S j + 4) (word e') (word f') (word g') (word h')) as [Hl2 Hfs2];
    [unfold rk'; lens|].
  replace (8 * S j + 4 + 1)%nat with (8 * S j + 5)%nat in * by lia.
  replace (8 * S j + 4 + 2)%nat with (8 * S j + 6)%nat in * by lia.
  replace (8 * S j + 4 + 3)%nat with (8 * S j + 7)%nat in * by lia.
  set (rk2 := set _ (8 * S j + 7) (word h')) in *.
  split; [reflexivity|]. split; [reflexivity|].
  split; [rewrite <- Hrk'; replace (8 * j + 12)%nat with (8 * S j + 4)%nat by lia;
          unfold rk2; now rewrite !firstn_set_ge by lia|].
  split; [congruence|]. intros Hj6.
  exists (U ++ [a; b; c; d] ++ [e; f; g; h]), a', b', c', d', e', f', g', h'. cbn [fst snd].
  split; [rewrite HE2, <- !app_assoc; reflexivity|]. split; [lens|].
  split; [rewrite !Forall_app, !Forall_cons_iff in *; intuition|]. split; [reflexivity|]. split; [reflexivity|].
  split; [rewrite Hp; destruct (pow_xtime j) as [_ <-]; [lia| |lia]|].
  { destruct (Nat.eqb_spec (4 * S j) 32); [lia|reflexivity]. }
  split; [congruence|].
  replace (8 * S j + 8)%nat with (8 * S j + 4 + 4)%nat by lia. rewrite Hfs2.
  replace (8 * S j + 4)%nat with (8 * j + 12)%nat by lia. rewrite Hrk'.
  change [word e'; word f'; word g'; word h'] with (map word [e'; f'; g'; h']).
  rewrite <- map_app. f_equal. now rewrite <- !app_assoc.
Qed.

Lemma inv256_init key : bytes key -> length key = 32%nat ->
  let load i := mem_loadU32 (skipn (4 * i) key) in
  inv256 key 0 (Words (load 0%nat) (load 1%nat) (load 2%nat) (load 3%nat),
    Words (load 4%nat) (load 5%nat) (load 6%nat) (load 7%nat), 1,
    fold_left (fun rk i => set rk i (load i)) (seq 0 8) (repeat 0 60)).
Proof.
  intros Hb Hl load. pose proof (columns_ok 8 key Hb ltac:(lia)) as Hc.
  exists [], (firstn 4 key), (firstn 4 (skipn 4 key)), (firstn 4 (skipn 8 key)), (firstn 4 (skipn 12 key)),
    (firstn 4 (skipn 16 key)), (firstn 4 (skipn 20 key)), (firstn 4 (skipn 24 key)), (firstn 4 (skipn 28 key)).
  repeat split. exact Hc.
Qed.

Lemma aes256_expand_fips key : bytes key -> length key = 32%nat ->
  aes256_expand key = map word (KeyExpansion 8 14 key) /\ Forall col_ok (KeyExpansion 8 14 key) /\
  length (KeyExpansion 8 14 key) = 60%nat.
Proof.
  intros Hb Hl. unfold aes256_expand. set (load := fun i => mem_loadU32 (skipn (4 * i) key)).
  set (st0 := (_, _, 1, _)).
  assert (forall n, (n <= 6)%nat ->
    inv256 key n (fold_left (fun st j => aes256_expand_step st (8 * j)) (seq 1 n) st0)) as Hinv.
  { induction n as [|n IH]; intros Hn; [now apply inv256_init|].
    rewrite seq_S, fold_left_app. cbn [fold_left Nat.add].
    destruct (inv256_half key n _ ltac:(lia) (IH ltac:(lia)))
      as (? & ? & ? & ? & ? & ? & ? & ? & ? & _ & _ & _ & _ & _ & _ & _ & Hnext). apply Hnext. lia. }
  change 7%nat with (S 6). rewrite seq_S, fold_left_app. cbn [fold_left Nat.add].
  destruct (inv256_half key 6 _ ltac:(lia) (Hinv 6%nat (le_n _)))
    as (U & a & b & c & d & e & f & g & h & HE & HU & Hok & _ & _ & Hrk & Hl' & _).
  rewrite (KeyExpansion_expanded 8 14 (8 * 6 + 4)), HE by reflexivity.
  rewrite firstn_all2 in Hrk by (rewrite Hl'; lia). split; [exact Hrk|]. split; [exact Hok|now rewrite length_app, HU].
Qed.

(** C17: [aes128_block] and [aes256_block] encrypt a block as FIPS 197 does with 10 and
    14 rounds: the table driven rounds are SubBytes, ShiftRows, MixColumns and
    AddRoundKey, the expanded keys are those of KeyExpansion, and both tables are
    the ones of the standard's S-box. *)
Theorem aes_correct inp key128 key256 :
  bytes inp -> length inp = 16%nat ->
  bytes key128 -> length key128 = 16%nat -> bytes key256 -> length key256 = 32%nat ->
  aes128_block inp key128 = Fips197.aes128 inp key128 /\
  aes256_block inp key256 = Fips197.aes256 inp key256.
Proof.
  intros Hi Hil H1 L1 H2 L2. unfold aes128_block, aes256_block, Fips197.aes128, Fips197.aes256.
  destruct (aes128_expand_fips key128 H1 L1) as (-> & Hok1 & Hl1).
  destruct (aes256_expand_fips key256 H2 L2) as (-> & Hok2 & Hl2).
  split; [apply (aes_rounds_fips _ Hok1 inp 10)|apply (aes_rounds_fips _ Hok2 inp 14)];
    (assumption || lia).
Qed.

(** The first blocks of the examples of FIPS 197 and SP 800-38A. *)
Definition demo_block : list Z :=
  [0x6B; 0xC1; 0xBE; 0xE2; 0x2E; 0x40; 0x9F; 0x96; 0xE9; 0x3D; 0x7E; 0x11; 0x73; 0x93; 0x17; 0x2A].
Definition demo_key128 : list Z :=
  [0x2B; 0x7E; 0x15; 0x16; 0x28; 0xAE; 0xD2; 0xA6; 0xAB; 0xF7; 0x15; 0x88; 0x09; 0xCF; 0x4F; 0x3C].
Definition demo_key256 : list Z :=
  [0x60; 0x3D; 0xEB; 0x10; 0x15; 0xCA; 0x71; 0xBE; 0x2B; 0x73; 0xAE; 0xF0; 0x85; 0x7D; 0x77; 0x81;
   0x1F; 0x35; 0x2C; 0x07; 0x3B; 0x61; 0x08; 0xD7; 0x2D; 0x98; 0x10; 0xA3; 0x09; 0x14; 0xDF; 0xF4].

Lemma aes_correct_witness :
  aes128_block demo_block demo_key128
  = [0x3A; 0xD7; 0x7B; 0xB4; 0x0D; 0x7A; 0x36; 0x60; 0xA8; 0x9E; 0xCA; 0xF3; 0x24; 0x66; 0xEF; 0x97] /\
  aes256_block demo_block demo_key256
  = [0xF3; 0xEE; 0xD1; 0xBD; 0xB5; 0xD2; 0xA0; 0x3C; 0x06; 0x4B; 0x5A; 0x7E; 0x3D; 0xB1; 0x81; 0xF8].
Proof.
  destruct (aes_correct demo_block demo_key128 demo_key256 ltac:(repeat constructor; lia) eq_refl
    ltac:(repeat constructor; lia) eq_refl ltac:(repeat constructor; lia) eq_refl) as [-> ->].
  split; vm_compute; reflexivity.
Defined.
