(* ===== verification/Curve25519.v ===== *)
(** * Arithmetic modulo 2^255 - 19 ([src/hc/core/hc/crypto/curve25519.c])

    A field element is five limbs of 51 bits with some slack.  Every function reads
    its operands before it overwrites them, so the callers' aliasing of [out] with an
    operand does not matter and the functions return their result.  Each is proved
    to compute the right residue, to keep its limbs in the stated bounds and never to
    overflow 64 or 128 bits under the bounds the callers keep. *)
From Stdlib Require Import ZArith List Lia Bool Setoid Morphisms.
From S2P Require Import Prelude Mem.
Import ListNotations.

(** [uint64_t a[5]]. *)
Record fe := Fe { f0 : Z; f1 : Z; f2 : Z; f3 : Z; f4 : Z }.

Abbreviation low x := (Z.land x 0x7FFFFFFFFFFFF).

Definition curve25519_load (inp : list Z) : fe :=
  Fe (low (mem_loadU64 inp)) (low (mem_loadU64 (skipn 6 inp) >> 3)) (low (mem_loadU64 (skipn 12 inp) >> 6))
    (low (mem_loadU64 (skipn 19 inp) >> 1)) (low (mem_loadU64 (skipn 24 inp) >> 12)).

(** The 32 bytes written to [out]. *)
Definition curve25519_store (a : fe) : list Z :=
  le_split 8 (f0 a .| u64 (f1 a << 51)) ++ le_split 8 ((f1 a >> 13) .| u64 (f2 a << 38)) ++
  le_split 8 ((f2 a >> 26) .| u64 (f3 a << 25)) ++ le_split 8 ((f3 a >> 39) .| u64 (f4 a << 12)).

(** The ten lines that occur three times in [curve25519_reduce]. *)
Definition carryPass (a : fe) : fe :=
  let a1 := u64 (f1 a + (f0 a >> 51)) in
  let a0 := low (f0 a) in
  let a2 := u64 (f2 a + (a1 >> 51)) in
  let a1 := low a1 in
  let a3 := u64 (f3 a + (a2 >> 51)) in
  let a2 := low a2 in
  let a4 := u64 (f4 a + (a3 >> 51)) in
  let a3 := low a3 in
  let a0 := u64 (a0 + u64 (19 * (a4 >> 51))) in
  let a4 := low a4 in
  Fe a0 a1 a2 a3 a4.

Definition curve25519_reduce (a : fe) : fe :=
  let a := carryPass a in
  let a := carryPass a in
  let a := Fe (u64 (f0 a + 19)) (f1 a) (f2 a) (f3 a) (f4 a) in
  let a := carryPass a in
  let a0 := u64 (f0 a + (0x8000000000000 - 19)) in
  let a1 := u64 (f1 a + (0x8000000000000 - 1)) in
  let a2 := u64 (f2 a + (0x8000000000000 - 1)) in
  let a3 := u64 (f3 a + (0x8000000000000 - 1)) in
  let a4 := u64 (f4 a + (0x8000000000000 - 1)) in
  let a1 := u64 (a1 + (a0 >> 51)) in
  let a2 := u64 (a2 + (a1 >> 51)) in
  let a3 := u64 (a3 + (a2 >> 51)) in
  let a4 := u64 (a4 + (a3 >> 51)) in
  Fe (low a0) (low a1) (low a2) (low a3) (low a4).

Definition cSwap_limb (swap a b : Z) : Z * Z :=
  let x := swap & (a ^^ b) in (a ^^ x, b ^^ x).

Definition curve25519_cSwap (a b : fe) (shouldSwap : Z) : fe * fe :=
  let swap := u64 (- shouldSwap) in
  let '(a0, b0) := cSwap_limb swap (f0 a) (f0 b) in
  let '(a1, b1) := cSwap_limb swap (f1 a) (f1 b) in
  let '(a2, b2) := cSwap_limb swap (f2 a) (f2 b) in
  let '(a3, b3) := cSwap_limb swap (f3 a) (f3 b) in
  let '(a4, b4) := cSwap_limb swap (f4 a) (f4 b) in
  (Fe a0 a1 a2 a3 a4, Fe b0 b1 b2 b3 b4).

Definition curve25519_add (a b : fe) : fe :=
  let o0 := u64 (f0 a + f0 b) in
  let o1 := u64 (f1 a + f1 b + (o0 >> 51)) in
  let o0 := low o0 in
  let o2 := u64 (f2 a + f2 b + (o1 >> 51)) in
  let o1 := low o1 in
  let o3 := u64 (f3 a + f3 b + (o2 >> 51)) in
  let o2 := low o2 in
  let o4 := u64 (f4 a + f4 b + (o3 >> 51)) in
  let o3 := low o3 in
  let o0 := u64 (o0 + u64 ((o4 >> 51) * 19)) in
  let o4 := low o4 in
  Fe o0 o1 o2 o3 o4.

Definition curve25519_addNoReduce (a b : fe) : fe :=
  Fe (u64 (f0 a + f0 b)) (u64 (f1 a + f1 b)) (u64 (f2 a + f2 b)) (u64 (f3 a + f3 b)) (u64 (f4 a + f4 b)).

Definition curve25519_sub (a b : fe) : fe :=
  let o0 := u64 (f0 a + 0x0FFFFFFFFFFFDA - f0 b) in
  let o1 := u64 (f1 a + 0x0FFFFFFFFFFFFE - f1 b + (o0 >> 51)) in
  let o0 := low o0 in
  let o2 := u64 (f2 a + 0x0FFFFFFFFFFFFE - f2 b + (o1 >> 51)) in
  let o1 := low o1 in
  let o3 := u64 (f3 a + 0x0FFFFFFFFFFFFE - f3 b + (o2 >> 51)) in
  let o2 := low o2 in
  let o4 := u64 (f4 a + 0x0FFFFFFFFFFFFE - f4 b + (o3 >> 51)) in
  let o3 := low o3 in
  let o0 := u64 (o0 + u64 ((o4 >> 51) * 19)) in
  let o4 := low o4 in
  Fe o0 o1 o2 o3 o4.

Definition curve25519_subNoReduce (a b : fe) : fe :=
  Fe (u64 (f0 a + 0x0FFFFFFFFFFFDA - f0 b)) (u64 (f1 a + 0x0FFFFFFFFFFFFE - f1 b))
    (u64 (f2 a + 0x0FFFFFFFFFFFFE - f2 b)) (u64 (f3 a + 0x0FFFFFFFFFFFFE - f3 b))
    (u64 (f4 a + 0x0FFFFFFFFFFFFE - f4 b)).

Definition curve25519_subNoReduceFourP (a b : fe) : fe :=
  Fe (u64 (f0 a + 0x1FFFFFFFFFFFB4 - f0 b)) (u64 (f1 a + 0x1FFFFFFFFFFFFC - f1 b))
    (u64 (f2 a + 0x1FFFFFFFFFFFFC - f2 b)) (u64 (f3 a + 0x1FFFFFFFFFFFFC - f3 b))
    (u64 (f4 a + 0x1FFFFFFFFFFFFC - f4 b)).

Definition mul128 (a b : Z) : Z := u128 (a * b).

Definition curve25519_mulScalar (a : fe) (scalar : Z) : fe :=
  let x := mul128 (f0 a) scalar in
  let o0 := low (u64 x) in
  let x := u128 (mul128 (f1 a) scalar + u64 (x >> 51)) in
  let o1 := low (u64 x) in
  let x := u128 (mul128 (f2 a) scalar + u64 (x >> 51)) in
  let o2 := low (u64 x) in
  let x := u128 (mul128 (f3 a) scalar + u64 (x >> 51)) in
  let o3 := low (u64 x) in
  let x := u128 (mul128 (f4 a) scalar + u64 (x >> 51)) in
  let o4 := low (u64 x) in
  Fe (u64 (o0 + u64 (u64 (x >> 51) * 19))) o1 o2 o3 o4.

(** The carry chain that ends both multiplications. *)
Definition carryWide (t0 t1 t2 t3 t4 : Z) : fe :=
  let r0 := low (u64 t0) in
  let t1 := u128 (t1 + u64 (t0 >> 51)) in
  let r1 := low (u64 t1) in
  let t2 := u128 (t2 + u64 (t1 >> 51)) in
  let r2 := low (u64 t2) in
  let t3 := u128 (t3 + u64 (t2 >> 51)) in
  let r3 := low (u64 t3) in
  let t4 := u128 (t4 + u64 (t3 >> 51)) in
  let r4 := low (u64 t4) in
  let r0 := u64 (r0 + u64 (u64 (t4 >> 51) * 19)) in
  let r1 := u64 (r1 + (r0 >> 51)) in
  let r0 := low r0 in
  Fe r0 r1 r2 r3 r4.

Definition curve25519_mul (a b : fe) : fe :=
  let r0 := f0 b in let r1 := f1 b in let r2 := f2 b in let r3 := f3 b in let r4 := f4 b in
  let s0 := f0 a in let s1 := f1 a in let s2 := f2 a in let s3 := f3 a in let s4 := f4 a in
  let t0 := mul128 r0 s0 in
  let t1 := u128 (mul128 r0 s1 + mul128 r1 s0) in
  let t2 := u128 (mul128 r0 s2 + mul128 r2 s0 + mul128 r1 s1) in
  let t3 := u128 (mul128 r0 s3 + mul128 r3 s0 + mul128 r1 s2 + mul128 r2 s1) in
  let t4 := u128 (mul128 r0 s4 + mul128 r4 s0 + mul128 r3 s1 + mul128 r1 s3 + mul128 r2 s2) in
  let r4 := u64 (r4 * 19) in
  let r1 := u64 (r1 * 19) in
  let r2 := u64 (r2 * 19) in
  let r3 := u64 (r3 * 19) in
  let t0 := u128 (t0 + u128 (mul128 r4 s1 + mul128 r1 s4 + mul128 r2 s3 + mul128 r3 s2)) in
  let t1 := u128 (t1 + u128 (mul128 r4 s2 + mul128 r2 s4 + mul128 r3 s3)) in
  let t2 := u128 (t2 + u128 (mul128 r4 s3 + mul128 r3 s4)) in
  let t3 := u128 (t3 + mul128 r4 s4) in
  carryWide t0 t1 t2 t3 t4.

(** One iteration of [curve25519_squareN]. *)
Definition square1 (a : fe) : fe :=
  let r0 := f0 a in let r1 := f1 a in let r2 := f2 a in let r3 := f3 a in let r4 := f4 a in
  let d0 := u64 (r0 * 2) in
  let d1 := u64 (r1 * 2) in
  let d2 := u64 (u64 (r2 * 2) * 19) in
  let d419 := u64 (r4 * 19) in
  let d4 := u64 (d419 * 2) in
  carryWide
    (u128 (mul128 r0 r0 + mul128 d4 r1 + mul128 d2 r3))
    (u128 (mul128 d0 r1 + mul128 d4 r2 + mul128 r3 (u64 (r3 * 19))))
    (u128 (mul128 d0 r2 + mul128 r1 r1 + mul128 d4 r3))
    (u128 (mul128 d0 r3 + mul128 d1 r2 + mul128 r4 d419))
    (u128 (mul128 d0 r4 + mul128 d1 r3 + mul128 r2 r2)).

(** [do { ... } while (--n)]; every call has [n > 0]. *)
Definition curve25519_squareN (a : fe) (n : nat) : fe := Nat.iter n square1 a.

(** The pair [a], [b]. *)
Definition curve25519_pow11PowTwo250mtwo0 (z : fe) : fe * fe :=
  let a := curve25519_squareN z 1 in
  let t0 := curve25519_squareN a 2 in
  let b := curve25519_mul t0 z in
  let a := curve25519_mul b a in
  let t0 := curve25519_squareN a 1 in
  let b := curve25519_mul t0 b in
  let t0 := curve25519_squareN b 5 in
  let b := curve25519_mul t0 b in
  let t0 := curve25519_squareN b 10 in
  let c := curve25519_mul t0 b in
  let t0 := curve25519_squareN c 20 in
  let t0 := curve25519_mul t0 c in
  let t0 := curve25519_squareN t0 10 in
  let b := curve25519_mul t0 b in
  let t0 := curve25519_squareN b 50 in
  let c := curve25519_mul t0 b in
  let t0 := curve25519_squareN c 100 in
  let t0 := curve25519_mul t0 c in
  let t0 := curve25519_squareN t0 50 in
  let b := curve25519_mul t0 b in
  (a, b).

Definition curve25519_invert (z : fe) : fe :=
  let '(a, b) := curve25519_pow11PowTwo250mtwo0 z in
  let b := curve25519_squareN b 5 in
  curve25519_mul b a.

Definition curve25519_powTwo252m3 (z : fe) : fe :=
  let '(a, b) := curve25519_pow11PowTwo250mtwo0 z in
  let b := curve25519_squareN b 2 in
  curve25519_mul b z.

(** ** Residues *)

Definition P : Z := 2 ^ 255 - 19.

(** The number a field element stands for. *)
Definition feval (a : fe) : Z :=
  f0 a + 2 ^ 51 * f1 a + 2 ^ 102 * f2 a + 2 ^ 153 * f3 a + 2 ^ 204 * f4 a.

(** Congruence modulo [P]. *)
Definition eqP (x y : Z) : Prop := exists k, x = y + k * P.
Infix "==" := eqP (at level 70) : word_scope.

Lemma eqP_mod x y : x == y <-> x mod P = y mod P.
Proof.
  split; [intros [k ->]; apply Z_mod_plus_full|]. intros H. exists (x / P - y / P).
  pose proof (Z.div_mod x P ltac:(easy)). pose proof (Z.div_mod y P ltac:(easy)). lia.
Qed.

#[export] Instance eqP_equiv : Equivalence eqP.
Proof.
  split; [intros x; exists 0; lia|intros x y [k ->]; exists (- k); lia|].
  intros x y z [k ->] [l ->]. exists (k + l). lia.
Qed.

#[export] Instance eqP_add : Proper (eqP ==> eqP ==> eqP) Z.add.
Proof. intros a b [k ->] c d [l ->]. exists (k + l). lia. Qed.

#[export] Instance eqP_sub : Proper (eqP ==> eqP ==> eqP) Z.sub.
Proof. intros a b [k ->] c d [l ->]. exists (k - l). lia. Qed.

#[export] Instance eqP_mul : Proper (eqP ==> eqP ==> eqP) Z.mul.
Proof. intros a b [k ->] c d [l ->]. exists (k * d + b * l + k * l * P). ring. Qed.

#[export] Instance eqP_pow : Proper (eqP ==> eq ==> eqP) Z.pow.
Proof.
  intros a b H n ? <-. destruct (Z.le_gt_cases 0 n) as [Hn|Hn]; [|now rewrite !Z.pow_neg_r by lia].
  pattern n. apply natlike_ind; [reflexivity| |assumption].
  intros m Hm IH. rewrite !Z.pow_succ_r by assumption. now apply eqP_mul.
Qed.

(** All limbs in [0, B]. *)
Definition within (B : Z) (a : fe) : Prop :=
  0 <= f0 a <= B /\ 0 <= f1 a <= B /\ 0 <= f2 a <= B /\ 0 <= f3 a <= B /\ 0 <= f4 a <= B.

(** What multiplications accept and what they return. *)
Abbreviation loose := (within (2 ^ 54)).
Abbreviation tight := (within (2 ^ 51 + 2 ^ 26)).

Lemma within_weaken B C a : B <= C -> within B a -> within C a.
Proof. unfold within. lia. Qed.

Lemma low_mod x : low x = x mod 2 ^ 51.
Proof. now apply land_mask. Qed.

Lemma low_u64 x : low (u64 x) = x mod 2 ^ 51.
Proof. rewrite low_mod. unfold wrap. apply Z.mod_mod_divide. now exists (2 ^ 13). Qed.

(** ** Multiplication *)

(** One step of a carry chain: quotient and remainder by 2^51. *)
Ltac carry x := pose proof (Z.div_mod x (2 ^ 51) ltac:(lia)); pose proof (Z.mod_pos_bound x (2 ^ 51) ltac:(lia)).

Definition wide (t0 t1 t2 t3 t4 : Z) : Z := t0 + 2 ^ 51 * t1 + 2 ^ 102 * t2 + 2 ^ 153 * t3 + 2 ^ 204 * t4.

Lemma carryWide_spec t0 t1 t2 t3 t4 :
  0 <= t0 <= 77 * 2 ^ 108 -> 0 <= t1 <= 77 * 2 ^ 108 -> 0 <= t2 <= 77 * 2 ^ 108 ->
  0 <= t3 <= 77 * 2 ^ 108 -> 0 <= t4 <= 5 * 2 ^ 108 ->
  tight (carryWide t0 t1 t2 t3 t4) /\ feval (carryWide t0 t1 t2 t3 t4) == wide t0 t1 t2 t3 t4.
Proof.
  intros H0 H1 H2 H3 H4. unfold carryWide. rewrite !low_u64, ?low_mod, !shiftr_div by lia.
  carry t0. rewrite (wrap_small 64 (t0 / _)), (wrap_small 128 (t1 + _)) by lia.
  remember (t1 + t0 / 2 ^ 51) as u1 eqn:E1. carry u1.
  rewrite (wrap_small 64 (u1 / _)), (wrap_small 128 (t2 + _)) by lia.
  remember (t2 + u1 / 2 ^ 51) as u2 eqn:E2. carry u2.
  rewrite (wrap_small 64 (u2 / _)), (wrap_small 128 (t3 + _)) by lia.
  remember (t3 + u2 / 2 ^ 51) as u3 eqn:E3. carry u3.
  rewrite (wrap_small 64 (u3 / _)), (wrap_small 128 (t4 + _)) by lia.
  remember (t4 + u3 / 2 ^ 51) as u4 eqn:E4. carry u4.
  rewrite (wrap_small 64 (u4 / _)), (wrap_small 64 (u4 / _ * 19)) by lia.
  rewrite !(wrap_small 64 (t0 mod _ + _)) by lia.
  remember (t0 mod 2 ^ 51 + u4 / 2 ^ 51 * 19) as r0 eqn:Er. carry r0.
  rewrite (wrap_small 64 (u1 mod _ + _)) by lia.
  split; [unfold within; cbn [f0 f1 f2 f3 f4]; lia|].
  exists (- (u4 / 2 ^ 51)). unfold feval, wide, P. cbn [f0 f1 f2 f3 f4]. lia.
Qed.

Lemma mul128_small B C a b : 0 <= a <= B -> 0 <= b <= C -> B * C < 2 ^ 128 ->
  mul128 a b = a * b /\ 0 <= a * b <= B * C.
Proof. intros Ha Hb HBC. assert (0 <= a * b <= B * C) by nia. split; [apply wrap_small|]; lia. Qed.

(** Limb products of two loose elements. *)
Lemma mul128_limbs a b : 0 <= a <= 2 ^ 54 -> 0 <= b <= 2 ^ 54 ->
  mul128 a b = a * b /\ mul128 (u64 (a * 19)) b = 19 * (a * b) /\ 0 <= a * b <= 2 ^ 108.
Proof.
  intros Ha Hb. destruct (mul128_small (2 ^ 54) (2 ^ 54) a b) as [-> Hab]; [lia..|].
  rewrite (wrap_small 64 (a * 19)) by lia.
  destruct (mul128_small (2 ^ 59) (2 ^ 54) (a * 19) b) as [-> _]; [lia..|]. lia.
Qed.

Lemma mul_correct a b : loose a -> loose b ->
  tight (curve25519_mul a b) /\ feval (curve25519_mul a b) == feval a * feval b.
Proof.
  destruct a as [s0 s1 s2 s3 s4], b as [r0 r1 r2 r3 r4]. unfold within. cbn [f0 f1 f2 f3 f4].
  intros (S0 & S1 & S2 & S3 & S4) (R0 & R1 & R2 & R3 & R4). unfold curve25519_mul. cbn [f0 f1 f2 f3 f4].
  destruct (mul128_limbs r0 s0 R0 S0) as (-> & _ & B00). destruct (mul128_limbs r0 s1 R0 S1) as (-> & _ & B01).
  destruct (mul128_limbs r0 s2 R0 S2) as (-> & _ & B02). destruct (mul128_limbs r0 s3 R0 S3) as (-> & _ & B03).
  destruct (mul128_limbs r0 s4 R0 S4) as (-> & _ & B04). destruct (mul128_limbs r1 s0 R1 S0) as (-> & _ & B10).
  destruct (mul128_limbs r1 s1 R1 S1) as (-> & _ & B11). destruct (mul128_limbs r1 s2 R1 S2) as (-> & _ & B12).
  destruct (mul128_limbs r1 s3 R1 S3) as (-> & _ & B13). destruct (mul128_limbs r1 s4 R1 S4) as (_ & -> & B14).
  destruct (mul128_limbs r2 s0 R2 S0) as (-> & _ & B20). destruct (mul128_limbs r2 s1 R2 S1) as (-> & _ & B21).
  destruct (mul128_limbs r2 s2 R2 S2) as (-> & _ & B22). destruct (mul128_limbs r2 s3 R2 S3) as (_ & -> & B23).
  destruct (mul128_limbs r2 s4 R2 S4) as (_ & -> & B24). destruct (mul128_limbs r3 s0 R3 S0) as (-> & _ & B30).
  destruct (mul128_limbs r3 s1 R3 S1) as (-> & _ & B31). destruct (mul128_limbs r3 s2 R3 S2) as (_ & -> & B32).
  destruct (mul128_limbs r3 s3 R3 S3) as (_ & -> & B33). destruct (mul128_limbs r3 s4 R3 S4) as (_ & -> & B34).
  destruct (mul128_limbs r4 s0 R4 S0) as (-> & _ & B40). destruct (mul128_limbs r4 s1 R4 S1) as (_ & -> & B41).
  destruct (mul128_limbs r4 s2 R4 S2) as (_ & -> & B42). destruct (mul128_limbs r4 s3 R4 S3) as (_ & -> & B43).
  destruct (mul128_limbs r4 s4 R4 S4) as (_ & -> & B44). clear R0 R1 R2 R3 R4 S0 S1 S2 S3 S4.
  set (t0 := u128 (r0 * s0 + _)). set (t1 := u128 (u128 (r0 * s1 + _) + _)).
  set (t2 := u128 (u128 (r0 * s2 + _ + _) + _)). set (t3 := u128 (u128 (r0 * s3 + _ + _ + _) + _)).
  set (t4 := u128 (r0 * s4 + _ + _ + _ + _)).
  assert (t0 = r0 * s0 + 19 * (r4 * s1 + r1 * s4 + r2 * s3 + r3 * s2)) as E0
    by (unfold t0; clear - B00 B41 B14 B23 B32; rewrite ?wrap_add_l, ?wrap_add_r, wrap_small; lia).
  assert (t1 = r0 * s1 + r1 * s0 + 19 * (r4 * s2 + r2 * s4 + r3 * s3)) as E1
    by (unfold t1; clear - B01 B10 B42 B24 B33; rewrite ?wrap_add_l, ?wrap_add_r, wrap_small; lia).
  assert (t2 = r0 * s2 + r2 * s0 + r1 * s1 + 19 * (r4 * s3 + r3 * s4)) as E2
    by (unfold t2; clear - B02 B20 B11 B43 B34; rewrite ?wrap_add_l, ?wrap_add_r, wrap_small; lia).
  assert (t3 = r0 * s3 + r3 * s0 + r1 * s2 + r2 * s1 + 19 * (r4 * s4)) as E3
    by (unfold t3; clear - B03 B30 B12 B21 B44; rewrite ?wrap_add_l, ?wrap_add_r, wrap_small; lia).
  assert (t4 = r0 * s4 + r4 * s0 + r3 * s1 + r1 * s3 + r2 * s2) as E4
    by (unfold t4; clear - B04 B40 B31 B13 B22; rewrite ?wrap_add_l, ?wrap_add_r, wrap_small; lia).
  clearbody t0 t1 t2 t3 t4.
  destruct (carryWide_spec t0 t1 t2 t3 t4) as [Ht ->].
  { rewrite E0. clear - B00 B41 B14 B23 B32. lia. } { rewrite E1. clear - B01 B10 B42 B24 B33. lia. }
  { rewrite E2. clear - B02 B20 B11 B43 B34. lia. } { rewrite E3. clear - B03 B30 B12 B21 B44. lia. }
  { rewrite E4. clear - B04 B40 B31 B13 B22. lia. }
  split; [exact Ht|]. rewrite E0, E1, E2, E3, E4.
  exists (- (r4 * s1 + r1 * s4 + r2 * s3 + r3 * s2 + 2 ^ 51 * (r4 * s2 + r2 * s4 + r3 * s3)
          + 2 ^ 102 * (r4 * s3 + r3 * s4) + 2 ^ 153 * (r4 * s4))).
  unfold wide, feval, P. cbn [f0 f1 f2 f3 f4]. ring.
Qed.

Lemma square1_correct a : loose a -> tight (square1 a) /\ feval (square1 a) == feval a * feval a.
Proof.
  destruct a as [r0 r1 r2 r3 r4]. unfold within. cbn [f0 f1 f2 f3 f4].
  intros (R0 & R1 & R2 & R3 & R4). unfold square1. cbn [f0 f1 f2 f3 f4].
  rewrite !(wrap_small 64 (r0 * 2)), !(wrap_small 64 (r1 * 2)), !(wrap_small 64 (r2 * 2)),
    !(wrap_small 64 (r2 * 2 * 19)), !(wrap_small 64 (r4 * 19)), !(wrap_small 64 (r4 * 19 * 2)),
    !(wrap_small 64 (r3 * 19)) by lia.
  assert (forall x y, 0 <= x <= 2 ^ 54 -> 0 <= y <= 2 ^ 54 -> 0 <= x * y <= 2 ^ 108) as Hp by (intros; nia).
  assert (forall x y c, 0 <= x <= 2 ^ 54 -> 0 <= y <= 2 ^ 54 -> 0 <= c <= 64 -> 0 <= x * y * c < 2 ^ 115) as Hc.
  { intros x y c Hx Hy Hc. pose proof (Hp x y Hx Hy). nia. }
  assert (forall x y z c, 0 <= x <= 2 ^ 54 -> 0 <= y <= 2 ^ 54 -> 0 <= c <= 64 -> z = x * y * c -> u128 z = z) as Hm.
  { intros x y z c Hx Hy Hc' ->. apply wrap_small. specialize (Hc x y c Hx Hy Hc'). lia. }
  unfold mul128.
  rewrite (Hm r0 r0 (r0 * r0) 1), (Hm r4 r1 (r4 * 19 * 2 * r1) 38), (Hm r2 r3 (r2 * 2 * 19 * r3) 38),
    (Hm r0 r1 (r0 * 2 * r1) 2), (Hm r4 r2 (r4 * 19 * 2 * r2) 38), (Hm r3 r3 (r3 * (r3 * 19)) 19),
    (Hm r0 r2 (r0 * 2 * r2) 2), (Hm r1 r1 (r1 * r1) 1), (Hm r4 r3 (r4 * 19 * 2 * r3) 38),
    (Hm r0 r3 (r0 * 2 * r3) 2), (Hm r1 r2 (r1 * 2 * r2) 2), (Hm r4 r4 (r4 * (r4 * 19)) 19),
    (Hm r0 r4 (r0 * 2 * r4) 2), (Hm r1 r3 (r1 * 2 * r3) 2), (Hm r2 r2 (r2 * r2) 1) by (assumption || lia || ring).
  pose proof (Hp r0 r0 R0 R0). pose proof (Hp r4 r1 R4 R1). pose proof (Hp r2 r3 R2 R3).
  pose proof (Hp r0 r1 R0 R1). pose proof (Hp r4 r2 R4 R2). pose proof (Hp r3 r3 R3 R3).
  pose proof (Hp r0 r2 R0 R2). pose proof (Hp r1 r1 R1 R1). pose proof (Hp r4 r3 R4 R3).
  pose proof (Hp r0 r3 R0 R3). pose proof (Hp r1 r2 R1 R2). pose proof (Hp r4 r4 R4 R4).
  pose proof (Hp r0 r4 R0 R4). pose proof (Hp r1 r3 R1 R3). pose proof (Hp r2 r2 R2 R2).
  clear Hp Hc Hm R0 R1 R2 R3 R4.
  rewrite (wrap_small 128 (r0 * r0 + _ + _)), (wrap_small 128 (r0 * 2 * r1 + _ + _)),
    (wrap_small 128 (r0 * 2 * r2 + _ + _)), (wrap_small 128 (r0 * 2 * r3 + _ + _)),
    (wrap_small 128 (r0 * 2 * r4 + _ + _)) by lia.
  match goal with |- context [carryWide ?t0 ?t1 ?t2 ?t3 ?t4] =>
    destruct (carryWide_spec t0 t1 t2 t3 t4) as [Ht ->]; [lia..|] end.
  split; [exact Ht|].
  exists (- (2 * (r4 * r1 + r2 * r3) + 2 ^ 51 * (2 * r4 * r2 + r3 * r3) + 2 ^ 102 * (2 * r4 * r3) + 2 ^ 153 * (r4 * r4))).
  unfold wide, feval, P. cbn [f0 f1 f2 f3 f4]. ring.
Qed.

Lemma tight_loose a : tight a -> loose a.
Proof. apply within_weaken. lia. Qed.
#[export] Hint Resolve tight_loose : hc.

Lemma squareN_correct a n : loose a -> (0 < n)%nat ->
  tight (curve25519_squareN a n) /\ feval (curve25519_squareN a n) == feval a ^ (2 ^ Z.of_nat n).
Proof.
  intros Ha Hn. destruct n as [|n]; [lia|]. clear Hn. unfold curve25519_squareN.
  induction n as [|n [IHt IH]].
  - destruct (square1_correct a Ha) as [Ht He]. split; [exact Ht|]. rewrite Z.pow_2_r. exact He.
  - change (Nat.iter (S (S n)) square1 a) with (square1 (Nat.iter (S n) square1 a)).
    destruct (square1_correct (Nat.iter (S n) square1 a)) as [Ht He]; [auto with hc|].
    split; [exact Ht|]. rewrite He, IH, (Nat2Z.inj_succ (S n)), (Z.pow_succ_r 2) by lia.
    rewrite <- Z.pow_add_r by (apply Z.pow_nonneg; lia). now rewrite <- Z.add_diag.
Qed.

(** ** Powers *)

(** [x] is the power [e] of [z], ready to be multiplied. *)
Definition is_pow (z e : Z) (x : fe) : Prop := loose x /\ feval x == z ^ e /\ 0 <= e.

Lemma is_pow_mul z e1 e2 x y e : is_pow z e1 x -> is_pow z e2 y -> e1 + e2 = e ->
  is_pow z e (curve25519_mul x y).
Proof.
  intros (Lx & Ex & P1) (Ly & Ey & P2) <-. destruct (mul_correct x y Lx Ly) as [Ht He].
  split; [auto with hc|]. split; [|lia]. now rewrite He, Ex, Ey, Z.pow_add_r by assumption.
Qed.

Lemma is_pow_sq z e1 x n e : is_pow z e1 x -> (0 < n)%nat -> e1 * 2 ^ Z.of_nat n = e ->
  is_pow z e (curve25519_squareN x n).
Proof.
  intros (Lx & Ex & P1) Hn <-. destruct (squareN_correct x n Lx Hn) as [Ht He].
  split; [auto with hc|]. assert (0 < 2 ^ Z.of_nat n) by (apply Z.pow_pos_nonneg; lia).
  split; [|nia]. now rewrite He, Ex, Z.pow_mul_r by lia.
Qed.

Lemma pow_chain z : loose z ->
  is_pow (feval z) 11 (fst (curve25519_pow11PowTwo250mtwo0 z)) /\
  is_pow (feval z) (2 ^ 250 - 1) (snd (curve25519_pow11PowTwo250mtwo0 z)).
Proof.
  intros Hz. set (v := feval z).
  assert (is_pow v 1 z) as H1 by (split; [assumption|split; [now rewrite Z.pow_1_r|lia]]).
  unfold curve25519_pow11PowTwo250mtwo0. cbn [fst snd].
  set (x2 := curve25519_squareN z 1). assert (is_pow v 2 x2) as H2 by (now apply (is_pow_sq v 1); [|lia|]).
  set (x8 := curve25519_squareN x2 2). assert (is_pow v 8 x8) as H8 by (now apply (is_pow_sq v 2); [|lia|]).
  set (x9 := curve25519_mul x8 z). assert (is_pow v 9 x9) as H9 by now apply (is_pow_mul v 8 1).
  set (x11 := curve25519_mul x9 x2). assert (is_pow v 11 x11) as H11 by now apply (is_pow_mul v 9 2).
  split; [exact H11|].
  set (x22 := curve25519_squareN x11 1). assert (is_pow v 22 x22) as H22 by (now apply (is_pow_sq v 11); [|lia|]).
  set (y5 := curve25519_mul x22 x9). assert (is_pow v (2 ^ 5 - 1) y5) as Y5 by now apply (is_pow_mul v 22 9).
  set (t := curve25519_squareN y5 5). assert (is_pow v (2 ^ 10 - 2 ^ 5) t) as T by (now apply (is_pow_sq v (2 ^ 5 - 1)); [|lia|]).
  set (y10 := curve25519_mul t y5).
  assert (is_pow v (2 ^ 10 - 1) y10) as Y10 by now apply (is_pow_mul v (2 ^ 10 - 2 ^ 5) (2 ^ 5 - 1)).
  clearbody y10. clear t T y5 Y5.
  set (t := curve25519_squareN y10 10). assert (is_pow v (2 ^ 20 - 2 ^ 10) t) as T by (now apply (is_pow_sq v (2 ^ 10 - 1)); [|lia|]).
  set (c := curve25519_mul t y10).
  assert (is_pow v (2 ^ 20 - 1) c) as C by now apply (is_pow_mul v (2 ^ 20 - 2 ^ 10) (2 ^ 10 - 1)).
  clearbody c. clear t T.
  set (t := curve25519_squareN c 20). assert (is_pow v (2 ^ 40 - 2 ^ 20) t) as T by (now apply (is_pow_sq v (2 ^ 20 - 1)); [|lia|]).
  set (t' := curve25519_mul t c).
  assert (is_pow v (2 ^ 40 - 1) t') as T' by now apply (is_pow_mul v (2 ^ 40 - 2 ^ 20) (2 ^ 20 - 1)).
  clearbody t'. clear t T c C.
  set (t := curve25519_squareN t' 10). assert (is_pow v (2 ^ 50 - 2 ^ 10) t) as T by (now apply (is_pow_sq v (2 ^ 40 - 1)); [|lia|]).
  set (y50 := curve25519_mul t y10).
  assert (is_pow v (2 ^ 50 - 1) y50) as Y50 by now apply (is_pow_mul v (2 ^ 50 - 2 ^ 10) (2 ^ 10 - 1)).
  clearbody y50. clear t T t' T'.
  set (t := curve25519_squareN y50 50). assert (is_pow v (2 ^ 100 - 2 ^ 50) t) as T by (now apply (is_pow_sq v (2 ^ 50 - 1)); [|lia|]).
  set (c := curve25519_mul t y50).
  assert (is_pow v (2 ^ 100 - 1) c) as C by now apply (is_pow_mul v (2 ^ 100 - 2 ^ 50) (2 ^ 50 - 1)).
  clearbody c. clear t T.
  set (t := curve25519_squareN c 100). assert (is_pow v (2 ^ 200 - 2 ^ 100) t) as T by (now apply (is_pow_sq v (2 ^ 100 - 1)); [|lia|]).
  set (t' := curve25519_mul t c).
  assert (is_pow v (2 ^ 200 - 1) t') as T' by now apply (is_pow_mul v (2 ^ 200 - 2 ^ 100) (2 ^ 100 - 1)).
  clearbody t'. clear t T c C.
  set (t := curve25519_squareN t' 50). assert (is_pow v (2 ^ 250 - 2 ^ 50) t) as T by (now apply (is_pow_sq v (2 ^ 200 - 1)); [|lia|]).
  now apply (is_pow_mul v (2 ^ 250 - 2 ^ 50) (2 ^ 50 - 1)).
Qed.

Lemma invert_correct z : loose z ->
  tight (curve25519_invert z) /\ feval (curve25519_invert z) == feval z ^ (P - 2).
Proof.
  intros Hz. destruct (pow_chain z Hz) as [Ha Hb]. unfold curve25519_invert.
  destruct (curve25519_pow11PowTwo250mtwo0 z) as [a b]. cbn [fst snd] in *.
  pose proof (is_pow_sq _ _ _ 5 (2 ^ 255 - 2 ^ 5) Hb ltac:(lia) eq_refl) as Hs.
  pose proof (is_pow_mul _ _ _ _ _ (P - 2) Hs Ha eq_refl) as (_ & He & _).
  split; [apply mul_correct; [apply Hs|apply Ha]|exact He].
Qed.

Lemma powTwo252m3_correct z : loose z ->
  tight (curve25519_powTwo252m3 z) /\ feval (curve25519_powTwo252m3 z) == feval z ^ ((P - 5) / 8).
Proof.
  intros Hz. destruct (pow_chain z Hz) as [_ Hb]. unfold curve25519_powTwo252m3.
  destruct (curve25519_pow11PowTwo250mtwo0 z) as [a b]. cbn [fst snd] in *.
  pose proof (is_pow_sq _ _ _ 2 (2 ^ 252 - 2 ^ 2) Hb ltac:(lia) eq_refl) as Hs.
  assert (is_pow (feval z) 1 z) as H1 by (split; [assumption|split; [now rewrite Z.pow_1_r|lia]]).
  pose proof (is_pow_mul _ _ _ _ _ ((P - 5) / 8) Hs H1 eq_refl) as (_ & He & _).
  split; [apply mul_correct; [apply Hs|assumption]|exact He].
Qed.

(** ** Additions and subtractions *)

Section Linear.
Context (a b : fe) (B C : Z) (Ha : within B a) (Hb : within C b).

Lemma addNoReduce_correct : B + C < 2 ^ 64 ->
  within (B + C) (curve25519_addNoReduce a b) /\
  feval (curve25519_addNoReduce a b) == feval a + feval b.
Proof using Ha Hb.
  intros HBC. destruct a as [a0 a1 a2 a3 a4], b as [b0 b1 b2 b3 b4]. unfold within in *.
  cbn [f0 f1 f2 f3 f4] in *. unfold curve25519_addNoReduce, feval. cbn [f0 f1 f2 f3 f4].
  rewrite !wrap_small by lia. split; [lia|]. exists 0. lia.
Qed.

Lemma subNoReduce_correct : B + 2 ^ 52 <= 2 ^ 64 -> C <= 2 ^ 52 - 38 ->
  within (B + 2 ^ 52) (curve25519_subNoReduce a b) /\
  feval (curve25519_subNoReduce a b) == feval a - feval b.
Proof using Ha Hb.
  intros HB HC. destruct a as [a0 a1 a2 a3 a4], b as [b0 b1 b2 b3 b4]. unfold within in *.
  cbn [f0 f1 f2 f3 f4] in *. unfold curve25519_subNoReduce, feval. cbn [f0 f1 f2 f3 f4].
  rewrite !wrap_small by lia. split; [lia|]. exists 2. unfold P. lia.
Qed.

Lemma subNoReduceFourP_correct : B + 2 ^ 53 <= 2 ^ 64 -> C <= 2 ^ 53 - 76 ->
  within (B + 2 ^ 53) (curve25519_subNoReduceFourP a b) /\
  feval (curve25519_subNoReduceFourP a b) == feval a - feval b.
Proof using Ha Hb.
  intros HB HC. destruct a as [a0 a1 a2 a3 a4], b as [b0 b1 b2 b3 b4]. unfold within in *.
  cbn [f0 f1 f2 f3 f4] in *. unfold curve25519_subNoReduceFourP, feval. cbn [f0 f1 f2 f3 f4].
  rewrite !wrap_small by lia. split; [lia|]. exists 4. unfold P. lia.
Qed.
End Linear.

(** The carry chain of [curve25519_add] and [curve25519_sub], on the limb sums. *)
Lemma carry_sum s0 s1 s2 s3 s4 :
  0 <= s0 <= 2 ^ 56 -> 0 <= s1 <= 2 ^ 56 -> 0 <= s2 <= 2 ^ 56 -> 0 <= s3 <= 2 ^ 56 -> 0 <= s4 <= 2 ^ 56 ->
  let o1 := s1 + s0 / 2 ^ 51 in
  let o2 := s2 + o1 / 2 ^ 51 in
  let o3 := s3 + o2 / 2 ^ 51 in
  let o4 := s4 + o3 / 2 ^ 51 in
  let r := Fe (s0 mod 2 ^ 51 + o4 / 2 ^ 51 * 19) (o1 mod 2 ^ 51) (o2 mod 2 ^ 51) (o3 mod 2 ^ 51) (o4 mod 2 ^ 51) in
  (0 <= s0 / 2 ^ 51 <= 2 ^ 6 /\ 0 <= o1 / 2 ^ 51 <= 2 ^ 6 /\ 0 <= o2 / 2 ^ 51 <= 2 ^ 6 /\
   0 <= o3 / 2 ^ 51 <= 2 ^ 6 /\ 0 <= o4 / 2 ^ 51 <= 2 ^ 6) /\
  tight r /\ feval r = wide s0 s1 s2 s3 s4 - o4 / 2 ^ 51 * P.
Proof.
  intros H0 H1 H2 H3 H4. cbv zeta. carry s0.
  remember (s1 + s0 / 2 ^ 51) as u1 eqn:E1. carry u1. remember (s2 + u1 / 2 ^ 51) as u2 eqn:E2. carry u2.
  remember (s3 + u2 / 2 ^ 51) as u3 eqn:E3. carry u3. remember (s4 + u3 / 2 ^ 51) as u4 eqn:E4. carry u4.
  split; [lia|]. split; [unfold within; cbn [f0 f1 f2 f3 f4]; lia|].
  unfold feval, wide, P. cbn [f0 f1 f2 f3 f4]. lia.
Qed.

Lemma add_correct a b : loose a -> loose b ->
  tight (curve25519_add a b) /\ feval (curve25519_add a b) == feval a + feval b.
Proof.
  destruct a as [a0 a1 a2 a3 a4], b as [b0 b1 b2 b3 b4]. unfold within. cbn [f0 f1 f2 f3 f4].
  intros (A0 & A1 & A2 & A3 & A4) (B0 & B1 & B2 & B3 & B4). unfold curve25519_add. cbn [f0 f1 f2 f3 f4].
  destruct (carry_sum (a0 + b0) (a1 + b1) (a2 + b2) (a3 + b3) (a4 + b4)) as ((Q0 & Q1 & Q2 & Q3 & Q4) & Ht & He); [lia..|].
  cbv zeta in *. rewrite !low_mod, !shiftr_div by lia.
  rewrite !(wrap_small 64 (a0 + b0)), !(wrap_small 64 (a1 + b1 + _)), !(wrap_small 64 (a2 + b2 + _)),
    !(wrap_small 64 (a3 + b3 + _)), !(wrap_small 64 (a4 + b4 + _)) by lia.
  rewrite (wrap_small 64 (_ * 19)), (wrap_small 64 (_ mod _ + _ * 19)) by
    (pose proof (Z.mod_pos_bound (a0 + b0) (2 ^ 51)); lia).
  split; [exact Ht|]. rewrite He. exists (- ((a4 + b4 + (a3 + b3 + (a2 + b2 + (a1 + b1 + (a0 + b0) / 2 ^ 51) / 2 ^ 51) / 2 ^ 51) / 2 ^ 51) / 2 ^ 51)).
  unfold feval, wide. cbn [f0 f1 f2 f3 f4]. ring.
Qed.

Lemma sub_correct a b : loose a -> within (2 ^ 52 - 38) b ->
  tight (curve25519_sub a b) /\ feval (curve25519_sub a b) == feval a - feval b.
Proof.
  destruct a as [a0 a1 a2 a3 a4], b as [b0 b1 b2 b3 b4]. unfold within. cbn [f0 f1 f2 f3 f4].
  intros (A0 & A1 & A2 & A3 & A4) (B0 & B1 & B2 & B3 & B4). unfold curve25519_sub. cbn [f0 f1 f2 f3 f4].
  remember (a0 + 0x0FFFFFFFFFFFDA - b0) as s0 eqn:E0. remember (a1 + 0x0FFFFFFFFFFFFE - b1) as s1 eqn:E1.
  remember (a2 + 0x0FFFFFFFFFFFFE - b2) as s2 eqn:E2. remember (a3 + 0x0FFFFFFFFFFFFE - b3) as s3 eqn:E3.
  remember (a4 + 0x0FFFFFFFFFFFFE - b4) as s4 eqn:E4.
  destruct (carry_sum s0 s1 s2 s3 s4) as ((Q0 & Q1 & Q2 & Q3 & Q4) & Ht & He);
    [lia..|].
  cbv zeta in *. rewrite !low_mod, !shiftr_div by lia.
  rewrite !(wrap_small 64 s0), !(wrap_small 64 (s1 + _)), !(wrap_small 64 (s2 + _)),
    !(wrap_small 64 (s3 + _)), !(wrap_small 64 (s4 + _)) by lia.
  rewrite (wrap_small 64 (_ * 19)), (wrap_small 64 (_ mod _ + _ * 19)) by
    (pose proof (Z.mod_pos_bound s0 (2 ^ 51)); lia).
  split; [exact Ht|]. rewrite He. exists (2 - (s4 + (s3 + (s2 + (s1 + s0 / 2 ^ 51) / 2 ^ 51) / 2 ^ 51) / 2 ^ 51) / 2 ^ 51).
  generalize ((s4 + (s3 + (s2 + (s1 + s0 / 2 ^ 51) / 2 ^ 51) / 2 ^ 51) / 2 ^ 51) / 2 ^ 51). intros q.
  unfold feval, wide, P. cbn [f0 f1 f2 f3 f4]. rewrite E0, E1, E2, E3, E4. ring.
Qed.

Lemma mulScalar_correct a k : loose a -> 0 <= k < 2 ^ 17 ->
  tight (curve25519_mulScalar a k) /\ feval (curve25519_mulScalar a k) == feval a * k.
Proof.
  destruct a as [a0 a1 a2 a3 a4]. unfold within. cbn [f0 f1 f2 f3 f4].
  intros (A0 & A1 & A2 & A3 & A4) Hk. unfold curve25519_mulScalar, mul128. cbn [f0 f1 f2 f3 f4].
  assert (forall x, 0 <= x <= 2 ^ 54 -> 0 <= x * k <= 2 ^ 71) as Hp by (intros; nia).
  pose proof (Hp a0 A0). pose proof (Hp a1 A1). pose proof (Hp a2 A2). pose proof (Hp a3 A3). pose proof (Hp a4 A4).
  rewrite !(wrap_small 128 (a0 * k)), !(wrap_small 128 (a1 * k)), !(wrap_small 128 (a2 * k)),
    !(wrap_small 128 (a3 * k)), !(wrap_small 128 (a4 * k)) by lia.
  rewrite !low_u64, !shiftr_div by lia. carry (a0 * k).
  rewrite !(wrap_small 64 (a0 * k / _)), !(wrap_small 128 (a1 * k + _)) by lia.
  remember (a1 * k + a0 * k / 2 ^ 51) as u1 eqn:E1. carry u1.
  rewrite !(wrap_small 64 (u1 / _)), !(wrap_small 128 (a2 * k + _)) by lia.
  remember (a2 * k + u1 / 2 ^ 51) as u2 eqn:E2. carry u2.
  rewrite !(wrap_small 64 (u2 / _)), !(wrap_small 128 (a3 * k + _)) by lia.
  remember (a3 * k + u2 / 2 ^ 51) as u3 eqn:E3. carry u3.
  rewrite !(wrap_small 64 (u3 / _)), !(wrap_small 128 (a4 * k + _)) by lia.
  remember (a4 * k + u3 / 2 ^ 51) as u4 eqn:E4. carry u4.
  rewrite !(wrap_small 64 (u4 / _)), (wrap_small 64 (u4 / _ * 19)), (wrap_small 64 (_ mod _ + _)) by lia.
  split; [unfold within; cbn [f0 f1 f2 f3 f4]; lia|].
  exists (- (u4 / 2 ^ 51)). unfold feval, P. cbn [f0 f1 f2 f3 f4]. lia.
Qed.

(** ** Full reduction *)

(** The digits of a number in base 2^51. *)
Definition canonical (a : fe) : Prop := within (2 ^ 51 - 1) a.

Lemma carryPass_spec a : within (2 ^ 55) a ->
  let q := feval a / 2 ^ 255 in
  let r := carryPass a in
  0 <= q < 2 ^ 5 /\ feval r = feval a - q * P /\
  0 <= f1 r < 2 ^ 51 /\ 0 <= f2 r < 2 ^ 51 /\ 0 <= f3 r < 2 ^ 51 /\ 0 <= f4 r < 2 ^ 51 /\
  0 <= f0 r - 19 * q < 2 ^ 51.
Proof.
  destruct a as [a0 a1 a2 a3 a4]. unfold within. cbn [f0 f1 f2 f3 f4].
  intros (A0 & A1 & A2 & A3 & A4). unfold carryPass. cbn [f0 f1 f2 f3 f4].
  rewrite !low_mod, !shiftr_div by lia. carry a0. rewrite !(wrap_small 64 (a1 + _)) by lia.
  remember (a1 + a0 / 2 ^ 51) as u1 eqn:E1. carry u1. rewrite !(wrap_small 64 (a2 + _)) by lia.
  remember (a2 + u1 / 2 ^ 51) as u2 eqn:E2. carry u2. rewrite !(wrap_small 64 (a3 + _)) by lia.
  remember (a3 + u2 / 2 ^ 51) as u3 eqn:E3. carry u3. rewrite !(wrap_small 64 (a4 + _)) by lia.
  remember (a4 + u3 / 2 ^ 51) as u4 eqn:E4. carry u4.
  rewrite !(wrap_small 64 (19 * _)), (wrap_small 64 (a0 mod _ + _)) by lia.
  assert (feval (Fe a0 a1 a2 a3 a4) / 2 ^ 255 = u4 / 2 ^ 51) as ->.
  { symmetry. apply (Z.div_unique_pos _ _ _
      (a0 mod 2 ^ 51 + 2 ^ 51 * (u1 mod 2 ^ 51) + 2 ^ 102 * (u2 mod 2 ^ 51) + 2 ^ 153 * (u3 mod 2 ^ 51) + 2 ^ 204 * (u4 mod 2 ^ 51)));
      unfold feval; cbn [f0 f1 f2 f3 f4]; lia. }
  unfold feval, P. cbn [f0 f1 f2 f3 f4]. lia.
Qed.

Lemma feval_canonical a : canonical a -> 0 <= feval a < 2 ^ 255.
Proof. unfold canonical, within, feval. lia. Qed.

(** The offset and the carries without the wrap to the bottom. *)
Lemma reduce_tail a : 0 <= f0 a < 2 ^ 52 -> 0 <= f1 a < 2 ^ 51 -> 0 <= f2 a < 2 ^ 51 -> 0 <= f3 a < 2 ^ 51 -> 0 <= f4 a < 2 ^ 51 ->
  19 <= feval a < 2 ^ 255 ->
  let a0 := u64 (f0 a + (0x8000000000000 - 19)) in
  let a1 := u64 (u64 (f1 a + (0x8000000000000 - 1)) + (a0 >> 51)) in
  let a2 := u64 (u64 (f2 a + (0x8000000000000 - 1)) + (a1 >> 51)) in
  let a3 := u64 (u64 (f3 a + (0x8000000000000 - 1)) + (a2 >> 51)) in
  let a4 := u64 (u64 (f4 a + (0x8000000000000 - 1)) + (a3 >> 51)) in
  let r := Fe (low a0) (low a1) (low a2) (low a3) (low a4) in
  canonical r /\ feval r = feval a - 19.
Proof.
  destruct a as [a0 a1 a2 a3 a4]. cbn [f0 f1 f2 f3 f4]. intros A0 A1 A2 A3 A4 Hv. cbv zeta.
  rewrite !low_mod, !shiftr_div, !(wrap_small 64 (a0 + _)), !(wrap_small 64 (a1 + _)), !(wrap_small 64 (a2 + _)),
    !(wrap_small 64 (a3 + _)), !(wrap_small 64 (a4 + _)) by lia.
  remember (a0 + (0x8000000000000 - 19)) as u0 eqn:E0. carry u0.
  rewrite !(wrap_small 64 (a1 + _ + _)) by lia. remember (a1 + (0x8000000000000 - 1) + u0 / 2 ^ 51) as u1 eqn:E1. carry u1.
  rewrite !(wrap_small 64 (a2 + _ + _)) by lia. remember (a2 + (0x8000000000000 - 1) + u1 / 2 ^ 51) as u2 eqn:E2. carry u2.
  rewrite !(wrap_small 64 (a3 + _ + _)) by lia. remember (a3 + (0x8000000000000 - 1) + u2 / 2 ^ 51) as u3 eqn:E3. carry u3.
  rewrite !(wrap_small 64 (a4 + _ + _)) by lia. remember (a4 + (0x8000000000000 - 1) + u3 / 2 ^ 51) as u4 eqn:E4. carry u4.
  assert (u4 / 2 ^ 51 = 1) as Hq.
  { unfold feval in Hv. cbn [f0 f1 f2 f3 f4] in Hv. lia. }
  split; [unfold canonical, within; cbn [f0 f1 f2 f3 f4]; lia|].
  unfold feval. cbn [f0 f1 f2 f3 f4]. lia.
Qed.

Lemma reduce_correct a : loose a ->
  canonical (curve25519_reduce a) /\ feval (curve25519_reduce a) = feval a mod P.
Proof.
  intros Ha. unfold curve25519_reduce.
  destruct (carryPass_spec a) as (Q1 & V1 & B11 & B12 & B13 & B14 & B10);
    [eapply within_weaken; [|exact Ha]; lia|]. cbv zeta in *.
  set (q1 := feval a / 2 ^ 255) in *. set (r1 := carryPass a) in *. clearbody r1.
  pose proof (Z.div_mod (feval a) (2 ^ 255) ltac:(lia)) as D1.
  pose proof (Z.mod_pos_bound (feval a) (2 ^ 255) ltac:(lia)) as M1. fold q1 in D1.
  destruct (carryPass_spec r1) as (Q2 & V2 & B21 & B22 & B23 & B24 & B20); [unfold within; lia|]. cbv zeta in *.
  pose proof (Z.div_mod (feval r1) (2 ^ 255) ltac:(lia)) as D2.
  pose proof (Z.mod_pos_bound (feval r1) (2 ^ 255) ltac:(lia)) as M2.
  set (q2 := feval r1 / 2 ^ 255) in *. set (r2 := carryPass r1) in *. clearbody r2.
  assert (0 <= feval r2 < 2 ^ 255 /\ f0 r2 < 2 ^ 51) as [F2 C2].
  { assert (q2 <= 1) by (unfold P in *; lia). unfold P in *. unfold feval in V2 at 1. unfold feval at 1 2. lia. }
  rewrite (wrap_small 64 (f0 r2 + 19)) by lia.
  set (r2' := Fe (f0 r2 + 19) (f1 r2) (f2 r2) (f3 r2) (f4 r2)).
  assert (feval r2' = feval r2 + 19) as E2' by (unfold feval, r2'; cbn [f0 f1 f2 f3 f4]; lia).
  destruct (carryPass_spec r2') as (Q3 & V3 & B31 & B32 & B33 & B34 & B30);
    [unfold within, r2'; cbn [f0 f1 f2 f3 f4]; lia|]. cbv zeta in *.
  pose proof (Z.div_mod (feval r2') (2 ^ 255) ltac:(lia)) as D3.
  pose proof (Z.mod_pos_bound (feval r2') (2 ^ 255) ltac:(lia)) as M3.
  set (q3 := feval r2' / 2 ^ 255) in *. rewrite E2' in V3, D3, M3. set (r3 := carryPass r2') in *. clearbody r3 r2'.
  assert (feval r3 = feval a mod P + 19) as E3.
  { assert (feval r3 - 19 = feval a mod P); [|lia].
    apply (Z.mod_unique_pos _ _ (q1 + q2 + q3)); unfold P in *; lia. }
  pose proof (Z.mod_pos_bound (feval a) P ltac:(easy)) as HP.
  destruct (reduce_tail r3) as [Hc He]; [lia..|unfold P in *; lia|]. cbv zeta in *.
  split; [exact Hc|]. rewrite He, E3. lia.
Qed.

(** ** Loading and storing *)

Lemma loadU64_at k l : bytes l -> mem_loadU64 (skipn k l) = le_combine l / 256 ^ Z.of_nat k mod 2 ^ 64.
Proof.
  intros Hb. unfold mem_loadU64. now rewrite le_combine_firstn, le_combine_skipn by auto with hc.
Qed.

(** Bits [s + 8k .. s + 8k + 50] of the number. *)
Lemma load_limb N k s : 0 <= s -> s + 51 <= 64 -> 0 <= k ->
  (N / 2 ^ k mod 2 ^ 64) / 2 ^ s mod 2 ^ 51 = N / 2 ^ (k + s) mod 2 ^ 51.
Proof.
  intros Hs H51 Hk. rewrite Z.pow_add_r, <- Z.div_div by lia. generalize (N / 2 ^ k). intros M.
  rewrite <- !Z.land_ones, <- !shiftr_div by lia. apply Z.bits_inj'. intros i Hi.
  rewrite !Z.land_spec, !Z.shiftr_spec, Z.land_spec by lia.
  destruct (Z.ltb_spec i 51).
  - rewrite !Z.ones_spec_low by lia. now rewrite !andb_true_r.
  - now rewrite !(Z.ones_spec_high 51 i), !andb_false_r by lia.
Qed.

Lemma load_correct inp : bytes inp ->
  canonical (curve25519_load inp) /\ feval (curve25519_load inp) = le_combine inp mod 2 ^ 255.
Proof.
  intros Hb. unfold curve25519_load. rewrite !low_mod, !shiftr_div by lia.
  set (N := le_combine inp).
  replace (mem_loadU64 inp) with (N mod 2 ^ 64) by
    (unfold mem_loadU64, N; rewrite le_combine_firstn by assumption; reflexivity).
  rewrite !loadU64_at by assumption. fold N.
  change (256 ^ Z.of_nat 6) with (2 ^ 48). change (256 ^ Z.of_nat 12) with (2 ^ 96).
  change (256 ^ Z.of_nat 19) with (2 ^ 152). change (256 ^ Z.of_nat 24) with (2 ^ 192).
  rewrite !load_limb by lia. cbn [Z.add Pos.add Pos.succ Pos.add_carry].
  replace (N mod 2 ^ 64 mod 2 ^ 51) with (N mod 2 ^ 51) by (symmetry; apply Z.mod_mod_divide; now exists (2 ^ 13)).
  pose proof (Z.mod_pos_bound N (2 ^ 51) ltac:(lia)). pose proof (Z.mod_pos_bound (N / 2 ^ 51) (2 ^ 51) ltac:(lia)).
  pose proof (Z.mod_pos_bound (N / 2 ^ 102) (2 ^ 51) ltac:(lia)). pose proof (Z.mod_pos_bound (N / 2 ^ 153) (2 ^ 51) ltac:(lia)).
  pose proof (Z.mod_pos_bound (N / 2 ^ 204) (2 ^ 51) ltac:(lia)).
  split; [unfold canonical, within; cbn [f0 f1 f2 f3 f4]; lia|]. unfold feval. cbn [f0 f1 f2 f3 f4].
  carry N. carry (N / 2 ^ 51). carry (N / 2 ^ 102). carry (N / 2 ^ 153). carry (N / 2 ^ 204).
  assert (N / 2 ^ 51 / 2 ^ 51 = N / 2 ^ 102 /\ N / 2 ^ 102 / 2 ^ 51 = N / 2 ^ 153 /\ N / 2 ^ 153 / 2 ^ 51 = N / 2 ^ 204)
    as (D1 & D2 & D3) by (rewrite !Z.div_div by lia; repeat split; reflexivity).
  rewrite D1, D2, D3 in *. apply (Z.mod_unique_pos _ _ (N / 2 ^ 204 / 2 ^ 51)); lia.
Qed.

Lemma store_correct a : canonical a -> curve25519_store a = le_split 32 (feval a).
Proof.
  destruct a as [a0 a1 a2 a3 a4]. unfold canonical, within. cbn [f0 f1 f2 f3 f4].
  intros (A0 & A1 & A2 & A3 & A4). unfold curve25519_store. cbn [f0 f1 f2 f3 f4].
  rewrite !shiftl_mul, !shiftr_div by lia.
  assert (forall x n, 0 <= n <= 64 -> u64 (x * 2 ^ n) = x mod 2 ^ (64 - n) * 2 ^ n) as Hsh.
  { intros x n Hn. unfold wrap. replace (2 ^ 64) with (2 ^ (64 - n) * 2 ^ n) by (rewrite <- Z.pow_add_r by lia; f_equal; lia).
    apply Z.mul_mod_distr_r; apply Z.pow_nonzero; lia. }
  rewrite !Hsh by lia. change (64 - 51) with 13. change (64 - 38) with 26. change (64 - 25) with 39. change (64 - 12) with 52.
  assert (0 <= a1 / 2 ^ 13 < 2 ^ 38) by (split; [apply Z.div_pos|apply Z.div_lt_upper_bound]; lia).
  assert (0 <= a2 / 2 ^ 26 < 2 ^ 25) by (split; [apply Z.div_pos|apply Z.div_lt_upper_bound]; lia).
  assert (0 <= a3 / 2 ^ 39 < 2 ^ 12) by (split; [apply Z.div_pos|apply Z.div_lt_upper_bound]; lia).
  rewrite !lor_add by lia.
  pose proof (Z.mod_pos_bound a1 (2 ^ 13) ltac:(lia)). pose proof (Z.div_mod a1 (2 ^ 13) ltac:(lia)).
  pose proof (Z.mod_pos_bound a2 (2 ^ 26) ltac:(lia)). pose proof (Z.div_mod a2 (2 ^ 26) ltac:(lia)).
  pose proof (Z.mod_pos_bound a3 (2 ^ 39) ltac:(lia)). pose proof (Z.div_mod a3 (2 ^ 39) ltac:(lia)).
  rewrite (Z.mod_small a4 (2 ^ 52)) by lia.
  rewrite !le_split_cat by lia. f_equal. unfold feval. cbn [f0 f1 f2 f3 f4]. lia.
Qed.

(** ** Conditional swap *)

Definition u64_limbs (a : fe) : Prop := within (2 ^ 64 - 1) a.

Lemma cSwap_limb_spec s a b : 0 <= a < 2 ^ 64 -> 0 <= b < 2 ^ 64 -> s = 0 \/ s = 1 ->
  cSwap_limb (u64 (- s)) a b = if s =? 1 then (b, a) else (a, b).
Proof.
  intros Ha Hb [->| ->]; unfold cSwap_limb; cbn [Z.eqb Z.opp Pos.eqb].
  - change (u64 0) with 0. now rewrite Z.land_0_l, !Z.lxor_0_r.
  - change (u64 (-1)) with (Z.ones 64). rewrite Z.land_comm, Z.land_ones, Z.mod_small by (lia || (apply lxor_bound; lia)).
    f_equal; [now rewrite <- Z.lxor_assoc, Z.lxor_nilpotent, Z.lxor_0_l|].
    now rewrite Z.lxor_comm, Z.lxor_assoc, Z.lxor_nilpotent, Z.lxor_0_r.
Qed.

Lemma cSwap_correct a b s : u64_limbs a -> u64_limbs b -> s = 0 \/ s = 1 ->
  curve25519_cSwap a b s = if s =? 1 then (b, a) else (a, b).
Proof.
  destruct a as [a0 a1 a2 a3 a4], b as [b0 b1 b2 b3 b4]. unfold u64_limbs, within. cbn [f0 f1 f2 f3 f4].
  intros Ha Hb Hs. unfold curve25519_cSwap. cbn [f0 f1 f2 f3 f4].
  rewrite !cSwap_limb_spec by lia. now destruct (s =? 1).
Qed.

(** ** The interface of field arithmetic *)

(** every operation on field elements computes the right residue modulo
    2^255 - 19, no 64 or 128 bit intermediate overflows, and the result is again an
    acceptable operand: multiplication, squaring, addition, subtraction and scalar
    multiplication of loose operands are tight, [curve25519_reduce] gives the unique
    canonical representative, [curve25519_store] its 32 bytes, [curve25519_load] the
    255 low bits of the input, and [curve25519_invert] the power P - 2. *)
Theorem curve25519_field a b k inp :
  loose a -> loose b -> 0 <= k < 2 ^ 17 -> bytes inp ->
  (tight (curve25519_mul a b) /\ feval (curve25519_mul a b) == feval a * feval b) /\
  (forall n, (0 < n)%nat -> tight (curve25519_squareN a n) /\
     feval (curve25519_squareN a n) == feval a ^ (2 ^ Z.of_nat n)) /\
  (tight (curve25519_add a b) /\ feval (curve25519_add a b) == feval a + feval b) /\
  (within (2 ^ 52 - 38) b ->
     tight (curve25519_sub a b) /\ feval (curve25519_sub a b) == feval a - feval b) /\
  (tight (curve25519_mulScalar a k) /\ feval (curve25519_mulScalar a k) == feval a * k) /\
  (tight (curve25519_invert a) /\ feval (curve25519_invert a) == feval a ^ (P - 2)) /\
  (tight (curve25519_powTwo252m3 a) /\ feval (curve25519_powTwo252m3 a) == feval a ^ ((P - 5) / 8)) /\
  (canonical (curve25519_reduce a) /\ feval (curve25519_reduce a) = feval a mod P) /\
  curve25519_store (curve25519_reduce a) = le_split 32 (feval a mod P) /\
  (canonical (curve25519_load inp) /\ feval (curve25519_load inp) = le_combine inp mod 2 ^ 255).
Proof.
  intros Ha Hb Hk Hi. destruct (reduce_correct a Ha) as [Hc He].
  split; [now apply mul_correct|]. split; [intros; now apply squareN_correct|].
  split; [now apply add_correct|]. split; [intros; now apply sub_correct|].
  split; [now apply mulScalar_correct|]. split; [now apply invert_correct|].
  split; [now apply powTwo252m3_correct|]. split; [now split|].
  split; [now rewrite store_correct, He|]. now apply load_correct.
Qed.

Lemma curve25519_field_witness :
  let a := Fe (2 ^ 54) (2 ^ 54) (2 ^ 54) (2 ^ 54) (2 ^ 54) in
  feval (curve25519_mul a a) == feval a * feval a /\
  curve25519_store (curve25519_reduce (Fe (2 ^ 51 - 19) (2 ^ 51 - 1) (2 ^ 51 - 1) (2 ^ 51 - 1) (2 ^ 51 - 1))) = repeat 0 32.
Proof.
  intros a. assert (loose a) as Ha by (unfold within, a; cbn [f0 f1 f2 f3 f4]; lia). split.
  - exact (proj2 (proj1 (curve25519_field a a 0 [] Ha Ha ltac:(lia) ltac:(constructor)))).
  - destruct (curve25519_field (Fe (2 ^ 51 - 19) (2 ^ 51 - 1) (2 ^ 51 - 1) (2 ^ 51 - 1) (2 ^ 51 - 1)) a 0 [])
      as (_ & _ & _ & _ & _ & _ & _ & _ & -> & _);
      [unfold within; cbn [f0 f1 f2 f3 f4]; lia|assumption|lia|constructor|vm_compute; reflexivity].
Defined.
