(* ===== verification/X25519.v ===== *)
(** * X25519 ([src/hc/core/hc/crypto/x25519.c])

    The Montgomery ladder on limbs and the key agreement function around it.  The
    reference is the pseudo code of RFC 7748, section 5, over integers modulo
    2^255 - 19.  The code's loop starts at bit 255, so the reference ladder is run
    over 256 bits (bit 255 of a decoded scalar is zero). *)
From Stdlib Require Import ZArith List Lia Bool Setoid Morphisms Zpow_facts.
From S2P Require Import Prelude Mem Curve25519.
Import ListNotations.

(** The local variables of [_x25519_mul] that live across iterations. *)
Record ladder := Ladder { x0 : fe; z0 : fe; x1 : fe; z1 : fe; swap : Z }.

(** The body of the loop, for bit [i] of [n]. *)
Definition x25519_step (n : list Z) (q : fe) (s : ladder) (i : nat) : ladder :=
  let bit := (get n (i / 8) >> Z.of_nat (i mod 8)) & 1 in
  let swap := swap s ^^ bit in
  let '(x0, x1) := curve25519_cSwap (x0 s) (x1 s) swap in
  let '(z0, z1) := curve25519_cSwap (z0 s) (z1 s) swap in
  let swap := bit in
  let a := curve25519_addNoReduce x0 z0 in
  let b := curve25519_subNoReduce x1 z1 in
  let b := curve25519_mul a b in
  let a := curve25519_squareN a 1 in
  let x0 := curve25519_subNoReduce x0 z0 in
  let z1 := curve25519_addNoReduce x1 z1 in
  let z1 := curve25519_mul z1 x0 in
  let x0 := curve25519_squareN x0 1 in
  let x1 := curve25519_addNoReduce z1 b in
  let x1 := curve25519_squareN x1 1 in
  let z1 := curve25519_subNoReduce z1 b in
  let z1 := curve25519_squareN z1 1 in
  let z1 := curve25519_mul z1 q in
  let b := curve25519_subNoReduce a x0 in
  let x0 := curve25519_mul a x0 in
  let z0 := curve25519_mulScalar b 121665 in
  let z0 := curve25519_addNoReduce z0 a in
  let z0 := curve25519_mul b z0 in
  Ladder x0 z0 x1 z1 swap.

(** [while (i) { --i; ... }] from [i = 256]; the result is [outX], [outZ]. *)
Definition x25519_mul (n : list Z) (q : fe) : fe * fe :=
  let s := Ladder (Fe 1 0 0 0 0) (Fe 0 0 0 0 0) q (Fe 1 0 0 0 0) 0 in
  let s := fold_left (x25519_step n q) (rev (seq 0 256)) s in
  let '(x0, x1) := curve25519_cSwap (x0 s) (x1 s) (swap s) in
  let '(z0, z1) := curve25519_cSwap (z0 s) (z1 s) (swap s) in
  (x0, z0).

Definition x25519_ecdhBasepoint : list Z := 9 :: repeat 0 31.

(** The three assignments to [e]. *)
Definition x25519_clamp (secret : list Z) : list Z :=
  let e := firstn 32 secret in
  let e := set e 0 (get e 0 & 248) in
  let e := set e 31 (get e 31 & 127) in
  set e 31 (get e 31 .| 64).

(** The 32 bytes of [out]. *)
Definition x25519 (secret public : list Z) : list Z :=
  let e := x25519_clamp secret in
  let bp := curve25519_load public in
  let '(x, z) := x25519_mul e bp in
  let z := curve25519_invert z in
  let z := curve25519_mul x z in
  let z := curve25519_reduce z in
  curve25519_store z.

(** ** Reference: RFC 7748, section 5 *)
Module Rfc7748.

Definition add (x y : Z) : Z := (x + y) mod P.
Definition sub (x y : Z) : Z := (x - y) mod P.
Definition mul (x y : Z) : Z := (x * y) mod P.

Record state := State { x_2 : Z; z_2 : Z; x_3 : Z; z_3 : Z; swp : Z }.

Definition cswap (s : Z) (x y : Z) : Z * Z := if s =? 1 then (y, x) else (x, y).

Definition a24 : Z := 121665.

Definition step (k u : Z) (s : state) (t : nat) : state :=
  let k_t := (k >> Z.of_nat t) & 1 in
  let sw := swp s ^^ k_t in
  let '(x_2, x_3) := cswap sw (x_2 s) (x_3 s) in
  let '(z_2, z_3) := cswap sw (z_2 s) (z_3 s) in
  let A := add x_2 z_2 in
  let AA := mul A A in
  let B := sub x_2 z_2 in
  let BB := mul B B in
  let E := sub AA BB in
  let C := add x_3 z_3 in
  let D := sub x_3 z_3 in
  let DA := mul D A in
  let CB := mul C B in
  let x_3 := mul (add DA CB) (add DA CB) in
  let z_3 := mul u (mul (sub DA CB) (sub DA CB)) in
  let x_2 := mul AA BB in
  let z_2 := mul E (add AA (mul a24 E)) in
  State x_2 z_2 x_3 z_3 k_t.

(** [bits] is the number of iterations. *)
Definition ladder (bits : nat) (k u : Z) : Z :=
  let s := fold_left (step k u) (rev (seq 0 bits)) (State 1 0 u 1 0) in
  let '(x_2, _) := cswap (swp s) (x_2 s) (x_3 s) in
  let '(z_2, _) := cswap (swp s) (z_2 s) (z_3 s) in
  mul x_2 (Zpow_mod z_2 (P - 2) P).

Definition decodeUCoordinate (u : list Z) : Z := le_combine u mod 2 ^ 255.

(** The scalar with its three low bits and bit 255 cleared and bit 254 set. *)
Definition decodeScalar25519 (k : list Z) : Z := 2 ^ 254 + 8 * (le_combine k / 8 mod 2 ^ 251).

Definition X25519 (k u : list Z) : list Z :=
  le_split 32 (ladder 256 (decodeScalar25519 k) (decodeUCoordinate u)).
End Rfc7748.

(** ** Simulation *)

Lemma add_eqP x y : Rfc7748.add x y == x + y.
Proof. apply eqP_mod. now apply Z.mod_mod. Qed.
Lemma sub_eqP x y : Rfc7748.sub x y == x - y.
Proof. apply eqP_mod. now apply Z.mod_mod. Qed.
Lemma mul_eqP x y : Rfc7748.mul x y == x * y.
Proof. apply eqP_mod. now apply Z.mod_mod. Qed.

#[export] Instance rfc_add_proper : Proper (eqP ==> eqP ==> eqP) Rfc7748.add.
Proof. intros a b H c d H'. now rewrite !add_eqP, H, H'. Qed.
#[export] Instance rfc_sub_proper : Proper (eqP ==> eqP ==> eqP) Rfc7748.sub.
Proof. intros a b H c d H'. now rewrite !sub_eqP, H, H'. Qed.
#[export] Instance rfc_mul_proper : Proper (eqP ==> eqP ==> eqP) Rfc7748.mul.
Proof. intros a b H c d H'. now rewrite !mul_eqP, H, H'. Qed.

(** A tight element stands for the residue [x]. *)
Definition stands (B : Z) (a : fe) (x : Z) : Prop := within B a /\ feval a == x.
Abbreviation T := (2 ^ 51 + 2 ^ 26).

(** Limbs and residues of a ladder state. *)
Record sim (s : ladder) (r : Rfc7748.state) : Prop := {
  sim_x0 : stands T (x0 s) (Rfc7748.x_2 r); sim_z0 : stands T (z0 s) (Rfc7748.z_2 r);
  sim_x1 : stands T (x1 s) (Rfc7748.x_3 r); sim_z1 : stands T (z1 s) (Rfc7748.z_3 r);
  sim_swap : swap s = Rfc7748.swp r /\ (swap s = 0 \/ swap s = 1) }.

Section Ops.
Context (a b : fe) (x y B C : Z) (Ha : stands B a x) (Hb : stands C b y).

Lemma stands_add : B + C < 2 ^ 64 -> stands (B + C) (curve25519_addNoReduce a b) (x + y).
Proof using Ha Hb.
  intros H. destruct Ha as [La Ea], Hb as [Lb Eb]. destruct (addNoReduce_correct a b B C La Lb H) as [L E].
  split; [exact L|]. now rewrite E, Ea, Eb.
Qed.

Lemma stands_sub : B + 2 ^ 52 <= 2 ^ 64 -> C <= 2 ^ 52 - 38 -> stands (B + 2 ^ 52) (curve25519_subNoReduce a b) (x - y).
Proof using Ha Hb.
  intros H H'. destruct Ha as [La Ea], Hb as [Lb Eb]. destruct (subNoReduce_correct a b B C La Lb H H') as [L E].
  split; [exact L|]. now rewrite E, Ea, Eb.
Qed.

Lemma stands_mul : B <= 2 ^ 54 -> C <= 2 ^ 54 -> stands T (curve25519_mul a b) (x * y).
Proof using Ha Hb.
  intros H H'. destruct Ha as [La Ea], Hb as [Lb Eb].
  destruct (mul_correct a b) as [L E]; [now apply (within_weaken B)|now apply (within_weaken C)|].
  split; [exact L|]. now rewrite E, Ea, Eb.
Qed.

Lemma stands_square : B <= 2 ^ 54 -> stands T (curve25519_squareN a 1) (x * x).
Proof using Ha.
  intros H. destruct Ha as [La Ea].
  destruct (squareN_correct a 1) as [L E]; [now apply (within_weaken B)|lia|].
  split; [exact L|]. rewrite E, Ea. now rewrite Z.pow_2_r.
Qed.

Lemma stands_scalar k : B <= 2 ^ 54 -> 0 <= k < 2 ^ 17 -> stands T (curve25519_mulScalar a k) (x * k).
Proof using Ha.
  intros H Hk. destruct Ha as [La Ea].
  destruct (mulScalar_correct a k) as [L E]; [now apply (within_weaken B)|lia|].
  split; [exact L|]. now rewrite E, Ea.
Qed.
End Ops.

Lemma stands_eq B a x y : stands B a x -> x == y -> stands B a y.
Proof. intros [L E] H. split; [exact L|]. now rewrite E. Qed.

Lemma tight_u64 a : within T a -> u64_limbs a.
Proof. apply within_weaken. lia. Qed.

Lemma swap_sim s a b x y : s = 0 \/ s = 1 -> stands T a x -> stands T b y ->
  let '(a', b') := curve25519_cSwap a b s in
  let '(x', y') := Rfc7748.cswap s x y in
  stands T a' x' /\ stands T b' y'.
Proof.
  intros Hs Ha Hb. rewrite cSwap_correct by (apply tight_u64, Ha || apply tight_u64, Hb || assumption).
  unfold Rfc7748.cswap. destruct Hs as [->| ->]; cbn [Z.eqb Pos.eqb]; now split.
Qed.

Lemma bit_01 x n : (x >> n) & 1 = 0 \/ (x >> n) & 1 = 1.
Proof.
  rewrite (land_mask 1) by (lia || reflexivity).
  pose proof (Z.mod_pos_bound (x >> n) (2 ^ 1)). lia.
Qed.

Lemma x25519_step_sim n q k u s r i : stands T q u -> sim s r ->
  (get n (i / 8) >> Z.of_nat (i mod 8)) & 1 = (k >> Z.of_nat i) & 1 ->
  sim (x25519_step n q s i) (Rfc7748.step k u r i).
Proof.
  intros Hq [Sx0 Sz0 Sx1 Sz1 [Ssw Hsw]] Hbit. unfold x25519_step, Rfc7748.step. rewrite Hbit, <- Ssw.
  set (bit := (k >> Z.of_nat i) & 1). assert (bit = 0 \/ bit = 1) as Hb by apply bit_01.
  assert (swap s ^^ bit = 0 \/ swap s ^^ bit = 1) as Hs
    by (destruct Hsw as [-> | ->], Hb as [-> | ->]; cbn; auto).
  pose proof (swap_sim _ _ _ _ _ Hs Sx0 Sx1) as Hx. pose proof (swap_sim _ _ _ _ _ Hs Sz0 Sz1) as Hz.
  destruct (curve25519_cSwap (x0 s) (x1 s) (swap s ^^ bit)) as [xa xb].
  destruct (curve25519_cSwap (z0 s) (z1 s) (swap s ^^ bit)) as [za zb].
  destruct (Rfc7748.cswap _ (Rfc7748.x_2 r) (Rfc7748.x_3 r)) as [x2 x3].
  destruct (Rfc7748.cswap _ (Rfc7748.z_2 r) (Rfc7748.z_3 r)) as [z2 z3].
  destruct Hx as [X2 X3], Hz as [Z2 Z3]. clear Sx0 Sz0 Sx1 Sz1.
  pose proof (stands_add _ _ _ _ _ _ X2 Z2 ltac:(lia)) as A.
  pose proof (stands_sub _ _ _ _ _ _ X3 Z3 ltac:(lia) ltac:(lia)) as D.
  pose proof (stands_mul _ _ _ _ _ _ A D ltac:(lia) ltac:(lia)) as DA.
  pose proof (stands_square _ _ _ A ltac:(lia)) as AA.
  pose proof (stands_sub _ _ _ _ _ _ X2 Z2 ltac:(lia) ltac:(lia)) as B.
  pose proof (stands_add _ _ _ _ _ _ X3 Z3 ltac:(lia)) as C.
  pose proof (stands_mul _ _ _ _ _ _ C B ltac:(lia) ltac:(lia)) as CB.
  pose proof (stands_square _ _ _ B ltac:(lia)) as BB.
  pose proof (stands_add _ _ _ _ _ _ CB DA ltac:(lia)) as S.
  pose proof (stands_square _ _ _ S ltac:(lia)) as SS.
  pose proof (stands_sub _ _ _ _ _ _ CB DA ltac:(lia) ltac:(lia)) as Df.
  pose proof (stands_square _ _ _ Df ltac:(lia)) as DD.
  pose proof (stands_mul _ _ _ _ _ _ DD Hq ltac:(lia) ltac:(lia)) as Z3'.
  pose proof (stands_sub _ _ _ _ _ _ AA BB ltac:(lia) ltac:(lia)) as E.
  pose proof (stands_mul _ _ _ _ _ _ AA BB ltac:(lia) ltac:(lia)) as X2'.
  pose proof (stands_scalar _ _ _ E 121665 ltac:(lia) ltac:(lia)) as K.
  pose proof (stands_add _ _ _ _ _ _ K AA ltac:(lia)) as KA.
  pose proof (stands_mul _ _ _ _ _ _ E KA ltac:(lia) ltac:(lia)) as Z2'.
  constructor; cbn [x0 z0 x1 z1 swap Rfc7748.x_2 Rfc7748.z_2 Rfc7748.x_3 Rfc7748.z_3 Rfc7748.swp].
  - eapply stands_eq; [exact X2'|]. rewrite ?mul_eqP, ?add_eqP, ?sub_eqP. reflexivity.
  - eapply stands_eq; [exact Z2'|].
    rewrite ?mul_eqP, ?add_eqP, ?sub_eqP, ?mul_eqP, ?add_eqP, ?sub_eqP. unfold Rfc7748.a24. exists 0. ring.
  - eapply stands_eq; [exact SS|]. rewrite ?mul_eqP, ?add_eqP, ?sub_eqP. exists 0. ring.
  - eapply stands_eq; [exact Z3'|]. rewrite ?mul_eqP, ?add_eqP, ?sub_eqP. exists 0. ring.
  - split; [reflexivity|exact Hb].
Qed.

(** ** Scalars *)

Lemma get_digit l j : bytes l -> get l j = le_combine l / 256 ^ Z.of_nat j mod 256.
Proof.
  intros Hb. rewrite <- le_combine_skipn by assumption.
  change 256 with (256 ^ Z.of_nat 1) . rewrite <- le_combine_firstn by auto with hc.
  clear Hb. unfold get. revert j. induction l as [|x l IH]; intros [|j]; try reflexivity.
  - cbn. lia.
  - apply IH.
Qed.

Lemma bit_digit N j s : 0 <= j -> 0 <= s < 8 -> ((N / 256 ^ j mod 256) >> s) & 1 = (N >> (8 * j + s)) & 1.
Proof.
  intros Hj Hs. change 256 with (2 ^ 8). rewrite <- Z.pow_mul_r by lia.
  rewrite <- shiftr_div, <- Z.land_ones by lia. apply Z.bits_inj'. intros i Hi.
  rewrite !Z.land_spec. change 1 with (Z.ones 1). destruct (Z.ltb_spec i 1).
  - rewrite !Z.shiftr_spec, Z.land_spec, Z.shiftr_spec, (Z.ones_spec_low 8), andb_true_r by lia. do 2 f_equal. lia.
  - now rewrite (Z.ones_spec_high 1), !andb_false_r by lia.
Qed.

Lemma scalar_bit n i : bytes n ->
  (get n (i / 8) >> Z.of_nat (i mod 8)) & 1 = (le_combine n >> Z.of_nat i) & 1.
Proof.
  intros Hb. rewrite get_digit by assumption. pose proof (Nat.mod_upper_bound i 8).
  rewrite bit_digit by lia. do 2 f_equal. rewrite (Nat.div_mod_eq i 8) at 3. lia.
Qed.

Lemma x25519_clamp_spec secret : length secret = 32%nat -> bytes secret ->
  bytes (x25519_clamp secret) /\ le_combine (x25519_clamp secret) = Rfc7748.decodeScalar25519 secret.
Proof.
  intros Hl Hb. unfold x25519_clamp, Rfc7748.decodeScalar25519.
  rewrite (firstn_all2 secret) by lia.
  rewrite get_set_eq by lens. rewrite get_set_ne by lia.
  destruct secret as [|b0 rest]; [discriminate|]. cbn [length] in Hl.
  assert (rest = firstn 30 rest ++ [get rest 30]) as Hrest.
  { rewrite <- (firstn_skipn 30 rest) at 1. f_equal. unfold get.
    rewrite <- (Nat.add_0_r 30) at 2. rewrite <- nth_skipn. assert (length (skipn 30 rest) = 1%nat) as Hs by lens.
    destruct (skipn 30 rest) as [|x [|]]; [discriminate Hs|reflexivity|discriminate Hs]. }
  change (get (b0 :: rest) 31) with (get rest 30). change (get (b0 :: rest) 0) with b0.
  set (mid := firstn 30 rest) in *. set (b31 := get rest 30) in *.
  assert (length mid = 30%nat) as Hm by (unfold mid; lens).
  rewrite Hrest in *. clearbody mid b31. clear Hrest rest Hl.
  assert (set (set (set (b0 :: mid ++ [b31]) 0 (b0 & 248)) 31 (b31 & 127)) 31 ((b31 & 127) .| 64)
    = (b0 & 248) :: mid ++ [(b31 & 127) .| 64]) as ->.
  { cbn [set]. f_equal. clear - Hm. do 30 (destruct mid as [|? mid]; [discriminate|]). destruct mid; [reflexivity|discriminate]. }
  unfold bytes in Hb. rewrite Forall_cons_iff, Forall_app, Forall_cons_iff in Hb. destruct Hb as (B0 & Bm & B31 & _).
  assert (b0 & 248 = 8 * (b0 / 8)) as E0.
  { unfold is_byte in B0. assert (exists k, (k < 256)%nat /\ b0 = Z.of_nat k) as (k & Hk & ->) by (exists (Z.to_nat b0); lia).
    clear B0. do 256 (destruct k as [|k]; [reflexivity|]). lia. }
  assert ((b31 & 127) .| 64 = 64 + b31 mod 64) as E31.
  { unfold is_byte in B31. assert (exists k, (k < 256)%nat /\ b31 = Z.of_nat k) as (k & Hk & ->) by (exists (Z.to_nat b31); lia).
    clear B31. do 256 (destruct k as [|k]; [reflexivity|]). lia. }
  rewrite E0, E31. unfold is_byte in *.
  assert (0 <= 8 * (b0 / 8) < 256 /\ 0 <= 64 + b31 mod 64 < 256) as [R0 R31] by (Z.to_euclidean_division_equations; lia).
  split.
  - constructor; [exact R0|]. apply Forall_app. split; [exact Bm|]. constructor; [exact R31|constructor].
  - cbn [le_combine]. rewrite !le_combine_app, Hm. cbn [le_combine]. change (256 ^ Z.of_nat 30) with (2 ^ 240).
    pose proof (le_combine_bound mid Bm) as Hmid. rewrite Hm in Hmid. change (256 ^ Z.of_nat 30) with (2 ^ 240) in Hmid.
    set (M := le_combine mid) in *. clearbody M. rewrite !Z.mul_0_r, !Z.add_0_r.
    Z.to_euclidean_division_equations. lia.
Qed.

(** ** Correctness *)

Lemma x25519_mul_sim n q u : bytes n -> stands T q u ->
  let s := fold_left (x25519_step n q) (rev (seq 0 256)) (Ladder (Fe 1 0 0 0 0) (Fe 0 0 0 0 0) q (Fe 1 0 0 0 0) 0) in
  let r := fold_left (Rfc7748.step (le_combine n) u) (rev (seq 0 256)) (Rfc7748.State 1 0 u 1 0) in
  sim s r.
Proof.
  intros Hn Hq. cbv zeta. generalize (rev (seq 0 256)) as bits. intros bits.
  assert (sim (Ladder (Fe 1 0 0 0 0) (Fe 0 0 0 0 0) q (Fe 1 0 0 0 0) 0) (Rfc7748.State 1 0 u 1 0)) as H0.
  { assert (stands T (Fe 1 0 0 0 0) 1) by (split; [unfold within; cbn [f0 f1 f2 f3 f4]; lia|exists 0; reflexivity]).
    assert (stands T (Fe 0 0 0 0 0) 0) by (split; [unfold within; cbn [f0 f1 f2 f3 f4]; lia|exists 0; reflexivity]).
    constructor; cbn; auto. }
  revert H0. generalize (Ladder (Fe 1 0 0 0 0) (Fe 0 0 0 0 0) q (Fe 1 0 0 0 0) 0), (Rfc7748.State 1 0 u 1 0).
  induction bits as [|i bits IH]; intros s r H0; [exact H0|]. cbn [fold_left].
  apply IH, x25519_step_sim; [exact Hq|exact H0|now apply scalar_bit].
Qed.

Lemma x25519_spec secret public :
  length secret = 32%nat -> bytes secret -> length public = 32%nat -> bytes public ->
  x25519 secret public = Rfc7748.X25519 secret public.
Proof.
  intros Hsl Hsb Hpl Hpb. unfold x25519, x25519_mul, Rfc7748.X25519, Rfc7748.ladder.
  destruct (x25519_clamp_spec secret Hsl Hsb) as [Hcb Hck].
  destruct (load_correct public Hpb) as [Hlc Hle].
  assert (stands T (curve25519_load public) (Rfc7748.decodeUCoordinate public)) as Hq.
  { split; [eapply within_weaken; [|exact Hlc]; lia|]. rewrite Hle. reflexivity. }
  pose proof (x25519_mul_sim _ _ _ Hcb Hq) as Hsim. cbv zeta in Hsim. rewrite Hck in Hsim.
  set (s := fold_left _ _ (Ladder _ _ _ _ _)) in *. set (r := fold_left _ _ (Rfc7748.State _ _ _ _ _)) in *.
  clearbody s r. destruct Hsim as [Sx0 Sz0 Sx1 Sz1 [Ssw Hsw]]. rewrite <- Ssw.
  pose proof (swap_sim _ _ _ _ _ Hsw Sx0 Sx1) as Hx. pose proof (swap_sim _ _ _ _ _ Hsw Sz0 Sz1) as Hz.
  destruct (curve25519_cSwap (x0 s) (x1 s) (swap s)) as [xa xb].
  destruct (curve25519_cSwap (z0 s) (z1 s) (swap s)) as [za zb].
  destruct (Rfc7748.cswap _ (Rfc7748.x_2 r) (Rfc7748.x_3 r)) as [x2 x3].
  destruct (Rfc7748.cswap _ (Rfc7748.z_2 r) (Rfc7748.z_3 r)) as [z2 z3].
  destruct Hx as [[Lx Ex] _], Hz as [[Lz Ez] _].
  destruct (invert_correct za) as [Li Ei]; [now apply tight_loose|].
  destruct (mul_correct xa (curve25519_invert za)) as [Lm Em]; [now apply tight_loose..|].
  destruct (reduce_correct (curve25519_mul xa (curve25519_invert za))) as [Lr Er]; [now apply tight_loose|].
  rewrite store_correct, Er by assumption. f_equal.
  rewrite Zpow_mod_correct by easy. unfold Rfc7748.mul. apply eqP_mod. rewrite Em, Ei, Ex, Ez.
  assert (z2 ^ (P - 2) mod P == z2 ^ (P - 2)) as -> by (apply eqP_mod; now apply Z.mod_mod). reflexivity.
Qed.

(** C15: [x25519] is the function X25519 of RFC 7748: for any 32 byte secret and public
    value it returns the encoding of the ladder's result on the decoded scalar and
    coordinate, with every limb operation inside the bounds of the field arithmetic. *)
Theorem x25519_correct secret public :
  length secret = 32%nat -> bytes secret -> length public = 32%nat -> bytes public ->
  x25519 secret public = Rfc7748.X25519 secret public.
Proof. exact (x25519_spec secret public). Qed.

(** A point of small order gives the all zero value. *)
Lemma x25519_correct_witness : x25519 (map Z.of_nat (seq 1 32)) (repeat 0 32) = repeat 0 32.
Proof.
  rewrite x25519_correct; [vm_compute; reflexivity|reflexivity|repeat constructor; lia|reflexivity|repeat constructor; lia].
Defined.
