(* ===== verification/Io.v ===== *)
(** * Complete reads and writes ([src/hc/core/hc/ix/util.c])

    [util_writeAll], [util_read] and [util_readAll] retry the system calls [read] and
    [write].  The calls are the class [FileOps]; [FileLaws] states what their manual
    pages promise about the data, and that a process is interrupted, or makes no
    progress, finitely often ([patience]).  The loops take fuel and return [None]
    when it runs out; the theorems give enough fuel. *)
From Stdlib Require Import ZArith List Lia Bool.
From S2P Require Import Prelude.
Import ListNotations.

(** [write(fd, buffer, size)] and [read(fd, buffer, size)]: the result and, for a read,
    the bytes stored. *)
Class FileOps (world : Type) := {
  sys_write : world -> Z -> list Z -> world * Z;
  sys_read : world -> Z -> nat -> world * Z * list Z }.

Definition EINTR : Z := 4.
Definition ix_ERRNO (RET : Z) : Z := - RET.

Section Loops.
Context {world : Type} `{FileOps world}.

(** [buffer] is the part that is still to be written. *)
Fixpoint util_writeAll (fuel : nat) (w : world) (fd : Z) (buffer : list Z) : world * option Z :=
  match fuel with
  | O => (w, None)
  | S fuel' =>
      if (0 <? length buffer)%nat then
        let '(w, written) := sys_write w fd buffer in
        if written <? 0 then
          if ix_ERRNO written =? EINTR then util_writeAll fuel' w fd buffer
          else (w, Some (-1))
        else util_writeAll fuel' w fd (skipn (Z.to_nat written) buffer)
      else (w, Some 0)
  end.

Fixpoint util_read (fuel : nat) (w : world) (fd : Z) (size : nat) : world * option (Z * list Z) :=
  match fuel with
  | O => (w, None)
  | S fuel' =>
      let '(w, numRead, data) := sys_read w fd size in
      if 0 <=? numRead then (w, Some (numRead, data))
      else if negb (ix_ERRNO numRead =? EINTR) then (w, Some (-1, []))
      else util_read fuel' w fd size
  end.

(** [got]: what was stored so far, [length got] is [offset]. *)
Fixpoint util_readAll (fuel : nat) (w : world) (fd : Z) (remaining : nat) (got : list Z) : world * option (Z * list Z) :=
  match fuel with
  | O => (w, None)
  | S fuel' =>
      if (0 <? remaining)%nat then
        let '(w, numRead, data) := sys_read w fd remaining in
        if numRead <=? 0 then
          if numRead =? 0 then (w, Some (Z.of_nat (length got), got))
          else if ix_ERRNO numRead =? EINTR then util_readAll fuel' w fd remaining got
          else (w, Some (-1, got))
        else util_readAll fuel' w fd (remaining - Z.to_nat numRead) (got ++ data)
      else (w, Some (Z.of_nat (length got), got))
  end.
End Loops.

(** What the calls do: [output] is what was written to a descriptor, [input] what is
    left to read from it. *)
Class FileLaws (world : Type) `{FileOps world} := {
  output : world -> Z -> list Z;
  input : world -> Z -> list Z;
  patience : world -> nat;
  write_error : forall w fd b, snd (sys_write w fd b) < 0 ->
    output (fst (sys_write w fd b)) = output w;
  write_some : forall w fd b, 0 <= snd (sys_write w fd b) ->
    snd (sys_write w fd b) <= Z.of_nat (length b) /\
    output (fst (sys_write w fd b)) fd = output w fd ++ firstn (Z.to_nat (snd (sys_write w fd b))) b;
  write_other : forall w fd b fd', fd' <> fd ->
    output (fst (sys_write w fd b)) fd' = output w fd';
  write_input : forall w fd b, input (fst (sys_write w fd b)) = input w;
  write_patience : forall w fd b, b <> [] ->
    (snd (sys_write w fd b) = - EINTR \/ snd (sys_write w fd b) = 0 ->
       (patience (fst (sys_write w fd b)) < patience w)%nat) /\
    (patience (fst (sys_write w fd b)) <= patience w)%nat;
  read_error : forall w fd n, snd (fst (sys_read w fd n)) < 0 ->
    input (fst (fst (sys_read w fd n))) fd = input w fd;
  read_errno : forall w fd n, -4096 < snd (fst (sys_read w fd n)) /\
    (snd (fst (sys_read w fd n)) < 0 -> snd (sys_read w fd n) = []);
  read_some : forall w fd n, 0 <= snd (fst (sys_read w fd n)) ->
    let '(w', r, data) := sys_read w fd n in
    r <= Z.of_nat n /\ data = firstn (Z.to_nat r) (input w fd) /\ Z.of_nat (length data) = r /\
    input w' fd = skipn (Z.to_nat r) (input w fd);
  read_output : forall w fd n, output (fst (fst (sys_read w fd n))) = output w;
  read_other : forall w fd n fd', fd' <> fd -> input (fst (fst (sys_read w fd n))) fd' = input w fd';
  read_eof : forall w fd n, (0 < n)%nat -> snd (fst (sys_read w fd n)) = 0 -> input w fd = [];
  read_patience : forall w fd n,
    (snd (fst (sys_read w fd n)) = - EINTR -> (patience (fst (fst (sys_read w fd n))) < patience w)%nat) /\
    (patience (fst (fst (sys_read w fd n))) <= patience w)%nat }.

Section Spec.
Context {world : Type} `{FileLaws world}.

Lemma skipn_cons_length {A} n (l : list A) : (0 < n)%nat -> (n <= length l)%nat ->
  (length (skipn n l) + n = length l)%nat.
Proof. intros. lens. Qed.

Lemma util_writeAll_spec fuel : forall w fd b, (length b + patience w < fuel)%nat ->
  let '(w', r) := util_writeAll fuel w fd b in
  (forall fd', fd' <> fd -> output w' fd' = output w fd') /\ input w' = input w /\
  ((r = Some 0 /\ output w' fd = output w fd ++ b) \/
   (r = Some (-1) /\ exists n, output w' fd = output w fd ++ firstn n b)).
Proof.
  induction fuel as [|fuel IH]; intros w fd b Hf; [lia|]. cbn [util_writeAll].
  destruct (Nat.ltb_spec 0 (length b)) as [Hb|Hb].
  2: { destruct b; [|cbn in Hb; lia]. rewrite app_nil_r. auto 6. }
  assert (b <> []) as Hne by (now intros ->).
  pose proof (write_patience w fd b Hne) as [Hp1 Hp2]. pose proof (write_some w fd b) as Hs.
  pose proof (write_error w fd b) as He. pose proof (write_other w fd b) as Ho. pose proof (write_input w fd b) as Hi.
  destruct (sys_write w fd b) as [w1 written]. cbn [fst snd] in *.
  destruct (Z.ltb_spec written 0) as [Hneg|Hpos].
  - specialize (He Hneg). unfold ix_ERRNO. destruct (Z.eqb_spec (- written) EINTR) as [E|E].
    + specialize (IH w1 fd b ltac:(lia)). destruct (util_writeAll fuel w1 fd b) as [w' r].
      rewrite He, Hi in IH. exact IH.
    + rewrite He. split; [reflexivity|]. split; [exact Hi|]. right. split; [reflexivity|].
      exists 0%nat. cbn. now rewrite app_nil_r.
  - specialize (Hs Hpos) as [Hle Hout].
    assert (length (skipn (Z.to_nat written) b) + patience w1 < fuel)%nat as Hf'.
    { rewrite length_skipn. destruct (Z.eq_dec written 0) as [->|]; [|lia].
      specialize (Hp1 (or_intror eq_refl)). cbn. lia. }
    specialize (IH w1 fd _ Hf'). destruct (util_writeAll fuel w1 fd _) as [w' r].
    destruct IH as (IHo & IHi & IHr). split; [intros fd' Hfd; rewrite IHo, Ho by assumption; reflexivity|].
    split; [congruence|]. rewrite Hout, <- app_assoc in IHr. destruct IHr as [[-> IHr]|[-> [n IHr]]].
    + left. split; [reflexivity|]. now rewrite firstn_skipn in IHr.
    + right. split; [reflexivity|]. exists (Z.to_nat written + n)%nat. rewrite IHr, <- app_assoc. f_equal.
      rewrite <- (firstn_skipn (Z.to_nat written) (firstn (Z.to_nat written + n) b)).
      rewrite firstn_firstn, Nat.min_l, skipn_firstn_comm by lia. do 2 f_equal. lia.
Qed.

Lemma util_readAll_spec fuel : forall w fd n got, (n + patience w < fuel)%nat ->
  let '(w', r) := util_readAll fuel w fd n got in
  (exists k, (k <= n)%nat /\ r = Some (-1, got ++ firstn k (input w fd)) /\ input w' fd = skipn k (input w fd)) \/
  (let data := got ++ firstn n (input w fd) in
   r = Some (Z.of_nat (length data), data) /\ input w' fd = skipn n (input w fd)).
Proof.
  induction fuel as [|fuel IH]; intros w fd n got Hf; [lia|]. cbn [util_readAll].
  destruct (Nat.ltb_spec 0 n) as [Hn|Hn].
  2: { replace n with 0%nat by lia. right. cbn. now rewrite app_nil_r. }
  pose proof (read_patience w fd n) as [Hp1 Hp2]. pose proof (read_some w fd n) as Hs.
  pose proof (read_error w fd n) as He. pose proof (read_eof w fd n Hn) as Hz.
  destruct (sys_read w fd n) as [[w1 r] data]. cbn [fst snd] in *.
  destruct (Z.leb_spec r 0) as [Hle|Hpos].
  - destruct (Z.eqb_spec r 0) as [->|Hne].
    + right. specialize (Hs ltac:(lia)) as (_ & _ & _ & Hin). rewrite Hin, (Hz eq_refl).
      rewrite firstn_nil, !skipn_nil, app_nil_r. auto.
    + unfold ix_ERRNO. specialize (He ltac:(lia)). destruct (Z.eqb_spec (- r) EINTR) as [E|E].
      * specialize (IH w1 fd n got ltac:(lia)). destruct (util_readAll fuel w1 fd n got) as [w' r'].
        rewrite He in IH. exact IH.
      * left. exists 0%nat. cbn. rewrite app_nil_r. auto with arith.
  - specialize (Hs ltac:(lia)) as (Hrn & Hdata & Hlen & Hin).
    specialize (IH w1 fd (n - Z.to_nat r)%nat (got ++ data) ltac:(lia)).
    destruct (util_readAll fuel w1 fd _ _) as [w' r']. rewrite Hin in IH.
    assert (forall k, data ++ firstn k (skipn (Z.to_nat r) (input w fd)) = firstn (Z.to_nat r + k) (input w fd)) as Hcat.
    { intros k. rewrite Hdata. rewrite <- (firstn_skipn (Z.to_nat r) (firstn (Z.to_nat r + k) (input w fd))).
      rewrite firstn_firstn, Nat.min_l, skipn_firstn_comm by lia. do 2 f_equal. lia. }
    destruct IH as [(k & Hkn & -> & Hk)|[-> Hk]].
    + left. exists (Z.to_nat r + k)%nat. split; [lia|]. rewrite <- app_assoc, Hcat, Hk, skipn_skipn. split; [reflexivity|]. f_equal. lia.
    + right. cbv zeta. rewrite <- app_assoc, Hcat.
      replace (Z.to_nat r + (n - Z.to_nat r))%nat with n by lia. rewrite Hk, skipn_skipn.
      split; [reflexivity|]. f_equal. lia.
Qed.

(** with write and read as documented, and finitely many interruptions,
    [util_writeAll] returns: either 0 after appending exactly the buffer to the
    descriptor, or -1 after a prefix of it, and no other descriptor changes;
    [util_readAll] returns -1 or exactly the next [n] bytes, fewer only at the end
    of the input. *)
Theorem util_readAll_writeAll_correct fuel w fd b n :
  (length b + patience w < fuel)%nat -> (n + patience w < fuel)%nat ->
  (let '(w', r) := util_writeAll fuel w fd b in
   (forall fd', fd' <> fd -> output w' fd' = output w fd') /\
   ((r = Some 0 /\ output w' fd = output w fd ++ b) \/
    (r = Some (-1) /\ exists k, output w' fd = output w fd ++ firstn k b))) /\
  (let '(w', r) := util_readAll fuel w fd n [] in
   (exists k, r = Some (-1, firstn k (input w fd)) /\ input w' fd = skipn k (input w fd)) \/
   (r = Some (Z.of_nat (Nat.min n (length (input w fd))), firstn n (input w fd)) /\
    input w' fd = skipn n (input w fd))).
Proof.
  intros Hb Hn. split.
  - pose proof (util_writeAll_spec fuel w fd b Hb) as Hw.
    destruct (util_writeAll fuel w fd b) as [w' r]. destruct Hw as (Ho & _ & Hr). auto.
  - pose proof (util_readAll_spec fuel w fd n [] Hn) as Hr.
    destruct (util_readAll fuel w fd n []) as [w' r]. destruct Hr as [(k & _ & -> & Hk)|[-> Hk]].
    + left. exists k. auto.
    + right. cbn [app] in *. rewrite length_firstn. auto.
Qed.
End Spec.

(** ** A concrete kernel: one call in three is interrupted, transfers are short *)
Module DemoFiles.

Record demo := Demo { out : list Z; inp : list Z; budget : nat }.

(** Writes at most three bytes; interrupted while the budget is odd. *)
#[global] Instance demo_ops : FileOps demo := {
  sys_write w fd b :=
    if negb (fd =? 1) then (w, -9)
    else if Nat.odd (budget w) then (Demo (out w) (inp w) (budget w - 1), - EINTR)
    else (Demo (out w ++ firstn 3 b) (inp w) (budget w - 1), Z.of_nat (Nat.min 3 (length b)));
  sys_read w fd n :=
    if negb (fd =? 0) then (w, -9, [])
    else if Nat.odd (budget w) then (Demo (out w) (inp w) (budget w - 1), - EINTR, [])
    else (Demo (out w) (skipn (Nat.min 2 n) (inp w)) (budget w - 1),
          Z.of_nat (Nat.min (Nat.min 2 n) (length (inp w))), firstn (Nat.min 2 n) (inp w)) }.

Ltac arith := intros; unfold EINTR in *; lia.
Ltac calls := cbn [sys_write sys_read demo_ops fst snd out inp budget negb].

#[global] Instance demo_laws : FileLaws demo.
Proof.
  refine {| output w fd := if fd =? 1 then out w else [];
            input w fd := if fd =? 0 then inp w else []; patience := budget |}.
  - intros w fd b. calls. destruct (fd =? 1); calls; [|reflexivity]. destruct (Nat.odd (budget w)); calls; [reflexivity|arith].
  - intros w fd b. calls. destruct (Z.eqb_spec fd 1); calls; [|arith]. destruct (Nat.odd (budget w)); calls; [arith|].
    intros _. split; [arith|]. rewrite Nat2Z.id. f_equal. destruct (Nat.min_spec 3 (length b)) as [[_ ->]|[? ->]]; [reflexivity|].
    rewrite firstn_all. apply firstn_all2. arith.
  - intros w fd b fd' Hfd. calls. destruct (Z.eqb_spec fd' 1), (Z.eqb_spec fd 1); calls; try congruence; try reflexivity.
  - intros w fd b. calls. destruct (fd =? 1); calls; [|reflexivity]. now destruct (Nat.odd (budget w)).
  - intros w fd b Hb. calls. destruct (fd =? 1); calls; [|arith].
    destruct (Nat.odd (budget w)) eqn:E; calls.
    + assert (budget w <> 0)%nat by (intros E0; rewrite E0 in E; discriminate). arith.
    + unfold EINTR. destruct b; [congruence|]. cbn [length]. arith.
  - intros w fd n. calls. destruct (Z.eqb_spec fd 0); calls; [|reflexivity]. destruct (Nat.odd (budget w)); calls; [reflexivity|arith].
  - intros w fd n. calls. destruct (fd =? 0); calls; [|split; [arith|reflexivity]].
    destruct (Nat.odd (budget w)); calls; [split; [arith|reflexivity]|arith].
  - intros w fd n. calls. destruct (Z.eqb_spec fd 0); calls; [|arith]. destruct (Nat.odd (budget w)); calls; [arith|].
    intros _. rewrite Nat2Z.id. split; [arith|]. destruct (Nat.min_spec (Nat.min 2 n) (length (inp w))) as [[? ->]|[? ->]].
    + repeat split; auto. rewrite length_firstn. arith.
    + rewrite firstn_all, !skipn_all2 by arith. rewrite firstn_all2 by arith. auto.
  - intros w fd n. calls. destruct (fd =? 0); calls; [|reflexivity]. now destruct (Nat.odd (budget w)).
  - intros w fd n fd' Hfd. calls. destruct (Z.eqb_spec fd' 0), (Z.eqb_spec fd 0); calls; congruence.
  - intros w fd n Hn. calls. destruct (Z.eqb_spec fd 0); calls; [|arith]. destruct (Nat.odd (budget w)); calls; [arith|].
    intros E. destruct (inp w); [reflexivity|]. cbn [length] in E. arith.
  - intros w fd n. calls. destruct (fd =? 0); calls; [|arith].
    destruct (Nat.odd (budget w)) eqn:E; calls.
    + assert (budget w <> 0)%nat by (intros E0; rewrite E0 in E; discriminate). arith.
    + unfold EINTR. arith.
Defined.
End DemoFiles.
Import DemoFiles.

Lemma util_readAll_writeAll_correct_witness :
  let w := Demo [9] [1; 2; 3; 4; 5] 5 in
  let w' := fst (util_writeAll 20 w 1 [10; 11; 12; 13]) in
  out w' = [9; 10; 11; 12; 13] /\ snd (util_readAll 20 w 0 4 []) = Some (4, [1; 2; 3; 4]).
Proof.
  intros w w'.
  destruct (util_readAll_writeAll_correct 20 w 1 [10; 11; 12; 13] 4 ltac:(subst w; vm_compute; repeat constructor) ltac:(subst w; vm_compute; repeat constructor)) as [Hw _].
  destruct (util_readAll_writeAll_correct 20 w 0 [10; 11; 12; 13] 4 ltac:(subst w; vm_compute; repeat constructor) ltac:(subst w; vm_compute; repeat constructor)) as [_ Hr].
  vm_compute in Hw, Hr. split; [|destruct Hr as [(k & E & _)|[E _]]; [discriminate E|exact E]].
  destruct Hw as (_ & [[_ E]|[E _]]); [exact E|discriminate E].
Defined.
