(* ===== verification/Tar.v ===== *)
(** * The tar tool ([src/hc/tools/tar/common.c], [src/hc/core/hc/tar.h], [argParse.h])

    [common.c] writes ustar records through functions that the platform supplies
    ([readIntoBuffer], [writeBuffer], [openOutput], [closeOutput]): the class
    [TarPlatform].  [TarLaws] states what they promise, and [ustar] is the header of
    the POSIX format.  The static variables are the record [tar].  Loops whose length
    depends on the platform take fuel and give [None] when it runs out. *)
From Stdlib Require Import ZArith List Lia Bool String Permutation Sorted.
From S2P Require Import Prelude Alloc Util.
Import ListNotations.

(** ** [tar.h] *)

Definition tar_RECORD_SIZE : nat := 512.
Definition tar_OFFSET_NAME : nat := 0.
Definition tar_OFFSET_MODE : nat := 100.
Definition tar_OFFSET_SIZE : nat := 124.
Definition tar_OFFSET_MTIME : nat := 136.
Definition tar_OFFSET_CHKSUM : nat := 148.
Definition tar_OFFSET_TYPEFLAG : nat := 156.
Definition tar_OFFSET_MAGIC : nat := 257.
Definition tar_OFFSET_VERSION : nat := 263.
Definition tar_OFFSET_PREFIX : nat := 345.
Definition tar_MAX_NAME_LEN : nat := 100.
Definition tar_MAX_PREFIX_LEN : nat := 155.
Definition tar_MAX_FILE_SIZE : Z := 8 ^ 11 - 1.

(** ** The platform *)

(** [readIntoBuffer] gives its result and the bytes it put at the start of the buffer,
    [writeBuffer] gets the first [size] bytes of the buffer; [debug_print] is the text
    sent to the standard error. *)
Class TarPlatform (world : Type) := {
  readIntoBuffer : world -> world * Z * list Z;
  writeBuffer : world -> list Z -> world * Z;
  openOutput : world -> list Z -> world * Z;
  closeOutput : world -> world;
  debug_print : world -> list Z -> world }.

(** ** State *)

Definition octalTable : list Z := Eval cbv in str "01234567".

Record tar := Tar {
  buffer : list Z;      (* char buffer[65536] *)
  prefix : list Z;      (* char prefix[tar_MAX_PREFIX_LEN + 1 + tar_MAX_NAME_LEN] *)
  prefixLen : nat }.

Definition buffer_size : nat := Z.to_nat 65536.
Definition prefix_size : nat := (tar_MAX_PREFIX_LEN + 1 + tar_MAX_NAME_LEN)%nat.

Definition set_buffer (t : tar) (b : list Z) : tar := Tar b (prefix t) (prefixLen t).

(** ** Names *)

Definition isDot (name : list Z) : bool := (get name 0 =? 46) && (get name 1 =? 0).
Definition isDotDot (name : list Z) : bool := (get name 0 =? 46) && (get name 1 =? 46) && (get name 2 =? 0).

Definition enterDirectory (t : tar) (name : list Z) (nameLen : nat) : tar * Z :=
  let enter (prefix : list Z) (prefixLen : nat) :=
    (Tar (buffer t) (mem_copy prefix prefixLen (firstn nameLen name)) (prefixLen + nameLen), 0) in
  if (0 <? prefixLen t)%nat then
    if (tar_MAX_PREFIX_LEN <? prefixLen t)%nat then (t, -1)
    else enter (set (prefix t) (prefixLen t) 47) (S (prefixLen t))
  else enter (prefix t) (prefixLen t).

(** [do { --prefixLen; if (prefix[prefixLen] == '/') break; } while (prefixLen > 0)] *)
Fixpoint leave_loop (prefix : list Z) (prefixLen : nat) : nat :=
  match prefixLen with
  | O => O
  | S n => if get prefix n =? 47 then n else leave_loop prefix n
  end.

Definition leaveDirectory (t : tar) : tar := Tar (buffer t) (prefix t) (leave_loop (prefix t) (prefixLen t)).

(** [validateName]: the length, or a negative error. *)
Fixpoint validate_loop (name : list Z) (maxLen i : Z) : Z :=
  match name with
  | [] => i
  | c :: name' =>
      if c =? 0 then i
      else if maxLen <=? i then -2
      else if c =? 47 then -3
      else validate_loop name' maxLen (i + 1)
  end.

Definition validateName (name : list Z) (maxLen : Z) : Z :=
  if isDotDot name then -1 else validate_loop name maxLen 0.

(** [sortNames]: [names[0 .. i-1]] is sorted, in reverse in [before]; the inner loop
    moves the larger names one place up and puts [name] below them. *)
Fixpoint sort_insert (name : list Z) (before after : list (list Z)) : list (list Z) * list (list Z) :=
  match before with
  | [] => ([], name :: after)
  | prev :: before' =>
      if 0 <=? util_cstrCmp name prev then (before, name :: after)
      else sort_insert name before' (prev :: after)
  end.

Fixpoint sort_loop (done rest : list (list Z)) : list (list Z) :=
  match rest with
  | [] => done
  | name :: rest' => let '(before, after) := sort_insert name (rev done) [] in sort_loop (rev before ++ after) rest'
  end.

Definition sortNames (names : list (list Z)) : list (list Z) := sort_loop (firstn 1 names) (skipn 1 names).

(** ** Records *)

(** [for (i = 0; i < n; ++i) buffer[off + n - 1 - i] = octalTable[(x >> 3 * i) & 7]] *)
Definition put_octal (b : list Z) (off n : nat) (x : Z) : list Z :=
  fold_left (fun b i => set b (off + (n - 1) - i) (get octalTable (Z.to_nat ((x >> (3 * Z.of_nat i)) & 7)))) (seq 0 n) b.

Definition writeRecord_header (t : tar) (name : list Z) (nameLen : nat) (typeflag fileSize : Z) : list Z :=
  let b := mem_copy (buffer t) tar_OFFSET_NAME (firstn nameLen name) in
  let b := mem_set b (tar_OFFSET_NAME + nameLen) (tar_OFFSET_PREFIX - (tar_OFFSET_NAME + nameLen)) 0 in
  let b := mem_copy b tar_OFFSET_PREFIX (firstn (prefixLen t) (prefix t)) in
  let b := mem_set b (tar_OFFSET_PREFIX + prefixLen t) (tar_RECORD_SIZE - (tar_OFFSET_PREFIX + prefixLen t)) 0 in
  let b := mem_copy b tar_OFFSET_MODE (str "0000777") in
  let b := put_octal b tar_OFFSET_SIZE 11 fileSize in
  let b := mem_copy b tar_OFFSET_MTIME (str "00000000000") in
  let b := mem_copy b tar_OFFSET_CHKSUM (str "        ") in
  let b := set b tar_OFFSET_TYPEFLAG typeflag in
  let b := mem_copy b tar_OFFSET_MAGIC (str "ustar") in
  let b := mem_copy b tar_OFFSET_VERSION (str "00") in
  let checksum := fold_left Z.add (firstn tar_RECORD_SIZE b) 0 in
  put_octal b tar_OFFSET_CHKSUM 7 checksum.

Section Records.
Context {world : Type} `{TarPlatform world}.

(** The content loop: [totalWritten], or the error returned. *)
Fixpoint writeRecord_content (fuel : nat) (w : world) (b : list Z) (fileSize totalWritten : Z)
  : world * list Z * option (Z + Z) :=
  match fuel with
  | O => (w, b, None)
  | S fuel' =>
      let '(w, numRead, data) := readIntoBuffer w in
      let b := mem_copy b 0 data in
      if numRead <=? 0 then
        if numRead <? 0 then (w, b, Some (inr (-3)))
        else if negb (totalWritten =? fileSize) then (w, b, Some (inr (-4)))
        else (w, b, Some (inl totalWritten))
      else
        let '(w, status) := writeBuffer w (firstn (Z.to_nat numRead) b) in
        if status <? 0 then (w, b, Some (inr (-5)))
        else writeRecord_content fuel' w b fileSize (totalWritten + numRead)
  end.

Definition writeRecord (fuel : nat) (t : tar) (w : world) (name : list Z) (nameLen : nat) (fileSize : Z)
  : tar * world * option Z :=
  if (tar_MAX_NAME_LEN <? nameLen)%nat || (tar_MAX_PREFIX_LEN <? prefixLen t)%nat || (tar_MAX_FILE_SIZE <? fileSize)
  then (t, w, Some (-1))
  else
    let '(typeflag, fileSize) := if fileSize <? 0 then (53, 0) else (48, fileSize) in
    let b := writeRecord_header t name nameLen typeflag fileSize in
    let '(w, status) := writeBuffer w (firstn tar_RECORD_SIZE b) in
    if status <? 0 then (set_buffer t b, w, Some (-2))
    else if fileSize =? 0 then (set_buffer t b, w, Some 0)
    else
      let '(w, b, r) := writeRecord_content fuel w b fileSize 0 in
      match r with
      | None => (set_buffer t b, w, None)
      | Some (inr e) => (set_buffer t b, w, Some e)
      | Some (inl totalWritten) =>
          let numPadBytes := Z.to_nat (math_PAD_BYTES totalWritten 512) in
          let b := mem_set b 0 numPadBytes 0 in
          let '(w, status) := writeBuffer w (firstn numPadBytes b) in
          (set_buffer t b, w, Some (if status <? 0 then -6 else 0))
      end.

Definition finaliseOutput (t : tar) (w : world) : tar * world * Z :=
  let b := mem_set (buffer t) 0 (2 * tar_RECORD_SIZE) 0 in
  let '(w, status) := writeBuffer w (firstn (2 * tar_RECORD_SIZE) b) in
  (set_buffer t b, closeOutput w, status).
End Records.

(** ** Option parsing ([argParse.h])

    [argv] is the arguments from index [argvIndex] on.  [isCase c]: the switch has a
    case for option [c]; [handle c ARG] is its body, which leaves the loop with
    [Return].  [Stop]: control is at [DONE_LABEL].  The case for ['-'] is the one both
    users have. *)
Inductive outcome (S R : Type) := Continue (s : S) | Return (r : R).
Arguments Continue {S R}. Arguments Return {S R}.

Section ArgParse.
Context {S R : Type} (isCase : Z -> bool) (handle : Z -> list Z -> S -> outcome S R).

Inductive parsed_args := Stop (argv : list (list Z)) (argvIndex curOpt : Z) (s : S) | Returned (r : R).

(** [prev]: [argv[argvIndex - 1]], which [--ARGV_INDEX] returns to. *)
Fixpoint argParse (prev argv : list (list Z)) (argvIndex curOpt : Z) (s : S) : parsed_args :=
  match argv with
  | [] => if negb (curOpt =? 0) then Stop prev (argvIndex - 1) curOpt s else Stop argv argvIndex curOpt s
  | ARG :: argv' =>
      if curOpt =? 0 then
        if negb (get ARG 0 =? 45) then Stop argv argvIndex curOpt s
        else if get ARG 1 =? 0 then argParse argv argv' (argvIndex + 1) curOpt s
        else if get ARG 1 =? 45 then
          if get ARG 2 =? 0 then Stop argv' (argvIndex + 1) curOpt s else Stop argv argvIndex 45 s
        else
          let curOpt := get ARG 1 in
          if negb (get ARG 2 =? 0) then Stop argv argvIndex curOpt s
          else argParse argv argv' (argvIndex + 1) curOpt s
      else if isCase curOpt then
        match handle curOpt ARG s with
        | Continue s => argParse argv argv' (argvIndex + 1) 0 s
        | Return r => Returned r
        end
      else Stop prev (argvIndex - 1) curOpt s
  end.
End ArgParse.
Arguments Stop {S R}. Arguments Returned {S R}.

(** ** The tool *)

Definition util_INT32_MAX_CHARS : nat := 11.

(** The text that [hc_PREPEND_STR] and [util_intToStr] build backwards at the end of an
    array of [n] bytes, from the last part to the first. *)
Inductive part := PStr (s : list Z) | PInt (x : Z).

Definition print_part (r : list Z * nat) (p : part) : list Z * nat :=
  let '(buf, pos) := r in
  match p with
  | PStr s => (mem_copy buf (pos - List.length s) s, (pos - List.length s)%nat)
  | PInt x => util_intToStr buf pos x
  end.

Definition print_parts (n : nat) (parts : list part) : list Z :=
  let '(buf, pos) := fold_left print_part parts (repeat 0 n, n) in skipn pos buf.

Definition debug_printNum_text (msg : string) (num : Z) : list Z :=
  str msg ++ print_parts (2 + 20 + 2) [PStr (str ")" ++ [10]); PInt num; PStr (str " (")].

Section Run.
Context {world : Type} `{TarPlatform world}.
(** [add] of the platform; [fuel] bounds the content loop of [writeRecord]. *)
Context (add : tar -> world -> list Z -> tar * world * option Z) (fuel : nat).
Abbreviation state := (tar * world * bool)%type.

Definition print_line (w : world) (msg : string) : world := debug_print w (str msg ++ [10]).

(** [None]: the copying of a file ran out of fuel. *)
Definition run_option (c : Z) (ARG : list Z) (s : state) : outcome state (tar * world * option Z) :=
  let '(t, w, outputOpen) := s in
  if c =? 111 then (* 'o' *)
    let '(t, w) := if outputOpen then let '(t, w, _) := finaliseOutput t w in (t, w) else (t, w) in
    let '(w, status) := openOutput w ARG in
    if status <? 0 then Return (t, debug_print w (debug_printNum_text "Failed to open output" status), Some (-1))
    else Continue (t, w, true)
  else if c =? 97 then (* 'a' *)
    if negb outputOpen then Return (t, print_line w "No output opened", Some (-1))
    else match add t w ARG with
         | (t, w, None) => Return (t, w, None)
         | (t, w, Some status) =>
             if status <? 0 then Return (t, debug_print w (debug_printNum_text "Failed to add directory contents" status), Some (-1))
             else Continue (t, w, outputOpen)
         end
  else if c =? 100 then (* 'd' *)
    if negb outputOpen then Return (t, print_line w "No output opened", Some (-1))
    else
      let nameLen := validateName ARG (Z.of_nat tar_MAX_NAME_LEN) in
      if nameLen <? 0 then Return (t, print_line w "Invalid name", Some (-1))
      else match writeRecord fuel t w ARG (Z.to_nat nameLen) (-1) with
           | (t, w, None) => Return (t, w, None)
           | (t, w, Some status) =>
               if status <? 0 then Return (t, print_line w "Failed to create directory", Some (-1))
               else Continue (t, w, outputOpen)
           end
  else (* 'p' *)
    let len := util_cstrLen ARG in
    if (List.length (prefix t) <? len)%nat then Return (t, print_line w "Invalid prefix", Some (-1))
    else Continue (Tar (buffer t) (mem_copy (prefix t) 0 (firstn len ARG)) len, w, outputOpen).

Definition run_isOption (c : Z) : bool := (c =? 111) || (c =? 97) || (c =? 100) || (c =? 112).

Definition run (t : tar) (w : world) (argv : list (list Z)) : tar * world * option Z :=
  match argParse run_isOption run_option [] (skipn 1 argv) 1 0 (t, w, false) with
  | Returned r => r
  | Stop argv argvIndex curOpt (t, w, outputOpen) =>
      if negb (curOpt =? 0) then
        (t, debug_print w (print_parts (16 + 1 + 14 + util_INT32_MAX_CHARS + 1)
              [PStr [10]; PInt argvIndex; PStr (str "` at position "); PStr [curOpt]; PStr (str "Invalid option `")]), Some (-1))
      else match argv with
           | _ :: _ => (t, print_line w "Too many arguments", Some (-1))
           | [] => if outputOpen then let '(t, w, status) := finaliseOutput t w in (t, w, Some status) else (t, w, Some 0)
           end
  end.

Definition start (init : world -> world * Z) (deinit : world -> world) (w : world) (argv : list (list Z)) : world * option Z :=
  let t := Tar (repeat 0 buffer_size) (repeat 0 prefix_size) 0 in
  let '(w, status) := init w in
  if status <? 0 then (w, Some 1)
  else match run t w argv with
       | (_, w, None) => (w, None)
       | (_, w, Some status) =>
           if status <? 0 then
             (print_line w "Usage: tar [-o OUTPUT_FILE | -p PREFIX | -d DIRECTORY_NAME | -a DIRECTORY_PATH]...", Some 1)
           else (deinit w, Some 0)
       end.
End Run.

(** ** The ustar format *)
Module Ustar.

(** A field of [n] bytes, padded with zeroes. *)
Definition field (n : nat) (s : list Z) : list Z := s ++ repeat 0 (n - length s).

(** The [n] octal digits of [x], the most significant one first. *)
Definition octal (n : nat) (x : Z) : list Z := map (fun i => 48 + x / 8 ^ Z.of_nat i mod 8) (rev (seq 0 n)).

Definition with_chksum (chksum name prefix : list Z) (typeflag size : Z) : list Z :=
  field 100 name ++ field 8 (str "0000777") ++ repeat 0 16 (* uid, gid *) ++ octal 11 size ++ [0] ++
  field 12 (octal 11 0) (* mtime *) ++ chksum ++ [typeflag] ++ repeat 0 100 (* linkname *) ++
  field 6 (str "ustar") ++ str "00" ++ repeat 0 80 (* uname, gname, devmajor, devminor *) ++
  field 155 prefix ++ repeat 0 12.

(** The checksum is the sum of the header's bytes with the checksum field blank. *)
Definition sum (l : list Z) : Z := fold_right Z.add 0 l.

Definition header (name prefix : list Z) (typeflag size : Z) : list Z :=
  with_chksum (octal 7 (sum (with_chksum (repeat 32 8) name prefix typeflag size)) ++ [32]) name prefix typeflag size.

(** An archived file ([Some content]) or directory. *)
Record entry := Entry { dir : list Z; name : list Z; content : option (list Z) }.

Definition record (e : entry) : list Z :=
  match content e with
  | None => header (name e) (dir e) 53 0
  | Some data =>
      header (name e) (dir e) 48 (Z.of_nat (length data)) ++ data ++
      repeat 0 (Z.to_nat ((- Z.of_nat (length data)) mod 512))
  end.

Definition archive (es : list entry) : list Z := concat (map record es) ++ repeat 0 1024.
End Ustar.
Import Ustar.

(** ** Headers *)

Lemma mem_copy_splice (p o q s : list Z) off : off = length p -> length s = length o ->
  mem_copy (p ++ o ++ q) off s = p ++ s ++ q.
Proof.
  intros -> Hs. rewrite mem_copy_eq by lens.
  rewrite firstn_app, firstn_all2, Nat.sub_diag, firstn_O, app_nil_r by lia. do 2 f_equal.
  rewrite Hs, <- length_app, app_assoc, skipn_app, skipn_all2, Nat.sub_diag by lia. reflexivity.
Qed.

Lemma set_app_r (p q : list Z) i v : set (p ++ q) (length p + i) v = p ++ set q i v.
Proof. induction p as [|x p IH]; [reflexivity|]. cbn [app length Nat.add set]. now rewrite IH. Qed.

Lemma set_splice (p q : list Z) o v off : off = length p -> set (p ++ o :: q) off v = p ++ v :: q.
Proof. intros ->. now rewrite <- (Nat.add_0_r (length p)), set_app_r. Qed.

Lemma octal_digit x i : get octalTable (Z.to_nat ((x >> (3 * Z.of_nat i)) & 7)) = 48 + x / 8 ^ Z.of_nat i mod 8.
Proof.
  rewrite (land_mask 3), shiftr_div by (reflexivity || lia).
  rewrite Z.pow_mul_r by lia. change (2 ^ 3) with 8. set (d := x / 8 ^ Z.of_nat i).
  pose proof (Z.mod_pos_bound d 8 ltac:(lia)) as Hd. set (r := d mod 8) in *. clearbody r. clear d.
  replace (48 + r) with (nth (Z.to_nat r) [48; 49; 50; 51; 52; 53; 54; 55] 0); [reflexivity|].
  assert (r = 0 \/ r = 1 \/ r = 2 \/ r = 3 \/ r = 4 \/ r = 5 \/ r = 6 \/ r = 7) as Hr by lia.
  repeat destruct Hr as [->|Hr]; subst; reflexivity.
Qed.

Lemma length_octal n x : length (octal n x) = n.
Proof. unfold octal. lens. Qed.

Lemma length_field n s : (length s <= n)%nat -> length (field n s) = n.
Proof. unfold field. lens. Qed.

Lemma firstn_succ (l : list Z) n : (n < length l)%nat -> firstn (S n) l = firstn n l ++ [get l n].
Proof.
  revert n. induction l as [|x l IH]; intros [|n] Hn; cbn [length] in Hn; try lia; [reflexivity|].
  cbn [firstn app]. f_equal. apply IH. lia.
Qed.

Lemma put_octal_splice (p o q : list Z) off n x : off = length p -> length o = n ->
  put_octal (p ++ o ++ q) off n x = p ++ octal n x ++ q.
Proof.
  intros -> Ho. unfold put_octal, octal.
  assert (forall k, (k <= n)%nat ->
    fold_left (fun b i => set b (length p + (n - 1) - i) (get octalTable (Z.to_nat ((x >> (3 * Z.of_nat i)) & 7)))) (seq 0 k) (p ++ o ++ q)
    = p ++ firstn (n - k) o ++ map (fun i => 48 + x / 8 ^ Z.of_nat i mod 8) (rev (seq 0 k)) ++ q) as H.
  { induction k as [|k IH]; intros Hk.
    - cbn [seq fold_left rev map app]. now rewrite firstn_all2 by lia.
    - rewrite seq_S, fold_left_app, IH by lia. cbn [fold_left Nat.add]. rewrite octal_digit.
      replace (length p + (n - 1) - k)%nat with (length p + (n - 1 - k))%nat by lia. rewrite set_app_r. f_equal.
      rewrite rev_app_distr. cbn [rev app map].
      replace (n - k)%nat with (S (n - 1 - k)) by lia. replace (n - S k)%nat with (n - 1 - k)%nat by lia.
      rewrite (firstn_succ o) by lia. rewrite <- !app_assoc. cbn [app]. apply set_splice. lens. }
  rewrite H, Nat.sub_diag by lia. reflexivity.
Qed.

(** A buffer as the concatenation of its fields: a copy that fills field [k] replaces it. *)
Lemma concat_split_at (segs : list (list Z)) k : (k < length segs)%nat ->
  concat segs = concat (firstn k segs) ++ nth k segs [] ++ concat (skipn (S k) segs) /\
  forall s : list Z, concat (set segs k s) = concat (firstn k segs) ++ s ++ concat (skipn (S k) segs).
Proof.
  revert k. induction segs as [|x segs IH]; intros [|k] Hk; cbn [length] in Hk; try lia; [split; reflexivity|].
  destruct (IH k ltac:(lia)) as [IH1 IH2].
  split; [|intros s]; cbn [List.concat set firstn skipn nth]; rewrite <- app_assoc; f_equal; auto.
Qed.

Lemma mem_copy_seg (segs : list (list Z)) k off s : (k < length segs)%nat -> off = length (concat (firstn k segs)) ->
  length s = length (nth k segs []) -> mem_copy (concat segs) off s = concat (set segs k s).
Proof.
  intros Hk Hoff Hs. destruct (concat_split_at segs k Hk) as [-> ->]. now apply mem_copy_splice.
Qed.

Lemma put_octal_seg (segs : list (list Z)) k off n x : (k < length segs)%nat -> off = length (concat (firstn k segs)) ->
  n = length (nth k segs []) -> put_octal (concat segs) off n x = concat (set segs k (octal n x)).
Proof.
  intros Hk Hoff Hs. destruct (concat_split_at segs k Hk) as [-> ->]. now apply put_octal_splice.
Qed.

Lemma set_seg (segs : list (list Z)) k off v : (k < length segs)%nat -> off = length (concat (firstn k segs)) ->
  length (nth k segs []) = 1%nat -> set (concat segs) off v = concat (set segs k [v]).
Proof.
  intros Hk Hoff Hs. destruct (concat_split_at segs k Hk) as [-> ->].
  destruct (nth k segs []) as [|o [|? ?]]; cbn in Hs; try lia. now apply set_splice.
Qed.

Lemma zeroes_split n m : (n <= m)%nat -> repeat 0 m = repeat 0 n ++ repeat 0 (m - n).
Proof. intros. rewrite <- repeat_app. f_equal. lia. Qed.

(** The name and the prefix copied, everything else zero. *)
Lemma header_names t nm nl : (512 <= length (buffer t))%nat -> (nl <= 100)%nat -> (nl <= length nm)%nat ->
  (prefixLen t <= 155)%nat -> (prefixLen t <= length (prefix t))%nat ->
  mem_set (mem_copy (mem_set (mem_copy (buffer t) 0 (firstn nl nm)) (0 + nl) (345 - (0 + nl)) 0)
    345 (firstn (prefixLen t) (prefix t))) (345 + prefixLen t) (512 - (345 + prefixLen t)) 0
  = concat [firstn nl nm; repeat 0 (345 - nl); firstn (prefixLen t) (prefix t); repeat 0 (167 - prefixLen t); skipn 512 (buffer t)].
Proof.
  intros Hb Hn Hnm Hp Hpl. set (b := buffer t) in *. set (pl := prefixLen t) in *.
  assert (b = concat [firstn nl b; firstn (345 - nl) (skipn nl b); firstn pl (skipn 345 b);
                      firstn (167 - pl) (skipn (345 + pl) b); skipn 512 b]) as E.
  { cbn [List.concat]. rewrite app_nil_r.
    replace (skipn 512 b) with (skipn (167 - pl) (skipn (345 + pl) b)) by (rewrite skipn_skipn; f_equal; lia).
    rewrite firstn_skipn. replace (skipn (345 + pl) b) with (skipn pl (skipn 345 b)) by (rewrite skipn_skipn; f_equal; lia).
    rewrite firstn_skipn. replace (skipn 345 b) with (skipn (345 - nl) (skipn nl b)) by (rewrite skipn_skipn; f_equal; lia).
    now rewrite !firstn_skipn. }
  rewrite E at 1. unfold mem_set.
  rewrite (mem_copy_seg _ 0) by (cbn; lens). cbn [set].
  rewrite (mem_copy_seg _ 1) by (cbn [firstn List.concat nth length app]; lens). cbn [set].
  rewrite (mem_copy_seg _ 2) by (cbn [firstn List.concat nth length app]; lens). cbn [set].
  rewrite (mem_copy_seg _ 3) by (cbn [firstn List.concat nth length app]; lens). cbn [set].
  reflexivity.
Qed.

Lemma zeroes_fields n : (n <= 100)%nat -> repeat 0 (345 - n) =
  repeat 0 (100 - n) ++ repeat 0 7 ++ [0] ++ repeat 0 16 ++ repeat 0 11 ++ [0] ++ repeat 0 11 ++ [0] ++
  repeat 0 7 ++ [0] ++ [0] ++ repeat 0 100 ++ repeat 0 5 ++ [0] ++ repeat 0 2 ++ repeat 0 80.
Proof. intros. rewrite (zeroes_split (100 - n)) by lia. f_equal. replace (345 - n - (100 - n))%nat with 245%nat by lia. reflexivity. Qed.

Lemma zeroes_tail n : (n <= 155)%nat -> repeat 0 (167 - n) = repeat 0 (155 - n) ++ repeat 0 12.
Proof. intros. rewrite (zeroes_split (155 - n)) by lia. do 2 f_equal. lia. Qed.

Lemma fold_sum l : fold_left Z.add l 0 = sum l.
Proof. apply fold_symmetric; lia. Qed.

Lemma length_with_chksum chk nm pre tf size : length chk = 8%nat -> (length nm <= 100)%nat -> (length pre <= 155)%nat ->
  length (with_chksum chk nm pre tf size) = 512%nat.
Proof.
  intros Hc Hn Hp. unfold with_chksum. rewrite !length_app, !length_octal, Hc, !length_field by (cbn; lia || apply Nat.le_refl).
  reflexivity.
Qed.

Lemma length_header nm pre tf size : (length nm <= 100)%nat -> (length pre <= 155)%nat -> length (header nm pre tf size) = 512%nat.
Proof.
  intros. unfold header. apply length_with_chksum; [|assumption|assumption].
  rewrite length_app, length_octal. reflexivity.
Qed.

Ltac seg tac k := rewrite (tac _ k) by (cbn [firstn List.concat nth List.length app]; lens); cbn [set].

Lemma writeRecord_header_spec t nm nl tf size : (512 <= length (buffer t))%nat -> (nl <= 100)%nat -> (nl <= length nm)%nat ->
  (prefixLen t <= 155)%nat -> (prefixLen t <= length (prefix t))%nat ->
  writeRecord_header t nm nl tf size =
  header (firstn nl nm) (firstn (prefixLen t) (prefix t)) tf size ++ skipn 512 (buffer t).
Proof.
  intros Hb Hn Hnm Hp Hpl. unfold writeRecord_header.
  unfold tar_OFFSET_NAME, tar_OFFSET_PREFIX, tar_RECORD_SIZE.
  rewrite header_names by assumption. cbv zeta.
  set (P := firstn (prefixLen t) (prefix t)). set (N := firstn nl nm). set (rest := skipn 512 (buffer t)).
  assert (length P = prefixLen t) as HP by (unfold P; lens). assert (length N = nl) as HN by (unfold N; lens).
  replace (concat _) with (concat [N; repeat 0 (100 - nl); repeat 0 7; [0]; repeat 0 16; repeat 0 11; [0]; repeat 0 11; [0];
    repeat 0 8; [0]; repeat 0 100; repeat 0 5; [0]; repeat 0 2; repeat 0 80; P; repeat 0 (155 - prefixLen t); repeat 0 12; rest]).
  2: { cbn [List.concat]. rewrite (zeroes_fields nl), (zeroes_tail (prefixLen t)) by assumption. rewrite <- !app_assoc. reflexivity. }
  unfold tar_OFFSET_MODE, tar_OFFSET_SIZE, tar_OFFSET_MTIME, tar_OFFSET_CHKSUM, tar_OFFSET_TYPEFLAG, tar_OFFSET_MAGIC, tar_OFFSET_VERSION.
  clearbody N P rest.
  seg mem_copy_seg 2%nat. seg put_octal_seg 5%nat. seg mem_copy_seg 7%nat. seg mem_copy_seg 9%nat.
  seg set_seg 10%nat. seg mem_copy_seg 12%nat. seg mem_copy_seg 14%nat.
  match goal with |- put_octal (concat ?l) _ _ _ = _ => set (segs := l) end.
  assert (concat segs = with_chksum (repeat 32 8) N P tf size ++ rest) as Hsegs.
  { unfold segs, with_chksum, field. rewrite HN, HP. cbn [List.concat]. rewrite <- !app_assoc, app_nil_r. reflexivity. }
  assert (firstn 512 (concat segs) = with_chksum (repeat 32 8) N P tf size) as ->.
  { rewrite Hsegs. rewrite firstn_app_l, firstn_all2 by (rewrite length_with_chksum by lens; lens). reflexivity. }
  rewrite fold_sum. replace (concat segs) with (concat (firstn 9 segs ++ repeat 32 7 :: [32] :: skipn 10 segs)) by reflexivity.
  unfold segs. cbn [firstn skipn app]. seg put_octal_seg 9%nat.
  unfold header. generalize (sum (with_chksum (repeat 32 8) N P tf size)). intros c.
  unfold with_chksum, field. rewrite HN, HP. cbn [List.concat]. rewrite <- !app_assoc, app_nil_r. reflexivity.
Qed.

(** ** What the platform promises *)

(** [sink w]: the bytes of the current output file; [source w]: what is left to read of the
    current input file; [reliable reads w]: no later write, and with [reads] no later read,
    fails. *)
Class TarLaws (world : Type) `{TarPlatform world} := {
  sink : world -> list Z;
  source : world -> list Z;
  reliable : bool -> world -> Prop;
  write_sink : forall w b, 0 <= snd (writeBuffer w b) -> sink (fst (writeBuffer w b)) = sink w ++ b;
  write_source : forall w b, source (fst (writeBuffer w b)) = source w;
  write_reliable : forall m w b, reliable m w -> 0 <= snd (writeBuffer w b) /\ reliable m (fst (writeBuffer w b));
  read_sink : forall w, sink (fst (fst (readIntoBuffer w))) = sink w;
  read_data : forall w, let '(w', r, data) := readIntoBuffer w in
    Z.of_nat (length data) = Z.max 0 r /\ r <= 65536 /\
    (0 <= r -> source w = data ++ source w' /\ (r = 0 -> source w = []));
  read_reliable : forall w, reliable true w ->
    0 <= snd (fst (readIntoBuffer w)) /\ reliable true (fst (fst (readIntoBuffer w))) }.

(** The arrays have their declared sizes. *)
Definition tar_ok (t : tar) : Prop :=
  length (buffer t) = buffer_size /\ length (prefix t) = prefix_size /\ (prefixLen t <= prefix_size)%nat.

(** The current directory inside the archive. *)
Definition cwd (t : tar) : list Z := firstn (prefixLen t) (prefix t).

Section RecordSpec.
Context {world : Type} `{TarLaws world}.

Lemma writeRecord_content_spec fuel : forall w b fs tot, length b = buffer_size -> (length (source w) < fuel)%nat ->
  let '(w', b', r) := writeRecord_content fuel w b fs tot in
  length b' = buffer_size /\ exists r', r = Some r' /\
  (forall n, r' = inl n -> n = fs /\ n = tot + Z.of_nat (length (source w)) /\ sink w' = sink w ++ source w) /\
  (forall e, r' = inr e -> -5 <= e <= -3) /\
  (reliable true w -> reliable true w' /\ r' = if tot + Z.of_nat (length (source w)) =? fs then inl fs else inr (-4)).
Proof.
  induction fuel as [|fuel IH]; intros w b fs tot Hb Hf; [lia|]. cbn [writeRecord_content].
  pose proof (read_data w) as Hd. pose proof (read_sink w) as Hs. pose proof (read_reliable w) as Hr.
  destruct (readIntoBuffer w) as [[w1 r] data]. cbn [fst snd] in *. destruct Hd as (Hlen & Hle & Hd).
  assert (length data <= buffer_size)%nat as Hdb by (unfold buffer_size; lia).
  assert (length (mem_copy b 0 data) = buffer_size) as Hb1 by (rewrite length_mem_copy; lia).
  destruct (Z.leb_spec r 0) as [Hr0|Hr0].
  - destruct (Z.ltb_spec r 0) as [Hneg|Hzero].
    + split; [assumption|]. exists (inr (-3)). split; [reflexivity|].
      split; [discriminate|]. split; [intros e [= <-]; lia|]. intros Hrel. specialize (Hr Hrel). lia.
    + assert (r = 0) as -> by lia. destruct (Hd ltac:(lia)) as [_ He]. rewrite (He eq_refl). cbn [List.length].
      rewrite Z.add_0_r, app_nil_r. destruct (Z.eqb_spec tot fs) as [E|E]; cbn [negb];
        (split; [assumption|]; eexists; split; [reflexivity|]; split; [intros ? ?; repeat split; congruence|];
         split; [intros ? [=]; lia|intros HR; split; [apply Hr, HR|congruence]]).
  - destruct (Hd ltac:(lia)) as [Hsrc _]. clear Hd.
    replace (firstn (Z.to_nat r) (mem_copy b 0 data)) with data.
    2: { replace (Z.to_nat r) with (0 + length data)%nat by lia. now rewrite firstn_mem_copy by lia. }
    pose proof (write_sink w1 data) as Hws. pose proof (write_source w1 data) as Hwo. pose proof (write_reliable true w1 data) as Hwr.
    destruct (writeBuffer w1 data) as [w2 status]. cbn [fst snd] in *.
    destruct (Z.ltb_spec status 0) as [Hneg|Hpos].
    + split; [assumption|]. exists (inr (-5)). split; [reflexivity|]. split; [discriminate|].
      split; [intros e [= <-]; lia|]. intros Hrel. destruct (Hwr (proj2 (Hr Hrel))). lia.
    + specialize (IH w2 (mem_copy b 0 data) fs (tot + r) Hb1). rewrite Hwo in IH.
      rewrite Hsrc, length_app in Hf |- *. specialize (IH ltac:(lia)).
      destruct (writeRecord_content fuel w2 _ fs (tot + r)) as [[w' b'] r'].
      destruct IH as (Hb' & r'' & -> & Hok & Herr & Hrel). split; [assumption|]. exists r''. split; [reflexivity|].
      replace (tot + Z.of_nat (length data + length (source w1))) with (tot + r + Z.of_nat (length (source w1))) by lia.
      split; [|split; [assumption|intros HR; apply Hrel, Hwr, Hr, HR]].
      intros n En. destruct (Hok n En) as (-> & E1 & E2). repeat split; [assumption|].
      rewrite E2, (Hws Hpos), Hs, <- app_assoc. reflexivity.
Qed.

(** The entry a record describes: a directory when [fileSize] is negative, otherwise the
    first [fileSize] bytes of the current file. *)
Definition entry_of (t : tar) (w : world) (nm : list Z) (nl : nat) (fileSize : Z) : entry :=
  Entry (cwd t) (firstn nl nm)
    (if fileSize <? 0 then None else Some (firstn (Z.to_nat fileSize) (source w))).

(** [writeRecord] refuses the record. *)
Definition too_long (t : tar) (nl : nat) (fileSize : Z) : bool :=
  (100 <? nl)%nat || (155 <? prefixLen t)%nat || (8 ^ 11 - 1 <? fileSize).

Lemma header_splits t nm nl tf size : tar_ok t -> (nl <= length nm)%nat -> (nl <= 100)%nat -> (prefixLen t <= 155)%nat ->
  let b := writeRecord_header t nm nl tf size in
  firstn tar_RECORD_SIZE b = header (firstn nl nm) (cwd t) tf size /\ length b = buffer_size.
Proof.
  intros (Hb & Hp & Hpl) Hnm Hn Hpp b. unfold b.
  assert (512 <= buffer_size)%nat by (unfold buffer_size; lia).
  assert (prefixLen t <= length (prefix t))%nat by (rewrite Hp; assumption).
  rewrite writeRecord_header_spec by (assumption || lia). fold (cwd t).
  assert (length (header (firstn nl nm) (cwd t) tf size) = 512%nat) as Hh.
  { apply length_header; unfold cwd; rewrite length_firstn; lia. }
  split; [|rewrite length_app, Hh, length_skipn; lia].
  unfold tar_RECORD_SIZE. rewrite firstn_app_l, firstn_all2 by lia. reflexivity.
Qed.

Lemma pad_mod n : math_PAD_BYTES n 512 = (- n) mod 512.
Proof. unfold math_PAD_BYTES. apply (land_mask 9); reflexivity || lia. Qed.

Lemma firstn_zeroed (b : list Z) n : (n <= length b)%nat -> firstn n (mem_set b 0 n 0) = repeat 0 n.
Proof.
  intros Hn. unfold mem_set. pose proof (firstn_mem_copy b 0 (repeat 0 n)) as E. rewrite repeat_length in E.
  cbn [Nat.add firstn app] in E. now apply E.
Qed.

Lemma length_mem_set (b : list Z) off n v : (off + n <= length b)%nat -> length (mem_set b off n v) = length b.
Proof. intros. unfold mem_set. now rewrite length_mem_copy by lens. Qed.

(** Whatever the platform calls keep, [writeRecord] keeps. *)
Lemma writeRecord_keeps (K : world -> Prop) :
  (forall w b, K w -> K (fst (writeBuffer w b))) -> (forall w, K w -> K (fst (fst (readIntoBuffer w)))) ->
  forall fuel t w nm nl fs, K w -> K (snd (fst (writeRecord fuel t w nm nl fs))).
Proof.
  intros Hw Hr fuel t w nm nl fs HK. unfold writeRecord.
  destruct (_ || _); [exact HK|]. destruct (if fs <? 0 then _ else _) as [tf size]. cbv zeta.
  set (b := firstn _ _). specialize (Hw w b HK) as HK1. destruct (writeBuffer w b) as [w1 st]. cbn [fst] in HK1.
  destruct (st <? 0); [exact HK1|]. destruct (size =? 0); [exact HK1|].
  assert (forall fuel w b tot, K w -> K (fst (fst (writeRecord_content fuel w b size tot)))) as Hc.
  { clear - Hw Hr. induction fuel as [|fuel IH]; intros w b tot HK; [exact HK|]. cbn [writeRecord_content].
    specialize (Hr w HK). destruct (readIntoBuffer w) as [[w1 r] data]. cbn [fst] in Hr.
    destruct (r <=? 0); [destruct (r <? 0); [exact Hr|]; now destruct (negb _)|].
    specialize (Hw w1 (firstn (Z.to_nat r) (mem_copy b 0 data)) Hr). destruct (writeBuffer w1 _) as [w2 st].
    destruct (st <? 0); [exact Hw|]. apply IH, Hw. }
  specialize (Hc fuel w1 (writeRecord_header t nm nl tf size) 0 HK1).
  destruct (writeRecord_content fuel w1 _ size 0) as [[w2 b2] [[tot|e]|]]; cbn [fst snd] in *; [|exact Hc|exact Hc].
  specialize (Hw w2 (firstn (Z.to_nat (math_PAD_BYTES tot 512)) (mem_set b2 0 (Z.to_nat (math_PAD_BYTES tot 512)) 0)) Hc).
  destruct (writeBuffer w2 _) as [w3 st3]. exact Hw.
Qed.

Lemma writeRecord_spec fuel t w nm nl fs : tar_ok t -> (nl <= length nm)%nat -> (0 < fs -> (length (source w) < fuel)%nat) ->
  let '(t', w', r) := writeRecord fuel t w nm nl fs in
  tar_ok t' /\ prefix t' = prefix t /\ prefixLen t' = prefixLen t /\ exists code, r = Some code /\
  (if too_long t nl fs then code = -1 /\ w' = w
   else (code <> -1 /\ code <= 0) /\
     (code = 0 -> sink w' = sink w ++ record (entry_of t w nm nl fs) /\ (0 < fs -> Z.of_nat (length (source w)) = fs)) /\
     (reliable (0 <? fs) w -> reliable (0 <? fs) w' /\
        code = if (0 <? fs) && negb (Z.of_nat (length (source w)) =? fs) then -4 else 0)).
Proof.
  intros Hok Hnm Hf. unfold writeRecord. fold (too_long t nl fs).
  change ((tar_MAX_NAME_LEN <? nl)%nat || (tar_MAX_PREFIX_LEN <? prefixLen t)%nat || (tar_MAX_FILE_SIZE <? fs)) with (too_long t nl fs).
  destruct (too_long t nl fs) eqn:Htl; [repeat split; try apply Hok; eauto|].
  apply orb_false_iff in Htl as [Htl Hfs]. apply orb_false_iff in Htl as [Hnl Hpl].
  apply Nat.ltb_ge in Hnl, Hpl. apply Z.ltb_ge in Hfs.
  set (tf := if fs <? 0 then 53 else 48). set (size := Z.max 0 fs).
  replace (if fs <? 0 then (53, 0) else (48, fs)) with (tf, size) by (unfold tf, size; destruct (Z.ltb_spec fs 0); f_equal; lia).
  destruct (header_splits t nm nl tf size Hok Hnm Hnl Hpl) as [Hh Hb]. cbv zeta. rewrite Hh.
  pose proof (write_sink w (header (firstn nl nm) (cwd t) tf size)) as Hws. pose proof (write_source w (header (firstn nl nm) (cwd t) tf size)) as Hwo.
  pose proof (write_reliable (0 <? fs) w (header (firstn nl nm) (cwd t) tf size)) as Hwr.
  destruct (writeBuffer w _) as [w1 status]. cbn [fst snd] in *.
  destruct Hok as (_ & Hpre & Hplen).
  destruct (Z.ltb_spec status 0) as [Hneg|Hpos].
  { repeat split; try assumption. exists (-2). split; [reflexivity|]. split; [lia|]. split; [lia|]. intros Hrel. specialize (Hwr Hrel). lia. }
  specialize (Hws Hpos). destruct (Z.eqb_spec size 0) as [Hs0|Hs0].
  { repeat split; try assumption. exists 0. split; [reflexivity|]. split; [lia|]. split.
    - intros _. split; [|lia]. rewrite Hws. f_equal. unfold entry_of, record. cbn [content name dir].
      unfold tf, size in *. destruct (Z.ltb_spec fs 0); [now rewrite Z.max_l by lia|].
      replace fs with 0 by lia. symmetry. apply app_nil_r.
    - intros Hrel. split; [apply Hwr, Hrel|]. rewrite (proj2 (Z.ltb_ge 0 fs)) by lia. reflexivity. }
  assert (size = fs /\ 0 < fs) as [Es Hfpos] by (clear - Hs0; unfold size in *; lia).
  pose proof (writeRecord_content_spec fuel w1 _ size 0 Hb ltac:(rewrite Hwo; auto)) as Hc.
  destruct (writeRecord_content fuel w1 _ size 0) as [[w2 b2] r]. destruct Hc as (Hb2 & r' & -> & Hok & Herr & Hrel).
  rewrite (proj2 (Z.ltb_lt 0 fs)) in * by lia. cbn [andb]. rewrite Hwo, Z.add_0_l, Es in *.
  destruct r' as [n|e].
  - destruct (Hok n eq_refl) as (-> & E1 & E2). rewrite pad_mod.
    assert (0 <= (- fs) mod 512 < 512) as Hmod by (apply Z.mod_pos_bound; lia).
    assert (Z.to_nat ((- fs) mod 512) <= length b2)%nat as Hpad by (rewrite Hb2; unfold buffer_size; lia).
    rewrite firstn_zeroed by assumption.
    pose proof (write_sink w2 (repeat 0 (Z.to_nat ((- fs) mod 512)))) as Hws2.
    pose proof (write_reliable true w2 (repeat 0 (Z.to_nat ((- fs) mod 512)))) as Hwr2.
    destruct (writeBuffer w2 _) as [w3 st3]. cbn [fst snd] in *.
    repeat split; try assumption; [cbn [set_buffer buffer]; now rewrite length_mem_set|].
    eexists; split; [reflexivity|]. split; [destruct (st3 <? 0); lia|]. split.
    + destruct (Z.ltb_spec st3 0); [lia|]. intros _. split; [|lia].
      rewrite Hws2, E2, Hws, <- !app_assoc by assumption. f_equal. unfold entry_of, record. cbn [content name dir].
      unfold tf. rewrite (proj2 (Z.ltb_ge fs 0)), (firstn_all2 (source w)) by lia.
      rewrite E1. reflexivity.
    + intros HR. destruct (Hrel (proj2 (Hwr HR))) as [HR2 _]. destruct (Hwr2 HR2). split; [assumption|].
      rewrite <- E1, Z.eqb_refl. destruct (Z.ltb_spec st3 0); [lia|reflexivity].
  - repeat split; try assumption. exists e. pose proof (Herr e eq_refl) as He. split; [reflexivity|].
    assert (reliable true w -> e = -4 /\ reliable true w2 /\ Z.of_nat (length (source w)) <> fs) as HR.
    { intros HR. destruct (Hrel (proj2 (Hwr HR))) as [HR2 E]. destruct (Z.eqb_spec (Z.of_nat (length (source w))) fs); [discriminate|].
      injection E as ->. auto. }
    split; [lia|]. split; [lia|]. intros Hr. destruct (HR Hr) as (-> & Hr2 & Hne). split; [assumption|].
    now rewrite (proj2 (Z.eqb_neq _ _) Hne).
Qed.
End RecordSpec.

(** ** Directories *)

(** The path of [nm] in the directory [d] of the archive. *)
Definition join (d nm : list Z) : list Z :=
  match d with
  | [] => nm
  | _ => d ++ 47 :: nm
  end.

Lemma leave_loop_stop p k n : get p k = 47 -> (forall j, (k < j < k + 1 + n)%nat -> get p j <> 47) ->
  leave_loop p (k + 1 + n) = k.
Proof.
  intros Hk. induction n as [|n IH]; intros Hn.
  - rewrite Nat.add_0_r, Nat.add_1_r. cbn [leave_loop]. now rewrite Hk.
  - rewrite Nat.add_succ_r. cbn [leave_loop]. rewrite (proj2 (Z.eqb_neq _ _) (Hn (k + 1 + n)%nat ltac:(lia))). apply IH. intros. apply Hn. lia.
Qed.

Lemma leave_loop_all p n : (forall j, (j < n)%nat -> get p j <> 47) -> leave_loop p n = 0%nat.
Proof.
  induction n as [|n IH]; intros Hn; [reflexivity|]. cbn [leave_loop].
  rewrite (proj2 (Z.eqb_neq _ _) (Hn n ltac:(lia))). apply IH. auto.
Qed.

Lemma get_mem_copy (p : list Z) off s i : (off + length s <= length p)%nat ->
  get (mem_copy p off s) i = if ((off <=? i) && (i <? off + length s))%nat%bool then get s (i - off) else get p i.
Proof.
  intros H. rewrite mem_copy_eq by assumption. unfold get.
  destruct (Nat.leb_spec off i) as [H1|H1]; cbn [andb].
  - rewrite app_nth2 by lens. rewrite length_firstn, Nat.min_l by lia. destruct (Nat.ltb_spec i (off + length s)).
    + rewrite app_nth1 by lia. reflexivity.
    + rewrite app_nth2, nth_skipn by lia. f_equal. lia.
  - rewrite app_nth1 by lens. now rewrite nth_firstn, (proj2 (Nat.ltb_lt i off)) by lia.
Qed.

Lemma get_In (l : list Z) i : (i < length l)%nat -> In (get l i) l.
Proof. apply nth_In. Qed.

(** Entering a directory extends the path; leaving it restores the path. *)
Section Enter.
Context (t : tar) (s : list Z).
Context (Hok : tar_ok t) (Hs : (0 < length s <= 100)%nat) (Hns : ~ In 47 s).

Ltac sizes := split; [apply Hok|split; cbn [prefix prefixLen]; unfold prefix_size, tar_MAX_PREFIX_LEN, tar_MAX_NAME_LEN; lia].

Definition entered (p : list Z) (pl : nat) : tar := Tar (buffer t) (mem_copy p pl s) (pl + length s).

Lemma no_slash p pl j : (pl + length s <= length p)%nat -> (pl <= j < pl + length s)%nat -> get (mem_copy p pl s) j <> 47.
Proof using Hns Hs.
  intros Hp Hj. rewrite get_mem_copy by lia. rewrite (proj2 (Nat.leb_le _ _)), (proj2 (Nat.ltb_lt _ _)) by lia. cbn [andb].
  intros E. apply Hns. rewrite <- E. apply nth_In. lia.
Qed.

Lemma enter_root : prefixLen t = 0%nat ->
  let t' := entered (prefix t) 0 in
  tar_ok t' /\ cwd t' = s /\ tar_ok (leaveDirectory t') /\ cwd (leaveDirectory t') = [].
Proof using Hok Hs Hns.
  intros E0 t'. pose proof Hok as (Hb & Hp & Hpl). change prefix_size with 256%nat in *.
  assert (length (mem_copy (prefix t) 0 s) = 256%nat) as Hlq by (rewrite length_mem_copy; lia).
  unfold t', entered, leaveDirectory. cbn [prefix prefixLen buffer].
  split; [sizes|]. split; [unfold cwd; cbn [prefix prefixLen]; now rewrite firstn_mem_copy by lia|]. rewrite leave_loop_all.
  - split; [sizes|reflexivity].
  - intros j Hj. apply no_slash; lia.
Qed.

Lemma enter_under : (0 < prefixLen t <= 155)%nat ->
  let t' := entered (set (prefix t) (prefixLen t) 47) (S (prefixLen t)) in
  tar_ok t' /\ cwd t' = cwd t ++ 47 :: s /\ tar_ok (leaveDirectory t') /\ cwd (leaveDirectory t') = cwd t.
Proof using Hok Hs Hns.
  intros H0 t'. pose proof Hok as (Hb & Hp & Hpl). change prefix_size with 256%nat in *.
  set (p := set (prefix t) (prefixLen t) 47) in *. assert (length p = 256%nat) as Hlp by (unfold p; rewrite length_set; lia).
  assert (length (mem_copy p (S (prefixLen t)) s) = 256%nat) as Hlq by (rewrite length_mem_copy; lia).
  assert (firstn (S (prefixLen t)) p = cwd t ++ [47]) as Hf by (unfold p, cwd; apply firstn_set_r; lia).
  assert (cwd t' = cwd t ++ 47 :: s) as Hcwd.
  { unfold cwd at 1, t', entered. cbn [prefix prefixLen]. rewrite firstn_mem_copy, Hf, <- app_assoc by lia. reflexivity. }
  unfold t', entered, leaveDirectory in *. cbn [prefix prefixLen buffer] in *. split; [sizes|]. split; [exact Hcwd|].
  replace (S (prefixLen t) + length s)%nat with (prefixLen t + 1 + length s)%nat by lia. rewrite leave_loop_stop.
  - split; [sizes|]. apply (f_equal (firstn (prefixLen t))) in Hcwd. unfold cwd at 1 in Hcwd. cbn [prefix prefixLen] in Hcwd.
    rewrite firstn_firstn, Nat.min_l in Hcwd by lia. unfold cwd at 1. cbn [prefix prefixLen]. rewrite Hcwd.
    rewrite firstn_app_l, firstn_all2 by (unfold cwd; lens). reflexivity.
  - rewrite get_mem_copy by lia. rewrite (proj2 (Nat.leb_gt _ _)) by lia. cbn [andb]. unfold p. apply get_set_eq. lia.
  - intros j Hj. apply no_slash; lia.
Qed.
End Enter.

Lemma cwd_nil t : tar_ok t -> cwd t = [] -> prefixLen t = 0%nat.
Proof.
  intros (_ & Hp & Hpl) E. apply (f_equal (@List.length Z)) in E. unfold cwd in E. rewrite length_firstn in E. cbn in E. lia.
Qed.

Lemma enterDirectory_spec t nm nl : tar_ok t -> (0 < nl <= length nm)%nat -> (nl <= 100)%nat -> (prefixLen t <= 155)%nat ->
  ~ In 47 (firstn nl nm) ->
  let '(t', r) := enterDirectory t nm nl in
  r = 0 /\ tar_ok t' /\ cwd t' = join (cwd t) (firstn nl nm) /\
  tar_ok (leaveDirectory t') /\ cwd (leaveDirectory t') = cwd t.
Proof.
  intros Hok Hnl Hn Hpp Hns. unfold enterDirectory.
  assert (length (firstn nl nm) = nl) as Hs by lens.
  destruct (Nat.ltb_spec 0 (prefixLen t)) as [H0|H0].
  - unfold tar_MAX_PREFIX_LEN. rewrite (proj2 (Nat.ltb_ge _ _)) by lia.
    destruct (enter_under t (firstn nl nm) Hok ltac:(lia) Hns ltac:(lia)) as (H1 & H2 & H3). unfold entered in *. rewrite Hs in *.
    split; [reflexivity|]. split; [exact H1|]. split; [|exact H3]. rewrite H2. unfold join.
    destruct (cwd t) eqn:E; [apply cwd_nil in E; [lia|assumption]|reflexivity].
  - destruct (enter_root t (firstn nl nm) Hok ltac:(lia) Hns ltac:(lia)) as (H1 & H2 & H3 & H4). unfold entered in *. rewrite Hs in *.
    assert (prefixLen t = 0%nat) as E0 by lia. assert (cwd t = []) as Ec by (unfold cwd; now rewrite E0).
    rewrite E0, Ec. auto.
Qed.

(** ** Sorting *)

Definition name_le (a b : list Z) : Prop := util_cstrCmp a b <= 0.

Lemma util_cstrCmp_opp a b : util_cstrCmp b a = - util_cstrCmp a b.
Proof.
  revert b. induction a as [|x a IH]; intros b; destruct b as [|y b]; cbn [util_cstrCmp get nth skipn]; try reflexivity;
    change (0 =? 0) with true; rewrite ?orb_true_r.
  - destruct (Z.eqb_spec (y - 0) 0), (Z.eqb_spec y 0), (Z.eqb_spec (0 - y) 0); cbn [negb orb]; lia.
  - destruct (Z.eqb_spec (x - 0) 0), (Z.eqb_spec x 0), (Z.eqb_spec (0 - x) 0); cbn [negb orb]; lia.
  - destruct (Z.eqb_spec (y - x) 0), (Z.eqb_spec (x - y) 0), (Z.eqb_spec x 0), (Z.eqb_spec y 0); cbn [negb orb]; try lia; apply IH.
Qed.

(** The first characters decide unless they are equal and not the terminator. *)
Lemma name_le_cons a b : name_le a b <->
  get a 0 < get b 0 \/ (get a 0 = get b 0 /\ (get a 0 = 0 \/ name_le (skipn 1 a) (skipn 1 b))).
Proof.
  unfold name_le. destruct a as [|x a]; cbn [util_cstrCmp get nth skipn].
  - rewrite orb_true_r. fold (get b 0). lia.
  - fold (get b 0). destruct (Z.eqb_spec (x - get b 0) 0), (Z.eqb_spec x 0); cbn [negb orb]; lia.
Qed.

Lemma name_le_trans a b c : name_le a b -> name_le b c -> name_le a c.
Proof.
  revert b c. induction a as [|x a IH]; intros b c Hab Hbc; apply name_le_cons in Hab; apply name_le_cons in Hbc; apply name_le_cons.
  - change (get [] 0) with 0 in *. lia.
  - cbn [skipn] in *. destruct Hab as [?|[E1 Hab]]; [lia|]. destruct Hbc as [?|[E2 Hbc]]; [lia|]. right. split; [lia|].
    destruct Hab as [?|Hab]; [lia|]. destruct Hbc as [?|Hbc]; [lia|]. right. eauto.
Qed.

Lemma name_le_total a b : name_le a b \/ name_le b a.
Proof. unfold name_le. rewrite (util_cstrCmp_opp a b). lia. Qed.

Abbreviation sorted := (StronglySorted name_le).

Lemma sorted_app l1 l2 : sorted (l1 ++ l2) <-> sorted l1 /\ sorted l2 /\ (forall x y, In x l1 -> In y l2 -> name_le x y).
Proof.
  induction l1 as [|a l1 IH]; cbn [app].
  - split; [intros H; repeat split; [constructor|assumption|easy]|tauto].
  - split.
    + intros H. apply StronglySorted_inv in H as [H Ha]. apply IH in H as (H1 & H2 & H3). rewrite Forall_app in Ha. destruct Ha as [Ha1 Ha2].
      split; [now constructor|]. split; [assumption|]. intros x y [<-|Hx] Hy; [rewrite Forall_forall in Ha2|]; auto.
    + intros (H1 & H2 & H3). apply StronglySorted_inv in H1 as [H1 Ha]. constructor.
      * apply IH. repeat split; auto. intros. apply H3; [now right|assumption].
      * apply Forall_app. split; [assumption|]. apply Forall_forall. intros. apply H3; [now left|assumption].
Qed.

Lemma sort_insert_spec nm before : forall after, sorted (rev before) ->
  let '(B, A) := sort_insert nm before after in
  exists mid, rev before = rev B ++ mid /\ A = nm :: mid ++ after /\
  (forall x, In x (rev B) -> name_le x nm) /\ (forall x, In x mid -> name_le nm x).
Proof.
  induction before as [|prev before IH]; intros after Hs; cbn [sort_insert]; [exists []; easy|].
  cbn [rev] in Hs. pose proof Hs as Hs0. apply sorted_app in Hs as (Hs1 & _ & Hlast).
  destruct (Z.leb_spec 0 (util_cstrCmp nm prev)) as [Hge|Hlt].
  - exists []. rewrite app_nil_r. repeat split; [|easy].
    assert (name_le prev nm) as Hp by (unfold name_le; rewrite util_cstrCmp_opp; lia).
    intros x Hx. cbn [rev] in Hx. apply in_app_iff in Hx as [Hx|[<-|[]]]; [|exact Hp].
    apply name_le_trans with prev; [|exact Hp]. apply Hlast; [exact Hx|now left].
  - specialize (IH (prev :: after) Hs1). destruct (sort_insert nm before (prev :: after)) as [B A].
    destruct IH as (mid & E & -> & HB & Hm). exists (mid ++ [prev]). cbn [rev]. rewrite E, <- !app_assoc.
    repeat split; [exact HB|]. intros x Hx. apply in_app_iff in Hx as [Hx|[<-|[]]]; [auto|]. unfold name_le. lia.
Qed.

Lemma sort_loop_spec rest : forall done, sorted done ->
  sorted (sort_loop done rest) /\ Permutation (sort_loop done rest) (done ++ rest).
Proof.
  induction rest as [|nm rest IH]; intros done Hd; cbn [sort_loop]; [now rewrite app_nil_r|].
  pose proof (sort_insert_spec nm (rev done) []) as Hi. rewrite rev_involutive in Hi. specialize (Hi Hd).
  destruct (sort_insert nm (rev done) []) as [B A]. destruct Hi as (mid & E & -> & HB & Hm). rewrite app_nil_r.
  rewrite E in Hd. apply sorted_app in Hd as (HB1 & Hm1 & HBm).
  destruct (IH (rev B ++ nm :: mid)) as [IH1 IH2].
  { apply sorted_app. split; [assumption|]. split; [constructor; [assumption|now apply Forall_forall]|].
    intros x y Hx [<-|Hy]; auto. }
  split; [exact IH1|]. rewrite IH2, E, <- !app_assoc. apply Permutation_app_head. cbn [app]. apply Permutation_middle.
Qed.

Lemma sortNames_spec names : sorted (sortNames names) /\ Permutation (sortNames names) names.
Proof.
  unfold sortNames. destruct (sort_loop_spec (skipn 1 names) (firstn 1 names)) as [H1 H2].
  { destruct names; repeat constructor. }
  split; [exact H1|]. now rewrite firstn_skipn in H2.
Qed.

(** [sortNames] permutes the names into the order of [util_cstrCmp], which is a total
    preorder, so that an archive does not depend on the order in which the system lists a
    directory. *)
Theorem sortNames_correct names :
  StronglySorted (fun a b => util_cstrCmp a b <= 0) (sortNames names) /\ Permutation (sortNames names) names /\
  (forall a b c, util_cstrCmp a b <= 0 -> util_cstrCmp b c <= 0 -> util_cstrCmp a c <= 0) /\
  (forall a b, util_cstrCmp b a = - util_cstrCmp a b).
Proof.
  destruct (sortNames_spec names) as [Hs Hp]. split; [exact Hs|]. split; [exact Hp|].
  split; [exact name_le_trans|exact util_cstrCmp_opp].
Qed.

(** [writeRecord] refuses a name over 100 bytes, a path over 155 or a size over 11 octal
    digits without writing anything; otherwise, when it returns 0, the output has grown by
    exactly the ustar header (checksum included), the file's bytes and the padding to 512,
    and the file had the announced size; without input or output errors it returns 0, or
    -4 when the file has another size. *)
Theorem writeRecord_correct {world : Type} `{TarLaws world} fuel t w nm nl fileSize :
  tar_ok t -> (nl <= length nm)%nat -> (0 < fileSize -> (length (source w) < fuel)%nat) ->
  let '(t', w', r) := writeRecord fuel t w nm nl fileSize in
  tar_ok t' /\ prefix t' = prefix t /\ prefixLen t' = prefixLen t /\ exists code, r = Some code /\
  (if (100 <? nl)%nat || (155 <? prefixLen t)%nat || (8 ^ 11 - 1 <? fileSize) then code = -1 /\ w' = w
   else (code <> -1 /\ code <= 0) /\
     (code = 0 -> sink w' = sink w ++ record (entry_of t w nm nl fileSize) /\
                  (0 < fileSize -> Z.of_nat (length (source w)) = fileSize)) /\
     (reliable (0 <? fileSize) w -> reliable (0 <? fileSize) w' /\
        code = if (0 <? fileSize) && negb (Z.of_nat (length (source w)) =? fileSize) then -4 else 0)).
Proof. apply writeRecord_spec. Qed.
