(* ===== verification/TarIx.v ===== *)
(** * The tar tool on Unix ([src/hc/tools/tar/ix.c])

    The platform functions of the tar tool over the system calls, and [add], which
    archives the contents of a directory with an explicit stack of open directories
    kept in the allocator's memory. *)
From Stdlib Require Import ZArith List Lia Bool String Permutation Sorted.
From S2P Require Import Prelude Alloc Util Io Tar.
Import ListNotations.

(** openat(2), close(2), getdents64(2) with the bytes it stored, and the status, mode and
    size that fstatat(2) of a descriptor gives. *)
Class DirOps (world : Type) := {
  sys_openat : world -> Z -> list Z -> Z -> Z -> world * Z;
  sys_close : world -> Z -> world * Z;
  sys_getdents : world -> Z -> Z -> world * Z * list Z;
  sys_fstat : world -> Z -> world * (Z * Z * Z) }.

Definition O_RDONLY : Z := 0.
Definition O_WRONLY : Z := 1.
Definition O_CREAT : Z := 64.
Definition O_EXCL : Z := 128.
Definition O_TRUNC : Z := 512.
Definition AT_FDCWD : Z := -100.
Definition S_IFMT : Z := 61440.
Definition S_IFREG : Z := 32768.
Definition S_IFDIR : Z := 16384.
Definition S_ISREG (m : Z) : bool := m & S_IFMT =? S_IFREG.
Definition S_ISDIR (m : Z) : bool := m & S_IFMT =? S_IFDIR.

(** The bytes of a C string before its terminator. *)
Definition cstr (l : list Z) : list Z := firstn (util_cstrLen l) l.

Section TarIx.
Context {world : Type} `{FileLaws world} `{DirOps world} `{Heap world} (pageSize : Z).

(** The static variables of [ix.c], beside the kernel. *)
Record ix := Ix { kernel : world; outFd : Z; currentFd : Z; alloc : allocator }.

Definition set_kernel (s : ix) (k : world) : ix := Ix k (outFd s) (currentFd s) (alloc s).
Definition set_currentFd (s : ix) (fd : Z) : ix := Ix (kernel s) (outFd s) fd (alloc s).

(** Enough iterations for [util_writeAll] of [b] ([util_writeAll_spec]). *)
Definition write_fuel (k : world) (b : list Z) : nat := S (List.length b + patience k).

Definition ix_writeAll (s : ix) (fd : Z) (b : list Z) : ix * Z :=
  let '(k, r) := util_writeAll (write_fuel (kernel s) b) (kernel s) fd b in
  (set_kernel s k, match r with Some r => r | None => -1 end).

Definition ix_readIntoBuffer (s : ix) : ix * Z * list Z :=
  let '(k, r, data) := sys_read (kernel s) (currentFd s) buffer_size in (set_kernel s k, i32 r, data).

Definition ix_writeBuffer (s : ix) (b : list Z) : ix * Z := ix_writeAll s (outFd s) b.

Definition ix_openOutput (s : ix) (name : list Z) : ix * Z :=
  let '(k, fd) := sys_openat (kernel s) AT_FDCWD name (O_WRONLY .| O_CREAT .| O_EXCL .| O_TRUNC) 436 in
  (Ix k fd (currentFd s) (alloc s), fd).

Definition ix_close (s : ix) (fd : Z) : ix := set_kernel s (fst (sys_close (kernel s) fd)).

Definition ix_closeOutput (s : ix) : ix := ix_close s (outFd s).

#[global] Instance ix_platform : TarPlatform ix := {
  readIntoBuffer := ix_readIntoBuffer; writeBuffer := ix_writeBuffer; openOutput := ix_openOutput;
  closeOutput := ix_closeOutput; debug_print s msg := fst (ix_writeAll s 2 msg) }.

Definition ix_init (s : ix) : ix * Z :=
  let '(k, a, status) := allocator_init pageSize (kernel s) (alloc s) (2 ^ 32) in
  (Ix k (outFd s) (currentFd s) a, status).

Definition ix_deinit (s : ix) : ix := set_kernel s (allocator_deinit (kernel s) (alloc s)).

Definition ix_resize (s : ix) (n : Z) : ix * Z :=
  let '(k, a, status) := allocator_resize pageSize (kernel s) (alloc s) n in
  (Ix k (outFd s) (currentFd s) a, status).

(** [struct state]: where it lies in the allocator's memory, the names that are left and the
    directory.  [sizeof(struct state)] is 24. *)
Record frame := Frame { fr_offset : Z; fr_names : list (list Z); fr_rootFd : Z }.

(** The loop over [getdents]: [None] inside is [goto cleanup_currentFd]; else [allocSize]
    and the bytes of the directory entries. *)
Fixpoint read_entries (fuel : nat) (s : ix) (allocSize : Z) (got : list Z) : ix * option (option (Z * list Z)) :=
  match fuel with
  | O => (s, None)
  | S fuel' =>
      let '(s, status) := ix_resize s (allocSize + 8192) in
      if status <? 0 then (s, Some None)
      else
        let '(k, numRead, data) := sys_getdents (kernel s) (currentFd s) (size (alloc s) - allocSize) in
        let s := set_kernel s k in
        if numRead <=? 0 then (s, Some (if numRead =? 0 then Some (allocSize, got) else None))
        else read_entries fuel' s (allocSize + numRead) (got ++ data)
  end.

(** The loop that builds the list of names, over the bytes from [current] on: [d_reclen] is
    at offset 16 of an entry, [d_name] at offset 19.  [None]: [goto cleanup_rootFds]. *)
Fixpoint build_names (fuel : nat) (s : ix) (allocSize : Z) (current : list Z) (names : list (list Z))
  : ix * option (option (Z * list (list Z))) :=
  match fuel with
  | O => (s, None)
  | S fuel' =>
      match current with
      | [] => (s, Some (Some (allocSize, names)))
      | _ =>
          let d_reclen := get current 16 + 256 * get current 17 in
          let currentName := cstr (skipn 19 current) in
          let next := skipn (Z.to_nat d_reclen) current in
          if isDot currentName || isDotDot currentName then build_names fuel' s allocSize next names
          else
            let '(s, status) := ix_resize s (allocSize + 8) in
            if status <? 0 then (s, Some None)
            else build_names fuel' s (allocSize + 8) next (names ++ [currentName])
      end
  end.

(** [cleanup_rootFds] and [cleanup_currentFd]. *)
Definition cleanup_rootFds (s : ix) (stack : list frame) : ix :=
  fold_left (fun s fr => ix_close s (fr_rootFd fr)) stack s.
Definition cleanup_currentFd (s : ix) (stack : list frame) : ix :=
  cleanup_rootFds (ix_close s (currentFd s)) stack.

(** From the top of the outer loop to the sorted names of the directory [currentFd]: the new
    stack and [allocSize], or [None] after the clean-up. *)
Definition push_directory (fuel : nat) (s : ix) (stack : list frame) (allocSize : Z)
  : ix * option (option (list frame * Z)) :=
  let offset := allocSize in
  match read_entries fuel s (allocSize + 24) [] with
  | (s, None) => (s, None)
  | (s, Some None) => (cleanup_currentFd s stack, Some None)
  | (s, Some (Some (allocSize, entries))) =>
      match build_names fuel s allocSize entries [] with
      | (s, None) => (s, None)
      | (s, Some None) => (cleanup_rootFds s (Frame offset [] (currentFd s) :: stack), Some None)
      | (s, Some (Some (allocSize, names))) =>
          (s, Some (Some (Frame offset (sortNames names) (currentFd s) :: stack, allocSize)))
      end
  end.

(** The loop over the entries of the directories on the stack. *)
Fixpoint add_loop (fuel : nat) (t : tar) (s : ix) (stack : list frame) (allocSize : Z) : tar * ix * option Z :=
  match fuel with
  | O => (t, s, None)
  | S fuel' =>
      match stack with
      | [] => (t, s, Some 0)
      | fr :: stack' =>
          match fr_names fr with
          | [] =>
              let s := ix_close s (fr_rootFd fr) in
              match stack' with
              | [] => (t, s, Some 0)
              | _ => add_loop fuel' (leaveDirectory t) s stack' (fr_offset fr)
              end
          | name :: names =>
              let stack := Frame (fr_offset fr) names (fr_rootFd fr) :: stack' in
              let '(k, fd) := sys_openat (kernel s) (fr_rootFd fr) name O_RDONLY 0 in
              let s := set_currentFd (set_kernel s k) fd in
              if fd <? 0 then (t, cleanup_rootFds s stack, Some (-1))
              else
                let nameLen := util_cstrLen name in
                let '(k, (status, st_mode, st_size)) := sys_fstat (kernel s) fd in
                let s := set_kernel s k in
                if status <? 0 then (t, cleanup_currentFd s stack, Some (-1))
                else if negb (S_ISDIR st_mode) && negb (S_ISREG st_mode) then (t, cleanup_currentFd s stack, Some (-1))
                else
                  let st_size := if S_ISDIR st_mode then -1 else st_size in
                  match writeRecord fuel t s name nameLen st_size with
                  | (t, s, None) => (t, s, None)
                  | (t, s, Some status) =>
                      if status <? 0 then (t, cleanup_currentFd s stack, Some (-1))
                      else if st_size <? 0 then
                        let t := fst (enterDirectory t name nameLen) in
                        match push_directory fuel s stack allocSize with
                        | (s, None) => (t, s, None)
                        | (s, Some None) => (t, s, Some (-1))
                        | (s, Some (Some (stack, allocSize))) => add_loop fuel' t s stack allocSize
                        end
                      else add_loop fuel' t (ix_close s (currentFd s)) stack allocSize
                  end
          end
      end
  end.

Definition add (fuel : nat) (t : tar) (s : ix) (path : list Z) : tar * ix * option Z :=
  let '(k, fd) := sys_openat (kernel s) AT_FDCWD path O_RDONLY 0 in
  let s := set_currentFd (set_kernel s k) fd in
  if fd <? 0 then (t, s, Some (-1))
  else match push_directory fuel s [] 0 with
       | (s, None) => (t, s, None)
       | (s, Some None) => (t, s, Some (-1))
       | (s, Some (Some (stack, allocSize))) => add_loop fuel t s stack allocSize
       end.
End TarIx.

(** ** File trees *)

#[warnings="-register-all"]
Inductive tree := File (data : list Z) | Dir (entries : list (list Z * tree)).

Definition name_eqb (a b : list Z) : bool := if list_eq_dec Z.eq_dec a b then true else false.

Definition lookup (nm : list Z) (es : list (list Z * tree)) : option tree :=
  option_map snd (find (fun e => name_eqb (fst e) nm) es).

(** The archive entries of a directory, in the order of the names; [n] bounds the height. *)
Fixpoint listing (n : nat) (d : list Z) (es : list (list Z * tree)) : list Ustar.entry :=
  match n with
  | O => []
  | S n => flat_map (fun nm =>
             match lookup nm es with
             | Some (File data) => [Ustar.Entry d nm (Some data)]
             | Some (Dir es') => Ustar.Entry d nm None :: listing n (join d nm) es'
             | None => []
             end) (sortNames (map fst es))
  end.

(** A name that can be archived: 1 to 100 bytes, no terminator or separator, not a dot name. *)
Definition valid_name (nm : list Z) : bool :=
  (0 <? length nm)%nat && (length nm <=? 100)%nat && forallb (fun c => negb (c =? 0) && negb (c =? 47)) nm &&
  negb (isDot nm) && negb (isDotDot nm).

Fixpoint distinct (l : list (list Z)) : bool :=
  match l with
  | [] => true
  | x :: l => negb (existsb (name_eqb x) l) && distinct l
  end.

(** A tree of height at most [n] whose names, paths (below [d]) and sizes ustar can hold. *)
Fixpoint fits (n : nat) (d : list Z) (es : list (list Z * tree)) : bool :=
  match n with
  | O => false
  | S n =>
      distinct (map fst es) &&
      forallb (fun e => valid_name (fst e) && (length d <=? 155)%nat &&
        match snd e with
        | File data => Z.of_nat (length data) <=? tar_MAX_FILE_SIZE
        | Dir es' => fits n (join d (fst e)) es'
        end) es
  end.

(** Iterations that suffice, and bytes of the allocator, for a directory. *)
Fixpoint weight (n : nat) (es : list (list Z * tree)) : nat :=
  match n with
  | O => 0
  | S n => 4 + length es + list_sum (map (fun e =>
             match snd e with File data => 2 + length data | Dir es' => 2 + weight n es' end) es)
  end%nat.

Fixpoint need (n : nat) (es : list (list Z * tree)) : Z :=
  match n with
  | O => 0
  | S n => 600 + 288 * Z.of_nat (length es) +
           fold_right Z.max 0 (map (fun e => match snd e with File _ => 0 | Dir es' => need n es' end) es)
  end.

(** ** What the kernel promises *)

(** The bytes of a directory entry: [d_reclen], and the name with its terminator. *)
Definition is_dirent (nm rec : list Z) : Prop :=
  (19 + length nm < length rec <= 280)%nat /\ Z.of_nat (length rec) = get rec 16 + 256 * get rec 17 /\
  firstn (length nm + 1) (skipn 19 rec) = nm ++ [0].

(** [node k fd]: what an open descriptor refers to, [dents k fd]: the names a directory
    descriptor has still to give, [root k path]: what a path names, [writable k fd]: [fd] is
    open for writing, [steady k]: no later call fails (writes may be interrupted). *)
Class TarKernel (world : Type) `{FileLaws world} `{DirOps world} `{Heap world} := {
  node : world -> Z -> option tree;
  dents : world -> Z -> list (list Z);
  root : world -> list Z -> option tree;
  writable : world -> Z -> bool;
  steady : world -> Prop;
  (** the path [p] names no file and would not name one below [q] *)
  absent : world -> list Z -> list Z -> bool;
  (** the state of the files that system calls other than open and close on them keep *)
  same_files := fun k k' : world =>
    (forall fd, node k' fd = node k fd) /\ (forall p, root k' p = root k p) /\ (forall fd, writable k' fd = writable k fd);
  opened := fun (k k' : world) (fd : Z) (t : tree) =>
    0 <= fd /\ steady k' /\ node k fd = None /\ writable k fd = false /\ node k' fd = Some t /\
    (forall x, x <> fd -> node k' x = node k x /\ dents k' x = dents k x /\ input k' x = input k x) /\
    (forall p, root k' p = root k p) /\ (forall x, writable k' x = writable k x) /\ output k' = output k /\
    match t with
    | File data => input k' fd = data
    | Dir es => Permutation (dents k' fd) (str "." :: str ".." :: map fst es)
    end;
  open_entry : forall k fd es nm t, steady k -> node k fd = Some (Dir es) -> lookup nm es = Some t ->
    let '(k', fd') := sys_openat k fd nm O_RDONLY 0 in opened k k' fd' t;
  open_root : forall k p t, steady k -> root k p = Some t ->
    let '(k', fd') := sys_openat k AT_FDCWD p O_RDONLY 0 in opened k k' fd' t;
  open_output : forall k p, steady k -> (exists q, absent k p q = true) ->
    let '(k', fd) := sys_openat k AT_FDCWD p (O_WRONLY .| O_CREAT .| O_EXCL .| O_TRUNC) 436 in
    0 <= fd /\ steady k' /\ writable k' fd = true /\ output k' fd = [] /\ (forall x, node k' x = node k x) /\
    (forall q, absent k p q = true -> root k' q = root k q);
  close_fd : forall k fd, steady k -> let k' := fst (sys_close k fd) in
    steady k' /\ node k' fd = None /\ writable k' fd = false /\ output k' = output k /\ (forall p, root k' p = root k p) /\
    (forall x, x <> fd -> node k' x = node k x /\ dents k' x = dents k x /\ input k' x = input k x /\ writable k' x = writable k x);
  fstat_fd : forall k fd t, steady k -> node k fd = Some t ->
    let '(k', (status, mode, size)) := sys_fstat k fd in
    steady k' /\ same_files k k' /\ dents k' = dents k /\ input k' = input k /\ output k' = output k /\ status = 0 /\
    match t with
    | File data => S_ISREG mode = true /\ S_ISDIR mode = false /\ size = Z.of_nat (length data)
    | Dir _ => S_ISDIR mode = true
    end;
  getdents_fd : forall k fd es n, steady k -> node k fd = Some (Dir es) -> 8192 <= n ->
    Forall (fun nm => (length nm <= 255)%nat) (dents k fd) ->
    let '(k', r, data) := sys_getdents k fd n in
    steady k' /\ same_files k k' /\ input k' = input k /\ output k' = output k /\
    (forall x, x <> fd -> dents k' x = dents k x) /\ r = Z.of_nat (length data) /\
    exists ds recs, dents k fd = ds ++ dents k' fd /\ Forall2 is_dirent ds recs /\ data = List.concat recs /\
      (dents k fd <> [] -> ds <> []);
  write_steady : forall k fd b, steady k -> let '(k', r) := sys_write k fd b in
    steady k' /\ same_files k k' /\ dents k' = dents k /\ (writable k fd = true -> r = - EINTR \/ 0 <= r);
  read_steady : forall k fd n, steady k -> let '(k', r, _) := sys_read k fd n in
    steady k' /\ same_files k k' /\ dents k' = dents k /\ (forall data, node k fd = Some (File data) -> 0 <= r);
  reserve_steady : forall k n, steady k -> let '(k', m) := heap_reserve k n in
    steady k' /\ same_files k k' /\ absent k' = absent k /\ m <> 0;
  unreserve_output : forall k a n, steady k -> output (heap_unreserve k a n) = output k;
  commit_steady : forall k a n, steady k -> let '(k', r) := heap_commit k a n in
    steady k' /\ same_files k k' /\ dents k' = dents k /\ input k' = input k /\ output k' = output k /\ 0 <= r;
  decommit_steady : forall k a n, steady k -> let k' := heap_decommit k a n in
    steady k' /\ same_files k k' /\ dents k' = dents k /\ input k' = input k /\ output k' = output k }.

(** ** Names *)

Lemma name_le_antisym a b : no_nul a -> no_nul b -> name_le a b -> name_le b a -> a = b.
Proof.
  intros Ha. revert b. induction Ha as [|x a Hx Ha IH]; intros b Hb Hab Hba; apply name_le_cons in Hab; apply name_le_cons in Hba;
    destruct Hb as [|y b Hy Hb]; cbn [get nth skipn] in *.
  - reflexivity.
  - exfalso. lia.
  - exfalso. lia.
  - destruct Hab as [?|[-> [?|Hab]]], Hba as [?|[? [?|Hba]]]; try lia. f_equal. auto.
Qed.

Lemma sorted_unique l1 : forall l2, Forall no_nul l1 -> sorted l1 -> sorted l2 -> Permutation l1 l2 -> l1 = l2.
Proof.
  induction l1 as [|a l1 IH]; intros l2 Hn H1 H2 Hp; [symmetry; now apply Permutation_nil|].
  destruct l2 as [|b l2]; [now apply Permutation_sym, Permutation_nil in Hp|].
  assert (Forall no_nul (b :: l2)) as Hn2 by (now rewrite <- Hp).
  apply StronglySorted_inv in H1 as [H1 Ha]. apply StronglySorted_inv in H2 as [H2 Hb]. rewrite Forall_forall in Ha, Hb.
  inversion Hn as [|? ? Hna Hn1]; inversion Hn2 as [|? ? Hnb Hn3]; subst.
  assert (a = b) as ->.
  { assert (In a (b :: l2)) as Hin by (rewrite <- Hp; now left). assert (In b (a :: l1)) as Hin' by (rewrite Hp; now left).
    destruct Hin as [|Hin]; [congruence|]. destruct Hin' as [|Hin']; [congruence|]. apply name_le_antisym; auto. }
  f_equal. apply IH; try assumption. now apply Permutation_cons_inv in Hp.
Qed.

Lemma sortNames_perm l1 l2 : Forall no_nul l1 -> Permutation l1 l2 -> sortNames l1 = sortNames l2.
Proof.
  intros Hn Hp. destruct (sortNames_spec l1) as [S1 P1], (sortNames_spec l2) as [S2 P2].
  apply sorted_unique; [now rewrite P1|assumption|assumption|]. now rewrite P1, P2.
Qed.

Lemma valid_name_spec nm : valid_name nm = true ->
  (0 < length nm <= 100)%nat /\ no_nul nm /\ ~ In 47 nm /\ negb (isDot nm || isDotDot nm) = true.
Proof.
  unfold valid_name. rewrite !andb_true_iff, !negb_true_iff. intros ((((H1 & H2) & H3) & H4) & H5).
  apply Nat.ltb_lt in H1. apply Nat.leb_le in H2. rewrite forallb_forall in H3.
  split; [lia|]. split; [|split; [|now rewrite H4, H5]].
  - apply Forall_forall. intros c Hc ->. now specialize (H3 _ Hc).
  - intros Hc. specialize (H3 _ Hc). discriminate.
Qed.

Section AddSpec.
Context {world : Type} `{TarKernel world}.
Abbreviation ix := (@ix world).

(** ** The platform functions keep their promises *)

Lemma same_files_refl k : same_files k k.
Proof. repeat split. Qed.

Lemma same_files_trans k1 k2 k3 : same_files k1 k2 -> same_files k2 k3 -> same_files k1 k3.
Proof. intros (A1 & B1 & C1) (A2 & B2 & C2). split; [|split]; congruence. Qed.

Lemma writeAll_steady fuel : forall k fd b, steady k -> (length b + patience k < fuel)%nat ->
  let '(k', r) := util_writeAll fuel k fd b in
  steady k' /\ same_files k k' /\ dents k' = dents k /\ (writable k fd = true -> r = Some 0).
Proof.
  induction fuel as [|fuel IH]; intros k fd b Hk Hf; [lia|]. cbn [util_writeAll].
  destruct (Nat.ltb_spec 0 (length b)) as [Hb|Hb]; [|auto using same_files_refl].
  assert (b <> []) as Hne by (now intros ->).
  pose proof (write_patience k fd b Hne) as [Hp1 Hp2]. pose proof (write_some k fd b) as Hs. pose proof (write_steady k fd b Hk) as Hst.
  destruct (sys_write k fd b) as [k1 r]. cbn [fst snd] in *. destruct Hst as (Hk1 & Hsf & Hd & Hr).
  assert (writable k1 fd = writable k fd) as Hwr by apply Hsf.
  assert (forall b', (length b' + patience k1 < fuel)%nat -> let '(k', r) := util_writeAll fuel k1 fd b' in
    steady k' /\ same_files k k' /\ dents k' = dents k /\ (writable k fd = true -> r = Some 0)) as IH'.
  { intros b' Hb'. specialize (IH k1 fd b' Hk1 Hb'). destruct (util_writeAll fuel k1 fd b') as [k' r'].
    destruct IH as (I1 & I2 & I3 & I4). split; [exact I1|]. split; [eapply same_files_trans; eassumption|].
    split; [congruence|]. intros Hw. apply I4. congruence. }
  destruct (Z.ltb_spec r 0) as [Hneg|Hpos].
  - unfold ix_ERRNO. destruct (Z.eqb_spec (- r) EINTR) as [E|E].
    + apply IH'. lia.
    + split; [exact Hk1|]. split; [exact Hsf|]. split; [exact Hd|]. intros Hw. destruct (Hr Hw); lia.
  - apply IH'. rewrite length_skipn. specialize (Hs Hpos). destruct (Z.eq_dec r 0) as [->|]; [|lia].
    specialize (Hp1 (or_intror eq_refl)). cbn. lia.
Qed.

(** What [ix_writeAll] does, failing or not. *)
Lemma ix_writeAll_spec s fd b : let '(s', r) := ix_writeAll s fd b in
  exists k', s' = set_kernel s k' /\ input k' = input (kernel s) /\
  ((r = 0 /\ output k' fd = output (kernel s) fd ++ b) \/ (r = -1 /\ exists n, output k' fd = output (kernel s) fd ++ firstn n b)).
Proof.
  unfold ix_writeAll, write_fuel.
  pose proof (util_writeAll_spec (S (length b + patience (kernel s))) (kernel s) fd b ltac:(lia)) as Hw.
  destruct (util_writeAll _ (kernel s) fd b) as [k' r]. destruct Hw as (_ & Hi & Hw). exists k'. split; [reflexivity|].
  split; [exact Hi|]. destruct Hw as [[-> Ho]|[-> Ho]]; auto.
Qed.

Lemma ix_writeAll_steady s fd b : steady (kernel s) ->
  let k' := kernel (fst (ix_writeAll s fd b)) in
  steady k' /\ same_files (kernel s) k' /\ dents k' = dents (kernel s) /\
  (writable (kernel s) fd = true -> snd (ix_writeAll s fd b) = 0).
Proof.
  intros Hk. unfold ix_writeAll, write_fuel.
  pose proof (writeAll_steady (S (length b + patience (kernel s))) (kernel s) fd b Hk ltac:(lia)) as Hw.
  destruct (util_writeAll _ (kernel s) fd b) as [k' r]. cbn [fst snd kernel set_kernel].
  destruct Hw as (H1' & H2' & H3' & H4'). repeat split; try apply H2'; try assumption. intros Hwr. now rewrite H4'.
Qed.

#[global] Instance ix_laws : TarLaws ix.
Proof.
  refine {| sink s := output (kernel s) (outFd s); source s := input (kernel s) (currentFd s);
            reliable m s := steady (kernel s) /\ writable (kernel s) (outFd s) = true /\
              (m = true -> exists data, node (kernel s) (currentFd s) = Some (File data)) |}.
  - intros s b. cbn [writeBuffer ix_platform]. unfold ix_writeBuffer. pose proof (ix_writeAll_spec s (outFd s) b) as Hw.
    destruct (ix_writeAll s (outFd s) b) as [s' r]. destruct Hw as (k' & -> & _ & [[-> Ho]|[-> _]]); cbn [fst snd]; [intros _; exact Ho|lia].
  - intros s b. cbn [writeBuffer ix_platform]. unfold ix_writeBuffer. pose proof (ix_writeAll_spec s (outFd s) b) as Hw.
    destruct (ix_writeAll s (outFd s) b) as [s' r]. destruct Hw as (k' & -> & Hi & _). cbn. now rewrite Hi.
  - intros m s b (Hk & Hw & Hm). cbn [writeBuffer ix_platform]. unfold ix_writeBuffer.
    pose proof (ix_writeAll_spec s (outFd s) b) as Hs. pose proof (ix_writeAll_steady s (outFd s) b Hk) as Hst.
    destruct (ix_writeAll s (outFd s) b) as [s' r]. destruct Hs as (k' & -> & _). cbn [fst snd kernel set_kernel outFd currentFd] in *.
    destruct Hst as (H1' & (Hn & _ & Hwr) & _ & Hr). split; [rewrite Hr by assumption; lia|].
    split; [exact H1'|]. split; [now rewrite Hwr|]. intros E. destruct (Hm E) as [data Hd]. exists data. now rewrite Hn.
  - intros s. cbn [readIntoBuffer ix_platform]. unfold ix_readIntoBuffer. pose proof (read_output (kernel s) (currentFd s) buffer_size) as Ho.
    destruct (sys_read (kernel s) (currentFd s) buffer_size) as [[k' r] data]. cbn in *. now rewrite Ho.
  - intros s. cbn [readIntoBuffer ix_platform]. unfold ix_readIntoBuffer.
    pose proof (read_errno (kernel s) (currentFd s) buffer_size) as He. pose proof (read_some (kernel s) (currentFd s) buffer_size) as Hs.
    pose proof (read_eof (kernel s) (currentFd s) buffer_size) as Hz.
    destruct (sys_read (kernel s) (currentFd s) buffer_size) as [[k' r] data]. cbn [fst snd kernel set_kernel currentFd] in *.
    destruct He as [Hr Hd]. assert (0 < buffer_size)%nat as Hbs by (unfold buffer_size; lia).
    destruct (Z_lt_dec r 0) as [Hneg|Hpos].
    + rewrite swrap_small by lia. rewrite Hd by assumption. cbn [List.length]. lia.
    + destruct (Hs ltac:(lia)) as (Hle & Hdata & Hlen & Hin). assert (r <= 65536) by (unfold buffer_size in Hle; lia).
      rewrite swrap_small by lia. split; [lia|]. split; [lia|]. intros _. split; [|auto].
      rewrite Hin, Hdata. symmetry. apply firstn_skipn.
  - intros s (Hk & Hw & Hm). cbn [readIntoBuffer ix_platform]. unfold ix_readIntoBuffer.
    pose proof (read_steady (kernel s) (currentFd s) buffer_size Hk) as Hst.
    pose proof (read_some (kernel s) (currentFd s) buffer_size) as Hs.
    destruct (sys_read (kernel s) (currentFd s) buffer_size) as [[k' r] data]. cbn [fst snd kernel set_kernel currentFd outFd] in *.
    destruct (Hm eq_refl) as [dt Hdt]. destruct Hst as (H1' & (Hn & _ & Hwr) & _ & Hr). specialize (Hr dt Hdt).
    destruct (Hs Hr) as (Hle & _). assert (r <= 65536) by (unfold buffer_size in Hle; lia).
    rewrite swrap_small by lia. split; [lia|]. split; [exact H1'|]. split; [now rewrite Hwr|]. intros _. exists dt. now rewrite Hn.
Defined.

(** ** Reading a directory *)

Context (pageShift : Z) (HpageShift : 0 <= pageShift).
Abbreviation PAGE := (2 ^ pageShift).

Definition keeps (k k' : world) : Prop :=
  steady k' /\ same_files k k' /\ dents k' = dents k /\ input k' = input k /\ output k' = output k.

Lemma keeps_refl k : steady k -> keeps k k.
Proof. repeat split; auto. Qed.

Lemma keeps_trans k1 k2 k3 : keeps k1 k2 -> keeps k2 k3 -> keeps k1 k3.
Proof.
  intros (_ & A2 & A3 & A4 & A5) (B1 & B2 & B3 & B4 & B5). split; [exact B1|].
  split; [eapply same_files_trans; eassumption|]. repeat split; congruence.
Qed.

Lemma ix_resize_steady s n : steady (kernel s) -> n + PAGE <= reserveSize (alloc s) ->
  exists k', ix_resize PAGE s n = (Ix k' (outFd s) (currentFd s) (Allocator (mem (alloc s)) n (reserveSize (alloc s))), 0) /\
  keeps (kernel s) k'.
Proof using HpageShift.
  intros Hk Hn. unfold ix_resize, allocator_resize.
  pose proof (align_forward_bound pageShift n HpageShift) as [Hup _].
  set (c := math_ALIGN_FORWARD (size (alloc s)) PAGE). set (c' := math_ALIGN_FORWARD n PAGE) in *.
  destruct (c' - c =? 0); [eexists; split; [reflexivity|now apply keeps_refl]|].
  destruct (c' - c <? 0).
  - eexists. split; [reflexivity|]. apply decommit_steady, Hk.
  - rewrite (proj2 (Z.ltb_ge _ _)) by lia. pose proof (commit_steady (kernel s) (mem (alloc s) + c) (c' - c) Hk) as Hc.
    destruct (heap_commit _ _ _) as [k' st]. destruct Hc as (C1 & C2 & C3 & C4 & C5 & C6).
    rewrite (proj2 (Z.ltb_ge _ _)) by lia. eexists. split; [reflexivity|]. repeat split; try apply C2; assumption.
Qed.

(** Like [keeps], but for what is left to read of the directory [fd]. *)
Definition keeps_but (fd : Z) (k k' : world) : Prop :=
  steady k' /\ same_files k k' /\ (forall x, x <> fd -> dents k' x = dents k x) /\ input k' = input k /\ output k' = output k.

Lemma length_dirents ds recs : Forall2 is_dirent ds recs -> (length (concat recs) <= 280 * length ds)%nat.
Proof. induction 1 as [|d r ds recs [Hr _] _ IH]; cbn [List.concat]; [cbn; lia|]. rewrite length_app. cbn [List.length]. lia. Qed.

Lemma read_entries_spec fuel : forall s asz got es,
  steady (kernel s) -> node (kernel s) (currentFd s) = Some (Dir es) ->
  Forall (fun nm => (length nm <= 255)%nat) (dents (kernel s) (currentFd s)) ->
  (length (dents (kernel s) (currentFd s)) < fuel)%nat ->
  asz + 280 * Z.of_nat (length (dents (kernel s) (currentFd s))) + 8192 + PAGE <= reserveSize (alloc s) ->
  exists k' sz recs, let data := concat recs in
  read_entries PAGE fuel s asz got =
    (Ix k' (outFd s) (currentFd s) (Allocator (mem (alloc s)) sz (reserveSize (alloc s))), Some (Some (asz + Z.of_nat (length data), got ++ data))) /\
  Forall2 is_dirent (dents (kernel s) (currentFd s)) recs /\ keeps_but (currentFd s) (kernel s) k'.
Proof using HpageShift.
  induction fuel as [|fuel IH]; intros s asz got es Hk Hn Hmax Hf Hroom; [lia|]. cbn [read_entries].
  destruct (ix_resize_steady s (asz + 8192) Hk ltac:(lia)) as (k1 & -> & (K1 & K2 & K3 & K4 & K5)).
  change (0 <? 0) with false. cbv iota. cbn [kernel currentFd alloc size outFd].
  assert (node k1 (currentFd s) = Some (Dir es)) as Hn1 by (rewrite (proj1 K2); exact Hn).
  pose proof (getdents_fd k1 (currentFd s) es (asz + 8192 - asz) K1 Hn1 ltac:(lia) ltac:(now rewrite K3)) as Hg.
  destruct (sys_getdents k1 (currentFd s) _) as [[k2 r] data]. rewrite K3 in Hg.
  destruct Hg as (G1 & G2 & G3 & G4 & G5 & -> & ds & recs & Hds & HF & -> & Hne).
  assert (keeps_but (currentFd s) (kernel s) k2) as Hkb.
  { split; [exact G1|]. split; [eapply same_files_trans; eassumption|]. split; [intros x Hx; now apply G5|]. split; congruence. }
  pose proof (length_dirents ds recs HF) as Hlen.
  destruct (Z.leb_spec (Z.of_nat (length (concat recs))) 0) as [Hz|Hz].
  - assert (concat recs = []) as E0 by (destruct (concat recs); [reflexivity|cbn in Hz; lia]). rewrite E0. cbn [List.length Z.of_nat Z.eqb].
    exists k2, (asz + 8192), []. cbn [List.concat List.length]. rewrite Z.add_0_r, app_nil_r. split; [reflexivity|]. split; [|exact Hkb].
    destruct (dents (kernel s) (currentFd s)) eqn:Ed; [constructor|]. exfalso. specialize (Hne ltac:(discriminate)).
    destruct HF as [|d rec ds recs [Hr _] _]; [congruence|]. cbn [List.concat] in E0. apply app_eq_nil in E0 as [-> _]. cbn in Hr. lia.
  - specialize (IH (set_kernel (Ix k1 (outFd s) (currentFd s) (Allocator (mem (alloc s)) (asz + 8192) (reserveSize (alloc s)))) k2)
      (asz + Z.of_nat (length (concat recs))) (got ++ concat recs) es G1).
    cbn [kernel set_kernel currentFd alloc reserveSize outFd mem] in IH.
    rewrite Hds, length_app in Hf, Hroom.
    assert (length ds <> 0)%nat as Hds0 by (destruct ds; [|cbn; lia]; cbn [List.length] in Hlen; lia).
    rewrite Hds, Forall_app in Hmax.
    destruct IH as (k3 & sz & recs' & -> & HF' & Hkb'); [now rewrite (proj1 G2)|apply Hmax|lia|lia|].
    exists k3, sz, (recs ++ recs'). rewrite concat_app, length_app, Nat2Z.inj_add, Z.add_assoc, app_assoc. split; [reflexivity|].
    split; [rewrite Hds; now apply Forall2_app|]. destruct Hkb as (A1 & A2 & A3 & A4 & A5), Hkb' as (B1 & B2 & B3 & B4 & B5).
    split; [exact B1|]. split; [eapply same_files_trans; eassumption|]. split; [intros x Hx; rewrite B3, A3; auto|]. split; congruence.
Qed.

Definition nondot (nm : list Z) : bool := negb (isDot nm || isDotDot nm).

Lemma dirent_name nm rec rest : is_dirent nm rec -> no_nul nm -> cstr (skipn 19 (rec ++ rest)) = nm.
Proof using.
  intros (Hlen & _ & Hnm) Hnul. rewrite skipn_app. replace (19 - length rec)%nat with 0%nat by lia. rewrite skipn_O.
  rewrite <- (firstn_skipn (length nm + 1) (skipn 19 rec)), Hnm, <- !app_assoc. cbn [app].
  unfold cstr. rewrite util_cstrLen_spec by assumption. rewrite firstn_app, firstn_all2, Nat.sub_diag, firstn_O, app_nil_r by lia. reflexivity.
Qed.

Lemma dirent_reclen nm rec rest : is_dirent nm rec ->
  skipn (Z.to_nat (get (rec ++ rest) 16 + 256 * get (rec ++ rest) 17)) (rec ++ rest) = rest.
Proof using.
  intros (Hlen & Hrl & _). rewrite !get_app_l by lia. rewrite <- Hrl, Nat2Z.id, skipn_app, skipn_all2, Nat.sub_diag by lia. reflexivity.
Qed.

Lemma build_names_spec fuel : forall s asz ds recs names, steady (kernel s) -> Forall2 is_dirent ds recs -> Forall no_nul ds ->
  (length ds < fuel)%nat -> asz + 8 * Z.of_nat (length ds) + PAGE <= reserveSize (alloc s) ->
  exists k' sz,
  build_names PAGE fuel s asz (concat recs) names =
    (Ix k' (outFd s) (currentFd s) (Allocator (mem (alloc s)) sz (reserveSize (alloc s))),
     Some (Some (asz + 8 * Z.of_nat (length (filter nondot ds)), names ++ filter nondot ds))) /\
  keeps (kernel s) k'.
Proof using HpageShift.
  induction fuel as [|fuel IH]; intros s asz ds recs names Hk HF Hnul Hf Hroom; [lia|].
  destruct HF as [|nm rec ds recs Hd HF].
  { exists (kernel s), (size (alloc s)). cbn. rewrite Z.add_0_r, app_nil_r. split; [now destruct s as [? ? ? []]|now apply keeps_refl]. }
  inversion Hnul as [|? ? Hn1 Hn2]; subst. cbn [List.concat List.length] in *.
  cbn [build_names]. assert (exists b l, rec ++ concat recs = b :: l) as (b & l & Ebl).
  { destruct Hd as [Hd _]. destruct rec; [cbn in Hd; lia|]. cbn [app]. eauto. }
  rewrite Ebl, <- Ebl. rewrite (dirent_name nm rec _ Hd Hn1), (dirent_reclen nm rec _ Hd).
  cbn [filter]. assert (nondot nm = negb (isDot nm || isDotDot nm)) as -> by reflexivity.
  destruct (isDot nm || isDotDot nm); cbn [negb].
  - apply IH; try assumption; lia.
  - destruct (ix_resize_steady s (asz + 8) Hk ltac:(lia)) as (k1 & -> & K1). change (0 <? 0) with false. cbv iota.
    destruct (IH (Ix k1 (outFd s) (currentFd s) (Allocator (mem (alloc s)) (asz + 8) (reserveSize (alloc s)))) (asz + 8) ds recs (names ++ [nm]))
      as (k2 & sz & -> & K2); try assumption; cbn [alloc reserveSize]; try lia; [apply K1|].
    exists k2, sz. cbn [kernel outFd currentFd alloc mem reserveSize List.length]. rewrite <- app_assoc. cbn [app].
    split; [do 4 f_equal; lia|]. eapply keeps_trans; eassumption.
Qed.

Lemma filter_valid names : Forall (fun nm => valid_name nm = true) names -> filter nondot names = names.
Proof using.
  induction 1 as [|nm names Hv _ IH]; [reflexivity|]. cbn [filter]. unfold nondot at 1. apply valid_name_spec in Hv as (_ & _ & _ & ->).
  now rewrite IH.
Qed.

Lemma filter_perm (f : list Z -> bool) l1 l2 : Permutation l1 l2 -> Permutation (filter f l1) (filter f l2).
Proof using.
  induction 1 as [|x l1 l2 _ IH|x y l|]; cbn [filter]; [constructor|destruct (f x); now rewrite IH| |etransitivity; eassumption].
  destruct (f x), (f y); try reflexivity. apply perm_swap.
Qed.

Lemma push_directory_spec fuel s stack asz es : steady (kernel s) -> node (kernel s) (currentFd s) = Some (Dir es) ->
  Permutation (dents (kernel s) (currentFd s)) (str "." :: str ".." :: map fst es) ->
  Forall (fun nm => valid_name nm = true) (map fst es) ->
  (length es + 2 < fuel)%nat -> 0 <= asz -> asz + 600 + 288 * Z.of_nat (length es) + 8192 + PAGE <= reserveSize (alloc s) ->
  exists k' sz asz',
  push_directory PAGE fuel s stack asz =
    (Ix k' (outFd s) (currentFd s) (Allocator (mem (alloc s)) sz (reserveSize (alloc s))),
     Some (Some (Frame asz (sortNames (map fst es)) (currentFd s) :: stack, asz'))) /\
  asz <= asz' <= asz + 600 + 288 * Z.of_nat (length es) /\ keeps_but (currentFd s) (kernel s) k'.
Proof using HpageShift.
  intros Hk Hn Hp Hv Hf Hasz Hroom. set (ds := dents (kernel s) (currentFd s)) in *.
  assert (length ds = 2 + length es)%nat as Hlen by (rewrite Hp; cbn [List.length]; now rewrite length_map).
  assert (Forall (fun nm => (length nm <= 255)%nat) ds) as Hmax.
  { rewrite Hp. repeat (constructor; [cbn; lia|]). eapply Forall_impl; [|exact Hv]. intros nm Hnm. apply valid_name_spec in Hnm as [? _]. lia. }
  destruct (read_entries_spec fuel s (asz + 24) [] es Hk Hn) as (k1 & sz1 & recs & E1 & HF & Hkb); fold ds; [exact Hmax|lia|lia|].
  fold ds in HF. unfold push_directory. rewrite E1. cbn [app]. pose proof (length_dirents ds recs HF) as Hdl.
  assert (Permutation (filter nondot ds) (map fst es)) as Hpf.
  { rewrite (filter_perm nondot _ _ Hp). cbn [filter]. change (nondot (str ".")) with false. change (nondot (str "..")) with false. cbv iota.
    now rewrite filter_valid. }
  assert (Forall no_nul (map fst es)) as Hnn.
  { eapply Forall_impl; [|exact Hv]. intros nm Hnm. now apply valid_name_spec in Hnm. }
  assert (Forall no_nul ds) as Hnul.
  { rewrite Hp. repeat (constructor; [repeat constructor; discriminate|]). exact Hnn. }
  destruct Hkb as (B1 & B2 & B3 & B4 & B5).
  destruct (build_names_spec fuel (Ix k1 (outFd s) (currentFd s) (Allocator (mem (alloc s)) sz1 (reserveSize (alloc s))))
    (asz + 24 + Z.of_nat (length (concat recs))) ds recs [] B1 HF Hnul) as (k2 & sz2 & -> & (A1 & A2 & A3 & A4 & A5)); cbn [alloc reserveSize]; [lia|lia|].
  cbn [app kernel outFd currentFd alloc mem reserveSize] in *. rewrite (sortNames_perm (filter nondot ds) (map fst es)); [|now rewrite Hpf|exact Hpf].
  assert (length (filter nondot ds) = length es) as Hfl by (rewrite Hpf; apply length_map). rewrite Hfl.
  eexists k2, sz2, _. split; [reflexivity|]. split; [lia|].
  split; [exact A1|]. split; [eapply same_files_trans; eassumption|]. split; [intros; rewrite A3; auto|]. split; congruence.
Qed.

(** ** One entry *)

Lemma leave_join t d nm : tar_ok t -> cwd t = join d nm -> (0 < length nm)%nat -> ~ In 47 nm ->
  tar_ok (leaveDirectory t) /\ cwd (leaveDirectory t) = d.
Proof using.
  intros (Hb & Hp & Hpl) Hc Hnm Hns.
  assert (length (cwd t) = prefixLen t) as Hlen by (unfold cwd; lens).
  assert (forall j, (j < prefixLen t)%nat -> get (prefix t) j = get (join d nm) j) as Hget.
  { intros j Hj. rewrite <- Hc. unfold cwd. now rewrite get_firstn. }
  assert (forall m, (m <= prefixLen t)%nat -> cwd (Tar (buffer t) (prefix t) m) = firstn m (join d nm)) as Hcwd.
  { intros m Hm. rewrite <- Hc. unfold cwd. cbn [prefix prefixLen]. now rewrite firstn_firstn, Nat.min_l. }
  assert (leave_loop (prefix t) (prefixLen t) = length d) as E.
  { rewrite <- Hlen, Hc in *. destruct d as [|c d]; unfold join in *.
    - apply leave_loop_all. intros j Hj. rewrite Hget by assumption. intros Ej. apply Hns. rewrite <- Ej. now apply nth_In.
    - set (D := c :: d) in *. assert (forall j, (length D < j < length D + 1 + length nm)%nat -> get (D ++ 47 :: nm) j <> 47) as Hj.
      { intros j Hj Ej. apply Hns. rewrite <- Ej. unfold get. rewrite app_nth2 by lia.
        replace (j - length D)%nat with (S (j - length D - 1)) by lia. cbn [nth]. apply nth_In. lia. }
      rewrite length_app in *. cbn [List.length] in *. replace (length D + S (length nm))%nat with (length D + 1 + length nm)%nat in * by lia.
      apply leave_loop_stop.
      + rewrite Hget by lia. unfold get. rewrite app_nth2, Nat.sub_diag by lia. reflexivity.
      + intros j Hj'. rewrite Hget by lia. now apply Hj. }
  unfold leaveDirectory. rewrite E. assert (length d <= length (join d nm))%nat as Hle by (destruct d; cbn; lens).
  assert (length d <= prefixLen t)%nat as Hle2 by (rewrite <- Hlen, Hc; exact Hle).
  split; [split; [exact Hb|split; cbn [prefix prefixLen]; [exact Hp|lia]]|]. rewrite Hcwd by assumption.
  destruct d as [|c d]; [reflexivity|]. unfold join. rewrite firstn_app_l, firstn_all2 by lia. reflexivity.
Qed.

Definition stable (k k' : world) : Prop := steady k' /\ same_files k k'.

Lemma cstrLen_no_nul nm : no_nul nm -> util_cstrLen nm = length nm.
Proof using. induction 1 as [|c nm Hc _ IH]; [reflexivity|]. cbn. rewrite (proj2 (Z.eqb_neq c 0)) by assumption. now rewrite IH. Qed.

(** Writing the record of an entry whose file or directory is open as [currentFd]. *)
Lemma write_entry fuel t s nm fs data : tar_ok t -> valid_name nm = true -> (length (cwd t) <= 155)%nat ->
  steady (kernel s) -> writable (kernel s) (outFd s) = true ->
  (fs = -1 \/ (fs = Z.of_nat (length data) /\ fs <= tar_MAX_FILE_SIZE /\ input (kernel s) (currentFd s) = data /\
               node (kernel s) (currentFd s) = Some (File data))) ->
  (0 < fs -> (length (input (kernel s) (currentFd s)) < fuel)%nat) ->
  exists t' s', writeRecord fuel t s nm (util_cstrLen nm) fs = (t', s', Some 0) /\
  tar_ok t' /\ prefix t' = prefix t /\ prefixLen t' = prefixLen t /\
  sink s' = sink s ++ Ustar.record (Ustar.Entry (cwd t) nm (if fs =? -1 then None else Some data)) /\
  stable (kernel s) (kernel s') /\ outFd s' = outFd s /\ currentFd s' = currentFd s /\ alloc s' = alloc s /\
  dents (kernel s') = dents (kernel s).
Proof using.
  intros Hok Hv Hd Hk Hw Hfs Hf. apply valid_name_spec in Hv as (Hlen & Hnul & _). rewrite cstrLen_no_nul by assumption.
  pose proof (writeRecord_spec fuel t s nm (length nm) fs Hok ltac:(lia) Hf) as Hwr.
  pose proof (writeRecord_keeps (fun s' => stable (kernel s) (kernel s') /\ outFd s' = outFd s /\ currentFd s' = currentFd s /\
    alloc s' = alloc s /\ dents (kernel s') = dents (kernel s))) as HK.
  specialize (fun A B => HK A B fuel t s nm (length nm) fs).
  destruct (writeRecord fuel t s nm (length nm) fs) as [[t' s'] r]. cbn [fst snd] in HK.
  destruct Hwr as (Hok' & Hp1 & Hp2 & code & -> & Hcode).
  assert (length (cwd t) = prefixLen t) as Hcl by (unfold cwd; destruct Hok as (_ & ? & ?); lens).
  assert (fs <= tar_MAX_FILE_SIZE) as Hmax by (unfold tar_MAX_FILE_SIZE in *; lia).
  assert (too_long t (length nm) fs = false) as Htl.
  { unfold too_long. rewrite !orb_false_iff. repeat split; [apply Nat.ltb_ge; lia|apply Nat.ltb_ge; lia|apply Z.ltb_ge; exact Hmax]. }
  rewrite Htl in Hcode. destruct Hcode as (_ & Hsink & Hrel).
  assert (code = 0) as ->.
  { destruct Hrel as [_ ->].
    - split; [exact Hk|]. split; [exact Hw|]. intros Hpos. apply Z.ltb_lt in Hpos. destruct Hfs as [->|(_ & _ & _ & Hn)]; [lia|eauto].
    - destruct Hfs as [->|(-> & _ & Hi & _)]; [reflexivity|]. cbn [source ix_laws]. rewrite Hi, Z.eqb_refl. now rewrite andb_false_r. }
  exists t', s'. split; [reflexivity|]. do 3 (split; [assumption|]). split.
  { destruct (Hsink eq_refl) as [-> _]. do 2 f_equal. unfold entry_of. rewrite firstn_all2 by lia. f_equal.
    destruct Hfs as [->|(-> & _ & Hi & _)]; [reflexivity|]. cbn [source ix_laws]. rewrite Hi.
    destruct (Z.ltb_spec (Z.of_nat (length data)) 0); [lia|]. destruct (Z.eqb_spec (Z.of_nat (length data)) (-1)); [lia|].
    rewrite Nat2Z.id, firstn_all. reflexivity. }
  apply HK; clear HK.
  - intros s1 b ([Hk1 Hs1] & H1' & H2' & H3' & H4'). cbn [writeBuffer ix_platform]. unfold ix_writeBuffer.
    pose proof (ix_writeAll_spec s1 (outFd s1) b) as Hs. pose proof (ix_writeAll_steady s1 (outFd s1) b Hk1) as Hst.
    destruct (ix_writeAll s1 (outFd s1) b) as [s2 r2]. destruct Hs as (k2 & -> & _). cbn [fst kernel set_kernel outFd currentFd alloc] in *.
    destruct Hst as (S1 & S2 & S3 & _). repeat split; try assumption; try congruence; eapply same_files_trans; eassumption.
  - intros s1 ([Hk1 Hs1] & H1' & H2' & H3' & H4'). cbn [readIntoBuffer ix_platform]. unfold ix_readIntoBuffer.
    pose proof (read_steady (kernel s1) (currentFd s1) buffer_size Hk1) as Hst.
    destruct (sys_read (kernel s1) (currentFd s1) buffer_size) as [[k2 r2] d2]. cbn [fst kernel set_kernel outFd currentFd alloc] in *.
    destruct Hst as (S1 & S2 & S3 & _). repeat split; try assumption; try congruence; eapply same_files_trans; eassumption.
  - repeat split; auto.
Qed.

(** From [(t, s)] to [(t', s')] the tool archived the entries [es] and is back in the same
    directory with the same files open. *)
Definition walked (t : tar) (s : ix) (t' : tar) (s' : ix) (es : list Ustar.entry) : Prop :=
  tar_ok t' /\ cwd t' = cwd t /\ stable (kernel s) (kernel s') /\ outFd s' = outFd s /\
  reserveSize (alloc s') = reserveSize (alloc s) /\ sink s' = sink s ++ concat (map Ustar.record es).

Lemma walked_refl t s : tar_ok t -> steady (kernel s) -> walked t s t s [].
Proof using. intros Ht Hs. split; [exact Ht|]. repeat split; auto. cbn [map List.concat]. now rewrite app_nil_r. Qed.

Lemma walked_trans t s t1 s1 t2 s2 es1 es2 : walked t s t1 s1 es1 -> walked t1 s1 t2 s2 es2 -> walked t s t2 s2 (es1 ++ es2).
Proof using.
  intros (_ & A2 & [_ A3] & A4 & A5 & A6) (B1 & B2 & [B3 B3'] & B4 & B5 & B6). split; [exact B1|]. split; [congruence|].
  split; [split; [exact B3|eapply same_files_trans; eassumption]|]. split; [congruence|]. split; [congruence|].
  rewrite B6, A6, map_app, concat_app, app_assoc. reflexivity.
Qed.

(** Opening a descriptor, keeping the files and closing it again. *)
Lemma open_close k k1 k2 fd tr : opened k k1 fd tr -> stable k1 k2 ->
  stable k (fst (sys_close k2 fd)) /\ output (fst (sys_close k2 fd)) = output k2.
Proof using.
  intros (_ & _ & Hn & Hw & _ & Hx & Hr & Hwr & _ & _) [Hk2 (S1 & S2 & S3)].
  destruct (close_fd k2 fd Hk2) as (C1 & C2 & C3 & C4 & C5 & C6). split; [|exact C4]. split; [exact C1|]. repeat split.
  - intros x. destruct (Z.eq_dec x fd) as [->|Hne]; [congruence|]. destruct (C6 x Hne) as [-> _]. rewrite S1. now apply Hx.
  - intros p. now rewrite C5, S2, Hr.
  - intros x. destruct (Z.eq_dec x fd) as [->|Hne]; [congruence|]. destruct (C6 x Hne) as (_ & _ & _ & ->). now rewrite S3, Hwr.
Qed.

Section Step.
Context (fuel : nat) (t : tar) (s : ix) (off asz fd : Z) (nm : list Z) (names : list (list Z)) (stack : list frame).
Context (es : list (list Z * tree)) (tr : tree).
Context (Hok : tar_ok t) (Hk : steady (kernel s)) (Hw : writable (kernel s) (outFd s) = true).
Context (Hd : node (kernel s) fd = Some (Dir es)) (Hl : lookup nm es = Some tr).
Context (Hv : valid_name nm = true) (Hcwd : (length (cwd t) <= 155)%nat).
Abbreviation here := (Frame off (nm :: names) fd :: stack).
Abbreviation next := (Frame off names fd :: stack).

Lemma file_step data : tr = File data -> Z.of_nat (length data) <= tar_MAX_FILE_SIZE -> (length data <= fuel)%nat ->
  exists t' s', add_loop PAGE (S fuel) t s here asz = add_loop PAGE fuel t' s' next asz /\
  walked t s t' s' [Ustar.Entry (cwd t) nm (Some data)].
Proof using Hok Hk Hw Hd Hl Hv Hcwd.
  intros -> Hmax Hf. cbn [add_loop fr_names fr_rootFd fr_offset].
  pose proof (open_entry (kernel s) fd es nm _ Hk Hd Hl) as Ho. destruct (sys_openat _ _ _ _ _) as [k1 fd1].
  pose proof Ho as (O1 & O2 & O3 & O4 & O5 & O6 & O7 & O8 & O9 & O10). rewrite (proj2 (Z.ltb_ge _ _)) by lia.
  cbn [kernel set_kernel set_currentFd currentFd outFd alloc].
  pose proof (fstat_fd k1 fd1 _ O2 O5) as Hst. destruct (sys_fstat k1 fd1) as [k2 [[status mode] size]].
  destruct Hst as (F1 & F2 & F3 & F4 & F5 & -> & F6 & F7 & ->). rewrite F6, F7. change (0 <? 0) with false. cbn [negb andb].
  set (s2 := set_kernel _ k2).
  assert (node k2 fd1 = Some (File data)) as Hn2 by (rewrite (proj1 F2); exact O5).
  assert (input k2 fd1 = data) as Hi2 by (rewrite F4; exact O10).
  destruct (write_entry (S fuel) t s2 nm (Z.of_nat (length data)) data) as (t' & s' & -> & W1 & W2 & W3 & W4 & W5 & W6 & W7 & W8 & W9);
    try assumption; cbn [s2 kernel set_kernel set_currentFd currentFd outFd alloc] in *.
  { rewrite (proj2 (proj2 F2)), O8. exact Hw. }
  { right. auto. }
  { intros _. rewrite Hi2. lia. }
  rewrite (proj2 (Z.ltb_ge 0 0)), (proj2 (Z.ltb_ge (Z.of_nat (length data)) 0)) by lia.
  exists t', (ix_close s' (currentFd s')). split; [reflexivity|].
  assert (stable k1 (kernel s')) as Hst by (split; [apply W5|eapply same_files_trans; [exact F2|apply W5]]).
  destruct (open_close _ _ _ _ _ Ho Hst) as [Hs Hout]. rewrite W7.
  split; [exact W1|]. split; [unfold cwd; now rewrite W2, W3|]. split; [exact Hs|]. split; [exact W6|]. split; [now rewrite <- W8|].
  cbn [ix_close sink ix_laws kernel set_kernel outFd]. rewrite Hout.
  cbn [sink ix_laws] in W4. rewrite W4. cbn [s2 kernel set_kernel set_currentFd outFd]. rewrite F5, O9.
  cbn [map List.concat]. rewrite app_nil_r. destruct (Z.eqb_spec (Z.of_nat (length data)) (-1)); [lia|reflexivity].
Qed.

Lemma dir_step es' : tr = Dir es' -> Forall (fun nm => valid_name nm = true) (map fst es') -> (length es' + 2 <= fuel)%nat ->
  0 <= asz -> asz + 600 + 288 * Z.of_nat (length es') + 8192 + PAGE <= reserveSize (alloc s) ->
  exists t' s' k' fd' asz',
  add_loop PAGE (S fuel) t s here asz = add_loop PAGE fuel t' s' (Frame asz (sortNames (map fst es')) fd' :: next) asz' /\
  tar_ok t' /\ cwd t' = join (cwd t) nm /\ opened (kernel s) k' fd' (Dir es') /\ stable k' (kernel s') /\ outFd s' = outFd s /\
  reserveSize (alloc s') = reserveSize (alloc s) /\ sink s' = sink s ++ Ustar.record (Ustar.Entry (cwd t) nm None) /\
  asz <= asz' <= asz + 600 + 288 * Z.of_nat (length es').
Proof using Hok Hk Hw Hd Hl Hv Hcwd HpageShift.
  pose proof (valid_name_spec nm Hv) as Hv'. intros -> Hvs Hf Hasz Hroom. cbn [add_loop fr_names fr_rootFd fr_offset].
  pose proof (open_entry (kernel s) fd es nm _ Hk Hd Hl) as Ho. destruct (sys_openat _ _ _ _ _) as [k1 fd1].
  pose proof Ho as (O1 & O2 & O3 & O4 & O5 & O6 & O7 & O8 & O9 & O10). rewrite (proj2 (Z.ltb_ge _ _)) by lia.
  cbn [kernel set_kernel set_currentFd currentFd outFd alloc].
  pose proof (fstat_fd k1 fd1 _ O2 O5) as Hst. destruct (sys_fstat k1 fd1) as [k2 [[status mode] size]].
  destruct Hst as (F1 & F2 & F3 & F4 & F5 & -> & F6). rewrite F6. change (0 <? 0) with false. cbn [negb andb].
  set (s2 := set_kernel _ k2).
  destruct (write_entry (S fuel) t s2 nm (-1) []) as (t' & s' & -> & W1 & W2 & W3 & W4 & W5 & W6 & W7 & W8 & W9);
    try assumption; cbn [s2 kernel set_kernel set_currentFd currentFd outFd alloc] in *.
  { rewrite (proj2 (proj2 F2)), O8. exact Hw. }
  { now left. }
  { lia. }
  change (0 <? 0) with false. change (-1 <? 0) with true. cbv iota.
  assert (cwd t' = cwd t) as Hc' by (unfold cwd; now rewrite W2, W3). destruct Hv' as (Hlen & Hnul & Hns & _).
  assert (prefixLen t' <= 155)%nat as Hpl.
  { rewrite W3. destruct Hok as (_ & ? & ?). unfold cwd in Hcwd. rewrite length_firstn in Hcwd. lia. }
  rewrite cstrLen_no_nul by assumption.
  pose proof (enterDirectory_spec t' nm (length nm) W1 ltac:(lia) ltac:(lia) Hpl) as He. rewrite firstn_all in He. specialize (He Hns).
  destruct (enterDirectory t' nm (length nm)) as [t1 r1]. destruct He as (_ & E1 & E2 & _). cbn [fst].
  destruct (push_directory_spec (S fuel) s' next asz es') as (k3 & sz & asz' & -> & Hasz' & (P1 & P2 & P3 & P4 & P5));
    rewrite ?W7, ?W8; try assumption; try lia.
  { apply W5. }
  { rewrite (proj1 (proj2 W5)), (proj1 F2). exact O5. }
  { rewrite W9. cbn [s2 kernel set_kernel set_currentFd]. rewrite F3. exact O10. }
  exists t1, (Ix k3 (outFd s') fd1 (Allocator (mem (alloc s)) sz (reserveSize (alloc s)))), k1, fd1, asz'.
  split; [reflexivity|]. split; [exact E1|]. split; [now rewrite E2, Hc'|]. split; [exact Ho|].
  cbn [kernel outFd alloc reserveSize]. split.
  { split; [exact P1|]. eapply same_files_trans; [exact F2|]. eapply same_files_trans; [apply W5|exact P2]. }
  split; [exact W6|]. split; [reflexivity|]. split; [|exact Hasz'].
  cbn [sink ix_laws kernel outFd] in *. rewrite P5, W4. cbn [s2 kernel set_kernel set_currentFd outFd Z.eqb Pos.eqb]. now rewrite F5, O9.
Qed.
End Step.

(** ** The whole walk *)

Definition childneed (n : nat) (es : list (list Z * tree)) : Z :=
  fold_right Z.max 0 (map (fun e => match snd e with File _ => 0 | Dir es' => need n es' end) es).

Definition listing_names (n : nat) (d : list Z) (es : list (list Z * tree)) (names : list (list Z)) : list Ustar.entry :=
  flat_map (fun nm =>
    match lookup nm es with
    | Some (File data) => [Ustar.Entry d nm (Some data)]
    | Some (Dir es') => Ustar.Entry d nm None :: listing n (join d nm) es'
    | None => []
    end) names.

Lemma lookup_In nm es : In nm (map fst es) -> exists tr, lookup nm es = Some tr /\ In (nm, tr) es.
Proof using.
  unfold lookup, name_eqb. induction es as [|[a tr] es IH]; cbn [map fst find]; [intros []|].
  destruct (list_eq_dec Z.eq_dec a nm) as [->|Hne]; [intros _; exists tr; split; [reflexivity|now left]|].
  intros [E|Hin]; [congruence|]. destruct (IH Hin) as (tr' & E & Hin'). exists tr'. split; [exact E|now right].
Qed.

Lemma childneed_le n es nm es' : In (nm, Dir es') es -> need n es' <= childneed n es.
Proof using.
  unfold childneed. induction es as [|[a tr] es IH]; [intros []|]. cbn [map fold_right snd].
  intros [[= -> ->]|Hin]; [lia|]. specialize (IH Hin). lia.
Qed.

Lemma need_nonneg n : forall es, 0 <= need n es.
Proof using.
  destruct n as [|n]; intros es; cbn [need]; [lia|]. fold (childneed n es).
  assert (0 <= childneed n es); [|lia]. unfold childneed. induction es as [|e es IH]; cbn [map fold_right]; lia.
Qed.

Lemma weight_le n es nm tr : In (nm, tr) es ->
  (match tr with File data => 2 + length data | Dir es' => 2 + weight n es' end <= weight (S n) es)%nat.
Proof using.
  cbn [weight]. intros Hin.
  set (w := fun e : list Z * tree => match snd e with File data => (2 + length data)%nat | Dir es' => (2 + weight n es')%nat end).
  enough (w (nm, tr) <= list_sum (map w es))%nat by (change (match tr with File data => 2 + length data | Dir es' => 2 + weight n es' end)%nat with (w (nm, tr)); lia).
  clearbody w. induction es as [|e es IH]; [destruct Hin|]. cbn [map list_sum fold_right]. destruct Hin as [->|Hin]; [lia|].
  specialize (IH Hin). unfold list_sum in IH. lia.
Qed.

Lemma fits_entry n d es nm tr : fits (S n) d es = true -> In (nm, tr) es ->
  valid_name nm = true /\ (length d <= 155)%nat /\
  match tr with File data => Z.of_nat (length data) <= tar_MAX_FILE_SIZE | Dir es' => fits n (join d nm) es' = true end.
Proof using.
  cbn [fits]. rewrite andb_true_iff, forallb_forall. intros [_ Hf] Hin. specialize (Hf _ Hin). cbn [fst snd] in Hf.
  rewrite !andb_true_iff in Hf. destruct Hf as [[Hv Hd] Hf]. apply Nat.leb_le in Hd. repeat split; [exact Hv|exact Hd|].
  destruct tr; [now apply Z.leb_le|exact Hf].
Qed.

Lemma fits_names n d es : fits n d es = true -> exists n', n = S n' /\ Forall (fun nm => valid_name nm = true) (map fst es).
Proof using.
  destruct n as [|n]; [discriminate|]. intros Hf. exists n. split; [reflexivity|]. apply Forall_forall. intros nm Hin.
  apply in_map_iff in Hin as ((nm' & tr) & <- & Hin). now apply (fits_entry n d es nm' tr) in Hf.
Qed.

Definition walks (n : nat) (d : list Z) (es : list (list Z * tree)) (names : list (list Z)) : Prop :=
  exists m, forall t s off fd stack asz fuel,
  tar_ok t -> cwd t = d -> steady (kernel s) -> writable (kernel s) (outFd s) = true -> node (kernel s) fd = Some (Dir es) ->
  0 <= asz -> asz + childneed n es + 8192 + PAGE <= reserveSize (alloc s) -> (weight (S n) es <= fuel)%nat ->
  exists t' s', add_loop PAGE (m + fuel) t s (Frame off names fd :: stack) asz = add_loop PAGE fuel t' s' (Frame off [] fd :: stack) asz /\
  walked t s t' s' (listing_names n d es names).

Lemma walk_file n d es nm names data : fits (S n) d es = true -> lookup nm es = Some (File data) -> In (nm, File data) es ->
  walks n d es names -> walks n d es (nm :: names).
Proof using HpageShift.
  intros Hfit Hl Hin [m IH]. exists (S m). intros t s off fd stack asz fuel Hok Hc Hk Hw Hn Hasz Hroom Hf.
  destruct (fits_entry n d es nm _ Hfit Hin) as (Hv & Hd & Hmax). pose proof (weight_le n es nm _ Hin) as Hwt. cbn beta iota in Hwt.
  destruct (file_step (m + fuel) t s off asz fd nm names stack es (File data) Hok Hk Hw Hn Hl Hv ltac:(now rewrite Hc) data eq_refl Hmax ltac:(lia))
    as (t1 & s1 & E1 & W1). cbn [Nat.add]. rewrite E1.
  pose proof W1 as (A1 & A2 & [A3 (A4 & A5 & A6)] & A7 & A8 & _).
  destruct (IH t1 s1 off fd stack asz fuel) as (t2 & s2 & E2 & W2); try assumption; try congruence.
  exists t2, s2. split; [exact E2|]. unfold listing_names. cbn [flat_map]. rewrite Hl, <- Hc. eapply walked_trans; [exact W1|]. now rewrite Hc.
Qed.

(** Entering [nm], archiving its entries and coming back. *)
Lemma visit_dir n d es nm es' names : fits (S (S n)) d es = true -> lookup nm es = Some (Dir es') -> In (nm, Dir es') es ->
  walks n (join d nm) es' (sortNames (map fst es')) ->
  exists m, forall t s off fd stack asz fuel,
  tar_ok t -> cwd t = d -> steady (kernel s) -> writable (kernel s) (outFd s) = true -> node (kernel s) fd = Some (Dir es) ->
  0 <= asz -> asz + childneed (S n) es + 8192 + PAGE <= reserveSize (alloc s) -> (weight (S (S n)) es <= fuel)%nat ->
  exists t' s', add_loop PAGE (m + fuel) t s (Frame off (nm :: names) fd :: stack) asz = add_loop PAGE fuel t' s' (Frame off names fd :: stack) asz /\
  walked t s t' s' (Ustar.Entry d nm None :: listing (S n) (join d nm) es').
Proof using HpageShift.
  intros Hfit Hl Hin [m IH]. exists (S (m + 1)). intros t s off fd stack asz fuel Hok Hc Hk Hw Hn Hasz Hroom Hf.
  destruct (fits_entry (S n) d es nm _ Hfit Hin) as (Hv & Hd & Hfit'). pose proof (weight_le (S n) es nm _ Hin) as Hwt. cbn beta iota in Hwt.
  destruct (fits_names (S n) _ _ Hfit') as (_ & _ & Hvs). pose proof (childneed_le (S n) es nm es' Hin) as Hcn.
  cbn [need] in Hcn. fold (childneed n es') in Hcn. assert (0 <= childneed n es') as Hcn0.
  { pose proof (need_nonneg (S n) []) as Hnn. unfold childneed. clear. induction es'; cbn [map fold_right]; lia. }
  assert (length es' + 2 <= weight (S n) es')%nat as Hw2 by (cbn [weight]; lia).
  destruct (dir_step (m + 1 + fuel) t s off asz fd nm names stack es (Dir es') Hok Hk Hw Hn Hl Hv ltac:(now rewrite Hc) es' eq_refl Hvs ltac:(lia) Hasz ltac:(lia))
    as (t1 & s1 & k1 & fd1 & asz1 & E1 & D1 & D2 & D3 & D4 & D5 & D6 & D7 & D8).
  cbn [Nat.add]. rewrite E1, <- Nat.add_assoc. cbn [Nat.add].
  pose proof D3 as (_ & _ & _ & _ & O5 & _ & _ & O8 & _). pose proof D4 as [D41 (D42 & _ & D44)].
  destruct (IH t1 s1 asz fd1 (Frame off names fd :: stack) asz1 (S fuel)) as (t2 & s2 & E2 & (W1 & W2 & W3 & W4 & W5 & W6)); try assumption; try lia.
  { now rewrite D2, Hc. }
  { rewrite D5, D44, O8. exact Hw. }
  { now rewrite D42. }
  rewrite E2. cbn [add_loop fr_names fr_rootFd fr_offset].
  assert (stable k1 (kernel s2)) as Hst by (split; [apply W3|eapply same_files_trans; [apply D4|apply W3]]).
  destruct (open_close _ _ _ _ _ D3 Hst) as [Hs Hout].
  pose proof (valid_name_spec nm Hv) as (Hlen & _ & Hns & _).
  destruct (leave_join t2 (cwd t) nm W1 ltac:(congruence) ltac:(lia) Hns) as [L1 L2].
  exists (leaveDirectory t2), (ix_close s2 fd1). split; [reflexivity|].
  split; [exact L1|]. split; [exact L2|]. split; [exact Hs|]. split; [cbn; congruence|]. split; [cbn; congruence|].
  cbn [ix_close sink ix_laws kernel set_kernel outFd map List.concat] in *. rewrite Hout, W6, D7, <- Hc, <- app_assoc. reflexivity.
Qed.

Lemma walk n : forall d es, fits (S n) d es = true -> forall names, incl names (map fst es) -> walks n d es names.
Proof using HpageShift.
  induction n as [|n IH]; intros d es Hfit; induction names as [|nm names IHn]; intros Hincl.
  1, 3: exists 0%nat; intros t s off fd stack asz fuel Hok Hc Hk _ _ _ _ _; exists t, s; split; [reflexivity|]; now apply walked_refl.
  all: destruct (lookup_In nm es (Hincl _ (or_introl eq_refl))) as ([data|es'] & Hl & Hin);
    specialize (IHn (fun x Hx => Hincl x (or_intror Hx))).
  1, 3: now apply (walk_file _ d es nm names data).
  - now destruct (fits_entry 0 d es nm _ Hfit Hin) as (_ & _ & ?).
  - destruct (fits_entry (S n) d es nm _ Hfit Hin) as (_ & _ & Hfit').
    destruct (visit_dir n d es nm es' names Hfit Hl Hin) as [m1 V].
    { apply IH; [exact Hfit'|]. intros x Hx. now rewrite (proj2 (sortNames_spec (map fst es'))) in Hx. }
    destruct IHn as [m2 IHn]. exists (m1 + m2)%nat. intros t s off fd stack asz fuel Hok Hc Hk Hw Hn Hasz Hroom Hf.
    rewrite <- Nat.add_assoc. destruct (V t s off fd stack asz (m2 + fuel)%nat) as (t1 & s1 & -> & W1); try assumption; try lia.
    pose proof W1 as (A1 & A2 & [A3 (A4 & A5 & A6)] & A7 & A8 & _).
    destruct (IHn t1 s1 off fd stack asz fuel) as (t2 & s2 & -> & W2); try assumption; try congruence.
    exists t2, s2. split; [reflexivity|]. unfold listing_names. cbn [flat_map]. rewrite Hl. eapply walked_trans; eassumption.
Qed.

Lemma add_spec n t s path es :
  tar_ok t -> steady (kernel s) -> writable (kernel s) (outFd s) = true -> root (kernel s) path = Some (Dir es) ->
  fits n (cwd t) es = true -> need n es + 8192 + PAGE <= reserveSize (alloc s) ->
  exists N, forall fuel, (N <= fuel)%nat ->
  exists t' s', add PAGE fuel t s path = (t', s', Some 0) /\ walked t s t' s' (listing n (cwd t) es).
Proof using HpageShift.
  intros Hok Hk Hw Hr Hfit Hroom. destruct (fits_names n _ _ Hfit) as (n' & -> & Hvs). cbn [need] in Hroom. fold (childneed n' es) in Hroom.
  assert (0 <= childneed n' es) as Hcn by (unfold childneed; clear; induction es; cbn [map fold_right]; lia).
  destruct (walk n' (cwd t) es Hfit (sortNames (map fst es))) as [m Hwalk].
  { intros x Hx. now rewrite (proj2 (sortNames_spec (map fst es))) in Hx. }
  exists (m + S (weight (S n') es))%nat. intros fuel Hf. unfold add.
  pose proof (open_root (kernel s) path _ Hk Hr) as Ho. destruct (sys_openat _ _ _ _ _) as [k1 fd1].
  pose proof Ho as (O1 & O2 & O3 & O4 & O5 & O6 & O7 & O8 & O9 & O10). rewrite (proj2 (Z.ltb_ge _ _)) by lia.
  set (s1 := set_currentFd _ fd1). assert (length es + 4 <= weight (S n') es)%nat as Hwt by (cbn [weight]; lia).
  destruct (push_directory_spec fuel s1 [] 0 es) as (k2 & sz & asz & -> & Hasz & (P1 & P2 & _ & _ & P5)); try assumption; try lia; [cbn [s1 set_currentFd set_kernel alloc]; lia|].
  set (s2 := Ix k2 _ _ _). assert (kernel s2 = k2 /\ outFd s2 = outFd s /\ reserveSize (alloc s2) = reserveSize (alloc s)) as (K2 & F2 & R2) by auto.
  replace fuel with (m + S (fuel - m - 1))%nat by lia.
  destruct (Hwalk t s2 0 fd1 [] asz (S (fuel - m - 1))) as (t' & s' & E & (W1 & W2 & W3 & W4 & W5 & W6)); rewrite ?K2, ?F2, ?R2; try assumption; try lia; try reflexivity.
  { now rewrite (proj2 (proj2 P2)), O8. }
  { now rewrite (proj1 P2). }
  cbn [currentFd s1 set_currentFd]. rewrite E. cbn [add_loop fr_names fr_rootFd].
  assert (stable k1 (kernel s')) as Hst by (split; [apply W3|eapply same_files_trans; [exact P2|apply W3]]).
  destruct (open_close _ _ _ _ _ Ho Hst) as [Hs Hout]. exists t', (ix_close s' fd1). split; [reflexivity|].
  split; [exact W1|]. split; [exact W2|]. split; [exact Hs|]. split; [exact W4|]. split; [cbn; congruence|].
  cbn [ix_close sink ix_laws kernel set_kernel outFd] in *. rewrite Hout, W6, K2, P5. cbn [s1 s2 kernel set_kernel set_currentFd outFd]. now rewrite O9.
Qed.

(** C38: on a kernel whose calls keep their promises and do not fail, [add] of a directory
    whose names, paths and sizes fit returns 0 after appending to the output exactly the
    ustar records of the tree, every directory's entries in the order of their names and
    each directory before its contents; the working directory inside the archive is the
    same afterwards and no descriptor is left open. *)
Theorem tar_add_correct n t s path es :
  tar_ok t -> steady (kernel s) -> writable (kernel s) (outFd s) = true -> root (kernel s) path = Some (Dir es) ->
  fits n (cwd t) es = true -> need n es + 8192 + PAGE <= reserveSize (alloc s) ->
  exists N, forall fuel, (N <= fuel)%nat ->
  let '(t', s', r) := add PAGE fuel t s path in
  r = Some 0 /\ tar_ok t' /\ cwd t' = cwd t /\
  output (kernel s') (outFd s) = output (kernel s) (outFd s) ++ concat (map Ustar.record (listing n (cwd t) es)) /\
  (forall fd, node (kernel s') fd = node (kernel s) fd).
Proof using HpageShift.
  intros Hok Hk Hw Hr Hfit Hroom. destruct (add_spec n t s path es Hok Hk Hw Hr Hfit Hroom) as [N HN].
  exists N. intros fuel Hf. destruct (HN fuel Hf) as (t' & s' & -> & (W1 & W2 & W3 & W4 & W5 & W6)).
  repeat split; try assumption; try apply W1; [|apply W3]. rewrite <- W4 at 1. exact W6.
Qed.
End AddSpec.

(** ** A concrete kernel

    One tree under the path [in]; descriptor 1 is the output; descriptors are never
    reused; a directory is read one entry at a time. *)
Module DemoKernel.

Record kern := Kern {
  nodes : Z -> option tree; dentsF : Z -> list (list Z); inputF : Z -> list Z;
  next : Z; out : list Z; out_open : bool; tree0 : list (list Z * tree) }.

Definition upd {A} (f : Z -> A) (fd : Z) (v : A) : Z -> A := fun x => if x =? fd then v else f x.

Definition open_tree (k : kern) (t : option tree) : kern * Z :=
  match t with
  | None => (k, -2)
  | Some t =>
      (Kern (upd (nodes k) (next k) (Some t))
            (upd (dentsF k) (next k) (match t with File _ => [] | Dir es => str "." :: str ".." :: map fst es end))
            (upd (inputF k) (next k) (match t with File data => data | Dir _ => [] end))
            (next k + 1) (out k) (out_open k) (tree0 k), next k)
  end.

Definition dirent (nm : list Z) : list Z :=
  let n := Z.of_nat (20 + length nm) in repeat 0 16 ++ [n mod 256; n / 256; 0] ++ nm ++ [0].

Definition root_of (k : kern) (p : list Z) : option tree := if name_eqb p (str "in") then Some (Dir (tree0 k)) else None.

#[global] Instance kern_files : FileOps kern := {
  sys_write k fd b :=
    if (fd =? 1) && out_open k
    then (Kern (nodes k) (dentsF k) (inputF k) (next k) (out k ++ b) true (tree0 k), Z.of_nat (length b))
    else (k, -9);
  sys_read k fd n :=
    (Kern (nodes k) (dentsF k) (upd (inputF k) fd (skipn n (inputF k fd))) (next k) (out k) (out_open k) (tree0 k),
     Z.of_nat (Nat.min n (length (inputF k fd))), firstn n (inputF k fd)) }.

#[global] Instance kern_file_laws : FileLaws kern.
Proof.
  refine {| output k fd := if fd =? 1 then out k else []; input := inputF; patience _ := 0%nat |};
    cbn [sys_write sys_read kern_files fst snd].
  - intros k fd b. destruct ((fd =? 1) && out_open k); cbn; [lia|reflexivity].
  - intros k fd b. destruct (Z.eqb_spec fd 1), (out_open k); cbn; try lia. intros _. split; [lia|]. now rewrite Nat2Z.id, firstn_all.
  - intros k fd b fd' Hne. destruct (Z.eqb_spec fd 1), (Z.eqb_spec fd' 1), (out_open k); cbn; congruence.
  - intros k fd b. now destruct ((fd =? 1) && out_open k).
  - intros k fd b Hb. unfold EINTR. destruct ((fd =? 1) && out_open k); cbn [fst snd]; [|lia]. destruct b; [congruence|]. cbn [List.length]. lia.
  - intros k fd n. lia.
  - intros k fd n. split; lia.
  - intros k fd n _. split; [lia|]. rewrite Nat2Z.id. cbn [inputF]. unfold upd. rewrite Z.eqb_refl.
    destruct (Nat.min_spec n (length (inputF k fd))) as [[? ->]|[? ->]]; [repeat split; auto; rewrite length_firstn; lia|].
    rewrite firstn_all, !skipn_all2, (firstn_all2 (inputF _ _)) by lia. auto.
  - reflexivity.
  - intros k fd n fd' Hne. cbn [inputF]. unfold upd. now rewrite (proj2 (Z.eqb_neq _ _) Hne).
  - intros k fd n Hn E. destruct (inputF k fd); [reflexivity|]. cbn [List.length] in E. lia.
  - intros k fd n. unfold EINTR. lia.
Defined.

#[global] Instance kern_dirs : DirOps kern := {
  sys_openat k fd nm flags mode :=
    if flags =? 0 then open_tree k (if fd =? AT_FDCWD then root_of k nm
                 else match nodes k fd with Some (Dir es) => lookup nm es | _ => None end)
    else if name_eqb nm (str "out") && negb (out_open k)
    then (Kern (nodes k) (dentsF k) (inputF k) (next k) [] true (tree0 k), 1) else (k, -17);
  sys_close k fd :=
    (Kern (upd (nodes k) fd None) (dentsF k) (inputF k) (next k) (out k) (out_open k && negb (fd =? 1)) (tree0 k), 0);
  sys_getdents k fd n :=
    let data := concat (map dirent (firstn 1 (dentsF k fd))) in
    (Kern (nodes k) (upd (dentsF k) fd (skipn 1 (dentsF k fd))) (inputF k) (next k) (out k) (out_open k) (tree0 k),
     Z.of_nat (length data), data);
  sys_fstat k fd :=
    match nodes k fd with
    | None => (k, (-9, 0, 0))
    | Some (File data) => (k, (0, S_IFREG, Z.of_nat (length data)))
    | Some (Dir _) => (k, (0, S_IFDIR, 4096))
    end }.

#[global] Instance kern_heap : Heap kern := {
  heap_reserve k n := (k, 4096); heap_unreserve k a n := k; heap_commit k a n := (k, 0); heap_decommit k a n := k }.

Lemma dirent_ok nm : (length nm <= 255)%nat -> is_dirent nm (dirent nm).
Proof.
  intros Hn. unfold is_dirent, dirent. set (n := Z.of_nat (20 + length nm)).
  assert (get (repeat 0 16 ++ [n mod 256; n / 256; 0] ++ nm ++ [0]) 16 = n mod 256) as -> by reflexivity.
  assert (get (repeat 0 16 ++ [n mod 256; n / 256; 0] ++ nm ++ [0]) 17 = n / 256) as -> by reflexivity.
  assert (length (repeat 0 16 ++ [n mod 256; n / 256; 0] ++ nm ++ [0]) = (20 + length nm)%nat) as -> by lens.
  split; [lia|]. split; [fold n; pose proof (Z.div_mod n 256 ltac:(lia)); lia|].
  change (firstn (length nm + 1) (nm ++ [0]) = nm ++ [0]). apply firstn_all2. lens.
Qed.

Ltac upd := cbn [nodes dentsF inputF next out out_open tree0]; unfold upd;
  repeat first [rewrite Z.eqb_refl | rewrite (proj2 (Z.eqb_neq _ _)) by (lia || congruence)].

(** Descriptors from [next] on, and negative ones, are not open. *)
Definition kern_steady (k : kern) : Prop := 3 <= next k /\ forall x, next k <= x \/ x < 0 -> nodes k x = None.
Definition kern_writable (k : kern) (fd : Z) : bool := (fd =? 1) && out_open k.

Lemma open_tree_ok k t : kern_steady k -> let '(k', fd) := open_tree k (Some t) in
  0 <= fd /\ kern_steady k' /\ nodes k fd = None /\ kern_writable k fd = false /\ nodes k' fd = Some t /\
  (forall x, x <> fd -> nodes k' x = nodes k x /\ dentsF k' x = dentsF k x /\ input k' x = input k x) /\
  (forall p, root_of k' p = root_of k p) /\ (forall x, kern_writable k' x = kern_writable k x) /\ output k' = output k /\
  match t with
  | File data => input k' fd = data
  | Dir es => Permutation (dentsF k' fd) (str "." :: str ".." :: map fst es)
  end.
Proof.
  intros [Hn Hk]. cbn [open_tree]. split; [lia|]. split; [split; upd; [lia|intros x Hx; upd; apply Hk; lia]|].
  split; [apply Hk; lia|]. unfold kern_writable. split; [now rewrite (proj2 (Z.eqb_neq _ _)) by lia|]. cbn [input kern_file_laws].
  upd. split; [reflexivity|]. split; [intros x Hx; upd; auto|]. repeat split. now destruct t; upd.
Qed.

#[global] Instance kern_tar : TarKernel kern.
Proof.
  refine {| node := nodes; dents := dentsF; root := root_of; writable := kern_writable; steady := kern_steady;
            absent k p _ := name_eqb p (str "out") && negb (out_open k) |}.
  - intros k fd es nm t Hk Hd Hl. cbn [sys_openat kern_dirs]. assert (fd <> AT_FDCWD) as Hne.
    { intros ->. destruct Hk as [_ Hk]. rewrite Hk in Hd by (unfold AT_FDCWD; lia). discriminate. }
    change (O_RDONLY =? 0) with true. cbv iota. rewrite (proj2 (Z.eqb_neq _ _) Hne), Hd, Hl. now apply open_tree_ok.
  - intros k p t Hk Hr. cbn [sys_openat kern_dirs]. rewrite Z.eqb_refl, Hr. now apply open_tree_ok.
  - intros k p [Hn Hk] [_ Ha]. cbn [sys_openat kern_dirs]. rewrite Ha. repeat split; try assumption; lia.
  - intros k fd [Hn Hk]. cbn [sys_close kern_dirs fst]. unfold kern_writable. split.
    { split; upd; [exact Hn|]. intros x Hx. unfold upd. destruct (x =? fd); auto. }
    upd. split; [reflexivity|]. split; [destruct (fd =? 1), (out_open k); reflexivity|]. split; [reflexivity|]. split; [reflexivity|].
    intros x Hx. upd. repeat split. destruct (Z.eqb_spec x 1), (Z.eqb_spec fd 1), (out_open k); cbn; congruence.
  - intros k fd t Hk Hd. cbn [sys_fstat kern_dirs]. rewrite Hd. destruct t; repeat split; try apply Hk; auto.
  - intros k fd es n Hk Hd Hn Hmax. cbn [sys_getdents kern_dirs]. split; [exact Hk|]. repeat (split; [repeat split; intros; upd; reflexivity|]).
    exists (firstn 1 (dentsF k fd)), (map dirent (firstn 1 (dentsF k fd))). upd.
    split; [symmetry; apply firstn_skipn|]. split; [|split; [reflexivity|destruct (dentsF k fd); cbn; congruence]].
    destruct Hmax as [|nm l Hnm Hmax]; cbn [firstn map]; [constructor|]. constructor; [now apply dirent_ok|constructor].
  - intros k fd b Hk. cbn [sys_write kern_files]. fold (kern_writable k fd).
    destruct (kern_writable k fd) eqn:E; repeat split; try apply Hk; try congruence; try lia.
    intros x. unfold kern_writable in *. cbn [out_open]. apply andb_true_iff in E as [_ ->]. reflexivity.
  - intros k fd n Hk. cbn [sys_read kern_files]. split; [exact Hk|]. repeat split. intros; lia.
  - intros k n Hk. repeat split; try apply Hk; lia.
  - reflexivity.
  - intros k a n Hk. repeat split; try apply Hk; lia.
  - intros k a n Hk. repeat split; apply Hk.
Defined.

Definition demo_tree : list (list Z * tree) :=
  [(str "d", Dir [(str "e", File [])]); (str "a.txt", File (str "hello"))].

Definition demo_kern : kern := Kern (fun _ => None) (fun _ => []) (fun _ => []) 3 [] true demo_tree.
End DemoKernel.
Import DemoKernel.

Lemma tar_add_correct_witness :
  let t := Tar (repeat 0 buffer_size) (repeat 0 prefix_size) 0 in
  let s := Ix demo_kern 1 0 (Allocator 4096 0 (2 ^ 32)) in
  exists fuel, let '(_, s', r) := add (2 ^ 12) fuel t s (str "in") in
  r = Some 0 /\
  out (kernel s') = concat (map Ustar.record
    [Ustar.Entry [] (str "a.txt") (Some (str "hello")); Ustar.Entry [] (str "d") None; Ustar.Entry (str "d") (str "e") (Some [])]).
Proof.
  intros t s. destruct (tar_add_correct 12 ltac:(lia) 2 t s (str "in") demo_tree) as [N HN].
  - split; [apply repeat_length|split; [apply repeat_length|apply Nat.le_0_l]].
  - split; [cbn; lia|reflexivity].
  - reflexivity.
  - reflexivity.
  - vm_compute. reflexivity.
  - vm_compute. discriminate.
  - exists N. specialize (HN N (Nat.le_refl N)). destruct (add (2 ^ 12) N t s (str "in")) as [[t' s'] r].
    destruct HN as (-> & _ & _ & Ho & _). split; [reflexivity|]. exact Ho.
Defined.

Lemma writeRecord_correct_witness :
  let t := Tar (repeat 0 buffer_size) (repeat 0 prefix_size) 0 in
  let k := Kern (upd (fun _ => None) 3 (Some (File (str "hello")))) (fun _ => []) (upd (fun _ => []) 3 (str "hello")) 4 [] true [] in
  let '(t', s', r) := writeRecord 10 t (Ix k 1 3 (Allocator 0 0 0)) (str "a.txt") 5 5 in
  r = Some 0 /\ out (kernel s') = Ustar.record (Ustar.Entry [] (str "a.txt") (Some (str "hello"))).
Proof.
  intros t k.
  pose proof (writeRecord_correct 10 t (Ix k 1 3 (Allocator 0 0 0)) (str "a.txt") 5 5
    ltac:(split; [apply repeat_length|split; [apply repeat_length|apply Nat.le_0_l]]) ltac:(cbn; lia) ltac:(cbn; lia)) as Hw.
  destruct (writeRecord 10 t _ (str "a.txt") 5 5) as [[t' s'] r]. destruct Hw as (_ & _ & _ & code & -> & _ & Hok & Hrel).
  destruct Hrel as [[_ [Hwr _]] ->]; [|split; [reflexivity|]].
  - split; [|split; [reflexivity|]].
    + split; [cbn; lia|]. intros x Hx. cbn [kernel k next nodes] in *. unfold upd. rewrite (proj2 (Z.eqb_neq x 3)) by lia. reflexivity.
    + intros _. exists (str "hello"). reflexivity.
  - destruct (Hok eq_refl) as [Hs _]. cbn [sink ix_laws] in Hs.
    cbn [writable kern_tar] in Hwr. unfold kern_writable in Hwr. apply andb_true_iff in Hwr as [Hfd _]. apply Z.eqb_eq in Hfd.
    rewrite Hfd in Hs. exact Hs.
Defined.
