(* ===== verification/Untar.v ===== *)
(** * The untar tool ([src/hc/tools/untar/common.c], [src/hc/tools/untar/ix.c])

    [common.c] reads records through functions the platform supplies: the class
    [UntarPlatform].  [UntarLaws] states what they promise; the last part builds them
    from the system calls.  The reading loops take fuel; a record is consumed per
    iteration, so the length of the archive is enough. *)
From Stdlib Require Import ZArith List Lia Bool String.
From S2P Require Import Prelude Alloc Util Io Tar TarIx.
Import ListNotations Ustar.

(** [readInput] gives its result and the bytes it put at the start of the buffer;
    [writeToFile] gets the first [size] bytes of the buffer.  The names are pointers into
    the buffer, here the bytes from there on. *)
Class UntarPlatform (world : Type) := {
  openInput : world -> list Z -> world * Z;
  readInput : world -> world * Z * list Z;
  closeInput : world -> world;
  createDir : world -> list Z -> list Z -> world * Z;
  createFile : world -> list Z -> list Z -> world * Z;
  writeToFile : world -> list Z -> world * Z;
  closeFile : world -> world;
  print_error : world -> list Z -> world }.

(** ** [common.c] *)

(** The 11 digits from [i] on; [None] for [return -1]. *)
Fixpoint parseSize_loop (buffer : list Z) (n i : nat) (size : Z) : Z :=
  match n with
  | O => size
  | S n' =>
      let digit := u32 (get buffer (tar_OFFSET_SIZE + i) - 48) in
      if 7 <? digit then -1
      else parseSize_loop buffer n' (S i) (i64 (size << 3) + digit)
  end.

Definition parseSize (buffer : list Z) : Z := parseSize_loop buffer 11 0 0.

Section Untar.
Context {world : Type} `{UntarPlatform world}.

(** [while (size > 0)]: the buffer and the [size] the loop ends with. *)
Fixpoint copy_file (fuel : nat) (w : world) (buffer : list Z) (size : Z) : world * list Z * option Z :=
  match fuel with
  | O => (w, buffer, None)
  | S fuel' =>
      if 0 <? size then
        let '(w, status, data) := readInput w in
        let buffer := mem_copy buffer 0 data in
        if status <? 0 then (w, buffer, Some size)
        else
          let toWrite := if 512 <? size then 512 else size in
          let '(w, status) := writeToFile w (firstn (Z.to_nat toWrite) buffer) in
          if status <? 0 then (w, buffer, Some size)
          else copy_file fuel' w buffer (size - toWrite)
      else (w, buffer, Some size)
  end.

(** The record loop: the status it leaves. *)
Fixpoint untar_loop (fuel : nat) (w : world) (buffer : list Z) (zeroRecordCount : Z) : world * option Z :=
  match fuel with
  | O => (w, None)
  | S fuel' =>
      let '(w, status, data) := readInput w in
      let buffer := mem_copy buffer 0 data in
      if status <? 0 then (w, Some 1)
      else
        let typeflag := get buffer tar_OFFSET_TYPEFLAG in
        if typeflag =? 0 then
          if forallb (fun b => b =? 0) (firstn 512 buffer) then
            if zeroRecordCount + 1 <? 2 then untar_loop fuel' w buffer (zeroRecordCount + 1) else (w, Some 0)
          else (w, Some 1)
        else if 0 <? zeroRecordCount then (w, Some 1)
        else if typeflag =? 53 then (* '5' *)
          let '(w, status) := createDir w (skipn tar_OFFSET_PREFIX buffer) (skipn tar_OFFSET_NAME buffer) in
          if status <? 0 then (print_error w (str "Failed to create directory" ++ [10]), Some 1)
          else untar_loop fuel' w buffer zeroRecordCount
        else if negb (typeflag =? 48) then (w, Some 1) (* '0' *)
        else
          let size := parseSize buffer in
          if size <? 0 then (w, Some 1)
          else
            let '(w, status) := createFile w (skipn tar_OFFSET_PREFIX buffer) (skipn tar_OFFSET_NAME buffer) in
            if status <? 0 then (print_error w (str "Failed to create file" ++ [10]), Some 1)
            else match copy_file fuel w buffer size with
                 | (w, buffer, None) => (w, None)
                 | (w, buffer, Some size) =>
                     let w := closeFile w in
                     if negb (size =? 0) then (w, Some 1) else untar_loop fuel' w buffer zeroRecordCount
                 end
  end.

Definition start (fuel : nat) (w : world) (argc : Z) (argv : list (list Z)) : world * option Z :=
  if negb (argc =? 2) then (print_error w (str "Usage: untar ARCHIVE" ++ [10]), Some 1)
  else
    let '(w, status) := openInput w (nth 1 argv []) in
    if status <? 0 then (print_error w (str "Failed to open input" ++ [10]), Some 1)
    else
      match untar_loop fuel w (repeat 0 tar_RECORD_SIZE) 0 with
      | (w, None) => (w, None)
      | (w, Some status) => (closeInput w, Some status)
      end.
End Untar.

(** ** [ix.c] *)

(** mkdirat(2). *)
Class MkdirOps (world : Type) := { sys_mkdirat : world -> Z -> list Z -> Z -> world * Z }.

Section UntarIx.
Context {world : Type} `{FileLaws world} `{DirOps world} `{MkdirOps world}.

Record uix := Uix { ukernel : world; inputFd : Z; fileFd : Z }.

Definition with_kernel (s : uix) (k : world) : uix := Uix k (inputFd s) (fileFd s).
Definition uix_close (s : uix) (fd : Z) : uix := with_kernel s (fst (sys_close (ukernel s) fd)).

Definition uix_openInput (s : uix) (path : list Z) : uix * Z :=
  if (get path 0 =? 45) && (get path 1 =? 0) then (Uix (ukernel s) 0 (fileFd s), 0)
  else
    let '(k, fd) := sys_openat (ukernel s) AT_FDCWD path O_RDONLY 0 in
    (Uix k fd (fileFd s), fd).

(** Enough iterations of [util_readAll] ([util_readAll_spec]). *)
Definition uix_readInput (s : uix) : uix * Z * list Z :=
  let k := ukernel s in
  match util_readAll (S (512 + patience k)) k (inputFd s) 512 [] with
  | (k, Some (r, data)) => (with_kernel s k, (if negb (r =? 512) then -1 else 0), data)
  | (k, None) => (with_kernel s k, -1, [])
  end.

(** Opening the directory [prefix] for an operation [op] on a descriptor, then closing it. *)
Definition in_prefix (s : uix) (prefix : list Z) (op : uix -> Z -> uix * Z) : uix * Z :=
  let '(s, prefixFd) :=
    if negb (get prefix 0 =? 0) then
      let '(k, fd) := sys_openat (ukernel s) AT_FDCWD prefix O_RDONLY 0 in (with_kernel s k, fd)
    else (s, AT_FDCWD) in
  if negb (get prefix 0 =? 0) && (prefixFd <? 0) then (s, -1)
  else
    let '(s, status) := op s prefixFd in
    let s := if negb (prefixFd =? AT_FDCWD) then uix_close s prefixFd else s in
    (s, status).

Definition uix_createDir (s : uix) (prefix name : list Z) : uix * Z :=
  in_prefix s prefix (fun s prefixFd =>
    let '(k, status) := sys_mkdirat (ukernel s) prefixFd name 511 in (with_kernel s k, status)).

Definition uix_createFile (s : uix) (prefix name : list Z) : uix * Z :=
  in_prefix s prefix (fun s prefixFd =>
    let '(k, fd) := sys_openat (ukernel s) prefixFd name (O_WRONLY .| O_CREAT .| O_EXCL .| O_TRUNC) 511 in
    (Uix k (inputFd s) fd, fd)).

Definition uix_writeAll (s : uix) (fd : Z) (b : list Z) : uix * Z :=
  let '(k, r) := util_writeAll (write_fuel (ukernel s) b) (ukernel s) fd b in
  (with_kernel s k, match r with Some r => r | None => -1 end).

#[global] Instance uix_platform : UntarPlatform uix := {
  openInput := uix_openInput; readInput := uix_readInput; closeInput s := uix_close s (inputFd s);
  createDir := uix_createDir; createFile := uix_createFile;
  writeToFile s b := uix_writeAll s (fileFd s) b; closeFile s := uix_close s (fileFd s);
  print_error s msg := fst (uix_writeAll s 2 msg) }.
End UntarIx.

(** ** Reading headers *)

Definition entry_ok (e : entry) : bool :=
  (length (name e) <=? 100)%nat && forallb (fun c => negb (c =? 0)) (name e) &&
  (length (dir e) <=? 155)%nat && forallb (fun c => negb (c =? 0)) (dir e) &&
  match content e with None => true | Some data => Z.of_nat (length data) <=? tar_MAX_FILE_SIZE end.

(** Offsets of the fields. *)
Section Fields.
Context (chk nm pre : list Z) (tf size : Z).
Context (Hc : length chk = 8%nat) (Hn : (length nm <= 100)%nat) (Hp : (length pre <= 155)%nat).
Abbreviation h := (with_chksum chk nm pre tf size).

Lemma field_size : exists rest, skipn 124 h = octal 11 size ++ rest.
Proof using Hc Hn Hp.
  eexists. unfold with_chksum.
  rewrite (app_assoc (field 100 nm)), (app_assoc (_ ++ _) (repeat 0 16)). apply skipn_exact.
  rewrite !length_app, !length_field by (cbn; lia). reflexivity.
Qed.

Lemma field_typeflag : exists rest, skipn 156 h = tf :: rest.
Proof using Hc Hn Hp.
  eexists. unfold with_chksum. do 6 rewrite app_assoc. cbn [app]. apply skipn_exact.
  rewrite !length_app, !length_octal, !length_field, Hc by (rewrite ?length_octal; cbn; lia). reflexivity.
Qed.

Lemma field_prefix : exists rest, skipn 345 h = pre ++ 0 :: rest.
Proof using Hc Hn Hp.
  exists (repeat 0 (166 - length pre)). 
  replace h with ((field 100 nm ++ field 8 (str "0000777") ++ repeat 0 16 ++ octal 11 size ++ [0] ++ field 12 (octal 11 0) ++ chk ++
    [tf] ++ repeat 0 100 ++ field 6 (str "ustar") ++ str "00" ++ repeat 0 80) ++ field 155 pre ++ repeat 0 12)
    by (unfold with_chksum; rewrite <- !app_assoc; reflexivity).
  rewrite skipn_exact.
  - unfold field. rewrite <- app_assoc, <- repeat_app. f_equal. replace (155 - length pre + 12)%nat with (S (166 - length pre)) by lia. reflexivity.
  - rewrite !length_app, !length_octal, !length_field, Hc by (rewrite ?length_octal; cbn; lia). reflexivity.
Qed.

Lemma field_name : exists rest, skipn 0 h = (if (length nm <? 100)%nat then nm else nm ++ str "0000777") ++ 0 :: rest.
Proof using Hc Hn Hp.
  rewrite skipn_O. unfold with_chksum at 1, field at 1. destruct (Nat.ltb_spec (length nm) 100) as [Hl|Hl].
  - replace (100 - length nm)%nat with (S (99 - length nm)) by lia. rewrite <- app_assoc. cbn [repeat app]. eauto.
  - replace (100 - length nm)%nat with 0%nat by lia. cbn [repeat]. rewrite app_nil_r. eexists. rewrite <- app_assoc. reflexivity.
Qed.
End Fields.

Lemma cstr_field s rest : no_nul s -> cstr (s ++ 0 :: rest) = s.
Proof.
  intros Hs. unfold cstr. rewrite util_cstrLen_spec by assumption.
  rewrite firstn_app, firstn_all, Nat.sub_diag, firstn_O, app_nil_r. reflexivity.
Qed.

Lemma get_octal n x j : (j < n)%nat -> get (octal n x) j = 48 + x / 8 ^ Z.of_nat (n - 1 - j) mod 8.
Proof.
  intros Hj. unfold octal, get. set (f := fun i : nat => _).
  rewrite (nth_indep _ 0 (f 0%nat)) by (rewrite length_map, length_rev, length_seq; lia).
  rewrite map_nth, rev_nth, seq_nth by (rewrite ?length_seq; lia). rewrite length_seq. unfold f. do 4 f_equal. lia.
Qed.

Lemma parseSize_loop_spec b x n : forall i acc,
  (forall j, (j < n)%nat -> get b (tar_OFFSET_SIZE + (i + j)) = 48 + x / 8 ^ Z.of_nat (n - 1 - j) mod 8) ->
  0 <= acc -> (acc + 1) * 8 ^ Z.of_nat n <= 8 ^ 11 ->
  parseSize_loop b n i acc = acc * 8 ^ Z.of_nat n + x mod 8 ^ Z.of_nat n.
Proof.
  induction n as [|n IH]; intros i acc Hd Ha Hb; cbn [parseSize_loop].
  { change (8 ^ Z.of_nat 0) with 1. rewrite Z.mod_1_r. lia. }
  pose proof (Hd 0%nat ltac:(lia)) as H0. rewrite Nat.add_0_r in H0. rewrite H0. replace (S n - 1 - 0)%nat with n by lia.
  set (d := x / 8 ^ Z.of_nat n mod 8). assert (0 <= d < 8) as Hd8 by (apply Z.mod_pos_bound; lia).
  rewrite (Z.add_comm 48), Z.add_simpl_r, wrap_small by lia. rewrite (proj2 (Z.ltb_ge _ _)) by lia.
  rewrite Nat2Z.inj_succ, Z.pow_succ_r in Hb by lia. assert (0 < 8 ^ Z.of_nat n) as Hpos by (apply Z.pow_pos_nonneg; lia).
  assert (acc < 8 ^ 11) as Hacc by nia. rewrite shiftl_mul by lia. change (2 ^ 3) with 8.
  rewrite swrap_small by (cbn; lia). rewrite IH.
  - rewrite Nat2Z.inj_succ, Z.pow_succ_r by lia. rewrite (Z.mul_comm 8), Z.rem_mul_r by lia. fold d. lia.
  - intros j Hj. specialize (Hd (S j) ltac:(lia)). replace (S n - 1 - S j)%nat with (n - 1 - j)%nat in Hd by lia.
    rewrite <- Hd. f_equal. lia.
  - lia.
  - nia.
Qed.

(** ** What the platform promises *)

(** [stored w path]: the bytes of a file, [left w]: what is left of the open input,
    [made w]: the directories and files made so far, the file being written last,
    [sound w]: no later call fails (but reading past the end). *)
Class UntarLaws (world : Type) `{UntarPlatform world} := {
  stored : world -> list Z -> option (list Z);
  left : world -> list Z;
  made : world -> list entry;
  sound : world -> Prop;
  openInput_law : forall w p data, sound w -> stored w p = Some data ->
    let '(w', r) := openInput w p in 0 <= r /\ sound w' /\ left w' = data /\ made w' = made w;
  readInput_law : forall w, sound w -> let '(w', r, data) := readInput w in
    sound w' /\ made w' = made w /\
    if (512 <=? length (left w))%nat then r = 0 /\ data = firstn 512 (left w) /\ left w' = skipn 512 (left w)
    else r < 0 /\ (length data < 512)%nat;
  createDir_law : forall w p n, sound w -> let '(w', r) := createDir w p n in
    0 <= r /\ sound w' /\ left w' = left w /\ made w' = made w ++ [Entry (cstr p) (cstr n) None];
  createFile_law : forall w p n, sound w -> let '(w', r) := createFile w p n in
    0 <= r /\ sound w' /\ left w' = left w /\ made w' = made w ++ [Entry (cstr p) (cstr n) (Some [])];
  writeToFile_law : forall w b es d n c, sound w -> made w = es ++ [Entry d n (Some c)] ->
    let '(w', r) := writeToFile w b in
    0 <= r /\ sound w' /\ left w' = left w /\ made w' = es ++ [Entry d n (Some (c ++ b))];
  closeFile_law : forall w, sound w -> sound (closeFile w) /\ left (closeFile w) = left w /\ made (closeFile w) = made w;
  closeInput_law : forall w, sound w -> made (closeInput w) = made w }.

Section UntarSpec.
Context {world : Type} `{UntarLaws world}.

Lemma read_record w b blk rest : sound w -> length b = 512%nat -> length blk = 512%nat -> left w = blk ++ rest ->
  exists w', readInput w = (w', 0, blk) /\ mem_copy b 0 blk = blk /\ sound w' /\ left w' = rest /\ made w' = made w.
Proof.
  intros Hs Hb Hblk Hl. pose proof (readInput_law w Hs) as Hr. destruct (readInput w) as [[w' r] data].
  rewrite Hl in Hr. rewrite (proj2 (Nat.leb_le _ _)) in Hr by (rewrite length_app; lia).
  destruct Hr as (H1 & H2 & -> & -> & H5). rewrite firstn_app, firstn_all2, Hblk, Nat.sub_diag, firstn_O, app_nil_r by lia.
  rewrite skipn_exact in H5 by lia. exists w'. split; [reflexivity|]. split; [|auto].
  rewrite mem_copy_eq by lia. rewrite skipn_all2 by lia. cbn [firstn app]. apply app_nil_r.
Qed.

Lemma copy_file_spec fuel : forall w b data pad rest es d n c,
  sound w -> length b = 512%nat -> left w = data ++ pad ++ rest -> (length data < fuel)%nat ->
  Z.of_nat (length pad) = (- Z.of_nat (length data)) mod 512 -> made w = es ++ [Entry d n (Some c)] ->
  exists w' b', copy_file fuel w b (Z.of_nat (length data)) = (w', b', Some 0) /\ length b' = 512%nat /\
  sound w' /\ left w' = rest /\ made w' = es ++ [Entry d n (Some (c ++ data))].
Proof.
  induction fuel as [|fuel IH]; intros w b data pad rest es d n c Hs Hb Hl Hf Hpad Hm; [lia|]. cbn [copy_file].
  destruct (Z.ltb_spec 0 (Z.of_nat (length data))) as [Hpos|Hz].
  2: { destruct data; [|cbn in Hz; lia]. cbn [List.length Z.of_nat] in *. change ((- 0) mod 512) with 0 in Hpad.
       destruct pad; [|cbn in Hpad; lia]. exists w, b. rewrite app_nil_r. auto. }
  destruct (Z.ltb_spec 512 (Z.of_nat (length data))) as [Hbig|Hsmall].
  - destruct (read_record w b (firstn 512 data) (skipn 512 data ++ pad ++ rest) Hs Hb) as (w1 & -> & -> & Hs1 & Hl1 & Hm1).
    { rewrite length_firstn. lia. } { rewrite Hl, (app_assoc (firstn 512 data)), firstn_skipn. reflexivity. }
    change (0 <? 0) with false. cbv iota. change (Z.to_nat 512) with 512%nat. rewrite (firstn_all2 (firstn 512 data)) by (rewrite length_firstn; lia).
    pose proof (writeToFile_law w1 (firstn 512 data) es d n c Hs1 ltac:(congruence)) as Hw.
    destruct (writeToFile w1 _) as [w2 r]. destruct Hw as (Hr & Hs2 & Hl2 & Hm2). rewrite (proj2 (Z.ltb_ge r 0)) by lia.
    destruct (IH w2 (firstn 512 data) (skipn 512 data) pad rest es d n (c ++ firstn 512 data)) as (w' & b' & E & R); try assumption.
    + rewrite length_firstn. lia.
    + congruence.
    + rewrite length_skipn. lia.
    + rewrite Hpad, length_skipn. replace (- Z.of_nat (length data - 512)) with (- Z.of_nat (length data) + 1 * 512) by lia.
      symmetry. apply Z_mod_plus_full.
    + exists w', b'. rewrite length_skipn, Nat2Z.inj_sub in E by lia. change (Z.of_nat 512) with 512 in E.
      rewrite <- app_assoc, firstn_skipn in R. auto.
  - assert (length data + length pad = 512)%nat as Hblk.
    { destruct (Z.eq_dec (Z.of_nat (length data)) 512) as [E|E].
      - rewrite E in Hpad. change ((- (512)) mod 512) with 0 in Hpad. lia.
      - rewrite <- (Z_mod_plus_full _ 1), Z.mod_small in Hpad by lia. lia. }
    destruct (read_record w b (data ++ pad) rest Hs Hb) as (w1 & -> & -> & Hs1 & Hl1 & Hm1).
    { rewrite length_app. lia. } { rewrite Hl. apply app_assoc. }
    change (0 <? 0) with false. cbv iota. rewrite Nat2Z.id, firstn_app_l, firstn_all by lia.
    pose proof (writeToFile_law w1 data es d n c Hs1 ltac:(congruence)) as Hw.
    destruct (writeToFile w1 data) as [w2 r]. destruct Hw as (Hr & Hs2 & Hl2 & Hm2). rewrite (proj2 (Z.ltb_ge r 0)) by lia.
    exists w2, (data ++ pad). rewrite Z.sub_diag. destruct fuel as [|fuel]; [lia|]. cbn [copy_file]. change (0 <? 0) with false.
    split; [reflexivity|]. rewrite length_app. repeat split; auto. congruence.
Qed.

(** The entry that untar makes of a record: a name that fills its field runs into the mode. *)
Definition read_back (e : entry) : entry :=
  Entry (dir e) (if (length (name e) <? 100)%nat then name e else name e ++ str "0000777") (content e).

Lemma entry_ok_spec e : entry_ok e = true ->
  (length (name e) <= 100)%nat /\ no_nul (name (read_back e)) /\ (length (dir e) <= 155)%nat /\ no_nul (dir e) /\
  match content e with None => True | Some data => Z.of_nat (length data) < 8 ^ 11 end.
Proof using.
  unfold entry_ok. rewrite !andb_true_iff, !forallb_forall. intros ((((H1 & H2) & H3) & H4) & H5).
  apply Nat.leb_le in H1, H3.
  assert (no_nul (name e)) as Hn by (apply Forall_forall; intros c Hc ->; now specialize (H2 _ Hc)).
  repeat split; try assumption.
  - cbn [read_back name]. destruct (length (name e) <? 100)%nat; [exact Hn|]. apply Forall_app. split; [exact Hn|].
    repeat constructor; discriminate.
  - apply Forall_forall. intros c Hc ->. now specialize (H4 _ Hc).
  - destruct (content e); [|exact I]. apply Z.leb_le in H5. unfold tar_MAX_FILE_SIZE in H5. lia.
Qed.

(** What the loop finds in the buffer that holds the header of [e]. *)
Lemma header_read nm pre tf size : (length nm <= 100)%nat -> (length pre <= 155)%nat -> no_nul pre ->
  no_nul (if (length nm <? 100)%nat then nm else nm ++ str "0000777") -> 0 <= size < 8 ^ 11 ->
  let h := header nm pre tf size in
  length h = 512%nat /\ get h tar_OFFSET_TYPEFLAG = tf /\ parseSize h = size /\ cstr (skipn tar_OFFSET_PREFIX h) = pre /\
  cstr (skipn tar_OFFSET_NAME h) = if (length nm <? 100)%nat then nm else nm ++ str "0000777".
Proof using.
  intros Hn Hp Hpn Hnn Hsz h. split; [now apply length_header|]. unfold h, header. set (chk := _ ++ [32]).
  assert (length chk = 8%nat) as Hc by (unfold chk; rewrite length_app, length_octal; reflexivity). clearbody chk. clear h.
  destruct (field_typeflag chk nm pre tf size Hc Hn Hp) as [r1 E1]. destruct (field_size chk nm pre tf size Hc Hn Hp) as [r2 E2].
  destruct (field_prefix chk nm pre tf size Hc Hn Hp) as [r3 E3]. destruct (field_name chk nm pre tf size Hc Hn Hp) as [r4 E4].
  set (h := with_chksum chk nm pre tf size) in *. clearbody h. unfold tar_OFFSET_TYPEFLAG, tar_OFFSET_PREFIX, tar_OFFSET_NAME.
  split; [|split; [|split]].
  - replace (get h 156) with (get (skipn 156 h) 0) by (unfold get; now rewrite nth_skipn). now rewrite E1.
  - unfold parseSize. rewrite (parseSize_loop_spec h size 11); [rewrite Z.mod_small by exact Hsz; lia| |lia|cbn; lia].
    intros j Hj. rewrite <- get_octal by assumption. unfold tar_OFFSET_SIZE. rewrite Nat.add_0_l.
    replace (get h (124 + j)) with (get (skipn 124 h) j) by (unfold get; now rewrite nth_skipn).
    rewrite E2. apply get_app_l. now rewrite length_octal.
  - rewrite E3. now apply cstr_field.
  - rewrite E4. now apply cstr_field.
Qed.

(** One record, or the end of the archive. *)
Lemma dir_record fuel w b e rest : sound w -> length b = 512%nat -> entry_ok e = true -> content e = None ->
  left w = record e ++ rest ->
  exists w' b', untar_loop (S fuel) w b 0 = untar_loop fuel w' b' 0 /\ length b' = 512%nat /\
  sound w' /\ left w' = rest /\ made w' = made w ++ [read_back e].
Proof using.
  intros Hs Hb Hok Hc Hl. apply entry_ok_spec in Hok as (Hn & Hnn & Hp & Hpn & _). cbn [read_back name] in Hnn.
  unfold record in Hl. rewrite Hc in Hl.
  destruct (header_read (name e) (dir e) 53 0 Hn Hp Hpn Hnn ltac:(lia)) as (Hlen & Htf & _ & Hpre & Hnm).
  destruct (read_record w b _ rest Hs Hb Hlen Hl) as (w1 & E1 & E2 & Hs1 & Hl1 & Hm1).
  cbn [untar_loop]. rewrite E1, E2, Htf. change (0 <? 0) with false. cbn [Z.eqb Pos.eqb].
  set (h := header _ _ _ _) in *. pose proof (createDir_law w1 (skipn tar_OFFSET_PREFIX h) (skipn tar_OFFSET_NAME h) Hs1) as Hd.
  destruct (createDir w1 _ _) as [w2 r]. destruct Hd as (Hr & Hs2 & Hl2 & Hm2). rewrite (proj2 (Z.ltb_ge r 0)) by lia.
  exists w2, h. repeat split; try assumption; [congruence|]. rewrite Hm2, Hm1, Hpre, Hnm. unfold read_back. now rewrite Hc.
Qed.

Lemma file_record fuel w b e data rest : sound w -> length b = 512%nat -> entry_ok e = true -> content e = Some data ->
  left w = record e ++ rest -> (length data <= fuel)%nat ->
  exists w' b', untar_loop (S fuel) w b 0 = untar_loop fuel w' b' 0 /\ length b' = 512%nat /\
  sound w' /\ left w' = rest /\ made w' = made w ++ [read_back e].
Proof using.
  intros Hs Hb Hok Hc Hl Hf. apply entry_ok_spec in Hok as (Hn & Hnn & Hp & Hpn & Hsz). cbn [read_back name] in Hnn.
  unfold record in Hl. rewrite Hc in Hl, Hsz. rewrite <- !app_assoc in Hl.
  destruct (header_read (name e) (dir e) 48 (Z.of_nat (length data)) Hn Hp Hpn Hnn ltac:(lia)) as (Hlen & Htf & Hps & Hpre & Hnm).
  destruct (read_record w b _ _ Hs Hb Hlen Hl) as (w1 & E1 & E2 & Hs1 & Hl1 & Hm1).
  cbn [untar_loop]. rewrite E1, E2, Htf. change (0 <? 0) with false. cbn [Z.eqb Pos.eqb negb].
  set (h := header _ _ _ _) in *. rewrite Hps, (proj2 (Z.ltb_ge _ 0)) by lia.
  pose proof (createFile_law w1 (skipn tar_OFFSET_PREFIX h) (skipn tar_OFFSET_NAME h) Hs1) as Hd.
  destruct (createFile w1 _ _) as [w2 r]. destruct Hd as (Hr & Hs2 & Hl2 & Hm2). rewrite (proj2 (Z.ltb_ge r 0)) by lia.
  set (pad := repeat 0 _) in *. assert (Z.of_nat (length pad) = (- Z.of_nat (length data)) mod 512) as Hpad.
  { unfold pad. rewrite repeat_length, Z2Nat.id; [reflexivity|]. apply Z.mod_pos_bound. lia. }
  destruct (copy_file_spec (S fuel) w2 h data pad rest (made w1) (dir e) (name (read_back e)) []) as (w3 & b3 & -> & Hb3 & Hs3 & Hl3 & Hm3);
    try assumption; [congruence|lia|rewrite Hm2, Hpre, Hnm; reflexivity|].
  destruct (closeFile_law w3 Hs3) as (C1 & C2 & C3). change (negb (0 =? 0)) with false. cbv iota.
  exists (closeFile w3), b3. repeat split; try assumption; [congruence|]. rewrite C3, Hm3, Hm1. unfold read_back. now rewrite Hc.
Qed.

Lemma end_records fuel w b rest : sound w -> length b = 512%nat -> left w = repeat 0 1024 ++ rest ->
  exists w', untar_loop (S (S fuel)) w b 0 = (w', Some 0) /\ sound w' /\ made w' = made w.
Proof using.
  intros Hs Hb Hl. change (repeat 0 1024) with (repeat 0 512 ++ repeat 0 512) in Hl. rewrite <- app_assoc in Hl.
  destruct (read_record w b (repeat 0 512) _ Hs Hb (repeat_length _ _) Hl) as (w1 & E1 & E2 & Hs1 & Hl1 & Hm1).
  destruct (read_record w1 (repeat 0 512) (repeat 0 512) _ Hs1 (repeat_length _ _) (repeat_length _ _) Hl1) as (w2 & E3 & E4 & Hs2 & _ & Hm2).
  exists w2. split; [|split; [exact Hs2|congruence]]. cbn [untar_loop]. rewrite E1, E2.
  change (get (repeat 0 512) tar_OFFSET_TYPEFLAG) with 0. change (forallb (fun x => x =? 0) (firstn 512 (repeat 0 512))) with true.
  cbn [Z.ltb Z.compare Z.eqb Z.add Pos.compare Pos.compare_cont]. rewrite E3, E4.
  change (get (repeat 0 512) tar_OFFSET_TYPEFLAG) with 0. change (forallb (fun x => x =? 0) (firstn 512 (repeat 0 512))) with true. reflexivity.
Qed.

Lemma untar_loop_spec es : forall fuel w b rest, sound w -> length b = 512%nat -> forallb entry_ok es = true ->
  left w = archive es ++ rest -> (length (archive es) < fuel)%nat ->
  exists w', untar_loop fuel w b 0 = (w', Some 0) /\ sound w' /\ made w' = made w ++ map read_back es.
Proof using.
  induction es as [|e es IH]; intros fuel w b rest Hs Hb Hok Hl Hf.
  - unfold archive in *. cbn [map List.concat app] in *. rewrite repeat_length in Hf.
    destruct fuel as [|[|fuel]]; [lia..|]. rewrite app_nil_r. now apply (end_records fuel w b rest).
  - cbn [forallb] in Hok. apply andb_true_iff in Hok as [He Hes]. assert (archive (e :: es) = record e ++ archive es) as Ea by (unfold archive; cbn [map List.concat]; now rewrite app_assoc).
    rewrite Ea in *. rewrite <- app_assoc in Hl. rewrite length_app in Hf. destruct fuel as [|fuel]; [lia|].
    assert (exists w' b', untar_loop (S fuel) w b 0 = untar_loop fuel w' b' 0 /\ length b' = 512%nat /\
      sound w' /\ left w' = archive es ++ rest /\ made w' = made w ++ [read_back e] /\ (512 <= length (record e))%nat) as Hstep.
    { pose proof (entry_ok_spec e He) as (Hn & _ & Hp & _).
      destruct (content e) as [data|] eqn:Hc.
      - assert (512 + length data <= length (record e))%nat as Hlen.
        { unfold record. rewrite Hc, !length_app, length_header by assumption. lia. }
        destruct (file_record fuel w b e data _ Hs Hb He Hc Hl ltac:(lia)) as (w' & b' & E & R). exists w', b'. intuition lia.
      - assert (512 <= length (record e))%nat as Hlen by (unfold record; rewrite Hc, length_header by assumption; lia).
        destruct (dir_record fuel w b e _ Hs Hb He Hc Hl) as (w' & b' & E & R). exists w', b'. intuition. }
    destruct Hstep as (w1 & b1 & -> & Hb1 & Hs1 & Hl1 & Hm1 & Hlen).
    destruct (IH fuel w1 b1 rest Hs1 Hb1 Hes Hl1 ltac:(lia)) as (w2 & E2 & Hs2 & Hm2). exists w2. split; [exact E2|]. split; [exact Hs2|].
    rewrite Hm2, Hm1, <- app_assoc. reflexivity.
Qed.

Lemma untar_spec fuel w arg0 path es rest : sound w -> forallb entry_ok es = true ->
  stored w path = Some (archive es ++ rest) -> (length (archive es) < fuel)%nat ->
  let '(w', r) := start fuel w 2 [arg0; path] in r = Some 0 /\ made w' = made w ++ map read_back es.
Proof using.
  intros Hs Hok Hst Hf. unfold start. change (negb (2 =? 2)) with false. cbn [nth].
  pose proof (openInput_law w path _ Hs Hst) as Ho. destruct (openInput w path) as [w1 r]. destruct Ho as (Hr & Hs1 & Hl1 & Hm1).
  rewrite (proj2 (Z.ltb_ge r 0)) by lia.
  destruct (untar_loop_spec es fuel w1 (repeat 0 tar_RECORD_SIZE) rest Hs1 (repeat_length _ _) Hok Hl1 Hf) as (w2 & -> & Hs2 & Hm2).
  split; [reflexivity|]. rewrite closeInput_law, Hm2, Hm1 by assumption. reflexivity.
Qed.

(** [untar] of an archive of entries whose names, paths and sizes fit their fields (with
    anything after the two zero records) returns 0 after making exactly those directories
    and files, in order, with their contents; but a name that fills its 100 bytes is made
    with the digits of the mode field appended. *)
Theorem untar_correct fuel w arg0 path es rest : sound w -> forallb entry_ok es = true ->
  stored w path = Some (archive es ++ rest) -> (length (archive es) < fuel)%nat ->
  let '(w', r) := start fuel w 2 [arg0; path] in
  r = Some 0 /\
  made w' = made w ++ map (fun e =>
    Entry (dir e) (if (length (name e) <? 100)%nat then name e else name e ++ str "0000777") (content e)) es.
Proof using. apply untar_spec. Qed.
End UntarSpec.

(** ** A platform that never fails *)
Module DemoUntar.

Record disk := Disk { archive_file : list Z; rest_of : list Z; files : list entry }.

Definition extend (es : list entry) (b : list Z) : list entry :=
  match rev es with
  | Entry d n (Some c) :: es' => rev es' ++ [Entry d n (Some (c ++ b))]
  | _ => es
  end.

#[global] Instance disk_platform : UntarPlatform disk := {
  openInput w p := (Disk (archive_file w) (archive_file w) (files w), 3);
  readInput w :=
    let blk := firstn 512 (rest_of w) in
    (Disk (archive_file w) (skipn 512 (rest_of w)) (files w), (if (length blk <? 512)%nat then -1 else 0), blk);
  closeInput w := w;
  createDir w p n := (Disk (archive_file w) (rest_of w) (files w ++ [Entry (cstr p) (cstr n) None]), 0);
  createFile w p n := (Disk (archive_file w) (rest_of w) (files w ++ [Entry (cstr p) (cstr n) (Some [])]), 4);
  writeToFile w b := (Disk (archive_file w) (rest_of w) (extend (files w) b), 0);
  closeFile w := w;
  print_error w msg := w }.

#[global] Instance disk_laws : UntarLaws disk.
Proof.
  refine {| stored w p := Some (archive_file w); left := rest_of; made := files; sound _ := True |};
    cbn [openInput readInput createDir createFile writeToFile closeFile closeInput disk_platform].
  - intros w p data _ [= <-]. repeat split. lia.
  - intros w _. split; [exact I|]. split; [reflexivity|]. rewrite length_firstn. cbn [rest_of].
    destruct (Nat.leb_spec 512 (length (rest_of w))); [rewrite Nat.min_l by lia; repeat split|].
    rewrite Nat.min_r by lia. rewrite (proj2 (Nat.ltb_lt _ _)) by lia. split; [reflexivity|lia].
  - intros w p n _. repeat split. lia.
  - intros w p n _. repeat split. lia.
  - intros w b es d n c _ Hm. cbn [files rest_of]. repeat split; [lia|]. unfold extend. rewrite Hm, rev_app_distr. cbn [rev app].
    now rewrite rev_involutive.
  - intros w _. auto.
  - reflexivity.
Defined.
End DemoUntar.
Import DemoUntar.

Lemma untar_correct_witness :
  let es := [Entry [] (str "d") None; Entry (str "d") (repeat 120 100) (Some (str "hi"))] in
  let w := Disk (archive es ++ []) [] [] in
  let '(w', r) := start (S (length (archive es))) w 2 [str "untar"; str "in.tar"] in
  r = Some 0 /\ files w' = [Entry [] (str "d") None; Entry (str "d") (repeat 120 100 ++ str "0000777") (Some (str "hi"))].
Proof.
  intros es w. pose proof (untar_correct (S (length (archive es))) w (str "untar") (str "in.tar") es [] I eq_refl eq_refl (Nat.lt_succ_diag_r _)) as Hu.
  destruct (start _ w 2 _) as [w' r]. exact Hu.
Defined.
