(* ===== verification/TarTool.v ===== *)
(** * The two archive tools together

    [tar -o OUT -p PREFIX -a DIR] on Unix, from [start] of [src/hc/tools/tar/common.c] down
    to the system calls, and [untar] of the archive it leaves. *)
From Stdlib Require Import ZArith List Lia Bool String.
From S2P Require Import Prelude Alloc Util Io Tar TarIx Untar.
Import ListNotations Ustar.

(** ** Options *)

(** An option and its argument are handled and the loop goes on after them. *)
Lemma argParse_option {S R} isCase (handle : Z -> list Z -> S -> outcome S R) prev c ARG rest idx s :
  c <> 0 -> c <> 45 -> isCase c = true ->
  argParse isCase handle prev ([45; c] :: ARG :: rest) idx 0 s =
  match handle c ARG s with
  | Continue s => argParse isCase handle (ARG :: rest) rest (idx + 1 + 1) 0 s
  | Return r => Returned r
  end.
Proof.
  intros H0 H45 Hc. cbn [argParse get nth].
  change (0 =? 0) with true. change (45 =? 45) with true. cbn [negb].
  rewrite (proj2 (Z.eqb_neq c 0)), (proj2 (Z.eqb_neq c 45)), Hc by assumption. reflexivity.
Qed.

Section Tool.
Context {world : Type} `{TarKernel world} (pageShift : Z) (HpageShift : 0 <= pageShift).
Abbreviation PAGE := (2 ^ pageShift).
Abbreviation tar_start fuel := (Tar.start (add PAGE fuel) fuel (ix_init PAGE) ix_deinit).

Lemma ix_init_steady s : steady (kernel s) -> exists k a,
  ix_init PAGE s = (Ix k (outFd s) (currentFd s) a, 0) /\ steady k /\ same_files (kernel s) k /\ absent k = absent (kernel s) /\
  2 ^ 32 <= reserveSize a.
Proof using HpageShift.
  intros Hk. unfold ix_init, allocator_init. pose proof (reserve_steady (kernel s) (math_ALIGN_FORWARD (2 ^ 32) PAGE) Hk) as Hr.
  destruct (heap_reserve _ _) as [k m]. destruct Hr as (R1 & R2 & R3 & R4). rewrite (proj2 (Z.eqb_neq m 0) R4).
  do 2 eexists. split; [reflexivity|]. repeat split; try apply R2; try assumption. cbn [reserveSize].
  apply (align_forward_bound pageShift (2 ^ 32) HpageShift).
Qed.

(** Setting the prefix. *)
Lemma set_prefix_ok b p : length b = buffer_size -> length p = prefix_size -> forall P, (length P <= prefix_size)%nat ->
  let t := Tar b (mem_copy p 0 P) (length P) in tar_ok t /\ cwd t = P.
Proof using.
  intros Hb Hp P HP t. split; [repeat split; cbn [buffer prefix prefixLen t]; [assumption|rewrite length_mem_copy; lia|lia]|].
  unfold cwd, t. cbn [prefix prefixLen]. pose proof (firstn_mem_copy p 0 P ltac:(lia)) as E. exact E.
Qed.

Lemma finaliseOutput_ok t s : tar_ok t -> steady (kernel s) -> writable (kernel s) (outFd s) = true ->
  exists t' s', finaliseOutput t s = (t', s', 0) /\ sink s' = sink s ++ repeat 0 1024 /\ steady (kernel s').
Proof using.
  intros (Hb & _) Hk Hw. unfold finaliseOutput, tar_RECORD_SIZE. rewrite firstn_zeroed by (rewrite Hb; unfold buffer_size; lia).
  cbn [writeBuffer closeOutput ix_platform]. unfold ix_writeBuffer, ix_closeOutput.
  pose proof (ix_writeAll_spec s (outFd s) (repeat 0 1024)) as Hs. pose proof (ix_writeAll_steady s (outFd s) (repeat 0 1024) Hk) as Hst.
  change (2 * 512)%nat with 1024%nat. destruct (ix_writeAll s (outFd s) (repeat 0 1024)) as [s1 r]. destruct Hs as (k1 & -> & _ & Hout).
  cbn [fst snd kernel set_kernel outFd] in *. destruct Hst as (K1 & _ & _ & Hr). rewrite (Hr Hw) in *.
  destruct Hout as [[_ Ho]|[? _]]; [|discriminate]. do 2 eexists. split; [reflexivity|].
  destruct (close_fd k1 (outFd s) K1) as (C1 & _ & _ & C4 & _). unfold ix_close. cbn [sink ix_laws kernel set_kernel outFd].
  split; [rewrite C4; exact Ho|exact C1].
Qed.

Lemma tar_tool_spec n k0 o c a arg0 F P D es :
  steady k0 -> absent k0 F D = true -> root k0 D = Some (Dir es) -> no_nul P -> (length P <= 155)%nat ->
  fits n P es = true -> need n es + 8192 + PAGE <= 2 ^ 32 ->
  exists N, forall fuel, (N <= fuel)%nat ->
  exists s', tar_start fuel (Ix k0 o c a) [arg0; str "-o"; F; str "-p"; P; str "-a"; D] = (s', Some 0) /\
  output (kernel s') (outFd s') = archive (listing n P es).
Proof using HpageShift.
  intros Hk Ha Hr HPn HPl Hfit Hneed.
  destruct (ix_init_steady (Ix k0 o c a) Hk) as (k1 & a1 & Ei & K1 & F1 & A1 & R1). cbn [kernel outFd currentFd] in *.
  assert (exists q, absent k1 F q = true) as Hab by (exists D; now rewrite A1). pose proof (open_output k1 F K1 Hab) as Ho.
  destruct (sys_openat k1 AT_FDCWD F _ _) as [k2 fd] eqn:Eo. destruct Ho as (Hfd & K2 & W2 & O2 & N2 & R2).
  set (s2 := Ix k2 fd c a1).
  set (t0 := Tar (repeat 0 buffer_size) (repeat 0 prefix_size) 0).
  destruct (set_prefix_ok (repeat 0 buffer_size) (repeat 0 prefix_size) (repeat_length _ _) (repeat_length _ _) P ltac:(cbn; lia)) as [Ht Hc].
  set (t1 := Tar _ (mem_copy _ _ _) _) in *.
  destruct (add_spec pageShift HpageShift n t1 s2 D es Ht K2 W2) as [N HN].
  { cbn [kernel s2]. rewrite R2 by (now rewrite A1). now rewrite (proj1 (proj2 F1)). }
  { now rewrite Hc. } { cbn [alloc s2]. lia. }
  exists N. intros fuel Hf. destruct (HN fuel Hf) as (t3 & s3 & Ea & (W1' & W2' & [W3 W3'] & W4 & W5 & W6)).
  destruct (finaliseOutput_ok t3 s3 W1' W3) as (t4 & s4 & Ef & Hsink & K4).
  { rewrite W4, (proj2 (proj2 W3')). exact W2. }
  exists (ix_deinit s4). split.
  - unfold Tar.start. rewrite Ei. change (0 <? 0) with false. cbv iota. fold t0. unfold run. cbn [skipn].
    change (str "-o") with [45; 111]. change (str "-p") with [45; 112]. change (str "-a") with [45; 97].
    rewrite argParse_option by (reflexivity || discriminate). unfold run_option at 1. cbn [Z.eqb Pos.eqb].
    cbn [openOutput ix_platform]. unfold ix_openOutput. cbn [kernel]. rewrite Eo. rewrite (proj2 (Z.ltb_ge fd 0)) by lia.
    cbn [currentFd alloc]. fold s2. rewrite argParse_option by (reflexivity || discriminate). unfold run_option at 1. cbn [Z.eqb Pos.eqb].
    rewrite cstrLen_no_nul by assumption. cbn [prefix t0]. rewrite repeat_length, (proj2 (Nat.ltb_ge _ _)) by (cbn; lia).
    rewrite firstn_all. cbn [buffer t0]. fold t1.
    rewrite argParse_option by (reflexivity || discriminate). unfold run_option at 1. cbn [Z.eqb Pos.eqb negb].
    rewrite Ea. change (0 <? 0) with false. cbv iota. cbn [argParse Z.eqb negb]. rewrite Ef. reflexivity.
  - unfold ix_deinit, allocator_deinit. cbn [kernel set_kernel outFd]. rewrite unreserve_output by assumption.
    cbn [sink ix_laws] in *. rewrite Hsink, W6. cbn [s2 kernel outFd]. rewrite O2, Hc. reflexivity.
Qed.

(** What fits, untar can read. *)
Lemma no_nul_join d nm : no_nul d -> no_nul nm -> no_nul (join d nm).
Proof using. intros Hd Hn. destruct Hd as [|c d Hc Hd]; [exact Hn|]. unfold join. apply Forall_app. split; constructor; auto; lia. Qed.

Lemma no_nul_forallb l : no_nul l -> forallb (fun c => negb (c =? 0)) l = true.
Proof using. intros Hl. apply forallb_forall. intros c Hc. unfold no_nul in Hl. rewrite Forall_forall in Hl. now apply negb_true_iff, Z.eqb_neq, Hl. Qed.

Lemma listing_ok n : forall d es, no_nul d -> fits n d es = true -> forallb entry_ok (listing n d es) = true.
Proof using.
  induction n as [|n IH]; intros d es Hd Hfit; [discriminate|]. apply forallb_forall. intros e He.
  cbn [listing] in He. apply in_flat_map in He as (nm & Hnm & He). rewrite (proj2 (sortNames_spec (map fst es))) in Hnm.
  destruct (lookup_In nm es Hnm) as (tr & Hl & Hin). rewrite Hl in He.
  destruct (fits_entry n d es nm tr Hfit Hin) as (Hv & Hdl & Htr). apply valid_name_spec in Hv as (Hlen & Hnul & _ & _).
  assert (forall c, match c with None => true | Some data => Z.of_nat (length data) <=? tar_MAX_FILE_SIZE end = true ->
    entry_ok (Entry d nm c) = true) as Hok.
  { intros c Hc. unfold entry_ok. cbn [name dir content]. rewrite Hc, !no_nul_forallb by assumption.
    rewrite !(proj2 (Nat.leb_le _ _)) by lia. reflexivity. }
  destruct tr as [data|es'].
  - destruct He as [<-|[]]. apply Hok. now apply Z.leb_le.
  - destruct He as [<-|He]; [now apply Hok|]. specialize (IH (join d nm) es' (no_nul_join _ _ Hd Hnul) Htr).
    rewrite forallb_forall in IH. auto.
Qed.

End Tool.
Import DemoKernel DemoUntar.

Definition demo_fresh : kern := Kern (fun _ => None) (fun _ => []) (fun _ => []) 3 [] false demo_tree.

