(* ===== verification/WebPacker.v ===== *)
(** * The web packer ([src/hc/tools/webPacker/common.c], [src/hc/tools/webPacker/ix.c])

    The tool reads a page and replaces include directives by files, in place in one
    growing buffer inside the allocator's memory: first the descriptors of the include
    directories, then the page.  The committed memory is the list [pmem]; an access
    outside it is a memory fault, and [allocator_resize] truncates or extends it by
    pages.  The tool's functions return [Done], [Fault] or, when the fuel of a loop runs
    out, [Unfinished]. *)
From Stdlib Require Import ZArith List Lia Bool String.
From S2P Require Import Prelude CompilerRt Alloc Util Base64 Io Tar TarIx.
Import ListNotations.

Inductive run_result (A : Type) := Done (a : A) | Fault | Unfinished.
Arguments Done {A}. Arguments Fault {A}. Arguments Unfinished {A}.

Definition bind {A B} (r : run_result A) (f : A -> run_result B) : run_result B :=
  match r with
  | Done a => f a
  | Fault => Fault
  | Unfinished => Unfinished
  end.
Notation "'let*' x := r 'in' f" := (bind r (fun x => f)) (at level 10, x pattern, r at level 100, f at level 200).

(** ** Searching *)

(** The inner loop of [findPattern]: the pattern is at the start of [l]. *)
Fixpoint matches (l pattern : list Z) : bool :=
  match pattern with
  | [] => true
  | c :: pattern' => (get l 0 =? c) && matches (skipn 1 l) pattern'
  end.

(** [l]: the buffer from [bufferI] on; [n]: iterations left until [bufferSize - patternSize]. *)
Fixpoint find_loop (n : nat) (l : list Z) (bufferI : Z) (pattern : list Z) : Z :=
  match n with
  | O => -1
  | S n' => if matches l pattern then bufferI else find_loop n' (skipn 1 l) (bufferI + 1) pattern
  end.

Definition findPattern (buffer : list Z) (bufferStartI : nat) (pattern : list Z) : Z :=
  find_loop (length buffer - length pattern - bufferStartI) (skipn bufferStartI buffer) (Z.of_nat bufferStartI) pattern.

Section WebPacker.
Context {world : Type} `{FileLaws world} `{DirOps world} `{Heap world} (pageSize : Z).

(** The static variables: [bufferOffset] is [buffer - alloc.mem]. *)
Record packer := Packer {
  pkernel : world; palloc : allocator; pmem : list Z; bufferOffset : nat; bufferSize : nat }.

Definition set_pkernel (s : packer) (k : world) : packer := Packer k (palloc s) (pmem s) (bufferOffset s) (bufferSize s).
Definition set_pmem (s : packer) (m : list Z) : packer := Packer (pkernel s) (palloc s) m (bufferOffset s) (bufferSize s).
Definition page (s : packer) : list Z := firstn (bufferSize s) (skipn (bufferOffset s) (pmem s)).

(** The committed memory after [allocator_resize]: whole pages; fresh pages are zero. *)
Definition recommit (m : list Z) (newSize : Z) : list Z :=
  let n := Z.to_nat (math_ALIGN_FORWARD newSize pageSize) in firstn n m ++ repeat 0 (n - length m).

Definition resize (s : packer) (newSize : nat) : packer * Z :=
  let '(k, a, status) := allocator_resize pageSize (pkernel s) (palloc s) (Z.of_nat newSize) in
  (Packer k a (if status <? 0 then pmem s else recommit (pmem s) (Z.of_nat newSize)) (bufferOffset s) (bufferSize s), status).

(** A store of [b] at offset [off], and the check that a range is committed. *)
Definition in_memory (s : packer) (off n : nat) : bool := (n =? 0)%nat || (off + n <=? length (pmem s))%nat.
Definition store (s : packer) (off : nat) (b : list Z) : run_result packer :=
  if in_memory s off (length b) then Done (set_pmem s (mem_copy (pmem s) off b)) else Fault.

Definition pclose (s : packer) (fd : Z) : packer := set_pkernel s (fst (sys_close (pkernel s) fd)).

(** The include directories, as stored at the start of the memory. *)
Definition include_fd (s : packer) (i : nat) : Z := i32 (le_combine (firstn 4 (skipn (4 * i) (pmem s)))).
Definition include_fds (s : packer) : list Z := map (include_fd s) (seq 0 (bufferOffset s / 4)).

Definition deinit (s : packer) : packer := fold_left pclose (include_fds s) s.

(** The loop of [init]: [i] directories are open. *)
Fixpoint init_loop (s : packer) (includePaths : list (list Z)) (i : nat) : run_result (packer * nat * bool) :=
  match includePaths with
  | [] => Done (s, i, true)
  | path :: includePaths' =>
      let '(s, status) := resize s ((i + 1) * 4) in
      if status <? 0 then Done (s, i, false)
      else
        let '(k, fd) := sys_openat (pkernel s) AT_FDCWD path O_RDONLY 0 in
        let s := set_pkernel s k in
        if fd <? 0 then Done (s, i, false)
        else let* s := store s (4 * i) (le_split 4 (u32 fd)) in init_loop s includePaths' (S i)
  end.

Definition init (s : packer) (includePaths : list (list Z)) : run_result (packer * Z) :=
  let* (s, i, complete) := init_loop s includePaths 0 in
  let s := Packer (pkernel s) (palloc s) (pmem s) (4 * i) (bufferSize s) in
  Done (if complete then (s, 0) else (deinit s, -1)).

(** The string at [l]. *)
Definition cstr (l : list Z) : list Z := firstn (util_cstrLen l) l.

(** The loop over the include directories: the first that has the path. *)
Fixpoint open_include (k : world) (fds : list Z) (pathZ : list Z) : world * option Z :=
  match fds with
  | [] => (k, None)
  | fd :: fds' =>
      let '(k, pathFd) := sys_openat k fd pathZ O_RDONLY 0 in
      if 0 <=? pathFd then (k, Some pathFd) else open_include k fds' pathZ
  end.

(** From [foundPath] on; the descriptor is closed by the caller. *)
Definition insert_file (s : packer) (pathFd : Z) (replaceIndex replaceSize : nat) (asBase64 : bool) : run_result (packer * Z) :=
  let '(k, (status, _, st_size)) := sys_fstat (pkernel s) pathFd in
  let s := set_pkernel s k in
  if status <? 0 then Done (s, -3)
  else
    let contentSize := Z.to_nat st_size in
    let insertSize := if asBase64 then base64_ENCODE_SIZE contentSize else contentSize in
    let newBufferSize := (bufferSize s + insertSize - replaceSize)%nat in
    let '(s, status) := resize s (bufferOffset s + newBufferSize + 1) in
    if status <? 0 then Done (s, -4)
    else
      let dest := (bufferOffset s + replaceIndex + insertSize)%nat in
      let src := (bufferOffset s + replaceIndex + replaceSize)%nat in
      let n := (bufferSize s - (replaceSize + replaceIndex))%nat in
      if negb (in_memory s src n && in_memory s dest n) then Fault
      else
        let s := Packer (pkernel s) (palloc s) (memmove (pmem s) dest src n) (bufferOffset s) newBufferSize in
        let content := (bufferOffset s + replaceIndex + insertSize - contentSize)%nat in
        match util_readAll (S (contentSize + 1 + patience (pkernel s))) (pkernel s) pathFd (contentSize + 1) [] with
        | (k, None) => Unfinished
        | (k, Some (r, data)) =>
            let* s := store (set_pkernel s k) content data in
            if negb (r =? Z.of_nat contentSize) then Done (s, -5)
            else Done (if asBase64 then set_pmem s (base64_encode (pmem s) (bufferOffset s + replaceIndex) content contentSize) else s, 0)
        end.

Definition replaceWithFile (s : packer) (replaceIndex replaceSize : nat) (path : list Z) (asBase64 : bool) : run_result (packer * Z) :=
  let pathZ := Z.to_nat (size (palloc s)) in
  let '(s, status) := resize s (pathZ + length path + 1) in
  if status <? 0 then Done (s, -1)
  else
    let* s := store s pathZ (path ++ [0]) in
    let '(k, found) := open_include (pkernel s) (include_fds s) (cstr (path ++ [0])) in
    let s := set_pkernel s k in
    match found with
    | None => Done (s, -2)
    | Some pathFd =>
        let* (s, status) := insert_file s pathFd replaceIndex replaceSize asBase64 in
        Done (pclose s pathFd, status)
    end.

Definition writeToFile (s : packer) (path content : list Z) : packer * Z :=
  let '(k, fd) := sys_openat (pkernel s) AT_FDCWD path (O_WRONLY .| O_CREAT .| O_TRUNC) 436 in
  let s := set_pkernel s k in
  if fd <? 0 then (s, -1)
  else
    let '(k, r) := util_writeAll (write_fuel k content) k fd content in
    (pclose (set_pkernel s k) fd, match r with Some r => r | None => -1 end).

Definition debug_text (s : packer) (msg : list Z) : packer :=
  set_pkernel s (fst (util_writeAll (write_fuel (pkernel s) msg) (pkernel s) 2 msg)).

(** ** Directives *)

Definition INT32_MAX : Z := 2 ^ 31 - 1.

Definition handleInclude (s : packer) (startPattern endPattern : list Z) (asBase64 : bool) : run_result (packer * Z) :=
  let startPatternI := findPattern (page s) 0 startPattern in
  if startPatternI <? 0 then Done (s, 1)
  else
    let endPatternI := findPattern (page s) (Z.to_nat startPatternI) endPattern in
    if endPatternI <? 0 then Done (debug_text s (str "Unclosed include!" ++ [10]), -1)
    else
      let nameI := startPatternI + Z.of_nat (length startPattern) in
      let nameLen := endPatternI - nameI in
      if INT32_MAX <? nameLen then Done (s, -1)
      else
        let* (s, status) := replaceWithFile s (Z.to_nat startPatternI)
          (Z.to_nat (endPatternI + Z.of_nat (length endPattern) - startPatternI))
          (firstn (Z.to_nat nameLen) (skipn (Z.to_nat nameI) (page s))) asBase64 in
        if status <? 0 then Done (debug_text s (debug_printNum_text "Failed to handle include" status), -1)
        else Done (s, 0).

(** [while (!complete)]: [true] when it ends without an error. *)
Fixpoint include_loop (fuel : nat) (s : packer) : run_result (packer * bool) :=
  match fuel with
  | O => Unfinished
  | S fuel' =>
      let* (s, status1) := handleInclude s (str "<!--INCLUDE(") (str ")-->") false in
      if status1 <? 0 then Done (s, false)
      else
        let* (s, status2) := handleInclude s (str "/*INCLUDE(") (str ")*/") false in
        if status2 <? 0 then Done (s, false)
        else
          let* (s, status3) := handleInclude s (str "/*INCLUDE_BASE64(") (str ")*/") true in
          if status3 <? 0 then Done (s, false)
          else if negb (1 & status1 & status2 & status3 =? 0) then Done (s, true)
          else include_loop fuel' s
  end.

Definition cleanup (s : packer) : packer := set_pkernel s (allocator_deinit (pkernel s) (palloc s)).

Definition start (fuel : nat) (k : world) (argc : Z) (argv : list (list Z)) : run_result (packer * Z) :=
  let s := Packer k (Allocator 0 0 0) [] 0 0 in
  if argc <? 3 then Done (s, 1)
  else
    let inputName := nth 2 argv [] in
    let inputNameLen := util_cstrLen inputName in
    if INT32_MAX <? Z.of_nat inputNameLen then Done (s, 1)
    else
      let '(k, a, status) := allocator_init pageSize (pkernel s) (palloc s) (2 ^ 32) in
      let s := Packer k a [] 0 0 in
      if status <? 0 then Done (s, 1)
      else
        let* (s, status) := init s (skipn 3 argv) in
        if status <? 0 then Done (cleanup (debug_text s (debug_printNum_text "Failed to initialise" status)), 1)
        else
          let* (s, status) := replaceWithFile s 0 0 (firstn inputNameLen inputName) false in
          if status <? 0 then Done (cleanup (deinit (debug_text s (debug_printNum_text "Failed to read input" status))), 1)
          else
            let* (s, complete) := include_loop fuel s in
            if negb complete then Done (cleanup (deinit s), 1)
            else
              let '(s, status) := writeToFile s (nth 1 argv []) (page s) in
              if negb (status =? 0) then Done (cleanup (deinit (debug_text s (debug_printNum_text "Failed to write output" status))), 1)
              else Done (cleanup (deinit s), status).
End WebPacker.

(** ** Searching, specified *)

(** The pattern occurs at position [i]. *)
Definition occurs (buffer : list Z) (i : nat) (pattern : list Z) : Prop :=
  firstn (length pattern) (skipn i buffer) = pattern.

Lemma matches_spec pattern : forall l, (length pattern <= length l)%nat ->
  matches l pattern = true <-> firstn (length pattern) l = pattern.
Proof.
  induction pattern as [|c pattern IH]; intros l Hl; [easy|]. destruct l as [|x l]; [cbn in Hl; lia|].
  cbn [matches get nth skipn List.length firstn] in *. rewrite andb_true_iff, Z.eqb_eq, IH by lia.
  split; [intros [-> ->]; reflexivity|intros [= -> ->]; auto].
Qed.

Lemma find_loop_spec pattern n : forall l i, (length pattern + n <= length l)%nat ->
  let r := find_loop n l (Z.of_nat i) pattern in
  (r = -1 /\ forall j, (j < n)%nat -> ~ occurs l j pattern) \/
  (exists j, (j < n)%nat /\ r = Z.of_nat (i + j) /\ occurs l j pattern /\ forall j', (j' < j)%nat -> ~ occurs l j' pattern).
Proof.
  induction n as [|n IH]; intros l i Hl; cbn [find_loop]; [left; split; [reflexivity|lia]|].
  pose proof (matches_spec pattern l ltac:(lia)) as Hm. destruct (matches l pattern).
  - right. exists 0%nat. split; [lia|]. split; [f_equal; lia|]. split; [now apply Hm|lia].
  - assert (~ occurs l 0 pattern) as H0 by (intros Ho; apply Hm in Ho; discriminate).
    assert (forall j, occurs l (S j) pattern <-> occurs (skipn 1 l) j pattern) as Hs.
    { intros j. unfold occurs. rewrite skipn_skipn, Nat.add_1_r. reflexivity. }
    replace (Z.of_nat i + 1) with (Z.of_nat (S i)) by lia.
    destruct (IH (skipn 1 l) (S i)) as [[-> Hn]|(j & Hj & -> & Ho & Hmin)]; [rewrite length_skipn; lia| |].
    + left. split; [reflexivity|]. intros [|j] Hj; [exact H0|]. rewrite Hs. apply Hn. lia.
    + right. exists (S j). split; [lia|]. split; [f_equal; lia|]. split; [now apply Hs|].
      intros [|j'] Hj'; [exact H0|]. rewrite Hs. apply Hmin. lia.
Qed.

Lemma findPattern_spec buffer from pattern :
  let r := findPattern buffer from pattern in
  (r = -1 /\ forall i, (from <= i)%nat -> (i + length pattern < length buffer)%nat -> ~ occurs buffer i pattern) \/
  (exists i, r = Z.of_nat i /\ (from <= i)%nat /\ (i + length pattern < length buffer)%nat /\ occurs buffer i pattern /\
     forall j, (from <= j < i)%nat -> ~ occurs buffer j pattern).
Proof.
  unfold findPattern. set (n := (length buffer - length pattern - from)%nat).
  destruct (Nat.eq_dec n 0) as [E|E].
  { rewrite E. left. split; [reflexivity|]. intros. lia. }
  assert (forall j, occurs (skipn from buffer) j pattern <-> occurs buffer (from + j) pattern) as Hs.
  { intros j. unfold occurs. now rewrite skipn_skipn, Nat.add_comm. }
  destruct (find_loop_spec pattern n (skipn from buffer) from) as [[-> Hn]|(j & Hj & -> & Ho & Hmin)]; [rewrite length_skipn; lia| |].
  - left. split; [reflexivity|]. intros i Hi Hl. replace i with (from + (i - from))%nat by lia. rewrite <- Hs. apply Hn. lia.
  - right. exists (from + j)%nat. split; [reflexivity|]. split; [lia|]. split; [lia|]. split; [now apply Hs|].
    intros i Hi. replace i with (from + (i - from))%nat by lia. rewrite <- Hs. apply Hmin. lia.
Qed.

(** [findPattern] returns the first position from [from] on at which the pattern
    occurs and ends before the last byte of the buffer, or -1 when there is none; so a
    pattern that only occurs at the very end of the buffer is not found. *)
Theorem findPattern_correct buffer from pattern :
  (let r := findPattern buffer from pattern in
   (r = -1 /\ forall i, (from <= i)%nat -> (i + length pattern < length buffer)%nat -> ~ occurs buffer i pattern) \/
   (exists i, r = Z.of_nat i /\ (from <= i)%nat /\ (i + length pattern < length buffer)%nat /\ occurs buffer i pattern /\
      forall j, (from <= j < i)%nat -> ~ occurs buffer j pattern)) /\
  (forall text, buffer = text ++ pattern -> (forall i, (i < length text)%nat -> ~ occurs buffer i pattern) ->
     findPattern buffer from pattern = -1).
Proof.
  split; [apply findPattern_spec|]. intros text E Hno.
  destruct (findPattern_spec buffer from pattern) as [[-> _]|(i & _ & _ & Hi & Ho & _)]; [reflexivity|].
  exfalso. apply (Hno i); [|exact Ho]. rewrite E, length_app in Hi. lia.
Qed.

(** ** Replacing *)

(** The bytes [a], a gap of [g] bytes, and the tail that used to start at [src]. *)
Definition widened (m : list Z) (a g src n : nat) : list Z :=
  firstn (a + g) m ++ firstn n (skipn src m) ++ skipn (a + g + n) m.

Section Widened.
Context (m : list Z) (a g src n : nat).
Context (Hd : (a + g + n <= length m)%nat) (Hs : (src + n <= length m)%nat).

Lemma memmove_widened : memmove m (a + g) src n = widened m a g src n.
Proof using Hd Hs.
  rewrite memmove_spec by lia. rewrite mem_copy_eq by lens. unfold widened.
  rewrite length_firstn, length_skipn, Nat.min_l by lia. reflexivity.
Qed.

(** Filling the end of the gap, and the whole gap. *)
Lemma fill_widened data : (length data <= g)%nat ->
  mem_copy (widened m a g src n) (a + g - length data) data =
  firstn (a + g - length data) m ++ data ++ firstn n (skipn src m) ++ skipn (a + g + n) m.
Proof using Hd Hs.
  intros Hl. unfold widened.
  rewrite <- (firstn_skipn (a + g - length data) (firstn (a + g) m)) at 1. rewrite <- app_assoc.
  rewrite mem_copy_splice by lens. rewrite firstn_firstn, Nat.min_l by lia. reflexivity.
Qed.
End Widened.

(** What is inserted for a file with the bytes [data]. *)
Definition inserted (asBase64 : bool) (data : list Z) : list Z := if asBase64 then rfc_encode data else data.

Lemma insert_mem m a g src n data (asBase64 : bool) : (a + g + n <= length m)%nat -> (src + n <= length m)%nat -> bytes data ->
  g = (if asBase64 then base64_ENCODE_SIZE (length data) else length data) ->
  let content := (a + g - length data)%nat in
  let m3 := mem_copy (memmove m (a + g) src n) content data in
  (if asBase64 then base64_encode m3 a content (length data) else m3) =
  firstn a m ++ inserted asBase64 data ++ firstn n (skipn src m) ++ skipn (a + g + n) m.
Proof.
  intros Hd Hs Hb Hg content m3.
  assert (length data <= g)%nat as Hle by (rewrite Hg; destruct asBase64; [apply encode_size_ge|lia]).
  assert (m3 = firstn content m ++ data ++ firstn n (skipn src m) ++ skipn (a + g + n) m) as E.
  { unfold m3. rewrite memmove_widened by assumption. now apply fill_widened. }
  destruct asBase64; cbn [inserted].
  - assert (length m3 = length m) as Hlen by (rewrite E; lens).
    assert (slice m3 content (length data) = data) as Hsl.
    { unfold slice. rewrite E. rewrite (skipn_exact (firstn content m)) by lens. now rewrite firstn_app_l, firstn_all by lia. }
    unfold base64_encode. rewrite base64_encode_mem; [|lia|lia|lia|right; lia|now rewrite Hsl].
    unfold spliced. rewrite Hsl, <- Hg, E. f_equal; [|f_equal].
    + rewrite firstn_app, firstn_firstn, Nat.min_l by lia. replace (a - length (firstn content m))%nat with 0%nat by lens.
      rewrite firstn_O. apply app_nil_r.
    + rewrite app_assoc. apply skipn_exact. lens.
  - unfold content in *. replace (a + g - length data)%nat with a in E by lia. exact E.
Qed.

(** The page inside the memory that [insert_mem] describes. *)
Lemma page_mem (m E : list Z) o i r sz rest : (o + sz <= length m)%nat -> (i + r <= sz)%nat ->
  let page := firstn sz (skipn o m) in
  firstn (sz + length E - r) (skipn o (firstn (o + i) m ++ E ++ firstn (sz - (r + i)) (skipn (o + i + r) m) ++ rest)) =
  firstn i page ++ E ++ skipn (i + r) page.
Proof.
  intros Hm Hi page. rewrite skipn_app, skipn_firstn_comm, length_firstn, Nat.min_l by lia.
  replace (o + i - o)%nat with i by lia. replace (o - (o + i))%nat with 0%nat by lia. rewrite skipn_O.
  assert (firstn i (skipn o m) = firstn i page) as E1 by (unfold page; rewrite firstn_firstn, Nat.min_l by lia; reflexivity).
  assert (firstn (sz - (r + i)) (skipn (o + i + r) m) = skipn (i + r) page) as E2.
  { unfold page. rewrite skipn_firstn_comm, skipn_skipn. f_equal; [lia|]. f_equal. lia. }
  rewrite E1, E2. rewrite !app_assoc. rewrite firstn_app_l; [apply firstn_all2|]; unfold page; lens.
Qed.

(** Looking at a file's status and changing memory mappings leave the files alone. *)
Class FileStable (world : Type) `{FileLaws world} `{DirOps world} `{Heap world} := {
  fstat_input : forall k fd, input (fst (sys_fstat k fd)) = input k;
  commit_input : forall k a n, input (fst (heap_commit k a n)) = input k;
  decommit_input : forall k a n, input (heap_decommit k a n) = input k }.

Section Replace.
Context {world : Type} `{FileStable world} (pageShift : Z) (HpageShift : 0 <= pageShift).
Abbreviation packer := (@packer world).
Abbreviation PAGE := (2 ^ pageShift).
Abbreviation up n := (Z.to_nat (math_ALIGN_FORWARD (Z.of_nat n) PAGE)).

(** The page lies in the allocation, whose pages are committed. *)
Definition packer_ok (s : packer) : Prop :=
  0 <= size (palloc s) /\ (Z.of_nat (bufferOffset s + bufferSize s) <= size (palloc s)) /\
  length (pmem s) = up (Z.to_nat (size (palloc s))).

Lemma up_ge n : (n <= up n)%nat.
Proof using All. pose proof (align_forward_bound pageShift (Z.of_nat n) HpageShift) as [? _]. lia. Qed.

Lemma length_recommit m n : length (recommit PAGE m (Z.of_nat n)) = up n.
Proof using All. unfold recommit. lens. Qed.

Lemma firstn_recommit m n i : (i <= length m)%nat -> (i <= up n)%nat -> firstn i (recommit PAGE m (Z.of_nat n)) = firstn i m.
Proof using All. intros Hm Hn. unfold recommit. rewrite firstn_app_l, firstn_firstn, Nat.min_l by lens. reflexivity. Qed.

Lemma resize_spec (s : packer) n : let '(s', st) := resize PAGE s n in
  bufferOffset s' = bufferOffset s /\ bufferSize s' = bufferSize s /\ input (pkernel s') = input (pkernel s) /\
  ((st = 0 /\ palloc s' = Allocator (mem (palloc s)) (Z.of_nat n) (reserveSize (palloc s)) /\ pmem s' = recommit PAGE (pmem s) (Z.of_nat n)) \/
   (st = -1 /\ palloc s' = palloc s /\ pmem s' = pmem s)).
Proof using All.
  unfold resize, allocator_resize. set (c := math_ALIGN_FORWARD (size (palloc s)) PAGE). set (c' := math_ALIGN_FORWARD (Z.of_nat n) PAGE).
  destruct (c' - c =? 0); [repeat split; auto|].
  destruct (c' - c <? 0); [repeat split; auto; apply decommit_input|].
  destruct (reserveSize (palloc s) <? c'); [repeat split; auto|].
  pose proof (commit_input (pkernel s) (mem (palloc s) + c) (c' - c)) as Hc.
  destruct (heap_commit (pkernel s) _ _) as [k st]. destruct (st <? 0); repeat split; auto.
Qed.

Lemma in_memory_ok (s : packer) off n : (off + n <= length (pmem s))%nat -> in_memory s off n = true.
Proof using All. intros Hn. unfold in_memory. apply orb_true_iff. right. now apply Nat.leb_le. Qed.

(** Reading a file of [cs] bytes and one more. *)
Lemma readAll_file k fd cs : exists k' data r,
  util_readAll (S (cs + 1 + patience k)) k fd (cs + 1) [] = (k', Some (r, data)) /\ (length data <= cs + 1)%nat /\
  (r = Z.of_nat cs -> data = input k fd /\ length data = cs).
Proof using All.
  pose proof (util_readAll_spec (S (cs + 1 + patience k)) k fd (cs + 1) [] ltac:(lia)) as Hra.
  destruct (util_readAll _ _ fd (cs + 1) []) as [k2 r2]. exists k2.
  destruct Hra as [(j & Hj & -> & _)|[-> _]]; cbn [app]; do 2 eexists; (split; [reflexivity|]); rewrite length_firstn.
  - split; [lia|]. intros ?. exfalso. lia.
  - split; [lia|]. intros Er. rewrite firstn_all2 by lia. split; [reflexivity|lia].
Qed.

(** The pages left by the resize hold the page of before. *)
Definition fits_pages (s : packer) (newSize : nat) : Prop := (bufferOffset s + bufferSize s <= up (bufferOffset s + newSize + 1))%nat.

Lemma insert_file_spec (s : packer) pathFd idx rs (asBase64 : bool) : packer_ok s -> (idx + rs <= bufferSize s)%nat ->
  bytes (input (pkernel s) pathFd) ->
  (let size := Z.to_nat (snd (snd (sys_fstat (pkernel s) pathFd))) in
   fits_pages s (bufferSize s + (if asBase64 then base64_ENCODE_SIZE size else size) - rs)) ->
  exists s' st, insert_file PAGE s pathFd idx rs asBase64 = Done (s', st) /\ packer_ok s' /\ bufferOffset s' = bufferOffset s /\ st <= 0 /\
  (st = 0 -> page s' = firstn idx (page s) ++ inserted asBase64 (input (pkernel s) pathFd) ++ skipn (idx + rs) (page s)).
Proof using All.
  intros (Ha & Hb & Hm) Hi Hbytes Hfit. unfold insert_file.
  pose proof (fstat_input (pkernel s) pathFd) as Hfi. destruct (sys_fstat (pkernel s) pathFd) as [k [[status mode] st_size]].
  cbn [fst snd] in *. destruct (status <? 0); [exists (set_pkernel s k), (-3); repeat split; auto; lia|].
  cbn [bufferSize bufferOffset set_pkernel]. set (cs := Z.to_nat st_size) in *. set (g := if asBase64 then base64_ENCODE_SIZE cs else cs) in *.
  set (new := (bufferSize s + g - rs)%nat) in *.
  pose proof (resize_spec (set_pkernel s k) (bufferOffset s + new + 1)) as Hr.
  destruct (resize PAGE (set_pkernel s k) (bufferOffset s + new + 1)) as [s1 st1]. cbn [set_pkernel bufferOffset bufferSize pkernel palloc pmem] in Hr.
  destruct Hr as (R1 & R2 & R3 & [(-> & R4 & R5)|(-> & R4 & R5)]).
  2: { exists s1, (-4). change (-1 <? 0) with true. cbv iota. split; [reflexivity|].
       split; [unfold packer_ok; rewrite R1, R2, R4, R5; auto|]. split; [exact R1|]. split; lia. }
  change (0 <? 0) with false. cbv iota. rewrite R1, R2. pose proof (up_ge (bufferOffset s + new + 1)) as Hup.
  assert (length (pmem s1) = up (bufferOffset s + new + 1)) as Hl1 by (rewrite R5; apply length_recommit).
  assert (Z.to_nat (size (palloc s)) <= length (pmem s))%nat as Hsz by (rewrite Hm; apply up_ge).
  unfold fits_pages in Hfit. set (U := up (bufferOffset s + new + 1)) in *.
  assert (new + rs = bufferSize s + g)%nat as Hnew by (unfold new; lia).
  rewrite !in_memory_ok by (rewrite Hl1; lia). cbn [andb negb pkernel bufferOffset].
  assert (cs <= g)%nat as Hcs by (unfold g; destruct asBase64; [apply encode_size_ge|lia]).
  destruct (readAll_file (pkernel s1) pathFd cs) as (k2 & data & r & -> & Hdl & Hdata). rewrite R3, Hfi in Hdata.
  set (content := (bufferOffset s + idx + g - cs)%nat).
  set (m2 := memmove _ _ _ _).
  assert (length m2 = U) as Hl2 by (unfold m2; rewrite memmove_spec, length_mem_copy by (rewrite ?length_firstn, ?length_skipn; lia); exact Hl1).
  unfold store. cbn [set_pkernel pmem]. rewrite in_memory_ok by (cbn [set_pkernel pmem]; lia). cbn [bind].
  set (m3 := mem_copy m2 content data). assert (length m3 = U) as Hl3 by (unfold m3; rewrite length_mem_copy by lia; exact Hl2).
  assert (forall m, length m = U -> packer_ok (Packer k2 (palloc s1) m (bufferOffset s) new)) as Hok.
  { intros m' Hm'. unfold packer_ok. cbn [palloc pmem bufferOffset bufferSize]. rewrite R4. cbn [size]. rewrite Nat2Z.id. repeat split; try lia. }
  destruct (Z.eqb_spec r (Z.of_nat cs)) as [E|E]; cbn [negb].
  2: { do 2 eexists. split; [reflexivity|]. split; [now apply Hok|]. split; [reflexivity|]. split; [lia|]. lia. }
  destruct (Hdata E) as [-> Hcl]. clear Hdata Hdl.
  pose proof (insert_mem (pmem s1) (bufferOffset s + idx) g (bufferOffset s + idx + rs) (bufferSize s - (rs + idx))
    (input (pkernel s) pathFd) asBase64 ltac:(lia) ltac:(lia) Hbytes ltac:(rewrite Hcl; reflexivity)) as Him.
  rewrite Hcl in Him. cbv zeta in Him. fold content m2 in Him. change (mem_copy m2 content (input (pkernel s) pathFd)) with m3 in Him.
  do 2 eexists. split; [reflexivity|].
  assert (length (inserted asBase64 (input (pkernel s) pathFd)) = g) as Hgl.
  { unfold inserted, g. destruct asBase64; [rewrite length_rfc_encode, Hcl; reflexivity|exact Hcl]. }
  assert (length (if asBase64 then base64_encode m3 (bufferOffset s + idx) content cs else m3) = U) as Hl4.
  { rewrite Him, !length_app, Hgl, !length_firstn, !length_skipn. lia. }
  split; [destruct asBase64; apply Hok, Hl4|]. split; [destruct asBase64; reflexivity|]. split; [lia|]. intros _.
  replace (page _) with (firstn new (skipn (bufferOffset s) (if asBase64 then base64_encode m3 (bufferOffset s + idx) content cs else m3)))
    by (destruct asBase64; reflexivity).
  rewrite Him. unfold page. rewrite <- Hgl in Hnew |- *.
  replace new with (bufferSize s + length (inserted asBase64 (input (pkernel s) pathFd)) - rs)%nat by lia.
  rewrite page_mem by lia. assert (firstn (bufferSize s) (skipn (bufferOffset s) (pmem s1)) = firstn (bufferSize s) (skipn (bufferOffset s) (pmem s))) as ->; [|reflexivity].
  rewrite !firstn_skipn_comm. f_equal. rewrite R5. apply firstn_recommit; [lia|fold U; lia].
Qed.

(** What [replaceWithFile] finds for a path. *)
Definition found_file (s : packer) (path : list Z) : world * option Z :=
  let s1 := fst (resize PAGE s (Z.to_nat (size (palloc s)) + length path + 1)) in
  open_include (pkernel s1) (include_fds s1) (cstr (path ++ [0])).

Definition insert_size (k : world) (fd : Z) (asBase64 : bool) : nat :=
  let n := Z.to_nat (snd (snd (sys_fstat k fd))) in if asBase64 then base64_ENCODE_SIZE n else n.

(** Up to the open file. *)
Lemma store_path s path : packer_ok s -> (bufferOffset s mod 4 = 0)%nat ->
  let pathZ := Z.to_nat (size (palloc s)) in
  let '(s1, st) := resize PAGE s (pathZ + length path + 1) in
  0 <= st -> exists s2, store s1 pathZ (path ++ [0]) = Done s2 /\ packer_ok s2 /\ pkernel s2 = pkernel s1 /\
  bufferOffset s2 = bufferOffset s /\ bufferSize s2 = bufferSize s /\ page s2 = page s /\ include_fds s2 = include_fds s1.
Proof using All.
  intros (Ha & Hb & Hm) H4 pathZ. pose proof (resize_spec s (pathZ + length path + 1)) as Hr.
  destruct (resize PAGE s (pathZ + length path + 1)) as [s1 st]. destruct Hr as (R1 & R2 & _ & [(-> & R4 & R5)|(-> & _)]); [|lia]. intros _.
  pose proof (up_ge (pathZ + length path + 1)) as Hup. pose proof (up_ge pathZ) as Hup0. fold pathZ in Hm.
  assert (length (pmem s1) = up (pathZ + length path + 1)) as Hl1 by (rewrite R5; apply length_recommit).
  unfold store. rewrite in_memory_ok by (rewrite length_app; cbn [List.length]; lia). eexists. split; [reflexivity|].
  assert (length (mem_copy (pmem s1) pathZ (path ++ [0])) = length (pmem s1)) as Hl2 by (apply length_mem_copy; rewrite length_app; cbn [List.length]; lia).
  assert (firstn pathZ (mem_copy (pmem s1) pathZ (path ++ [0])) = firstn pathZ (pmem s1)) as Hf.
  { rewrite mem_copy_eq by (rewrite length_app; cbn [List.length]; lia). rewrite firstn_app_l, firstn_firstn, Nat.min_id by lens. reflexivity. }
  repeat split; cbn [set_pmem palloc pmem bufferOffset bufferSize pkernel]; rewrite ?R1, ?R2, ?R4; cbn [size]; try lia.
  - rewrite Hl2, Hl1, Nat2Z.id. reflexivity.
  - unfold page. cbn [set_pmem pmem bufferOffset bufferSize]. rewrite R1, R2, !firstn_skipn_comm. f_equal.
    assert (forall m : list Z, firstn (bufferOffset s + bufferSize s) m = firstn (bufferOffset s + bufferSize s) (firstn pathZ m)) as Hff
      by (intros m'; rewrite firstn_firstn, Nat.min_l by lia; reflexivity).
    rewrite Hff, Hf, R5, firstn_recommit, <- Hff by lia. reflexivity.
  - unfold include_fds. cbn [set_pmem bufferOffset]. apply map_ext_in. intros i Hi. apply in_seq in Hi. unfold include_fd. cbn [set_pmem pmem]. do 2 f_equal.
    pose proof (Nat.div_mod_eq (bufferOffset s1) 4) as Hdm. rewrite R1 in *. rewrite !firstn_skipn_comm. f_equal.
    assert (forall m : list Z, firstn (4 * i + 4) m = firstn (4 * i + 4) (firstn pathZ m)) as Hff by (intros m'; rewrite firstn_firstn, Nat.min_l by lia; reflexivity).
    rewrite Hff, Hf, <- Hff. reflexivity.
Qed.

Lemma replaceWithFile_spec s idx rs path (asBase64 : bool) : packer_ok s -> (bufferOffset s mod 4 = 0)%nat -> (idx + rs <= bufferSize s)%nat ->
  let '(k1, found) := found_file s path in
  (forall fd, found = Some fd -> bytes (input k1 fd) /\ fits_pages s (bufferSize s + insert_size k1 fd asBase64 - rs)) ->
  exists s' st, replaceWithFile PAGE s idx rs path asBase64 = Done (s', st) /\ packer_ok s' /\ bufferOffset s' = bufferOffset s /\ st <= 0 /\
  (st = 0 -> exists fd, found = Some fd /\
     page s' = firstn idx (page s) ++ inserted asBase64 (input k1 fd) ++ skipn (idx + rs) (page s)).
Proof using All.
  intros Hok H4 Hi. unfold found_file, replaceWithFile. pose proof (store_path s path Hok H4) as Hsp. cbv zeta in Hsp |- *.
  pose proof (resize_spec s (Z.to_nat (size (palloc s)) + length path + 1)) as Hr.
  destruct (resize PAGE s _) as [s1 st1]. cbn [fst]. destruct (open_include (pkernel s1) (include_fds s1) (cstr (path ++ [0]))) as [k1 found] eqn:Eo.
  intros Hfit. destruct Hr as (R1 & R2 & _ & [(-> & _)|(-> & R4 & R5)]).
  2: { exists s1, (-1). split; [reflexivity|]. destruct Hok as (A1 & A2 & A3). split; [unfold packer_ok; rewrite R1, R2, R4, R5; auto|]. split; [exact R1|]. split; lia. }
  change (0 <? 0) with false. cbv iota. destruct (Hsp ltac:(lia)) as (s2 & -> & Hok2 & P1 & P2 & P3 & P4 & P5). cbn [bind]. rewrite P1, P5, Eo.
  destruct found as [fd|].
  2: { exists (set_pkernel s2 k1), (-2). repeat split; try apply Hok2; try assumption; try lia; discriminate. }
  destruct (insert_file_spec (set_pkernel s2 k1) fd idx rs asBase64) as (s3 & st3 & -> & Hok3 & O3 & Hst & Hpage); cbn [set_pkernel pkernel bufferSize bufferOffset].
  - exact Hok2.
  - rewrite P3. exact Hi.
  - apply Hfit. reflexivity.
  - unfold fits_pages in *. cbn [bufferSize bufferOffset set_pkernel]. rewrite P2, P3. exact (proj2 (Hfit fd eq_refl)).
  - cbn [bind]. exists (pclose s3 fd), st3. split; [reflexivity|]. split; [exact Hok3|]. split; [cbn; now rewrite O3|]. split; [exact Hst|].
    intros E. exists fd. split; [reflexivity|]. change (page (set_pkernel s2 k1)) with (page s2) in Hpage. rewrite P4 in Hpage. exact (Hpage E).
Qed.

(** The resize of [insert_file] drops pages of the page's tail before the tail is moved. *)
Lemma insert_file_fault (s : packer) pathFd idx rs (asBase64 : bool) : packer_ok s -> (idx + rs < bufferSize s)%nat ->
  0 <= fst (fst (snd (sys_fstat (pkernel s) pathFd))) ->
  ~ fits_pages s (bufferSize s + insert_size (pkernel s) pathFd asBase64 - rs) ->
  insert_file PAGE s pathFd idx rs asBase64 = Fault.
Proof using All.
  intros (Ha & Hb & Hm) Hi Hst Hfit. unfold insert_file, insert_size in *.
  destruct (sys_fstat (pkernel s) pathFd) as [k [[status mode] st_size]]. cbn [fst snd] in *.
  rewrite (proj2 (Z.ltb_ge status 0) Hst). cbn [bufferSize bufferOffset set_pkernel].
  set (g := if asBase64 then _ else _) in *. set (new := (bufferSize s + g - rs)%nat) in *. unfold fits_pages in Hfit.
  unfold resize at 1, allocator_resize. cbn [set_pkernel palloc pkernel pmem bufferOffset bufferSize].
  rewrite <- (Z2Nat.id (size (palloc s))) in * by assumption. rewrite Nat2Z.id in Hm.
  pose proof (up_ge (Z.to_nat (size (palloc s)))) as Hup.
  pose proof (align_forward_bound pageShift (Z.of_nat (bufferOffset s + new + 1)) HpageShift) as [Hlow _].
  destruct (Z.eqb_spec (math_ALIGN_FORWARD (Z.of_nat (bufferOffset s + new + 1)) PAGE - math_ALIGN_FORWARD (Z.of_nat (Z.to_nat (size (palloc s)))) PAGE) 0) as [E|E]; [exfalso; lia|].
  destruct (Z.ltb_spec (math_ALIGN_FORWARD (Z.of_nat (bufferOffset s + new + 1)) PAGE - math_ALIGN_FORWARD (Z.of_nat (Z.to_nat (size (palloc s)))) PAGE) 0) as [E'|E']; [|exfalso; lia].
  change (0 <? 0) with false. cbv iota. cbn [bufferOffset bufferSize].
  assert (in_memory (Packer (heap_decommit k (mem (palloc s) + math_ALIGN_FORWARD (Z.of_nat (bufferOffset s + new + 1)) PAGE)
      (- (math_ALIGN_FORWARD (Z.of_nat (bufferOffset s + new + 1)) PAGE - math_ALIGN_FORWARD (Z.of_nat (Z.to_nat (size (palloc s)))) PAGE)))
      (Allocator (mem (palloc s)) (Z.of_nat (bufferOffset s + new + 1)) (reserveSize (palloc s)))
      (recommit PAGE (pmem s) (Z.of_nat (bufferOffset s + new + 1))) (bufferOffset s) (bufferSize s))
    (bufferOffset s + idx + rs) (bufferSize s - (rs + idx)) = false) as ->; [|reflexivity].
  unfold in_memory. cbn [pmem]. rewrite length_recommit. apply orb_false_iff. split; [apply Nat.eqb_neq|apply Nat.leb_gt]; lia.
Qed.

(** [replaceWithFile], when the pages of the allocation that the new page needs also hold
    the old one, never accesses memory outside the allocation, keeps the page inside it,
    and when it returns 0 has replaced exactly the [rs] bytes at [idx] by the content of
    the first file found on the include path, base64 encoded on request, leaving the rest
    of the page in place; otherwise it returns a negative status. *)
Theorem replaceWithFile_correct s idx rs path (asBase64 : bool) : packer_ok s -> (bufferOffset s mod 4 = 0)%nat -> (idx + rs <= bufferSize s)%nat ->
  let '(k1, found) := found_file s path in
  (forall fd, found = Some fd -> bytes (input k1 fd) /\ fits_pages s (bufferSize s + insert_size k1 fd asBase64 - rs)) ->
  exists s' st, replaceWithFile PAGE s idx rs path asBase64 = Done (s', st) /\ packer_ok s' /\ bufferOffset s' = bufferOffset s /\ st <= 0 /\
  (st = 0 -> exists fd, found = Some fd /\
     page s' = firstn idx (page s) ++ inserted asBase64 (input k1 fd) ++ skipn (idx + rs) (page s)).
Proof using All. exact (replaceWithFile_spec s idx rs path asBase64). Qed.

(** when the replacement shrinks the page so much that the allocation loses a memory
    page that still holds some of the old page, [replaceWithFile] faults: the allocator is
    resized before the tail is moved, and the move reads decommitted memory. *)
Theorem replaceWithFile_shrink_fault s idx rs path (asBase64 : bool) fd :
  packer_ok s -> (bufferOffset s mod 4 = 0)%nat -> (idx + rs < bufferSize s)%nat ->
  0 <= snd (resize PAGE s (Z.to_nat (size (palloc s)) + length path + 1)) ->
  let '(k1, found) := found_file s path in
  found = Some fd -> 0 <= fst (fst (snd (sys_fstat k1 fd))) ->
  ~ fits_pages s (bufferSize s + insert_size k1 fd asBase64 - rs) ->
  replaceWithFile PAGE s idx rs path asBase64 = Fault.
Proof using All.
  intros Hok H4 Hi Hr. unfold found_file, replaceWithFile. pose proof (store_path s path Hok H4) as Hsp. cbv zeta in Hsp |- *.
  destruct (resize PAGE s _) as [s1 st1]. cbn [fst snd] in *. destruct (open_include (pkernel s1) (include_fds s1) _) as [k1 found] eqn:Eo.
  intros -> Hst Hfit. rewrite (proj2 (Z.ltb_ge st1 0) Hr). destruct (Hsp Hr) as (s2 & -> & Hok2 & P1 & P2 & P3 & P4 & P5).
  cbn [bind]. rewrite P1, P5, Eo. rewrite insert_file_fault; [reflexivity|exact Hok2|cbn; lia|exact Hst|].
  unfold fits_pages in *. cbn [bufferOffset bufferSize set_pkernel pkernel]. rewrite P2, P3. exact Hfit.
Qed.
End Replace.

(** ** The whole run *)

Definition directives : list (list Z) := [str "<!--INCLUDE("; str "/*INCLUDE("; str "/*INCLUDE_BASE64("].
Definition expanded (text : list Z) : Prop := Forall (fun d => findPattern text 0 d = -1) directives.

Section Run.
Context {world : Type} `{FileLaws world} `{DirOps world} `{Heap world} (pageSize : Z).

Lemma findPattern_negative text from d : findPattern text from d < 0 -> findPattern text from d = -1.
Proof. destruct (findPattern_spec text from d) as [[-> _]|(i & -> & _)]; lia. Qed.

Lemma handleInclude_status (s s' : packer (world := world)) d e b st : handleInclude pageSize s d e b = Done (s', st) ->
  (st = 1 /\ s' = s /\ findPattern (page s) 0 d = -1) \/ st = 0 \/ st = -1.
Proof.
  unfold handleInclude. destruct (Z.ltb_spec (findPattern (page s) 0 d) 0) as [Hn|_].
  { intros [= <- <-]. left. auto using findPattern_negative. }
  destruct (_ <? 0); [intros [= <- <-]; auto|]. destruct (_ <? _); [intros [= <- <-]; auto|].
  destruct (replaceWithFile _ _ _ _ _ _) as [[s1 st1]| |]; cbn [bind]; try discriminate.
  destruct (st1 <? 0); intros [= <- <-]; auto.
Qed.

Lemma include_loop_expanded fuel : forall s s' : packer (world := world), include_loop pageSize fuel s = Done (s', true) -> expanded (page s').
Proof.
  induction fuel as [|fuel IH]; intros s s'; cbn [include_loop]; [discriminate|].
  destruct (handleInclude _ s _ _ _) as [[s1 st1]| |] eqn:E1; cbn [bind]; try discriminate.
  apply handleInclude_status in E1. destruct (st1 <? 0) eqn:L1; [discriminate|].
  destruct (handleInclude _ s1 _ _ _) as [[s2 st2]| |] eqn:E2; cbn [bind]; try discriminate.
  apply handleInclude_status in E2. destruct (st2 <? 0) eqn:L2; [discriminate|].
  destruct (handleInclude _ s2 _ _ _) as [[s3 st3]| |] eqn:E3; cbn [bind]; try discriminate.
  apply handleInclude_status in E3. destruct (st3 <? 0) eqn:L3; [discriminate|].
  destruct E1 as [(-> & -> & F1)|[->| ->]], E2 as [(-> & -> & F2)|[->| ->]], E3 as [(-> & -> & F3)|[->| ->]]; try discriminate;
    try (cbn; apply IH).
  intros [= <-]. repeat constructor; assumption.
Qed.

End Run.

(** ** A run *)

Module DemoPacker.
Import DemoKernel.

#[global] Instance kern_stable : FileStable kern.
Proof. split; try reflexivity. intros k fd. cbn. destruct (nodes k fd) as [[|]|]; reflexivity. Qed.

(** The include directory "in" is descriptor 3; memory pages of 32 bytes. *)
Definition disk (files : list (list Z * tree)) : kern := Kern (fun _ => None) (fun _ => []) (fun _ => []) 3 [] false files.
Definition opened (files : list (list Z * tree)) (text : list Z) : packer :=
  let n := (4 + length text)%nat in
  Packer (fst (sys_openat (disk files) AT_FDCWD (str "in") O_RDONLY 0)) (Allocator 4096 (Z.of_nat n) 65536)
    ([3; 0; 0; 0] ++ text ++ repeat 0 (Z.to_nat (math_ALIGN_FORWARD (Z.of_nat n) 32) - n)) 4 (length text).
Definition site : list (list Z * tree) := [(str "p", File (str "a/*INCLUDE_BASE64(x)*/b")); (str "x", File (str "hello"))].
End DemoPacker.

Lemma replaceWithFile_correct_witness :
  exists s', replaceWithFile 32 (DemoPacker.opened DemoPacker.site (str "a/*INCLUDE(x)*/b")) 1 14 (str "x") true = Done (s', 0) /\ page s' = str "aaGVsbG8=b".
Proof.
  pose proof (replaceWithFile_correct 5 ltac:(lia) (DemoPacker.opened DemoPacker.site (str "a/*INCLUDE(x)*/b")) 1 14 (str "x") true) as Hw.
  assert (packer_ok 5 (DemoPacker.opened DemoPacker.site (str "a/*INCLUDE(x)*/b"))) as Hok by (split; [|split]; vm_compute; congruence).
  specialize (Hw Hok eq_refl ltac:(apply Nat.leb_le; reflexivity)).
  destruct (found_file _ _ _) as [k1 found] eqn:Ef. vm_compute in Ef. injection Ef as <- <-.
  destruct Hw as (s' & st & E & _ & _ & _ & Hp).
  - intros fd [= <-]. split; [vm_compute; repeat (constructor; [split; congruence|]); constructor|apply Nat.leb_le; vm_compute; reflexivity].
  - exists s'. assert (st = 0) as -> by (vm_compute in E; congruence). split; [exact E|].
    destruct (Hp eq_refl) as (fd & [= <-] & ->). vm_compute. reflexivity.
Defined.

Lemma replaceWithFile_shrink_fault_witness :
  replaceWithFile 32 (DemoPacker.opened [(str "x", File [])] (str "/*INCLUDE(x)*/, a tail of text")) 0 14 (str "x") false = Fault.
Proof.
  pose proof (replaceWithFile_shrink_fault 5 ltac:(lia) (DemoPacker.opened [(str "x", File [])] (str "/*INCLUDE(x)*/, a tail of text")) 0 14 (str "x") false 4) as Hw.
  assert (packer_ok 5 (DemoPacker.opened [(str "x", File [])] (str "/*INCLUDE(x)*/, a tail of text"))) as Hok by (split; [|split]; vm_compute; congruence).
  specialize (Hw Hok eq_refl ltac:(apply Nat.ltb_lt; reflexivity) ltac:(vm_compute; congruence)).
  destruct (found_file _ _ _) as [k1 found] eqn:Ef. vm_compute in Ef. injection Ef as <- <-. apply Hw; [reflexivity|vm_compute; congruence|].
  unfold fits_pages. apply Nat.lt_nge, Nat.ltb_lt. vm_compute. reflexivity.
Defined.

