(* ===== verification/Modm.v ===== *)
(** * Arithmetic modulo the order of the Ed25519 group ([src/hc/core/hc/crypto/ed25519.c], [ed25519_modm_*])

    A scalar is five limbs of 56 bits, little endian.  Products are reduced with
    Barrett's method.  Every routine is proved exact modulo the group order, without an
    overflow of a 64 or 128 bit intermediate, and the two signed recodings of a scalar
    (fixed windows of four bits, sliding windows) are proved to keep its value. *)
From Stdlib Require Import ZArith List Lia Bool.
From S2P Require Import Prelude Mem Curve25519.
Import ListNotations.

(** ** Operations *)

Definition ed25519_modm_m : fe :=
  Fe 0x12631A5CF5D3ED 0xF9DEA2F79CD658 0x000000000014DE 0x00000000000000 0x00000010000000.
Definition ed25519_modm_mu : fe :=
  Fe 0x9CE5A30A2C131B 0x215D086329A7ED 0xFFFFFFFFEB2106 0xFFFFFFFFFFFFFF 0x00000FFFFFFFFF.

(** The three lines [pb = b + m; b = (r - pb) >> 63; t = r - pb + (b << n)]: the new borrow and [t]. *)
Definition borrow (b r m n : Z) : Z * Z :=
  let pb := u64 (b + m) in
  let b := u64 (r - pb) >> 63 in
  (b, u64 (u64 (r - pb) + u64 (b << n))).

(** [r - s], limb by limb, the last limb of [n] bits: the borrow and the difference. *)
Definition subtract (r s : fe) (n : Z) : Z * fe :=
  let '(b, t0) := borrow 0 (f0 r) (f0 s) 56 in
  let '(b, t1) := borrow b (f1 r) (f1 s) 56 in
  let '(b, t2) := borrow b (f2 r) (f2 s) 56 in
  let '(b, t3) := borrow b (f3 r) (f3 s) 56 in
  let '(b, t4) := borrow b (f4 r) (f4 s) n in
  (b, Fe t0 t1 t2 t3 t4).

(** [r ^= mask & (r ^ t)]. *)
Definition select (mask r t : Z) : Z := r ^^ (mask & (r ^^ t)).

Definition ed25519_modm_reduce (r : fe) : fe :=
  let '(b, t) := subtract r ed25519_modm_m 32 in
  let mask := u64 (b - 1) in
  Fe (select mask (f0 r) (f0 t)) (select mask (f1 r) (f1 t)) (select mask (f2 r) (f2 t)) (select mask (f3 r) (f3 t)) (select mask (f4 r) (f4 t)).

Abbreviation low56 x := (Z.land x 0xFFFFFFFFFFFFFF).
Abbreviation low40 x := (Z.land x 0x0000FFFFFFFFFF).

(** [q3], with [q2 = mu * q1] of which only the columns that matter are computed. *)
Definition barrett_q3 (mu q1 : fe) : fe :=
  let c := u128 (mul128 (f0 mu) (f3 q1) + mul128 (f3 mu) (f0 q1) + mul128 (f1 mu) (f2 q1) + mul128 (f2 mu) (f1 q1)) in
  let c := u128 (u64 (c >> 56) + mul128 (f0 mu) (f4 q1) + mul128 (f4 mu) (f0 q1) + mul128 (f3 mu) (f1 q1) + mul128 (f1 mu) (f3 q1) + mul128 (f2 mu) (f2 q1)) in
  let q3_0 := (u64 c >> 40) & 0xFFFF in
  let c := u128 (u64 (c >> 56) + mul128 (f4 mu) (f1 q1) + mul128 (f1 mu) (f4 q1) + mul128 (f2 mu) (f3 q1) + mul128 (f3 mu) (f2 q1)) in
  let q3_0 := q3_0 .| low56 (u64 (u64 c << 16)) in
  let q3_1 := (u64 c >> 40) & 0xFFFF in
  let c := u128 (u64 (c >> 56) + mul128 (f4 mu) (f2 q1) + mul128 (f2 mu) (f4 q1) + mul128 (f3 mu) (f3 q1)) in
  let q3_1 := q3_1 .| low56 (u64 (u64 c << 16)) in
  let q3_2 := (u64 c >> 40) & 0xFFFF in
  let c := u128 (u64 (c >> 56) + mul128 (f4 mu) (f3 q1) + mul128 (f3 mu) (f4 q1)) in
  let q3_2 := q3_2 .| low56 (u64 (u64 c << 16)) in
  let q3_3 := (u64 c >> 40) & 0xFFFF in
  let c := u128 (u64 (c >> 56) + mul128 (f4 mu) (f4 q1)) in
  let q3_3 := q3_3 .| low56 (u64 (u64 c << 16)) in
  Fe q3_0 q3_1 q3_2 q3_3 (u64 (c >> 40)).

(** [r2 = m * q3] modulo 2^264. *)
Definition barrett_r2 (m q3 : fe) : fe :=
  let c := mul128 (f0 m) (f0 q3) in
  let r2_0 := low56 (u64 c) in
  let c := u128 (u64 (c >> 56) + mul128 (f0 m) (f1 q3) + mul128 (f1 m) (f0 q3)) in
  let r2_1 := low56 (u64 c) in
  let c := u128 (u64 (c >> 56) + mul128 (f0 m) (f2 q3) + mul128 (f2 m) (f0 q3) + mul128 (f1 m) (f1 q3)) in
  let r2_2 := low56 (u64 c) in
  let c := u128 (u64 (c >> 56) + mul128 (f0 m) (f3 q3) + mul128 (f3 m) (f0 q3) + mul128 (f1 m) (f2 q3) + mul128 (f2 m) (f1 q3)) in
  let r2_3 := low56 (u64 c) in
  let c := u128 (u64 (c >> 56) + mul128 (f0 m) (f4 q3) + mul128 (f4 m) (f0 q3) + mul128 (f3 m) (f1 q3) + mul128 (f1 m) (f3 q3) + mul128 (f2 m) (f2 q3)) in
  Fe r2_0 r2_1 r2_2 r2_3 (low40 (u64 c)).

Definition ed25519_modm_barrettReduce (q1 r1 : fe) : fe :=
  let q3 := barrett_q3 ed25519_modm_mu q1 in
  let r2 := barrett_r2 ed25519_modm_m q3 in
  let '(_, r) := subtract r1 r2 40 in
  ed25519_modm_reduce (ed25519_modm_reduce r).

Definition ed25519_modm_add (x y : fe) : fe :=
  let c := u64 (f0 x + f0 y) in
  let r0 := low56 c in
  let c := u64 ((c >> 56) + f1 x + f1 y) in
  let r1 := low56 c in
  let c := u64 ((c >> 56) + f2 x + f2 y) in
  let r2 := low56 c in
  let c := u64 ((c >> 56) + f3 x + f3 y) in
  let r3 := low56 c in
  let r4 := u64 ((c >> 56) + f4 x + f4 y) in
  ed25519_modm_reduce (Fe r0 r1 r2 r3 r4).

(** [q1], the product shifted by 248 bits, and [r1], the product modulo 2^264. *)
Definition modm_product (x y : fe) : fe * fe :=
  let c := mul128 (f0 x) (f0 y) in
  let r1_0 := low56 (u64 c) in
  let c := u128 (u64 (c >> 56) + mul128 (f0 x) (f1 y) + mul128 (f1 x) (f0 y)) in
  let r1_1 := low56 (u64 c) in
  let c := u128 (u64 (c >> 56) + mul128 (f0 x) (f2 y) + mul128 (f2 x) (f0 y) + mul128 (f1 x) (f1 y)) in
  let r1_2 := low56 (u64 c) in
  let c := u128 (u64 (c >> 56) + mul128 (f0 x) (f3 y) + mul128 (f3 x) (f0 y) + mul128 (f1 x) (f2 y) + mul128 (f2 x) (f1 y)) in
  let r1_3 := low56 (u64 c) in
  let c := u128 (u64 (c >> 56) + mul128 (f0 x) (f4 y) + mul128 (f4 x) (f0 y) + mul128 (f3 x) (f1 y) + mul128 (f1 x) (f3 y) + mul128 (f2 x) (f2 y)) in
  let r1_4 := low40 (u64 c) in
  let q1_0 := (u64 c >> 24) & 0xFFFFFFFF in
  let c := u128 (u64 (c >> 56) + mul128 (f4 x) (f1 y) + mul128 (f1 x) (f4 y) + mul128 (f2 x) (f3 y) + mul128 (f3 x) (f2 y)) in
  let q1_0 := q1_0 .| low56 (u64 (u64 c << 32)) in
  let q1_1 := (u64 c >> 24) & 0xFFFFFFFF in
  let c := u128 (u64 (c >> 56) + mul128 (f4 x) (f2 y) + mul128 (f2 x) (f4 y) + mul128 (f3 x) (f3 y)) in
  let q1_1 := q1_1 .| low56 (u64 (u64 c << 32)) in
  let q1_2 := (u64 c >> 24) & 0xFFFFFFFF in
  let c := u128 (u64 (c >> 56) + mul128 (f4 x) (f3 y) + mul128 (f3 x) (f4 y)) in
  let q1_2 := q1_2 .| low56 (u64 (u64 c << 32)) in
  let q1_3 := (u64 c >> 24) & 0xFFFFFFFF in
  let c := u128 (u64 (c >> 56) + mul128 (f4 x) (f4 y)) in
  let q1_3 := q1_3 .| low56 (u64 (u64 c << 32)) in
  (Fe q1_0 q1_1 q1_2 q1_3 (u64 (c >> 24)), Fe r1_0 r1_1 r1_2 r1_3 r1_4).

Definition ed25519_modm_mul (x y : fe) : fe :=
  let '(q1, r1) := modm_product x y in ed25519_modm_barrettReduce q1 r1.

(** Word [i] of [uint64_t x[8]], filled from [in]. *)
Abbreviation word inp i := (mem_loadU64 (skipn (8 * i) inp)).

Definition ed25519_modm_load (inp : list Z) (size64 : bool) : fe :=
  let x0 := word inp 0 in let x1 := word inp 1 in let x2 := word inp 2 in let x3 := word inp 3 in
  let out0 := low56 x0 in
  let out1 := low56 ((x0 >> 56) .| u64 (x1 << 8)) in
  let out2 := low56 ((x1 >> 48) .| u64 (x2 << 16)) in
  let out3 := low56 ((x2 >> 40) .| u64 (x3 << 24)) in
  let out4 := x3 >> 32 in
  if negb size64 then Fe out0 out1 out2 out3 out4
  else
    let x4 := word inp 4 in let x5 := word inp 5 in let x6 := word inp 6 in let x7 := word inp 7 in
    let out4 := out4 .| low40 (u64 (x4 << 32)) in
    let q1_0 := low56 ((x3 >> 56) .| u64 (x4 << 8)) in
    let q1_1 := low56 ((x4 >> 48) .| u64 (x5 << 16)) in
    let q1_2 := low56 ((x5 >> 40) .| u64 (x6 << 24)) in
    let q1_3 := low56 ((x6 >> 32) .| u64 (x7 << 32)) in
    let q1_4 := x7 >> 24 in
    ed25519_modm_barrettReduce (Fe q1_0 q1_1 q1_2 q1_3 q1_4) (Fe out0 out1 out2 out3 out4).

(** The 32 bytes written to [out]. *)
Definition ed25519_modm_store (a : fe) : list Z :=
  le_split 8 (f0 a .| u64 (f1 a << 56)) ++ le_split 8 ((f1 a >> 8) .| u64 (f2 a << 48)) ++
  le_split 8 ((f2 a >> 16) .| u64 (f3 a << 40)) ++ le_split 8 ((f3 a >> 24) .| u64 (f4 a << 32)).

(** ** Values *)

Definition L : Z := 2 ^ 252 + 27742317777372353535851937790883648493.

Definition mval (a : fe) : Z := f0 a + 2 ^ 56 * f1 a + 2 ^ 112 * f2 a + 2 ^ 168 * f3 a + 2 ^ 224 * f4 a.

(** Limbs below 2^56, the last one below 2^n. *)
Definition limbs (n : Z) (a : fe) : Prop :=
  0 <= f0 a < 2 ^ 56 /\ 0 <= f1 a < 2 ^ 56 /\ 0 <= f2 a < 2 ^ 56 /\ 0 <= f3 a < 2 ^ 56 /\ 0 <= f4 a < 2 ^ n.

Ltac limbs := unfold limbs, mval in *; cbn [f0 f1 f2 f3 f4] in *.

Lemma modm_m_value : mval ed25519_modm_m = L.
Proof. reflexivity. Qed.

Lemma modm_mu_value : mval ed25519_modm_mu = 2 ^ 512 / L.
Proof. vm_compute. reflexivity. Qed.

Lemma modm_m_limbs : limbs 32 ed25519_modm_m.
Proof. unfold ed25519_modm_m. limbs. lia. Qed.

Lemma modm_mu_limbs : limbs 40 ed25519_modm_mu.
Proof. unfold ed25519_modm_mu. limbs. lia. Qed.

(** ** Subtraction with borrow *)

Lemma borrow_spec b r m n : 32 <= n <= 56 -> 0 <= b <= 1 -> 0 <= r < 2 ^ n -> 0 <= m < 2 ^ n ->
  let '(b', t) := borrow b r m n in 0 <= b' <= 1 /\ 0 <= t < 2 ^ n /\ t = r - b - m + b' * 2 ^ n.
Proof.
  intros Hn Hb Hr Hm. assert (2 ^ 32 <= 2 ^ n) by (apply Z.pow_le_mono_r; lia).
  assert (2 ^ n <= 2 ^ 56) by (apply Z.pow_le_mono_r; lia). unfold borrow. cbv zeta.
  rewrite (wrap_small 64 (b + m)) by lia. rewrite !shiftr_div, shiftl_mul by lia.
  destruct (Z.le_gt_cases (b + m) r) as [Hle|Hgt].
  - rewrite (wrap_small 64 (r - _)) by lia. rewrite (Z.div_small (r - _)) by lia. rewrite Z.mul_0_l, Z.add_0_r.
    change (u64 0) with 0. rewrite Z.add_0_r, wrap_small by lia. lia.
  - assert (u64 (r - (b + m)) = 2 ^ 64 + (r - (b + m))) as ->.
    { unfold wrap. symmetry. apply (Z.mod_unique_pos _ _ (-1)); lia. }
    replace ((2 ^ 64 + (r - (b + m))) / 2 ^ 63) with 1 by (apply (Z.div_unique_pos _ _ _ (2 ^ 63 + (r - (b + m)))); lia).
    rewrite Z.mul_1_l, (wrap_small 64 (2 ^ n)) by lia.
    assert (u64 (2 ^ 64 + (r - (b + m)) + 2 ^ n) = r - (b + m) + 2 ^ n) as ->.
    { unfold wrap. symmetry. apply (Z.mod_unique_pos _ _ 1); lia. }
    lia.
Qed.

Lemma select_spec b r t : 0 <= b <= 1 -> 0 <= r < 2 ^ 64 -> 0 <= t < 2 ^ 64 ->
  select (u64 (b - 1)) r t = if b =? 1 then r else t.
Proof.
  intros Hb Hr Ht. unfold select. assert (b = 0 \/ b = 1) as [->| ->] by lia.
  - change (u64 (0 - 1)) with (Z.ones 64). rewrite Z.land_comm, Z.land_ones, Z.mod_small by (lia || (apply lxor_bound; lia)).
    now rewrite <- Z.lxor_assoc, Z.lxor_nilpotent, Z.lxor_0_l.
  - change (u64 (1 - 1)) with 0. now rewrite Z.land_0_l, Z.lxor_0_r.
Qed.

Lemma subtract_spec r s n : 32 <= n <= 56 -> limbs n r -> limbs n s ->
  let '(b, t) := subtract r s n in 0 <= b <= 1 /\ limbs n t /\ mval t = mval r - mval s + b * 2 ^ (224 + n).
Proof.
  destruct r as [r0 r1 r2 r3 r4], s as [s0 s1 s2 s3 s4]. limbs. intros Hn (R0 & R1 & R2 & R3 & R4) (S0 & S1 & S2 & S3 & S4).
  rewrite (Z.pow_add_r 2 224 n) by lia. unfold subtract. cbn [f0 f1 f2 f3 f4].
  pose proof (borrow_spec 0 r0 s0 56 ltac:(lia) ltac:(lia) R0 S0) as B0. destruct (borrow 0 r0 s0 56) as [b0 t0]. destruct B0 as (C0 & T0 & E0).
  pose proof (borrow_spec b0 r1 s1 56 ltac:(lia) C0 R1 S1) as B1. destruct (borrow b0 r1 s1 56) as [b1 t1]. destruct B1 as (C1 & T1 & E1).
  pose proof (borrow_spec b1 r2 s2 56 ltac:(lia) C1 R2 S2) as B2. destruct (borrow b1 r2 s2 56) as [b2 t2]. destruct B2 as (C2 & T2 & E2).
  pose proof (borrow_spec b2 r3 s3 56 ltac:(lia) C2 R3 S3) as B3. destruct (borrow b2 r3 s3 56) as [b3 t3]. destruct B3 as (C3 & T3 & E3).
  pose proof (borrow_spec b3 r4 s4 n Hn C3 R4 S4) as B4. destruct (borrow b3 r4 s4 n) as [b4 t4]. destruct B4 as (C4 & T4 & E4).
  split; [exact C4|]. split; [limbs; tauto|]. limbs. rewrite E0, E1, E2, E3, E4. ring.
Qed.

Lemma limbs_bound n a : 0 <= n -> limbs n a -> 0 <= mval a < 2 ^ (224 + n).
Proof. intros Hn. destruct a. limbs. intros (? & ? & ? & ? & ?). rewrite Z.pow_add_r by lia. nia. Qed.

Lemma limbs_le n k a : 0 <= n <= k -> limbs n a -> limbs k a.
Proof. intros Hn. destruct a. limbs. assert (2 ^ n <= 2 ^ k) by (apply Z.pow_le_mono_r; lia). lia. Qed.

(** A bound on the value bounds the last limb. *)
Lemma limbs_small n k a : 0 <= k -> limbs n a -> mval a < 2 ^ (224 + k) -> limbs k a.
Proof. intros Hk. destruct a. limbs. intros (? & ? & ? & ? & ?). rewrite Z.pow_add_r by lia. nia. Qed.

Lemma reduce_spec r : limbs 32 r ->
  limbs 32 (ed25519_modm_reduce r) /\ mval (ed25519_modm_reduce r) = if mval r <? L then mval r else mval r - L.
Proof.
  intros Hr. unfold ed25519_modm_reduce. pose proof (subtract_spec r ed25519_modm_m 32 ltac:(lia) Hr modm_m_limbs) as Hs.
  rewrite modm_m_value in Hs. destruct (subtract r ed25519_modm_m 32) as [b t]. destruct Hs as (Hb & Ht & He).
  pose proof (limbs_bound 32 r ltac:(lia) Hr) as Hrb. pose proof (limbs_bound 32 _ ltac:(lia) Ht) as Htb.
  replace (Fe _ _ _ _ _) with (if b =? 1 then r else t).
  2: { destruct r as [r0 r1 r2 r3 r4], t as [t0 t1 t2 t3 t4]. clear - Hr Ht Hb. limbs. rewrite !select_spec by lia. now destruct (b =? 1). }
  unfold L in *. destruct (Z.ltb_spec (mval r) (2 ^ 252 + 27742317777372353535851937790883648493)), (Z.eqb_spec b 1); split; auto; lia.
Qed.

(** ** Columns of a product *)

(** One column is added to the carry of the one before. *)
Lemma next_column c s k : 0 <= c < 2 ^ 119 -> s = u64 (c >> 56) + k -> 0 <= k < 2 ^ 116 ->
  u128 s = c / 2 ^ 56 + k /\ 0 <= c / 2 ^ 56 < 2 ^ 63.
Proof.
  intros Hc -> Hk. rewrite shiftr_div by lia.
  assert (0 <= c / 2 ^ 56 < 2 ^ 63) by (split; [apply Z.div_pos|apply Z.div_lt_upper_bound]; lia).
  rewrite (wrap_small 64), wrap_small by lia. lia.
Qed.

Lemma low56_u64 x : low56 (u64 x) = x mod 2 ^ 56.
Proof. rewrite (land_mask 56) by (lia || reflexivity). apply Z.mod_mod_divide. now exists (2 ^ 8). Qed.

Lemma low40_u64 x : low40 (u64 x) = x mod 2 ^ 40.
Proof. rewrite (land_mask 40) by (lia || reflexivity). apply Z.mod_mod_divide. now exists (2 ^ 24). Qed.

(** The bits from [n] on of a 56 bit column, and the [n] low bits of the next one. *)
Lemma column_join n c d mask : 0 < n < 56 -> mask = Z.ones (56 - n) ->
  ((u64 c >> n) & mask) .| low56 (u64 (u64 d << (56 - n))) = c mod 2 ^ 56 / 2 ^ n + (d mod 2 ^ n) * 2 ^ (56 - n).
Proof.
  intros Hn ->. rewrite low56_u64, Z.land_ones, shiftr_div, shiftl_mul by lia.
  assert (u64 c / 2 ^ n mod 2 ^ (56 - n) = c mod 2 ^ 56 / 2 ^ n) as ->.
  { apply Z.bits_inj'. intros i Hi. destruct (Z.ltb_spec i (56 - n)).
    - rewrite Z.mod_pow2_bits_low, !Z.div_pow2_bits by lia. unfold wrap. rewrite !Z.mod_pow2_bits_low by lia. reflexivity.
    - rewrite Z.mod_pow2_bits_high, Z.div_pow2_bits, Z.mod_pow2_bits_high by lia. reflexivity. }
  assert (u64 d * 2 ^ (56 - n) mod 2 ^ 56 = (d mod 2 ^ n) * 2 ^ (56 - n)) as ->.
  { replace (2 ^ 56) with (2 ^ n * 2 ^ (56 - n)) by (rewrite <- Z.pow_add_r by lia; f_equal; lia).
    rewrite Z.mul_mod_distr_r by (apply Z.pow_nonzero; lia). f_equal. apply Z.mod_mod_divide. exists (2 ^ (64 - n)).
    rewrite <- Z.pow_add_r by lia. f_equal. lia. }
  apply lor_add; [lia|]. pose proof (Z.mod_pos_bound c (2 ^ 56)). split; [apply Z.div_pos; lia|].
  apply Z.div_lt_upper_bound; [lia|]. rewrite <- Z.pow_add_r by lia. replace (n + (56 - n)) with 56 by lia. lia.
Qed.

Lemma column_product a b : 0 <= a < 2 ^ 56 -> 0 <= b < 2 ^ 56 -> mul128 a b = a * b /\ 0 <= a * b < 2 ^ 112.
Proof. intros Ha Hb. assert (0 <= a * b < 2 ^ 112) by nia. split; [apply wrap_small|]; lia. Qed.

(** Replace a limb product by its value and keep its bound. *)
Ltac product a b := let B := fresh "B" in destruct (column_product a b) as [-> B]; [lia..|].
(** Linear arithmetic over products, which become variables. *)
Ltac linear := repeat match goal with H : 0 <= ?a * ?b < _ |- _ => revert H; generalize (a * b) end; intros; lia.
Ltac digits c n := pose proof (Z.div_mod c (2 ^ n) ltac:(lia)); pose proof (Z.mod_pos_bound c (2 ^ n) ltac:(lia)).

(** Dropping [n] bits from the 56 bit digits of a carry chain. *)
Lemma shifted_digits n c0 c1 c2 c3 c4 : 0 < n < 56 ->
  0 <= c0 -> 0 <= c1 -> 0 <= c2 -> 0 <= c3 -> 0 <= c4 < 2 ^ (n + 56) ->
  let q := Fe (c0 mod 2 ^ 56 / 2 ^ n + (c1 mod 2 ^ n) * 2 ^ (56 - n)) (c1 mod 2 ^ 56 / 2 ^ n + (c2 mod 2 ^ n) * 2 ^ (56 - n))
    (c2 mod 2 ^ 56 / 2 ^ n + (c3 mod 2 ^ n) * 2 ^ (56 - n)) (c3 mod 2 ^ 56 / 2 ^ n + (c4 mod 2 ^ n) * 2 ^ (56 - n)) (c4 / 2 ^ n) in
  limbs 56 q /\ 2 ^ n * mval q + c0 mod 2 ^ n = c0 mod 2 ^ 56 + 2 ^ 56 * (c1 mod 2 ^ 56) + 2 ^ 112 * (c2 mod 2 ^ 56) + 2 ^ 168 * (c3 mod 2 ^ 56) + 2 ^ 224 * c4.
Proof.
  intros Hn H0 H1 H2 H3 H4.
  assert (forall c, c mod 2 ^ 56 mod 2 ^ n = c mod 2 ^ n) as Hm.
  { intros c. apply Z.mod_mod_divide. exists (2 ^ (56 - n)). rewrite <- Z.pow_add_r by lia. f_equal. lia. }
  assert (2 ^ 56 = 2 ^ n * 2 ^ (56 - n)) as Hp by (rewrite <- Z.pow_add_r by lia; f_equal; lia).
  assert (forall c d, 0 <= c mod 2 ^ 56 / 2 ^ n + (d mod 2 ^ n) * 2 ^ (56 - n) < 2 ^ 56) as Hb.
  { intros c d. pose proof (Z.mod_pos_bound c (2 ^ 56) ltac:(lia)). pose proof (Z.mod_pos_bound d (2 ^ n) ltac:(lia)).
    assert (0 <= c mod 2 ^ 56 / 2 ^ n < 2 ^ (56 - n)) by (split; [apply Z.div_pos|apply Z.div_lt_upper_bound]; lia). nia. }
  split.
  - limbs. repeat (split; [apply Hb|]). rewrite Z.pow_add_r in H4 by lia. split; [apply Z.div_pos|apply Z.div_lt_upper_bound]; lia.
  - limbs. pose proof (Hm c0) as M0. pose proof (Hm c1) as M1. pose proof (Hm c2) as M2. pose proof (Hm c3) as M3.
    pose proof (Z.div_mod (c0 mod 2 ^ 56) (2 ^ n) ltac:(lia)) as D0. pose proof (Z.div_mod (c1 mod 2 ^ 56) (2 ^ n) ltac:(lia)) as D1.
    pose proof (Z.div_mod (c2 mod 2 ^ 56) (2 ^ n) ltac:(lia)) as D2. pose proof (Z.div_mod (c3 mod 2 ^ 56) (2 ^ n) ltac:(lia)) as D3.
    pose proof (Z.div_mod c4 (2 ^ n) ltac:(lia)) as D4. rewrite M0 in D0. rewrite M1 in D1. rewrite M2 in D2. rewrite M3 in D3.
    rewrite D4 at 3. rewrite D0 at 2. rewrite D1 at 2. rewrite D2 at 2. rewrite D3 at 2. change (2 ^ 112) with (2 ^ 56 * 2 ^ 56). change (2 ^ 168) with (2 ^ 56 * 2 ^ 56 * 2 ^ 56).
    change (2 ^ 224) with (2 ^ 56 * 2 ^ 56 * 2 ^ 56 * 2 ^ 56). rewrite Hp. ring.
Qed.

(** The last five columns of a product from [c4] on, with [n] bits dropped. *)
Lemma high_chain n mask c4 k5 k6 k7 k8 : 24 <= n < 56 -> mask = Z.ones (56 - n) ->
  0 <= c4 < 2 ^ 119 -> 0 <= k5 < 2 ^ 116 -> 0 <= k6 < 2 ^ 116 -> 0 <= k7 < 2 ^ 116 -> 0 <= k8 < 2 ^ (n + 40) ->
  let c5 := u128 (u64 (c4 >> 56) + k5) in
  let c6 := u128 (u64 (c5 >> 56) + k6) in
  let c7 := u128 (u64 (c6 >> 56) + k7) in
  let c8 := u128 (u64 (c7 >> 56) + k8) in
  let q := Fe (((u64 c4 >> n) & mask) .| low56 (u64 (u64 c5 << (56 - n)))) (((u64 c5 >> n) & mask) .| low56 (u64 (u64 c6 << (56 - n))))
    (((u64 c6 >> n) & mask) .| low56 (u64 (u64 c7 << (56 - n)))) (((u64 c7 >> n) & mask) .| low56 (u64 (u64 c8 << (56 - n)))) (u64 (c8 >> n)) in
  limbs 56 q /\ 2 ^ n * mval q + c4 mod 2 ^ n = c4 + 2 ^ 56 * k5 + 2 ^ 112 * k6 + 2 ^ 168 * k7 + 2 ^ 224 * k8.
Proof.
  intros Hn Em H4 H5 H6 H7 H8. cbv zeta. assert (2 ^ 80 <= 2 ^ (n + 56)) by (apply Z.pow_le_mono_r; lia).
  assert (2 ^ (n + 56) = 2 ^ 16 * 2 ^ (n + 40)) by (rewrite <- Z.pow_add_r by lia; f_equal; lia).
  assert (2 ^ (n + 40) < 2 ^ 116) by (apply Z.pow_lt_mono_r; lia).
  destruct (next_column c4 (u64 (c4 >> 56) + k5) k5) as [-> D4]; [lia|reflexivity|lia|]. remember (c4 / 2 ^ 56 + k5) as c5 eqn:E5.
  destruct (next_column c5 (u64 (c5 >> 56) + k6) k6) as [-> D5]; [lia|reflexivity|lia|]. remember (c5 / 2 ^ 56 + k6) as c6 eqn:E6.
  destruct (next_column c6 (u64 (c6 >> 56) + k7) k7) as [-> D6]; [lia|reflexivity|lia|]. remember (c6 / 2 ^ 56 + k7) as c7 eqn:E7.
  destruct (next_column c7 (u64 (c7 >> 56) + k8) k8) as [-> D7]; [lia|reflexivity|lia|]. remember (c7 / 2 ^ 56 + k8) as c8 eqn:E8.
  rewrite !(column_join n) by (lia || exact Em). rewrite shiftr_div by lia.
  assert (0 <= c8 / 2 ^ n < 2 ^ 56) by (split; [apply Z.div_pos; lia|apply Z.div_lt_upper_bound; [lia|rewrite <- Z.pow_add_r by lia; lia]]).
  rewrite wrap_small by lia. destruct (shifted_digits n c4 c5 c6 c7 c8) as [Hl Hv]; [lia..|]. split; [exact Hl|]. rewrite Hv.
  digits c4 56. digits c5 56. digits c6 56. digits c7 56. lia.
Qed.

(** What the columns 3 to 8 contribute. *)
Lemma q3_value k3 k4 k5 k6 k7 k8 q :
  2 ^ 40 * q + (k3 / 2 ^ 56 + k4) mod 2 ^ 40 = k3 / 2 ^ 56 + k4 + 2 ^ 56 * k5 + 2 ^ 112 * k6 + 2 ^ 168 * k7 + 2 ^ 224 * k8 ->
  exists e, 0 <= e < 2 ^ 264 + 2 ^ 224 /\
    2 ^ 168 * k3 + 2 ^ 224 * k4 + 2 ^ 280 * k5 + 2 ^ 336 * k6 + 2 ^ 392 * k7 + 2 ^ 448 * k8 = 2 ^ 264 * q + e.
Proof.
  intros Hv. exists (2 ^ 168 * (k3 mod 2 ^ 56) + 2 ^ 224 * ((k3 / 2 ^ 56 + k4) mod 2 ^ 40)).
  digits k3 56. pose proof (Z.mod_pos_bound (k3 / 2 ^ 56 + k4) (2 ^ 40) ltac:(lia)). lia.
Qed.

Lemma barrett_q3_spec mu q1 : limbs 40 mu -> limbs 40 q1 ->
  limbs 56 (barrett_q3 mu q1) /\
  exists e, 0 <= e < 2 ^ 264 + 2 ^ 227 /\ mval mu * mval q1 = 2 ^ 264 * mval (barrett_q3 mu q1) + e.
Proof.
  destruct mu as [u0 u1 u2 u3 u4], q1 as [q0 q1 q2 q3 q4]. unfold limbs at 1 2. cbn [f0 f1 f2 f3 f4]. intros (U0 & U1 & U2 & U3 & U4) (Q0 & Q1 & Q2 & Q3 & Q4).
  unfold barrett_q3. cbn [f0 f1 f2 f3 f4]. cbv zeta. rewrite <- !Z.add_assoc.
  product u0 q3. product u3 q0. product u1 q2. product u2 q1. product u0 q4. product u4 q0. product u3 q1. product u1 q3. product u2 q2.
  product u4 q1. product u1 q4. product u2 q3. product u3 q2. product u4 q2. product u2 q4. product u3 q3. product u4 q3. product u3 q4.
  assert (mul128 u4 q4 = u4 * q4 /\ 0 <= u4 * q4 < 2 ^ 80) as [-> B44] by (assert (0 <= u4 * q4 < 2 ^ 80) by nia; split; [apply wrap_small|]; lia).
  assert (0 <= u0 * q0 < 2 ^ 112 /\ 0 <= u0 * q1 < 2 ^ 112 /\ 0 <= u1 * q0 < 2 ^ 112 /\ 0 <= u0 * q2 < 2 ^ 112 /\ 0 <= u1 * q1 < 2 ^ 112 /\ 0 <= u2 * q0 < 2 ^ 112)
    as (? & ? & ? & ? & ? & ?) by (repeat split; nia).
  clear U0 U1 U2 U3 U4 Q0 Q1 Q2 Q3 Q4.
  rewrite (wrap_small 128 (u0 * q3 + _)) by linear. set (k3 := u0 * q3 + (u3 * q0 + (u1 * q2 + u2 * q1))).
  assert (0 <= k3 < 2 ^ 114) as B3' by (unfold k3; linear).
  set (k4 := u0 * q4 + (u4 * q0 + (u3 * q1 + (u1 * q3 + u2 * q2)))). assert (0 <= k4 < 2 ^ 115) as B4' by (unfold k4; linear).
  destruct (next_column k3 (u64 (k3 >> 56) + k4) k4) as [-> D3]; [clear - B3'; lia|reflexivity|clear - B4'; lia|].
  pose proof (high_chain 40 0xFFFF (k3 / 2 ^ 56 + k4) (u4 * q1 + (u1 * q4 + (u2 * q3 + u3 * q2))) (u4 * q2 + (u2 * q4 + u3 * q3))
    (u4 * q3 + u3 * q4) (u4 * q4) ltac:(lia) eq_refl) as Hc. cbv zeta in Hc.
  destruct Hc as (Hl & Hv); [clear - D3 B4'; lia|linear..|]. change (56 - 40) with 16 in *. split; [exact Hl|].
  destruct (q3_value _ _ _ _ _ _ _ Hv) as (e & He & Hsum).
  exists (e + (u0 * q0 + 2 ^ 56 * (u0 * q1 + u1 * q0) + 2 ^ 112 * (u0 * q2 + u1 * q1 + u2 * q0))).
  split; [linear|]. rewrite Z.add_assoc, <- Hsum. unfold mval, k3, k4. cbn [f0 f1 f2 f3 f4]. ring.
Qed.

(** The first five columns of a product: four digits, and the last column with its carry. *)
Lemma low_chain k0 k1 k2 k3 k4 :
  0 <= k0 < 2 ^ 116 -> 0 <= k1 < 2 ^ 116 -> 0 <= k2 < 2 ^ 116 -> 0 <= k3 < 2 ^ 116 -> 0 <= k4 < 2 ^ 116 ->
  let c1 := u128 (u64 (k0 >> 56) + k1) in
  let c2 := u128 (u64 (c1 >> 56) + k2) in
  let c3 := u128 (u64 (c2 >> 56) + k3) in
  let c4 := u128 (u64 (c3 >> 56) + k4) in
  let r := Fe (k0 mod 2 ^ 56) (c1 mod 2 ^ 56) (c2 mod 2 ^ 56) (c3 mod 2 ^ 56) (c4 mod 2 ^ 40) in
  0 <= c4 < 2 ^ 117 /\ limbs 40 r /\
  k0 + 2 ^ 56 * k1 + 2 ^ 112 * k2 + 2 ^ 168 * k3 + 2 ^ 224 * k4 = mval r + 2 ^ 264 * (c4 / 2 ^ 40).
Proof.
  intros H0 H1 H2 H3 H4. cbv zeta.
  destruct (next_column k0 (u64 (k0 >> 56) + k1) k1) as [-> D0]; [lia|reflexivity|lia|]. remember (k0 / 2 ^ 56 + k1) as c1 eqn:E1.
  destruct (next_column c1 (u64 (c1 >> 56) + k2) k2) as [-> D1]; [lia|reflexivity|lia|]. remember (c1 / 2 ^ 56 + k2) as c2 eqn:E2.
  destruct (next_column c2 (u64 (c2 >> 56) + k3) k3) as [-> D2]; [lia|reflexivity|lia|]. remember (c2 / 2 ^ 56 + k3) as c3 eqn:E3.
  destruct (next_column c3 (u64 (c3 >> 56) + k4) k4) as [-> D3]; [lia|reflexivity|lia|]. remember (c3 / 2 ^ 56 + k4) as c4 eqn:E4.
  digits k0 56. digits c1 56. digits c2 56. digits c3 56. digits c4 40.
  split; [lia|]. split; limbs; lia.
Qed.

Lemma mod_264 r t w h x : limbs 40 r -> t = mval r + 2 ^ 264 * h -> x = t + 2 ^ 264 * w -> mval r = x mod 2 ^ 264.
Proof.
  intros Hl Ht ->. pose proof (limbs_bound 40 r ltac:(lia) Hl) as Hb. apply (Z.mod_unique_pos _ _ (h + w)); [exact Hb|]. rewrite Ht. ring.
Qed.

Lemma barrett_r2_spec m q3 : limbs 56 m -> limbs 56 q3 ->
  limbs 40 (barrett_r2 m q3) /\ mval (barrett_r2 m q3) = (mval m * mval q3) mod 2 ^ 264.
Proof.
  destruct m as [u0 u1 u2 u3 u4], q3 as [q0 q1 q2 q3 q4]. unfold limbs at 1 2. cbn [f0 f1 f2 f3 f4]. intros (U0 & U1 & U2 & U3 & U4) (Q0 & Q1 & Q2 & Q3 & Q4).
  unfold barrett_r2. cbn [f0 f1 f2 f3 f4]. cbv zeta. rewrite <- !Z.add_assoc.
  product u0 q0. product u0 q1. product u1 q0. product u0 q2. product u2 q0. product u1 q1. product u0 q3. product u3 q0. product u1 q2. product u2 q1.
  product u0 q4. product u4 q0. product u3 q1. product u1 q3. product u2 q2. rewrite !low56_u64, low40_u64.
  pose proof (low_chain (u0 * q0) (u0 * q1 + u1 * q0) (u0 * q2 + (u2 * q0 + u1 * q1)) (u0 * q3 + (u3 * q0 + (u1 * q2 + u2 * q1)))
    (u0 * q4 + (u4 * q0 + (u3 * q1 + (u1 * q3 + u2 * q2))))) as Hc. cbv zeta in Hc.
  destruct Hc as (Hb & Hl & Hv); [linear..|]. split; [exact Hl|].
  apply (mod_264 _ _ (2 ^ 16 * (u4 * q1 + u1 * q4 + u2 * q3 + u3 * q2) + 2 ^ 72 * (u4 * q2 + u2 * q4 + u3 * q3)
     + 2 ^ 128 * (u4 * q3 + u3 * q4) + 2 ^ 184 * (u4 * q4)) _ _ Hl Hv). unfold mval. cbn [f0 f1 f2 f3 f4]. ring.
Qed.

(** [mu] fits the product: Barrett's quotient is at most two too small. *)
Lemma barrett_quotient x q1 r e q3 : 0 <= r < 2 ^ 248 -> 0 <= q1 < 2 ^ 264 -> x = 2 ^ 248 * q1 + r ->
  0 <= e < 2 ^ 264 + 2 ^ 227 -> 2 ^ 512 / L * q1 = 2 ^ 264 * q3 + e -> 0 <= x - q3 * L < 3 * L.
Proof.
  intros Hr Hq -> He. replace (2 ^ 512 / L) with (mval ed25519_modm_mu) by exact modm_mu_value.
  unfold mval, ed25519_modm_mu, L. cbn [f0 f1 f2 f3 f4]. intros Hv. lia.
Qed.

Definition minus_L (y : Z) : Z := if y <? L then y else y - L.

Lemma minus_L_twice y : 0 <= y < 3 * L -> minus_L (minus_L y) = y mod L.
Proof.
  unfold minus_L, L. intros Hd. destruct (Z.ltb_spec y (2 ^ 252 + 27742317777372353535851937790883648493)).
  - rewrite (proj2 (Z.ltb_lt _ _)) by lia. symmetry. apply Z.mod_small. lia.
  - destruct (Z.ltb_spec (y - (2 ^ 252 + 27742317777372353535851937790883648493)) (2 ^ 252 + 27742317777372353535851937790883648493)).
    + apply (Z.mod_unique_pos _ _ 1); lia.
    + apply (Z.mod_unique_pos _ _ 2); lia.
Qed.

(** The difference modulo 2^264 is the difference, when that is small. *)
Lemma difference_264 x y b d : 0 <= b <= 1 -> 0 <= d < 2 ^ 264 -> d = x mod 2 ^ 264 - y mod 2 ^ 264 + b * 2 ^ 264 -> 0 <= x - y < 2 ^ 264 -> d = x - y.
Proof. intros. pose proof (Z.div_mod x (2 ^ 264) ltac:(lia)). pose proof (Z.div_mod y (2 ^ 264) ltac:(lia)). lia. Qed.

Lemma three_L y : 0 <= y < 3 * L -> 0 <= y < 2 ^ 256.
Proof. unfold L. lia. Qed.

Lemma barrett_value x q1 q3 e b t :
  0 <= q1 < 2 ^ 264 -> q1 = x / 2 ^ 248 -> 0 <= e < 2 ^ 264 + 2 ^ 227 -> 2 ^ 512 / L * q1 = 2 ^ 264 * q3 + e ->
  0 <= b <= 1 -> 0 <= t < 2 ^ 264 -> t = x mod 2 ^ 264 - (L * q3) mod 2 ^ 264 + b * 2 ^ 264 ->
  0 <= t < 3 * L /\ x mod L = t mod L.
Proof.
  intros Bq Vq He Hv Hb Bt Vt.
  assert (0 <= x - L * q3 < 3 * L) as Hd.
  { rewrite (Z.mul_comm L). apply (barrett_quotient x q1 (x mod 2 ^ 248) e); [apply Z.mod_pos_bound; lia|exact Bq| |exact He|exact Hv].
    rewrite Vq. apply Z.div_mod. lia. }
  pose proof (three_L _ Hd) as Hd'. rewrite <- (difference_264 x (L * q3) b t Hb Bt Vt) in Hd by lia. split; [exact Hd|].
  rewrite (difference_264 x (L * q3) b t Hb Bt Vt) by lia.
  replace x with (x - L * q3 + q3 * L) at 1 by ring. apply Z_mod_plus_full.
Qed.

Lemma barrettReduce_spec x q1 r1 : 0 <= x < 2 ^ 512 -> limbs 40 q1 -> limbs 40 r1 -> mval q1 = x / 2 ^ 248 -> mval r1 = x mod 2 ^ 264 ->
  limbs 32 (ed25519_modm_barrettReduce q1 r1) /\ mval (ed25519_modm_barrettReduce q1 r1) = x mod L.
Proof.
  intros Hx Hq Hr Vq Vr. unfold ed25519_modm_barrettReduce. cbv zeta.
  destruct (barrett_q3_spec ed25519_modm_mu q1 modm_mu_limbs Hq) as (Hl3 & e & He & Hv).
  destruct (barrett_r2_spec ed25519_modm_m (barrett_q3 ed25519_modm_mu q1) (limbs_le 32 56 _ ltac:(lia) modm_m_limbs) Hl3) as (Hl2 & Hv2).
  rewrite modm_m_value in Hv2. rewrite modm_mu_value in Hv.
  remember (barrett_q3 ed25519_modm_mu q1) as q3 eqn:E3. clear E3. remember (barrett_r2 ed25519_modm_m q3) as r2 eqn:E2. clear E2.
  pose proof (subtract_spec r1 r2 40 ltac:(lia) Hr Hl2) as Hs.
  destruct (subtract r1 r2 40) as [b t]. destruct Hs as (Hb & Ht & Hvt).
  destruct (barrett_value x (mval q1) (mval q3) e b (mval t)) as [Hd Hx']; [exact (limbs_bound 40 q1 ltac:(lia) Hq)|assumption..|exact (limbs_bound 40 t ltac:(lia) Ht)|rewrite <- Vr, <- Hv2; exact Hvt|].
  assert (limbs 32 t) as Ht32 by (apply (limbs_small 40); [lia|exact Ht|apply three_L, Hd]).
  destruct (reduce_spec t Ht32) as [Hl4 Hv4]. destruct (reduce_spec _ Hl4) as [Hl5 Hv5]. split; [exact Hl5|].
  rewrite Hx', <- (minus_L_twice _ Hd). unfold minus_L. rewrite <- Hv4. exact Hv5.
Qed.

(** ** Multiplication and addition *)

Lemma product_value x q r c4 t k5 k6 k7 k8 : limbs 40 r -> limbs 56 q -> 0 <= x < 2 ^ 512 -> f4 r = c4 mod 2 ^ 40 ->
  t = mval r + 2 ^ 264 * (c4 / 2 ^ 40) -> 2 ^ 24 * mval q + c4 mod 2 ^ 24 = c4 + 2 ^ 56 * k5 + 2 ^ 112 * k6 + 2 ^ 168 * k7 + 2 ^ 224 * k8 ->
  x = t + 2 ^ 280 * k5 + 2 ^ 336 * k6 + 2 ^ 392 * k7 + 2 ^ 448 * k8 ->
  limbs 40 q /\ mval q = x / 2 ^ 248 /\ mval r = x mod 2 ^ 264.
Proof.
  intros Hr Hq Hx E4 Ht Hv Ex.
  assert (mval q = x / 2 ^ 248) as Vq.
  { apply (Z.div_unique_pos _ _ _ (mval r - 2 ^ 224 * f4 r + 2 ^ 224 * (c4 mod 2 ^ 24))).
    - pose proof (Z.mod_pos_bound c4 (2 ^ 24) ltac:(lia)). destruct r. clear Hv Ex. limbs. lia.
    - rewrite E4. pose proof (Z.div_mod c4 (2 ^ 40) ltac:(lia)). lia. }
  split; [|split; [exact Vq|]].
  - apply (limbs_small 56); [lia|exact Hq|]. rewrite Vq. apply Z.div_lt_upper_bound; [lia|]. exact (proj2 Hx).
  - apply (mod_264 r t (2 ^ 16 * k5 + 2 ^ 72 * k6 + 2 ^ 128 * k7 + 2 ^ 184 * k8) (c4 / 2 ^ 40) x Hr Ht). rewrite Ex. ring.
Qed.

Lemma modm_product_spec x y : limbs 32 x -> limbs 32 y -> let '(q1, r1) := modm_product x y in
  limbs 40 q1 /\ limbs 40 r1 /\ mval q1 = (mval x * mval y) / 2 ^ 248 /\ mval r1 = (mval x * mval y) mod 2 ^ 264.
Proof.
  intros Hx Hy. pose proof (limbs_bound 32 x ltac:(lia) Hx) as Bx. pose proof (limbs_bound 32 y ltac:(lia) Hy) as By.
  change (224 + 32) with 256 in *. assert (0 <= mval x * mval y < 2 ^ 512) as Bxy by nia. clear Bx By. revert Hx Hy.
  destruct x as [u0 u1 u2 u3 u4], y as [q0 q1 q2 q3 q4]. unfold limbs at 1 2. cbn [f0 f1 f2 f3 f4]. intros (U0 & U1 & U2 & U3 & U4) (Q0 & Q1 & Q2 & Q3 & Q4).
  unfold modm_product. cbn [f0 f1 f2 f3 f4]. cbv zeta. rewrite <- !Z.add_assoc.
  assert (mul128 u4 q4 = u4 * q4 /\ 0 <= u4 * q4 < 2 ^ 64) as [-> B44] by (assert (0 <= u4 * q4 < 2 ^ 64) by nia; split; [apply wrap_small|]; lia).
  product u0 q0. product u0 q1. product u1 q0. product u0 q2. product u2 q0. product u1 q1. product u0 q3. product u3 q0. product u1 q2. product u2 q1.
  product u0 q4. product u4 q0. product u3 q1. product u1 q3. product u2 q2.
  product u4 q1. product u1 q4. product u2 q3. product u3 q2. product u4 q2. product u2 q4. product u3 q3. product u4 q3. product u3 q4.
  clear U0 U1 U2 U3 U4 Q0 Q1 Q2 Q3 Q4.
  pose proof (low_chain (u0 * q0) (u0 * q1 + u1 * q0) (u0 * q2 + (u2 * q0 + u1 * q1)) (u0 * q3 + (u3 * q0 + (u1 * q2 + u2 * q1)))
    (u0 * q4 + (u4 * q0 + (u3 * q1 + (u1 * q3 + u2 * q2))))) as Hc. cbv zeta in Hc.
  destruct Hc as (Hb & Hl & Hv); [clear Bxy; linear..|]. rewrite <- !low56_u64, <- low40_u64 in Hl, Hv.
  remember (u128 (u64 (_ >> 56) + (u0 * q4 + _))) as c4 eqn:E4. clear E4.
  pose proof (high_chain 24 0xFFFFFFFF c4 (u4 * q1 + (u1 * q4 + (u2 * q3 + u3 * q2))) (u4 * q2 + (u2 * q4 + u3 * q3)) (u4 * q3 + u3 * q4) (u4 * q4)
    ltac:(lia) eq_refl ltac:(lia)) as Hc. cbv zeta in Hc. destruct Hc as [Hl' Hv']; [clear Bxy; linear..|]. change (56 - 24) with 32 in *.
  destruct (product_value _ _ _ c4 _ _ _ _ _ Hl Hl' Bxy (low40_u64 c4) Hv Hv') as (H1 & H2 & H3); [unfold mval; cbn [f0 f1 f2 f3 f4]; ring|].
  split; [exact H1|]. split; [exact Hl|]. split; [exact H2|exact H3].
Qed.

Lemma modm_mul_spec x y : limbs 32 x -> limbs 32 y ->
  limbs 32 (ed25519_modm_mul x y) /\ mval (ed25519_modm_mul x y) = (mval x * mval y) mod L.
Proof.
  intros Hx Hy. unfold ed25519_modm_mul. pose proof (modm_product_spec x y Hx Hy) as Hp. destruct (modm_product x y) as [q1 r1].
  destruct Hp as (Hq & Hr & Vq & Vr). apply barrettReduce_spec; try assumption.
  pose proof (limbs_bound 32 x ltac:(lia) Hx) as Bx. pose proof (limbs_bound 32 y ltac:(lia) Hy) as By. change (224 + 32) with 256 in *. nia.
Qed.

Lemma modm_add_spec x y : limbs 32 x -> limbs 32 y -> mval x < L -> mval y < L ->
  limbs 32 (ed25519_modm_add x y) /\ mval (ed25519_modm_add x y) = (mval x + mval y) mod L.
Proof.
  intros Hx Hy Lx Ly. pose proof (limbs_bound 32 x ltac:(lia) Hx) as Bx. pose proof (limbs_bound 32 y ltac:(lia) Hy) as By.
  assert (0 <= mval x + mval y < 2 * L) as Bs by lia. clear Bx By.
  unfold ed25519_modm_add. cbv zeta. set (s := Fe _ _ _ _ _).
  assert (limbs 56 s /\ mval s = mval x + mval y) as [Hs Vs].
  { unfold s. clear s Bs Lx Ly. destruct x as [x0 x1 x2 x3 x4], y as [y0 y1 y2 y3 y4]. limbs.
    rewrite !(land_mask 56) by (lia || reflexivity). rewrite !shiftr_div by lia.
    rewrite !(wrap_small 64 (x0 + y0)) by lia. digits (x0 + y0) 56.
    rewrite !(wrap_small 64 ((x0 + y0) / 2 ^ 56 + x1 + y1)) by lia. digits ((x0 + y0) / 2 ^ 56 + x1 + y1) 56.
    remember ((x0 + y0) / 2 ^ 56 + x1 + y1) as c1 eqn:E1. rewrite !(wrap_small 64 (c1 / 2 ^ 56 + x2 + y2)) by lia. digits (c1 / 2 ^ 56 + x2 + y2) 56.
    remember (c1 / 2 ^ 56 + x2 + y2) as c2 eqn:E2. rewrite !(wrap_small 64 (c2 / 2 ^ 56 + x3 + y3)) by lia. digits (c2 / 2 ^ 56 + x3 + y3) 56.
    remember (c2 / 2 ^ 56 + x3 + y3) as c3 eqn:E3. rewrite !(wrap_small 64 (c3 / 2 ^ 56 + x4 + y4)) by lia. lia. }
  destruct (reduce_spec s) as [Hl Hv].
  { apply (limbs_small 56); [lia|exact Hs|]. rewrite Vs. unfold L in Bs. lia. }
  split; [exact Hl|]. rewrite Hv, Vs. clear - Bs. destruct (Z.ltb_spec (mval x + mval y) L).
  - symmetry. apply Z.mod_small. lia.
  - apply (Z.mod_unique_pos _ _ 1); lia.
Qed.

(** ** Loading and storing *)

(** 56 bits of [N] that lie across two of its 64 bit words. *)
Lemma window56 N k k' s t e : 0 <= k -> 8 <= s <= 56 -> k' = k + 64 -> t = 64 - s -> e = k + s ->
  low56 ((N / 2 ^ k mod 2 ^ 64 >> s) .| u64 (N / 2 ^ k' mod 2 ^ 64 << t)) = N / 2 ^ e mod 2 ^ 56.
Proof.
  intros Hk Hs -> -> ->. rewrite (land_mask 56) by (lia || reflexivity). apply Z.bits_inj'. intros i Hi. destruct (Z.ltb_spec i 56).
  2: now rewrite !Z.mod_pow2_bits_high by lia.
  rewrite !Z.mod_pow2_bits_low, Z.lor_spec, Z.shiftr_spec, Z.div_pow2_bits by lia. unfold wrap. rewrite (Z.mod_pow2_bits_low (_ << _)), Z.shiftl_spec by lia.
  destruct (Z.ltb_spec (i + s) 64).
  - rewrite Z.mod_pow2_bits_low, Z.div_pow2_bits, (Z.testbit_neg_r _ (i - _)), orb_false_r by lia. f_equal. lia.
  - rewrite Z.mod_pow2_bits_high, orb_false_l, Z.mod_pow2_bits_low, Z.div_pow2_bits by lia. f_equal. lia.
Qed.

Lemma window_top N k s n e : 0 <= k -> 0 <= s -> n = 64 - s -> 0 <= n -> e = k + s -> N / 2 ^ k mod 2 ^ 64 >> s = N / 2 ^ e mod 2 ^ n.
Proof.
  intros Hk Hs -> Hn ->. apply Z.bits_inj'. intros i Hi. rewrite Z.shiftr_spec by lia. destruct (Z.ltb_spec i (64 - s)).
  - rewrite !Z.mod_pow2_bits_low, !Z.div_pow2_bits by lia. f_equal. lia.
  - now rewrite !Z.mod_pow2_bits_high by lia.
Qed.

(** The base 2^56 digits of the [n + 224] low bits of a number. *)
Lemma digits_limbs N n : 0 <= n -> let a := Fe (N mod 2 ^ 56) (N / 2 ^ 56 mod 2 ^ 56) (N / 2 ^ 112 mod 2 ^ 56) (N / 2 ^ 168 mod 2 ^ 56) (N / 2 ^ 224 mod 2 ^ n) in
  limbs n a /\ mval a = N mod 2 ^ (224 + n).
Proof.
  intros Hn. cbv zeta. assert (0 < 2 ^ n) by (apply Z.pow_pos_nonneg; lia).
  assert (limbs n (Fe (N mod 2 ^ 56) (N / 2 ^ 56 mod 2 ^ 56) (N / 2 ^ 112 mod 2 ^ 56) (N / 2 ^ 168 mod 2 ^ 56) (N / 2 ^ 224 mod 2 ^ n))) as Hl
    by (limbs; repeat (split; [apply Z.mod_pos_bound; lia|]); apply Z.mod_pos_bound; lia).
  split; [exact Hl|]. pose proof (limbs_bound n _ Hn Hl) as Hb. apply (Z.mod_unique_pos _ _ (N / 2 ^ 224 / 2 ^ n)); [exact Hb|].
  limbs. rewrite Z.pow_add_r by lia.
  pose proof (Z.div_mod N (2 ^ 56) ltac:(lia)) as D0. pose proof (Z.div_mod (N / 2 ^ 56) (2 ^ 56) ltac:(lia)) as D1.
  pose proof (Z.div_mod (N / 2 ^ 112) (2 ^ 56) ltac:(lia)) as D2. pose proof (Z.div_mod (N / 2 ^ 168) (2 ^ 56) ltac:(lia)) as D3.
  pose proof (Z.div_mod (N / 2 ^ 224) (2 ^ n) ltac:(lia)) as D4.
  rewrite !Z.div_div in D1, D2, D3 by lia. change (2 ^ 56 * 2 ^ 56) with (2 ^ 112) in *. change (2 ^ 112 * 2 ^ 56) with (2 ^ 168) in *. change (2 ^ 168 * 2 ^ 56) with (2 ^ 224) in *.
  rewrite D0 at 1. rewrite D1 at 1. rewrite D2 at 1. rewrite D3 at 1. rewrite D4 at 1. ring.
Qed.

(** The last limb of [r1]: 40 bits from bit 224 on. *)
Lemma window40 N : (N / 2 ^ 192 mod 2 ^ 64 >> 32) .| low40 (u64 (N / 2 ^ 256 mod 2 ^ 64 << 32)) = N / 2 ^ 224 mod 2 ^ 40.
Proof.
  rewrite low40_u64. apply Z.bits_inj'. intros i Hi. rewrite Z.lor_spec, Z.shiftr_spec by lia. destruct (Z.ltb_spec i 40).
  2: now rewrite !Z.mod_pow2_bits_high by lia.
  rewrite (Z.mod_pow2_bits_low (_ << _)), (Z.mod_pow2_bits_low (N / 2 ^ 224)), Z.shiftl_spec by lia. destruct (Z.ltb_spec i 32).
  - rewrite Z.mod_pow2_bits_low, !Z.div_pow2_bits, (Z.testbit_neg_r _ (i - _)), orb_false_r by lia. f_equal. lia.
  - rewrite Z.mod_pow2_bits_high, orb_false_l, Z.mod_pow2_bits_low, !Z.div_pow2_bits by lia. f_equal. lia.
Qed.

Lemma mod_div N : N / 2 ^ 248 mod 2 ^ 264 = (N mod 2 ^ 512) / 2 ^ 248.
Proof.
  apply Z.bits_inj'. intros i Hi. rewrite Z.div_pow2_bits by lia. destruct (Z.ltb_spec i 264).
  - rewrite !Z.mod_pow2_bits_low, Z.div_pow2_bits by lia. reflexivity.
  - now rewrite !Z.mod_pow2_bits_high by lia.
Qed.

Section Load.
Context (inp : list Z) (Hb : bytes inp).
Let N := le_combine inp.

Lemma word_at i : word inp i = N / 2 ^ (64 * Z.of_nat i) mod 2 ^ 64.
Proof using Hb.
  rewrite loadU64_at by assumption. unfold N. do 2 f_equal. replace (Z.of_nat (8 * i)) with (8 * Z.of_nat i) by lia.
  change 256 with (2 ^ 8). rewrite <- Z.pow_mul_r by lia. f_equal. lia.
Qed.

Lemma modm_load_spec (size64 : bool) :
  limbs 32 (ed25519_modm_load inp size64) /\
  mval (ed25519_modm_load inp size64) = if size64 then (N mod 2 ^ 512) mod L else N mod 2 ^ 256.
Proof using Hb.
  pose proof (le_combine_bound inp Hb) as [Hpos _]. fold N in Hpos.
  unfold ed25519_modm_load. rewrite !word_at. cbv zeta. cbn [Z.of_nat Z.mul Pos.of_succ_nat Pos.succ Pos.mul Pos.add].
  change (N / 2 ^ 0) with (N / 1). rewrite (Z.div_1_r N).
  assert (low56 (N mod 2 ^ 64) = N mod 2 ^ 56) as ->.
  { rewrite (land_mask 56) by (lia || reflexivity). apply Z.mod_mod_divide. now exists (2 ^ 8). }
  replace (N mod 2 ^ 64) with (N / 2 ^ 0 mod 2 ^ 64) by (change (2 ^ 0) with 1; now rewrite Z.div_1_r).
  rewrite (window56 N 0 64 56 8 56), (window56 N 64 128 48 16 112), (window56 N 128 192 40 24 168) by lia.
  destruct size64; cbn [negb].
  - rewrite (window56 N 192 256 56 8 248), (window56 N 256 320 48 16 304), (window56 N 320 384 40 24 360), (window56 N 384 448 32 32 416) by lia.
    rewrite (window_top N 448 24 40 472) by lia.
    replace ((N / 2 ^ 192 mod 2 ^ 64 >> 32) .| low40 (u64 (N / 2 ^ 256 mod 2 ^ 64 << 32))) with (N / 2 ^ 224 mod 2 ^ 40) by (symmetry; apply window40).
    destruct (digits_limbs N 40 ltac:(lia)) as [Hr Vr]. destruct (digits_limbs (N / 2 ^ 248) 40 ltac:(lia)) as [Hq Vq].
    rewrite !Z.div_div in Hq, Vq by lia. rewrite <- !Z.pow_add_r in Hq, Vq by lia.
    apply barrettReduce_spec; [apply Z.mod_pos_bound; lia|exact Hq|exact Hr| |].
    + rewrite <- mod_div. exact Vq.
    + rewrite Z.mod_mod_divide by (now exists (2 ^ 248)). exact Vr.
  - rewrite (window_top N 192 32 32 224) by lia. exact (digits_limbs N 32 ltac:(lia)).
Qed.
End Load.

Lemma shiftl_u64 x n : 0 <= n <= 64 -> u64 (x << n) = x mod 2 ^ (64 - n) * 2 ^ n.
Proof.
  intros Hn. rewrite shiftl_mul by lia. unfold wrap. replace (2 ^ 64) with (2 ^ (64 - n) * 2 ^ n) by (rewrite <- Z.pow_add_r by lia; f_equal; lia).
  apply Z.mul_mod_distr_r; apply Z.pow_nonzero; lia.
Qed.

Lemma modm_store_spec a : limbs 32 a -> ed25519_modm_store a = le_split 32 (mval a).
Proof.
  destruct a as [a0 a1 a2 a3 a4]. unfold limbs. cbn [f0 f1 f2 f3 f4]. intros (A0 & A1 & A2 & A3 & A4).
  unfold ed25519_modm_store. cbn [f0 f1 f2 f3 f4]. rewrite !shiftl_u64, !shiftr_div by lia.
  change (64 - 56) with 8. change (64 - 48) with 16. change (64 - 40) with 24. change (64 - 32) with 32.
  digits a1 8. digits a2 16. digits a3 24.
  assert (0 <= a1 / 2 ^ 8 < 2 ^ 48) by (split; [apply Z.div_pos|apply Z.div_lt_upper_bound]; lia).
  assert (0 <= a2 / 2 ^ 16 < 2 ^ 40) by (split; [apply Z.div_pos|apply Z.div_lt_upper_bound]; lia).
  assert (0 <= a3 / 2 ^ 24 < 2 ^ 32) by (split; [apply Z.div_pos|apply Z.div_lt_upper_bound]; lia).
  rewrite (Z.mod_small a4) by lia. rewrite !lor_add by lia. rewrite !le_split_cat by lia. f_equal. unfold mval. cbn [f0 f1 f2 f3 f4]. lia.
Qed.

(** ** Signed recodings *)

(** The [n] low bits of [v] as digits of [w] bits: [*out++ = v & (2^w - 1); v >>= w]. *)
Fixpoint split_limb (n : nat) (w v : Z) : list Z :=
  match n with
  | O => []
  | S n' => (v & Z.ones w) :: split_limb n' w (v >> w)
  end.

(** One iteration of the loop that makes the digits of [_ed25519_modm_window4] signed; [r] is an [int8_t] array. *)
Definition window4_step (s : list Z * Z) (i : nat) : list Z * Z :=
  let '(r, carry) := s in
  let r := set r i (i8 (get r i + carry)) in
  let r := set r (i + 1) (i8 (get r (i + 1) + (get r i >> 4))) in
  let r := set r i (get r i & 15) in
  let carry := get r i >> 3 in
  let r := set r i (i8 (get r i - (carry << 4))) in
  (r, carry).

Definition ed25519_modm_window4 (s : fe) : list Z :=
  let r := split_limb 14 4 (f0 s) ++ split_limb 14 4 (f1 s) ++ split_limb 14 4 (f2 s) ++ split_limb 14 4 (f3 s) ++ split_limb 8 4 (f4 s) in
  let '(r, carry) := fold_left window4_step (seq 0 63) (r, 0) in
  set r 63 (i8 (get r 63 + carry)).

(** [for (k = j + b; k < 256; ++k)]: the carry into the bits from [k] on, [n] of them. *)
Fixpoint window_carry (n : nat) (r : list Z) (k : nat) : list Z :=
  match n with
  | O => r
  | S n' => if get r k =? 0 then set r k 1 else window_carry n' (set r k 0) (k + 1)
  end.

(** The loop over [b], from [b] on, [n] iterations left. *)
Fixpoint window_bits (n : nat) (m : Z) (j b : nat) (r : list Z) : list Z :=
  match n with
  | O => r
  | S n' =>
      let x := get r j + (get r (j + b) << Z.of_nat b) in
      if x <=? m then window_bits n' m j (b + 1) (set (set r j (i8 x)) (j + b) 0)
      else
        let x := get r j - (get r (j + b) << Z.of_nat b) in
        if - m <=? x then window_bits n' m j (b + 1) (window_carry (256 - (j + b)) (set r j (i8 x)) (j + b))
        else if negb (get r (j + b) =? 0) then r
        else window_bits n' m j (b + 1) r
  end.

Definition window_step (m : Z) (r : list Z) (j : nat) : list Z :=
  if get r j =? 0 then r else window_bits (Nat.min 7 (256 - j) - 1) m j 1 r.

Definition ed25519_modm_window (s : fe) (m : Z) : list Z :=
  let r := split_limb 56 1 (f0 s) ++ split_limb 56 1 (f1 s) ++ split_limb 56 1 (f2 s) ++ split_limb 56 1 (f3 s) ++ split_limb 32 1 (f4 s) in
  fold_left (window_step m) (seq 0 256) r.

(** The value of digits of [w] bits. *)
Fixpoint dvalue (w : Z) (l : list Z) : Z :=
  match l with
  | [] => 0
  | d :: l' => d + 2 ^ w * dvalue w l'
  end.

Lemma dvalue_app w l1 l2 : 0 <= w -> dvalue w (l1 ++ l2) = dvalue w l1 + 2 ^ (w * Z.of_nat (length l1)) * dvalue w l2.
Proof.
  intros Hw. induction l1 as [|d l1 IH]; cbn [app dvalue List.length]; [rewrite Z.mul_0_r; change (2 ^ 0) with 1; ring|].
  rewrite IH. replace (w * Z.of_nat (S (length l1))) with (w + w * Z.of_nat (length l1)) by lia. rewrite Z.pow_add_r by lia. ring.
Qed.

Lemma dvalue_zeros w n : dvalue w (repeat 0 n) = 0.
Proof. induction n as [|n IH]; cbn [repeat dvalue]; [reflexivity|]. rewrite IH. ring. Qed.

Lemma length_split_limb n w v : length (split_limb n w v) = n.
Proof. revert v. induction n; intros; cbn; auto. Qed.

Lemma split_limb_spec n w : 0 < w -> forall v, 0 <= v < 2 ^ (w * Z.of_nat n) ->
  dvalue w (split_limb n w v) = v /\ Forall (fun d => 0 <= d < 2 ^ w) (split_limb n w v).
Proof.
  intros Hw. assert (0 < 2 ^ w) by (apply Z.pow_pos_nonneg; lia).
  induction n as [|n IH]; intros v Hv; cbn [split_limb dvalue]; [rewrite Z.mul_0_r in Hv; change (2 ^ 0) with 1 in Hv; split; [lia|constructor]|].
  rewrite Z.land_ones, shiftr_div by lia. pose proof (Z.mod_pos_bound v (2 ^ w) ltac:(lia)) as Hm.
  destruct (IH (v / 2 ^ w)) as [-> Hf].
  { replace (w * Z.of_nat (S n)) with (w + w * Z.of_nat n) in Hv by lia. rewrite Z.pow_add_r in Hv by lia.
    split; [apply Z.div_pos|apply Z.div_lt_upper_bound]; lia. }
  split; [|constructor; assumption]. pose proof (Z.div_mod v (2 ^ w) ltac:(lia)). lia.
Qed.

(** The digits that both recodings start from. *)
Section Split.
Context (s : fe) (Hs : limbs 32 s) (w : Z) (n n4 : nat) (Hw : 0 < w) (Hn : w * Z.of_nat n = 56) (Hn4 : w * Z.of_nat n4 = 32).

Definition split_scalar : list Z := split_limb n w (f0 s) ++ split_limb n w (f1 s) ++ split_limb n w (f2 s) ++ split_limb n w (f3 s) ++ split_limb n4 w (f4 s).

Lemma split_scalar_spec : length split_scalar = (4 * n + n4)%nat /\ dvalue w split_scalar = mval s /\ Forall (fun d => 0 <= d < 2 ^ w) split_scalar.
Proof using All.
  unfold split_scalar. destruct s as [s0 s1 s2 s3 s4]. unfold limbs in Hs. cbn [f0 f1 f2 f3 f4] in *. destruct Hs as (H0 & H1 & H2 & H3 & H4).
  split; [rewrite !length_app, !length_split_limb; lia|].
  destruct (split_limb_spec n w Hw s0) as [V0 F0]; [rewrite Hn; exact H0|]. destruct (split_limb_spec n w Hw s1) as [V1 F1]; [rewrite Hn; exact H1|].
  destruct (split_limb_spec n w Hw s2) as [V2 F2]; [rewrite Hn; exact H2|]. destruct (split_limb_spec n w Hw s3) as [V3 F3]; [rewrite Hn; exact H3|].
  destruct (split_limb_spec n4 w Hw s4) as [V4 F4]; [rewrite Hn4; exact H4|].
  split; [|rewrite !Forall_app; tauto]. rewrite !dvalue_app, !length_split_limb, V0, V1, V2, V3, V4, Hn by lia.
  unfold mval. cbn [f0 f1 f2 f3 f4]. ring.
Qed.
End Split.

(** Elements in the middle of a list. *)
Lemma get_mid l x r i : i = length l -> get (l ++ x :: r) i = x.
Proof. intros ->. unfold get. now rewrite app_nth2, Nat.sub_diag by lia. Qed.

Lemma set_mid {A} (l : list A) x r i v : i = length l -> set (l ++ x :: r) i v = l ++ v :: r.
Proof. intros ->. induction l; cbn; [reflexivity|]. now f_equal. Qed.

Lemma get_mid2 l x y r i : i = length l -> get (l ++ x :: y :: r) (i + 1) = y.
Proof. intros ->. change (x :: y :: r) with ([x] ++ y :: r). rewrite app_assoc. apply get_mid. rewrite length_app. reflexivity. Qed.

Lemma set_mid2 {A} (l : list A) x y r i v : i = length l -> set (l ++ x :: y :: r) (i + 1) v = l ++ x :: v :: r.
Proof. intros ->. change (x :: y :: r) with ([x] ++ y :: r). rewrite app_assoc, set_mid, <- app_assoc by (rewrite length_app; reflexivity). reflexivity. Qed.

(** *** Windows of four bits *)

Lemma window4_step_spec lo x y hi c : 0 <= x -> 0 <= y <= 15 -> 0 <= c <= 1 -> x + c <= 16 ->
  exists d y' c', window4_step (lo ++ x :: y :: hi, c) (length lo) = (lo ++ d :: y' :: hi, c') /\
    -8 <= d <= 7 /\ 0 <= y' /\ 0 <= c' <= 1 /\ y' + c' <= 16 /\ y' <= y + 1 /\ x + c + 16 * y = d + 16 * (y' + c').
Proof.
  intros Hx Hy Hc Hxc. cbv beta iota zeta delta [window4_step].
  rewrite !(get_mid lo x _ (length lo)) by reflexivity. rewrite !(set_mid lo x _ (length lo)) by reflexivity.
  rewrite (swrap_small 8 (x + c)) by lia.
  rewrite !(get_mid lo (x + c) _ (length lo)), !(get_mid2 lo (x + c) y _ (length lo)) by reflexivity.
  rewrite !(set_mid2 lo (x + c) y _ (length lo)) by reflexivity.
  rewrite shiftr_div by lia. assert (0 <= (x + c) / 2 ^ 4 <= 1) by (split; [apply Z.div_pos|apply Z.lt_succ_r, Z.div_lt_upper_bound]; lia).
  rewrite (swrap_small 8 (y + _)) by lia. rewrite !(get_mid lo (x + c) _ (length lo)), !(set_mid lo (x + c) _ (length lo)) by reflexivity.
  rewrite (land_mask 4) by (lia || reflexivity). pose proof (Z.mod_pos_bound (x + c) (2 ^ 4) ltac:(lia)). pose proof (Z.div_mod (x + c) (2 ^ 4) ltac:(lia)).
  set (z := (x + c) mod 2 ^ 4) in *. rewrite !(get_mid lo z _ (length lo)), !(set_mid lo z _ (length lo)) by reflexivity.
  rewrite shiftr_div, shiftl_mul by lia. pose proof (Z.div_mod z (2 ^ 3) ltac:(lia)). pose proof (Z.mod_pos_bound z (2 ^ 3) ltac:(lia)).
  rewrite (swrap_small 8 (z - _)) by lia. do 3 eexists. split; [reflexivity|]. lia.
Qed.

Lemma window4_loop n : forall lo x hi c, length hi = n -> 0 <= x -> 0 <= c <= 1 -> x + c <= 16 -> Forall (fun d => 0 <= d < 16) hi ->
  Forall (fun d => -8 <= d <= 8) lo ->
  exists lo' x' c', fold_left window4_step (seq (length lo) n) (lo ++ x :: hi, c) = (lo' ++ [x'], c') /\
    length lo' = (length lo + n)%nat /\ Forall (fun d => -8 <= d <= 8) lo' /\ 0 <= x' + c' <= 16 /\ 0 <= c' <= 1 /\
    dvalue 4 lo' + 2 ^ (4 * Z.of_nat (length lo')) * (x' + c') = dvalue 4 lo + 2 ^ (4 * Z.of_nat (length lo)) * (x + c + 16 * dvalue 4 hi).
Proof.
  induction n as [|n IH]; intros lo x hi c Hn Hx Hc Hxc Hhi Hlo.
  - destruct hi; [|discriminate]. exists lo, x, c. cbn [seq fold_left dvalue]. split; [reflexivity|]. split; [lia|]. split; [assumption|]. repeat split; try lia.
  - destruct hi as [|y hi]; [discriminate|]. inversion Hhi as [|? ? Hy Hhi']; subst. cbn [seq fold_left].
    destruct (window4_step_spec lo x y hi c Hx ltac:(lia) Hc Hxc) as (d & y' & c' & -> & Hd & Hy' & Hc' & Hyc & _ & E).
    replace (lo ++ d :: y' :: hi) with ((lo ++ [d]) ++ y' :: hi) by now rewrite <- app_assoc.
    replace (S (length lo)) with (length (lo ++ [d])) by (rewrite length_app; cbn; lia). injection Hn as Hn.
    destruct (IH (lo ++ [d]) y' hi c' Hn Hy' Hc' Hyc Hhi') as (lo' & x' & c'' & -> & Hl & Hf & Hb & Hb' & Hv).
    { apply Forall_app. split; [assumption|]. repeat constructor; lia. }
    exists lo', x', c''. split; [reflexivity|]. rewrite length_app in Hl. cbn [List.length] in Hl. split; [lia|]. repeat (split; [assumption|]).
    rewrite Hv, dvalue_app, length_app by lia. cbn [dvalue List.length].
    replace (4 * Z.of_nat (length lo + 1)) with (4 * Z.of_nat (length lo) + 4) by lia. rewrite Z.pow_add_r by lia. change (2 ^ 4) with 16.
    replace (x + c + 16 * (y + 16 * dvalue 4 hi)) with (d + 16 * (y' + c') + 16 * (16 * dvalue 4 hi)) by lia. ring.
Qed.

(** The four bit recoding keeps the value of a scalar below 2^255 and has digits from -8 to 8. *)
Lemma window4_spec s : limbs 32 s -> mval s < 2 ^ 255 ->
  length (ed25519_modm_window4 s) = 64%nat /\ dvalue 4 (ed25519_modm_window4 s) = mval s /\ Forall (fun d => -8 <= d <= 8) (ed25519_modm_window4 s).
Proof.
  intros Hs Hb. destruct (split_scalar_spec s Hs 4 14 8 ltac:(lia) eq_refl eq_refl) as (Hl & Hv & Hf).
  unfold ed25519_modm_window4. fold (split_scalar s 4 14 8). destruct (split_scalar s 4 14 8) as [|x hi]; [discriminate|].
  inversion Hf as [|? ? Hx Hhi]; subst. change (4 * 14 + 8)%nat with 64%nat in Hl. injection Hl as Hl. change (2 ^ 4) with 16 in *.
  destruct (window4_loop 63 [] x hi 0 Hl ltac:(lia) ltac:(lia) ltac:(lia) Hhi ltac:(constructor)) as (lo & x' & c & E & Hl' & Hlo & Hxc & Hc & Hval).
  cbn [List.length app] in E, Hl'. rewrite E. rewrite get_mid, set_mid by (symmetry; exact Hl').
  rewrite (swrap_small 8) by lia. rewrite Hl' in Hval. change (0 + 63)%nat with 63%nat in *. cbn [dvalue List.length] in Hval, Hv. change (4 * Z.of_nat 0) with 0 in Hval. change (2 ^ 0) with 1 in Hval.
  assert (dvalue 4 lo + 2 ^ (4 * Z.of_nat 63) * (x' + c) = mval s) as Hval' by (rewrite Hval, <- Hv; change (2 ^ 4) with 16; ring).
  split; [rewrite length_app, Hl'; reflexivity|]. split.
  - rewrite dvalue_app, Hl' by lia. cbn [dvalue]. rewrite <- Hval'. ring.
  - apply Forall_app. split; [exact Hlo|]. constructor; [|constructor]. split; [lia|].
    assert (forall l, Forall (fun d => -8 <= d <= 8) l -> - (2 ^ (4 * Z.of_nat (length l))) < dvalue 4 l) as Hlow.
    { clear. induction 1 as [|d l Hd _ IH]; cbn [dvalue List.length]; [change (4 * Z.of_nat 0) with 0; lia|].
      replace (4 * Z.of_nat (S (length l))) with (4 + 4 * Z.of_nat (length l)) by lia. rewrite Z.pow_add_r by lia. change (2 ^ 4) with 16. lia. }
    specialize (Hlow lo Hlo). rewrite Hl' in Hlow. change (4 * Z.of_nat 63) with 252 in *. lia.
Qed.

(** *** Sliding windows *)

Definition bits (l : list Z) : Prop := Forall (fun x => x = 0 \/ x = 1) l.

Lemma bits_bound_value l : bits l -> 0 <= dvalue 1 l < 2 ^ Z.of_nat (length l).
Proof.
  induction 1 as [|x l Hx _ IH]; cbn [dvalue List.length]; [change (2 ^ Z.of_nat 0) with 1; lia|].
  rewrite Nat2Z.inj_succ, Z.pow_succ_r by lia. change (2 ^ 1) with 2. lia.
Qed.

(** The carry adds one, when the remaining bits can hold the sum. *)
Lemma window_carry_spec hi : forall lo, bits hi -> dvalue 1 hi + 1 < 2 ^ Z.of_nat (length hi) ->
  exists hi', window_carry (length hi) (lo ++ hi) (length lo) = lo ++ hi' /\ length hi' = length hi /\ bits hi' /\ dvalue 1 hi' = dvalue 1 hi + 1.
Proof.
  induction hi as [|x hi IH]; intros lo Hb Hv; [cbn in Hv; lia|]. inversion Hb as [|? ? Hx Hb']; subst.
  cbn [window_carry List.length]. rewrite get_mid by reflexivity. cbn [dvalue] in *. change (2 ^ 1) with 2 in *.
  destruct Hx as [->| ->]; cbn [Z.eqb].
  - rewrite set_mid by reflexivity. exists (1 :: hi). repeat split; [constructor; auto|cbn [dvalue]; change (2 ^ 1) with 2; lia].
  - rewrite set_mid by reflexivity. change (0 :: hi) with ([0] ++ hi). rewrite app_assoc. replace (length lo + 1)%nat with (length (lo ++ [0])) by (rewrite length_app; reflexivity).
    cbn [List.length] in Hv. rewrite Nat2Z.inj_succ, Z.pow_succ_r in Hv by lia.
    destruct (IH (lo ++ [0]) Hb' ltac:(lia)) as (hi' & -> & Hl & Hb2 & Hv2). exists (0 :: hi'). rewrite <- app_assoc.
    split; [reflexivity|]. split; [cbn; lia|]. split; [constructor; auto|]. cbn [dvalue]. change (2 ^ 1) with 2. lia.
Qed.

(** The digit [d] at [j], zeros up to [j + b], bits from there on. *)
Definition window (lo : list Z) (d : Z) (b : nat) (hi : list Z) : list Z := lo ++ d :: repeat 0 (b - 1) ++ hi.

Lemma window_split lo d b hi : (1 <= b)%nat -> window lo d b hi = (lo ++ d :: repeat 0 (b - 1)) ++ hi /\ length (lo ++ d :: repeat 0 (b - 1)) = (length lo + b)%nat.
Proof.
  intros Hb. unfold window. split; [now rewrite <- app_assoc|]. rewrite length_app. cbn [List.length]. rewrite repeat_length. lia.
Qed.

Section WindowOps.
Context (lo : list Z) (d : Z) (b : nat) (x : Z) (hi : list Z) (Hb : (1 <= b)%nat).

Lemma window_get_digit l : get (window lo d b l) (length lo) = d.
Proof using. unfold window. now apply get_mid. Qed.

Lemma window_get_bit : get (window lo d b (x :: hi)) (length lo + b) = x.
Proof using Hb. destruct (window_split lo d b (x :: hi) Hb) as [-> Hl]. now apply get_mid. Qed.

Lemma window_set_digit l v : set (window lo d b l) (length lo) v = window lo v b l.
Proof using. unfold window. now apply set_mid. Qed.

Lemma window_set_bit v : set (window lo d b (x :: hi)) (length lo + b) v = window lo d b (v :: hi).
Proof using Hb. destruct (window_split lo d b (x :: hi) Hb) as [-> Hl]. rewrite set_mid by (symmetry; exact Hl). unfold window. now rewrite <- app_assoc. Qed.

Lemma window_next : window lo d b (0 :: hi) = window lo d (b + 1) hi.
Proof using Hb.
  unfold window. replace (b + 1 - 1)%nat with (S (b - 1)) by lia. change (0 :: hi) with ([0] ++ hi). rewrite (app_assoc (repeat 0 (b - 1))), <- repeat_cons. reflexivity.
Qed.
End WindowOps.

Section Window.
Context (m : Z) (Hm : 1 <= m < 128).

Lemma window_bits_spec n : forall lo d b hi, (1 <= b)%nat -> (n + b <= 7)%nat -> (length lo + b + length hi = 256)%nat -> (n <= length hi)%nat ->
  bits hi -> Z.odd d = true -> - m <= d <= m -> - (2 ^ Z.of_nat b) < d < 2 ^ Z.of_nat b ->
  2 ^ Z.of_nat (length lo) * (d + 2 ^ Z.of_nat b * dvalue 1 hi) < 2 ^ 253 + 2 ^ Z.of_nat (length lo) ->
  exists d' b' hi', window_bits n m (length lo) b (window lo d b hi) = window lo d' b' hi' /\ (1 <= b')%nat /\
    (length lo + b' + length hi' = 256)%nat /\ bits hi' /\ Z.odd d' = true /\ - m <= d' <= m /\ - (2 ^ Z.of_nat b') < d' < 2 ^ Z.of_nat b' /\
    d' + 2 ^ Z.of_nat b' * dvalue 1 hi' = d + 2 ^ Z.of_nat b * dvalue 1 hi.
Proof using Hm.
  induction n as [|n IH]; intros lo d b hi Hb Hnb Hlen Hn Hbits Hodd Hd Hdb HT; cbn [window_bits]; [exists d, b, hi; repeat split; auto; lia|].
  destruct hi as [|x hi]; [cbn in Hn; lia|]. inversion Hbits as [|? ? Hx Hbits']; subst. cbn [List.length] in Hlen, Hn.
  rewrite !window_get_digit, window_get_bit, shiftl_mul by lia. cbn [dvalue] in HT |- *. change (2 ^ 1) with 2 in *.
  assert (2 ^ Z.of_nat (b + 1) = 2 * 2 ^ Z.of_nat b) as Ep by (rewrite Nat2Z.inj_add, Z.pow_add_r by lia; change (2 ^ Z.of_nat 1) with 2; ring).
  assert (0 < 2 ^ Z.of_nat b) as Hp by (apply Z.pow_pos_nonneg; lia).
  assert (2 ^ Z.of_nat b <= 64) as Hp64 by (change 64 with (2 ^ 6); apply Z.pow_le_mono_r; lia).
  assert (Z.odd (2 ^ Z.of_nat b) = false) as Hev.
  { replace (Z.of_nat b) with (Z.succ (Z.of_nat b - 1)) by lia. rewrite Z.pow_succ_r by lia. now rewrite Z.odd_mul. }
  destruct (Z.leb_spec (d + x * 2 ^ Z.of_nat b) m) as [Hle|Hgt].
  - rewrite window_set_digit, window_set_bit by assumption. rewrite window_next by assumption.
    assert (- m <= d + x * 2 ^ Z.of_nat b) as Hge by (destruct Hx as [->| ->]; lia). rewrite swrap_small by lia.
    destruct (IH lo (d + x * 2 ^ Z.of_nat b) (b + 1)%nat hi) as (d' & b' & hi' & E & Hb' & Hl' & Hbi & Hod & Hdm & Hdb' & Hv); [lia|lia|lia|lia|assumption| |lia| | |].
    + rewrite Z.odd_add, Z.odd_mul, Hev, andb_false_r. now rewrite Hodd.
    + rewrite Ep. destruct Hx as [->| ->]; lia.
    + rewrite Ep. replace (d + x * 2 ^ Z.of_nat b + 2 * 2 ^ Z.of_nat b * dvalue 1 hi) with (d + 2 ^ Z.of_nat b * (x + 2 * dvalue 1 hi)) by ring. exact HT.
    + exists d', b', hi'. repeat (split; [assumption|]). rewrite Hv, Ep. ring.
  - destruct Hx as [->| ->]; [lia|]. rewrite !Z.mul_1_l in *.
    destruct (Z.leb_spec (- m) (d - 2 ^ Z.of_nat b)) as [Hge|Hlt].
    + assert (0 < d) as Hpos by lia. rewrite window_set_digit, swrap_small by lia.
      assert (dvalue 1 (1 :: hi) + 1 < 2 ^ Z.of_nat (length (1 :: hi))) as Hroom.
      { cbn [dvalue List.length]. change (2 ^ 1) with 2. set (j := Z.of_nat (length lo)) in *.
        assert (0 < 2 ^ j) by (apply Z.pow_pos_nonneg; lia).
        assert (2 ^ (j + Z.of_nat b) * 2 ^ Z.of_nat (S (length hi)) = 2 ^ 256) as E256 by (rewrite <- Z.pow_add_r by lia; f_equal; lia).
        assert (2 ^ (j + Z.of_nat b) = 2 ^ j * 2 ^ Z.of_nat b) as Ejb by (apply Z.pow_add_r; lia).
        assert (2 ^ j * 2 ^ Z.of_nat b <= 2 ^ 255) by (rewrite <- Ejb; apply Z.pow_le_mono_r; lia).
        assert (2 ^ j <= 2 ^ 254) by (apply Z.pow_le_mono_r; lia).
        assert (2 ^ (j + Z.of_nat b) * (1 + 2 * dvalue 1 hi + 1) < 2 ^ 256) as Hlt.
        { rewrite Ejb. assert (2 ^ j * - d < 0) by nia.
          replace (2 ^ j * 2 ^ Z.of_nat b * (1 + 2 * dvalue 1 hi + 1)) with (2 ^ j * (d + 2 ^ Z.of_nat b * (1 + 2 * dvalue 1 hi)) + 2 ^ j * - d + 2 ^ j * 2 ^ Z.of_nat b) by ring. lia. }
        rewrite <- E256 in Hlt. apply Z.mul_lt_mono_pos_l in Hlt; [exact Hlt|]. apply Z.pow_pos_nonneg; lia. }
      replace (256 - (length lo + b))%nat with (length (1 :: hi)) by (cbn [List.length]; lia).
      destruct (window_split lo (d - 2 ^ Z.of_nat b) b (1 :: hi) Hb) as [Esp Lsp]. rewrite Esp, <- Lsp.
      destruct (window_carry_spec (1 :: hi) (lo ++ (d - 2 ^ Z.of_nat b) :: repeat 0 (b - 1)) Hbits Hroom) as (hi' & -> & Hl' & Hbi' & Hv').
      destruct hi' as [|y hi']; [discriminate|]. inversion Hbi' as [|? ? Hy Hbi'']; subst. cbn [dvalue List.length] in Hv', Hl'. change (2 ^ 1) with 2 in Hv'.
      assert (y = 0) as -> by (destruct Hy; [assumption|lia]).
      replace ((lo ++ (d - 2 ^ Z.of_nat b) :: repeat 0 (b - 1)) ++ 0 :: hi') with (window lo (d - 2 ^ Z.of_nat b) b (0 :: hi')) by (apply window_split; exact Hb).
      rewrite window_next by assumption.
      destruct (IH lo (d - 2 ^ Z.of_nat b) (b + 1)%nat hi') as (d' & b' & hi2 & E & Hb' & Hl2 & Hbi & Hod & Hdm & Hdb' & Hv); [lia|lia|lia|lia|assumption| |lia|lia| |].
      * rewrite Z.odd_sub, Hev, Hodd. reflexivity.
      * rewrite Ep. replace (d - 2 ^ Z.of_nat b + 2 * 2 ^ Z.of_nat b * dvalue 1 hi') with (d + 2 ^ Z.of_nat b * (2 * dvalue 1 hi' - 1)) by ring.
        replace (2 * dvalue 1 hi' - 1) with (1 + 2 * dvalue 1 hi) by lia. exact HT.
      * exists d', b', hi2. repeat (split; [assumption|]). rewrite Hv, Ep. replace (1 + 2 * dvalue 1 hi) with (2 * dvalue 1 hi' - 1) by lia. ring.
    + cbn [Z.eqb negb]. exists d, b, (1 :: hi). repeat split; auto; try lia; cbn [List.length dvalue]; lia.
Qed.

(** The state before the iteration for [j]: finished digits, zeros up to [e], bits. *)
Definition digit_ok (d : Z) : Prop := d = 0 \/ (Z.odd d = true /\ - m <= d <= m).

Definition window_inv (v : Z) (j : nat) (r : list Z) : Prop :=
  exists lo z hi, r = lo ++ repeat 0 z ++ hi /\ length lo = j /\ (j + z + length hi = 256)%nat /\ bits hi /\ Forall digit_ok lo /\
    - (2 ^ Z.of_nat (j + z)) < dvalue 1 lo < 2 ^ Z.of_nat (j + z) /\ dvalue 1 r = v.

Lemma window_step_spec v j r : 0 <= v < 2 ^ 253 -> (j < 256)%nat -> window_inv v j r -> window_inv v (S j) (window_step m r j).
Proof using Hm.
  intros Hv Hj (lo & z & hi & -> & Hlo & Hlen & Hbits & Hok & Hlow & Hval). unfold window_step. subst j.
  destruct z as [|z].
  2: { cbn [repeat app]. rewrite get_mid by reflexivity. cbn [Z.eqb]. exists (lo ++ [0]), z, hi. rewrite <- app_assoc. split; [reflexivity|].
       rewrite length_app. cbn [List.length]. split; [lia|]. split; [lia|]. split; [exact Hbits|].
       split; [apply Forall_app; split; [exact Hok|repeat constructor]|]. split; [|exact Hval].
       rewrite dvalue_app by lia. cbn [dvalue]. replace (S (length lo) + z)%nat with (length lo + S z)%nat by lia. lia. }
  cbn [repeat app] in *. rewrite Nat.add_0_r in *. destruct hi as [|x hi]; [cbn in Hlen; lia|]. pose proof Hbits as Hbits'. apply Forall_cons_iff in Hbits' as [Hx Hbits'].
  rewrite get_mid by reflexivity. cbn [List.length] in Hlen. destruct Hx as [->| ->]; cbn [Z.eqb].
  - exists (lo ++ [0]), 0%nat, hi. rewrite <- app_assoc. split; [reflexivity|]. rewrite length_app. cbn [List.length]. rewrite Nat.add_0_r.
    split; [lia|]. split; [lia|]. split; [exact Hbits'|]. split; [apply Forall_app; split; [exact Hok|repeat constructor]|]. split; [|exact Hval].
    rewrite dvalue_app by lia. cbn [dvalue]. rewrite Nat2Z.inj_succ, Z.pow_succ_r by lia. lia.
  - rewrite dvalue_app in Hval by lia. cbn [dvalue] in Hval. rewrite Z.mul_1_l in Hval. change (2 ^ 1) with 2 in Hval.
    assert (0 < 2 ^ Z.of_nat (length lo)) as Hp by (apply Z.pow_pos_nonneg; lia).
    destruct (window_bits_spec (Nat.min 7 (256 - length lo) - 1) lo 1 1 hi) as (d & b & hi' & E & Hb & Hl & Hbi & Hod & Hdm & Hdb & Hv');
      [lia|lia|lia|lia|exact Hbits'|reflexivity|lia|change (2 ^ Z.of_nat 1) with 2; lia|change (2 ^ Z.of_nat 1) with 2; lia|].
    change (window lo 1 1 hi) with (lo ++ 1 :: hi) in E. rewrite E. change (2 ^ Z.of_nat 1) with 2 in Hv'.
    exists (lo ++ [d]), (b - 1)%nat, hi'. unfold window. rewrite <- app_assoc. split; [reflexivity|]. rewrite length_app. cbn [List.length].
    split; [lia|]. split; [lia|]. split; [exact Hbi|]. split; [apply Forall_app; split; [exact Hok|constructor; [right; auto|constructor]]|].
    replace (S (length lo) + (b - 1))%nat with (length lo + b)%nat by lia. rewrite Nat2Z.inj_add, Z.pow_add_r by lia. split.
    + rewrite dvalue_app by lia. cbn [dvalue]. rewrite Z.mul_1_l, Z.mul_0_r, Z.add_0_r. nia.
    + rewrite dvalue_app by lia. cbn [app dvalue]. rewrite dvalue_app, dvalue_zeros, repeat_length, !Z.mul_1_l by lia. rewrite <- Hval. do 2 f_equal.
      rewrite <- Hv'. replace (Z.of_nat b) with (1 + Z.of_nat (b - 1)) by lia. rewrite Z.pow_add_r by lia. ring.
Qed.

(** The sliding recoding keeps the value of a scalar below 2^253; its digits are 0 or odd, up to [m]. *)
Lemma window_spec s : limbs 32 s -> mval s < 2 ^ 253 ->
  length (ed25519_modm_window s m) = 256%nat /\ dvalue 1 (ed25519_modm_window s m) = mval s /\ Forall digit_ok (ed25519_modm_window s m).
Proof using Hm.
  intros Hs Hb. destruct (split_scalar_spec s Hs 1 56 32 ltac:(lia) eq_refl eq_refl) as (Hl & Hv & Hf).
  unfold ed25519_modm_window. fold (split_scalar s 1 56 32). set (r := split_scalar s 1 56 32) in *.
  assert (forall n, (n <= 256)%nat -> window_inv (mval s) n (fold_left (window_step m) (seq 0 n) r)) as Hinv.
  { induction n as [|n IH]; intros Hn.
    - exists [], 0%nat, r. cbn [fold_left seq app repeat List.length dvalue Nat.add]. repeat split; auto; try lia.
      eapply Forall_impl; [|exact Hf]. cbn beta. change (2 ^ 1) with 2. intros; lia.
    - rewrite seq_S, fold_left_app. cbn [fold_left Nat.add]. apply window_step_spec; [|lia|apply IH; lia].
      split; [|exact Hb]. apply (limbs_bound 32 s); [lia|exact Hs]. }
  destruct (Hinv 256%nat (le_n _)) as (lo & z & hi & -> & Hlo & Hlen & _ & Hok & _ & Hval).
  assert (z = 0%nat /\ hi = []) as [-> ->] by (destruct hi; [split; [lia|reflexivity]|cbn in Hlen; lia]).
  cbn [repeat app] in *. rewrite app_nil_r in *. auto.
Qed.
End Window.

(** ** The scalar arithmetic as a whole *)



(** the signed recodings keep the value of the scalar, never overflow [int8_t] and
    give digits the tables have: 64 digits from -8 to 8 for a scalar below 2^255 (window4),
    256 digits that are zero or odd and at most [m] in magnitude for a scalar below 2^253
    (window), where the carry never runs off the end of the array. *)
Theorem ed25519_window_correct s m : limbs 32 s -> 1 <= m < 128 ->
  (mval s < 2 ^ 255 -> let r := ed25519_modm_window4 s in
     length r = 64%nat /\ dvalue 4 r = mval s /\ Forall (fun d => -8 <= d <= 8) r) /\
  (mval s < 2 ^ 253 -> let r := ed25519_modm_window s m in
     length r = 256%nat /\ dvalue 1 r = mval s /\ Forall (fun d => d = 0 \/ (Z.odd d = true /\ - m <= d <= m)) r).
Proof.
  intros Hs Hm. split; intros Hb; [now apply window4_spec|]. now apply window_spec.
Qed.

Lemma ed25519_window_correct_witness :
  let s := Fe 0xFFFFFFFFFFFFFF 0xFFFFFFFFFFFFFF 0xFFFFFFFFFFFFFF 0xFFFFFFFFFFFFFF 0x1FFFFFFF in
  dvalue 1 (ed25519_modm_window s 15) = 2 ^ 253 - 1 /\ dvalue 4 (ed25519_modm_window4 s) = 2 ^ 253 - 1.
Proof.
  intros s. assert (limbs 32 s) as Hs by (unfold s; limbs; lia).
  destruct (ed25519_window_correct s 15 Hs ltac:(lia)) as [H4 H1].
  split; [destruct (H1 ltac:(reflexivity)) as (_ & -> & _)|destruct (H4 ltac:(reflexivity)) as (_ & -> & _)]; reflexivity.
Defined.
