(* ===== verification/EdTable.v ===== *)
(** * The precomputed points of Ed25519 ([src/hc/core/hc/crypto/ed25519.c])

    [ed25519_ge_nielsBaseMultiples] and [ed25519_ge_nielsSlidingMultiples], as in the
    source: a row of the first table is three 32 byte numbers in four words each, an
    entry of the second one three field elements ([ysubx], [xaddy], [t2d]). *)
From Stdlib Require Import ZArith List.
From S2P Require Import Prelude Curve25519.
Import ListNotations.

Definition ed25519_ge_nielsBaseMultiples : list (list Z) := [
  [0x9D103905D740913E; 0xFD399F05D140BEB3; 0xA5C18434688F8A09; 0x44FD2F9298F81267; 0x2FBC93C6F58C3B85; 0xCF932DC6FB8C0E19; 0x270B4898643D42C2; 0x07CF9D3A33D4BA65; 0xDBBD15674B6FBB59; 0x41E13F00EEA2A5EA; 0xCDD49D1CC957C6FA; 0x4F0EBE1FAF16ECCA];
  [0x8A99A56042B4D5A8; 0x8F2B810C4E60ACF6; 0xE09E236BB16E37AA; 0x6BB595A669C92555; 0x9224E7FC933C71D7; 0x9F469D967A0FF5B5; 0x5AA69A65E1D60702; 0x590C063FA87D2E2E; 0x6E347EAADAD36802; 0xBAF3599383EE4805; 0x3BCABE10E6076826; 0x49314F0A165ED1B8];
  [0x56611FE8A4FCD265; 0x3BD353FDE5C1BA7D; 0x8131F31A214BD6BD; 0x2AB91587555BDA62; 0xAF25B0A84CEE9730; 0x025A8430E8864B8A; 0xC11B50029F016732; 0x7A164E1B9A80F8F4; 0x9BF211F4F1674834; 0xB84E6B17F62DF895; 0xD7DE6F075B722A4E; 0x549A04B963BB2A21];
  [0x95FE050A056818BF; 0x327E89715660FAA9; 0xC3E8E3CD06A05073; 0x27933F4C7445A49A; 0x287351B98EFC099F; 0x6765C6F47DFD2538; 0xCA348D3DFB0A9265; 0x680E910321E58727; 0xBF1E45ECE51426B0; 0xE32BC63D6DBA0F94; 0xE42974D58CF852C0; 0x44F079B1B0E64C18];
  [0x7F9182C3A447D6BA; 0xD50014D14B2729B7; 0xE33CF11CB864A087; 0x154A7E73EB1B55F3; 0xA212BC4408A5BB33; 0x8D5048C3C75EED02; 0xDD1BEB0C5ABFEC44; 0x2945CCF146E206EB; 0xC832A179E7D003B3; 0x5F729D0A00124D7E; 0x62C1D4A10E6D8FF3; 0x68B8AC5938B27A98];
  [0x499806B67B7D8CA4; 0x575BE28427D22739; 0xBB085CE7204553B9; 0x38B64C41AE417884; 0x3A0CEEEB77157131; 0x9B27158900C8AF88; 0x8065B668DA59A736; 0x51E57BB6A2CC38BD; 0x8F9DAD91689DE3A4; 0x175F2428F8FB9137; 0x050AB5329FCFB988; 0x7865DFA21354C09F];
  [0xBA6F2C9AAA3221B1; 0x6CA021533BBA23A7; 0x9DEA764F92192C3A; 0x1D6EDD5D2E5317E0; 0x6B1A5CD0944EA3BF; 0x7470353AB39DC0D2; 0x71B2528228542E49; 0x461BEA69283C927E; 0x217A8AACAB0FDA36; 0xA528C6543D3549C8; 0x37D05B8B13AB7568; 0x233CEF623A2CBC37];
  [0xE2A75DEDF39234D9; 0x963D7680E1B558F9; 0x2C2741AC6E3C23FB; 0x3A9024A1320E01C3; 0x59B7596604DD3E8F; 0x6CB30377E288702C; 0xB1339C665ED9C323; 0x0915E76061BCE52F; 0xDF7DE835A834A37E; 0x8BE19CDA689857EA; 0x2C1185367167B326; 0x589EB3D9DBEFD5C2];
  [0xED5B635449AA515E; 0xA865C49F0BC6823A; 0x850C1FE95B42D1C4; 0x30D76D6F03D315B9; 0x2ECCDD0E632F9C1D; 0x51D0B69676893115; 0x52DFB76BA8637A58; 0x6DD37D49A00EEF39; 0x6C4444172106E4C7; 0xFB53D680928D7F69; 0xB4739EA4694D3F26; 0x10C697112E864BB0];
  [0x6493C4277DBE5FDE; 0x265D4FAD19AD7EA2; 0x0E00DFC846304590; 0x25E61CABED66FE09; 0x0CA62AA08358C805; 0x6A3D4AE37A204247; 0x7464D3A63B11EDDC; 0x03BF9BAF550806EF; 0x3F13E128CC586604; 0x6F5873ECB459747E; 0xA0B63DEDCC1268F5; 0x566D78634586E22C];
  [0x1637A49F9CC10834; 0xBC8E56D5A89BC451; 0x1CB5EC0F7F7FD2DB; 0x33975BCA5ECC35D9; 0xA1054285C65A2FD0; 0x6C64112AF31667C3; 0x680AE240731AEE58; 0x14FBA5F34793B22A; 0x3CD746166985F7D4; 0x593E5E84C9C80057; 0x2FC3F2B67B61131E; 0x14829CEA83FC526C];
  [0xFF437B8497DD95C2; 0x6C744E30AA4EB5A7; 0x9E0C5D613C85E88B; 0x2FD9C71E5F758173; 0x21E70B2F4E71ECB8; 0xE656DDB940A477E3; 0xBF6556CECE1D4F80; 0x05FC3BC4535D7B7E; 0x24B8B3AE52AFDEDD; 0x3495638CED3B30CF; 0x33A4BC83A9BE8195; 0x373767475C651F04];
  [0x2FBA99FD40D1ADD9; 0xB307166F96F4D027; 0x4363F05215F03BAE; 0x1FBEA56C3B18F999; 0x634095CB14246590; 0xEF12144016C15535; 0x9E38140C8910BC60; 0x6BF5905730907C8C; 0x0FA778F1E1415B8A; 0x06409FF7BAC3A77E; 0x6F52D7B89AA29A50; 0x02521CF67A635A56];
  [0x513FEE0B0A9D5294; 0x8F98E75C0FDF5A66; 0xD4618688BFE107CE; 0x3FA00A7E71382CED; 0xB1146720772F5EE4; 0xE8F894B196079ACE; 0x4AF8224D00AC824A; 0x1753D9F7CD6CC4; 0x3C69232D963DDB34; 0x1DDE87DAB4973858; 0xAAD7D1F9A091F285; 0x12B5FE2FA048EDB6];
  [0x71F0FBC496FCE34D; 0x73B9826BADF35BED; 0xD2047261FF28C561; 0x749B76F96FB1206F; 0xDF2B7C26AD6F1E92; 0x4B66D323504B8913; 0x8C409DC0751C8BC3; 0x6F7E93C20796C7B8; 0x1F5AF604AEA6AE05; 0xC12351F1BEE49C99; 0x61A808B5EEFF6B66; 0x0FCEC10F01E02151];
  [0x644D58A649FE1E44; 0x21FCAEA231AD777E; 0x02441C5A887FD0D2; 0x4901AA7183C511F3; 0x3DF2D29DC4244E45; 0x2B020E7493D8DE0A; 0x6CC8067E820C214D; 0x413779166FEAB90A; 0x08B1B7548C1AF8F0; 0xCE0F7A7C246299B4; 0xF760B0F91E06D939; 0x41BB887B726D1213];
  [0x40E87D44744346BE; 0x1D48DAD415B52B25; 0x7C3A8A18A13B603E; 0x4EB728C12FCDBDF7; 0x7E234C597C6691AE; 0x64889D3D0A85B4C8; 0xDAE2C90C354AFAE7; 0x0A871E070C6A9E1D; 0x3301B5994BBC8989; 0x736BAE3A5BDD4260; 0x0D61ADE219D59E3C; 0x3EE7300F2685D464];
  [0xF5D255E49E7DD6B7; 0x8016115C610B1EAC; 0x3C99975D92E187CA; 0x13815762979125C2; 0x43FA7947841E7518; 0xE5C6FA59639C46D7; 0xA1065E1DE3052B74; 0x7D47C6A2CFB89030; 0x3FDAD0148EF0D6E0; 0x9D3E749A91546F3C; 0x71EC621026BB8157; 0x148CF58D34C9EC80];
  [0x46A492F67934F027; 0x469984BEF6840AA9; 0x5CA1BC2A89611854; 0x3FF2FA1EBD5DBBD4; 0xE2572F7D9AE4756D; 0x56C345BB88F3487F; 0x9FD10B6D6960A88D; 0x278FEBAD4EAEA1B9; 0xB1AA681F8C933966; 0x8C21949C20290C98; 0x39115291219D3C52; 0x4104DD02FE9C677B];
  [0x72B2BF5E1124422A; 0xA1FA0C3398A33AB5; 0x94CB6101FA52B666; 0x2C863B00AFAF53D5; 0x81214E06DB096AB8; 0x21A8B6C90CE44F35; 0x6524C12A409E2AF5; 0x0165B5A48EFCA481; 0xF190A474A0846A76; 0x12EFF984CD2F7CC0; 0x695E290658AA2B8F; 0x591B67D9BFFEC8B8];
  [0x312F0D1C80B49BFA; 0x5979515EABF3EC8A; 0x727033C09EF01C88; 0x3DE02EC7CA8F7BCB; 0x99B9B3719F18B55D; 0xE465E5FAA18C641E; 0x61081136C29F05ED; 0x489B4F867030128B; 0xD232102D3AEB92EF; 0xE16253B46116A861; 0x3D7EABE7190BAA24; 0x49F5FBBA496CBEBF];
  [0x30949A108A5BCFD4; 0xDC40DD70BC6473EB; 0x92C294C1307C0D1C; 0x5604A86DCBFA6E74; 0x155D628C1E9C572E; 0x8A4D86ACC5884741; 0x91A352F6515763EB; 0x06A1A6C28867515B; 0x7288D1D47C1764B6; 0x72541140E0418B51; 0x9F031A6018ACF6D1; 0x20989E89FE2742C6];
  [0x499777FD3A2DCC7F; 0x32857C2CA54FD892; 0xA279D864D207E3A0; 0x0403ED1D0CA67E29; 0x1674278B85EAEC2E; 0x5621DC077ACB2BDF; 0x640A4C1661CBF45A; 0x730B9950F70595D3; 0xC94B2D35874EC552; 0xC5E6C8CF98246F8D; 0xF7CB46FA16C035CE; 0x5BD7454308303DCC];
  [0x7F9AD19528B24CC2; 0x7F6B54656335C181; 0x66B8B66E4FC07236; 0x133A78007380AD83; 0x85C4932115E7792A; 0xC64C89A2BDCDDDC9; 0x9D1E3DA8ADA3D762; 0x5BB7DB123067F82C; 0x0961F467C6CA62BE; 0x04EC21D6211952EE; 0x182360779BD54770; 0x740DCA6D58F0E0D2];
  [0xDF48EE0752CFCE4E; 0xC3FFFAF306EC08B7; 0x05710B2AB95459C4; 0x161D25FA963EA38D; 0x231A8C570478433C; 0xB7B5270EC281439D; 0xDBAA99EAE3D9079F; 0x2C03F5256C2B03D9; 0x790F18757B53A47D; 0x307B0130CF0C5879; 0x31903D77257EF7F9; 0x699468BDBD96BBAF];
  [0xBD1F2F46F4DAFECF; 0x7CEF0114A47FD6F7; 0xD31FFDDA4A47B37F; 0x525219A473905785; 0xD8DD3DE66AA91948; 0x485064C22FC0D2CC; 0x9B48246634FDEA2F; 0x293E1C4E6C4A2E3A; 0x376E134B925112E1; 0x703778B5DCA15DA0; 0xB04589AF461C3111; 0x5B605C447F032823];
  [0xB965805920C47C89; 0xE7F0100C923B8FCC; 0x01256502E2EF77; 0x24A76DCEA8AEB3EE; 0x3BE9FEC6F0E7F04C; 0x866A579E75E34962; 0x5542EF161E1DE61A; 0x2F12FEF4CC5ABDD5; 0x0A4522B2DFC0C740; 0x10D06E7F40C9A407; 0xC6CF144178CFF668; 0x5E607B2518A43790];
  [0x58B31D8F6CDF1818; 0x35CFA74FC36258A2; 0xE1B3FF4F66E61D6E; 0x5067ACAB6CCDD5F7; 0xA02C431CA596CF14; 0xE3C42D40AED3E400; 0xD24526802E0F26DB; 0x201F33139E457068; 0xFD527F6B08039D51; 0x18B14964017C0006; 0xD5220EB02E25A4A8; 0x397CBA8862460375];
  [0x30C13093F05959B2; 0xE23AA18DE9A97976; 0x222FD491721D5E26; 0x2339D320766E6C3A; 0x7815C3FBC81379E7; 0xA6619420DDE12AF1; 0xFFA9C0F885A8FDD5; 0x771B4022C1E1C252; 0xD87DD986513A2FA7; 0xF5AC9B71F9D4CF08; 0xD06BC31B1EA283B3; 0x331A189219971A76];
  [0xF5166F45FB4F80C6; 0x9C36C7DE61C775CF; 0xE3D4E81B9041D91C; 0x31167C6B83BDFE21; 0x26512F3A9D7572AF; 0x5BCBE28868074A9E; 0x84EDC1C11180F7C4; 0x1AC9619FF649A67B; 0xF22B3842524B1068; 0x5068343BEE9CE987; 0xFC9D71844A6250C8; 0x612436341F08B111];
  [0xD99D41DB874E898D; 0x09FEA5F16C07DC20; 0x793D2C67D00F9BBC; 0x46EBE2309E5EFF40; 0x8B6349E31A2D2638; 0x9DDFB7009BD3FD35; 0x7F8BF1B8A3A06BA4; 0x1522AA3178D90445; 0x2C382F5369614938; 0xDAFE409AB72D6D10; 0xE8C83391B646F227; 0x45FE70F50524306C];
  [0xDA4875A6960C0B8C; 0x5B68D076EF0E2F20; 0x07FB51CF3D0B8FD4; 0x428D1623A0E392D4; 0x62F24920C8951491; 0x05F007C83F630CA2; 0x6FBB45D2F5C9D4B8; 0x16619F6DB57A2245; 0x084F4A4401A308FD; 0xA82219C376A5CAAC; 0xDEB8DE4643D1BC7D; 0x1D81592D60BD38C6];
  [0x61368756A60DAC5F; 0x17E02F6AEBABDC57; 0x7F193F2D4CCE0F7D; 0x20234A7789ECDCF0; 0x8765B69F7B85C5E8; 0x6FF0678BD168BAB2; 0x3A70E77C1D330F9B; 0x3A5F6D51B0AF8E7C; 0x76D20DB67178B252; 0x071C34F9D51ED160; 0xF62A4A20B3E41170; 0x7CD682353CFFE366];
  [0x0BE1A45BD887FAB6; 0x2A846A32BA403B6E; 0xD9921012E96E6000; 0x2838C8863BDC0943; 0xA665CD6068ACF4F3; 0x42D92D183CD7E3D3; 0x5759389D336025D9; 0x3EF0253B2B2CD8FF; 0xD16BB0CF4A465030; 0xFA496B4115C577AB; 0x82CFAE8AF4AB419D; 0x21DCB8A606A82812];
  [0x5C6004468C9D9FC8; 0x2540096ED42AA3CB; 0x125B4D4C12EE2F9C; 0x0BC3D08194A31DAB; 0x9A8D00FABE7731BA; 0x8203607E629E1889; 0xB2CC023743F3D97F; 0x5D840DBF6C6F678B; 0x706E380D309FE18B; 0x6EB02DA6B9E165C7; 0x57BBBA997DAE20AB; 0x3A4276232AC196DD];
  [0x4B42432C8A7084FA; 0x898A19E3DFB9E545; 0xBE9F00219C58E45D; 0x1FF177CEA16DEBD1; 0x3BF8C172DB447ECB; 0x5FCFC41FC6282DBD; 0x80ACFFC075AA15FE; 0x0770C9E824E1A9F9; 0xCF61D99A45B5B5FD; 0x860984E91B3A7924; 0xE7300919303E3E89; 0x39F264FD41500B1E];
  [0xA7AD3417DBE7E29C; 0xBD94376A2B9C139C; 0xA0E91B8E93597BA9; 0x1712D73468889840; 0xD19B4AABFE097BE1; 0xA46DFCE1DFE01929; 0xC3C908942CA6F1FF; 0x65C621272C35F14E; 0xE72B89F8CE3193DD; 0x4D103356A125C0BB; 0x0419A93D2E1CFE83; 0x22F9800AB19CE272];
  [0x605A368A3E9EF8CB; 0xE3E9C022A5504715; 0x553D48B05F24248F; 0x13F416CD647626E5; 0x42029FDD9A6EFDAC; 0xB912CEBE34A54941; 0x640F64B987BDF37B; 0x4171A4D38598CAB4; 0xFA2758AA99C94C8C; 0x23006F6FB000B807; 0xFBD291DDADDA5392; 0x508214FA574BD1AB];
  [0xC20269153ED6FE4B; 0xA65A6739511D77C4; 0xCBDE26462C14AF94; 0x22F960EC6FABA74B; 0x461A15BB53D003D6; 0xB2102888BCF3C965; 0x27C576756C683A5A; 0x3A7758A4C86CB447; 0x548111F693AE5076; 0x1DAE21DF1DFD54A6; 0x12248C90F3115E65; 0x5D9FD15F8DE7F494];
  [0x031408D36D63727F; 0x6A379AEFD7C7B533; 0xA9E18FC5CCAEE24B; 0x332F35914F8FBED3; 0x3F244D2AEED7521E; 0x8E3A9028432E9615; 0xE164BA772E9C16D4; 0x3BC187FA47EB98D8; 0x6D470115EA86C20C; 0x998AB7CB6C46D125; 0xD77832B53A660188; 0x450D81CE906FBA03];
  [0x6E7BB6A1A6205275; 0xAA4F21D7413C8E83; 0x6F56D155E88F5CB2; 0x2DE25D4BA6345BE1; 0xD074D8961CAE743F; 0xF86D18F5EE1C63ED; 0x97BDC55BE7F4ED29; 0x4CBAD279663AB108; 0x80D19024A0D71FCD; 0xC525C20AFB288AF8; 0xB1A3974B5F3A6419; 0x7D7FBCEFE2007233];
  [0xFAEF1E6A266B2801; 0x866C68C4D5739F16; 0xF68A2FBC1B03762C; 0x5975435E87B75A8D; 0xCD7C5DC5F3C29094; 0xC781A29A2A9105AB; 0x80C61D36421C3058; 0x4F9CD196DCD8D4D7; 0x199297D86A7B3768; 0xD0D058241AD17A63; 0xBA029CAD5C1C0C17; 0x7CCDD084387A0307];
  [0xDCA6422C6D260417; 0xAE153D50948240BD; 0xA9C0C1B4FB68C677; 0x428BD0ED61D0CF53; 0x9B0C84186760CC93; 0xCDAE007A1AB32A99; 0xA88DEC86620BDA18; 0x3593CA848190CA44; 0x9213189A5E849AA7; 0xD4D8C33565D8FACD; 0x8C52545B53FDBBD1; 0x27398308DA2D63E6];
  [0x42C38D28435ED413; 0xBD50F3603278CCC9; 0xBB07AB1A79DA03EF; 0x269597AEBE8C3355; 0xB9A10E4C0A702453; 0x0FA25866D57D1BDE; 0xFFB9D9B5CD27DAF7; 0x572C2945492C33FD; 0xC77FC745D6CD30BE; 0xE4DFE8D3E3BAAEFB; 0xA22C8830AA5DDA0C; 0x7F985498C05BCA80];
  [0x3849CE889F0BE117; 0x8005AD1B7B54A288; 0x3DA3C39F23FC921C; 0x76C2EC470A31F304; 0xD35615520FBF6363; 0x08045A45CF4DFBA6; 0xEEC24FBC873FA0C2; 0x30F2653CD69B12E7; 0x8A08C938AAC10C85; 0x46179B60DB276BCB; 0xA920C01E0E6FAC70; 0x2F1273F1596473DA];
  [0x4739FC7C8AE01E11; 0xFD5274904A6AAB9F; 0x41D98A8287728F2E; 0x5D9E572AD85B69F2; 0x30488BD755A70BC0; 0x06D6B5A4F1D442E7; 0xEAD1A69EBC596162; 0x38AC1997EDC5F784; 0x0666B517A751B13B; 0x747D06867E9B858C; 0xACACC011454DDE49; 0x22DFCD9CBFE9E69C];
  [0x8DDBD2E0C30D0CD9; 0xAD8E665FACBB4333; 0x8F6B258C322A961F; 0x6B2916C05448C1C7; 0x56EC59B4103BE0A1; 0x2EE3BAECD259F969; 0x797CB29413F5CD32; 0x0FE9877824CDE472; 0x7EDB34D10ABA913B; 0x4EA3CD822E6DAC0E; 0x66083DFF6578F815; 0x4C303F307FF00A17];
  [0xD30A3BD617B28C85; 0xC5D377B739773BEA; 0xC6C6E78C1E6A5CBF; 0x0D61B8F78B2AB7C4; 0x29FC03580DD94500; 0xECD27AA46FBBEC93; 0x130A155FC2E2A7F8; 0x416B151AB706A1D5; 0x56A8D7EFE9C136B0; 0xBD07E5CD58E44B20; 0xAFE62FDA1B57E0AB; 0x191A2AF74277E8D2];
  [0xCE16F74BC53C1431; 0x2B9725CE2072EDDE; 0xB8B9C36FB5B23EE7; 0x7E2E0E450B5CC908; 0x9FE62B434F460EFB; 0xDED303D4A63607D6; 0xF052210EB7A0DA24; 0x237E7DBE00545B93; 0x013575ED6701B430; 0x231094E69F0BFD10; 0x75320F1583E47F22; 0x71AFA699B11155E3];
  [0x65CE6F9B3953B61D; 0xC65839EAAFA141E6; 0x0F435FFDA9F759FE; 0x021142E9C2B1C28E; 0xEA423C1C473B50D6; 0x51E87A1F3B38EF10; 0x9B84BF5FB2C9BE95; 0x731FBC78F89A1C; 0xE430C71848F81880; 0xBF960C225ECEC119; 0xB6DAE0836BBA15E3; 0x4C4D6F3347E15808];
  [0x18F7ECCFC17D1FC9; 0x6C75F5A651403C14; 0xDBDE712BF7EE0CDF; 0x193FDDAAA7E47A22; 0x2F0CDDFC988F1970; 0x6B916227B0B9F51B; 0x6EC7B6C4779176BE; 0x38BF9500A88F9FA8; 0x1FD2C93C37E8876F; 0xA2F61E5A18D1462C; 0x5080F58239241276; 0x6A6FB99EBF0D4969];
  [0x6A46C1BB560855EB; 0x2416BB38F893F09D; 0xD71D11378F71ACC1; 0x75F76914A31896EA; 0xEEB122B5B6E423C6; 0x939D7010F286FF8E; 0x90A92A831DCF5D8C; 0x136FDA9F42C5EB10; 0xF94CDFB1A305BDD1; 0x0F364B9D9FF82C08; 0x2A87D8A5C3BB588A; 0x022183510BE8DCBA];
  [0x4AF766385EAD2D14; 0xA08ED880CA7C5830; 0x0D13A6E610211E3D; 0x6A071CE17B806C03; 0x9D5A710143307A7F; 0xB063DE9EC47DA45F; 0x22BBFE52BE927AD3; 0x1387C441FD40426C; 0xB5D3C3D187978AF8; 0x722B5A3D7F0E4413; 0x0D7B4848BB477CA0; 0x3171B26AAF1EDC92];
  [0xA92F319097564CA8; 0xFF7BB84C2275E119; 0x4F55FE37A4875150; 0x221FD4873CF0835A; 0xA60DB7D8B28A47D1; 0xA6BF14D61770A4F1; 0xD4A1F89353DDBD58; 0x6C514A63344243E9; 0x2322204F3A156341; 0xFB73E0E9BA0A032D; 0xFCE0DD4C410F030E; 0x48DAA596FB924AAA];
  [0x6ECA8E665CA59CC7; 0xA847254B2E38ACA0; 0x31AFC708D21E17CE; 0x676DD6FCCAD84AF7; 0x14F61D5DC84C9793; 0x9941F9E3EF418206; 0xCDF5B88F346277AC; 0x58C837FA0E8A79A9; 0x0CF9688596FC9058; 0x1DDCBBF37B56A01B; 0xDCC2E77D4935D66A; 0x1C4F73F2C6A57F0A];
  [0x0E7A4FBD305FA0BB; 0x829D4CE054C663AD; 0xF421C3832FE33848; 0x795AC80D1BF64C42; 0xB36E706EFC7C3484; 0x73DFC9B4C3C1CF61; 0xEB1D79C9781CC7E5; 0x70459ADB7DAF675C; 0x1B91DB4991B42BB3; 0x572696234B02DCCA; 0x9FDF9EE51F8C78DC; 0x5FE162848CE21FD3];
  [0x4E59214FE194961A; 0x49BE7DC70D71CD4F; 0x9300CFD23B50F22D; 0x4789D446FC917232; 0x2879852D5D7CB208; 0xB8DEDD70687DF2E7; 0xDC0BFFAB21687891; 0x2B44C043677DAA35; 0x1A1C87AB074EB78E; 0xFAC6D18E99DAF467; 0x3EACBBCD484F9067; 0x60C52EEF2BB9A4E4];
  [0x0B5D89BC3BFD8BF1; 0xB06B9237C9F3551A; 0x0E4C16B0D53028F5; 0x10BC9C312CCFCAAB; 0x702BC5C27CAE6D11; 0x44C7699B54A48CAB; 0xEFBC4056BA492EB2; 0x70D77248D9B6676D; 0xAA8AE84B3EC2A05B; 0x98699EF4ED1781E0; 0x794513E4708E85D1; 0x63755BD3A976F413];
  [0xB55FA03E2AD10853; 0x356F75909EE63569; 0x9FF9F1FDBE69B890; 0x0D8CC1C48BC16F84; 0x3DC7101897F1ACB7; 0x5DDA7D5EC165BBD8; 0x508E5B9C0FA1020F; 0x2763751737C52A56; 0x029402D36EB419A9; 0xF0B44E7E77B460A5; 0xCFA86230D43C4956; 0x70C2DD8A7AD166E7];
  [0x656194509F6FEC0E; 0xEE2E7EA946C6518D; 0x9733C1F367E09B5C; 0x2E0FAC6363948495; 0x91D4967DB8ED7E13; 0x74252F0AD776817A; 0xE40982E00D852564; 0x32B8613816A53CE5; 0x79E7F7BEE448CD64; 0x6AC83A67087886D0; 0xF89FD4D9A0E4DB2E; 0x4179215C735A4F41];
  [0x8C7094E7D7DCED2A; 0x97FB8AC347D39C70; 0xE13BE033A906D902; 0x700344A30CD99D76; 0xE4AE33B9286BCD34; 0xB7EF7EB6559DD6DC; 0x278B141FB3D38E1F; 0x31FA85662241C286; 0xAF826C422E3622F4; 0xC12029879833502D; 0x9BC1B7E12B389123; 0x24BB2312A9952489];
  [0xB1A8ED1732DE67C3; 0x3CB49418461B4948; 0x8EBD434376CFBCD2; 0x0FEE3E871E188008; 0x41F80C2AF5F85C6B; 0x687284C304FA6794; 0x8945DF99A3BA1BAD; 0x0D1D2AF9FFEB5D16; 0xA9DA8AA132621EDF; 0x30B822A159226579; 0x4004197BA79AC193; 0x16ACD79718531D76];
  [0x72DF72AF2D9B1D3D; 0x63462A36A432245A; 0x3ECEA07916B39637; 0x123E0EF6B9302309; 0xC959C6C57887B6AD; 0x94E19EAD5F90FEBA; 0x16E24E62A342F504; 0x164ED34B18161700; 0x487ED94C192FE69A; 0x61AE2CEA3A911513; 0x877BF6D3B9A4DE27; 0x78DA0FC61073F3EB];
  [0x5BF15D28E52BC66A; 0x2C47E31870F01A8E; 0x2419AFBC06C28BDD; 0x2D25DEEB256B173A; 0xA29F80F1680C3A94; 0x71F77E151AE9E7E6; 0x1100F15848017973; 0x054AA4B316B38DDD; 0xDFC8468D19267CB8; 0x0B28789C66E54DAF; 0x2AEB1D2A666EEC17; 0x134610A6AB7DA760];
  [0x51138EC78DF6B0FE; 0x5397DA89E575F51B; 0x09207A1D717AF1B9; 0x2102FDBA2B20D650; 0xCD2A65E777D1F515; 0x548991878FAA60F1; 0xB1B73BBCDABC06E5; 0x654878CBA97CC9FB; 0x969EE405055CE6A1; 0x36BCA7681251AD29; 0x3A1AF517AA7DA415; 0x0AD725DB29ECB2BA];
  [0xDC4267B1834E2457; 0xB67544B570CE1BC5; 0x1AF07A0BF7D15ED7; 0x4AEFCFFB71A03650; 0xFEC7BC0C9B056F85; 0x537D5268E7F5FFD7; 0x77AFC6624312AEFA; 0x4F675F5302399FD9; 0xC32D36360415171E; 0xCD2BEF118998483B; 0x870A6EADD0945110; 0x0BCCBB72A2A86561];
  [0x185E962FEAB1A9C8; 0x86E7E63565147DCD; 0xB092E031BB5B6DF2; 0x4024F0AB59D6B73E; 0x186D5E4C50FE1296; 0xE0397B82FEE89F7E; 0x3BC7F6C5507031B0; 0x6678FD69108F37C2; 0x1586FA31636863C2; 0x07F68C48572D33F2; 0x4F73CC9F789EAEFC; 0x2D42E2108EAD4701];
  [0x97F5131594DFD29B; 0x6155985D313F4C6A; 0xEBA13F0708455010; 0x676B2608B8D2D322; 0x21717B0D0F537593; 0x914E690B131E064C; 0x1BB687AE752AE09F; 0x420BF3A79B423C6E; 0x8138BA651C5B2B47; 0x8671B6EC311B1B80; 0x7BFF0CB1BC3135B0; 0x745D2FFA9C0CF1E0];
  [0xBF525A1E2BC9C8BD; 0xEA5B260826479D81; 0xD511C70EDF0155DB; 0x1AE23CEB960CF5D0; 0x6036DF5721D34E6A; 0xB1DB8827997BB3D0; 0xD3C209C3C8756AFA; 0x06E15BE54C1DC839; 0x5B725D871932994A; 0x32351CB5CEB1DAB0; 0x7DC41549DAB7CA05; 0x58DED861278EC1F7];
  [0xD8173793F266C55C; 0xC8C976C5CC454E49; 0x5CE382F8BC26C3A8; 0x2FF39DE85485F6F9; 0x2DFB5BA8B6C2C9A8; 0x48EEEF8EF52C598C; 0x33809107F12D1573; 0x08BA696B531D5BD8; 0x77ED3EEEC3EFC57A; 0x04E05517D4FF4811; 0xEA3D7A3FF1A671CB; 0x120633B4947CFE54];
  [0x0B94987891610042; 0x4EE7B13CECEBFAE8; 0x70BE739594F0A4C0; 0x35D30A99B4D59185; 0x82BD31474912100A; 0xDE237B6D7E6FBE06; 0xE11E761911EA79C6; 0x07433BE3CB393BDE; 0xFF7944C05CE997F4; 0x575D3DE4B05C51A3; 0x583381FD5A76847C; 0x2D873EDE7AF6DA9F];
  [0x157A316443373409; 0xFAB8B7EEF4AA81D9; 0xB093FEE6F5A64806; 0x2E773654707FA7B6; 0xAA6202E14E5DF981; 0xA20D59175015E1F5; 0x18A275D3BAE21D6C; 0x0543618A01600253; 0x0DEABDF4974C23C1; 0xAA6F0A259DCE4693; 0x04202CB8A29ABA2C; 0x4B1443362D07960D];
  [0xCCC4B7C7B66E1F7A; 0x44157E25F50C2F7E; 0x3EF06DFC713EAF1C; 0x582F446752DA63F7; 0x967C54E91C529CCB; 0x30F6269264C635FB; 0x2747AFF478121965; 0x17038418EAF66F5C; 0xC6317BD320324CE4; 0xA81042E8A4488BC4; 0xB21EF18B4E5A1364; 0x0C2A1C4BCDA28DC9];
  [0xD24DC7D06F1F0447; 0xB2269E3EDB87C059; 0xD15B0272FBB2D28F; 0x7C558BD1C6F64877; 0xEDC4814869BD6945; 0x0D6D907DBE1C8D22; 0xC63BD212D55CC5AB; 0x5A6A9B30A314DC83; 0xD0EC1524D396463D; 0x12BB628AC35A24F0; 0xA50C3A791CBC5FA4; 0x0404A5CA0AFBAFC3];
  [0x8C1F40070AA743D6; 0xCCBAD0CB5B265EE8; 0x574B046B668FD2DE; 0x46395BFDCADD9633; 0x62BC9E1B2A416FD1; 0xB5C6F728E350598B; 0x04343FD83D5D6967; 0x39527516E7F8EE98; 0x117FDB2D1A5D9A9C; 0x9C7745BCD1005C2A; 0xEFD4BEF154D56FEA; 0x76579A29E822D016];
  [0x45B68E7E49C02A17; 0x23CD51A2BCA9A37F; 0x3ED65F11EC224C1B; 0x43A384DC9E05BDB1; 0x333CB51352B434F2; 0xD832284993DE80E1; 0xB5512887750D35CE; 0x02C514BB2A2777C1; 0x684BD5DA8BF1B645; 0xFB8BD37EF6B54B53; 0x313916D7A9B0D253; 0x1160920961548059];
  [0xB44D166929DACFAA; 0xDA529F4C8413598F; 0xE9EF63CA453D5559; 0x351E125BC5698E0B; 0x7A385616369B4DCD; 0x75C02CA7655C3563; 0x7DC21BF9D4F18021; 0x2F637D7491E6E042; 0xD4B49B461AF67BBE; 0xD603037AC8AB8961; 0x71DEE19FF9A699FB; 0x7F182D06E7CE2A9A];
  [0x7A7C8E64AB0168EC; 0xCB5A4A5515EDC543; 0x095519D347CD0EDA; 0x67D4AC8C343E93B0; 0x09454B728E217522; 0xAA58E8F4D484B8D8; 0xD358254D7F46903C; 0x44ACC043241C5217; 0x1C7D6BBB4F7A5777; 0x8B35FED4918313E1; 0x4ADCA1C6C96B4684; 0x556D1C8312AD71BD];
  [0x17EF40E30C8D3982; 0x31F7073E15A3FA34; 0x4F21F3CB0773646E; 0x746C6C6D1D824EFF; 0x81F06756B11BE821; 0x0FAFF82310A3F3DD; 0xF8B2D0556A99465D; 0x097ABE38CC8C7F05; 0x0C49C9877EA52DA4; 0x4C4369559BDC1D43; 0x022C3809F7CCEBD2; 0x577E14A34BEE84BD];
  [0xF0E268AC61A73B0A; 0xF2FAFA103791A5F5; 0xC1E13E826B6D00E9; 0x60FA7EE96FD78F42; 0x94FECEBEBD4DD72B; 0xF46A4FDA060F2211; 0x124A5977C0C8D1FF; 0x705304B8FB009295; 0xB63D1D354D296EC6; 0xF3C3053E5FAD31D8; 0x670B958CB4BD42EC; 0x21398E0CA16353FD];
  [0x89F5058A382B33F3; 0x5AE2BA0BAD48C0B4; 0x8F93B503A53DB36E; 0x5AA3ED9D95A232E6; 0x2798AAF9B4B75601; 0x5EAC72135C8DAD72; 0xD2CEAA6161B7A023; 0x1BBFB284E98F7D4E; 0x656777E9C7D96561; 0xCB2B125472C78036; 0x65053299D9506EEE; 0x4A07E14E5E8957CC];
  [0x4EE412CB980DF999; 0xA315D76F3C6EC771; 0xBBA5EDDE925C77FD; 0x3F0BAC391D313402; 0x240B58CDC477A49B; 0xFD38DADE6447F017; 0x19928D32A7C86AAD; 0x50AF7AED84AFA081; 0x6E4FDE0115F65BE5; 0x29982621216109B2; 0x780205810BADD6D9; 0x1921A316BAEBD006];
  [0x89422F7EDFB870FC; 0x2C296BEB4F76B3BD; 0x0738F1D436C24DF7; 0x6458DF41E273AEB0; 0xD75AAD9AD9F3C18B; 0x566A0EEF60B1C19C; 0x3E9A0BAC255C0ED9; 0x7B049DECA062C7F5; 0xDCCBE37A35444483; 0x758879330FEDBE93; 0x786004C312C5DD87; 0x6093DCCBC2950E64];
  [0x1FF39A8585E0706D; 0x36D0A5D8B3E73933; 0x43B9F2E1718F453B; 0x57D1EA084827A97C; 0x6BDEEEBE6084034B; 0x3199C2B6780FB854; 0x973376ABB62D0695; 0x6E3180C98B647D90; 0xEE7AB6E7A128B071; 0xA4C1596D93A88BAA; 0xF7B4DE82B2216130; 0x363E999DDD97BD18];
  [0x96A843C135EE1FC4; 0x976EB35508E4C8CF; 0xB42F6801B58CD330; 0x48EE9B78693A052B; 0x2F1848DCE24BAEC6; 0x769B7255BABCAF60; 0x90CB3C6E3CEFE931; 0x231F979BC6F9B355; 0x5C31DE4BCC2AF3C6; 0xB04BB030FE208D1F; 0xB78D7009C14FB466; 0x079BFA9B08792413];
  [0xE3903A51DA300DF4; 0x843964233DA95AB0; 0xED3CF12D0B356480; 0x038C77F684817194; 0xF3C9ED80A2D54245; 0x0AA08B7877F63952; 0xD76DAC63D1085475; 0x1EF4FB159470636B; 0x854E5EE65B167BEC; 0x59590A4296D0CDC2; 0x72B2DF3498102199; 0x575EE92A4A0BFF56];
  [0xD4C080908A182FCF; 0x30E170C299489DBD; 0x05BABD5752F733DE; 0x43D4E7112CD3FD00; 0x5D46BC450AA4D801; 0xC3AF1227A533B9D8; 0x389E3B262B8906C2; 0x200A1E7E382F581B; 0x518DB967EAF93AC5; 0x71BC989B056652C0; 0xFE2B85D9567197F5; 0x050ECA52651E4E38];
  [0xC3431ADE453F0C9C; 0xE9F5045EFF703B9B; 0xFCD97AC9ED847B3D; 0x4B0EE6C21C58F4C6; 0x97AC397660E668EA; 0x9B19BBFE153AB497; 0x4CB179B534ECA79F; 0x6151C09FA131AE57; 0x3AF55C0DFDF05D96; 0xDD262EE02AB4EE7A; 0x11B2BB8712171709; 0x1FEF24FA800F030B];
  [0x37D653FB1AA73196; 0x0F9495303FD76418; 0xAD200B09FB3A17B2; 0x544D49292FC8613E; 0x22D2AFF530976B86; 0x8D90B806C2D24604; 0xDCA1896C4DE5BAE5; 0x28005FE6C8340C17; 0x6AEFBA9F34528688; 0x5C1BFF9425107DA1; 0xF75BBBCD66D94B36; 0x72E472930F316DFA];
  [0x2695208C9781084F; 0xB1502A0B23450EE1; 0xFD9DAEA603EFDE02; 0x5A9D2E8C2733A34C; 0x07F3F635D32A7627; 0x7AAA4D865F6566F0; 0x3C85E79728D04450; 0x1FEE7F000FE06438; 0x765305DA03DBF7E5; 0xA4DAF2491434CDBD; 0x7B4AD5CDD24A88EC; 0xF94051EE040543];
  [0x8D356B23C3D330B2; 0xF21C8B9BB0471B06; 0xB36C316C6E42B83C; 0x07D79C7E8BEAB10D; 0xD7EF93BB07AF9753; 0x583ED0CF3DB766A7; 0xCE6998BF6E0B1EC5; 0x47B7FFD25DD40452; 0x87FBFB9CBC08DD12; 0x8A066B3AE1EEC29B; 0x0D57242BDB1FC1BF; 0x1C3520A35EA64BB6];
  [0x80D253A6BCCBA34A; 0x3E61C3A13838219B; 0x90C3B6019882E396; 0x1C3D05775D0EE66F; 0xCDA86F40216BC059; 0x1FBB231D12BCD87E; 0xB4956A9E17C70990; 0x38750C3B66D12E55; 0x692EF1409422E51A; 0xCBC0C73C2B5DF671; 0x21014FE7744CE029; 0x0621E2C7D330487C];
  [0xAF9860CC8259838D; 0x90EA48C1C69F9ADC; 0x6526483765581E30; 0x07D6097BD3A5BC; 0xB7AE1796B0DBF0F3; 0x54DFAFB9E17CE196; 0x25923071E9AAA3B4; 0x5D8E589CA1002E9D; 0xC0BF1D950842A94B; 0xB2D3C363588F2E3E; 0x0A961438BB51E2EF; 0x1583D7783C1CBF86];
  [0xECEEA2EF5DA27AE1; 0x597C3A1455670174; 0xC9A62A126609167A; 0x252A5F2E81ED8F70; 0x90034704CC9D28C7; 0x1D1B679EF72CC58F; 0x16E12B5FBE5B8726; 0x4958064E83C5580A; 0x0D2894265066E80D; 0xFCC3F785307C8C6B; 0x1B53DA780C1112FD; 0x079C170BD843B388];
  [0x0506ECE464FA6FFF; 0xBEE3431E6205E523; 0x3579422451B8EA42; 0x6DEC05E34AC9FB00; 0xCDD6CD50C0D5D056; 0x9AF7686DBB03573B; 0x3CA6723FF3C3EF48; 0x6768C0D7317B8ACC; 0x94B625E5F155C1B3; 0x417BF3A7997B7B91; 0xC22CBDDC6D6B2600; 0x51445E14DDCD52F4];
  [0x57502B4B3B144951; 0x8E67FF6B444BBCB3; 0xB8BD6927166385DB; 0x13186F31E39295C8; 0x893147AB2BBEA455; 0x8C53A24F92079129; 0x4B49F948BE30F7A7; 0x12E990086E4FD43D; 0xF10C96B37FDFBB2E; 0x9F9A935E121CEAF9; 0xDF1136C43A5B983F; 0x77B2E3F05D3E99AF];
  [0x296FA9C59C2EC4DE; 0xBC8B61BF4F84F3CB; 0x1C7706D917A8F908; 0x63B795FC7AD3255D; 0xD598639C12DDB0A4; 0xA5D19F30C024866B; 0xD17C2F0358FCE460; 0x07A195152E095E8A; 0xA8368F02389E5FC8; 0x90433B02CF8DE43B; 0xAFA1FD5DC5412643; 0x3E8FE83D032F0137];
  [0x2F8B15B90570A294; 0x94F2427067084549; 0xDE1C5AE161BBFD84; 0x75BA3B797FAC4007; 0x08704C8DE8EFD13C; 0xDFC51A8E33E03731; 0xA59D5DA51260CDE3; 0x22D60899A6258C86; 0x6239DBC070CDD196; 0x60FE8A8B6C7D8A9A; 0xB38847BCEB401260; 0x0904D07B87779E5E];
  [0xB4CE1FD4DDBA919C; 0xCF31DB3EC74C8DAA; 0x2C63CC63AD86CC51; 0x43E2143FBC1DDE07; 0xF4322D6648F940B9; 0x06952F0CBD2D0C39; 0x167697ADA081F931; 0x6240AACEBAF72A6C; 0xF834749C5BA295A0; 0xD6947C5BCA37D25A; 0x66F13BA7E7C9316A; 0x56BDAF238DB40CAC];
  [0x362AB9E3F53533EB; 0x338568D56EB93D40; 0x9E0E14521D5A5572; 0x1D24A86D83741318; 0x1310D36CC19D3BB2; 0x062A6BB7622386B9; 0x7C9B8591D7A14F5C; 0x03AA31507E1E5754; 0xF4EC7648FFD4CE1F; 0xE045EAF054AC8C1C; 0x88D225821D09357C; 0x43B261DC9AEB4859];
  [0xE55B1E1988BB79BB; 0xA09ED07DC17A359D; 0xB02C2EE2603DEA33; 0x326055CF5B276BC2; 0x19513D8B6C951364; 0x94FE7126000BF47B; 0x028D10DDD54F9567; 0x02B4D5E242940964; 0xB4A155CB28D18DF2; 0xEACC4646186CE508; 0xC49CF4936C824389; 0x27A6C809AE5D3410];
  [0x8BA6EBCD1F0DB188; 0x37D3D73A675A5BE8; 0xF22EDFA315F5585A; 0x2CB67174FF60A17E; 0xCD2C270AC43D6954; 0xDD4A3E576A66CAB2; 0x79FA592469D7036C; 0x221503603D8C2599; 0x59EECDF9390BE1D0; 0xA9422044728CE3F1; 0x82891C667A94F0F4; 0x7B1DF4B73890F436];
  [0xE492F2E0B3B2A224; 0x7C6C9E062B551160; 0x15EB8FE20D7F7B0E; 0x61FCEF2658FC5992; 0x5F2E221807F8F58C; 0xE3555C9FD49409D4; 0xB2AAA88D1FB6A630; 0x68698245D352E03D; 0xDBB15D852A18187A; 0xF3E4AAD386DDACD7; 0x44BAE2810FF6C482; 0x46CF4C473DAF01CF];
  [0x426525ED9EC4E5F9; 0x0E5EDA0116903303; 0x72B1A7F2CBE5CADC; 0x29387BCD14EB5F40; 0x213C6EA7F1498140; 0x7C1E7EF8392B4854; 0x2488C38C5629CEBA; 0x1065AAE50D8CC5BB; 0x1C2C4525DF200D57; 0x5C3B2DD6BFCA674A; 0x0A07E7B1E1834030; 0x69A198E64F1CE716];
  [0x9062B2E0D91A78BC; 0x47C9889CC8509667; 0x9DF54A66405070B8; 0x7369E6A92493A1BF; 0xE1014434DCC5CAED; 0x47ED5D963C84FB33; 0x70019576ED86A0E7; 0x25B2697BD267F9E4; 0x9D673FFB13986864; 0x3CA5FBD9415DC7B8; 0xE04ECC3BDF273B5E; 0x1420683DB54E4CD2];
  [0xB478BD1E249DD197; 0x620C35005E58C102; 0xFB02D32FCCBAAC5C; 0x60B63BEBF508A72D; 0x34EEBB6FC1CC5AD0; 0x6A1B0CE99646AC8B; 0xD3B0DA49A66BDE53; 0x31E83B4161D081C1; 0x97E8C7129E062B4F; 0x49E48F4F29320AD8; 0x5BECE14B6F18683F; 0x55CF1EB62D550317];
  [0x5879101065C23D58; 0x8B9D086D5094819C; 0xE2402FA912C55FA7; 0x669A6564570891D4; 0x3076B5E37DF58C52; 0xD73AB9DDE799CC36; 0xBD831CE34913EE20; 0x1A56FBAA62BA0133; 0x943E6B505C9DC9EC; 0x302557BBA77C371A; 0x9873AE5641347651; 0x13C4836799C58A5C];
  [0x423A5D465AB3E1B9; 0xFC13C187C7F13F61; 0x19F83664ECB5B9B6; 0x66F80C93A637B607; 0xC4DCFB6A5D8BD080; 0xDEEBC4EC571A4842; 0xD4B2E883B8E55365; 0x50BDC87DC8E5B827; 0x606D37836EDFE111; 0x32353E15F011ABD9; 0x64B03AC325B73B96; 0x1DD56444725FD5AE];
  [0x8FA47FF83362127D; 0xBC9F6AC471CD7C15; 0x6E71454349220C8B; 0x0E645912219F732E; 0xC297E60008BAC89A; 0x7D4CEA11EAE1C3E0; 0xF3E38BE19FE7977C; 0x3A3A450F63A305CD; 0x078F2F31D8394627; 0x389D3183DE94A510; 0xD1E36C6D17996F80; 0x318C8D9393A9A87B];
  [0xF2745D032AFFFE19; 0x0C9F3C497F24DB66; 0xBC98D3E3BA8598EF; 0x224C7C679A1D5314; 0x5D669E29AB1DD398; 0xFC921658342D9E3B; 0x55851DFDF35973CD; 0x509A41C325950AF6; 0xBDC06EDCA6F925E9; 0x793EF3F4641B1F33; 0x82EC12809D833E89; 0x05BFF02328A11389];
  [0x3632137023CAE00B; 0x544ACF0AD1ACCF59; 0x96741049D21A1C88; 0x780B8CC3FA2A44A7; 0x6881A0DD0DC512E4; 0x4FE70DC844A5FAFE; 0x1F748E6B8F4A5240; 0x576277CDEE01A3EA; 0x1EF38ABC234F305F; 0x9A577FBD1405DE08; 0x5E82A51434E62A0D; 0x5FF418726271B7A1];
  [0x398E080C1789DB9D; 0xA7602025F3E778F5; 0xFA98894C06BD035D; 0x106A03DC25A966BE; 0xE5DB47E813B69540; 0xF35D2A3B432610E1; 0xAC1F26E938781276; 0x29D4DB8CA0A0CB69; 0xD9AD0AAF333353D0; 0x38669DA5ACD309E5; 0x3C57658AC888F7F0; 0x4AB38A51052CBEFA];
  [0xDA7C2B256768D593; 0x98C1C0574422CA13; 0xF1A80BD5CA0ACE1D; 0x29CDD1ADC088A690; 0xD6CFD1EF5FDDC09C; 0xE82B3EFDF7575DCE; 0x25D56B5D201634C2; 0x3041C6BB04ED2B9B; 0x0FF2F2F9D956E148; 0xADE797759F356B2E; 0x1A4698BB5F6C025C; 0x104BBD6814049A7B];
  [0x51F0FD3168F1ED67; 0x2C811DCDD86F3BC2; 0x44DC5C4304D2F2DE; 0x5BE8CC57092A7149; 0xA95D9A5FD67FF163; 0xE92BE69D4CC75681; 0xB7F8024CDE20F257; 0x204F2A20FB072DF5; 0xC8143B3D30EBB079; 0x7589155ABD652E30; 0x653C3C318F6D5C31; 0x2570FB17C279161F];
  [0x3EFA367F2CB61575; 0xF5F96F761CD6026C; 0xE8C7142A65B52562; 0x3DCB65EA53030ACD; 0x192EA9550BB8245A; 0xC8E6FBA88F9050D1; 0x7986EA2D88A4C935; 0x241C5F91DE018668; 0x28D8172940DE6CAA; 0x8FBF2CF022D9733A; 0x16D7FCDD235B01D1; 0x08420EDD5FCDF0E5];
  [0xCDFF20AB8362FA4A; 0x57E118D4E21A3E6E; 0xE3179617FC39E62B; 0x0D9A53EFBC1769FD; 0x0358C34E04F410CE; 0xB6135B5A276E0685; 0x5D9670C7EBB91521; 0x04D654F321DB889C; 0x5E7DC116DDBDB5D5; 0x2954DEB68DA5DD2D; 0x1CB608173334A292; 0x4A7A4F2618991AD7];
  [0xF4A718025FB15F95; 0x3DF65F346B5C1B8F; 0xCDFCF08500E01112; 0x11B50C4CDDD31848; 0x24C3B291AF372A4B; 0x93DA8270718147F2; 0xDD84856486899EF2; 0x4A96314223E0EE33; 0xA6E8274408A4FFD6; 0x738E177E9C1576D9; 0x773348B63D02B3F2; 0x4F4BCE4DCE6BCC51];
  [0xA71FCE5AE2242584; 0x26EA725692F58A9E; 0xD21A09D71CEA3CF4; 0x73FCDD14B71C01E6; 0x30E2616EC49D0B6F; 0xE456718FCAEC2317; 0x48EB409BF26B4FA6; 0x3042CEE561595F37; 0x427E7079449BAC41; 0x855AE36DBCE2310A; 0x4CAE76215F841A7C; 0x389E740C9A9CE1D6];
  [0x64FCB3AE34DCB9CE; 0x97500323E348D0AD; 0x45B3F07D62C6381B; 0x61545379465A6788; 0xC9BD78F6570EAC28; 0xE55B0B3227919CE1; 0x65FC3EABA19B91ED; 0x25C425E5D6263690; 0x3F3E06A6F1D7DE6E; 0x3EF976278E062308; 0x8C14F6264E8A6C77; 0x6539A08915484759];
  [0xE9D21F74C3D2F773; 0xC150544125C46845; 0x624E5CE8F9B99E33; 0x11C5E4AAC5CD186C; 0xDDC4DBD414BB4A19; 0x19B2BC3C98424F8E; 0x48A89FD736CA7169; 0x0F65320EF019BD90; 0xD486D1B1CAFDE0C6; 0x4F3FE6E3163B5181; 0x59A8AF0DFAF2939A; 0x4CABC7BDEC33072A];
  [0x239E9624089C0A2E; 0xC748C4C03AFE4738; 0x17DBED2A764FA12A; 0x639B93F0321C8582; 0xC08F788F3F78D289; 0xFE30A72CA1404D9F; 0xF2778BFCCF65CC9D; 0x7EE498165ACB2021; 0x7BD508E39111A1C3; 0x2B2B90D480907489; 0xE7D2AEC2AE72FD19; 0x0EDF493C85B602A6];
  [0xAECC8158599B5A68; 0xEA574F0FEBADE20E; 0x4FE41D7422B67F07; 0x403B92E3019D4FB4; 0x6767C4D284764113; 0xA090403FF7F5F835; 0x1C8FCFFACAE6BEDE; 0x04C00C54D1DFA369; 0x4DC22F818B465CF8; 0x71A0F35A1480EFF8; 0xAEE8BFAD04C7D657; 0x355BB12AB26176F4];
  [0xA71E64CC7493BBF4; 0xE5BD84D9ECA3B0C3; 0x0A6BC50CFA05E785; 0x0F9B8132182EC312; 0xA301DAC75A8C7318; 0xED90039DB3CEAA11; 0x6F077CBF3BAE3F2D; 0x7518EAF8E052AD8E; 0xA48859C41B7F6C32; 0x0F2D60BCF4383298; 0x1815A929C9B1D1D9; 0x47C3871BBB1755C4];
  [0x5144539771EC4F48; 0xF805B17DC98C5D6E; 0xF762C11A47C3C66B; 0xB89B85764699DC; 0xFBE65D50C85066B0; 0x62ECC4B0B3A299B0; 0xE53754EA441AE8E0; 0x08FEA02CE8D48D5F; 0x824DDD7668DEEAD0; 0xC86445204B685D23; 0xB514CFCD5D89D665; 0x473829A74F75D537];
  [0x82D2DA754679C418; 0xE63BD7D8B2618DF0; 0x355EEF24AC47EB0A; 0x2078684C4833C6B4; 0x23D9533AAD3902C9; 0x64C2DDCEEF03588F; 0x15257390CFE12FB4; 0x6C668B4D44E4D390; 0x3B48CF217A78820C; 0xF76A0AB281273E97; 0xA96C65A78C8EED7B; 0x7411A6054F8A433F];
  [0x4D659D32B99DC86D; 0x044CDC75603AF115; 0xB34C712CDCC2E488; 0x7C136574FB8134FF; 0x579AE53D18B175B4; 0x68713159F392A102; 0x8455ECBA1EEF35F5; 0x1EC9A872458C398F; 0xB8E6A4D400A2509B; 0x9B81D7020BC882B4; 0x57E7CC9BF1957561; 0x3ADD88A5C7CD6460];
  [0xAB895770B635DCF2; 0x02DFEF6CF66C1FBC; 0x85530268BEB6D187; 0x249929FCCC879E74; 0x85C298D459393046; 0x8F7E35985FF659EC; 0x1D2CA22AF2F66E3A; 0x61BA1131A406A720; 0xA3D0A0F116959029; 0x023B6B6CBA7EBD89; 0x7BF15A3E26783307; 0x5620310CBBD8ECE7];
  [0x528993434934D643; 0xB9DBF806A51222F5; 0x8F6D878FC3F41C22; 0x37676A2A4D9D9730; 0x6646B5F477E285D6; 0x40E8FF676C8F6193; 0xA6EC7311ABB594DD; 0x7EC846F3658CEC4D; 0x9B5E8F3F1DA22EC7; 0x130F1D776C01CD13; 0x214C8FCFA2989FB8; 0x6DAAF723399B9DD5];
  [0x5F3A7562EB3DBE47; 0xF7EA38548EBDA0B8; 0xC3E53145747299; 0x1304E9E71627D551; 0x583B04BFACAD8EA2; 0x29B743E8148BE884; 0x2B1E583B0810C5DB; 0x2B5449E58EB3BBAA; 0x789814D26ADC9CFE; 0x3C1BAB3F8B48DD0B; 0xDA0FE1FFF979C60A; 0x4468DE2D7C2DD693];
  [0x51BB355E9419469E; 0x33E6DC4C23DDC754; 0x93A5B6D6447F9962; 0x6CCE7C6FFB44BD63; 0x4B9AD8C6F86307CE; 0x21113531435D0C28; 0xD4A866C5657A772C; 0x5DA6427E63247352; 0x1A94C688DEAC22CA; 0xB9066EF7BBAE1FF8; 0x88AD8C388D59580F; 0x58F29ABFE79F2CA8];
  [0xE90ECFAB8DE73E68; 0x54036F9F377E76A5; 0xF0495B0BBE015982; 0x577629C4A7F41E36; 0x4B5A64BF710ECDF6; 0xB14CE538462C293C; 0x3643D056D50B3AB9; 0x6AF93724185B4870; 0x3220024509C6A888; 0xD2E036134B558973; 0x83E236233C33289F; 0x701F25BB0CAEC18F];
  [0xC3A8B0F8E4616CED; 0xF700660E9E25A87D; 0x61E3061FF4BCA59C; 0x2E0C92BFBDC40BE9; 0x9D18F6D97CBEC113; 0x844A06E674BFDBE4; 0x20F5B522AC4E60D6; 0x720A5BC050955E51; 0x0C3F09439B805A35; 0xE84E8B376242ABFC; 0x691417F35C229346; 0x0E9B9CBB144EF0EC];
  [0xFBBAD48FFB5720AD; 0xEE81916BDBF90D0E; 0xD4813152635543BF; 0x221104EB3F337BD8; 0x8DEE9BD55DB1BEEE; 0xC9C3AB370A723FB9; 0x44A8F1BF1C68D791; 0x366D44191CFD3CDE; 0x9E3C1743F2BC8C14; 0x2EDA26FCB5856C3B; 0xCCB82F0E68A7FB97; 0x4167A4E6BC593244];
  [0x643B9D2876F62700; 0x5D1D9D400E7668EB; 0x1B4B430321FC0684; 0x7938BB7E2255246A; 0xC2BE2665F8CE8FEE; 0xE967FF14E880D62C; 0xF12E6E7E2F364EEE; 0x34B33370CB7ED2F6; 0xCDC591EE8681D6CC; 0xCE02109CED85A753; 0xED7485C158808883; 0x1176FC6E2DFE65E4];
  [0xB4AF6CD05B9C619B; 0x2DDFC9F4B2A58480; 0x3D4FA502EBE94DC4; 0x08FC3A4C677D5F34; 0xDB90E28949770EB8; 0x98FBCC2AACF440A3; 0x21354FFEDED7879B; 0x1F6A3E54F26906B6; 0x60A4C199D30734EA; 0x40C085B631165CD6; 0xE2333E23F7598295; 0x4F2FAD0116B900D1];
  [0x44BEB24194AE4E54; 0x5F541C511857EF6C; 0xA61E6B2D368D0498; 0x445484A4972EF7AB; 0x962CD91DB73BB638; 0xE60577AAFC129C08; 0x6F619B39F3B61689; 0x3451995F2944EE81; 0x9152FCD09FEA7D7C; 0x4A816C94B0935CF6; 0x258E9AAA47285C40; 0x10B89CA6042893B7];
  [0x3D5947499718289C; 0x12EBF8C524533F26; 0x0262BFCB14C3EF15; 0x20B878D577B7518E; 0x753941BE5A45F06E; 0xD07CAEED6D9C5F65; 0x11776B9C72FF51B6; 0x17D2D1D9EF0D4DA9; 0x27F2AF18073F3E6A; 0xFD3FE519D7521069; 0x22E3B72C3CA60022; 0x72214F63CC65C6A7];
  [0xB4E37F405307A693; 0xABA714D72F336795; 0xD6FBD0A773761099; 0x5FDF48C58171CBC9; 0x1D9DB7B9F43B29C9; 0xD605824A4F518F75; 0xF2C072BD312F9DC4; 0x1F24AC855A1545B0; 0x24D608328E9505AA; 0x4748C1D10C1420EE; 0xC7FFE45C06FB25A2; 0xBA739E2AE395E6];
  [0x592E98DE5C8790D6; 0xE5BFB7D345C2A2DF; 0x115A3B60F9B49922; 0x03283A3E67AD78F3; 0xAE4426F5EA88BB26; 0x360679D984973BFB; 0x5C9F030C26694E50; 0x72297DE7D518D226; 0x48241DC7BE0CB939; 0x32F19B4D8B633080; 0xD3DFC90D02289308; 0x05E1296846271945];
  [0xBA82EEB32D9C495A; 0xCEEFC8FCF12BB97C; 0xB02DABAE93B5D1E0; 0x39C00C9C13698D9B; 0xADBFBBC8242C4550; 0xBCC80CECD03081D9; 0x843566A6F5C8DF92; 0x78CF25D38258CE4C; 0x15AE6B8E31489D68; 0xAA851CAB9C2BF087; 0xC9A75A97F04EFA05; 0x6B52076B3FF832];
  [0x29E0CFE19D95781C; 0xB681DF18966310E2; 0x57DF39D370516B39; 0x4D57E3443BC76122; 0xF5CB7E16B9CE082D; 0x3407F14C417ABC29; 0xD4B36BCE2BF4A7AB; 0x7DE2E9561A9F75CE; 0xDE70D4F4B6A55ECB; 0x4801527F5D85DB99; 0xDBC9C440D3EE9A81; 0x6B2A90AF1A6029ED];
  [0x6923F4FC9AE61E97; 0x5735281DE03F5FD1; 0xA764AE43E6EDD12D; 0x5FD8F4E9D12D3E4A; 0x77EBF3245BB2D80A; 0xD8301B472FB9079B; 0xC647E6F24CEE7333; 0x465812C8276C2109; 0x4D43BEB22A1062D9; 0x7065FB753831DC16; 0x180D4A7BDE2968D7; 0x05B32C2B1CB16790];
  [0xC8C05ECCD24DA8FD; 0xA1CF1AAC05DFEF83; 0xDBBEEFF27DF9CD61; 0x3B5556A37B471E99; 0xF7FCA42C7AD58195; 0x3214286E4333F3CC; 0xB6C29D0D340B979D; 0x31771A48567307E1; 0x32B0C524E14DD482; 0xEDB351541A2BA4B6; 0xA3D16048282B5AF3; 0x4FC079D27A7336EB];
  [0x51C938B089BF2F7F; 0x2497BD6502DFE9A7; 0xFFFFC09C7880E453; 0x124567CECAF98E92; 0xDC348B440C86C50D; 0x1337CBC9CC94E651; 0x6422F74D643E3CB9; 0x241170C2BAE3CD08; 0x3FF9AB860AC473B4; 0xF0911DEE0113E435; 0x4AE75060EBC6C4AF; 0x3F8612966C87000D];
  [0x559A0CC9782A0DDE; 0x551DCDB2EA718385; 0x7F62865B31EF238C; 0x504AA7767973613D; 0x9C18FCFA36048D13; 0x29159DB373899DDD; 0xDC9F350B9F92D0AA; 0x26F57EEE878A19D4; 0x0CAB2CD55687EFB1; 0x5180D162247AF17B; 0x85C15A344F5A2467; 0x4041943D9DBA3069];
  [0xC3C0EEBA43EBCC96; 0x8D749C9C26EA9CAF; 0xD9FA95EE1C77CCC6; 0x1420A1D97684340F; 0x4B217743A26CAADD; 0x47A6B424648AB7CE; 0xCB1D4F7A03FBC9E3; 0x12D931429800D019; 0xC67799D337594F; 0x5E3C5140B23AA47B; 0x44182854E35FF395; 0x1B4F92314359A012];
  [0x3E5C109D89150951; 0x39CEFA912DE9696A; 0x20EAE43F975F3020; 0x239B572A7F132DAE; 0x33CF3030A49866B1; 0x251F73D2215F4859; 0xAB82AA4051DEF4F6; 0x5FF191D56F9A23F6; 0x819ED433AC2D9068; 0x2883AB795FC98523; 0xEF4572805593EB3D; 0x020C526A758F36CB];
  [0x779834F89ED8DBBC; 0xC8F2AAF9DC7CA46C; 0xA9524CDCA3E1B074; 0x02AACC4615313877; 0xE931EF59F042CC89; 0x2C589C9D8E124BB6; 0xADC8E18AAEC75997; 0x452CFE0A5602C50C; 0x86A0F7A0647877DF; 0xBBC464270E607C9F; 0xAB17EA25F1FB11C9; 0x4CFB7D7B304B877B];
  [0x72B43D6CB89B75FE; 0x54C694D99C6ADC80; 0xB8C3AA373EE34C9F; 0x14B4622B39075364; 0xE28699C29789EF12; 0x2B6ECD71DF57190D; 0xC343C857ECC970D0; 0x5B1D4CBC434D3AC5; 0xB6FB2615CC0A9F26; 0x3A4F0E2BB88DCCE5; 0x1301498B3369A705; 0x2F98F71258592DD1];
  [0x0C94A74CB50F9E56; 0x5B1FF4A98E8E1320; 0x9A2ACC2182300F67; 0x3A6AE249D806AAF9; 0x2E12AE444F54A701; 0xFCFE3EF0A9CBD7DE; 0xCEBF890D75835DE0; 0x1D8062E9E7614554; 0x657ADA85A9907C5A; 0x1A0EA8B591B90F62; 0x8D0E1DFBDF34B4E9; 0x298B8CE8AEF25FF3];
  [0x2A927953EFF70CB2; 0x4B89C92A79157076; 0x9418457A30A7CF6A; 0x34B8A8404D5CE485; 0x837A72EA0A2165DE; 0x3FAB07B40BCF79F6; 0x521636C77738AE70; 0x6BA6271803A7D7DC; 0xC26EECB583693335; 0xD5A813DF63B5FEFD; 0xA293AA9AA4B22573; 0x71D62BDD465E1C6A];
  [0x6533CC28D378DF80; 0xF6DB43790A0FA4B4; 0xE3645FF9F701DA5A; 0x74D5F317F3172BA4; 0xCD2DB5DAB1F75EF5; 0xD77F95CF16B065F5; 0x14571FEA3F49F085; 0x1C333621262B2B3D; 0xA86FE55467D9CA81; 0x398B7C752B298C37; 0xDA6D0892E3AC623B; 0x4AEBCC4547E9D98C];
  [0x12F0071B276D01C9; 0xE7B8BAC586C48C70; 0x5308129B71D6FBA9; 0x5D88FBF95A3DB792; 0x0B408D9E7354B610; 0x806B32535BA85B6E; 0xDBE63A034A58A207; 0x173BD9DDC9A1DF2C; 0x2B500F1EFE5872DF; 0x58D6582ED43918C1; 0xE6ED278EC9673AE0; 0x06E1CD13B19EA319];
  [0x40D0AD516F166F23; 0x118E32931FAB6ABE; 0x3FE35E14A04D088E; 0x3080603526E16266; 0x472BAF629E5B0353; 0x3BAA0B90278D0447; 0x0C785F469643BF27; 0x7F3A6A1A8D837B13; 0xF7E644395D3D800B; 0x95A8D555C901EDF6; 0x68CD7830592C6339; 0x30D0FDED2E51307E];
  [0xE0594D1AF21233B3; 0x1BDBE78EF0CC4D9C; 0x6965187F8F499A77; 0x0A9214202C099868; 0x9CB4971E68B84750; 0xA09572296664BBCF; 0x5C8DE72672FA412B; 0x4615084351C589D9; 0xBC9019C0AEB9A02E; 0x55C7110D16034CAE; 0x0E6DF501659932EC; 0x3BCA0D2895CA5DFE];
  [0x40F031BC3C5D62A4; 0x19FC8B3ECFF07A60; 0x98183DA2130FB545; 0x5631DEDDAE8F13CD; 0x9C688EB69ECC01BF; 0xF0BC83ADA644896F; 0xCA2D955F5F7A9FE2; 0x4EA8B4038DF28241; 0x2AED460AF1CAD202; 0x46305305A48CEE83; 0x9121774549F11A5F; 0x24CE0930542CA463];
  [0x1FE890F5FD06C106; 0xB5C468355D8810F2; 0x827808FE6E8CAF3E; 0x41D4E3C28A06D74B; 0x3FCFA155FDF30B85; 0xD2F7168E36372EA4; 0xB2E064DE6492F844; 0x549928A7324F4280; 0xF26E32A763EE1A2E; 0xAE91E4B7D25FFDEA; 0xBC3BD33BD17F4D69; 0x491B66DEC0DCFF6A];
  [0x98F5B13DC7EA32A7; 0xE3D5F8CC7E16DB98; 0xAC0ABF52CBF8D947; 0x08F338D0C85EE4AC; 0x75F04A8ED0DA64A1; 0xED222CAF67E2284B; 0x8234A3791F7B7BA4; 0x4CF6B8B0B7018B67; 0xC383A821991A73BD; 0xAB27BC01DF320C7A; 0xC13D331B84777063; 0x530D4A82EB078A99];
  [0x4C3630E1F94825; 0x7E2D78268CAB535A; 0xC7482323CC84FF8B; 0x65EA753F101770B9; 0x6D6973456C9ABF9E; 0x257FB2FC4900A880; 0x2BACF412C8CFB850; 0x0DB3E7E00CBFBD5B; 0x3D66FC3EE2096363; 0x81D62C7F61B5CB6B; 0x0FBE044213443B1A; 0x02A4EC1921E1A1DB];
  [0x5CE6259A3B24B8A2; 0xB8577ACC45AFA0B8; 0xCCCBE6E88BA07037; 0x3D143C51127809BF; 0xF5C86162F1CF795F; 0x118C861926EE57F2; 0x172124851C063578; 0x36D12B5DEC067FCF; 0x126D279179154557; 0xD5E48F5CFC783A0A; 0x36BDB6E8DF179BAC; 0x2EF517885BA82859];
  [0x4637974E8C58AEDC; 0xB9EF22FBABF041A4; 0xE185D956E980718A; 0x2F1B78FAB143A8A6; 0x96EEBFFB305B2F51; 0xD3F938AD889596B8; 0xF0F52DC746D5DD25; 0x57968290BB3A0095; 0xF71AB8430A20E101; 0xF393658D24F0EC47; 0xCF7509A86EE2EED1; 0x7DC43E35DC2AA3E1];
  [0x85966665887DD9C3; 0xC90F9B314BB05355; 0xC6E08DF8EF2079B1; 0x7EF72016758CC12F; 0x5A782A5C273E9718; 0x3576C6995E4EFD94; 0x0F2ED8051F237D3E; 0x044FB81D82D50A99; 0xC1DF18C5A907E3D9; 0x57B3371DCE4C6359; 0xCA704534B201BB49; 0x7F79823F9C30DD2E];
  [0x8334D239A3B513E8; 0xC13670D4B91FA8D8; 0x12B54136F590BD33; 0x0A4E0373D784D9B4; 0x6A9C1FF068F587BA; 0x0827894E0050C8DE; 0x3CBF99557DED5BE7; 0x64A9B0431C06D6F0; 0x2EB3D6A15B7D2919; 0xB0B4F6A0D53A8235; 0x7156CE4389A45D47; 0x071A7D0ACE18346C];
  [0xD3072DAAC887BA0B; 0x01262905BFA562EE; 0xCF543002C0EF768B; 0x2C3BCC7146EA7E9C; 0xCC0C355220E14431; 0x0D65950709B15141; 0x9AF5621B209D5F36; 0x7C69BCF7617755D3; 0x07F0D7EB04E8295F; 0x10DB18252F50F37D; 0xE951A9A3171798D7; 0x6F5A9A7322ACA51D];
  [0x8BA1000C2F41C6C5; 0xC49F79C10CFEFB9B; 0x4EFA47703CC51C9F; 0x494E21A2E147AFCA; 0xE729D4EBA3D944BE; 0x8D9E09408078AF9E; 0x4525567A47869C03; 0x02AB9680EE8D3B24; 0xEFA48A85DDE50D9A; 0x219A224E0FB9A249; 0xFA091F1DD91EF6D9; 0x6B5D76CBEA46BB34];
  [0x8857556CEC0CD994; 0x6472DC6F5CD01DBA; 0xAF0169148F42B477; 0x0AE333F685277354; 0xE0F941171E782522; 0xF1E6AE74036936D3; 0x408B3EA2D0FCC746; 0x16FB869C03DD313E; 0x288E199733B60962; 0x24FC72B4D8ABE133; 0x4811F7ED0991D03E; 0x3F81E38B8F70D075];
  [0x7F910FCC7ED9AFFE; 0x545CB8A12465874B; 0xA8397ED24B0C4704; 0x50510FC104F50993; 0x0ADB7F355F17C824; 0x74B923C3D74299A4; 0xD57C3E8BCBF8EAF7; 0x0AD3E2D34CDEDC3D; 0x6F0C0FC5336E249D; 0x745EDE19C331CFD9; 0xF2D6FD0009EEFE1C; 0x127C158BF0FA1EBE];
  [0xF6197C422E9879A2; 0xA44ADDD452CA3647; 0x9B413FC14B4EACCB; 0x354EF87D07EF4F68; 0xDEA28FC4AE51B974; 0x1D9973D3744DFE96; 0x6240680B873848A8; 0x4ED82479D167DF95; 0xFEE3B52260C5D975; 0x50352EFCEB41B0B8; 0x8808AC30A9F6653C; 0x302D92D20539236D];
  [0x7813C1A2BCA4283D; 0xED62F091A1863DD9; 0xAEC7BCB8C268FA86; 0x10E5D3B76F1CAE4C; 0x2DBC6FB6E4E0F177; 0x04E1BF29A4BD6A93; 0x5E1966D4787AF6E8; 0x0EDC5F5EB426D060; 0x5453BFD653DA8E67; 0xE9DC1EEC24A9F641; 0xBF87263B03578A23; 0x45B46C51361CBA72];
  [0xA9402ABF314F7FA1; 0xE257F1DC8E8CF450; 0x1DBBD54B23A8BE84; 0x2177BFA36DCB713B; 0xCE9D4DDD8A7FE3E4; 0xAB13645676620E30; 0x4B594F7BB30E9958; 0x5C1C0AEF321229DF; 0x37081BBCFA79DB8F; 0x6048811EC25F59B3; 0x087A76659C832487; 0x4AE619387D8AB5BB];
  [0x8DDBF6AA5344A32E; 0x7D88EAB4B41B4078; 0x5EB0EB974A130D60; 0x1A00D91B17BF3E03; 0x61117E44985BFB83; 0xFCE0462A71963136; 0x83AC3448D425904B; 0x75685ABE5BA43D64; 0x6E960933EB61F2B2; 0x543D0FA8C9FF4952; 0xDF7275107AF66569; 0x135529B623B0E6AA];
  [0x18F0DBD7ADD1D518; 0x979F7888CFC11F11; 0x8732E1F07114759B; 0x79B5B81A65CA3A01; 0xF5C716BCE22E83FE; 0xB42BEB19E80985C1; 0xEC9DA63714254AAE; 0x5972EA051590A613; 0x0FD4AC20DC8F7811; 0x9A9AD294AC4D4FA8; 0xC01B2D64B3360434; 0x4F7E9C95905F3BDB];
  [0x62674BBC5781302E; 0xD8520F3989ADDC0F; 0x8C2999AE53FBD9C6; 0x31993AD92E638E4C; 0x71C8443D355299FE; 0x8BCD3B1CDBEBEAD7; 0x8092499EF1A49466; 0x1942EEC4A144ADC8; 0x7DAC5319AE234992; 0x2C1B3D910CEA3E92; 0x553CE494253C1122; 0x2A0A65314EF9CA75];
  [0x2DB7937FF7F927C2; 0xDB741F0617D0A635; 0x5982F3A21155AF76; 0x4CF6E218647C2DED; 0xCF361ACD3C1C793A; 0x2F9EBCAC5A35BC3B; 0x60E860E9A8CDA6AB; 0x055DC39B6DEA1A13; 0xB119227CC28D5BB6; 0x07E24EBC774DFFAB; 0xA83C78CEE4A32C89; 0x121A307710AA24B6];
  [0xE4DB5D5E9F034A97; 0xE153FC093034BC2D; 0x460546919551D3B1; 0x333FC76C7A40E52D; 0xD659713EC77483C9; 0x88BFE077B82B96AF; 0x289E28231097BCD3; 0x527BB94A6CED3A9B; 0x563D992A995B482E; 0x3405D07C6E383801; 0x485035DE2F64D8E5; 0x6B89069B20A7A9F7];
  [0x812AA0416270220D; 0x995A89FAF9245B4E; 0xFFADC4CE5072EF05; 0x23BC2103AA73EB73; 0x4082FA8CB5C7DB77; 0x068686F8C734C155; 0x29E6C8D9F6E7A57E; 0x0473D308A7639BCF; 0xCAEE792603589E05; 0x2B4B421246DCC492; 0x02A1EF74E601A94F; 0x102F73BFDE04341A];
  [0xEB18B9AB7F5745C6; 0x023A8AEE5787C690; 0xB72712DA2DF7AFA9; 0x36597D25EA5C013D; 0xA2B4DAE0B5511C9A; 0x7AC860292BFFFF06; 0x981F375DF5504234; 0x3F6BD725DA4EA12D; 0x734D8D7B106058AC; 0xD940579E6FC6905F; 0x6466F8F99202932D; 0x7B7ECC19DA60D6D0];
  [0x78C2373C695C690D; 0xDD252E660642906E; 0x951D44444AE12BD2; 0x4235AD7601743956; 0x6DAE4A51A77CFA9B; 0x82263654E7A38650; 0x09BBFFCD8F2D82DB; 0x03BEDC661BF5CABA; 0x6258CB0D078975F5; 0x492942549189F298; 0xA0CAB423E2E36EE4; 0x0E7CE2B0CDF066A1];
  [0xC494643AC48C85A3; 0xFD361DF43C6139AD; 0x09DB17DD3AE94D48; 0x666E0A5D8FB4674A; 0xFEA6FEDFD94B70F9; 0xF130C051C1FCBA2D; 0x4882D47E7F2FAB89; 0x615256138AECEEB5; 0x2ABBF64E4870CB0D; 0xCD65BCF0AA458B6B; 0x9ABE4EBA75E8985D; 0x7F0BC810D514DEE4];
  [0xB9006BA426F4136F; 0x8D67369E57E03035; 0xCBC8DFD94F463C28; 0x0D1F8DBCF8EEDBF5; 0x83AC9DAD737213A0; 0x9FF6F8BA2EF72E98; 0x311E2EDD43EC6957; 0x1D3A907DDEC5AB75; 0xBA1693313ED081DC; 0x29329FAD851B3480; 0x0128013C030321CB; 0x011B44A31BFDE3];
  [0x3FDFA06C3FC66C0C; 0x5D40E38E4DD60DD2; 0x7AE38B38268E4D71; 0x3AC48D916E8357E1; 0x16561F696A0AA75C; 0xC1BF725C5852BD6A; 0x11A8DD7F9A7966AD; 0x63D988A2D2851026; 0x120753AFBD232E; 0xE92BCEB8FDD8F683; 0xF81669B384E72B91; 0x33FAD52B2368A066];
  [0x540649C6C5E41E16; 0x0AF86430333F7735; 0xB2ACFCD2F305E746; 0x16C0F429A256DCA7; 0x8D2CC8D0C422CFE8; 0x072B4F7B05A13ACB; 0xA3FEB6E6ECF6A56F; 0x3CC355CCB90A71E2; 0xE9B69443903E9131; 0xB8A494CB7A5637CE; 0xC87CD1A4BABA9244; 0x631EAF426BAE7568];
  [0xB3E90410DA66FE9F; 0x85DD4B526C16E5A6; 0xBC3D97611EF9BF83; 0x5599648B1EA919B5; 0x47D975B9A3700DE8; 0x7280C5FBE2F80552; 0x53658F2732E45DE1; 0x431F2C7F665F80B5; 0xD6026344858F7B19; 0x14AB352FA1EA514A; 0x8900441A2090A9D7; 0x7B04715F91253B26];
  [0x83EDBD28ACF6AE43; 0x86357C8B7D5C7AB4; 0xC0404769B7EB2C44; 0x59B37BF5C2F6583F; 0xB376C280C4E6BAC6; 0x970ED3DD6D1D9B0B; 0xB09A9558450BF944; 0x48D0ACFA57CDE223; 0xB60F26E47DABE671; 0xF1D1A197622F3A37; 0x4208CE7EE9960394; 0x16234191336D3BDB];
  [0xB9E499DEF6267FF6; 0x7772CA7B742C0843; 0x23A0153FE9A4F2B1; 0x2CDFDFECD5D05006; 0xDD499CD61FF38640; 0x29CD9BC3063625A0; 0x51E2D8023DD73DC3; 0x4A25707A203B9231; 0x2AB7668A53F6ED6A; 0x304242581DD170A1; 0x4000144C3AE20161; 0x5721896D248E49FC];
  [0x0B6E5517FD181BAE; 0x9022629F2BB963B4; 0x5509BCE932064625; 0x578EDD74F63C13DA; 0x285D5091A1D0DA4E; 0x4BAA6FA7B5FE3E08; 0x63E5177CE19393B3; 0x03C935AFC4B030FD; 0x997276C6492B0C3D; 0x47CCC2C4DFE205FC; 0xDCD29B84DD623A3C; 0x3EC2AB590288C7A2];
  [0xA1A0D27BE4D87BB9; 0xA98B4DEB61391AED; 0x99A0DDD073CB9B83; 0x2DD5C25A200FCACE; 0xA7213A09AE32D1CB; 0x0F2B87DF40F5C2D5; 0x0BAEA4C6E81EAB29; 0x0E1BF66C6ADBAC5E; 0xE2ABD5E9792C887E; 0x1A020018CB926D5D; 0xBFBA69CDBAAE5F1E; 0x730548B35AE88F5F];
  [0xC43551A3CBA8B8EE; 0x65A26F1DB2115F16; 0x760F4F52AB8C3850; 0x3043443B411DB8CA; 0x805B094BA1D6E334; 0xBF3EF17709353F19; 0x423F06CB0622702B; 0x585A2277D87845DD; 0xA18A5F8233D48962; 0x6698C4B5EC78257F; 0xA78E6FA5373E41FF; 0x7656278950EF981F];
  [0x38C3CF59D51FC8C0; 0x9BEDD2FD0506B6F2; 0x26BF109FAB570E8F; 0x3F4160A8C1B846A6; 0xE17073A3EA86CF9D; 0x3A8CFBB707155FDC; 0x4853E7FC31838A8E; 0x28BBF484B613F616; 0xF2612F5C6F136C7C; 0xAFEAD107F6DD11BE; 0x527E9AD213DE6F33; 0x1E79CB358188F75D];
  [0x013436C3EEF7E3F1; 0x828B6A7FFE9E10F8; 0x7FF908E5BCF9DEFC; 0x65D7951B3A3B3831; 0x77E953D8F5E08181; 0x84A50C44299DDED9; 0xDC6C2D0C864525E5; 0x478AB52D39D1F2F4; 0x66A6A4D39252D159; 0xE5DDE1BC871AC807; 0xB82C6B40A6C1C96F; 0x16D87A411A212214];
  [0xB3BD7E5A42066215; 0x879BE3CD0C5A24C1; 0x57C05DB1D6F994B7; 0x28F87C8165F38CA6; 0xFBA4D5E2D54E0583; 0xE21FAFD72EBD99FA; 0x497AC2736EE9778F; 0x1F990B577A5A6DDE; 0xA3344EAD1BE8F7D6; 0x7D1E50EBACEA798F; 0x77C6569E520DE052; 0x45882FE1534D6D3E];
  [0x6669345D757983D6; 0x62B6ED1117AA11A6; 0x7DDD1857985E128F; 0x688FE5B8F626F6DD; 0xD8AC9929943C6FE4; 0xB5F9F161A38392A2; 0x2699DB13BEC89AF3; 0x7DCF843CE405F074; 0x6C90D6484A4732C0; 0xD52143FDCA563299; 0xB3BE28C3915DC6E1; 0x6739687E7327191B];
  [0xEF782014385675A6; 0xA2649F30AAFDA9E8; 0x4CD1EB505CDFA8CB; 0x46115ABA1D4DC0B3; 0xA66DCC9DC80C1AC0; 0x97A05CF41B38A436; 0xA7EBF3BE95DBD7C6; 0x7DA0B8F68D7E7DAB; 0xD40F1953C3B5DA76; 0x1DAC6F7321119E9B; 0x03CC6021FEB25960; 0x5A5F887E83674B4B];
  [0x8F6301CF70A13D11; 0xCFCEB815350DD0C4; 0xF70297D4A4BCA47E; 0x3669B656E44D1434; 0x9E9628D3A0A643B9; 0xB5C3CB00E6C32064; 0x9B5302897C2DEC32; 0x43E37AE2D5D1C70C; 0x387E3F06EDA6E133; 0x67301D5199A13AC0; 0xBD5AD8F836263811; 0x6A21E6CD4FD5E9BE];
  [0xF1C6170A3046E65F; 0x58712A2A00D23524; 0x69DBBD3C8C82B755; 0x586BF9F1A195FF57; 0xEF4129126699B2E3; 0x71D30847708D1301; 0x325432D01182B0BD; 0x45371B07001E8B36; 0xA6DB088D5EF8790B; 0x5278F0DC610937E5; 0xAC0349D261A16EB8; 0x0EAFB03790E52179];
  [0x960555C13748042F; 0x219A41E6820BAA11; 0x1C81F73873486D0C; 0x309ACC675A02C661; 0x5140805E0F75AE1D; 0xEC02FBE32662CC30; 0x2CEBDF1EEA92396D; 0x44AE3344C5435BB3; 0x9CF289B9BBA543EE; 0xF3760E9D5AC97142; 0x1D82E5C64F9360AA; 0x62D5221B7F94678F];
  [0x524C299C18D0936D; 0xC86BB56C8A0C1A0C; 0xA375052EDB4A8631; 0x5C0EFDE4BC754562; 0x7585D4263AF77A3C; 0xDFAE7B11FEE9144D; 0xA506708059F7193D; 0x14F29A5383922037; 0xDF717EDC25B2D7F5; 0x21F970DB99B53040; 0xDA9234B7C3ED4C62; 0x5E72365C7BEE093E];
  [0x575BFC074571217F; 0x3779675D0694D95B; 0x9A0A37BBF4191E33; 0x77F1104C47B4EABC; 0x7D9339062F08B33E; 0x5B9659E5DF9F32BE; 0xACFF3DAD1F9EBDFD; 0x70B20555CB7349B7; 0xBE5113C555112C4C; 0x6688423A9A881FCD; 0x446677855E503B47; 0x0E34398F4A06404A];
  [0xB67D22D93ECEBDE8; 0x09B3E84127822F07; 0x743FA61FB05B6D8D; 0x5E5405368A362372; 0x18930B093E4B1928; 0x7DE3E10E73F3F640; 0xF43217DA73395D6F; 0x6F8ADED6CA379C3E; 0xE340123DFDB7B29A; 0x487B97E1A21AB291; 0xF9967D02FDE6949E; 0x780DE72EC8D3DE97];
  [0x0AE28545089AE7BC; 0x388DDECF1C7F4D06; 0x38AC15510A4811B8; 0x0EB28BF671928CE4; 0x671FEAF300F42772; 0x8F72EB2A2A8C41AA; 0x29A17FD797373292; 0x1DEFC6AD32B587A6; 0xAF5BBE1AEF5195A7; 0x148C1277917B15ED; 0x2991F7FB7AE5DA2E; 0x467D201BF8DD2867];
  [0x95FE919A74EF4FAD; 0x3A827BECF6A308A2; 0x964E01D309A47B01; 0x71C43C4F5BA3C797; 0xBC1EF4BD567AE7A9; 0x3F624CB2D64498BD; 0xE41064D22C1F4EC8; 0x2EF9C5A5BA384001; 0xB6FD6DF6FA9E74CD; 0xF18278BCE4AF267A; 0x8255B3D0F1EF990E; 0x5A758CA390C5F293];
  [0xA2B72710D9462495; 0x3AA8C6D2D57D5003; 0xE3D400BFA0B487CA; 0x2DBAE244B3EB72EC; 0x8CE0918B1D61DC94; 0x8DED36469A813066; 0xD4E6A829AFE8AAD3; 0x0A738027F639D43F; 0x980F4A2F57FFE1CC; 0x670D0DE1839843; 0x105C3F4A49FB15FD; 0x2698CA635126A69C];
  [0xE765318832B0BA78; 0x381831F7925CFF8B; 0x08A81B91A0291FCC; 0x1FB43DCC49CAEB07; 0x2E3D702F5E3DD90E; 0x9E3F0918E4D25386; 0x5E773EF6024DA96A; 0x3C004B0C4AFA3332; 0x9AA946AC06F4B82B; 0x1CA284A5A806C4F3; 0x3ED3265FC6CD4787; 0x6B43FD01CD1FD217];
  [0xC7A75D4B4697C544; 0x15FDF848DF0FFFBF; 0x2868B9EBAA46785A; 0x5A68D7105B52F714; 0xB5C742583E760EF3; 0x75DC52B9EE0AB990; 0xBF1427C2072B923F; 0x73420B2D6FF0D9F0; 0xAF2CF6CB9E851E06; 0x8F593913C62238C4; 0xDA8AB89699FBF373; 0x3DB5632FEA34BC9E];
  [0xF46EEE2BF75DD9D8; 0x0D17B1F6396759A5; 0x1BF2D131499E7273; 0x04321ADF49D75F13; 0x2E4990B1829825D5; 0xEDEAEB873E9A8991; 0xEEF03D394C704AF8; 0x59197EA495DF2B0E; 0x04E16019E4E55AAE; 0xE77B437A7E2F92E9; 0xC7CE2DC16F159AA4; 0x45EAFDC1F4D70CC0];
  [0x698401858045D72B; 0x4C22FAA2CF2F0651; 0x941A36656B222DC6; 0x5A5EEBC80362DADE; 0xB60E4624CFCCB1ED; 0x59DBC292BD5C0395; 0x31A09D1DDC0481C9; 0x3F73CEEA5D56D940; 0xB7A7BFD10A4E8DC6; 0xBE57007E44C9B339; 0x60C1207F1557AEFA; 0x26058891266218DB];
  [0x59F704A68360FF04; 0xC3D93FDE7661E6F4; 0x831B2A7312873551; 0x54AD0C2E4E615D57; 0x4C818E3CC676E542; 0x5E422C9303CECCAD; 0xEC07CCCAB4129F08; 0x0DEDFA10B24443B8; 0xEE3B67D5B82B522A; 0x36F163469FA5C1EB; 0xA5B4D2F26EC19FD3; 0x62ECB2BAA77A9408];
  [0xE5ED795261152B3D; 0x4962357D0EDDD7D1; 0x7482C8D0B96B4C71; 0x2E59F919A966D8BE; 0x92072836AFB62874; 0x5FCD5E8579E104A5; 0x5AAD01ADC630A14A; 0x61913D5075663F98; 0x0DC62D361A3231DA; 0xFA47583294200270; 0x02D801513F9594CE; 0x3DDBC2A131C05D5C];
  [0x9ADC0FF9CE5EC54B; 0x039C2A6B8C2F130D; 0x028007C7F0F89515; 0x78968314AC04B36B; 0xF3AA57A22796BB14; 0x883ABAB79B07DA21; 0xE54BE21831A0391C; 0x5EE7FB38D83205F9; 0x538DFDCB41446A8E; 0xA5ACFDA9434937F9; 0x46AF908D263C8C78; 0x61D0633C9BCA0D09];
  [0x63744935FFDB2566; 0xC5BD6B89780B68BB; 0x6F1B3280553EEC03; 0x6E965FD847AED7F5; 0xADA328BCF8FC73DF; 0xEE84695DA6F037FC; 0x637FB4DB38C2A909; 0x5B23AC2DF8067BDC; 0x9AD2B953EE80527B; 0xE88F19AAFADE6D8D; 0x0E711704150E82CF; 0x79B9BBB9DD95DEDC];
  [0xEBB355406A3126C2; 0xD26383A868C8C393; 0x6C0C6429E5B97A82; 0x5065F158C9FD2147; 0xD1997DAE8E9F7374; 0xA032A2F8CFBB0816; 0xCD6CBA126D445F0A; 0x1BA811460ACCB834; 0x708169FB0C429954; 0xE14600ACD76ECF67; 0x2EAAB98A70E645BA; 0x3981F39E58A4FAF2];
  [0x18FB8A7559230A93; 0x1D168F6960E6F45D; 0x3A85A94514A93CB5; 0x38DC083705ACD0FD; 0xC845DFA56DE66FDE; 0xE152A5002C40483A; 0xE9D2E163C7B4F632; 0x30F4452EDCBC1B65; 0x856D2782C5759740; 0xFA134569F99CBECC; 0x8844FC73C0EA4E71; 0x632D9A1A593F2469];
  [0xF6BB6B15B807CBA6; 0x1823C7DFBC54F0D7; 0xBB1D97036E29670B; 0x0B24F48847ED4A57; 0xBF09FD11ED0C84A7; 0x63F071810D9F693A; 0x21908C2D57CF8779; 0x3A5A7DF28AF64BA2; 0xDCDAD4BE511BEAC7; 0xA4538075ED26CCF2; 0xE19CFF9F005F9A65; 0x34FCF74475481F63];
  [0xC197E04C789767CA; 0xB8714DCB38D9467D; 0x55DE888283F95FA8; 0x3D3BDC164DFA63F7; 0xA5BB1DAB78CFAA98; 0x5CEDA267190B72F2; 0x9309C9110A92608E; 0x0119A3042FB374B0; 0x67A2D89CE8C2177D; 0x669DA5F66895D0C1; 0xF56598E5B282A2B0; 0x56C088F1EDE20A73];
  [0x336D3D1110A86E17; 0xD7F388320B75B2FA; 0xF915337625072988; 0x09674C6B99108B87; 0x581B5FAC24F38F02; 0xA90BE9FEBAE30CBD; 0x9A2169028ACF92F0; 0x038B7EA48359038F; 0x9F4EF82199316FF8; 0x2F49D282EAA78D4F; 0x0971A5AB5AEF3174; 0x6E5E31025969EB65];
  [0xB16C62F587E593FB; 0x4999EDDECA5D3E71; 0xB491C1E014CC3E6D; 0x08F5114789A8DBA8; 0x3304FB0E63066222; 0xFB35068987ACBA3F; 0xBD1924778C1061A3; 0x3058AD43D1838620; 0x323C0FFDE57663D0; 0x05C3DF38A22EA610; 0xBDC78ABDAC994F9A; 0x26549FA4EFE3DC99];
  [0x741D5A461E6BF9D6; 0x2305B3FC7777A581; 0xD45574A26474D3D9; 0x1926E1DC6401E0FF; 0xDB468549AF3F666E; 0xD77FCF04F14A0EA5; 0x3DF23FF7A4BA0C47; 0x3A10DFE132CE3C85; 0xE07F4E8AEA17CEA0; 0x2FD515463A1FC1FD; 0x175322FD31F2C0F1; 0x1FA1D01D861E5D15];
  [0xCC8055947D599832; 0x1E4656DA37F15520; 0x99F6F7744E059320; 0x773563BC6A75CF33; 0x38DCAC00D1DF94AB; 0x2E712BDDD1080DE9; 0x7F13E93EFDD5E262; 0x73FCED18EE9A01E5; 0x06B1E90863139CB3; 0xA493DA67C5A03ECD; 0x8D77CEC8AD638932; 0x1F426B701B864F44];
  [0xEFC9264C41911C01; 0xF1A3B7B817A22C25; 0x5875DA6BF30F1447; 0x4E1AF5271D31B090; 0xF17E35C891A12552; 0xB76B8153575E9C76; 0xFA83406F0D9B723E; 0x0B76BB1B3FA7E438; 0x08B8C1F97F92939B; 0xBE6771CBD444AB6E; 0x22E5646399BB8017; 0x7B6DD61EB772A955];
  [0xB7ADC1E850F33D92; 0x7998FA4F608CD5CF; 0xAD962DBD8DFC5BDB; 0x703E9BCEAF1D2F4F; 0x5730ABF9AB01D2C7; 0x16FB76DC40143B18; 0x866CBE65A0CBB281; 0x53FA9B659BFF6AFE; 0x6C14C8E994885455; 0x843A5D6665AED4E5; 0x181BB73EBCD65AF1; 0x398D93E5C4C61F50];
  [0x1C4BD16733E248F3; 0xBD9E128715BF0A5F; 0xD43F8CF0A10B0376; 0x53B09B5DDF191B13; 0xC3877C60D2E7E3F2; 0x3B34AAA030828BB1; 0x283E26E7739EF138; 0x699C9C9002C30577; 0xF306A7235946F1CC; 0x921718B5CCE5D97D; 0x28CDD24781B4E975; 0x51CAF30C6FCDD907];
  [0xA60BA7427674E00A; 0x630E8570A17A7BF3; 0x3758563DCF3324CC; 0x5504AA292383FDAA; 0x737AF99A18AC54C7; 0x903378DCC51CB30F; 0x2B89BC334CE10CC7; 0x12AE29C189F8E99A; 0xA99EC0CB1F0D01CF; 0x0DD1EFCC3A34F7AE; 0x55CA7521D09C4E22; 0x5FD14FE958EBA5EA];
  [0xB5DC2DDF2845AB2C; 0x069491B10A7FE993; 0x4DAAF3D64002E346; 0x093FF26E586474D1; 0x3C42FE5EBF93CB8E; 0xBEDFA85136D4565F; 0xE0F0859E884220E8; 0x7DD73F960725D128; 0xB10D24FE68059829; 0x75730672DBAF23E5; 0x1367253AB457AC29; 0x2F59BCBC86B470A4];
  [0x83847D429917135F; 0xAD1B911F567D03D7; 0x7E7748D9BE77AAD1; 0x5458B42E2E51AF4A; 0x7041D560B691C301; 0x85201B3FADD7E71E; 0x16C2E16311335585; 0x2AA55E3D010828B1; 0xED5192E60C07444F; 0x42C54E2D74421D10; 0x352B4C82FDB5C864; 0x13E9004A8A768664];
  [0x739D8845832FCEDB; 0xFA38D6C9AE6BF863; 0x32BC0DCAB74FFEF7; 0x73937E8814BCE45E; 0xBB2E00C9193B877F; 0xECE3A890E0DC506B; 0xECF3B7C036DE649F; 0x5F46040898DE9E1A; 0xB9037116297BF48D; 0xA9D13B22D4F06834; 0xE19715574696BDC6; 0x2CF8A4E891D5E835];
  [0x6D93FD8707110F67; 0xDD4C09D37C38B549; 0x7CB16A4CC2736A86; 0x2049BD6E58252A09; 0x2CB5487E17D06BA2; 0x24D2381C3950196B; 0xD7659C8185978A30; 0x7A6F7F2891D6A4F6; 0x7D09FD8D6A9AEF49; 0xF0EE60BE5B3DB90B; 0x4C21B52C519EBFD4; 0x6011AADFC545941D];
  [0x5F67926DCF95F83C; 0x7C7E856171289071; 0xD6A1E7F3998F7A5B; 0x6FC5CC1B0B62F9E0; 0x63DED0C802CBF890; 0xFBD098CA0DFF6AAA; 0x624D0AFDB9B6ED99; 0x69CE18B779340B1E; 0xD1EF5528B29879CB; 0xDD1AAE3CD47E9092; 0x127E0442189F2352; 0x15596B3AE57101F1];
  [0x462739D23F9179A2; 0xFF83123197D6DDCF; 0x1307DEB553F2148A; 0x0D2237687B5F4DDA; 0x09FF31167E5124CA; 0x0BE4158BD9C745DF; 0x292B7D227EF556E5; 0x3AA4E241AFB6D138; 0x2CC138BF2A3305F5; 0x48583F8FA2E926C3; 0x083AB1A25549D2EB; 0x32FCAA6E4687A36C];
  [0x7BC56E8DC57D9AF5; 0x3E0BD2ED9DF0BDF2; 0xAAC014DE22EFE4A3; 0x4627E9CEFEBD6A5C; 0x3207A4732787CCDF; 0x17E31908F213E3F8; 0xD5B2ECD7F60D964E; 0x746F6336C2600BE9; 0x3F4AF345AB6C971C; 0xE288EB729943731F; 0x33596A8A0344186D; 0x7B4917007ED66293];
  [0x2D85FB5CAB84B064; 0x497810D289F3BC14; 0x476ADC447B15CE0C; 0x122BA376F844FD7B; 0x54341B28DD53A2DD; 0xAA17905BDF42FC3F; 0x0FF592D94DD2F8F4; 0x1D03620FE08CD37D; 0xC20232CDA2B4E554; 0x9ED0FD42115D187F; 0x2EABB4BE7DD479D9; 0x02C70BF52B68EC4C];
  [0xA287EC4B5D0B2FBB; 0x415C5790074882CA; 0xE044A61EC1D0815C; 0x26334F0A409EF5E0; 0xACE532BF458D72E1; 0x5BE768E07CB73CB5; 0x56CF7D94EE8BBDE7; 0x6B0697E3FEB43A03; 0xB6C8F04ADF62A3C0; 0x3EF000EF076DA45D; 0x9C9CB95849F0D2A9; 0x1CC37F43441B2FAE];
  [0x508F565A5CC7324F; 0xD061C4C0E506A922; 0xFB18ABDB5C45AC19; 0x6C6809C10380314A; 0xD76656F1C9CEAEB9; 0x1C5B15F818E5656A; 0x26E72832844C2334; 0x3A346F772F196838; 0xD2D55112E2DA6AC8; 0xE9BD0331B1E851ED; 0x960746DD8EC67262; 0x05911B9F6EF7C5D0];
  [0xC1339983F5DF0EBB; 0xC0F3758F512C4CAC; 0x2CF1130A0BB398E1; 0x6B3CECF9AA270C62; 0x5349ACF3512EEAEF; 0x20C141D31CC1CB49; 0x24180C07A99A688D; 0x555EF9D1C64B2D17; 0x36A770BA3B73BD08; 0x624AEF08A3AFBF0C; 0x5737FF98B40946F2; 0x675F4DE13381749D];
  [0x0E2C52036B1782FC; 0x64816C816CAD83B4; 0xD0DCBDD96964073E; 0x13D99DF70164C520; 0xA12FF6D93BDAB31D; 0x0725D80F9D652DFE; 0x019C4FF39ABE9487; 0x60F450B882CD3C43; 0x014B5EC321E5C0CA; 0x4FCB69C9D719BFA2; 0x4E5F1C18750023A0; 0x1C06DE9E55EDAC80];
  [0x990F7AD6A33EC4E2; 0x6608F938BE2EE08E; 0x9CA143C563284515; 0x4CF38A1FEC2DB60D; 0xFFD52B40FF6D69AA; 0x34530B18DC4049BB; 0x5E4A5C2FA34D9897; 0x78096F8E7D32BA2D; 0xA0AAAA650DFA5CE7; 0xF9C49E2A48B5478C; 0x4F09CC7D7003725B; 0x373CAD3A26091ABE];
  [0xB294634D82C9F57C; 0x1FCBFDE124934536; 0x9E9C4DB3418CDB5A; 0x40F3D9454419FC; 0xF1BEA8FB89DDBBAD; 0x3BCB2CBC61AEAECB; 0x8F58A7BB1F9B8D9D; 0x21547EDA5112A686; 0xDEFDE939FD5986D3; 0xF4272C89510A380C; 0xB72BA407BB3119B9; 0x63550A334A254DF4];
  [0x6507D6EDB569CF37; 0x178429B00CA52EE1; 0xEA7C0090EB6BD65D; 0x3EEA62C7DAF78F51; 0x9BBA584572547B49; 0xF305C6FAE2C408E0; 0x60E8FA69C734F18D; 0x39A92BAFAA7D767A; 0x9D24C713E693274E; 0x5F63857768DBD375; 0x70525560EB8AB39A; 0x68436A0665C9C4CD];
  [0xBC0235E8202F3F27; 0xC75C00E264F975B0; 0x91A4E9D5A38C2416; 0x17B6E7F68AB789F9; 0x1E56D317E820107C; 0xC5266844840AE965; 0xC1E0A1C6320FFC7A; 0x5373669C91611472; 0x5D2814AB9A0E5257; 0x908F2084C9CAB3FC; 0xAFCAF5885B2D1ECA; 0x1CB4B5A678F87D11];
  [0xB664C06B394AFC6C; 0x0C88DE2498DA5FB1; 0x4F8D03164BCAD834; 0x330BCA78DE7434A2; 0x6B74AA62A2A007E7; 0xF311E0B0F071C7B1; 0x5707E438000BE223; 0x2DC0FD2D82EF6EAC; 0x982EFF841119744E; 0xF9695E962B074724; 0xC58AC14FBFC953FB; 0x3C31BE1B369F1CF5];
  [0xB0F4864D08948AEE; 0x07DC19EE91BA1C6F; 0x7975CDAEA6ACA158; 0x330B61134262D4BB; 0xC168BC93F9CB4272; 0xAEB8711FC7CEDB98; 0x7F0E52AA34AC8D7A; 0x41CEC1097E7D55BB; 0xF79619D7A26D808A; 0xBB1FD49E1D9E156D; 0x73D7C36CDBA1DF27; 0x26B44CD91F28777D];
  [0x51F048478F387475; 0xB25DBCF49CBECB3C; 0x9AAB1244D99F2055; 0x2C709E6C1C10A5D6; 0xE1B7F29362730383; 0x4B5279FFEBCA8A2C; 0xDAFC778ABFD41314; 0x7DEB10149C72610F; 0xCB62AF6A8766EE7A; 0x66CBEC045553CD0E; 0x588001380F0BE4B5; 0x08E68E9FF62CE2EA];
  [0x34AD500A4BC130AD; 0x8D38DB493D0BD49C; 0xA25C3D98500A89BE; 0x2F1F3F87EEBA3B09; 0x2F2D09D50AB8F2F9; 0xACB9218DC55923DF; 0x4A8F342673766CB9; 0x4CB13BD738F719F5; 0xF7848C75E515B64A; 0xA59501BADB4A9038; 0xC20D313F3F751B50; 0x19A1E353C0AE2EE8];
  [0x7D1C7560BAFA05C3; 0xB3E1A0A0C6E55E61; 0xE3529718C0D66473; 0x41546B11C20C3486; 0xB42172CDD596BDBD; 0x93E0454398EEFC40; 0x9FB15347B44109B5; 0x736BD3990266AE34; 0x85532D509334B3B4; 0x46FD114B60816573; 0xCC5F5F30425C8375; 0x412295A2B87FAB5C];
  [0x19C99B88F57ED6E9; 0x5393CB266DF8C825; 0x5CEE3213B30AD273; 0x14E153EBB52D2E34; 0x2E655261E293EAC6; 0x845A92032133ACDB; 0x460975CB7900996B; 0x0760BB8D195ADD80; 0x413E1A17CDE6818A; 0x57156DA9ED69A084; 0x2CBF268F46CACCB1; 0x6B34BE9BC33AC5F2];
  [0xF3DF2F643A78C0B2; 0x4C3E971EF22E027C; 0xEC7D1C5E49C1B5A3; 0x2012C18F0922DD2D; 0x11FC69656571F2D3; 0xC6C9E845530E737A; 0xE33AE7A2D4FE5035; 0x01B9C7B62E6DD30B; 0x880B55E55AC89D29; 0x1483241F45A0A763; 0x3D36EFDFC2E76C1F; 0x08AF5B784E4BADE8];
  [0x283499DC881F2533; 0x9D0525DA779323B6; 0x897ADDFB673441F4; 0x32B79D71163A168D; 0xE27314D289CC2C4B; 0x4BE4BD11A287178D; 0x18D528D6FA3364CE; 0x6423C1D5AFD9826E; 0xCC85F8D9EDFCB36A; 0x22BCC28F3746E5F9; 0xE49DE338F9E5D3CD; 0x480A5EFBC13E2DCC];
  [0x0B51E70B01622071; 0x06B505CF8B1DAFC5; 0x2C6BB061EF5AABCD; 0x47AA27600CB7BF31; 0xB6614CE442CE221F; 0x6E199DCC4C053928; 0x663FB4A4DC1CBE03; 0x24B31D47691C8E06; 0x2A541EEDC015F8C3; 0x11A4FE7E7C693F7C; 0xF0AF66134EA278D6; 0x545B585D14DDA094];
  [0x67BF275EA0D43A0F; 0xADE68E34089BEEBE; 0x4289134CD479E72E; 0x0F62F9C332BA5454; 0x6204E4D0E3B321E1; 0x3BAA637A28FF1E95; 0x0B0CCFFD5B99BD9E; 0x4D22DC3E64C8D071; 0xFCB46589D63B5F39; 0x5CAE6A3F57CBCF61; 0xFEBAC2D2953AFA05; 0x1C0FA01A36371436];
  [0xD2C604B622943DFF; 0xBC8CBECE44CFB3A0; 0x5D254FF397808678; 0x0FA3614F3B1CA6BF; 0x69082B0E8C936A50; 0xF9C9A035C1DAC5B6; 0x6FB73E54C4DFB634; 0x4005419B1D2BC140; 0xA003FEBDB9BE82F0; 0x2089C1AF3A44AC90; 0xF8499F911954FA8E; 0x1FBA218AEF40AB42];
  [0xAB549448FAC8F53E; 0x81F6E89A7BA63741; 0x74FD6C7D6C2B5E01; 0x392E3ACAA8C86E42; 0x4F3E57043E7B0194; 0xA81D3EEE08DAAF7F; 0xC839C6AB99DCDEF1; 0x6C535D13FF7761D5; 0x4CBD34E93E8A35AF; 0x2E0781445887E816; 0x19319C76F29AB0AB; 0x25E17FE4D50AC13B];
  [0x0A289BD71E04F676; 0x208E1C52D6420F95; 0x5186D8B034691FAB; 0x255751442A9FB351; 0x915F7FF576F121A7; 0xC34A32272FCD87E3; 0xCCBA2FDE4D1BE526; 0x6BBA828F8969899B; 0xE2D1BC6690FE3901; 0x4CB54A18A0997AD5; 0x971D6914AF8460D4; 0x559D504F7F6B7BE4];
  [0xA7738378B3EB54D5; 0x1D69D366A5553C7C; 0x0A26CF62F92800BA; 0x01AB12D5807E3217; 0x9C4891E7F6D266FD; 0x0744A19B0307781B; 0x88388F1D6061E23B; 0x123EA6A3354BD50E; 0x118D189041E32D96; 0xB9EDE3C2D8315848; 0x1EAB4271D83245D9; 0x4A3961E2C918A154];
  [0x71DC3BE0F8E6BBA0; 0xD6CEF8347EFFE30A; 0xA992425FE13A476A; 0x2CD6BCE3FB1DB763; 0x0327D644F3233F1E; 0x499A260E34FCF016; 0x83B5A716F2DAB979; 0x68ACEEAD9BD4111F; 0x38B4C90EF3D7C210; 0x308E6E24B7AD040C; 0x3860D9F1B7E73E23; 0x595760D5B508F597];
  [0x6129BFE104AA6397; 0x8F960008A4A7FCCB; 0x3F8BC0897D909458; 0x709FA43EDCB291A9; 0x882ACBEBFD022790; 0x89AF3305C4115760; 0x65F492E37D3473F4; 0x2CB2C5DF54515A2B; 0xEB0A5D8C63FD2ACA; 0xD22BC1662E694EFF; 0x2723F36EF8CBB03A; 0x70F029ECF0C8131F];
  [0x461307B32EED3E33; 0xAE042F33A45581E7; 0xC94449D3195F0366; 0x0B7D5D8A6C314858; 0x2A6AAFAA5E10B0B9; 0x78F0A370EF041AA9; 0x773EFB77AA3AD61F; 0x44ECA5A2A74BD9E1; 0x25D448327B95D543; 0x70D38300A3340F1D; 0xDE1C531C60E1C52B; 0x272224512C7DE9E4];
  [0x1ABC92AF49C5342E; 0xFFEED811B2E6FAD0; 0xEFA28C8DFCC84E29; 0x11B5DF18A44CC543; 0xBF7BBB8A42A975FC; 0x8C5C397796ADA358; 0xE27FC76FCDEDAA48; 0x19735FD7F6BC20A6; 0xE3AB90D042C84266; 0xEB848E0F7F19547E; 0x2503A1D065A497B9; 0x0FEF911191DF895F]].

(** [struct ed25519_ge_niels]. *)
Record ge_niels := Niels { ysubx : fe; xaddy : fe; t2d : fe }.

Definition ed25519_ge_nielsSlidingMultiples : list ge_niels := [
  Niels (Fe 0x00003905D740913E 0x0000BA2817D673A2 0x00023E2827F4E67C 0x000133D2E0C21A34 0x00044FD2F9298F81) (Fe 0x000493C6F58C3B85 0x0000DF7181C325F7 0x0000F50B0B3E4CB7 0x0005329385A44C32 0x00007CF9D3A33D4B) (Fe 0x00011205877AAA68 0x000479955893D579 0x00050D66309B67A0 0x0002D42D0DBEE5EE 0x0006F117B689F0C6);
  Niels (Fe 0x00011FE8A4FCD265 0x0007BCB8374FAACC 0x00052F5AF4EF4D4F 0x0005314098F98D10 0x0002AB91587555BD) (Fe 0x0005B0A84CEE9730 0x00061D10C97155E4 0x0004059CC8096A10 0x00047A608DA8014F 0x0007A164E1B9A80F) (Fe 0x0006933F0DD0D889 0x00044386BB4C4295 0x0003CB6D3162508C 0x00026368B872A2C6 0x0005A2826AF12B9B);
  Niels (Fe 0x000182C3A447D6BA 0x00022964E536EFF2 0x000192821F540053 0x0002F9F19E788E5C 0x000154A7E73EB1B5) (Fe 0x0002BC4408A5BB33 0x000078EBDDA05442 0x0002FFB112354123 0x000375EE8DF5862D 0x0002945CCF146E20) (Fe 0x0003DBF1812A8285 0x0000FA17BA3F9797 0x0006F69CB49C3820 0x00034D5A0DB3858D 0x00043AABE696B3BB);
  Niels (Fe 0x00072C9AAA3221B1 0x000267774474F74D 0x000064B0E9B28085 0x0003F04EF53B27C9 0x0001D6EDD5D2E531) (Fe 0x00025CD0944EA3BF 0x00075673B81A4D63 0x000150B925D1C0D4 0x00013F38D9294114 0x000461BEA69283C9) (Fe 0x00036DC801B8B3A2 0x0000E0A7D4935E30 0x0001DEB7CECC0D7D 0x000053A94E20DD2C 0x0007A9FBB1C6A0F9);
  Niels (Fe 0x0006217E039D8064 0x0006DEA408337E6D 0x00057AC112628206 0x000647CB65E30473 0x00049C05A51FADC9) (Fe 0x0006678AA6A8632F 0x0005EA3788D8B365 0x00021BD6D6994279 0x0007ACE75919E4E3 0x00034B9ED338ADD7) (Fe 0x0004E8BF9045AF1B 0x000514E33A45E0D6 0x0007533C5B8BFE0F 0x000583557B7E14C9 0x00073C172021B008);
  Niels (Fe 0x00075B0249864348 0x00052EE11070262B 0x000237AE54FB5ACD 0x0003BFD1D03AAAB5 0x00018AB598029D5C) (Fe 0x000700848A802ADE 0x0001E04605C4E5F7 0x0005C0D01B9767FB 0x0007D7889F42388B 0x0004275AAE2546D8) (Fe 0x00032CC5FD6089E9 0x000426505C949B05 0x00046A18880C7AD2 0x0004A4221888CCDA 0x0003DC65522B53DF);
  Niels (Fe 0x0007013B327FBF93 0x0001336EEDED6A0D 0x0002B565A2BBF3AF 0x000253CE89591955 0x0000267882D17602) (Fe 0x0000C222A2007F6D 0x000356B79BDB77EE 0x00041EE81EFE12CE 0x000120A9BD07097D 0x000234FD7EEC346F) (Fe 0x0000A119732EA378 0x00063BF1BA8E2A6C 0x00069F94CC90DF9A 0x000431D1779BFC48 0x000497BA6FDAA097);
  Niels (Fe 0x0003CD86468CCF0B 0x00048553221AC081 0x0006C9464B4E0A6E 0x00075FBA84180403 0x00043B5CD4218D05) (Fe 0x0006CC0313CFEAA0 0x0001A313848DA499 0x0007CB534219230A 0x00039596DEDEFD60 0x00061E22917F12DE) (Fe 0x0002762F9BD0B516 0x0001C6E7FBDDCBB3 0x00075909C3ACE2BD 0x00042101972D3EC9 0x000511D61210AE4D);
  Niels (Fe 0x000386484420DE87 0x0002D6B25DB68102 0x000650B4962873C0 0x0004081CFD271394 0x00071A7FE6FE2482) (Fe 0x000676EF950E9D81 0x0001B81AE089F258 0x00063C4922951883 0x0002F1D54D9B3237 0x0006D325924DDB85) (Fe 0x000182B8A5C8C854 0x00073FCBE5406D8E 0x0005DE3430CFF451 0x000554B967AC8C41 0x0004746C4B6559EE);
  Niels (Fe 0x000546C864741147 0x0003A1DF99092690 0x0001CA8CC9F4D6BB 0x00036B7FC9CD3B03 0x000219663497DB5E) (Fe 0x00077B3C6DC69A2B 0x0004EDF13EC2FA6E 0x0004E85AD77BEAC8 0x0007DBA2B28E7BDA 0x0005C9A51DE34FE9) (Fe 0x0000F1CF79F10E67 0x00043CCB0A2B7EA2 0x00005089DFFF776A 0x0001DD84E1D38B88 0x0004804503C60822);
  Niels (Fe 0x000021D23A36D175 0x0004FD3373C6476D 0x00020E291EEED02A 0x00062F2ECF2E7210 0x000771E098858DE4) (Fe 0x00049ED02CA37FC7 0x000474C2B5957884 0x0005B8388E816683 0x0004B6C454B76BE4 0x000553398A516506) (Fe 0x0002F5D278451EDF 0x000730B133997342 0x0006965420EB6975 0x000308A3BFA516CF 0x0005A5ED1D68FF5A);
  Niels (Fe 0x0005E0C558527359 0x0003395B73AFD75C 0x000072AFA4E4B970 0x00062214329E0F6D 0x000019B60135FEFD) (Fe 0x0005122AFE150E83 0x0004AFC966BB0232 0x0001C478833C8268 0x00017839C3FC148F 0x00044ACB897D8BF9) (Fe 0x000068145E134B83 0x0001E4860982C3CC 0x000068FB5F13D799 0x0007C9283744547E 0x000150C49FDE6AD2);
  Niels (Fe 0x0001863C9CDCA868 0x0003770E295A1709 0x0000D85A3720FD13 0x0005E0FF1F71AB06 0x00078A6D7791E05F) (Fe 0x0003F29509471138 0x000729EEB4CA31CF 0x00069C22B575BFBC 0x0004910857BCE212 0x0006B2B5A075BB99) (Fe 0x0007704B47A0B976 0x0002AE82E91AAB17 0x00050BD6429806CD 0x00068055158FD8EA 0x000725C7FFC4AD55);
  Niels (Fe 0x00002BF71CD098C0 0x00049DABCC6CD230 0x00040A6533F905B2 0x000573EFAC2EB8A4 0x0004CD54625F855F) (Fe 0x00026715D1CF99B2 0x0002205441A69C88 0x000448427DCD4B54 0x0001D191E88ABDC5 0x000794CC9277CB1F) (Fe 0x0006C426C2AC5053 0x0005A65ECE4B095E 0x0000C44086F26BB6 0x0007429568197885 0x0007008357B6FCC8);
  Niels (Fe 0x00039FBB82584A34 0x00047A568F257A03 0x00014D88091EAD91 0x0002145B18B1CE24 0x00013A92A3669D6D) (Fe 0x0000672738773F01 0x000752BF799F6171 0x0006B4A6DAE33323 0x0007B54696EAD1DC 0x00006EF7E9851AD0) (Fe 0x0003771CC0577DE5 0x0003CA06BB8B9952 0x00000B81C5D50390 0x00043512340780EC 0x0003C296DDF8A2AF);
  Niels (Fe 0x00034D2EBB1F2541 0x0000E815B723FF9D 0x000286B416E25443 0x0000BDFE38D1BEE8 0x0000A892C7007477) (Fe 0x000515F9D914A713 0x00073191FF2255D5 0x00054F5CC2A4BDEF 0x0003DD57FC118BCF 0x0007A99D393490C7) (Fe 0x0002ED2436BDA3E8 0x00002AFD00F291EA 0x0000BE7381DEA321 0x0003E952D4B2B193 0x000286762D28302F);
  Niels (Fe 0x00058E2BCE2EF5BD 0x00068CE8F78C6F8A 0x0006EE26E39261B2 0x00033D0AA50BCF9D 0x0007686F2A3D6F17) (Fe 0x000036093CE35B25 0x0003B64D7552E9CF 0x00071EE0FE0B8460 0x00069D0660C969E5 0x00032F1DA046A9D9) (Fe 0x000512A66D597C6A 0x0000609A70A57551 0x000026C08A3C464C 0x0004531FC8EE39E1 0x000561305F8A9AD2);
  Niels (Fe 0x0002CC28E7B0C0D5 0x00077B60EB8A6CE4 0x0004042985C277A6 0x000636657B46D3EB 0x000030A1AEF2C57C) (Fe 0x0004978DEC92AED1 0x000069ADAE7CA201 0x00011EE923290F55 0x00069641898D916C 0x00000AAEC53E35D4) (Fe 0x0001F773003AD2AA 0x000005642CC10F76 0x00003B48F82CFCA6 0x0002403C10EE4329 0x00020BE9C1C24065);
  Niels (Fe 0x0000E44AE2025E60 0x0005F97B9727041C 0x0005683472C0ECEC 0x000188882EB1CE7C 0x00069764C545067E) (Fe 0x000387D8249673A6 0x0005BEA8DC927C2A 0x0005BD8ED5650EF0 0x0000EF0E3FCD40E1 0x000750AB3361F0AC) (Fe 0x00023283A2F81037 0x000477AFF97E23D1 0x0000B8958DBCBB68 0x0000205B97E8ADD6 0x00054F96B3FB7075);
  Niels (Fe 0x0005AFC616B11ECD 0x00039F4AEC8F22EF 0x0003B39E1625D92E 0x0005F85BD4508873 0x00078E6839FBE85D) (Fe 0x0005F20429669279 0x00008FAFAE4941F5 0x00015D83C4EB7688 0x0001CF379ECA4146 0x0003D7FE9C52BB75) (Fe 0x00032DF737B8856B 0x0000608342F14E06 0x0003967889D74175 0x0001211907FBA550 0x00070F268F350088);
  Niels (Fe 0x0004112070DCF355 0x0007DCFF9C22E464 0x00054ADA60E03325 0x00025CD98EEF769A 0x000404E56C039B8C) (Fe 0x00064583B1805F47 0x00022C1BAF832CD0 0x000132C01BD4D717 0x0004ECF4C3A75B8F 0x0007C0D345CFAD88) (Fe 0x00071F4B8C78338A 0x00062CFC16BC2B23 0x00017CF51280D9AA 0x0003BBAE5E20A95A 0x00020D754762AAEC);
  Niels (Fe 0x0004FEB135B9F543 0x00063BD192AD93AE 0x00044E2EA612CDF7 0x000670F4991583AB 0x00038B8ADA8790B4) (Fe 0x0007C36FC73BB758 0x0004A6C797734BD1 0x0000EF248AB3950E 0x00063154C9A53EC8 0x0002B8F1E46F3CEE) (Fe 0x00004A9CDF51F95D 0x0005D963FBD596B8 0x00022D9B68ACE54A 0x0004A98E8836C599 0x000049AEB32CEBA1);
  Niels (Fe 0x00067D3C63DCFE7E 0x000112F0ADC81AEE 0x00053DF04C827165 0x0002FE5B33B430F0 0x00051C665E0C8D62) (Fe 0x00007D0B75FC7931 0x00016F4CE4BA754A 0x0005ACE4C03FBE49 0x00027E0EC12A159C 0x000795EE17530F67) (Fe 0x00025B0A52ECBD81 0x0005DC0695FCE4A9 0x0003B928C575047D 0x00023BF3512686E5 0x0006CD19BF49DC54);
  Niels (Fe 0x0007619052179CA3 0x0000C16593F0AFD0 0x000265C4795C7428 0x00031C40515D5442 0x0007520F3DB40B2E) (Fe 0x0006612165AFC386 0x0001171AA36203FF 0x0002642EA820A8AA 0x0001F3BB7B313F10 0x0005E01B3A7429E4) (Fe 0x00050BE3D39357A1 0x0003AB33D294A7B6 0x0004C479BA59EDB3 0x0004C30D184D326F 0x00071092C9CCEF3C);
  Niels (Fe 0x0000523F0364918C 0x000687F56D638A7B 0x00020796928AD013 0x0005D38405A54F33 0x0000EA15B03D0257) (Fe 0x0003D8AC74051DCF 0x00010AB6F543D0AD 0x0005D0F3AC0FDA90 0x0005EF1D2573E5E4 0x0004173A5BB7137A) (Fe 0x00056E31F0F9218A 0x0005635F88E102F8 0x0002CBC5D969A5B8 0x000533FBC98B347A 0x0005FC565614A4E3);
  Niels (Fe 0x0006570DC46D7AE5 0x00018A9F1B91E26D 0x000436B6183F42AB 0x000550ACAA4F8198 0x00062711C414C454) (Fe 0x0002E1E67790988E 0x0001E38B9AE44912 0x000648FBB4075654 0x00028DF1D840CD72 0x0003214C7409D466) (Fe 0x0001827406651770 0x0004D144F286C265 0x00017488F0EE9281 0x00019E6CDB5C760C 0x0005BEA94073ECB8);
  Niels (Fe 0x0005BF0912C89BE4 0x00062FADCAF38C83 0x00025EC196B3CE2C 0x00077655FF4F017B 0x0003AACD5C148F61) (Fe 0x0000CE63F343D2F8 0x0001E0A87D1E368E 0x000045EDBC019EEA 0x0006979AED28D0D1 0x0004AD0785944F1B) (Fe 0x00063B34C3318301 0x0000E0E62D04D0B1 0x000676A233726701 0x00029E9A042D9769 0x0003AFF0CB1D9028);
  Niels (Fe 0x0005C7EB3A20405E 0x0005FDB5AAD930F8 0x0004A757E63B8C47 0x00028E9492972456 0x000110E7E86F4CD2) (Fe 0x0006430BF4C53505 0x000264C3E4507244 0x00074C9F19A39270 0x00073F84F799BC47 0x0002CCF9F732BD99) (Fe 0x0000D89ED603F5E4 0x00051E1604018AF8 0x0000B8EEDC4A2218 0x00051BA98B9384D0 0x00005C557E0B9693);
  Niels (Fe 0x0001CE311FC97E6F 0x0006023F3FB5DB1F 0x0007B49775E8FC98 0x0003AD70ADBF5045 0x0006E154C178FE98) (Fe 0x0006BBB089C20EB0 0x0006DF41FB0B9EEE 0x00051087ED87E16F 0x000102DB5C9FA731 0x000289FEF0841861) (Fe 0x00016336FED69ABF 0x0004F066B929F9EC 0x0004E9FF9E6C5B93 0x00018C89BC4BB2BA 0x0006AFBF642A95CA);
  Niels (Fe 0x0000DE0C62F5D2C1 0x00049601CF734FB5 0x0006B5C38263F0F6 0x0004623EF5B56D06 0x0000DB4B851B9503) (Fe 0x00055070F913A8CC 0x000765619EAC2BBC 0x0003AB5225F47459 0x00076CED14AB5B48 0x00012C093CEDB801) (Fe 0x00047F9308B8190F 0x000414235C621F82 0x00031F5FF41A5A76 0x0006736773AAB96D 0x00033AA8799C6635);
  Niels (Fe 0x0007F51EBD085CF2 0x00012CFA67E3F5E1 0x0001800CF1E3D46A 0x00054337615FF0A8 0x000233C6F29E8E21) (Fe 0x0000F588FC156CB1 0x000363414DA4F069 0x0007296AD9B68AEA 0x0004D3711316AE43 0x000212CD0C1C8D58) (Fe 0x0004D5107F18C781 0x00064A4FD3A51A5E 0x0004F4CD0448BB37 0x000671D38543151E 0x0001DB7778911914);
  Niels (Fe 0x000352397C6BC26F 0x00018A7AA0227BBE 0x0005E68CC1EA5F8B 0x0006FE3E3A7A1D5F 0x00031AD97AD26E2A) (Fe 0x00014769DD701AB6 0x00028339F1B4B667 0x0004AB214B8AE37B 0x00025F0AEFA0B0FE 0x0007AE2CA8A017D2) (Fe 0x000017ED0920B962 0x000187E33B53B6FD 0x00055829907A1463 0x000641F248E0A792 0x0001ED1FC53A6622)].
