(* ===== verification/EdPoint.v ===== *)
(** * Points of the Ed25519 curve ([src/hc/core/hc/crypto/ed25519.c], [ed25519_ge_*])

    The point structures, their conversions, doublings and additions, and the encoding
    of points.  The reference is RFC 8032, section 5.1: its formulas over integers
    modulo 2^255 - 19.  A structure of the code represents a reference point when its
    limbs are in bounds and its coordinates are those of the point, all of them up to
    one common sign (the code's doubling computes every coordinate negated). *)
From Stdlib Require Import ZArith List Lia Bool Setoid Morphisms.
From S2P Require Import Prelude Mem Curve25519 X25519 EdTable.
Import ListNotations.

(** ** The code *)

Record ge := Ge { gx : fe; gy : fe; gz : fe; gt : fe }.
Record ge_p1p1 := P1p1 { px : fe; py : fe; pz : fe; pt : fe }.
Record ge_pniels := Pniels { p_ysubx : fe; p_xaddy : fe; p_z : fe; p_t2d : fe }.

Definition ed25519_ge_ecd : fe := Fe 0x00034DCA135978A3 0x0001A8283B156EBD 0x0005E7A26001C029 0x000739C663A03CBB 0x00052036CEE2B6FF.
Definition ed25519_ge_ec2d : fe := Fe 0x00069B9426B2F159 0x00035050762ADD7A 0x0003CF44C0038052 0x0006738CC7407977 0x0002406D9DC56DFF.
Definition ed25519_ge_sqrtneg1 : fe := Fe 0x00061B274A0EA0B0 0x0000D5A5FC8F189D 0x0007EF5E9CBD0C60 0x00078595A6804C9E 0x0002B8324804FC1D.
Definition curve25519_zero : fe := Fe 0 0 0 0 0.
Definition one : fe := Fe 1 0 0 0 0.

(** [t] of [r] is left as it was. *)
Definition ed25519_ge_p1p1ToPartial (r : ge) (p : ge_p1p1) : ge :=
  Ge (curve25519_mul (px p) (pt p)) (curve25519_mul (py p) (pz p)) (curve25519_mul (pz p) (pt p)) (gt r).

Definition ed25519_ge_p1p1ToFull (p : ge_p1p1) : ge :=
  Ge (curve25519_mul (px p) (pt p)) (curve25519_mul (py p) (pz p)) (curve25519_mul (pz p) (pt p)) (curve25519_mul (px p) (py p)).

Definition ed25519_ge_fullToPniels (r : ge) : ge_pniels :=
  Pniels (curve25519_subNoReduce (gy r) (gx r)) (curve25519_addNoReduce (gy r) (gx r)) (gz r) (curve25519_mul (gt r) ed25519_ge_ec2d).

Definition ed25519_ge_doubleP1p1 (p : ge) : ge_p1p1 :=
  let a := curve25519_squareN (gx p) 1 in
  let b := curve25519_squareN (gy p) 1 in
  let c := curve25519_squareN (gz p) 1 in
  let c := curve25519_add c c in
  let x := curve25519_addNoReduce (gx p) (gy p) in
  let x := curve25519_squareN x 1 in
  let y := curve25519_addNoReduce b a in
  let z := curve25519_subNoReduce b a in
  let x := curve25519_subNoReduceFourP x y in
  let t := curve25519_subNoReduceFourP c z in
  P1p1 x y z t.

(** [rb[2 + signbit] += c; rb[2 + (signbit ^ 1)] -= c]: the new [z] and [t]. *)
Definition add_sub_c (z t c : fe) (signbit : Z) : fe * fe :=
  if signbit =? 0 then (curve25519_addNoReduce z c, curve25519_subNoReduce t c)
  else (curve25519_subNoReduce z c, curve25519_addNoReduce t c).

(** [qb[signbit]] is [ysubx] for 0 and [xaddy] for 1. *)
Definition ed25519_ge_nielsAddP1p1 (p : ge) (q : ge_niels) (signbit : Z) : ge_p1p1 :=
  let qb s := if s =? 0 then ysubx q else xaddy q in
  let a := curve25519_subNoReduce (gy p) (gx p) in
  let b := curve25519_addNoReduce (gy p) (gx p) in
  let a := curve25519_mul a (qb signbit) in
  let x := curve25519_mul b (qb (signbit ^^ 1)) in
  let y := curve25519_addNoReduce x a in
  let x := curve25519_subNoReduce x a in
  let c := curve25519_mul (gt p) (t2d q) in
  let t := curve25519_add (gz p) (gz p) in
  let '(z, t) := add_sub_c t t c signbit in
  P1p1 x y z t.

Definition ed25519_ge_pnielsAddP1p1 (p : ge) (q : ge_pniels) (signbit : Z) : ge_p1p1 :=
  let qb s := if s =? 0 then p_ysubx q else p_xaddy q in
  let a := curve25519_subNoReduce (gy p) (gx p) in
  let b := curve25519_addNoReduce (gy p) (gx p) in
  let a := curve25519_mul a (qb signbit) in
  let x := curve25519_mul b (qb (signbit ^^ 1)) in
  let y := curve25519_addNoReduce x a in
  let x := curve25519_subNoReduce x a in
  let c := curve25519_mul (gt p) (p_t2d q) in
  let t := curve25519_mul (gz p) (p_z q) in
  let t := curve25519_add t t in
  let '(z, t) := add_sub_c t t c signbit in
  P1p1 x y z t.

Definition ed25519_ge_doublePartial (r p : ge) : ge := ed25519_ge_p1p1ToPartial r (ed25519_ge_doubleP1p1 p).
Definition ed25519_ge_double (p : ge) : ge := ed25519_ge_p1p1ToFull (ed25519_ge_doubleP1p1 p).

Definition ed25519_ge_nielsAdd (r : ge) (q : ge_niels) : ge :=
  let a := curve25519_subNoReduce (gy r) (gx r) in
  let b := curve25519_addNoReduce (gy r) (gx r) in
  let a := curve25519_mul a (ysubx q) in
  let e := curve25519_mul b (xaddy q) in
  let h := curve25519_addNoReduce e a in
  let e := curve25519_subNoReduce e a in
  let c := curve25519_mul (gt r) (t2d q) in
  let f := curve25519_addNoReduce (gz r) (gz r) in
  let g := curve25519_addNoReduce f c in
  let f := curve25519_subNoReduce f c in
  Ge (curve25519_mul e f) (curve25519_mul h g) (curve25519_mul g f) (curve25519_mul e h).

Definition ed25519_ge_pnielsAdd (p : ge) (q : ge_pniels) : ge_pniels :=
  let a := curve25519_subNoReduce (gy p) (gx p) in
  let b := curve25519_addNoReduce (gy p) (gx p) in
  let a := curve25519_mul a (p_ysubx q) in
  let x := curve25519_mul b (p_xaddy q) in
  let y := curve25519_addNoReduce x a in
  let x := curve25519_subNoReduce x a in
  let c := curve25519_mul (gt p) (p_t2d q) in
  let t := curve25519_mul (gz p) (p_z q) in
  let t := curve25519_addNoReduce t t in
  let z := curve25519_addNoReduce t c in
  let t := curve25519_subNoReduce t c in
  let r_xaddy := curve25519_mul x t in
  let r_ysubx := curve25519_mul y z in
  let r_z := curve25519_mul z t in
  let r_t2d := curve25519_mul x y in
  let y := r_ysubx in
  let r_ysubx := curve25519_subNoReduce r_ysubx r_xaddy in
  let r_xaddy := curve25519_addNoReduce r_xaddy y in
  let r_t2d := curve25519_mul r_t2d ed25519_ge_ec2d in
  Pniels r_ysubx r_xaddy r_z r_t2d.

(** The 32 bytes of [r]. *)
Definition ed25519_ge_pack (p : ge) : list Z :=
  let zi := curve25519_invert (gz p) in
  let tx := curve25519_mul (gx p) zi in
  let ty := curve25519_mul (gy p) zi in
  let ty := curve25519_reduce ty in
  let r := curve25519_store ty in
  let tx := curve25519_reduce tx in
  set r 31 (get r 31 ^^ u8 ((f0 tx & 1) << 7)).

(** The 40 bytes of a [uint64_t[5]], and [mem_compare(&a[0], &curve25519_zero[0], 40) == 0]. *)
Definition limb_bytes (a : fe) : list Z :=
  le_split 8 (f0 a) ++ le_split 8 (f1 a) ++ le_split 8 (f2 a) ++ le_split 8 (f3 a) ++ le_split 8 (f4 a).
Definition is_zero (a : fe) : bool := mem_compare (limb_bytes a) (limb_bytes curve25519_zero) 40 =? 0.

(** [None] when the function returns 0. *)
Definition ed25519_ge_unpackNegativeVartime (p : list Z) : option ge :=
  let parity := get p 31 >> 7 in
  let y := curve25519_load p in
  let z := one in
  let num := curve25519_squareN y 1 in
  let den := curve25519_mul num ed25519_ge_ecd in
  let num := curve25519_subNoReduce num z in
  let den := curve25519_addNoReduce den z in
  let t := curve25519_squareN den 1 in
  let d3 := curve25519_mul t den in
  let x := curve25519_squareN d3 1 in
  let x := curve25519_mul x den in
  let x := curve25519_mul x num in
  let x := curve25519_powTwo252m3 x in
  let x := curve25519_mul x d3 in
  let x := curve25519_mul x num in
  let t := curve25519_squareN x 1 in
  let t := curve25519_mul t den in
  let root := curve25519_subNoReduceFourP t num in
  let root := curve25519_reduce root in
  let x :=
    if is_zero root then Some x
    else
      let t := curve25519_addNoReduce t num in
      let t := curve25519_reduce t in
      if is_zero t then Some (curve25519_mul x ed25519_ge_sqrtneg1) else None in
  match x with
  | None => None
  | Some x =>
      let x := curve25519_reduce x in
      let x := if (f0 x & 1) =? parity then curve25519_sub curve25519_zero x else x in
      Some (Ge x y z (curve25519_mul x y))
  end.

(** ** Reference: RFC 8032, section 5.1 *)
Module Rfc8032.

(** Extended homogeneous coordinates. *)
Record point := Point { X : Z; Y : Z; Z_ : Z; T : Z }.

Definition d : Z := 37095705934669439343138083508754565189542113879843219016388785533085940283555.

(** Reduction modulo p. *)
Definition red (x : Z) : Z := x mod P.

(** Section 5.1.4: addition, doubling. *)
Definition point_add (p q : point) : point :=
  let A := red ((Y p - X p) * (Y q - X q)) in
  let B := red ((Y p + X p) * (Y q + X q)) in
  let C := red (T p * 2 * d * T q) in
  let D := red (Z_ p * 2 * Z_ q) in
  let E := B - A in let F := D - C in let G := D + C in let H := B + A in
  Point (red (E * F)) (red (G * H)) (red (F * G)) (red (E * H)).

Definition point_double (p : point) : point :=
  let A := red (X p * X p) in
  let B := red (Y p * Y p) in
  let C := red (2 * (Z_ p * Z_ p)) in
  let H := A + B in
  let E := H - red ((X p + Y p) * (X p + Y p)) in
  let G := A - B in
  let F := C + G in
  Point (red (E * F)) (red (G * H)) (red (F * G)) (red (E * H)).

Definition point_neg (p : point) : point := Point (red (- X p)) (Y p) (Z_ p) (red (- T p)).

Definition neutral : point := Point 0 1 1 0.

(** Section 5.1.2, with the inverse as a power; the top bit is the parity of x. *)
Definition point_compress (p : point) : list Z :=
  let zinv := Zpow_facts.Zpow_mod (Z_ p) (P - 2) P in
  let x := red (X p * zinv) in
  let y := red (Y p * zinv) in
  le_split 32 (y .| (x & 1) << 255).

(** Section 5.1.3, steps 1 to 4, but for the negative of the point, as the code needs it:
    [x] gets the parity that the sign bit does not have.  The section also rejects [y >= p]
    and [x = 0] with the sign bit set; the code does not. *)
Definition sqrt_m1 : Z := 0x2B8324804FC1DF0B2B4D00993DFBD7A72F431806AD2FE478C4EE1B274A0EA0B0.
Definition pow_mod (x e : Z) : Z := Zpow_facts.Zpow_mod x e P.

Definition candidate (y : Z) : Z :=
  let u := y * y - 1 in
  let v := d * (y * y) + 1 in
  red (u * (v * v * v) * pow_mod (red (u * (v * v * v * v * v * v * v))) ((P - 5) / 8)).

Definition square_root (y : Z) : option Z :=
  let u := y * y - 1 in
  let v := d * (y * y) + 1 in
  let x := candidate y in
  if red (v * (x * x) - u) =? 0 then Some x
  else if red (v * (x * x) + u) =? 0 then Some (red (x * sqrt_m1))
  else None.

Definition decompress_negative (encoded : list Z) : option point :=
  let y := le_combine encoded mod 2 ^ 255 in
  match square_root y with
  | None => None
  | Some x =>
      let x := if x mod 2 =? get encoded 31 / 128 then red (- x) else x in
      Some (Point x y 1 (red (x * y)))
  end.
End Rfc8032.

(** ** Bounds and residues *)

Section MoreOps.
Context (a b : fe) (x y B C : Z) (Ha : stands B a x) (Hb : stands C b y).

Lemma stands_sub4 : B + 2 ^ 53 <= 2 ^ 64 -> C <= 2 ^ 53 - 76 -> stands (B + 2 ^ 53) (curve25519_subNoReduceFourP a b) (x - y).
Proof using Ha Hb.
  intros H H'. destruct Ha as [La Ea], Hb as [Lb Eb]. destruct (subNoReduceFourP_correct a b B C La Lb H H') as [Lo E].
  split; [exact Lo|]. now rewrite E, Ea, Eb.
Qed.

Lemma stands_add_reduced : B <= 2 ^ 54 -> C <= 2 ^ 54 -> stands T (curve25519_add a b) (x + y).
Proof using Ha Hb.
  intros H H'. destruct Ha as [La Ea], Hb as [Lb Eb]. destruct (add_correct a b) as [Lo E]; [now apply (within_weaken B)|now apply (within_weaken C)|].
  split; [exact Lo|]. now rewrite E, Ea, Eb.
Qed.

Lemma stands_sub_reduced : B <= 2 ^ 54 -> C <= 2 ^ 52 - 38 -> stands T (curve25519_sub a b) (x - y).
Proof using Ha Hb.
  intros H H'. destruct Ha as [La Ea], Hb as [Lb Eb]. destruct (sub_correct a b) as [Lo E]; [now apply (within_weaken B)|now apply (within_weaken C)|].
  split; [exact Lo|]. now rewrite E, Ea, Eb.
Qed.
End MoreOps.

Lemma modP x : Rfc8032.red x == x.
Proof. apply eqP_mod. now apply Z.mod_mod. Qed.

#[export] Instance eqP_opp : Proper (eqP ==> eqP) Z.opp.
Proof. intros a b [k ->]. exists (- k). ring. Qed.

#[export] Instance red_proper : Proper (eqP ==> eqP) Rfc8032.red.
Proof. intros x y H. now rewrite !modP. Qed.

Lemma eq_eqP x y : x = y -> x == y.
Proof. intros ->. reflexivity. Qed.

(** Bounds and residue of an expression, from those of its variables. *)
Ltac field_value :=
  lazymatch goal with
  | |- stands _ (curve25519_mul _ _) _ => eapply stands_mul; [field_value|field_value|lia|lia]
  | |- stands _ (curve25519_squareN _ 1) _ => eapply stands_square; [field_value|lia]
  | |- stands _ (curve25519_add _ _) _ => eapply stands_add_reduced; [field_value|field_value|lia|lia]
  | |- stands _ (curve25519_sub _ _) _ => eapply stands_sub_reduced; [field_value|field_value|lia|lia]
  | |- stands _ (curve25519_addNoReduce _ _) _ => eapply stands_add; [field_value|field_value|lia]
  | |- stands _ (curve25519_subNoReduce _ _) _ => eapply stands_sub; [field_value|field_value|lia|lia]
  | |- stands _ (curve25519_subNoReduceFourP _ _) _ => eapply stands_sub4; [field_value|field_value|lia|lia]
  | |- _ => eassumption
  end.
(** The residue is [x], up to ring laws and reductions modulo P. *)
Ltac field_eq := eapply stands_eq; [field_value|rewrite ?modP; apply eq_eqP; ring].

(** ** Representation of points *)

Import Rfc8032.
Abbreviation T := (2 ^ 51 + 2 ^ 26).

Lemma ecd_value : stands T ed25519_ge_ecd d.
Proof. split; [unfold within, ed25519_ge_ecd; cbn [f0 f1 f2 f3 f4]; lia|]. apply eqP_mod. vm_compute. reflexivity. Qed.

Lemma ec2d_value : stands T ed25519_ge_ec2d (2 * d).
Proof. split; [unfold within, ed25519_ge_ec2d; cbn [f0 f1 f2 f3 f4]; lia|]. apply eqP_mod. vm_compute. reflexivity. Qed.

Definition sign (s : Z) : Prop := s = 1 \/ s = -1.

(** Coordinates without [T], for the structures whose [t] is stale. *)
Definition represents_partial (g : ge) (p : point) : Prop := exists s, sign s /\
  stands T (gx g) (s * X p) /\ stands T (gy g) (s * Y p) /\ stands T (gz g) (s * Z_ p).
Definition represents (g : ge) (p : point) : Prop := exists s, sign s /\
  stands T (gx g) (s * X p) /\ stands T (gy g) (s * Y p) /\ stands T (gz g) (s * Z_ p) /\ stands T (gt g) (s * Rfc8032.T p).

(** An affine point ([Z] is 1), and a projective one. *)
Definition niels_of (q : ge_niels) (p : point) : Prop :=
  Z_ p = 1 /\ stands T (ysubx q) (Y p - X p) /\ stands T (xaddy q) (Y p + X p) /\ stands T (t2d q) (2 * d * Rfc8032.T p).
Definition pniels_of (q : ge_pniels) (p : point) : Prop := exists s, sign s /\
  stands (T + 2 ^ 52) (p_ysubx q) (s * (Y p - X p)) /\ stands (T + T) (p_xaddy q) (s * (Y p + X p)) /\
  stands T (p_z q) (s * Z_ p) /\ stands T (p_t2d q) (s * (2 * d * Rfc8032.T p)).

Lemma represents_forget g p : represents g p -> represents_partial g p.
Proof. intros (s & Hs & Hx & Hy & Hz & _). exists s. auto. Qed.

Ltac split_and := repeat match goal with |- _ /\ _ => split end.
(** Open the structures and prove every coordinate. *)
Ltac coordinates :=
  cbv beta iota zeta delta [ed25519_ge_doubleP1p1 ed25519_ge_p1p1ToFull ed25519_ge_p1p1ToPartial ed25519_ge_nielsAddP1p1
    ed25519_ge_pnielsAddP1p1 ed25519_ge_nielsAdd ed25519_ge_pnielsAdd ed25519_ge_fullToPniels add_sub_c point_double point_add point_neg];
  cbn [px py pz pt gx gy gz gt p_ysubx p_xaddy p_z p_t2d X Y Z_ Rfc8032.T Z.eqb Z.lxor Pos.lxor]; split_and; field_eq.

(** The result of a doubling or an addition, before it is multiplied out. *)
Definition p1p1_of (r : ge_p1p1) (p : point) : Prop := represents (ed25519_ge_p1p1ToFull r) p.

Lemma p1p1_partial g0 r p : p1p1_of r p -> represents_partial (ed25519_ge_p1p1ToPartial g0 r) p.
Proof. intros H. exact (represents_forget _ _ H). Qed.

Section Points.
Context (g : ge) (p : point).

Lemma p1p1_double : represents_partial g p -> p1p1_of (ed25519_ge_doubleP1p1 g) (point_double p).
Proof using. intros (s & Hs & Hx & Hy & Hz). exists (-1). split; [now right|]. destruct Hs as [->| ->]; coordinates. Qed.

Lemma fullToPniels_spec : represents g p -> pniels_of (ed25519_ge_fullToPniels g) p.
Proof using.
  intros (s & Hs & Hx & Hy & Hz & Ht). pose proof ec2d_value. exists s. split; [exact Hs|]. destruct Hs as [->| ->]; coordinates.
Qed.

Section Affine.
Context (q : ge_niels) (Q : point) (Hg : represents g p) (Hq : niels_of q Q).

Lemma nielsAdd_spec : represents (ed25519_ge_nielsAdd g q) (point_add p Q).
Proof using Hg Hq.
  destruct Hg as (s & Hs & Hx & Hy & Hz & Ht), Hq as (HZ & Qs & Qa & Qt). exists 1. split; [now left|].
  destruct Q as [Xq Yq Zq Tq]. cbn [X Y Z_ Rfc8032.T] in *. subst Zq. destruct Hs as [->| ->]; coordinates.
Qed.

Lemma nielsAddP1p1_spec signbit : signbit = 0 \/ signbit = 1 ->
  p1p1_of (ed25519_ge_nielsAddP1p1 g q signbit) (point_add p (if signbit =? 0 then Q else point_neg Q)).
Proof using Hg Hq.
  destruct Hg as (s & Hs & Hx & Hy & Hz & Ht), Hq as (HZ & Qs & Qa & Qt). intros Hb.
  destruct Q as [Xq Yq Zq Tq]. cbn [X Y Z_ Rfc8032.T] in *. subst Zq.
  exists 1. split; [now left|]. destruct Hb as [->| ->], Hs as [->| ->]; coordinates.
Qed.
End Affine.

Section Projective.
Context (q : ge_pniels) (Q : point) (Hg : represents g p) (Hq : pniels_of q Q).

Lemma pnielsAdd_spec : pniels_of (ed25519_ge_pnielsAdd g q) (point_add p Q).
Proof using Hg Hq.
  destruct Hg as (s & Hs & Hx & Hy & Hz & Ht), Hq as (s' & Hs' & Qs & Qa & Qz & Qt). pose proof ec2d_value. exists 1. split; [now left|].
  destruct Hs as [->| ->], Hs' as [->| ->]; coordinates.
Qed.

Lemma pnielsAddP1p1_spec signbit : signbit = 0 \/ signbit = 1 ->
  p1p1_of (ed25519_ge_pnielsAddP1p1 g q signbit) (point_add p (if signbit =? 0 then Q else point_neg Q)).
Proof using Hg Hq.
  destruct Hg as (s & Hs & Hx & Hy & Hz & Ht), Hq as (s' & Hs' & Qs & Qa & Qz & Qt). intros Hb.
  exists 1. split; [now left|]. destruct Hb as [->| ->], Hs as [->| ->], Hs' as [->| ->]; coordinates.
Qed.
End Projective.
End Points.

(** ** The curve *)

(** The curve equation and the relation of the extended coordinate. *)
Definition on_curve (p : point) : Prop :=
  Y p * Y p - X p * X p == Z_ p * Z_ p + d * (Rfc8032.T p * Rfc8032.T p) /\ X p * Y p == Z_ p * Rfc8032.T p.

Lemma on_curve_neutral : on_curve neutral.
Proof. split; exists 0; vm_compute; reflexivity. Qed.

Lemma point_neg_curve p : on_curve p -> on_curve (point_neg p).
Proof.
  intros [Hc Ht]. unfold on_curve, point_neg. cbn [X Y Z_ Rfc8032.T]. rewrite !modP. split.
  - transitivity (Y p * Y p - X p * X p); [apply eq_eqP; ring|]. rewrite Hc. apply eq_eqP. ring.
  - transitivity (-1 * (X p * Y p)); [apply eq_eqP; ring|]. rewrite Ht. apply eq_eqP. ring.
Qed.

(** A sum of products with factors that vanish. *)
Lemma vanish3 a b c x y z : x == 0 -> y == 0 -> z == 0 -> a * x + b * y + c * z == 0.
Proof. intros -> -> ->. apply eq_eqP. ring. Qed.

Lemma eqP_minus x y : x == y <-> x - y == 0.
Proof. split; [intros ->; apply eq_eqP; ring|]. intros H. transitivity (x - y + y); [apply eq_eqP; ring|]. rewrite H. apply eq_eqP. ring. Qed.

(** Why the addition formulas stay on the curve. *)
Lemma curve_algebra e f g h u v w c :
  h * h == e * e + f * f + c * (u * u) -> g * g - f * f == c * (u * u - v * v) -> h * h - (u * u - v * v) == w * w -> e * w == u * g ->
  (g * h) * (g * h) - (e * f) * (e * f) == (f * g) * (f * g) + c * ((e * h) * (e * h)).
Proof.
  intros H1 H2 H3 H4. apply eqP_minus.
  assert (g * g * (u * u) - e * e * (h * h - (u * u - v * v)) == 0) as H5.
  { rewrite H3. transitivity (g * g * (u * u) - (e * w) * (e * w)); [apply eq_eqP; ring|]. rewrite H4. apply eq_eqP. ring. }
  apply eqP_minus in H1, H2. rewrite <- (vanish3 (g * g) c (e * e) _ _ _ H1 H5 H2). apply eq_eqP. ring.
Qed.

Lemma point_add_curve p q : on_curve p -> on_curve q -> on_curve (point_add p q).
Proof.
  destruct p as [x1 y1 z1 t1], q as [x2 y2 z2 t2]. unfold on_curve, point_add. cbn [X Y Z_ Rfc8032.T]. rewrite !modP. intros [C1 E1] [C2 E2].
  split; [|apply eq_eqP; ring].
  set (e := x1 * y2 + x2 * y1). set (h := y1 * y2 + x1 * x2). set (f := z1 * z2 - d * (t1 * t2)). set (g := z1 * z2 + d * (t1 * t2)).
  set (u := z1 * t2 + t1 * z2). set (v := z1 * t2 - t1 * z2). set (w := y1 * y2 - x1 * x2).
  assert ((g * h) * (g * h) - (e * f) * (e * f) == (f * g) * (f * g) + d * ((e * h) * (e * h))) as Hmain.
  { apply (curve_algebra e f g h u v w).
    - transitivity (e * e + (y1 * y1 - x1 * x1) * (y2 * y2 - x2 * x2)); [apply eq_eqP; unfold e, h; ring|].
      rewrite C1, C2. apply eq_eqP. unfold e, f, u. ring.
    - apply eq_eqP. unfold g, f, u, v. ring.
    - transitivity (h * h - 4 * ((z1 * t1) * (z2 * t2))); [apply eq_eqP; unfold u, v; ring|]. rewrite <- E1, <- E2. apply eq_eqP. unfold h, w. ring.
    - transitivity ((x1 * y1) * (y2 * y2 - x2 * x2) + (x2 * y2) * (y1 * y1 - x1 * x1)); [apply eq_eqP; unfold e, w; ring|].
      rewrite E1, E2, C1, C2. apply eq_eqP. unfold u, g. ring. }
  apply eqP_minus. apply eqP_minus in Hmain. transitivity (16 * ((g * h) * (g * h) - (e * f) * (e * f) - ((f * g) * (f * g) + d * ((e * h) * (e * h))))).
  - apply eq_eqP. unfold e, f, g, h. ring.
  - rewrite Hmain. apply eq_eqP. ring.
Qed.

Lemma point_double_curve p : on_curve p -> on_curve (point_double p).
Proof.
  destruct p as [x y z t]. unfold on_curve, point_double. cbn [X Y Z_ Rfc8032.T]. rewrite !modP. intros [C1 E1].
  split; [|apply eq_eqP; ring]. apply eqP_minus.
  set (e := 2 * (x * y)). set (h := x * x + y * y). set (g := y * y - x * x). set (f := 2 * (z * z) - g).
  transitivity ((g * g + e * e) * (g * g - f * f - d * (e * e))); [apply eq_eqP; unfold e, f, g, h; ring|].
  assert (g * g - f * f - d * (e * e) == 0) as ->; [|apply eq_eqP; ring].
  unfold e, f. rewrite E1. change (y * y - x * x) with g in C1. rewrite C1. apply eq_eqP. ring.
Qed.

(** ** Encoding *)

Lemma sign_square s : sign s -> s * s = 1.
Proof. intros [->| ->]; reflexivity. Qed.

Lemma sign_pow s x : sign s -> (s * x) ^ (P - 2) = s * x ^ (P - 2).
Proof.
  intros [->| ->]; [now rewrite !Z.mul_1_l|]. replace (-1 * x) with (- x) by ring. rewrite Z.pow_opp_odd; [ring|]. exists (2 ^ 254 - 11). reflexivity.
Qed.

Lemma stands_residue a x : stands T a x -> canonical (curve25519_reduce a) /\ feval (curve25519_reduce a) = red x.
Proof.
  intros [Ha Ex]. destruct (reduce_correct a) as [Hc ->]; [now apply tight_loose|]. split; [exact Hc|]. now apply eqP_mod.
Qed.

Lemma stands_quotient n x z zi s : sign s -> stands T n (s * x) -> stands T zi ((s * z) ^ (P - 2)) ->
  canonical (curve25519_reduce (curve25519_mul n zi)) /\ feval (curve25519_reduce (curve25519_mul n zi)) = red (x * Zpow_facts.Zpow_mod z (P - 2) P).
Proof.
  intros Hs Hn Hz. rewrite sign_pow in Hz by exact Hs. apply stands_residue. eapply stands_eq; [field_value|].
  rewrite Zpow_facts.Zpow_mod_correct by easy. fold (red (z ^ (P - 2))). rewrite modP.
  transitivity (s * s * (x * z ^ (P - 2))); [apply eq_eqP; ring|]. rewrite sign_square by exact Hs. apply eq_eqP. ring.
Qed.

Lemma red_bound x : 0 <= red x < 2 ^ 255.
Proof. pose proof (Z.mod_pos_bound x P ltac:(easy)) as H. unfold red. change P with (2 ^ 255 - 19) in *. lia. Qed.

Lemma le_split_one x : le_split 1 x = [x mod 256].
Proof. reflexivity. Qed.

(** The sign bit goes into the top bit of the last byte. *)
Lemma set_top_bit y b : 0 <= y < 2 ^ 255 -> b = 0 \/ b = 1 ->
  set (le_split 32 y) 31 (get (le_split 32 y) 31 ^^ u8 (b << 7)) = le_split 32 (y .| b << 255).
Proof.
  intros Hy Hb. rewrite (shiftl_mul b 255), (shiftl_mul b 7), lor_add by lia.
  change 32%nat with (31 + 1)%nat. rewrite !le_split_add. change (256 ^ Z.of_nat 31) with (2 ^ 248).
  replace (y + b * 2 ^ 255) with (y + b * 128 * 2 ^ 248) by lia. rewrite Z.div_add by lia. rewrite !le_split_one.
  assert (0 <= y / 2 ^ 248 < 128) by (split; [apply Z.div_pos|apply Z.div_lt_upper_bound]; lia).
  unfold get. rewrite app_nth2 by (rewrite length_le_split; lia). rewrite length_le_split. cbn [nth Nat.sub].
  replace (le_split 31 (y + b * 128 * 2 ^ 248)) with (le_split 31 y).
  2: { rewrite <- (le_split_mod 31 (y + _)), <- (le_split_mod 31 y). change (256 ^ Z.of_nat 31) with (2 ^ 248). now rewrite Z_mod_plus_full. }
  rewrite !(Z.mod_small (y / 2 ^ 248)) by lia. rewrite (Z.mod_small (y / 2 ^ 248 + _)) by lia.
  assert (y / 2 ^ 248 ^^ u8 (b * 2 ^ 7) = y / 2 ^ 248 + b * 128) as ->.
  { rewrite (wrap_small 8) by lia. change (2 ^ 7) with 128. symmetry. change 128 with (2 ^ 7). rewrite (Z.mul_comm b). rewrite limb_lxor by lia. now rewrite shiftl_mul, Z.mul_comm by lia. }
  generalize (le_split 31 y) (length_le_split 31 y). intros l Hl. clear - Hl. revert Hl. generalize 31%nat. intros n <-. induction l; cbn; [reflexivity|]. now f_equal.
Qed.

(** The parity of a canonical element is that of its first limb. *)
Lemma feval_parity a : f0 a & 1 = feval a & 1.
Proof.
  rewrite !(land_mask 1) by (lia || reflexivity). unfold feval.
  replace (f0 a + 2 ^ 51 * f1 a + 2 ^ 102 * f2 a + 2 ^ 153 * f3 a + 2 ^ 204 * f4 a)
    with (f0 a + (2 ^ 50 * f1 a + 2 ^ 101 * f2 a + 2 ^ 152 * f3 a + 2 ^ 203 * f4 a) * 2 ^ 1) by ring.
  symmetry. apply Z_mod_plus_full.
Qed.

Lemma pack_spec g p : represents_partial g p -> ed25519_ge_pack g = point_compress p.
Proof.
  intros (s & Hs & Hx & Hy & Hz). unfold ed25519_ge_pack, point_compress. cbv zeta.
  assert (stands T (curve25519_invert (gz g)) ((s * Z_ p) ^ (P - 2))) as Hi.
  { destruct Hz as [Lz Ez]. destruct (invert_correct (gz g)) as [Li Ei]; [now apply tight_loose|]. split; [exact Li|]. now rewrite Ei, Ez. }
  destruct (stands_quotient _ (X p) (Z_ p) _ s Hs Hx Hi) as [Cx Vx]. destruct (stands_quotient _ (Y p) (Z_ p) _ s Hs Hy Hi) as [Cy Vy].
  rewrite store_correct, Vy, feval_parity, Vx by exact Cy. apply set_top_bit.
  - apply red_bound.
  - generalize (red (X p * Zpow_facts.Zpow_mod (Z_ p) (P - 2) P)). intros x. rewrite (land_mask 1) by (lia || reflexivity).
    pose proof (Z.mod_pos_bound x (2 ^ 1)). lia.
Qed.

(** ** Decoding *)

Lemma is_zero_spec a : canonical a -> is_zero a = (feval a =? 0).
Proof.
  intros Ha. unfold is_zero. destruct a as [a0 a1 a2 a3 a4]. unfold canonical, within in Ha. cbn [f0 f1 f2 f3 f4] in Ha. destruct Ha as (A0 & A1 & A2 & A3 & A4).
  assert (length (limb_bytes (Fe a0 a1 a2 a3 a4)) = 40%nat) as Hl by reflexivity.
  destruct (mem_compare_zero 40 (limb_bytes (Fe a0 a1 a2 a3 a4)) (limb_bytes curve25519_zero)) as [M1 M2]; [rewrite Hl; lia|cbn; lia|].
  rewrite !firstn_all2 in M1, M2 by (reflexivity || (rewrite Hl; lia)).
  assert (le_combine (limb_bytes (Fe a0 a1 a2 a3 a4)) = a0 + 2 ^ 64 * a1 + 2 ^ 128 * a2 + 2 ^ 192 * a3 + 2 ^ 256 * a4) as Hv.
  { unfold limb_bytes. rewrite !le_combine_app, !length_le_split, !le_combine_split. cbn [f0 f1 f2 f3 f4]. change (256 ^ Z.of_nat 8) with (2 ^ 64).
    rewrite !Z.mod_small by lia. ring. }
  unfold feval. cbn [f0 f1 f2 f3 f4]. destruct (Z.eqb_spec (a0 + 2 ^ 51 * a1 + 2 ^ 102 * a2 + 2 ^ 153 * a3 + 2 ^ 204 * a4) 0) as [E|E].
  - apply Z.eqb_eq, M2. assert (a0 = 0 /\ a1 = 0 /\ a2 = 0 /\ a3 = 0 /\ a4 = 0) as (-> & -> & -> & -> & ->) by lia. reflexivity.
  - apply Z.eqb_neq. intros H. apply M1 in H. rewrite H in Hv. change (le_combine (limb_bytes curve25519_zero)) with 0 in Hv. apply E. lia.
Qed.

Lemma sqrtneg1_value : stands T ed25519_ge_sqrtneg1 sqrt_m1 /\ sqrt_m1 * sqrt_m1 == -1.
Proof. split; [split; [unfold within, ed25519_ge_sqrtneg1; cbn [f0 f1 f2 f3 f4]; lia|]|]; apply eqP_mod; vm_compute; reflexivity. Qed.

Lemma powTwo252m3_value a x : stands T a x -> stands T (curve25519_powTwo252m3 a) (pow_mod (red x) ((P - 5) / 8)).
Proof.
  intros [La Ea]. destruct (powTwo252m3_correct a) as [Lr Er]; [now apply tight_loose|]. split; [exact Lr|].
  unfold pow_mod. rewrite Zpow_facts.Zpow_mod_correct by easy. fold (red (red x ^ ((P - 5) / 8))). rewrite Er, !modP, Ea. reflexivity.
Qed.

Lemma load_value p : bytes p -> stands T (curve25519_load p) (le_combine p mod 2 ^ 255).
Proof.
  intros Hb. destruct (load_correct p Hb) as [Hc Hv]. split; [|rewrite Hv; reflexivity]. apply (within_weaken (2 ^ 51 - 1)); [lia|exact Hc].
Qed.

(** The check of a square root candidate. *)
Lemma root_check a x : stands (2 ^ 54) a x -> is_zero (curve25519_reduce a) = (red x =? 0).
Proof.
  intros [La Ea]. destruct (reduce_correct a La) as [Hc Hv]. rewrite is_zero_spec, Hv by exact Hc. f_equal. now apply eqP_mod.
Qed.

Lemma stands_weaken B C a x : stands B a x -> B <= C -> stands C a x.
Proof. intros [La Ea] H. split; [now apply (within_weaken B)|exact Ea]. Qed.

Lemma one_value : stands 1 one 1.
Proof. split; [unfold within, one; cbn [f0 f1 f2 f3 f4]; lia|reflexivity]. Qed.

Lemma zero_value : stands T curve25519_zero 0.
Proof. split; [unfold within, curve25519_zero; cbn [f0 f1 f2 f3 f4]; lia|reflexivity]. Qed.

(** The square root of [num / den], when there is one. *)
Section SquareRoot.
Context (num den : fe) (u v : Z) (Hn : stands (T + 2 ^ 52) num u) (Hv : stands (T + 1) den v).

Definition cube_fe : fe := curve25519_mul (curve25519_squareN den 1) den.
Definition seventh_fe : fe := curve25519_mul (curve25519_mul (curve25519_squareN cube_fe 1) den) num.
Definition candidate_fe : fe := curve25519_mul (curve25519_mul (curve25519_powTwo252m3 seventh_fe) cube_fe) num.

Lemma cube_value : stands T cube_fe (v * v * v).
Proof using Hv. unfold cube_fe. field_eq. Qed.

Lemma seventh_value : stands T seventh_fe (u * (v * v * v * v * v * v * v)).
Proof using Hn Hv. pose proof cube_value. unfold seventh_fe. field_eq. Qed.

Lemma scaled_value w k : stands T w k -> stands T (curve25519_mul (curve25519_mul w cube_fe) num) (red (u * (v * v * v) * k)).
Proof using Hn Hv. intros Hw. pose proof cube_value. field_eq. Qed.

Lemma candidate_value : stands T candidate_fe (red (u * (v * v * v) * pow_mod (red (u * (v * v * v * v * v * v * v))) ((P - 5) / 8))).
Proof using Hn Hv. exact (scaled_value _ _ (powTwo252m3_value _ _ seventh_value)). Qed.

Lemma root_plus x r : stands T x r -> is_zero (curve25519_reduce (curve25519_subNoReduceFourP (curve25519_mul (curve25519_squareN x 1) den) num)) = (red (v * (r * r) - u) =? 0).
Proof using Hn Hv.
  intros Hx. apply root_check. eapply stands_weaken; [field_eq|lia].
Qed.

Lemma root_minus x r : stands T x r -> is_zero (curve25519_reduce (curve25519_addNoReduce (curve25519_mul (curve25519_squareN x 1) den) num)) = (red (v * (r * r) + u) =? 0).
Proof using Hn Hv.
  intros Hx. apply root_check. eapply stands_weaken; [field_eq|lia].
Qed.
End SquareRoot.

Lemma parity_mod2 x : x & 1 = x mod 2.
Proof. now apply (land_mask 1). Qed.

(** The last step: the other parity, and the extended coordinate. *)
Lemma finish_unpack x y r yv parity : stands T x r -> stands T y yv ->
  let x := curve25519_reduce x in
  let x := if (f0 x & 1) =? parity then curve25519_sub curve25519_zero x else x in
  let r := red r in
  let r := if r mod 2 =? parity then red (- r) else r in
  represents (Ge x y one (curve25519_mul x y)) (Point r yv 1 (red (r * yv))).
Proof.
  intros Hx Hy. cbv zeta. destruct (stands_residue x r Hx) as [Hc Hv]. rewrite feval_parity, Hv, parity_mod2.
  assert (stands T (curve25519_reduce x) (red r)) as Hr by (split; [apply (within_weaken (2 ^ 51 - 1)); [lia|exact Hc]|now rewrite Hv]).
  pose proof zero_value as H0. pose proof (stands_weaken _ T _ _ one_value ltac:(lia)) as H1.
  exists 1. split; [now left|]. cbn [gx gy gz gt X Y Z_ Rfc8032.T]. destruct (red r mod 2 =? parity).
  - assert (stands T (curve25519_sub curve25519_zero (curve25519_reduce x)) (- red r)) as Hs by field_eq.
    set (nx := curve25519_sub _ _) in *. clearbody nx. split_and; field_eq.
  - split_and; field_eq.
Qed.

Lemma red_red x : red (red x) = red x.
Proof. unfold red. now apply Z.mod_mod. Qed.

Lemma unpack_spec p : bytes p ->
  match ed25519_ge_unpackNegativeVartime p, decompress_negative p with
  | Some g, Some q => represents g q
  | None, None => True
  | _, _ => False
  end.
Proof.
  intros Hb. unfold ed25519_ge_unpackNegativeVartime, decompress_negative, square_root, candidate. cbv zeta.
  rewrite shiftr_div by lia. change (2 ^ 7) with 128.
  pose proof (load_value p Hb) as Hy. set (y := curve25519_load p) in *. set (yv := le_combine p mod 2 ^ 255) in *. clearbody y yv.
  pose proof ecd_value as Hd. pose proof one_value as H1.
  set (num := curve25519_subNoReduce (curve25519_squareN y 1) one). set (den := curve25519_addNoReduce (curve25519_mul (curve25519_squareN y 1) ed25519_ge_ecd) one).
  set (u := yv * yv - 1). set (v := d * (yv * yv) + 1).
  assert (stands (T + 2 ^ 52) num u) as Hn by (unfold num, u; field_eq).
  assert (stands (T + 1) den v) as Hv by (unfold den, v; field_eq).
  clearbody num den u v. fold (cube_fe den). fold (seventh_fe num den). fold (candidate_fe num den). pose proof (candidate_value num den u v Hn Hv) as Hx.
  set (x := candidate_fe num den) in *. set (r := red (u * _ * _)) in *. assert (red r = r) as Hrr by (unfold r; apply red_red). clearbody x r.
  rewrite (root_plus num den u v Hn Hv x r Hx), (root_minus num den u v Hn Hv x r Hx).
  destruct (red (v * (r * r) - u) =? 0).
  - pose proof (finish_unpack x y r yv (get p 31 / 128) Hx Hy) as Hf. cbv zeta in Hf. rewrite Hrr in Hf. exact Hf.
  - destruct (red (v * (r * r) + u) =? 0); [|exact I]. destruct sqrtneg1_value as [Hi _].
    assert (stands T (curve25519_mul x ed25519_ge_sqrtneg1) (r * sqrt_m1)) as Hx2 by field_eq.
    exact (finish_unpack _ y _ yv (get p 31 / 128) Hx2 Hy).
Qed.

(** What decoding returns lies on the curve. *)
Lemma decompress_curve p q : decompress_negative p = Some q -> on_curve q.
Proof.
  unfold decompress_negative. set (y := le_combine p mod 2 ^ 255). unfold square_root. set (u := y * y - 1). set (v := d * (y * y) + 1).
  set (x := candidate y). destruct sqrtneg1_value as [_ Hi].
  assert (forall r b, v * (r * r) == u -> on_curve (let r := if b : bool then red (- r) else r in Point r y 1 (red (r * y)))) as Hroot.
  { intros r b Hr. unfold on_curve. destruct b; cbn [X Y Z_ Rfc8032.T]; rewrite !modP; (split; [|apply eq_eqP; ring]).
    all: transitivity (1 + y * y - 1 - r * r); [apply eq_eqP; ring|]. all: apply eqP_minus; apply eqP_minus in Hr.
    all: transitivity (-1 * (v * (r * r) - u)); [apply eq_eqP; unfold u, v; ring|]. all: rewrite Hr; apply eq_eqP; ring. }
  assert (forall z, (red z =? 0) = true -> z == 0) as H0 by (intros z Hz; apply Z.eqb_eq in Hz; now apply eqP_mod).
  destruct (red (v * (x * x) - u) =? 0) eqn:E1; [|destruct (red (v * (x * x) + u) =? 0) eqn:E2]; [| |discriminate]; intros [= <-]; apply (Hroot _ _).
  - apply eqP_minus, H0, E1.
  - rewrite !modP. transitivity (v * (x * x) * (sqrt_m1 * sqrt_m1)); [apply eq_eqP; ring|]. rewrite Hi. apply H0 in E2.
    apply eqP_minus. transitivity (-1 * (v * (x * x) + u)); [apply eq_eqP; ring|]. rewrite E2. apply eq_eqP. ring.
Qed.

(** ** The point operations *)

(** C20: On structures that represent points of the curve, every operation of the code
    computes RFC 8032's addition, doubling or negation and its result represents a point of the
    curve again, limbs in bounds for the next operation: doubling (full and without [t]),
    adding a table entry or a cached point, subtracting one (the sign bit), and the
    conversion to a cached point.  Packing a structure gives the encoding of its point,
    and unpacking bytes succeeds exactly when decoding with the opposite sign does, with a structure of
    that point of the curve. *)
Theorem ed25519_ge_correct g p : represents g p -> on_curve p ->
  (represents (ed25519_ge_double g) (point_double p) /\ on_curve (point_double p) /\
   forall r, represents_partial (ed25519_ge_doublePartial r g) (point_double p)) /\
  (forall q Q, niels_of q Q -> on_curve Q -> on_curve (point_add p Q) /\
     represents (ed25519_ge_nielsAdd g q) (point_add p Q) /\
     represents (ed25519_ge_p1p1ToFull (ed25519_ge_nielsAddP1p1 g q 0)) (point_add p Q) /\
     represents (ed25519_ge_p1p1ToFull (ed25519_ge_nielsAddP1p1 g q 1)) (point_add p (point_neg Q)) /\ on_curve (point_add p (point_neg Q))) /\
  (forall q Q, pniels_of q Q -> on_curve Q -> on_curve (point_add p Q) /\
     pniels_of (ed25519_ge_pnielsAdd g q) (point_add p Q) /\
     represents (ed25519_ge_p1p1ToFull (ed25519_ge_pnielsAddP1p1 g q 0)) (point_add p Q) /\
     represents (ed25519_ge_p1p1ToFull (ed25519_ge_pnielsAddP1p1 g q 1)) (point_add p (point_neg Q)) /\ on_curve (point_add p (point_neg Q))) /\
  pniels_of (ed25519_ge_fullToPniels g) p /\
  ed25519_ge_pack g = point_compress p /\
  (forall s, bytes s -> match decompress_negative s with
     | Some q => exists h, ed25519_ge_unpackNegativeVartime s = Some h /\ represents h q /\ on_curve q
     | None => ed25519_ge_unpackNegativeVartime s = None
     end).
Proof.
  intros Hg Hp. pose proof (p1p1_double g p (represents_forget _ _ Hg)) as Hd.
  split; [|split; [|split; [|split; [|split]]]].
  - split; [exact Hd|]. split; [now apply point_double_curve|]. intros r. now apply p1p1_partial.
  - intros q Q Hq HQ. split; [now apply point_add_curve|]. split; [now apply nielsAdd_spec|].
    split; [apply (nielsAddP1p1_spec g p q Q Hg Hq 0); now left|].
    split; [apply (nielsAddP1p1_spec g p q Q Hg Hq 1); now right|now apply point_add_curve, point_neg_curve].
  - intros q Q Hq HQ. split; [now apply point_add_curve|]. split; [now apply pnielsAdd_spec|].
    split; [apply (pnielsAddP1p1_spec g p q Q Hg Hq 0); now left|].
    split; [apply (pnielsAddP1p1_spec g p q Q Hg Hq 1); now right|now apply point_add_curve, point_neg_curve].
  - now apply fullToPniels_spec.
  - apply pack_spec. now apply represents_forget.
  - intros s Hs. pose proof (unpack_spec s Hs) as Hu. destruct (decompress_negative s) as [q|] eqn:E.
    + destruct (ed25519_ge_unpackNegativeVartime s) as [h|]; [|contradiction]. exists h. split; [reflexivity|]. split; [exact Hu|]. now apply (decompress_curve s).
    + now destruct (ed25519_ge_unpackNegativeVartime s).
Qed.

(** The neutral element, and a table entry for it. *)
Lemma ed25519_ge_correct_witness :
  let g := Ge curve25519_zero one one curve25519_zero in let q := Niels one one curve25519_zero in
  (represents g neutral /\ on_curve neutral /\ niels_of q neutral) /\
  represents (ed25519_ge_double (ed25519_ge_nielsAdd g q)) (point_double (point_add neutral neutral)).
Proof.
  intros g q. pose proof zero_value as H0. pose proof (stands_weaken _ EdPoint.T _ _ one_value ltac:(lia)) as H1.
  assert (represents g neutral) as Hg by (exists 1; split; [now left|]; exact (conj H0 (conj H1 (conj H1 H0)))).
  assert (niels_of q neutral) as Hq by exact (conj eq_refl (conj H1 (conj H1 H0))).
  split; [exact (conj Hg (conj on_curve_neutral Hq))|].
  pose proof (proj1 (proj2 (ed25519_ge_correct g neutral Hg on_curve_neutral)) q neutral Hq on_curve_neutral) as (Hc & Ha & _).
  exact (proj1 (proj1 (ed25519_ge_correct _ _ Ha Hc))).
Defined.
