(* ===== verification/Ed25519.v ===== *)
(** * Ed25519 signatures ([src/hc/core/hc/crypto/ed25519.c])

    Scalar multiplication of the base point and of two points at once, and key
    derivation, signing, verification and the X25519 base point multiplication on top
    of them. *)
From Stdlib Require Import ZArith List Lia Bool Setoid Morphisms.
From S2P Require Import Prelude Mem Stream Sha Sha512 Curve25519 X25519 Modm EdTable EdPoint.
Import ListNotations.

(** ** Scalar multiplication *)

(** [slide1[i] | slide2[i]], skipped while zero from 255 down: the number of digits left. *)
Fixpoint skip_zeros (n : nat) (slide1 slide2 : list Z) : nat :=
  match n with
  | O => O
  | S i => if (get slide1 i .| get slide2 i) =? 0 then skip_zeros i slide1 slide2 else n
  end.

(** [(uint8_t)slide >> 7] and [hc_ABS32(slide) >> 1]. *)
Definition signbit (x : Z) : Z := u8 x >> 7.
Definition half_abs (x : Z) : nat := Z.to_nat (Z.abs x >> 1).

Definition pniels0 : ge_pniels := Pniels curve25519_zero curve25519_zero curve25519_zero curve25519_zero.
Definition niels0 : ge_niels := Niels curve25519_zero curve25519_zero curve25519_zero.

(** The odd multiples [pre1] from [pre] on, [n] more. *)
Fixpoint odd_multiples (n : nat) (d1 : ge) (pre : ge_pniels) : list ge_pniels :=
  match n with
  | O => [pre]
  | S n' => pre :: odd_multiples n' d1 (ed25519_ge_pnielsAdd d1 pre)
  end.

(** One iteration, for digit [i]. *)
Definition vartime_step (pre1 : list ge_pniels) (slide1 slide2 : list Z) (r : ge) (i : nat) : ge :=
  let t := ed25519_ge_doubleP1p1 r in
  let '(r, t) :=
    if get slide1 i =? 0 then (r, t)
    else let r := ed25519_ge_p1p1ToFull t in
      (r, ed25519_ge_pnielsAddP1p1 r (nth (half_abs (get slide1 i)) pre1 pniels0) (signbit (get slide1 i))) in
  let '(r, t) :=
    if get slide2 i =? 0 then (r, t)
    else let r := ed25519_ge_p1p1ToFull t in
      (r, ed25519_ge_nielsAddP1p1 r (nth (half_abs (get slide2 i)) ed25519_ge_nielsSlidingMultiples niels0) (signbit (get slide2 i))) in
  ed25519_ge_p1p1ToPartial r t.

Definition neutral_ge : ge := Ge curve25519_zero one one curve25519_zero.

Definition ed25519_ge_doubleScalarmultVartime (p1 : ge) (s1 s2 : fe) : ge :=
  let slide1 := ed25519_modm_window s1 15 in
  let slide2 := ed25519_modm_window s2 63 in
  let d1 := ed25519_ge_double p1 in
  let pre1 := odd_multiples 7 d1 (ed25519_ge_fullToPniels p1) in
  fold_left (vartime_step pre1 slide1 slide2) (rev (seq 0 (skip_zeros 256 slide1 slide2))) neutral_ge.

(** The 12 words of [out]. *)
Definition ed25519_move96BytesConditional (out inp : list Z) (flag : Z) : list Z :=
  let nb := u64 (flag - 1) in
  let b := u64 (Z.lnot nb) in
  map (fun i => (get out i & nb) .| (get inp i & b)) (seq 0 12).

(** 32 bytes of the words of [packed] from word [i] on, as a field element. *)
Definition load_packed (packed : list Z) (i : nat) : fe :=
  curve25519_load (flat_map (le_split 8) (firstn 4 (skipn i packed))).

Definition ed25519_ge_scalarmultBaseChooseNiels (pos : nat) (b : Z) : ge_niels :=
  let sign := u8 b >> 7 in
  let mask := u32 (Z.lnot (u32 (sign - 1))) in
  let u := u32 (u32 b + mask) ^^ mask in
  let packed := [1; 0; 0; 0; 1; 0; 0; 0; 0; 0; 0; 0] in
  let packed := fold_left (fun packed i =>
      ed25519_move96BytesConditional packed (nth (8 * pos + i) ed25519_ge_nielsBaseMultiples []) (u32 ((u ^^ Z.of_nat (i + 1)) - 1) >> 31))
    (seq 0 8) packed in
  let '(ysubx, xaddy) := curve25519_cSwap (load_packed packed 0) (load_packed packed 4) sign in
  let t2d := load_packed packed 8 in
  let neg := curve25519_sub curve25519_zero t2d in
  let '(t2d, neg) := curve25519_cSwap t2d neg sign in
  Niels ysubx xaddy t2d.

(** [for (i = start; i < 64; i += 2)]. *)
Definition add_digits (b : list Z) (start : nat) (r : ge) : ge :=
  fold_left (fun r i => ed25519_ge_nielsAdd r (ed25519_ge_scalarmultBaseChooseNiels (i / 2) (get b i)))
    (map (fun k => (start + 2 * k)%nat) (seq 0 ((65 - start) / 2))) r.

Definition ed25519_ge_scalarmultBaseNiels (s : fe) : ge :=
  let b := ed25519_modm_window4 s in
  let t := ed25519_ge_scalarmultBaseChooseNiels 0 (get b 1) in
  let r := Ge (curve25519_sub (xaddy t) (ysubx t)) (curve25519_add (xaddy t) (ysubx t)) (Fe 2 0 0 0 0) (t2d t) in
  let r := add_digits b 3 r in
  let r := ed25519_ge_doublePartial r r in
  let r := ed25519_ge_doublePartial r r in
  let r := ed25519_ge_doublePartial r r in
  let r := ed25519_ge_double r in
  let t := ed25519_ge_scalarmultBaseChooseNiels 0 (get b 0) in
  let t := Niels (ysubx t) (xaddy t) (curve25519_mul (t2d t) ed25519_ge_ecd) in
  let r := ed25519_ge_nielsAdd r t in
  add_digits b 2 r.

(** ** Signatures *)

(** The local [struct sha512] before [sha512_init]: its buffer is not initialised. *)
Definition hash (stack : list Z) (chunks : list (list Z)) : list Z :=
  sha512_finish (fold_left sha512_update chunks (sha512_init (Stream (ShaCore [] 0) stack 0))).

(** [[0] &= 248; [31] &= 127; [31] |= 64]. *)
Definition clamp (e : list Z) : list Z :=
  let e := set e 0 (get e 0 & 248) in
  let e := set e 31 (get e 31 & 127) in
  set e 31 (get e 31 .| 64).

Definition ed25519_extSecret (stack secret : list Z) : list Z := clamp (hash stack [firstn 32 secret]).

Definition ed25519_hram (stack signature public message : list Z) : list Z :=
  hash stack [firstn 32 signature; firstn 32 public; message].

Definition ed25519_public (stack secret : list Z) : list Z :=
  let extSecret := ed25519_extSecret stack secret in
  let a := ed25519_modm_load extSecret false in
  ed25519_ge_pack (ed25519_ge_scalarmultBaseNiels a).

(** The 64 bytes of [signatureOut]. *)
Definition ed25519_sign (stack message secret public : list Z) : list Z :=
  let extSecret := ed25519_extSecret stack secret in
  let hashr := hash stack [firstn 32 (skipn 32 extSecret); message] in
  let r := ed25519_modm_load hashr true in
  let R := ed25519_ge_pack (ed25519_ge_scalarmultBaseNiels r) in
  let hram := ed25519_hram stack R public message in
  let S := ed25519_modm_load hram true in
  let a := ed25519_modm_load extSecret false in
  let S := ed25519_modm_mul S a in
  let S := ed25519_modm_add S r in
  R ++ ed25519_modm_store S.

Definition ed25519_verify (stack message public signature : list Z) : Z :=
  if negb (get signature 63 & 224 =? 0) then 1
  else
    match ed25519_ge_unpackNegativeVartime (firstn 32 public) with
    | None => 1
    | Some A =>
        let hram := ed25519_modm_load (ed25519_hram stack signature public message) true in
        let S := ed25519_modm_load (firstn 32 (skipn 32 signature)) false in
        let R := ed25519_ge_doubleScalarmultVartime A hram S in
        mem_compare signature (ed25519_ge_pack R) 32
    end.

Definition ed25519_x25519Basepoint (secret : list Z) : list Z :=
  let ec := clamp (firstn 32 secret) in
  let s := ed25519_modm_load ec false in
  let p := ed25519_ge_scalarmultBaseNiels s in
  let yplusz := curve25519_addNoReduce (gy p) (gz p) in
  let zminusy := curve25519_subNoReduce (gz p) (gy p) in
  let zminusy := curve25519_invert zminusy in
  let yplusz := curve25519_mul yplusz zminusy in
  curve25519_store (curve25519_reduce yplusz).

(** ** Reference: the same digits over the points of RFC 8032 *)

Import Rfc8032.
Open Scope word_scope.

Definition half : Z := 2 ^ 254 - 9.
Definition inv_2d : Z := 0x60483F690A6AE721958B108A66DCE7B305AEEB4C213CAA1712F0793B66E4FC18.

(** A precomputed point as the three numbers [y - x], [y + x], [t]. *)
Record triple := Triple { ys : Z; xa : Z; t2 : Z }.
Definition niels_point (k : Z) (n : triple) : point :=
  Point (red ((xa n - ys n) * half)) (red ((xa n + ys n) * half)) 1 (red (t2 n * k)).
Definition triple_neg (n : triple) : triple := Triple (xa n) (ys n) (- t2 n).

(** The number in four words of a row. *)
Definition row_number (row : list Z) (i : nat) : Z := le_combine (flat_map (le_split 8) (firstn 4 (skipn i row))) mod 2 ^ 255.
Definition row_triple (row : list Z) : triple := Triple (row_number row 0) (row_number row 4) (row_number row 8).
(** The multiple [b] of the base point at [pos]. *)
Definition digit_triple (pos : nat) (b : Z) : triple :=
  if b =? 0 then Triple 1 1 0
  else let n := row_triple (nth (8 * pos + Z.to_nat (Z.abs b - 1)) ed25519_ge_nielsBaseMultiples []) in
       if b <? 0 then triple_neg n else n.

Definition add_points (q : nat -> Z -> point) (ds : list Z) (start : nat) (p : point) : point :=
  fold_left (fun p i => point_add p (q (i / 2)%nat (get ds i))) (map (fun k => (start + 2 * k)%nat) (seq 0 ((65 - start) / 2))) p.

(** [sum ds_i 16^i] times the base point: the odd digits, four doublings, the even digits.
    The rows of position 0 hold [2xy] instead of [2dxy], so that they can start the sum. *)
Definition comb (ds : list Z) : point :=
  let q pos b := niels_point inv_2d (digit_triple pos b) in
  let n := digit_triple 0 (get ds 1) in
  let p := Point (red (xa n - ys n)) (red (xa n + ys n)) 2 (t2 n) in
  let p := add_points q ds 3 p in
  let p := point_double (point_double (point_double (point_double p))) in
  let p := point_add p (niels_point half (digit_triple 0 (get ds 0))) in
  add_points q ds 2 p.

(** [n] times the base point. *)
Definition base_multiple (n : Z) (p : point) : Prop := exists ds,
  length ds = 64%nat /\ dvalue 4 ds = n /\ Forall (fun d => -8 <= d <= 8) ds /\ p = comb ds.

(** ** Choosing a precomputed point *)

(** Limbs that stand for a triple. *)
Definition niels_value (q : ge_niels) (n : triple) : Prop :=
  stands EdPoint.T (ysubx q) (ys n) /\ stands EdPoint.T (xaddy q) (xa n) /\ stands EdPoint.T (t2d q) (t2 n).

Lemma half_two x : x * half * 2 == x.
Proof. assert (half * 2 == 1) as E by (exists 1; reflexivity). transitivity (x * (half * 2)); [apply eq_eqP; ring|]. rewrite E. apply eq_eqP. ring. Qed.

Lemma inv_2d_value : 2 * d * inv_2d == 1.
Proof. apply eqP_mod. vm_compute. reflexivity. Qed.

Lemma niels_point_of q n k y : niels_value q n -> 2 * d * k == y -> forall t, stands EdPoint.T t (t2 n * y) -> niels_of (Niels (ysubx q) (xaddy q) t) (niels_point k n).
Proof.
  intros (Hy & Hx & _) Hk t Ht. unfold niels_of, niels_point. cbn [X Y Z_ Rfc8032.T ysubx xaddy t2d]. split; [reflexivity|].
  split; [|split]; (eapply stands_eq; [eassumption|]); rewrite ?modP.
  - transitivity (ys n * half * 2); [now rewrite half_two|apply eq_eqP; ring].
  - transitivity (xa n * half * 2); [now rewrite half_two|apply eq_eqP; ring].
  - rewrite <- Hk. apply eq_eqP. ring.
Qed.

Lemma niels_digit q n : niels_value q n -> niels_of q (niels_point inv_2d n).
Proof.
  intros H. destruct q as [qy qx qt]. apply (niels_point_of (Niels qy qx qt) n inv_2d 1 H inv_2d_value).
  destruct H as (_ & _ & H). eapply stands_eq; [exact H|]. apply eq_eqP. ring.
Qed.

(** The conditional move. *)
Definition words64 (l : list Z) : Prop := length l = 12%nat /\ Forall (fun x => 0 <= x < 2 ^ 64) l.

Lemma get_word64 l i : words64 l -> 0 <= get l i < 2 ^ 64.
Proof.
  intros [Hl Hf]. unfold get. destruct (Nat.lt_ge_cases i (length l)) as [Hi|Hi]; [|rewrite nth_overflow by lia; lia].
  apply (proj1 (Forall_forall _ _) Hf). now apply nth_In.
Qed.

Lemma map_get l n : length l = n -> map (fun i => get l i) (seq 0 n) = l.
Proof.
  revert n. induction l as [|x l IH]; intros n <-; [reflexivity|]. cbn [List.length seq map]. f_equal.
  rewrite <- seq_shift, map_map. now apply IH.
Qed.

Lemma move_spec out inp flag : words64 out -> words64 inp -> flag = 0 \/ flag = 1 ->
  ed25519_move96BytesConditional out inp flag = if flag =? 0 then out else inp.
Proof.
  intros Ho Hi Hf. unfold ed25519_move96BytesConditional. cbv zeta.
  destruct Hf as [->| ->]; cbn [Z.eqb];
    [transitivity (map (fun i => get out i) (seq 0 12)); [|apply map_get, Ho]|transitivity (map (fun i => get inp i) (seq 0 12)); [|apply map_get, Hi]];
    apply map_ext; intros i.
  - change (u64 (0 - 1)) with (Z.ones 64). change (u64 (Z.lnot (Z.ones 64))) with 0. rewrite Z.land_0_r, Z.lor_0_r, Z.land_ones by lia.
    apply Z.mod_small, get_word64, Ho.
  - change (u64 (1 - 1)) with 0. change (u64 (Z.lnot 0)) with (Z.ones 64). rewrite Z.land_0_r, Z.lor_0_l, Z.land_ones by lia.
    apply Z.mod_small, get_word64, Hi.
Qed.

Lemma table_words : forallb (fun r => (length r =? 12)%nat && forallb (fun x => (0 <=? x) && (x <? 2 ^ 64)) r) ed25519_ge_nielsBaseMultiples = true /\
  length ed25519_ge_nielsBaseMultiples = 256%nat.
Proof. vm_compute. auto. Qed.

Lemma row_words i : (i < 256)%nat -> words64 (nth i ed25519_ge_nielsBaseMultiples []).
Proof.
  intros Hi. destruct table_words as [Hf Hl]. rewrite forallb_forall in Hf. specialize (Hf (nth i ed25519_ge_nielsBaseMultiples [])).
  rewrite andb_true_iff, Nat.eqb_eq, forallb_forall in Hf. destruct Hf as [H1 H2]; [apply nth_In; lia|]. split; [exact H1|].
  apply Forall_forall. intros x Hx. specialize (H2 x Hx). apply andb_true_iff in H2 as [H2 H3]. apply Z.leb_le in H2. apply Z.ltb_lt in H3. lia.
Qed.

(** The flags of the eight moves for a digit. *)
Lemma choose_flags b : -8 <= b <= 8 ->
  let sign := u8 b >> 7 in
  let mask := u32 (Z.lnot (u32 (sign - 1))) in
  let u := u32 (u32 b + mask) ^^ mask in
  sign = (if b <? 0 then 1 else 0) /\
  forall i, (i < 8)%nat -> u32 ((u ^^ Z.of_nat (i + 1)) - 1) >> 31 = if Z.abs b =? Z.of_nat (i + 1) then 1 else 0.
Proof.
  intros Hb. assert (In b [-8; -7; -6; -5; -4; -3; -2; -1; 0; 1; 2; 3; 4; 5; 6; 7; 8]) as Hin by (cbn; lia).
  assert (forall i, (i < 8)%nat -> In i [0; 1; 2; 3; 4; 5; 6; 7]%nat) as Hi by (intros; cbn; lia).
  cbn [In] in Hin. repeat destruct Hin as [<-|Hin]; try contradiction; (split; [reflexivity|]); intros i Hi8; specialize (Hi i Hi8); clear Hi8 Hb;
    cbn [In] in Hi; repeat destruct Hi as [<-|Hi]; try contradiction; reflexivity.
Qed.

(** Of the moves of the rows [0 .. n-1] at most the one of row [k - 1] is made. *)
Lemma move_fold (rows : nat -> list Z) (flag : nat -> Z) k out : words64 out -> forall n, (forall i, (i < n)%nat -> words64 (rows i) /\ flag i = if k =? Z.of_nat (i + 1) then 1 else 0) ->
  fold_left (fun p i => ed25519_move96BytesConditional p (rows i) (flag i)) (seq 0 n) out = if (0 <? k) && (k <=? Z.of_nat n) then rows (Z.to_nat (k - 1)) else out.
Proof.
  intros Ho. induction n as [|n IH]; intros Hr.
  - cbn [seq fold_left]. destruct (Z.ltb_spec 0 k), (Z.leb_spec k (Z.of_nat 0)); try reflexivity. lia.
  - rewrite seq_S, fold_left_app. cbn [fold_left Nat.add]. rewrite IH by (intros; apply Hr; lia). destruct (Hr n ltac:(lia)) as [Hw ->].
    rewrite move_spec; [| |exact Hw|destruct (k =? Z.of_nat (n + 1)); auto].
    + destruct (Z.eqb_spec k (Z.of_nat (n + 1))) as [->|E]; cbn [Z.eqb].
      * replace ((0 <? Z.of_nat (n + 1)) && (Z.of_nat (n + 1) <=? Z.of_nat (S n))) with true by (symmetry; apply andb_true_iff; split; [apply Z.ltb_lt|apply Z.leb_le]; lia). f_equal. lia.
      * destruct (Z.ltb_spec 0 k), (Z.leb_spec k (Z.of_nat n)), (Z.leb_spec k (Z.of_nat (S n))); try reflexivity; lia.
    + destruct (Z.ltb_spec 0 k), (Z.leb_spec k (Z.of_nat n)); cbn [andb]; try exact Ho. apply Hr. lia.
Qed.

Lemma load_packed_value row i : stands EdPoint.T (load_packed row i) (row_number row i).
Proof.
  apply load_value. generalize (firstn 4 (skipn i row)). intros l. induction l as [|x l IH]; cbn [flat_map]; [constructor|].
  apply bytes_app. split; [apply bytes_le_split|exact IH].
Qed.

Lemma choose_spec pos b : (pos < 32)%nat -> -8 <= b <= 8 -> niels_value (ed25519_ge_scalarmultBaseChooseNiels pos b) (digit_triple pos b).
Proof.
  intros Hpos Hb. unfold ed25519_ge_scalarmultBaseChooseNiels. destruct (choose_flags b Hb) as [Hs Hf]. cbv zeta.
  assert (words64 [1; 0; 0; 0; 1; 0; 0; 0; 0; 0; 0; 0]) as H0 by (split; [reflexivity|]; repeat (constructor; [lia|]); constructor).
  rewrite (move_fold (fun i => nth (8 * pos + i) ed25519_ge_nielsBaseMultiples []) _ (Z.abs b) _ H0 8).
  2: { intros i Hi. split; [apply row_words; lia|now apply Hf]. }
  rewrite Hs. set (packed := if _ && _ then _ else _). pose proof zero_value as Hz.
  pose proof (load_packed_value packed 0) as L0. pose proof (load_packed_value packed 4) as L4. pose proof (load_packed_value packed 8) as L8.
  assert (stands EdPoint.T (curve25519_sub curve25519_zero (load_packed packed 8)) (- row_number packed 8)) as Ln by field_eq.
  rewrite !cSwap_correct by (try (eapply tight_u64; match goal with H : stands _ ?a _ |- within _ ?a => exact (proj1 H) end); destruct (b <? 0); auto).
  assert (digit_triple pos b = if b <? 0 then triple_neg (row_triple packed) else row_triple packed) as ->.
  { unfold digit_triple, packed. destruct (Z.eqb_spec b 0) as [->|E].
    - cbn [Z.abs Z.ltb Z.compare andb]. vm_compute. reflexivity.
    - replace ((0 <? Z.abs b) && (Z.abs b <=? Z.of_nat 8)) with true by (symmetry; apply andb_true_iff; split; [apply Z.ltb_lt|apply Z.leb_le]; lia). reflexivity. }
  destruct (b <? 0); cbn [Z.eqb Pos.eqb]; (split; [|split]); cbn [ysubx xaddy t2d triple_neg row_triple ys xa t2]; assumption.
Qed.

(** ** The scalar multiplication of the base point *)

Definition digits_ok (ds : list Z) : Prop := Forall (fun d => -8 <= d <= 8) ds.

Lemma get_digit_ok ds i : digits_ok ds -> -8 <= get ds i <= 8.
Proof.
  intros Hd. unfold get. destruct (Nat.lt_ge_cases i (length ds)) as [Hi|Hi]; [|rewrite nth_overflow by lia; lia].
  apply (proj1 (Forall_forall _ _) Hd). now apply nth_In.
Qed.

Lemma add_digits_spec ds start r p : digits_ok ds -> (start < 64)%nat -> represents r p ->
  represents (add_digits ds start r) (add_points (fun pos b => niels_point inv_2d (digit_triple pos b)) ds start p).
Proof.
  intros Hd Hstart. unfold add_digits, add_points.
  assert (Forall (fun i => (i < 64)%nat) (map (fun k => (start + 2 * k)%nat) (seq 0 ((65 - start) / 2)))) as Hi.
  { apply Forall_forall. intros i Hi. apply in_map_iff in Hi as (k & <- & Hk). apply in_seq in Hk.
    pose proof (Nat.Div0.mul_div_le (65 - start) 2). lia. }
  revert r p. induction Hi as [|i l Hi _ IH]; intros r p Hr; cbn [fold_left]; [exact Hr|]. apply IH, nielsAdd_spec; [exact Hr|].
  apply niels_digit, choose_spec; [apply Nat.Div0.div_lt_upper_bound; lia|now apply get_digit_ok].
Qed.

Lemma doublePartial_spec r p : represents_partial r p -> represents_partial (ed25519_ge_doublePartial r r) (point_double p).
Proof. intros Hr. apply p1p1_partial. now apply p1p1_double. Qed.

(** The two ways a row of position 0 is used: as the first sum, and with [t] times d. *)
Lemma start_value q n : niels_value q n ->
  represents (Ge (curve25519_sub (xaddy q) (ysubx q)) (curve25519_add (xaddy q) (ysubx q)) (Fe 2 0 0 0 0) (t2d q))
    (Point (red (xa n - ys n)) (red (xa n + ys n)) 2 (t2 n)).
Proof.
  destruct q as [qy qx qt]. intros (Hy & Hx & Ht). cbn [ysubx xaddy t2d] in *. exists 1. split; [now left|]. cbn [gx gy gz gt X Y Z_ Rfc8032.T].
  assert (stands EdPoint.T (Fe 2 0 0 0 0) 2) as H2 by (split; [unfold within; cbn [f0 f1 f2 f3 f4]; lia|reflexivity]). split_and; field_eq.
Qed.

Lemma first_value q n : niels_value q n -> niels_of (Niels (ysubx q) (xaddy q) (curve25519_mul (t2d q) ed25519_ge_ecd)) (niels_point half n).
Proof.
  intros H. apply (niels_point_of _ _ half d H); [transitivity (d * half * 2); [apply eq_eqP; ring|apply half_two]|].
  destruct q as [qy qx qt], H as (_ & _ & Ht). cbn [ysubx xaddy t2d] in *. pose proof ecd_value. field_eq.
Qed.

Lemma scalarmultBaseNiels_spec s : limbs 32 s -> mval s < 2 ^ 255 ->
  exists p, base_multiple (mval s) p /\ represents (ed25519_ge_scalarmultBaseNiels s) p.
Proof.
  intros Hs Hb. destruct (window4_spec s Hs Hb) as (Hl & Hv & Hd). exists (comb (ed25519_modm_window4 s)).
  split; [exists (ed25519_modm_window4 s); auto|]. unfold ed25519_ge_scalarmultBaseNiels, comb. cbv zeta. set (ds := ed25519_modm_window4 s) in *.
  apply add_digits_spec; [exact Hd|lia|].
  pose proof (choose_spec 0 (get ds 1) ltac:(lia) (get_digit_ok ds 1 Hd)) as C1. pose proof (choose_spec 0 (get ds 0) ltac:(lia) (get_digit_ok ds 0 Hd)) as C0.
  apply nielsAdd_spec.
  - apply p1p1_double. do 3 apply doublePartial_spec. apply represents_forget. apply add_digits_spec; [exact Hd|lia|]. exact (start_value _ _ C1).
  - exact (first_value _ _ C0).
Qed.

(** ** Two scalars at once *)

(** The odd multiples of a point, and of the base point as tabulated. *)
Fixpoint ref_odd_multiples (n : nat) (d1 p : point) : list point :=
  match n with
  | O => [p]
  | S n' => p :: ref_odd_multiples n' d1 (point_add d1 p)
  end.

Definition table_triple (q : ge_niels) : triple := Triple (feval (ysubx q)) (feval (xaddy q)) (feval (t2d q)).
Definition base_odd_multiples : list point := map (fun q => niels_point inv_2d (table_triple q)) ed25519_ge_nielsSlidingMultiples.

(** Adding the digit [x] of a point: [|x| >> 1] indexes its odd multiples. *)
Definition add_digit (multiples : list point) (x : Z) (p : point) : point :=
  if x =? 0 then p
  else let q := nth (half_abs x) multiples neutral in point_add p (if x <? 0 then point_neg q else q).

(** [ds1] times [p1] plus [ds2] times the base point, from the top digits down. *)
Definition double_comb (p1 : point) (ds1 ds2 : list Z) : point :=
  let pre1 := ref_odd_multiples 7 (point_double p1) p1 in
  fold_left (fun p i => add_digit base_odd_multiples (get ds2 i) (add_digit pre1 (get ds1 i) (point_double p)))
    (rev (seq 0 (skip_zeros 256 ds1 ds2))) neutral.

Definition odd_digits (m : Z) (ds : list Z) : Prop := Forall (fun d => d = 0 \/ (Z.odd d = true /\ - m <= d <= m)) ds.

(** [n1] times [p1] plus [n2] times the base point. *)
Definition double_multiple (p1 : point) (n1 n2 : Z) (p : point) : Prop := exists ds1 ds2,
  length ds1 = 256%nat /\ dvalue 1 ds1 = n1 /\ odd_digits 15 ds1 /\ length ds2 = 256%nat /\ dvalue 1 ds2 = n2 /\ odd_digits 63 ds2 /\
  p = double_comb p1 ds1 ds2.

Lemma signbit_spec x : -128 <= x < 128 -> (signbit x = 0 \/ signbit x = 1) /\ (signbit x =? 0) = negb (x <? 0).
Proof.
  intros Hx. unfold signbit. rewrite shiftr_div by lia. destruct (Z.ltb_spec x 0).
  - assert (u8 x = x + 256) as -> by (unfold wrap; symmetry; apply (Z.mod_unique_pos _ _ (-1)); lia).
    replace ((x + 256) / 2 ^ 7) with 1 by (apply (Z.div_unique_pos _ _ _ (x + 128)); lia). auto.
  - rewrite wrap_small by lia. rewrite Z.div_small by lia. auto.
Qed.

Lemma half_abs_bound x k : Z.abs x <= 2 * Z.of_nat k + 1 -> (half_abs x <= k)%nat.
Proof. intros Hx. unfold half_abs. rewrite shiftr_div by lia. change (2 ^ 1) with 2. assert (Z.abs x / 2 < Z.of_nat k + 1) by (apply Z.div_lt_upper_bound; lia). lia. Qed.

Lemma length_ref_odd n : forall d1 p, length (ref_odd_multiples n d1 p) = S n.
Proof. induction n; intros; cbn; auto. Qed.

Lemma odd_multiples_spec n g1 d1 : represents g1 d1 -> forall pre p, pniels_of pre p ->
  forall k, (k <= n)%nat -> pniels_of (nth k (odd_multiples n g1 pre) pniels0) (nth k (ref_odd_multiples n d1 p) neutral).
Proof.
  intros Hd. induction n as [|n IH]; intros pre p Hp k Hk; cbn [odd_multiples ref_odd_multiples].
  - destruct k; [exact Hp|lia].
  - destruct k as [|k]; [exact Hp|]. cbn [nth]. apply IH; [now apply pnielsAdd_spec|lia].
Qed.

Lemma sliding_ok : forallb (fun q => forallb (fun a => forallb (fun x => (0 <=? x) && (x <? 2 ^ 51)) [f0 a; f1 a; f2 a; f3 a; f4 a]) [ysubx q; xaddy q; t2d q])
  ed25519_ge_nielsSlidingMultiples = true /\ length ed25519_ge_nielsSlidingMultiples = 32%nat.
Proof. vm_compute. auto. Qed.

Lemma sliding_spec k : (k < 32)%nat -> niels_of (nth k ed25519_ge_nielsSlidingMultiples niels0) (nth k base_odd_multiples neutral).
Proof.
  intros Hk. destruct sliding_ok as [Hf Hl]. unfold base_odd_multiples. rewrite (nth_indep _ neutral (niels_point inv_2d (table_triple niels0))) by (rewrite length_map; lia).
  rewrite map_nth with (f := fun q => niels_point inv_2d (table_triple q)). apply niels_digit.
  rewrite forallb_forall in Hf. specialize (Hf (nth k ed25519_ge_nielsSlidingMultiples niels0) ltac:(apply nth_In; lia)).
  set (q := nth k _ niels0) in *. clearbody q. cbn [forallb] in Hf. rewrite !andb_true_iff, !Z.leb_le, !Z.ltb_lt in Hf.
  unfold niels_value, table_triple. cbn [ys xa t2]. unfold stands, within. repeat split; try reflexivity; lia.
Qed.

Section Vartime.
Context (pre1 : list ge_pniels) (multiples : list point) (Hpre : forall k, (k <= 7)%nat -> pniels_of (nth k pre1 pniels0) (nth k multiples neutral)).

Lemma vartime_step_spec ds1 ds2 r p i : odd_digits 15 ds1 -> odd_digits 63 ds2 -> represents_partial r p ->
  represents_partial (vartime_step pre1 ds1 ds2 r i) (add_digit base_odd_multiples (get ds2 i) (add_digit multiples (get ds1 i) (point_double p))).
Proof using Hpre.
  intros H1 H2 Hr. unfold vartime_step.
  assert (forall m ds, 0 < m -> odd_digits m ds -> - m <= get ds i <= m) as Hget.
  { intros m ds Hm Hd. unfold get. destruct (Nat.lt_ge_cases i (length ds)) as [Hi|Hi]; [|rewrite nth_overflow by lia; lia].
    pose proof (proj1 (Forall_forall _ _) Hd (nth i ds 0) ltac:(now apply nth_In)) as Hc. cbv beta in Hc. lia. }
  pose proof (Hget 15 ds1 ltac:(lia) H1) as B1. pose proof (Hget 63 ds2 ltac:(lia) H2) as B2.
  pose proof (p1p1_double r p Hr) as Hd. set (t := ed25519_ge_doubleP1p1 r) in *. clearbody t. unfold add_digit at 2.
  set (x1 := get ds1 i) in *. set (x2 := get ds2 i) in *. clearbody x1 x2.
  assert (let '(r', t') := if x1 =? 0 then (r, t) else (ed25519_ge_p1p1ToFull t, ed25519_ge_pnielsAddP1p1 (ed25519_ge_p1p1ToFull t) (nth (half_abs x1) pre1 pniels0) (signbit x1)) in
    p1p1_of t' (if x1 =? 0 then point_double p else point_add (point_double p) (if x1 <? 0 then point_neg (nth (half_abs x1) multiples neutral) else nth (half_abs x1) multiples neutral))) as Ht1.
  { destruct (x1 =? 0); [exact Hd|]. destruct (signbit_spec x1 ltac:(lia)) as [Hs Hs0].
    pose proof (pnielsAddP1p1_spec _ _ _ _ Hd (Hpre (half_abs x1) (half_abs_bound x1 7 ltac:(lia))) (signbit x1) Hs) as Ha. rewrite Hs0 in Ha. now destruct (x1 <? 0). }
  cbv zeta. destruct (if x1 =? 0 then _ else _) as [r1 t1]. set (p1 := if x1 =? 0 then _ else _) in *. clearbody p1. unfold add_digit.
  destruct (x2 =? 0); [now apply p1p1_partial|]. destruct (signbit_spec x2 ltac:(lia)) as [Hs Hs0].
  pose proof (nielsAddP1p1_spec _ _ _ _ Ht1 (sliding_spec (half_abs x2) ltac:(pose proof (half_abs_bound x2 31 ltac:(lia)); lia)) (signbit x2) Hs) as Ha.
  rewrite Hs0 in Ha. apply p1p1_partial. now destruct (x2 <? 0).
Qed.

Lemma vartime_fold ds1 ds2 l : odd_digits 15 ds1 -> odd_digits 63 ds2 -> forall r p, represents_partial r p ->
  represents_partial (fold_left (vartime_step pre1 ds1 ds2) l r)
    (fold_left (fun p i => add_digit base_odd_multiples (get ds2 i) (add_digit multiples (get ds1 i) (point_double p))) l p).
Proof using Hpre.
  intros H1 H2. induction l as [|i l IH]; intros r p Hr; cbn [fold_left]; [exact Hr|]. apply IH. now apply vartime_step_spec.
Qed.
End Vartime.

Lemma neutral_value : represents_partial neutral_ge neutral.
Proof.
  exists 1. split; [now left|]. cbn [neutral_ge gx gy gz neutral X Y Z_]. pose proof zero_value. pose proof (stands_weaken _ EdPoint.T _ _ one_value ltac:(lia)). split_and; field_eq.
Qed.

Lemma doubleScalarmultVartime_spec A p1 s1 s2 : represents A p1 -> limbs 32 s1 -> limbs 32 s2 -> mval s1 < 2 ^ 253 -> mval s2 < 2 ^ 253 ->
  exists p, double_multiple p1 (mval s1) (mval s2) p /\ represents_partial (ed25519_ge_doubleScalarmultVartime A s1 s2) p.
Proof.
  intros HA L1 L2 B1 B2. destruct (window_spec 15 ltac:(lia) s1 L1 B1) as (Hl1 & Hv1 & Hd1). destruct (window_spec 63 ltac:(lia) s2 L2 B2) as (Hl2 & Hv2 & Hd2).
  set (ds1 := ed25519_modm_window s1 15) in *. set (ds2 := ed25519_modm_window s2 63) in *.
  exists (double_comb p1 ds1 ds2). split; [exists ds1, ds2; repeat split; assumption|].
  unfold ed25519_ge_doubleScalarmultVartime, double_comb. cbv zeta. fold ds1 ds2.
  assert (represents (ed25519_ge_double A) (point_double p1)) as HD by exact (p1p1_double A p1 (represents_forget _ _ HA)).
  pose proof (odd_multiples_spec 7 (ed25519_ge_double A) _ HD (ed25519_ge_fullToPniels A) p1 (fullToPniels_spec A p1 HA)) as Hpre.
  set (pre1 := odd_multiples 7 _ _) in *. set (multiples := ref_odd_multiples 7 _ _) in *. clearbody pre1 multiples.
  apply vartime_fold; [exact Hpre|exact Hd1|exact Hd2|exact neutral_value].
Qed.

(** ** Hashes and keys *)

Section Hash.
Context (stack : list Z) (Hstack : length stack = 128%nat).

Lemma hash_spec chunks : bytes (concat chunks) -> Z.of_nat (length (concat chunks)) < 2 ^ 64 -> hash stack chunks = fips_sha512 (concat chunks).
Proof using Hstack. intros Hb Hl. apply (sha512_spec (Stream (ShaCore [] 0) stack 0)); assumption. Qed.
End Hash.

Lemma length_md_blocks512 n : forall st inp, length st = 8%nat -> length (md_blocks 128 fips_block512 n st inp) = 8%nat.
Proof. induction n; intros st inp Hs; cbn [md_blocks]; [exact Hs|]. now apply IHn. Qed.

Lemma length_fips_sha512 m : length (fips_sha512 m) = 64%nat.
Proof.
  unfold fips_sha512, md_hash. rewrite (flat_map_constant_length (c := 8)).
  - rewrite length_md_blocks512; [reflexivity|]. rewrite <- sha512_iv_fips. reflexivity.
  - intros w _. unfold be_split. now rewrite length_rev, length_le_split.
Qed.

Lemma bytes_fips_sha512 m : bytes (fips_sha512 m).
Proof.
  unfold fips_sha512. generalize (md_hash 128 112 fips_block512 fips_H512 m). intros ws. induction ws as [|w ws IH]; cbn [flat_map]; [constructor|].
  apply bytes_app. split; [apply Forall_rev, bytes_le_split|exact IH].
Qed.

(** A hash as a scalar modulo the group order. *)
Lemma load_hash m : limbs 32 (ed25519_modm_load (fips_sha512 m) true) /\ mval (ed25519_modm_load (fips_sha512 m) true) = le_combine (fips_sha512 m) mod L.
Proof.
  destruct (modm_load_spec (fips_sha512 m) (bytes_fips_sha512 m) true) as [Hl Hv]. split; [exact Hl|]. rewrite Hv. f_equal. apply Z.mod_small.
  pose proof (le_combine_bound _ (bytes_fips_sha512 m)) as Hb. rewrite length_fips_sha512 in Hb. exact Hb.
Qed.

Lemma clamp_firstn h : (32 <= length h)%nat -> firstn 32 (clamp h) = x25519_clamp (firstn 32 h) /\ skipn 32 (clamp h) = skipn 32 h /\ length (clamp h) = length h.
Proof.
  intros Hl. split; [|split].
  - unfold clamp, x25519_clamp. cbv zeta. rewrite (firstn_all2 (firstn 32 h)) by lens.
    assert (forall (l : list Z) i v, firstn 32 (set l i v) = set (firstn 32 l) i v) as Hf.
    { generalize 32%nat. intros n l. revert n. induction l as [|x l IH]; intros [|n] [|i] v; cbn; try reflexivity. now rewrite IH. }
    assert (forall (l : list Z) i, (i < 32)%nat -> get (firstn 32 l) i = get l i) as Hg by (intros; now apply get_firstn).
    rewrite !Hf. rewrite !get_set_ne by lia. rewrite !get_set_eq by lens. rewrite !get_set_ne by lia. rewrite !Hg by lia. reflexivity.
  - unfold clamp. cbv zeta. assert (forall (l : list Z) i v, (i < 32)%nat -> skipn 32 (set l i v) = skipn 32 l) as Hs.
    { generalize 32%nat. intros n l. revert n. induction l as [|x l IH]; intros [|n] [|i] v Hi; cbn; try reflexivity; try lia. apply IH. lia. }
    now rewrite !Hs by lia.
  - unfold clamp. cbv zeta. now rewrite !length_set.
Qed.

(** The secret scalar and the prefix of RFC 8032, section 5.1.5. *)
Definition secret_scalar (secret : list Z) : Z := Rfc7748.decodeScalar25519 (firstn 32 (fips_sha512 secret)).
Definition secret_prefix (secret : list Z) : list Z := skipn 32 (fips_sha512 secret).

Lemma scalar_bound k : 0 <= Rfc7748.decodeScalar25519 k < 2 ^ 255.
Proof. unfold Rfc7748.decodeScalar25519. pose proof (Z.mod_pos_bound (le_combine k / 8) (2 ^ 251) ltac:(lia)). lia. Qed.

Lemma load_clamped h : (32 <= length h)%nat -> bytes h ->
  limbs 32 (ed25519_modm_load (clamp h) false) /\ mval (ed25519_modm_load (clamp h) false) = Rfc7748.decodeScalar25519 (firstn 32 h).
Proof.
  intros Hl Hb. destruct (clamp_firstn h Hl) as (Hf & Hs & Hlen). destruct (x25519_clamp_spec (firstn 32 h)) as [Cb Cv]; [lens|now apply bytes_firstn|].
  assert (bytes (clamp h)) as Hcb by (rewrite <- (firstn_skipn 32 (clamp h)), Hf, Hs; apply bytes_app; split; [exact Cb|now apply bytes_skipn]).
  destruct (modm_load_spec (clamp h) Hcb false) as [Hlm Hv]. split; [exact Hlm|]. rewrite Hv, <- Cv, <- Hf. change (2 ^ 256) with (256 ^ Z.of_nat 32).
  symmetry. now apply le_combine_firstn.
Qed.

Lemma extSecret_spec stack secret : length stack = 128%nat -> length secret = 32%nat -> bytes secret ->
  ed25519_extSecret stack secret = clamp (fips_sha512 secret).
Proof.
  intros Hst Hl Hb. unfold ed25519_extSecret. assert (concat [firstn 32 secret] = secret) as E by (cbn [List.concat]; rewrite app_nil_r; apply firstn_all2; lia).
  rewrite hash_spec, E; rewrite ?E; [reflexivity|exact Hst|exact Hb|lia].
Qed.

(** the public key of a secret key is the encoding of its secret scalar times the base
    point, and the X25519 public key is the Montgomery coordinate (Y + Z) / (Z - Y) of the
    clamped secret times the base point. *)
Theorem ed25519_public_correct stack secret : length stack = 128%nat -> length secret = 32%nat -> bytes secret ->
  (exists p, base_multiple (secret_scalar secret) p /\ ed25519_public stack secret = point_compress p) /\
  (exists p, base_multiple (Rfc7748.decodeScalar25519 secret) p /\
     ed25519_x25519Basepoint secret = le_split 32 (red ((Y p + Z_ p) * (Z_ p - Y p) ^ (P - 2)))).
Proof.
  intros Hst Hl Hb. split.
  - unfold ed25519_public. rewrite extSecret_spec by assumption.
    destruct (load_clamped (fips_sha512 secret)) as [Hlm Hv]; [rewrite length_fips_sha512; lia|apply bytes_fips_sha512|].
    destruct (scalarmultBaseNiels_spec _ Hlm) as (p & Hp & Hr); [rewrite Hv; apply scalar_bound|]. rewrite Hv in Hp. exists p. split; [exact Hp|].
    apply pack_spec, represents_forget, Hr.
  - unfold ed25519_x25519Basepoint. rewrite (firstn_all2 secret) by lia.
    destruct (load_clamped secret) as [Hlm Hv]; [lia|exact Hb|]. rewrite (firstn_all2 secret) in Hv by lia.
    destruct (scalarmultBaseNiels_spec _ Hlm) as (p & Hp & Hr); [rewrite Hv; apply scalar_bound|]. rewrite Hv in Hp. exists p. split; [exact Hp|].
    cbv zeta. set (g := ed25519_ge_scalarmultBaseNiels _) in *. clearbody g. destruct Hr as (s & Hs & _ & Hy & Hz & _).
    assert (stands EdPoint.T (curve25519_invert (curve25519_subNoReduce (gz g) (gy g))) ((s * (Z_ p - Y p)) ^ (P - 2))) as Hi.
    { assert (stands (2 ^ 54) (curve25519_subNoReduce (gz g) (gy g)) (s * (Z_ p - Y p))) as [Ld Ed] by (eapply stands_weaken; [field_eq|lia]).
      destruct (invert_correct _ Ld) as [Li Ei]. split; [exact Li|]. now rewrite Ei, Ed. }
    rewrite sign_pow in Hi by exact Hs. set (k := (Z_ p - Y p) ^ (P - 2)) in *. clearbody k.
    assert (stands EdPoint.T (curve25519_mul (curve25519_addNoReduce (gy g) (gz g)) (curve25519_invert (curve25519_subNoReduce (gz g) (gy g)))) ((Y p + Z_ p) * k)) as Hu.
    { set (zi := curve25519_invert _) in *. clearbody zi. destruct Hs as [->| ->]; field_eq. }
    destruct (stands_residue _ _ Hu) as [Hc Hval]. now rewrite store_correct, Hval by exact Hc.
Qed.

Lemma ed25519_public_correct_witness : exists p, base_multiple (secret_scalar (repeat 0 32)) p /\ ed25519_public (repeat 7 128) (repeat 0 32) = point_compress p.
Proof.
  apply (ed25519_public_correct (repeat 7 128) (repeat 0 32)); [reflexivity|reflexivity|]. apply bytes_repeat. unfold is_byte. lia.
Defined.

(** ** Signing *)

Lemma length_point_compress p : length (point_compress p) = 32%nat.
Proof. apply length_le_split. Qed.

Lemma bytes_point_compress p : bytes (point_compress p).
Proof. apply bytes_le_split. Qed.

Lemma hram_spec stack signature public message : length stack = 128%nat -> bytes signature -> bytes public -> bytes message ->
  Z.of_nat (length message) + 64 < 2 ^ 64 ->
  ed25519_hram stack signature public message = fips_sha512 (firstn 32 signature ++ firstn 32 public ++ message).
Proof.
  intros Hst Hs Hp Hm Hl. unfold ed25519_hram.
  assert (concat [firstn 32 signature; firstn 32 public; message] = firstn 32 signature ++ firstn 32 public ++ message) as E
    by (cbn [List.concat]; now rewrite app_nil_r).
  rewrite hash_spec, E; rewrite ?E; [reflexivity|exact Hst| |rewrite !length_app, !length_firstn; lia].
  apply bytes_app. split; [now apply bytes_firstn|]. apply bytes_app. split; [now apply bytes_firstn|exact Hm].
Qed.

Lemma L_bound n : 0 <= n mod L < 2 ^ 253 /\ n mod L < L.
Proof. pose proof (Z.mod_pos_bound n L ltac:(easy)). assert (L < 2 ^ 253) by reflexivity. lia. Qed.



(** ** Verification *)

Lemma top_bits s : length s = 32%nat -> bytes s -> get s 31 & 224 = 0 -> le_combine s < 2 ^ 253.
Proof.
  intros Hl Hb Hz. rewrite <- (firstn_skipn 31 s), le_combine_app, length_firstn, Hl. change (Nat.min 31 32) with 31%nat.
  pose proof (le_combine_bound _ (bytes_firstn 31 s Hb)) as Hf. rewrite length_firstn, Hl in Hf. change (256 ^ Z.of_nat (Nat.min 31 32)) with (2 ^ 248) in Hf.
  change (256 ^ Z.of_nat 31) with (2 ^ 248).
  assert (skipn 31 s = [get s 31]) as ->.
  { unfold get. rewrite <- (firstn_skipn 31 s) at 2. rewrite app_nth2 by (rewrite length_firstn; lia). rewrite length_firstn, Hl. cbn [Nat.min Nat.sub].
    assert (length (skipn 31 s) = 1%nat) as H1 by (rewrite length_skipn; lia). destruct (skipn 31 s) as [|x [|? ?]]; try discriminate. reflexivity. }
  assert (is_byte (get s 31)) as Hbyte by (apply (proj1 (Forall_forall _ _) Hb), nth_In; lia). unfold is_byte in Hbyte. cbn [le_combine].
  assert (get s 31 < 32) as H32.
  { destruct (Z.lt_ge_cases (get s 31) 32) as [|Hge]; [assumption|]. exfalso.
    assert (get s 31 / 32 = 0) as Hq; [|apply Z.div_small_iff in Hq; lia].
    change 32 with (2 ^ 5). rewrite <- shiftr_div by lia. apply Z.bits_inj'. intros i Hi. rewrite Z.bits_0, Z.shiftr_spec by lia.
    destruct (Z.ltb_spec i 3); [|apply (testbit_high 8); lia].
    assert (Z.testbit (get s 31 & 224) (i + 5) = false) as Ht by (rewrite Hz; apply Z.bits_0). rewrite Z.land_spec in Ht.
    assert (Z.testbit 224 (i + 5) = true) as Ht2 by (assert (i = 0 \/ i = 1 \/ i = 2) as [->|[->| ->]] by lia; reflexivity).
    now rewrite Ht2, andb_true_r in Ht. }
  lia.
Qed.

Lemma ed25519_verify_spec stack message public signature :
  length stack = 128%nat -> length public = 32%nat -> bytes public -> length signature = 64%nat -> bytes signature ->
  bytes message -> Z.of_nat (length message) + 64 < 2 ^ 64 ->
  let R := firstn 32 signature in
  let S := le_combine (skipn 32 signature) in
  let h := le_combine (fips_sha512 (R ++ public ++ message)) mod L in
  let result := ed25519_verify stack message public signature in
  (get signature 63 & 224 <> 0 -> result = 1) /\
  (get signature 63 & 224 = 0 ->
     match decompress_negative public with
     | None => result = 1
     | Some A => on_curve A /\ exists p, double_multiple A h S p /\ (result = 0 <-> R = point_compress p)
     end).
Proof.
  intros Hst Hpl Hpb Hsl Hsb Hmb Hml R S h result. unfold result, ed25519_verify. rewrite (firstn_all2 public) by lia.
  destruct (Z.eqb_spec (get signature 63 & 224) 0) as [E|E]; cbn [negb]; [|split; [reflexivity|contradiction]].
  split; [intros Hn; destruct (Hn E)|intros _].
  pose proof (unpack_spec public Hpb) as Hu. destruct (ed25519_ge_unpackNegativeVartime public) as [A'|], (decompress_negative public) as [A|] eqn:Ed; try contradiction; [|reflexivity].
  split; [now apply (decompress_curve public)|].
  rewrite hram_spec, (firstn_all2 public) by (assumption || lia). fold R. destruct (load_hash (R ++ public ++ message)) as [Lh Vh]. fold h in Vh.
  set (hf := ed25519_modm_load _ true) in *. clearbody hf.
  assert (bytes (skipn 32 signature)) as Hb2 by now apply bytes_skipn. assert (length (skipn 32 signature) = 32%nat) as Hl2 by (rewrite length_skipn; lia).
  rewrite (firstn_all2 (skipn 32 signature)) by lia. destruct (modm_load_spec (skipn 32 signature) Hb2 false) as [LS VS]. fold S in VS.
  assert (S < 2 ^ 253) as HS.
  { apply top_bits; [exact Hl2|exact Hb2|]. rewrite <- E. f_equal. unfold get. now rewrite nth_skipn. }
  assert (0 <= S) as HS0 by (apply le_combine_bound; exact Hb2). rewrite Z.mod_small in VS by lia.
  destruct (doubleScalarmultVartime_spec A' A hf _ Hu Lh LS) as (p & Hp & Hg); [rewrite Vh; apply L_bound|rewrite VS; exact HS|]. rewrite Vh, VS in Hp.
  exists p. split; [exact Hp|]. rewrite (pack_spec _ _ Hg). rewrite mem_compare_zero by (rewrite ?length_point_compress; lia).
  rewrite (firstn_all2 (point_compress p)) by (rewrite length_point_compress; lia). reflexivity.
Qed.

(** RFC 8032, section 5.1.7: S is in range and R is S B - h A. *)
Definition valid_signature (message public signature : list Z) : Prop :=
  get signature 63 & 224 = 0 /\
  exists A p, decompress_negative public = Some A /\ on_curve A /\
    double_multiple A (le_combine (fips_sha512 (firstn 32 signature ++ public ++ message)) mod L) (le_combine (skipn 32 signature)) p /\
    firstn 32 signature = point_compress p.

Lemma ed25519_verify_valid stack message public signature :
  length stack = 128%nat -> length public = 32%nat -> bytes public -> length signature = 64%nat -> bytes signature ->
  bytes message -> Z.of_nat (length message) + 64 < 2 ^ 64 ->
  ed25519_verify stack message public signature = 0 -> valid_signature message public signature.
Proof.
  intros H1 H2 H3 H4 H5 H6 H7 E. destruct (ed25519_verify_spec stack message public signature H1 H2 H3 H4 H5 H6 H7) as [Hb Hv]. unfold valid_signature.
  destruct (Z.eq_dec (get signature 63 & 224) 0) as [E0|E0]; [|specialize (Hb E0); lia]. split; [exact E0|]. specialize (Hv E0).
  destruct (decompress_negative public) as [A|]; [|lia]. destruct Hv as (Hc & p & Hp & Hr). exists A, p. tauto.
Qed.


