(* ===== verification/RouterSys.v ===== *)
(** * The router's world: system calls as a script and a trace

    The router ([src/router/router]) is one process that only acts through system calls
    and one static buffer; the first process ([src/router/init]) and the SSH
    client ([src/hc/examples/ssh]) act in the same way and use the same model.  The kernel is a list of answers that are used up in order, one
    per call ([-EIO] when none is left); what the router did is the list of its calls with
    their results.  A theorem that holds for every list of answers holds whatever the
    kernel does.  A read stores at most the number of bytes it was asked for.

    A handler ends in one of four ways: it returns; a [CHECK] fails ([debug_fail], then
    [util_abort]); it reaches what C leaves undefined ([hc_UNREACHABLE], [debug_ASSUME],
    an access outside an object); or the fuel of a loop runs out.  [debug_CHECK] and
    [debug_ASSERT] are those of the release build: the call is made, nothing is checked. *)
From Stdlib Require Import ZArith List Lia Bool.
From S2P Require Import Prelude Util Io.
Import ListNotations.

Inductive call :=
| Sys_socket (domain type protocol : Z)
| Sys_ioctl (fd request : Z) (arg : list Z)
| Sys_setsockopt (fd level opt : Z) (value : list Z)
| Sys_bind (fd : Z) (addr : list Z)
| Sys_listen (fd backlog : Z)
| Sys_accept4 (fd : Z)
| Sys_close (fd : Z)
| Sys_dup3 (old new flags : Z)
| Sys_openat (dirFd : Z) (path : list Z) (flags mode : Z)
| Sys_read (fd count : Z)
| Sys_write (fd : Z) (data : list Z)
| Sys_writev (fd : Z) (iov : list (list Z))
| Sys_recvfrom (fd count flags : Z)
| Sys_sendto (fd : Z) (data : list Z) (flags : Z) (addr : list Z)
| Sys_recvmsg (fd count flags : Z)
| Sys_sendmsg (fd : Z) (name : list Z) (iov : list (list Z)) (flags : Z)
| Sys_getdents64 (fd count : Z)
| Sys_faccessat (dirFd : Z) (path : list Z) (mode : Z)
| Sys_pread64 (fd count offset : Z)
| Sys_lseek (fd offset whence : Z)
| Sys_mount (source target fs : list Z) (flags : Z) (data : list Z)
| Sys_umount2 (target : list Z) (flags : Z)
| Sys_epoll_create1 (flags : Z)
| Sys_epoll_ctl (epollFd op fd : Z) (events : Z)
| Sys_epoll_pwait (epollFd : Z)
| Sys_timerfd_create (clock flags : Z)
| Sys_timerfd_settime (fd sec nsec : Z)
| Sys_clock_gettime (clock : Z)
| Sys_clock_nanosleep (clock sec nsec : Z)
| Sys_clone3 (flags : Z)
| Sys_close_range (first last flags : Z)
| Sys_execveat (path : list Z) (argv envp : list (list Z))
| Sys_getrandom (count flags : Z)
| Sys_connect (fd : Z) (addr : list Z)
| Sys_memfd_create (name : list Z) (flags : Z)
| Sys_ftruncate (fd size : Z)
| Sys_mmap (addr size prot flags fd offset : Z)
| Sys_munmap (addr size : Z)
| Sys_waitid (type id options : Z)
| Sys_sync
| Sys_reboot (magic1 magic2 cmd : Z)
| Sys_exit_group (status : Z).

(** What the kernel returns, and the bytes it stores in the caller's memory. *)
Record answer := Answer { ret : Z; out : list Z }.

Definition event : Type := call * answer.

Record world := World { answers : list answer; trace : list event }.

Inductive outcome (A : Type) :=
| Done (a : A)
| Fatal
| Undefined
| Unfinished.
Arguments Done {A}. Arguments Fatal {A}. Arguments Undefined {A}. Arguments Unfinished {A}.

Definition M (A : Type) : Type := world -> outcome A * world.

Definition pure {A} (a : A) : M A := fun w => (Done a, w).
Definition fatal {A} : M A := fun w => (Fatal, w).
Definition undefined {A} : M A := fun w => (Undefined, w).
Definition unfinished {A} : M A := fun w => (Unfinished, w).
Definition bind {A B} (m : M A) (f : A -> M B) : M B := fun w =>
  match m w with
  | (Done a, w) => f a w
  | (Fatal, w) => (Fatal, w)
  | (Undefined, w) => (Undefined, w)
  | (Unfinished, w) => (Unfinished, w)
  end.

Declare Scope sys_scope.
Delimit Scope sys_scope with sys.
Notation "'let!' x ':=' m 'in' k" := (bind m (fun x => k)) (at level 10, x pattern, m at level 100, k at level 200) : sys_scope.
Notation "m ';;' k" := (bind m (fun _ => k)) (at level 199, k at level 200, right associativity) : sys_scope.
Open Scope sys_scope.

(** [CHECK(EXPR, COND)]. *)
Definition CHECK (cond : bool) : M unit := if cond then pure tt else fatal.

Definition EIO : Z := 5.
Definition EBADF : Z := 9.
Definition ENOENT : Z := 2.

(** One system call: the answer, with at most [count] bytes stored. *)
Definition kernel (c : call) (adjust : answer -> answer) : M answer := fun w =>
  let '(a, rest) := match answers w with [] => (Answer (- EIO) [], []) | a :: rest => (a, rest) end in
  let a := adjust a in
  (Done a, World rest (trace w ++ [(c, a)])).

Definition stored (count : nat) (a : answer) : list Z := map u8 (firstn count (out a)).

Definition syscall_out (c : call) (count : nat) : M (Z * list Z) :=
  let! a := kernel c (fun a => Answer (ret a) (stored count a)) in pure (ret a, out a).

Definition syscall (c : call) : M Z :=
  let! a := kernel c (fun a => Answer (ret a) []) in pure (ret a).

(** The calls that fill a buffer return how much they stored, or an error. *)
Definition filled (count : nat) (a : answer) : answer :=
  if ret a <? 0 then Answer (ret a) [] else Answer (Z.of_nat (length (stored count a))) (stored count a).

Definition syscall_in (c : call) (count : nat) : M (Z * list Z) :=
  let! a := kernel c (filled count) in pure (ret a, out a).

(** These shadow the names of [Io]. *)
Definition sys_read (fd count : Z) : M (Z * list Z) := syscall_in (Sys_read fd count) (Z.to_nat count).
Definition sys_recvfrom (fd count flags : Z) : M (Z * list Z) := syscall_in (Sys_recvfrom fd count flags) (Z.to_nat count).
Definition sys_write (fd : Z) (data : list Z) : M Z := syscall (Sys_write fd data).
Definition sys_sendto (fd : Z) (data : list Z) (flags : Z) (addr : list Z) : M Z := syscall (Sys_sendto fd data flags addr).
Definition sys_close (fd : Z) : M Z := syscall (Sys_close fd).

Definition MSG_DONTWAIT : Z := 0x40.
Definition MSG_NOSIGNAL : Z := 0x4000.
Definition EPOLL_CTL_ADD : Z := 1.
Definition EPOLLIN : Z := 1.
Definition AF_INET : Z := 2.
Definition SOCK_STREAM : Z := 1.
Definition SOCK_DGRAM : Z := 2.
Definition CLOCK_MONOTONIC : Z := 1.
Definition SIOCGIFNAME : Z := 0x8910.
Definition SIOCGIFHWADDR : Z := 0x8927.
Definition SIOCGIFINDEX : Z := 0x8933.
Definition SOL_SOCKET : Z := 1.
Definition SO_BROADCAST : Z := 6.
Definition SO_BINDTODEVICE : Z := 25.
Definition IFNAMSIZ : nat := 16%nat.
(** [sizeof(struct ifreq)]. *)
Definition ifreq_SIZE : nat := 40%nat.

(** [util_writeAll] of [hc/ix/util.c] over this kernel. *)
#[export] Instance router_file_ops : FileOps world := {
  Io.sys_write w fd data := match syscall (Sys_write fd data) w with (Done r, w) => (w, r) | (_, w) => (w, - EIO) end;
  Io.sys_read w fd count := match syscall_in (Sys_read fd (Z.of_nat count)) count w with (Done (r, data), w) => (w, r, data) | (_, w) => (w, - EIO, []) end }.

(** Every retry uses up an answer, so the answers and the bytes bound the iterations. *)
Definition writeAll (fd : Z) (data : list Z) : M Z := fun w =>
  match util_writeAll (S (S (length (answers w)) + length data)) w fd data with
  | (w, Some r) => (Done r, w)
  | (w, None) => (Unfinished, w)
  end.

(** [debug_print] and [debug_printNum] of [hc/debug.c]. *)
Definition util_STDERR : Z := 2.
Definition debug_print (text : list Z) : M unit := writeAll util_STDERR text;; pure tt.
Definition debug_printNum (text : list Z) (num : Z) : M unit :=
  writeAll util_STDERR text;;
  let print := repeat 0 (2 + 20 + 2)%nat in
  let print := mem_copy print 22 [41; 10] in
  let '(print, pos) := util_intToStr print 22 num in
  let print := mem_copy print (pos - 2) [32; 40] in
  writeAll util_STDERR (skipn (pos - 2) print);; pure tt.

(** [sizeof(buffer)] and the helper of [router.c]. *)
Definition buffer_SIZE : Z := 66000.

Definition epollAdd (epollFd fd : Z) : M unit :=
  let! status := syscall (Sys_epoll_ctl epollFd EPOLL_CTL_ADD fd EPOLLIN) in
  CHECK (status =? 0).

(** [struct sockaddr_in]: the family, the port and the address in network order. *)
Definition sockaddr_in (port : Z) (addr : list Z) : list Z :=
  le_split 2 AF_INET ++ rev (le_split 2 port) ++ addr ++ repeat 0 8.

(** The [n]-byte integer at an offset of the shared buffer. *)
Definition uint_at (n : nat) (buffer : list Z) (i : Z) : Z := le_combine (firstn n (skipn (Z.to_nat i) buffer)).
Definition load (n : nat) (buffer : list Z) (i : Z) : M Z :=
  if buffer_SIZE <? i + Z.of_nat n then undefined else pure (uint_at n buffer i).

(** [hc_PREPEND] and [pos = util_uintToStr(pos, ...)]: text that is built from its end in a
    buffer; [text_of] is what [pos] points to. *)
Definition prepend (b : list Z * nat) (text : list Z) : list Z * nat := (mem_copy (fst b) (snd b - length text) text, (snd b - length text)%nat).
Definition prepend_num (b : list Z * nat) (n : Z) : list Z * nat := util_uintToStr (fst b) (snd b) n.
Definition text_of (b : list Z * nat) : list Z := skipn (snd b) (fst b).

(** ** Reasoning *)

(** Whether two lists of bytes are the same. *)
Definition same (l1 l2 : list Z) : bool := if list_eq_dec Z.eq_dec l1 l2 then true else false.

Lemma firstn_exact {A} (l r : list A) n : n = length l -> firstn n (l ++ r) = l.
Proof. intros ->. rewrite firstn_app_l, firstn_all by lia. reflexivity. Qed.

(** The calls a computation made. *)
Definition adds (w w' : world) (es : list event) : Prop := trace w' = trace w ++ es.

Lemma adds_nil w : adds w w [].
Proof. unfold adds. now rewrite app_nil_r. Qed.

Lemma adds_app w1 w2 w3 es1 es2 : adds w1 w2 es1 -> adds w2 w3 es2 -> adds w1 w3 (es1 ++ es2).
Proof. unfold adds. intros H1 H2. now rewrite H2, H1, app_assoc. Qed.

Lemma adds_cons w1 w2 w3 e es : adds w1 w2 [e] -> adds w2 w3 es -> adds w1 w3 (e :: es).
Proof. apply adds_app. Qed.

Lemma bind_done {A B} (m : M A) (f : A -> M B) w a w' : m w = (Done a, w') -> bind m f w = f a w'.
Proof. unfold bind. now intros ->. Qed.

Lemma bind_assoc {A B C} (m : M A) (f : A -> M B) (g : B -> M C) w : bind (bind m f) g w = bind m (fun a => bind (f a) g) w.
Proof. unfold bind. now destruct (m w) as [[a| | |] w']. Qed.

Lemma bind_fatal {A B} (m : M A) (f : A -> M B) w w' : m w = (Fatal, w') -> bind m f w = (Fatal, w').
Proof. unfold bind. now intros ->. Qed.

Lemma bind_pure {A B} (a : A) (f : A -> M B) w : bind (pure a) f w = f a w.
Proof. reflexivity. Qed.

(** A call returns something, and is the only one recorded. *)
Lemma kernel_spec c f w : exists a w', kernel c f w = (Done (f a), w') /\ adds w w' [(c, f a)].
Proof.
  unfold kernel, adds. destruct (answers w) as [|a rest]; do 2 eexists; split; reflexivity.
Qed.

Lemma syscall_spec c w : exists r w', syscall c w = (Done r, w') /\ adds w w' [(c, Answer r [])].
Proof.
  destruct (kernel_spec c (fun a => Answer (ret a) []) w) as (a & w' & E & H). exists (ret a), w'. split; [|exact H].
  unfold syscall. now rewrite (bind_done _ _ _ _ _ E).
Qed.

Lemma bytes_stored n a : bytes (stored n a).
Proof. apply Forall_forall. intros x Hx. apply in_map_iff in Hx as (y & <- & _). apply Z.mod_pos_bound. lia. Qed.

Lemma map_u8_bytes l : bytes l -> map u8 l = l.
Proof. induction 1 as [|b l Hb _ IH]; [reflexivity|]. cbn [map]. rewrite IH. f_equal. unfold is_byte in Hb. apply wrap_small. lia. Qed.

Lemma length_stored n a : (length (stored n a) <= n)%nat.
Proof. unfold stored. rewrite length_map. apply firstn_le_length. Qed.

Lemma syscall_out_spec c n w : exists r data w', syscall_out c n w = (Done (r, data), w') /\ adds w w' [(c, Answer r data)] /\ bytes data /\ (length data <= n)%nat.
Proof.
  destruct (kernel_spec c (fun a => Answer (ret a) (stored n a)) w) as (a & w' & E & H). exists (ret a), (stored n a), w'.
  unfold syscall_out. rewrite (bind_done _ _ _ _ _ E). split; [reflexivity|]. split; [exact H|]. split; [apply bytes_stored|apply length_stored].
Qed.

Lemma syscall_in_spec c n w : exists r data w', syscall_in c n w = (Done (r, data), w') /\ adds w w' [(c, Answer r data)] /\
  bytes data /\ (length data <= n)%nat /\ (r < 0 /\ data = [] \/ r = Z.of_nat (length data)).
Proof.
  destruct (kernel_spec c (filled n) w) as (a & w' & E & H). unfold syscall_in. rewrite (bind_done _ _ _ _ _ E). revert H. unfold filled, pure.
  destruct (Z.ltb_spec (ret a) 0); cbn [ret out]; intros Hw; do 3 eexists; (split; [reflexivity|]); (split; [exact Hw|]).
  - split; [constructor|]. cbn [List.length]. split; [lia|]. now left.
  - split; [apply bytes_stored|]. split; [apply length_stored|]. now right.
Qed.

(** Calls whose answers are known. *)
Lemma syscall_answer c r o rest t : syscall c (World (Answer r o :: rest) t) = (Done r, World rest (t ++ [(c, Answer r [])])).
Proof. reflexivity. Qed.

Lemma stored_all n r data : bytes data -> (length data <= n)%nat -> stored n (Answer r data) = data.
Proof. intros Hb Hn. unfold stored. cbn [out]. rewrite firstn_all2 by exact Hn. now apply map_u8_bytes. Qed.

Lemma syscall_in_answer c n r data rest t : 0 <= r -> bytes data -> (length data <= n)%nat ->
  syscall_in c n (World (Answer r data :: rest) t) = (Done (Z.of_nat (length data), data), World rest (t ++ [(c, Answer (Z.of_nat (length data)) data)])).
Proof.
  intros Hr Hb Hn. unfold syscall_in, kernel, bind, pure. cbn [answers trace]. unfold filled. cbn [ret]. destruct (Z.ltb_spec r 0); [lia|].
  now rewrite stored_all by assumption.
Qed.

Lemma syscall_out_answer c n r data rest t : bytes data -> (length data <= n)%nat ->
  syscall_out c n (World (Answer r data :: rest) t) = (Done (r, data), World rest (t ++ [(c, Answer r data)])).
Proof. intros Hb Hn. unfold syscall_out, kernel, bind, pure. cbn [answers trace ret]. now rewrite stored_all by assumption. Qed.

(** Text that is written at once, and text that was built. *)
Lemma writeAll_answer fd data o rest t : data <> [] ->
  writeAll fd data (World (Answer (Z.of_nat (length data)) o :: rest) t) = (Done 0, World rest (t ++ [(Sys_write fd data, Answer (Z.of_nat (length data)) [])])).
Proof.
  intros Hne. unfold writeAll. cbn [answers List.length Nat.add]. cbn [util_writeAll]. destruct data as [|b data]; [contradiction|].
  change (0 <? length (b :: data))%nat with true. cbv iota. unfold Io.sys_write, router_file_ops. rewrite syscall_answer.
  destruct (Z.ltb_spec (Z.of_nat (length (b :: data))) 0); [lia|]. rewrite Nat2Z.id, skipn_all. reflexivity.
Qed.

Lemma text_prepend b text : (snd b <= length (fst b))%nat -> (length text <= snd b)%nat ->
  text_of (prepend b text) = text ++ text_of b /\ snd (prepend b text) = (snd b - length text)%nat /\ length (fst (prepend b text)) = length (fst b).
Proof.
  intros Hb Ht. unfold text_of, prepend. cbn [fst snd]. rewrite mem_copy_eq by lia. split; [|split; [reflexivity|]].
  - rewrite skipn_exact by (rewrite length_firstn; lia). do 2 f_equal. lia.
  - rewrite !length_app, length_firstn, length_skipn. lia.
Qed.

(** A number below 256 in decimal, and an address with its prefix length. *)
Definition dec8 (n : Z) : list Z :=
  if n <? 10 then [48 + n] else if n <? 100 then [48 + n / 10; 48 + n mod 10] else [48 + n / 100; 48 + n / 10 mod 10; 48 + n mod 10].
Definition dotted (ip : list Z) (mask : Z) : list Z :=
  dec8 (get ip 0) ++ [46] ++ dec8 (get ip 1) ++ [46] ++ dec8 (get ip 2) ++ [46] ++ dec8 (get ip 3) ++ [47] ++ dec8 mask.

Lemma length_dec8 n : (1 <= length (dec8 n) <= 3)%nat.
Proof. unfold dec8. destruct (n <? 10), (n <? 100); cbn; lia. Qed.

Lemma dec8_printed buf e n : is_byte n -> (3 <= e <= length buf)%nat -> printed buf e (util_uintToStr buf e n) (dec8 n).
Proof.
  unfold is_byte. intros Hn He. unfold util_uintToStr, dec8.
  assert (forall x, 0 <= x < 10 -> u8 (48 + x) = 48 + x) as Hd by (intros; apply wrap_small; lia).
  pose proof (Z.mod_pos_bound n 10 ltac:(lia)) as Hm. pose proof (Z.div_mod n 10 ltac:(lia)) as Hdm.
  cbn [dec_loop]. rewrite (Hd (n mod 10)) by lia. destruct (Z.eqb_spec (n / 10) 0) as [E|E].
  - destruct (Z.ltb_spec n 10); [|lia]. rewrite Z.mod_small by lia. apply (printed_cons _ _ _ _ []); [lia|]. apply printed_nil.
  - destruct (Z.ltb_spec n 10); [lia|]. pose proof (Z.mod_pos_bound (n / 10) 10 ltac:(lia)) as Hm2. pose proof (Z.div_mod (n / 10) 10 ltac:(lia)) as Hdm2.
    rewrite (Hd (n / 10 mod 10)) by lia. assert (n / 10 / 10 = n / 100) as E2 by (rewrite Z.div_div by lia; reflexivity). rewrite E2 in *.
    destruct (Z.eqb_spec (n / 100) 0) as [E3|E3].
    + destruct (Z.ltb_spec n 100); [|lia]. rewrite (Z.mod_small (n / 10)) by lia.
      apply (printed_cons _ _ _ _ [48 + n / 10]); [lia|]. apply (printed_cons _ _ _ _ []); [lens|]. apply printed_nil.
    + destruct (Z.ltb_spec n 100); [lia|]. assert (n / 100 < 10) by (apply Z.div_lt_upper_bound; lia).
      assert (0 <= n / 100) by (apply Z.div_pos; lia). rewrite (Z.mod_small (n / 100)), (Hd (n / 100)) by lia. rewrite (Z.div_small (n / 100)) by lia. rewrite Z.eqb_refl.
      apply (printed_cons _ _ _ _ [48 + n / 100; 48 + n / 10 mod 10]); [lia|]. apply (printed_cons _ _ _ _ [48 + n / 100]); [lens|].
      apply (printed_cons _ _ _ _ []); [lens|]. apply printed_nil.
Qed.

Lemma get_byte_of l i : bytes l -> is_byte (get l i).
Proof.
  intros Hb. unfold get. destruct (Nat.lt_ge_cases i (length l)); [|rewrite nth_overflow by lia; unfold is_byte; lia].
  apply (proj1 (Forall_forall _ _) Hb). now apply nth_In.
Qed.

Lemma text_prepend_num b n : (snd b <= length (fst b))%nat -> (3 <= snd b)%nat -> is_byte n ->
  text_of (prepend_num b n) = dec8 n ++ text_of b /\ snd (prepend_num b n) = (snd b - length (dec8 n))%nat /\ length (fst (prepend_num b n)) = length (fst b).
Proof.
  intros Hb He Hn. destruct (dec8_printed (fst b) (snd b) n Hn ltac:(lia)) as [H1 H2]. pose proof (length_dec8 n). unfold text_of, prepend_num. destruct (util_uintToStr (fst b) (snd b) n) as [buf pos]. cbn [fst snd] in *.
  rewrite H2. split; [|split; [lia|]].
  - rewrite skipn_exact by (rewrite length_firstn; lia). reflexivity.
  - rewrite !length_app, length_firstn, length_skipn. lia.
Qed.

(** From here on the kernel only reports errors. *)
Definition failing (w : world) : Prop := Forall (fun a => ret a < 0) (answers w).

Lemma syscall_failing c w : failing w -> exists r w', syscall c w = (Done r, w') /\ r < 0 /\ failing w'.
Proof.
  unfold failing, syscall, kernel, bind, pure. intros Hf. destruct (answers w) as [|a rest]; do 2 eexists; (split; [reflexivity|]); cbn [ret answers].
  - split; [unfold EIO; lia|constructor].
  - inversion Hf; subst. auto.
Qed.

Lemma util_writeAll_done fd : forall fuel data w, (length (answers w) < fuel)%nat ->
  exists r w' es, util_writeAll fuel w fd data = (w', Some r) /\ adds w w' es /\ (failing w -> failing w').
Proof.
  induction fuel as [|fuel IH]; intros data w Hf; [lia|]. cbn [util_writeAll]. destruct data as [|b data].
  { exists 0, w, []. split; [reflexivity|]. split; [apply adds_nil|auto]. }
  cbn [List.length Nat.ltb Nat.leb]. unfold Io.sys_write, router_file_ops. destruct w as [as_ t]. unfold syscall, kernel, bind, pure. cbn [answers trace] in *.
  destruct as_ as [|a rest]; cbn [ret answers trace].
  - change (- EIO <? 0) with true. change (ix_ERRNO (- EIO) =? EINTR) with false. cbv iota. do 3 eexists. split; [reflexivity|]. split; [reflexivity|]. auto.
  - destruct (IH (b :: data) (World rest (t ++ [(Sys_write fd (b :: data), Answer (ret a) [])]))) as (r1 & w1 & es1 & E1 & H1 & F1); [cbn [answers]; cbn [List.length] in Hf; lia|].
    destruct (IH (skipn (Z.to_nat (ret a)) (b :: data)) (World rest (t ++ [(Sys_write fd (b :: data), Answer (ret a) [])]))) as (r2 & w2 & es2 & E2 & H2 & F2); [cbn [answers]; cbn [List.length] in Hf; lia|].
    assert (failing (World (a :: rest) t) -> failing (World rest (t ++ [(Sys_write fd (b :: data), Answer (ret a) [])]))) as F by (intros H; inversion H; subst; assumption).
    assert (adds (World (a :: rest) t) (World rest (t ++ [(Sys_write fd (b :: data), Answer (ret a) [])])) [(Sys_write fd (b :: data), Answer (ret a) [])]) as H0 by reflexivity.
    destruct (ret a <? 0); [destruct (ix_ERRNO (ret a) =? EINTR)|].
    + do 3 eexists. split; [exact E1|]. split; [exact (adds_app _ _ _ _ _ H0 H1)|auto].
    + do 3 eexists. split; [reflexivity|]. split; [exact H0|auto].
    + do 3 eexists. split; [exact E2|]. split; [exact (adds_app _ _ _ _ _ H0 H2)|auto].
Qed.

(** Printing ends, whatever the kernel answers. *)
Lemma writeAll_done fd data w : exists r w' es, writeAll fd data w = (Done r, w') /\ adds w w' es /\ (failing w -> failing w').
Proof.
  unfold writeAll. destruct (util_writeAll_done fd (S (S (length (answers w)) + length data)) data w ltac:(lia)) as (r & w' & es & E & H & F).
  rewrite E. eauto 10.
Qed.

Lemma load_le B n x pre rest w i : B = pre ++ le_split n x ++ rest -> i = Z.of_nat (length pre) -> Z.of_nat (length B) = buffer_SIZE -> 0 <= x < 256 ^ Z.of_nat n ->
  load n B i w = (Done x, w).
Proof.
  intros -> -> Hn Hx. unfold load, uint_at. rewrite !length_app, length_le_split in Hn. destruct (Z.ltb_spec buffer_SIZE (Z.of_nat (length pre) + Z.of_nat n)); [lia|].
  rewrite Nat2Z.id, skipn_exact by reflexivity. rewrite firstn_app_l, firstn_all2, le_combine_split, Z.mod_small by (rewrite ?length_le_split; lia). reflexivity.
Qed.

Lemma load_bytes B n p pre rest w i : B = pre ++ p ++ rest -> i = Z.of_nat (length pre) -> Z.of_nat (length B) = buffer_SIZE -> (n <= length p)%nat ->
  load n B i w = (Done (le_combine (firstn n p)), w).
Proof.
  intros -> -> Hn Hx. unfold load, uint_at. rewrite !length_app in Hn. destruct (Z.ltb_spec buffer_SIZE (Z.of_nat (length pre) + Z.of_nat n)); [lia|].
  rewrite Nat2Z.id, skipn_exact by reflexivity. now rewrite firstn_app_l by lia.
Qed.

(** Take the next call of the goal: its result [r] and the world [w] after it. *)
Tactic Notation "call" simple_intropattern(r) simple_intropattern(w) simple_intropattern(H) :=
  match goal with
  | |- context [bind (syscall ?c) _ ?w0] => let E := fresh "E" in destruct (syscall_spec c w0) as (r & w & E & H); rewrite (bind_done _ _ _ _ _ E); clear E
  end.

(** ** Which calls a computation can make *)

Definition emits {A} (P : event -> Prop) (m : M A) : Prop := forall w, exists es, adds w (snd (m w)) es /\ Forall P es.

Lemma emits_pure {A} P (a : A) : emits P (pure a).
Proof. intros w. exists []. split; [apply adds_nil|constructor]. Qed.

Lemma emits_fatal {A} P : emits P (@fatal A).
Proof. intros w. exists []. split; [apply adds_nil|constructor]. Qed.

Lemma emits_undefined {A} P : emits P (@undefined A).
Proof. intros w. exists []. split; [apply adds_nil|constructor]. Qed.

Lemma emits_unfinished {A} P : emits P (@unfinished A).
Proof. intros w. exists []. split; [apply adds_nil|constructor]. Qed.

Lemma emits_bind {A B} P (m : M A) (f : A -> M B) : emits P m -> (forall a, emits P (f a)) -> emits P (bind m f).
Proof.
  intros Hm Hf w. destruct (Hm w) as (es & H1 & F1). unfold bind. destruct (m w) as [[a| | |] w1]; cbn [snd] in *; try (exists es; auto; fail).
  destruct (Hf a w1) as (es2 & H2 & F2). exists (es ++ es2). split; [exact (adds_app _ _ _ _ _ H1 H2)|now apply Forall_app].
Qed.

Lemma emits_kernel P c f : (forall a, P (c, a)) -> emits P (kernel c f).
Proof. intros Hc w. destruct (kernel_spec c f w) as (a & w' & E & H). rewrite E. exists [(c, f a)]. split; [exact H|]. constructor; [apply Hc|constructor]. Qed.

Lemma emits_syscall P c : (forall a, P (c, a)) -> emits P (syscall c).
Proof. intros Hc. unfold syscall. apply emits_bind; [now apply emits_kernel|]. intros. apply emits_pure. Qed.

Lemma emits_syscall_in P c n : (forall a, P (c, a)) -> emits P (syscall_in c n).
Proof. intros Hc. unfold syscall_in. apply emits_bind; [now apply emits_kernel|]. intros. apply emits_pure. Qed.

Lemma emits_syscall_out P c n : (forall a, P (c, a)) -> emits P (syscall_out c n).
Proof. intros Hc. unfold syscall_out. apply emits_bind; [now apply emits_kernel|]. intros. apply emits_pure. Qed.

Lemma emits_CHECK P b : emits P (CHECK b).
Proof. unfold CHECK. destruct b; [apply emits_pure|apply emits_fatal]. Qed.

Lemma emits_load P n buffer i : emits P (load n buffer i).
Proof. unfold load. destruct (_ <? _); [apply emits_undefined|apply emits_pure]. Qed.

Lemma emits_writeAll P fd data : (forall data a, P (Sys_write fd data, a)) -> emits P (writeAll fd data).
Proof.
  intros Hp w. unfold writeAll. generalize (S (S (length (answers w)) + length data))%nat as fuel. intros fuel. revert data w. induction fuel as [|fuel IH]; intros data w.
  - exists []. split; [apply adds_nil|constructor].
  - cbn [util_writeAll]. destruct data as [|b data]; [exists []; split; [apply adds_nil|constructor]|]. cbn [List.length Nat.ltb Nat.leb].
    unfold Io.sys_write, router_file_ops. destruct (emits_syscall P (Sys_write fd (b :: data)) (Hp _) w) as (es & H1 & F1).
    destruct (syscall_spec (Sys_write fd (b :: data)) w) as (r & w' & E & _). rewrite E in *. cbn [snd] in H1.
    assert (forall w2, (exists es2, adds w' w2 es2 /\ Forall P es2) -> exists es2, adds w w2 es2 /\ Forall P es2) as Hcat.
    { intros w2 (es2 & H2 & F2). exists (es ++ es2). split; [exact (adds_app _ _ _ _ _ H1 H2)|now apply Forall_app]. }
    destruct (r <? 0); [destruct (ix_ERRNO r =? EINTR)|].
    + specialize (IH (b :: data) w'). destruct (util_writeAll fuel w' fd (b :: data)) as [w2 [x|]]; now apply Hcat.
    + cbn [snd]. exists es. auto.
    + specialize (IH (skipn (Z.to_nat r) (b :: data)) w'). destruct (util_writeAll fuel w' fd _) as [w2 [x|]]; now apply Hcat.
Qed.

(** The same with what holds of the result. *)
Definition ensures {A} (P : event -> Prop) (Q : A -> Prop) (m : M A) : Prop :=
  forall w, exists es, adds w (snd (m w)) es /\ Forall P es /\ forall a, fst (m w) = Done a -> Q a.

Lemma ensures_emits {A} P (m : M A) : emits P m -> ensures P (fun _ => True) m.
Proof. intros Hm w. destruct (Hm w) as (es & H1 & H2). exists es. auto. Qed.

Lemma ensures_stop {A} P Q (m : M A) : emits P m -> (forall w a, fst (m w) <> Done a) -> ensures P Q m.
Proof. intros Hm Hn w. destruct (Hm w) as (es & H1 & H2). exists es. split; [exact H1|]. split; [exact H2|]. intros a Ha. destruct (Hn w a Ha). Qed.

Lemma ensures_pure {A} P (Q : A -> Prop) a : Q a -> ensures P Q (pure a).
Proof. intros Ha w. exists []. split; [apply adds_nil|]. split; [constructor|]. cbn. congruence. Qed.

Lemma ensures_bind {A B} P (R : A -> Prop) (Q : B -> Prop) m f : ensures P R m -> (forall a, R a -> ensures P Q (f a)) -> ensures P Q (bind m f).
Proof.
  intros Hm Hf w. destruct (Hm w) as (es & H1 & F1 & Hr). unfold bind. destruct (m w) as [[a| | |] w1]; cbn [fst snd] in *;
    try (exists es; split; [exact H1|split; [exact F1|discriminate]]; fail).
  destruct (Hf a (Hr a eq_refl) w1) as (es2 & H2 & F2 & Hq). exists (es ++ es2). split; [exact (adds_app _ _ _ _ _ H1 H2)|]. split; [now apply Forall_app|exact Hq].
Qed.

Lemma ensures_then {A B} P (Q : B -> Prop) (m : M A) (f : A -> M B) : emits P m -> (forall a, ensures P Q (f a)) -> ensures P Q (bind m f).
Proof. intros Hm Hf. eapply ensures_bind; [apply ensures_emits, Hm|auto]. Qed.
