(* ===== verification/Fds.v ===== *)
(** * Accounting for descriptors

    Which descriptors a computation opened and closed can be read off its calls.  A
    computation is balanced from one multiset of descriptors to another if, whatever the
    kernel answers, what it was given and what it opened is what it leaves and what it
    closed: nothing is lost, nothing is closed that was not there. *)
From Stdlib Require Import ZArith List Lia Bool Permutation.
From S2P Require Import Prelude RouterSys.
Import ListNotations.

Definition opened (e : event) : list Z :=
  match fst e with
  | Sys_socket _ _ _ | Sys_accept4 _ | Sys_openat _ _ _ _ | Sys_timerfd_create _ _ | Sys_epoll_create1 _ | Sys_memfd_create _ _ => if 0 <=? ret (snd e) then [ret (snd e)] else []
  | _ => []
  end.
Definition closed (e : event) : list Z := match fst e with Sys_close fd => [fd] | _ => [] end.

Definition account (h h' : list Z) (es : list event) : Prop := Permutation (h ++ flat_map opened es) (h' ++ flat_map closed es).

Definition balanced {A} (h : list Z) (Q : A -> list Z) (m : M A) : Prop :=
  forall w, exists es, adds w (snd (m w)) es /\ forall a, fst (m w) = Done a -> account h (Q a) es.

Lemma account_nil h : account h h [].
Proof. unfold account. apply Permutation_refl. Qed.

Lemma account_app h1 h2 h3 es1 es2 : account h1 h2 es1 -> account h2 h3 es2 -> account h1 h3 (es1 ++ es2).
Proof.
  unfold account. intros H1 H2. rewrite !flat_map_app, !app_assoc. rewrite H1. rewrite <- (app_assoc h2), (Permutation_app_comm (flat_map closed es1)), app_assoc, H2.
  rewrite <- !app_assoc. apply Permutation_app_head, Permutation_app_comm.
Qed.

Lemma balanced_pure {A} h (Q : A -> list Z) a : Permutation h (Q a) -> balanced h Q (pure a).
Proof. intros Hp w. exists []. split; [apply adds_nil|]. intros b Hb. cbn in Hb. injection Hb as <-. unfold account. cbn. rewrite !app_nil_r. exact Hp. Qed.

Lemma balanced_stop {A} h (Q : A -> list Z) m : emits (fun _ => True) m -> (forall w a, fst (m w) <> Done a) -> balanced h Q m.
Proof. intros Hm Hn w. destruct (Hm w) as (es & H1 & _). exists es. split; [exact H1|]. intros a Ha. destruct (Hn w a Ha). Qed.

Lemma balanced_perm {A} h h' (Q : A -> list Z) m : Permutation h h' -> balanced h' Q m -> balanced h Q m.
Proof. intros Hp Hm w. destruct (Hm w) as (es & H1 & H2). exists es. split; [exact H1|]. intros a Ha. unfold account. rewrite Hp. now apply H2. Qed.

Lemma balanced_bind {A B} h (R : A -> list Z) (Q : B -> list Z) m f : balanced h R m -> (forall a, balanced (R a) Q (f a)) -> balanced h Q (bind m f).
Proof.
  intros Hm Hf w. destruct (Hm w) as (es & H1 & F1). unfold bind. destruct (m w) as [[a| | |] w1]; cbn [fst snd] in *; try (exists es; split; [exact H1|discriminate]; fail).
  destruct (Hf a w1) as (es2 & H2 & F2). exists (es ++ es2). split; [exact (adds_app _ _ _ _ _ H1 H2)|]. intros b Hb. exact (account_app _ _ _ _ _ (F1 a eq_refl) (F2 b Hb)).
Qed.

(** What is not touched stays. *)
Lemma balanced_frame {A} x h (Q : A -> list Z) m : balanced h Q m -> balanced (x :: h) (fun a => x :: Q a) m.
Proof. intros Hm w. destruct (Hm w) as (es & H1 & H2). exists es. split; [exact H1|]. intros a Ha. specialize (H2 a Ha). unfold account in *. cbn [app]. now apply perm_skip. Qed.

(** A check that fails ends the process. *)
Lemma balanced_CHECK {B} h (Q : B -> list Z) b f : (b = true -> balanced h Q (f tt)) -> balanced h Q (bind (CHECK b) f).
Proof.
  intros Hf. unfold CHECK. destruct b; [exact (Hf eq_refl)|]. intros w. exists []. split; [apply adds_nil|discriminate].
Qed.

Definition neutral (c : call) : Prop := forall a, opened (c, a) = [] /\ closed (c, a) = [].

Lemma balanced_kernel h (Q : answer -> list Z) c f : (forall a, account h (Q a) [(c, a)]) -> balanced h Q (kernel c f).
Proof. intros Hc w. destruct (kernel_spec c f w) as (a & w' & E & H). rewrite E. exists [(c, f a)]. split; [exact H|]. intros b Hb. cbn in Hb. injection Hb as <-. apply Hc. Qed.

Lemma account_neutral h c a : neutral c -> account h h [(c, a)].
Proof. intros Hn. destruct (Hn a) as [H1 H2]. unfold account. cbn [flat_map]. rewrite H1, H2. apply Permutation_refl. Qed.

Lemma balanced_emits {A} h (m : M A) : emits (fun e => neutral (fst e)) m -> balanced h (fun _ => h) m.
Proof.
  intros Hm w. destruct (Hm w) as (es & H1 & F). exists es. split; [exact H1|]. intros _ _. clear H1. induction F as [|e es He _ IH]; [apply account_nil|].
  apply (account_app h h h [e] es); [|exact IH]. destruct e as [c a]. now apply account_neutral.
Qed.

Lemma balanced_syscall h c : neutral c -> balanced h (fun _ => h) (syscall c).
Proof. intros Hn. apply balanced_emits, emits_syscall. intros ?. exact Hn. Qed.

Lemma balanced_syscall_in h c n : neutral c -> balanced h (fun _ => h) (syscall_in c n).
Proof. intros Hn. apply balanced_emits, emits_syscall_in. intros ?. exact Hn. Qed.

Lemma balanced_syscall_out h c n : neutral c -> balanced h (fun _ => h) (syscall_out c n).
Proof. intros Hn. apply balanced_emits, emits_syscall_out. intros ?. exact Hn. Qed.

Definition gained (h : list Z) (r : Z) : list Z := if 0 <=? r then r :: h else h.

Lemma balanced_open h c : (forall a, opened (c, a) = if 0 <=? ret a then [ret a] else []) -> (forall a, closed (c, a) = []) -> balanced h (gained h) (syscall c).
Proof.
  intros Ho Hc. unfold syscall. apply balanced_bind with (R := fun a => gained h (ret a)); [|intros a; now apply balanced_pure].
  apply balanced_kernel. intros a. unfold account, gained. cbn [flat_map]. rewrite Ho, Hc. cbn [app]. rewrite !app_nil_r. destruct (0 <=? ret a); [|now rewrite app_nil_r]. symmetry. apply (Permutation_cons_append h).
Qed.

Lemma balanced_close h fd : balanced (fd :: h) (fun _ => h) (sys_close fd).
Proof.
  unfold sys_close, syscall. apply balanced_bind with (R := fun _ => h); [|intros a; now apply balanced_pure].
  apply balanced_kernel. intros a. unfold account. cbn [flat_map opened closed fst app]. rewrite app_nil_r. apply (Permutation_cons_append h).
Qed.

Lemma balanced_match {A} (b : bool) h (Q : A -> list Z) m1 m2 : (b = true -> balanced h Q m1) -> (b = false -> balanced h Q m2) -> balanced h Q (if b then m1 else m2).
Proof. destruct b; auto. Qed.
