(* ===== verification/Telnet.v ===== *)
(** * The router's telnet server ([src/router/router/telnetServer.c])

    The server joins one TCP client with the master end of a pseudo terminal.  The
    handlers are translated over the system calls of [RouterSys].  The reference is a
    byte at a time automaton for the telnet protocol: however the network cuts a client's
    bytes into reads, the terminal gets what the automaton emits on the whole stream. *)
From Stdlib Require Import ZArith List Lia Bool String.
From S2P Require Import Prelude RouterSys.
Import ListNotations.

Definition telnet_SE : Z := 240.
Definition telnet_NOP : Z := 241.
Definition telnet_GO_AHEAD : Z := 249.
Definition telnet_SB : Z := 250.
Definition telnet_WILL : Z := 251.
Definition telnet_DO : Z := 253.
Definition telnet_DONT : Z := 254.
Definition telnet_IAC : Z := 255.
Definition telnet_OPT_ECHO : Z := 1.
Definition telnet_OPT_SGA : Z := 3.
Definition telnet_OPT_NAWS : Z := 31.
Definition CR : Z := 13.
Definition NL : Z := 10.
Definition TIOCSWINSZ : Z := 0x5414.

(** ** The code *)

Record telnetServer := TelnetServer { pidFd : Z; listenFd : Z; clientFd : Z; ptMasterFd : Z; saved : list Z }.

Definition with_clientFd (self : telnetServer) (fd : Z) : telnetServer :=
  TelnetServer (pidFd self) (listenFd self) fd (ptMasterFd self) (saved self).
Definition with_saved (self : telnetServer) (s : list Z) : telnetServer :=
  TelnetServer (pidFd self) (listenFd self) (clientFd self) (ptMasterFd self) s.

(** [sizeof(saved)]. *)
Definition saved_SIZE : nat := 12%nat.

Definition TIOCSPTLCK : Z := 0x40045431.
Definition TIOCGPTPEER : Z := 0x5441.
Definition O_RDWR_NOCTTY : Z := 0x102.
Definition O_NONBLOCK : Z := 0x800.
Definition O_CLOEXEC : Z := 0x80000.
Definition CLOSE_RANGE_UNSHARE : Z := 2.
(** [CLONE_VM | CLONE_FILES | CLONE_VFORK | CLONE_PIDFD]. *)
Definition shell_clone_flags : Z := 0x5500.

(** The child: the terminal becomes its standard streams; the arguments are the
    strings "/shell", and "HOME=/" and "TERM=linux". *)
Definition _telnetServer_shell : M unit :=
  let! r1 := syscall (Sys_close_range 4 (2 ^ 31 - 1) CLOSE_RANGE_UNSHARE) in
  (if r1 =? 0 then
     let! r2 := syscall (Sys_dup3 3 0 0) in
     if r2 =? 0 then
       let! r3 := syscall (Sys_dup3 3 1 0) in
       if r3 =? 1 then
         let! r4 := syscall (Sys_dup3 3 2 0) in
         if r4 =? 2 then
           syscall (Sys_execveat (str "/shell") [str "/shell"] [str "HOME=/"; str "TERM=linux"]);; pure tt
         else pure tt
       else pure tt
     else pure tt
   else pure tt);;
  syscall (Sys_exit_group 1);; pure tt.

(** [saved] keeps what it held: 12 zeroes, the object is static. *)
Definition telnetServer_init : M telnetServer :=
  let! master := syscall (Sys_openat (-1) (str "/devpts/ptmx") (Z.lor O_RDWR_NOCTTY O_NONBLOCK) 0) in
  CHECK (0 <? master);;
  let! r := syscall (Sys_ioctl master TIOCSPTLCK (le_split 4 0)) in
  CHECK (r =? 0);;
  let! ptSlaveFd := syscall (Sys_ioctl master TIOCGPTPEER (le_split 8 O_RDWR_NOCTTY)) in
  CHECK (0 <? ptSlaveFd);;
  let! r := syscall (Sys_dup3 ptSlaveFd 3 O_CLOEXEC) in
  CHECK (r =? 3);;
  let! r := sys_close ptSlaveFd in
  CHECK (r =? 0);;
  let! (pid, pidFdOut) := syscall_out (Sys_clone3 shell_clone_flags) 4 in
  CHECK (0 <? pid);;
  let! listen := syscall (Sys_socket AF_INET SOCK_STREAM 0) in
  CHECK (0 <? listen);;
  let! r := syscall (Sys_bind listen (sockaddr_in 23 [10; 123; 0; 1])) in
  CHECK (r =? 0);;
  let! r := syscall (Sys_listen listen 1) in
  CHECK (r =? 0);;
  pure (TelnetServer (i32 (le_combine pidFdOut)) listen (-1) master (repeat 0 saved_SIZE)).

Definition _telnetServer_kickClient (self : telnetServer) : M telnetServer :=
  if 0 <=? clientFd self then
    sys_close (clientFd self);;
    pure (with_clientFd self (-1))
  else pure self.

Definition telnet_handshake : list Z :=
  [telnet_IAC; telnet_WILL; telnet_OPT_ECHO; telnet_IAC; telnet_WILL; telnet_OPT_SGA; telnet_IAC; telnet_DO; telnet_OPT_NAWS].

Definition telnetServer_onListenFd (self : telnetServer) (epollFd : Z) : M telnetServer :=
  let! newClientFd := syscall (Sys_accept4 (listenFd self)) in
  if newClientFd <? 0 then pure self
  else
    let! self := _telnetServer_kickClient self in
    let! sent := sys_sendto newClientFd telnet_handshake (Z.lor MSG_NOSIGNAL MSG_DONTWAIT) [] in
    if negb (sent =? Z.of_nat (length telnet_handshake)) then _telnetServer_kickClient self
    else
      let self := with_clientFd (with_saved self (mem_set (saved self) 0 saved_SIZE 0)) newClientFd in
      epollAdd epollFd (clientFd self);;
      pure self.

(** The inner loops: how many elements of [l] come before the first stop. *)
Fixpoint run_length (stop : Z -> bool) (l : list Z) : nat :=
  match l with
  | [] => O
  | b :: l => if stop b then O else S (run_length stop l)
  end.

(** The elements from [i] up to [j]. *)
Definition slice (l : list Z) (i j : nat) : list Z := firstn (j - i) (skipn i l).

Definition pt_stop (b : Z) : bool := (b =? CR) || (b =? NL) || (b =? telnet_IAC).

(** The two bytes sent for one that needs handling. *)
Definition pt_escape (b : Z) : list Z :=
  if b =? CR then [CR; 0] else if b =? NL then [CR; NL] else [telnet_IAC; telnet_IAC].

(** The loop of [telnetServer_onPtMasterFd]; [buffer] holds the [numBuffered] bytes read. *)
Fixpoint pt_loop (fuel : nat) (self : telnetServer) (buffer : list Z) (baseI : nat) : M telnetServer :=
  match fuel with
  | O => unfinished
  | S fuel' =>
      let i := (baseI + run_length pt_stop (skipn baseI buffer))%nat in
      let toSend := (i - baseI)%nat in
      let! sent := if (0 <? toSend)%nat then sys_sendto (clientFd self) (slice buffer baseI i) (Z.lor MSG_NOSIGNAL MSG_DONTWAIT) [] else pure 0 in
      if (0 <? toSend)%nat && negb (sent =? Z.of_nat toSend) then _telnetServer_kickClient self
      else if (length buffer <=? i)%nat then pure self
      else
        let! sent := sys_sendto (clientFd self) (pt_escape (get buffer i)) (Z.lor MSG_NOSIGNAL MSG_DONTWAIT) [] in
        if negb (sent =? 2) then _telnetServer_kickClient self
        else pt_loop fuel' self buffer (i + 1)
  end.

Definition telnetServer_onPtMasterFd (self : telnetServer) : M telnetServer :=
  let! (numBuffered, buffer) := sys_read (ptMasterFd self) buffer_SIZE in
  CHECK (0 <? numBuffered);;
  if clientFd self <? 0 then pure self
  else pt_loop (S (length buffer)) self buffer 0.

(** The next byte and its successor's index, or the new [saved] when the buffer ends. *)
Definition _telnetServer_getByteOrSave (savedBytes buffer : list Z) (startI currI : nat) : list Z + Z * nat :=
  if (length buffer <=? currI)%nat then
    let toSave := (length buffer - startI)%nat in
    inl (mem_copy savedBytes (saved_SIZE - toSave) (skipn startI buffer))
  else inr (get buffer currI, S currI).

(** How a command ends: go on at an index, wait for more bytes with the new [saved], or
    kick the client. *)
Inductive verdict := Continue (currI : nat) | Wait (savedBytes : list Z) | Kick.

(** One byte of a window size; IAC comes doubled. *)
Definition naws_byte (savedBytes buffer : list Z) (startI currI : nat) : verdict * Z :=
  match _telnetServer_getByteOrSave savedBytes buffer startI currI with
  | inl s => (Wait s, 0)
  | inr (b, currI) =>
      if b =? telnet_IAC then
        match _telnetServer_getByteOrSave savedBytes buffer startI currI with
        | inl s => (Wait s, 0)
        | inr (b, currI) => if negb (b =? telnet_IAC) then (Kick, 0) else (Continue currI, b)
        end
      else (Continue currI, b)
  end.

Definition _telnetServer_getNawsU16OrSave (savedBytes buffer : list Z) (startI currI : nat) : verdict * Z :=
  match naws_byte savedBytes buffer startI currI with
  | (Continue currI, msb) =>
      match naws_byte savedBytes buffer startI currI with
      | (Continue currI, lsb) => (Continue currI, u16 (msb << 8) .| lsb)
      | r => r
      end
  | r => r
  end.

(** [struct winsize] with the two sizes a client sends. *)
Definition winsize (row col : Z) : list Z := le_split 2 row ++ le_split 2 col ++ repeat 0 4.

(** [case telnet_OPT_NAWS]. *)
Definition telnet_naws (self : telnetServer) (buffer : list Z) (i currI : nat) : M verdict :=
  match _telnetServer_getNawsU16OrSave (saved self) buffer i currI with
  | (Continue currI, ws_col) =>
      match _telnetServer_getNawsU16OrSave (saved self) buffer i currI with
      | (Continue currI, ws_row) =>
          match _telnetServer_getByteOrSave (saved self) buffer i currI with
          | inl s => pure (Wait s)
          | inr (iac, currI) =>
              match _telnetServer_getByteOrSave (saved self) buffer i currI with
              | inl s => pure (Wait s)
              | inr (se, currI) =>
                  if negb (iac =? telnet_IAC) || negb (se =? telnet_SE) then pure Kick
                  else
                    let! status := syscall (Sys_ioctl (ptMasterFd self) TIOCSWINSZ (winsize ws_row ws_col)) in
                    pure (if status <? 0 then Kick else Continue currI)
              end
          end
      | (v, _) => pure v
      end
  | (v, _) => pure v
  end.

(** [switch (followup)] after an IAC. *)
Definition telnet_command (self : telnetServer) (buffer : list Z) (i currI : nat) (followup : Z) : M verdict :=
  if (telnet_NOP <=? followup) && (followup <=? telnet_GO_AHEAD) then pure (Continue currI)
  else if (telnet_WILL <=? followup) && (followup <=? telnet_DONT) then
    match _telnetServer_getByteOrSave (saved self) buffer i currI with
    | inl s => pure (Wait s)
    | inr (_, currI) => pure (Continue currI)
    end
  else if followup =? telnet_IAC then
    let! written := sys_write (ptMasterFd self) [get buffer i] in
    pure (if negb (written =? 1) then Kick else Continue currI)
  else if followup =? telnet_SB then
    match _telnetServer_getByteOrSave (saved self) buffer i currI with
    | inl s => pure (Wait s)
    | inr (opt, currI) =>
        if opt =? telnet_OPT_NAWS then telnet_naws self buffer i currI else pure Kick
    end
  else pure Kick.

(** CR or IAC at index [i]. *)
Definition telnet_handle (self : telnetServer) (buffer : list Z) (i : nat) : M verdict :=
  match _telnetServer_getByteOrSave (saved self) buffer i (i + 1) with
  | inl s => pure (Wait s)
  | inr (followup, currI) =>
      if get buffer i =? telnet_IAC then telnet_command self buffer i currI followup
      else
        let valid := (followup =? 0) || (followup =? NL) in
        if negb valid then pure Kick
        else
          let! written := sys_write (ptMasterFd self) [get buffer i] in
          pure (if negb (written =? 1) then Kick else Continue currI)
  end.

Definition client_stop (b : Z) : bool := (b =? CR) || (b =? telnet_IAC).

(** The loop of [telnetServer_onClientFd]. *)
Fixpoint client_loop (fuel : nat) (self : telnetServer) (buffer : list Z) (baseI : nat) : M telnetServer :=
  match fuel with
  | O => unfinished
  | S fuel' =>
      let i := (baseI + run_length client_stop (skipn baseI buffer))%nat in
      let toWrite := (i - baseI)%nat in
      let! written := if (0 <? toWrite)%nat then sys_write (ptMasterFd self) (slice buffer baseI i) else pure 0 in
      if (0 <? toWrite)%nat && negb (written =? Z.of_nat toWrite) then _telnetServer_kickClient self
      else if (length buffer <=? i)%nat then pure self
      else
        let! v := telnet_handle self buffer i in
        match v with
        | Wait s => pure (with_saved self s)
        | Kick => _telnetServer_kickClient self
        | Continue currI => client_loop fuel' self buffer currI
        end
  end.

(** The index of the first byte of [saved] that is not 0. *)
Definition saved_start (s : list Z) : nat := run_length (fun b => negb (b =? 0)) s.

Definition telnetServer_onClientFd (self : telnetServer) : M telnetServer :=
  let i := saved_start (saved self) in
  let pending := skipn i (saved self) in
  let numSaved := length pending in
  let self := with_saved self (mem_set (saved self) i numSaved 0) in
  let! (numRecv, received) := sys_recvfrom (clientFd self) (buffer_SIZE - Z.of_nat numSaved) 0 in
  if numRecv <=? 0 then _telnetServer_kickClient self
  else
    let buffer := pending ++ received in
    client_loop (S (length buffer)) self buffer 0.

Definition telnetServer_deinit (self : telnetServer) : M telnetServer :=
  let! self := _telnetServer_kickClient self in
  sys_close (pidFd self);;
  sys_close (listenFd self);;
  sys_close (ptMasterFd self);;
  pure self.

(** ** Reference: the protocol, byte by byte *)

Module Nvt.

(** What the terminal is given: a byte of input or a new size. *)
Inductive effect := Input (b : Z) | Resize (col row : Z).

(** Between commands; after CR, after IAC, in an option request, in a subnegotiation; in a
    window size with the digits so far ([escaped]: after an IAC), before its closing IAC,
    before its SE (the pair is judged as a whole); after a violation of the protocol. *)
Inductive state :=
| Data | AfterCr | AfterIac | Option | Sub
| Size (digits : list Z) (escaped : bool)
| SizeEnd (digits : list Z)
| SizeSe (digits : list Z) (iac : Z)
| Broken.

(** The four digits are the bytes of the columns and of the rows, high byte first. *)
Definition add_digit (digits : list Z) (b : Z) : state :=
  if (length digits =? 3)%nat then SizeEnd (digits ++ [b]) else Size (digits ++ [b]) false.

Definition step (s : state) (b : Z) : list effect * state :=
  match s with
  | Data => if b =? CR then ([], AfterCr) else if b =? telnet_IAC then ([], AfterIac) else ([Input b], Data)
  | AfterCr => if (b =? 0) || (b =? NL) then ([Input CR], Data) else ([], Broken)
  | AfterIac =>
      if (telnet_NOP <=? b) && (b <=? telnet_GO_AHEAD) then ([], Data)
      else if (telnet_WILL <=? b) && (b <=? telnet_DONT) then ([], Option)
      else if b =? telnet_IAC then ([Input telnet_IAC], Data)
      else if b =? telnet_SB then ([], Sub)
      else ([], Broken)
  | Option => ([], Data)
  | Sub => if b =? telnet_OPT_NAWS then ([], Size [] false) else ([], Broken)
  | Size ds false => if b =? telnet_IAC then ([], Size ds true) else ([], add_digit ds b)
  | Size ds true => if b =? telnet_IAC then ([], add_digit ds b) else ([], Broken)
  | SizeEnd ds => ([], SizeSe ds b)
  | SizeSe ds iac =>
      if (iac =? telnet_IAC) && (b =? telnet_SE) then
        ([Resize (256 * nth 0 ds 0 + nth 1 ds 0) (256 * nth 2 ds 0 + nth 3 ds 0)], Data)
      else ([], Broken)
  | Broken => ([], Broken)
  end.

Fixpoint run (s : state) (l : list Z) : list effect * state :=
  match l with
  | [] => ([], s)
  | b :: l =>
      let '(o, s) := step s b in
      let '(os, s) := run s l in
      (o ++ os, s)
  end.

Lemma run_app l1 : forall s l2, run s (l1 ++ l2) =
  let '(o1, s1) := run s l1 in let '(o2, s2) := run s1 l2 in (o1 ++ o2, s2).
Proof.
  induction l1 as [|b l1 IH]; intros s l2; cbn [run app].
  - now destruct (run s l2).
  - destruct (step s b) as [o s']. rewrite IH. destruct (run s' l1) as [o1 s1], (run s1 l2) as [o2 s2]. now rewrite app_assoc.
Qed.

Lemma run_broken l : run Broken l = ([], Broken).
Proof. induction l; cbn [run step]; [reflexivity|]. now rewrite IHl. Qed.

(** The bytes of an unfinished command. *)
Inductive pending : list Z -> state -> Prop :=
| pending_none : pending [] Data
| pending_more p s b s' : pending p s -> step s b = ([], s') -> s' <> Data -> s' <> Broken -> pending (p ++ [b]) s'.

(** How many bytes a command can have when it is in a state. *)
Definition weight (s : state) : nat :=
  match s with
  | Data | Broken => 0
  | AfterCr | AfterIac => 1
  | Option | Sub => 2
  | Size ds esc => 3 + 2 * length ds + (if esc then 1 else 0)
  | SizeEnd _ => 11
  | SizeSe _ _ => 12
  end.

Definition small (s : state) : Prop := match s with Size ds _ => (length ds <= 3)%nat | SizeEnd ds | SizeSe ds _ => length ds = 4%nat | _ => True end.

Lemma step_weight s b o s' : step s b = (o, s') -> small s -> s' <> Data -> s' <> Broken -> (weight s < weight s')%nat /\ small s'.
Proof.
  intros E Hs H1 H2. destruct s as [| | | | |ds [|]|ds|ds iac|]; cbn [step small] in *; unfold add_digit in E;
    repeat match type of E with context [if ?c then _ else _] => let D := fresh "D" in destruct c eqn:D end;
    injection E as <- <-; try congruence; cbn [weight small List.length]; try (split; [lia|exact I || lia]).
  all: match goal with D : (length _ =? 3)%nat = true |- _ => apply Nat.eqb_eq in D | D : (length _ =? 3)%nat = false |- _ => apply Nat.eqb_neq in D end;
    rewrite ?length_app; cbn [List.length]; lia.
Qed.

Lemma pending_weight p s : pending p s -> (length p <= weight s)%nat /\ small s.
Proof.
  induction 1 as [|p s b s' _ [IH1 IH2] E H1 H2]; [cbn; lia|].
  destruct (step_weight _ _ _ _ E IH2 H1 H2). rewrite length_app. cbn [List.length]. split; [lia|assumption].
Qed.

(** [saved] is large enough for every unfinished command. *)
Lemma pending_bound p s : pending p s -> (length p <= saved_SIZE)%nat.
Proof.
  intros H. destruct (pending_weight p s H) as [H1 H2]. unfold saved_SIZE. enough (weight s <= 12)%nat by lia.
  destruct s as [| | | | |ds [|]|ds|ds iac|]; cbn [weight small] in *; lia.
Qed.

Lemma pending_run p s : pending p s -> run Data p = ([], s).
Proof.
  induction 1 as [|p s b s' _ IH E _ _]; [reflexivity|]. rewrite run_app, IH. cbn [run]. now rewrite E.
Qed.

Lemma pending_head p s : pending p s -> p = [] /\ s = Data \/ exists b q, p = b :: q /\ client_stop b = true.
Proof.
  induction 1 as [|p s b s' H IH E H1 H2]; [now left|right]. destruct IH as [[-> ->]|(c & q & -> & Hc)].
  - exists b, []. split; [reflexivity|]. cbn [step] in E. unfold client_stop. destruct (b =? CR); [reflexivity|]. destruct (b =? telnet_IAC); [reflexivity|discriminate].
  - exists c, (q ++ [b]). auto.
Qed.
End Nvt.

(** ** One command *)

Import Nvt.

(** What a call did to the terminal, and whether it did all it was asked to. *)
Definition effects (e : event) : list effect :=
  match fst e with
  | Sys_write _ data => map Input data
  | Sys_ioctl _ _ arg => [Resize (le_combine (firstn 2 (skipn 2 arg))) (le_combine (firstn 2 arg))]
  | _ => []
  end.
Definition accepted (e : event) : bool :=
  match fst e with
  | Sys_write _ data => ret (snd e) =? Z.of_nat (length data)
  | Sys_ioctl _ _ _ => 0 <=? ret (snd e)
  | _ => true
  end.

(** What the client sent, as the calls received it. *)
Definition received (es : list event) : list Z :=
  flat_map (fun e => match fst e with Sys_recvfrom _ _ _ => out (snd e) | _ => [] end) es.

Lemma received_app es1 es2 : received (es1 ++ es2) = received es1 ++ received es2.
Proof. apply flat_map_app. Qed.

Lemma slice_S l i j : (i <= j < length l)%nat -> slice l i (S j) = slice l i j ++ [get l j].
Proof.
  intros H. unfold slice. replace (S j - i)%nat with (S (j - i)) by lia.
  rewrite <- (firstn_skipn (j - i) (skipn i l)) at 1. rewrite skipn_skipn. replace (j - i + i)%nat with j by lia.
  rewrite firstn_app, length_firstn, length_skipn, Nat.min_l by lia. replace (S (j - i) - (j - i))%nat with 1%nat by lia.
  rewrite firstn_all2 by (rewrite length_firstn, length_skipn; lia). f_equal.
  destruct (skipn j l) as [|b r] eqn:E; [apply (f_equal (@List.length Z)) in E; rewrite length_skipn in E; cbn in E; lia|].
  cbn [firstn]. f_equal. unfold get. rewrite <- (firstn_skipn j l), app_nth2 by (rewrite length_firstn; lia). rewrite length_firstn, Nat.min_l, Nat.sub_diag, E by lia. reflexivity.
Qed.

Lemma slice_end l i : slice l i (length l) = skipn i l.
Proof. unfold slice. apply firstn_all2. rewrite length_skipn. lia. Qed.

Lemma slice_nil l i : slice l i i = [].
Proof. unfold slice. now rewrite Nat.sub_diag. Qed.

Section Command.
Context (self : telnetServer) (buffer : list Z) (i : nat).
Context (Hbytes : bytes buffer).

Local Notation n := (length buffer).
Local Notation kept := (mem_copy (saved self) (saved_SIZE - (length buffer - i)) (skipn i buffer)).

(** The command up to [j] is unfinished, in state [s]. *)
Definition at_ (j : nat) (s : state) : Prop := (i <= j <= n)%nat /\ pending (slice buffer i j) s.
Definition broken_by_now : Prop := exists j, (i < j <= n)%nat /\ run Data (slice buffer i j) = ([], Broken).
Definition waiting (s : list Z) : Prop := s = kept /\ exists st, pending (skipn i buffer) st.

Variant got (j : nat) : list Z + Z * nat -> Prop :=
| got_end : j = n -> got j (inl kept)
| got_byte b : (j < n)%nat -> is_byte b -> b = get buffer j -> slice buffer i (S j) = slice buffer i j ++ [b] -> got j (inr (b, S j)).

Lemma get_byte j : (i <= j <= n)%nat -> got j (_telnetServer_getByteOrSave (saved self) buffer i j).
Proof using Hbytes.
  intros Hj. unfold _telnetServer_getByteOrSave. destruct (Nat.leb_spec n j).
  - apply got_end. lia.
  - apply got_byte; [assumption| |reflexivity|apply slice_S; lia]. apply (proj1 (Forall_forall _ _) Hbytes). now apply nth_In.
Qed.

Lemma at_end j s : at_ j s -> j = n -> waiting kept.
Proof using. intros [_ H] ->. split; [reflexivity|]. exists s. now rewrite <- slice_end. Qed.

Lemma at_next j s b s' : at_ j s -> (j < n)%nat -> slice buffer i (S j) = slice buffer i j ++ [b] -> step s b = ([], s') ->
  s' <> Data -> s' <> Broken -> at_ (S j) s'.
Proof using. intros [H1 H2] Hj E Hs D1 D2. split; [lia|]. rewrite E. now apply (pending_more _ s). Qed.

(** The byte that ends a command. *)
Lemma at_run j s b o s' : at_ j s -> slice buffer i (S j) = slice buffer i j ++ [b] -> step s b = (o, s') -> run Data (slice buffer i (S j)) = (o, s').
Proof using. intros [_ H] E Hs. rewrite E, run_app, (pending_run _ _ H). cbn [run]. rewrite Hs. now rewrite app_nil_r. Qed.

Lemma at_broken j s b : at_ j s -> (j < n)%nat -> slice buffer i (S j) = slice buffer i j ++ [b] -> step s b = ([], Broken) -> broken_by_now.
Proof using. intros H Hj E Hs. exists (S j). split; [destruct H; lia|]. exact (at_run _ _ _ _ _ H E Hs). Qed.

Lemma naws_byte_spec j ds : at_ j (Size ds false) ->
  match naws_byte (saved self) buffer i j with
  | (Wait s, _) => waiting s
  | (Kick, _) => broken_by_now
  | (Continue k, b) => (j < k)%nat /\ is_byte b /\ at_ k (add_digit ds b)
  end.
Proof using Hbytes.
  intros H. assert (forall b, add_digit ds b <> Data /\ add_digit ds b <> Broken) as Hd by (intros b; unfold add_digit; destruct (length ds =? 3)%nat; split; discriminate).
  unfold naws_byte. destruct (get_byte j (proj1 H)) as [E|b Hj Hb _ E]; [exact (at_end _ _ H E)|].
  destruct (b =? telnet_IAC) eqn:D.
  - assert (at_ (S j) (Size ds true)) as H' by (eapply at_next; [exact H|exact Hj|exact E|cbn [step]; now rewrite D|discriminate..]).
    destruct (get_byte (S j) (proj1 H')) as [E'|b' Hj' Hb' _ E']; [exact (at_end _ _ H' E')|].
    destruct (b' =? telnet_IAC) eqn:D'; cbn [negb].
    + split; [lia|]. split; [exact Hb'|]. eapply at_next; [exact H'|exact Hj'|exact E'|cbn [step]; now rewrite D'|apply Hd..].
    + eapply at_broken; [exact H'|exact Hj'|exact E'|cbn [step]; now rewrite D'].
  - split; [lia|]. split; [exact Hb|]. eapply at_next; [exact H|exact Hj|exact E|cbn [step]; now rewrite D|apply Hd..].
Qed.

(** Two digits are a number in network order. *)
Lemma u16_value msb lsb : is_byte msb -> is_byte lsb -> u16 (msb << 8) .| lsb = 256 * msb + lsb.
Proof using.
  unfold is_byte. intros. rewrite shiftl_mul, wrap_small by lia. rewrite Z.lor_comm, lor_add by lia. lia.
Qed.

Lemma naws_u16_spec j ds : at_ j (Size ds false) -> (length ds <= 2)%nat ->
  match _telnetServer_getNawsU16OrSave (saved self) buffer i j with
  | (Wait s, _) => waiting s
  | (Kick, _) => broken_by_now
  | (Continue k, v) => exists a b, (j < k)%nat /\ is_byte a /\ is_byte b /\ v = 256 * a + b /\ at_ k (add_digit (ds ++ [a]) b)
  end.
Proof using Hbytes.
  intros H Hl. unfold _telnetServer_getNawsU16OrSave. pose proof (naws_byte_spec j ds H) as H1.
  destruct (naws_byte (saved self) buffer i j) as [[k|s|] a]; try exact H1. destruct H1 as (Hk & Ha & Hat).
  assert (add_digit ds a = Size (ds ++ [a]) false) as E by (unfold add_digit; destruct (Nat.eqb_spec (length ds) 3); [lia|reflexivity]).
  rewrite E in Hat. pose proof (naws_byte_spec k _ Hat) as H2.
  destruct (naws_byte (saved self) buffer i k) as [[k2|s|] b]; try exact H2. destruct H2 as (Hk2 & Hb & Hat2).
  exists a, b. split; [lia|]. split; [exact Ha|]. split; [exact Hb|]. split; [now apply u16_value|exact Hat2].
Qed.

(** The three ways a command ends. *)
Definition handled (w : world) (res : outcome verdict * world) : Prop := exists v w' es,
  res = (Done v, w') /\ adds w w' es /\ received es = [] /\
  match v with
  | Wait s => es = [] /\ waiting s
  | Continue j => (i < j <= n)%nat /\ forallb accepted es = true /\ run Data (slice buffer i j) = (flat_map effects es, Data)
  | Kick => es = [] /\ broken_by_now \/
      exists e j, es = [e] /\ accepted e = false /\ (i < j <= n)%nat /\ run Data (slice buffer i j) = (effects e, Data)
  end.

Lemma handled_wait w s : waiting s -> handled w (pure (Wait s) w).
Proof using. intros H. exists (Wait s), w, []. split; [reflexivity|]. split; [apply adds_nil|]. split; [reflexivity|]. auto. Qed.

Lemma handled_kick w : broken_by_now -> handled w (pure Kick w).
Proof using. intros H. exists Kick, w, []. split; [reflexivity|]. split; [apply adds_nil|]. split; [reflexivity|]. auto. Qed.

Lemma handled_continue w j : (i < j <= n)%nat -> run Data (slice buffer i j) = ([], Data) -> handled w (pure (Continue j) w).
Proof using. intros H1 H2. exists (Continue j), w, []. split; [reflexivity|]. split; [apply adds_nil|]. split; [reflexivity|]. auto. Qed.

Lemma handled_call w c j o (bad : Z -> bool) : (forall a, received [(c, a)] = []) -> (i < j <= n)%nat -> run Data (slice buffer i j) = (o, Data) ->
  (forall r, effects (c, Answer r []) = o) -> (forall r, accepted (c, Answer r []) = negb (bad r)) ->
  handled w (bind (syscall c) (fun r => pure (if bad r then Kick else Continue j)) w).
Proof using.
  intros Hrec Hj Hr He Ha. call r w' H. exists (if bad r then Kick else Continue j), w', [(c, Answer r [])].
  split; [reflexivity|]. split; [exact H|]. split; [apply Hrec|]. specialize (He r). specialize (Ha r). destruct (bad r).
  - right. exists (c, Answer r []), j. rewrite He. auto.
  - split; [exact Hj|]. cbn [forallb flat_map]. rewrite He, Ha, app_nil_r. auto.
Qed.

Lemma telnet_naws_spec j w : at_ j (Size [] false) -> handled w (telnet_naws self buffer i j w).
Proof using Hbytes.
  intros H. unfold telnet_naws. pose proof (naws_u16_spec j [] H ltac:(cbn; lia)) as H1.
  destruct (_telnetServer_getNawsU16OrSave (saved self) buffer i j) as [[k|s|] col]; [|now apply handled_wait|now apply handled_kick].
  destruct H1 as (c1 & c2 & Hk & Hc1 & Hc2 & Ec & Hat). cbn [app add_digit List.length Nat.eqb] in Hat.
  pose proof (naws_u16_spec k _ Hat ltac:(cbn; lia)) as H1.
  destruct (_telnetServer_getNawsU16OrSave (saved self) buffer i k) as [[m|s|] row]; [|now apply handled_wait|now apply handled_kick].
  destruct H1 as (r1 & r2 & Hm & Hr1 & Hr2 & Er & Hat2). cbn [app add_digit List.length Nat.eqb] in Hat2.
  destruct (get_byte m (proj1 Hat2)) as [E|iac Hj Hb _ E]; [apply handled_wait; exact (at_end _ _ Hat2 E)|].
  assert (at_ (S m) (SizeSe [c1; c2; r1; r2] iac)) as Hat3 by (eapply at_next; [exact Hat2|exact Hj|exact E|reflexivity|discriminate..]).
  destruct (get_byte (S m) (proj1 Hat3)) as [E'|se Hj' Hb' _ E']; [apply handled_wait; exact (at_end _ _ Hat3 E')|].
  destruct (negb (iac =? telnet_IAC) || negb (se =? telnet_SE)) eqn:D; rewrite <- negb_andb in D.
  - apply handled_kick. eapply at_broken; [exact Hat3|exact Hj'|exact E'|]. cbn [step]. destruct ((iac =? telnet_IAC) && (se =? telnet_SE)); [discriminate|reflexivity].
  - apply (handled_call w _ _ [Resize (256 * c1 + c2) (256 * r1 + r2)] (fun r => r <? 0)); [reflexivity|..].
    + destruct Hat, Hat2; lia.
    + eapply at_run; [exact Hat3|exact E'|]. cbn [step]. destruct ((iac =? telnet_IAC) && (se =? telnet_SE)); [reflexivity|discriminate].
    + intros r. unfold effects. cbn [fst]. unfold winsize. rewrite (skipn_exact (le_split 2 row)) by reflexivity.
      rewrite !firstn_app_l, !firstn_all2, !le_combine_split by (rewrite ?length_le_split; lia).
      unfold is_byte in *. rewrite !Z.mod_small by (change (256 ^ Z.of_nat 2) with 65536; lia). now rewrite Ec, Er.
    + intros r. unfold accepted. cbn [fst snd ret]. now rewrite Z.leb_antisym.
Qed.

Lemma telnet_command_spec b w : at_ (S i) AfterIac -> (S i < n)%nat -> slice buffer i (S (S i)) = slice buffer i (S i) ++ [b] ->
  get buffer i = telnet_IAC -> handled w (telnet_command self buffer i (S (S i)) b w).
Proof using Hbytes.
  intros H Hj E Hiac. unfold telnet_command.
  assert (forall o s, step AfterIac b = (o, s) -> run Data (slice buffer i (S (S i))) = (o, s)) as Hrun by (intros o s Hs; exact (at_run _ _ _ _ _ H E Hs)).
  assert (step AfterIac b = ([], Broken) -> broken_by_now) as Hbroken by (intros Hs; exact (at_broken _ _ _ H Hj E Hs)).
  assert (forall s, step AfterIac b = ([], s) -> s <> Data -> s <> Broken -> at_ (S (S i)) s) as Hnext by (intros s; exact (at_next _ _ _ _ H Hj E)).
  cbn [step] in Hrun, Hbroken, Hnext.
  destruct ((telnet_NOP <=? b) && (b <=? telnet_GO_AHEAD)); [apply handled_continue; [lia|now apply Hrun]|].
  destruct ((telnet_WILL <=? b) && (b <=? telnet_DONT)).
  - specialize (Hnext _ eq_refl ltac:(discriminate) ltac:(discriminate)).
    destruct (get_byte _ (proj1 Hnext)) as [E'|c Hc _ _ E']; [apply handled_wait; exact (at_end _ _ Hnext E')|].
    apply handled_continue; [lia|]. exact (at_run _ _ _ _ _ Hnext E' eq_refl).
  - destruct (b =? telnet_IAC) eqn:D.
    + rewrite Hiac. apply (handled_call w _ _ [Input telnet_IAC] (fun r => negb (r =? 1))); [reflexivity|lia|now apply Hrun|reflexivity|].
      intros r. unfold accepted. cbn [fst snd ret List.length]. now rewrite negb_involutive.
    + destruct (b =? telnet_SB); [|apply handled_kick; now apply Hbroken].
      specialize (Hnext _ eq_refl ltac:(discriminate) ltac:(discriminate)).
      destruct (get_byte _ (proj1 Hnext)) as [E'|c Hc _ _ E']; [apply handled_wait; exact (at_end _ _ Hnext E')|].
      destruct (c =? telnet_OPT_NAWS) eqn:D'.
      * apply telnet_naws_spec. eapply at_next; [exact Hnext|exact Hc|exact E'|cbn [step]; now rewrite D'|discriminate..].
      * apply handled_kick. eapply at_broken; [exact Hnext|exact Hc|exact E'|cbn [step]; now rewrite D'].
Qed.

Lemma telnet_handle_spec w : (i < n)%nat -> client_stop (get buffer i) = true -> handled w (telnet_handle self buffer i w).
Proof using Hbytes.
  intros Hi Hstop. unfold telnet_handle. replace (i + 1)%nat with (S i) by lia.
  assert (at_ i Data) as H0 by (split; [lia|]; rewrite slice_nil; constructor).
  assert (slice buffer i (S i) = slice buffer i i ++ [get buffer i]) as E0 by (apply slice_S; lia).
  unfold client_stop in Hstop. destruct (get buffer i =? telnet_IAC) eqn:D.
  - assert ((get buffer i =? CR) = false) as D' by (apply Z.eqb_eq in D; now rewrite D).
    assert (at_ (S i) AfterIac) as H by (eapply at_next; [exact H0|exact Hi|exact E0|cbn [step]; now rewrite D', D|discriminate..]).
    destruct (get_byte _ (proj1 H)) as [E|b Hb _ _ E]; [apply handled_wait; exact (at_end _ _ H E)|].
    apply telnet_command_spec; [exact H|exact Hb|exact E|]. now apply Z.eqb_eq in D.
  - rewrite orb_false_r in Hstop.
    assert (at_ (S i) AfterCr) as H by (eapply at_next; [exact H0|exact Hi|exact E0|cbn [step]; now rewrite Hstop|discriminate..]).
    destruct (get_byte _ (proj1 H)) as [E|b Hb _ _ E]; [apply handled_wait; exact (at_end _ _ H E)|].
    destruct ((b =? 0) || (b =? NL)) eqn:V; cbn [negb].
    + apply Z.eqb_eq in Hstop. rewrite Hstop. apply (handled_call w _ _ [Input CR] (fun r => negb (r =? 1))); [reflexivity|lia| |reflexivity|].
      * eapply at_run; [exact H|exact E|]. cbn [step]. now rewrite V.
      * intros r. unfold accepted. cbn [fst snd ret List.length]. now rewrite negb_involutive.
    + apply handled_kick. eapply at_broken; [exact H|exact Hb|exact E|]. cbn [step]. now rewrite V.
Qed.
End Command.

(** ** One read of the client's bytes *)

(** An unfinished command as [saved] keeps it: at the end, after zeroes. *)
Definition encode (p : list Z) : list Z := repeat 0 (saved_SIZE - length p) ++ p.

Definition kicked (self : telnetServer) : telnetServer := with_clientFd (with_saved self (repeat 0 saved_SIZE)) (-1).

(** How [self'] and the calls [es] follow from the input: either every call did all it was
    asked to, and the terminal got what the automaton emits, or the client was kicked and
    the terminal got a part of that. *)
Definition served (s : state) (input : list Z) (self self' : telnetServer) (es : list event) : Prop :=
  let '(o, s') := run s input in
  (forallb accepted es = true -> flat_map effects es = o /\
     (s' = Broken -> self' = kicked self) /\
     (s' <> Broken -> exists p, pending p s' /\ bytes p /\ self' = with_saved self (encode p))) /\
  (forallb accepted es = false -> self' = kicked self /\ exists o', o = flat_map effects (filter accepted es) ++ o').

Lemma run_length_le stop l : (run_length stop l <= length l)%nat.
Proof. induction l as [|b l IH]; cbn [run_length List.length]; [lia|]. destruct (stop b); lia. Qed.

Lemma run_length_stop stop l : (run_length stop l < length l)%nat -> stop (nth (run_length stop l) l 0) = true.
Proof.
  induction l as [|b l IH]; cbn [run_length List.length]; [lia|]. destruct (stop b) eqn:E; cbn [nth]; [auto|]. intros H. apply IH. lia.
Qed.

Lemma run_length_before stop l : Forall (fun b => stop b = false) (firstn (run_length stop l) l).
Proof. induction l as [|b l IH]; cbn [run_length]; [constructor|]. destruct (stop b) eqn:E; cbn [firstn]; auto. Qed.

(** Plain bytes go to the terminal as they are. *)
Lemma run_plain l : Forall (fun b => client_stop b = false) l -> run Data l = (map Input l, Data).
Proof.
  induction 1 as [|b l Hb _ IH]; [reflexivity|]. cbn [run step map]. unfold client_stop in Hb. apply orb_false_iff in Hb as [-> ->].
  now rewrite IH.
Qed.

Lemma kick_spec self w : 0 <= clientFd self -> exists w' r, _telnetServer_kickClient self w = (Done (with_clientFd self (-1)), w') /\ adds w w' [(Sys_close (clientFd self), Answer r [])].
Proof.
  intros H. unfold _telnetServer_kickClient. destruct (Z.leb_spec 0 (clientFd self)); [|lia]. unfold sys_close. call r w' Hw. now exists w', r.
Qed.

Lemma skipn_slice l i j : (i <= j)%nat -> skipn i l = slice l i j ++ skipn j l.
Proof. intros H. unfold slice. rewrite <- (firstn_skipn (j - i) (skipn i l)) at 1. rewrite skipn_skipn. do 2 f_equal. lia. Qed.

Lemma get_skipn l i k : get (skipn i l) k = get l (i + k).
Proof. unfold get. apply nth_skipn. Qed.

(** What is served from [j] on, after calls that were all accepted. *)
Lemma served_after s input o es1 rest self self' es : run s input = (o, Data) -> flat_map effects es1 = o -> forallb accepted es1 = true ->
  served Data rest self self' es -> served s (input ++ rest) self self' (es1 ++ es).
Proof.
  intros E Ho Ha. unfold served. rewrite run_app, E. destruct (run Data rest) as [o2 s2]. rewrite forallb_app, flat_map_app, filter_app, Ha, Ho. cbn [andb].
  intros [H1 H2]. split.
  - intros H. destruct (H1 H) as (-> & Hb & Hn). auto.
  - intros H. destruct (H2 H) as (-> & o' & ->). split; [reflexivity|]. exists o'. rewrite flat_map_app, app_assoc. do 2 f_equal.
    rewrite <- Ho. clear -Ha. induction es1 as [|e es1 IH]; [reflexivity|]. cbn [forallb flat_map filter] in *. apply andb_true_iff in Ha as [-> Ha].
    cbn [flat_map]. now rewrite <- IH.
Qed.

(** A client that is kicked over a rejected call, or over a violation of the protocol. *)
Lemma served_rejected s input o es self r e : run s input = (o, Data) -> effects e = o -> accepted e = false ->
  es = [e; (Sys_close (clientFd self), Answer r [])] -> forall rest, served s (input ++ rest) self (kicked self) es.
Proof.
  intros E Ho Ha -> rest. unfold served. rewrite run_app, E. destruct (run Data rest) as [o2 s2]. cbn [forallb flat_map filter]. rewrite Ha. cbn [andb accepted fst].
  split; [discriminate|]. intros _. split; [reflexivity|]. cbn. eauto.
Qed.

Lemma served_broken s input self r rest : run s input = ([], Broken) ->
  served s (input ++ rest) self (kicked self) [(Sys_close (clientFd self), Answer r [])].
Proof.
  intros E. unfold served. rewrite run_app, E, run_broken. cbn. split; [|discriminate]. intros _. split; [reflexivity|]. split; [auto|congruence].
Qed.

Lemma served_waiting p s self : pending p s -> s <> Broken -> bytes p -> served Data p self (with_saved self (encode p)) [].
Proof.
  intros Hp Hs Hb. unfold served. rewrite (pending_run _ _ Hp). cbn. split; [|discriminate]. intros _. split; [reflexivity|]. split; [congruence|eauto].
Qed.

Lemma pending_not_broken p s : pending p s -> s <> Broken.
Proof. destruct 1; [discriminate|assumption]. Qed.

Lemma kept_encode p : (length p <= saved_SIZE)%nat -> mem_copy (repeat 0 saved_SIZE) (saved_SIZE - length p) p = encode p.
Proof.
  intros H. rewrite mem_copy_eq by (rewrite repeat_length; lia). rewrite skipn_all2 by (rewrite repeat_length; lia).
  rewrite app_nil_r. unfold encode. f_equal. apply firstn_repeat_le. lia.
Qed.

Lemma client_loop_spec self buffer : 0 <= clientFd self -> saved self = repeat 0 saved_SIZE -> bytes buffer ->
  with_clientFd self (-1) = kicked self ->
  forall fuel baseI w, (baseI <= length buffer)%nat -> (length buffer - baseI < fuel)%nat ->
  exists self' w' es, client_loop fuel self buffer baseI w = (Done self', w') /\ adds w w' es /\ received es = [] /\ served Data (skipn baseI buffer) self self' es.
Proof.
  intros Hfd Hsaved Hbytes Hkick. induction fuel as [|fuel IH]; intros baseI w Hb Hf; [lia|]. cbn [client_loop]. cbv zeta.
  set (k := run_length client_stop (skipn baseI buffer)). set (i := (baseI + k)%nat).
  assert (k <= length buffer - baseI)%nat as Hk by (unfold k; rewrite <- length_skipn; apply run_length_le).
  replace (i - baseI)%nat with k by lia.
  assert (slice buffer baseI i = firstn k (skipn baseI buffer)) as Es by (unfold slice; f_equal; lia).
  assert (length (slice buffer baseI i) = k) as El by (rewrite Es, length_firstn, length_skipn; lia).
  assert (run Data (slice buffer baseI i) = (map Input (slice buffer baseI i), Data)) as Hplain by (rewrite Es; apply run_plain, run_length_before).
  rewrite (skipn_slice buffer baseI i) by lia.
  assert (forall w, exists self' w' es, (if (length buffer <=? i)%nat then pure self else
      let! v := telnet_handle self buffer i in match v with Wait s => pure (with_saved self s) | Kick => _telnetServer_kickClient self | Continue currI => client_loop fuel self buffer currI end) w
      = (Done self', w') /\ adds w w' es /\ received es = [] /\ served Data (skipn i buffer) self self' es) as Hrest.
  { clear w. intros w. destruct (Nat.leb_spec (length buffer) i) as [Hi|Hi].
    - exists self, w, []. split; [reflexivity|]. split; [apply adds_nil|]. split; [reflexivity|]. rewrite skipn_all2 by exact Hi.
      replace self with (with_saved self (encode [])) at 2 by (unfold encode; rewrite Nat.sub_0_r, app_nil_r, <- Hsaved; now destruct self). apply (served_waiting [] Data); [constructor|discriminate|constructor].
    - assert (client_stop (get buffer i) = true) as Hstop.
      { unfold i. rewrite <- get_skipn. apply run_length_stop. fold k. rewrite length_skipn. lia. }
      destruct (telnet_handle_spec self buffer i Hbytes w Hi Hstop) as (v & w1 & es & E & Hw & Hrec & Hv). rewrite (bind_done _ _ _ _ _ E).
      destruct v as [j|s|].
      + destruct Hv as (Hj & Ha & Hr). destruct (IH j w1) as (self' & w2 & es2 & E2 & Hw2 & Hrec2 & Hs); [lia..|].
        exists self', w2, (es ++ es2). split; [exact E2|]. split; [exact (adds_app _ _ _ _ _ Hw Hw2)|]. split; [now rewrite received_app, Hrec, Hrec2|]. rewrite (skipn_slice buffer i j) by lia.
        exact (served_after _ _ _ _ _ _ _ _ Hr eq_refl Ha Hs).
      + destruct Hv as (-> & -> & st & Hp). exists (with_saved self (encode (skipn i buffer))), w1, [].
        split; [|split; [exact Hw|split; [reflexivity|]]; exact (served_waiting _ _ _ Hp (pending_not_broken _ _ Hp) (bytes_skipn _ _ Hbytes))].
        unfold pure. do 3 f_equal. rewrite Hsaved. pose proof (pending_bound _ _ Hp) as Hlen. rewrite <- length_skipn. now apply kept_encode.
      + destruct (kick_spec self w1 Hfd) as (w2 & r & E2 & Hw2). rewrite Hkick in E2. exists (kicked self), w2, (es ++ [(Sys_close (clientFd self), Answer r [])]).
        split; [exact E2|]. split; [exact (adds_app _ _ _ _ _ Hw Hw2)|]. split; [now rewrite received_app, Hrec|]. destruct Hv as [[-> (j & Hj & Hr)]|(e & j & -> & Ha & Hj & Hr)]; rewrite (skipn_slice buffer i j) by lia.
        * exact (served_broken _ _ _ _ _ Hr).
        * eapply served_rejected; [exact Hr|reflexivity|exact Ha|reflexivity]. }
  destruct (Nat.ltb_spec 0 k) as [H0|H0]; cbn [andb].
  - unfold sys_write. call r w1 Hw. destruct (Z.eqb_spec r (Z.of_nat k)) as [->|Hr]; cbn [negb].
    + destruct (Hrest w1) as (self' & w2 & es & E & Hw2 & Hrec & Hs). exists self', w2, ((Sys_write (ptMasterFd self) (slice buffer baseI i), Answer (Z.of_nat k) []) :: es).
      split; [exact E|]. split; [exact (adds_cons _ _ _ _ _ Hw Hw2)|]. split; [first [reflexivity|exact Hrec]|].
      apply (served_after _ _ _ [_] _ _ _ _ Hplain); [cbn; now rewrite app_nil_r| |exact Hs]. cbn [forallb]. unfold accepted. cbn [fst snd ret]. now rewrite El, Z.eqb_refl.
    + destruct (kick_spec self w1 Hfd) as (w2 & r2 & E2 & Hw2). rewrite Hkick in E2. exists (kicked self), w2, [(Sys_write (ptMasterFd self) (slice buffer baseI i), Answer r []); (Sys_close (clientFd self), Answer r2 [])].
      split; [exact E2|]. split; [exact (adds_cons _ _ _ _ _ Hw Hw2)|]. split; [first [reflexivity|exact Hrec]|].
      eapply served_rejected; [exact Hplain| | |reflexivity]; [reflexivity|]. unfold accepted. cbn [fst snd ret]. rewrite El. now apply Z.eqb_neq.
  - replace k with 0%nat in * by lia. destruct (Hrest w) as (self' & w2 & es & E & Hw2 & Hrec & Hs). exists self', w2, es. split; [exact E|]. split; [exact Hw2|]. split; [exact Hrec|].
    destruct (slice buffer baseI i) as [|b l]; [exact Hs|discriminate].
Qed.

(** [saved] holds an unfinished command, and nothing else. *)
Lemma saved_start_encode p s : pending p s -> saved_start (encode p) = (saved_SIZE - length p)%nat.
Proof.
  intros Hp. unfold saved_start, encode. generalize (saved_SIZE - length p)%nat. intros k.
  assert (run_length (fun b => negb (b =? 0)) p = 0%nat \/ p = []) as H.
  { destruct (pending_head p s Hp) as [[-> _]|(b & q & -> & Hb)]; [now right|left]. cbn [run_length]. unfold client_stop in Hb.
    destruct (Z.eqb_spec b 0) as [->|]; [discriminate|reflexivity]. }
  induction k as [|k IH]; cbn [repeat app run_length]; [destruct H as [H| ->]; [exact H|reflexivity]|]. now rewrite IH.
Qed.

Lemma served_received s input self self' es e : effects e = [] -> accepted e = true -> served s input self self' es -> served s input self self' (e :: es).
Proof.
  intros He Ha. unfold served. destruct (run s input) as [o s']. cbn [forallb flat_map filter]. rewrite Ha, He. cbn [andb flat_map]. now rewrite He.
Qed.

(** Whatever was unfinished before a read, the read continues it. *)
Lemma telnetServer_onClientFd_spec self p s w : 0 <= clientFd self -> pending p s -> bytes p -> saved self = encode p ->
  exists self' w' es, telnetServer_onClientFd self w = (Done self', w') /\ adds w w' es /\
  (received es = [] /\ flat_map effects es = [] /\ forallb accepted es = true /\ self' = kicked self \/ served s (received es) self self' es).
Proof.
  intros Hfd Hp Hb Hs. unfold telnetServer_onClientFd. rewrite Hs, (saved_start_encode _ _ Hp). pose proof (pending_bound _ _ Hp) as Hlen.
  assert (skipn (saved_SIZE - length p) (encode p) = p) as -> by (apply skipn_exact; now rewrite repeat_length).
  assert (mem_set (encode p) (saved_SIZE - length p) (length p) 0 = repeat 0 saved_SIZE) as Hz.
  { unfold mem_set. rewrite mem_copy_eq by (rewrite repeat_length; unfold encode; rewrite length_app, repeat_length; lia).
    rewrite repeat_length, skipn_all2 by (unfold encode; rewrite length_app, repeat_length; lia).
    unfold encode. rewrite firstn_app_l, firstn_all2, app_nil_r by (rewrite repeat_length; lia).
    rewrite <- repeat_app. f_equal. lia. }
  rewrite Hz. set (self0 := with_saved self (repeat 0 saved_SIZE)).
  assert (with_clientFd self0 (-1) = kicked self0) as Hk by reflexivity. assert (kicked self0 = kicked self) as Hk' by reflexivity.
  unfold sys_recvfrom. destruct (syscall_in_spec (Sys_recvfrom (clientFd self0) (buffer_SIZE - Z.of_nat (length p)) 0) (Z.to_nat (buffer_SIZE - Z.of_nat (length p))) w)
    as (r & d & w1 & E & Hw1 & Hd & _ & Hr). rewrite (bind_done _ _ _ _ _ E). clear E. destruct (Z.leb_spec r 0) as [H0|H0].
  - destruct (kick_spec self0 w1 Hfd) as (w2 & r2 & E & Hw2). rewrite E. do 3 eexists. split; [reflexivity|]. split; [exact (adds_app _ _ _ _ _ Hw1 Hw2)|].
    left. assert (d = []) as -> by (destruct Hr as [[_ H]|H]; [exact H|]; destruct d; [reflexivity|cbn [List.length] in H; lia]).
    repeat split; reflexivity.
  - destruct (client_loop_spec self0 (p ++ d) Hfd eq_refl (proj2 (bytes_app _ _) (conj Hb Hd)) Hk (S (length (p ++ d))) 0 w1 ltac:(lia) ltac:(lia))
      as (self' & w2 & es & E & Hw2 & Hrec & Hserved).
    rewrite E. do 3 eexists. split; [reflexivity|]. split; [exact (adds_cons _ _ _ _ _ Hw1 Hw2)|]. right.
    cbn [received flat_map fst snd out]. fold (received es). rewrite Hrec, app_nil_r. apply served_received; [reflexivity..|].
    unfold served in *. rewrite skipn_O, run_app, (pending_run _ _ Hp) in Hserved. destruct (run s d). exact Hserved.
Qed.

(** ** A whole connection *)

(** The event loop calls the handler for every read, until the client is gone. *)
Fixpoint telnet_session (reads : nat) (self : telnetServer) : M telnetServer :=
  match reads with
  | O => pure self
  | S reads =>
      if clientFd self <? 0 then pure self
      else let! self := telnetServer_onClientFd self in telnet_session reads self
  end.

(** What a list of calls did, for the client's bytes so far: either the terminal got all
    the automaton emits, or a call failed, the client is gone and the terminal got a
    part. *)
Definition followed (s : state) (self' : telnetServer) (es : list event) : Prop :=
  let '(o, s') := run s (received es) in
  (forallb accepted es = true -> flat_map effects es = o /\ (s' = Broken -> clientFd self' = -1)) /\
  (forallb accepted es = false -> clientFd self' = -1 /\ exists o', o = flat_map effects (filter accepted es) ++ o').

Lemma accepted_prefix es1 es2 : forallb accepted es1 = true -> flat_map effects (filter accepted (es1 ++ es2)) = flat_map effects es1 ++ flat_map effects (filter accepted es2).
Proof.
  intros H. rewrite filter_app, flat_map_app. f_equal. induction es1 as [|e es1 IH]; [reflexivity|]. cbn [forallb filter flat_map] in *.
  apply andb_true_iff in H as [-> H]. cbn [flat_map]. now rewrite IH.
Qed.

Lemma followed_gone s self es : clientFd self = -1 -> received es = [] -> flat_map effects es = [] -> forallb accepted es = true -> followed s self es.
Proof. intros H1 H2 H3 H4. unfold followed. rewrite H2, H4. cbn [run]. split; [|discriminate]. intros _. auto. Qed.

Lemma telnet_session_spec reads : forall self p s w, 0 <= clientFd self -> pending p s -> bytes p -> saved self = encode p ->
  exists self' w' es, telnet_session reads self w = (Done self', w') /\ adds w w' es /\ followed s self' es.
Proof.
  induction reads as [|reads IH]; intros self p s w Hfd Hp Hb Hs; cbn [telnet_session].
  - exists self, w, []. split; [reflexivity|]. split; [apply adds_nil|]. unfold followed. cbn. split; [|discriminate]. intros _. split; [reflexivity|].
    intros ->. now apply pending_not_broken in Hp.
  - destruct (Z.ltb_spec (clientFd self) 0); [lia|].
    destruct (telnetServer_onClientFd_spec self p s w Hfd Hp Hb Hs) as (self1 & w1 & es1 & E & Hw1 & H1). rewrite (bind_done _ _ _ _ _ E).
    assert (forall w, clientFd self1 = -1 -> telnet_session reads self1 w = (Done self1, w)) as Hgone by (intros w0 H0; destruct reads; cbn [telnet_session]; [|rewrite H0]; reflexivity).
    destruct H1 as [(Hr & He & Ha & ->)|H1].
    + do 3 eexists. split; [now apply Hgone|]. split; [exact Hw1|]. now apply followed_gone.
    + unfold served in H1. destruct (run s (received es1)) as [o1 s1] eqn:E1. destruct H1 as [Hok Hbad]. destruct (forallb accepted es1) eqn:Ha.
      * destruct (Hok eq_refl) as (He & Hbr & Hwait). clear Hok Hbad.
        destruct (match s1 with Broken => true | _ => false end) eqn:B.
        -- assert (s1 = Broken) as -> by (destruct s1; try discriminate; reflexivity). rewrite (Hbr eq_refl) in *.
           do 3 eexists. split; [now apply Hgone|]. split; [exact Hw1|]. unfold followed. rewrite E1, Ha. split; [|discriminate]. auto.
        -- assert (s1 <> Broken) as Hnb by (destruct s1; discriminate). destruct (Hwait Hnb) as (p1 & Hp1 & Hb1 & ->).
           destruct (IH (with_saved self (encode p1)) p1 s1 w1 Hfd Hp1 Hb1 eq_refl) as (self2 & w2 & es2 & E2 & Hw2 & H2).
           exists self2, w2, (es1 ++ es2). split; [exact E2|]. split; [exact (adds_app _ _ _ _ _ Hw1 Hw2)|].
           unfold followed in *. rewrite received_app, run_app, E1, forallb_app, Ha. destruct (run s1 (received es2)) as [o2 s2]. cbn [andb]. destruct H2 as [H2a H2b]. split.
           ++ intros H3. destruct (H2a H3) as [H4 H5]. rewrite flat_map_app, He, H4. auto.
           ++ intros H3. destruct (H2b H3) as [H4 (o' & H5)]. split; [exact H4|]. exists o'. rewrite accepted_prefix by exact Ha. rewrite He, H5. now rewrite app_assoc.
      * destruct (Hbad eq_refl) as (-> & o' & Ho). do 3 eexists. split; [now apply Hgone|]. split; [exact Hw1|]. unfold followed. rewrite E1, Ha. split; [discriminate|].
        intros _. split; [reflexivity|]. now exists o'.
Qed.

(** C8: However the network cuts a telnet client's bytes into reads, and whatever the
    kernel answers, the handler ends and the terminal is given exactly the input bytes
    and window sizes that the byte at a time protocol automaton emits on the bytes
    received; after a violation of the protocol the client is disconnected.  When a call
    on the terminal fails or is cut short the client is disconnected and the terminal
    was given an initial part of that. *)
Theorem telnet_client_stream self reads w : 0 <= clientFd self -> saved self = repeat 0 saved_SIZE ->
  exists self' w' es, telnet_session reads self w = (Done self', w') /\ adds w w' es /\
  let '(o, s) := run Data (received es) in
  (forallb accepted es = true -> flat_map effects es = o /\ (s = Broken -> clientFd self' = -1)) /\
  (forallb accepted es = false -> clientFd self' = -1 /\ exists o', o = flat_map effects (filter accepted es) ++ o').
Proof.
  intros Hfd Hs. apply (telnet_session_spec reads self [] Data w Hfd); [constructor|constructor|].
  rewrite Hs. unfold encode. now rewrite app_nil_r, Nat.sub_0_r.
Qed.

(** A window size of 80 columns and 24 rows between "a" and CR LF, in three reads; the
    sizes' command is cut in two. *)
Definition demo_session : world := World
  [Answer 0 [97; 255; 250; 31; 0]; Answer 1 []; Answer 0 [80; 0; 24; 255; 240; 13]; Answer 0 []; Answer 0 [10]; Answer 1 []] [].

Lemma telnet_client_stream_witness :
  let self := TelnetServer 5 6 7 8 (repeat 0 saved_SIZE) in
  exists self' w', telnet_session 3 self demo_session = (Done self', w') /\
  flat_map effects (trace w') = [Input 97; Resize 80 24; Input 13] /\
  flat_map effects (trace w') = fst (run Data (received (trace w'))).
Proof.
  intros self. destruct (telnet_client_stream self 3 demo_session ltac:(cbn; lia) eq_refl) as (self' & w' & es & E & Hw & H).
  exists self', w'. split; [exact E|].
  assert (trace w' = es) as Ht by exact Hw. rewrite Ht. assert (E' := E). vm_compute in E'. injection E' as _ <-. cbn [trace] in Ht. subst es. split; [reflexivity|].
  destruct (run Data (received _)) as [o s] in H |- *. exact (proj1 (proj1 H eq_refl)).
Defined.

(** ** The terminal's output *)

(** What a telnet client makes of the bytes it is sent: CR NUL is a carriage return, CR LF
    a new line, IAC IAC the byte 255; nothing else may follow a CR or an IAC. *)
Fixpoint nvt_display (l : list Z) : option (list Z) :=
  match l with
  | [] => Some []
  | b :: l =>
      if b =? CR then
        match l with
        | c :: l =>
            if c =? 0 then option_map (cons CR) (nvt_display l)
            else if c =? NL then option_map (cons NL) (nvt_display l)
            else None
        | [] => None
        end
      else if b =? telnet_IAC then
        match l with
        | c :: l => if c =? telnet_IAC then option_map (cons telnet_IAC) (nvt_display l) else None
        | [] => None
        end
      else option_map (cons b) (nvt_display l)
  end.

Definition nvt_escape (l : list Z) : list Z := flat_map (fun b => if pt_stop b then pt_escape b else [b]) l.

Lemma nvt_escape_app l1 l2 : nvt_escape (l1 ++ l2) = nvt_escape l1 ++ nvt_escape l2.
Proof. apply flat_map_app. Qed.

Lemma nvt_escape_plain l : Forall (fun b => pt_stop b = false) l -> nvt_escape l = l.
Proof. induction 1 as [|b l Hb _ IH]; [reflexivity|]. cbn [nvt_escape flat_map]. rewrite Hb. cbn [app]. f_equal. exact IH. Qed.

Lemma nvt_display_escape l : nvt_display (nvt_escape l) = Some l.
Proof.
  induction l as [|b l IH]; [reflexivity|]. cbn [nvt_escape flat_map]. fold (nvt_escape l). unfold pt_stop, pt_escape.
  destruct (b =? CR) eqn:E1; [|destruct (b =? NL) eqn:E2; [|destruct (b =? telnet_IAC) eqn:E3]]; cbn [orb app nvt_display];
    rewrite ?E1, ?E2, ?E3, ?Z.eqb_refl.
  - apply Z.eqb_eq in E1. now rewrite IH, E1.
  - apply Z.eqb_eq in E2. cbn. now rewrite IH, E2.
  - apply Z.eqb_eq in E3. cbn. now rewrite IH, E3.
  - now rewrite IH.
Qed.

(** What a call sent to the client. *)
Definition sent (e : event) : list Z := match fst e with Sys_sendto _ data _ _ => data | _ => [] end.
Definition sent_whole (e : event) : bool := match fst e with Sys_sendto _ data _ _ => ret (snd e) =? Z.of_nat (length data) | _ => true end.

(** Either everything was sent, or the client was kicked after an initial part. *)
Definition delivered (output : list Z) (self self' : telnetServer) (es : list event) : Prop :=
  (forallb sent_whole es = true -> self' = self /\ flat_map sent es = output) /\
  (forallb sent_whole es = false -> self' = with_clientFd self (-1) /\ exists o, output = flat_map sent (filter sent_whole es) ++ o).

Lemma delivered_cons e es output self self' : sent_whole e = true -> delivered output self self' es -> delivered (sent e ++ output) self self' (e :: es).
Proof.
  intros He [H1 H2]. unfold delivered. cbn [forallb flat_map filter]. rewrite He. cbn [andb flat_map]. split.
  - intros H. destruct (H1 H) as [-> ->]. auto.
  - intros H. destruct (H2 H) as (-> & o & ->). split; [reflexivity|]. exists o. now rewrite app_assoc.
Qed.

Lemma delivered_cut e output self r : sent_whole e = false -> delivered output self (with_clientFd self (-1)) [e; (Sys_close (clientFd self), Answer r [])].
Proof. intros He. unfold delivered. cbn [forallb filter]. rewrite He. cbn. split; [discriminate|]. eauto. Qed.

Lemma pt_loop_spec self buffer : 0 <= clientFd self -> forall fuel baseI w, (baseI <= length buffer)%nat -> (length buffer - baseI < fuel)%nat ->
  exists self' w' es, pt_loop fuel self buffer baseI w = (Done self', w') /\ adds w w' es /\ delivered (nvt_escape (skipn baseI buffer)) self self' es.
Proof.
  intros Hfd. induction fuel as [|fuel IH]; intros baseI w Hb Hf; [lia|]. cbn [pt_loop]. cbv zeta.
  set (k := run_length pt_stop (skipn baseI buffer)). set (i := (baseI + k)%nat).
  assert (k <= length buffer - baseI)%nat as Hk by (unfold k; rewrite <- length_skipn; apply run_length_le).
  replace (i - baseI)%nat with k by lia.
  assert (slice buffer baseI i = firstn k (skipn baseI buffer)) as Es by (unfold slice; f_equal; lia).
  assert (length (slice buffer baseI i) = k) as El by (rewrite Es, length_firstn, length_skipn; lia).
  rewrite (skipn_slice buffer baseI i), nvt_escape_app, (nvt_escape_plain (slice buffer baseI i)) by (lia || (rewrite Es; apply run_length_before)).
  assert (forall c e w, sent_whole (c, Answer e []) = false -> forall output, exists self' w' es, _telnetServer_kickClient self w = (Done self', w') /\ adds w w' es /\ delivered output self self' ((c, Answer e []) :: es)) as Hcut.
  { intros c e w0 Hc output. destruct (kick_spec self w0 Hfd) as (w2 & r2 & E2 & Hw2). do 3 eexists. split; [exact E2|]. split; [exact Hw2|]. now apply delivered_cut. }
  match goal with |- context [if (0 <? k)%nat && _ then _ else ?rest] => assert (forall w, exists self' w' es, rest w = (Done self', w') /\ adds w w' es /\ delivered (nvt_escape (skipn i buffer)) self self' es) as Hrest end.
  { clear w. intros w. destruct (Nat.leb_spec (length buffer) i) as [Hi|Hi].
    - exists self, w, []. split; [reflexivity|]. split; [apply adds_nil|]. rewrite skipn_all2 by exact Hi. unfold delivered. cbn. split; [auto|discriminate].
    - assert (pt_stop (get buffer i) = true) as Hstop.
      { unfold i. rewrite <- get_skipn. apply run_length_stop. fold k. rewrite length_skipn. lia. }
      assert (nvt_escape (skipn i buffer) = pt_escape (get buffer i) ++ nvt_escape (skipn (i + 1) buffer)) as ->.
      { rewrite (skipn_slice buffer i (S i)), slice_S, slice_nil by lia. replace (i + 1)%nat with (S i) by lia. cbn [app nvt_escape flat_map]. now rewrite Hstop. }
      assert (length (pt_escape (get buffer i)) = 2%nat) as H2 by (unfold pt_escape; destruct (_ =? CR); [|destruct (_ =? NL)]; reflexivity).
      unfold sys_sendto. call r w1 Hw. destruct (Z.eqb_spec r 2) as [->|Hr]; cbn [negb].
      + destruct (IH (i + 1)%nat w1) as (self' & w2 & es & E & Hw2 & Hd); [lia..|]. do 3 eexists. split; [exact E|]. split; [exact (adds_cons _ _ _ _ _ Hw Hw2)|].
        refine (delivered_cons (_, _) _ _ _ _ _ Hd). unfold sent_whole. cbn [fst snd ret]. now rewrite H2.
      + destruct (Hcut (Sys_sendto (clientFd self) (pt_escape (get buffer i)) (Z.lor MSG_NOSIGNAL MSG_DONTWAIT) []) r w1) with (output := pt_escape (get buffer i) ++ nvt_escape (skipn (i + 1) buffer)) as (self' & w2 & es & E & Hw2 & Hd).
        { unfold sent_whole. cbn [fst snd ret]. rewrite H2. now apply Z.eqb_neq. }
        do 3 eexists. split; [exact E|]. split; [exact (adds_cons _ _ _ _ _ Hw Hw2)|exact Hd]. }
  destruct (Nat.ltb_spec 0 k) as [H0|H0]; cbn [andb].
  - unfold sys_sendto at 1. call r w1 Hw. destruct (Z.eqb_spec r (Z.of_nat k)) as [->|Hr]; cbn [negb].
    + destruct (Hrest w1) as (self' & w2 & es & E & Hw2 & Hd). do 3 eexists. split; [exact E|]. split; [exact (adds_cons _ _ _ _ _ Hw Hw2)|].
      refine (delivered_cons (_, _) _ _ _ _ _ Hd). unfold sent_whole. cbn [fst snd ret]. now rewrite El, Z.eqb_refl.
    + match goal with |- exists _ _ _, _ = _ /\ _ /\ delivered ?o _ _ _ => destruct (Hcut (Sys_sendto (clientFd self) (slice buffer baseI i) (Z.lor MSG_NOSIGNAL MSG_DONTWAIT) []) r w1) with (output := o) as (self' & w2 & es & E & Hw2 & Hd) end.
      { unfold sent_whole. cbn [fst snd ret]. rewrite El. now apply Z.eqb_neq. }
      do 3 eexists. split; [exact E|]. split; [exact (adds_cons _ _ _ _ _ Hw Hw2)|exact Hd].
  - replace (slice buffer baseI i) with (@nil Z) by (destruct (slice buffer baseI i); [reflexivity|cbn in El; lia]). exact (Hrest w).
Qed.

(** C37: What the terminal prints arrives: a telnet client that decodes what it was sent
    for one read of the terminal gets back the bytes read, in however many sends.  When a
    send fails or is cut short the client is disconnected after an initial part; without
    a client the output is dropped; a failed read of the terminal is fatal. *)
Theorem telnet_output_roundtrip self w :
  exists r buffer w1, sys_read (ptMasterFd self) buffer_SIZE w = (Done (r, buffer), w1) /\
  (r <= 0 -> telnetServer_onPtMasterFd self w = (Fatal, w1)) /\
  (0 < r -> clientFd self < 0 -> telnetServer_onPtMasterFd self w = (Done self, w1)) /\
  (0 < r -> 0 <= clientFd self -> exists self' w' es, telnetServer_onPtMasterFd self w = (Done self', w') /\ adds w1 w' es /\
     (forallb sent_whole es = true -> self' = self /\ nvt_display (flat_map sent es) = Some buffer) /\
     (forallb sent_whole es = false -> self' = with_clientFd self (-1) /\
        exists o, nvt_display (flat_map sent (filter sent_whole es) ++ o) = Some buffer)).
Proof.
  unfold telnetServer_onPtMasterFd, sys_read.
  destruct (syscall_in_spec (Sys_read (ptMasterFd self) buffer_SIZE) (Z.to_nat buffer_SIZE) w) as (r & d & w1 & E & Hw1 & Hd & _ & Hr).
  exists r, d, w1. split; [exact E|]. rewrite (bind_done _ _ _ _ _ E). unfold CHECK.
  split; [|split]; intros H0; [destruct (Z.ltb_spec 0 r); [lia|reflexivity]|intros H1..]; (destruct (Z.ltb_spec 0 r); [|lia]);
    rewrite bind_pure; destruct (Z.ltb_spec (clientFd self) 0); try lia; try reflexivity.
  destruct (pt_loop_spec self d H1 (S (length d)) 0 w1 ltac:(lia) ltac:(lia)) as (self' & w2 & es & E2 & Hw2 & Hd1 & Hd2). rewrite skipn_O in *.
  exists self', w2, es. split; [exact E2|]. split; [exact Hw2|]. split.
  - intros H3. destruct (Hd1 H3) as [-> ->]. split; [reflexivity|]. apply nvt_display_escape.
  - intros H3. destruct (Hd2 H3) as (-> & o & Ho). split; [reflexivity|]. exists o. rewrite <- Ho. apply nvt_display_escape.
Qed.

Definition demo_output : world := World [Answer 0 [97; 10; 255; 98]; Answer 1 []; Answer 2 []; Answer 2 []; Answer 1 []] [].

Lemma telnet_output_roundtrip_witness :
  let self := TelnetServer 5 6 7 8 (repeat 0 saved_SIZE) in
  exists self' w' es, telnetServer_onPtMasterFd self demo_output = (Done self', w') /\
  flat_map sent es = [97; 13; 10; 255; 255; 98] /\ nvt_display (flat_map sent es) = Some [97; 10; 255; 98].
Proof.
  intros self. destruct (telnet_output_roundtrip self demo_output) as (r & buffer & w1 & E & _ & _ & H).
  vm_compute in E. injection E as <- <- <-. destruct (H ltac:(lia) ltac:(cbn; lia)) as (self' & w' & es & E & Hw & H1 & _).
  exists self', w', es. split; [exact E|]. vm_compute in E. injection E as _ <-. unfold adds in Hw. cbn [trace app] in Hw. injection Hw as <-.
  split; [reflexivity|]. exact (proj2 (H1 eq_refl)).
Defined.

(** Closing the old client, when there is one. *)
Definition close_old (self : telnetServer) (r : Z) : list event :=
  if 0 <=? clientFd self then [(Sys_close (clientFd self), Answer r [])] else [].

Lemma kick_any self w : exists w' r, _telnetServer_kickClient self w = (Done (if 0 <=? clientFd self then with_clientFd self (-1) else self), w') /\ adds w w' (close_old self r).
Proof.
  unfold close_old. destruct (Z.leb_spec 0 (clientFd self)).
  - now apply kick_spec.
  - exists w, 0. unfold _telnetServer_kickClient. destruct (Z.leb_spec 0 (clientFd self)); [lia|]. split; [reflexivity|apply adds_nil].
Qed.

(** A new telnet client replaces the old one: the old connection is closed, nothing of
    it stays in [saved], and the new connection is watched.  But when the handshake cannot
    be sent at once there is no client afterwards, and the descriptor of the new
    connection, kept in no variable, is not closed. *)
Theorem telnet_accept_correct self epollFd w : length (saved self) = saved_SIZE ->
  exists newFd w1, syscall (Sys_accept4 (listenFd self)) w = (Done newFd, w1) /\
  (newFd < 0 -> telnetServer_onListenFd self epollFd w = (Done self, w1)) /\
  (0 <= newFd -> exists res w' closeResult n tail, telnetServer_onListenFd self epollFd w = (res, w') /\
     adds w1 w' (close_old self closeResult ++ (Sys_sendto newFd telnet_handshake (Z.lor MSG_NOSIGNAL MSG_DONTWAIT) [], Answer n []) :: tail) /\
     (n = 9 -> exists r, tail = [(Sys_epoll_ctl epollFd EPOLL_CTL_ADD newFd EPOLLIN, Answer r [])] /\
        res = if r =? 0 then Done (with_clientFd (with_saved self (repeat 0 saved_SIZE)) newFd) else Fatal) /\
     (n <> 9 -> tail = [] /\ exists self', res = Done self' /\ clientFd self' < 0)).
Proof.
  intros Hs. unfold telnetServer_onListenFd. destruct (syscall_spec (Sys_accept4 (listenFd self)) w) as (fd & w1 & E & Hw1).
  exists fd, w1. split; [exact E|]. rewrite (bind_done _ _ _ _ _ E). split; intros Hfd; (destruct (Z.ltb_spec fd 0); [|]); try lia; [reflexivity|].
  destruct (kick_any self w1) as (w2 & r & E2 & Hw2). rewrite (bind_done _ _ _ _ _ E2). set (self1 := if 0 <=? clientFd self then _ else _).
  assert (clientFd self1 < 0) as Hneg by (unfold self1; destruct (Z.leb_spec 0 (clientFd self)); [reflexivity|assumption]).
  assert (forall s fd, with_clientFd (with_saved self1 s) fd = with_clientFd (with_saved self s) fd) as Hself by (intros; unfold self1; destruct (0 <=? clientFd self); reflexivity).
  assert (saved self1 = saved self) as Hsaved by (unfold self1; destruct (0 <=? clientFd self); reflexivity). clearbody self1.
  unfold sys_sendto. call n w3 Hw3. change (Z.of_nat (length telnet_handshake)) with 9. destruct (Z.eqb_spec n 9) as [->|Hn]; cbn [negb].
  - rewrite Hself, Hsaved. assert (mem_set (saved self) 0 saved_SIZE 0 = repeat 0 saved_SIZE) as ->.
    { unfold mem_set. rewrite mem_copy_eq by (rewrite repeat_length; lia). rewrite repeat_length, skipn_all2, app_nil_r by lia. reflexivity. }
    unfold epollAdd. cbn [with_clientFd clientFd].
    destruct (syscall_spec (Sys_epoll_ctl epollFd EPOLL_CTL_ADD fd EPOLLIN) w3) as (r2 & w4 & E4 & Hw4).
    exists (if r2 =? 0 then Done (with_clientFd (with_saved self (repeat 0 saved_SIZE)) fd) else Fatal), w4, r, 9, [(Sys_epoll_ctl epollFd EPOLL_CTL_ADD fd EPOLLIN, Answer r2 [])].
    split; [unfold bind; rewrite E4; unfold CHECK; destruct (r2 =? 0); reflexivity|].
    split; [exact (adds_app _ _ _ _ _ Hw2 (adds_cons _ _ _ _ _ Hw3 Hw4))|]. split; [intros _; now exists r2|congruence].
  - unfold _telnetServer_kickClient. destruct (Z.leb_spec 0 (clientFd self1)); [lia|]. exists (Done self1), w3, r, n, [].
    split; [reflexivity|]. split; [exact (adds_app _ _ _ _ _ Hw2 Hw3)|]. split; [congruence|]. eauto.
Qed.

Lemma telnet_accept_correct_witness :
  let self := TelnetServer 5 6 7 8 (repeat 0 saved_SIZE) in
  length (saved self) = saved_SIZE /\
  exists newFd w1, syscall (Sys_accept4 6) (World [Answer 9 []; Answer 0 []; Answer (-11) []] []) = (Done newFd, w1) /\ newFd = 9.
Proof.
  intros self. split; [reflexivity|].
  destruct (telnet_accept_correct self 4 (World [Answer 9 []; Answer 0 []; Answer (-11) []] []) eq_refl) as (fd & w1 & E & _).
  exists fd, w1. split; [exact E|]. vm_compute in E. now injection E.
Defined.
