(* ===== verification/Modem.v ===== *)
(** * The router's modem client ([src/router/router/modemClient.c])

    AT commands are queued as bytes and sent one at a time; the modem's lines acknowledge
    them, announce text messages and list them.  The message "ip" is answered with the
    address leased on the WAN side.  The byte queue refines a queue of commands. *)
From Stdlib Require Import ZArith List Lia Bool String.
From S2P Require Import Prelude Mem Util RouterSys Telnet.
Import ListNotations.

Definition modemClient_NO_CMD : Z := 0.
Definition modemClient_CONSTANT : Z := 1.
Definition modemClient_START_SMS : Z := 2.
Definition modemClient_SEND_SMS : Z := 3.

Definition QUOTE : Z := 34.
Definition modemClient_INIT_CMD : list Z :=
  str "ATE0;+CMGF=1;+CSDH=1;+CSCS=" ++ [QUOTE] ++ str "UCS2" ++ [QUOTE] ++ str ";+CPMS=" ++
  [QUOTE] ++ str "SM" ++ [QUOTE; 44; QUOTE] ++ str "SM" ++ [QUOTE; 44; QUOTE] ++ str "SM" ++ [QUOTE; CR].
Definition modemClient_SMS_POLL_CMD : list Z := str "AT+CMGD=,3;+CMGL=" ++ [QUOTE] ++ str "REC UNREAD" ++ [QUOTE; CR].
Definition modemClient_START_SMS_CMD : list Z := str "AT+CMGS=" ++ [QUOTE].

(** Where the linker puts the two string constants. *)
Class Linkage := {
  init_address : Z;
  poll_address : Z;
  addresses_range : 0 <= init_address < 2 ^ 64 /\ 0 <= poll_address < 2 ^ 64;
  addresses_differ : init_address <> poll_address }.

(** The bytes at a constant's address. *)
Definition constant_at `{Linkage} (address : Z) : list Z :=
  if address =? init_address then modemClient_INIT_CMD
  else if address =? poll_address then modemClient_SMS_POLL_CMD else [].

(** The sizes of the packed command headers, of the buffers. *)
Definition constant_SIZE : Z := 11.
Definition startSms_SIZE : Z := 2.
Definition sendSms_SIZE : Z := 3.
Definition modem_buffer_SIZE : Z := 4096.
Definition commandQueue_SIZE : Z := 4103.

Record modemClient := ModemClient {
  path : list Z; fd : Z; timerFd : Z; receivedSize : Z; commandQueueSize : Z;
  buffer : list Z; commandQueue : list Z; pendingCommand : bool }.

Definition with_fd (self : modemClient) (x : Z) : modemClient :=
  ModemClient (path self) x (timerFd self) (receivedSize self) (commandQueueSize self) (buffer self) (commandQueue self) (pendingCommand self).
Definition with_received (self : modemClient) (size : Z) (b : list Z) : modemClient :=
  ModemClient (path self) (fd self) (timerFd self) size (commandQueueSize self) b (commandQueue self) (pendingCommand self).
Definition with_queue (self : modemClient) (size : Z) (q : list Z) : modemClient :=
  ModemClient (path self) (fd self) (timerFd self) (receivedSize self) size (buffer self) q (pendingCommand self).
Definition with_pending (self : modemClient) (p : bool) : modemClient :=
  ModemClient (path self) (fd self) (timerFd self) (receivedSize self) (commandQueueSize self) (buffer self) (commandQueue self) p.

Section Modem.
Context `{Linkage}.

Definition modemClient_pendingCmdTag (self : modemClient) : Z :=
  if pendingCommand self then get (commandQueue self) 0 else modemClient_NO_CMD.

Definition set_timeout (timer sec : Z) : M unit :=
  let! r := syscall (Sys_timerfd_settime timer sec 0) in
  CHECK (r =? 0).

(** The fields that [modemClient_init] leaves alone are those of a zeroed object. *)
Definition modemClient_init (self : modemClient) (p : list Z) : M modemClient :=
  let! timer := syscall (Sys_timerfd_create CLOCK_MONOTONIC 0) in
  CHECK (0 <? timer);;
  set_timeout timer 20;;
  pure (ModemClient p (-1) timer (receivedSize self) (commandQueueSize self) (buffer self) (commandQueue self) (pendingCommand self)).

Definition modemClient_disconnect (self : modemClient) : M modemClient :=
  if 0 <? fd self then
    sys_write (fd self) [27];;
    debug_printNum (str "AT disconnect") (modemClient_pendingCmdTag self);;
    sys_close (fd self);;
    pure (with_fd self (-1))
  else pure self.

(** [switch (tag)]: send the command at the head of the queue; whether all of it was
    written. *)
Definition modem_send (self : modemClient) : M bool :=
  let q := commandQueue self in
  let tag := get q 0 in
  if tag =? modemClient_CONSTANT then
    let constantLength := le_combine (firstn 2 (skipn 1 q)) in
    let constant := constant_at (le_combine (firstn 8 (skipn 3 q))) in
    let! written := sys_write (fd self) (firstn (Z.to_nat constantLength) constant) in
    pure (written =? constantLength)
  else if tag =? modemClient_START_SMS then
    let numberSize := get q 1 in
    let! written := syscall (Sys_writev (fd self) [modemClient_START_SMS_CMD; firstn (Z.to_nat numberSize) (skipn 2 q); [QUOTE; CR]]) in
    pure (written =? Z.of_nat (length modemClient_START_SMS_CMD) + numberSize + 2)
  else if tag =? modemClient_SEND_SMS then
    let smsSize := le_combine (firstn 2 (skipn 1 q)) in
    let! written := syscall (Sys_writev (fd self) [firstn (Z.to_nat smsSize) (skipn 3 q); [26]]) in
    pure (written =? smsSize + 1)
  else undefined.

(** The status is 0, or -1 when the command was not written as a whole. *)
Definition modemClient_processQueue (self : modemClient) : M (modemClient * Z) :=
  if pendingCommand self || (commandQueueSize self =? 0) then pure (self, 0)
  else
    let! ok := modem_send self in
    if negb ok then pure (self, -1)
    else
      let self := with_pending self true in
      set_timeout (timerFd self) 10;;
      pure (self, 0).

Definition modemClient_queueConstant (self : modemClient) (address constantLength : Z) : M (modemClient * Z) :=
  if commandQueue_SIZE - constant_SIZE <? commandQueueSize self then pure (self, -1)
  else
    let cmd := [modemClient_CONSTANT] ++ le_split 2 constantLength ++ le_split 8 address in
    let q := mem_copy (commandQueue self) (Z.to_nat (commandQueueSize self)) cmd in
    modemClient_processQueue (with_queue self (commandQueueSize self + constant_SIZE) q).

(** [number] and [sms] are the bytes pointed to. *)
Definition modemClient_queueSms (self : modemClient) (number : list Z) (numberSize : Z) (sms : list Z) (smsSize : Z) : M (modemClient * Z) :=
  let startCmdSize := startSms_SIZE + numberSize in
  let sendCmdSize := sendSms_SIZE + smsSize in
  if commandQueue_SIZE - startCmdSize - sendCmdSize <? commandQueueSize self then pure (self, -1)
  else
    let startCmd := [modemClient_START_SMS; numberSize] ++ firstn (Z.to_nat numberSize) number in
    let self := with_queue self (commandQueueSize self + startCmdSize) (mem_copy (commandQueue self) (Z.to_nat (commandQueueSize self)) startCmd) in
    let sendCmd := [modemClient_SEND_SMS] ++ le_split 2 smsSize ++ firstn (Z.to_nat smsSize) sms in
    let self := with_queue self (commandQueueSize self + sendCmdSize) (mem_copy (commandQueue self) (Z.to_nat (commandQueueSize self)) sendCmd) in
    modemClient_processQueue self.

Definition modemClient_ackPending (self : modemClient) : M (modemClient * Z) :=
  if negb (pendingCommand self) then undefined
  else
    let q := commandQueue self in
    let tag := modemClient_pendingCmdTag self in
    let! ackSize :=
      if tag =? modemClient_CONSTANT then pure constant_SIZE
      else if tag =? modemClient_START_SMS then pure (startSms_SIZE + get q 1)
      else if tag =? modemClient_SEND_SMS then pure (sendSms_SIZE + le_combine (firstn 2 (skipn 1 q)))
      else undefined in
    let size := commandQueueSize self - ackSize in
    let q := mem_copy q 0 (firstn (Z.to_nat size) (skipn (Z.to_nat ackSize) q)) in
    modemClient_processQueue (with_pending (with_queue self size q) false).

(** [struct termios] of the kernel, 36 bytes, with the features of a terminal disabled. *)
Definition raw_termios (t : list Z) : list Z :=
  let flags i := le_combine (firstn 4 (skipn (4 * i) t)) in
  le_split 4 0x80 ++
  le_split 4 (flags 1%nat & u32 (Z.lnot 0x2F)) ++
  le_split 4 ((flags 2%nat & u32 (Z.lnot 0x130)) .| 0x30) ++
  le_split 4 (flags 3%nat & u32 (Z.lnot 0x800B)) ++
  skipn 16 t.

Definition TCGETS : Z := 0x5401.
Definition TCSETS : Z := 0x5402.

(** [out_fail] of [modemClient_onTimerFd]. *)
Definition onTimerFd_fail (self : modemClient) : M modemClient :=
  let! self := modemClient_disconnect self in
  set_timeout (timerFd self) 10;;
  pure self.

Definition queue_init (self : modemClient) : M (modemClient * Z) :=
  modemClient_queueConstant self init_address (Z.of_nat (length modemClient_INIT_CMD)).
Definition queue_poll (self : modemClient) : M (modemClient * Z) :=
  modemClient_queueConstant self poll_address (Z.of_nat (length modemClient_SMS_POLL_CMD)).

(** Opening the modem; the status is negative when that failed. *)
Definition modem_connect (self : modemClient) (epollFd : Z) : M (modemClient * Z) :=
  let! opened := syscall (Sys_openat (-1) (path self) O_RDWR_NOCTTY 0) in
  let self := with_fd self opened in
  if fd self <? 0 then pure (self, -1)
  else
    let! (r, termios) := syscall_out (Sys_ioctl (fd self) TCGETS (repeat 0 36)) 36 in
    if negb (r =? 0) then pure (self, -1)
    else
      let! r := syscall (Sys_ioctl (fd self) TCSETS (raw_termios (mem_copy (repeat 0 36) 0 termios))) in
      if negb (r =? 0) then pure (self, -1)
      else
        let self := with_pending (with_queue (with_received self 0 (buffer self)) 0 (commandQueue self)) false in
        let! (self, r) := queue_init self in
        if r <? 0 then pure (self, -1)
        else
          epollAdd epollFd (fd self);;
          pure (self, 0).

Definition modemClient_onTimerFd (self : modemClient) (epollFd : Z) : M modemClient :=
  let! (self, r) :=
    if fd self <? 0 then modem_connect self epollFd
    else pure (self, if pendingCommand self then -1 else 0) in
  if r <? 0 then onTimerFd_fail self
  else
    let! (self, r) := queue_poll self in
    if r <? 0 then onTimerFd_fail self else pure self.

(** ** Lines from the modem *)

(** How a line ends: the loop goes on at the next line, or leaves for [out] or [out_fail]
    with this line's start. *)
Inductive line_end := NextLine (lineStart : Z) | Out (lineStart : Z) | OutFail (lineStart : Z).

(** The first index of [b] in [l] from [i] up to [n]; [n] if there is none. *)
Definition index_from (b : Z) (l : list Z) (i n : nat) : nat := (i + run_length (fun x => (x =? b)%Z) (slice l i n))%nat.

(** One past the last comma before [n]; the caller knows that there is one. *)
Fixpoint after_last_comma (l : list Z) (n : nat) : nat :=
  match n with
  | O => O
  | S n' => if get l n' =? 44 then n else after_last_comma l n'
  end.

(** The address and the netmask of the WAN side's lease as text, in the 19 bytes of
    [printIp]; the result starts at [pos]. *)
Definition print_ip (leasedIp leasedIpNetmask : Z) : list Z :=
  let ip := le_split 4 leasedIp in
  let prepend (buf : list Z * nat) (c : Z) := (mem_copy (fst buf) (snd buf - 1) [c], (snd buf - 1)%nat) in
  let print (buf : list Z * nat) (n : Z) := util_uintToStr (fst buf) (snd buf) n in
  let b := print (repeat 0 19, 19%nat) leasedIpNetmask in
  let b := print (prepend b 47) (get ip 3) in
  let b := print (prepend b 46) (get ip 2) in
  let b := print (prepend b 46) (get ip 1) in
  let b := print (prepend b 46) (get ip 0) in
  skipn (snd b) (fst b).

(** UCS2 and hexadecimal: "00" and the two digits of each character. *)
Definition ucs2_hex (text : list Z) : list Z :=
  flat_map (fun c => [48; 48; get util_hexTable (Z.to_nat ((c >> 4) & 0xF)); get util_hexTable (Z.to_nat (c & 0xF))]) text.

(** A listed message: the header line [line] of [lineLength] bytes, then its text. *)
Definition read_sms (self : modemClient) (leasedIp leasedIpNetmask : Z) (lineStart : Z) (line : list Z) (lineLength : nat) (remainingBuffer : Z) : M (modemClient * line_end) :=
  let slotNumberEnd := index_from 44 line 7 lineLength in
  if (lineLength <=? slotNumberEnd)%nat then pure (self, OutFail lineStart)
  else
    let senderNumberIndex := (slotNumberEnd + 15)%nat in
    let senderNumberEnd := index_from QUOTE line senderNumberIndex lineLength in
    if (lineLength <=? senderNumberEnd)%nat then pure (self, OutFail lineStart)
    else
      let smsLengthIndex := after_last_comma line lineLength in
      let '(parsed, smsLength) := util_strToUint (skipn smsLengthIndex line) (Z.of_nat (lineLength - smsLengthIndex)) in
      match smsLength with
      | None => pure (self, OutFail lineStart)
      | Some smsLength =>
          if parsed <=? 0 then pure (self, OutFail lineStart)
          else
            let smsContentIndex := (lineLength + 1)%nat in
            if u64 (Z.quot (remainingBuffer - Z.of_nat smsContentIndex - 1) 4) <? smsLength then pure (self, Out lineStart)
            else
              let smsSize := u64 (smsLength * 4) in
              let next := lineStart + i32 (Z.of_nat lineLength + (smsSize + 1)) + 1 in
              if negb (smsLength =? 2) || negb (mem_compare (skipn smsContentIndex line) (str "00690070") 8 =? 0) then pure (self, NextLine next)
              else
                let text := print_ip leasedIp leasedIpNetmask in
                let sms := ucs2_hex text in
                let! (self, r) := modemClient_queueSms self (skipn senderNumberIndex line) (u8 (Z.of_nat (senderNumberEnd - senderNumberIndex))) sms (u16 (4 * Z.of_nat (length text))) in
                pure (self, if r <? 0 then OutFail lineStart else NextLine next)
      end.

(** One line: [line] is what was received from [lineStart] on. *)
Definition modem_line (self : modemClient) (leasedIp leasedIpNetmask pendingCmdTag lineStart : Z) : M (modemClient * line_end) :=
  let line := skipn (Z.to_nat lineStart) (firstn (Z.to_nat (receivedSize self)) (buffer self)) in
  let remainingBuffer := receivedSize self - lineStart in
  let lineLength := run_length (fun x => x =? NL) line in
  let prompt := (get line 0 =? 62) && (get line 1 =? 32) in
  if (length line <=? lineLength)%nat && negb ((lineLength =? 2)%nat && prompt) then pure (self, Out lineStart)
  else if (lineLength =? 2)%nat && ((get line 0 =? 79) && (get line 1 =? 75) || prompt) then
    if pendingCmdTag =? modemClient_NO_CMD then pure (self, OutFail lineStart)
    else if get line 0 =? 62 then
      if negb (pendingCmdTag =? modemClient_START_SMS) then pure (self, OutFail lineStart)
      else
        let! (self, r) := modemClient_ackPending self in
        pure (self, if r <? 0 then OutFail lineStart else NextLine (lineStart + 2))
    else if pendingCmdTag =? modemClient_START_SMS then pure (self, OutFail lineStart)
    else
      let! (self, r) := modemClient_ackPending self in
      pure (self, if r <? 0 then OutFail lineStart else NextLine (lineStart + 3))
  else if (lineLength =? 5)%nat && (mem_compare line (str "ERROR") 5 =? 0) then
    debug_print (str "AT error" ++ [NL]);;
    pure (self, OutFail lineStart)
  else if (7 <=? lineLength)%nat && (mem_compare line (str "+CMGL: ") 7 =? 0) then
    read_sms self leasedIp leasedIpNetmask lineStart line lineLength remainingBuffer
  else if (11 <=? lineLength)%nat && (mem_compare line (str "+CMTI: " ++ [QUOTE] ++ str "SM" ++ [QUOTE]) 11 =? 0) then
    let! (self, r) := queue_poll self in
    pure (self, if r <? 0 then OutFail lineStart else NextLine (lineStart + Z.of_nat lineLength + 1))
  else pure (self, NextLine (lineStart + Z.of_nat lineLength + 1)).

Fixpoint modem_lines (fuel : nat) (self : modemClient) (leasedIp leasedIpNetmask pendingCmdTag lineStart : Z) : M (modemClient * line_end) :=
  match fuel with
  | O => unfinished
  | S fuel' =>
      let! (self, e) := modem_line self leasedIp leasedIpNetmask pendingCmdTag lineStart in
      match e with
      | NextLine lineStart => modem_lines fuel' self leasedIp leasedIpNetmask pendingCmdTag lineStart
      | e => pure (self, e)
      end
  end.

(** [out]: send what is queued; a failure goes back to [out_fail]. *)
Fixpoint modem_out (fuel : nat) (self : modemClient) : M modemClient :=
  match fuel with
  | O => unfinished
  | S fuel' =>
      let! (self, r) := modemClient_processQueue self in
      if r <? 0 then
        let! self := modemClient_disconnect self in
        modem_out fuel' self
      else pure self
  end.

(** The rest of the buffer moves to its start. *)
Definition modem_keep (self : modemClient) (lineStart : Z) : M modemClient :=
  let size := receivedSize self - lineStart in
  if size <? 0 then undefined
  else pure (with_received self size (mem_copy (buffer self) 0 (firstn (Z.to_nat size) (skipn (Z.to_nat lineStart) (buffer self))))).

Definition modemClient_onFd (fuel : nat) (self : modemClient) (leasedIp leasedIpNetmask : Z) : M modemClient :=
  let! (numRead, data) := sys_read (fd self) (modem_buffer_SIZE - receivedSize self) in
  let! (self, e) :=
    if numRead <=? 0 then pure (self, OutFail 0)
    else
      let self := with_received self (receivedSize self + numRead) (mem_copy (buffer self) (Z.to_nat (receivedSize self)) data) in
      modem_lines (S (S (Z.to_nat (receivedSize self)))) self leasedIp leasedIpNetmask (modemClient_pendingCmdTag self) 0 in
  match e with
  | OutFail lineStart =>
      let! self := modemClient_disconnect self in
      let! self := modem_out fuel self in
      modem_keep self lineStart
  | Out lineStart | NextLine lineStart =>
      let! self := modem_out fuel self in
      modem_keep self lineStart
  end.

Definition modemClient_deinit (self : modemClient) : M modemClient :=
  let! self := modemClient_disconnect self in
  sys_close (timerFd self);;
  pure self.
End Modem.

(** ** Reference: a queue of commands *)

Inductive command := Init | Poll | StartSms (number : list Z) | SendSms (sms : list Z).

Record queue := Queue { commands : list command; awaiting : bool }.

Section Reference.
Context `{Linkage}.

(** What a command is on the wire, and in the byte queue. *)
Definition wire (c : command) : list (list Z) :=
  match c with
  | Init => [modemClient_INIT_CMD]
  | Poll => [modemClient_SMS_POLL_CMD]
  | StartSms number => [modemClient_START_SMS_CMD; number; [QUOTE; CR]]
  | SendSms sms => [sms; [26]]
  end.
Definition enc (c : command) : list Z :=
  match c with
  | Init => [modemClient_CONSTANT] ++ le_split 2 (Z.of_nat (length modemClient_INIT_CMD)) ++ le_split 8 init_address
  | Poll => [modemClient_CONSTANT] ++ le_split 2 (Z.of_nat (length modemClient_SMS_POLL_CMD)) ++ le_split 8 poll_address
  | StartSms number => [modemClient_START_SMS; Z.of_nat (length number)] ++ number
  | SendSms sms => [modemClient_SEND_SMS] ++ le_split 2 (Z.of_nat (length sms)) ++ sms
  end.
Definition enc_all (cs : list command) : list Z := flat_map enc cs.
Definition fits (c : command) : Prop :=
  match c with
  | StartSms number => (length number < 256)%nat
  | SendSms sms => Z.of_nat (length sms) < 2 ^ 16
  | _ => True
  end.

(** A call per command: a constant is written, a text message in parts. *)
Definition send (modem : Z) (c : command) : M Z :=
  match wire c with
  | [text] => sys_write modem text
  | parts => syscall (Sys_writev modem parts)
  end.

Definition q_process (modem timer : Z) (q : queue) : M (queue * Z) :=
  match commands q with
  | c :: _ =>
      if awaiting q then pure (q, 0)
      else
        let! written := send modem c in
        if negb (written =? Z.of_nat (length (concat (wire c)))) then pure (q, -1)
        else
          set_timeout timer 10;;
          pure (Queue (commands q) true, 0)
  | [] => pure (q, 0)
  end.

(** Commands that do not fit are refused. *)
Definition q_append (modem timer : Z) (cs : list command) (q : queue) : M (queue * Z) :=
  if commandQueue_SIZE <? Z.of_nat (length (enc_all (commands q ++ cs))) then pure (q, -1)
  else q_process modem timer (Queue (commands q ++ cs) (awaiting q)).

Definition q_ack (modem timer : Z) (q : queue) : M (queue * Z) :=
  match commands q with
  | _ :: cs => if awaiting q then q_process modem timer (Queue cs false) else undefined
  | [] => undefined
  end.

(** ** The byte queue holds a queue *)

Definition holds (self : modemClient) (q : queue) : Prop :=
  Z.of_nat (length (commandQueue self)) = commandQueue_SIZE /\
  commandQueueSize self = Z.of_nat (length (enc_all (commands q))) /\
  (exists rest, commandQueue self = enc_all (commands q) ++ rest) /\
  Forall fits (commands q) /\ pendingCommand self = awaiting q /\
  (awaiting q = true -> commands q <> []).

(** The fields that the queue operations leave alone. *)
Definition same_modem (self self' : modemClient) : Prop :=
  path self' = path self /\ fd self' = fd self /\ timerFd self' = timerFd self /\
  receivedSize self' = receivedSize self /\ buffer self' = buffer self.

(** The same calls, the same status, and queues that correspond. *)
Definition simulates (self : modemClient) (c : outcome (modemClient * Z) * world) (a : outcome (queue * Z) * world) : Prop :=
  snd c = snd a /\
  match fst c, fst a with
  | Done (self', r), Done (q, r') => r = r' /\ holds self' q /\ same_modem self self'
  | Fatal, Fatal | Undefined, Undefined | Unfinished, Unfinished => True
  | _, _ => False
  end.

Lemma enc_pos c : (0 < length (enc c))%nat.
Proof. destruct c; cbn; lia. Qed.

Lemma enc_size_zero cs : Z.of_nat (length (enc_all cs)) = 0 -> cs = [].
Proof. destruct cs as [|c cs]; [reflexivity|]. cbn [enc_all flat_map]. rewrite length_app. pose proof (enc_pos c). lia. Qed.

Lemma enc_all_app cs1 cs2 : enc_all (cs1 ++ cs2) = enc_all cs1 ++ enc_all cs2.
Proof. apply flat_map_app. Qed.

Lemma same_refl self : same_modem self self.
Proof. unfold same_modem. auto. Qed.

Lemma simulates_done self self' q r w : holds self' q -> same_modem self self' -> simulates self (pure (self', r) w) (pure (q, r) w).
Proof. intros. split; [reflexivity|]. cbn. auto. Qed.

Lemma simulates_timeout self t sec (f : M (modemClient * Z)) (g : M (queue * Z)) w :
  (forall w, simulates self (f w) (g w)) -> simulates self (bind (set_timeout t sec) (fun _ => f) w) (bind (set_timeout t sec) (fun _ => g) w).
Proof.
  intros Hfg. destruct (syscall_spec (Sys_timerfd_settime t sec 0) w) as (r & w' & E & _). unfold set_timeout, bind. rewrite E. unfold CHECK.
  destruct (r =? 0); [apply Hfg|]. split; [reflexivity|exact I].
Qed.

Lemma le_split_head n x rest : le_combine (firstn n (le_split n x ++ rest)) = x mod 256 ^ Z.of_nat n.
Proof. rewrite firstn_app_l, firstn_all2, le_combine_split by (rewrite length_le_split; lia). reflexivity. Qed.

Lemma skipn3 (c n : Z) (r : list Z) : skipn 3 (c :: le_split 2 n ++ r) = r.
Proof. reflexivity. Qed.

(** The head of the byte queue is sent as the command it encodes. *)
Lemma modem_send_spec self c rest w : fits c -> commandQueue self = enc c ++ rest ->
  modem_send self w = bind (send (fd self) c) (fun written => pure (written =? Z.of_nat (length (concat (wire c))))) w.
Proof using.
  intros Hc Hq. unfold modem_send. rewrite Hq. pose proof addresses_range as [HI HP]. pose proof addresses_differ as Hne.
  destruct c as [| |number|sms]; cbn [enc fits] in *; rewrite <- !app_assoc; cbn [app get nth]; rewrite ?skipn3; cbn [skipn];
    [change (modemClient_CONSTANT =? modemClient_CONSTANT) with true|change (modemClient_CONSTANT =? modemClient_CONSTANT) with true
    |change (modemClient_START_SMS =? modemClient_CONSTANT) with false; change (modemClient_START_SMS =? modemClient_START_SMS) with true
    |change (modemClient_SEND_SMS =? modemClient_CONSTANT) with false; change (modemClient_SEND_SMS =? modemClient_START_SMS) with false; change (modemClient_SEND_SMS =? modemClient_SEND_SMS) with true];
    cbv beta iota zeta.
  - rewrite le_split_head. rewrite le_split_head, (Z.mod_small init_address) by (change (256 ^ Z.of_nat 8) with (2 ^ 64); lia).
    unfold constant_at. rewrite Z.eqb_refl. reflexivity.
  - rewrite le_split_head. rewrite le_split_head, (Z.mod_small poll_address) by (change (256 ^ Z.of_nat 8) with (2 ^ 64); lia).
    unfold constant_at. destruct (Z.eqb_spec poll_address init_address); [congruence|]. rewrite Z.eqb_refl. reflexivity.
  - rewrite Nat2Z.id, firstn_exact by reflexivity. cbn [send wire]. unfold bind. destruct (syscall _ w) as [[r| | |] w']; try reflexivity.
    unfold pure. do 3 f_equal. cbn [List.concat]. rewrite app_nil_r, !length_app. cbn [List.length]. lia.
  - rewrite le_split_head. rewrite Z.mod_small by (change (256 ^ Z.of_nat 2) with (2 ^ 16); lia).
    rewrite Nat2Z.id, firstn_exact by reflexivity. cbn [send wire]. unfold bind. destruct (syscall _ w) as [[r| | |] w']; try reflexivity.
    unfold pure. do 3 f_equal. cbn [List.concat]. rewrite !length_app. cbn [List.length]. lia.
Qed.

Lemma send_done modem c w : exists r w', send modem c w = (Done r, w').
Proof. unfold send, sys_write. destruct c; cbn [wire]; match goal with |- context [syscall ?c w] => destruct (syscall_spec c w) as (r & w' & E & _) end; eauto. Qed.

Lemma process_simulates self self0 q w : holds self q -> same_modem self0 self ->
  simulates self0 (modemClient_processQueue self w) (q_process (fd self0) (timerFd self0) q w).
Proof.
  intros (Hl & Hs & [rest Hq] & Hf & Hp & Hne) Hsame. pose proof Hsame as (_ & Efd & Et & _). unfold modemClient_processQueue, q_process. rewrite Hp, Hs.
  destruct (commands q) as [|c cs] eqn:Ec.
  - cbn [enc_all flat_map List.length Z.of_nat Z.eqb]. rewrite orb_true_r. apply simulates_done; [|exact Hsame]. unfold holds. rewrite Ec. eauto 10.
  - destruct (Z.eqb_spec (Z.of_nat (length (enc_all (c :: cs)))) 0) as [E0|E0]; [apply enc_size_zero in E0; discriminate|]. rewrite orb_false_r.
    destruct (awaiting q) eqn:Eq; [apply simulates_done; [|exact Hsame]; unfold holds; rewrite Ec; eauto 10|].
    pose proof Hq as Hq0. cbn [enc_all flat_map] in Hq. rewrite <- app_assoc in Hq. rewrite <- Efd.
    destruct (send_done (fd self) c w) as (r & w' & E).
    assert (modem_send self w = (Done (r =? Z.of_nat (length (concat (wire c)))), w')) as E2.
    { rewrite (modem_send_spec self c _ w (Forall_inv Hf) Hq). now rewrite (bind_done _ _ _ _ _ E). }
    rewrite (bind_done _ _ _ _ _ E), (bind_done _ _ _ _ _ E2). destruct (r =? _); cbn [negb].
    + cbn [with_pending timerFd]. rewrite Et. apply simulates_timeout. intros w2. apply simulates_done; [|exact Hsame].
      unfold holds, with_pending. cbn [commandQueue commandQueueSize pendingCommand commands awaiting]. split; [exact Hl|]. split; [exact Hs|]. split; [now exists rest|]. split; [exact Hf|]. split; [reflexivity|discriminate].
    + apply simulates_done; [|exact Hsame]. unfold holds. rewrite Ec, Eq. split; [exact Hl|]. split; [exact Hs|]. split; [now exists rest|]. split; [exact Hf|]. split; [exact Hp|discriminate].
Qed.

Lemma holds_push self q c : holds self q -> fits c -> commandQueueSize self + Z.of_nat (length (enc c)) <= commandQueue_SIZE ->
  holds (with_queue self (commandQueueSize self + Z.of_nat (length (enc c))) (mem_copy (commandQueue self) (Z.to_nat (commandQueueSize self)) (enc c)))
    (Queue (commands q ++ [c]) (awaiting q)).
Proof.
  intros (Hl & Hs & [rest Hq] & Hf & Hp & Hne) Hc Hfit. rewrite Hs, Nat2Z.id in *. unfold holds. cbn [with_queue commandQueue commandQueueSize pendingCommand commands awaiting].
  assert (length (commandQueue self) = length (enc_all (commands q)) + length rest)%nat as Hlen by (rewrite Hq; apply length_app).
  split; [rewrite length_mem_copy by lia; exact Hl|]. split; [rewrite enc_all_app, length_app; cbn [enc_all flat_map]; rewrite app_nil_r; lia|]. split.
  - exists (skipn (length (enc c)) rest). rewrite mem_copy_eq, Hq, firstn_exact, enc_all_app by (lia || reflexivity). cbn [enc_all flat_map]. rewrite app_nil_r, <- app_assoc. do 2 f_equal.
    rewrite skipn_app, skipn_all2 by lia. cbn [app]. f_equal. lia.
  - split; [apply Forall_app; auto|]. split; [exact Hp|]. intros _ E. now apply app_eq_nil in E as [_ ?].
Qed.

Lemma size_append q c : Z.of_nat (length (enc_all (commands q ++ [c]))) = Z.of_nat (length (enc_all (commands q))) + Z.of_nat (length (enc c)).
Proof. rewrite enc_all_app, length_app. cbn [enc_all flat_map]. rewrite app_nil_r. lia. Qed.

Lemma constant_simulates self q w c address len : holds self q -> fits c -> enc c = [modemClient_CONSTANT] ++ le_split 2 len ++ le_split 8 address ->
  simulates self (modemClient_queueConstant self address len w) (q_append (fd self) (timerFd self) [c] q w).
Proof.
  intros Hh Hc He. pose proof Hh as (_ & Hs & _). unfold modemClient_queueConstant, q_append. rewrite size_append, <- Hs, <- He.
  assert (Z.of_nat (length (enc c)) = constant_SIZE) as E by (rewrite He, !length_app, !length_le_split; reflexivity). rewrite E.
  destruct (Z.ltb_spec (commandQueue_SIZE - constant_SIZE) (commandQueueSize self)), (Z.ltb_spec commandQueue_SIZE (commandQueueSize self + constant_SIZE)); try lia.
  - apply simulates_done; [exact Hh|apply same_refl].
  - apply process_simulates; [|unfold same_modem; auto]. rewrite <- E. apply holds_push; [exact Hh|exact Hc|lia].
Qed.

Lemma sms_simulates self q w number sms rest1 rest2 : holds self q -> fits (StartSms number) -> fits (SendSms sms) ->
  simulates self (modemClient_queueSms self (number ++ rest1) (Z.of_nat (length number)) (sms ++ rest2) (Z.of_nat (length sms)) w)
    (q_append (fd self) (timerFd self) [StartSms number; SendSms sms] q w).
Proof.
  intros Hh Hn Hm. pose proof Hh as (_ & Hs & _). unfold modemClient_queueSms, q_append. rewrite !Nat2Z.id, !firstn_exact by reflexivity.
  change ([StartSms number; SendSms sms]) with ([StartSms number] ++ [SendSms sms]). rewrite (app_assoc (commands q)).
  pose proof (size_append q (StartSms number)) as E1. pose proof (size_append (Queue (commands q ++ [StartSms number]) (awaiting q)) (SendSms sms)) as E2. cbn [commands] in E2.
  rewrite E2, E1, <- Hs. clear E1 E2.
  change ([modemClient_START_SMS; Z.of_nat (length number)] ++ number) with (enc (StartSms number)). change ([modemClient_SEND_SMS] ++ le_split 2 (Z.of_nat (length sms)) ++ sms) with (enc (SendSms sms)).
  assert (startSms_SIZE + Z.of_nat (length number) = Z.of_nat (length (enc (StartSms number)))) as E1 by (cbn [enc]; rewrite length_app; cbn [List.length]; unfold startSms_SIZE; lia).
  assert (sendSms_SIZE + Z.of_nat (length sms) = Z.of_nat (length (enc (SendSms sms)))) as E2 by (cbn [enc]; rewrite !length_app, length_le_split; cbn [List.length]; unfold sendSms_SIZE; lia).
  rewrite E1, E2.
  match goal with |- simulates _ ((if ?a then _ else _) _) ((if ?b then _ else _) _) => destruct (Z.ltb_spec (commandQueue_SIZE - Z.of_nat (length (enc (StartSms number))) - Z.of_nat (length (enc (SendSms sms)))) (commandQueueSize self)) end;
  match goal with |- context [?a <? ?b] => destruct (Z.ltb_spec a b) end; try lia.
  - apply simulates_done; [exact Hh|apply same_refl].
  - apply process_simulates; [|unfold same_modem; auto].
    apply (holds_push _ (Queue (commands q ++ [StartSms number]) (awaiting q)) (SendSms sms)); [apply holds_push; [exact Hh|exact Hn|lia]|exact Hm|cbn [with_queue commandQueueSize]; lia].
Qed.

Lemma ack_size self c rest : fits c -> commandQueue self = enc c ++ rest -> pendingCommand self = true -> forall w,
  (if modemClient_pendingCmdTag self =? modemClient_CONSTANT then pure constant_SIZE
   else if modemClient_pendingCmdTag self =? modemClient_START_SMS then pure (startSms_SIZE + get (commandQueue self) 1)
   else if modemClient_pendingCmdTag self =? modemClient_SEND_SMS then pure (sendSms_SIZE + le_combine (firstn 2 (skipn 1 (commandQueue self))))
   else undefined) w = (Done (Z.of_nat (length (enc c))), w).
Proof using.
  intros Hc Hq Hp w. unfold modemClient_pendingCmdTag. rewrite Hp, Hq. destruct c as [| |number|sms]; cbn [enc fits] in *; rewrite <- !app_assoc; cbn [app get nth skipn];
    [| |change (modemClient_START_SMS =? modemClient_CONSTANT) with false; change (modemClient_START_SMS =? modemClient_START_SMS) with true
    |change (modemClient_SEND_SMS =? modemClient_CONSTANT) with false; change (modemClient_SEND_SMS =? modemClient_START_SMS) with false; change (modemClient_SEND_SMS =? modemClient_SEND_SMS) with true];
    cbv beta iota; [reflexivity|reflexivity| |]; unfold pure; do 2 f_equal.
  - cbn [List.length]. unfold startSms_SIZE. lia.
  - rewrite le_split_head, Z.mod_small by (change (256 ^ Z.of_nat 2) with (2 ^ 16); lia). cbn [List.length]. rewrite length_app, length_le_split. unfold sendSms_SIZE. lia.
Qed.

Lemma ack_simulates self q w : holds self q -> simulates self (modemClient_ackPending self w) (q_ack (fd self) (timerFd self) q w).
Proof.
  intros (Hl & Hs & [rest Hq] & Hf & Hp & Hne). unfold modemClient_ackPending, q_ack. destruct (pendingCommand self) eqn:Ep; cbn [negb].
  2: { destruct (commands q); rewrite <- ?Hp; (split; [reflexivity|exact I]). }
  rewrite <- Hp in *. destruct (commands q) as [|c cs] eqn:Ec; [now elim Hne|].
  cbn [enc_all flat_map] in Hq, Hs. rewrite <- app_assoc in Hq. rewrite length_app in Hs.
  rewrite (bind_done _ _ _ _ _ (ack_size self c _ (Forall_inv Hf) Hq Ep w)). rewrite Hs.
  replace (Z.of_nat (length (enc c) + length (flat_map enc cs)) - Z.of_nat (length (enc c))) with (Z.of_nat (length (enc_all cs))) by (unfold enc_all; lia).
  rewrite !Nat2Z.id. apply process_simulates; [|unfold same_modem; auto]. unfold holds. cbn [with_pending with_queue commandQueue commandQueueSize pendingCommand commands awaiting].
  rewrite Hq, skipn_exact, firstn_exact by reflexivity. fold (enc_all cs) in *.
  assert (length (enc c ++ enc_all cs ++ rest) = Z.to_nat commandQueue_SIZE) as Hlen by (rewrite <- Hq; lia). rewrite !length_app in Hlen.
  split; [rewrite length_mem_copy by (rewrite !length_app; lia); rewrite !length_app; unfold commandQueue_SIZE in *; lia|]. split; [reflexivity|].
  split; [|split; [exact (Forall_inv_tail Hf)|split; [reflexivity|discriminate]]].
  rewrite mem_copy_eq by (rewrite !length_app; lia). cbn [firstn app]. eauto.
Qed.

(** C35: The byte queue implements a queue of commands: sending, queueing a constant
    command or a text message (refused when it does not fit), and acknowledging the
    command in flight make the same calls, give the same status and leave the bytes of
    the queue that results; nothing else of the client changes. *)
Theorem modem_queue_refinement self q : holds self q ->
  (forall w, simulates self (modemClient_processQueue self w) (q_process (fd self) (timerFd self) q w)) /\
  (forall w, simulates self (queue_init self w) (q_append (fd self) (timerFd self) [Init] q w)) /\
  (forall w, simulates self (queue_poll self w) (q_append (fd self) (timerFd self) [Poll] q w)) /\
  (forall w number sms rest1 rest2, (length number < 256)%nat -> Z.of_nat (length sms) < 2 ^ 16 ->
     simulates self (modemClient_queueSms self (number ++ rest1) (Z.of_nat (length number)) (sms ++ rest2) (Z.of_nat (length sms)) w)
       (q_append (fd self) (timerFd self) [StartSms number; SendSms sms] q w)) /\
  (forall w, simulates self (modemClient_ackPending self w) (q_ack (fd self) (timerFd self) q w)).
Proof.
  intros Hh. split; [intros w; apply process_simulates; [exact Hh|apply same_refl]|].
  split; [intros w; now apply constant_simulates|]. split; [intros w; now apply constant_simulates|].
  split; [intros; now apply sms_simulates|]. intros w. now apply ack_simulates.
Qed.
End Reference.

(** ** Answering a text message *)

(** Text in UCS2, each of the two bytes of a character as two hexadecimal digits. *)
Definition hex_char (n : Z) : Z := if n <? 10 then 48 + n else 55 + n.
Definition ucs2 (text : list Z) : list Z := flat_map (fun c => flat_map (fun b => [hex_char (b / 16); hex_char (b mod 16)]) (be_split 2 c)) text.

Lemma hex_char_table n : 0 <= n < 16 -> get util_hexTable (Z.to_nat n) = hex_char n.
Proof.
  intros Hn. rewrite <- (Z2Nat.id n) at 2 by lia. assert (Z.to_nat n < 16)%nat as Hk by lia. revert Hk. generalize (Z.to_nat n). clear. intros k Hk.
  do 16 (destruct k as [|k]; [reflexivity|]). lia.
Qed.

Lemma ucs2_hex_spec text : bytes text -> ucs2_hex text = ucs2 text.
Proof.
  induction 1 as [|c text Hc _ IH]; [reflexivity|]. unfold is_byte in Hc. cbn [ucs2_hex ucs2 flat_map]. fold (ucs2_hex text) (ucs2 text). rewrite IH. f_equal.
  assert (be_split 2 c = [0; c]) as ->.
  { unfold be_split. cbn [le_split rev app]. rewrite (Z.div_small c 256), (Z.mod_small c 256) by lia. reflexivity. }
  assert ((c >> 4) & 0xF = c / 16) as E1.
  { change 0xF with (Z.ones 4). rewrite Z.land_ones, Z.shiftr_div_pow2 by lia. change (2 ^ 4) with 16. apply Z.mod_small. split; [apply Z.div_pos; lia|apply Z.div_lt_upper_bound; lia]. }
  assert (c & 0xF = c mod 16) as E2 by (change 0xF with (Z.ones 4); rewrite Z.land_ones by lia; reflexivity).
  rewrite E1, E2, !hex_char_table; [reflexivity|apply Z.mod_pos_bound; lia|split; [apply Z.div_pos; lia|apply Z.div_lt_upper_bound; lia]].
Qed.

(** The text in the last bytes of [printIp]. *)
Definition tail (b : list Z * nat) (t : list Z) : Prop := length (fst b) = 19%nat /\ (snd b + length t = 19)%nat /\ skipn (snd b) (fst b) = t.

Lemma tail_print b t n : tail b t -> is_byte n -> (length t <= 16)%nat -> tail (util_uintToStr (fst b) (snd b) n) (dec8 n ++ t).
Proof.
  intros (Hl & Hs & Ht) Hn Hle. destruct (dec8_printed (fst b) (snd b) n Hn ltac:(lia)) as [H1 H2]. destruct (util_uintToStr (fst b) (snd b) n) as [buf pos]. cbn [fst snd] in *.
  unfold tail. cbn [fst snd]. rewrite H2, !length_app, length_firstn, length_skipn. split; [lia|]. split; [lia|].
  rewrite skipn_exact by (rewrite length_firstn; lia). now rewrite Ht.
Qed.

Lemma tail_char b t c : tail b t -> (length t <= 18)%nat -> tail (mem_copy (fst b) (snd b - 1) [c], (snd b - 1)%nat) (c :: t).
Proof.
  intros (Hl & Hs & Ht) Hle. unfold tail. cbn [fst snd List.length]. rewrite mem_copy_eq by (cbn [List.length]; lia). cbn [List.length app].
  split; [rewrite length_app; cbn [List.length]; rewrite length_firstn, length_skipn; lia|]. split; [lia|].
  rewrite skipn_exact by (rewrite length_firstn; lia). f_equal. rewrite <- Ht. f_equal. lia.
Qed.

Lemma print_ip_spec ip mask : is_byte mask -> print_ip ip mask = dotted (le_split 4 ip) mask.
Proof.
  intros Hm. unfold print_ip. cbv zeta. assert (forall i, is_byte (get (le_split 4 ip) i)) as Hb by (intros; apply get_byte_of, bytes_le_split).
  set (a := le_split 4 ip) in *. clearbody a.
  assert (tail (repeat 0 19, 19%nat) []) as T0 by (repeat split).
  pose proof (tail_print _ _ mask T0 Hm ltac:(cbn; lia)) as T1. rewrite app_nil_r in T1. cbn [fst snd] in T1. set (b1 := util_uintToStr _ _ mask) in *. clearbody b1.
  pose proof (length_dec8 mask) as L0.
  pose proof (tail_char _ _ 47 T1 ltac:(lia)) as T2. set (b2 := (mem_copy _ _ [47], _)) in *. clearbody b2.
  pose proof (length_dec8 (get a 3)) as L3. pose proof (length_dec8 (get a 2)) as L2. pose proof (length_dec8 (get a 1)) as L1. pose proof (length_dec8 (get a 0)) as L00.
  pose proof (tail_print _ _ _ T2 (Hb 3%nat) ltac:(cbn [List.length]; lia)) as T3. set (b3 := util_uintToStr _ _ (get a 3)) in *. clearbody b3.
  pose proof (tail_char _ _ 46 T3 ltac:(rewrite length_app; cbn [List.length]; lia)) as T4. set (b4 := (mem_copy (fst b3) _ [46], _)) in *. clearbody b4.
  pose proof (tail_print _ _ _ T4 (Hb 2%nat) ltac:(cbn [List.length]; rewrite length_app; cbn [List.length]; lia)) as T5. set (b5 := util_uintToStr _ _ (get a 2)) in *. clearbody b5.
  pose proof (tail_char _ _ 46 T5 ltac:(repeat (rewrite length_app; cbn [List.length]); lia)) as T6. set (b6 := (mem_copy (fst b5) _ [46], _)) in *. clearbody b6.
  pose proof (tail_print _ _ _ T6 (Hb 1%nat) ltac:(cbn [List.length]; repeat (rewrite length_app; cbn [List.length]); lia)) as T7. set (b7 := util_uintToStr _ _ (get a 1)) in *. clearbody b7.
  pose proof (tail_char _ _ 46 T7 ltac:(repeat (rewrite length_app; cbn [List.length]); lia)) as T8. set (b8 := (mem_copy (fst b7) _ [46], _)) in *. clearbody b8.
  pose proof (tail_print _ _ _ T8 (Hb 0%nat) ltac:(cbn [List.length]; repeat (rewrite length_app; cbn [List.length]); lia)) as T9. set (b9 := util_uintToStr _ _ (get a 0)) in *. clearbody b9.
  destruct T9 as (_ & _ & ->). reflexivity.
Qed.

Section Answer.
Context `{Linkage}.

Lemma length_dotted ip mask : (length (dotted ip mask) <= 19)%nat.
Proof.
  unfold dotted. pose proof (length_dec8 mask). pose proof (length_dec8 (get ip 3)). pose proof (length_dec8 (get ip 2)). pose proof (length_dec8 (get ip 1)). pose proof (length_dec8 (get ip 0)).
  repeat (rewrite length_app; cbn [List.length]). lia.
Qed.

Lemma length_ucs2 text : length (ucs2_hex text) = (4 * length text)%nat.
Proof. induction text as [|c text IH]; [reflexivity|]. cbn [ucs2_hex flat_map]. rewrite length_app. fold (ucs2_hex text). rewrite IH. cbn [List.length]. lia. Qed.

Lemma dec8_bytes n : is_byte n -> bytes (dec8 n).
Proof.
  unfold is_byte. intros Hn. unfold dec8. pose proof (Z.mod_pos_bound n 10 ltac:(lia)). pose proof (Z.mod_pos_bound (n / 10) 10 ltac:(lia)).
  assert (0 <= n / 10) by (apply Z.div_pos; lia). assert (n / 10 < 26) by (apply Z.div_lt_upper_bound; lia).
  assert (0 <= n / 100) by (apply Z.div_pos; lia). assert (n / 100 < 3) by (apply Z.div_lt_upper_bound; lia).
  destruct (Z.ltb_spec n 10), (Z.ltb_spec n 100); repeat constructor; unfold is_byte; lia.
Qed.

Lemma dotted_bytes ip mask : bytes ip -> is_byte mask -> bytes (dotted ip mask).
Proof.
  intros Hip Hm. assert (forall i, bytes (dec8 (get ip i))) as Hd by (intros; apply dec8_bytes; now apply get_byte_of).
  unfold dotted, bytes. rewrite !Forall_app. repeat split; try apply Hd; try (now apply dec8_bytes); repeat constructor; unfold is_byte; lia.
Qed.

(** A run up to the first stop. *)
Lemma run_length_app stop l r : Forall (fun b => stop b = false) l -> run_length stop (l ++ r) = (length l + run_length stop r)%nat.
Proof. induction 1 as [|b l Hb _ IH]; [reflexivity|]. cbn [run_length app List.length]. rewrite Hb, IH. reflexivity. Qed.

Lemma run_length_found b l r : ~ In b l -> run_length (fun x => x =? b) (l ++ b :: r) = length l.
Proof.
  intros Hb. rewrite run_length_app; [cbn [run_length]; rewrite Z.eqb_refl; lia|].
  apply Forall_forall. intros x Hx. apply Z.eqb_neq. intros ->. contradiction.
Qed.

Lemma index_found b pre l r i n : i = length pre -> (length pre + length l < n)%nat -> (n <= length (pre ++ l ++ b :: r))%nat -> ~ In b l ->
  index_from b (pre ++ l ++ b :: r) i n = (length pre + length l)%nat.
Proof.
  intros -> Hn Hn2 Hb. unfold index_from, slice. f_equal. rewrite skipn_exact by reflexivity.
  rewrite firstn_app. rewrite firstn_all2 by lia. replace (n - length pre - length l)%nat with (S (n - length pre - length l - 1)) by lia.
  cbn [firstn]. now apply run_length_found.
Qed.

Lemma mem_compare_same l r n : n = length l -> mem_compare (l ++ r) l n = 0.
Proof. intros ->. induction l as [|b l IH]; cbn [mem_compare List.length app]; [reflexivity|]. unfold get. cbn [nth skipn]. now rewrite Z.sub_diag. Qed.

(** The header of a message that was not read yet, from [number], of [d] characters; the
    modem may put more between the number and the length. *)
Definition sms_header (slot number more : list Z) (d : Z) : list Z :=
  str "+CMGL: " ++ slot ++ ([44; QUOTE] ++ str "REC UNREAD" ++ [QUOTE; 44; QUOTE]) ++ number ++ [QUOTE] ++ more ++ [44; 48 + d].

Section Header.
Context (slot number more body : list Z) (d : Z) (Hd : 0 <= d < 10).
Context (Hslot : ~ In 44 slot) (Hnumber : ~ In QUOTE number).
Local Notation header := (sms_header slot number more d).
Local Notation line := (header ++ NL :: body).

Lemma length_header_sms : length header = (25 + length slot + length number + length more)%nat.
Proof using. unfold sms_header. rewrite !length_app. cbn. lia. Qed.

Lemma header_nl : ~ In NL slot -> ~ In NL number -> ~ In NL more -> ~ In NL header.
Proof using Hd. intros H1 H2 H3 Hi. unfold sms_header in Hi. assert (48 + d <> NL) as Hx by (unfold NL; lia). generalize dependent (48 + d). intros x Hi Hx. rewrite !in_app_iff in Hi. cbn in Hi. unfold NL in *.
  repeat match type of Hi with _ \/ _ => destruct Hi as [Hi|Hi] end; try contradiction; discriminate. Qed.

(** What the handler finds in the line. *)
Lemma header_parts :
  mem_compare line (str "+CMGL: ") 7 = 0 /\
  index_from 44 line 7 (length header) = (7 + length slot)%nat /\
  index_from QUOTE line (7 + length slot + 15) (length header) = (7 + length slot + 15 + length number)%nat /\
  skipn (7 + length slot + 15) line = number ++ QUOTE :: (more ++ [44; 48 + d]) ++ NL :: body /\
  after_last_comma line (length header) = (length header - 1)%nat /\
  util_strToUint (skipn (length header - 1) line) 1 = (1, Some d) /\
  skipn (length header + 1) line = body.
Proof using Hd Hslot Hnumber.
  pose proof length_header_sms as Hn. set (n := length header) in *.
  assert (length line = n + 1 + length body)%nat as Hll by (rewrite length_app; cbn [List.length]; fold n; lia).
  unfold sms_header in *. set (pre := str "+CMGL: ") in *. set (mid := [44; QUOTE] ++ str "REC UNREAD" ++ [QUOTE; 44; QUOTE]) in *.
  set (l := (pre ++ slot ++ mid ++ number ++ [QUOTE] ++ more ++ [44; 48 + d]) ++ NL :: body) in *.
  assert (l = pre ++ slot ++ 44 :: (skipn 1 mid ++ number ++ [QUOTE] ++ more ++ [44; 48 + d]) ++ NL :: body) as E1.
  { unfold l. change (44 :: (skipn 1 mid ++ number ++ [QUOTE] ++ more ++ [44; 48 + d]) ++ NL :: body) with ((mid ++ number ++ [QUOTE] ++ more ++ [44; 48 + d]) ++ NL :: body).
    now rewrite <- !app_assoc. }
  assert (l = (pre ++ slot ++ mid) ++ number ++ QUOTE :: (more ++ [44; 48 + d]) ++ NL :: body) as E2.
  { unfold l. change (QUOTE :: (more ++ [44; 48 + d]) ++ NL :: body) with ([QUOTE] ++ (more ++ [44; 48 + d]) ++ NL :: body). now rewrite <- !app_assoc. }
  assert (l = (pre ++ slot ++ mid ++ number ++ [QUOTE] ++ more) ++ 44 :: 48 + d :: NL :: body) as E3.
  { unfold l. change (44 :: 48 + d :: NL :: body) with ([44; 48 + d] ++ NL :: body). now rewrite <- !app_assoc. }
  assert (length pre = 7%nat) as Lpre by reflexivity. assert (length mid = 15%nat) as Lmid by reflexivity.
  assert (mem_compare l pre 7 = 0) as Hcmp by (rewrite E1; now apply mem_compare_same). clearbody pre mid.
  split; [exact Hcmp|]. split.
  { rewrite E1. rewrite <- Lpre. apply index_found; [reflexivity|lia|rewrite <- E1; lia|exact Hslot]. }
  split.
  { rewrite E2. replace (7 + length slot + 15)%nat with (length (pre ++ slot ++ mid)) by (rewrite !length_app; lia).
    apply index_found; [reflexivity|rewrite !length_app; lia|rewrite <- E2; lia|exact Hnumber]. }
  split; [rewrite E2; apply skipn_exact; rewrite !length_app; lia|].
  set (A := pre ++ slot ++ mid ++ number ++ [QUOTE] ++ more) in *. assert (n = S (S (length A))) as En by (unfold A; rewrite !length_app; cbn [List.length]; lia).
  assert (forall k, get l (length A + k) = get (44 :: 48 + d :: NL :: body) k) as Hget by (intros k; rewrite E3; unfold get; rewrite app_nth2_plus; reflexivity).
  replace (n - 1)%nat with (S (length A)) by lia. split.
  { pose proof (Hget 0%nat) as G0. pose proof (Hget 1%nat) as G1. rewrite Nat.add_0_r in G0. rewrite Nat.add_1_r in G1.
    rewrite En. cbn [after_last_comma]. rewrite G1, G0. cbn [get nth]. destruct (Z.eqb_spec (48 + d) 44); [lia|reflexivity]. }
  split.
  { assert (skipn (S (length A)) l = 48 + d :: NL :: body) as ->.
    { rewrite E3. change (A ++ 44 :: 48 + d :: NL :: body) with (A ++ [44] ++ 48 + d :: NL :: body). rewrite app_assoc. apply skipn_exact. rewrite length_app. cbn [List.length]. lia. }
    rewrite util_strToUint_digits. change (Z.to_nat 1) with 1%nat. cbn [firstn take_digits]. rewrite dec_digit_char by lia.
    unfold parsed. cbn [value fold_left List.length]. unfold UINT64_MAX. destruct (Z.leb_spec (10 * 0 + d) (2 ^ 64 - 1)); [|lia]. do 2 f_equal. lia. }
  unfold l. change (NL :: body) with ([NL] ++ body). rewrite app_assoc. apply skipn_exact. rewrite length_app. cbn [List.length].
  fold (sms_header slot number more d). unfold n. rewrite !length_app. cbn [List.length]. lia.
Qed.
End Header.

(** The same calls as the reference, and the line's end by the status. *)
Definition answers_line (failed next : line_end) (c : outcome (modemClient * line_end) * world) (a : outcome (queue * Z) * world) : Prop :=
  snd c = snd a /\
  match fst c, fst a with
  | Done (self', e), Done (q, r) => holds self' q /\ e = if r <? 0 then failed else next
  | Fatal, Fatal | Undefined, Undefined | Unfinished, Unfinished => True
  | _, _ => False
  end.

Lemma simulates_line self failed next (m : M (modemClient * Z)) a w : simulates self (m w) a ->
  answers_line failed next (bind m (fun '(self, r) => pure (self, if r <? 0 then failed else next)) w) a.
Proof.
  unfold simulates, answers_line, bind, pure. destruct (m w) as [[[s r]| | |] w']; destruct a as [[[q r']| | |] w2]; cbn [fst snd]; intros [E D]; try contradiction; (split; [exact E|]); try exact I.
  destruct D as (-> & Hh & _). auto.
Qed.

(** Up to its length field every listed message is treated alike. *)
Lemma sms_line self ip mask slot number more d body tag lineStart w :
  0 <= d < 10 -> ~ In 44 slot -> ~ In NL slot -> ~ In QUOTE number -> ~ In NL number -> ~ In NL more -> (length number < 256)%nat ->
  let header := sms_header slot number more d in
  skipn (Z.to_nat lineStart) (firstn (Z.to_nat (receivedSize self)) (buffer self)) = header ++ NL :: body ->
  lineStart + Z.of_nat (length (header ++ NL :: body)) = receivedSize self -> 0 <= lineStart -> receivedSize self <= modem_buffer_SIZE ->
  modem_line self ip mask tag lineStart w =
  (if Z.quot (Z.of_nat (length body) - 1) 4 <? d then pure (self, Out lineStart)
   else
     let next := lineStart + Z.of_nat (length header) + 4 * d + 2 in
     if negb (d =? 2) || negb (mem_compare body (str "00690070") 8 =? 0) then pure (self, NextLine next)
     else
       let text := print_ip ip mask in
       let! (self, r) := modemClient_queueSms self (number ++ QUOTE :: (more ++ [44; 48 + d]) ++ NL :: body) (Z.of_nat (length number)) (ucs2_hex text) (u16 (4 * Z.of_nat (length text))) in
       pure (self, if r <? 0 then OutFail lineStart else NextLine next)) w.
Proof.
  intros Hd Hs1 Hs2 Hn1 Hn2 Hm Hlen header Hline Hrecv H0 Hsize.
  pose proof (header_nl slot number more d Hd Hs2 Hn2 Hm) as Hnl. destruct (header_parts slot number more body d Hd Hs1 Hn1) as (P1 & P2 & P3 & P4 & P5 & P6 & P7).
  pose proof (length_header_sms slot number more d) as Hhl. fold header in Hnl, P1, P2, P3, P4, P5, P6, P7, Hhl.
  unfold modem_line. rewrite Hline. cbv zeta. rewrite run_length_found by exact Hnl.
  set (n := length header) in *. set (line := header ++ NL :: body) in *.
  assert (length line = n + 1 + length body)%nat as Hll by (unfold line; rewrite length_app; cbn [List.length]; fold n; lia).
  destruct (Nat.leb_spec (length line) n); [lia|]. cbn [andb].
  destruct (Nat.eqb_spec n 2); [lia|]. cbn [andb]. destruct (Nat.eqb_spec n 5); [lia|]. cbn [andb].
  destruct (Nat.leb_spec 7 n); [|lia]. cbn [andb]. rewrite P1. change (0 =? 0) with true. cbv iota. unfold read_sms. rewrite P2.
  destruct (Nat.leb_spec n (7 + length slot)); [lia|]. rewrite P3. destruct (Nat.leb_spec n (7 + length slot + 15 + length number)); [lia|].
  rewrite P4, P5. replace (Z.of_nat (n - (n - 1))) with 1 by lia. rewrite P6. cbv beta iota. change (1 <=? 0) with false. cbv iota. rewrite P7.
  assert (receivedSize self - lineStart - Z.of_nat (n + 1) - 1 = Z.of_nat (length body) - 1) as -> by (rewrite <- Hrecv; lia).
  assert (0 <= Z.quot (Z.of_nat (length body) - 1) 4 < 2 ^ 64) as Hq.
  { unfold modem_buffer_SIZE in *. destruct body as [|b l]; [cbn; lia|]. cbn [List.length] in *. rewrite Z.quot_div_nonneg by lia.
    split; [apply Z.div_pos; lia|]. apply Z.div_lt_upper_bound; lia. }
  rewrite (wrap_small 64 (Z.quot _ _)) by exact Hq. destruct (_ <? d); [reflexivity|].
  replace (7 + length slot + 15 + length number - (7 + length slot + 15))%nat with (length number) by lia.
  rewrite (wrap_small 8) by lia. rewrite (wrap_small 64 (d * 4)) by lia.
  assert (lineStart + i32 (Z.of_nat n + (d * 4 + 1)) + 1 = lineStart + Z.of_nat n + 4 * d + 2) as ->.
  { unfold modem_buffer_SIZE in *. rewrite swrap_small by lia. lia. }
  reflexivity.
Qed.

Lemma ip_line self q ip mask slot number more rest tag lineStart w :
  holds self q -> is_byte mask -> ~ In 44 slot -> ~ In NL slot -> ~ In QUOTE number -> ~ In NL number -> ~ In NL more -> (length number < 256)%nat ->
  let message := sms_header slot number more 2 ++ NL :: str "00690070" ++ [NL] in
  skipn (Z.to_nat lineStart) (firstn (Z.to_nat (receivedSize self)) (buffer self)) = message ++ rest ->
  lineStart + Z.of_nat (length (message ++ rest)) = receivedSize self -> 0 <= lineStart -> receivedSize self <= modem_buffer_SIZE ->
  answers_line (OutFail lineStart) (NextLine (lineStart + Z.of_nat (length message)))
    (modem_line self ip mask tag lineStart w)
    (q_append (fd self) (timerFd self) [StartSms number; SendSms (ucs2 (dotted (le_split 4 ip) mask))] q w).
Proof.
  intros Hh Hmask Hs1 Hs2 Hn1 Hn2 Hm Hlen message Hline Hrecv H0 Hsize. unfold message in *. rewrite <- app_assoc in Hline, Hrecv. cbn [app] in Hline, Hrecv. rewrite <- app_assoc in Hline, Hrecv. cbn [app] in Hline, Hrecv.
  rewrite (sms_line self ip mask slot number more 2 _ tag lineStart w ltac:(lia) Hs1 Hs2 Hn1 Hn2 Hm Hlen Hline Hrecv H0 Hsize).
  set (body := str "00690070" ++ NL :: rest). assert (9 <= length body)%nat as Hbl by (unfold body; cbn; lia).
  destruct (Z.ltb_spec (Z.quot (Z.of_nat (length body) - 1) 4) 2) as [Hq|Hq]; [exfalso; rewrite Z.quot_div_nonneg in Hq by lia; assert (2 <= (Z.of_nat (length body) - 1) / 4) by (apply Z.div_le_lower_bound; lia); lia|].
  assert (mem_compare body (str "00690070") 8 = 0) as -> by (unfold body; now apply mem_compare_same). change (negb (2 =? 2) || negb (0 =? 0)) with false. cbv zeta iota.
  rewrite print_ip_spec by exact Hmask. set (text := dotted (le_split 4 ip) mask). pose proof (length_dotted (le_split 4 ip) mask) as Ht. fold text in Ht.
  rewrite (wrap_small 16) by lia. replace (4 * Z.of_nat (length text)) with (Z.of_nat (length (ucs2_hex text))) by (rewrite length_ucs2; lia).
  replace (lineStart + Z.of_nat (length (sms_header slot number more 2)) + 4 * 2 + 2) with (lineStart + Z.of_nat (length (sms_header slot number more 2 ++ NL :: str "00690070" ++ [NL]))) by (rewrite length_app; cbn; lia).
  rewrite <- (ucs2_hex_spec text) by (apply dotted_bytes; [apply bytes_le_split|exact Hmask]).
  apply (simulates_line self). rewrite <- (app_nil_r (ucs2_hex text)) at 1. apply sms_simulates; [exact Hh|exact Hlen|].
  cbn [fits]. rewrite length_ucs2. lia.
Qed.

(** C36: The message "ip" is answered: for a complete listing of an unread message of two
    characters that spells "ip" in UCS2 hexadecimal, the handler queues, and as far as
    possible sends, a message to the number it came from with the leased address and
    prefix length in dotted decimal, and goes on after the message; when that does not
    fit or cannot be written the connection is given up. *)
Theorem modem_ip_answer self q ip mask slot number more rest tag lineStart w :
  holds self q -> is_byte mask -> ~ In 44 slot -> ~ In NL slot -> ~ In QUOTE number -> ~ In NL number -> ~ In NL more -> (length number < 256)%nat ->
  let message := sms_header slot number more 2 ++ NL :: str "00690070" ++ [NL] in
  skipn (Z.to_nat lineStart) (firstn (Z.to_nat (receivedSize self)) (buffer self)) = message ++ rest ->
  lineStart + Z.of_nat (length (message ++ rest)) = receivedSize self -> 0 <= lineStart -> receivedSize self <= modem_buffer_SIZE ->
  answers_line (OutFail lineStart) (NextLine (lineStart + Z.of_nat (length message)))
    (modem_line self ip mask tag lineStart w)
    (q_append (fd self) (timerFd self) [StartSms number; SendSms (ucs2 (dotted (le_split 4 ip) mask))] q w).
Proof. intros. now apply ip_line with (more := more) (rest := rest) (slot := slot). Qed.

(** ** Where the handler goes wrong *)

(** Any call, when it does not matter what it returns. *)
Lemma syscall_any c w : exists r w' es, syscall c w = (Done r, w') /\ adds w w' es /\ (failing w -> failing w').
Proof using.
  destruct (syscall_spec c w) as (r & w' & E & Hw). exists r, w', [(c, Answer r [])]. split; [exact E|]. split; [exact Hw|].
  intros F. destruct (syscall_failing c w F) as (r2 & w2 & E2 & _ & F2). rewrite E in E2. injection E2 as _ <-. exact F2.
Qed.

Lemma disconnect_done self w : exists w' es, modemClient_disconnect self w = (Done (if 0 <? fd self then with_fd self (-1) else self), w') /\ adds w w' es /\ (failing w -> failing w').
Proof using.
  unfold modemClient_disconnect. destruct (0 <? fd self); [|exists w, []; split; [reflexivity|]; split; [apply adds_nil|auto]].
  unfold sys_write, sys_close. destruct (syscall_any (Sys_write (fd self) [27]) w) as (r1 & w1 & es1 & E1 & A1 & F1). rewrite (bind_done _ _ _ _ _ E1).
  unfold debug_printNum. destruct (util_intToStr _ 22 (modemClient_pendingCmdTag self)) as [print pos].
  destruct (writeAll_done util_STDERR (str "AT disconnect") w1) as (r2 & w2 & es2 & E2 & A2 & F2).
  destruct (writeAll_done util_STDERR (skipn (pos - 2) (mem_copy print (pos - 2) [32; 40])) w2) as (r3 & w3 & es3 & E3 & A3 & F3).
  destruct (syscall_any (Sys_close (fd self)) w3) as (r4 & w4 & es4 & E4 & A4 & F4).
  exists w4, (es1 ++ es2 ++ es3 ++ es4). split; [|split; [|auto]].
  - unfold bind. rewrite E2, E3. cbn [pure]. unfold pure. now rewrite E4.
  - exact (adds_app _ _ _ _ _ A1 (adds_app _ _ _ _ _ A2 (adds_app _ _ _ _ _ A3 A4))).
Qed.

(** A command that cannot be written stays queued. *)
Lemma q_process_failing modem timer c cs w : failing w -> exists w', q_process modem timer (Queue (c :: cs) false) w = (Done (Queue (c :: cs) false, -1), w') /\ failing w'.
Proof using.
  intros F. unfold q_process. cbn [commands awaiting].
  assert (exists r w', send modem c w = (Done r, w') /\ r < 0 /\ failing w') as (r & w' & E & Hr & F').
  { unfold send, sys_write. destruct (wire c) as [|t [|? ?]]; now apply syscall_failing. }
  exists w'. rewrite (bind_done _ _ _ _ _ E). destruct (Z.eqb_spec r (Z.of_nat (length (List.concat (wire c))))); [lia|]. split; [reflexivity|exact F'].
Qed.

Lemma process_failing self c cs w : holds self (Queue (c :: cs) false) -> failing w ->
  exists self' w', modemClient_processQueue self w = (Done (self', -1), w') /\ holds self' (Queue (c :: cs) false) /\ fd self' = fd self /\ failing w'.
Proof.
  intros Hh F. pose proof (process_simulates self self _ w Hh (same_refl self)) as Hs. destruct (q_process_failing (fd self) (timerFd self) c cs w F) as (w' & E & F').
  rewrite E in Hs. destruct Hs as [E1 E2]. destruct (modemClient_processQueue self w) as [[[self' r]| | |] w2]; cbn [fst snd] in *; try contradiction.
  destruct E2 as (-> & Hq & _ & Hfd & _). subst. eauto 10.
Qed.

(** [out] and [out_fail] forever. *)
Lemma modem_out_hangs fuel : forall self c cs w, holds self (Queue (c :: cs) false) -> fd self <= 0 -> failing w -> fst (modem_out fuel self w) = Unfinished.
Proof.
  induction fuel as [|fuel IH]; intros self c cs w Hh Hfd F; [reflexivity|]. cbn [modem_out].
  destruct (process_failing self c cs w Hh F) as (self' & w1 & E & Hq & Hfd1 & F1). rewrite (bind_done _ _ _ _ _ E). cbv beta iota. change (-1 <? 0) with true. cbv iota.
  destruct (disconnect_done self' w1) as (w2 & es & E2 & _ & F2). rewrite (bind_done _ _ _ _ _ E2). destruct (Z.ltb_spec 0 (fd self')); [lia|].
  apply (IH self' c cs); [exact Hq|lia|auto].
Qed.

(** What a read of [data] into an empty buffer leaves. *)
Definition received (self : modemClient) (data : list Z) : modemClient :=
  with_received self (Z.of_nat (length data)) (mem_copy (buffer self) 0 data).

Lemma onFd_read fuel self ip mask data a w : receivedSize self = 0 -> answers w = Answer 0 data :: a -> bytes data -> (0 < length data <= 4096)%nat ->
  exists w', answers w' = a /\ modemClient_onFd fuel self ip mask w =
  bind (modem_lines (S (S (length data))) (received self data) ip mask (modemClient_pendingCmdTag self) 0) (fun '(self, e) =>
    match e with
    | OutFail lineStart => let! self := modemClient_disconnect self in let! self := modem_out fuel self in modem_keep self lineStart
    | Out lineStart | NextLine lineStart => let! self := modem_out fuel self in modem_keep self lineStart
    end) w'.
Proof using.
  intros Hr Ha Hb Hn. destruct w as [as_ t]. cbn [answers] in Ha. subst as_. unfold modemClient_onFd. rewrite Hr.
  assert (sys_read (fd self) (modem_buffer_SIZE - 0) (World (Answer 0 data :: a) t) =
          (Done (Z.of_nat (length data), data), World a (t ++ [(Sys_read (fd self) (modem_buffer_SIZE - 0), Answer (Z.of_nat (length data)) data)]))) as E.
  { unfold sys_read, syscall_in, kernel, bind, pure. cbn [answers trace]. unfold filled. cbn [ret]. change (0 <? 0) with false. cbv iota.
    change (Z.to_nat (modem_buffer_SIZE - 0)) with 4096%nat.
    assert (stored 4096 (Answer 0 data) = data) as ->; [|reflexivity]. unfold stored. cbn [out]. rewrite firstn_all2 by lia. now apply map_u8_bytes. }
  exists (World a (t ++ [(Sys_read (fd self) (modem_buffer_SIZE - 0), Answer (Z.of_nat (length data)) data)])). split; [reflexivity|].
  rewrite (bind_done _ _ _ _ _ E). cbv beta iota. destruct (Z.leb_spec (Z.of_nat (length data)) 0); [lia|].
  cbn [receivedSize with_received]. rewrite Z.add_0_l, Nat2Z.id. reflexivity.
Qed.

(** The line that starts the buffer. *)
Lemma first_line self data : (length data <= length (buffer self))%nat ->
  skipn (Z.to_nat 0) (firstn (Z.to_nat (receivedSize (received self data))) (buffer (received self data))) = data.
Proof using.
  intros Hn. unfold received. cbn [receivedSize buffer with_received]. rewrite Nat2Z.id, mem_copy_eq by lia. cbn [firstn app Z.to_nat skipn].
  apply firstn_exact. reflexivity.
Qed.

Lemma received_holds self q data : holds self q -> holds (received self data) q.
Proof. unfold holds, received. now cbn [with_received commandQueue commandQueueSize pendingCommand]. Qed.

Lemma pendingTag self c cs : holds self (Queue (c :: cs) true) -> modemClient_pendingCmdTag self = get (enc c) 0.
Proof.
  intros (_ & _ & (rest & Hq) & _ & Hp & _). cbn [awaiting commands] in *. unfold modemClient_pendingCmdTag. rewrite Hp, Hq.
  cbn [enc_all flat_map]. pose proof (enc_pos c). unfold get. now rewrite !app_nth1 by (rewrite ?length_app; lia).
Qed.

Definition OK_line : list Z := str "OK" ++ [NL].

Lemma modem_lines_next fuel self ip mask tag l w self' l' w' : modem_line self ip mask tag l w = (Done (self', NextLine l'), w') ->
  modem_lines (S fuel) self ip mask tag l w = modem_lines fuel self' ip mask tag l' w'.
Proof using. intros E. cbn [modem_lines]. now rewrite (bind_done _ _ _ _ _ E). Qed.

Lemma modem_lines_end fuel self ip mask tag l w self' e w' : modem_line self ip mask tag l w = (Done (self', e), w') -> (forall l', e <> NextLine l') ->
  modem_lines (S fuel) self ip mask tag l w = (Done (self', e), w').
Proof using. intros E He. cbn [modem_lines]. rewrite (bind_done _ _ _ _ _ E). destruct e; [now destruct (He lineStart)|reflexivity|reflexivity]. Qed.

Lemma modem_lines_undefined fuel self ip mask tag l w w' : modem_line self ip mask tag l w = (Undefined, w') -> fst (modem_lines (S fuel) self ip mask tag l w) = Undefined.
Proof using. intros E. cbn [modem_lines]. unfold bind. now rewrite E. Qed.

Lemma bind_undefined {A B} (m : M A) (f : A -> M B) w : fst (m w) = Undefined -> fst (bind m f w) = Undefined.
Proof using. unfold bind. destruct (m w) as [[| | |] ?]; cbn; congruence. Qed.

(** An OK acknowledges a command that is not the start of a message. *)
Lemma ok_line self ip mask lineStart tag rest w :
  skipn (Z.to_nat lineStart) (firstn (Z.to_nat (receivedSize self)) (buffer self)) = OK_line ++ rest -> tag <> modemClient_NO_CMD -> tag <> modemClient_START_SMS ->
  modem_line self ip mask tag lineStart w = bind (modemClient_ackPending self) (fun '(self, r) => pure (self, if r <? 0 then OutFail lineStart else NextLine (lineStart + 3))) w.
Proof using.
  intros Hl H0 H2. unfold modem_line. rewrite Hl. cbn. destruct (Z.eqb_spec tag modemClient_NO_CMD); [contradiction|]. destruct (Z.eqb_spec tag modemClient_START_SMS); [contradiction|]. reflexivity.
Qed.

Lemma ack_tag c : (forall number, c <> StartSms number) -> get (enc c) 0 <> modemClient_NO_CMD /\ get (enc c) 0 <> modemClient_START_SMS.
Proof. intros Hc. destruct c; cbn; unfold modemClient_NO_CMD, modemClient_CONSTANT, modemClient_START_SMS, modemClient_SEND_SMS; split; try discriminate; intros _; now apply (Hc number). Qed.

(** The handler can spin: when the modem acknowledges a command while another one is
    queued, and that one cannot be written because the device is going away (every later
    call fails), the connection is closed with the command still queued, and [out] and
    [out_fail] alternate for good, writing to descriptor -1.  No fuel is enough, so the
    router's event loop never runs again. *)
Theorem modem_onFd_hangs fuel self c c2 cs ip mask a w :
  holds self (Queue (c :: c2 :: cs) true) -> (forall number, c <> StartSms number) -> receivedSize self = 0 -> length (buffer self) = 4096%nat ->
  answers w = Answer 0 OK_line :: a -> Forall (fun x => ret x < 0) a ->
  fst (modemClient_onFd fuel self ip mask w) = Unfinished.
Proof.
  intros Hh Hc Hr Hb Ha Hf. destruct (onFd_read fuel self ip mask OK_line a w Hr Ha ltac:(repeat constructor; unfold is_byte, NL; lia) ltac:(cbn; lia)) as (w' & Hw & ->).
  destruct (ack_tag c Hc) as [T0 T2]. rewrite <- (pendingTag self c (c2 :: cs) Hh) in T0, T2.
  assert (failing w') as F by (unfold failing; now rewrite Hw).
  pose proof (received_holds self _ OK_line Hh) as Hh2.
  pose proof (first_line self OK_line ltac:(rewrite Hb; cbn; lia)) as Hl. set (self2 := received self OK_line) in *. clearbody self2.
  pose proof (ack_simulates self2 _ w' Hh2) as Hs. unfold q_ack in Hs. cbn [commands awaiting] in Hs.
  destruct (q_process_failing (fd self2) (timerFd self2) c2 cs w' F) as (w2 & E & F2). rewrite E in Hs. destruct Hs as [E1 E2].
  pose proof (ok_line self2 ip mask 0 _ [] w' Hl T0 T2) as Eline. unfold bind in Eline.
  destruct (modemClient_ackPending self2 w') as [[[self3 r]| | |] w3]; cbn [fst snd] in *; try contradiction. destruct E2 as (-> & Hq & _). subst w3.
  rewrite (bind_done _ _ _ _ _ (modem_lines_end _ _ _ _ _ _ _ _ _ _ Eline ltac:(discriminate))). cbv beta iota.
  destruct (disconnect_done self3 w2) as (w4 & es & E4 & _ & F4). rewrite (bind_done _ _ _ _ _ E4).
  set (self4 := if 0 <? fd self3 then with_fd self3 (-1) else self3).
  assert (holds self4 (Queue (c2 :: cs) false)) as Hq4 by (unfold self4; destruct (0 <? fd self3); exact Hq).
  assert (fd self4 <= 0) as Hfd4 by (unfold self4; destruct (Z.ltb_spec 0 (fd self3)); [cbn; lia|lia]).
  pose proof (modem_out_hangs fuel self4 c2 cs w4 Hq4 Hfd4 (F4 F2)) as Hx. unfold bind. now destruct (modem_out fuel self4 w4) as [[?| | |] ?].
Qed.

(** Two reads from the modem lead to undefined behaviour: the header of an empty
    message that ends the received bytes puts the next line one byte past them, so the
    size of the rest that is moved to the front is -1 (as [uint64_t], all of memory); and
    a second OK in the same read as the one that ends the last command is taken for
    another acknowledgement, because the tag of the command in flight was read before the
    lines were. *)
Theorem modem_onFd_undefined fuel self c ip mask a w : (0 < fuel)%nat ->
  holds self (Queue [c] true) -> receivedSize self = 0 -> length (buffer self) = 4096%nat ->
  (forall slot number more, ~ In 44 slot -> ~ In NL slot -> ~ In QUOTE number -> ~ In NL number -> ~ In NL more -> (length number < 256)%nat ->
     bytes (slot ++ number ++ more) -> (length (slot ++ number ++ more) <= 4000)%nat ->
     answers w = Answer 0 (sms_header slot number more 0 ++ [NL]) :: a -> fst (modemClient_onFd fuel self ip mask w) = Undefined) /\
  ((forall number, c <> StartSms number) -> answers w = Answer 0 (OK_line ++ OK_line) :: a -> fst (modemClient_onFd fuel self ip mask w) = Undefined).
Proof.
  intros Hf Hh Hr Hb. split.
  - intros slot number more Hs1 Hs2 Hn1 Hn2 Hm Hlen Hbytes Hl Ha. apply Forall_app in Hbytes as [B1 Hbytes]. apply Forall_app in Hbytes as [B2 B3]. rewrite !length_app in Hl.
    pose proof (length_header_sms slot number more 0) as Hhl.
    assert (bytes (sms_header slot number more 0 ++ [NL])) as HB.
    { unfold sms_header, bytes. rewrite !Forall_app. repeat split; try assumption; repeat constructor; unfold is_byte, NL, QUOTE; lia. }
    destruct (onFd_read fuel self ip mask _ a w Hr Ha HB ltac:(rewrite length_app; cbn [List.length]; lia)) as (w' & Hw & ->).
    set (data := sms_header slot number more 0 ++ [NL]) in *. assert (length data = S (length (sms_header slot number more 0))) as Hdl by (unfold data; rewrite length_app; cbn [List.length]; lia).
    pose proof (received_holds self _ data Hh) as Hh2. pose proof (first_line self data ltac:(lia)) as Hline.
    assert (receivedSize (received self data) = Z.of_nat (length data)) as Hrs by reflexivity.
    set (self2 := received self data) in *. clearbody self2.
    pose proof (sms_line self2 ip mask slot number more 0 [] (modemClient_pendingCmdTag self) 0 w' ltac:(lia) Hs1 Hs2 Hn1 Hn2 Hm Hlen Hline ltac:(fold data; lia) ltac:(lia) ltac:(unfold modem_buffer_SIZE; lia)) as Eline.
    change (Z.quot (Z.of_nat (length (@nil Z)) - 1) 4 <? 0) with false in Eline. cbv iota zeta in Eline. change (negb (0 =? 2)) with true in Eline. cbn [orb] in Eline. unfold pure in Eline.
    assert (0 + Z.of_nat (length (sms_header slot number more 0)) + 4 * 0 + 2 = Z.of_nat (length data) + 1) as En by lia. rewrite En in Eline.
    assert (forall tag, modem_line self2 ip mask tag (Z.of_nat (length data) + 1) w' = (Done (self2, Out (Z.of_nat (length data) + 1)), w')) as Eend.
    { intros tag. unfold modem_line. rewrite Hrs, skipn_all2 by (rewrite length_firstn; lia). reflexivity. }
    assert (forall n tag, modem_lines (S (S n)) self2 ip mask tag (Z.of_nat (length data) + 1) w' = (Done (self2, Out (Z.of_nat (length data) + 1)), w')) as Eends.
    { intros n tag. apply modem_lines_end; [apply Eend|discriminate]. }
    assert (exists n, length data = S n) as [n Edl] by (exists (length (sms_header slot number more 0)); exact Hdl).
    assert (modem_lines (S (S (length data))) self2 ip mask (modemClient_pendingCmdTag self) 0 w' = (Done (self2, Out (Z.of_nat (length data) + 1)), w')) as Elines.
    { rewrite (modem_lines_next _ _ _ _ _ _ _ _ _ _ Eline). rewrite Edl at 1. apply Eends. }
    rewrite (bind_done _ _ _ _ _ Elines). cbv beta iota.
    destruct fuel as [|fuel]; [lia|]. cbn [modem_out]. unfold bind. destruct Hh2 as (_ & _ & _ & _ & Hp & _). unfold modemClient_processQueue. rewrite Hp. cbn [awaiting orb]. unfold pure. change (0 <? 0) with false. cbv iota.
    unfold modem_keep. rewrite Hrs. destruct (Z.ltb_spec (Z.of_nat (length data) - (Z.of_nat (length data) + 1)) 0); [reflexivity|lia].
  - intros Hc Ha. destruct (onFd_read fuel self ip mask _ a w Hr Ha ltac:(repeat constructor; unfold is_byte, NL; lia) ltac:(cbn; lia)) as (w' & Hw & ->).
    destruct (ack_tag c Hc) as [T0 T2]. rewrite <- (pendingTag self c [] Hh) in T0, T2.
    pose proof (received_holds self _ (OK_line ++ OK_line) Hh) as Hh2. pose proof (first_line self (OK_line ++ OK_line) ltac:(rewrite Hb; cbn; lia)) as Hl.
    assert (receivedSize (received self (OK_line ++ OK_line)) = 6) as Hrs by reflexivity.
    set (self2 := received self (OK_line ++ OK_line)) in *. clearbody self2.
    pose proof (ack_simulates self2 _ w' Hh2) as Hs. destruct Hs as [E1 E2]. cbn in E1, E2.
    pose proof (ok_line self2 ip mask 0 _ OK_line w' Hl T0 T2) as Eline. unfold bind in Eline.
    destruct (modemClient_ackPending self2 w') as [[[self3 r]| | |] w3]; cbn [fst snd] in *; try contradiction. destruct E2 as (-> & Hq & _ & _ & _ & Hr3 & Hb3). subst w3.
    assert (skipn (Z.to_nat 3) (firstn (Z.to_nat (receivedSize self3)) (buffer self3)) = OK_line ++ []) as Hl3.
    { rewrite Hr3, Hb3. change (skipn (Z.to_nat 3) ?l) with (skipn 3 l). change (Z.to_nat 0) with 0%nat in Hl. cbn [skipn] in Hl. now rewrite Hl. }
    assert (modemClient_ackPending self3 w' = (Undefined, w')) as Eack by (unfold modemClient_ackPending; destruct Hq as (_ & _ & _ & _ & -> & _); reflexivity).
    pose proof (ok_line self3 ip mask 3 _ [] w' Hl3 T0 T2) as Eline3. unfold bind in Eline3. rewrite Eack in Eline3.
    apply bind_undefined. rewrite (modem_lines_next _ _ _ _ _ _ _ _ _ _ Eline). exact (modem_lines_undefined _ _ _ _ _ _ _ _ Eline3).
Qed.
End Answer.

(** ** Instances of the theorems *)

Definition example_linkage : Linkage.
Proof. refine {| init_address := 4096; poll_address := 8192 |}; [split; split; reflexivity || discriminate|discriminate]. Defined.

#[local] Existing Instance example_linkage.

(** A client that waits for the modem to acknowledge the first of [cs]. *)
Definition waiting (cs : list command) (data : list Z) : modemClient :=
  ModemClient (str "/dev/ttyUSB2") 7 5 (Z.of_nat (length data)) (Z.of_nat (length (enc_all cs))) (mem_copy (repeat 0 4096) 0 data) (mem_copy (repeat 0 4103) 0 (enc_all cs)) true.

Lemma waiting_holds cs data : cs <> [] -> Forall fits cs -> (length (enc_all cs) <= 4103)%nat -> holds (waiting cs data) (Queue cs true).
Proof.
  intros Hne Hf Hl. unfold holds, waiting. cbn [commandQueue commandQueueSize pendingCommand commands awaiting].
  rewrite length_mem_copy by (rewrite repeat_length; lia). rewrite repeat_length. rewrite mem_copy_eq by (rewrite repeat_length; lia). cbn [firstn app]. repeat split; eauto.
Qed.

Lemma modem_queue_refinement_witness :
  let self := waiting [Init; Poll] [] in
  holds self (Queue [Init; Poll] true) /\
  simulates self (modemClient_ackPending self (World [Answer 37 []; Answer 0 []] [])) (q_ack 7 5 (Queue [Init; Poll] true) (World [Answer 37 []; Answer 0 []] [])).
Proof.
  pose proof (waiting_holds [Init; Poll] [] ltac:(discriminate) ltac:(repeat constructor) ltac:(cbn; lia)) as Hh. cbv zeta. split; [exact Hh|].
  destruct (modem_queue_refinement _ _ Hh) as (_ & _ & _ & _ & Hack). apply Hack.
Defined.

Definition example_message : list Z := sms_header (str "1") (str "+46123") [QUOTE; 44] 2 ++ NL :: str "00690070" ++ [NL].

Lemma modem_ip_answer_witness :
  let self := waiting [Poll] example_message in
  holds self (Queue [Poll] true) /\
  answers_line (OutFail 0) (NextLine (0 + Z.of_nat (length example_message)))
    (modem_line self (le_combine [10; 123; 0; 5]) 24 modemClient_CONSTANT 0 (World [] []))
    (q_append 7 5 [StartSms (str "+46123"); SendSms (ucs2 (str "10.123.0.5/24"))] (Queue [Poll] true) (World [] [])).
Proof.
  pose proof (waiting_holds [Poll] example_message ltac:(discriminate) ltac:(repeat constructor) ltac:(cbn; lia)) as Hh. cbv zeta. split; [exact Hh|].
  change (str "10.123.0.5/24") with (dotted (le_split 4 (le_combine [10; 123; 0; 5])) 24).
  refine (modem_ip_answer (waiting [Poll] example_message) (Queue [Poll] true) (le_combine [10; 123; 0; 5]) 24 (str "1") (str "+46123") [QUOTE; 44] [] modemClient_CONSTANT 0 (World [] []) Hh _ _ _ _ _ _ _ _ _ _ _);
    try (cbn; unfold QUOTE, NL; intuition discriminate); try (vm_compute; reflexivity); try (vm_compute; discriminate); try (cbn; lia); vm_compute; split; (reflexivity || discriminate).
Defined.

Lemma modem_onFd_hangs_witness :
  let self := waiting [Init; Poll] [] in
  holds self (Queue [Init; Poll] true) /\
  forall fuel, fst (modemClient_onFd fuel self 0 0 (World [Answer 0 OK_line; Answer (- EIO) []] [])) = Unfinished.
Proof.
  pose proof (waiting_holds [Init; Poll] [] ltac:(discriminate) ltac:(repeat constructor) ltac:(cbn; lia)) as Hh. cbv zeta. split; [exact Hh|].
  intros fuel. apply (modem_onFd_hangs fuel _ Init Poll [] 0 0 [Answer (- EIO) []]); [exact Hh|discriminate|reflexivity|reflexivity|reflexivity|repeat constructor].
Defined.

Lemma modem_onFd_undefined_witness :
  let self := waiting [Poll] [] in
  let header := sms_header (str "1") (str "+46123") [QUOTE; 44] 0 ++ [NL] in
  holds self (Queue [Poll] true) /\
  fst (modemClient_onFd 1 self 0 0 (World [Answer 0 header] [])) = Undefined /\
  fst (modemClient_onFd 1 self 0 0 (World [Answer 0 (OK_line ++ OK_line)] [])) = Undefined.
Proof.
  pose proof (waiting_holds [Poll] [] ltac:(discriminate) ltac:(repeat constructor) ltac:(cbn; lia)) as Hh. cbv zeta. split; [exact Hh|]. split.
  - destruct (modem_onFd_undefined 1 _ Poll 0 0 [] (World [Answer 0 (sms_header (str "1") (str "+46123") [QUOTE; 44] 0 ++ [NL])] []) ltac:(lia) Hh eq_refl eq_refl) as [Hu _].
    apply (Hu (str "1") (str "+46123") [QUOTE; 44]); try (cbn; unfold QUOTE, NL; intuition discriminate); try reflexivity; try (cbn; lia).
    repeat constructor; unfold is_byte, QUOTE; lia.
  - destruct (modem_onFd_undefined 1 _ Poll 0 0 [] (World [Answer 0 (OK_line ++ OK_line)] []) ltac:(lia) Hh eq_refl eq_refl) as [_ Hu].
    apply Hu; [discriminate|reflexivity].
Defined.
