(* ===== verification/Netlink.v ===== *)
(** * Netlink ([src/router/router/netlink], [acpi.c])

    Requests to the kernel's routing and generic netlink families and the walk over the
    answers.  All of the router shares one static buffer; a function that receives returns
    what the buffer holds then.  The reference describes messages and attributes by their
    contents and computes every length from them. *)
From Stdlib Require Import ZArith List Lia Bool String.
From S2P Require Import Prelude Mem Alloc RouterSys.
Import ListNotations.

Definition NLMSG_ERROR : Z := 2.
Definition NLMSG_DONE : Z := 3.
Definition NLM_F_REQUEST : Z := 0x1.
Definition NLM_F_MULTI : Z := 0x2.
Definition NLM_F_ACK : Z := 0x4.
Definition NLM_F_REPLACE : Z := 0x100.
Definition NLM_F_DUMP : Z := 0x300.
Definition NLM_F_CREATE : Z := 0x400.
Definition NLA_F_NESTED : Z := 0x8000.
Definition AF_NETLINK : Z := 16.
Definition SOCK_RAW : Z := 3.
Definition NETLINK_ROUTE : Z := 0.
Definition NETLINK_GENERIC : Z := 16.
Definition GENL_ID_CTRL : Z := 0x10.
Definition CTRL_CMD_GETFAMILY : Z := 3.
Definition CTRL_ATTR_FAMILY_ID : Z := 1.
Definition CTRL_ATTR_FAMILY_NAME : Z := 2.
Definition CTRL_ATTR_MCAST_GROUPS : Z := 7.
Definition CTRL_ATTR_MCAST_GRP_NAME : Z := 1.
Definition CTRL_ATTR_MCAST_GRP_ID : Z := 2.

(** [struct nlmsghdr], [struct genlmsghdr], [struct nlattr] and [struct sockaddr_nl]. *)
Definition nlmsghdr_SIZE : Z := 16.
Definition nlmsghdr (len type flags seq : Z) : list Z := le_split 4 len ++ le_split 2 type ++ le_split 2 flags ++ le_split 4 seq ++ le_split 4 0.
Definition genlmsghdr_SIZE : Z := 4.
Definition genlmsghdr (cmd version : Z) : list Z := le_split 1 cmd ++ le_split 1 version ++ le_split 2 0.
Definition nlattr_SIZE : Z := 4.
Definition nlattr (len type : Z) : list Z := le_split 2 len ++ le_split 2 type.
Definition sockaddr_nl (groups : Z) : list Z := le_split 2 AF_NETLINK ++ le_split 2 0 ++ le_split 4 0 ++ le_split 4 groups.

(** ** The code *)

(** The walk over the messages received up to [end_]; the inner loop of
    [netlink_receive], which never goes on to the code after it.  A message of length 0
    is walked over forever; otherwise the header leaves the buffer within [fuel] steps. *)
Fixpoint receive_loop (fuel : nat) (buffer : list Z) (respHdr end_ : Z) : M unit :=
  match fuel with
  | O => unfinished
  | S fuel' =>
      let! type := load 2 buffer (respHdr + 4) in
      if (type =? NLMSG_ERROR) || (type =? NLMSG_DONE) then
        let! error := load 4 buffer (respHdr + nlmsghdr_SIZE) in
        CHECK (i32 error =? 0)
      else
        let! len := load 4 buffer respHdr in
        let next := respHdr + u32 (math_ALIGN_FORWARD len 4) in
        if next =? end_ then pure tt else receive_loop fuel' buffer next end_
  end.

Definition walk_fuel : nat := Z.to_nat buffer_SIZE.

Definition netlink_receive (buffer : list Z) (fd : Z) : M (list Z) :=
  let recvOffset := 0 in
  let remainingBuffer := buffer_SIZE - recvOffset in
  CHECK (8192 <=? remainingBuffer);;
  let! (received, data) := sys_recvfrom fd remainingBuffer MSG_DONTWAIT in
  CHECK (nlmsghdr_SIZE <? received);;
  let buffer := mem_copy buffer (Z.to_nat recvOffset) data in
  receive_loop walk_fuel buffer recvOffset (recvOffset + received);;
  pure buffer.

(** [request] is the array of buffers; the first starts with the header. *)
Definition netlink_talk (buffer : list Z) (fd : Z) (request : list (list Z)) : M (list Z) :=
  let nlmsg_len := le_combine (firstn 4 (nth 0 request [])) in
  let! sent := syscall (Sys_sendmsg fd (sockaddr_nl 0) request (Z.lor MSG_NOSIGNAL MSG_DONTWAIT)) in
  CHECK (sent =? nlmsg_len);;
  netlink_receive buffer fd.

(** The offset of the first attribute of type [attrType]. *)
Fixpoint findAttr_loop (fuel : nat) (buffer : list Z) (start end_ attrType : Z) : M Z :=
  match fuel with
  | O => unfinished
  | S fuel' =>
      let! nla_len := load 2 buffer start in
      let next := start + math_ALIGN_FORWARD nla_len 4 in
      CHECK (next <=? end_);;
      let! nla_type := load 2 buffer (start + 2) in
      if nla_type =? attrType then pure start else findAttr_loop fuel' buffer next end_ attrType
  end.

Definition netlink_findAttr (buffer : list Z) (start end_ attrType : Z) : M Z := findAttr_loop walk_fuel buffer start end_ attrType.

(** [struct genetlink] is its descriptor. *)
Definition genetlink_init : M Z :=
  let! fd := syscall (Sys_socket AF_NETLINK SOCK_RAW NETLINK_GENERIC) in
  CHECK (0 <? fd);;
  pure fd.

Definition genetlink_talk (buffer : list Z) (fd : Z) (request : list (list Z)) : M (list Z) := netlink_talk buffer fd request.

Definition genetlink_findAttr (buffer : list Z) (attrType : Z) : M Z :=
  let start := nlmsghdr_SIZE + genlmsghdr_SIZE in
  let end_ := uint_at 4 buffer 0 in
  netlink_findAttr buffer start end_ attrType.

(** The padding is taken from the start of the request itself. *)
Definition getFamilyRequest (nameLen : Z) : list Z :=
  let nameSize := nameLen + 1 in
  let namePadSize := math_PAD_BYTES nameSize 4 in
  let requestLen := nlmsghdr_SIZE + genlmsghdr_SIZE + nlattr_SIZE + nameSize + namePadSize in
  nlmsghdr (u16 requestLen) GENL_ID_CTRL NLM_F_REQUEST 0 ++ genlmsghdr CTRL_CMD_GETFAMILY 1 ++
  nlattr (u16 (nlattr_SIZE + u16 nameSize)) CTRL_ATTR_FAMILY_NAME.

Definition genetlink_requestFamily (buffer : list Z) (fd : Z) (nameZ : list Z) (nameLen : Z) : M (list Z) :=
  let nameSize := nameLen + 1 in
  let namePadSize := math_PAD_BYTES nameSize 4 in
  let request := getFamilyRequest nameLen in
  genetlink_talk buffer fd [request; firstn (Z.to_nat nameSize) nameZ; firstn (Z.to_nat namePadSize) request].

Definition genetlink_deinit (fd : Z) : M unit := sys_close fd;; pure tt.

(** *** [acpi.c] *)

Definition ACPI_EVENT_FAMILY_NAME : list Z := str "acpi_event".
(** With the terminator, as [sizeof] counts it. *)
Definition ACPI_EVENT_MCAST_GROUP_NAME : list Z := str "acpi_mc_group" ++ [0].

Record acpi := Acpi { netlinkFd : Z; mcastGrpId : Z }.

(** The loop over the groups; [groupNum] is 16 bits wide. *)
Fixpoint acpi_groups (fuel : nat) (buffer : list Z) (groupsAttr groupNum : Z) : M Z :=
  match fuel with
  | O => unfinished
  | S fuel' =>
      let! groupsLen := load 2 buffer groupsAttr in
      let! groupAttr := netlink_findAttr buffer (groupsAttr + nlattr_SIZE) (groupsAttr + groupsLen) groupNum in
      let! groupLen := load 2 buffer groupAttr in
      let! groupNameAttr := netlink_findAttr buffer (groupAttr + nlattr_SIZE) (groupAttr + groupLen) CTRL_ATTR_MCAST_GRP_NAME in
      if mem_compare (skipn (Z.to_nat (groupNameAttr + nlattr_SIZE)) buffer) ACPI_EVENT_MCAST_GROUP_NAME (length ACPI_EVENT_MCAST_GROUP_NAME) =? 0 then
        let! groupIdAttr := netlink_findAttr buffer (groupAttr + nlattr_SIZE) (groupAttr + groupLen) CTRL_ATTR_MCAST_GRP_ID in
        load 2 buffer (groupIdAttr + nlattr_SIZE)
      else acpi_groups fuel' buffer groupsAttr (u16 (groupNum + 1))
  end.

(** Every group has another number, so [2 ^ 16] iterations see all. *)
Definition acpi_init (buffer : list Z) (genetlinkFd : Z) : M (list Z * acpi) :=
  let! buffer := genetlink_requestFamily buffer genetlinkFd (ACPI_EVENT_FAMILY_NAME ++ [0]) (Z.of_nat (length ACPI_EVENT_FAMILY_NAME)) in
  let! groupsAttr := genetlink_findAttr buffer CTRL_ATTR_MCAST_GROUPS in
  let! grpId := acpi_groups (Z.to_nat (2 ^ 16)) buffer groupsAttr 1 in
  let! fd := syscall (Sys_socket AF_NETLINK SOCK_RAW NETLINK_GENERIC) in
  CHECK (0 <? fd);;
  (if (1 <=? grpId) && (grpId <=? 32) then pure tt else undefined);;
  let! r := syscall (Sys_bind fd (sockaddr_nl (1 << (grpId - 1)))) in
  CHECK (r =? 0);;
  pure (buffer, Acpi fd grpId).

Definition acpi_deinit (self : acpi) : M unit := sys_close (netlinkFd self);; pure tt.

(** ** Reference: messages by their contents *)
Module Nl.

(** The bytes up to the next multiple of four. *)
Definition pad (n : nat) : nat := ((4 - n mod 4) mod 4)%nat.

Inductive attr :=
| Attr (type : Z) (payload : list Z)
| Nested (type : Z) (attrs : list attr).

Definition wire_attr (type : Z) (payload padding : list Z) : list Z :=
  le_split 2 (4 + Z.of_nat (length payload)) ++ le_split 2 type ++ payload ++ padding.

Fixpoint encode (a : attr) : list Z :=
  match a with
  | Attr t p => wire_attr t p (repeat 0 (pad (length p)))
  | Nested t l => wire_attr (2 ^ 15 + t) (flat_map encode l) []
  end.

(** An answer's messages and attributes as received; the padding can hold anything. *)
Record msg := Msg { type : Z; flags : Z; seq : Z; payload : list Z; padding : list Z }.
Definition padded (p padding : list Z) : Prop := length padding = pad (length p).

Definition message (type flags seq : Z) (payload : list Z) : list Z :=
  le_split 4 (16 + Z.of_nat (length payload)) ++ le_split 2 type ++ le_split 2 flags ++ le_split 4 seq ++ repeat 0 4 ++ payload.

Definition encode_msg (m : msg) : list Z := message (type m) (flags m) (seq m) (payload m) ++ padding m.
Definition msg_ok (m : msg) : Prop :=
  0 <= type m < 2 ^ 16 /\ bytes (payload m) /\ padded (payload m) (padding m) /\ Z.of_nat (length (payload m)) < 2 ^ 31 /\
  (type m = NLMSG_ERROR \/ type m = NLMSG_DONE -> (4 <= length (payload m))%nat).

(** What the messages say: an error or the end decides, and its number. *)
Fixpoint verdict (ms : list msg) : bool :=
  match ms with
  | [] => true
  | m :: ms =>
      if (type m =? NLMSG_ERROR) || (type m =? NLMSG_DONE) then i32 (le_combine (firstn 4 (payload m))) =? 0
      else verdict ms
  end.

Record rattr := RAttr { rtype : Z; rpayload : list Z; rpadding : list Z }.
Definition encode_rattr (a : rattr) : list Z := wire_attr (rtype a) (rpayload a) (rpadding a).
Definition rattr_ok (a : rattr) : Prop :=
  0 <= rtype a < 2 ^ 16 /\ padded (rpayload a) (rpadding a) /\ Z.of_nat (length (rpayload a)) < 2 ^ 16 - 8.

(** The offset of the first attribute of a type. *)
Fixpoint find (attrs : list rattr) (t : Z) : option Z :=
  match attrs with
  | [] => None
  | a :: attrs =>
      if rtype a =? t then Some 0
      else match find attrs t with Some i => Some (Z.of_nat (length (encode_rattr a)) + i) | None => None end
  end.

End Nl.

(** ** The walks *)

Lemma pad_align n : math_ALIGN_FORWARD (Z.of_nat n) 4 = Z.of_nat (n + Nl.pad n).
Proof.
  change 4 with (2 ^ 2) at 1. rewrite (align_forward_div 2) by lia. change ((Z.of_nat n + (2 ^ 2 - 1)) / 2 ^ 2 * 2 ^ 2) with ((Z.of_nat n + (4 - 1)) / 4 * 4). unfold Nl.pad. rewrite Nat2Z.inj_add.
  rewrite !Nat2Z.inj_mod, Nat2Z.inj_sub by (pose proof (Nat.mod_upper_bound n 4); lia). rewrite Nat2Z.inj_mod. change (Z.of_nat 4) with 4.
  pose proof (Z.div_mod (Z.of_nat n) 4 ltac:(lia)) as Hd. pose proof (Z.mod_pos_bound (Z.of_nat n) 4 ltac:(lia)) as Hm.
  set (q := Z.of_nat n / 4) in *. set (r := Z.of_nat n mod 4) in *.
  assert (r = 0 \/ r = 1 \/ r = 2 \/ r = 3) as Hr by lia.
  assert (forall x v k, x = 4 * v + k -> 0 <= k < 4 -> x / 4 * 4 = 4 * v) as Hq by (intros x v k -> Hk; rewrite <- (Z.div_unique_pos (4 * v + k) 4 v k) by lia; lia).
  destruct Hr as [Hr|[Hr|[Hr|Hr]]]; rewrite Hr in *.
  - rewrite (Hq _ q 3) by lia. change ((4 - 0) mod 4) with 0. lia.
  - rewrite (Hq _ (q + 1) 0) by lia. change ((4 - 1) mod 4) with 3. lia.
  - rewrite (Hq _ (q + 1) 1) by lia. change ((4 - 2) mod 4) with 2. lia.
  - rewrite (Hq _ (q + 1) 2) by lia. change ((4 - 3) mod 4) with 1. lia.
Qed.

Lemma pad_add4 n k : Nl.pad (4 * k + n) = Nl.pad n.
Proof. unfold Nl.pad. rewrite Nat.add_comm, Nat.mul_comm, Nat.Div0.mod_add. reflexivity. Qed.

Lemma length_encode_msg m : Nl.padded (Nl.payload m) (Nl.padding m) -> length (Nl.encode_msg m) = (16 + length (Nl.payload m) + Nl.pad (length (Nl.payload m)))%nat.
Proof. unfold Nl.padded, Nl.encode_msg, Nl.message. intros Hp. rewrite !length_app, !length_le_split, Hp. cbn [List.length repeat]. lia. Qed.

(** The walk reaches the verdict. *)
Lemma receive_loop_messages ms : forall fuel pre rest w B, ms <> [] -> Forall Nl.msg_ok ms -> (length ms <= fuel)%nat ->
  B = pre ++ flat_map Nl.encode_msg ms ++ rest -> Z.of_nat (length B) = buffer_SIZE ->
  receive_loop fuel B (Z.of_nat (length pre)) (Z.of_nat (length pre + length (flat_map Nl.encode_msg ms))) w = (if Nl.verdict ms then Done tt else Fatal, w).
Proof.
  induction ms as [|m ms IH]; intros fuel pre rest w B Hne Hok Hf HB Hsize; [contradiction|]. destruct fuel as [|fuel]; [cbn in Hf; lia|].
  inversion Hok as [|? ? (Ht & Hb & Hp & Hl & Herr) Hok']; subst. set (n := length (Nl.payload m)) in *.
  cbn [flat_map] in *. set (B := pre ++ (Nl.encode_msg m ++ flat_map Nl.encode_msg ms) ++ rest) in *.
  set (len := 16 + Z.of_nat n).
  assert (B = pre ++ le_split 4 len ++ le_split 2 (Nl.type m) ++ le_split 2 (Nl.flags m) ++ le_split 4 (Nl.seq m) ++ repeat 0 4 ++ Nl.payload m ++ Nl.padding m ++ flat_map Nl.encode_msg ms ++ rest) as E1.
  { unfold B, Nl.encode_msg, Nl.message. fold n len. now rewrite <- !app_assoc. }
  cbn [receive_loop Nl.verdict].
  assert (load 2 B (Z.of_nat (length pre) + 4) w = (Done (Nl.type m), w)) as Etype.
  { eapply (load_le B 2 (Nl.type m) (pre ++ le_split 4 len)); [rewrite E1, <- !app_assoc; reflexivity|rewrite length_app, length_le_split; lia|exact Hsize|exact Ht]. }
  rewrite (bind_done _ _ _ _ _ Etype). destruct ((Nl.type m =? NLMSG_ERROR) || (Nl.type m =? NLMSG_DONE)) eqn:Ek.
  - assert (4 <= n)%nat as Hn4 by (apply Herr; apply orb_prop in Ek as [Ek|Ek]; apply Z.eqb_eq in Ek; auto).
    assert (load 4 B (Z.of_nat (length pre) + nlmsghdr_SIZE) w = (Done (le_combine (firstn 4 (Nl.payload m))), w)) as Eerr.
    { eapply (load_bytes B 4 (Nl.payload m) (pre ++ le_split 4 len ++ le_split 2 (Nl.type m) ++ le_split 2 (Nl.flags m) ++ le_split 4 (Nl.seq m) ++ repeat 0 4));
        [rewrite E1, <- !app_assoc; reflexivity|rewrite !length_app, !length_le_split; unfold nlmsghdr_SIZE; cbn [List.length repeat]; lia|exact Hsize|exact Hn4]. }
    rewrite (bind_done _ _ _ _ _ Eerr). unfold CHECK. now destruct (_ =? 0).
  - assert (load 4 B (Z.of_nat (length pre)) w = (Done len, w)) as Elen.
    { eapply load_le; [exact E1|reflexivity|exact Hsize|]. unfold len. lia. }
    rewrite (bind_done _ _ _ _ _ Elen).
    assert (u32 (math_ALIGN_FORWARD len 4) = Z.of_nat (length (Nl.encode_msg m))) as ->.
    { rewrite length_encode_msg by exact Hp. fold n. replace len with (Z.of_nat (4 * 4 + n)) by (unfold len; lia). rewrite pad_align, pad_add4.
      assert (Nl.pad n < 4)%nat by (unfold Nl.pad; apply Nat.mod_upper_bound; lia). rewrite wrap_small by lia. lia. }
    pose proof (length_encode_msg m Hp) as Hml. fold n in Hml. rewrite length_app.
    destruct ms as [|m2 ms].
    + cbn [flat_map List.length]. destruct (Z.eqb_spec (Z.of_nat (length pre) + Z.of_nat (length (Nl.encode_msg m))) (Z.of_nat (length pre + (length (Nl.encode_msg m) + 0)))); [reflexivity|lia].
    + destruct (Z.eqb_spec (Z.of_nat (length pre) + Z.of_nat (length (Nl.encode_msg m))) (Z.of_nat (length pre + (length (Nl.encode_msg m) + length (flat_map Nl.encode_msg (m2 :: ms)))))) as [E|E].
      { exfalso. inversion Hok' as [|? ? (_ & _ & Hp2 & _) _]; subst. pose proof (length_encode_msg m2 Hp2). cbn [flat_map] in E. rewrite length_app in E. lia. }
      replace (Z.of_nat (length pre) + Z.of_nat (length (Nl.encode_msg m))) with (Z.of_nat (length (pre ++ Nl.encode_msg m))) by (rewrite length_app; lia).
      replace (length pre + (length (Nl.encode_msg m) + length (flat_map Nl.encode_msg (m2 :: ms))))%nat with (length (pre ++ Nl.encode_msg m) + length (flat_map Nl.encode_msg (m2 :: ms)))%nat by (rewrite length_app; lia).
      apply (IH fuel (pre ++ Nl.encode_msg m) rest); [discriminate|exact Hok'|cbn [List.length] in *; lia|unfold B; now rewrite <- !app_assoc|exact Hsize].
Qed.

Lemma length_encode_rattr a : Nl.padded (Nl.rpayload a) (Nl.rpadding a) -> length (Nl.encode_rattr a) = (4 + length (Nl.rpayload a) + Nl.pad (length (Nl.rpayload a)))%nat.
Proof. unfold Nl.padded, Nl.encode_rattr, Nl.wire_attr. intros Hp. rewrite !length_app, !length_le_split, Hp. lia. Qed.

(** One attribute. *)
Lemma findAttr_step a fuel pre rest end_ t w B : Nl.rattr_ok a -> B = pre ++ Nl.encode_rattr a ++ rest -> Z.of_nat (length B) = buffer_SIZE ->
  Z.of_nat (length pre + length (Nl.encode_rattr a)) <= end_ ->
  findAttr_loop (S fuel) B (Z.of_nat (length pre)) end_ t w =
  (if Nl.rtype a =? t then pure (Z.of_nat (length pre)) else findAttr_loop fuel B (Z.of_nat (length pre + length (Nl.encode_rattr a))) end_ t) w.
Proof.
  intros (Ht & Hp & Hl) HB Hsize Hend. set (n := length (Nl.rpayload a)) in *. set (len := 4 + Z.of_nat n).
  assert (B = pre ++ le_split 2 len ++ le_split 2 (Nl.rtype a) ++ Nl.rpayload a ++ Nl.rpadding a ++ rest) as E1 by (rewrite HB; unfold Nl.encode_rattr, Nl.wire_attr; fold n len; now rewrite <- !app_assoc).
  assert (load 2 B (Z.of_nat (length pre)) w = (Done len, w)) as Elen by (eapply load_le; [exact E1|reflexivity|exact Hsize|unfold len; lia]).
  assert (load 2 B (Z.of_nat (length pre) + 2) w = (Done (Nl.rtype a), w)) as Etype.
  { eapply (load_le B 2 (Nl.rtype a) (pre ++ le_split 2 len)); [rewrite E1, <- !app_assoc; reflexivity|rewrite length_app, length_le_split; lia|exact Hsize|exact Ht]. }
  cbn [findAttr_loop]. rewrite (bind_done _ _ _ _ _ Elen).
  assert (Z.of_nat (length pre) + math_ALIGN_FORWARD len 4 = Z.of_nat (length pre + length (Nl.encode_rattr a))) as ->.
  { rewrite length_encode_rattr by exact Hp. fold n. replace len with (Z.of_nat (4 * 1 + n)) by (unfold len; lia). rewrite pad_align, pad_add4. lia. }
  unfold CHECK. destruct (Z.leb_spec (Z.of_nat (length pre + length (Nl.encode_rattr a))) end_); [|lia]. rewrite bind_pure.
  rewrite (bind_done _ _ _ _ _ Etype). reflexivity.
Qed.

Lemma findAttr_walk attrs : forall fuel pre rest t w B, Forall Nl.rattr_ok attrs -> (length attrs <= fuel)%nat ->
  B = pre ++ flat_map Nl.encode_rattr attrs ++ rest -> Z.of_nat (length B) = buffer_SIZE ->
  let end_ := Z.of_nat (length pre + length (flat_map Nl.encode_rattr attrs)) in
  findAttr_loop fuel B (Z.of_nat (length pre)) end_ t w =
  match Nl.find attrs t with
  | Some i => (Done (Z.of_nat (length pre) + i), w)
  | None => findAttr_loop (fuel - length attrs) B end_ end_ t w
  end.
Proof.
  induction attrs as [|a attrs IH]; intros fuel pre rest t w B Hok Hf HB Hsize end_.
  - cbn [Nl.find List.length]. unfold end_. cbn [flat_map List.length]. now rewrite Nat.sub_0_r, Nat.add_0_r.
  - destruct fuel as [|fuel]; [cbn in Hf; lia|]. inversion Hok as [|? ? Ha Hok']; subst. cbn [flat_map] in *. set (B := pre ++ (Nl.encode_rattr a ++ flat_map Nl.encode_rattr attrs) ++ rest) in *.
    assert (B = pre ++ Nl.encode_rattr a ++ (flat_map Nl.encode_rattr attrs ++ rest)) as E1 by (unfold B; now rewrite <- !app_assoc).
    unfold end_. rewrite length_app. rewrite (findAttr_step a fuel pre _ _ t w B Ha E1 Hsize) by lia. cbn [Nl.find List.length Nat.sub].
    destruct (Nl.rtype a =? t); [unfold pure; do 2 f_equal; lia|].
    assert (B = (pre ++ Nl.encode_rattr a) ++ flat_map Nl.encode_rattr attrs ++ rest) as E2 by (rewrite E1, <- !app_assoc; reflexivity).
    specialize (IH fuel (pre ++ Nl.encode_rattr a) rest t w B Hok' ltac:(cbn in Hf; lia) E2 Hsize). rewrite length_app in IH.
    replace (length pre + (length (Nl.encode_rattr a) + length (flat_map Nl.encode_rattr attrs)))%nat with (length pre + length (Nl.encode_rattr a) + length (flat_map Nl.encode_rattr attrs))%nat by lia.
    cbv zeta in IH. rewrite IH. destruct (Nl.find attrs t); [|reflexivity]. do 2 f_equal. lia.
Qed.

(** Past the last attribute nothing stops the walk when the length there is 0. *)
Lemma findAttr_end fuel B end_ t w : 0 <= end_ -> end_ + 4 <= buffer_SIZE -> uint_at 2 B end_ = 0 -> uint_at 2 B (end_ + 2) <> t ->
  findAttr_loop fuel B end_ end_ t w = (Unfinished, w).
Proof.
  intros H0 He Hl Ht. induction fuel as [|fuel IH]; [reflexivity|]. cbn [findAttr_loop]. unfold load at 1. destruct (Z.ltb_spec buffer_SIZE (end_ + Z.of_nat 2)); [lia|].
  rewrite bind_pure, Hl. change (math_ALIGN_FORWARD 0 4) with 0. rewrite Z.add_0_r. unfold CHECK. destruct (Z.leb_spec end_ end_); [|lia]. rewrite bind_pure.
  unfold load at 1. destruct (Z.ltb_spec buffer_SIZE (end_ + 2 + Z.of_nat 2)); [lia|]. rewrite bind_pure. destruct (Z.eqb_spec (uint_at 2 B (end_ + 2)) t); [contradiction|]. exact IH.
Qed.

Lemma attrs_fit attrs : Forall Nl.rattr_ok attrs -> (4 * length attrs <= length (flat_map Nl.encode_rattr attrs))%nat.
Proof. induction 1 as [|a attrs (_ & Hp & _) _ IH]; [cbn; lia|]. cbn [flat_map List.length]. rewrite length_app, length_encode_rattr by exact Hp. lia. Qed.

Lemma msgs_fit ms : Forall Nl.msg_ok ms -> (16 * length ms <= length (flat_map Nl.encode_msg ms))%nat.
Proof. induction 1 as [|a attrs (_ & _ & Hp & _) _ IH]; [cbn; lia|]. cbn [flat_map List.length]. rewrite length_app, length_encode_msg by exact Hp. lia. Qed.


(** ** Requests and answers *)

(** The first field of a message is its length. *)
Lemma message_len type flags seq payload rest : 16 + Z.of_nat (length payload) < 2 ^ 32 ->
  le_combine (firstn 4 (nth 0 (Nl.message type flags seq payload :: rest) [])) = 16 + Z.of_nat (length payload).
Proof.
  intros Hl. unfold Nl.message. cbn [nth]. rewrite firstn_app_l, firstn_all2, le_combine_split by (rewrite length_le_split; lia).
  apply Z.mod_small. change (256 ^ Z.of_nat 4) with (2 ^ 32). lia.
Qed.

Definition receive_event (fd : Z) (data : list Z) : event := (Sys_recvfrom fd buffer_SIZE MSG_DONTWAIT, Answer (Z.of_nat (length data)) data).

Lemma receive_spec buffer fd ms r a t : Z.of_nat (length buffer) = buffer_SIZE -> ms <> [] -> Forall Nl.msg_ok ms ->
  let data := flat_map Nl.encode_msg ms in
  0 <= r -> bytes data -> 16 < Z.of_nat (length data) <= buffer_SIZE ->
  netlink_receive buffer fd (World (Answer r data :: a) t) =
  (if Nl.verdict ms then Done (mem_copy buffer 0 data) else Fatal, World a (t ++ [receive_event fd data])).
Proof.
  intros Hb Hne Hok data Hr Hd Hn. unfold netlink_receive. cbv zeta. rewrite Z.sub_0_r. change (CHECK (8192 <=? buffer_SIZE)) with (pure tt). rewrite bind_pure.
  unfold sys_recvfrom. rewrite (bind_done _ _ _ _ _ (syscall_in_answer _ (Z.to_nat buffer_SIZE) r data a t Hr Hd ltac:(lia))). cbv beta iota.
  unfold CHECK, nlmsghdr_SIZE. destruct (Z.ltb_spec 16 (Z.of_nat (length data))); [|lia]. rewrite bind_pure. rewrite Z.add_0_l. change (Z.to_nat 0) with 0%nat.
  pose proof (msgs_fit ms Hok) as Hfit. fold data in Hfit.
  pose proof (receive_loop_messages ms walk_fuel [] (skipn (length data) buffer) (World a (t ++ [receive_event fd data])) (mem_copy buffer 0 data) Hne Hok ltac:(unfold walk_fuel; lia)) as Hloop.
  cbn [List.length app Nat.add] in Hloop. fold data in Hloop. change (Z.of_nat 0) with 0 in Hloop.
  specialize (Hloop ltac:(rewrite mem_copy_eq by lia; reflexivity) ltac:(rewrite length_mem_copy by lia; exact Hb)).
  destruct (Nl.verdict ms); [rewrite (bind_done _ _ _ _ _ Hloop); reflexivity|rewrite (bind_fatal _ _ _ _ Hloop); reflexivity].
Qed.

(** A request that was sent as a whole, and its answer. *)
Lemma talk_spec buffer fd request sent o ms r a t : Z.of_nat (length buffer) = buffer_SIZE -> ms <> [] -> Forall Nl.msg_ok ms ->
  let data := flat_map Nl.encode_msg ms in
  0 <= r -> bytes data -> 16 < Z.of_nat (length data) <= buffer_SIZE -> sent = le_combine (firstn 4 (nth 0 request [])) ->
  let send := (Sys_sendmsg fd (sockaddr_nl 0) request (Z.lor MSG_NOSIGNAL MSG_DONTWAIT), Answer sent []) in
  netlink_talk buffer fd request (World (Answer sent o :: Answer r data :: a) t) =
  (if Nl.verdict ms then Done (mem_copy buffer 0 data) else Fatal, World a (t ++ [send; receive_event fd data])).
Proof.
  intros Hb Hne Hok data Hr Hd Hn Hs send. unfold netlink_talk. cbv zeta.
  rewrite (bind_done _ _ _ _ _ (syscall_answer _ sent o _ t)). rewrite <- Hs. unfold CHECK. rewrite Z.eqb_refl, bind_pure.
  rewrite (receive_spec buffer fd ms r a _ Hb Hne Hok Hr Hd Hn). rewrite <- app_assoc. reflexivity.
Qed.

(** C33: A netlink exchange: the request is sent in one call and the process aborts unless
    it was taken whole; then exactly one datagram is received, whatever its messages say
    about a continuation (a multipart answer is not read to its end, as the comment in
    [netlink_receive] has it), and the process goes on if no message reports an error
    before the first final one, with the answer at the start of the shared buffer.  An
    answer that is too short aborts as well. *)
Theorem netlink_talk_correct buffer fd request sent o ms r a t : Z.of_nat (length buffer) = buffer_SIZE -> Forall Nl.msg_ok ms ->
  let data := flat_map Nl.encode_msg ms in
  0 <= r -> bytes data -> Z.of_nat (length data) <= buffer_SIZE ->
  let send := (Sys_sendmsg fd (sockaddr_nl 0) request (Z.lor MSG_NOSIGNAL MSG_DONTWAIT), Answer sent []) in
  netlink_talk buffer fd request (World (Answer sent o :: Answer r data :: a) t) =
  if sent =? le_combine (firstn 4 (nth 0 request [])) then
    (if (16 <? Z.of_nat (length data)) && Nl.verdict ms then Done (mem_copy buffer 0 data) else Fatal, World a (t ++ [send; receive_event fd data]))
  else (Fatal, World (Answer r data :: a) (t ++ [send])).
Proof.
  intros Hb Hok data Hr Hd Hn send. destruct (Z.eqb_spec sent (le_combine (firstn 4 (nth 0 request [])))) as [E|E].
  - destruct (Z.ltb_spec 16 (Z.of_nat (length data))) as [Hlt|Hge]; cbn [andb].
    + assert (ms <> []) as Hne by (intros ->; cbn in Hlt; lia). exact (talk_spec buffer fd request sent o ms r a t Hb Hne Hok Hr Hd (conj Hlt Hn) E).
    + unfold netlink_talk. cbv zeta. rewrite (bind_done _ _ _ _ _ (syscall_answer _ sent o _ t)). rewrite <- E. unfold CHECK at 1. rewrite Z.eqb_refl, bind_pure.
      unfold netlink_receive. cbv zeta. rewrite Z.sub_0_r. change (CHECK (8192 <=? buffer_SIZE)) with (pure tt). rewrite bind_pure. unfold sys_recvfrom.
      rewrite (bind_done _ _ _ _ _ (syscall_in_answer _ (Z.to_nat buffer_SIZE) r data a _ Hr Hd ltac:(lia))). unfold CHECK, nlmsghdr_SIZE. destruct (Z.ltb_spec 16 (Z.of_nat (length data))); [lia|].
      unfold bind, fatal. rewrite <- app_assoc. reflexivity.
  - unfold netlink_talk. cbv zeta. rewrite (bind_done _ _ _ _ _ (syscall_answer _ sent o _ t)). unfold CHECK. destruct (Z.eqb_spec sent (le_combine (firstn 4 (nth 0 request [])))); [contradiction|]. reflexivity.
Qed.

(** A netlink exchange makes two kinds of calls. *)
Lemma emits_receive P buffer fd : (forall fd n fl a, P (Sys_recvfrom fd n fl, a)) -> emits P (netlink_receive buffer fd).
Proof.
  intros Hp. unfold netlink_receive. cbv zeta. apply emits_bind; [apply emits_CHECK|intros _]. apply emits_bind; [apply emits_syscall_in; intros; apply Hp|intros [r data]].
  apply emits_bind; [apply emits_CHECK|intros _]. apply emits_bind; [|intros; apply emits_pure].
  generalize walk_fuel as fuel. generalize (mem_copy buffer (Z.to_nat 0) data) as B. generalize 0 at 1. generalize (0 + r) as e. intros e i B fuel. revert i. induction fuel as [|fuel IH]; intros i; cbn [receive_loop]; [apply emits_unfinished|].
  apply emits_bind; [apply emits_load|intros type]. destruct (_ || _).
  - apply emits_bind; [apply emits_load|intros; apply emits_CHECK].
  - apply emits_bind; [apply emits_load|intros len]. destruct (_ =? e); [apply emits_pure|apply IH].
Qed.

Lemma emits_talk P buffer fd request : (forall fd n fl a, P (Sys_recvfrom fd n fl, a)) -> (forall fd n io fl a, P (Sys_sendmsg fd n io fl, a)) -> emits P (netlink_talk buffer fd request).
Proof.
  intros H1 H2. unfold netlink_talk. cbv zeta. apply emits_bind; [apply emits_syscall; intros; apply H2|intros sent].
  apply emits_bind; [apply emits_CHECK|intros _]. now apply emits_receive.
Qed.

(** ** Instances of the theorems *)

Definition ack_message (error : Z) : Nl.msg := Nl.Msg NLMSG_ERROR 0 0 (le_split 4 error ++ repeat 0 16) [].

Lemma ack_ok error : Nl.msg_ok (ack_message error).
Proof.
  unfold Nl.msg_ok, ack_message, Nl.padded, NLMSG_ERROR. cbn [Nl.type Nl.payload Nl.padding]. rewrite length_app, length_le_split, repeat_length. repeat split; try (cbn; lia). apply bytes_app. split; [apply bytes_le_split|apply bytes_repeat; unfold is_byte; lia].
Qed.

Lemma netlink_talk_correct_witness :
  let buffer := repeat 0 (Z.to_nat buffer_SIZE) in
  let request := [Nl.message 16 5 0 [1; 2; 3; 4]] in
  fst (netlink_talk buffer 4 request (World [Answer 20 []; Answer 36 (Nl.encode_msg (ack_message 0))] [])) = Done (mem_copy buffer 0 (Nl.encode_msg (ack_message 0))).
Proof.
  intros buffer request. assert (flat_map Nl.encode_msg [ack_message 0] = Nl.encode_msg (ack_message 0)) as E by apply app_nil_r.
  pose proof (netlink_talk_correct buffer 4 request 20 [] [ack_message 0] 36 [] [] ltac:(unfold buffer; rewrite repeat_length; reflexivity) (Forall_cons _ (ack_ok 0) (Forall_nil _)) ltac:(lia)) as Ht.
  rewrite E in Ht. rewrite Ht; [reflexivity| |vm_compute; discriminate].
  apply Forall_forall. intros x Hx. vm_compute in Hx. unfold is_byte. repeat (destruct Hx as [<-|Hx]; [lia|]). contradiction.
Defined.

