(* ===== verification/Config.v ===== *)
(** * The router's network configuration ([src/router/router/config.c])

    Interfaces, addresses, routes and the WireGuard device are set up by netlink requests;
    every request is a struct whose lengths are written out.  The theorem says that each is
    the encoding of a message with the intended attributes, all lengths included. *)
From Stdlib Require Import ZArith List Lia Bool String.
From S2P Require Import Prelude Mem Alloc Util Base64 RouterSys Netlink.
Import ListNotations.

Definition IFF_UP : Z := 1.
Definition AF_UNSPEC : Z := 0.
Definition RTM_NEWLINK : Z := 16.
Definition RTM_NEWADDR : Z := 20.
Definition RTM_DELADDR : Z := 21.
Definition RTM_NEWROUTE : Z := 24.
Definition IFA_LOCAL : Z := 2.
Definition IFLA_IFNAME : Z := 3.
Definition IFLA_MASTER : Z := 10.
Definition IFLA_LINKINFO : Z := 18.
Definition IFLA_INFO_KIND : Z := 1.
Definition RTA_DST : Z := 1.
Definition RTA_OIF : Z := 4.
Definition RT_TABLE_MAIN : Z := 254.
Definition RTPROT_BOOT : Z := 3.
Definition RT_SCOPE_LINK : Z := 253.
Definition RTN_UNICAST : Z := 1.
Definition WG_GENL_NAME : list Z := str "wireguard".
Definition WG_GENL_VERSION : Z := 1.
Definition WG_CMD_GET_DEVICE : Z := 0.
Definition WG_CMD_SET_DEVICE : Z := 1.
Definition WGDEVICE_A_IFINDEX : Z := 1.
Definition WGDEVICE_A_PRIVATE_KEY : Z := 3.
Definition WGDEVICE_A_PUBLIC_KEY : Z := 4.
Definition WGDEVICE_A_LISTEN_PORT : Z := 6.
Definition WGDEVICE_A_PEERS : Z := 8.
Definition WGPEER_A_PUBLIC_KEY : Z := 1.
Definition WGPEER_A_ALLOWEDIPS : Z := 9.
Definition WGALLOWEDIP_A_FAMILY : Z := 1.
Definition WGALLOWEDIP_A_IPADDR : Z := 2.
Definition WGALLOWEDIP_A_CIDR_MASK : Z := 3.
Definition O_RDONLY : Z := 0.
Definition O_WRONLY : Z := 1.

(** The strings with their terminators, as [sizeof] counts them. *)
Definition config_IFTYPE_WIREGUARD : list Z := str "wireguard" ++ [0; 0; 0].
Definition config_IFTYPE_BRIDGE : list Z := str "bridge" ++ [0; 0].
Definition config_WAN_IF_NAME : list Z := str "wan" ++ [0].
Definition config_WAN_IF_INDEX : Z := 100.
Definition config_LAN_IF_NAME : list Z := str "lan" ++ [0].
Definition config_LAN_IF_INDEX : Z := 101.
Definition config_WG_IF_NAME : list Z := str "wg0" ++ [0].
Definition config_WG_IF_INDEX : Z := 123.
Definition config_WG_LISTEN_PORT : Z := 123.

Record config := Config { rtnetlinkFd : Z; wgFamilyId : Z; wgPublicKey : list Z }.

(** [struct ifaddrmsg], [struct ifinfomsg] and [struct rtmsg]. *)
Definition ifaddrmsg (family prefixlen index : Z) : list Z := [family; prefixlen; 0; 0] ++ le_split 4 index.
Definition ifinfomsg (index flags change : Z) : list Z := [AF_UNSPEC; 0] ++ le_split 2 0 ++ le_split 4 index ++ le_split 4 flags ++ le_split 4 change.
Definition rtmsg (dst_len protocol scope : Z) : list Z := [AF_INET; dst_len; 0; 0; RT_TABLE_MAIN; protocol; scope; RTN_UNICAST] ++ le_split 4 0.

Definition config_init (buffer : list Z) (genetlinkFd : Z) : M (list Z * config) :=
  let! fd := syscall (Sys_socket AF_NETLINK SOCK_RAW NETLINK_ROUTE) in
  CHECK (0 <? fd);;
  let! buffer := genetlink_requestFamily buffer genetlinkFd (WG_GENL_NAME ++ [0]) (Z.of_nat (length WG_GENL_NAME)) in
  let! attr := genetlink_findAttr buffer CTRL_ATTR_FAMILY_ID in
  let! id := load 2 buffer (attr + nlattr_SIZE) in
  pure (buffer, Config fd id (repeat 0 32)).

(** [struct addrRequest]. *)
Definition addrRequest (type flags prefixLen ifIndex : Z) (address : list Z) : list Z :=
  nlmsghdr 32 type flags 0 ++ ifaddrmsg AF_INET prefixLen ifIndex ++ nlattr 8 IFA_LOCAL ++ firstn 4 address.

Definition config_addIpv4 (buffer : list Z) (self : config) (ifIndex : Z) (address : list Z) (prefixLen : Z) : M (list Z) :=
  netlink_talk buffer (rtnetlinkFd self) [addrRequest RTM_NEWADDR (NLM_F_REQUEST .| NLM_F_ACK .| NLM_F_CREATE) prefixLen (u8 ifIndex) address].

Definition masterRequest (ifIndex masterIfIndex flags flagsMask : Z) : list Z :=
  nlmsghdr 40 RTM_NEWLINK (NLM_F_REQUEST .| NLM_F_ACK) 0 ++ ifinfomsg ifIndex flags flagsMask ++ nlattr 8 IFLA_MASTER ++ le_split 4 masterIfIndex.
Definition config_setMaster (buffer : list Z) (self : config) (ifIndex masterIfIndex flags flagsMask : Z) : M (list Z) :=
  netlink_talk buffer (rtnetlinkFd self) [masterRequest ifIndex masterIfIndex flags flagsMask].

Definition flagsRequest (ifIndex flags flagsMask : Z) : list Z :=
  nlmsghdr 32 RTM_NEWLINK (NLM_F_REQUEST .| NLM_F_ACK) 0 ++ ifinfomsg ifIndex flags flagsMask.
Definition config_setFlags (buffer : list Z) (self : config) (ifIndex flags flagsMask : Z) : M (list Z) :=
  netlink_talk buffer (rtnetlinkFd self) [flagsRequest ifIndex flags flagsMask].

Definition addRouteRequest : list Z :=
  nlmsghdr 44 RTM_NEWROUTE (NLM_F_REQUEST .| NLM_F_ACK .| NLM_F_CREATE) 0 ++ rtmsg 24 RTPROT_BOOT RT_SCOPE_LINK ++
  nlattr 8 RTA_DST ++ [10; 123; 1; 0] ++ nlattr 8 RTA_OIF ++ le_split 4 config_WG_IF_INDEX.
Definition config_addWgRoute (buffer : list Z) (self : config) : M (list Z) :=
  netlink_talk buffer (rtnetlinkFd self) [addRouteRequest].

(** The four buffers of the request. *)
Definition addIfRequest (ifIndex : Z) (ifName : list Z) (ifNameSize : Z) (ifType : list Z) (ifTypeSize flags flagsMask : Z) : list (list Z) :=
  [nlmsghdr (u32 (36 + ifNameSize + 8 + ifTypeSize)) RTM_NEWLINK (NLM_F_REQUEST .| NLM_F_ACK .| NLM_F_CREATE) 0 ++ ifinfomsg ifIndex flags flagsMask ++
     nlattr (u16 (4 + ifNameSize)) IFLA_IFNAME;
   firstn (Z.to_nat ifNameSize) ifName;
   nlattr (u16 (8 + ifTypeSize)) (IFLA_LINKINFO .| NLA_F_NESTED) ++ nlattr (u16 (4 + ifTypeSize)) IFLA_INFO_KIND;
   firstn (Z.to_nat ifTypeSize) ifType].
Definition config_addIf (buffer : list Z) (self : config) (ifIndex : Z) (ifName : list Z) (ifNameSize : Z) (ifType : list Z) (ifTypeSize flags flagsMask : Z) : M (list Z) :=
  netlink_talk buffer (rtnetlinkFd self) (addIfRequest ifIndex ifName ifNameSize ifType ifTypeSize flags flagsMask).

Definition getDeviceRequest (self : config) : list Z :=
  nlmsghdr 28 (wgFamilyId self) (NLM_F_REQUEST .| NLM_F_DUMP) 1 ++ genlmsghdr WG_CMD_GET_DEVICE WG_GENL_VERSION ++ nlattr 8 WGDEVICE_A_IFINDEX ++ le_split 4 config_WG_IF_INDEX.

(** [base64PublicKey] and the key are separate objects: the key is put behind. *)
Definition config_printWgPublicKey (buffer : list Z) (self : config) (genetlinkFd : Z) : M (list Z * config) :=
  let! buffer := genetlink_talk buffer genetlinkFd [getDeviceRequest self] in
  let! attr := genetlink_findAttr buffer WGDEVICE_A_PUBLIC_KEY in
  let self := Config (rtnetlinkFd self) (wgFamilyId self) (firstn 32 (skipn (Z.to_nat (attr + nlattr_SIZE)) buffer)) in
  let base64PublicKey := firstn (base64_ENCODE_SIZE 32) (base64_encode (repeat 0 (base64_ENCODE_SIZE 32) ++ wgPublicKey self) 0 (base64_ENCODE_SIZE 32) 32) in
  let! written := syscall (Sys_writev 2 [str "Wireguard PK: "; base64PublicKey; [10]]) in
  CHECK (written =? Z.of_nat (length (str "Wireguard PK: ")) + Z.of_nat (length base64PublicKey) + 1);;
  pure (buffer, self).

(** [struct setDeviceRequest]; the offsets of its parts give the lengths of the nested
    attributes: [peersAttr] at 72, [peerAttr] at 76, [peerAllowedIpsAttr] at 116,
    [peerAllowedIpAttr] at 120 and [peerEnd] at 148. *)
Definition setDeviceRequest (self : config) (privateKey peerPublicKey : list Z) : list Z :=
  nlmsghdr 148 (wgFamilyId self) (NLM_F_REQUEST .| NLM_F_ACK) 0 ++
  genlmsghdr WG_CMD_SET_DEVICE WG_GENL_VERSION ++
  nlattr 8 WGDEVICE_A_IFINDEX ++ le_split 4 config_WG_IF_INDEX ++
  nlattr 36 WGDEVICE_A_PRIVATE_KEY ++ privateKey ++
  nlattr 6 WGDEVICE_A_LISTEN_PORT ++ le_split 2 config_WG_LISTEN_PORT ++ [0; 0] ++
  nlattr (148 - 72) (WGDEVICE_A_PEERS .| NLA_F_NESTED) ++
  nlattr (148 - 76) NLA_F_NESTED ++
  nlattr 36 WGPEER_A_PUBLIC_KEY ++ peerPublicKey ++
  nlattr (148 - 116) (WGPEER_A_ALLOWEDIPS .| NLA_F_NESTED) ++
  nlattr (148 - 120) NLA_F_NESTED ++
  nlattr 6 WGALLOWEDIP_A_FAMILY ++ le_split 2 AF_INET ++ [0; 0] ++
  nlattr 8 WGALLOWEDIP_A_IPADDR ++ [10; 123; 1; 1] ++
  nlattr 5 WGALLOWEDIP_A_CIDR_MASK ++ [32] ++ [0; 0; 0].

(** A 32 byte key from a file; none if there is no such file. *)
Definition read_key (path : list Z) : M (option (list Z)) :=
  let! fd := syscall (Sys_openat (-1) path O_RDONLY 0) in
  if fd =? - ENOENT then pure None
  else
    CHECK (0 <? fd);;
    let! (n, key) := sys_read fd 32 in
    CHECK (n =? 32);;
    sys_close fd;;
    pure (Some key).

Definition config_setWgDevice (buffer : list Z) (self : config) (genetlinkFd : Z) : M (list Z * config) :=
  let! privateKey := read_key (str "/disk/config/wg/key") in
  match privateKey with
  | None => pure (buffer, self)
  | Some privateKey =>
      let! peerPublicKey := read_key (str "/disk/config/wg/peer_pk") in
      match peerPublicKey with
      | None => pure (buffer, self)
      | Some peerPublicKey =>
          let! buffer := genetlink_talk buffer genetlinkFd [setDeviceRequest self privateKey peerPublicKey] in
          config_printWgPublicKey buffer self genetlinkFd
      end
  end.

(** [struct ifreq] is 40 bytes; what the name leaves of it is not initialised. *)
Definition config_getIfIndex (self : config) (uninit ifName : list Z) : M Z :=
  let nameSize := (util_cstrLen ifName + 1)%nat in
  let ifreq := mem_copy uninit 0 (firstn nameSize (ifName ++ [0])) in
  let! (r, ifreq') := syscall_out (Sys_ioctl (rtnetlinkFd self) SIOCGIFINDEX ifreq) ifreq_SIZE in
  if r <? 0 then pure (-1)
  else pure (i32 (le_combine (firstn 4 (skipn IFNAMSIZ (mem_copy ifreq 0 ifreq'))))).

(** Writing "1" to a setting. *)
Definition write_setting (path : list Z) : M unit :=
  let! fd := syscall (Sys_openat (-1) path O_WRONLY 0) in
  CHECK (0 <? fd);;
  let! written := sys_write fd (str "1") in
  CHECK (written =? 1);;
  sys_close fd;;
  pure tt.

Definition bridge (buffer : list Z) (self : config) (index : Z) (name : list Z) : M (list Z) :=
  config_addIf buffer self index name (Z.of_nat (length name)) config_IFTYPE_BRIDGE (Z.of_nat (length config_IFTYPE_BRIDGE)) IFF_UP IFF_UP.

Definition config_configure (buffer : list Z) (self : config) (genetlinkFd : Z) : M (list Z * config) :=
  write_setting (str "/proc/sys/net/ipv4/conf/all/arp_ignore");;
  write_setting (str "/proc/sys/net/ipv4/conf/all/ignore_routes_with_linkdown");;
  let! buffer := bridge buffer self config_WAN_IF_INDEX config_WAN_IF_NAME in
  let! buffer := config_setMaster buffer self 2 config_WAN_IF_INDEX IFF_UP IFF_UP in
  let! buffer := config_setMaster buffer self 3 config_WAN_IF_INDEX IFF_UP IFF_UP in
  let! buffer := config_setMaster buffer self 4 config_WAN_IF_INDEX IFF_UP IFF_UP in
  let! buffer := config_setMaster buffer self 5 config_WAN_IF_INDEX IFF_UP IFF_UP in
  let! buffer := bridge buffer self config_LAN_IF_INDEX config_LAN_IF_NAME in
  let! buffer := config_addIpv4 buffer self config_LAN_IF_INDEX [10; 123; 0; 1] 24 in
  let! buffer := config_setMaster buffer self 6 config_LAN_IF_INDEX IFF_UP IFF_UP in
  let! buffer := config_setMaster buffer self 7 config_LAN_IF_INDEX IFF_UP IFF_UP in
  let! buffer := config_setMaster buffer self 8 config_LAN_IF_INDEX IFF_UP IFF_UP in
  let! buffer := config_setMaster buffer self 9 config_LAN_IF_INDEX IFF_UP IFF_UP in
  let! buffer := config_addIf buffer self config_WG_IF_INDEX config_WG_IF_NAME (Z.of_nat (length config_WG_IF_NAME))
    config_IFTYPE_WIREGUARD (Z.of_nat (length config_IFTYPE_WIREGUARD)) IFF_UP IFF_UP in
  let! buffer := config_addWgRoute buffer self in
  let! (buffer, self) := config_setWgDevice buffer self genetlinkFd in
  write_setting (str "/proc/sys/net/ipv4/ip_forward");;
  pure (buffer, self).

Definition config_deinit (self : config) : M unit := sys_close (rtnetlinkFd self);; pure tt.

(** ** The requests by their contents *)

(** A key in place of the peer. *)
Definition wg_peer (publicKey : list Z) : Nl.attr :=
  Nl.Nested 0 [Nl.Attr WGPEER_A_PUBLIC_KEY publicKey;
    Nl.Nested WGPEER_A_ALLOWEDIPS [Nl.Nested 0
      [Nl.Attr WGALLOWEDIP_A_FAMILY (le_split 2 AF_INET); Nl.Attr WGALLOWEDIP_A_IPADDR [10; 123; 1; 1]; Nl.Attr WGALLOWEDIP_A_CIDR_MASK [32]]]].

Lemma message_eq L type flags seq payload : L = 16 + Z.of_nat (length payload) -> nlmsghdr L type flags seq ++ payload = Nl.message type flags seq payload.
Proof. intros ->. unfold nlmsghdr, Nl.message. now rewrite <- !app_assoc. Qed.

Lemma attr_eq L t p rest : L = 4 + Z.of_nat (length p) -> Nl.pad (length p) = 0%nat -> nlattr L t ++ p ++ rest = Nl.encode (Nl.Attr t p) ++ rest.
Proof. intros -> Hp. unfold nlattr. cbn [Nl.encode]. unfold Nl.wire_attr. rewrite Hp. cbn [repeat]. rewrite app_nil_r. now rewrite <- !app_assoc. Qed.

Lemma nested_eq L t l rest : L = 4 + Z.of_nat (length (flat_map Nl.encode l)) -> nlattr L (2 ^ 15 + t) ++ flat_map Nl.encode l ++ rest = Nl.encode (Nl.Nested t l) ++ rest.
Proof. intros ->. unfold nlattr. cbn [Nl.encode]. unfold Nl.wire_attr. rewrite app_nil_r. now rewrite <- !app_assoc. Qed.

Lemma length_encode_attr t p : length (Nl.encode (Nl.Attr t p)) = (4 + length p + Nl.pad (length p))%nat.
Proof. cbn [Nl.encode]. unfold Nl.wire_attr. rewrite !length_app, !length_le_split, repeat_length. lia. Qed.

Lemma length_encode_nested t l : length (Nl.encode (Nl.Nested t l)) = (4 + length (flat_map Nl.encode l))%nat.
Proof. cbn [Nl.encode]. unfold Nl.wire_attr. rewrite !length_app, !length_le_split. cbn [List.length]. lia. Qed.

Lemma pad_mult4 n : (4 | Z.of_nat n) -> Nl.pad n = 0%nat.
Proof.
  intros [k Hk]. unfold Nl.pad. assert (n mod 4 = 0)%nat as ->; [|reflexivity]. apply Nat2Z.inj. rewrite Nat2Z.inj_mod, Hk. apply Z_mod_mult.
Qed.

Lemma addrRequest_message type flags prefixLen ifIndex address : length address = 4%nat ->
  addrRequest type flags prefixLen ifIndex address = Nl.message type flags 0 (ifaddrmsg AF_INET prefixLen ifIndex ++ Nl.encode (Nl.Attr IFA_LOCAL address)).
Proof.
  intros Ha. unfold addrRequest. rewrite firstn_all2 by lia. rewrite <- (app_nil_r address) at 1.
  rewrite (attr_eq 8) by (rewrite Ha; reflexivity). rewrite app_nil_r. apply message_eq. rewrite length_app, length_encode_attr, Ha. reflexivity.
Qed.

(** C34: Every request of the configuration is the encoding of the netlink message it is
    meant to be: the lengths in its headers are those of its parts (the nested attributes
    of the WireGuard peer included), every attribute starts at a multiple of four, and
    types, flags and contents are the intended ones. *)
Theorem config_requests_wellformed self :
  (forall type flags prefixLen ifIndex address, length address = 4%nat ->
     addrRequest type flags prefixLen ifIndex address = Nl.message type flags 0 (ifaddrmsg AF_INET prefixLen ifIndex ++ Nl.encode (Nl.Attr IFA_LOCAL address))) /\
  (forall ifIndex master flags mask,
     masterRequest ifIndex master flags mask = Nl.message RTM_NEWLINK (NLM_F_REQUEST + NLM_F_ACK) 0 (ifinfomsg ifIndex flags mask ++ Nl.encode (Nl.Attr IFLA_MASTER (le_split 4 master)))) /\
  (forall ifIndex flags mask, flagsRequest ifIndex flags mask = Nl.message RTM_NEWLINK (NLM_F_REQUEST + NLM_F_ACK) 0 (ifinfomsg ifIndex flags mask)) /\
  addRouteRequest = Nl.message RTM_NEWROUTE (NLM_F_REQUEST + NLM_F_ACK + NLM_F_CREATE) 0
    (rtmsg 24 RTPROT_BOOT RT_SCOPE_LINK ++ flat_map Nl.encode [Nl.Attr RTA_DST [10; 123; 1; 0]; Nl.Attr RTA_OIF (le_split 4 config_WG_IF_INDEX)]) /\
  (forall ifIndex ifName ifType flags mask, (4 | Z.of_nat (length ifName)) -> (4 | Z.of_nat (length ifType)) -> Z.of_nat (length ifName) < 2 ^ 15 -> Z.of_nat (length ifType) < 2 ^ 15 ->
     concat (addIfRequest ifIndex ifName (Z.of_nat (length ifName)) ifType (Z.of_nat (length ifType)) flags mask) =
     Nl.message RTM_NEWLINK (NLM_F_REQUEST + NLM_F_ACK + NLM_F_CREATE) 0
       (ifinfomsg ifIndex flags mask ++ flat_map Nl.encode [Nl.Attr IFLA_IFNAME ifName; Nl.Nested IFLA_LINKINFO [Nl.Attr IFLA_INFO_KIND ifType]])) /\
  getDeviceRequest self = Nl.message (wgFamilyId self) (NLM_F_REQUEST + NLM_F_DUMP) 1
    (genlmsghdr WG_CMD_GET_DEVICE WG_GENL_VERSION ++ Nl.encode (Nl.Attr WGDEVICE_A_IFINDEX (le_split 4 config_WG_IF_INDEX))) /\
  (forall privateKey peerPublicKey, length privateKey = 32%nat -> length peerPublicKey = 32%nat ->
     setDeviceRequest self privateKey peerPublicKey = Nl.message (wgFamilyId self) (NLM_F_REQUEST + NLM_F_ACK) 0
       (genlmsghdr WG_CMD_SET_DEVICE WG_GENL_VERSION ++ flat_map Nl.encode
          [Nl.Attr WGDEVICE_A_IFINDEX (le_split 4 config_WG_IF_INDEX); Nl.Attr WGDEVICE_A_PRIVATE_KEY privateKey;
           Nl.Attr WGDEVICE_A_LISTEN_PORT (le_split 2 config_WG_LISTEN_PORT); Nl.Nested WGDEVICE_A_PEERS [wg_peer peerPublicKey]])).
Proof.
  split; [|split; [|split; [|split; [|split; [|split]]]]].
  - apply addrRequest_message.
  - intros. unfold masterRequest. rewrite <- (app_nil_r (le_split 4 master)) at 1. rewrite (attr_eq 8) by reflexivity. rewrite app_nil_r. apply message_eq.
    rewrite length_app, length_encode_attr. reflexivity.
  - intros. apply message_eq. reflexivity.
  - reflexivity.
  - intros ifIndex ifName ifType flags mask Hn Ht Hn2 Ht2. unfold addIfRequest. rewrite !Nat2Z.id, !firstn_all. cbn [List.concat]. rewrite app_nil_r, <- !app_assoc.
    change (IFLA_LINKINFO .| NLA_F_NESTED) with (2 ^ 15 + IFLA_LINKINFO).
    pose proof (pad_mult4 _ Hn) as Pn. pose proof (pad_mult4 _ Ht) as Pt.
    assert (nlattr (u16 (8 + Z.of_nat (length ifType))) (2 ^ 15 + IFLA_LINKINFO) ++ nlattr (u16 (4 + Z.of_nat (length ifType))) IFLA_INFO_KIND ++ ifType = Nl.encode (Nl.Nested IFLA_LINKINFO [Nl.Attr IFLA_INFO_KIND ifType])) as Elink.
    { rewrite !(wrap_small 16) by lia. pose proof (attr_eq _ IFLA_INFO_KIND ifType [] eq_refl Pt) as E1. rewrite !app_nil_r in E1. rewrite E1.
      pose proof (nested_eq (8 + Z.of_nat (length ifType)) IFLA_LINKINFO [Nl.Attr IFLA_INFO_KIND ifType] []) as E2. cbn [flat_map] in E2. rewrite !app_nil_r in E2.
      apply E2. rewrite length_encode_attr, Pt. lia. }
    rewrite Elink. rewrite (wrap_small 16 (4 + Z.of_nat (length ifName))) by lia. rewrite (attr_eq _ IFLA_IFNAME ifName) by (reflexivity || exact Pn).
    rewrite <- (app_nil_r (Nl.encode (Nl.Nested IFLA_LINKINFO [Nl.Attr IFLA_INFO_KIND ifType]))).
    rewrite (wrap_small 32) by lia.
    apply message_eq. rewrite length_app. cbn [flat_map]. rewrite !length_app, length_encode_nested. cbn [flat_map]. rewrite length_app, !length_encode_attr, Pn, Pt. unfold ifinfomsg. rewrite !length_app, !length_le_split. cbn [List.length]. lia.
  - apply message_eq. reflexivity.
  - intros privateKey peerPublicKey Hk Hp. unfold setDeviceRequest.
    assert (nlattr 8 WGALLOWEDIP_A_IPADDR ++ [10; 123; 1; 1] ++ nlattr 5 WGALLOWEDIP_A_CIDR_MASK ++ [32] ++ [0; 0; 0] =
      flat_map Nl.encode [Nl.Attr WGALLOWEDIP_A_IPADDR [10; 123; 1; 1]; Nl.Attr WGALLOWEDIP_A_CIDR_MASK [32]]) as -> by reflexivity.
    set (ips := [Nl.Attr WGALLOWEDIP_A_FAMILY (le_split 2 AF_INET); Nl.Attr WGALLOWEDIP_A_IPADDR [10; 123; 1; 1]; Nl.Attr WGALLOWEDIP_A_CIDR_MASK [32]]).
    assert (nlattr 6 WGALLOWEDIP_A_FAMILY ++ le_split 2 AF_INET ++ [0; 0] ++ flat_map Nl.encode [Nl.Attr WGALLOWEDIP_A_IPADDR [10; 123; 1; 1]; Nl.Attr WGALLOWEDIP_A_CIDR_MASK [32]] = flat_map Nl.encode ips) as -> by reflexivity.
    assert (nlattr (148 - 116) (WGPEER_A_ALLOWEDIPS .| NLA_F_NESTED) ++ nlattr (148 - 120) NLA_F_NESTED ++ flat_map Nl.encode ips = Nl.encode (Nl.Nested WGPEER_A_ALLOWEDIPS [Nl.Nested 0 ips])) as -> by reflexivity.
    set (allowed := Nl.Nested WGPEER_A_ALLOWEDIPS [Nl.Nested 0 ips]). assert (length (Nl.encode allowed) = 32%nat) as La by reflexivity.
    rewrite (attr_eq 36 WGPEER_A_PUBLIC_KEY) by (rewrite Hp; reflexivity).
    assert (nlattr (148 - 76) NLA_F_NESTED ++ Nl.encode (Nl.Attr WGPEER_A_PUBLIC_KEY peerPublicKey) ++ Nl.encode allowed = Nl.encode (wg_peer peerPublicKey)) as ->.
    { pose proof (nested_eq 72 0 [Nl.Attr WGPEER_A_PUBLIC_KEY peerPublicKey; allowed] [] ltac:(cbn [flat_map]; rewrite app_nil_r, length_app, length_encode_attr, La, Hp; reflexivity)) as Hx.
      rewrite !app_nil_r in Hx. change (wg_peer peerPublicKey) with (Nl.Nested 0 [Nl.Attr WGPEER_A_PUBLIC_KEY peerPublicKey; allowed]). rewrite <- Hx. change (148 - 76) with 72. change NLA_F_NESTED with (2 ^ 15 + 0). cbn [flat_map]. now rewrite app_nil_r. }
    assert (length (Nl.encode (wg_peer peerPublicKey)) = 72%nat) as Lp.
    { unfold wg_peer. rewrite length_encode_nested. cbn [flat_map]. rewrite !length_app, length_encode_attr, Hp. reflexivity. }
    assert (nlattr (148 - 72) (WGDEVICE_A_PEERS .| NLA_F_NESTED) ++ Nl.encode (wg_peer peerPublicKey) = Nl.encode (Nl.Nested WGDEVICE_A_PEERS [wg_peer peerPublicKey])) as ->.
    { pose proof (nested_eq 76 WGDEVICE_A_PEERS [wg_peer peerPublicKey] [] ltac:(cbn [flat_map]; rewrite app_nil_r, Lp; reflexivity)) as Hx.
      rewrite !app_nil_r in Hx. rewrite <- Hx. change (148 - 72) with 76. change (WGDEVICE_A_PEERS .| NLA_F_NESTED) with (2 ^ 15 + WGDEVICE_A_PEERS). cbn [flat_map]. now rewrite app_nil_r. }
    rewrite (attr_eq 36 WGDEVICE_A_PRIVATE_KEY) by (rewrite Hk; reflexivity).
    rewrite (attr_eq 8 WGDEVICE_A_IFINDEX) by reflexivity.
    assert (forall r, nlattr 6 WGDEVICE_A_LISTEN_PORT ++ le_split 2 config_WG_LISTEN_PORT ++ [0; 0] ++ r = Nl.encode (Nl.Attr WGDEVICE_A_LISTEN_PORT (le_split 2 config_WG_LISTEN_PORT)) ++ r) as -> by reflexivity.
    rewrite <- (app_nil_r (Nl.encode (Nl.Nested WGDEVICE_A_PEERS [wg_peer peerPublicKey]))).
    apply message_eq. rewrite length_app. cbn [flat_map]. rewrite !length_app, length_encode_nested, !length_encode_attr, Hk. cbn [flat_map]. rewrite length_app, Lp. reflexivity.
Qed.

Lemma config_requests_wellformed_witness :
  let self := Config 4 30 [] in
  concat (addIfRequest config_WAN_IF_INDEX config_WAN_IF_NAME 4 config_IFTYPE_BRIDGE 8 IFF_UP IFF_UP) =
    Nl.message RTM_NEWLINK 0x405 0 (ifinfomsg 100 1 1 ++ flat_map Nl.encode [Nl.Attr IFLA_IFNAME (str "wan" ++ [0]); Nl.Nested IFLA_LINKINFO [Nl.Attr IFLA_INFO_KIND config_IFTYPE_BRIDGE]]) /\
  length (setDeviceRequest self (repeat 1 32) (repeat 2 32)) = 148%nat.
Proof.
  intros self. destruct (config_requests_wellformed self) as (_ & _ & _ & _ & H5 & _ & H7). split.
  - exact (H5 config_WAN_IF_INDEX config_WAN_IF_NAME config_IFTYPE_BRIDGE IFF_UP IFF_UP (ex_intro _ 1 eq_refl) (ex_intro _ 2 eq_refl) eq_refl eq_refl).
  - rewrite (H7 (repeat 1 32) (repeat 2 32) eq_refl eq_refl). reflexivity.
Defined.
