(* ===== verification/Dhcp.v ===== *)
(** * DHCP messages ([src/router/router/dhcp.h] and the option scan)

    The header's layout and the loop over the options that the server and the client share.
    The reference describes a message by its fields and its options; every sequence of
    bytes is some options followed by a rest that is no option. *)
From Stdlib Require Import ZArith List Lia Bool.
From S2P Require Import Prelude Mem RouterSys.
Import ListNotations.

Definition dhcp_BOOTREQUEST : Z := 1.
Definition dhcp_BOOTREPLY : Z := 2.
Definition dhcp_ETHERNET : Z := 1.
Definition dhcp_SUBNET_MASK : Z := 1.
Definition dhcp_ROUTER : Z := 3.
Definition dhcp_DNS : Z := 6.
Definition dhcp_REQUESTED_IP_ADDRESS : Z := 50.
Definition dhcp_LEASE_TIME : Z := 51.
Definition dhcp_MESSAGE_TYPE : Z := 53.
Definition dhcp_SERVER_IDENTIFIER : Z := 54.
Definition dhcp_PARAM_REQUEST_LIST : Z := 55.
Definition dhcp_END : Z := 255.
Definition dhcp_DISCOVER : Z := 1.
Definition dhcp_OFFER : Z := 2.
Definition dhcp_REQUEST : Z := 3.
Definition dhcp_ACK : Z := 5.
Definition dhcp_NAK : Z := 6.
Definition dhcp_MAGIC_COOKIE : Z := 0x63538263.

(** [struct dhcp_header] with the fields that are ever set, and the offsets of those that
    are read; [sizeof] and the start of the options. *)
Definition dhcp_header (opcode : Z) (identifier flags clientIp yourIp serverIp clientHwAddr : list Z) : list Z :=
  [opcode; dhcp_ETHERNET; 6; 0] ++ identifier ++ le_split 2 0 ++ flags ++ clientIp ++ yourIp ++ serverIp ++ repeat 0 4 ++ clientHwAddr ++
  repeat 0 64 ++ repeat 0 128 ++ le_split 4 dhcp_MAGIC_COOKIE.
Definition header_identifier : nat := 4%nat.
Definition header_clientIp : nat := 12%nat.
Definition header_yourIp : nat := 16%nat.
Definition header_serverIp : nat := 20%nat.
Definition header_clientHwAddr : nat := 28%nat.
Definition dhcp_header_SIZE : Z := 240.

(** [n] bytes of the shared buffer from [i] on. *)
Definition field (buffer : list Z) (i n : nat) : list Z := firstn n (skipn i buffer).

(** [struct dhcp_option] with its data. *)
Definition dhcp_option (code : Z) (data : list Z) : list Z := [code; Z.of_nat (length data)] ++ data.

(** The loop over the options up to [end_]; [visit] is its [switch]. *)
Fixpoint options_loop {A} (visit : A -> Z -> Z -> Z -> A) (fuel : nat) (buffer : list Z) (end_ current : Z) (found : A) : M A :=
  match fuel with
  | O => unfinished
  | S fuel' =>
      let! length := load 1 buffer (current + 1) in
      let next := current + 2 + length in
      if end_ <? next then pure found
      else
        let! code := load 1 buffer current in
        options_loop visit fuel' buffer end_ next (visit found code length current)
  end.

(** Every option takes at least two bytes. *)
Definition options_fuel : nat := Z.to_nat buffer_SIZE.

(** [if (current->length ...) option = current]. *)
Definition keep (p : Z -> bool) (old : option Z) (length current : Z) : option Z := if p length then Some current else old.

(** ** Reference: RFC 2131 and RFC 2132 *)
Module Bootp.

Definition opt : Type := Z * list Z.
Definition encode_opt (o : opt) : list Z := dhcp_option (fst o) (snd o).
Definition opt_ok (o : opt) : Prop := is_byte (fst o) /\ bytes (snd o) /\ (length (snd o) < 256)%nat.

(** What can follow the last option. *)
Definition stuck (rest : list Z) : Prop := match rest with _ :: n :: r => Z.of_nat (length r) < n | _ => True end.

(** The data of the last option with a code and an admissible length. *)
Definition matches (code : Z) (p : Z -> bool) (o : opt) : bool := (fst o =? code) && p (Z.of_nat (length (snd o))).
Definition last_opt (code : Z) (p : Z -> bool) (opts : list opt) : option (list Z) :=
  option_map snd (List.find (matches code p) (rev opts)).

Record message := Message { op : Z; xid : list Z; flags : list Z; ciaddr : list Z; yiaddr : list Z; siaddr : list Z; chaddr : list Z; options : list opt; rest : list Z }.
Definition encode (m : message) : list Z :=
  [op m; 1; 6; 0] ++ xid m ++ [0; 0] ++ flags m ++ ciaddr m ++ yiaddr m ++ siaddr m ++ [0; 0; 0; 0] ++ chaddr m ++ repeat 0 192 ++
  [99; 130; 83; 99] ++ flat_map encode_opt (options m) ++ rest m.

End Bootp.

(** ** Every packet is options and a rest *)

Lemma decompose l : bytes l -> exists opts rest, l = flat_map Bootp.encode_opt opts ++ rest /\ Forall Bootp.opt_ok opts /\ Bootp.stuck rest.
Proof.
  remember (length l) as n eqn:Hn. assert (length l <= n)%nat as Hle by lia. clear Hn. revert l Hle. induction n as [|n IH]; intros l Hle Hb.
  - destruct l; [|cbn in Hle; lia]. exists [], []. repeat constructor.
  - destruct l as [|c [|k r]]; [exists [], []; repeat constructor|exists [], [c]; repeat constructor|].
    destruct (Z.lt_ge_cases (Z.of_nat (length r)) k) as [Hk|Hk]; [exists [], (c :: k :: r); repeat constructor; exact Hk|].
    pose proof (Forall_inv Hb) as Hc. pose proof (Forall_inv (Forall_inv_tail Hb)) as Hk2. pose proof (Forall_inv_tail (Forall_inv_tail Hb)) as Hr. unfold is_byte in Hk2.
    destruct (IH (skipn (Z.to_nat k) r)) as (opts & rest & E & Hok & Hs); [rewrite length_skipn; cbn in Hle; lia|now apply bytes_skipn|].
    exists ((c, firstn (Z.to_nat k) r) :: opts), rest. split; [|split; [|exact Hs]].
    + cbn [flat_map Bootp.encode_opt dhcp_option fst snd app]. rewrite length_firstn, Nat.min_l by lia. rewrite Z2Nat.id by lia. rewrite <- app_assoc, <- E, firstn_skipn. reflexivity.
    + constructor; [|exact Hok]. unfold Bootp.opt_ok. cbn [fst snd]. split; [exact Hc|]. split; [now apply bytes_firstn|]. rewrite length_firstn. lia.
Qed.

(** ** The loop over them *)

Section Loop.
Context {A : Type} (visit : A -> Z -> Z -> Z -> A).

(** What the [switch] sees. *)
Fixpoint visited (found : A) (off : Z) (opts : list Bootp.opt) : A :=
  match opts with
  | [] => found
  | o :: opts => visited (visit found (fst o) (Z.of_nat (length (snd o))) off) (off + 2 + Z.of_nat (length (snd o))) opts
  end.

Lemma load_byte B pre b rest i w : B = pre ++ b :: rest -> i = Z.of_nat (length pre) -> Z.of_nat (length B) = buffer_SIZE -> load 1 B i w = (Done b, w).
Proof using.
  intros HB Hi Hs. rewrite (load_bytes B 1 (b :: rest) pre [] w i) by (rewrite ?app_nil_r; cbn [List.length]; assumption || lia).
  cbn [firstn le_combine]. do 2 f_equal. lia.
Qed.

Lemma options_loop_spec opts : forall fuel pre tail after found w B, Forall Bootp.opt_ok opts -> Bootp.stuck tail -> bytes tail -> (length opts < fuel)%nat ->
  B = pre ++ flat_map Bootp.encode_opt opts ++ tail ++ after -> Z.of_nat (length B) = buffer_SIZE -> bytes after -> (2 <= length after)%nat ->
  options_loop visit fuel B (Z.of_nat (length pre + length (flat_map Bootp.encode_opt opts ++ tail))) (Z.of_nat (length pre)) found w =
  (Done (visited found (Z.of_nat (length pre)) opts), w).
Proof.
  induction opts as [|[c p] opts IH]; intros fuel pre tail after found w B Hok Hst Hbt Hf HB Hsize Hba Ha; (destruct fuel as [|fuel]; [lia|]); cbn [options_loop visited].
  - cbn [flat_map app] in *. assert (exists b k r, tail ++ after = b :: k :: r /\ Z.of_nat (length tail) < 2 + k) as (b & k & r & E & Hk).
    { destruct tail as [|b [|k r]]; cbn [app].
      - destruct after as [|b [|k r]]; cbn in Ha; try lia. exists b, k, r. split; [reflexivity|]. pose proof (Forall_inv (Forall_inv_tail Hba)) as Hx. unfold is_byte in Hx. cbn [List.length]. lia.
      - destruct after as [|k r]; cbn in Ha; try lia. exists b, k, r. split; [reflexivity|]. pose proof (Forall_inv Hba) as Hx. unfold is_byte in Hx. cbn [List.length]. lia.
      - exists b, k, (r ++ after). split; [reflexivity|]. cbn in Hst. cbn [List.length]. lia. }
    assert (load 1 B (Z.of_nat (length pre) + 1) w = (Done k, w)) as El.
    { apply (load_byte B (pre ++ [b]) k r); [rewrite HB, E, <- app_assoc; reflexivity|rewrite length_app; cbn; lia|exact Hsize]. }
    rewrite (bind_done _ _ _ _ _ El). destruct (Z.ltb_spec (Z.of_nat (length pre + length tail)) (Z.of_nat (length pre) + 2 + k)); [reflexivity|lia].
  - inversion Hok as [|? ? (Hc & Hp & Hl) Hok']; subst. cbn [fst snd] in *. cbn [flat_map] in *. unfold Bootp.encode_opt at 1 2 in IH. cbn [fst snd] in *.
    set (B := pre ++ (Bootp.encode_opt (c, p) ++ flat_map Bootp.encode_opt opts) ++ tail ++ after) in *.
    set (k := Z.of_nat (length p)). set (more := flat_map Bootp.encode_opt opts ++ tail ++ after).
    assert (B = pre ++ c :: k :: p ++ more) as E1 by (unfold B, more, Bootp.encode_opt, dhcp_option; cbn [fst snd]; rewrite <- !app_assoc; reflexivity).
    assert (load 1 B (Z.of_nat (length pre) + 1) w = (Done k, w)) as El.
    { apply (load_byte B (pre ++ [c]) k (p ++ more)); [rewrite E1, <- app_assoc; reflexivity|rewrite length_app; cbn; lia|exact Hsize]. }
    rewrite (bind_done _ _ _ _ _ El).
    assert (length (Bootp.encode_opt (c, p)) = (2 + length p)%nat) as Hel by reflexivity.
    rewrite !length_app, Hel. destruct (Z.ltb_spec (Z.of_nat (length pre + (2 + length p + length (flat_map Bootp.encode_opt opts) + length tail))) (Z.of_nat (length pre) + 2 + k)); [unfold k in *; lia|].
    rewrite (bind_done _ _ _ _ _ (load_byte B pre c (k :: p ++ more) _ w E1 eq_refl Hsize)).
    replace (Z.of_nat (length pre) + 2 + k) with (Z.of_nat (length (pre ++ Bootp.encode_opt (c, p)))) by (rewrite length_app, Hel; unfold k; lia).
    replace (length pre + (2 + length p + length (flat_map Bootp.encode_opt opts) + length tail))%nat with (length (pre ++ Bootp.encode_opt (c, p)) + length (flat_map Bootp.encode_opt opts ++ tail))%nat by (rewrite !length_app, Hel; lia).
    apply (IH fuel (pre ++ Bootp.encode_opt (c, p)) tail after); try assumption; [cbn [List.length] in Hf; lia|]. unfold B. now rewrite <- !app_assoc.
Qed.
End Loop.

(** ** The option that is kept *)

(** The offset of the last option with a code and an admissible length. *)
Fixpoint last_offset (code : Z) (p : Z -> bool) (off : Z) (opts : list Bootp.opt) : option Z :=
  match opts with
  | [] => None
  | o :: opts =>
      match last_offset code p (off + 2 + Z.of_nat (length (snd o))) opts with
      | Some x => Some x
      | None => if Bootp.matches code p o then Some off else None
      end
  end.

Lemma last_opt_cons code p o opts : Bootp.last_opt code p (o :: opts) =
  match Bootp.last_opt code p opts with Some x => Some x | None => if Bootp.matches code p o then Some (snd o) else None end.
Proof.
  unfold Bootp.last_opt. cbn [rev]. set (l := rev opts). clearbody l. induction l as [|x l IH]; cbn [app List.find option_map].
  - now destruct (Bootp.matches code p o).
  - destruct (Bootp.matches code p x); [reflexivity|exact IH].
Qed.

(** Its data lie two bytes behind. *)
Lemma last_offset_data code p opts : forall pre after B, B = pre ++ flat_map Bootp.encode_opt opts ++ after ->
  match last_offset code p (Z.of_nat (length pre)) opts, Bootp.last_opt code p opts with
  | Some x, Some data => p (Z.of_nat (length data)) = true /\ exists before behind, B = before ++ data ++ behind /\ x + 2 = Z.of_nat (length before) /\ (length pre + 2 <= length before)%nat
  | None, None => True
  | _, _ => False
  end.
Proof.
  induction opts as [|[c d] opts IH]; intros pre after B HB; [exact I|]. cbn [last_offset fst snd]. rewrite last_opt_cons.
  cbn [flat_map] in HB. specialize (IH (pre ++ Bootp.encode_opt (c, d)) after B). rewrite length_app in IH.
  assert (length (Bootp.encode_opt (c, d)) = (2 + length d)%nat) as Hel by reflexivity. rewrite Hel in IH.
  replace (Z.of_nat (length pre + (2 + length d))) with (Z.of_nat (length pre) + 2 + Z.of_nat (length d)) in IH by lia.
  specialize (IH ltac:(rewrite HB, <- !app_assoc; reflexivity)).
  destruct (last_offset code p _ opts), (Bootp.last_opt code p opts); try contradiction.
  - destruct IH as (Hp & before & behind & H1 & H2 & H3). split; [exact Hp|]. exists before, behind. split; [exact H1|]. split; [exact H2|lia].
  - destruct (Bootp.matches code p (c, d)) eqn:Em; [|exact I]. cbn [snd]. unfold Bootp.matches in Em. apply andb_prop in Em as [_ Em]. cbn [snd] in Em.
    split; [exact Em|]. exists (pre ++ [c; Z.of_nat (length d)]), (flat_map Bootp.encode_opt opts ++ after).
    split; [rewrite HB; unfold Bootp.encode_opt, dhcp_option; cbn [fst snd]; rewrite <- !app_assoc; reflexivity|]. rewrite length_app. cbn [List.length]. lia.
Qed.

(** A [switch] that only keeps the last option with [code] in a field, as the field sees it. *)
Lemma visited_keep {A} (visit : A -> Z -> Z -> Z -> A) (get : A -> option Z) code p :
  (forall a c l o, get (visit a c l o) = if c =? code then keep p (get a) l o else get a) ->
  forall opts a off, get (visited visit a off opts) = match last_offset code p off opts with Some x => Some x | None => get a end.
Proof.
  intros Hv. induction opts as [|[c d] opts IH]; intros a off; [reflexivity|]. cbn [visited last_offset fst snd]. rewrite IH, Hv.
  destruct (last_offset code p _ opts); [reflexivity|]. unfold Bootp.matches, keep. cbn [fst snd]. destruct (c =? code); [|reflexivity]. cbn [andb]. now destruct (p _).
Qed.

Lemma opts_fit opts : (2 * length opts <= length (flat_map Bootp.encode_opt opts))%nat.
Proof. induction opts as [|o opts IH]; [cbn; lia|]. cbn [flat_map]. rewrite length_app. unfold Bootp.encode_opt at 1, dhcp_option. cbn [app List.length]. lia. Qed.

(** The scan of a packet that was read into the shared buffer. *)
Lemma scan_packet {A} (visit : A -> Z -> Z -> Z -> A) found buffer header opts tail w :
  Forall Bootp.opt_ok opts -> Bootp.stuck tail -> bytes tail -> bytes buffer -> Z.of_nat (length buffer) = buffer_SIZE ->
  let packet := header ++ flat_map Bootp.encode_opt opts ++ tail in
  Z.of_nat (length packet) + 2 <= buffer_SIZE ->
  options_loop visit options_fuel (mem_copy buffer 0 packet) (Z.of_nat (length packet)) (Z.of_nat (length header)) found w =
  (Done (visited visit found (Z.of_nat (length header)) opts), w).
Proof.
  intros Hok Hst Hbt Hbb Hsize packet Hn. assert (length buffer = Z.to_nat buffer_SIZE) as Hb by lia.
  pose proof (opts_fit opts). assert (length packet = length header + length (flat_map Bootp.encode_opt opts ++ tail))%nat as Hpl by (unfold packet; now rewrite length_app).
  rewrite Hpl. rewrite length_app in Hpl.
  apply (options_loop_spec visit opts options_fuel header tail (skipn (length packet) buffer)); try assumption.
  - unfold options_fuel. lia.
  - rewrite mem_copy_eq by lia. cbn [firstn app]. unfold packet at 1. now rewrite <- !app_assoc.
  - rewrite length_mem_copy by lia. exact Hsize.
  - now apply bytes_skipn.
  - rewrite length_skipn. lia.
Qed.

(** The struct and the message. *)
Lemma header_encode op xid flags ciaddr yiaddr siaddr chaddr options rest :
  dhcp_header op xid flags ciaddr yiaddr siaddr chaddr ++ flat_map Bootp.encode_opt options ++ rest =
  Bootp.encode (Bootp.Message op xid flags ciaddr yiaddr siaddr chaddr options rest).
Proof.
  unfold dhcp_header, Bootp.encode. cbn [Bootp.op Bootp.xid Bootp.flags Bootp.ciaddr Bootp.yiaddr Bootp.siaddr Bootp.chaddr Bootp.options Bootp.rest].
  change (repeat 0 192) with (repeat 0 64 ++ repeat 0 128). change (le_split 4 dhcp_MAGIC_COOKIE) with [99; 130; 83; 99]. change (le_split 2 0) with [0; 0]. change (repeat 0 4) with [0; 0; 0; 0].
  now rewrite <- !app_assoc.
Qed.

(** The parts of a message that was received. *)
Lemma field_head header after i n : (i + n <= length header)%nat -> field (header ++ after) i n = field header i n.
Proof.
  intros Hn. unfold field. rewrite skipn_app, firstn_app_l by (rewrite length_skipn; lia). reflexivity.
Qed.

Lemma skipn_head (header after : list Z) i : (i <= length header)%nat -> skipn i (header ++ after) = skipn i header ++ after.
Proof. intros Hi. rewrite skipn_app. replace (i - length header)%nat with 0%nat by lia. reflexivity. Qed.

Lemma mem_copy_head (buffer packet : list Z) : (length packet <= length buffer)%nat -> mem_copy buffer 0 packet = packet ++ skipn (length packet) buffer.
Proof. intros Hn. now rewrite mem_copy_eq by lia. Qed.

(** The data of an option that the loop kept. *)
Lemma load_kept buffer packet header opts tail code p x data w : packet = header ++ flat_map Bootp.encode_opt opts ++ tail -> Z.of_nat (length packet) <= buffer_SIZE ->
  Z.of_nat (length buffer) = buffer_SIZE -> last_offset code p (Z.of_nat (length header)) opts = Some x -> Bootp.last_opt code p opts = Some data ->
  p (Z.of_nat (length data)) = true /\ forall n, (n <= length data)%nat ->
  load n (mem_copy buffer 0 packet) (x + 2) w = (Done (le_combine (firstn n data)), w) /\ field (mem_copy buffer 0 packet) (Z.to_nat (x + 2)) n = firstn n data.
Proof.
  intros Hp Hn Hs Hx Hd. pose proof (mem_copy_head buffer packet ltac:(lia)) as HB.
  assert (mem_copy buffer 0 packet = header ++ flat_map Bootp.encode_opt opts ++ (tail ++ skipn (length packet) buffer)) as HB2 by (rewrite HB, Hp at 1; now rewrite <- !app_assoc).
  pose proof (last_offset_data code p opts header _ _ HB2) as Hl. rewrite Hx, Hd in Hl. destruct Hl as (Hpd & before & behind & HB3 & Hx2 & _). split; [exact Hpd|]. intros n Hnd. split.
  - apply (load_bytes _ n data before behind); [exact HB3|exact Hx2|rewrite length_mem_copy by lia; exact Hs|exact Hnd].
  - unfold field. rewrite HB3, Hx2, Nat2Z.id, skipn_exact by reflexivity. now apply firstn_app_l.
Qed.

Lemma emits_options {A} P (visit : A -> Z -> Z -> Z -> A) fuel buffer end_ : forall current found, emits P (options_loop visit fuel buffer end_ current found).
Proof.
  induction fuel as [|fuel IH]; intros current found; cbn [options_loop]; [apply emits_unfinished|]. apply emits_bind; [apply emits_load|intros n]. cbv zeta.
  destruct (_ <? _); [apply emits_pure|]. apply emits_bind; [apply emits_load|intros c; apply IH].
Qed.
