(* ===== verification/DhcpServer.v ===== *)
(** * The router's DHCP server ([src/router/router/dhcpServer.c])

    The server hands out the addresses .40 to .254 of its network, one per entry of a table
    that remembers when each client was last heard of.  A packet is answered from the table
    alone; the entry of the client that was silent longest is given away when the table is
    full. *)
From Stdlib Require Import ZArith List Lia Bool.
From S2P Require Import Prelude Mem RouterSys Dhcp.
Import ListNotations.

Definition dhcpServer_FIRST_OCTET : Z := 40.
Definition dhcpServer_NUM_ENTRIES : nat := 215%nat.

Record entry := Entry { timeSec : Z; macAddr : list Z }.
Record dhcpServer := DhcpServer { ifreq : list Z; serverIp : Z; fd : Z; ifIndex : Z; entries : list entry }.

Definition with_entries (self : dhcpServer) (l : list entry) : dhcpServer := DhcpServer (ifreq self) (serverIp self) (fd self) (ifIndex self) l.

(** The loop of [dhcpServer_getEntry] from index [i] on: the entry of the address, or the
    oldest one. *)
Fixpoint getEntry_loop (l : list entry) (macAddr : list Z) (i oldestIndex : nat) (oldestTimeSec : Z) : nat + nat :=
  match l with
  | [] => inr oldestIndex
  | e :: l =>
      let older := (0 <? i)%nat && (timeSec e <? oldestTimeSec) in
      let oldestIndex := if older then i else oldestIndex in
      let oldestTimeSec := if older then timeSec e else oldestTimeSec in
      if mem_compare macAddr (DhcpServer.macAddr e) 6 =? 0 then inl i
      else getEntry_loop l macAddr (S i) oldestIndex oldestTimeSec
  end.

(** The clock's answer is not checked; it stores [struct timespec]. *)
Definition dhcpServer_getEntry (self : dhcpServer) (macAddr : list Z) (allowCreate : bool) : M (dhcpServer * Z) :=
  let! (r, ts) := syscall_out (Sys_clock_gettime CLOCK_MONOTONIC) 16 in
  let currentTime := i64 (le_combine (firstn 8 (mem_copy (repeat 0 16) 0 ts))) in
  let e i := nth i (entries self) (Entry 0 []) in
  match getEntry_loop (entries self) macAddr 0 0 (timeSec (e 0%nat)) with
  | inl i => pure (with_entries self (set (entries self) i (Entry currentTime (DhcpServer.macAddr (e i)))), Z.of_nat i)
  | inr oldestIndex =>
      if negb allowCreate then pure (self, -1)
      else pure (with_entries self (set (entries self) oldestIndex (Entry currentTime (firstn 6 macAddr))), Z.of_nat oldestIndex)
  end.

(** The object is on the stack: what is not set is what [self] holds. *)
Definition dhcpServer_init (self : dhcpServer) (ifIndex serverIp : Z) : M dhcpServer :=
  let entries := map (fun e => Entry 0 (macAddr e)) (entries self) in
  let! fd := syscall (Sys_socket AF_INET SOCK_DGRAM 0) in
  CHECK (0 <? fd);;
  let ifreq := mem_copy (ifreq self) IFNAMSIZ (le_split 4 ifIndex) in
  let! (r, data) := syscall_out (Sys_ioctl fd SIOCGIFNAME ifreq) ifreq_SIZE in
  let ifreq := mem_copy ifreq 0 data in
  CHECK (r =? 0);;
  let! (r, data) := syscall_out (Sys_ioctl fd SIOCGIFHWADDR ifreq) ifreq_SIZE in
  let ifreq := mem_copy ifreq 0 data in
  CHECK (r =? 0);;
  let! r := syscall (Sys_setsockopt fd SOL_SOCKET SO_BINDTODEVICE (firstn IFNAMSIZ ifreq)) in
  CHECK (r =? 0);;
  let! r := syscall (Sys_setsockopt fd SOL_SOCKET SO_BROADCAST (le_split 4 1)) in
  CHECK (r =? 0);;
  let! r := syscall (Sys_bind fd (sockaddr_in 67 [0; 0; 0; 0])) in
  CHECK (r =? 0);;
  pure (DhcpServer ifreq serverIp fd ifIndex entries).

(** The [switch] over the options. *)
Definition server_option (messageType : option Z) (code length current : Z) : option Z :=
  if code =? dhcp_MESSAGE_TYPE then keep (fun n => n =? 1) messageType length current else messageType.

(** [struct reply]. *)
Definition reply (isDiscover : bool) (identifier yourIp serverIp dns clientHwAddr : list Z) : list Z :=
  dhcp_header dhcp_BOOTREPLY identifier [0; 0] [0; 0; 0; 0] yourIp serverIp (clientHwAddr ++ repeat 0 10) ++
  dhcp_option dhcp_MESSAGE_TYPE [if isDiscover then dhcp_OFFER else dhcp_ACK] ++
  dhcp_option dhcp_SERVER_IDENTIFIER serverIp ++
  dhcp_option dhcp_SUBNET_MASK [255; 255; 255; 0] ++
  dhcp_option dhcp_ROUTER serverIp ++
  dhcp_option dhcp_LEASE_TIME [0; 0; 2; 88] ++
  dhcp_option dhcp_DNS dns ++
  [dhcp_END] ++ [0; 0].

Definition dhcpServer_onFd (buffer : list Z) (self : dhcpServer) (wanDnsIp : Z) : M (list Z * dhcpServer) :=
  let! (numRead, data) := sys_read (fd self) buffer_SIZE in
  let buffer := mem_copy buffer 0 data in
  if numRead <? dhcp_header_SIZE then pure (buffer, self)
  else
    let! messageType := options_loop server_option options_fuel buffer numRead dhcp_header_SIZE None in
    match messageType with
    | None => pure (buffer, self)
    | Some messageType =>
        let! type := load 1 buffer (messageType + 2) in
        let isDiscover := type =? dhcp_DISCOVER in
        if negb isDiscover && negb (type =? dhcp_REQUEST) then pure (buffer, self)
        else
          let! (self, entryIndex) := dhcpServer_getEntry self (skipn header_clientHwAddr buffer) isDiscover in
          if entryIndex <? 0 then pure (buffer, self)
          else
            let ip := le_split 4 (serverIp self) in
            let yourIp := firstn 3 ip ++ [u8 (dhcpServer_FIRST_OCTET + entryIndex)] in
            let dns := if wanDnsIp =? 0 then [8; 8; 8; 8] else le_split 4 wanDnsIp in
            let replyMsg := reply isDiscover (field buffer header_identifier 4) yourIp ip dns (field buffer header_clientHwAddr 6) in
            let dest := if mem_compare (skipn header_clientIp buffer) yourIp 4 =? 0 then yourIp else [255; 255; 255; 255] in
            sys_sendto (fd self) replyMsg MSG_NOSIGNAL (sockaddr_in 68 dest);;
            pure (buffer, self)
    end.

Definition dhcpServer_deinit (self : dhcpServer) : M unit := sys_close (fd self);; pure tt.

(** ** The table *)

Definition table_sized (l : list entry) : Prop := length l = dhcpServer_NUM_ENTRIES /\ Forall (fun e => length (macAddr e) = 6%nat) l.

(** The first entry with an address. *)
Fixpoint lookup (mac : list Z) (l : list entry) : option nat :=
  match l with
  | [] => None
  | e :: l => if list_eq_dec Z.eq_dec (macAddr e) mac then Some 0%nat else option_map S (lookup mac l)
  end.

(** The first of the oldest entries. *)
Definition oldest (l : list entry) (k : nat) : Prop :=
  (k < length l)%nat /\
  (forall j, (j < length l)%nat -> timeSec (nth k l (Entry 0 [])) <= timeSec (nth j l (Entry 0 []))) /\
  (forall j, (j < k)%nat -> timeSec (nth k l (Entry 0 [])) < timeSec (nth j l (Entry 0 []))).

(** An entry in use is the one that its client finds. *)
Definition table_ok (l : list entry) : Prop :=
  table_sized l /\ forall i, (i < length l)%nat -> timeSec (nth i l (Entry 0 [])) <> 0 -> lookup (macAddr (nth i l (Entry 0 []))) l = Some i.

Lemma mac_compare mac rest e : length mac = 6%nat -> length (macAddr e) = 6%nat -> (mem_compare (mac ++ rest) (macAddr e) 6 =? 0) = (if list_eq_dec Z.eq_dec (macAddr e) mac then true else false).
Proof.
  intros Hm He. destruct (Z.eqb_spec (mem_compare (mac ++ rest) (macAddr e) 6) 0) as [E|E]; rewrite mem_compare_zero in E by (rewrite ?length_app; lia);
    rewrite firstn_app_l, !firstn_all2 in E by lia; destruct (list_eq_dec Z.eq_dec (macAddr e) mac); congruence.
Qed.

Lemma lookup_app mac l1 l2 : lookup mac (l1 ++ l2) = match lookup mac l1 with Some i => Some i | None => option_map (Nat.add (length l1)) (lookup mac l2) end.
Proof.
  induction l1 as [|e l1 IH]; cbn [app lookup List.length].
  - now destruct (lookup mac l2).
  - destruct (list_eq_dec Z.eq_dec (macAddr e) mac); [reflexivity|]. rewrite IH. destruct (lookup mac l1); [reflexivity|]. now destruct (lookup mac l2).
Qed.

Lemma lookup_some mac l i : lookup mac l = Some i -> (i < length l)%nat /\ macAddr (nth i l (Entry 0 [])) = mac /\ forall j, (j < i)%nat -> macAddr (nth j l (Entry 0 [])) <> mac.
Proof.
  revert i. induction l as [|e l IH]; intros i Hi; [discriminate|]. cbn [lookup] in Hi. destruct (list_eq_dec Z.eq_dec (macAddr e) mac) as [E|E].
  - injection Hi as <-. cbn [List.length nth]. split; [lia|]. split; [exact E|]. intros j Hj. lia.
  - destruct (lookup mac l) as [i'|]; [|discriminate]. injection Hi as <-. destruct (IH i' eq_refl) as (H1 & H2 & H3). cbn [List.length nth]. split; [lia|]. split; [exact H2|].
    intros [|j] Hj; [exact E|]. apply H3. lia.
Qed.

Lemma lookup_none mac l : lookup mac l = None -> forall j, (j < length l)%nat -> macAddr (nth j l (Entry 0 [])) <> mac.
Proof.
  induction l as [|e l IH]; intros Hi j Hj; [cbn in Hj; lia|]. cbn [lookup] in Hi. destruct (list_eq_dec Z.eq_dec (macAddr e) mac) as [E|E]; [discriminate|].
  destruct (lookup mac l); [discriminate|]. destruct j as [|j]; [exact E|]. cbn [nth]. apply IH; [reflexivity|]. cbn [List.length] in Hj. lia.
Qed.

Lemma lookup_unique mac l i : (i < length l)%nat -> macAddr (nth i l (Entry 0 [])) = mac -> (forall j, (j < i)%nat -> macAddr (nth j l (Entry 0 [])) <> mac) -> lookup mac l = Some i.
Proof.
  intros Hi Hm Hj. destruct (lookup mac l) as [k|] eqn:E.
  - apply lookup_some in E as (H1 & H2 & H3). destruct (Nat.lt_trichotomy i k) as [H|[->|H]]; [now destruct (H3 i H)|reflexivity|now destruct (Hj k H)].
  - exfalso. exact (lookup_none _ _ E i Hi Hm).
Qed.

(** The loop over the entries behind [done]. *)
Lemma getEntry_loop_spec mac rest l : forall done k, length mac = 6%nat -> Forall (fun e => length (macAddr e) = 6%nat) l -> done <> [] -> oldest done k -> lookup mac done = None ->
  match getEntry_loop l (mac ++ rest) (length done) k (timeSec (nth k done (Entry 0 []))) with
  | inl i => lookup mac (done ++ l) = Some i
  | inr k => lookup mac (done ++ l) = None /\ oldest (done ++ l) k
  end.
Proof.
  induction l as [|e l IH]; intros done k Hm Hl Hne Hk Hno.
  - cbn [getEntry_loop]. rewrite app_nil_r. split; assumption.
  - cbn [getEntry_loop]. pose proof (Forall_inv Hl) as He. apply Forall_inv_tail in Hl. rewrite mac_compare by assumption.
    destruct (Nat.ltb_spec 0 (length done)) as [Hd|Hd]; [|destruct done; [contradiction|cbn in Hd; lia]]. cbn [andb].
    destruct (list_eq_dec Z.eq_dec (macAddr e) mac) as [E|E].
    + rewrite lookup_app, Hno. cbn [lookup]. destruct (list_eq_dec Z.eq_dec (macAddr e) mac); [|contradiction]. cbn. f_equal. lia.
    + replace (done ++ e :: l) with ((done ++ [e]) ++ l) by (rewrite <- app_assoc; reflexivity).
      assert (lookup mac (done ++ [e]) = None) as Hno2 by (rewrite lookup_app, Hno; cbn [lookup]; destruct (list_eq_dec Z.eq_dec (macAddr e) mac); [contradiction|reflexivity]).
      destruct Hk as (K1 & K2 & K3).
      assert (forall j, (j < length done)%nat -> nth j (done ++ [e]) (Entry 0 []) = nth j done (Entry 0 [])) as Hn1 by (intros; now apply app_nth1).
      assert (nth (length done) (done ++ [e]) (Entry 0 []) = e) as Hn2 by (rewrite app_nth2, Nat.sub_diag by lia; reflexivity).
      destruct (Z.ltb_spec (timeSec e) (timeSec (nth k done (Entry 0 [])))) as [Ho|Ho].
      * specialize (IH (done ++ [e]) (length done) Hm Hl ltac:(destruct done; discriminate)). rewrite Hn2, length_app in IH. cbn [List.length] in IH. rewrite Nat.add_1_r in IH. apply IH; [|exact Hno2].
        split; [rewrite length_app; cbn; lia|]. rewrite Hn2. split; intros j Hj.
        -- rewrite length_app in Hj. cbn in Hj. destruct (Nat.eq_dec j (length done)) as [->|]; [rewrite Hn2; lia|]. rewrite Hn1 by lia. specialize (K2 j ltac:(lia)). lia.
        -- rewrite Hn1 by lia. specialize (K2 j Hj). lia.
      * specialize (IH (done ++ [e]) k Hm Hl ltac:(destruct done; discriminate)). rewrite Hn1, length_app in IH by lia. cbn [List.length] in IH. rewrite Nat.add_1_r in IH. apply IH; [|exact Hno2].
        split; [rewrite length_app; lia|]. rewrite Hn1 by lia. split; intros j Hj.
        -- rewrite length_app in Hj. cbn in Hj. destruct (Nat.eq_dec j (length done)) as [->|]; [rewrite Hn2; lia|]. rewrite Hn1 by lia. apply K2. lia.
        -- rewrite Hn1 by lia. now apply K3.
Qed.

Lemma getEntry_loop_table mac rest l : length mac = 6%nat -> table_sized l ->
  match getEntry_loop l (mac ++ rest) 0 0 (timeSec (nth 0 l (Entry 0 []))) with
  | inl i => lookup mac l = Some i
  | inr k => lookup mac l = None /\ oldest l k
  end.
Proof.
  intros Hm [Hl Hs]. destruct l as [|e l]; [discriminate|]. pose proof (Forall_inv Hs) as He. apply Forall_inv_tail in Hs. cbn [getEntry_loop nth Nat.ltb Nat.leb andb]. rewrite mac_compare by assumption.
  destruct (list_eq_dec Z.eq_dec (macAddr e) mac) as [E|E].
  - cbn [lookup]. destruct (list_eq_dec Z.eq_dec (macAddr e) mac); [reflexivity|contradiction].
  - apply (getEntry_loop_spec mac rest l [e] 0 Hm Hs); [discriminate| |cbn [lookup]; destruct (list_eq_dec Z.eq_dec (macAddr e) mac); [contradiction|reflexivity]].
    split; [cbn; lia|]. split; intros j Hj; [cbn in Hj; replace j with 0%nat by lia; lia|lia].
Qed.

Lemma nth_set {A} (l : list A) i j v d : (i < length l)%nat -> nth j (set l i v) d = if (j =? i)%nat then v else nth j l d.
Proof.
  revert i j. induction l as [|x l IH]; intros i j Hi; [cbn in Hi; lia|]. destruct i as [|i]; destruct j as [|j]; cbn [set nth Nat.eqb]; try reflexivity. apply IH. cbn in Hi. lia.
Qed.

Lemma sized_set l i t mac : table_sized l -> length mac = 6%nat -> table_sized (set l i (Entry t mac)).
Proof.
  intros [Hl Hs] Hm. split; [now rewrite length_set|]. clear Hl. revert i. induction Hs as [|e l He Hs IH]; intros i; [destruct i; constructor|].
  destruct i as [|i]; cbn [set]; constructor; auto.
Qed.

(** Replacing an entry by its client's own, or by one that is not there yet. *)
Lemma table_ok_set l i t mac : table_ok l -> length mac = 6%nat -> (i < length l)%nat -> (lookup mac l = Some i \/ lookup mac l = None) -> table_ok (set l i (Entry t mac)).
Proof.
  intros [Hs Hu] Hm Hi Hlook. split; [now apply sized_set|]. intros j Hj Hused. rewrite length_set in Hj. rewrite nth_set in Hused |- * by exact Hi.
  assert (forall k, (k < i)%nat -> macAddr (nth k l (Entry 0 [])) <> mac) as Hbefore.
  { intros k Hk. destruct Hlook as [E|E]; [now apply lookup_some in E as (_ & _ & H3); apply H3|apply lookup_none with (1 := E); lia]. }
  destruct (Nat.eqb_spec j i) as [->|Hne].
  - cbn [macAddr]. apply lookup_unique; [now rewrite length_set|rewrite nth_set, Nat.eqb_refl by exact Hi; reflexivity|].
    intros k Hk. rewrite nth_set by exact Hi. destruct (Nat.eqb_spec k i); [lia|]. now apply Hbefore.
  - specialize (Hu j Hj Hused). apply lookup_some in Hu as (_ & _ & H3).
    apply lookup_unique; [now rewrite length_set|rewrite nth_set by exact Hi; destruct (Nat.eqb_spec j i); [contradiction|reflexivity]|].
    intros k Hk. rewrite nth_set by exact Hi. destruct (Nat.eqb_spec k i) as [->|]; [|now apply H3]. cbn [macAddr]. intros E.
    destruct Hlook as [El|El]; [apply lookup_some in El as (_ & El & _); apply (H3 i Hk); congruence|apply (lookup_none _ _ El j Hj); congruence].
Qed.

(** The time in the clock's answer. *)
Definition clock (ts : list Z) : Z := i64 (le_combine (firstn 8 (mem_copy (repeat 0 16) 0 ts))).

(** The entries after a client was heard of, and its index. *)
Definition heard (l : list entry) (mac : list Z) (create : bool) (now : Z) (l' : list entry) (i : Z) : Prop :=
  (exists k, i = Z.of_nat k /\ (k < dhcpServer_NUM_ENTRIES)%nat /\ l' = set l k (Entry now mac) /\
     (lookup mac l = Some k \/ create = true /\ lookup mac l = None /\ oldest l k)) \/
  (i = -1 /\ l' = l /\ create = false /\ lookup mac l = None).

Lemma getEntry_spec self mac rest create w : length mac = 6%nat -> table_ok (entries self) ->
  exists r ts w' l' i, dhcpServer_getEntry self (mac ++ rest) create w = (Done (with_entries self l', i), w') /\
    adds w w' [(Sys_clock_gettime CLOCK_MONOTONIC, Answer r ts)] /\ heard (entries self) mac create (clock ts) l' i /\ table_ok l'.
Proof.
  intros Hm Hok. unfold dhcpServer_getEntry. destruct (syscall_out_spec (Sys_clock_gettime CLOCK_MONOTONIC) 16 w) as (r & ts & w' & E & Ha & _). rewrite (bind_done _ _ _ _ _ E).
  pose proof (getEntry_loop_table mac rest (entries self) Hm (proj1 Hok)) as Hl. exists r, ts, w'.
  assert (with_entries self (entries self) = self) as Hself by (destruct self; reflexivity).
  destruct Hok as [[Hlen Hsz] Hu]. pose proof (conj (conj Hlen Hsz) Hu : table_ok (entries self)) as Hok.
  destruct (getEntry_loop _ _ _ _ _) as [i|k].
  - pose proof (lookup_some _ _ _ Hl) as (Hi & Hmac & _). exists (set (entries self) i (Entry (clock ts) mac)), (Z.of_nat i). rewrite Hmac. split; [reflexivity|]. split; [exact Ha|].
    split; [left; exists i; split; [reflexivity|split; [lia|split; [reflexivity|now left]]]|apply table_ok_set; auto].
  - destruct Hl as [Hno Hold]. destruct create; cbn [negb].
    + exists (set (entries self) k (Entry (clock ts) mac)), (Z.of_nat k). assert (firstn 6 (mac ++ rest) = mac) as -> by (rewrite firstn_app_l, firstn_all2 by lia; reflexivity). split; [reflexivity|]. split; [exact Ha|].
      destruct Hold as [Hk Hold]. split; [left; exists k; split; [reflexivity|split; [lia|split; [reflexivity|right; split; [reflexivity|split; [exact Hno|exact (conj Hk Hold)]]]]]|apply table_ok_set; auto].
    + exists (entries self), (-1). rewrite Hself. split; [reflexivity|]. split; [exact Ha|]. split; [right; repeat split; assumption|exact Hok].
Qed.

(** ** A packet *)

(** The message that answers a client whose entry is [i], and where it goes. *)
Definition client_mac (header : list Z) : list Z := field header header_clientHwAddr 6.
Definition address (self : dhcpServer) (i : Z) : list Z := firstn 3 (le_split 4 (serverIp self)) ++ [dhcpServer_FIRST_OCTET + i].
Definition dns_server (wanDnsIp : Z) : list Z := if wanDnsIp =? 0 then [8; 8; 8; 8] else le_split 4 wanDnsIp.
Definition server_message (self : dhcpServer) (header : list Z) (isDiscover : bool) (i wanDnsIp : Z) : Bootp.message :=
  let ip := le_split 4 (serverIp self) in
  Bootp.Message 2 (field header header_identifier 4) [0; 0] [0; 0; 0; 0] (address self i) ip (client_mac header ++ repeat 0 10)
    [(53, [if isDiscover then 2 else 5]); (54, ip); (1, [255; 255; 255; 0]); (3, ip); (51, [0; 0; 2; 88]); (6, dns_server wanDnsIp)] [255; 0; 0].
Definition destination (self : dhcpServer) (header : list Z) (i : Z) : list Z :=
  if list_eq_dec Z.eq_dec (field header header_clientIp 4) (address self i) then address self i else [255; 255; 255; 255].

(** What the server does with a packet's type, header and options. *)
Definition answered (self : dhcpServer) (header : list Z) (opts : list Bootp.opt) (wanDnsIp : Z) (self' : dhcpServer) (es : list event) : Prop :=
  let ignored := self' = self /\ es = [] in
  match Bootp.last_opt dhcp_MESSAGE_TYPE (fun n => n =? 1) opts with
  | Some [type] =>
      if (type =? dhcp_DISCOVER) || (type =? dhcp_REQUEST) then
        let isDiscover := type =? dhcp_DISCOVER in
        exists r ts l' i sent, self' = with_entries self l' /\ heard (entries self) (client_mac header) isDiscover (clock ts) l' i /\ table_ok l' /\
          es = (Sys_clock_gettime CLOCK_MONOTONIC, Answer r ts) ::
            if i <? 0 then []
            else [(Sys_sendto (fd self) (Bootp.encode (server_message self header isDiscover i wanDnsIp)) MSG_NOSIGNAL (sockaddr_in 68 (destination self header i)), Answer sent [])]
      else ignored
  | _ => ignored
  end.

Lemma reply_encode isDiscover xid yourIp ip dns mac :
  reply isDiscover xid yourIp ip dns mac =
  Bootp.encode (Bootp.Message 2 xid [0; 0] [0; 0; 0; 0] yourIp ip (mac ++ repeat 0 10)
    [(53, [if isDiscover then 2 else 5]); (54, ip); (1, [255; 255; 255; 0]); (3, ip); (51, [0; 0; 2; 88]); (6, dns)] [255; 0; 0]).
Proof.
  rewrite <- header_encode. unfold reply. f_equal. cbn [flat_map]. unfold Bootp.encode_opt. cbn [fst snd]. rewrite <- !app_assoc. destruct isDiscover; reflexivity.
Qed.

Lemma field_bytes l i n : bytes l -> bytes (field l i n).
Proof. intros Hb. now apply bytes_firstn, bytes_skipn. Qed.

Lemma length_packet_field l i n : (i + n <= length l)%nat -> length (field l i n) = n.
Proof. intros Hn. unfold field. rewrite length_firstn, length_skipn. lia. Qed.

Section Packet.
Context (buffer : list Z) (self : dhcpServer) (wanDnsIp : Z) (header : list Z) (opts : list Bootp.opt) (tail : list Z).
Context (Hsize : Z.of_nat (length buffer) = buffer_SIZE) (Hbytes : bytes buffer) (Hheader : Z.of_nat (length header) = dhcp_header_SIZE).
Context (Hok : Forall Bootp.opt_ok opts) (Hstuck : Bootp.stuck tail) (Htable : table_ok (entries self)).
Local Notation packet := (header ++ flat_map Bootp.encode_opt opts ++ tail).
Context (Hpacket : bytes packet) (Hroom : Z.of_nat (length packet) + 2 <= buffer_SIZE).

Lemma onFd_spec r a t : 0 <= r -> exists self' es w',
  dhcpServer_onFd buffer self wanDnsIp (World (Answer r packet :: a) t) = (Done (mem_copy buffer 0 packet, self'), w') /\
  adds (World (Answer r packet :: a) t) w' ((Sys_read (fd self) buffer_SIZE, Answer (Z.of_nat (length packet)) packet) :: es) /\
  answered self header opts wanDnsIp self' es.
Proof using All.
  intros Hr. unfold dhcpServer_onFd, sys_read. set (w0 := World (Answer r packet :: a) t). set (event0 := (Sys_read (fd self) buffer_SIZE, Answer (Z.of_nat (length packet)) packet)).
  set (w1 := World a (t ++ [event0])). assert (adds w0 w1 [event0]) as A1 by reflexivity.
  rewrite (bind_done _ _ _ (Z.of_nat (length packet), packet) w1) by (apply syscall_in_answer; [exact Hr|exact Hpacket|lia]). clearbody w0 w1. cbv beta iota zeta.
  assert (length header = 240%nat) as Hh by (unfold dhcp_header_SIZE in Hheader; lia).
  destruct (Z.ltb_spec (Z.of_nat (length packet)) dhcp_header_SIZE) as [Hlt|_]; [exfalso; rewrite length_app in Hlt; lia|].
  assert (bytes tail) as Hbt by (apply bytes_app in Hpacket as [_ Hp]; now apply bytes_app in Hp).
  pose proof (scan_packet server_option None buffer header opts tail w1 Hok Hstuck Hbt Hbytes Hsize Hroom) as Hscan. rewrite Hheader in Hscan. rewrite (bind_done _ _ _ _ _ Hscan).
  rewrite (visited_keep server_option (fun x => x) dhcp_MESSAGE_TYPE (fun n => n =? 1)) by reflexivity.
  pose proof (last_offset_data dhcp_MESSAGE_TYPE (fun n => n =? 1) opts header (tail ++ skipn (length packet) buffer) (mem_copy buffer 0 packet)) as Hlast.
  rewrite mem_copy_head in Hlast by lia. specialize (Hlast ltac:(now rewrite <- !app_assoc)). rewrite Hheader in Hlast. unfold answered.
  pose proof (fun x data => load_kept buffer packet header opts tail dhcp_MESSAGE_TYPE (fun n => n =? 1) x data w1 eq_refl ltac:(lia) Hsize) as Hload. rewrite Hheader in Hload.
  destruct (last_offset dhcp_MESSAGE_TYPE _ _ opts) as [x|], (Bootp.last_opt dhcp_MESSAGE_TYPE _ opts) as [data|]; try contradiction;
    [|exists self, [], w1; split; [reflexivity|]; split; [exact A1|]; split; reflexivity].
  destruct (Hload x data eq_refl eq_refl) as [Hlen Hl]. apply Z.eqb_eq in Hlen. destruct data as [|type [|? ?]]; cbn [List.length] in Hlen; try lia.
  destruct (Hl 1%nat ltac:(cbn; lia)) as [Hl1 _]. cbn [firstn le_combine] in Hl1. replace (type + 256 * 0) with type in Hl1 by lia. rewrite (bind_done _ _ _ _ _ Hl1).
  rewrite <- negb_orb. destruct ((type =? dhcp_DISCOVER) || (type =? dhcp_REQUEST)); cbn [negb]; [|exists self, [], w1; split; [reflexivity|]; split; [exact A1|]; split; reflexivity].
  clear Hl Hl1 Hload Hlast Hscan. pose proof (mem_copy_head buffer packet ltac:(lia)) as HB. rewrite <- app_assoc in HB.
  set (more := (flat_map Bootp.encode_opt opts ++ tail) ++ skipn (length packet) buffer) in *.
  assert (skipn header_clientHwAddr (mem_copy buffer 0 packet) = client_mac header ++ (skipn 34 header ++ more)) as Emac.
  { rewrite HB, skipn_head by (unfold header_clientHwAddr; lia). unfold client_mac, field, header_clientHwAddr. rewrite app_assoc. f_equal.
    rewrite <- (firstn_skipn 6 (skipn 28 header)) at 1. f_equal. rewrite skipn_skipn. reflexivity. }
  rewrite Emac. destruct (getEntry_spec self (client_mac header) (skipn 34 header ++ more) (type =? dhcp_DISCOVER) w1) as (r2 & ts & w2 & l' & i & E & A2 & Hheard & Hok').
  { unfold client_mac. apply length_packet_field. unfold header_clientHwAddr. lia. }
  { exact Htable. }
  rewrite (bind_done _ _ _ _ _ E). cbv beta iota. destruct (i <? 0) eqn:Ei.
  { exists (with_entries self l'), [(Sys_clock_gettime CLOCK_MONOTONIC, Answer r2 ts)], w2. split; [reflexivity|]. split; [exact (adds_cons _ _ _ _ _ A1 A2)|].
    exists r2, ts, l', i, 0. rewrite Ei. split; [reflexivity|]. split; [exact Hheard|]. split; [exact Hok'|reflexivity]. }
  assert (0 <= i < 215) as Hi.
  { apply Z.ltb_ge in Ei. destruct Hheard as [(k & -> & Hk & _)|(-> & _)]; unfold dhcpServer_NUM_ENTRIES in *; lia. }
  rewrite (wrap_small 8) by (unfold dhcpServer_FIRST_OCTET; lia). change (serverIp (with_entries self l')) with (serverIp self). change (fd (with_entries self l')) with (fd self).
  fold (address self i) (dns_server wanDnsIp). rewrite reply_encode. rewrite HB. rewrite !field_head by (unfold header_identifier, header_clientHwAddr; lia). fold (client_mac header).
  assert ((mem_compare (skipn header_clientIp (header ++ more)) (address self i) 4 =? 0) = (if list_eq_dec Z.eq_dec (field header header_clientIp 4) (address self i) then true else false)) as ->.
  { assert (length (address self i) = 4%nat) as La by reflexivity.
    assert (4 <= length (skipn header_clientIp (header ++ more)))%nat as Ls by (rewrite length_skipn, length_app; unfold header_clientIp; lia).
    assert (firstn 4 (skipn header_clientIp (header ++ more)) = field header header_clientIp 4) as Ef by (apply (field_head header more header_clientIp 4); unfold header_clientIp; lia).
    destruct (Z.eqb_spec (mem_compare (skipn header_clientIp (header ++ more)) (address self i) 4) 0) as [Em|Em]; rewrite mem_compare_zero in Em by lia;
      rewrite Ef, (firstn_all2 (address self i)) in Em by lia; destruct (list_eq_dec Z.eq_dec (field header header_clientIp 4) (address self i)); congruence. }
  unfold sys_sendto. call sent w3 A3.
  exists (with_entries self l'), [(Sys_clock_gettime CLOCK_MONOTONIC, Answer r2 ts); (Sys_sendto (fd self) (Bootp.encode (server_message self header (type =? dhcp_DISCOVER) i wanDnsIp)) MSG_NOSIGNAL (sockaddr_in 68 (destination self header i)), Answer sent [])], w3.
  split; [reflexivity|]. split.
  - refine (adds_cons _ _ _ _ _ A1 (adds_cons _ _ _ _ _ A2 _)). unfold destination, server_message. destruct (list_eq_dec Z.eq_dec (field header header_clientIp 4) (address self i)); exact A3.
  - exists r2, ts, l', i, sent. rewrite Ei. split; [reflexivity|]. split; [exact Hheard|]. split; [exact Hok'|reflexivity].
Qed.
End Packet.

(** C23: Answering a packet: for a packet of any header and options (and any rest behind
    them) the server reads it, and unless its last one byte message type is DISCOVER or
    REQUEST does nothing else.  Otherwise the clock is read, the client's entry is found
    (or, for a DISCOVER, given away), and one message is sent: an OFFER or ACK that is
    well formed, repeats the transaction and the hardware address, names the entry's
    address in the server's network and the router, mask, lease time and DNS server, and
    goes to that address if the client already uses it, else to everyone. *)
Theorem dhcpServer_onFd_correct buffer self wanDnsIp header opts tail r a t :
  Z.of_nat (length buffer) = buffer_SIZE -> bytes buffer -> Z.of_nat (length header) = dhcp_header_SIZE -> Forall Bootp.opt_ok opts -> Bootp.stuck tail ->
  table_ok (entries self) -> let packet := header ++ flat_map Bootp.encode_opt opts ++ tail in
  bytes packet -> Z.of_nat (length packet) + 2 <= buffer_SIZE -> 0 <= r ->
  exists self' es w',
  dhcpServer_onFd buffer self wanDnsIp (World (Answer r packet :: a) t) = (Done (mem_copy buffer 0 packet, self'), w') /\
  adds (World (Answer r packet :: a) t) w' ((Sys_read (fd self) buffer_SIZE, Answer (Z.of_nat (length packet)) packet) :: es) /\
  answered self header opts wanDnsIp self' es.
Proof. intros. now apply onFd_spec. Qed.

Lemma table_ok_unused l : table_sized l -> Forall (fun e => timeSec e = 0) l -> table_ok l.
Proof. intros Hs Hu. split; [exact Hs|]. intros i Hi Hne. exfalso. apply Hne. apply (proj1 (Forall_forall _ _) Hu). now apply nth_In. Qed.

Lemma init_table self ifIndex serverIp w self' w' : table_sized (entries self) -> dhcpServer_init self ifIndex serverIp w = (Done self', w') -> table_ok (entries self').
Proof.
  intros [Hl Hm] E. unfold dhcpServer_init in E.
  set (es := map (fun e => Entry 0 (macAddr e)) (entries self)) in E.
  assert (table_ok es) as Hes.
  { apply table_ok_unused; [split|].
    - unfold es. now rewrite length_map.
    - unfold es. apply Forall_map. eapply Forall_impl; [|exact Hm]. cbn. auto.
    - unfold es. apply Forall_map. apply Forall_forall. reflexivity. }
  clearbody es. unfold CHECK in E.
  repeat match type of E with
  | bind (syscall ?c) _ ?w0 = _ => destruct (syscall_spec c w0) as (? & ? & E1 & _); rewrite (bind_done _ _ _ _ _ E1) in E; clear E1
  | bind (syscall_out ?c ?n) _ ?w0 = _ => destruct (syscall_out_spec c n w0) as (? & ? & ? & E1 & _); rewrite (bind_done _ _ _ _ _ E1) in E; clear E1
  | bind (if ?b then _ else _) _ _ = _ => destruct b; [rewrite bind_pure in E|discriminate]
  | _ => progress cbv beta iota zeta in E
  end.
  unfold pure in E. injection E as <- _. exact Hes.
Qed.

(** Any packet at all. *)
Lemma onFd_table buffer self wanDnsIp r packet a t : Z.of_nat (length buffer) = buffer_SIZE -> bytes buffer -> table_ok (entries self) -> bytes packet -> Z.of_nat (length packet) + 2 <= buffer_SIZE ->
  exists buffer' self' w', dhcpServer_onFd buffer self wanDnsIp (World (Answer r packet :: a) t) = (Done (buffer', self'), w') /\ table_ok (entries self').
Proof.
  intros Hs Hb Ht Hp Hn.
  assert (forall n data w, sys_read (fd self) buffer_SIZE (World (Answer r packet :: a) t) = (Done (n, data), w) -> n < dhcp_header_SIZE ->
    exists buffer' self' w', dhcpServer_onFd buffer self wanDnsIp (World (Answer r packet :: a) t) = (Done (buffer', self'), w') /\ table_ok (entries self')) as Hshort.
  { intros n data w E Hlt. exists (mem_copy buffer 0 data), self, w. unfold dhcpServer_onFd. rewrite (bind_done _ _ _ _ _ E). cbv beta iota zeta. destruct (Z.ltb_spec n dhcp_header_SIZE); [|lia]. split; [reflexivity|exact Ht]. }
  destruct (Z.lt_ge_cases r 0) as [Hr|Hr].
  { unfold sys_read, syscall_in, kernel, bind, filled, pure in Hshort. cbn [answers ret] in Hshort. destruct (Z.ltb_spec r 0); [|lia]. eapply Hshort; [reflexivity|unfold dhcp_header_SIZE; cbn [ret]; lia]. }
  pose proof (syscall_in_answer (Sys_read (fd self) buffer_SIZE) (Z.to_nat buffer_SIZE) r packet a t Hr Hp ltac:(lia)) as Eread.
  destruct (Z.lt_ge_cases (Z.of_nat (length packet)) dhcp_header_SIZE) as [Hlt|Hge]; [exact (Hshort _ _ _ Eread Hlt)|]. clear Hshort.
  destruct (decompose (skipn 240 packet) (bytes_skipn 240 _ Hp)) as (opts & tail & E & Hok & Hst).
  assert (packet = firstn 240 packet ++ flat_map Bootp.encode_opt opts ++ tail) as Epk by (rewrite <- E; symmetry; apply firstn_skipn).
  assert (Z.of_nat (length (firstn 240 packet)) = dhcp_header_SIZE) as Hh by (unfold dhcp_header_SIZE in *; rewrite length_firstn; lia).
  pose proof (onFd_spec buffer self wanDnsIp (firstn 240 packet) opts tail Hs Hb Hh Hok Hst Ht) as Hspec. rewrite <- Epk in Hspec.
  destruct (Hspec Hp Hn r a t Hr) as (self' & es & w' & E1 & _ & Hans). exists (mem_copy buffer 0 packet), self', w'. split; [exact E1|].
  unfold answered in Hans. destruct (Bootp.last_opt _ _ opts) as [[|type [|? ?]]|]; try (destruct Hans as [-> _]; exact Ht).
  destruct ((type =? dhcp_DISCOVER) || (type =? dhcp_REQUEST)); [|destruct Hans as [-> _]; exact Ht].
  destruct Hans as (r2 & ts & l' & i & sent & -> & _ & Hok' & _). exact Hok'.
Qed.


(** ** Instances of the theorems *)

Definition fresh_table : list entry := repeat (Entry 0 [0; 0; 0; 0; 0; 0]) dhcpServer_NUM_ENTRIES.
Definition demo_server : dhcpServer := DhcpServer (repeat 0 40) (le_combine [10; 123; 0; 1]) 9 101 fresh_table.
(** A client's DISCOVER: the header with a transaction number and a hardware address. *)
Definition demo_header : list Z := dhcp_header dhcp_BOOTREQUEST [1; 2; 3; 4] [128; 0] [0; 0; 0; 0] [0; 0; 0; 0] [0; 0; 0; 0] ([2; 4; 6; 8; 10; 12] ++ repeat 0 10).
Definition demo_packet : list Z := demo_header ++ flat_map Bootp.encode_opt [(dhcp_MESSAGE_TYPE, [dhcp_DISCOVER])] ++ [dhcp_END].

Lemma fresh_ok : table_ok fresh_table.
Proof. apply table_ok_unused; [split; [reflexivity|]|]; apply Forall_forall; intros e He; apply repeat_spec in He; now subst. Qed.

Lemma demo_bytes : bytes demo_packet.
Proof. apply Forall_forall. intros x Hx. vm_compute in Hx. unfold is_byte. repeat (destruct Hx as [<-|Hx]; [lia|]). contradiction. Qed.

Lemma dhcpServer_onFd_correct_witness :
  let buffer := repeat 0 (Z.to_nat buffer_SIZE) in
  table_ok (entries demo_server) /\
  exists self' es w',
  dhcpServer_onFd buffer demo_server 0 (World [Answer 1 demo_packet] []) = (Done (mem_copy buffer 0 demo_packet, self'), w') /\
  adds (World [Answer 1 demo_packet] []) w' ((Sys_read 9 buffer_SIZE, Answer (Z.of_nat (length demo_packet)) demo_packet) :: es) /\
  answered demo_server demo_header [(dhcp_MESSAGE_TYPE, [dhcp_DISCOVER])] 0 self' es.
Proof.
  intros buffer. split; [exact fresh_ok|]. assert (length demo_packet = 244%nat) as Hl by reflexivity.
  apply (dhcpServer_onFd_correct buffer demo_server 0 demo_header [(dhcp_MESSAGE_TYPE, [dhcp_DISCOVER])] [dhcp_END] 1 [] []).
  - unfold buffer. rewrite repeat_length. reflexivity.
  - apply bytes_repeat. unfold is_byte. lia.
  - reflexivity.
  - constructor; [|constructor]. unfold Bootp.opt_ok. cbn [fst snd]. split; [unfold is_byte, dhcp_MESSAGE_TYPE; lia|]. split; [repeat constructor; unfold is_byte, dhcp_DISCOVER; lia|cbn; lia].
  - exact I.
  - exact fresh_ok.
  - exact demo_bytes.
  - fold demo_packet. rewrite Hl. unfold buffer_SIZE. lia.
  - lia.
Defined.

