(* ===== verification/DhcpClient.v ===== *)
(** * The router's DHCP client ([src/router/router/dhcpClient.c])

    A timer drives the client: it renews its lease once, or gives it up and broadcasts a
    DISCOVER from a packet socket.  An OFFER is answered by a REQUEST; an ACK configures the
    interface over netlink.  All of it shares the router's buffer: the options of an ACK are
    read again after netlink answers were received over it. *)
From Stdlib Require Import ZArith List Lia Bool String.
From S2P Require Import Prelude Mem Util RouterSys Netlink Config Dhcp.
Import ListNotations.

Definition AF_PACKET : Z := 17.
Definition ETH_P_IP : Z := 0x0800.
Definition RTA_GATEWAY : Z := 5.
Definition RTA_PRIORITY : Z := 6.
Definition RT_SCOPE_UNIVERSE : Z := 0.

Record dhcpClient := DhcpClient {
  fd : Z; packetFd : Z; timerFd : Z; dnsIp : Z; currentIdentifier : Z; leasedIp : Z; renewServerIp : Z; ifIndex : Z; routePriority : Z;
  ifName : list Z; ifMacAddress : list Z; leasedIpNetmask : Z }.

Definition with_identifier (self : dhcpClient) (x : Z) : dhcpClient :=
  DhcpClient (fd self) (packetFd self) (timerFd self) (dnsIp self) x (leasedIp self) (renewServerIp self) (ifIndex self) (routePriority self) (ifName self) (ifMacAddress self) (leasedIpNetmask self).
Definition with_renewServerIp (self : dhcpClient) (x : Z) : dhcpClient :=
  DhcpClient (fd self) (packetFd self) (timerFd self) (dnsIp self) (currentIdentifier self) (leasedIp self) x (ifIndex self) (routePriority self) (ifName self) (ifMacAddress self) (leasedIpNetmask self).
Definition with_leasedIp (self : dhcpClient) (x : Z) : dhcpClient :=
  DhcpClient (fd self) (packetFd self) (timerFd self) (dnsIp self) (currentIdentifier self) x (renewServerIp self) (ifIndex self) (routePriority self) (ifName self) (ifMacAddress self) (leasedIpNetmask self).
Definition with_dnsIp (self : dhcpClient) (x : Z) : dhcpClient :=
  DhcpClient (fd self) (packetFd self) (timerFd self) x (currentIdentifier self) (leasedIp self) (renewServerIp self) (ifIndex self) (routePriority self) (ifName self) (ifMacAddress self) (leasedIpNetmask self).
Definition with_netmask (self : dhcpClient) (x : Z) : dhcpClient :=
  DhcpClient (fd self) (packetFd self) (timerFd self) (dnsIp self) (currentIdentifier self) (leasedIp self) (renewServerIp self) (ifIndex self) (routePriority self) (ifName self) (ifMacAddress self) x.

(** Addresses are numbers in the machine's order. *)
Definition ip_bytes (ip : Z) : list Z := le_split 4 ip.
Definition be16 (x : Z) : list Z := rev (le_split 2 x).

Definition set_timeout (timer sec : Z) : M unit :=
  let! r := syscall (Sys_timerfd_settime timer sec 0) in
  CHECK (r =? 0).

Definition dhcpClient_init (ifIndex routePriority : Z) : M dhcpClient :=
  let! fd := syscall (Sys_socket AF_INET SOCK_DGRAM 0) in
  CHECK (0 <? fd);;
  let ifreq := mem_copy (repeat 0 ifreq_SIZE) IFNAMSIZ (le_split 4 ifIndex) in
  let! (r, data) := syscall_out (Sys_ioctl fd SIOCGIFNAME ifreq) ifreq_SIZE in
  let ifreq := mem_copy ifreq 0 data in
  CHECK (r =? 0);;
  let! (r, data) := syscall_out (Sys_ioctl fd SIOCGIFHWADDR ifreq) ifreq_SIZE in
  let ifreq := mem_copy ifreq 0 data in
  CHECK (r =? 0);;
  let ifName := firstn IFNAMSIZ ifreq in
  let ifMacAddress := firstn 6 (skipn (IFNAMSIZ + 2) ifreq) in
  let! r := syscall (Sys_setsockopt fd SOL_SOCKET SO_BINDTODEVICE ifName) in
  CHECK (r =? 0);;
  let! r := syscall (Sys_setsockopt fd SOL_SOCKET SO_BROADCAST (le_split 4 1)) in
  CHECK (r =? 0);;
  let! r := syscall (Sys_bind fd (sockaddr_in 68 [0; 0; 0; 0])) in
  CHECK (r =? 0);;
  let! packetFd := syscall (Sys_socket AF_PACKET SOCK_DGRAM 0) in
  CHECK (0 <? packetFd);;
  let! timerFd := syscall (Sys_timerfd_create CLOCK_MONOTONIC 0) in
  CHECK (0 <? timerFd);;
  set_timeout timerFd 10;;
  pure (DhcpClient fd packetFd timerFd 0 0 0 0 ifIndex routePriority ifName ifMacAddress 0).

(** [requestMsg] of the timer handler: 252 bytes. *)
Definition timer_request (type : Z) (identifier : Z) (flags clientIp mac : list Z) : list Z :=
  dhcp_header dhcp_BOOTREQUEST (rev (le_split 4 identifier)) flags clientIp (repeat 0 4) (repeat 0 4) (mac ++ repeat 0 10) ++
  dhcp_option dhcp_MESSAGE_TYPE [type] ++
  dhcp_option dhcp_PARAM_REQUEST_LIST [dhcp_SUBNET_MASK; dhcp_ROUTER; dhcp_DNS] ++
  [dhcp_END] ++ [0; 0; 0].
Definition requestMsg_SIZE : Z := 252.

(** [ipUdpHeader]. *)
Definition ipUdpHeader_SIZE : Z := 28.
Definition ipUdpHeader : list Z :=
  [0x45; 0] ++ be16 (ipUdpHeader_SIZE + requestMsg_SIZE) ++ be16 0 ++ be16 (2 << 13) ++ [64; 17] ++ be16 0x39d6 ++ ip_bytes 0 ++ ip_bytes 0xFFFFFFFF ++
  be16 68 ++ be16 67 ++ be16 (8 + requestMsg_SIZE) ++ be16 0.

Definition sockaddr_ll (protocol : list Z) (ifIndex : Z) (halen : Z) (addr : list Z) : list Z :=
  le_split 2 AF_PACKET ++ protocol ++ le_split 4 ifIndex ++ le_split 2 0 ++ [0; halen] ++ addr ++ repeat 0 (8 - length addr).

(** The interface's name up to its terminator; without one the code reads on. *)
Definition name_text (self : dhcpClient) : M (list Z) :=
  let n := util_cstrLen (ifName self) in
  if (length (ifName self) <=? n)%nat then undefined else pure (firstn n (ifName self)).

Definition print_lost (self : dhcpClient) : M unit :=
  let print := (repeat 0 (16 + 15)%nat, (16 + 15)%nat) in
  let print := prepend print (str " lost IP lease" ++ [10]) in
  let! name := name_text self in
  let print := prepend print name in
  writeAll util_STDERR (text_of print);; pure tt.

Definition delAddr_request (self : dhcpClient) : list Z :=
  addrRequest RTM_DELADDR (NLM_F_REQUEST .| NLM_F_ACK) 0 (ifIndex self) (ip_bytes (leasedIp self)).

Definition dhcpClient_onTimerFd (buffer : list Z) (self : dhcpClient) (rtnetlinkFd : Z) : M (list Z * dhcpClient) :=
  let! (n, expirations) := syscall_in (Sys_read (timerFd self) 8) 8 in
  CHECK (n =? 8);;
  let self := with_identifier self (u32 (currentIdentifier self + 1)) in
  let identifier := currentIdentifier self in
  let mac := ifMacAddress self in
  let! (buffer, self) :=
    if negb (leasedIp self =? 0) && negb (renewServerIp self =? 0) then
      let requestMsg := timer_request dhcp_REQUEST identifier [0; 0] (ip_bytes (leasedIp self)) mac in
      sys_sendto (fd self) requestMsg MSG_NOSIGNAL (sockaddr_in 67 (ip_bytes (renewServerIp self)));;
      pure (buffer, with_renewServerIp self 0)
    else
      let! (buffer, self) :=
        if negb (leasedIp self =? 0) then
          print_lost self;;
          let! buffer := netlink_talk buffer rtnetlinkFd [delAddr_request self] in
          pure (buffer, with_leasedIp self 0)
        else pure (buffer, self) in
      let requestMsg := timer_request dhcp_DISCOVER identifier (be16 0x8000) (repeat 0 4) mac in
      let addr := sockaddr_ll (be16 ETH_P_IP) (ifIndex self) 6 (repeat 0xFF 6) in
      syscall (Sys_sendmsg (packetFd self) addr [ipUdpHeader; requestMsg] MSG_NOSIGNAL);;
      pure (buffer, self) in
  set_timeout (timerFd self) 10;;
  pure (buffer, self).

(** ** Packets *)

Record client_options := ClientOptions { messageType : option Z; subnetMask : option Z; router : option Z; dns : option Z; leaseTime : option Z }.
Definition no_options : client_options := ClientOptions None None None None None.

(** The [switch] over the options. *)
Definition client_option (o : client_options) (code length current : Z) : client_options :=
  if code =? dhcp_MESSAGE_TYPE then ClientOptions (keep (fun n => n =? 1) (messageType o) length current) (subnetMask o) (router o) (dns o) (leaseTime o)
  else if code =? dhcp_SUBNET_MASK then ClientOptions (messageType o) (keep (fun n => n =? 4) (subnetMask o) length current) (router o) (dns o) (leaseTime o)
  else if code =? dhcp_ROUTER then ClientOptions (messageType o) (subnetMask o) (keep (fun n => 4 <=? n) (router o) length current) (dns o) (leaseTime o)
  else if code =? dhcp_DNS then ClientOptions (messageType o) (subnetMask o) (router o) (keep (fun n => 4 <=? n) (dns o) length current) (leaseTime o)
  else if code =? dhcp_LEASE_TIME then ClientOptions (messageType o) (subnetMask o) (router o) (dns o) (keep (fun n => n =? 4) (leaseTime o) length current)
  else o.

(** The data of an option that was found. *)
Definition data_at (buffer : list Z) (off : Z) (n : nat) : list Z := field buffer (Z.to_nat (off + 2)) n.

(** The REQUEST that answers an OFFER. *)
Definition offer_request (self : dhcpClient) (leaseTime serverIp yourIp : list Z) : list Z :=
  dhcp_header dhcp_BOOTREQUEST (rev (le_split 4 (currentIdentifier self))) (be16 0x8000) (repeat 0 4) (repeat 0 4) (repeat 0 4) (ifMacAddress self ++ repeat 0 10) ++
  dhcp_option dhcp_MESSAGE_TYPE [dhcp_REQUEST] ++
  dhcp_option dhcp_PARAM_REQUEST_LIST [dhcp_SUBNET_MASK; dhcp_ROUTER; dhcp_DNS] ++
  dhcp_option dhcp_LEASE_TIME leaseTime ++
  dhcp_option dhcp_SERVER_IDENTIFIER serverIp ++
  dhcp_option dhcp_REQUESTED_IP_ADDRESS yourIp ++
  [dhcp_END] ++ [0].

Definition popcount32 (x : Z) : Z := fold_left Z.add (map (fun i => (x >> Z.of_nat i) & 1) (seq 0 32)) 0.

(** Half of the lease time, rounded up in 32 bits. *)
Definition half_lease (leaseTimeValue : Z) : Z := u32 (leaseTimeValue + 1) / 2.

Definition print_leased (self : dhcpClient) : M unit :=
  let ip := ip_bytes (leasedIp self) in
  let print := (repeat 0 (16 + 12 + 19 + 1)%nat, (16 + 12 + 19 + 1)%nat) in
  let print := prepend_num (prepend print [10]) (leasedIpNetmask self) in
  let print := prepend_num (prepend print (str "/")) (get ip 3) in
  let print := prepend_num (prepend print (str ".")) (get ip 2) in
  let print := prepend_num (prepend print (str ".")) (get ip 1) in
  let print := prepend_num (prepend print (str ".")) (get ip 0) in
  let print := prepend print (str " leased IP: ") in
  let! name := name_text self in
  let print := prepend print name in
  writeAll util_STDERR (text_of print);; pure tt.

Definition newAddr_request (self : dhcpClient) (yourIp : list Z) : list Z :=
  addrRequest RTM_NEWADDR (NLM_F_REQUEST .| NLM_F_ACK .| NLM_F_CREATE .| NLM_F_REPLACE) (leasedIpNetmask self) (ifIndex self) yourIp.

(** [struct routeRequest]; the scope is the universe, the protocol is not set. *)
Definition route_request (self : dhcpClient) (gateway : list Z) : list Z :=
  nlmsghdr 44 RTM_NEWROUTE (NLM_F_REQUEST .| NLM_F_ACK .| NLM_F_CREATE .| NLM_F_REPLACE) 0 ++ rtmsg 0 0 RT_SCOPE_UNIVERSE ++
  nlattr 8 RTA_GATEWAY ++ gateway ++ nlattr 8 RTA_PRIORITY ++ le_split 4 (routePriority self).

(** [case dhcp_ACK]. *)
Definition client_ack (buffer : list Z) (self : dhcpClient) (rtnetlinkFd : Z) (o : client_options) : M (list Z * dhcpClient) :=
  match subnetMask o, router o, leaseTime o with
  | Some subnetMask, Some router, Some leaseTime =>
      let self := with_dnsIp self (match dns o with Some dns => le_combine (data_at buffer dns 4) | None => 0 end) in
      let leaseTimeValue := le_combine (rev (data_at buffer leaseTime 4)) in
      set_timeout (timerFd self) (half_lease leaseTimeValue);;
      let self := with_netmask self (u8 (popcount32 (le_combine (data_at buffer subnetMask 4)))) in
      let yourIp := field buffer header_yourIp 4 in
      let self := with_renewServerIp self (le_combine (field buffer header_serverIp 4)) in
      let! self :=
        if negb (mem_compare (ip_bytes (leasedIp self)) yourIp 4 =? 0) then
          let self := with_leasedIp self (le_combine yourIp) in
          print_leased self;;
          pure self
        else pure self in
      let! buffer := netlink_talk buffer rtnetlinkFd [newAddr_request self yourIp] in
      let! buffer := netlink_talk buffer rtnetlinkFd [route_request self (data_at buffer router 4)] in
      pure (buffer, self)
  | _, _, _ => pure (buffer, self)
  end.

Definition dhcpClient_onFd (buffer : list Z) (self : dhcpClient) (rtnetlinkFd : Z) : M (list Z * dhcpClient) :=
  let! (numRead, data) := sys_read (fd self) buffer_SIZE in
  let buffer := mem_copy buffer 0 data in
  if numRead <? dhcp_header_SIZE then pure (buffer, self)
  else if negb (mem_compare (skipn header_clientHwAddr buffer) (ifMacAddress self) 6 =? 0) then pure (buffer, self)
  else
    let! o := options_loop client_option options_fuel buffer numRead dhcp_header_SIZE no_options in
    match messageType o with
    | None => pure (buffer, self)
    | Some messageType =>
        let! type := load 1 buffer (messageType + 2) in
        if type =? dhcp_OFFER then
          match leaseTime o with
          | None => pure (buffer, self)
          | Some leaseTime =>
              let requestMsg := offer_request self (data_at buffer leaseTime 4) (field buffer header_serverIp 4) (field buffer header_yourIp 4) in
              sys_sendto (fd self) requestMsg MSG_NOSIGNAL (sockaddr_in 67 [255; 255; 255; 255]);;
              set_timeout (timerFd self) 10;;
              pure (buffer, self)
          end
        else if type =? dhcp_NAK then
          set_timeout (timerFd self) 5;;
          pure (buffer, self)
        else if type =? dhcp_ACK then client_ack buffer self rtnetlinkFd o
        else pure (buffer, self)
    end.

(** [packetFd] is not closed. *)
Definition dhcpClient_deinit (self : dhcpClient) : M unit :=
  sys_close (timerFd self);;
  sys_close (fd self);;
  pure tt.

(** ** The timer *)

Lemma timer_request_encode type identifier flags clientIp mac :
  timer_request type identifier flags clientIp mac =
  Bootp.encode (Bootp.Message 1 (rev (le_split 4 identifier)) flags clientIp [0; 0; 0; 0] [0; 0; 0; 0] (mac ++ repeat 0 10) [(53, [type]); (55, [1; 3; 6])] [255; 0; 0; 0]).
Proof. rewrite <- header_encode. reflexivity. Qed.

(** The Internet checksum: the 16 bit words add up to 0xFFFF in ones' complement. *)
Fixpoint words_sum (l : list Z) : Z :=
  match l with
  | a :: b :: l => 256 * a + b + words_sum l
  | _ => 0
  end.
Definition ones_complement_sum (l : list Z) : Z := words_sum l / 2 ^ 16 + words_sum l mod 2 ^ 16.

Definition expiration (self : dhcpClient) (e : list Z) : event := (Sys_read (timerFd self) 8, Answer 8 e).
Definition timer_set (self : dhcpClient) (sec : Z) : event := (Sys_timerfd_settime (timerFd self) sec 0, Answer 0 []).
Definition bump (self : dhcpClient) : dhcpClient := with_identifier self (u32 (currentIdentifier self + 1)).

(** The messages of the timer handler. *)
Definition renewal (self : dhcpClient) : Bootp.message :=
  Bootp.Message 1 (rev (le_split 4 (u32 (currentIdentifier self + 1)))) [0; 0] (ip_bytes (leasedIp self)) [0; 0; 0; 0] [0; 0; 0; 0] (ifMacAddress self ++ repeat 0 10)
    [(53, [dhcp_REQUEST]); (55, [1; 3; 6])] [255; 0; 0; 0].
Definition discover (self : dhcpClient) : Bootp.message :=
  Bootp.Message 1 (rev (le_split 4 (u32 (currentIdentifier self + 1)))) [128; 0] [0; 0; 0; 0] [0; 0; 0; 0] [0; 0; 0; 0] (ifMacAddress self ++ repeat 0 10)
    [(53, [dhcp_DISCOVER]); (55, [1; 3; 6])] [255; 0; 0; 0].
Definition broadcast (self : dhcpClient) (sent : Z) : event :=
  (Sys_sendmsg (packetFd self) (sockaddr_ll [8; 0] (ifIndex self) 6 (repeat 255 6)) [ipUdpHeader; Bootp.encode (discover self)] MSG_NOSIGNAL, Answer sent []).

Lemma set_timeout_answer timer sec o a t : set_timeout timer sec (World (Answer 0 o :: a) t) = (Done tt, World a (t ++ [(Sys_timerfd_settime timer sec 0, Answer 0 [])])).
Proof. reflexivity. Qed.

Lemma timer_read self e r a t : 0 <= r -> bytes e -> length e = 8%nat -> syscall_in (Sys_read (timerFd self) 8) 8 (World (Answer r e :: a) t) = (Done (8, e), World a (t ++ [expiration self e])).
Proof. intros Hr Hb He. rewrite syscall_in_answer by (assumption || lia). unfold expiration. rewrite He. reflexivity. Qed.

Lemma timer_discovers buffer self rtnetlinkFd e r sent o o2 a t : 0 <= r -> bytes e -> length e = 8%nat -> leasedIp self = 0 ->
  dhcpClient_onTimerFd buffer self rtnetlinkFd (World (Answer r e :: Answer sent o :: Answer 0 o2 :: a) t) =
  (Done (buffer, bump self), World a (t ++ [expiration self e; broadcast self sent; timer_set self 10])).
Proof.
  intros Hr Hb He Hl. unfold dhcpClient_onTimerFd. rewrite (bind_done _ _ _ _ _ (timer_read self e r _ t Hr Hb He)). cbv beta iota zeta. change (CHECK (8 =? 8)) with (pure tt). rewrite bind_pure.
  cbn [leasedIp renewServerIp with_identifier]. rewrite Hl. change (negb (0 =? 0)) with false. cbn [andb]. cbv iota.
  rewrite timer_request_encode. unfold bind, pure. rewrite syscall_answer, set_timeout_answer. rewrite <- !app_assoc. reflexivity.
Qed.

(** The timer: a client with a lease and a server to renew it from asks that server
    once; one without a lease broadcasts a DISCOVER in a UDP datagram whose IP header is
    valid (its precomputed checksum and its lengths are right); one whose renewal was not
    answered says so, removes its address from the interface, forgets it and broadcasts.
    In every case the transaction number is a new one and the timer is set again to ten
    seconds. *)
Theorem dhcpClient_onTimerFd_correct buffer self rtnetlinkFd e r sent o o2 a t : 0 <= r -> bytes e -> length e = 8%nat ->
  (leasedIp self <> 0 -> renewServerIp self <> 0 ->
     dhcpClient_onTimerFd buffer self rtnetlinkFd (World (Answer r e :: Answer sent o :: Answer 0 o2 :: a) t) =
     (Done (buffer, with_renewServerIp (bump self) 0),
      World a (t ++ [expiration self e; (Sys_sendto (fd self) (Bootp.encode (renewal self)) MSG_NOSIGNAL (sockaddr_in 67 (ip_bytes (renewServerIp self))), Answer sent []); timer_set self 10]))) /\
  (leasedIp self = 0 ->
     dhcpClient_onTimerFd buffer self rtnetlinkFd (World (Answer r e :: Answer sent o :: Answer 0 o2 :: a) t) =
     (Done (buffer, bump self), World a (t ++ [expiration self e; broadcast self sent; timer_set self 10]))) /\
  (forall name rest ms r2 o3 o4, leasedIp self <> 0 -> renewServerIp self = 0 -> ifName self = name ++ 0 :: rest -> no_nul name -> (length name <= 15)%nat ->
     Z.of_nat (length buffer) = buffer_SIZE -> ms <> [] -> Forall Nl.msg_ok ms -> Nl.verdict ms = true ->
     let data := flat_map Nl.encode_msg ms in let text := name ++ str " lost IP lease" ++ [10] in
     0 <= r2 -> bytes data -> 16 < Z.of_nat (length data) <= buffer_SIZE ->
     dhcpClient_onTimerFd buffer self rtnetlinkFd
       (World (Answer r e :: Answer (Z.of_nat (length text)) o3 :: Answer 32 o4 :: Answer r2 data :: Answer sent o :: Answer 0 o2 :: a) t) =
     (Done (mem_copy buffer 0 data, with_leasedIp (bump self) 0),
      World a (t ++ [expiration self e; (Sys_write 2 text, Answer (Z.of_nat (length text)) []);
        (Sys_sendmsg rtnetlinkFd (sockaddr_nl 0)
           [Nl.message RTM_DELADDR (NLM_F_REQUEST + NLM_F_ACK) 0 (ifaddrmsg AF_INET 0 (ifIndex self) ++ Nl.encode (Nl.Attr IFA_LOCAL (ip_bytes (leasedIp self))))] (MSG_NOSIGNAL .| MSG_DONTWAIT), Answer 32 []);
        receive_event rtnetlinkFd data; broadcast self sent; timer_set self 10]))) /\
  ones_complement_sum (firstn 20 ipUdpHeader) = 0xFFFF /\
  256 * get ipUdpHeader 2 + get ipUdpHeader 3 = Z.of_nat (length ipUdpHeader) + 252 /\ 256 * get ipUdpHeader 24 + get ipUdpHeader 25 = 8 + 252 /\
  (length (ifMacAddress self) = 6%nat -> length (Bootp.encode (discover self)) = 252%nat).
Proof.
  intros Hr Hb He.
  split; [|split; [|split; [|split; [reflexivity|split; [reflexivity|split; [reflexivity|]]]]]].
  - intros Hl Hs. unfold dhcpClient_onTimerFd. rewrite (bind_done _ _ _ _ _ (timer_read self e r _ t Hr Hb He)). cbv beta iota zeta. change (CHECK (8 =? 8)) with (pure tt). rewrite bind_pure.
    cbn [leasedIp renewServerIp with_identifier]. destruct (Z.eqb_spec (leasedIp self) 0); [contradiction|]. destruct (Z.eqb_spec (renewServerIp self) 0); [contradiction|]. cbn [negb andb].
    rewrite timer_request_encode. unfold sys_sendto. unfold bind. rewrite syscall_answer. unfold pure. rewrite set_timeout_answer. rewrite <- !app_assoc. reflexivity.
  - now apply timer_discovers.
  - intros name rest ms r2 o3 o4 Hl Hs Hname Hnn Hlen Hsize Hne Hok Hv data text Hr2 Hd Hn. unfold dhcpClient_onTimerFd. rewrite (bind_done _ _ _ _ _ (timer_read self e r _ t Hr Hb He)). cbv beta iota zeta. change (CHECK (8 =? 8)) with (pure tt). rewrite bind_pure.
    cbn [leasedIp renewServerIp with_identifier]. destruct (Z.eqb_spec (leasedIp self) 0); [contradiction|]. rewrite Hs. change (negb (0 =? 0)) with false. cbn [negb andb]. cbv iota.
    set (w1 := World (Answer (Z.of_nat (length text)) o3 :: _) _). set (w2 := World (Answer 32 o4 :: Answer r2 data :: Answer sent o :: Answer 0 o2 :: a) ((t ++ [expiration self e]) ++ [(Sys_write 2 text, Answer (Z.of_nat (length text)) [])])).
    assert (print_lost (bump self) w1 = (Done tt, w2)) as Ep.
    { unfold print_lost, name_text. cbv zeta. change (ifName (bump self)) with (ifName self). rewrite Hname, util_cstrLen_spec by exact Hnn.
      destruct (Nat.leb_spec (length (name ++ 0 :: rest)) (length name)) as [Hx|_]; [rewrite length_app in Hx; cbn in Hx; lia|]. rewrite bind_pure.
      rewrite firstn_app_l, firstn_all by lia.
      set (b0 := (repeat 0 (16 + 15)%nat, (16 + 15)%nat)). destruct (text_prepend b0 (str " lost IP lease" ++ [10]) ltac:(cbn; lia) ltac:(cbn; lia)) as (T1 & T2 & T3).
      set (b1 := prepend b0 (str " lost IP lease" ++ [10])) in *. assert (snd b1 = 16%nat) as S1 by (rewrite T2; reflexivity). assert (length (fst b1) = 31%nat) as L1 by (rewrite T3; reflexivity).
      destruct (text_prepend b1 name ltac:(lia) ltac:(lia)) as (T4 & _). rewrite T4, T1. change (text_of b0) with (@nil Z). rewrite app_nil_r. fold text.
      unfold bind. unfold w1. rewrite writeAll_answer by (unfold text; destruct name; discriminate). reflexivity. }
    unfold bind. change (with_identifier self (u32 (currentIdentifier self + 1))) with (bump self). rewrite Ep.
    assert (delAddr_request (bump self) = Nl.message RTM_DELADDR (NLM_F_REQUEST + NLM_F_ACK) 0 (ifaddrmsg AF_INET 0 (ifIndex self) ++ Nl.encode (Nl.Attr IFA_LOCAL (ip_bytes (leasedIp self))))) as Edel by (apply addrRequest_message; reflexivity).
    rewrite Edel. unfold w2. rewrite (talk_spec buffer rtnetlinkFd _ 32 o4 ms r2 _ _ Hsize Hne Hok Hr2 Hd Hn) by reflexivity. rewrite Hv. cbv beta iota.
    unfold pure. rewrite timer_request_encode. rewrite syscall_answer, set_timeout_answer. rewrite <- !app_assoc. reflexivity.
  - intros Hm. unfold discover. rewrite <- header_encode. unfold dhcp_header. rewrite !length_app, length_rev, length_le_split, Hm. reflexivity.
Qed.

(** ** A packet *)

Definition mac_of (header : list Z) : list Z := field header header_clientHwAddr 6.

(** The REQUEST that answers an OFFER. *)
Definition request_message (self : dhcpClient) (header leaseTime : list Z) : Bootp.message :=
  Bootp.Message 1 (rev (le_split 4 (currentIdentifier self))) [128; 0] [0; 0; 0; 0] [0; 0; 0; 0] [0; 0; 0; 0] (ifMacAddress self ++ repeat 0 10)
    [(53, [dhcp_REQUEST]); (55, [1; 3; 6]); (51, leaseTime); (54, field header header_serverIp 4); (50, field header header_yourIp 4)] [255; 0].

Lemma offer_request_encode self leaseTime serverIp yourIp :
  offer_request self leaseTime serverIp yourIp =
  Bootp.encode (Bootp.Message 1 (rev (le_split 4 (currentIdentifier self))) [128; 0] [0; 0; 0; 0] [0; 0; 0; 0] [0; 0; 0; 0] (ifMacAddress self ++ repeat 0 10)
    [(53, [dhcp_REQUEST]); (55, [1; 3; 6]); (51, leaseTime); (54, serverIp); (50, yourIp)] [255; 0]).
Proof.
  rewrite <- header_encode. unfold offer_request. f_equal. cbn [flat_map]. unfold Bootp.encode_opt. cbn [fst snd]. rewrite <- !app_assoc. reflexivity.
Qed.

(** The lease that an ACK gives. *)
Definition lease (self : dhcpClient) (header mask : list Z) (dns : option (list Z)) : dhcpClient :=
  DhcpClient (fd self) (packetFd self) (timerFd self) (match dns with Some d => le_combine (firstn 4 d) | None => 0 end) (currentIdentifier self)
    (le_combine (field header header_yourIp 4)) (le_combine (field header header_serverIp 4)) (ifIndex self) (routePriority self) (ifName self) (ifMacAddress self)
    (u8 (popcount32 (le_combine mask))).

Definition add_address (self : dhcpClient) (rtnetlinkFd : Z) (address : list Z) : event :=
  (Sys_sendmsg rtnetlinkFd (sockaddr_nl 0)
     [Nl.message RTM_NEWADDR (NLM_F_REQUEST + NLM_F_ACK + NLM_F_CREATE + NLM_F_REPLACE) 0 (ifaddrmsg AF_INET (leasedIpNetmask self) (ifIndex self) ++ Nl.encode (Nl.Attr IFA_LOCAL address))]
     (MSG_NOSIGNAL .| MSG_DONTWAIT), Answer 32 []).
Definition add_route (self : dhcpClient) (rtnetlinkFd : Z) (gateway : list Z) : event :=
  (Sys_sendmsg rtnetlinkFd (sockaddr_nl 0)
     [Nl.message RTM_NEWROUTE (NLM_F_REQUEST + NLM_F_ACK + NLM_F_CREATE + NLM_F_REPLACE) 0
        (rtmsg 0 0 RT_SCOPE_UNIVERSE ++ flat_map Nl.encode [Nl.Attr RTA_GATEWAY gateway; Nl.Attr RTA_PRIORITY (le_split 4 (routePriority self))])]
     (MSG_NOSIGNAL .| MSG_DONTWAIT), Answer 44 []).

Lemma route_request_encode self gateway : length gateway = 4%nat ->
  route_request self gateway = Nl.message RTM_NEWROUTE (NLM_F_REQUEST + NLM_F_ACK + NLM_F_CREATE + NLM_F_REPLACE) 0
    (rtmsg 0 0 RT_SCOPE_UNIVERSE ++ flat_map Nl.encode [Nl.Attr RTA_GATEWAY gateway; Nl.Attr RTA_PRIORITY (le_split 4 (routePriority self))]).
Proof.
  intros Hg. unfold route_request. rewrite (attr_eq 8 RTA_GATEWAY gateway) by (rewrite Hg; reflexivity). rewrite <- (app_nil_r (le_split 4 (routePriority self))) at 1.
  rewrite (attr_eq 8 RTA_PRIORITY) by reflexivity. rewrite app_nil_r. cbn [flat_map]. rewrite app_nil_r. apply message_eq.
  rewrite !length_app, !length_encode_attr, Hg. reflexivity.
Qed.

(** The line about a new lease. *)
Definition leased_text (name ip : list Z) (mask : Z) : list Z := name ++ str " leased IP: " ++ dotted ip mask ++ [10].

Lemma print_leased_answer self name rest o a t : ifName self = name ++ 0 :: rest -> no_nul name -> (length name <= 16)%nat -> is_byte (leasedIpNetmask self) ->
  let text := leased_text name (ip_bytes (leasedIp self)) (leasedIpNetmask self) in
  print_leased self (World (Answer (Z.of_nat (length text)) o :: a) t) = (Done tt, World a (t ++ [(Sys_write 2 text, Answer (Z.of_nat (length text)) [])])).
Proof.
  intros Hname Hnn Hlen Hmask text. unfold print_leased, name_text. cbv zeta. rewrite Hname, util_cstrLen_spec by exact Hnn.
  destruct (Nat.leb_spec (length (name ++ 0 :: rest)) (length name)) as [Hx|_]; [rewrite length_app in Hx; cbn in Hx; lia|]. rewrite bind_pure, firstn_app_l, firstn_all by lia.
  set (ip := ip_bytes (leasedIp self)) in *. assert (forall i, is_byte (get ip i)) as Hip by (intros; apply get_byte_of, bytes_le_split).
  set (b0 := (repeat 0 (16 + 12 + 19 + 1)%nat, (16 + 12 + 19 + 1)%nat)). assert (text_of b0 = []) as T0 by reflexivity.
  assert (snd b0 = 48%nat) as S0 by reflexivity. assert (length (fst b0) = 48%nat) as L0 by reflexivity. clearbody b0.
  pose proof (length_dec8 (leasedIpNetmask self)) as D4. pose proof (length_dec8 (get ip 3)) as D3. pose proof (length_dec8 (get ip 2)) as D2. pose proof (length_dec8 (get ip 1)) as D1. pose proof (length_dec8 (get ip 0)) as D0.
  destruct (text_prepend b0 [10] ltac:(lia) ltac:(cbn; lia)) as (T1 & S1 & L1). set (b1 := prepend b0 [10]) in *. clearbody b1. cbn [List.length] in S1.
  destruct (text_prepend_num b1 _ ltac:(lia) ltac:(lia) Hmask) as (T2 & S2 & L2). set (b2 := prepend_num b1 _) in *. clearbody b2.
  destruct (text_prepend b2 (str "/") ltac:(lia) ltac:(cbn; lia)) as (T3 & S3 & L3). set (b3 := prepend b2 _) in *. clearbody b3. change (length (str "/")) with 1%nat in S3.
  destruct (text_prepend_num b3 _ ltac:(lia) ltac:(lia) (Hip 3%nat)) as (T4 & S4 & L4). set (b4 := prepend_num b3 _) in *. clearbody b4.
  destruct (text_prepend b4 (str ".") ltac:(lia) ltac:(cbn; lia)) as (T5 & S5 & L5). set (b5 := prepend b4 _) in *. clearbody b5. change (length (str ".")) with 1%nat in S5.
  destruct (text_prepend_num b5 _ ltac:(lia) ltac:(lia) (Hip 2%nat)) as (T6 & S6 & L6). set (b6 := prepend_num b5 _) in *. clearbody b6.
  destruct (text_prepend b6 (str ".") ltac:(lia) ltac:(cbn; lia)) as (T7 & S7 & L7). set (b7 := prepend b6 _) in *. clearbody b7. change (length (str ".")) with 1%nat in S7.
  destruct (text_prepend_num b7 _ ltac:(lia) ltac:(lia) (Hip 1%nat)) as (T8 & S8 & L8). set (b8 := prepend_num b7 _) in *. clearbody b8.
  destruct (text_prepend b8 (str ".") ltac:(lia) ltac:(cbn; lia)) as (T9 & S9 & L9). set (b9 := prepend b8 _) in *. clearbody b9. change (length (str ".")) with 1%nat in S9.
  destruct (text_prepend_num b9 _ ltac:(lia) ltac:(lia) (Hip 0%nat)) as (T10 & S10 & L10). set (b10 := prepend_num b9 _) in *. clearbody b10.
  destruct (text_prepend b10 (str " leased IP: ") ltac:(lia) ltac:(cbn; lia)) as (T11 & S11 & L11). set (b11 := prepend b10 _) in *. clearbody b11. change (length (str " leased IP: ")) with 12%nat in S11.
  destruct (text_prepend b11 name ltac:(lia) ltac:(lia)) as (T12 & _). rewrite T12, T11, T10, T9, T8, T7, T6, T5, T4, T3, T2, T1, T0.
  assert (name ++ str " leased IP: " ++ dec8 (get ip 0) ++ str "." ++ dec8 (get ip 1) ++ str "." ++ dec8 (get ip 2) ++ str "." ++ dec8 (get ip 3) ++ str "/" ++ dec8 (leasedIpNetmask self) ++ [10] ++ [] = text) as ->.
  { unfold text, leased_text, dotted. rewrite <- !app_assoc. reflexivity. }
  unfold bind. rewrite writeAll_answer; [reflexivity|]. unfold text, leased_text. destruct name; discriminate.
Qed.

Section Packet.
Context (buffer : list Z) (self : dhcpClient) (rtnetlinkFd : Z) (header : list Z) (opts : list Bootp.opt) (tail : list Z).
Context (Hsize : Z.of_nat (length buffer) = buffer_SIZE) (Hbytes : bytes buffer) (Hheader : Z.of_nat (length header) = dhcp_header_SIZE).
Context (Hok : Forall Bootp.opt_ok opts) (Hstuck : Bootp.stuck tail) (Hmac : length (ifMacAddress self) = 6%nat).
Local Notation packet := (header ++ flat_map Bootp.encode_opt opts ++ tail).
Context (Hpacket : bytes packet) (Hroom : Z.of_nat (length packet) + 2 <= buffer_SIZE).
Local Notation read_event := (Sys_read (fd self) buffer_SIZE, Answer (Z.of_nat (length packet)) packet).
Local Notation B := (mem_copy buffer 0 packet).

(** The last options that are admissible, and what the loop found. *)
Definition found (code : Z) (p : Z -> bool) : option Z := last_offset code p dhcp_header_SIZE opts.
Definition scanned : client_options :=
  ClientOptions (found dhcp_MESSAGE_TYPE (fun n => n =? 1)) (found dhcp_SUBNET_MASK (fun n => n =? 4)) (found dhcp_ROUTER (fun n => 4 <=? n))
    (found dhcp_DNS (fun n => 4 <=? n)) (found dhcp_LEASE_TIME (fun n => n =? 4)).

Lemma scan_options w : options_loop client_option options_fuel B (Z.of_nat (length packet)) dhcp_header_SIZE no_options w = (Done scanned, w).
Proof using All.
  assert (bytes tail) as Hbt by (apply bytes_app in Hpacket as [_ Hp]; now apply bytes_app in Hp).
  pose proof (scan_packet client_option no_options buffer header opts tail w Hok Hstuck Hbt Hbytes Hsize Hroom) as Hscan. rewrite Hheader in Hscan. rewrite Hscan. do 2 f_equal.
  assert (forall get code p, (forall a c l o, get (client_option a c l o) = if c =? code then keep p (get a) l o else get a) -> get no_options = None ->
    get (visited client_option no_options dhcp_header_SIZE opts) = found code p) as Hget.
  { intros get code p Hv H0. rewrite (visited_keep client_option get code p Hv). unfold found. rewrite H0. now destruct (last_offset code p _ opts). }
  set (v := visited client_option no_options dhcp_header_SIZE opts) in *.
  assert (v = ClientOptions (messageType v) (subnetMask v) (router v) (dns v) (leaseTime v)) as -> by (destruct v; reflexivity). unfold v. unfold scanned.
  f_equal; apply Hget; try reflexivity; intros a c l o; unfold client_option, dhcp_MESSAGE_TYPE, dhcp_SUBNET_MASK, dhcp_ROUTER, dhcp_DNS, dhcp_LEASE_TIME;
    repeat match goal with |- context [c =? ?k] => destruct (Z.eqb_spec c k); [subst c; try reflexivity; try lia|] end; reflexivity.
Qed.

Lemma found_data code p : match found code p, Bootp.last_opt code p opts with
  | Some x, Some d => p (Z.of_nat (length d)) = true /\ forall n, (n <= length d)%nat -> (forall w, load n B (x + 2) w = (Done (le_combine (firstn n d)), w)) /\ data_at B x n = firstn n d
  | None, None => True
  | _, _ => False
  end.
Proof using All.
  pose proof (last_offset_data code p opts header (tail ++ skipn (length packet) buffer) B) as Hl. rewrite mem_copy_head in Hl by lia. specialize (Hl ltac:(now rewrite <- !app_assoc)).
  rewrite Hheader in Hl. unfold found. rewrite mem_copy_head by lia.
  destruct (last_offset code p dhcp_header_SIZE opts) as [x|] eqn:Ex, (Bootp.last_opt code p opts) as [d|] eqn:Ed; try exact Hl. rewrite <- Hheader in Ex.
  split; [apply Hl|]. intros n Hn. split.
  - intros w. destruct (load_kept buffer packet header opts tail code p x d w eq_refl ltac:(lia) Hsize Ex Ed) as [_ Hk]. specialize (Hk n Hn) as [Hk _]. rewrite mem_copy_head in Hk by lia. exact Hk.
  - destruct (load_kept buffer packet header opts tail code p x d (World [] []) eq_refl ltac:(lia) Hsize Ex Ed) as [_ Hk]. specialize (Hk n Hn) as [_ Hk]. rewrite mem_copy_head in Hk by lia. exact Hk.
Qed.

Lemma head_field i n : (i + n <= 240)%nat -> field B i n = field header i n.
Proof using All.
  intros Hi. rewrite mem_copy_head by lia. rewrite <- app_assoc. apply field_head. unfold dhcp_header_SIZE in Hheader. lia.
Qed.

(** Up to the [switch] over the message type. *)
Lemma onFd_type r a t : 0 <= r ->
  dhcpClient_onFd buffer self rtnetlinkFd (World (Answer r packet :: a) t) =
  (if list_eq_dec Z.eq_dec (mac_of header) (ifMacAddress self) then
     match Bootp.last_opt dhcp_MESSAGE_TYPE (fun n => n =? 1) opts with
     | Some [type] =>
         if type =? dhcp_OFFER then
           match leaseTime scanned with
           | None => pure (B, self)
           | Some leaseTime =>
               let requestMsg := offer_request self (data_at B leaseTime 4) (field B header_serverIp 4) (field B header_yourIp 4) in
               sys_sendto (fd self) requestMsg MSG_NOSIGNAL (sockaddr_in 67 [255; 255; 255; 255]);;
               set_timeout (timerFd self) 10;;
               pure (B, self)
           end
         else if type =? dhcp_NAK then
           set_timeout (timerFd self) 5;;
           pure (B, self)
         else if type =? dhcp_ACK then client_ack B self rtnetlinkFd scanned
         else pure (B, self)
     | _ => pure (B, self)
     end
   else pure (B, self)) (World a (t ++ [read_event])).
Proof using All.
  intros Hr. unfold dhcpClient_onFd, sys_read. rewrite (bind_done _ _ _ _ _ (syscall_in_answer _ (Z.to_nat buffer_SIZE) r packet a t Hr Hpacket ltac:(lia))). cbv beta iota zeta.
  destruct (Z.ltb_spec (Z.of_nat (length packet)) dhcp_header_SIZE) as [Hlt|_]; [exfalso; rewrite length_app in Hlt; lia|].
  assert ((mem_compare (skipn header_clientHwAddr B) (ifMacAddress self) 6 =? 0) = (if list_eq_dec Z.eq_dec (mac_of header) (ifMacAddress self) then true else false)) as ->.
  { assert (length B = length buffer) as LB by (apply length_mem_copy; lia).
    assert (6 <= length (skipn header_clientHwAddr B))%nat as Ls by (rewrite length_skipn, LB; unfold header_clientHwAddr, buffer_SIZE in *; lia).
    pose proof (head_field header_clientHwAddr 6 ltac:(unfold header_clientHwAddr; lia)) as Ef. unfold field at 1 in Ef.
    destruct (Z.eqb_spec (mem_compare (skipn header_clientHwAddr B) (ifMacAddress self) 6) 0) as [Em|Em]; rewrite mem_compare_zero in Em by lia;
      rewrite Ef, (firstn_all2 (ifMacAddress self)) in Em by lia; fold (mac_of header) in Em; destruct (list_eq_dec Z.eq_dec (mac_of header) (ifMacAddress self)); congruence. }
  destruct (list_eq_dec Z.eq_dec (mac_of header) (ifMacAddress self)); cbn [negb]; [|reflexivity].
  rewrite (bind_done _ _ _ _ _ (scan_options _)). cbn [messageType scanned].
  pose proof (found_data dhcp_MESSAGE_TYPE (fun n => n =? 1)) as Hf. cbn beta in Hf. destruct (found dhcp_MESSAGE_TYPE _) as [x|], (Bootp.last_opt dhcp_MESSAGE_TYPE _ opts) as [d|]; try contradiction; [|reflexivity].
  destruct Hf as [Hlen Hl]. apply Z.eqb_eq in Hlen. destruct d as [|type [|? ?]]; cbn [List.length] in Hlen; try lia.
  destruct (Hl 1%nat ltac:(cbn; lia)) as [Hl1 _]. cbn [firstn le_combine] in Hl1. replace (type + 256 * 0) with type in Hl1 by lia. rewrite (bind_done _ _ _ _ _ (Hl1 _)). reflexivity.
Qed.

(** An OFFER with a lease time is answered. *)
Lemma offer_spec leased r sent o o2 a t : 0 <= r -> mac_of header = ifMacAddress self ->
  Bootp.last_opt dhcp_MESSAGE_TYPE (fun n => n =? 1) opts = Some [dhcp_OFFER] -> Bootp.last_opt dhcp_LEASE_TIME (fun n => n =? 4) opts = Some leased ->
  dhcpClient_onFd buffer self rtnetlinkFd (World (Answer r packet :: Answer sent o :: Answer 0 o2 :: a) t) =
  (Done (B, self), World a (t ++ [read_event;
     (Sys_sendto (fd self) (Bootp.encode (request_message self header leased)) MSG_NOSIGNAL (sockaddr_in 67 [255; 255; 255; 255]), Answer sent []); timer_set self 10])).
Proof using All.
  intros Hr Hm Et El. rewrite onFd_type, Et by exact Hr. destruct (list_eq_dec Z.eq_dec (mac_of header) (ifMacAddress self)) as [_|]; [|contradiction].
  pose proof (found_data dhcp_LEASE_TIME (fun n => n =? 4)) as Hf. rewrite El in Hf. cbn [leaseTime scanned Z.eqb Pos.eqb dhcp_OFFER]. destruct (found dhcp_LEASE_TIME _) as [x|]; [|contradiction].
  destruct Hf as [Hl Hf]. apply Z.eqb_eq in Hl. destruct (Hf 4%nat ltac:(lia)) as [_ Hd]. rewrite firstn_all2 in Hd by lia.
  rewrite Hd, !head_field by (unfold header_serverIp, header_yourIp; lia). cbv zeta. rewrite offer_request_encode.
  unfold sys_sendto, bind. rewrite syscall_answer, set_timeout_answer. unfold pure. rewrite <- !app_assoc. reflexivity.
Qed.

(** An ACK is handled from what the scan found. *)
Lemma onFd_ack r a t : 0 <= r -> mac_of header = ifMacAddress self -> Bootp.last_opt dhcp_MESSAGE_TYPE (fun n => n =? 1) opts = Some [dhcp_ACK] ->
  dhcpClient_onFd buffer self rtnetlinkFd (World (Answer r packet :: a) t) = client_ack B self rtnetlinkFd scanned (World a (t ++ [read_event])).
Proof using All.
  intros Hr Hm Et. rewrite onFd_type, Et by exact Hr. destruct (list_eq_dec Z.eq_dec (mac_of header) (ifMacAddress self)); [reflexivity|contradiction].
Qed.

Lemma found_ge code p x : found code p = Some x -> dhcp_header_SIZE <= x.
Proof using All.
  intros Hx. pose proof (last_offset_data code p opts header (tail ++ skipn (length packet) buffer) B) as Hl. rewrite mem_copy_head in Hl by lia. specialize (Hl ltac:(now rewrite <- !app_assoc)).
  unfold found in Hx. rewrite Hheader, Hx in Hl. destruct (Bootp.last_opt code p opts); [|contradiction]. destruct Hl as (_ & before & _ & _ & Hb & Hle). lia.
Qed.

(** A kept option is still there behind a netlink answer that is shorter than the header. *)
Lemma found_after code p x d answer n : found code p = Some x -> Bootp.last_opt code p opts = Some d -> (n <= length d)%nat -> Z.of_nat (length answer) <= dhcp_header_SIZE ->
  data_at (mem_copy B 0 answer) x n = firstn n d.
Proof using All.
  intros Hx Hd Hn Ha. pose proof (found_ge code p x Hx) as Hge. pose proof (found_data code p) as Hf. rewrite Hx, Hd in Hf. destruct Hf as [_ Hf]. destruct (Hf n Hn) as [_ <-].
  unfold data_at, field. f_equal. assert (length B = length buffer) as LB by (apply length_mem_copy; lia). unfold dhcp_header_SIZE, buffer_SIZE in *.
  rewrite (mem_copy_head B answer) by lia. set (i := Z.to_nat (x + 2)). rewrite skipn_app, skipn_all2 by lia. cbn [app]. rewrite skipn_skipn. f_equal. lia.
Qed.

Lemma ack_spec mask gateway leased ms1 ms2 name rest o o1 o2 o3 r1 r2 a t :
  Bootp.last_opt dhcp_SUBNET_MASK (fun n => n =? 4) opts = Some mask -> Bootp.last_opt dhcp_ROUTER (fun n => 4 <=? n) opts = Some gateway ->
  Bootp.last_opt dhcp_LEASE_TIME (fun n => n =? 4) opts = Some leased ->
  0 <= leasedIp self < 2 ^ 32 -> ifName self = name ++ 0 :: rest -> no_nul name -> (length name <= 15)%nat ->
  ms1 <> [] -> Forall Nl.msg_ok ms1 -> Nl.verdict ms1 = true -> ms2 <> [] -> Forall Nl.msg_ok ms2 -> Nl.verdict ms2 = true ->
  let data1 := flat_map Nl.encode_msg ms1 in let data2 := flat_map Nl.encode_msg ms2 in
  0 <= r1 -> bytes data1 -> 16 < Z.of_nat (length data1) <= dhcp_header_SIZE -> 0 <= r2 -> bytes data2 -> 16 < Z.of_nat (length data2) <= buffer_SIZE ->
  let self' := lease self header mask (Bootp.last_opt dhcp_DNS (fun n => 4 <=? n) opts) in
  let text := leased_text name (field header header_yourIp 4) (leasedIpNetmask self') in
  let new := negb (leasedIp self =? leasedIp self') in
  client_ack B self rtnetlinkFd scanned
    (World (Answer 0 o :: (if new then [Answer (Z.of_nat (length text)) o1] else []) ++ Answer 32 o2 :: Answer r1 data1 :: Answer 44 o3 :: Answer r2 data2 :: a) t) =
  (Done (mem_copy (mem_copy B 0 data1) 0 data2, self'),
   World a (t ++ [timer_set self (half_lease (le_combine (rev leased)))] ++ (if new then [(Sys_write 2 text, Answer (Z.of_nat (length text)) [])] else []) ++
     [add_address self' rtnetlinkFd (field header header_yourIp 4); receive_event rtnetlinkFd data1; add_route self' rtnetlinkFd (firstn 4 gateway); receive_event rtnetlinkFd data2])).
Proof using All.
  intros Em Eg El Hip Hname Hnn Hlen Hne1 Hok1 Hv1 Hne2 Hok2 Hv2 data1 data2 Hr1 Hd1 Hn1 Hr2 Hd2 Hn2 self' text new.
  pose proof (found_data dhcp_SUBNET_MASK (fun n => n =? 4)) as Fm. pose proof (found_data dhcp_ROUTER (fun n => 4 <=? n)) as Fg. pose proof (found_data dhcp_LEASE_TIME (fun n => n =? 4)) as Fl. pose proof (found_data dhcp_DNS (fun n => 4 <=? n)) as Fd.
  cbn beta in *. rewrite Em in Fm. rewrite Eg in Fg. rewrite El in Fl. unfold client_ack. cbn [scanned subnetMask router leaseTime dns].
  destruct (found dhcp_SUBNET_MASK _) as [xm|] eqn:Xm; [|contradiction]. destruct (found dhcp_ROUTER _) as [xg|] eqn:Xg; [|contradiction]. destruct (found dhcp_LEASE_TIME _) as [xl|] eqn:Xl; [|contradiction].
  destruct Fm as [Lm Fm]. destruct Fg as [Lg Fg]. destruct Fl as [Ll Fl]. apply Z.eqb_eq in Lm, Ll. apply Z.leb_le in Lg.
  assert (data_at B xm 4 = mask) as Dm by (destruct (Fm 4%nat ltac:(lia)) as [_ ->]; apply firstn_all2; lia).
  assert (data_at B xl 4 = leased) as Dl by (destruct (Fl 4%nat ltac:(lia)) as [_ ->]; apply firstn_all2; lia).
  rewrite Dm, Dl, !head_field by (unfold header_yourIp, header_serverIp; lia). set (yourIp := field header header_yourIp 4) in *.
  assert (length yourIp = 4%nat) as Ly by (unfold yourIp, field, header_yourIp; rewrite length_firstn, length_skipn; unfold dhcp_header_SIZE in Hheader; lia).
  assert (bytes yourIp) as By by (apply bytes_firstn, bytes_skipn; now apply bytes_app in Hpacket).
  set (dnsNew := match found dhcp_DNS _ with Some x => _ | None => 0 end).
  assert (dnsNew = dnsIp self') as Edns.
  { unfold dnsNew, self', lease. cbn [dnsIp]. destruct (found dhcp_DNS _) as [xd|], (Bootp.last_opt dhcp_DNS _ opts) as [d|]; try contradiction; [|reflexivity]. destruct Fd as [Ld Fd]. apply Z.leb_le in Ld. destruct (Fd 4%nat ltac:(lia)) as [_ ->]. reflexivity. }
  clearbody dnsNew. subst dnsNew. cbv zeta.
  assert ((mem_compare (ip_bytes (leasedIp self)) yourIp 4 =? 0) = (leasedIp self =? leasedIp self')) as Enew.
  { unfold self', lease. cbn [leasedIp]. fold yourIp. assert (length (ip_bytes (leasedIp self)) = 4%nat) as Li by apply length_le_split.
    assert (ip_bytes (leasedIp self) = yourIp <-> leasedIp self = le_combine yourIp) as Hiff.
    { unfold ip_bytes. split; intros E; [rewrite <- E, le_combine_split, Z.mod_small by (change (256 ^ Z.of_nat 4) with (2 ^ 32); lia); reflexivity|rewrite E; pose proof (le_split_combine yourIp By) as Hx; now rewrite Ly in Hx]. }
    destruct (Z.eqb_spec (mem_compare (ip_bytes (leasedIp self)) yourIp 4) 0) as [E|E]; rewrite mem_compare_zero in E by lia; rewrite !firstn_all2 in E by lia; destruct (Z.eqb_spec (leasedIp self) (le_combine yourIp)); tauto. }
  unfold bind at 1. rewrite set_timeout_answer. cbn [leasedIp with_renewServerIp with_netmask with_dnsIp]. rewrite Enew. fold new.
  set (mid := with_renewServerIp (with_netmask (with_dnsIp self (dnsIp self')) _) _).
  set (w1 := World ((if new then [Answer (Z.of_nat (length text)) o1] else []) ++ _) _).
  set (print_event := (Sys_write 2 text, Answer (Z.of_nat (length text)) [])).
  assert (le_split 4 (le_combine yourIp) = yourIp) as Eip by (rewrite <- Ly at 1; now apply le_split_combine).
  assert ((if new then let self := with_leasedIp mid (le_combine yourIp) in print_leased self;; pure self else pure mid) w1 =
    (Done self', World (Answer 32 o2 :: Answer r1 data1 :: Answer 44 o3 :: Answer r2 data2 :: a) ((t ++ [timer_set self (half_lease (le_combine (rev leased)))]) ++ (if new then [print_event] else [])))) as Emid.
  { unfold w1. destruct new eqn:En; unfold new in En.
    - cbv zeta. assert (with_leasedIp mid (le_combine yourIp) = self') as -> by reflexivity.
      pose proof (print_leased_answer self' name rest o1 (Answer 32 o2 :: Answer r1 data1 :: Answer 44 o3 :: Answer r2 data2 :: a) (t ++ [timer_set self (half_lease (le_combine (rev leased)))]) Hname Hnn ltac:(lia)) as Hp.
      assert (leased_text name (ip_bytes (leasedIp self')) (leasedIpNetmask self') = text) as Et by (unfold text; do 2 f_equal; exact Eip).
      rewrite Et in Hp. cbn [app]. rewrite (bind_done _ _ _ _ _ (Hp ltac:(unfold self', lease; cbn [leasedIpNetmask]; apply wrap_bound; lia))). reflexivity.
    - rewrite app_nil_r. cbn [app]. unfold pure. do 2 f_equal. apply negb_false_iff, Z.eqb_eq in En. unfold self', lease in En. cbn [leasedIp] in En. fold yourIp in En.
      unfold mid, self', lease, with_renewServerIp, with_netmask, with_dnsIp. cbn. fold yourIp. rewrite En. reflexivity. }
  rewrite (bind_done _ _ _ _ _ Emid). clear Emid. unfold newAddr_request. rewrite addrRequest_message by exact Ly.
  assert (length B = length buffer) as LB by (apply length_mem_copy; lia).
  assert (32 = le_combine (firstn 4 (nth 0 [Nl.message RTM_NEWADDR (NLM_F_REQUEST .| NLM_F_ACK .| NLM_F_CREATE .| NLM_F_REPLACE) 0 (ifaddrmsg AF_INET (leasedIpNetmask self') (ifIndex self') ++ Nl.encode (Nl.Attr IFA_LOCAL yourIp))] []))) as E32.
  { rewrite message_len; rewrite length_app, length_encode_attr, Ly; reflexivity. }
  assert (Z.of_nat (length B) = buffer_SIZE) as SB by (rewrite LB; exact Hsize). assert (16 < Z.of_nat (length data1) <= buffer_SIZE) as Hn1' by (unfold dhcp_header_SIZE, buffer_SIZE in *; lia).
  rewrite (bind_done _ _ _ _ _ (eq_trans (talk_spec B rtnetlinkFd _ 32 o2 ms1 r1 _ _ SB Hne1 Hok1 Hr1 Hd1 Hn1' E32) ltac:(rewrite Hv1; reflexivity))). fold data1 data2.
  rewrite (found_after dhcp_ROUTER _ xg gateway data1 4 Xg Eg ltac:(lia) ltac:(lia)).
  rewrite route_request_encode by (rewrite length_firstn; lia).
  assert (length (mem_copy B 0 data1) = length buffer) as LB1 by (rewrite length_mem_copy; unfold dhcp_header_SIZE, buffer_SIZE in *; lia).
  assert (Z.of_nat (length (mem_copy B 0 data1)) = buffer_SIZE) as SB1 by (rewrite LB1; exact Hsize).
  assert (44 = le_combine (firstn 4 (nth 0 [Nl.message RTM_NEWROUTE (NLM_F_REQUEST + NLM_F_ACK + NLM_F_CREATE + NLM_F_REPLACE) 0 (rtmsg 0 0 RT_SCOPE_UNIVERSE ++ flat_map Nl.encode [Nl.Attr RTA_GATEWAY (firstn 4 gateway); Nl.Attr RTA_PRIORITY (le_split 4 (routePriority self'))])] []))) as E44.
  { rewrite message_len; rewrite length_app; cbn [flat_map]; rewrite !length_app, !length_encode_attr, length_firstn, Nat.min_l by lia; reflexivity. }
  rewrite (bind_done _ _ _ _ _ (eq_trans (talk_spec (mem_copy B 0 data1) rtnetlinkFd _ 44 o3 ms2 r2 _ _ SB1 Hne2 Hok2 Hr2 Hd2 Hn2 E44) ltac:(rewrite Hv2; reflexivity))).
  unfold pure. do 2 f_equal. unfold add_address, add_route, print_event. rewrite <- !app_assoc. destruct new; reflexivity.
Qed.
End Packet.


(** ** Instances of the theorems *)

Definition demo_client : dhcpClient := DhcpClient 7 8 9 0 41 0 0 3 1000 (str "eth0" ++ 0 :: repeat 0 11) [2; 4; 6; 8; 10; 12] 0.
(** A NAK from a server, and an ACK. *)
Definition demo_reply : list Z := dhcp_header dhcp_BOOTREPLY [0; 0; 0; 42] [0; 0] [0; 0; 0; 0] [10; 123; 0; 40] [10; 123; 0; 1] ([2; 4; 6; 8; 10; 12] ++ repeat 0 10).
Definition ack : list Nl.msg := [ack_message 0].

Lemma ack_facts : ack <> [] /\ Forall Nl.msg_ok ack /\ Nl.verdict ack = true /\ bytes (flat_map Nl.encode_msg ack) /\ length (flat_map Nl.encode_msg ack) = 36%nat.
Proof.
  split; [discriminate|]. split; [constructor; [apply ack_ok|constructor]|]. split; [reflexivity|]. split; [|reflexivity].
  apply Forall_forall. intros x Hx. vm_compute in Hx. unfold is_byte. repeat (destruct Hx as [<-|Hx]; [lia|]). contradiction.
Qed.

Lemma dhcpClient_onTimerFd_correct_witness :
  let e := [1; 0; 0; 0; 0; 0; 0; 0] in
  dhcpClient_onTimerFd [] demo_client 4 (World [Answer 8 e; Answer 280 []; Answer 0 []] []) =
    (Done ([], bump demo_client), World [] [expiration demo_client e; broadcast demo_client 280; timer_set demo_client 10]) /\
  let leased := with_renewServerIp (with_leasedIp demo_client (le_combine [10; 123; 0; 40])) (le_combine [10; 123; 0; 1]) in
  fst (dhcpClient_onTimerFd [] leased 4 (World [Answer 8 e; Answer 252 []; Answer 0 []] [])) = Done ([], with_renewServerIp (bump leased) 0).
Proof.
  intros e. assert (bytes e) as He by (repeat constructor; unfold is_byte; lia). split.
  - destruct (dhcpClient_onTimerFd_correct [] demo_client 4 e 8 280 [] [] [] [] ltac:(lia) He eq_refl) as (_ & H & _). exact (H eq_refl).
  - intros leased. destruct (dhcpClient_onTimerFd_correct [] leased 4 e 8 252 [] [] [] [] ltac:(lia) He eq_refl) as (H & _). rewrite H by discriminate. reflexivity.
Defined.

