(* ===== verification/DhcpSession.v ===== *)
(** * The DHCP client over time, and with the server

    First the client's timer: between two expirations the client always leaves the timer
    set, so that it never stops trying.  Then a whole exchange: the client's broadcast is
    given to the server, its answers to the client and back, each through the handlers
    that [router.c] calls when a descriptor is ready. *)
From Stdlib Require Import ZArith List Lia Bool.
From S2P Require Import Prelude Mem RouterSys Netlink Config Dhcp DhcpServer DhcpClient.
Import ListNotations.

(** ** The client's timer *)

(** What wakes the client up. *)
Inductive wakeup := Timer | Packet.

Definition wake (x : wakeup) (buffer : list Z) (self : dhcpClient) (rtnetlinkFd : Z) : M (list Z * dhcpClient) :=
  match x with
  | Timer => dhcpClient_onTimerFd buffer self rtnetlinkFd
  | Packet => dhcpClient_onFd buffer self rtnetlinkFd
  end.

Fixpoint session (xs : list wakeup) (buffer : list Z) (self : dhcpClient) (rtnetlinkFd : Z) : M (list Z * dhcpClient) :=
  match xs with
  | [] => pure (buffer, self)
  | x :: xs =>
      let! (buffer, self) := wake x buffer self rtnetlinkFd in
      session xs buffer self rtnetlinkFd
  end.

(** Whether a timer is running, from the calls made so far: setting it starts it (or stops
    it, with zero seconds); once it was read it has expired. *)
Definition timer_step (timer : Z) (armed : bool) (e : event) : bool :=
  match fst e with
  | Sys_timerfd_settime fd sec nsec => if fd =? timer then negb ((sec =? 0) && (nsec =? 0)) else armed
  | Sys_read fd _ => if fd =? timer then false else armed
  | _ => armed
  end.
Definition armed (timer : Z) (t : list event) : bool := fold_left (timer_step timer) t false.

(** The seconds that the client's timer is ever set to. *)
Definition client_timeout (sec : Z) : Prop := sec = 5 \/ sec = 10 \/ exists v, 0 <= v < 2 ^ 32 /\ sec = half_lease v.

Definition client_event (self : dhcpClient) (e : event) : Prop :=
  match fst e with
  | Sys_timerfd_settime fd sec nsec => fd = timerFd self /\ nsec = 0 /\ client_timeout sec
  | _ => True
  end.
Definition packet_event (self : dhcpClient) (e : event) : Prop :=
  client_event self e /\ match fst e with Sys_read f _ => f = fd self | _ => True end.

Definition same_fds (self self' : dhcpClient) : Prop := fd self' = fd self /\ timerFd self' = timerFd self.

Lemma half_lease_zero v : 0 <= v < 2 ^ 32 -> half_lease v = 0 <-> v = 0 \/ v = 2 ^ 32 - 1.
Proof.
  intros Hv. unfold half_lease, wrap. destruct (Z.eq_dec v (2 ^ 32 - 1)) as [->|Hne]; [cbn; split; auto|].
  rewrite Z.mod_small by lia. split; intros H; [|destruct H as [->|]; [reflexivity|lia]].
  destruct (Z.eq_dec v 0); [now left|]. exfalso. assert (1 <= (v + 1) / 2) by (apply Z.div_le_lower_bound; lia). lia.
Qed.

Ltac emit := repeat match goal with
  | |- emits _ (bind _ _) => apply emits_bind; [|intros]
  | |- emits _ (pure _) => apply emits_pure
  | |- emits _ (CHECK _) => apply emits_CHECK
  | |- emits _ (load _ _ _) => apply emits_load
  | |- emits _ (options_loop _ _ _ _ _ _) => apply emits_options
  | |- emits _ undefined => apply emits_undefined
  | |- emits _ fatal => apply emits_fatal
  | |- emits _ (netlink_talk _ _ _) => apply emits_talk; intros
  | |- emits _ (writeAll _ _) => apply emits_writeAll; intros
  | |- emits _ (sys_sendto _ _ _ _) => apply emits_syscall; intros
  | |- emits _ (syscall _) => apply emits_syscall; intros
  | |- emits _ (syscall_in _ _) => apply emits_syscall_in; intros
  | |- emits ?P (let x := ?e in @?b x) => cut (forall y, emits P (b y)); [exact (fun H => H e)|intros ?; cbv beta]
  | |- emits _ (match ?x with _ => _ end) => destruct x
  end.

Lemma emits_set_timeout P timer sec : (forall a, P (Sys_timerfd_settime timer sec 0, a)) -> emits P (set_timeout timer sec).
Proof. intros Hp. unfold set_timeout. emit. apply Hp. Qed.

Lemma emits_name P self : emits P (name_text self).
Proof. unfold name_text. emit. Qed.

Lemma emits_print_leased P self : (forall f data a, P (Sys_write f data, a)) -> emits P (print_leased self).
Proof. intros Hp. unfold print_leased. emit; [apply emits_name|apply Hp]. Qed.

Lemma emits_print_lost P self : (forall f data a, P (Sys_write f data, a)) -> emits P (print_lost self).
Proof. intros Hp. unfold print_lost. emit; [apply emits_name|apply Hp]. Qed.

Lemma le_combine4 l : bytes l -> (length l <= 4)%nat -> 0 <= le_combine l < 2 ^ 32.
Proof.
  intros Hb Hl. pose proof (le_combine_bound l Hb) as H. assert (256 ^ Z.of_nat (length l) <= 256 ^ 4) by (apply Z.pow_le_mono_r; lia). change (256 ^ 4) with (2 ^ 32) in *. lia.
Qed.

Lemma ensures_read P f n : (forall a, P (Sys_read f n, a)) -> ensures P (fun x => bytes (snd x)) (sys_read f n).
Proof.
  intros Hp w. unfold sys_read. destruct (syscall_in_spec (Sys_read f n) (Z.to_nat n) w) as (r & d & w' & E & Ha & Hb & _). rewrite E. exists [(Sys_read f n, Answer r d)].
  split; [exact Ha|]. split; [constructor; [apply Hp|constructor]|]. cbn. intros a Hd. injection Hd as <-. exact Hb.
Qed.


Lemma ensures_talk P buffer fd request : (forall f n fl a, P (Sys_recvfrom f n fl, a)) -> (forall f n io fl a, P (Sys_sendmsg f n io fl, a)) -> bytes buffer ->
  ensures P bytes (netlink_talk buffer fd request).
Proof.
  intros H1 H2 Hb. unfold netlink_talk. cbv zeta. apply ensures_then; [emit; apply H2|intros sent]. apply ensures_then; [emit|intros _].
  unfold netlink_receive. cbv zeta. apply ensures_then; [emit|intros _].
  apply ensures_bind with (R := fun x => bytes (snd x)).
  { intros w. unfold RouterSys.sys_recvfrom. match goal with |- context [syscall_in ?c ?n w] => destruct (syscall_in_spec c n w) as (r & d & w' & E & Ha & Hd & _); rewrite E; exists [(c, Answer r d)] end.
    split; [exact Ha|]. split; [constructor; [apply H1|constructor]|]. cbn. intros a Hx. injection Hx as <-. exact Hd. }
  intros [r d] Hd. apply ensures_then; [emit|intros _]. apply ensures_then; [|intros _; apply ensures_pure; apply bytes_mem_copy; assumption].
  generalize walk_fuel as fuel. generalize (mem_copy buffer (Z.to_nat 0) d) as B. generalize 0 at 1. generalize (0 + r) as e. intros e i B fuel. revert i.
  induction fuel as [|fuel IH]; intros i; cbn [receive_loop]; [apply emits_unfinished|]. emit. apply IH.
Qed.

(** ** The handlers *)

Section Handlers.
Context (client : dhcpClient) (rtnetlinkFd : Z).
Local Notation kept x := (bytes (fst x) /\ same_fds client (snd x)).

Lemma same_fds_set self self' : same_fds client self -> fd self' = fd self -> timerFd self' = timerFd self -> same_fds client self'.
Proof. unfold same_fds. intros [H1 H2] E1 E2. split; congruence. Qed.

Lemma timeout_event self sec a : same_fds client self -> client_timeout sec -> packet_event client (Sys_timerfd_settime (timerFd self) sec 0, a).
Proof. intros [_ ->] Hs. unfold packet_event, client_event. cbn. auto. Qed.

(** A local variable, known by what holds of it. *)
Ltac local R := match goal with |- ensures ?P ?Q (let x := ?e in @?b x) => refine ((_ : forall y, R y -> ensures P Q (b y)) e _); cbv beta end.

Lemma ack_ensures buffer self o : bytes buffer -> same_fds client self -> ensures (packet_event client) (fun x => kept x) (client_ack buffer self rtnetlinkFd o).
Proof.
  intros Hb Hs. cbv delta [client_ack] beta. destruct (subnetMask o) as [mask|]; [|now apply ensures_pure]. destruct (router o) as [gw|]; [|now apply ensures_pure]. destruct (leaseTime o) as [lt|]; [|now apply ensures_pure].
  cbv beta iota. local (same_fds client); [intros self1 Hs1|eapply same_fds_set; [exact Hs|reflexivity|reflexivity]].
  local (fun v => 0 <= v < 2 ^ 32); [intros v Hv|apply le_combine4; [apply Forall_rev; apply bytes_firstn, bytes_skipn; exact Hb|rewrite length_rev; unfold data_at, field; rewrite length_firstn; lia]].
  apply ensures_then; [apply emits_set_timeout; intros; apply timeout_event; [exact Hs1|right; right; exists v; split; [exact Hv|reflexivity]]|intros _].
  local (same_fds client); [intros self2 Hs2|eapply same_fds_set; [exact Hs1|reflexivity|reflexivity]].
  local (fun _ : list Z => True); [intros yourIp _|exact I].
  local (same_fds client); [intros self3 Hs3|eapply same_fds_set; [exact Hs2|reflexivity|reflexivity]].
  apply ensures_bind with (R := same_fds client).
  { destruct (negb _); [|now apply ensures_pure]. local (same_fds client); [intros self4 Hs4|eapply same_fds_set; [exact Hs3|reflexivity|reflexivity]].
    apply ensures_then; [|intros _; now apply ensures_pure]. apply emits_print_leased. split; exact I. }
  intros self5 Hs5. apply ensures_bind with (R := bytes); [apply ensures_talk; try (intros; split; exact I); exact Hb|intros b1 Hb1].
  apply ensures_bind with (R := bytes); [apply ensures_talk; try (intros; split; exact I); exact Hb1|intros b2 Hb2]. now apply ensures_pure.
Qed.

Lemma onFd_ensures buffer self : bytes buffer -> same_fds client self -> ensures (packet_event client) (fun x => kept x) (dhcpClient_onFd buffer self rtnetlinkFd).
Proof.
  intros Hb Hs. unfold dhcpClient_onFd. apply ensures_bind with (R := fun x => bytes (snd x)).
  { apply ensures_read. intros a. split; [exact I|]. cbn. apply Hs. }
  intros [n data] Hd. cbv zeta. pose proof (bytes_mem_copy buffer 0 data Hb Hd) as HB. set (B := mem_copy buffer 0 data) in *. clearbody B.
  destruct (_ <? _); [now apply ensures_pure|]. destruct (negb _); [now apply ensures_pure|]. apply ensures_then; [emit|intros o].
  destruct (messageType o); [|now apply ensures_pure]. apply ensures_then; [emit|intros type].
  destruct (_ =? _).
  { destruct (leaseTime o); [|now apply ensures_pure]. apply ensures_then; [emit; split; exact I|intros _].
    apply ensures_then; [apply emits_set_timeout; intros; apply timeout_event; [exact Hs|right; now left]|intros _]. now apply ensures_pure. }
  destruct (_ =? _).
  { apply ensures_then; [apply emits_set_timeout; intros; apply timeout_event; [exact Hs|now left]|intros _]. now apply ensures_pure. }
  destruct (_ =? _); [now apply ack_ensures|now apply ensures_pure].
Qed.

(** What it does last, if it returns. *)
Definition ends {A} (P L : event -> Prop) (Q : A -> Prop) (m : M A) : Prop :=
  forall w, exists es, adds w (snd (m w)) es /\ Forall P es /\ forall a, fst (m w) = Done a -> Q a /\ exists before e, es = before ++ [e] /\ L e.

Lemma ends_bind {A B} P L (R : A -> Prop) (Q : B -> Prop) m f : ensures P R m -> (forall a, R a -> ends P L Q (f a)) -> ends P L Q (bind m f).
Proof.
  intros Hm Hf w. destruct (Hm w) as (es & H1 & F1 & Hr). unfold bind. destruct (m w) as [[a| | |] w1]; cbn [fst snd] in *;
    try (exists es; split; [exact H1|split; [exact F1|discriminate]]; fail).
  destruct (Hf a (Hr a eq_refl) w1) as (es2 & H2 & F2 & Hq). exists (es ++ es2). split; [exact (adds_app _ _ _ _ _ H1 H2)|]. split; [now apply Forall_app|].
  intros b Hb. destruct (Hq b Hb) as (HQ & before & e & -> & HL). split; [exact HQ|]. exists (es ++ before), e. split; [apply app_assoc|exact HL].
Qed.

Lemma ends_then {A B} P L (Q : B -> Prop) (m : M A) (f : A -> M B) : emits P m -> (forall a, ends P L Q (f a)) -> ends P L Q (bind m f).
Proof. intros Hm Hf. eapply ends_bind; [apply ensures_emits, Hm|auto]. Qed.

Lemma onTimerFd_ends buffer self : bytes buffer -> same_fds client self ->
  ends (client_event client) (fun e => fst e = Sys_timerfd_settime (timerFd client) 10 0) (fun x => kept x) (dhcpClient_onTimerFd buffer self rtnetlinkFd).
Proof.
  intros Hb Hs. unfold dhcpClient_onTimerFd. apply ends_then; [emit; exact I|intros [n e]]. apply ends_then; [emit|intros _]. cbv zeta.
  set (self1 := with_identifier self _). assert (same_fds client self1) as Hs1 by (eapply same_fds_set; [exact Hs|reflexivity|reflexivity]). clearbody self1.
  apply ends_bind with (R := fun x => kept x).
  - destruct (negb _ && negb _).
    { apply ensures_then; [emit; exact I|intros _]. apply ensures_pure. split; [exact Hb|]. eapply same_fds_set; [exact Hs1|reflexivity|reflexivity]. }
    apply ensures_bind with (R := fun x => kept x).
    + destruct (negb _); [|now apply ensures_pure]. apply ensures_then; [apply emits_print_lost; intros; exact I|intros _].
      apply ensures_bind with (R := bytes); [apply ensures_talk; try (intros; exact I); exact Hb|intros b1 Hb1]. apply ensures_pure. split; [exact Hb1|]. eapply same_fds_set; [exact Hs1|reflexivity|reflexivity].
    + intros [b1 self2] H2. apply ensures_then; [emit; exact I|intros _]. now apply ensures_pure.
  - intros [b1 self2] H2. intros w. destruct H2 as [Hb2 Hs2]. cbn [fst snd] in *. unfold set_timeout, bind. destruct (syscall_spec (Sys_timerfd_settime (timerFd self2) 10 0) w) as (r & w' & E & Ha). rewrite E.
    exists [(Sys_timerfd_settime (timerFd self2) 10 0, Answer r [])]. destruct Hs2 as [Hf Ht]. rewrite Ht in *.
    unfold CHECK. destruct (r =? 0); cbn [pure fatal fst snd]; (split; [exact Ha|]); (split; [constructor; [|constructor]; unfold client_event; cbn; unfold client_timeout; auto|]).
    + intros a Hx. injection Hx as <-. split; [split; [exact Hb2|split; assumption]|]. exists [], (Sys_timerfd_settime (timerFd client) 10 0, Answer r []). split; reflexivity.
    + discriminate.
Qed.

(** Whether the timer runs after some events, and the one way it can stop. *)
Lemma armed_app t es : armed (timerFd client) (t ++ es) = fold_left (timer_step (timerFd client)) es (armed (timerFd client) t).
Proof. unfold armed. apply fold_left_app. Qed.

Definition stopped (es : list event) : Prop := exists e v, In e es /\ fst e = Sys_timerfd_settime (timerFd client) 0 0 /\ half_lease v = 0 /\ (v = 0 \/ v = 2 ^ 32 - 1).

Lemma armed_step b e : client_event client e -> match fst e with Sys_read f _ => f <> timerFd client | _ => True end -> b = true -> timer_step (timerFd client) b e = true \/ stopped [e].
Proof.
  intros He Hr Hb. unfold timer_step. destruct e as [c ans]. unfold client_event in He. cbn [fst] in *. destruct c; auto.
  - destruct (Z.eqb_spec fd (timerFd client)); [contradiction|auto].
  - destruct He as (-> & -> & Ht). rewrite Z.eqb_refl. destruct (Z.eqb_spec sec 0) as [->|]; [|auto]. right. destruct Ht as [Ht|[Ht|(v & Hv & Ht)]]; try discriminate.
    eexists _, v. split; [left; reflexivity|]. split; [reflexivity|]. split; [now symmetry|]. apply half_lease_zero; [exact Hv|now symmetry].
Qed.

Lemma stopped_app es1 es2 : stopped es1 \/ stopped es2 -> stopped (es1 ++ es2).
Proof. intros [(e & v & Hi & H)|(e & v & Hi & H)]; exists e, v; (split; [apply in_or_app; auto|exact H]). Qed.

Lemma armed_packets es : fd client <> timerFd client -> forall b, Forall (packet_event client) es -> b = true -> fold_left (timer_step (timerFd client)) es b = true \/ stopped es.
Proof.
  intros Hne. induction es as [|e es IH]; intros b Hes Hb; [now left|]. inversion Hes as [|? ? [He Hr] Hes']; subst. cbn [fold_left].
  destruct (armed_step true e He) as [E|E]; [destruct (fst e); congruence|reflexivity| |].
  - rewrite E. destruct (IH true Hes' eq_refl) as [E2|E2]; [now left|]. right. change (e :: es) with ([e] ++ es). apply stopped_app. now right.
  - right. change (e :: es) with ([e] ++ es). apply stopped_app. now left.
Qed.

Lemma wake_armed x buffer self : bytes buffer -> same_fds client self -> fd client <> timerFd client -> forall w, exists es, adds w (snd (wake x buffer self rtnetlinkFd w)) es /\ Forall (client_event client) es /\
  forall y, fst (wake x buffer self rtnetlinkFd w) = Done y -> kept y /\ (x = Timer \/ armed (timerFd client) (trace w) = true -> armed (timerFd client) (trace w ++ es) = true \/ stopped es).
Proof.
  intros Hb Hs Hne w. destruct x; cbn [wake].
  - destruct (onTimerFd_ends buffer self Hb Hs w) as (es & H1 & F1 & H2). exists es. split; [exact H1|]. split; [exact F1|]. intros y Hy. destruct (H2 y Hy) as (Hk & before & e & -> & He).
    split; [exact Hk|]. intros _. left. rewrite armed_app, fold_left_app. cbn [fold_left]. unfold timer_step at 1. rewrite He, Z.eqb_refl. reflexivity.
  - destruct (onFd_ensures buffer self Hb Hs w) as (es & H1 & F1 & H2). exists es. split; [exact H1|]. split; [eapply Forall_impl; [|exact F1]; intros e [He _]; exact He|]. intros y Hy. split; [now apply H2|].
    intros [|Ha]; [discriminate|]. rewrite armed_app. now apply armed_packets.
Qed.

Lemma session_armed xs : forall buffer self w, bytes buffer -> same_fds client self -> fd client <> timerFd client ->
  exists es, adds w (snd (session xs buffer self rtnetlinkFd w)) es /\ Forall (client_event client) es /\
  forall y, fst (session xs buffer self rtnetlinkFd w) = Done y -> kept y /\ (armed (timerFd client) (trace w) = true -> armed (timerFd client) (trace w ++ es) = true \/ stopped es).
Proof.
  induction xs as [|x xs IH]; intros buffer self w Hb Hs Hne; cbn [session].
  - exists []. split; [apply adds_nil|]. split; [constructor|]. cbn. intros y Hy. injection Hy as <-. rewrite app_nil_r. auto.
  - destruct (wake_armed x buffer self Hb Hs Hne w) as (es & H1 & F1 & H2). unfold bind. destruct (wake x buffer self rtnetlinkFd w) as [[[b1 s1]| | |] w1]; cbn [fst snd] in *;
      try (exists es; split; [exact H1|split; [exact F1|discriminate]]; fail).
    destruct (H2 _ eq_refl) as [[Hb1 Hs1] Ha]. destruct (IH b1 s1 w1 Hb1 Hs1 Hne) as (es2 & H3 & F2 & H4). exists (es ++ es2). split; [exact (adds_app _ _ _ _ _ H1 H3)|]. split; [now apply Forall_app|].
    intros y Hy. destruct (H4 y Hy) as [Hk Ha2]. split; [exact Hk|]. intros H0. rewrite H1 in Ha2. destruct (Ha (or_intror H0)) as [E|E]; [|right; apply stopped_app; now left].
    rewrite app_assoc. destruct (Ha2 E) as [E2|E2]; [now left|right; apply stopped_app; now right].
Qed.
End Handlers.


(** ** An instance of the theorem *)

