(* ===== verification/DhcpExchange.v ===== *)
(** * A DHCP exchange between the router's client and the router's server

    Two routers on one network, one a client and one a server.  What one sends last is
    delivered to the other, and each runs the handler that [router.c] calls when the
    descriptor is ready.  Four messages later both agree on the client's address. *)
From Stdlib Require Import ZArith List Lia Bool.
From S2P Require Import Prelude Mem Util RouterSys Netlink Config Dhcp DhcpServer DhcpClient.
Import ListNotations.

(** ** Delivery *)

Record lan := Lan { clientBuffer : list Z; client : dhcpClient; clientWorld : world; serverBuffer : list Z; server : dhcpServer; serverWorld : world }.

(** The DHCP message of an event that everyone hears: a UDP datagram to 255.255.255.255, or
    what follows the IP header of a packet to ff:ff:ff:ff:ff:ff. *)
Definition payload (e : event) : option (list Z) :=
  match fst e with
  | Sys_sendto _ m _ addr => if same (field addr 4 4) (repeat 255 4) then Some m else None
  | Sys_sendmsg _ addr [_; m] _ => if same (field addr 12 6) (repeat 255 6) then Some m else None
  | _ => None
  end.
Definition last_sent_step (acc : option (list Z)) (e : event) : option (list Z) := match payload e with Some m => Some m | None => acc end.
Definition last_sent (t : list event) : option (list Z) := fold_left last_sent_step t None.

(** The next read returns the packet. *)
Definition deliver (packet : list Z) (w : world) : world := World (Answer 1 packet :: answers w) (trace w).

Definition client_does (f : list Z -> dhcpClient -> M (list Z * dhcpClient)) (l : lan) : option lan :=
  match f (clientBuffer l) (client l) (clientWorld l) with
  | (Done (buffer, self), w) => Some (Lan buffer self w (serverBuffer l) (server l) (serverWorld l))
  | _ => None
  end.
Definition server_does (f : list Z -> dhcpServer -> M (list Z * dhcpServer)) (l : lan) : option lan :=
  match f (serverBuffer l) (server l) (serverWorld l) with
  | (Done (buffer, self), w) => Some (Lan (clientBuffer l) (client l) (clientWorld l) buffer self w)
  | _ => None
  end.
Definition to_server (l : lan) : option lan :=
  option_map (fun m => Lan (clientBuffer l) (client l) (clientWorld l) (serverBuffer l) (server l) (deliver m (serverWorld l))) (last_sent (trace (clientWorld l))).
Definition to_client (l : lan) : option lan :=
  option_map (fun m => Lan (clientBuffer l) (client l) (deliver m (clientWorld l)) (serverBuffer l) (server l) (serverWorld l)) (last_sent (trace (serverWorld l))).

Definition andThen {A B} (x : option A) (f : A -> option B) : option B := match x with Some a => f a | None => None end.
Infix ">=>" := andThen (at level 50, left associativity).

(** DISCOVER, OFFER, REQUEST, ACK. *)
Definition exchange (rtnetlinkFd wanDnsIp : Z) (l : lan) : option lan :=
  client_does (fun buffer self => dhcpClient_onTimerFd buffer self rtnetlinkFd) l >=>
  to_server >=> server_does (fun buffer self => dhcpServer_onFd buffer self wanDnsIp) >=>
  to_client >=> client_does (fun buffer self => dhcpClient_onFd buffer self rtnetlinkFd) >=>
  to_server >=> server_does (fun buffer self => dhcpServer_onFd buffer self wanDnsIp) >=>
  to_client >=> client_does (fun buffer self => dhcpClient_onFd buffer self rtnetlinkFd).

Lemma last_sent_app t es : last_sent (t ++ es) = fold_left last_sent_step es (last_sent t).
Proof. apply fold_left_app. Qed.

(** ** Messages of the two *)

(** The header of a message with fields of the right sizes. *)
Definition header_of (m : Bootp.message) : list Z :=
  dhcp_header (Bootp.op m) (Bootp.xid m) (Bootp.flags m) (Bootp.ciaddr m) (Bootp.yiaddr m) (Bootp.siaddr m) (Bootp.chaddr m).
Definition fields_ok (m : Bootp.message) : Prop :=
  length (Bootp.xid m) = 4%nat /\ length (Bootp.flags m) = 2%nat /\ length (Bootp.ciaddr m) = 4%nat /\ length (Bootp.yiaddr m) = 4%nat /\ length (Bootp.siaddr m) = 4%nat /\ length (Bootp.chaddr m) = 16%nat /\
  is_byte (Bootp.op m) /\ bytes (Bootp.xid m) /\ bytes (Bootp.flags m) /\ bytes (Bootp.ciaddr m) /\ bytes (Bootp.yiaddr m) /\ bytes (Bootp.siaddr m) /\ bytes (Bootp.chaddr m).

Lemma encode_split m : Bootp.encode m = header_of m ++ flat_map Bootp.encode_opt (Bootp.options m) ++ Bootp.rest m.
Proof. destruct m. unfold header_of. cbn [Bootp.op Bootp.xid Bootp.flags Bootp.ciaddr Bootp.yiaddr Bootp.siaddr Bootp.chaddr Bootp.options Bootp.rest]. now rewrite header_encode. Qed.

Ltac lists := repeat match goal with
  | H : length ?l = S _ |- _ => destruct l; cbn [List.length] in H; [discriminate|injection H as H]
  | H : length ?l = O |- _ => destruct l; cbn [List.length] in H; [clear H|discriminate]
  end.

Lemma header_fields m : fields_ok m ->
  Z.of_nat (length (header_of m)) = dhcp_header_SIZE /\ bytes (header_of m) /\
  field (header_of m) header_identifier 4 = Bootp.xid m /\ field (header_of m) header_clientIp 4 = Bootp.ciaddr m /\ field (header_of m) header_yourIp 4 = Bootp.yiaddr m /\
  field (header_of m) header_serverIp 4 = Bootp.siaddr m /\ field (header_of m) header_clientHwAddr 6 = firstn 6 (Bootp.chaddr m).
Proof.
  destruct m as [op xid flags ci yi si ch opts rest]. unfold fields_ok, header_of. cbn [Bootp.op Bootp.xid Bootp.flags Bootp.ciaddr Bootp.yiaddr Bootp.siaddr Bootp.chaddr].
  intros (H1 & H2 & H3 & H4 & H5 & H6 & B0 & B1 & B2 & B3 & B4 & B5 & B6). split; [|split].
  - unfold dhcp_header. rewrite !length_app, H1, H2, H3, H4, H5, H6. reflexivity.
  - unfold dhcp_header. rewrite !bytes_app. repeat apply conj; try assumption; try apply bytes_le_split; try (apply bytes_repeat; unfold is_byte; lia).
    constructor; [exact B0|]. repeat constructor; unfold is_byte, dhcp_ETHERNET; lia.
  - clear B0 B1 B2 B3 B4 B5 B6. lists. repeat split; reflexivity.
Qed.

(** How the options of a message are read: what follows END may still look like options. *)
Record reads_as (m : Bootp.message) (opts : list Bootp.opt) (tail : list Z) : Prop := ReadsAs {
  reads_fields : fields_ok m;
  reads_options : flat_map Bootp.encode_opt (Bootp.options m) ++ Bootp.rest m = flat_map Bootp.encode_opt opts ++ tail;
  reads_ok : Forall Bootp.opt_ok opts;
  reads_stuck : Bootp.stuck tail;
  reads_tail : bytes tail;
  reads_room : (length (flat_map Bootp.encode_opt opts ++ tail) <= 1000)%nat }.

Lemma bytes_opts opts : Forall Bootp.opt_ok opts -> bytes (flat_map Bootp.encode_opt opts).
Proof.
  induction 1 as [|o opts (H1 & H2 & H3) _ IH]; [constructor|]. cbn [flat_map]. apply bytes_app. split; [|exact IH].
  unfold Bootp.encode_opt, dhcp_option. apply bytes_app. split; [|exact H2]. constructor; [exact H1|]. constructor; [unfold is_byte; lia|constructor].
Qed.

Lemma reads_packet m opts tail : reads_as m opts tail ->
  Bootp.encode m = header_of m ++ flat_map Bootp.encode_opt opts ++ tail /\ bytes (header_of m ++ flat_map Bootp.encode_opt opts ++ tail) /\
  Z.of_nat (length (header_of m ++ flat_map Bootp.encode_opt opts ++ tail)) + 2 <= buffer_SIZE.
Proof.
  intros [Hf Ho Hok Hs Ht Hr]. destruct (header_fields m Hf) as (Hl & Hb & _). split; [rewrite encode_split; now rewrite Ho|]. split.
  - apply bytes_app. split; [exact Hb|]. apply bytes_app. split; [now apply bytes_opts|exact Ht].
  - rewrite length_app. unfold dhcp_header_SIZE, buffer_SIZE in *. lia.
Qed.

Ltac fields := unfold fields_ok; cbn [Bootp.op Bootp.xid Bootp.flags Bootp.ciaddr Bootp.yiaddr Bootp.siaddr Bootp.chaddr]; repeat apply conj;
  rewrite ?length_app, ?length_rev, ?length_le_split, ?repeat_length; try reflexivity; try assumption;
  try (apply Forall_rev; apply bytes_le_split); try apply bytes_le_split; try (repeat constructor; unfold is_byte; lia).

Ltac options_ok := repeat (apply Forall_cons; [unfold Bootp.opt_ok; cbn [fst snd]; split; [unfold is_byte; lia|split]|]); try apply Forall_nil.

Section Client.
Context (self : dhcpClient) (Hmac : length (ifMacAddress self) = 6%nat) (Hbytes : bytes (ifMacAddress self)).

Lemma chaddr_ok : length (ifMacAddress self ++ repeat 0 10) = 16%nat /\ bytes (ifMacAddress self ++ repeat 0 10) /\ firstn 6 (ifMacAddress self ++ repeat 0 10) = ifMacAddress self.
Proof using All.
  rewrite length_app, Hmac. split; [reflexivity|]. split; [apply bytes_app; split; [exact Hbytes|apply bytes_repeat; unfold is_byte; lia]|].
  rewrite firstn_app_l, firstn_all2 by lia. reflexivity.
Qed.

Definition discover_options : list Bootp.opt := [(53, [1]); (55, [1; 3; 6]); (255, []); (0, [])].
Lemma discover_reads : reads_as (discover self) discover_options [].
Proof using All.
  destruct chaddr_ok as (H1 & H2 & _). split; unfold discover; [fields| | | | |]; try (exact H1 || exact H2).
  - reflexivity.
  - unfold discover_options. options_ok; repeat constructor; unfold is_byte; lia.
  - exact I.
  - constructor.
  - apply Nat.leb_le. reflexivity.
Qed.

Definition request_options (leaseTime serverIp yourIp : list Z) : list Bootp.opt := [(53, [3]); (55, [1; 3; 6]); (51, leaseTime); (54, serverIp); (50, yourIp); (255, [])].
Lemma request_reads header leaseTime : bytes header -> bytes leaseTime -> length leaseTime = 4%nat -> (240 <= length header)%nat ->
  reads_as (request_message self header leaseTime) (request_options leaseTime (field header header_serverIp 4) (field header header_yourIp 4)) [].
Proof using All.
  intros Hb Hl Hn Hh. destruct chaddr_ok as (H1 & H2 & _).
  assert (forall i, (i + 4 <= 240)%nat -> length (field header i 4) = 4%nat /\ bytes (field header i 4)) as Hf.
  { intros i Hi. split; [apply length_packet_field; lia|apply field_bytes; exact Hb]. }
  destruct (Hf header_serverIp ltac:(unfold header_serverIp; lia)) as [S1 S2]. destruct (Hf header_yourIp ltac:(unfold header_yourIp; lia)) as [Y1 Y2].
  split; unfold request_message; [fields| | | | |]; try (exact H1 || exact H2).
  - cbn [Bootp.options Bootp.rest flat_map request_options]. rewrite <- !app_assoc. reflexivity.
  - unfold request_options. options_ok; try assumption; try lia; repeat constructor; unfold is_byte; lia.
  - exact I.
  - constructor.
  - cbn [flat_map request_options]. rewrite !length_app. unfold Bootp.encode_opt, dhcp_option. cbn [fst snd]. rewrite !length_app. cbn [List.length]. lia.
Qed.
End Client.

Section Server.
Context (self : dhcpServer) (m : Bootp.message) (Hm : fields_ok m).

Definition answer_options (isDiscover : bool) (wanDnsIp : Z) : list Bootp.opt :=
  let ip := le_split 4 (DhcpServer.serverIp self) in
  [(53, [if isDiscover then 2 else 5]); (54, ip); (1, [255; 255; 255; 0]); (3, ip); (51, [0; 0; 2; 88]); (6, dns_server wanDnsIp); (255, [])].

Lemma dns_ok wanDnsIp : length (dns_server wanDnsIp) = 4%nat /\ bytes (dns_server wanDnsIp).
Proof using. unfold dns_server. destruct (_ =? _); split; try reflexivity; try apply bytes_le_split. repeat constructor; unfold is_byte; lia. Qed.

Lemma address_ok k : (k < dhcpServer_NUM_ENTRIES)%nat -> length (address self (Z.of_nat k)) = 4%nat /\ bytes (address self (Z.of_nat k)).
Proof using.
  intros Hk. split; [reflexivity|]. unfold address. apply bytes_app. split; [apply bytes_firstn, bytes_le_split|]. constructor; [|constructor].
  unfold is_byte, dhcpServer_FIRST_OCTET, dhcpServer_NUM_ENTRIES in *. lia.
Qed.

Lemma answer_reads isDiscover k wanDnsIp : (k < dhcpServer_NUM_ENTRIES)%nat ->
  reads_as (server_message self (header_of m) isDiscover (Z.of_nat k) wanDnsIp) (answer_options isDiscover wanDnsIp) [0].
Proof using All.
  intros Hk. destruct (dns_ok wanDnsIp) as [D1 D2]. destruct (address_ok k Hk) as [A1 A2]. pose proof (bytes_le_split 4 (DhcpServer.serverIp self)) as Hip. pose proof (length_le_split 4 (DhcpServer.serverIp self)) as Lip.
  destruct (header_fields m Hm) as (_ & _ & Fx & _ & _ & _ & Fm). destruct Hm as (X1 & _ & _ & _ & _ & C1 & _ & X2 & _ & _ & _ & _ & C2).
  split; unfold server_message; [fields| | | | |].
  - now rewrite Fx.
  - unfold client_mac. rewrite Fm, length_firstn, C1. reflexivity.
  - rewrite Fx. exact X2.
  - unfold client_mac. rewrite Fm. apply bytes_app. split; [now apply bytes_firstn|apply bytes_repeat; unfold is_byte; lia].
  - cbn [Bootp.options Bootp.rest flat_map answer_options]. rewrite <- !app_assoc. reflexivity.
  - unfold answer_options. options_ok; try assumption; try lia; try (destruct isDiscover); repeat constructor; unfold is_byte; lia.
  - unfold Bootp.stuck. exact I.
  - repeat constructor; unfold is_byte; lia.
  - cbn [flat_map answer_options]. rewrite !length_app. unfold Bootp.encode_opt, dhcp_option. cbn [fst snd]. rewrite !length_app. cbn [List.length]. lia.
Qed.
End Server.

(** ** The server's two answers *)

Definition slot (l : list entry) (mac : list Z) (k : nat) : Prop :=
  (k < dhcpServer_NUM_ENTRIES)%nat /\ (lookup mac l = Some k \/ lookup mac l = None /\ oldest l k).

Lemma oldest_unique l a b : oldest l a -> oldest l b -> a = b.
Proof.
  intros (A1 & A2 & A3) (B1 & B2 & B3). destruct (Nat.lt_trichotomy a b) as [H|[H|H]]; [|exact H|].
  - specialize (B3 a H). specialize (A2 b B1). lia.
  - specialize (A3 b H). specialize (B2 a A1). lia.
Qed.

Lemma slot_heard l mac create now l' i k : slot l mac k -> (create = false -> lookup mac l = Some k) -> heard l mac create now l' i -> i = Z.of_nat k /\ l' = set l k (Entry now mac).
Proof.
  intros [Hk Hs] Hc [(k' & -> & Hk' & -> & Hl)|(-> & -> & -> & Hno)].
  - assert (k' = k) as -> by (destruct Hs as [Hs|[Hs Ho]], Hl as [Hl|(_ & Hl & Ho')]; try congruence; eapply oldest_unique; eassumption). auto.
  - rewrite (Hc eq_refl) in Hno. discriminate.
Qed.

Lemma lookup_set l mac k t : length l = dhcpServer_NUM_ENTRIES -> slot l mac k -> lookup mac (set l k (Entry t mac)) = Some k.
Proof.
  intros Hl [Hk Hs]. rewrite <- Hl in Hk. apply lookup_unique; [now rewrite length_set|rewrite nth_set, Nat.eqb_refl by exact Hk; reflexivity|].
  intros j Hj. rewrite nth_set by exact Hk. destruct (Nat.eqb_spec j k); [lia|].
  destruct Hs as [Hs|[Hs _]]; [apply lookup_some in Hs as (_ & _ & H3); now apply H3|apply lookup_none with (1 := Hs); lia].
Qed.

Lemma address_positive self k : 0 < le_combine (address self (Z.of_nat k)).
Proof.
  unfold address. pose proof (bytes_firstn 3 _ (bytes_le_split 4 (DhcpServer.serverIp self))) as Hb.
  assert (length (firstn 3 (le_split 4 (DhcpServer.serverIp self))) = 3%nat) as Hl by (now rewrite length_firstn, length_le_split).
  set (l := firstn 3 _) in *. clearbody l. lists. pose proof (le_combine_bound _ Hb) as Hc. rewrite le_combine_app. cbn [List.length le_combine] in *. unfold dhcpServer_FIRST_OCTET. lia.
Qed.

Lemma server_hears buffer self wanDnsIp m opts tail type k w :
  Z.of_nat (length buffer) = buffer_SIZE -> bytes buffer -> table_ok (entries self) -> reads_as m opts tail ->
  Bootp.last_opt dhcp_MESSAGE_TYPE (fun n => n =? 1) opts = Some [type] -> Bootp.ciaddr m = [0; 0; 0; 0] ->
  let mac := firstn 6 (Bootp.chaddr m) in let isDiscover := type =? dhcp_DISCOVER in
  slot (entries self) mac k -> (isDiscover = true \/ type = dhcp_REQUEST /\ lookup mac (entries self) = Some k) ->
  exists now w', let l' := set (entries self) k (Entry now mac) in
    dhcpServer_onFd buffer self wanDnsIp (deliver (Bootp.encode m) w) = (Done (mem_copy buffer 0 (Bootp.encode m), with_entries self l'), w') /\
    last_sent (trace w') = Some (Bootp.encode (server_message self (header_of m) isDiscover (Z.of_nat k) wanDnsIp)) /\ table_ok l' /\ lookup mac l' = Some k.
Proof.
  intros Hsize Hbytes Htable Hreads Ht Hci mac isDiscover Hslot Hkind. destruct (reads_packet m opts tail Hreads) as (Henc & Hpb & Hroom). destruct Hreads as [Hf _ Hok Hst _ _].
  destruct (header_fields m Hf) as (Hl & _ & _ & Fc & _ & _ & Fm). rewrite Henc.
  destruct (DhcpServer.onFd_spec buffer self wanDnsIp (header_of m) opts tail Hsize Hbytes Hl Hok Hst Htable Hpb Hroom 1 (answers w) (trace w) ltac:(lia)) as (self' & es & w' & E & Ha & Hans).
  unfold answered in Hans. rewrite Ht in Hans.
  assert ((type =? dhcp_DISCOVER) || (type =? dhcp_REQUEST) = true) as Hty by (destruct Hkind as [H|[-> _]]; [fold isDiscover; now rewrite H|apply orb_true_r]).
  rewrite Hty in Hans. destruct Hans as (r & ts & l' & i & sent & -> & Hheard & Hok' & ->). unfold client_mac in Hheard. rewrite Fm in Hheard. fold mac isDiscover in Hheard.
  assert (isDiscover = false -> lookup mac (entries self) = Some k) as Hno by (intros Hx; destruct Hkind as [H|[_ H]]; [congruence|exact H]).
  destruct (slot_heard _ _ _ _ _ _ k Hslot Hno Hheard) as [-> ->].
  exists (clock ts), w'. cbv zeta. split; [exact E|]. split; [|split; [exact Hok'|apply lookup_set; [apply Htable|exact Hslot]]].
  unfold adds in Ha. rewrite Ha, last_sent_app. destruct (Z.ltb_spec (Z.of_nat k) 0); [lia|]. unfold destination. rewrite Fc, Hci.
  destruct (list_eq_dec Z.eq_dec [0; 0; 0; 0] (address self (Z.of_nat k))) as [Ead|_]; [|reflexivity].
  exfalso. pose proof (address_positive self k) as Hp. rewrite <- Ead in Hp. cbn in Hp. lia.
Qed.

(** ** The exchange *)

Lemma ip_value x : 0 <= x < 2 ^ 32 -> le_combine (le_split 4 x) = x.
Proof. intros Hx. rewrite le_combine_split. apply Z.mod_small. exact Hx. Qed.

Lemma mac_roundtrip s m isDiscover k wanDnsIp : fields_ok m -> (k < dhcpServer_NUM_ENTRIES)%nat ->
  mac_of (header_of (server_message s (header_of m) isDiscover (Z.of_nat k) wanDnsIp)) = firstn 6 (Bootp.chaddr m).
Proof.
  intros Hm Hk. destruct (header_fields _ (reads_fields _ _ _ (answer_reads s m Hm isDiscover k wanDnsIp Hk))) as (_ & _ & _ & _ & _ & _ & F).
  unfold mac_of. rewrite F. unfold server_message, client_mac. cbn [Bootp.chaddr]. destruct (header_fields m Hm) as (_ & _ & _ & _ & _ & _ & Fm). rewrite Fm.
  assert (length (firstn 6 (Bootp.chaddr m)) = 6%nat) as Hl by (destruct Hm as (_ & _ & _ & _ & _ & C & _); rewrite length_firstn, C; reflexivity).
  rewrite firstn_app_l, firstn_all2 by lia. reflexivity.
Qed.

(** What the server grants, as the client records it. *)
Definition granted (c : dhcpClient) (s : dhcpServer) (k : nat) (wanDnsIp : Z) : dhcpClient :=
  DhcpClient (DhcpClient.fd c) (packetFd c) (timerFd c) (le_combine (dns_server wanDnsIp)) (u32 (currentIdentifier c + 1))
    (le_combine (address s (Z.of_nat k))) (DhcpServer.serverIp s) (DhcpClient.ifIndex c) (routePriority c) (ifName c) (ifMacAddress c) 24.

(** The ACK, as [lease] reads it. *)
Lemma ack_granted c s m k wanDnsIp : fields_ok m -> (k < dhcpServer_NUM_ENTRIES)%nat -> 0 <= DhcpServer.serverIp s < 2 ^ 32 ->
  let header := header_of (server_message s (header_of m) false (Z.of_nat k) wanDnsIp) in
  lease (bump c) header [255; 255; 255; 0] (Bootp.last_opt dhcp_DNS (fun n => 4 <=? n) (answer_options s false wanDnsIp)) = granted c s k wanDnsIp /\
  field header header_yourIp 4 = address s (Z.of_nat k).
Proof.
  intros Hm Hk Hs header. destruct (header_fields _ (reads_fields _ _ _ (answer_reads s m Hm false k wanDnsIp Hk))) as (_ & _ & _ & _ & Fy & Fs & _). fold header in Fy, Fs.
  split; [|exact Fy]. unfold lease, granted. rewrite Fy, Fs. unfold server_message. cbn [Bootp.yiaddr Bootp.siaddr]. rewrite ip_value by exact Hs.
  destruct (dns_ok wanDnsIp) as [D1 D2].
  assert (Bootp.last_opt dhcp_DNS (fun n => 4 <=? n) (answer_options s false wanDnsIp) = Some (dns_server wanDnsIp)) as ->.
  { unfold Bootp.last_opt, answer_options. cbn [rev app List.find]. unfold Bootp.matches at 1. cbn [fst snd]. change (255 =? dhcp_DNS) with false. cbn [andb].
    unfold Bootp.matches at 1. cbn [fst snd]. rewrite D1. reflexivity. }
  rewrite firstn_all2 by lia. reflexivity.
Qed.

Lemma client_offered c s rtnetlinkFd wanDnsIp k buffer m sent o o2 w a : length (ifMacAddress c) = 6%nat -> (k < dhcpServer_NUM_ENTRIES)%nat -> Z.of_nat (length buffer) = buffer_SIZE -> bytes buffer -> fields_ok m -> firstn 6 (Bootp.chaddr m) = ifMacAddress c ->
  answers w = Answer sent o :: Answer 0 o2 :: a ->
  let offer := server_message s (header_of m) true (Z.of_nat k) wanDnsIp in
  exists w', dhcpClient_onFd buffer (bump c) rtnetlinkFd (deliver (Bootp.encode offer) w) = (Done (mem_copy buffer 0 (Bootp.encode offer), bump c), w') /\
    last_sent (trace w') = Some (Bootp.encode (request_message (bump c) (header_of offer) [0; 0; 2; 88])) /\ (exists es, trace w' = trace w ++ es) /\ answers w' = a.
Proof.
  intros Hmac Hk Hb Hbb Hm Hch Hw offer. pose proof (answer_reads s m Hm true k wanDnsIp Hk) as Hr. fold offer in Hr. destruct (reads_packet _ _ _ Hr) as (He & Hpb & Hroom).
  destruct Hr as [Hf _ Hok Hst _ _]. destruct (header_fields offer Hf) as (Hl & _). unfold deliver. rewrite Hw, He.
  eexists. split; [apply (offer_spec buffer (bump c) rtnetlinkFd (header_of offer) (answer_options s true wanDnsIp) [0] Hb Hbb Hl Hok Hst Hmac Hpb Hroom [0; 0; 2; 88]);
    [lia|etransitivity; [now apply mac_roundtrip|exact Hch]|reflexivity|reflexivity]|].
  cbn [trace answers]. split; [rewrite last_sent_app; reflexivity|]. split; [eexists; reflexivity|reflexivity].
Qed.

Section Exchange.
Context (c : dhcpClient) (s : dhcpServer) (rtnetlinkFd wanDnsIp : Z) (k : nat) (name rest : list Z) (ms1 ms2 : list Nl.msg).
Context (Hmac : length (ifMacAddress c) = 6%nat) (Hnolease : leasedIp c = 0).
Context (Hname : ifName c = name ++ 0 :: rest) (Hnul : no_nul name) (Hlen : (length name <= 15)%nat).
Context (Hslot : slot (entries s) (ifMacAddress c) k) (Hip : 0 <= DhcpServer.serverIp s < 2 ^ 32).
Context (Hne1 : ms1 <> []) (Hok1 : Forall Nl.msg_ok ms1) (Hv1 : Nl.verdict ms1 = true) (Hne2 : ms2 <> []) (Hok2 : Forall Nl.msg_ok ms2) (Hv2 : Nl.verdict ms2 = true).
Local Notation data1 := (flat_map Nl.encode_msg ms1).
Local Notation data2 := (flat_map Nl.encode_msg ms2).
Context (Hd1 : bytes data1) (Hn1 : 16 < Z.of_nat (length data1) <= dhcp_header_SIZE) (Hd2 : bytes data2) (Hn2 : 16 < Z.of_nat (length data2) <= buffer_SIZE).

Definition address_text : list Z := leased_text name (address s (Z.of_nat k)) 24.
Definition ack_answers (o o1 o2 o3 : list Z) (r1 r2 : Z) (a : list answer) : list answer :=
  Answer 0 o :: Answer (Z.of_nat (length address_text)) o1 :: Answer 32 o2 :: Answer r1 data1 :: Answer 44 o3 :: Answer r2 data2 :: a.
Definition ack_events : list event :=
  [timer_set c 300; (Sys_write 2 address_text, Answer (Z.of_nat (length address_text)) []);
   add_address (granted c s k wanDnsIp) rtnetlinkFd (address s (Z.of_nat k)); receive_event rtnetlinkFd data1;
   add_route (granted c s k wanDnsIp) rtnetlinkFd (le_split 4 (DhcpServer.serverIp s)); receive_event rtnetlinkFd data2].

Lemma client_acked buffer m o o1 o2 o3 r1 r2 w a : 0 <= r1 -> 0 <= r2 -> Z.of_nat (length buffer) = buffer_SIZE -> bytes buffer -> fields_ok m -> firstn 6 (Bootp.chaddr m) = ifMacAddress c ->
  answers w = ack_answers o o1 o2 o3 r1 r2 a ->
  let ack := server_message s (header_of m) false (Z.of_nat k) wanDnsIp in
  exists w', dhcpClient_onFd buffer (bump c) rtnetlinkFd (deliver (Bootp.encode ack) w) = (Done (mem_copy (mem_copy (mem_copy buffer 0 (Bootp.encode ack)) 0 data1) 0 data2, granted c s k wanDnsIp), w') /\
    (exists before, trace w' = trace w ++ before :: ack_events) /\ answers w' = a.
Proof using All.
  intros Hr1 Hr2 Hb Hbb Hm Hch Hw ack. destruct Hslot as [Hk _]. pose proof (answer_reads s m Hm false k wanDnsIp Hk) as Hr. fold ack in Hr. destruct (reads_packet _ _ _ Hr) as (He & Hpb & Hroom).
  destruct Hr as [Hf _ Hok Hst _ _]. destruct (header_fields ack Hf) as (Hl & _). destruct (ack_granted c s m k wanDnsIp Hm Hk Hip) as [Hg Hy]. fold ack in Hg, Hy.
  set (opts := answer_options s false wanDnsIp) in *.
  assert (Bootp.last_opt dhcp_SUBNET_MASK (fun n => n =? 4) opts = Some [255; 255; 255; 0]) as Em by reflexivity.
  assert (Bootp.last_opt dhcp_ROUTER (fun n => 4 <=? n) opts = Some (le_split 4 (DhcpServer.serverIp s))) as Eg by reflexivity.
  assert (Bootp.last_opt dhcp_LEASE_TIME (fun n => n =? 4) opts = Some [0; 0; 2; 88]) as El by reflexivity.
  pose proof (ack_spec buffer (bump c) rtnetlinkFd (header_of ack) opts [0] Hb Hbb Hl Hok Hst Hmac Hpb Hroom _ _ _ ms1 ms2 name rest o o1 o2 o3 r1 r2 a (trace w ++ [(Sys_read (fd c) buffer_SIZE, Answer (Z.of_nat (length (Bootp.encode ack))) (Bootp.encode ack))])
    Em Eg El ltac:(cbn [leasedIp bump with_identifier]; lia) Hname Hnul Hlen Hne1 Hok1 Hv1 Hne2 Hok2 Hv2 Hr1 Hd1 Hn1 Hr2 Hd2 Hn2) as Hack.
  cbv zeta in Hack. rewrite Hg, Hy in Hack. cbn [leasedIp leasedIpNetmask granted] in Hack. change (leasedIp (bump c)) with (leasedIp c) in Hack. rewrite Hnolease in Hack.
  pose proof (address_positive s k) as Hpos. destruct (Z.eqb_spec 0 (le_combine (address s (Z.of_nat k)))); [lia|]. cbn [negb app] in Hack. fold address_text in Hack.
  unfold deliver. rewrite Hw. eexists. split.
  - rewrite He at 1. rewrite (onFd_ack buffer (bump c) rtnetlinkFd (header_of ack) opts [0] Hb Hbb Hl Hok Hst Hmac Hpb Hroom 1) by (lia || reflexivity || (etransitivity; [now apply mac_roundtrip|exact Hch])).
    rewrite <- !He. rewrite <- He in Hack. exact Hack.
  - cbn [trace answers]. split; [|reflexivity]. eexists. rewrite <- !app_assoc. reflexivity.
Qed.
End Exchange.

Lemma bytes_encode m opts tail : reads_as m opts tail -> bytes (Bootp.encode m) /\ (length (Bootp.encode m) <= Z.to_nat buffer_SIZE)%nat.
Proof. intros Hr. destruct (reads_packet m opts tail Hr) as (-> & Hb & Hl). split; [exact Hb|]. unfold buffer_SIZE in *. lia. Qed.

(** The buffer after a message. *)
Lemma buffer_after buffer m opts tail : Z.of_nat (length buffer) = buffer_SIZE -> bytes buffer -> reads_as m opts tail ->
  Z.of_nat (length (mem_copy buffer 0 (Bootp.encode m))) = buffer_SIZE /\ bytes (mem_copy buffer 0 (Bootp.encode m)).
Proof.
  intros Hs Hb Hr. destruct (bytes_encode m opts tail Hr) as [Hm Hl]. split; [rewrite length_mem_copy by lia; exact Hs|now apply bytes_mem_copy].
Qed.

(** C2: The whole exchange: a client without a lease, whose timer expires, and a server
    with any table of leases.  The client's DISCOVER, the server's OFFER, the client's
    REQUEST and the server's ACK reach each other (each is sent to everyone); in the end
    the server's table holds the client at the entry it had, or at the one that was silent
    longest, and the client has leased exactly that entry's address with the server's
    mask, as its gateway and renewal server the server, and its name server; its timer is
    set to half of the 600 seconds, and the interface was given the address and the route. *)
Theorem dhcp_exchange_agrees cb sb c s sw rtnetlinkFd wanDnsIp k name rest ms1 ms2 e sent1 sent2 o1 o2 o3 o4 o5 o6 o7 o8 r r1 r2 a t :
  Z.of_nat (length cb) = buffer_SIZE -> bytes cb -> Z.of_nat (length sb) = buffer_SIZE -> bytes sb ->
  length (ifMacAddress c) = 6%nat -> bytes (ifMacAddress c) -> leasedIp c = 0 -> ifName c = name ++ 0 :: rest -> no_nul name -> (length name <= 15)%nat ->
  table_ok (entries s) -> slot (entries s) (ifMacAddress c) k -> 0 <= DhcpServer.serverIp s < 2 ^ 32 ->
  ms1 <> [] -> Forall Nl.msg_ok ms1 -> Nl.verdict ms1 = true -> ms2 <> [] -> Forall Nl.msg_ok ms2 -> Nl.verdict ms2 = true ->
  let data1 := flat_map Nl.encode_msg ms1 in let data2 := flat_map Nl.encode_msg ms2 in
  bytes data1 -> 16 < Z.of_nat (length data1) <= dhcp_header_SIZE -> bytes data2 -> 16 < Z.of_nat (length data2) <= buffer_SIZE ->
  bytes e -> length e = 8%nat -> 0 <= r -> 0 <= r1 -> 0 <= r2 ->
  let kernel := Answer r e :: Answer sent1 o1 :: Answer 0 o2 :: Answer sent2 o3 :: Answer 0 o4 :: ack_answers s k name ms1 ms2 o5 o6 o7 o8 r1 r2 a in
  exists cb' sb' now before sw',
    exchange rtnetlinkFd wanDnsIp (Lan cb c (World kernel t) sb s sw) =
    Some (Lan cb' (granted c s k wanDnsIp) (World a (t ++ before ++ ack_events c s rtnetlinkFd wanDnsIp k name ms1 ms2)) sb' (with_entries s (set (set (entries s) k (Entry (fst now) (ifMacAddress c))) k (Entry (snd now) (ifMacAddress c)))) sw') /\
    lookup (ifMacAddress c) (set (set (entries s) k (Entry (fst now) (ifMacAddress c))) k (Entry (snd now) (ifMacAddress c))) = Some k /\
    table_ok (set (set (entries s) k (Entry (fst now) (ifMacAddress c))) k (Entry (snd now) (ifMacAddress c))).
Proof.
  intros Hcb Hcbb Hsb Hsbb Hmac Hmacb Hno Hname Hnul Hlen Htable Hslot Hip Hne1 Hok1 Hv1 Hne2 Hok2 Hv2 data1 data2 Hd1 Hn1 Hd2 Hn2 He Hel Hr Hr1 Hr2 kernel.
  pose proof (chaddr_ok c Hmac Hmacb) as (_ & _ & Hch). unfold exchange. set (mac := ifMacAddress c) in *.
  (* DISCOVER *)
  set (w1 := World (Answer sent2 o3 :: Answer 0 o4 :: ack_answers s k name ms1 ms2 o5 o6 o7 o8 r1 r2 a) (t ++ [expiration c e; broadcast c sent1; timer_set c 10])).
  assert (dhcpClient_onTimerFd cb c rtnetlinkFd (World kernel t) = (Done (cb, bump c), w1)) as E1 by now apply timer_discovers.
  unfold client_does at 1. cbn [clientBuffer client clientWorld serverBuffer server serverWorld]. rewrite E1. cbn [andThen].
  assert (last_sent (trace w1) = Some (Bootp.encode (discover c))) as S1 by (cbn [trace w1]; rewrite last_sent_app; reflexivity).
  unfold to_server at 1. cbn [clientBuffer client clientWorld serverBuffer server serverWorld]. rewrite S1. cbn [option_map andThen].
  (* OFFER *)
  pose proof (discover_reads c Hmac Hmacb) as R1.
  destruct (server_hears sb s wanDnsIp (discover c) discover_options [] dhcp_DISCOVER k sw Hsb Hsbb Htable R1 eq_refl eq_refl ltac:(cbn [Bootp.chaddr discover]; fold mac; rewrite Hch; exact Hslot) ltac:(now left)) as (now1 & sw1 & E2 & S2 & T2 & L2).
  cbv zeta in E2, S2, T2, L2. assert (firstn 6 (Bootp.chaddr (discover c)) = mac) as Hch1 by exact Hch. rewrite Hch1 in E2, T2, L2. change (dhcp_DISCOVER =? dhcp_DISCOVER) with true in S2.
  unfold server_does at 1. cbn [clientBuffer client clientWorld serverBuffer server serverWorld]. rewrite E2. cbn [andThen].
  unfold to_client at 1. cbn [clientBuffer client clientWorld serverBuffer server serverWorld]. rewrite S2. cbn [option_map andThen].
  (* REQUEST *)
  destruct (client_offered c s rtnetlinkFd wanDnsIp k cb (discover c) sent2 o3 o4 w1 _ Hmac (proj1 Hslot) Hcb Hcbb (reads_fields _ _ _ R1) Hch1 eq_refl) as (w2 & E3 & S3 & (es2 & Ht2) & A3).
  pose proof (answer_reads s (discover c) (reads_fields _ _ _ R1) true k wanDnsIp (proj1 Hslot)) as R2. cbv zeta in E3, S3. set (offer := server_message s (header_of (discover c)) true (Z.of_nat k) wanDnsIp) in *.
  unfold client_does at 1. cbn [clientBuffer client clientWorld serverBuffer server serverWorld]. rewrite E3. cbn [andThen].
  unfold to_server at 1. cbn [clientBuffer client clientWorld serverBuffer server serverWorld]. rewrite S3. cbn [option_map andThen].
  (* ACK *)
  destruct (buffer_after sb (discover c) _ _ Hsb Hsbb R1) as [Hsb2 Hsbb2]. destruct (buffer_after cb offer _ _ Hcb Hcbb R2) as [Hcb2 Hcbb2].
  destruct (header_fields offer (reads_fields _ _ _ R2)) as (Hlo & Hbo & _).
  assert (reads_as (request_message (bump c) (header_of offer) [0; 0; 2; 88]) (request_options [0; 0; 2; 88] (field (header_of offer) header_serverIp 4) (field (header_of offer) header_yourIp 4)) []) as R3.
  { apply request_reads; [exact Hmac|exact Hmacb|exact Hbo|repeat constructor; unfold is_byte; lia|reflexivity|unfold dhcp_header_SIZE in Hlo; lia]. }
  set (request := request_message (bump c) (header_of offer) [0; 0; 2; 88]) in *. assert (firstn 6 (Bootp.chaddr request) = mac) as Hch2 by exact Hch.
  set (l1 := set (entries s) k (Entry now1 mac)) in *.
  destruct (server_hears (mem_copy sb 0 (Bootp.encode (discover c))) (with_entries s l1) wanDnsIp request _ [] dhcp_REQUEST k sw1 Hsb2 Hsbb2 T2 R3 eq_refl eq_refl) as (now2 & sw2 & E4 & S4 & T4 & L4).
  { rewrite Hch2. split; [apply Hslot|left; exact L2]. }
  { right. split; [reflexivity|]. rewrite Hch2. exact L2. }
  cbv zeta in E4, S4, T4, L4. rewrite Hch2 in E4, T4, L4. cbn [entries with_entries] in E4, T4, L4.
  unfold server_does at 1. cbn [clientBuffer client clientWorld serverBuffer server serverWorld]. rewrite E4. cbn [andThen].
  unfold to_client. cbn [clientBuffer client clientWorld serverBuffer server serverWorld]. rewrite S4. cbn [option_map andThen].
  destruct (client_acked c (with_entries s l1) rtnetlinkFd wanDnsIp k name rest ms1 ms2 Hmac Hno Hname Hnul Hlen ltac:(split; [apply Hslot|left; exact L2]) Hip Hne1 Hok1 Hv1 Hne2 Hok2 Hv2 Hd1 Hn1 Hd2 Hn2
    (mem_copy cb 0 (Bootp.encode offer)) request o5 o6 o7 o8 r1 r2 w2 a Hr1 Hr2 Hcb2 Hcbb2 (reads_fields _ _ _ R3) Hch2 A3) as (w3 & E5 & (before & Ht3) & A5).
  cbv zeta in E5. unfold client_does. cbn [clientBuffer client clientWorld serverBuffer server serverWorld]. change (dhcp_REQUEST =? dhcp_DISCOVER) with false. rewrite E5.
  eexists _, _, (now1, now2), ([expiration c e; broadcast c sent1; timer_set c 10] ++ es2 ++ [before]), _. cbn [fst snd]. fold l1. split; [|split; [exact L4|exact T4]].
  f_equal. f_equal. destruct w3 as [a3 t3]. cbn [trace answers] in Ht3, A5. rewrite Ht3, Ht2, A5. cbn [trace w1]. rewrite <- !app_assoc. reflexivity.
Qed.

(** ** An instance of the theorem *)

Lemma fresh_slot mac : mac <> repeat 0 6 -> slot fresh_table mac 0.
Proof.
  intros Hm. split; [unfold dhcpServer_NUM_ENTRIES; lia|]. right.
  assert (forall n, lookup mac (repeat (Entry 0 [0; 0; 0; 0; 0; 0]) n) = None) as Hl.
  { induction n as [|n IH]; [reflexivity|]. cbn [repeat lookup macAddr]. destruct (list_eq_dec Z.eq_dec [0; 0; 0; 0; 0; 0] mac) as [E|]; [now destruct Hm|]. now rewrite IH. }
  split; [apply Hl|]. assert (forall j, timeSec (nth j fresh_table (Entry 0 [])) = 0) as Ht.
  { intros j. destruct (nth_in_or_default j fresh_table (Entry 0 [])) as [Hj|Hj]; [apply repeat_spec in Hj; now rewrite Hj|now rewrite Hj]. }
  split; [unfold fresh_table; rewrite repeat_length; unfold dhcpServer_NUM_ENTRIES; lia|]. split; intros j Hj; [rewrite !Ht; lia|lia].
Qed.

(** The first client of a new server gets 10.123.0.40. *)
Lemma dhcp_exchange_agrees_witness :
  let buffer := repeat 0 (Z.to_nat buffer_SIZE) in
  let e := [1; 0; 0; 0; 0; 0; 0; 0] in
  let kernel := [Answer 8 e; Answer 280 []; Answer 0 []; Answer 270 []; Answer 0 []; Answer 0 []; Answer 31 []; Answer 32 []; Answer 36 (flat_map Nl.encode_msg ack); Answer 44 []; Answer 36 (flat_map Nl.encode_msg ack)] in
  exists l, exchange 4 0 (Lan buffer demo_client (World kernel []) buffer demo_server (World [] [])) = Some l /\
    leasedIp (client l) = le_combine [10; 123; 0; 40] /\ lookup (ifMacAddress demo_client) (entries (server l)) = Some 0%nat.
Proof.
  intros buffer e kernel. destruct ack_facts as (A1 & A2 & A3 & A4 & A5).
  assert (Z.of_nat (length buffer) = buffer_SIZE) as Hs by (unfold buffer; rewrite repeat_length; reflexivity).
  assert (bytes buffer) as Hb by (apply bytes_repeat; unfold is_byte; lia).
  destruct (dhcp_exchange_agrees buffer buffer demo_client demo_server (World [] []) 4 0 0 [101; 116; 104; 48] (repeat 0 11) ack ack e 280 270 [] [] [] [] [] [] [] [] 8 36 36 [] []
    Hs Hb Hs Hb eq_refl ltac:(repeat constructor; unfold is_byte; lia) eq_refl eq_refl ltac:(repeat constructor; discriminate) ltac:(cbn; lia) fresh_ok (fresh_slot [2; 4; 6; 8; 10; 12] ltac:(discriminate)) ltac:(cbn; lia)
    A1 A2 A3 A1 A2 A3 A4 ltac:(rewrite A5; unfold dhcp_header_SIZE; lia) A4 ltac:(rewrite A5; unfold buffer_SIZE; lia) ltac:(repeat constructor; unfold is_byte; lia) eq_refl ltac:(lia) ltac:(lia) ltac:(lia))
    as (cb' & sb' & now & before & sw' & E & L & _).
  eexists. split; [exact E|]. split; [reflexivity|exact L].
Defined.
