(* ===== verification/PacketDumper.v ===== *)
(** * The packet dumper ([src/router/router/packetDumper.c])

    Whoever connects gets the packets of an interface as a pcap stream, except for what the
    dump itself and the VPN cause: a filter program for the kernel keeps those out.  The
    filter is run here by the classic BPF machine, and the stream is read back by a pcap
    reader. *)
From Stdlib Require Import ZArith List Lia Bool Permutation.
From S2P Require Import Prelude Mem RouterSys Fds DhcpClient.
Import ListNotations.

Definition ETH_P_ALL : Z := 0x0003.
Definition SOCK_RAW : Z := 3.
Definition SO_TIMESTAMPING : Z := 37.
Definition SOF_TIMESTAMPING_RX_SOFTWARE : Z := Z.shiftl 1 3.
Definition SOF_TIMESTAMPING_SOFTWARE : Z := Z.shiftl 1 4.
Definition SO_ATTACH_FILTER : Z := 26.
Definition cmsghdr_SIZE : nat := 16%nat.
Definition timespec_SIZE : nat := 16%nat.
(** [sizeof(struct cmsg)]. *)
Definition cmsg_SIZE : nat := (cmsghdr_SIZE + 3 * timespec_SIZE)%nat.

Record packetDumper := PacketDumper { ifreq : list Z; listenFd : Z; clientFd : Z; packetFd : Z; ifIndex : Z; port : Z }.
Definition with_fds (self : packetDumper) (client packet : Z) : packetDumper := PacketDumper (ifreq self) (listenFd self) client packet (ifIndex self) (port self).

(** What [self->ifreq] held before is kept where nothing is written. *)
Definition packetDumper_init (self : packetDumper) (ifIndex port : Z) : M packetDumper :=
  let! listenFd := syscall (Sys_socket AF_INET SOCK_STREAM 0) in
  CHECK (0 <? listenFd);;
  let! r := syscall (Sys_bind listenFd (sockaddr_in port [10; 123; 0; 1])) in
  CHECK (r =? 0);;
  let! r := syscall (Sys_listen listenFd 1) in
  CHECK (r =? 0);;
  let ifreq := mem_copy (ifreq self) IFNAMSIZ (le_split 4 ifIndex) in
  let! (r, data) := syscall_out (Sys_ioctl listenFd SIOCGIFNAME ifreq) ifreq_SIZE in
  let ifreq := mem_copy ifreq 0 data in
  CHECK (r =? 0);;
  let! (r, data) := syscall_out (Sys_ioctl listenFd SIOCGIFHWADDR ifreq) ifreq_SIZE in
  let ifreq := mem_copy ifreq 0 data in
  CHECK (r =? 0);;
  pure (PacketDumper ifreq listenFd (-1) (-1) ifIndex port).

Definition packetDumper_stop (self : packetDumper) : M packetDumper :=
  if 0 <=? packetFd self then
    sys_close (packetFd self);;
    sys_close (clientFd self);;
    pure (with_fds self (-1) (-1))
  else pure self.

(** [struct sock_filter]. *)
Record sock_filter := Filter { code : Z; jt : Z; jf : Z; k : Z }.
Definition sock_filter_bytes (f : sock_filter) : list Z := le_split 2 (code f) ++ [jt f; jf f] ++ le_split 4 (k f).

(** [ifr_addr] from its [i]-th byte. *)
Definition ifr_addr (self : packetDumper) (i : nat) : list Z := skipn (IFNAMSIZ + i) (ifreq self).

Definition dump_filter (self : packetDumper) : list sock_filter :=
  [ Filter 0x20 0 0 0x00000008;
    Filter 0x15 0 2 (mem_loadU32BE (ifr_addr self 4));
    Filter 0x28 0 0 0x00000006;
    Filter 0x15 4 0 (mem_loadU16BE (ifr_addr self 2));
    Filter 0x20 0 0 0x00000002;
    Filter 0x15 0 22 (mem_loadU32BE (ifr_addr self 4));
    Filter 0x28 0 0 0x00000000;
    Filter 0x15 0 20 (mem_loadU16BE (ifr_addr self 2));
    Filter 0x28 0 0 0x0000000c;
    Filter 0x15 0 18 0x00000800;
    Filter 0x30 0 0 0x00000017;
    Filter 0x15 0 7 0x00000006;
    Filter 0x28 0 0 0x00000014;
    Filter 0x45 14 0 0x00001fff;
    Filter 0xb1 0 0 0x0000000e;
    Filter 0x48 0 0 0x0000000e;
    Filter 0x15 10 0 (port self);
    Filter 0x48 0 0 0x00000010;
    Filter 0x15 8 9 (port self);
    Filter 0x15 0 8 0x00000011;
    Filter 0x28 0 0 0x00000014;
    Filter 0x45 6 0 0x00001fff;
    Filter 0xb1 0 0 0x0000000e;
    Filter 0x48 0 0 0x0000000e;
    Filter 0x15 2 0 0x0000007b;
    Filter 0x48 0 0 0x00000010;
    Filter 0x15 0 1 0x0000007b;
    Filter 0x6 0 0 0x00000000;
    Filter 0x6 0 0 buffer_SIZE ].

(** [pcapHeader]. *)
Definition pcapHeader : list Z := le_split 4 0xA1B23C4D ++ le_split 2 2 ++ le_split 2 4 ++ le_split 4 0 ++ le_split 4 0 ++ le_split 4 buffer_SIZE ++ le_split 4 1.

(** The option's value is [struct sock_fprog], which points to the program: the program
    stands for it. *)
Definition packetDumper_onListenFd (self : packetDumper) (epollFd : Z) : M packetDumper :=
  let! newClientFd := syscall (Sys_accept4 (listenFd self)) in
  if newClientFd <? 0 then pure self
  else
    let! self := packetDumper_stop self in
    let! packetFd := syscall (Sys_socket AF_PACKET SOCK_RAW (le_combine (rev (le_split 2 ETH_P_ALL)))) in
    let self := with_fds self newClientFd packetFd in
    CHECK (0 <? packetFd);;
    let enable := SOF_TIMESTAMPING_RX_SOFTWARE .| SOF_TIMESTAMPING_SOFTWARE in
    let! r := syscall (Sys_setsockopt packetFd SOL_SOCKET SO_TIMESTAMPING (le_split 4 enable)) in
    CHECK (r =? 0);;
    let! r := syscall (Sys_bind packetFd (sockaddr_ll [0; 0] (ifIndex self) 0 [])) in
    CHECK (r =? 0);;
    let! r := syscall (Sys_setsockopt packetFd SOL_SOCKET SO_ATTACH_FILTER (flat_map sock_filter_bytes (dump_filter self))) in
    CHECK (r =? 0);;
    epollAdd epollFd (clientFd self);;
    epollAdd epollFd packetFd;;
    let! sent := sys_sendto (clientFd self) pcapHeader MSG_NOSIGNAL [] in
    if negb (sent =? Z.of_nat (length pcapHeader)) then packetDumper_stop self else pure self.

(** [sys_recvmsg] with a control buffer: the answer's bytes are those of the control buffer
    and then those of the packet, whose number is returned. *)
Definition recv_packet (fd : Z) : M (Z * (list Z * list Z)) :=
  let! a := kernel (Sys_recvmsg fd buffer_SIZE 0) (fun a =>
    if ret a <? 0 then Answer (ret a) []
    else let l := map u8 (firstn (cmsg_SIZE + Z.to_nat buffer_SIZE) (out a)) in Answer (Z.of_nat (length (skipn cmsg_SIZE l))) l) in
  pure (ret a, (firstn cmsg_SIZE (out a), skipn cmsg_SIZE (out a))).

(** [cmsg] is what the control buffer, which is on the stack, holds before. *)
Definition packetDumper_onPacketFd (cmsg buffer : list Z) (self : packetDumper) : M (list Z * packetDumper) :=
  let! (numRead, (control, data)) := recv_packet (packetFd self) in
  let buffer := mem_copy buffer 0 data in
  let cmsg := mem_copy cmsg 0 control in
  CHECK (0 <? numRead);;
  let tv_sec := le_combine (firstn 8 (skipn cmsghdr_SIZE cmsg)) in
  let tv_nsec := le_combine (firstn 8 (skipn (cmsghdr_SIZE + 8) cmsg)) in
  let pcapPacketRecord := le_split 4 (u32 tv_sec) ++ le_split 4 (u32 tv_nsec) ++ le_split 4 (u32 numRead) ++ le_split 4 (u32 numRead) in
  let! written := syscall (Sys_sendmsg (clientFd self) [] [pcapPacketRecord; firstn (Z.to_nat numRead) buffer] MSG_NOSIGNAL) in
  let! self := if negb (written =? Z.of_nat (length pcapPacketRecord) + numRead) then packetDumper_stop self else pure self in
  pure (buffer, self).

Definition packetDumper_onClientFd (self : packetDumper) : M packetDumper := packetDumper_stop self.

Definition packetDumper_deinit (self : packetDumper) : M unit :=
  let! self := packetDumper_stop self in
  sys_close (listenFd self);;
  pure tt.

(** ** Reference: the classic BPF machine *)
Module Bpf.

(** [n] bytes of the packet in network order; a load outside ends the program with 0. *)
Definition read (p : list Z) (i : Z) (n : nat) : option Z :=
  if Z.of_nat (length p) <? i + Z.of_nat n then None else Some (be_combine (firstn n (skipn (Z.to_nat i) p))).

Definition or_drop (x : option Z) (f : Z -> Z) : Z := match x with Some a => f a | None => 0 end.

(** One instruction: what it does to the accumulator and the index register and which
    instruction comes next, relative to the one behind it. *)
Definition step {B} (i : sock_filter) (A X : Z) (p : list Z) (next : Z -> Z -> B) (jump : nat -> B) (ret : Z -> B) : B :=
  let load x f := match x with Some a => f a | None => ret 0 end in
  if code i =? 0x20 then load (read p (k i) 4) (fun a => next a X)
  else if code i =? 0x28 then load (read p (k i) 2) (fun a => next a X)
  else if code i =? 0x30 then load (read p (k i) 1) (fun a => next a X)
  else if code i =? 0x48 then load (read p (X + k i) 2) (fun a => next a X)
  else if code i =? 0xb1 then load (read p (k i) 1) (fun a => next A (4 * (a & 0xf)))
  else if code i =? 0x15 then jump (Z.to_nat (if A =? k i then jt i else jf i))
  else if code i =? 0x45 then jump (Z.to_nat (if A & k i =? 0 then jf i else jt i))
  else if code i =? 0x06 then ret (k i)
  else ret 0.

(** [skip] instructions are jumped over. *)
Fixpoint run (prog : list sock_filter) (skip : nat) (A X : Z) (p : list Z) : Z :=
  match prog, skip with
  | i :: prog, O => step i A X p (fun A X => run prog 0 A X p) (fun n => run prog n A X p) (fun r => r)
  | _ :: prog, S skip => run prog skip A X p
  | [], _ => 0
  end.
Definition filter (prog : list sock_filter) (p : list Z) : Z := run prog 0 0 0 p.

End Bpf.

(** ** The filter *)

Definition u16_at (p : list Z) (i : nat) : Z := 256 * get p i + get p (i + 1).

(** What the filter is for: first fragments of TCP to or from the dump's port, and of UDP to
    or from the VPN's, that this interface sent or received. *)
Definition ours (mac p : list Z) : bool := same (firstn 6 p) mac || same (firstn 6 (skipn 6 p)) mac.
Definition transport (p : list Z) : nat := Z.to_nat (14 + 4 * (get p 14 mod 16)).
Definition port_matches (p : list Z) (port : Z) : bool := (u16_at p (transport p) =? port) || (u16_at p (transport p + 2) =? port).
Definition unwanted (mac : list Z) (port : Z) (p : list Z) : bool :=
  ours mac p && (u16_at p 12 =? 0x0800) && (u16_at p 20 mod 2 ^ 13 =? 0) &&
  ((get p 23 =? 6) && port_matches p port || (get p 23 =? 17) && port_matches p 123).

(** The headers that decide are there. *)
Definition complete (p : list Z) : Prop :=
  (14 <= length p)%nat /\ (u16_at p 12 = 0x0800 -> (24 <= length p)%nat /\ (transport p + 4 <= length p)%nat).

Definition mac_addr (self : packetDumper) : list Z := firstn 6 (ifr_addr self 2).

Lemma be2 a b : be_combine [a; b] = 256 * a + b.
Proof. unfold be_combine. cbn [fold_left]. lia. Qed.

Lemma skipn_get p i : (i < length p)%nat -> skipn i p = get p i :: skipn (S i) p.
Proof.
  revert i. induction p as [|x p IH]; intros i Hi; [cbn in Hi; lia|]. destruct i as [|i]; [reflexivity|]. cbn [skipn]. rewrite IH by (cbn in Hi; lia). reflexivity.
Qed.

Lemma read16 p i j : j = Z.of_nat i -> (i + 2 <= length p)%nat -> Bpf.read p j 2 = Some (u16_at p i).
Proof.
  intros -> Hi. unfold Bpf.read. destruct (Z.ltb_spec (Z.of_nat (length p)) (Z.of_nat i + Z.of_nat 2)); [lia|]. rewrite Nat2Z.id, skipn_get, skipn_get by lia. cbn [firstn]. rewrite be2. unfold u16_at. do 3 f_equal. f_equal. lia.
Qed.

Lemma read8 p i j : j = Z.of_nat i -> (i + 1 <= length p)%nat -> Bpf.read p j 1 = Some (get p i).
Proof.
  intros -> Hi. unfold Bpf.read. destruct (Z.ltb_spec (Z.of_nat (length p)) (Z.of_nat i + Z.of_nat 1)); [lia|]. rewrite Nat2Z.id, skipn_get by lia. reflexivity.
Qed.

Lemma read32 p i j : j = Z.of_nat i -> (i + 4 <= length p)%nat -> Bpf.read p j 4 = Some (be_combine (firstn 4 (skipn i p))).
Proof.
  intros -> Hi. unfold Bpf.read. destruct (Z.ltb_spec (Z.of_nat (length p)) (Z.of_nat i + Z.of_nat 4)); [lia|]. now rewrite Nat2Z.id.
Qed.

Lemma be_combine_inj l1 l2 : bytes l1 -> bytes l2 -> length l1 = length l2 -> be_combine l1 = be_combine l2 -> l1 = l2.
Proof.
  intros B1 B2 Hl E. rewrite <- (rev_involutive l1), <- (rev_involutive l2). f_equal. rewrite <- !le_combine_rev in E.
  rewrite <- (le_split_combine (rev l1)), <- (le_split_combine (rev l2)) by (now apply Forall_rev). rewrite E, !length_rev, Hl. reflexivity.
Qed.

Lemma app_inj {A} (a b c d : list A) : length a = length c -> a ++ b = c ++ d -> a = c /\ b = d.
Proof.
  revert c. induction a as [|x a IH]; intros [|y c] Hl E; cbn in *; try lia; [auto|]. injection E as -> E. destruct (IH c ltac:(lia) E) as [-> ->]. auto.
Qed.

(** The two loads that compare six bytes. *)
Lemma mac_match p i mac rest : bytes p -> bytes mac -> length mac = 6%nat -> (i + 6 <= length p)%nat -> bytes rest ->
  (be_combine (firstn 4 (skipn (i + 2) p)) =? mem_loadU32BE (skipn 2 mac ++ rest)) && (u16_at p i =? mem_loadU16BE (mac ++ rest)) = same (firstn 6 (skipn i p)) mac.
Proof.
  intros Hp Hm Hl Hi Hr. rewrite mem_loadU32BE_spec by ((apply bytes_app; split; [now apply bytes_skipn|exact Hr]) || (rewrite length_app, length_skipn; lia)).
  unfold mem_loadU16BE. rewrite bswap_load by ((apply bytes_app; split; assumption) || (rewrite length_app; lia)).
  assert (firstn 4 (skipn 2 mac ++ rest) = skipn 2 mac) as -> by (rewrite firstn_app_l, firstn_all2 by (rewrite length_skipn; lia); reflexivity).
  assert (firstn 2 (mac ++ rest) = firstn 2 mac) as -> by (rewrite firstn_app_l by lia; reflexivity).
  assert (u16_at p i = be_combine (firstn 2 (skipn i p))) as ->.
  { rewrite (skipn_get p i), (skipn_get p (S i)) by lia. cbn [firstn]. rewrite be2. unfold u16_at. do 3 f_equal. lia. }
  assert (firstn 6 (skipn i p) = firstn 2 (skipn i p) ++ firstn 4 (skipn (i + 2) p)) as E6.
  { rewrite <- (firstn_skipn 2 (firstn 6 (skipn i p))). rewrite firstn_firstn, skipn_firstn_comm, skipn_skipn. do 3 f_equal. lia. }
  assert (mac = firstn 2 mac ++ skipn 2 mac) as Em by (symmetry; apply firstn_skipn).
  unfold same. destruct (list_eq_dec Z.eq_dec (firstn 6 (skipn i p)) mac) as [E|E].
  - rewrite E6, Em in E. apply app_inj in E as [E1 E2]; [|rewrite !length_firstn, length_skipn; lia]. rewrite E1, E2, !Z.eqb_refl. reflexivity.
  - apply andb_false_iff. destruct (Z.eqb_spec (be_combine (firstn 4 (skipn (i + 2) p))) (be_combine (skipn 2 mac))) as [E1|E1]; [|now left]. right.
    apply Z.eqb_neq. intros E2. apply E. rewrite E6, Em. f_equal; (apply be_combine_inj; [auto with hc|auto with hc|rewrite ?length_firstn, ?length_skipn; lia|assumption]).
Qed.

Lemma land_13 a : 0 <= a -> (a & 0x1fff) = a mod 2 ^ 13.
Proof. intros Ha. change 0x1fff with (Z.ones 13). now rewrite Z.land_ones. Qed.

Lemma u16_at_nonneg p i : bytes p -> 0 <= u16_at p i.
Proof. intros Hb. unfold u16_at. pose proof (get_byte_of p i Hb) as H1. pose proof (get_byte_of p (i + 1) Hb) as H2. unfold is_byte in *. lia. Qed.

Lemma run_skip prog n A X p : Bpf.run prog n A X p = Bpf.run (skipn n prog) 0 A X p.
Proof. revert n. induction prog as [|i prog IH]; intros [|n]; try reflexivity. cbn [Bpf.run skipn]. apply IH. Qed.

(** The instruction at an index. *)
Lemma run_at prog i ins A X p : nth_error prog i = Some ins ->
  Bpf.run (skipn i prog) 0 A X p = Bpf.step ins A X p (fun A X => Bpf.run (skipn (S i) prog) 0 A X p) (fun n => Bpf.run (skipn (S i + n) prog) 0 A X p) (fun r => r).
Proof.
  intros Hi. assert (skipn i prog = ins :: skipn (S i) prog) as ->.
  { revert prog Hi. induction i as [|i IH]; intros [|x prog] Hi; try discriminate; [injection Hi as ->; reflexivity|]. cbn [skipn]. apply IH, Hi. }
  cbn [Bpf.run]. unfold Bpf.step. 
  destruct (code ins =? 0x20); [reflexivity|]. destruct (code ins =? 0x28); [reflexivity|]. destruct (code ins =? 0x30); [reflexivity|]. destruct (code ins =? 0x48); [reflexivity|].
  destruct (code ins =? 0xb1); [reflexivity|]. destruct (code ins =? 0x15); [rewrite run_skip, skipn_skipn; do 2 f_equal; lia|]. destruct (code ins =? 0x45); [rewrite run_skip, skipn_skipn; do 2 f_equal; lia|]. reflexivity.
Qed.

(** Symbolic execution of the instruction at an index, and the two outcomes of its test. *)
Ltac exec Hstep i := rewrite (Hstep i _ _ _ eq_refl); unfold Bpf.step; cbn [code jt jf k Z.eqb Pos.eqb].
Ltac branch := match goal with |- context [if ?b then _ else _] => destruct b end; cbn [Z.to_nat Pos.to_nat Pos.iter_op Nat.add Init.Nat.add].

Section Filter.
Context (self : packetDumper) (p : list Z) (R : nat -> Z -> Z -> Z) (Hp : bytes p).
Context (Hstep : forall i ins A X, nth_error (dump_filter self) i = Some ins -> R i A X = Bpf.step ins A X p (R (S i)) (fun n => R (S i + n)%nat A X) (fun r => r)).

Lemma run_28 A X : R 28%nat A X = buffer_SIZE.
Proof using Hstep. now exec Hstep 28%nat. Qed.

Lemma run_27 A X : R 27%nat A X = 0.
Proof using Hstep. now exec Hstep 27%nat. Qed.

Lemma header_length : 4 * (get p 14 & 15) + 14 = Z.of_nat (transport p).
Proof using Hp.
  pose proof (get_byte_of p 14 Hp) as H. unfold is_byte in H. change 15 with (Z.ones 4). rewrite Z.land_ones by lia. unfold transport. change (2 ^ 4) with 16. pose proof (Z.mod_pos_bound (get p 14) 16 ltac:(lia)). lia.
Qed.

(** The ports, for UDP and for TCP: nothing but the constant and the two exits differ. *)
Lemma run_22 A X : (transport p + 4 <= length p)%nat -> R 22%nat A X = if port_matches p 123 then 0 else buffer_SIZE.
Proof using All.
  intros Hl. pose proof header_length as Hh. assert (14 <= transport p)%nat by (unfold transport; pose proof (Z.mod_pos_bound (get p 14) 16 ltac:(lia)); lia).
  exec Hstep 22%nat. rewrite (read8 p 14) by lia. exec Hstep 23%nat. rewrite (read16 p (transport p)) by lia. exec Hstep 24%nat. unfold port_matches.
  branch; cbn [orb]; [apply run_27|]. exec Hstep 25%nat. rewrite (read16 p (transport p + 2)) by lia. exec Hstep 26%nat. branch; [apply run_27|apply run_28].
Qed.

Lemma run_14 A X : (transport p + 4 <= length p)%nat -> R 14%nat A X = if port_matches p (port self) then 0 else buffer_SIZE.
Proof using All.
  intros Hl. pose proof header_length as Hh. assert (14 <= transport p)%nat by (unfold transport; pose proof (Z.mod_pos_bound (get p 14) 16 ltac:(lia)); lia).
  exec Hstep 14%nat. rewrite (read8 p 14) by lia. exec Hstep 15%nat. rewrite (read16 p (transport p)) by lia. exec Hstep 16%nat. unfold port_matches.
  branch; cbn [orb]; [apply run_27|]. exec Hstep 17%nat. rewrite (read16 p (transport p + 2)) by lia. exec Hstep 18%nat. branch; [apply run_27|apply run_28].
Qed.

(** From the EtherType on. *)
Lemma run_8 A X : complete p -> R 8%nat A X =
  if (u16_at p 12 =? 0x0800) && (u16_at p 20 mod 2 ^ 13 =? 0) && ((get p 23 =? 6) && port_matches p (port self) || (get p 23 =? 17) && port_matches p 123) then 0 else buffer_SIZE.
Proof using All.
  intros [H14 Hip]. exec Hstep 8%nat. rewrite (read16 p 12) by lia. exec Hstep 9%nat. destruct (Z.eqb_spec (u16_at p 12) 2048) as [E|_]; cbn [andb Z.to_nat Pos.to_nat Pos.iter_op Nat.add Init.Nat.add]; [|apply run_28].
  destruct (Hip E) as [H24 Ht]. exec Hstep 10%nat. rewrite (read8 p 23) by lia. exec Hstep 11%nat. pose proof (land_13 (u16_at p 20) (u16_at_nonneg p 20 Hp)) as H13. change 0x1fff with 8191 in H13.
  destruct (Z.eqb_spec (get p 23) 6) as [E6|_]; cbn [andb orb Z.to_nat Pos.to_nat Pos.iter_op Nat.add Init.Nat.add].
  - rewrite E6. change (6 =? 17) with false. cbn [andb]. rewrite orb_false_r. exec Hstep 12%nat. rewrite (read16 p 20) by lia. exec Hstep 13%nat. rewrite H13. branch; [now apply run_14|apply run_28].
  - exec Hstep 19%nat. branch; cbn [andb]; [|rewrite andb_false_r; apply run_28]. exec Hstep 20%nat. rewrite (read16 p 20) by lia. exec Hstep 21%nat. rewrite H13. branch; [now apply run_22|apply run_28].
Qed.

(** The addresses. *)
Lemma run_0 A X : bytes (ifreq self) -> (24 <= length (ifreq self))%nat -> complete p -> R 0%nat A X = if unwanted (mac_addr self) (port self) p then 0 else buffer_SIZE.
Proof using All.
  intros Hifreq Hlen Hc. pose proof Hc as [H14 _]. unfold unwanted, ours. rewrite <- !andb_assoc. set (wanted := (u16_at p 12 =? 0x0800) && _).
  assert (forall A X, R 8%nat A X = if wanted then 0 else buffer_SIZE) as H8 by (intros; unfold wanted; rewrite andb_assoc; now apply run_8). clearbody wanted.
  set (mac := mac_addr self) in *.
  assert (length mac = 6%nat) as Lm by (unfold mac, mac_addr, ifr_addr, IFNAMSIZ; rewrite length_firstn, length_skipn; lia).
  assert (bytes mac) as Bm by (apply bytes_firstn, bytes_skipn; exact Hifreq).
  set (rest := skipn 6 (ifr_addr self 2)). assert (bytes rest) as Br by (apply bytes_skipn, bytes_skipn; exact Hifreq).
  assert (ifr_addr self 2 = mac ++ rest) as E2 by (symmetry; apply firstn_skipn).
  assert (ifr_addr self 4 = skipn 2 mac ++ rest) as E4.
  { transitivity (skipn 2 (ifr_addr self 2)); [unfold ifr_addr; rewrite skipn_skipn; f_equal; unfold IFNAMSIZ; lia|]. rewrite E2, skipn_app, Lm. reflexivity. }
  pose proof (mac_match p 0 mac rest Hp Bm Lm ltac:(lia) Br) as M0. pose proof (mac_match p 6 mac rest Hp Bm Lm ltac:(lia) Br) as M6. cbn [Nat.add] in M0, M6. change (skipn 0 p) with p in M0.
  rewrite <- E2, <- E4 in M0, M6. rewrite <- M0, <- M6.
  exec Hstep 0%nat. rewrite (read32 p 8) by lia. exec Hstep 1%nat. destruct (be_combine (firstn 4 (skipn 8 p)) =? _); cbn [andb orb Z.to_nat Pos.to_nat Pos.iter_op Nat.add Init.Nat.add].
  - exec Hstep 2%nat. rewrite (read16 p 6) by lia. exec Hstep 3%nat. destruct (u16_at p 6 =? _); cbn [andb orb Z.to_nat Pos.to_nat Pos.iter_op Nat.add Init.Nat.add]; [rewrite orb_true_r; apply H8|].
    rewrite orb_false_r. exec Hstep 4%nat. rewrite (read32 p 2) by lia. exec Hstep 5%nat. branch; cbn [andb]; [|apply run_28].
    exec Hstep 6%nat. rewrite (read16 p 0) by lia. exec Hstep 7%nat. branch; [apply H8|apply run_28].
  - rewrite orb_false_r. exec Hstep 4%nat. rewrite (read32 p 2) by lia. exec Hstep 5%nat. branch; cbn [andb]; [|apply run_28].
    exec Hstep 6%nat. rewrite (read16 p 0) by lia. exec Hstep 7%nat. branch; [apply H8|apply run_28].
Qed.
End Filter.


(** ** Descriptors *)

(** What the dumper holds beside the listening socket, and that it is dumping or not. *)
Definition held (self : packetDumper) : list Z := if 0 <=? packetFd self then [packetFd self; clientFd self] else [].

Ltac neutrals := repeat first
  [ apply balanced_CHECK; intros
  | match goal with
    | |- balanced _ _ (bind (syscall ?c) _) => eapply balanced_bind; [apply balanced_syscall; intros ?; split; reflexivity|intros ?]
    | |- balanced _ _ (bind (syscall_out ?c _) _) => eapply balanced_bind; [apply balanced_syscall_out; intros ?; split; reflexivity|intros [? ?]]
    | |- balanced _ _ (bind (sys_sendto _ _ _ _) _) => eapply balanced_bind; [apply balanced_syscall; intros ?; split; reflexivity|intros ?]
    | |- balanced _ _ (bind (epollAdd _ _) _) => unfold epollAdd at 1; eapply balanced_bind; [eapply balanced_bind; [apply balanced_syscall; intros ?; split; reflexivity|intros ?; cbv beta; apply balanced_emits, emits_CHECK]|intros ?]
    end ]; cbv beta zeta.

Lemma stop_balanced self : balanced (held self) (fun _ => []) (packetDumper_stop self).
Proof.
  unfold packetDumper_stop, held. destruct (Z.leb_spec 0 (packetFd self)) as [H|H].
  - eapply balanced_bind; [apply balanced_close|intros ?; cbv beta]. eapply balanced_bind; [apply balanced_close|intros ?; cbv beta]. now apply balanced_pure.
  - now apply balanced_pure.
Qed.

(** Afterwards nothing is held, and the object knows. *)
Lemma stop_held self : balanced (held self) (fun s => held s) (packetDumper_stop self).
Proof.
  unfold packetDumper_stop. unfold held at 1. destruct (Z.leb_spec 0 (packetFd self)) as [H|H].
  - eapply balanced_bind; [apply balanced_close|intros ?; cbv beta]. eapply balanced_bind; [apply balanced_close|intros ?; cbv beta]. now apply balanced_pure.
  - apply balanced_pure. unfold held. destruct (Z.leb_spec 0 (packetFd self)); [lia|reflexivity].
Qed.

Lemma onListenFd_balanced self epollFd : balanced (held self) (fun s => held s) (packetDumper_onListenFd self epollFd).
Proof.
  unfold packetDumper_onListenFd. eapply balanced_bind; [apply balanced_open; reflexivity|intros client]. unfold gained. cbv beta.
  destruct (Z.ltb_spec client 0) as [Hc|Hc]; [destruct (Z.leb_spec 0 client); [lia|]; now apply balanced_pure|]. destruct (Z.leb_spec 0 client); [|lia].
  eapply balanced_bind; [apply balanced_frame, stop_balanced|]. intros s. eapply balanced_bind; [apply balanced_open; reflexivity|intros packet]. unfold gained. cbv beta zeta.
  apply balanced_CHECK; intros Hp. apply Z.ltb_lt in Hp. destruct (Z.leb_spec 0 packet); [|lia].
  neutrals. assert (held (with_fds s client packet) = [packet; client]) as Eh by (unfold held, with_fds; cbn; destruct (Z.leb_spec 0 packet); [reflexivity|lia]).
  rewrite <- Eh. destruct (negb _); [apply stop_held|now apply balanced_pure].
Qed.

Lemma emits_recv P fd : (forall n fl a, P (Sys_recvmsg fd n fl, a)) -> emits P (recv_packet fd).
Proof. intros Hp. unfold recv_packet. apply emits_bind; [apply emits_kernel; intros; apply Hp|intros; apply emits_pure]. Qed.

Lemma onPacketFd_balanced cmsg buffer self : balanced (held self) (fun x => held (snd x)) (packetDumper_onPacketFd cmsg buffer self).
Proof.
  unfold packetDumper_onPacketFd. eapply balanced_bind; [apply balanced_emits, emits_recv; intros ? ? ? ?; split; reflexivity|intros [n [control data]]]. neutrals.
  eapply balanced_bind; [|intros s; now apply (balanced_pure (held s) (fun x : list Z * packetDumper => held (snd x)))]. destruct (negb _); [apply stop_held|now apply balanced_pure].
Qed.

Lemma init_balanced self ifIndex port : balanced [] (fun s => listenFd s :: held s) (packetDumper_init self ifIndex port).
Proof.
  unfold packetDumper_init. eapply balanced_bind; [apply balanced_open; reflexivity|intros listen]. unfold gained. cbv beta zeta.
  apply balanced_CHECK; intros Hp. apply Z.ltb_lt in Hp. destruct (Z.leb_spec 0 listen); [|lia]. neutrals. now apply balanced_pure.
Qed.

Lemma deinit_balanced self : balanced (listenFd self :: held self) (fun _ => []) (packetDumper_deinit self).
Proof.
  unfold packetDumper_deinit. eapply balanced_bind with (R := fun s => listenFd s :: []).
  - unfold packetDumper_stop, held. destruct (Z.leb_spec 0 (packetFd self)) as [H|H]; [|now apply balanced_pure].
    eapply balanced_bind; [eapply balanced_perm; [apply perm_swap|apply balanced_close]|intros ?; cbv beta].
    eapply balanced_bind; [eapply balanced_perm; [apply perm_swap|apply balanced_close]|intros ?; cbv beta]. now apply balanced_pure.
  - intros s. eapply balanced_bind; [apply balanced_close|intros ?; cbv beta]. now apply balanced_pure.
Qed.

(** C28: Descriptors: whatever the kernel answers, every operation that returns has closed
    every descriptor that it opened or held and does not hold any more, and no other, and
    none twice: a dump holds the connection and the packet socket, a dumper that is not
    dumping nothing but its listening socket, and after it is deinitialised nothing is left. *)
Theorem packetDumper_descriptors :
  (forall self ifIndex port, balanced [] (fun s => listenFd s :: held s) (packetDumper_init self ifIndex port)) /\
  (forall self epollFd, balanced (held self) (fun s => held s) (packetDumper_onListenFd self epollFd)) /\
  (forall cmsg buffer self, balanced (held self) (fun x => held (snd x)) (packetDumper_onPacketFd cmsg buffer self)) /\
  (forall self, balanced (held self) (fun s => held s) (packetDumper_onClientFd self)) /\
  (forall self, balanced (listenFd self :: held self) (fun _ => []) (packetDumper_deinit self)).
Proof. exact (conj init_balanced (conj onListenFd_balanced (conj onPacketFd_balanced (conj stop_held deinit_balanced)))). Qed.

(** ** Reference: the pcap file format with nanoseconds *)
Module Pcap.

Record packet := Packet { seconds : Z; nanoseconds : Z; bytes : list Z }.

Fixpoint records (fuel : nat) (l : list Z) : option (list packet) :=
  match fuel, l with
  | _, [] => Some []
  | O, _ => None
  | S fuel, _ =>
      let captured := le_combine (firstn 4 (skipn 8 l)) in
      let original := le_combine (firstn 4 (skipn 12 l)) in
      if (length l <? 16)%nat || negb (captured =? original) || (Z.of_nat (length l - 16) <? captured) then None
      else
        let n := Z.to_nat captured in
        option_map (cons (Packet (le_combine (firstn 4 l)) (le_combine (firstn 4 (skipn 4 l))) (firstn n (skipn 16 l)))) (records fuel (skipn (16 + n) l))
  end.

(** Little endian, version 2.4, Ethernet; the limit of a packet's size. *)
Definition file (l : list Z) : option (Z * list packet) :=
  if negb (same (firstn 8 l) [0x4D; 0x3C; 0xB2; 0xA1; 2; 0; 4; 0] && same (firstn 4 (skipn 20 l)) [1; 0; 0; 0]) then None
  else option_map (pair (le_combine (firstn 4 (skipn 16 l)))) (records (length l) (skipn 24 l)).

End Pcap.

(** What was sent completely on a connection. *)
Definition sent_on (fd : Z) (e : event) : list Z :=
  match fst e with
  | Sys_sendto f m _ _ => if (f =? fd) && (ret (snd e) =? Z.of_nat (length m)) then m else []
  | Sys_sendmsg f _ iov _ => if (f =? fd) && (ret (snd e) =? Z.of_nat (length (concat iov))) then concat iov else []
  | _ => []
  end.

(** A packet as the kernel gives it: the control message, with the time at its start, and
    the data. *)
Definition arrival : Type := list Z * list Z.
Definition arrival_ok (p : arrival) : Prop := length (fst p) = cmsg_SIZE /\ bytes (fst p) /\ bytes (snd p) /\ snd p <> [] /\ Z.of_nat (length (snd p)) <= buffer_SIZE.
Definition pcap_packet (p : arrival) : Pcap.packet :=
  Pcap.Packet (le_combine (firstn 4 (skipn 16 (fst p)))) (le_combine (firstn 4 (skipn 24 (fst p)))) (snd p).
Definition kernel_answers (p : arrival) : list answer := [Answer 1 (fst p ++ snd p); Answer (16 + Z.of_nat (length (snd p))) []].

Fixpoint dump (n : nat) (cmsg buffer : list Z) (self : packetDumper) : M (list Z * packetDumper) :=
  match n with
  | O => pure (buffer, self)
  | S n =>
      let! (buffer, self) := packetDumper_onPacketFd cmsg buffer self in
      dump n cmsg buffer self
  end.

(** One record. *)
Definition record_bytes (p : arrival) : list Z :=
  firstn 4 (skipn 16 (fst p)) ++ firstn 4 (skipn 24 (fst p)) ++ le_split 4 (Z.of_nat (length (snd p))) ++ le_split 4 (Z.of_nat (length (snd p))) ++ snd p.

Lemma le_split_prefix l : bytes l -> length l = 8%nat -> le_split 4 (u32 (le_combine l)) = firstn 4 l.
Proof.
  intros Hb Hl. rewrite <- (firstn_skipn 4 l) at 1. rewrite le_combine_app. assert (length (firstn 4 l) = 4%nat) as L4 by (rewrite length_firstn; lia). rewrite L4.
  pose proof (le_combine_bound _ (bytes_firstn 4 l Hb)) as Hbd. rewrite L4 in Hbd. change (256 ^ Z.of_nat 4) with (2 ^ 32) in *.
  unfold wrap. rewrite Z.mul_comm, Z_mod_plus_full, Z.mod_small by exact Hbd. rewrite <- L4 at 1. apply le_split_combine. auto with hc.
Qed.

Lemma onPacketFd_sends cmsg buffer self p a t : length cmsg = cmsg_SIZE -> Z.of_nat (length buffer) = buffer_SIZE -> arrival_ok p ->
  exists es, packetDumper_onPacketFd cmsg buffer self (World (kernel_answers p ++ a) t) = (Done (mem_copy buffer 0 (snd p), self), World a (t ++ es)) /\
    flat_map (sent_on (clientFd self)) es = record_bytes p.
Proof.
  intros Hc Hb (H1 & H2 & H3 & H4 & H5). destruct p as [control data]. cbn [fst snd] in *.
  assert (cmsg_SIZE = 64%nat) as E64 by reflexivity. rewrite E64 in *.
  unfold packetDumper_onPacketFd, kernel_answers. cbn [app fst snd].
  set (event1 := (Sys_recvmsg (packetFd self) buffer_SIZE 0, Answer (Z.of_nat (length data)) (control ++ data))).
  assert (recv_packet (packetFd self) (World (Answer 1 (control ++ data) :: Answer (16 + Z.of_nat (length data)) [] :: a) t) =
    (Done (Z.of_nat (length data), (control, data)), World (Answer (16 + Z.of_nat (length data)) [] :: a) (t ++ [event1]))) as E1.
  { unfold recv_packet, kernel, bind. cbn [answers ret out]. change (1 <? 0) with false. cbv iota zeta beta. rewrite firstn_all2 by (rewrite length_app; lia). rewrite map_u8_bytes by (apply bytes_app; auto).
    unfold pure. cbn [ret out]. rewrite E64, <- H1, skipn_exact, firstn_exact by reflexivity. reflexivity. }
  rewrite (bind_done _ _ _ _ _ E1). cbv beta iota zeta. clear E1.
  destruct (Z.ltb_spec 0 (Z.of_nat (length data))) as [_|Hx]; [|destruct data; [contradiction|cbn in Hx; lia]]. unfold CHECK. rewrite bind_pure.
  assert (mem_copy cmsg 0 control = control) as -> by (rewrite mem_copy_eq by lia; cbn [firstn app]; rewrite skipn_all2, app_nil_r by lia; reflexivity).
  unfold cmsghdr_SIZE. change (16 + 8)%nat with 24%nat.
  rewrite !le_split_prefix by ((apply bytes_firstn, bytes_skipn; exact H2) || (rewrite length_firstn, length_skipn; lia)). rewrite !firstn_firstn. change (Nat.min 4 8) with 4%nat.
  rewrite Nat2Z.id. assert (firstn (length data) (mem_copy buffer 0 data) = data) as -> by (rewrite mem_copy_eq by (unfold buffer_SIZE in *; lia); cbn [firstn app]; apply firstn_exact; reflexivity).
  rewrite (wrap_small 32) by (unfold buffer_SIZE in *; lia).
  set (rec := firstn 4 (skipn 16 control) ++ _). assert (length rec = 16%nat) as Lr by (unfold rec; rewrite !length_app, !length_firstn, !length_skipn, !length_le_split; lia). rewrite Lr.
  unfold bind. rewrite syscall_answer. change (Z.of_nat 16) with 16. rewrite Z.eqb_refl. cbn [negb]. unfold pure. eexists. split; [rewrite <- !app_assoc; reflexivity|].
  cbn [app flat_map sent_on fst snd ret concat]. rewrite Z.eqb_refl, !app_nil_r, length_app, Lr. replace (16 + Z.of_nat (length data)) with (Z.of_nat (16 + length data)) by lia. rewrite Z.eqb_refl. cbn [andb].
  unfold rec, record_bytes. cbn [fst snd]. rewrite <- !app_assoc. reflexivity.
Qed.

Lemma dump_sends cmsg pkts : forall buffer self a t, length cmsg = cmsg_SIZE -> Z.of_nat (length buffer) = buffer_SIZE -> Forall arrival_ok pkts ->
  exists buffer' es, dump (length pkts) cmsg buffer self (World (flat_map kernel_answers pkts ++ a) t) = (Done (buffer', self), World a (t ++ es)) /\
    flat_map (sent_on (clientFd self)) es = flat_map record_bytes pkts.
Proof.
  induction pkts as [|p pkts IH]; intros buffer self a t Hc Hb Hok; cbn [List.length dump flat_map].
  - exists buffer, []. rewrite app_nil_r. split; reflexivity.
  - inversion Hok as [|? ? Hp Hok']; subst. rewrite <- app_assoc. destruct (onPacketFd_sends cmsg buffer self p (flat_map kernel_answers pkts ++ a) t Hc Hb Hp) as (es1 & E1 & S1).
    rewrite (bind_done _ _ _ _ _ E1). destruct Hp as (_ & _ & _ & _ & Hn). destruct (IH (mem_copy buffer 0 (snd p)) self a (t ++ es1)) as (b & es2 & E2 & S2).
    + exact Hc.
    + rewrite length_mem_copy by (unfold buffer_SIZE in *; lia). exact Hb.
    + exact Hok'.
    + exists b, (es1 ++ es2). split; [rewrite E2, app_assoc; reflexivity|]. now rewrite flat_map_app, S1, S2.
Qed.

Lemma length_record p : arrival_ok p -> length (record_bytes p) = (16 + length (snd p))%nat.
Proof. intros (H & _). unfold record_bytes, cmsg_SIZE, cmsghdr_SIZE, timespec_SIZE in *. rewrite !length_app, !length_firstn, !length_skipn, !length_le_split. lia. Qed.

(** The reader takes a record apart. *)
Lemma records_read pkts : forall fuel, Forall arrival_ok pkts -> (length (flat_map record_bytes pkts) <= fuel)%nat -> Pcap.records fuel (flat_map record_bytes pkts) = Some (map pcap_packet pkts).
Proof.
  induction pkts as [|[control data] pkts IH]; intros fuel Hok Hf; [destruct fuel; reflexivity|]. inversion Hok as [|? ? Hp Hok']; subst. cbn [flat_map map] in *. pose proof (length_record _ Hp) as Hl. rewrite length_app in Hf.
  destruct Hp as (H1 & H2 & H3 & H4 & H5). cbn [fst snd] in *. destruct fuel as [|fuel]; [lia|].
  assert (cmsg_SIZE = 64%nat) as E64 by reflexivity. rewrite E64 in H1.
  set (s := firstn 4 (skipn 16 control)) in *. set (n := firstn 4 (skipn 24 control)) in *. set (more := flat_map record_bytes pkts) in *. set (len := le_split 4 (Z.of_nat (length data))).
  assert (length s = 4%nat) as Ls by (unfold s; rewrite length_firstn, length_skipn; lia). assert (length n = 4%nat) as Ln by (unfold n; rewrite length_firstn, length_skipn; lia). assert (length len = 4%nat) as Ll by apply length_le_split.
  set (l := record_bytes (control, data) ++ more). assert (l = s ++ n ++ len ++ len ++ data ++ more) as El by (unfold l, record_bytes; cbn [fst snd]; fold s n len; rewrite <- !app_assoc; reflexivity).
  assert (le_combine len = Z.of_nat (length data)) as Elen by (unfold len; rewrite le_combine_split; apply Z.mod_small; unfold buffer_SIZE in *; change (256 ^ Z.of_nat 4) with (2 ^ 32); lia).
  assert (firstn 4 (skipn 8 l) = len) as F8 by (rewrite El, (app_assoc s n); rewrite skipn_exact by (rewrite length_app; lia); now apply firstn_exact).
  assert (firstn 4 (skipn 12 l) = len) as F12 by (rewrite El, (app_assoc n len), (app_assoc s (n ++ len)); rewrite skipn_exact by (rewrite !length_app; lia); now apply firstn_exact).
  assert (firstn 4 l = s) as F0 by (rewrite El; now apply firstn_exact). assert (firstn 4 (skipn 4 l) = n) as F4 by (rewrite El, skipn_exact by lia; now apply firstn_exact).
  assert (skipn 16 l = data ++ more) as F16 by (rewrite El; replace (s ++ n ++ len ++ len ++ data ++ more) with ((s ++ n ++ len ++ len) ++ data ++ more) by (now rewrite <- !app_assoc); apply skipn_exact; rewrite !length_app; lia).
  assert (length l = 16 + length data + length more)%nat as Hll by (unfold l; rewrite length_app, Hl; reflexivity).
  cbn [Pcap.records]. destruct l as [|b l'] eqn:Ed; [cbn in Hll; lia|]. rewrite <- Ed in *. clear Ed b l'. rewrite F8, F12, F0, F4, Elen, Z.eqb_refl. cbn [negb]. rewrite orb_false_r.
  destruct (Nat.ltb_spec (length l) 16); [lia|]. destruct (Z.ltb_spec (Z.of_nat (length l - 16)) (Z.of_nat (length data))); [lia|]. cbn [orb]. rewrite Nat2Z.id, Nat.add_comm, <- skipn_skipn, F16.
  rewrite firstn_exact by reflexivity. rewrite skipn_exact by reflexivity. rewrite IH by (exact Hok' || lia). reflexivity.
Qed.

(** C27: The stream: when a client connects to a dumper that is not dumping, then for any
    packets that arrive, of any size up to the buffer's, what the client was sent is a
    pcap file: a reader of that format gets back exactly these packets, with the kernel's
    times in seconds and nanoseconds (of 32 bits each) and in this order. *)
Theorem packetDumper_stream_correct self epollFd cmsg buffer pkts client packet sent o1 o2 o3 o4 o5 o6 o7 o8 a t :
  packetFd self < 0 -> 0 <= client -> 0 < packet -> length cmsg = cmsg_SIZE -> Z.of_nat (length buffer) = buffer_SIZE -> Forall arrival_ok pkts -> sent = 24 ->
  let accepted := [Answer client o1; Answer packet o2; Answer 0 o3; Answer 0 o4; Answer 0 o5; Answer 0 o6; Answer 0 o7; Answer sent o8] in
  exists buffer' es, bind (packetDumper_onListenFd self epollFd) (dump (length pkts) cmsg buffer) (World (accepted ++ flat_map kernel_answers pkts ++ a) t) =
    (Done (buffer', with_fds self client packet), World a (t ++ es)) /\
    Pcap.file (flat_map (sent_on client) es) = Some (buffer_SIZE, map pcap_packet pkts).
Proof.
  intros Hidle Hclient Hpacket Hc Hb Hok -> accepted.
  assert (exists es, packetDumper_onListenFd self epollFd (World (accepted ++ flat_map kernel_answers pkts ++ a) t) = (Done (with_fds self client packet), World (flat_map kernel_answers pkts ++ a) (t ++ es)) /\
    flat_map (sent_on client) es = pcapHeader) as (es1 & E1 & S1).
  { unfold packetDumper_onListenFd, accepted. cbn [app]. unfold bind, packetDumper_stop, sys_sendto, epollAdd, bind, CHECK. rewrite !syscall_answer. destruct (Z.ltb_spec client 0); [lia|]. destruct (Z.leb_spec 0 (packetFd self)); [lia|]. unfold pure.
    rewrite !syscall_answer. destruct (Z.ltb_spec 0 packet); [|lia]. unfold pure, bind. cbn [clientFd with_fds].
    repeat first [progress rewrite !syscall_answer | progress change (0 =? 0) with true | progress cbv iota beta].
    change (24 =? Z.of_nat (length pcapHeader)) with true. cbn [negb]. eexists. split; [rewrite <- !app_assoc; reflexivity|].
    cbn [app flat_map sent_on fst snd ret]. rewrite Z.eqb_refl. reflexivity. }
  rewrite (bind_done _ _ _ _ _ E1). destruct (dump_sends cmsg pkts buffer (with_fds self client packet) a (t ++ es1) Hc Hb Hok) as (b & es2 & E2 & S2).
  exists b, (es1 ++ es2). split; [rewrite E2, app_assoc; reflexivity|]. cbn [clientFd with_fds] in S2. rewrite flat_map_app, S1, S2.
  set (recs := flat_map record_bytes pkts). let v := eval vm_compute in pcapHeader in change pcapHeader with v. unfold Pcap.file. cbn [app firstn skipn List.length].
  match goal with |- (if ?b then _ else _) = _ => change b with false end. cbv iota. unfold recs. rewrite records_read by (assumption || lia). reflexivity.
Qed.

(** ** Instances of the theorems *)

(** The interface has the hardware address 02:04:06:08:0a:0c; the dump's port is 102. *)
Definition demo_dumper : packetDumper := PacketDumper ([108; 97; 110] ++ repeat 0 13 ++ [1; 0; 2; 4; 6; 8; 10; 12] ++ repeat 0 16) 5 (-1) (-1) 101 102.
(** A frame that this interface sends over IPv4, with a protocol and two ports. *)
Definition demo_frame (protocol source destination : Z) : list Z :=
  [1; 3; 5; 7; 9; 11] ++ [2; 4; 6; 8; 10; 12] ++ [8; 0] ++ [0x45; 0; 0; 40; 0; 0; 0x40; 0; 64; protocol; 0; 0; 10; 123; 0; 1; 10; 123; 0; 2] ++ be16 source ++ be16 destination ++ repeat 0 16.

Ltac all_bytes := apply Forall_forall; let x := fresh in let H := fresh in intros x H; vm_compute in H; unfold is_byte; repeat (destruct H as [<-|H]; [lia|]); contradiction.


Lemma packetDumper_stream_correct_witness :
  let control := repeat 0 16 ++ le_split 8 1700000000 ++ le_split 8 123456789 ++ repeat 0 32 in
  let pkts := [(control, demo_frame 6 80 4000); (control, [1; 2; 3])] in
  let kernel := [Answer 8 []; Answer 9 []; Answer 0 []; Answer 0 []; Answer 0 []; Answer 0 []; Answer 0 []; Answer 24 []] ++ flat_map kernel_answers pkts ++ [] in
  let buffer := repeat 0 (Z.to_nat buffer_SIZE) in
  exists buffer' es, bind (packetDumper_onListenFd demo_dumper 20) (dump (length pkts) (repeat 0 64) buffer) (World kernel []) = (Done (buffer', with_fds demo_dumper 8 9), World [] ([] ++ es)) /\
    Pcap.file (flat_map (sent_on 8) es) = Some (66000, [Pcap.Packet 1700000000 123456789 (demo_frame 6 80 4000); Pcap.Packet 1700000000 123456789 [1; 2; 3]]).
Proof.
  intros control pkts kernel buffer.
  assert (Z.of_nat (length buffer) = buffer_SIZE) as Hs by (unfold buffer; rewrite repeat_length; reflexivity).
  assert (bytes control) as Hc by all_bytes.
  assert (Forall arrival_ok pkts) as Hok.
  { constructor; [|constructor; [|constructor]]; (split; [reflexivity|]); (split; [exact Hc|]); (split; [all_bytes|]); (split; [discriminate|]); vm_compute; discriminate. }
  exact (packetDumper_stream_correct demo_dumper 20 (repeat 0 64) buffer pkts 8 9 24 [] [] [] [] [] [] [] [] [] [] ltac:(cbn; lia) ltac:(lia) ltac:(lia) eq_refl Hs Hok eq_refl).
Defined.
