(* ===== verification/Iptables.v ===== *)
(** * The router's address translation ([src/router/router/iptables.c])

    One system call replaces the kernel's nat table.  The blob is read back here the way
    [ip_tables] does: entries found by their offsets, a chain per hook that starts at its
    hook entry, addresses compared under their masks. *)
From Stdlib Require Import ZArith List Lia Bool String.
From S2P Require Import Prelude RouterSys Netlink.
Import ListNotations.

Definition IPPROTO_RAW : Z := 255.
Definition SOL_IP : Z := 0.
Definition IPT_SO_SET_REPLACE : Z := 64.
Definition XT_EXTENSION_MAXNAMELEN : nat := 29%nat.
Definition XT_TABLE_MAXNAMELEN : nat := 32%nat.
Definition NF_ACCEPT : Z := 1.
Definition IPT_INV_DSTIP : Z := 0x10.

(** A character array that is initialised by a string. *)
Definition char_array (n : nat) (s : list Z) : list Z := s ++ repeat 0 (n - length s).

(** [struct ipt_ip] and [struct ipt_entry]; the fields that are not set are 0. *)
Definition ipt_ip (src dst smsk dmsk : list Z) (invflags : Z) : list Z :=
  src ++ dst ++ smsk ++ dmsk ++ repeat 0 (2 * IFNAMSIZ) ++ repeat 0 (2 * IFNAMSIZ) ++ le_split 2 0 ++ [0; invflags].
Definition ipt_entry (ip : list Z) (target_offset next_offset : Z) : list Z :=
  ip ++ le_split 4 0 ++ le_split 2 target_offset ++ le_split 2 next_offset ++ le_split 4 0 ++ repeat 0 16.
Definition ipt_entry_SIZE : Z := 112.

Definition xt_entry_target (target_size : Z) (name : list Z) : list Z := le_split 2 target_size ++ char_array XT_EXTENSION_MAXNAMELEN name ++ [0].
(** [struct xt_standard_target]: a target, the verdict and padding. *)
Definition xt_standard_target_SIZE : Z := 40.
Definition acceptEntry_SIZE : Z := ipt_entry_SIZE + xt_standard_target_SIZE.

Definition no_ip : list Z := repeat 0 4.
Definition acceptEntry : list Z :=
  ipt_entry (ipt_ip no_ip no_ip no_ip no_ip 0) ipt_entry_SIZE acceptEntry_SIZE ++
  xt_entry_target xt_standard_target_SIZE [] ++ le_split 4 (- NF_ACCEPT - 1) ++ le_split 4 0.

(** [natTarget]: a target, [struct nf_nat_ipv4_multi_range_compat] with one range, padding. *)
Definition natTarget_SIZE : Z := 32 + 20 + 4.
Definition postroutingNatEntry_SIZE : Z := ipt_entry_SIZE + natTarget_SIZE.
Definition postroutingNatEntry : list Z :=
  ipt_entry (ipt_ip [10; 123; 0; 0] [10; 123; 0; 0] [255; 255; 0; 0] [255; 255; 0; 0] IPT_INV_DSTIP) ipt_entry_SIZE postroutingNatEntry_SIZE ++
  xt_entry_target natTarget_SIZE (str "MASQUERADE") ++ le_split 4 1 ++ repeat 0 16 ++ le_split 4 0.

Definition entries : list Z := acceptEntry ++ acceptEntry ++ acceptEntry ++ postroutingNatEntry ++ acceptEntry.

(** [struct replace]; [counters] is the address of the shared buffer. *)
Definition replace (counters : list Z) : list Z :=
  let prerouting := 0 in
  let input := acceptEntry_SIZE in
  let output := 2 * acceptEntry_SIZE in
  let postroutingNat := 3 * acceptEntry_SIZE in
  let postrouting := 3 * acceptEntry_SIZE + postroutingNatEntry_SIZE in
  char_array XT_TABLE_MAXNAMELEN (str "nat") ++ le_split 4 0x1b ++ le_split 4 5 ++ le_split 4 (postrouting + acceptEntry_SIZE) ++
  flat_map (le_split 4) [prerouting; input; 0; output; postroutingNat] ++
  flat_map (le_split 4) [prerouting; input; 0; output; postrouting] ++
  le_split 4 5 ++ counters ++ entries.

(** The kernel stores the old entries' counters, of 16 bytes each, in the buffer. *)
Definition iptables_configure (counters : list Z) (buffer : list Z) : M (list Z) :=
  let! fd := syscall (Sys_socket AF_INET SOCK_RAW IPPROTO_RAW) in
  CHECK (0 <? fd);;
  let! (status, old) := syscall_out (Sys_setsockopt fd SOL_IP IPT_SO_SET_REPLACE (replace counters)) (5 * 16) in
  let buffer := mem_copy buffer 0 old in
  CHECK (status =? 0);;
  sys_close fd;;
  pure buffer.

(** ** Reference: how the table is read *)
Module Ipt.

Inductive target := Standard (verdict : Z) | Extension (name : list Z).
Record rule := Rule { src : list Z; smsk : list Z; dst : list Z; dmsk : list Z; inverted : Z; does : target }.

Definition u16 (l : list Z) (i : nat) : Z := le_combine (firstn 2 (skipn i l)).
Definition u32 (l : list Z) (i : nat) : Z := le_combine (firstn 4 (skipn i l)).
Definition bytes4 (l : list Z) (i : nat) : list Z := firstn 4 (skipn i l).
(** A name ends at its first zero. *)
Fixpoint name (l : list Z) : list Z := match l with 0 :: _ | [] => [] | c :: l => c :: name l end.

(** The entry at the start of [l], if it keeps the rules of [check_entry]: the target lies
    behind the entry, fits before the next one and says its size; sizes are multiples of 8. *)
Definition entry_at (l : list Z) : option (rule * nat) :=
  let target_offset := u16 l 88 in
  let next := u16 l 90 in
  let target := skipn (Z.to_nat target_offset) l in
  let size := u16 target 0 in
  if (Z.of_nat (length l) <? next) || (target_offset <? 112) || negb (target_offset + size =? next) || negb (next mod 8 =? 0) || (size <? 32) then None
  else
    let n := name (firstn 29 (skipn 2 target)) in
    let does := if list_eq_dec Z.eq_dec n [] then Standard (i32 (u32 target 32)) else Extension n in
    Some (Rule (bytes4 l 0) (bytes4 l 8) (bytes4 l 4) (bytes4 l 12) (nth 83 l 0) does, Z.to_nat next).

Fixpoint entries (fuel : nat) (offset : nat) (l : list Z) : option (list (nat * rule)) :=
  match fuel, l with
  | _, [] => Some []
  | O, _ => None
  | S fuel, _ =>
      match entry_at l with
      | Some (r, n) => option_map (cons (offset, r)) (entries fuel (offset + n) (skipn n l))
      | None => None
      end
  end.

Record table := Table { table_name : list Z; hooks : Z; hook_entry : list Z; underflow : list Z; rules : list (nat * rule) }.

(** [struct ipt_replace] and what follows it; the counts and the size must be right. *)
Definition read (blob : list Z) : option table :=
  let l := skipn 96 blob in
  match entries (length l) 0 l with
  | Some rs =>
      if (u32 blob 36 =? Z.of_nat (length rs)) && (u32 blob 40 =? Z.of_nat (length l)) && (u32 blob 84 =? Z.of_nat (length rs)) then
        Some (Table (name (firstn 32 blob)) (u32 blob 32) (map (fun i => u32 blob (44 + 4 * i)) (seq 0 5)) (map (fun i => u32 blob (64 + 4 * i)) (seq 0 5)) rs)
      else None
  | None => None
  end.

(** Whether a rule applies to a packet ([ip_packet_match]). *)
Fixpoint masked (a m : list Z) : list Z := match a, m with x :: a, y :: m => (x & y) :: masked a m | _, _ => [] end.
Definition matches (r : rule) (source destination : list Z) : bool :=
  let differs a b := if list_eq_dec Z.eq_dec a b then false else true in
  let inv flag := negb (inverted r & flag =? 0) in
  negb (xorb (differs (masked source (smsk r)) (src r)) (inv 0x08) || xorb (differs (masked destination (dmsk r)) (dst r)) (inv 0x10)).

(** The first rule of the hook's chain that applies. *)
Fixpoint first (rs : list (nat * rule)) (source destination : list Z) : option target :=
  match rs with
  | [] => None
  | (_, r) :: rs => if matches r source destination then Some (does r) else first rs source destination
  end.
Definition from (offset : Z) (rs : list (nat * rule)) : list (nat * rule) := filter (fun r => offset <=? Z.of_nat (fst r)) rs.
Definition verdict (t : table) (hook : nat) (source destination : list Z) : option target :=
  if negb (Z.testbit (hooks t) (Z.of_nat hook)) then None else first (from (nth hook (hook_entry t) 0) (rules t)) source destination.

End Ipt.

(** ** The table *)

Definition accept_all : Ipt.rule := Ipt.Rule no_ip no_ip no_ip no_ip 0 (Ipt.Standard (-2)).
Definition masquerade : Ipt.rule := Ipt.Rule [10; 123; 0; 0] [255; 255; 0; 0] [10; 123; 0; 0] [255; 255; 0; 0] 16 (Ipt.Extension (str "MASQUERADE")).
Definition nat_table : Ipt.table :=
  Ipt.Table (str "nat") 27 [0; 152; 0; 304; 456] [0; 152; 0; 304; 624] [(0%nat, accept_all); (152%nat, accept_all); (304%nat, accept_all); (456%nat, masquerade); (624%nat, accept_all)].

Lemma replace_reads counters : length counters = 8%nat -> Ipt.read (replace counters) = Some nat_table.
Proof.
  intros Hc. do 8 (destruct counters as [|? counters]; [discriminate|]). destruct counters; [|discriminate]. vm_compute. reflexivity.
Qed.

(** Addresses of the router's networks. *)
Definition local (address : list Z) : bool := same (firstn 2 address) [10; 123].

Lemma masked_16 a : length a = 4%nat -> bytes a -> Ipt.masked a [255; 255; 0; 0] = firstn 2 a ++ [0; 0].
Proof.
  intros Ha Hb. destruct a as [|a0 [|a1 [|a2 [|a3 [|? ?]]]]]; try discriminate. cbn [Ipt.masked firstn app]. rewrite !Z.land_0_r.
  pose proof (Forall_inv Hb) as H0. pose proof (Forall_inv (Forall_inv_tail Hb)) as H1. unfold is_byte in *. change 255 with (Z.ones 8). rewrite !Z.land_ones, !Z.mod_small by (change (2 ^ 8) with 256; lia). reflexivity.
Qed.

Lemma masked_0 a : length a = 4%nat -> Ipt.masked a no_ip = no_ip.
Proof. intros Ha. destruct a as [|a0 [|a1 [|a2 [|a3 [|? ?]]]]]; try discriminate. unfold no_ip. cbn [repeat Ipt.masked]. now rewrite !Z.land_0_r. Qed.

Lemma matches_accept s d : length s = 4%nat -> length d = 4%nat -> Ipt.matches accept_all s d = true.
Proof. intros Hs Hd. unfold Ipt.matches, accept_all. cbn [Ipt.smsk Ipt.src Ipt.dmsk Ipt.dst Ipt.inverted]. now rewrite !masked_0. Qed.

Lemma local_mask a : length a = 4%nat -> bytes a -> (if list_eq_dec Z.eq_dec (Ipt.masked a [255; 255; 0; 0]) [10; 123; 0; 0] then false else true) = negb (local a).
Proof.
  intros Ha Hb. rewrite masked_16 by assumption. unfold local, same.
  destruct (list_eq_dec Z.eq_dec (firstn 2 a) [10; 123]) as [->|Hn]; [destruct (list_eq_dec _ _ _); [reflexivity|now destruct n]|].
  destruct (list_eq_dec _ _ _) as [E|]; [|reflexivity]. exfalso. apply Hn. destruct a as [|? [|? ?]]; try discriminate. cbn in E. injection E as -> ->. reflexivity.
Qed.

Lemma matches_masquerade s d : length s = 4%nat -> bytes s -> length d = 4%nat -> bytes d -> Ipt.matches masquerade s d = local s && negb (local d).
Proof.
  intros Hs Bs Hd Bd. unfold Ipt.matches, masquerade. cbn [Ipt.smsk Ipt.src Ipt.dmsk Ipt.dst Ipt.inverted]. rewrite !local_mask by assumption.
  change (negb (16 & 8 =? 0)) with false. change (negb (16 & 16 =? 0)) with true. now destruct (local s), (local d).
Qed.

(** C30: The nat table: the one system call that the configuration makes hands the kernel a
    table that its reader accepts (every entry is found from the one before, the number of
    entries and the size are right), whose default rules accept everything, and that
    changes exactly the packets from the router's networks 10.123.0.0/16 to addresses
    outside of them: they leave with the router's own address, all others are accepted. *)
Theorem iptables_configure_correct counters buffer fd o old o2 a t : length counters = 8%nat -> 0 < fd -> (length old <= 80)%nat -> bytes old ->
  iptables_configure counters buffer (World (Answer fd o :: Answer 0 old :: Answer 0 o2 :: a) t) =
    (Done (mem_copy buffer 0 old), World a (t ++ [(Sys_socket AF_INET SOCK_RAW IPPROTO_RAW, Answer fd []); (Sys_setsockopt fd SOL_IP IPT_SO_SET_REPLACE (replace counters), Answer 0 old); (Sys_close fd, Answer 0 [])])) /\
  exists table, Ipt.read (replace counters) = Some table /\ Ipt.table_name table = str "nat" /\
    (forall hook, In hook [0; 1; 3; 4]%nat -> In (Z.to_nat (nth hook (Ipt.underflow table) 0), accept_all) (Ipt.rules table)) /\
    (forall source destination, length source = 4%nat -> bytes source -> length destination = 4%nat -> bytes destination ->
       Ipt.verdict table 4 source destination = Some (if local source && negb (local destination) then Ipt.Extension (str "MASQUERADE") else Ipt.Standard (-2)) /\
       (forall hook, In hook [0; 1; 3]%nat -> Ipt.verdict table hook source destination = Some (Ipt.Standard (-2)))).
Proof.
  intros Hc Hfd Hold Hb. split.
  - unfold iptables_configure, sys_close. unfold bind. rewrite syscall_answer. unfold CHECK at 1. destruct (Z.ltb_spec 0 fd); [|lia]. unfold pure.
    unfold syscall_out, kernel, stored, bind. cbn [answers trace ret out]. rewrite firstn_all2, map_u8_bytes by assumption.
    transitivity (@Done (list Z) (mem_copy buffer 0 old), World a (((t ++ [(Sys_socket AF_INET SOCK_RAW IPPROTO_RAW, Answer fd [])]) ++ [(Sys_setsockopt fd SOL_IP IPT_SO_SET_REPLACE (replace counters), Answer 0 old)]) ++ [(Sys_close fd, Answer 0 [])])); [reflexivity|]. now rewrite <- !app_assoc.
  - exists nat_table. split; [now apply replace_reads|]. split; [reflexivity|]. split.
    { intros hook Hh. cbn in Hh. intuition (subst; cbn; auto 10). }
    intros s d Hs Bs Hd Bd. split.
    + change (Ipt.verdict nat_table 4 s d) with (if Ipt.matches masquerade s d then Some (Ipt.Extension (str "MASQUERADE")) else if Ipt.matches accept_all s d then Some (Ipt.Standard (-2)) else None).
      rewrite matches_masquerade, matches_accept by assumption. now destruct (local s && _).
    + intros hook Hh. cbn in Hh. intuition subst; unfold Ipt.verdict; cbn [nat_table Ipt.hooks Ipt.hook_entry Ipt.rules nth]; cbn -[Ipt.matches]; now rewrite matches_accept.
Qed.

Lemma iptables_configure_correct_witness :
  fst (iptables_configure (repeat 7 8) (repeat 0 100) (World [Answer 5 []; Answer 0 []; Answer 0 []] [])) = Done (repeat 0 100) /\
  exists table, Ipt.read (replace (repeat 7 8)) = Some table /\ Ipt.verdict table 4 [10; 123; 0; 40] [8; 8; 8; 8] = Some (Ipt.Extension (str "MASQUERADE")).
Proof.
  destruct (iptables_configure_correct (repeat 7 8) (repeat 0 100) 5 [] [] [] [] [] eq_refl ltac:(lia) ltac:(cbn; lia) (Forall_nil _)) as (E & table & Hr & _ & _ & Hv).
  split; [rewrite E; reflexivity|]. exists table. split; [exact Hr|].
  destruct (Hv [10; 123; 0; 40] [8; 8; 8; 8] eq_refl ltac:(repeat constructor; unfold is_byte; lia) eq_refl ltac:(repeat constructor; unfold is_byte; lia)) as [-> _]. reflexivity.
Defined.
