(* ===== verification/Ksmb.v ===== *)
(** * The router's file server ([src/router/router/ksmb.c])

    The SMB server is in the kernel; it asks the router over netlink who may log in and
    which shares there are.  Everyone is a guest, and the two directories of the disk are
    shared if they are there. *)
From Stdlib Require Import ZArith List Lia Bool String.
From S2P Require Import Prelude Mem Util RouterSys Netlink Config.
Import ListNotations.

Definition KSMBD_GENL_NAME : list Z := str "SMBD_GENL".
Definition KSMBD_GENL_VERSION : Z := 1.
Definition KSMBD_REQ_MAX_ACCOUNT_NAME_SZ : nat := 48%nat.
Definition KSMBD_REQ_MAX_SHARE_NAME : nat := 64%nat.
Definition KSMBD_EVENT_STARTING_UP : Z := 2.
Definition KSMBD_EVENT_LOGIN_REQUEST : Z := 4.
Definition KSMBD_EVENT_LOGIN_RESPONSE : Z := 5.
Definition KSMBD_EVENT_SHARE_CONFIG_REQUEST : Z := 6.
Definition KSMBD_EVENT_SHARE_CONFIG_RESPONSE : Z := 7.
Definition KSMBD_EVENT_TREE_CONNECT_REQUEST : Z := 8.
Definition KSMBD_EVENT_TREE_CONNECT_RESPONSE : Z := 9.
Definition KSMBD_TREE_CONN_STATUS_OK : Z := 0.
Definition KSMBD_TREE_CONN_STATUS_NO_SHARE : Z := 2.
Definition KSMBD_TREE_CONN_FLAG_WRITABLE : Z := Z.shiftl 1 2.
Definition KSMBD_USER_FLAG_OK : Z := Z.shiftl 1 0.
Definition KSMBD_USER_FLAG_GUEST_ACCOUNT : Z := Z.shiftl 1 4.
Definition KSMBD_SHARE_FLAG_AVAILABLE : Z := Z.shiftl 1 0.
Definition KSMBD_SHARE_FLAG_BROWSEABLE : Z := Z.shiftl 1 1.
Definition KSMBD_SHARE_FLAG_WRITEABLE : Z := Z.shiftl 1 2.
Definition KSMBD_CONFIG_OPT_AUTO : Z := 2.

Record ksmb := Ksmb { netlinkFd : Z; familyId : Z }.

(** A character array that is initialised by a string. *)
Definition chars (n : nat) (s : list Z) : list Z := s ++ repeat 0 (n - length s).

(** [struct ksmbd_startup_request] as it is filled in. *)
Definition startup_request : list Z :=
  le_split 4 0 ++ le_split 4 KSMBD_CONFIG_OPT_AUTO ++ repeat 0 16 ++ repeat 0 16 ++
  chars 16 (str "ROUTER") ++ chars 64 (str "WORKGROUP") ++ chars 64 (str "ROUTER") ++
  le_split 2 445 ++ le_split 2 0 ++ le_split 4 0 ++ le_split 4 8192 ++ le_split 4 0 ++ le_split 4 0 ++ le_split 4 0 ++
  le_split 4 64 ++ repeat 0 12 ++ le_split 4 0 ++ le_split 4 0 ++ le_split 4 0 ++ repeat 0 504 ++ le_split 4 0.
Definition startup_request_SIZE : Z := 744.

(** A generic netlink message with one attribute, as the structs of this file lay it out. *)
Definition ksmbd_message (family event size : Z) (body : list Z) : list Z :=
  nlmsghdr (nlmsghdr_SIZE + genlmsghdr_SIZE + nlattr_SIZE + size) family (NLM_F_REQUEST .| NLM_F_ACK) 0 ++
  genlmsghdr event KSMBD_GENL_VERSION ++ nlattr (nlattr_SIZE + size) event ++ body.

Definition ksmb_init (buffer : list Z) (genetlinkFd : Z) : M (list Z * ksmb) :=
  let! buffer := genetlink_requestFamily buffer genetlinkFd (KSMBD_GENL_NAME ++ [0]) (Z.of_nat (length KSMBD_GENL_NAME)) in
  let! attr := genetlink_findAttr buffer CTRL_ATTR_FAMILY_ID in
  let! familyId := load 2 buffer (attr + nlattr_SIZE) in
  let! fd := syscall (Sys_socket AF_NETLINK SOCK_RAW NETLINK_GENERIC) in
  CHECK (0 <? fd);;
  let! buffer := netlink_talk buffer fd [ksmbd_message familyId KSMBD_EVENT_STARTING_UP startup_request_SIZE startup_request] in
  pure (buffer, Ksmb fd familyId).

(** The structs of the answers. *)
Definition login_response (handle account : list Z) : list Z :=
  handle ++ le_split 4 0 ++ le_split 4 0 ++ firstn KSMBD_REQ_MAX_ACCOUNT_NAME_SZ account ++
  le_split 2 (KSMBD_USER_FLAG_OK .| KSMBD_USER_FLAG_GUEST_ACCOUNT) ++ le_split 2 16 ++ repeat 0 18 ++ le_split 2 0 ++ repeat 0 64.
Definition login_response_SIZE : Z := 148.
Definition tree_connect_response (handle : list Z) (status : Z) : list Z :=
  handle ++ le_split 2 status ++ le_split 2 KSMBD_TREE_CONN_FLAG_WRITABLE ++ repeat 0 64.
Definition tree_connect_response_SIZE : Z := 72.
Definition share_config_response (handle : list Z) (flags : Z) (path : list Z) : list Z :=
  handle ++ le_split 4 flags ++ le_split 2 0x1e4 ++ le_split 2 0x1ed ++ le_split 2 0 ++ le_split 2 0 ++ le_split 2 (u16 (-1)) ++ le_split 2 (u16 (-1)) ++
  repeat 0 KSMBD_REQ_MAX_SHARE_NAME ++ repeat 0 448 ++ le_split 4 0 ++ chars 16 path.
Definition share_config_response_SIZE : Z := 536 + 16.

(** Where the request's fields lie behind the attribute. *)
Definition request_at : nat := 24%nat.
Definition tree_share : nat := 72%nat.

Definition cstr_is (s : list Z) (name : list Z) : bool := util_cstrCmp s (name ++ [0]) =? 0.

(** A share that is named [name] and whose directory is there; the directory is only looked
    for if the name fits. *)
Definition has_share (share name path : list Z) : M bool :=
  if cstr_is share name then
    let! r := syscall (Sys_faccessat (-1) path 0) in pure (r =? 0)
  else pure false.

(** The [switch]; [request] is the buffer from the request on. *)
Definition ksmb_event (buffer : list Z) (self : ksmb) (type : Z) (request : list Z) : M (list Z) :=
  let handle := firstn 4 request in
  if type =? KSMBD_EVENT_LOGIN_REQUEST then
    let account := skipn 4 request in
    netlink_talk buffer (netlinkFd self) [ksmbd_message (familyId self) KSMBD_EVENT_LOGIN_RESPONSE login_response_SIZE (login_response handle account)]
  else if type =? KSMBD_EVENT_TREE_CONNECT_REQUEST then
    let share := skipn tree_share request in
    let! config := has_share share (str "config") (str "/disk/config") in
    let! ok := if config then pure true else has_share share (str "data") (str "/disk/data") in
    let status := if ok then KSMBD_TREE_CONN_STATUS_OK else KSMBD_TREE_CONN_STATUS_NO_SHARE in
    netlink_talk buffer (netlinkFd self) [ksmbd_message (familyId self) KSMBD_EVENT_TREE_CONNECT_RESPONSE tree_connect_response_SIZE (tree_connect_response handle status)]
  else if type =? KSMBD_EVENT_SHARE_CONFIG_REQUEST then
    let share_name := skipn 4 request in
    let flags := KSMBD_SHARE_FLAG_AVAILABLE .| KSMBD_SHARE_FLAG_BROWSEABLE .| KSMBD_SHARE_FLAG_WRITEABLE in
    let '(flags, path) :=
      if cstr_is share_name (str "config") then (flags, str "/disk/config")
      else if cstr_is share_name (str "data") then (flags, str "/disk/data")
      else (0, []) in
    netlink_talk buffer (netlinkFd self) [ksmbd_message (familyId self) KSMBD_EVENT_SHARE_CONFIG_RESPONSE share_config_response_SIZE (share_config_response handle flags path)]
  else pure buffer.

Definition ksmb_onNetlinkFd (buffer : list Z) (self : ksmb) : M (list Z) :=
  let! buffer := netlink_receive buffer (netlinkFd self) in
  let! type := load 2 buffer (nlmsghdr_SIZE + genlmsghdr_SIZE + 2) in
  ksmb_event buffer self type (skipn request_at buffer).

Definition ksmb_deinit (self : ksmb) : M unit :=
  sys_close (netlinkFd self);;
  let! killServerFd := syscall (Sys_openat (-1) (str "/sys/class/ksmbd-control/kill_server") O_WRONLY 0) in
  if 0 <=? killServerFd then
    sys_write killServerFd (str "hard");;
    sys_close killServerFd;;
    pure tt
  else pure tt.

(** ** The conversation *)

(** A generic netlink message with one attribute, by its contents. *)
Definition request_message (family flags seq event : Z) (body : list Z) : Nl.msg :=
  Nl.Msg family flags seq (genlmsghdr event KSMBD_GENL_VERSION ++ Nl.encode (Nl.Attr event body)) [].
Definition response (family event : Z) (body : list Z) : list Z :=
  Nl.message family (NLM_F_REQUEST + NLM_F_ACK) 0 (genlmsghdr event KSMBD_GENL_VERSION ++ Nl.encode (Nl.Attr event body)).

(** The kernel's requests; a name is a C string in its field. *)
Definition name_field (name junk : list Z) : list Z := name ++ 0 :: junk.
Definition login_body (handle account reserved : list Z) : list Z := handle ++ account ++ reserved.
Definition tree_body (handle session account share reserved : list Z) : list Z := handle ++ session ++ account ++ share ++ reserved.
Definition share_body (handle share reserved : list Z) : list Z := handle ++ share ++ reserved.

Lemma cstrCmp_zero a : forall b r1 r2, no_nul a -> no_nul b -> util_cstrCmp (a ++ 0 :: r1) (b ++ 0 :: r2) = 0 <-> a = b.
Proof.
  induction a as [|x a IH]; intros [|y b] r1 r2 Ha Hb; cbn [app util_cstrCmp get nth].
  - split; reflexivity.
  - pose proof (Forall_inv Hb) as Hy. cbn beta in Hy. split; [|discriminate]. change (get (y :: b ++ 0 :: r2) 0) with y. change (get (0 :: r1) 0) with 0. rewrite orb_true_r. lia.
  - pose proof (Forall_inv Ha) as Hx. cbn beta in Hx. change (get (x :: a ++ 0 :: r1) 0) with x. change (get (0 :: r2) 0) with 0. destruct (Z.eqb_spec (x - 0) 0); cbn [negb orb]; split; intros; try lia; discriminate.
  - pose proof (Forall_inv Ha) as Hx. pose proof (Forall_inv Hb) as Hy. cbn beta in Hx, Hy. change (get (x :: a ++ 0 :: r1) 0) with x. change (get (y :: b ++ 0 :: r2) 0) with y.
    destruct (Z.eqb_spec (x - y) 0) as [E|E]; cbn [negb orb].
    + destruct (Z.eqb_spec x 0); [contradiction|]. assert (x = y) as <- by lia. cbn [skipn]. rewrite (IH b r1 r2 (Forall_inv_tail Ha) (Forall_inv_tail Hb)). split; [now intros ->|congruence].
    + split; [lia|intros H; injection H; lia].
Qed.

Lemma cstr_is_spec name junk rest other : no_nul name -> no_nul other -> cstr_is (name_field name junk ++ rest) other = same name other.
Proof.
  intros Hn Ho. unfold cstr_is, name_field, same. rewrite <- app_assoc. change ((0 :: junk) ++ rest) with (0 :: junk ++ rest).
  pose proof (cstrCmp_zero name other (junk ++ rest) [] Hn Ho) as Hc. destruct (list_eq_dec Z.eq_dec name other) as [E|E]; [now apply Z.eqb_eq, Hc|apply Z.eqb_neq; tauto].
Qed.

Lemma ksmbd_message_eq family event size body : size = Z.of_nat (length body) -> Nl.pad (length body) = 0%nat -> ksmbd_message family event size body = response family event body.
Proof.
  intros -> Hp. unfold ksmbd_message, response. change (NLM_F_REQUEST .| NLM_F_ACK) with (NLM_F_REQUEST + NLM_F_ACK).
  rewrite <- (app_nil_r body) at 3. rewrite (attr_eq _ event body []) by (reflexivity || exact Hp). rewrite app_nil_r. apply message_eq. rewrite length_app, length_encode_attr, Hp.
  unfold nlmsghdr_SIZE, genlmsghdr_SIZE, nlattr_SIZE. change (length (genlmsghdr event KSMBD_GENL_VERSION)) with 4%nat. lia.
Qed.

Section Request.
Context (buffer : list Z) (self : ksmb) (flags seq event : Z) (body : list Z) (r : Z).
Context (Hsize : Z.of_nat (length buffer) = buffer_SIZE) (Hfamily : 16 <= familyId self < 2 ^ 16) (Hevent : 0 <= event < 2 ^ 16) (Hr : 0 <= r).
Local Notation m := (request_message (familyId self) flags seq event body).
Context (Hpad : Nl.pad (length body) = 0%nat) (Hbody : bytes body) (Hlen : Z.of_nat (length body) < 2 ^ 15) (Hdata : bytes (Nl.encode_msg m)).
Local Notation data := (Nl.encode_msg m).
Local Notation B := (mem_copy buffer 0 data).

Lemma data_layout : exists header, length header = 24%nat /\ data = header ++ body /\ le_combine (firstn 2 (skipn 22 header)) = event.
Proof using All.
  exists (le_split 4 (16 + Z.of_nat (length (genlmsghdr event KSMBD_GENL_VERSION ++ Nl.encode (Nl.Attr event body)))) ++ le_split 2 (familyId self) ++ le_split 2 flags ++ le_split 4 seq ++ repeat 0 4 ++ genlmsghdr event KSMBD_GENL_VERSION ++ le_split 2 (4 + Z.of_nat (length body)) ++ le_split 2 event).
  split; [reflexivity|]. split.
  - unfold Nl.encode_msg, Nl.message, request_message. cbn [Nl.type Nl.flags Nl.seq Nl.payload Nl.padding Nl.encode]. unfold Nl.wire_attr. rewrite Hpad. cbn [repeat]. rewrite !app_nil_r, <- !app_assoc. reflexivity.
  - rewrite !app_assoc. rewrite skipn_exact by reflexivity. rewrite firstn_all2 by reflexivity. rewrite le_combine_split. apply Z.mod_small. exact Hevent.
Qed.

Lemma length_data : (24 <= length data)%nat /\ Z.of_nat (length data) <= buffer_SIZE.
Proof using All. destruct data_layout as (h & Lh & -> & _). rewrite length_app, Lh. unfold buffer_SIZE. lia. Qed.

Lemma received a t : netlink_receive buffer (netlinkFd self) (World (Answer r data :: a) t) = (Done B, World a (t ++ [receive_event (netlinkFd self) data])).
Proof using All.
  destruct length_data as [L1 L2]. pose proof (receive_spec buffer (netlinkFd self) [m] r a t Hsize ltac:(discriminate)) as Hs. cbn [flat_map] in Hs. rewrite app_nil_r in Hs. rewrite Hs; try assumption; [|constructor; [|constructor]|lia].
  - cbn [Nl.verdict request_message Nl.type]. unfold NLMSG_ERROR, NLMSG_DONE. destruct (Z.eqb_spec (familyId self) 2); [lia|]. destruct (Z.eqb_spec (familyId self) 3); [lia|]. reflexivity.
  - unfold Nl.msg_ok, Nl.padded. cbn [request_message Nl.type Nl.payload Nl.padding]. rewrite length_app, length_encode_attr, Hpad.
    change (length (genlmsghdr event KSMBD_GENL_VERSION)) with 4%nat. split; [lia|]. split; [|split; [|split; [lia|unfold NLMSG_ERROR, NLMSG_DONE; lia]]].
    + unfold Nl.encode_msg, Nl.message in Hdata. cbn [request_message Nl.type Nl.payload Nl.padding] in Hdata. rewrite !bytes_app in Hdata. rewrite bytes_app. tauto.
    + cbn [List.length]. unfold Nl.pad in *. replace (4 + (4 + length body + 0))%nat with (length body + 2 * 4)%nat by lia. rewrite Nat.Div0.mod_add. now rewrite Hpad.
Qed.

(** Up to the [switch]. *)
Lemma onNetlinkFd_event a t :
  ksmb_onNetlinkFd buffer self (World (Answer r data :: a) t) = ksmb_event B self event (body ++ skipn (length data) buffer) (World a (t ++ [receive_event (netlinkFd self) data])).
Proof using All.
  destruct length_data as [L1 L2]. destruct data_layout as (h & Lh & E & Ev). assert (B = h ++ body ++ skipn (length data) buffer) as EB by (rewrite mem_copy_eq by lia; cbn [firstn app Nat.add]; rewrite E at 1; now rewrite <- app_assoc).
  unfold ksmb_onNetlinkFd. rewrite (bind_done _ _ _ _ _ (received a t)). set (w := World a _).
  assert (load 2 B (nlmsghdr_SIZE + genlmsghdr_SIZE + 2) w = (Done event, w)) as El.
  { unfold load, nlmsghdr_SIZE, genlmsghdr_SIZE. change (buffer_SIZE <? 16 + 4 + 2 + Z.of_nat 2) with false. unfold pure. do 2 f_equal. unfold uint_at. rewrite EB. change (Z.to_nat (16 + 4 + 2)) with 22%nat.
    rewrite skipn_app, firstn_app_l by (rewrite length_skipn; lia). exact Ev. }
  rewrite (bind_done _ _ _ _ _ El). f_equal. rewrite EB. apply skipn_exact. symmetry. exact Lh.
Qed.

Lemma length_B : Z.of_nat (length B) = buffer_SIZE.
Proof using All. destruct length_data as [L1 L2]. rewrite length_mem_copy by lia. exact Hsize. Qed.
End Request.

(** The answers by their fields; a share's directory. *)
Definition login_reply (handle account : list Z) : list Z := handle ++ repeat 0 8 ++ account ++ [17; 0; 16; 0] ++ repeat 0 84.
Definition tree_reply (handle : list Z) (ok : bool) : list Z := handle ++ [if ok then 0 else 2; 0; 4; 0] ++ repeat 0 64.
Definition share_reply (handle : list Z) (path : option (list Z)) : list Z :=
  handle ++ [match path with Some _ => 7 | None => 0 end; 0; 0; 0] ++ [0xe4; 1; 0xed; 1; 0; 0; 0; 0; 255; 255; 255; 255] ++ repeat 0 516 ++
  match path with Some p => p ++ repeat 0 (16 - length p) | None => repeat 0 16 end.
Definition directory (name : list Z) : option (list Z) :=
  if same name (str "config") then Some (str "/disk/config") else if same name (str "data") then Some (str "/disk/data") else None.

Definition reply_event (self : ksmb) (event : Z) (body : list Z) : RouterSys.event :=
  (Sys_sendmsg (netlinkFd self) (sockaddr_nl 0) [response (familyId self) event body] (MSG_NOSIGNAL .| MSG_DONTWAIT), Answer (Z.of_nat (length (response (familyId self) event body))) []).

Lemma length_response family event body : Nl.pad (length body) = 0%nat -> length (response family event body) = (24 + length body)%nat.
Proof. intros Hp. unfold response, Nl.message. rewrite !length_app, !length_le_split, length_encode_attr, Hp. change (length (genlmsghdr event KSMBD_GENL_VERSION)) with 4%nat. cbn [List.length repeat]. lia. Qed.

Lemma str_no_nul : no_nul (str "config") /\ no_nul (str "data").
Proof. split; repeat constructor; discriminate. Qed.

Ltac event_number := unfold KSMBD_EVENT_LOGIN_REQUEST, KSMBD_EVENT_TREE_CONNECT_REQUEST, KSMBD_EVENT_SHARE_CONFIG_REQUEST; lia.

Section Answer.
Context (buffer : list Z) (self : ksmb) (flags seq r : Z) (acks : list Nl.msg) (r2 : Z) (o : list Z) (a : list answer) (t : list RouterSys.event).
Context (Hsize : Z.of_nat (length buffer) = buffer_SIZE) (Hfamily : 16 <= familyId self < 2 ^ 16) (Hr : 0 <= r) (Hr2 : 0 <= r2).
Context (Hne : acks <> []) (Hok : Forall Nl.msg_ok acks) (Hv : Nl.verdict acks = true).
Local Notation ack := (flat_map Nl.encode_msg acks).
Context (Hack : bytes ack) (Hacksize : 16 < Z.of_nat (length ack) <= buffer_SIZE).

(** The answer is sent and acknowledged. *)
Lemma answered B event body t' : Z.of_nat (length B) = buffer_SIZE -> Nl.pad (length body) = 0%nat -> Z.of_nat (length body) < 2 ^ 15 ->
  netlink_talk B (netlinkFd self) [response (familyId self) event body] (World (Answer (Z.of_nat (length (response (familyId self) event body))) o :: Answer r2 ack :: a) t') =
  (Done (mem_copy B 0 ack), World a (t' ++ [reply_event self event body; receive_event (netlinkFd self) ack])).
Proof using All.
  intros HB Hp Hl. rewrite (talk_spec B (netlinkFd self) _ _ o acks r2 a t' HB Hne Hok Hr2 Hack Hacksize); [rewrite Hv; reflexivity|].
  rewrite length_response by exact Hp. unfold response. rewrite message_len; rewrite length_app, length_encode_attr, Hp; change (length (genlmsghdr event KSMBD_GENL_VERSION)) with 4%nat; lia.
Qed.

(** A request, what was asked about it, and the answer. *)
Definition exchange (event : Z) (body : list Z) (asked : list RouterSys.event) (revent : Z) (rbody : list Z) : Prop :=
  let data := Nl.encode_msg (request_message (familyId self) flags seq event body) in
  bytes data -> bytes body ->
  ksmb_onNetlinkFd buffer self (World (Answer r data :: map snd asked ++ Answer (Z.of_nat (length (response (familyId self) revent rbody))) o :: Answer r2 ack :: a) t) =
  (Done (mem_copy (mem_copy buffer 0 data) 0 ack), World a (t ++ [receive_event (netlinkFd self) data] ++ asked ++ [reply_event self revent rbody; receive_event (netlinkFd self) ack])).

Lemma login_exchange handle account reserved : length handle = 4%nat -> length account = 48%nat -> length reserved = 64%nat ->
  exchange KSMBD_EVENT_LOGIN_REQUEST (login_body handle account reserved) [] KSMBD_EVENT_LOGIN_RESPONSE (login_reply handle account).
Proof using All.
  intros Hh Ha Hre. unfold exchange. set (body := login_body handle account reserved). intros Hd Hb.
  assert (length body = 116%nat) as Lb by (unfold body, login_body; rewrite !length_app; lia). assert (Nl.pad (length body) = 0%nat) as Hp by (rewrite Lb; reflexivity).
  rewrite (onNetlinkFd_event buffer self flags seq _ body r) by (assumption || event_number). pose proof (length_B buffer self flags seq KSMBD_EVENT_LOGIN_REQUEST body r Hsize Hfamily ltac:(event_number) Hr Hp Hb ltac:(lia) Hd) as HB.
  cbn [map app]. unfold ksmb_event. cbn [Z.eqb Pos.eqb KSMBD_EVENT_LOGIN_REQUEST KSMBD_EVENT_TREE_CONNECT_REQUEST KSMBD_EVENT_SHARE_CONFIG_REQUEST].
  set (after := skipn _ buffer). assert (body ++ after = handle ++ account ++ reserved ++ after) as -> by (unfold body, login_body; now rewrite <- !app_assoc).
  rewrite firstn_exact, skipn_exact by (symmetry; exact Hh). unfold login_response. rewrite firstn_exact by (symmetry; exact Ha).
  rewrite (ksmbd_message_eq _ KSMBD_EVENT_LOGIN_RESPONSE) with (body := login_reply handle account) by (unfold login_reply; rewrite !length_app, !repeat_length, Hh, Ha; reflexivity).
  rewrite answered by (exact HB || (unfold login_reply; rewrite !length_app, !repeat_length, Hh, Ha; cbn; (reflexivity || lia))). rewrite <- !app_assoc. reflexivity.
Qed.

(** What is asked about a share, with the kernel's answers. *)
Definition asked_about (path : option (list Z)) (found : Z) : list RouterSys.event :=
  match path with Some p => [(Sys_faccessat (-1) p 0, Answer found [])] | None => [] end.

Lemma has_share_no name junk rest other path w : no_nul name -> no_nul other -> name <> other -> has_share (name_field name junk ++ rest) other path w = (Done false, w).
Proof using. intros Hn Ho Hdiff. unfold has_share. rewrite cstr_is_spec by assumption. unfold same. destruct (list_eq_dec Z.eq_dec name other); [contradiction|reflexivity]. Qed.

Lemma has_share_yes name junk rest path found more tr : no_nul name ->
  has_share (name_field name junk ++ rest) name path (World (Answer found [] :: more) tr) = (Done (found =? 0), World more (tr ++ [(Sys_faccessat (-1) path 0, Answer found [])])).
Proof using. intros Hn. unfold has_share. rewrite cstr_is_spec by assumption. unfold same. destruct (list_eq_dec Z.eq_dec name name); [reflexivity|contradiction]. Qed.

(** Both shares, one after the other. *)
Lemma shares_asked name junk rest found more tr : no_nul name ->
  bind (has_share (name_field name junk ++ rest) (str "config") (str "/disk/config")) (fun config => if config then pure true else has_share (name_field name junk ++ rest) (str "data") (str "/disk/data"))
    (World (map snd (asked_about (directory name) found) ++ more) tr) =
  (Done (match directory name with Some _ => found =? 0 | None => false end), World more (tr ++ asked_about (directory name) found)).
Proof using.
  intros Hn. destruct str_no_nul as [Hc Hd]. unfold directory, same.
  destruct (list_eq_dec Z.eq_dec name (str "config")) as [E|E]; [|destruct (list_eq_dec Z.eq_dec name (str "data")) as [E2|E2]]; cbn [asked_about map snd app].
  - rewrite <- E. rewrite (bind_done _ _ _ _ _ (has_share_yes name junk rest _ found more tr Hn)). destruct (found =? 0); [reflexivity|]. apply has_share_no; [exact Hn|exact Hd|]. rewrite E. discriminate.
  - rewrite (bind_done _ _ _ _ _ (has_share_no name junk rest _ _ _ Hn Hc E)). rewrite <- E2. apply has_share_yes. exact Hn.
  - rewrite (bind_done _ _ _ _ _ (has_share_no name junk rest _ _ _ Hn Hc E)). rewrite app_nil_r. now apply has_share_no.
Qed.

Lemma tree_exchange handle session account name junk reserved found : length handle = 4%nat -> length session = 20%nat -> length account = 48%nat -> no_nul name -> length (name_field name junk) = 64%nat -> length reserved = 128%nat ->
  exchange KSMBD_EVENT_TREE_CONNECT_REQUEST (tree_body handle session account (name_field name junk) reserved) (asked_about (directory name) found)
    KSMBD_EVENT_TREE_CONNECT_RESPONSE (tree_reply handle (match directory name with Some _ => found =? 0 | None => false end)).
Proof using All.
  intros Hh Hs Ha Hn Hf Hre. unfold exchange. set (body := tree_body _ _ _ _ _). intros Hd Hb.
  assert (length body = 264%nat) as Lb by (unfold body, tree_body; rewrite !length_app, Hf; lia). assert (Nl.pad (length body) = 0%nat) as Hp by (rewrite Lb; reflexivity).
  rewrite (onNetlinkFd_event buffer self flags seq _ body r) by (assumption || event_number). pose proof (length_B buffer self flags seq KSMBD_EVENT_TREE_CONNECT_REQUEST body r Hsize Hfamily ltac:(event_number) Hr Hp Hb ltac:(lia) Hd) as HB.
  unfold ksmb_event. cbn [Z.eqb Pos.eqb KSMBD_EVENT_LOGIN_REQUEST KSMBD_EVENT_TREE_CONNECT_REQUEST KSMBD_EVENT_SHARE_CONFIG_REQUEST].
  set (after := skipn _ buffer). assert (body ++ after = handle ++ (session ++ account) ++ name_field name junk ++ reserved ++ after) as -> by (unfold body, tree_body; now rewrite <- !app_assoc).
  assert (skipn tree_share (handle ++ (session ++ account) ++ name_field name junk ++ reserved ++ after) = name_field name junk ++ reserved ++ after) as -> by (rewrite (app_assoc handle); apply skipn_exact; rewrite !length_app; unfold tree_share; lia).
  rewrite firstn_exact by (symmetry; exact Hh). set (ok := match directory name with Some _ => found =? 0 | None => false end).
  rewrite <- bind_assoc. rewrite (bind_done _ _ _ _ _ (shares_asked name junk (reserved ++ after) found _ _ Hn)). fold ok.
  assert (tree_connect_response handle (if ok then KSMBD_TREE_CONN_STATUS_OK else KSMBD_TREE_CONN_STATUS_NO_SHARE) = tree_reply handle ok) as -> by (destruct ok; reflexivity).
  assert (length (tree_reply handle ok) = 72%nat) as Lr by (unfold tree_reply; rewrite !length_app, Hh; reflexivity).
  rewrite ksmbd_message_eq by (rewrite Lr; reflexivity). rewrite answered by (exact HB || (rewrite Lr; cbn; (reflexivity || lia))). rewrite <- !app_assoc. reflexivity.
Qed.

Lemma share_exchange handle name junk reserved : length handle = 4%nat -> no_nul name -> length (name_field name junk) = 64%nat -> length reserved = 64%nat ->
  exchange KSMBD_EVENT_SHARE_CONFIG_REQUEST (share_body handle (name_field name junk) reserved) [] KSMBD_EVENT_SHARE_CONFIG_RESPONSE (share_reply handle (directory name)).
Proof using All.
  intros Hh Hn Hf Hre. unfold exchange. set (body := share_body _ _ _). intros Hd Hb. destruct str_no_nul as [Hc Hda].
  assert (length body = 132%nat) as Lb by (unfold body, share_body; rewrite !length_app, Hf; lia). assert (Nl.pad (length body) = 0%nat) as Hp by (rewrite Lb; reflexivity).
  rewrite (onNetlinkFd_event buffer self flags seq _ body r) by (assumption || event_number). pose proof (length_B buffer self flags seq KSMBD_EVENT_SHARE_CONFIG_REQUEST body r Hsize Hfamily ltac:(event_number) Hr Hp Hb ltac:(lia) Hd) as HB.
  cbn [map app]. unfold ksmb_event. cbn [Z.eqb Pos.eqb KSMBD_EVENT_LOGIN_REQUEST KSMBD_EVENT_TREE_CONNECT_REQUEST KSMBD_EVENT_SHARE_CONFIG_REQUEST].
  set (after := skipn _ buffer). assert (body ++ after = handle ++ name_field name junk ++ reserved ++ after) as -> by (unfold body, share_body; now rewrite <- !app_assoc).
  rewrite firstn_exact, skipn_exact by (symmetry; exact Hh). rewrite !cstr_is_spec by assumption. fold (directory name).
  set (reply := share_reply handle (directory name)). assert (length reply = 552%nat) as Lr by (unfold reply, share_reply, directory; destruct (same name _); [|destruct (same name _)]; rewrite !length_app, Hh; reflexivity).
  transitivity (netlink_talk (mem_copy buffer 0 (Nl.encode_msg (request_message (familyId self) flags seq KSMBD_EVENT_SHARE_CONFIG_REQUEST body))) (netlinkFd self) [response (familyId self) KSMBD_EVENT_SHARE_CONFIG_RESPONSE reply]
    (World (Answer (Z.of_nat (length (response (familyId self) KSMBD_EVENT_SHARE_CONFIG_RESPONSE reply))) o :: Answer r2 ack :: a) (t ++ [receive_event (netlinkFd self) (Nl.encode_msg (request_message (familyId self) flags seq KSMBD_EVENT_SHARE_CONFIG_REQUEST body))]))).
  - rewrite <- (ksmbd_message_eq _ _ share_config_response_SIZE) by (rewrite Lr; reflexivity). unfold reply, share_reply, directory. destruct (same name (str "config")); [reflexivity|]. destruct (same name (str "data")); reflexivity.
  - rewrite answered by (exact HB || (rewrite Lr; cbn; (reflexivity || lia))). rewrite <- !app_assoc. reflexivity.
Qed.
End Answer.

(** C31: The file server's questions: for every request that the kernel sends, whatever its
    name fields hold behind the name, and every way it numbers its messages, one answer is
    sent and its acknowledgement read.  A login is answered as a guest's, with the request's
    handle and account; a tree connect with success exactly if the share is named "config"
    or "data" and the directory of that name exists on the disk (only that directory is
    looked for); the configuration of a share with the path of its directory, writable, or
    with no flags and no path for any other name.  Other messages are not answered. *)
Theorem ksmb_onNetlinkFd_correct buffer self flags seq r acks r2 o a t :
  Z.of_nat (length buffer) = buffer_SIZE -> 16 <= familyId self < 2 ^ 16 -> 0 <= r -> 0 <= r2 -> acks <> [] -> Forall Nl.msg_ok acks -> Nl.verdict acks = true ->
  let ack := flat_map Nl.encode_msg acks in bytes ack -> 16 < Z.of_nat (length ack) <= buffer_SIZE ->
  let exchange := exchange buffer self flags seq r acks r2 o a t in
  (forall handle account reserved, length handle = 4%nat -> length account = 48%nat -> length reserved = 64%nat ->
     exchange KSMBD_EVENT_LOGIN_REQUEST (login_body handle account reserved) [] KSMBD_EVENT_LOGIN_RESPONSE (login_reply handle account)) /\
  (forall handle session account name junk reserved found, length handle = 4%nat -> length session = 20%nat -> length account = 48%nat -> no_nul name -> length (name_field name junk) = 64%nat -> length reserved = 128%nat ->
     exchange KSMBD_EVENT_TREE_CONNECT_REQUEST (tree_body handle session account (name_field name junk) reserved) (asked_about (directory name) found)
       KSMBD_EVENT_TREE_CONNECT_RESPONSE (tree_reply handle (match directory name with Some _ => found =? 0 | None => false end))) /\
  (forall handle name junk reserved, length handle = 4%nat -> no_nul name -> length (name_field name junk) = 64%nat -> length reserved = 64%nat ->
     exchange KSMBD_EVENT_SHARE_CONFIG_REQUEST (share_body handle (name_field name junk) reserved) [] KSMBD_EVENT_SHARE_CONFIG_RESPONSE (share_reply handle (directory name))) /\
  (forall event body, 0 <= event < 2 ^ 16 -> ~ In event [4; 6; 8] -> Nl.pad (length body) = 0%nat -> bytes body -> Z.of_nat (length body) < 2 ^ 15 ->
     let data := Nl.encode_msg (request_message (familyId self) flags seq event body) in bytes data ->
     ksmb_onNetlinkFd buffer self (World (Answer r data :: a) t) = (Done (mem_copy buffer 0 data), World a (t ++ [receive_event (netlinkFd self) data]))).
Proof.
  intros Hs Hf Hr Hr2 Hne Hok Hv ack Hb Hn exchange. split; [|split; [|split]].
  - intros. now apply login_exchange.
  - intros. now apply tree_exchange.
  - intros. now apply share_exchange.
  - intros event body He Hni Hp Hbb Hl data Hd. unfold data. rewrite (onNetlinkFd_event buffer self flags seq event body r) by assumption. unfold ksmb_event. cbn in Hni.
    unfold KSMBD_EVENT_LOGIN_REQUEST, KSMBD_EVENT_TREE_CONNECT_REQUEST, KSMBD_EVENT_SHARE_CONFIG_REQUEST.
    destruct (Z.eqb_spec event 4); [lia|]. destruct (Z.eqb_spec event 8); [lia|]. destruct (Z.eqb_spec event 6); [lia|]. reflexivity.
Qed.

(** ** An instance of the theorem *)

Definition smb_ack : list Nl.msg := [ack_message 0].

Lemma smb_ack_ok : Forall Nl.msg_ok smb_ack /\ bytes (flat_map Nl.encode_msg smb_ack).
Proof.
  split; [constructor; [apply ack_ok|constructor]|]. apply Forall_forall. intros x Hx. vm_compute in Hx. unfold is_byte. repeat (destruct Hx as [<-|Hx]; [lia|]). contradiction.
Qed.

(** A client connects to "data", whose directory is there. *)
Lemma ksmb_onNetlinkFd_correct_witness :
  let buffer := repeat 0 (Z.to_nat buffer_SIZE) in
  let self := Ksmb 6 31 in
  let body := tree_body [1; 2; 3; 4] (repeat 5 20) (repeat 0 48) (name_field (str "data") (repeat 7 59)) (repeat 0 128) in
  let request := Nl.encode_msg (request_message 31 1 9 KSMBD_EVENT_TREE_CONNECT_REQUEST body) in
  let ack := flat_map Nl.encode_msg smb_ack in
  ksmb_onNetlinkFd buffer self (World [Answer 1 request; Answer 0 []; Answer 96 []; Answer 1 ack] []) =
  (Done (mem_copy (mem_copy buffer 0 request) 0 ack),
   World [] [receive_event 6 request; (Sys_faccessat (-1) (str "/disk/data") 0, Answer 0 []); reply_event self KSMBD_EVENT_TREE_CONNECT_RESPONSE ([1; 2; 3; 4] ++ [0; 0; 4; 0] ++ repeat 0 64); receive_event 6 ack]).
Proof.
  intros buffer self body request ack. destruct smb_ack_ok as [A1 A2].
  assert (Z.of_nat (length buffer) = buffer_SIZE) as Hs by (unfold buffer; rewrite repeat_length; reflexivity).
  assert (bytes request) as Hd by (apply Forall_forall; intros x Hx; vm_compute in Hx; unfold is_byte; repeat (destruct Hx as [<-|Hx]; [lia|]); contradiction).
  assert (bytes body) as Hb by (apply Forall_forall; intros x Hx; vm_compute in Hx; unfold is_byte; repeat (destruct Hx as [<-|Hx]; [lia|]); contradiction).
  destruct (ksmb_onNetlinkFd_correct buffer self 1 9 1 smb_ack 1 [] [] [] Hs ltac:(cbn; lia) ltac:(lia) ltac:(lia) ltac:(discriminate) A1 eq_refl A2 ltac:(vm_compute; split; congruence)) as (_ & H & _).
  exact (H [1; 2; 3; 4] (repeat 5 20) (repeat 0 48) (str "data") (repeat 7 59) (repeat 0 128) 0 eq_refl eq_refl eq_refl (proj2 str_no_nul) eq_refl eq_refl Hd Hb).
Defined.
