(* ===== verification/Disk.v ===== *)
(** * The router's disk ([src/router/router/disk.c])

    The disk is the block device whose ext superblock carries the label ROUTER.  The
    devices are found by reading /dev; the directory entries lie in the first half of the
    shared buffer, a device's superblock (and then its path) in the second. *)
From Stdlib Require Import ZArith List Lia Bool String.
From S2P Require Import Prelude Mem Util RouterSys.
Import ListNotations.

Definition buffer_HALF : Z := buffer_SIZE / 2.
Definition disk_EXT_MAGIC_OFFSET : Z := 0x38.
Definition disk_EXT_VOLUME_NAME_OFFSET : Z := 0x78.
Definition SEEK_SET : Z := 0.
Definition MS_NOATIME : Z := 1024.
Definition O_RDONLY : Z := 0.

(** [struct linux_dirent64]: where the length and the name are. *)
Definition d_reclen : Z := 16.
Definition d_name : nat := 19%nat.

(** The C string at an offset of the buffer. *)
Definition cstring (buffer : list Z) (i : nat) : M (list Z) :=
  let s := skipn i buffer in
  let n := util_cstrLen s in
  if (length s <=? n)%nat then undefined else pure (firstn n s).

(** Whether the device that is open is the one; the superblock's part ends up in the buffer. *)
Definition disk_matches (buffer : list Z) (fd : Z) : M (list Z * bool) :=
  let size := disk_EXT_VOLUME_NAME_OFFSET + 16 in
  let! (status, data) := syscall_in (Sys_pread64 fd size 1024) (Z.to_nat size) in
  let buffer := mem_copy buffer (Z.to_nat buffer_HALF) data in
  sys_close fd;;
  let superblock := skipn (Z.to_nat buffer_HALF) buffer in
  pure (buffer,
    negb (negb (status =? size) || negb (mem_loadU16 (skipn (Z.to_nat disk_EXT_MAGIC_OFFSET) superblock) =? 0xEF53) ||
          negb (mem_compare (skipn (Z.to_nat disk_EXT_VOLUME_NAME_OFFSET) superblock) (str "ROUTER" ++ [0]) 7 =? 0))).

Definition disk_MOUNT_STR : list Z := str "Mounted disk ".

(** The path is built in the second half of the buffer. *)
Definition mount_device (buffer : list Z) (name : list Z) : M (list Z) :=
  let path := str "/dev/" ++ name in
  (if buffer_SIZE <? buffer_HALF + Z.of_nat (length path) + 1 then undefined else pure tt);;
  let buffer := mem_copy buffer (Z.to_nat buffer_HALF) (path ++ [0]) in
  let! r := syscall (Sys_mount path (str "/disk") (str "ext4") MS_NOATIME []) in
  CHECK (r =? 0);;
  let! written := syscall (Sys_writev 2 [disk_MOUNT_STR; name; [10]]) in
  CHECK (written =? Z.of_nat (length disk_MOUNT_STR) + Z.of_nat (length name) + 1);;
  pure buffer.

(** The loop over the entries that were read; the second part of the result is whether a
    device was mounted. *)
Fixpoint disk_entries (fuel : nat) (buffer : list Z) (devFd sysClassBlockFd current end_ : Z) : M (list Z * bool) :=
  match fuel with
  | O => unfinished
  | S fuel' =>
      if current =? end_ then pure (buffer, false)
      else
        let next (buffer : list Z) :=
          let! len := load 2 buffer (current + d_reclen) in
          disk_entries fuel' buffer devFd sysClassBlockFd (current + len) end_ in
        let! name := cstring buffer (Z.to_nat current + d_name) in
        if get (name ++ [0]) 0 =? 46 then next buffer
        else
          let! access := syscall (Sys_faccessat sysClassBlockFd name 0) in
          if negb (access =? 0) then next buffer
          else
            let! fd := syscall (Sys_openat devFd name O_RDONLY 0) in
            if fd <? 0 then next buffer
            else
              let! (buffer, found) := disk_matches buffer fd in
              if negb found then next buffer
              else
                let! buffer := mount_device buffer name in
                pure (buffer, true)
  end.

(** Every entry takes at least one byte. *)
Definition disk_fuel : nat := Z.to_nat buffer_SIZE.

Fixpoint disk_read (fuel : nat) (buffer : list Z) (devFd sysClassBlockFd : Z) : M (list Z * bool) :=
  match fuel with
  | O => unfinished
  | S fuel' =>
      let! (numRead, data) := syscall_in (Sys_getdents64 devFd buffer_HALF) (Z.to_nat buffer_HALF) in
      let buffer := mem_copy buffer 0 data in
      if numRead =? 0 then
        let! r := syscall (Sys_lseek devFd 0 SEEK_SET) in
        CHECK (r =? 0);;
        pure (buffer, false)
      else
        CHECK (0 <? numRead);;
        let! (buffer, mounted) := disk_entries disk_fuel buffer devFd sysClassBlockFd 0 numRead in
        if mounted then pure (buffer, true) else disk_read fuel' buffer devFd sysClassBlockFd
  end.

(** Every turn uses up an answer, and without answers the kernel's error ends the process. *)
Definition _disk_findAndMount (buffer : list Z) (devFd sysClassBlockFd : Z) : M (list Z * bool) :=
  fun w => disk_read (S (length (answers w))) buffer devFd sysClassBlockFd w.

Fixpoint disk_wait (fuel : nat) (buffer : list Z) (devFd sysClassBlockFd : Z) : M (list Z) :=
  match fuel with
  | O => unfinished
  | S fuel' =>
      let! (buffer, mounted) := _disk_findAndMount buffer devFd sysClassBlockFd in
      if mounted then pure buffer
      else
        let! r := syscall (Sys_clock_nanosleep CLOCK_MONOTONIC 0 100000000) in
        CHECK (r =? 0);;
        disk_wait fuel' buffer devFd sysClassBlockFd
  end.

(** Every reading uses up an answer. *)
Definition disk_mount_loop (buffer : list Z) (devFd sysClassBlockFd : Z) : M (list Z) :=
  fun w => disk_wait (S (length (answers w))) buffer devFd sysClassBlockFd w.

Definition disk_mount (buffer : list Z) : M (list Z) :=
  let! devFd := syscall (Sys_openat (-1) (str "/dev") O_RDONLY 0) in
  CHECK (0 <? devFd);;
  let! sysClassBlockFd := syscall (Sys_openat (-1) (str "/sys/class/block") O_RDONLY 0) in
  CHECK (0 <? sysClassBlockFd);;
  let! buffer := disk_mount_loop buffer devFd sysClassBlockFd in
  sys_close devFd;;
  sys_close sysClassBlockFd;;
  pure buffer.

Fixpoint unmount_loop (fuel : nat) : M unit :=
  match fuel with
  | O => unfinished
  | S fuel' =>
      let! status := syscall (Sys_umount2 (str "/disk") 0) in
      if status =? 0 then pure tt
      else
        debug_printNum (str "Failed to unmount /disk") status;;
        let! r := syscall (Sys_clock_nanosleep CLOCK_MONOTONIC 1 0) in
        CHECK (r =? 0);;
        unmount_loop fuel'
  end.
Definition disk_unmount : M unit := fun w => unmount_loop (S (length (answers w))) w.

(** ** The directory and its devices *)

(** An entry with the bytes around its name, what the kernel says about it, and the part of
    its superblock that can be read. *)
Record device := Device { meta : list Z; kind : Z; dname : list Z; padding : list Z; access : Z; opened_as : Z; super : list Z }.

Definition dirent (d : device) : list Z :=
  let tail := kind d :: dname d ++ 0 :: padding d in
  meta d ++ le_split 2 (18 + Z.of_nat (length tail)) ++ tail.
Definition hidden (d : device) : bool := get (dname d ++ [0]) 0 =? 46.
Definition device_ok (d : device) : Prop :=
  length (meta d) = 16%nat /\ no_nul (dname d) /\ (length (dname d) <= 255)%nat /\ Z.of_nat (length (dirent d)) < 2 ^ 16 /\ bytes (dirent d) /\ bytes (super d) /\ (length (super d) <= 136)%nat.

(** The ext superblock's magic number and label. *)
Definition is_router (super : list Z) : bool :=
  (length super =? 136)%nat && same (firstn 2 (skipn 56 super)) [0x53; 0xEF] && same (firstn 7 (skipn 120 super)) (str "ROUTER" ++ [0]).
Definition is_disk (d : device) : bool := negb (hidden d) && (access d =? 0) && (0 <=? opened_as d) && is_router (super d).

(** The calls about one entry, about a device that is mounted, and about the directory, given
    as what each read of it returns. *)
Section Calls.
Context (devFd sysFd : Z).

Definition look (d : device) : list event :=
  if hidden d then []
  else (Sys_faccessat sysFd (dname d) 0, Answer (access d) []) ::
    if negb (access d =? 0) then []
    else (Sys_openat devFd (dname d) O_RDONLY 0, Answer (opened_as d) []) ::
      if opened_as d <? 0 then []
      else [(Sys_pread64 (opened_as d) 136 1024, Answer (Z.of_nat (length (super d))) (super d)); (Sys_close (opened_as d), Answer 0 [])].
Definition mount (d : device) : list event :=
  [(Sys_mount (str "/dev/" ++ dname d) (str "/disk") (str "ext4") MS_NOATIME [], Answer 0 []);
   (Sys_writev 2 [str "Mounted disk "; dname d; [10]], Answer (14 + Z.of_nat (length (dname d))) [])].

(** Up to the first disk. *)
Fixpoint scan (ds : list device) : list event :=
  match ds with
  | [] => []
  | d :: ds => look d ++ if is_disk d then mount d else scan ds
  end.

Fixpoint visit (dir : list (list device)) : list event :=
  match dir with
  | [] => [(Sys_getdents64 devFd buffer_HALF, Answer 0 []); (Sys_lseek devFd 0 SEEK_SET, Answer 0 [])]
  | ds :: dir =>
      let data := flat_map dirent ds in
      (Sys_getdents64 devFd buffer_HALF, Answer (Z.of_nat (length data)) data) :: scan ds ++ if existsb is_disk ds then [] else visit dir
  end.

Definition dir_ok (dir : list (list device)) : Prop :=
  Forall (fun ds => Forall device_ok ds /\ ds <> [] /\ Z.of_nat (length (flat_map dirent ds)) <= buffer_HALF) dir.

(** A directory without the disk is read again after a tenth of a second. *)
Fixpoint wait (rounds : list (list (list device))) (last : list (list device)) : list event :=
  match rounds with
  | [] => visit last
  | dir :: rounds => visit dir ++ (Sys_clock_nanosleep CLOCK_MONOTONIC 0 100000000, Answer 0 []) :: wait rounds last
  end.
End Calls.

Definition has_disk (dir : list (list device)) : bool := existsb (existsb is_disk) dir.

(** *** One device *)

Lemma half_eq : buffer_HALF = 33000.
Proof. reflexivity. Qed.

Lemma superblock_spec buffer fd super a t : Z.of_nat (length buffer) = buffer_SIZE -> bytes super -> (length super <= 136)%nat ->
  disk_matches buffer fd (World (Answer (Z.of_nat (length super)) super :: Answer 0 [] :: a) t) =
  (Done (mem_copy buffer (Z.to_nat buffer_HALF) super, is_router super),
   World a (t ++ [(Sys_pread64 fd 136 1024, Answer (Z.of_nat (length super)) super); (Sys_close fd, Answer 0 [])])).
Proof.
  intros Hs Hb Hl. unfold disk_matches. change (disk_EXT_VOLUME_NAME_OFFSET + 16) with 136.
  rewrite (bind_done _ _ _ _ _ (syscall_in_answer _ (Z.to_nat 136) _ super _ t (Nat2Z.is_nonneg _) Hb Hl)). cbv beta iota.
  unfold sys_close, bind. rewrite syscall_answer. unfold pure. rewrite <- app_assoc. do 3 f_equal.
  set (H := Z.to_nat buffer_HALF). assert (skipn H (mem_copy buffer H super) = super ++ skipn (H + length super) buffer) as ->.
  { rewrite mem_copy_eq by (unfold H; rewrite half_eq; unfold buffer_SIZE in Hs; lia). apply skipn_exact. rewrite length_firstn. unfold H. rewrite half_eq. unfold buffer_SIZE in Hs. lia. }
  set (after := skipn _ buffer). unfold is_router. change (Z.to_nat disk_EXT_MAGIC_OFFSET) with 56%nat. change (Z.to_nat disk_EXT_VOLUME_NAME_OFFSET) with 120%nat.
  destruct (Nat.eqb_spec (length super) 136) as [E|E]; [|destruct (Z.eqb_spec (Z.of_nat (length super)) 136); [lia|reflexivity]].
  destruct (Z.eqb_spec (Z.of_nat (length super)) 136) as [_|]; [|lia]. cbn [negb orb andb]. rewrite negb_orb, !negb_involutive.
  assert (forall i, (i <= 136)%nat -> skipn i (super ++ after) = skipn i super ++ after) as Hsk by (intros i Hi; rewrite skipn_app; replace (i - length super)%nat with 0%nat by lia; reflexivity).
  rewrite !Hsk by lia. f_equal.
  - unfold mem_loadU16. rewrite firstn_app_l by (rewrite length_skipn; lia). unfold same.
    assert (length (firstn 2 (skipn 56 super)) = 2%nat) as L2 by (rewrite length_firstn, length_skipn; lia). assert (bytes (firstn 2 (skipn 56 super))) as B2 by auto with hc.
    destruct (list_eq_dec Z.eq_dec (firstn 2 (skipn 56 super)) [83; 239]) as [->|Hne]; [reflexivity|]. apply Z.eqb_neq. intros Hx. apply Hne.
    rewrite <- (le_split_combine _ B2), Hx, L2. reflexivity.
  - unfold same. assert (firstn 7 (skipn 120 super ++ after) = firstn 7 (skipn 120 super)) as Ef by (apply firstn_app_l; rewrite length_skipn; lia).
    destruct (Z.eqb_spec (mem_compare (skipn 120 super ++ after) (str "ROUTER" ++ [0]) 7) 0) as [Em|Em]; rewrite mem_compare_zero in Em by ((rewrite length_app, length_skipn; lia) || (cbn; lia));
      rewrite Ef, (firstn_all2 (str "ROUTER" ++ [0])) in Em by (cbn; lia); destruct (list_eq_dec Z.eq_dec (firstn 7 (skipn 120 super)) (str "ROUTER" ++ [0])); congruence.
Qed.

Lemma mount_spec buffer name a t : (length name <= 255)%nat ->
  mount_device buffer name (World (Answer 0 [] :: Answer (14 + Z.of_nat (length name)) [] :: a) t) =
  (Done (mem_copy buffer (Z.to_nat buffer_HALF) ((str "/dev/" ++ name) ++ [0])),
   World a (t ++ [(Sys_mount (str "/dev/" ++ name) (str "/disk") (str "ext4") MS_NOATIME [], Answer 0 []); (Sys_writev 2 [str "Mounted disk "; name; [10]], Answer (14 + Z.of_nat (length name)) [])])).
Proof.
  intros Hn. unfold mount_device. rewrite length_app. change (length (str "/dev/")) with 5%nat. destruct (Z.ltb_spec buffer_SIZE (buffer_HALF + Z.of_nat (5 + length name) + 1)) as [Hx|_]; [rewrite half_eq in Hx; unfold buffer_SIZE in Hx; lia|].
  rewrite bind_pure. cbv zeta. unfold bind. rewrite syscall_answer. change (CHECK (0 =? 0)) with (pure tt). unfold pure. rewrite syscall_answer. change (length disk_MOUNT_STR) with 13%nat.
  replace (Z.of_nat 13 + Z.of_nat (length name) + 1) with (14 + Z.of_nat (length name)) by lia. unfold CHECK. rewrite Z.eqb_refl. unfold pure. rewrite <- (app_assoc t). reflexivity.
Qed.

(** *** The entries that were read *)

Lemma cstring_at p name q w i : no_nul name -> i = length p -> cstring (p ++ name ++ 0 :: q) i w = (Done name, w).
Proof.
  intros Hn ->. unfold cstring. rewrite skipn_exact by reflexivity. rewrite util_cstrLen_spec by exact Hn.
  destruct (Nat.leb_spec (length (name ++ 0 :: q)) (length name)) as [Hx|_]; [rewrite length_app in Hx; cbn in Hx; lia|]. unfold pure. now rewrite firstn_exact.
Qed.

(** What is written to the second half leaves a batch in the first alone. *)
Lemma batch_kept (batch junk x : list Z) : Z.of_nat (length batch) <= buffer_HALF -> Z.of_nat (length (batch ++ junk)) = buffer_SIZE -> (length x <= 300)%nat ->
  exists junk', mem_copy (batch ++ junk) (Z.to_nat buffer_HALF) x = batch ++ junk' /\ Z.of_nat (length (batch ++ junk')) = buffer_SIZE.
Proof.
  rewrite half_eq. unfold buffer_SIZE. intros Hb Hl Hx. assert (Z.to_nat 33000 + length x <= length (batch ++ junk))%nat as Hfit by lia.
  assert (length batch <= Z.to_nat 33000)%nat as Hle by lia. pose proof (length_mem_copy (batch ++ junk) (Z.to_nat 33000) x Hfit) as HL.
  rewrite mem_copy_eq in * by exact Hfit. rewrite firstn_app, (firstn_all2 batch) in * by exact Hle. rewrite <- app_assoc in *. eexists. split; [reflexivity|]. rewrite HL. exact Hl.
Qed.

Lemma length_dirent d : length (meta d) = 16%nat -> length (dirent d) = (20 + length (dname d) + length (padding d))%nat.
Proof. intros Hm. unfold dirent. rewrite !length_app, length_le_split, Hm. cbn [List.length]. rewrite length_app. cbn [List.length]. lia. Qed.

Section Entries.
Context (devFd sysFd : Z).

Lemma entries_spec : forall ds pre junk fuel a t, Forall device_ok ds -> (length ds < fuel)%nat -> let batch := pre ++ flat_map dirent ds in
  Z.of_nat (length batch) <= buffer_HALF -> Z.of_nat (length (batch ++ junk)) = buffer_SIZE ->
  exists buffer, disk_entries fuel (batch ++ junk) devFd sysFd (Z.of_nat (length pre)) (Z.of_nat (length batch)) (World (map snd (scan devFd sysFd ds) ++ a) t) =
    (Done (buffer, existsb is_disk ds), World a (t ++ scan devFd sysFd ds)) /\ Z.of_nat (length buffer) = buffer_SIZE.
Proof.
  induction ds as [|d ds IH]; intros pre junk fuel a t Hok Hf batch Hb Hl; (destruct fuel as [|fuel]; [inversion Hf|]).
  { exists (batch ++ junk). subst batch. cbn [flat_map]. rewrite app_nil_r. cbn [disk_entries]. rewrite Z.eqb_refl. cbn [scan map app existsb]. rewrite app_nil_r. split; [reflexivity|]. cbn [flat_map] in Hl. now rewrite app_nil_r in Hl. }
  inversion Hok as [|? ? (Hm & Hn & Hn2 & Hd & Hbd & Hs & Hs2) Hok']; subst. cbn [disk_entries].
  assert (batch = (pre ++ dirent d) ++ flat_map dirent ds) as Eb by (subst batch; cbn [flat_map]; now rewrite app_assoc).
  pose proof (length_dirent d Hm) as Ld.
  destruct (Z.eqb_spec (Z.of_nat (length pre)) (Z.of_nat (length batch))) as [Hx|_]; [rewrite Eb, !length_app in Hx; lia|]. cbv zeta.
  set (tl := kind d :: dname d ++ 0 :: padding d) in *. assert (18 + Z.of_nat (length tl) = Z.of_nat (length (dirent d))) as Lt.
  { rewrite Ld. subst tl. cbn [List.length]. rewrite length_app. cbn [List.length]. lia. }
  (* What follows an entry that is passed over. *)
  assert (forall junk a t, Z.of_nat (length (batch ++ junk)) = buffer_SIZE -> exists buffer,
    bind (load 2 (batch ++ junk) (Z.of_nat (length pre) + d_reclen)) (fun len => disk_entries fuel (batch ++ junk) devFd sysFd (Z.of_nat (length pre) + len) (Z.of_nat (length batch)))
      (World (map snd (scan devFd sysFd ds) ++ a) t) = (Done (buffer, existsb is_disk ds), World a (t ++ scan devFd sysFd ds)) /\ Z.of_nat (length buffer) = buffer_SIZE) as Hnext.
  { clear junk a t Hl. intros junk a t Hl.
    rewrite (bind_done _ _ _ _ _ (load_le (batch ++ junk) 2 (Z.of_nat (length (dirent d))) (pre ++ meta d) (tl ++ flat_map dirent ds ++ junk) _ (Z.of_nat (length pre) + d_reclen)
      ltac:(rewrite <- Lt, Eb; unfold dirent; fold tl; rewrite <- !app_assoc; reflexivity) ltac:(rewrite length_app, Hm; unfold d_reclen; lia) Hl ltac:(change (256 ^ Z.of_nat 2) with (2 ^ 16); lia))).
    rewrite Eb in *. rewrite <- Nat2Z.inj_add, <- length_app. apply (IH (pre ++ dirent d) junk fuel a t Hok' ltac:(cbn [List.length] in Hf; lia) Hb Hl). }
  assert (forall junk w, cstring (batch ++ junk) (Z.to_nat (Z.of_nat (length pre)) + d_name) w = (Done (dname d), w)) as Hname.
  { intros junk' w. transitivity (cstring ((pre ++ meta d ++ le_split 2 (18 + Z.of_nat (length tl)) ++ [kind d]) ++ dname d ++ 0 :: padding d ++ flat_map dirent ds ++ junk') (Z.to_nat (Z.of_nat (length pre)) + d_name) w).
    - rewrite Eb. unfold dirent. fold tl. subst tl. rewrite <- !app_assoc. cbn [app]. rewrite <- !app_assoc. reflexivity.
    - apply cstring_at; [exact Hn|]. rewrite !length_app, length_le_split, Hm. cbn [List.length]. unfold d_name. lia. }
  rewrite (bind_done _ _ _ _ _ (Hname _ _)). cbn [scan existsb]. unfold look, is_disk. fold (hidden d).
  destruct (hidden d); [apply Hnext, Hl|]. cbn [negb andb map app snd].
  unfold bind at 1. rewrite syscall_answer. destruct (access d =? 0); cbn [negb andb map app snd]; [|specialize (Hnext junk a (t ++ [(Sys_faccessat sysFd (dname d) 0, Answer (access d) [])]) Hl); rewrite <- app_assoc in Hnext; exact Hnext].
  unfold bind at 1. rewrite syscall_answer. destruct (Z.ltb_spec (opened_as d) 0) as [Ho|Ho], (Z.leb_spec 0 (opened_as d)) as [Ho'|Ho']; try lia; cbn [negb andb map app snd];
    [destruct (Hnext junk a ((t ++ [(Sys_faccessat sysFd (dname d) 0, Answer (access d) [])]) ++ [(Sys_openat devFd (dname d) O_RDONLY 0, Answer (opened_as d) [])]) Hl) as (B & E & L); exists B; split; [|exact L]; rewrite E, <- !app_assoc; reflexivity|].
  rewrite (bind_done _ _ _ _ _ (superblock_spec _ _ _ _ _ Hl Hs Hs2)). destruct (batch_kept batch junk (super d) Hb Hl ltac:(lia)) as (junk1 & -> & Hl1).
  destruct (is_router (super d)); cbn [negb orb].
  - cbn [mount map app snd]. rewrite (bind_done _ _ _ _ _ (mount_spec _ _ _ _ Hn2)).
    destruct (batch_kept batch junk1 ((str "/dev/" ++ dname d) ++ [0]) Hb Hl1 ltac:(rewrite !length_app; change (length (str "/dev/")) with 5%nat; cbn [List.length]; lia)) as (junk2 & -> & Hl2).
    exists (batch ++ junk2). split; [|exact Hl2]. unfold pure. rewrite <- !app_assoc. reflexivity.
  - destruct (Hnext junk1 a ((((t ++ [(Sys_faccessat sysFd (dname d) 0, Answer (access d) [])]) ++ [(Sys_openat devFd (dname d) O_RDONLY 0, Answer (opened_as d) [])]) ++
      [(Sys_pread64 (opened_as d) 136 1024, Answer (Z.of_nat (length (super d))) (super d)); (Sys_close (opened_as d), Answer 0 [])])) Hl1) as (B & E & L).
    exists B. split; [|exact L]. rewrite E, <- !app_assoc. reflexivity.
Qed.
End Entries.

(** *** The directory *)

Lemma length_entries ds : Forall device_ok ds -> (length ds <= length (flat_map dirent ds))%nat.
Proof.
  induction 1 as [|d ds (Hm & _) _ IH]; [reflexivity|]. cbn [List.length flat_map]. rewrite length_app, (length_dirent d Hm). lia.
Qed.

Lemma bytes_entries ds : Forall device_ok ds -> bytes (flat_map dirent ds).
Proof. induction 1 as [|d ds (_ & _ & _ & _ & Hb & _) _ IH]; [constructor|]. cbn [flat_map]. now apply bytes_app. Qed.

(** The devices a mount was tried for. *)
Definition mounted (es : list event) : list (list Z) := flat_map (fun e => match fst e with Sys_mount source _ _ _ _ => [source] | _ => [] end) es.

Section Directory.
Context (devFd sysFd : Z).

Lemma read_spec : forall dir buffer fuel a t, dir_ok dir -> Z.of_nat (length buffer) = buffer_SIZE -> (length (visit devFd sysFd dir) < fuel)%nat ->
  exists buffer', disk_read fuel buffer devFd sysFd (World (map snd (visit devFd sysFd dir) ++ a) t) = (Done (buffer', has_disk dir), World a (t ++ visit devFd sysFd dir)) /\
    Z.of_nat (length buffer') = buffer_SIZE.
Proof.
  induction dir as [|ds dir IH]; intros buffer fuel a t Hd Hl Hf; (destruct fuel as [|fuel]; [lia|]); cbn [disk_read visit map app snd].
  { rewrite (bind_done _ _ _ _ _ (syscall_in_answer _ _ 0 [] _ _ ltac:(lia) (Forall_nil _) (Nat.le_0_l _))). cbv zeta. change (Z.of_nat (length [])) with 0. rewrite Z.eqb_refl.
    unfold bind. rewrite syscall_answer. change (CHECK (0 =? 0)) with (pure tt). unfold pure. exists buffer. split; [|exact Hl]. rewrite <- app_assoc.
    assert (mem_copy buffer 0 [] = buffer) as -> by (rewrite mem_copy_eq by (cbn [List.length]; lia); reflexivity). reflexivity. }
  inversion Hd as [|? ? (Hok & Hne & Hsz) Hd']; subst. cbv zeta. set (data := flat_map dirent ds) in *.
  pose proof (length_entries ds Hok) as Hlen. fold data in Hlen. rewrite half_eq in Hsz. assert (0 < length ds)%nat as Hpos by (destruct ds; [contradiction|cbn; lia]).
  rewrite (bind_done _ _ _ _ _ (syscall_in_answer _ (Z.to_nat buffer_HALF) _ data _ _ (Nat2Z.is_nonneg _) (bytes_entries ds Hok) ltac:(rewrite half_eq; lia))). cbv zeta.
  destruct (Z.eqb_spec (Z.of_nat (length data)) 0); [lia|]. assert ((0 <? Z.of_nat (length data)) = true) as -> by (apply Z.ltb_lt; lia). unfold CHECK. rewrite bind_pure.
  unfold buffer_SIZE in Hl. rewrite mem_copy_eq by lia. cbn [firstn app Nat.add]. rewrite map_app, <- !app_assoc.
  destruct (entries_spec devFd sysFd ds [] (skipn (length data) buffer) disk_fuel (map snd (if existsb is_disk ds then [] else visit devFd sysFd dir) ++ a)
    (t ++ [(Sys_getdents64 devFd buffer_HALF, Answer (Z.of_nat (length data)) data)]) Hok) as (B & E & LB).
  { unfold disk_fuel, buffer_SIZE. lia. } { cbn [app]. fold data. rewrite half_eq. exact Hsz. } { cbn [app]. fold data. rewrite length_app, length_skipn. unfold buffer_SIZE. lia. }
  cbn [app] in E. fold data in E. change (Z.of_nat (length [])) with 0 in E. rewrite (bind_done _ _ _ _ _ E). cbn [has_disk existsb]. destruct (existsb is_disk ds) eqn:Ex; cbn [orb map app].
  - exists B. split; [|exact LB]. unfold pure. rewrite app_nil_r, <- app_assoc. reflexivity.
  - destruct (IH B fuel a (((t ++ [(Sys_getdents64 devFd buffer_HALF, Answer (Z.of_nat (length data)) data)])) ++ scan devFd sysFd ds) Hd' LB) as (B' & E' & L').
    { cbn [visit List.length] in Hf. rewrite length_app, Ex in Hf. lia. }
    exists B'. split; [|exact L']. unfold has_disk in E'. rewrite E', <- !app_assoc. reflexivity.
Qed.

Lemma findAndMount_spec dir buffer a t : dir_ok dir -> Z.of_nat (length buffer) = buffer_SIZE ->
  exists buffer', _disk_findAndMount buffer devFd sysFd (World (map snd (visit devFd sysFd dir) ++ a) t) = (Done (buffer', has_disk dir), World a (t ++ visit devFd sysFd dir)) /\
    Z.of_nat (length buffer') = buffer_SIZE.
Proof. intros Hd Hl. unfold _disk_findAndMount. apply read_spec; [exact Hd|exact Hl|]. cbn [answers]. rewrite length_app, (length_map snd). apply le_n_S, Nat.le_add_r. Qed.

Lemma wait_spec : forall rounds last buffer fuel a t, Forall (fun dir => dir_ok dir /\ has_disk dir = false) rounds -> dir_ok last -> has_disk last = true ->
  Z.of_nat (length buffer) = buffer_SIZE -> (length rounds < fuel)%nat ->
  exists buffer', disk_wait fuel buffer devFd sysFd (World (map snd (wait devFd sysFd rounds last) ++ a) t) = (Done buffer', World a (t ++ wait devFd sysFd rounds last)).
Proof.
  induction rounds as [|dir rounds IH]; intros last buffer fuel a t Hr Hlast Hdisk Hl Hf; (destruct fuel as [|fuel]; [lia|]); cbn [disk_wait wait].
  - destruct (findAndMount_spec last buffer a t Hlast Hl) as (B & E & L). rewrite (bind_done _ _ _ _ _ E), Hdisk. exists B. reflexivity.
  - inversion Hr as [|? ? [Hd Hno] Hr']; subst. rewrite map_app, <- app_assoc. cbn [map snd app].
    destruct (findAndMount_spec dir buffer (Answer 0 [] :: map snd (wait devFd sysFd rounds last) ++ a) t Hd Hl) as (B & E & L). rewrite (bind_done _ _ _ _ _ E), Hno.
    unfold bind. rewrite syscall_answer. change (CHECK (0 =? 0)) with (pure tt). unfold pure.
    destruct (IH last B fuel a ((t ++ visit devFd sysFd dir) ++ [(Sys_clock_nanosleep CLOCK_MONOTONIC 0 100000000, Answer 0 [])]) Hr' Hlast Hdisk L ltac:(cbn [List.length] in Hf; lia)) as (B' & E').
    exists B'. rewrite E', <- !app_assoc. reflexivity.
Qed.

Lemma mounted_look d : mounted (look devFd sysFd d) = [].
Proof. unfold look. destruct (hidden d); [reflexivity|]. destruct (access d =? 0), (opened_as d <? 0); reflexivity. Qed.

Lemma mounted_app es1 es2 : mounted (es1 ++ es2) = mounted es1 ++ mounted es2.
Proof. apply flat_map_app. Qed.

Lemma mounted_scan ds : mounted (scan devFd sysFd ds) = match find is_disk ds with Some d => [str "/dev/" ++ dname d] | None => [] end.
Proof.
  induction ds as [|d ds IH]; [reflexivity|]. cbn [scan find]. rewrite mounted_app, mounted_look. destruct (is_disk d); [reflexivity|exact IH].
Qed.

Lemma find_existsb ds : existsb is_disk ds = match find is_disk ds with Some _ => true | None => false end.
Proof. induction ds as [|d ds IH]; [reflexivity|]. cbn [existsb find]. rewrite IH. now destruct (is_disk d). Qed.

Lemma mounted_visit dir : mounted (visit devFd sysFd dir) = match find is_disk (concat dir) with Some d => [str "/dev/" ++ dname d] | None => [] end.
Proof.
  induction dir as [|ds dir IH]; [reflexivity|]. cbn [visit concat]. cbv zeta. cbn [mounted flat_map fst app]. fold (mounted (scan devFd sysFd ds ++ if existsb is_disk ds then [] else visit devFd sysFd dir)).
  rewrite mounted_app, mounted_scan, find_existsb. clear - IH. induction ds as [|d ds IHd]; cbn [find app]; [exact IH|]. destruct (is_disk d); [reflexivity|exact IHd].
Qed.

Lemma has_disk_find dir : has_disk dir = match find is_disk (concat dir) with Some _ => true | None => false end.
Proof.
  rewrite <- find_existsb. unfold has_disk. induction dir as [|ds dir IH]; [reflexivity|]. cbn [existsb concat]. now rewrite IH, existsb_app.
Qed.

Lemma mounted_wait rounds last : Forall (fun dir => dir_ok dir /\ has_disk dir = false) rounds -> mounted (wait devFd sysFd rounds last) = mounted (visit devFd sysFd last).
Proof.
  induction 1 as [|dir rounds [_ Hno] _ IH]; [reflexivity|]. cbn [wait]. rewrite mounted_app, mounted_visit. rewrite has_disk_find in Hno. destruct (find is_disk (concat dir)); [discriminate|].
  cbn [app mounted flat_map fst]. exact IH.
Qed.

Lemma rounds_wait rounds last : (length rounds <= length (wait devFd sysFd rounds last))%nat.
Proof. induction rounds as [|dir rounds IH]; [apply Nat.le_0_l|]. cbn [wait List.length]. rewrite length_app. cbn [List.length]. lia. Qed.

Lemma loop_spec rounds last buffer a t : Forall (fun dir => dir_ok dir /\ has_disk dir = false) rounds -> dir_ok last -> has_disk last = true -> Z.of_nat (length buffer) = buffer_SIZE ->
  exists buffer', disk_mount_loop buffer devFd sysFd (World (map snd (wait devFd sysFd rounds last) ++ a) t) = (Done buffer', World a (t ++ wait devFd sysFd rounds last)).
Proof.
  intros Hr Hlast Hdisk Hl. apply wait_spec; [assumption..|]. cbn [answers]. rewrite length_app, (length_map snd). pose proof (rounds_wait rounds last). unfold event in *. lia.
Qed.
End Directory.

(** C29: [disk_mount] waits for the disk and mounts it.  Let /dev be read any number of
    times without a disk in it (a block device that can be opened and whose ext superblock
    has the magic number and the label ROUTER), and then once with one, each time in any
    batches of any entries that fit the buffer's half.  Then [disk_mount] returns, having
    asked about every entry that is not hidden in turn, read no superblock of one that is not a
    block device, slept after every reading in vain, closed every device it opened, and
    made exactly one mount: of the first disk of the last reading. *)
Theorem disk_mount_correct buffer devFd sysFd rounds last rest t : 0 < devFd -> 0 < sysFd -> Z.of_nat (length buffer) = buffer_SIZE ->
  Forall (fun dir => dir_ok dir /\ has_disk dir = false) rounds -> dir_ok last -> has_disk last = true ->
  let es := [(Sys_openat (-1) (str "/dev") O_RDONLY 0, Answer devFd []); (Sys_openat (-1) (str "/sys/class/block") O_RDONLY 0, Answer sysFd [])] ++
    wait devFd sysFd rounds last ++ [(Sys_close devFd, Answer 0 []); (Sys_close sysFd, Answer 0 [])] in
  (exists buffer', disk_mount buffer (World (map snd es ++ rest) t) = (Done buffer', World rest (t ++ es))) /\
  exists d, find is_disk (concat last) = Some d /\ mounted es = [str "/dev/" ++ dname d].
Proof.
  intros Hd Hs Hl Hr Hlast Hdisk es. split.
  - unfold disk_mount, es. cbn [app map snd]. unfold bind at 1. rewrite syscall_answer. assert ((0 <? devFd) = true) as -> by (apply Z.ltb_lt; lia). unfold CHECK at 1. rewrite bind_pure.
    unfold bind at 1. rewrite syscall_answer. assert ((0 <? sysFd) = true) as -> by (apply Z.ltb_lt; lia). unfold CHECK at 1. rewrite bind_pure.
    rewrite map_app, <- app_assoc. cbn [map snd app].
    destruct (loop_spec devFd sysFd rounds last buffer (Answer 0 [] :: Answer 0 [] :: rest)
      ((t ++ [(Sys_openat (-1) (str "/dev") O_RDONLY 0, Answer devFd [])]) ++ [(Sys_openat (-1) (str "/sys/class/block") O_RDONLY 0, Answer sysFd [])]) Hr Hlast Hdisk Hl) as (B & E).
    rewrite (bind_done _ _ _ _ _ E). exists B. unfold sys_close, bind, pure. rewrite !syscall_answer. rewrite <- !app_assoc. reflexivity.
  - pose proof (has_disk_find last) as Hf. rewrite Hdisk in Hf. unfold es. rewrite !mounted_app, (mounted_wait devFd sysFd rounds last Hr), mounted_visit.
    destruct (find is_disk (concat last)) as [d|]; [|discriminate]. exists d. split; reflexivity.
Qed.

(** The disk is missing at first; then it comes after a hidden entry and another device. *)
Definition demo_super (label : list Z) : list Z := repeat 0 56 ++ [0x53; 0xEF] ++ repeat 0 62 ++ label ++ repeat 0 (16 - length label).
Definition demo_sda : device := Device (repeat 0 16) 6 (str "sda") (repeat 0 2) 0 7 (demo_super (str "OTHER")).
Definition demo_sdb : device := Device (repeat 0 16) 6 (str "sdb1") (repeat 0 1) 0 8 (demo_super (str "ROUTER")).
Definition demo_dot : device := Device (repeat 0 16) 4 (str ".") (repeat 0 4) 0 0 [].

Lemma demo_dir_ok : dir_ok [[demo_dot; demo_sda]; [demo_sdb]].
Proof.
  assert (forall d, In d [demo_dot; demo_sda; demo_sdb] -> device_ok d) as H.
  { intros d Hd. unfold device_ok, bytes, no_nul, is_byte. repeat destruct Hd as [<-|Hd]; try contradiction; repeat split; try (vm_compute; lia); apply Forall_forall; intros x Hx; vm_compute in Hx;
      repeat destruct Hx as [<-|Hx]; (lia || contradiction). }
  repeat constructor; try discriminate; try (apply H; cbn; tauto); vm_compute; discriminate.
Qed.

Lemma demo_empty_ok : dir_ok [[demo_dot; demo_sda]].
Proof. pose proof demo_dir_ok as H. inversion H; subst. constructor; [assumption|constructor]. Qed.

Example disk_mount_correct_witness :
  let es := [(Sys_openat (-1) (str "/dev") O_RDONLY 0, Answer 3 []); (Sys_openat (-1) (str "/sys/class/block") O_RDONLY 0, Answer 4 [])] ++
    wait 3 4 [[[demo_dot; demo_sda]]] [[demo_dot; demo_sda]; [demo_sdb]] ++ [(Sys_close 3, Answer 0 []); (Sys_close 4, Answer 0 [])] in
  (exists buffer', disk_mount (repeat 0 (Z.to_nat 66000)) (World (map snd es ++ []) []) = (Done buffer', World [] ([] ++ es))) /\ mounted es = [str "/dev/sdb1"].
Proof.
  pose proof (disk_mount_correct (repeat 0 (Z.to_nat 66000)) 3 4 [[[demo_dot; demo_sda]]] [[demo_dot; demo_sda]; [demo_sdb]] [] [] eq_refl eq_refl ltac:(rewrite repeat_length; reflexivity)
    (Forall_cons _ (conj demo_empty_ok eq_refl) (Forall_nil _)) demo_dir_ok eq_refl) as (H & d & Hd & Hm).
  split; [exact H|]. injection Hd as <-. exact Hm.
Defined.
