(* ===== verification/Hostapd.v ===== *)
(** * The access point ([src/router/router/hostapd.c])

    If the disk holds a password for the wireless network, hostapd is started with a
    configuration that ends in that password; without one there is no wireless network. *)
From Stdlib Require Import ZArith List Lia Bool String.
From S2P Require Import Prelude RouterSys Telnet Config.
Import ListNotations.

Definition O_CREAT : Z := 64.
Definition O_TRUNC : Z := 512.

(** [struct hostapd] is its descriptor.  The string ends without a line feed. *)
Definition hostapd_CONF : list Z :=
  flat_map (fun line => str line ++ [10])
    ["interface=wlan0"; "bridge=lan"; "driver=nl80211"; "ssid=wifi"; "hw_mode=g"; "channel=1"; "ieee80211n=1"; "ht_capab=[HT40+][SHORT-GI-40]";
     "wpa=2"; "wpa_key_mgmt=WPA-PSK"; "rsn_pairwise=CCMP"]%string ++ str "wpa_passphrase=".

(** The child. *)
Definition _hostapd : M unit :=
  let! r := syscall (Sys_close_range 3 (2 ^ 31 - 1) CLOSE_RANGE_UNSHARE) in
  (if r =? 0 then syscall (Sys_execveat (str "/hostapd") [str "/hostapd"; str "/tmp/hostapd.conf"] []);; pure tt else pure tt);;
  syscall (Sys_exit_group 1);; pure tt.

Definition hostapd_init (buffer : list Z) : M (list Z * Z) :=
  let! fd := syscall (Sys_openat (-1) (str "/disk/config/wifi/password") O_RDONLY 0) in
  if fd =? - ENOENT then pure (buffer, -1)
  else
    CHECK (0 <? fd);;
    let! (passwordSize, data) := sys_read fd buffer_SIZE in
    let buffer := mem_copy buffer 0 data in
    CHECK ((8 <=? passwordSize) && (passwordSize <=? 63));;
    sys_close fd;;
    let! fd := syscall (Sys_openat (-1) (str "/tmp/hostapd.conf") (O_WRONLY .| O_CREAT .| O_TRUNC) 436) in
    CHECK (0 <? fd);;
    let! written := sys_write fd hostapd_CONF in
    CHECK (written =? Z.of_nat (length hostapd_CONF));;
    let! written := sys_write fd (firstn (Z.to_nat passwordSize) buffer) in
    CHECK (written =? passwordSize);;
    sys_close fd;;
    let! (pid, pidFd) := syscall_out (Sys_clone3 shell_clone_flags) 4 in
    CHECK (0 <? pid);;
    pure (buffer, i32 (le_combine pidFd)).

Definition hostapd_deinit (pidFd : Z) : M unit :=
  if 0 <? pidFd then sys_close pidFd;; pure tt else pure tt.

(** ** What it does *)

(** The file that hostapd reads, as its lines. *)
Definition conf_lines (password : list Z) : list (list Z) :=
  map str ["interface=wlan0"; "bridge=lan"; "driver=nl80211"; "ssid=wifi"; "hw_mode=g"; "channel=1"; "ieee80211n=1"; "ht_capab=[HT40+][SHORT-GI-40]";
    "wpa=2"; "wpa_key_mgmt=WPA-PSK"; "rsn_pairwise=CCMP"]%string ++ [str "wpa_passphrase=" ++ password].

Fixpoint join (lines : list (list Z)) : list Z :=
  match lines with
  | [] => []
  | [l] => l
  | l :: lines => l ++ 10 :: join lines
  end.

(** Without a password file nothing is started; a password that WPA does not allow ends the
    router before anything was written; otherwise the written file is the configuration
    with the password, and it is closed when hostapd starts. *)
Lemma hostapd_init_correct buffer password fd conf pid pidFd a t :
  Z.of_nat (length buffer) = buffer_SIZE -> bytes password -> (length password <= Z.to_nat buffer_SIZE)%nat -> 0 < fd -> 0 < conf -> 0 < pid -> 0 <= pidFd < 2 ^ 31 ->
  hostapd_init buffer (World (Answer (- ENOENT) [] :: a) t) =
    (Done (buffer, -1), World a (t ++ [(Sys_openat (-1) (str "/disk/config/wifi/password") O_RDONLY 0, Answer (- ENOENT) [])])) /\
  (let reads := [(Sys_openat (-1) (str "/disk/config/wifi/password") O_RDONLY 0, Answer fd []); (Sys_read fd buffer_SIZE, Answer (Z.of_nat (length password)) password)] in
   (~ (8 <= length password <= 63)%nat -> hostapd_init buffer (World (map snd reads ++ a) t) = (Fatal, World a (t ++ reads))) /\
   ((8 <= length password <= 63)%nat -> exists part1 part2,
     let es := reads ++ [(Sys_close fd, Answer 0 []); (Sys_openat (-1) (str "/tmp/hostapd.conf") 577 436, Answer conf []);
       (Sys_write conf part1, Answer (Z.of_nat (length part1)) []); (Sys_write conf part2, Answer (Z.of_nat (length part2)) []); (Sys_close conf, Answer 0 []);
       (Sys_clone3 shell_clone_flags, Answer pid (le_split 4 pidFd))] in
     part1 ++ part2 = join (conf_lines password) /\
     exists buffer', hostapd_init buffer (World (map snd es ++ a) t) = (Done (buffer', pidFd), World a (t ++ es)))).
Proof.
  intros Hl Hb Hp Hfd Hconf Hpid Hfd'. split; [reflexivity|]. cbv zeta.
  assert (forall x, 0 < x -> (x =? - ENOENT) = false /\ (0 <? x) = true) as Hpos by (intros x Hx; split; [apply Z.eqb_neq; unfold ENOENT; lia|now apply Z.ltb_lt]).
  destruct (Hpos fd Hfd) as [F1 F2]. destruct (Hpos conf Hconf) as [_ C2]. destruct (Hpos pid Hpid) as [_ P2]. cbn [map snd app].
  split; intros Hs.
  - unfold hostapd_init, sys_read. unfold bind at 1. rewrite syscall_answer, F1, F2. unfold CHECK at 1. rewrite bind_pure.
    rewrite (bind_done _ _ _ _ _ (syscall_in_answer _ (Z.to_nat buffer_SIZE) _ password _ _ (Nat2Z.is_nonneg _) Hb Hp)).
    assert ((8 <=? Z.of_nat (length password)) && (Z.of_nat (length password) <=? 63) = false) as -> by (destruct (Z.leb_spec 8 (Z.of_nat (length password))), (Z.leb_spec (Z.of_nat (length password)) 63); try reflexivity; lia).
    unfold CHECK, bind, fatal. rewrite <- app_assoc. reflexivity.
  - exists hostapd_CONF, password. split; [reflexivity|]. exists (mem_copy buffer 0 password).
    unfold hostapd_init, sys_read. unfold bind at 1. rewrite syscall_answer, F1, F2. unfold CHECK at 1. rewrite bind_pure.
    rewrite (bind_done _ _ _ _ _ (syscall_in_answer _ (Z.to_nat buffer_SIZE) _ password _ _ (Nat2Z.is_nonneg _) Hb Hp)).
    assert ((8 <=? Z.of_nat (length password)) && (Z.of_nat (length password) <=? 63) = true) as -> by (destruct (Z.leb_spec 8 (Z.of_nat (length password))), (Z.leb_spec (Z.of_nat (length password)) 63); try reflexivity; lia).
    unfold CHECK at 1. rewrite bind_pure. unfold sys_close, sys_write. unfold bind at 1. rewrite syscall_answer. unfold bind at 1. rewrite syscall_answer, C2. unfold CHECK at 1. rewrite bind_pure.
    unfold bind at 1. rewrite syscall_answer, Z.eqb_refl. unfold CHECK at 1. rewrite bind_pure.
    assert (firstn (Z.to_nat (Z.of_nat (length password))) (mem_copy buffer 0 password) = password) as ->.
    { unfold buffer_SIZE in *. rewrite mem_copy_eq by lia. cbn [firstn app]. rewrite Nat2Z.id. now apply firstn_exact. }
    unfold bind at 1. rewrite syscall_answer, Z.eqb_refl. unfold CHECK at 1. rewrite bind_pure. unfold bind at 1. rewrite syscall_answer.
    rewrite (bind_done _ _ _ _ _ (syscall_out_answer _ 4 _ _ _ _ (bytes_le_split 4 pidFd) ltac:(rewrite length_le_split; lia))). rewrite P2. unfold CHECK. rewrite bind_pure.
    unfold pure. rewrite le_combine_split. rewrite (Z.mod_small pidFd) by (change (256 ^ Z.of_nat 4) with (2 ^ 32); lia).
    rewrite swrap_small by (change (2 ^ (32 - 1)) with (2 ^ 31); lia). rewrite <- !app_assoc. reflexivity.
Qed.
