(* ===== verification/Router.v ===== *)
(** * The router ([src/router/router/router.c])

    [start] brings the components up one after the other and then gives every event to the
    component whose descriptor it came from, until the power button is pressed; then
    everything is taken down again and the disk is unmounted.  The components meet in the
    shared buffer, in the addresses of the WAN lease, which the LAN's DHCP server and the
    modem hand on, and in the descriptors that epoll reports. *)
From Stdlib Require Import ZArith List Lia Bool String.
From S2P Require Import Prelude Mem Util RouterSys Fds Telnet Modem Netlink Config Dhcp DhcpServer DhcpClient PacketDumper Iptables Ksmb Disk Hostapd.
Import ListNotations.

Record router := Router {
  epollFd : Z; genetlinkFd : Z; acpi : Netlink.acpi; ksmb : Ksmb.ksmb; config : Config.config; hostapdFd : Z;
  wanDhcpClient : dhcpClient; usbDhcpClient : dhcpClient;
  wanDumper : packetDumper; lanDumper : packetDumper; usbDumper : packetDumper;
  dhcpServer : DhcpServer.dhcpServer; modemClient : Modem.modemClient; telnetServer : Telnet.telnetServer }.

Definition with_wanDhcpClient (st : router) (x : dhcpClient) : router :=
  Router (epollFd st) (genetlinkFd st) (acpi st) (ksmb st) (config st) (hostapdFd st) x (usbDhcpClient st) (wanDumper st) (lanDumper st) (usbDumper st) (dhcpServer st) (modemClient st) (telnetServer st).
Definition with_usbDhcpClient (st : router) (x : dhcpClient) : router :=
  Router (epollFd st) (genetlinkFd st) (acpi st) (ksmb st) (config st) (hostapdFd st) (wanDhcpClient st) x (wanDumper st) (lanDumper st) (usbDumper st) (dhcpServer st) (modemClient st) (telnetServer st).
Definition with_wanDumper (st : router) (x : packetDumper) : router :=
  Router (epollFd st) (genetlinkFd st) (acpi st) (ksmb st) (config st) (hostapdFd st) (wanDhcpClient st) (usbDhcpClient st) x (lanDumper st) (usbDumper st) (dhcpServer st) (modemClient st) (telnetServer st).
Definition with_lanDumper (st : router) (x : packetDumper) : router :=
  Router (epollFd st) (genetlinkFd st) (acpi st) (ksmb st) (config st) (hostapdFd st) (wanDhcpClient st) (usbDhcpClient st) (wanDumper st) x (usbDumper st) (dhcpServer st) (modemClient st) (telnetServer st).
Definition with_usbDumper (st : router) (x : packetDumper) : router :=
  Router (epollFd st) (genetlinkFd st) (acpi st) (ksmb st) (config st) (hostapdFd st) (wanDhcpClient st) (usbDhcpClient st) (wanDumper st) (lanDumper st) x (dhcpServer st) (modemClient st) (telnetServer st).
Definition with_dhcpServer (st : router) (x : DhcpServer.dhcpServer) : router :=
  Router (epollFd st) (genetlinkFd st) (acpi st) (ksmb st) (config st) (hostapdFd st) (wanDhcpClient st) (usbDhcpClient st) (wanDumper st) (lanDumper st) (usbDumper st) x (modemClient st) (telnetServer st).
Definition with_modemClient (st : router) (x : Modem.modemClient) : router :=
  Router (epollFd st) (genetlinkFd st) (acpi st) (ksmb st) (config st) (hostapdFd st) (wanDhcpClient st) (usbDhcpClient st) (wanDumper st) (lanDumper st) (usbDumper st) (dhcpServer st) x (telnetServer st).
Definition with_telnetServer (st : router) (x : Telnet.telnetServer) : router :=
  Router (epollFd st) (genetlinkFd st) (acpi st) (ksmb st) (config st) (hostapdFd st) (wanDhcpClient st) (usbDhcpClient st) (wanDumper st) (lanDumper st) (usbDumper st) (dhcpServer st) (modemClient st) x.

(** What the model of a component does not say about memory: what the telnet server's
    reads and the stacks of the children leave in the shared buffer, and what the stack of
    [packetDumper_onPacketFd] holds.  Both may be anything at any time. *)
Class Memory := { shared : world -> list Z; stack : world -> list Z }.

(** What is on the stack of [start] before it is set, and the address of iptables' counters. *)
Record uninitialised := Uninitialised {
  u_wanDumper : packetDumper; u_lanDumper : packetDumper; u_dhcpServer : DhcpServer.dhcpServer; u_modemClient : Modem.modemClient;
  u_ifreq : list Z; u_counters : list Z }.

Section Router.
Context `{Linkage} `{Memory}.

Definition overwritten : M (list Z) := fun w => (Done (shared w), w).

(** Every turn of the loops in [modemClient_onFd] that goes on uses up an answer. *)
Definition modem_event (self : Modem.modemClient) (wan : dhcpClient) : M Modem.modemClient :=
  fun w => modemClient_onFd (S (S (length (answers w)))) self (leasedIp wan) (leasedIpNetmask wan) w.

Definition on_packet (buffer : list Z) (self : packetDumper) : M (list Z * packetDumper) :=
  fun w => packetDumper_onPacketFd (stack w) buffer self w.

(** The branches behind the two that end the loop; an event that belongs to none is ignored. *)
Definition dispatch (buffer : list Z) (st : router) (event : Z) : M (list Z * router) :=
  if event =? Ksmb.netlinkFd (ksmb st) then
    let! buffer := ksmb_onNetlinkFd buffer (ksmb st) in pure (buffer, st)
  else if event =? DhcpClient.fd (wanDhcpClient st) then
    let! (buffer, x) := dhcpClient_onFd buffer (wanDhcpClient st) (rtnetlinkFd (config st)) in pure (buffer, with_wanDhcpClient st x)
  else if event =? DhcpClient.timerFd (wanDhcpClient st) then
    let! (buffer, x) := dhcpClient_onTimerFd buffer (wanDhcpClient st) (rtnetlinkFd (config st)) in pure (buffer, with_wanDhcpClient st x)
  else if event =? DhcpClient.fd (usbDhcpClient st) then
    let! (buffer, x) := dhcpClient_onFd buffer (usbDhcpClient st) (rtnetlinkFd (config st)) in pure (buffer, with_usbDhcpClient st x)
  else if event =? DhcpClient.timerFd (usbDhcpClient st) then
    let! (buffer, x) := dhcpClient_onTimerFd buffer (usbDhcpClient st) (rtnetlinkFd (config st)) in pure (buffer, with_usbDhcpClient st x)
  else if event =? DhcpServer.fd (dhcpServer st) then
    let! (buffer, x) := dhcpServer_onFd buffer (dhcpServer st) (dnsIp (wanDhcpClient st)) in pure (buffer, with_dhcpServer st x)
  else if event =? PacketDumper.listenFd (wanDumper st) then
    let! x := packetDumper_onListenFd (wanDumper st) (epollFd st) in pure (buffer, with_wanDumper st x)
  else if event =? PacketDumper.packetFd (wanDumper st) then
    let! (buffer, x) := on_packet buffer (wanDumper st) in pure (buffer, with_wanDumper st x)
  else if event =? PacketDumper.clientFd (wanDumper st) then
    let! x := packetDumper_onClientFd (wanDumper st) in pure (buffer, with_wanDumper st x)
  else if event =? PacketDumper.listenFd (lanDumper st) then
    let! x := packetDumper_onListenFd (lanDumper st) (epollFd st) in pure (buffer, with_lanDumper st x)
  else if event =? PacketDumper.packetFd (lanDumper st) then
    let! (buffer, x) := on_packet buffer (lanDumper st) in pure (buffer, with_lanDumper st x)
  else if event =? PacketDumper.clientFd (lanDumper st) then
    let! x := packetDumper_onClientFd (lanDumper st) in pure (buffer, with_lanDumper st x)
  else if event =? PacketDumper.listenFd (usbDumper st) then
    let! x := packetDumper_onListenFd (usbDumper st) (epollFd st) in pure (buffer, with_usbDumper st x)
  else if event =? PacketDumper.packetFd (usbDumper st) then
    let! (buffer, x) := on_packet buffer (usbDumper st) in pure (buffer, with_usbDumper st x)
  else if event =? PacketDumper.clientFd (usbDumper st) then
    let! x := packetDumper_onClientFd (usbDumper st) in pure (buffer, with_usbDumper st x)
  else if event =? Modem.timerFd (modemClient st) then
    let! x := modemClient_onTimerFd (modemClient st) (epollFd st) in pure (buffer, with_modemClient st x)
  else if event =? Modem.fd (modemClient st) then
    let! x := modem_event (modemClient st) (wanDhcpClient st) in pure (buffer, with_modemClient st x)
  else if event =? Telnet.listenFd (telnetServer st) then
    let! x := telnetServer_onListenFd (telnetServer st) (epollFd st) in pure (buffer, with_telnetServer st x)
  else if event =? Telnet.ptMasterFd (telnetServer st) then
    let! x := telnetServer_onPtMasterFd (telnetServer st) in let! buffer := overwritten in pure (buffer, with_telnetServer st x)
  else if event =? Telnet.clientFd (telnetServer st) then
    let! x := telnetServer_onClientFd (telnetServer st) in let! buffer := overwritten in pure (buffer, with_telnetServer st x)
  else pure (buffer, st).

(** [event.data.fd] is 0 until the kernel stores it. *)
Definition wait_event (epollFd : Z) : M Z :=
  let! (r, data) := syscall_out (Sys_epoll_pwait epollFd) 4 in
  CHECK (r =? 1);;
  pure (i32 (le_combine (mem_copy (repeat 0 4) 0 data))).

(** The event loop; [util_abort] ends the process. *)
Fixpoint event_loop (fuel : nat) (buffer : list Z) (st : router) : M (list Z * router) :=
  match fuel with
  | O => unfinished
  | S fuel' =>
      let! event := wait_event (epollFd st) in
      if event =? Netlink.netlinkFd (acpi st) then pure (buffer, st)
      else if (event =? hostapdFd st) || (event =? Telnet.pidFd (telnetServer st)) then fatal
      else
        let! (buffer, st) := dispatch buffer st event in
        event_loop fuel' buffer st
  end.

(** Every turn uses up an answer, and without answers [epoll_pwait] fails. *)
Definition run (buffer : list Z) (st : router) : M (list Z * router) := fun w => event_loop (S (length (answers w))) buffer st w.

(** What is added to epoll's set, in this order. *)
Definition watched (st : router) : list Z :=
  [Netlink.netlinkFd (acpi st); Ksmb.netlinkFd (ksmb st)] ++
  (if 0 <? hostapdFd st then [hostapdFd st] else []) ++
  [DhcpClient.fd (wanDhcpClient st); DhcpClient.timerFd (wanDhcpClient st)] ++
  (if 0 <=? DhcpClient.fd (usbDhcpClient st) then [DhcpClient.fd (usbDhcpClient st); DhcpClient.timerFd (usbDhcpClient st)] else []) ++
  (if 0 <=? PacketDumper.listenFd (usbDumper st) then [PacketDumper.listenFd (usbDumper st)] else []) ++
  [PacketDumper.listenFd (wanDumper st); PacketDumper.listenFd (lanDumper st); DhcpServer.fd (dhcpServer st); Modem.timerFd (modemClient st);
   Telnet.listenFd (telnetServer st); Telnet.pidFd (telnetServer st); Telnet.ptMasterFd (telnetServer st)].

Fixpoint add_all (epollFd : Z) (fds : list Z) : M unit :=
  match fds with
  | [] => pure tt
  | fd :: fds => epollAdd epollFd fd;; add_all epollFd fds
  end.

(** The objects that are there before their [_init], or in place of it. *)
Definition no_dhcpClient : dhcpClient := DhcpClient (-1) 0 (-1) 0 0 0 0 0 0 (repeat 0 IFNAMSIZ) (repeat 0 6) 0.
Definition no_dumper : packetDumper := PacketDumper (repeat 0 ifreq_SIZE) (-1) (-1) (-1) 0 0.
Definition router_ip : list Z := [10; 123; 0; 1].

Definition initialise (u : uninitialised) : M (list Z * router) :=
  let buffer := repeat 0 (Z.to_nat buffer_SIZE) in
  let! r := syscall (Sys_dup3 0 3 O_CLOEXEC) in
  CHECK (r =? 3);;
  let! buffer := disk_mount buffer in
  let! genetlinkFd := genetlink_init in
  let! (buffer, acpi) := acpi_init buffer genetlinkFd in
  let! (buffer, ksmb) := ksmb_init buffer genetlinkFd in
  let! (buffer, config) := config_init buffer genetlinkFd in
  let! buffer := iptables_configure (u_counters u) buffer in
  let! (buffer, config) := config_configure buffer config genetlinkFd in
  let! (buffer, hostapdFd) := hostapd_init buffer in
  let! buffer := if 0 <? hostapdFd then overwritten else pure buffer in
  let! wan := dhcpClient_init config_WAN_IF_INDEX 100 in
  let! r := syscall (Sys_clock_nanosleep CLOCK_MONOTONIC 5 0) in
  CHECK (r =? 0);;
  let! usbIfIndex := config_getIfIndex config (u_ifreq u) (str "usb0") in
  let! (buffer, (usb, usbDumper)) :=
    if 0 <=? usbIfIndex then
      let! buffer := config_setFlags buffer config usbIfIndex IFF_UP IFF_UP in
      let! usb := dhcpClient_init usbIfIndex 101 in
      let! usbDumper := packetDumper_init no_dumper usbIfIndex 101 in
      pure (buffer, (usb, usbDumper))
    else pure (buffer, (no_dhcpClient, no_dumper)) in
  let! wanDumper := packetDumper_init (u_wanDumper u) config_WAN_IF_INDEX 100 in
  let! lanDumper := packetDumper_init (u_lanDumper u) config_LAN_IF_INDEX 102 in
  let! server := dhcpServer_init (u_dhcpServer u) config_LAN_IF_INDEX (le_combine router_ip) in
  let! modem := modemClient_init (u_modemClient u) (str "/dev/ttyUSB2") in
  let! telnet := telnetServer_init in
  let! buffer := overwritten in
  let! epollFd := syscall (Sys_epoll_create1 0) in
  CHECK (0 <? epollFd);;
  let st := Router epollFd genetlinkFd acpi ksmb config hostapdFd wan usb wanDumper lanDumper usbDumper server modem telnet in
  add_all epollFd (watched st);;
  pure (buffer, st).

Definition shutdown (st : router) : M unit :=
  telnetServer_deinit (telnetServer st);;
  modemClient_deinit (modemClient st);;
  dhcpServer_deinit (dhcpServer st);;
  packetDumper_deinit (lanDumper st);;
  packetDumper_deinit (wanDumper st);;
  (if 0 <=? PacketDumper.listenFd (usbDumper st) then packetDumper_deinit (usbDumper st) else pure tt);;
  (if 0 <=? DhcpClient.fd (usbDhcpClient st) then dhcpClient_deinit (usbDhcpClient st) else pure tt);;
  dhcpClient_deinit (wanDhcpClient st);;
  hostapd_deinit (hostapdFd st);;
  config_deinit (config st);;
  ksmb_deinit (ksmb st);;
  acpi_deinit (acpi st);;
  genetlink_deinit (genetlinkFd st);;
  disk_unmount.

Definition start (u : uninitialised) : M Z :=
  let! (buffer, st) := initialise u in
  let! (buffer, st) := run buffer st in
  shutdown st;;
  pure 0.
End Router.
