(* ===== verification/RouterRun.v ===== *)
(** * The router's run: what stays and how it ends

    What every event leaves as it is, whatever the kernel answers: the descriptors the
    router lives on, the order of the DHCP server's table, the size of the shared buffer.
    From this follows how a run ends, and that a shutdown gives everything back. *)
From Stdlib Require Import ZArith List Lia Bool String Permutation.
From S2P Require Import Prelude Mem Util Io RouterSys Fds Telnet Modem Netlink Config Dhcp DhcpServer DhcpClient PacketDumper Iptables Ksmb Disk Hostapd Router.
Import ListNotations.

(** ** What a computation returns if it returns *)

Definition returns {A} (Q : A -> Prop) (m : M A) : Prop := forall w a w', m w = (Done a, w') -> Q a.

Lemma returns_pure {A} (Q : A -> Prop) a : Q a -> returns Q (pure a).
Proof. intros Ha w b w' E. injection E as <- _. exact Ha. Qed.

Lemma returns_bind {A B} (R : A -> Prop) (Q : B -> Prop) m f : returns R m -> (forall a, R a -> returns Q (f a)) -> returns Q (bind m f).
Proof.
  intros Hm Hf w b w' E. unfold bind in E. destruct (m w) as [[a| | |] w1] eqn:Em; try discriminate. exact (Hf a (Hm w a w1 Em) w1 b w' E).
Qed.

Lemma returns_any {A B} (Q : B -> Prop) (m : M A) f : (forall a, returns Q (f a)) -> returns Q (bind m f).
Proof. intros Hf. eapply returns_bind with (R := fun _ => True); [intros ? ? ? _; exact I|auto]. Qed.

Lemma returns_stop {A} (Q : A -> Prop) (m : M A) : (forall w, exists o w', m w = (o, w') /\ forall a, o <> Done a) -> returns Q m.
Proof. intros Hm w a w' E. destruct (Hm w) as (o & w1 & E1 & Hn). rewrite E in E1. injection E1 as <- _. destruct (Hn a eq_refl). Qed.

Lemma returns_fatal {A} (Q : A -> Prop) : returns Q fatal.
Proof. now intros w a w' E. Qed.
Lemma returns_undefined {A} (Q : A -> Prop) : returns Q undefined.
Proof. now intros w a w' E. Qed.
Lemma returns_unfinished {A} (Q : A -> Prop) : returns Q unfinished.
Proof. now intros w a w' E. Qed.

Lemma returns_weaken {A} (P Q : A -> Prop) m : (forall a, P a -> Q a) -> returns P m -> returns Q m.
Proof. intros H Hm w a w' E. apply H, (Hm w a w' E). Qed.

Lemma returns_world {A} (Q : A -> Prop) (m : world -> M A) : (forall x, returns Q (m x)) -> returns Q (fun w => m w w).
Proof. intros H w a w' E. exact (H w w a w' E). Qed.

#[local] Hint Resolve returns_fatal returns_undefined returns_unfinished : core.

(** Along every path of a computation whose calls do not matter. *)
Ltac walk := repeat (cbv zeta; first
  [ apply returns_pure | solve [auto]
  | match goal with
    | |- returns _ (bind _ _) => apply returns_any; intros
    | |- returns _ (if ?b then _ else _) => destruct b
    | |- returns _ (match ?x with _ => _ end) => destruct x
    end ]).

(** *** The telnet server *)

Definition same_telnet (self self' : Telnet.telnetServer) : Prop :=
  Telnet.pidFd self' = Telnet.pidFd self /\ Telnet.listenFd self' = Telnet.listenFd self /\ Telnet.ptMasterFd self' = Telnet.ptMasterFd self.

Lemma same_telnet_refl self : same_telnet self self.
Proof. unfold same_telnet. auto. Qed.
#[local] Hint Resolve same_telnet_refl : core.

Lemma kick_same self : returns (same_telnet self) (_telnetServer_kickClient self).
Proof. unfold _telnetServer_kickClient. walk. now destruct self. Qed.

Lemma same_telnet_after self self1 m : same_telnet self self1 -> returns (same_telnet self1) m -> returns (same_telnet self) m.
Proof. intros H. apply returns_weaken. unfold same_telnet in *. intuition congruence. Qed.

Lemma onListenFd_same self epollFd : returns (same_telnet self) (telnetServer_onListenFd self epollFd).
Proof.
  unfold telnetServer_onListenFd. apply returns_any; intros fd. destruct (fd <? 0); [now apply returns_pure|].
  eapply returns_bind; [apply kick_same|]. intros self1 H1. apply (same_telnet_after _ self1 _ H1). apply returns_any; intros sent. destruct (negb _); [apply kick_same|]. walk. now destruct self1.
Qed.

Lemma pt_loop_same : forall fuel self buffer i, returns (same_telnet self) (pt_loop fuel self buffer i).
Proof. induction fuel as [|fuel IH]; intros self buffer i; cbn [pt_loop]; [auto|]. walk; apply kick_same. Qed.

Lemma onPtMasterFd_same self : returns (same_telnet self) (telnetServer_onPtMasterFd self).
Proof. unfold telnetServer_onPtMasterFd. apply returns_any; intros [n b]. walk. apply pt_loop_same. Qed.

Lemma client_loop_same : forall fuel self buffer i, returns (same_telnet self) (client_loop fuel self buffer i).
Proof. induction fuel as [|fuel IH]; intros self buffer i; cbn [client_loop]; [auto|]. walk; try apply kick_same; try now destruct self. Qed.

Lemma onClientFd_same self : returns (same_telnet self) (telnetServer_onClientFd self).
Proof.
  unfold telnetServer_onClientFd. cbv zeta. set (self1 := with_saved self _). assert (same_telnet self self1) as H1 by now destruct self. apply (same_telnet_after _ self1 _ H1).
  apply returns_any; intros [n b]. walk; [apply kick_same|apply client_loop_same].
Qed.

(** *** The modem *)

Definition same_timer (self self' : Modem.modemClient) : Prop := Modem.timerFd self' = Modem.timerFd self.

Lemma same_timer_after {A} (f : A -> Modem.modemClient) self self1 m : same_timer self self1 -> returns (fun x => same_timer self1 (f x)) m -> returns (fun x => same_timer self (f x)) m.
Proof. intros H. apply returns_weaken. unfold same_timer. congruence. Qed.

(** A part that returns the modem and a result. *)
Ltac timer_part L := eapply returns_bind; [apply L|]; intros [?self ?r] ?Ht; cbn [fst] in *.

Section Modem.
Context `{Linkage}.

Lemma disconnect_timer self : returns (same_timer self) (modemClient_disconnect self).
Proof. unfold modemClient_disconnect. walk; reflexivity. Qed.

Lemma process_timer self : returns (fun x => same_timer self (fst x)) (modemClient_processQueue self).
Proof. unfold modemClient_processQueue. walk; reflexivity. Qed.

Lemma constant_timer self a n : returns (fun x => same_timer self (fst x)) (modemClient_queueConstant self a n).
Proof. unfold modemClient_queueConstant. walk; try reflexivity. apply (process_timer (with_queue self _ _)). Qed.

Lemma sms_timer self number n sms m : returns (fun x => same_timer self (fst x)) (modemClient_queueSms self number n sms m).
Proof. unfold modemClient_queueSms. walk; try reflexivity. match goal with |- returns _ (modemClient_processQueue ?s) => apply (process_timer s) end. Qed.

Lemma ack_timer self : returns (fun x => same_timer self (fst x)) (modemClient_ackPending self).
Proof. unfold modemClient_ackPending. destruct (negb _); [auto|]. cbv zeta. apply returns_any; intros n. match goal with |- returns _ (modemClient_processQueue ?s) => apply (process_timer s) end. Qed.

Lemma fail_timer self : returns (same_timer self) (onTimerFd_fail self).
Proof. unfold onTimerFd_fail. eapply returns_bind; [apply disconnect_timer|]. intros s Hs. walk; exact Hs. Qed.

Lemma connect_timer self epollFd : returns (fun x => same_timer self (fst x)) (modem_connect self epollFd).
Proof.
  unfold modem_connect. apply returns_any; intros opened. cbv zeta. destruct (_ <? 0); [now apply returns_pure|]. apply returns_any; intros [r t]. destruct (negb _); [now apply returns_pure|].
  apply returns_any; intros r2. destruct (negb _); [now apply returns_pure|]. unfold queue_init. timer_part constant_timer. walk; exact Ht.
Qed.

Lemma onTimerFd_timer self epollFd : returns (same_timer self) (modemClient_onTimerFd self epollFd).
Proof.
  unfold modemClient_onTimerFd. apply returns_bind with (R := fun x => same_timer self (fst x)); [destruct (_ <? 0); [apply connect_timer|now apply returns_pure]|]. intros [s1 r] H1. cbn [fst] in H1.
  destruct (r <? 0); [apply (same_timer_after (fun x => x) _ s1 _ H1), fail_timer|]. unfold queue_poll. timer_part constant_timer. destruct (_ <? 0); [|walk; unfold same_timer in *; congruence].
  apply (same_timer_after (fun x => x) _ self0); [unfold same_timer in *; congruence|apply fail_timer].
Qed.

Lemma line_timer self ip mask tag i : returns (fun x => same_timer self (fst x)) (modem_line self ip mask tag i).
Proof.
  assert (forall self line n rest, returns (fun x => same_timer self (fst x)) (read_sms self ip mask i line n rest)) as Hsms.
  { intros s line n rest. unfold read_sms. destruct (_ <=? _)%nat; [now apply returns_pure|]. cbv zeta. destruct (_ <=? _)%nat; [now apply returns_pure|]. destruct (util_strToUint _ _) as [parsed [size|]]; [|now apply returns_pure].
    destruct (parsed <=? 0); [now apply returns_pure|]. destruct (_ <? size); [now apply returns_pure|]. destruct (_ || _); [now apply returns_pure|]. timer_part sms_timer. walk; exact Ht. }
  unfold modem_line. cbv zeta. repeat first [destruct (_ && _) | destruct (_ =? _) | destruct (negb _)]; try apply Hsms; try (apply returns_pure; reflexivity); try (timer_part ack_timer; apply returns_pure; exact Ht);
    try (unfold queue_poll; timer_part constant_timer; apply returns_pure; exact Ht); apply returns_any; intros []; now apply returns_pure.
Qed.

Lemma lines_timer : forall fuel self ip mask tag i, returns (fun x => same_timer self (fst x)) (modem_lines fuel self ip mask tag i).
Proof.
  induction fuel as [|fuel IH]; intros self ip mask tag i; cbn [modem_lines]; [auto|]. timer_part line_timer. destruct r; try (apply returns_pure; exact Ht). apply (same_timer_after fst _ self0 _ Ht), IH.
Qed.

Lemma out_timer : forall fuel self, returns (same_timer self) (modem_out fuel self).
Proof.
  induction fuel as [|fuel IH]; intros self; cbn [modem_out]; [auto|]. timer_part process_timer. destruct (_ <? 0); [|apply returns_pure; exact Ht].
  eapply returns_bind; [apply disconnect_timer|]. intros s2 H2. apply (same_timer_after (fun x => x) _ s2); [unfold same_timer in *; congruence|apply IH].
Qed.

Lemma keep_timer self i : returns (same_timer self) (modem_keep self i).
Proof. unfold modem_keep. walk. reflexivity. Qed.

Lemma onFd_timer fuel self ip mask : returns (same_timer self) (modemClient_onFd fuel self ip mask).
Proof.
  unfold modemClient_onFd. apply returns_any; intros [n data].
  apply returns_bind with (R := fun x => same_timer self (fst x)).
  { destruct (n <=? 0); [now apply returns_pure|]. cbv zeta. match goal with |- returns _ (modem_lines _ ?s _ _ _ _) => apply (lines_timer _ s) end. }
  intros [s1 e] H1. cbn [fst] in H1.
  assert (forall s i, same_timer self s -> returns (same_timer self) (let! s' := modem_out fuel s in modem_keep s' i)) as Hout.
  { intros s i Hs. eapply returns_bind; [apply out_timer|]. intros s2 H2. apply (same_timer_after (fun x => x) _ s2); [unfold same_timer in *; congruence|apply keep_timer]. }
  destruct e; try (apply Hout; exact H1). eapply returns_bind; [apply disconnect_timer|]. intros s2 H2. apply Hout. unfold same_timer in *. congruence.
Qed.
End Modem.

(** *** The shared buffer *)

Definition sized (buffer : list Z) : Prop := Z.of_nat (length buffer) = buffer_SIZE.

Lemma sized_copy buffer data n : sized buffer -> (length data <= n)%nat -> Z.of_nat n <= buffer_SIZE -> sized (mem_copy buffer 0 data).
Proof. unfold sized. intros Hb Hd Hn. rewrite length_mem_copy by lia. exact Hb. Qed.

Lemma syscall_in_length c n : returns (fun x => (length (snd x) <= n)%nat) (syscall_in c n).
Proof. intros w [r data] w' E. destruct (syscall_in_spec c n w) as (r1 & d1 & w1 & E1 & _ & _ & Hl & _). rewrite E in E1. injection E1 as <- <- _. exact Hl. Qed.

Lemma syscall_out_length c n : returns (fun x => (length (snd x) <= n)%nat) (syscall_out c n).
Proof. intros w [r data] w' E. destruct (syscall_out_spec c n w) as (r1 & d1 & w1 & E1 & _ & _ & Hl). rewrite E in E1. injection E1 as <- <- _. exact Hl. Qed.

Lemma receive_sized buffer fd : sized buffer -> returns sized (netlink_receive buffer fd).
Proof.
  intros Hb. unfold netlink_receive. cbv zeta. apply returns_any; intros []. unfold sys_recvfrom. eapply returns_bind; [apply syscall_in_length|]. intros [n data] Hd. cbn [snd] in Hd.
  apply returns_any; intros []. apply returns_any; intros []. apply returns_pure. apply (sized_copy _ _ _ Hb Hd). unfold buffer_SIZE. lia.
Qed.

Lemma talk_sized buffer fd request : sized buffer -> returns sized (netlink_talk buffer fd request).
Proof. intros Hb. unfold netlink_talk. walk. now apply receive_sized. Qed.

Lemma read_sized buffer fd : sized buffer -> returns (fun x => sized (mem_copy buffer 0 (snd x))) (sys_read fd buffer_SIZE).
Proof. intros Hb. unfold sys_read. eapply returns_weaken; [|apply syscall_in_length]. intros x Hx. apply (sized_copy _ _ _ Hb Hx). unfold buffer_SIZE. lia. Qed.

Lemma ksmb_sized buffer self : sized buffer -> returns sized (ksmb_onNetlinkFd buffer self).
Proof.
  intros Hb. unfold ksmb_onNetlinkFd. eapply returns_bind; [now apply receive_sized|]. intros b Hb1. cbv beta. unfold ksmb_event. apply returns_any; intros type.
  walk; now apply talk_sized.
Qed.

(** *** DHCP and the packet dumpers *)

Definition same_client (self self' : dhcpClient) : Prop :=
  DhcpClient.fd self' = DhcpClient.fd self /\ DhcpClient.timerFd self' = DhcpClient.timerFd self /\ DhcpClient.packetFd self' = DhcpClient.packetFd self.

Lemma same_client_refl self : same_client self self.
Proof. unfold same_client. auto. Qed.

(** What is returned next to the buffer. *)
Definition beside {A} (P : A -> Prop) (x : list Z * A) : Prop := sized (fst x) /\ P (snd x).

Lemma beside_pure {A} (P : A -> Prop) b a : sized b -> P a -> returns (beside P) (pure (b, a)).
Proof. intros Hb Ha. now apply returns_pure. Qed.
Lemma beside_pair {A} (P : A -> Prop) b a : sized b -> P a -> beside P (b, a).
Proof. now split. Qed.
#[local] Hint Resolve beside_pure beside_pair same_client_refl : core.

Lemma ack_same buffer self rtnetlinkFd o : sized buffer -> returns (beside (same_client self)) (client_ack buffer self rtnetlinkFd o).
Proof.
  intros Hb. unfold client_ack. destruct (subnetMask o), (DhcpClient.router o), (leaseTime o); auto. cbv zeta. apply returns_any; intros [].
  match goal with |- returns _ (bind (if _ then bind (print_leased ?s) _ else pure ?t) _) => apply returns_bind with (R := same_client self); [destruct (negb _); [apply returns_any; intros []|]; now apply returns_pure|] end.
  intros s Hs. eapply returns_bind; [now apply talk_sized|]. intros b1 H1. eapply returns_bind; [now apply talk_sized|]. auto.
Qed.

Lemma onFd_same buffer self rtnetlinkFd : sized buffer -> returns (beside (same_client self)) (dhcpClient_onFd buffer self rtnetlinkFd).
Proof.
  intros Hb. unfold dhcpClient_onFd. eapply returns_bind; [apply (read_sized buffer), Hb|]. intros [n data] H1. cbn [snd] in H1. cbv zeta. destruct (_ <? _); [auto|]. destruct (negb _); [auto|].
  apply returns_any; intros o. destruct (messageType o); [|auto]. apply returns_any; intros type. destruct (type =? _); [destruct (leaseTime o); [|auto]; walk|].
  destruct (type =? _); [walk|]. destruct (type =? _); [now apply ack_same|auto].
Qed.

Lemma onTimer_same buffer self rtnetlinkFd : sized buffer -> returns (beside (same_client self)) (dhcpClient_onTimerFd buffer self rtnetlinkFd).
Proof.
  intros Hb. unfold dhcpClient_onTimerFd. apply returns_any; intros [n data]. apply returns_any; intros []. cbv zeta. set (self1 := with_identifier self _). assert (same_client self self1) as H1 by (repeat split). clearbody self1.
  apply returns_bind with (R := beside (same_client self)).
  - destruct (_ && _); [apply returns_any; intros r; now apply beside_pure|].
    apply returns_bind with (R := beside (same_client self)).
    + destruct (negb _); [|now apply beside_pure]. apply returns_any; intros []. eapply returns_bind; [now apply talk_sized|]. intros b Hb1. now apply beside_pure.
    + intros [b s] [H2 H3]. apply returns_any; intros r. now apply beside_pure.
  - intros [b s] [H2 H3]. apply returns_any; intros []. now apply beside_pure.
Qed.

(** The server keeps its descriptor and the order of its table. *)
Definition same_server (self self' : DhcpServer.dhcpServer) : Prop := DhcpServer.fd self' = DhcpServer.fd self /\ (table_ok (DhcpServer.entries self) -> table_ok (DhcpServer.entries self')).

Lemma same_server_refl self : same_server self self.
Proof. unfold same_server. auto. Qed.
#[local] Hint Resolve same_server_refl : core.

Lemma getEntry_same buffer self create : sized buffer -> returns (fun x => same_server self (fst x)) (dhcpServer_getEntry self (skipn header_clientHwAddr buffer) create).
Proof.
  intros Hb w [self' i] w' E. cbn [fst]. split.
  - unfold dhcpServer_getEntry, bind in E. destruct (syscall_out _ _ w) as [[[r ts]| | |] w1]; try discriminate. cbv zeta in E. destruct (getEntry_loop _ _ _ _ _); [|destruct (negb create)]; injection E as <- _ _; reflexivity.
  - intros Hok. rewrite <- (firstn_skipn 6 (skipn header_clientHwAddr buffer)) in E.
    assert (length (firstn 6 (skipn header_clientHwAddr buffer)) = 6%nat) as Hm by (unfold sized, buffer_SIZE in Hb; unfold header_clientHwAddr; rewrite length_firstn, length_skipn; lia).
    destruct (getEntry_spec self _ (skipn 6 (skipn header_clientHwAddr buffer)) create w Hm Hok) as (r & ts & w2 & l' & j & E2 & _ & _ & Hok'). rewrite E in E2. injection E2 as -> _ _. exact Hok'.
Qed.

Lemma server_same buffer self wanDnsIp : sized buffer -> returns (beside (same_server self)) (dhcpServer_onFd buffer self wanDnsIp).
Proof.
  intros Hb. unfold dhcpServer_onFd. eapply returns_bind; [apply (read_sized buffer), Hb|]. intros [n data] H1. cbn [snd] in H1. cbv zeta. destruct (_ <? _); [auto|].
  apply returns_any; intros [o|]; [|auto]. apply returns_any; intros type. destruct (_ && _); [auto|].
  eapply returns_bind; [now apply getEntry_same|]. intros [s i] Hs. cbn [fst] in Hs. destruct (_ <? 0); [auto|]. apply returns_any; intros r. auto.
Qed.

(** A dumper keeps listening, and has a client exactly when it has a packet socket. *)
Definition paired (self : packetDumper) : Prop := PacketDumper.clientFd self < 0 <-> PacketDumper.packetFd self < 0.
Definition same_dumper (self self' : packetDumper) : Prop := PacketDumper.listenFd self' = PacketDumper.listenFd self /\ (paired self -> paired self').

Lemma same_dumper_refl self : same_dumper self self.
Proof. unfold same_dumper. auto. Qed.
#[local] Hint Resolve same_dumper_refl : core.

Lemma stop_same self : returns (same_dumper self) (packetDumper_stop self).
Proof. unfold packetDumper_stop. walk. split; [reflexivity|]. intros _. split; intros _; reflexivity. Qed.

Lemma same_dumper_after self self1 m : same_dumper self self1 -> returns (same_dumper self1) m -> returns (same_dumper self) m.
Proof. intros H. apply returns_weaken. unfold same_dumper in *. intuition congruence. Qed.

Lemma dumper_onListenFd_same self epollFd : returns (same_dumper self) (packetDumper_onListenFd self epollFd).
Proof.
  unfold packetDumper_onListenFd. apply returns_any; intros client. destruct (Z.ltb_spec client 0) as [|Hc]; [auto using returns_pure|]. eapply returns_bind; [apply stop_same|]. intros self1 H1. apply (same_dumper_after _ self1 _ H1).
  apply returns_any; intros packet. cbv zeta. unfold CHECK at 1. destruct (Z.ltb_spec 0 packet) as [Hp|]; [|apply returns_bind with (R := fun _ => False); [auto|contradiction]].
  assert (same_dumper self1 (with_fds self1 client packet)) as H2 by (split; [reflexivity|]; intros _; unfold paired; cbn; lia).
  do 9 (apply returns_any; intros ?). apply returns_any; intros sent. cbv beta. destruct (negb _); [apply (same_dumper_after _ _ _ H2), stop_same|now apply returns_pure].
Qed.

Lemma returns_kernel Q c f : (forall a, Q (f a)) -> returns Q (kernel c f).
Proof. intros Hq w a w' E. destruct (kernel_spec c f w) as (a1 & w1 & E1 & _). rewrite E in E1. injection E1 as -> _. apply Hq. Qed.

Lemma recv_length fd : returns (fun x => (length (snd (snd x)) <= Z.to_nat buffer_SIZE)%nat) (recv_packet fd).
Proof.
  unfold recv_packet. apply returns_bind with (R := fun a => (length (skipn cmsg_SIZE (out a)) <= Z.to_nat buffer_SIZE)%nat).
  - apply returns_kernel. intros a. destruct (ret a <? 0); cbv zeta; cbn [out]; rewrite length_skipn; [cbn [List.length]; lia|]. rewrite length_map, length_firstn. lia.
  - intros a Ha. apply returns_pure. exact Ha.
Qed.

Lemma onPacketFd_same cmsg buffer self : sized buffer -> returns (beside (same_dumper self)) (packetDumper_onPacketFd cmsg buffer self).
Proof.
  intros Hb. unfold packetDumper_onPacketFd. eapply returns_bind; [apply recv_length|]. intros [n [control data]] Hd. cbn [snd] in Hd. cbv zeta. apply returns_any; intros []. apply returns_any; intros r.
  apply returns_bind with (R := same_dumper self); [destruct (negb _); [apply stop_same|now apply returns_pure]|]. intros s Hs. apply beside_pure; [|exact Hs]. apply (sized_copy _ _ _ Hb Hd). unfold buffer_SIZE. lia.
Qed.

(** ** The event loop *)

(** What no event changes, and what every event keeps. *)
Definition keeps (st st' : router) : Prop :=
  epollFd st' = epollFd st /\ genetlinkFd st' = genetlinkFd st /\ acpi st' = acpi st /\ ksmb st' = ksmb st /\ config st' = config st /\ hostapdFd st' = hostapdFd st /\
  same_client (wanDhcpClient st) (wanDhcpClient st') /\ same_client (usbDhcpClient st) (usbDhcpClient st') /\
  same_dumper (wanDumper st) (wanDumper st') /\ same_dumper (lanDumper st) (lanDumper st') /\ same_dumper (usbDumper st) (usbDumper st') /\
  same_server (dhcpServer st) (dhcpServer st') /\ same_timer (modemClient st) (modemClient st') /\ same_telnet (telnetServer st) (telnetServer st').

Lemma same_timer_refl self : same_timer self self.
Proof. reflexivity. Qed.
#[local] Hint Resolve same_timer_refl : core.

Lemma router_keeps_refl st : keeps st st.
Proof. unfold keeps. auto 20. Qed.

Lemma router_keeps_trans st1 st2 st3 : keeps st1 st2 -> keeps st2 st3 -> keeps st1 st3.
Proof.
  unfold keeps, same_client, same_dumper, same_server, same_timer, same_telnet. intros H1 H2.
  repeat match goal with H : _ /\ _ |- _ => destruct H end. repeat match goal with |- _ /\ _ => split end; try congruence; auto.
Qed.

Section Run.
Context `{Linkage} `{Memory} (shared_sized : forall w, sized (shared w)).

Lemma branch_buffer {A} (P : A -> Prop) st (f : A -> router) m : returns (beside P) m -> (forall x, P x -> keeps st (f x)) ->
  returns (beside (keeps st)) (bind m (fun y => let '(b, x) := y in pure (b, f x))).
Proof. intros Hm Hf. eapply returns_bind; [exact Hm|]. intros [b x] [Hb Hx]. apply beside_pure; [exact Hb|exact (Hf x Hx)]. Qed.

Lemma branch_plain {A} (P : A -> Prop) st (f : A -> router) buffer m : sized buffer -> returns P m -> (forall x, P x -> keeps st (f x)) ->
  returns (beside (keeps st)) (bind m (fun x => pure (buffer, f x))).
Proof. intros Hb Hm Hf. eapply returns_bind; [exact Hm|]. intros x Hx. apply beside_pure; [exact Hb|exact (Hf x Hx)]. Qed.

Lemma branch_over {A} (P : A -> Prop) st (f : A -> router) m : returns P m -> (forall x, P x -> keeps st (f x)) ->
  returns (beside (keeps st)) (bind m (fun x => bind overwritten (fun b => pure (b, f x)))).
Proof.
  intros Hm Hf. eapply returns_bind; [exact Hm|]. intros x Hx. apply returns_bind with (R := sized); [intros w b w' E; injection E as <- _; apply shared_sized|].
  intros b Hb. apply beside_pure; [exact Hb|exact (Hf x Hx)].
Qed.

Section Updates.
Context (st : router).
Ltac update := intros Hx; unfold keeps; repeat match goal with |- _ /\ _ => split end; first [exact Hx | reflexivity | apply same_client_refl | apply same_dumper_refl | apply same_server_refl | apply same_telnet_refl].

Lemma keeps_wan x : same_client (wanDhcpClient st) x -> keeps st (with_wanDhcpClient st x).
Proof. update. Qed.
Lemma keeps_usb x : same_client (usbDhcpClient st) x -> keeps st (with_usbDhcpClient st x).
Proof. update. Qed.
Lemma keeps_wanDumper x : same_dumper (wanDumper st) x -> keeps st (with_wanDumper st x).
Proof. update. Qed.
Lemma keeps_lanDumper x : same_dumper (lanDumper st) x -> keeps st (with_lanDumper st x).
Proof. update. Qed.
Lemma keeps_usbDumper x : same_dumper (usbDumper st) x -> keeps st (with_usbDumper st x).
Proof. update. Qed.
Lemma keeps_server x : same_server (dhcpServer st) x -> keeps st (with_dhcpServer st x).
Proof. update. Qed.
Lemma keeps_modem x : same_timer (modemClient st) x -> keeps st (with_modemClient st x).
Proof. update. Qed.
Lemma keeps_telnet x : same_telnet (telnetServer st) x -> keeps st (with_telnetServer st x).
Proof. update. Qed.
End Updates.

Lemma on_packet_same buffer self : sized buffer -> returns (beside (same_dumper self)) (on_packet buffer self).
Proof. intros Hb. unfold on_packet. apply (returns_world _ (fun w => packetDumper_onPacketFd (stack w) buffer self)). intros w. now apply onPacketFd_same. Qed.

Lemma modem_event_same self wan : returns (same_timer self) (modem_event self wan).
Proof. unfold modem_event. apply (returns_world _ (fun w => modemClient_onFd (S (S (length (answers w)))) self (leasedIp wan) (leasedIpNetmask wan))). intros w. apply onFd_timer. Qed.

Lemma dispatch_keeps buffer st event : sized buffer -> returns (beside (keeps st)) (dispatch buffer st event).
Proof.
  intros Hb. unfold dispatch.
  destruct (_ =? _); [eapply returns_bind; [now apply ksmb_sized|intros b H1; apply beside_pure; [exact H1|apply router_keeps_refl]]|].
  destruct (_ =? _); [exact (branch_buffer _ st _ _ (onFd_same _ _ _ Hb) (keeps_wan st))|].
  destruct (_ =? _); [exact (branch_buffer _ st _ _ (onTimer_same _ _ _ Hb) (keeps_wan st))|].
  destruct (_ =? _); [exact (branch_buffer _ st _ _ (onFd_same _ _ _ Hb) (keeps_usb st))|].
  destruct (_ =? _); [exact (branch_buffer _ st _ _ (onTimer_same _ _ _ Hb) (keeps_usb st))|].
  destruct (_ =? _); [exact (branch_buffer _ st _ _ (server_same _ _ _ Hb) (keeps_server st))|].
  destruct (_ =? _); [exact (branch_plain _ st _ _ _ Hb (dumper_onListenFd_same _ _) (keeps_wanDumper st))|].
  destruct (_ =? _); [exact (branch_buffer _ st _ _ (on_packet_same _ _ Hb) (keeps_wanDumper st))|].
  destruct (_ =? _); [exact (branch_plain _ st _ _ _ Hb (stop_same _) (keeps_wanDumper st))|].
  destruct (_ =? _); [exact (branch_plain _ st _ _ _ Hb (dumper_onListenFd_same _ _) (keeps_lanDumper st))|].
  destruct (_ =? _); [exact (branch_buffer _ st _ _ (on_packet_same _ _ Hb) (keeps_lanDumper st))|].
  destruct (_ =? _); [exact (branch_plain _ st _ _ _ Hb (stop_same _) (keeps_lanDumper st))|].
  destruct (_ =? _); [exact (branch_plain _ st _ _ _ Hb (dumper_onListenFd_same _ _) (keeps_usbDumper st))|].
  destruct (_ =? _); [exact (branch_buffer _ st _ _ (on_packet_same _ _ Hb) (keeps_usbDumper st))|].
  destruct (_ =? _); [exact (branch_plain _ st _ _ _ Hb (stop_same _) (keeps_usbDumper st))|].
  destruct (_ =? _); [exact (branch_plain _ st _ _ _ Hb (onTimerFd_timer _ _) (keeps_modem st))|].
  destruct (_ =? _); [exact (branch_plain _ st _ _ _ Hb (modem_event_same _ _) (keeps_modem st))|].
  destruct (_ =? _); [exact (branch_plain _ st _ _ _ Hb (onListenFd_same _ _) (keeps_telnet st))|].
  destruct (_ =? _); [exact (branch_over _ st _ _ (onPtMasterFd_same _) (keeps_telnet st))|].
  destruct (_ =? _); [exact (branch_over _ st _ _ (onClientFd_same _) (keeps_telnet st))|].
  apply beside_pure; [exact Hb|apply router_keeps_refl].
Qed.

(** The event the kernel reports is what it stored, over a zero. *)
Definition reported (data : list Z) : Z := i32 (le_combine (mem_copy (repeat 0 4) 0 data)).

Lemma router_wait_spec epollFd w event w' : wait_event epollFd w = (Done event, w') ->
  exists data, adds w w' [(Sys_epoll_pwait epollFd, Answer 1 data)] /\ reported data = event.
Proof.
  unfold wait_event. destruct (syscall_out_spec (Sys_epoll_pwait epollFd) 4 w) as (r & data & w1 & E & Ha & _). rewrite (bind_done _ _ _ _ _ E). intros E1.
  destruct (Z.eqb_spec r 1) as [->|]; [|discriminate]. injection E1 as <- <-. exists data. split; [exact Ha|reflexivity].
Qed.

Lemma loop_keeps : forall fuel buffer st w buffer' st' w', sized buffer -> event_loop fuel buffer st w = (Done (buffer', st'), w') ->
  sized buffer' /\ keeps st st' /\ exists t data, trace w' = t ++ [(Sys_epoll_pwait (epollFd st), Answer 1 data)] /\ reported data = Netlink.netlinkFd (acpi st).
Proof.
  induction fuel as [|fuel IH]; intros buffer st w buffer' st' w' Hb E; [discriminate|]. cbn [event_loop] in E. unfold bind at 1 in E.
  destruct (wait_event (epollFd st) w) as [[event| | |] w1] eqn:E1; try discriminate. destruct (router_wait_spec _ _ _ _ E1) as (data & Ha & Hd).
  destruct (Z.eqb_spec event (Netlink.netlinkFd (acpi st))) as [Hev|_].
  - injection E as <- <- <-. split; [exact Hb|]. split; [apply router_keeps_refl|]. exists (trace w), data. split; [exact Ha|congruence].
  - destruct (_ || _); [discriminate|]. unfold bind in E. destruct (dispatch buffer st event w1) as [[[b1 st1]| | |] w2] eqn:E2; try discriminate.
    destruct (dispatch_keeps buffer st event Hb w1 (b1, st1) w2 E2) as [H1 H2]. cbn [fst snd] in *.
    destruct (IH b1 st1 w2 buffer' st' w' H1 E) as (H3 & H4 & t & d & H5 & H6). split; [exact H3|]. split; [exact (router_keeps_trans _ _ _ H2 H4)|].
    destruct H2 as (K1 & _ & K3 & _). exists t, d. rewrite <- K1, <- K3. auto.
Qed.
End Run.

(** ** The shutdown *)

Lemma balanced_frames {A} h l (Q : A -> list Z) m : balanced h Q m -> balanced (h ++ l) (fun a => Q a ++ l) m.
Proof.
  intros Hm w. destruct (Hm w) as (es & H1 & H2). exists es. split; [exact H1|]. intros a Ha. specialize (H2 a Ha). unfold account in *. rewrite <- !app_assoc.
  rewrite (Permutation_app_comm l), (Permutation_app_comm l (flat_map closed es)), !app_assoc. now apply Permutation_app_tail.
Qed.

(** A part that gives back all it had, and what comes after it. *)
Lemma balanced_give {A B} h l (Q : B -> list Z) (m : M A) f : balanced h (fun _ => []) m -> (forall a, balanced l Q (f a)) -> balanced (h ++ l) Q (bind m f).
Proof. intros Hm Hf. eapply balanced_bind; [apply balanced_frames, Hm|exact Hf]. Qed.

Definition telnet_owned (self : Telnet.telnetServer) : list Z := (if 0 <=? Telnet.clientFd self then [Telnet.clientFd self] else []) ++ [Telnet.pidFd self; Telnet.listenFd self; Telnet.ptMasterFd self].
Definition modem_owned (self : Modem.modemClient) : list Z := (if 0 <? Modem.fd self then [Modem.fd self] else []) ++ [Modem.timerFd self].
Definition dumper_owned (self : packetDumper) : list Z := PacketDumper.held self ++ [PacketDumper.listenFd self].
Definition client_owned (self : dhcpClient) : list Z := [DhcpClient.timerFd self; DhcpClient.fd self].

(** What the components hold when the loop is left, without the DHCP clients' packet
    sockets and epoll's descriptor, which end with the process. *)
Definition owned (st : router) : list Z :=
  telnet_owned (telnetServer st) ++ modem_owned (modemClient st) ++ [DhcpServer.fd (dhcpServer st)] ++ dumper_owned (lanDumper st) ++ dumper_owned (wanDumper st) ++
  (if 0 <=? PacketDumper.listenFd (usbDumper st) then dumper_owned (usbDumper st) else []) ++ (if 0 <=? DhcpClient.fd (usbDhcpClient st) then client_owned (usbDhcpClient st) else []) ++
  client_owned (wanDhcpClient st) ++ (if 0 <? hostapdFd st then [hostapdFd st] else []) ++ [rtnetlinkFd (config st)] ++ [Ksmb.netlinkFd (ksmb st)] ++ [Netlink.netlinkFd (acpi st)] ++ [genetlinkFd st].

Lemma balanced_writeAll h fd data : balanced h (fun _ => h) (writeAll fd data).
Proof. apply balanced_emits, emits_writeAll. intros ? ? ?. split; reflexivity. Qed.

Lemma balanced_printNum h text n : balanced h (fun _ => h) (debug_printNum text n).
Proof.
  unfold debug_printNum. eapply balanced_bind; [apply balanced_writeAll|intros a]. cbv zeta. destruct (util_intToStr _ _ _) as [print pos]. eapply balanced_bind; [apply balanced_writeAll|intros b]. now apply balanced_pure.
Qed.

Lemma close_then {A} fd l (Q : A -> list Z) f : (forall r, balanced l Q (f r)) -> balanced (fd :: l) Q (bind (sys_close fd) f).
Proof. intros Hf. eapply balanced_bind; [apply balanced_close|exact Hf]. Qed.

Lemma done_balanced {A} (a : A) : balanced [] (fun _ => []) (pure a).
Proof. now apply balanced_pure. Qed.

Ltac closes := repeat (apply close_then; intros ?); try apply done_balanced.

Lemma telnet_returned self : balanced (telnet_owned self) (fun _ => []) (telnetServer_deinit self).
Proof.
  unfold telnetServer_deinit, telnet_owned, _telnetServer_kickClient. destruct (0 <=? _).
  - cbn [app]. eapply balanced_bind with (R := fun s => [Telnet.pidFd s; Telnet.listenFd s; Telnet.ptMasterFd s]); [apply close_then; intros r; now apply balanced_pure|]. intros s. closes.
  - cbn [app]. eapply balanced_bind; [now apply (balanced_pure _ (fun s => [Telnet.pidFd s; Telnet.listenFd s; Telnet.ptMasterFd s]))|]. intros s. closes.
Qed.

Lemma modem_returned `{Linkage} self : balanced (modem_owned self) (fun _ => []) (modemClient_deinit self).
Proof.
  unfold modemClient_deinit, modem_owned, modemClient_disconnect. destruct (0 <? _).
  - cbn [app]. eapply balanced_bind with (R := fun s => [Modem.timerFd s]); [|intros s; closes].
    eapply balanced_bind; [apply balanced_syscall; intros ?; split; reflexivity|intros r]. eapply balanced_bind; [apply balanced_printNum|intros u]. cbv beta. apply close_then. intros r2. now apply balanced_pure.
  - cbn [app]. eapply balanced_bind; [now apply (balanced_pure _ (fun s => [Modem.timerFd s]))|]. intros s. closes.
Qed.

Lemma dumper_returned self : balanced (dumper_owned self) (fun _ => []) (packetDumper_deinit self).
Proof.
  unfold packetDumper_deinit, dumper_owned. eapply balanced_bind with (R := fun s => [PacketDumper.listenFd s]).
  - unfold packetDumper_stop, PacketDumper.held. destruct (0 <=? _); cbn [app]; [|now apply balanced_pure].
    apply close_then; intros r1. apply close_then; intros r2. now apply balanced_pure.
  - intros s. closes.
Qed.

Lemma client_returned self : balanced (client_owned self) (fun _ => []) (dhcpClient_deinit self).
Proof. unfold dhcpClient_deinit, client_owned. closes. Qed.

Lemma ksmb_returned self : balanced [Ksmb.netlinkFd self] (fun _ => []) (ksmb_deinit self).
Proof.
  unfold ksmb_deinit. apply close_then; intros r. eapply balanced_bind; [apply balanced_open; reflexivity|intros fd]. unfold gained. cbv beta. destruct (0 <=? fd); [|apply done_balanced].
  eapply balanced_bind; [apply balanced_syscall; intros ?; split; reflexivity|intros n]. cbv beta. closes.
Qed.

Lemma unmount_balanced : balanced [] (fun _ => []) disk_unmount.
Proof.
  intros w. unfold disk_unmount. generalize (S (length (answers w))). intros fuel. revert w. induction fuel as [|fuel IH]; [exact (balanced_stop [] (fun _ : unit => []) unfinished (emits_unfinished _) ltac:(discriminate))|].
  cbn [unmount_loop]. refine (_ : balanced [] (fun _ => []) (bind _ _)). eapply balanced_bind; [apply balanced_syscall; intros ?; split; reflexivity|intros status]. cbv beta. destruct (status =? 0); [apply done_balanced|].
  eapply balanced_bind; [apply balanced_printNum|intros u]. cbv beta. eapply balanced_bind; [apply balanced_syscall; intros ?; split; reflexivity|intros r]. cbv beta. apply balanced_CHECK. intros _. exact IH.
Qed.

Lemma shutdown_balanced `{Linkage} st : balanced (owned st) (fun _ => []) (shutdown st).
Proof.
  unfold shutdown, owned. apply balanced_give; [apply telnet_returned|intros _]. apply balanced_give; [apply modem_returned|intros _]. apply balanced_give; [unfold dhcpServer_deinit; closes|intros _].
  do 2 (apply balanced_give; [apply dumper_returned|intros _]).
  apply balanced_give; [destruct (0 <=? _); [apply dumper_returned|apply done_balanced]|intros _]. apply balanced_give; [destruct (0 <=? _); [apply client_returned|apply done_balanced]|intros _].
  apply balanced_give; [apply client_returned|intros _]. apply balanced_give; [unfold hostapd_deinit; destruct (0 <? _); closes|intros _].
  apply balanced_give; [unfold config_deinit; closes|intros _]. apply balanced_give; [apply ksmb_returned|intros _]. apply balanced_give; [unfold acpi_deinit; closes|intros _].
  apply (balanced_give [genetlinkFd st] []); [unfold genetlink_deinit; closes|intros _]. apply unmount_balanced.
Qed.

(** It always comes to the unmounting, and that ends with the disk unmounted unless
    the clock fails. *)
Definition total {A} (m : M A) : Prop := forall w, exists a w', m w = (Done a, w').

Lemma total_pure {A} (a : A) : total (pure a).
Proof. intros w. exists a, w. reflexivity. Qed.

Lemma total_bind {A B} (m : M A) (f : A -> M B) : total m -> (forall a, total (f a)) -> total (bind m f).
Proof. intros Hm Hf w. destruct (Hm w) as (a & w1 & E). destruct (Hf a w1) as (b & w2 & E2). exists b, w2. now rewrite (bind_done _ _ _ _ _ E). Qed.

Lemma total_syscall c : total (syscall c).
Proof. intros w. destruct (syscall_spec c w) as (r & w' & E & _). eauto. Qed.

Lemma total_printNum text n : total (debug_printNum text n).
Proof.
  unfold debug_printNum. apply total_bind; [intros w; destruct (writeAll_done util_STDERR text w) as (r & w' & es & E & _); eauto|]. intros r. cbv zeta. destruct (util_intToStr _ _ _) as [print pos].
  apply total_bind; [intros w; match goal with |- context [writeAll ?f ?d w] => destruct (writeAll_done f d w) as (r1 & w' & es & E & _) end; eauto|]. intros r1. apply total_pure.
Qed.

Ltac totals := unfold sys_close, sys_write; repeat first [apply total_pure | apply total_syscall | apply total_printNum | apply total_bind; [|intros ?] | match goal with |- total (if ?b then _ else _) => destruct b end].

Lemma util_writeAll_answers fd : forall fuel data w, (length (answers (fst (util_writeAll fuel w fd data))) <= length (answers w))%nat.
Proof.
  induction fuel as [|fuel IH]; intros data w; [apply le_n|]. cbn [util_writeAll]. destruct data as [|b data]; [apply le_n|]. cbn [List.length Nat.ltb Nat.leb].
  unfold Io.sys_write, router_file_ops. destruct (syscall_spec (Sys_write fd (b :: data)) w) as (r & w' & E & _). rewrite E.
  assert (length (answers w') <= length (answers w))%nat as Hle by (unfold syscall, kernel, bind, pure in E; destruct (answers w) as [|a rest] eqn:Ea; injection E as _ <-; cbn [answers List.length]; lia).
  destruct (r <? 0); [destruct (_ =? _)|]; cbn [fst]; [etransitivity; [apply IH|exact Hle]|exact Hle|etransitivity; [apply IH|exact Hle]].
Qed.

Lemma printNum_answers text n w : (length (answers (snd (debug_printNum text n w))) <= length (answers w))%nat.
Proof.
  assert (forall fd data w, (length (answers (snd (writeAll fd data w))) <= length (answers w))%nat) as Hw.
  { intros fd data w0. unfold writeAll. pose proof (util_writeAll_answers fd (S (S (length (answers w0)) + length data)) data w0) as H. destruct (util_writeAll _ w0 fd data) as [w1 [r|]]; exact H. }
  unfold debug_printNum. pose proof (Hw util_STDERR text w) as H1. unfold bind at 1. destruct (writeAll_done util_STDERR text w) as (r & w1 & es & E & _). rewrite E in *. cbn [snd] in H1. cbv zeta.
  destruct (util_intToStr _ _ _) as [print pos]. unfold bind, pure. match goal with |- context [writeAll ?f ?d w1] => pose proof (Hw f d w1) as H2; destruct (writeAll_done f d w1) as (r1 & w2 & es2 & E2 & _); rewrite E2 in * end.
  cbn [snd] in *. lia.
Qed.

Lemma syscall_none c t : syscall c (World [] t) = (Done (- EIO), World [] (t ++ [(c, Answer (- EIO) [])])).
Proof. reflexivity. Qed.

Definition unmounted (w : world) : Prop := exists t, trace w = t ++ [(Sys_umount2 (str "/disk") 0, Answer 0 [])].

Lemma unmount_ends : forall fuel w, (length (answers w) < fuel)%nat ->
  exists w', unmount_loop fuel w = (Done tt, w') /\ unmounted w' \/ unmount_loop fuel w = (Fatal, w').
Proof.
  induction fuel as [|fuel IH]; intros w Hf; [lia|]. cbn [unmount_loop]. destruct (syscall_spec (Sys_umount2 (str "/disk") 0) w) as (status & w1 & E1 & Ha). rewrite (bind_done _ _ _ _ _ E1).
  assert (length (answers w1) <= pred (length (answers w)))%nat as L1 by (unfold syscall, kernel, bind, pure in E1; destruct (answers w) as [|a rest]; injection E1 as _ <-; cbn [answers List.length]; lia).
  assert (answers w = [] -> answers w1 = []) as L0 by (intros Hn; unfold syscall, kernel, bind, pure in E1; rewrite Hn in E1; injection E1 as _ <-; reflexivity).
  destruct (Z.eqb_spec status 0) as [->|_]; [exists w1; left; split; [reflexivity|]; exists (trace w); exact Ha|].
  destruct (total_printNum (str "Failed to unmount /disk") status w1) as (u & w2 & E2). pose proof (printNum_answers (str "Failed to unmount /disk") status w1) as L2. rewrite E2 in L2. cbn [snd] in L2. rewrite (bind_done _ _ _ _ _ E2).
  destruct w2 as [[|[r2 o2] rest2] t2].
  - rewrite (bind_done _ _ _ _ _ (syscall_none _ t2)). eexists. right. reflexivity.
  - rewrite (bind_done _ _ _ _ _ (syscall_answer _ r2 o2 rest2 t2)).
    unfold CHECK. destruct (_ =? 0); [|eexists; right; reflexivity]. rewrite bind_pure. apply IH. cbn [answers List.length] in *. assert (answers w <> []) as Hne by (intros Hn; rewrite (L0 Hn) in L2; cbn in L2; lia).
    destruct (answers w); [congruence|]. cbn [List.length pred] in *. lia.
Qed.

Lemma shutdown_ends `{Linkage} st w : exists w', shutdown st w = (Done tt, w') /\ unmounted w' \/ shutdown st w = (Fatal, w').
Proof.
  unfold shutdown. repeat match goal with
  | |- exists w', bind ?m _ ?w = _ /\ _ \/ _ => let T := fresh in assert (total m) as T;
      [unfold telnetServer_deinit, _telnetServer_kickClient, modemClient_deinit, modemClient_disconnect, dhcpServer_deinit, packetDumper_deinit, packetDumper_stop, dhcpClient_deinit, hostapd_deinit, config_deinit, ksmb_deinit, acpi_deinit, genetlink_deinit; totals
      |let E := fresh "E" in destruct (T w) as (? & ? & E); rewrite (bind_done _ _ _ _ _ E); clear T E]
  end.
  unfold disk_unmount. apply unmount_ends. lia.
Qed.

(** C6: A run of the router's event loop that ends, ends because epoll reported the
    descriptor of the ACPI events, whatever events came before and whatever the kernel
    answered; and that report ends it at once.  Then every component still has the
    descriptors it was started with, every packet dumper has a packet socket exactly when
    it has a client, and the DHCP server's table is in order. *)
Theorem router_run_correct `{Linkage} `{Memory} (shared_sized : forall w, sized (shared w)) fuel buffer st w :
  sized buffer -> table_ok (DhcpServer.entries (dhcpServer st)) -> paired (wanDumper st) -> paired (lanDumper st) -> paired (usbDumper st) ->
  (forall buffer' st' w', event_loop fuel buffer st w = (Done (buffer', st'), w') ->
     (exists t data, trace w' = t ++ [(Sys_epoll_pwait (epollFd st), Answer 1 data)] /\ reported data = Netlink.netlinkFd (acpi st)) /\
     keeps st st' /\ sized buffer' /\ table_ok (DhcpServer.entries (dhcpServer st')) /\ paired (wanDumper st') /\ paired (lanDumper st') /\ paired (usbDumper st')) /\
  (forall data a t, w = World (Answer 1 data :: a) t -> bytes data -> (length data <= 4)%nat -> reported data = Netlink.netlinkFd (acpi st) -> (0 < fuel)%nat ->
     event_loop fuel buffer st w = (Done (buffer, st), World a (t ++ [(Sys_epoll_pwait (epollFd st), Answer 1 data)]))).
Proof.
  intros Hb Ht Hp1 Hp2 Hp3. split.
  - intros buffer' st' w' E. destruct (loop_keeps shared_sized fuel buffer st w buffer' st' w' Hb E) as (H1 & H2 & H3). split; [exact H3|]. split; [exact H2|]. split; [exact H1|].
    destruct H2 as (_ & _ & _ & _ & _ & _ & _ & _ & [_ D1] & [_ D2] & [_ D3] & [_ S1] & _). auto.
  - intros data a t -> Hd Hl He Hf. destruct fuel as [|fuel]; [lia|]. cbn [event_loop]. unfold wait_event. rewrite bind_assoc, (bind_done _ _ _ _ _ (syscall_out_answer _ 4 1 data a t Hd Hl)).
    cbv beta iota. change (CHECK (1 =? 1)) with (pure tt). rewrite bind_assoc, !bind_pure. fold (reported data). rewrite He, Z.eqb_refl. reflexivity.
Qed.


(** ** Instances of the theorems *)

Definition demo_memory : Memory := {| shared := fun _ => repeat 0 (Z.to_nat buffer_SIZE); stack := fun _ => repeat 0 cmsg_SIZE |}.
Definition demo_dumper (fd : Z) : packetDumper := PacketDumper (repeat 0 ifreq_SIZE) fd (-1) (-1) 100 100.
(** The clients have descriptors 10 and 11, the server has 20, the ACPI events come from 4. *)
Definition demo_router : router :=
  Router 30 3 (Acpi 4 1) (Ksmb.Ksmb 5 20) (Config 6 21 (repeat 0 32)) (-1)
    (DhcpClient 10 12 11 0 41 0 0 100 100 (str "wan" ++ 0 :: repeat 0 12) [2; 4; 6; 8; 10; 12] 0) no_dhcpClient (demo_dumper 15) (demo_dumper 16) no_dumper
    (DhcpServer (repeat 0 40) (le_combine router_ip) 20 101 fresh_table)
    (ModemClient (str "/dev/ttyUSB2") (-1) 22 0 0 (repeat 0 4096) (repeat 0 4103) false) (TelnetServer 25 26 (-1) 27 (repeat 0 saved_SIZE)).

Lemma demo_sized (w : world) : sized (@shared demo_memory w).
Proof. unfold sized, demo_memory, shared. rewrite repeat_length. reflexivity. Qed.

(** A client of the telnet server is accepted; then the power button is pressed. *)
Lemma router_run_correct_witness :
  let buffer := repeat 0 (Z.to_nat buffer_SIZE) in
  let press := Answer 1 (le_split 4 4) in
  let w := World [Answer 1 (le_split 4 26); Answer 28 []; Answer 9 []; Answer 0 []; press] [] in
  (exists st' w', @event_loop example_linkage demo_memory 3 buffer demo_router w = (Done (buffer, st'), w') /\ Telnet.clientFd (telnetServer st') = 28 /\ keeps demo_router st') /\
  @event_loop example_linkage demo_memory 1 buffer demo_router (World [press] []) = (Done (buffer, demo_router), World [] [(Sys_epoll_pwait 30, press)]).
Proof.
  intros buffer press w. assert (sized buffer) as Hb by (unfold sized, buffer; rewrite repeat_length; reflexivity). clearbody buffer.
  assert (forall fd, paired (demo_dumper fd)) as Hp by (intros fd; unfold paired; cbn; lia). assert (paired no_dumper) as Hn by (unfold paired; cbn; lia).
  split.
  - destruct (@router_run_correct example_linkage demo_memory demo_sized 3 buffer demo_router w Hb fresh_ok (Hp 15) (Hp 16) Hn) as [Hr _].
    eexists _, _. split; [reflexivity|]. split; [reflexivity|]. eapply Hr. reflexivity.
  - destruct (@router_run_correct example_linkage demo_memory demo_sized 1 buffer demo_router (World [press] []) Hb fresh_ok (Hp 15) (Hp 16) Hn) as [_ Hr].
    apply (Hr (le_split 4 4) [] []); [reflexivity|apply bytes_le_split|rewrite length_le_split; lia|reflexivity|lia].
Defined.
