(* ===== verification/RouterLease.v ===== *)
(** * The lease travels through the router

    Two components that only meet in the router: what the DHCP client learns on the WAN
    side the DHCP server tells the clients on the LAN side. *)
From Stdlib Require Import ZArith List Lia Bool String.
From S2P Require Import Prelude Mem Util RouterSys Telnet Modem Netlink Config Dhcp DhcpServer DhcpClient PacketDumper Ksmb Router RouterRun.
Import ListNotations.

Section Lease.
Context `{Linkage} `{Memory}.

(** epoll reports a descriptor. *)
Definition report (st : router) (fd : Z) : event := (Sys_epoll_pwait (epollFd st), Answer 1 (le_split 4 fd)).

Lemma reported_fd fd : 0 <= fd < 2 ^ 31 -> reported (le_split 4 fd) = fd.
Proof.
  intros Hfd. unfold reported. rewrite mem_copy_eq by (rewrite length_le_split; cbn; lia). rewrite length_le_split. cbn [firstn app Nat.add].
  rewrite skipn_all2, app_nil_r by (cbn; lia). rewrite le_combine_split, Z.mod_small by (change (256 ^ Z.of_nat 4) with (2 ^ 32); lia). apply swrap_small; [lia|]. change (2 ^ (32 - 1)) with (2 ^ 31). lia.
Qed.

(** The event belongs to one of the handlers. *)
Definition handled (st : router) (fd : Z) : Prop :=
  0 <= fd < 2 ^ 31 /\ fd <> Netlink.netlinkFd (acpi st) /\ fd <> hostapdFd st /\ fd <> Telnet.pidFd (telnetServer st) /\ fd <> Ksmb.netlinkFd (ksmb st).

Lemma turn fuel buffer st fd a t : handled st fd ->
  event_loop (S fuel) buffer st (World (Answer 1 (le_split 4 fd) :: a) t) =
  bind (dispatch buffer st fd) (fun x => let '(buffer, st) := x in event_loop fuel buffer st) (World a (t ++ [report st fd])).
Proof.
  intros (Hr & H1 & H2 & H3 & _). cbn [event_loop]. unfold wait_event. rewrite bind_assoc, (bind_done _ _ _ _ _ (syscall_out_answer _ 4 1 _ a t (bytes_le_split 4 fd) ltac:(rewrite length_le_split; lia))).
  cbv beta iota. change (CHECK (1 =? 1)) with (pure tt). rewrite bind_assoc, !bind_pure. fold (reported (le_split 4 fd)). rewrite reported_fd by exact Hr.
  apply Z.eqb_neq in H1, H2, H3. rewrite H1, H2, H3. reflexivity.
Qed.

Lemma dispatch_wan buffer st : handled st (DhcpClient.fd (wanDhcpClient st)) ->
  dispatch buffer st (DhcpClient.fd (wanDhcpClient st)) =
  bind (dhcpClient_onFd buffer (wanDhcpClient st) (rtnetlinkFd (config st))) (fun y => let '(b, x) := y in pure (b, with_wanDhcpClient st x)).
Proof. intros (_ & _ & _ & _ & H4). unfold dispatch. apply Z.eqb_neq in H4. now rewrite H4, Z.eqb_refl. Qed.

(** The LAN server's descriptor is none of the clients'. *)
Definition lan_apart (st : router) : Prop :=
  let fd := DhcpServer.fd (dhcpServer st) in
  handled st fd /\ fd <> DhcpClient.fd (wanDhcpClient st) /\ fd <> DhcpClient.timerFd (wanDhcpClient st) /\ fd <> DhcpClient.fd (usbDhcpClient st) /\ fd <> DhcpClient.timerFd (usbDhcpClient st).

Lemma dispatch_lan buffer st : lan_apart st ->
  dispatch buffer st (DhcpServer.fd (dhcpServer st)) =
  bind (dhcpServer_onFd buffer (dhcpServer st) (dnsIp (wanDhcpClient st))) (fun y => let '(b, x) := y in pure (b, with_dhcpServer st x)).
Proof.
  intros ((_ & _ & _ & _ & H4) & H5 & H6 & H7 & H8). cbv zeta in *. unfold dispatch. apply Z.eqb_neq in H4, H5, H6, H7, H8. now rewrite H4, H5, H6, H7, H8, Z.eqb_refl.
Qed.

Context (buffer : list Z) (st : router) (Hsize : Z.of_nat (length buffer) = buffer_SIZE) (Hbytes : bytes buffer).
Context (Hwan : handled st (DhcpClient.fd (wanDhcpClient st))) (Hlan : lan_apart st).
Local Notation self := (wanDhcpClient st).
Local Notation server := (dhcpServer st).
Local Notation rtnetlink := (rtnetlinkFd (config st)).

(** The ACK on the WAN side. *)
Context (header : list Z) (opts : list Bootp.opt) (tail mask gateway leased dns : list Z).
Context (Hheader : Z.of_nat (length header) = dhcp_header_SIZE) (Hok : Forall Bootp.opt_ok opts) (Hstuck : Bootp.stuck tail).
Context (Hmac : length (ifMacAddress self) = 6%nat) (Hmine : mac_of header = ifMacAddress self).
Local Notation packet := (header ++ flat_map Bootp.encode_opt opts ++ tail).
Context (Hpacket : bytes packet) (Hroom : Z.of_nat (length packet) + 2 <= buffer_SIZE).
Context (Htype : Bootp.last_opt dhcp_MESSAGE_TYPE (fun n => n =? 1) opts = Some [dhcp_ACK]) (Hmask : Bootp.last_opt dhcp_SUBNET_MASK (fun n => n =? 4) opts = Some mask)
  (Hgateway : Bootp.last_opt dhcp_ROUTER (fun n => 4 <=? n) opts = Some gateway) (Hleased : Bootp.last_opt dhcp_LEASE_TIME (fun n => n =? 4) opts = Some leased)
  (Hdns : Bootp.last_opt dhcp_DNS (fun n => 4 <=? n) opts = Some dns).
Context (name rest : list Z) (Hip : 0 <= leasedIp self < 2 ^ 32) (Hname : ifName self = name ++ 0 :: rest) (Hnul : no_nul name) (Hlen : (length name <= 15)%nat).

(** What netlink answers. *)
Context (ms1 ms2 : list Nl.msg) (Hne1 : ms1 <> []) (Hok1 : Forall Nl.msg_ok ms1) (Hv1 : Nl.verdict ms1 = true) (Hne2 : ms2 <> []) (Hok2 : Forall Nl.msg_ok ms2) (Hv2 : Nl.verdict ms2 = true).
Local Notation data1 := (flat_map Nl.encode_msg ms1).
Local Notation data2 := (flat_map Nl.encode_msg ms2).
Context (Hd1 : bytes data1) (Hn1 : 16 < Z.of_nat (length data1) <= dhcp_header_SIZE) (Hd2 : bytes data2) (Hn2 : 16 < Z.of_nat (length data2) <= buffer_SIZE).

Definition leased_client : dhcpClient := lease self header mask (Some dns).
Definition lease_text : list Z := leased_text name (field header header_yourIp 4) (leasedIpNetmask leased_client).
Definition is_new : bool := negb (leasedIp self =? leasedIp leased_client).
Definition after_lease : router := with_wanDhcpClient st leased_client.

Definition wan_events : list event :=
  [report st (DhcpClient.fd self); (Sys_read (DhcpClient.fd self) buffer_SIZE, Answer (Z.of_nat (length packet)) packet); timer_set self (half_lease (le_combine (rev leased)))] ++
  (if is_new then [(Sys_write 2 lease_text, Answer (Z.of_nat (length lease_text)) [])] else []) ++
  [add_address leased_client rtnetlink (field header header_yourIp 4); receive_event rtnetlink data1; add_route leased_client rtnetlink (firstn 4 gateway); receive_event rtnetlink data2].

Definition leased_buffer : list Z := mem_copy (mem_copy (mem_copy buffer 0 packet) 0 data1) 0 data2.

Lemma leased_buffer_ok : Z.of_nat (length leased_buffer) = buffer_SIZE /\ bytes leased_buffer.
Proof using All.
  unfold leased_buffer, dhcp_header_SIZE, buffer_SIZE in *. assert (length (mem_copy buffer 0 packet) = length buffer) as L1 by (apply length_mem_copy; lia).
  assert (length (mem_copy (mem_copy buffer 0 packet) 0 data1) = length buffer) as L2 by (rewrite length_mem_copy; lia).
  split; [rewrite length_mem_copy; lia|]. now repeat apply bytes_mem_copy.
Qed.

(** The first turn. *)
Lemma wan_turn fuel a t : exists answers, answers = map snd wan_events /\
  event_loop (S fuel) buffer st (World (answers ++ a) t) = event_loop fuel leased_buffer after_lease (World a (t ++ wan_events)).
Proof using All.
  eexists. split; [reflexivity|]. unfold wan_events. rewrite !map_app, <- !app_assoc. cbn [map snd app report]. rewrite turn by exact Hwan. rewrite dispatch_wan by exact Hwan.
  rewrite bind_assoc.
  pose proof (ack_spec buffer self rtnetlink header opts tail Hsize Hbytes Hheader Hok Hstuck Hmac Hpacket Hroom mask gateway leased ms1 ms2 name rest [] [] [] [] (Z.of_nat (length data1)) (Z.of_nat (length data2)) a
    ((t ++ [report st (DhcpClient.fd self)]) ++ [(Sys_read (DhcpClient.fd self) buffer_SIZE, Answer (Z.of_nat (length packet)) packet)])
    Hmask Hgateway Hleased Hip Hname Hnul Hlen Hne1 Hok1 Hv1 Hne2 Hok2 Hv2 ltac:(lia) Hd1 Hn1 ltac:(lia) Hd2 Hn2) as Hack.
  cbv zeta in Hack. rewrite Hdns in Hack. fold leased_client lease_text in Hack. fold is_new in Hack.
  rewrite <- (onFd_ack buffer self rtnetlink header opts tail Hsize Hbytes Hheader Hok Hstuck Hmac Hpacket Hroom (Z.of_nat (length packet)) _ _ ltac:(lia) Hmine Htype) in Hack.
  assert (map snd (if is_new then [(Sys_write 2 lease_text, Answer (Z.of_nat (length lease_text)) [])] else []) = (if is_new then [Answer (Z.of_nat (length lease_text)) []] else [])) as -> by (destruct is_new; reflexivity).
  rewrite (bind_done _ _ _ _ _ Hack). rewrite bind_pure. fold leased_buffer after_lease. do 2 f_equal. rewrite <- !app_assoc. reflexivity.
Qed.

Lemma last_opt_bytes code p l d : Forall Bootp.opt_ok l -> Bootp.last_opt code p l = Some d -> bytes d.
Proof using.
  induction 1 as [|o l (_ & Hb & _) _ IH]; [discriminate|]. rewrite last_opt_cons. destruct (Bootp.last_opt code p l); [exact IH|]. destruct (Bootp.matches code p o); [|discriminate]. now intros [= <-].
Qed.

(** C5: The WAN's name server reaches the LAN.  Let the router's event loop get an ACK with
    a name server on its WAN side, and then, from a client on its LAN side, a DISCOVER or
    a REQUEST that the table of leases has a place for.  Then the answer that the LAN client
    is sent is a message that names exactly the name server of that ACK, and the WAN
    interface has got the leased address and the default route before. *)
Theorem router_shares_dns fuel header2 opts2 tail2 type k a t :
  let packet2 := header2 ++ flat_map Bootp.encode_opt opts2 ++ tail2 in
  Z.of_nat (length header2) = dhcp_header_SIZE -> Forall Bootp.opt_ok opts2 -> Bootp.stuck tail2 -> bytes packet2 -> Z.of_nat (length packet2) + 2 <= buffer_SIZE ->
  Bootp.last_opt dhcp_MESSAGE_TYPE (fun n => n =? 1) opts2 = Some [type] -> table_ok (DhcpServer.entries server) ->
  (type = dhcp_DISCOVER \/ type = dhcp_REQUEST /\ lookup (client_mac header2) (DhcpServer.entries server) = Some k) -> le_combine (firstn 4 dns) <> 0 ->
  exists i l' w' clock ts sent, let st' := with_dhcpServer after_lease (with_entries server l') in
    let message := server_message server header2 (type =? dhcp_DISCOVER) i (dnsIp leased_client) in
    event_loop (S (S fuel)) buffer st (World (map snd wan_events ++ Answer 1 (le_split 4 (DhcpServer.fd server)) :: Answer (Z.of_nat (length packet2)) packet2 :: a) t) =
      event_loop fuel (mem_copy leased_buffer 0 packet2) st' w' /\
    trace w' = t ++ wan_events ++ [report st (DhcpServer.fd server); (Sys_read (DhcpServer.fd server) buffer_SIZE, Answer (Z.of_nat (length packet2)) packet2);
      (Sys_clock_gettime CLOCK_MONOTONIC, Answer clock ts);
      (Sys_sendto (DhcpServer.fd server) (Bootp.encode message) MSG_NOSIGNAL (sockaddr_in 68 (destination server header2 i)), Answer sent [])] /\
    Bootp.last_opt dhcp_DNS (fun n => 4 <=? n) (Bootp.options message) = Some (firstn 4 dns) /\ 0 <= i /\ table_ok l'.
Proof using All.
  intros packet2 Hh2 Hok2' Hst2 Hb2 Hroom2 Htype2 Htable Hkind Hdns0.
  destruct leased_buffer_ok as [LB BB]. destruct (wan_turn (S fuel) (Answer 1 (le_split 4 (DhcpServer.fd server)) :: Answer (Z.of_nat (length packet2)) packet2 :: a) t) as (as_ & -> & Hturn). rewrite Hturn. clear Hturn.
  assert (lan_apart after_lease) as Hlan' by exact Hlan. rewrite turn by apply Hlan'. pose proof (dispatch_lan leased_buffer after_lease Hlan') as Hd. change (DhcpServer.fd (dhcpServer after_lease)) with (DhcpServer.fd server) in Hd. rewrite Hd, bind_assoc. clear Hd.
  change (dhcpServer after_lease) with server. change (wanDhcpClient after_lease) with leased_client. change (report after_lease) with (report st).
  destruct (DhcpServer.onFd_spec leased_buffer server (dnsIp leased_client) header2 opts2 tail2 LB BB Hh2 Hok2' Hst2 Htable Hb2 Hroom2 (Z.of_nat (length packet2)) a ((t ++ wan_events) ++ [report st (DhcpServer.fd server)]) ltac:(lia))
    as (server' & es & w' & E & Ha & Hans). fold packet2 in E, Ha.
  rewrite (bind_done _ _ _ _ _ E), bind_pure. unfold DhcpServer.answered in Hans. rewrite Htype2 in Hans.
  assert ((type =? dhcp_DISCOVER) || (type =? dhcp_REQUEST) = true) as Hty by (destruct Hkind as [->|[-> _]]; reflexivity). rewrite Hty in Hans.
  destruct Hans as (clock_ & ts & l' & i & sent & -> & Hheard & Hok' & ->).
  assert (0 <= i) as Hi by (destruct Hheard as [(j & -> & _)|(_ & _ & Hno & Hl)]; [lia|]; destruct Hkind as [->|[_ Hs]]; [discriminate|congruence]).
  exists i, l', w', clock_, ts, sent. cbv zeta. split; [reflexivity|]. destruct (Z.ltb_spec i 0); [lia|]. split; [|split; [|split; [exact Hi|exact Hok']]].
  - unfold adds in Ha. cbn [trace] in Ha. rewrite Ha, <- !app_assoc. reflexivity.
  - assert (dns_server (dnsIp leased_client) = firstn 4 dns) as Ed.
    { unfold leased_client, lease. cbn [dnsIp]. unfold dns_server. apply Z.eqb_neq in Hdns0. rewrite Hdns0.
      pose proof (found_data buffer self rtnetlink header opts tail Hsize Hbytes Hheader Hok Hstuck Hmac Hpacket Hroom dhcp_DNS (fun n => 4 <=? n)) as Hf. rewrite Hdns in Hf. destruct (found opts dhcp_DNS _); [|contradiction].
      destruct Hf as [Hl4 _]. apply Z.leb_le in Hl4. assert (length (firstn 4 dns) = 4%nat) as L4 by (rewrite length_firstn; lia).
      rewrite <- L4 at 1. apply le_split_combine. apply bytes_firstn. exact (last_opt_bytes _ _ _ _ Hok Hdns). }
    unfold server_message. cbn [Bootp.options]. rewrite Ed. unfold Bootp.last_opt. cbn [rev app List.find]. unfold Bootp.matches at 1. cbn [fst snd].
    assert (length (firstn 4 dns) = 4%nat) as -> by (rewrite <- Ed; unfold dns_server; destruct (_ =? 0); reflexivity). reflexivity.
Qed.
End Lease.

(** ** An instance of the theorem *)

(** The ACK names 9.9.9.9; the LAN client is DhcpServer's. *)
Definition demo_options : list Bootp.opt := [(53, [5]); (54, [10; 0; 0; 1]); (1, [255; 255; 255; 0]); (3, [10; 0; 0; 1]); (51, [0; 0; 2; 88]); (6, [9; 9; 9; 9])].

Lemma demo_apart : handled demo_router 10 /\ lan_apart demo_router.
Proof. unfold lan_apart, handled. cbn. repeat split; lia. Qed.

Lemma router_shares_dns_witness :
  let opts2 := [(dhcp_MESSAGE_TYPE, [dhcp_DISCOVER])] in
  table_ok (DhcpServer.entries (dhcpServer demo_router)) /\
  exists i w' clock ts sent before,
    trace w' = before ++ [(Sys_clock_gettime CLOCK_MONOTONIC, Answer clock ts);
      (Sys_sendto 20 (Bootp.encode (server_message (dhcpServer demo_router) demo_header true i (le_combine [9; 9; 9; 9]))) MSG_NOSIGNAL (sockaddr_in 68 (destination (dhcpServer demo_router) demo_header i)), Answer sent [])].
Proof.
  intros opts2. split; [exact fresh_ok|]. destruct ack_facts as (A1 & A2 & A3 & A4 & A5). destruct demo_apart as [W L].
  assert (Forall Bootp.opt_ok demo_options) as Ho by (repeat constructor; unfold is_byte; cbn; lia).
  assert (Forall Bootp.opt_ok opts2) as Ho2 by (repeat constructor; unfold is_byte, dhcp_MESSAGE_TYPE, dhcp_DISCOVER; cbn; lia).
  assert (bytes (demo_reply ++ flat_map Bootp.encode_opt demo_options ++ [255])) as Hp by (apply Forall_forall; intros x Hx; vm_compute in Hx; unfold is_byte; repeat (destruct Hx as [<-|Hx]; [lia|]); contradiction).
  destruct (@router_shares_dns example_linkage demo_memory (repeat 0 (Z.to_nat buffer_SIZE)) demo_router ltac:(rewrite repeat_length; reflexivity) ltac:(apply bytes_repeat; unfold is_byte; lia) W L
    demo_reply demo_options [255] [255; 255; 255; 0] [10; 0; 0; 1] [0; 0; 2; 88] [9; 9; 9; 9] eq_refl Ho I eq_refl eq_refl Hp ltac:(vm_compute; discriminate) eq_refl eq_refl eq_refl eq_refl eq_refl
    (str "wan") (repeat 0 12) ltac:(cbn; lia) eq_refl ltac:(repeat constructor; discriminate) ltac:(cbn; lia) ack ack A1 A2 A3 A1 A2 A3 A4 ltac:(rewrite A5; unfold dhcp_header_SIZE; lia) A4 ltac:(rewrite A5; unfold buffer_SIZE; lia)
    0 demo_header opts2 [dhcp_END] dhcp_DISCOVER 0%nat [] [] eq_refl Ho2 I demo_bytes ltac:(vm_compute; discriminate) eq_refl fresh_ok (or_introl eq_refl) ltac:(vm_compute; discriminate))
    as (i & l' & w' & clock_ & ts & sent & _ & Ht & _).
  exists i, w', clock_, ts, sent. rewrite Ht. match goal with |- exists before, [] ++ ?W ++ [?x; ?y; ?z; ?u] = _ => exists ([] ++ W ++ [x; y]) end. rewrite <- !app_assoc. reflexivity.
Defined.
