(* ===== verification/Ssh.v ===== *)
(** * SSH packets ([src/hc/examples/ssh/client.c], [proto.h])

    The transport of the SSH client: the circular receive buffer, the extraction of
    packets from it, and the sending of packets, in the clear or under
    chacha20-poly1305@openssh.com.  The system calls are those of [RouterSys.v].

    The receive buffer is one file of [bufferSize] bytes mapped twice in a row, so that a
    packet that wraps around is contiguous in memory: [ring] is the file, a load reads
    from [ring ++ ring], and a store is seen in both copies.  A pointer into the buffer is
    its distance from [self->buffer]; a load, store or [hc_ASSUME_ALIGNED] that C leaves
    undefined ends in [undefined].  [stack] is what the uninitialised locals hold. *)
From Stdlib Require Import ZArith List Lia Bool String.
From S2P Require Import Prelude Mem Stream Sha Sha256 Chacha20 Poly1305 RouterSys.
Import ListNotations.

(** The opcodes of [proto.h] that the client uses. *)
Definition proto_MSG_SERVICE_REQUEST : Z := 5.
Definition proto_MSG_SERVICE_ACCEPT : Z := 6.
Definition proto_MSG_KEXINIT : Z := 20.
Definition proto_MSG_NEWKEYS : Z := 21.
Definition proto_MSG_KEX_ECDH_INIT : Z := 30.
Definition proto_MSG_KEX_ECDH_REPLY : Z := 31.

Definition client_MAX_PACKET_SIZE : Z := 35000.
Definition client_MAX_BLOCK_SIZE : Z := 64.
Definition client_MIN_PADDING : Z := 4.
(** [sizeof(struct client_messageHead)] and [sizeof(struct client_messageTail)]. *)
Definition messageHead_SIZE : Z := 5.
Definition messageTail_SIZE : Z := 67 + 16.
Definition client_PADDING_SIZE (payloadSize : Z) : Z :=
  client_MIN_PADDING + (- (4 + 1 + payloadSize + client_MIN_PADDING) & (client_MAX_BLOCK_SIZE - 1)).

Inductive client_encryption := encryption_NONE | encryption_CHACHA20POLY1305.

Definition client_macSize (e : client_encryption) : Z :=
  match e with encryption_NONE => 0 | encryption_CHACHA20POLY1305 => 16 end.

Record client := Client {
  buffer : Z; ring : list Z;
  bufferSize : Z; bufferPos : Z; receivedSize : Z; bufferMemFd : Z;
  receiveSequenceNumber : Z; sendSequenceNumber : Z;
  ciphers : list (list Z);
  partialExchangeHash : sha256; tempHash : sha256; sessionId : list Z;
  socketFd : Z; encryption : client_encryption;
  nextSize : Z }.

Definition with_ring (self : client) (r : list Z) : client :=
  Client (buffer self) r (bufferSize self) (bufferPos self) (receivedSize self) (bufferMemFd self) (receiveSequenceNumber self) (sendSequenceNumber self)
    (ciphers self) (partialExchangeHash self) (tempHash self) (sessionId self) (socketFd self) (encryption self) (nextSize self).
Definition with_received (self : client) (pos received next : Z) : client :=
  Client (buffer self) (ring self) (bufferSize self) pos received (bufferMemFd self) (receiveSequenceNumber self) (sendSequenceNumber self)
    (ciphers self) (partialExchangeHash self) (tempHash self) (sessionId self) (socketFd self) (encryption self) next.
Definition with_sequence (self : client) (receive send : Z) : client :=
  Client (buffer self) (ring self) (bufferSize self) (bufferPos self) (receivedSize self) (bufferMemFd self) receive send
    (ciphers self) (partialExchangeHash self) (tempHash self) (sessionId self) (socketFd self) (encryption self) (nextSize self).
Definition with_ciphers (self : client) (c : list (list Z)) : client :=
  Client (buffer self) (ring self) (bufferSize self) (bufferPos self) (receivedSize self) (bufferMemFd self) (receiveSequenceNumber self) (sendSequenceNumber self)
    c (partialExchangeHash self) (tempHash self) (sessionId self) (socketFd self) (encryption self) (nextSize self).
Definition with_hashes (self : client) (partial temp : sha256) : client :=
  Client (buffer self) (ring self) (bufferSize self) (bufferPos self) (receivedSize self) (bufferMemFd self) (receiveSequenceNumber self) (sendSequenceNumber self)
    (ciphers self) partial temp (sessionId self) (socketFd self) (encryption self) (nextSize self).
Definition with_session (self : client) (id : list Z) (e : client_encryption) : client :=
  Client (buffer self) (ring self) (bufferSize self) (bufferPos self) (receivedSize self) (bufferMemFd self) (receiveSequenceNumber self) (sendSequenceNumber self)
    (ciphers self) (partialExchangeHash self) (tempHash self) id (socketFd self) e (nextSize self).

Definition cipher (self : client) (i : nat) : list Z := nth i (ciphers self) [].
Definition set_cipher (self : client) (i : nat) (c : list Z) : client := with_ciphers self (set (ciphers self) i c).

(** ** The circular buffer *)

(** A store at [i] of the two mappings, of at most [length r] bytes. *)
Definition ring_store (r : list Z) (i : nat) (data : list Z) : list Z :=
  let i := if (i <? length r)%nat then i else (i - length r)%nat in
  let k := Nat.min (length data) (length r - i) in
  mem_copy (mem_copy r i (firstn k data)) 0 (skipn k data).

Definition in_buffer (self : client) (i n : Z) : bool := (0 <=? i) && (0 <=? n) && (i + n <=? 2 * bufferSize self).

Definition buffer_load (self : client) (i n : Z) : M (list Z) :=
  if in_buffer self i n then pure (firstn (Z.to_nat n) (skipn (Z.to_nat i) (ring self ++ ring self))) else undefined.

Definition buffer_store (self : client) (i : Z) (data : list Z) : M client :=
  if in_buffer self i (Z.of_nat (length data)) then pure (with_ring self (ring_store (ring self) (Z.to_nat i) data)) else undefined.

(** [hc_ASSUME_ALIGNED(&self->buffer[i], 4)]; the mapping starts on a page. *)
Definition assume_aligned (i : Z) : M unit := if i mod 4 =? 0 then pure tt else undefined.

Definition client_receive (self : client) : M (Z * client) :=
  let! (numRead, data) := sys_recvfrom (socketFd self) (bufferSize self - receivedSize self) 0 in
  let! self := buffer_store self (bufferPos self + receivedSize self) data in
  pure (numRead, with_received self (bufferPos self) (receivedSize self + numRead) (nextSize self)).

(** ** Encryption *)

(** The inner loop of the encryption, for [n] words: each word of the packet is combined
    with the word of the key stream at the same place. *)
Fixpoint xor_words (n : nat) (data stream : list Z) : list Z :=
  match n with
  | O => []
  | S n => le_split 4 (mem_loadU32 data ^^ mem_loadU32 stream) ++ xor_words n (skipn 4 data) (skipn 4 stream)
  end.

(** [.orig.nonce] and [.orig.blockCounter] of [union chacha20]. *)
Definition cipher_nonce (c : list Z) (sequenceNumber : Z) : list Z := mem_storeU64BE c 56 sequenceNumber.
Definition cipher_counter (c : list Z) (n : Z) : list Z := mem_storeU64 c 48 n.
Definition blockCounter (c : list Z) : Z := mem_loadU64 (skipn 48 c).

(** The loop of [client_sendMessage] and [client_peekMessage] that starts with
    [int32_t offset = 4]: the cipher and the packet after it, [None] without fuel. *)
Fixpoint client_crypt (fuel : nat) (c packet : list Z) (packetSize offset : nat) : option (list Z * list Z) :=
  match fuel with
  | O => None
  | S fuel =>
      let c := cipher_counter c (u64 (blockCounter c + 1)) in
      let stream := chacha20_block c in
      let remaining := (packetSize - offset)%nat in
      let iEnd := if (remaining <? 64)%nat then remaining else 64%nat in
      let packet := mem_copy packet offset (xor_words ((iEnd + 3) / 4) (skipn offset packet) stream) in
      let offset := (offset + iEnd)%nat in
      if (offset =? packetSize)%nat then Some (c, packet) else client_crypt fuel c packet packetSize offset
  end.

Definition crypt (c packet : list Z) (packetSize : nat) : M (list Z * list Z) :=
  match client_crypt (S packetSize) c packet packetSize 4 with Some r => pure r | None => unfinished end.

Section Client.
Context (stack : list Z).

(** [poly1305_init], [poly1305_update] and [poly1305_finish] on a local. *)
Definition packet_mac (key data : list Z) : list Z :=
  poly1305_finish (poly1305_update (poly1305_init (Stream (PolyCore 0 0 0 0 0 0 0 0) (firstn 16 stack) 0) key) data).

(** ** Receiving *)

(** The [switch] that reads the size from its four bytes. *)
Definition client_decodeSize (self : client) (sizeBytes : list Z) : Z * client :=
  match encryption self with
  | encryption_NONE => (bswap 4 (mem_loadU32 sizeBytes), self)
  | encryption_CHACHA20POLY1305 =>
      let c := cipher_nonce (cipher self 3) (receiveSequenceNumber self) in
      let stream := chacha20_block c in
      (bswap 4 (mem_loadU32 sizeBytes ^^ mem_loadU32 stream), set_cipher self 3 c)
  end.

(** The block [if (self->nextSize == 0)] of [client_peekMessage]: a value to return or
    [None] to go on. *)
Definition client_peekSize (self : client) : M (option Z * client) :=
  if negb (nextSize self =? 0) then pure (None, self)
  else if receivedSize self <? 4 then pure (Some 0, self)
  else
    let! sizeBytes := buffer_load self (bufferPos self) 4 in
    let '(size, self) := client_decodeSize self sizeBytes in
    if client_MAX_PACKET_SIZE - 4 - client_macSize (encryption self) <? size then pure (Some (-1), self)
    else if negb (size & 0x3 =? 0) then pure (Some (-2), self)
    else pure (None, with_received self (bufferPos self) (receivedSize self) size).

(** The [switch] that verifies and decrypts. *)
Definition client_open (self : client) (packetSize : Z) : M (option Z * client) :=
  match encryption self with
  | encryption_NONE => pure (None, self)
  | encryption_CHACHA20POLY1305 =>
      let c := cipher_nonce (cipher self 2) (receiveSequenceNumber self) in
      let c := cipher_counter c 0 in
      let stream := chacha20_block c in
      let! packet := buffer_load self (bufferPos self) packetSize in
      let calculatedMac := packet_mac stream packet in
      let! mac := buffer_load self (bufferPos self + packetSize) 16 in
      if negb (mem_compareConstantTime calculatedMac mac 16 =? 0) then pure (Some (-3), set_cipher self 2 c)
      else
        let! (c, packet) := crypt c packet (Z.to_nat packetSize) in
        let! self := buffer_store (set_cipher self 2 c) (bufferPos self) packet in
        pure (None, self)
  end.

(** The result, [*message] (0 when it is not set) and the client. *)
Definition client_peekMessage (self : client) : M (Z * Z * client) :=
  assume_aligned (bufferPos self);;
  if nextSize self <? 0 then
    let! paddingSize := buffer_load self (bufferPos self + 4) 1 in
    pure (- nextSize self - get paddingSize 0 - 1, bufferPos self + 5, self)
  else
    let macSize := client_macSize (encryption self) in
    let! (early, self) := client_peekSize self in
    match early with
    | Some ret => pure (ret, 0, self)
    | None =>
        let packetSize := 4 + nextSize self in
        if receivedSize self <? packetSize + macSize then pure (0, 0, self)
        else
          let! (early, self) := client_open self packetSize in
          match early with
          | Some ret => pure (ret, 0, self)
          | None =>
              let! paddingSize := buffer_load self (bufferPos self + 4) 1 in
              let messageSize := nextSize self - get paddingSize 0 - 1 in
              if messageSize <=? 0 then pure (-4, 0, self)
              else
                let self := with_sequence self (u32 (receiveSequenceNumber self + 1)) (sendSequenceNumber self) in
                pure (messageSize, bufferPos self + 5, with_received self (bufferPos self) (receivedSize self) (- nextSize self))
          end
    end.

Definition client_ackMessage (self : client) : client :=
  let totalSize := - nextSize self + 4 + client_macSize (encryption self) in
  with_received self (Z.rem (bufferPos self + totalSize) (bufferSize self)) (receivedSize self - totalSize) 0.

Definition client_nextMessage (self : client) : M (Z * Z * client) :=
  let! (messageSize, message, self) := client_peekMessage self in
  pure (messageSize, message, if 0 <? messageSize then client_ackMessage self else self).

(** The loop of [client_waitForMessage]. *)
Fixpoint client_waitLoop (fuel : nat) (self : client) : M (Z * Z * client) :=
  match fuel with
  | O => unfinished
  | S fuel =>
      let! (size, message, self) := client_nextMessage self in
      if 0 <? size then pure (size, message, self)
      else if size <? 0 then
        debug_printNum (str "Error waiting for message") size;;
        pure (-1, 0, self)
      else
        let! (size, self) := client_receive self in
        if size <=? 0 then pure (size, 0, self) else client_waitLoop fuel self
  end.

(** Every iteration but the last uses up an answer of the kernel. *)
Definition client_waitForMessage (self : client) : M (Z * Z * client) := fun w => client_waitLoop (S (length (answers w))) self w.

(** ** Sending *)

(** [packetHead]: the object from its head on; [messageSize] bytes follow the head. *)
Definition client_sendMessage (self : client) (packetHead : list Z) (messageSize : Z) : M (Z * client) :=
  let paddingSize := client_PADDING_SIZE messageSize in
  let packetSize := messageHead_SIZE + messageSize + paddingSize in
  let packet := mem_storeU32 packetHead 0 (bswap 4 (u32 (packetSize - 4))) in
  let packet := set packet 4 (u8 paddingSize) in
  let! (self, packet, packetSize) :=
    match encryption self with
    | encryption_NONE => pure (self, packet, packetSize)
    | encryption_CHACHA20POLY1305 =>
        let c1 := cipher_nonce (cipher self 1) (sendSequenceNumber self) in
        let stream := chacha20_block c1 in
        let packet := mem_storeU32 packet 0 (mem_loadU32 packet ^^ mem_loadU32 stream) in
        let c0 := cipher_nonce (cipher self 0) (sendSequenceNumber self) in
        let c0 := cipher_counter c0 0 in
        let! (c0, packet) := crypt c0 packet (Z.to_nat packetSize) in
        let c0 := cipher_counter c0 0 in
        let stream := chacha20_block c0 in
        let mac := packet_mac stream (firstn (Z.to_nat packetSize) packet) in
        let packet := mem_copy packet (Z.to_nat packetSize) mac in
        pure (set_cipher (set_cipher self 1 c1) 0 c0, packet, packetSize + 16)
    end in
  let! numSent := sys_sendto (socketFd self) (firstn (Z.to_nat packetSize) packet) MSG_NOSIGNAL [] in
  if negb (numSent =? packetSize) then pure (-1, self)
  else pure (0, with_sequence self (receiveSequenceNumber self) (u32 (sendSequenceNumber self + 1))).
End Client.
