(* ===== verification/SshPacket.v ===== *)
(** * The packets of the SSH client, and what they must be

    The circular buffer of [Ssh.v] is a plain queue of bytes ([pending]).  [Openssh] is
    the packet format of RFC 4253, section 6, and the cipher
    chacha20-poly1305@openssh.com, over the references of [Chacha20.v] and [Poly1305.v].
    The theorems: what [client_sendMessage] sends is that format; [client_peekMessage]
    takes it apart again, whatever the position in the ring; and messages come out of
    [client_waitForMessage] the same however [recvfrom] cuts the stream. *)
From Stdlib Require Import ZArith List Lia Bool String.
From S2P Require Import Prelude Mem Stream Sha Sha256 Chacha20 Poly1305 RouterSys Ssh.
Import ListNotations.

(** ** The ring as a queue *)

(** The file from position [i] on. *)
Definition rot {A} (i : nat) (r : list A) : list A := skipn i r ++ firstn i r.

Definition pending (self : client) : list Z := firstn (Z.to_nat (receivedSize self)) (rot (Z.to_nat (bufferPos self)) (ring self)).

Lemma length_rot {A} i (r : list A) : length (rot i r) = length r.
Proof. unfold rot. rewrite length_app, length_skipn, length_firstn. lia. Qed.

Lemma bytes_rot i r : bytes r -> bytes (rot i r).
Proof. intros H. apply bytes_app. auto with hc. Qed.

Lemma load_rot (r : list Z) i k n : (i <= length r)%nat -> (k + n <= length r)%nat ->
  firstn n (skipn (i + k) (r ++ r)) = firstn n (skipn k (rot i r)).
Proof.
  intros Hi Hk. rewrite Nat.add_comm, <- skipn_skipn. rewrite (skipn_app i), (proj2 (Nat.sub_0_le i (length r))) by lia. cbn [skipn].
  rewrite <- (firstn_skipn i r) at 2. rewrite app_assoc. fold (rot i r). rewrite skipn_app, length_rot, (proj2 (Nat.sub_0_le k (length r))) by lia. cbn [skipn].
  apply firstn_app_l. rewrite length_skipn, length_rot. lia.
Qed.

Lemma get_rot (r : list Z) i x : (i <= length r)%nat -> get (rot i r) x = if (x <? length r - i)%nat then get r (i + x) else if (x <? length r)%nat then get r (x - (length r - i)) else 0.
Proof.
  intros Hi. unfold rot, get. destruct (Nat.ltb_spec x (length r - i)).
  - rewrite app_nth1 by (rewrite length_skipn; lia). now rewrite nth_skipn.
  - rewrite app_nth2 by (rewrite length_skipn; lia). rewrite length_skipn, nth_firstn. destruct (Nat.ltb_spec x (length r)).
    + now rewrite (proj2 (Nat.ltb_lt _ _)) by lia.
    + now rewrite (proj2 (Nat.ltb_ge _ _)) by lia.
Qed.

Lemma get_ring_copy (d : list Z) off s x : (off + length s <= length d)%nat ->
  get (mem_copy d off s) x = if (x <? off)%nat then get d x else if (x <? off + length s)%nat then get s (x - off) else get d x.
Proof.
  intros H. rewrite mem_copy_eq by exact H. unfold get. destruct (Nat.ltb_spec x off).
  - rewrite app_nth1 by (rewrite length_firstn; lia). rewrite nth_firstn. now rewrite (proj2 (Nat.ltb_lt _ _)) by lia.
  - rewrite app_nth2, length_firstn, Nat.min_l by (rewrite ?length_firstn; lia). destruct (Nat.ltb_spec x (off + length s)).
    + now rewrite app_nth1 by lia.
    + rewrite app_nth2, nth_skipn by lia. f_equal. lia.
Qed.

(** Advancing in the ring. *)
Lemma rot_rot (r : list Z) i k : (i < length r)%nat -> (k <= length r)%nat -> rot ((i + k) mod length r) r = rot k (rot i r).
Proof.
  intros Hi Hk. assert ((i + k) mod length r = if (i + k <? length r)%nat then i + k else i + k - length r)%nat as ->.
  { destruct (Nat.ltb_spec (i + k) (length r)); [now apply Nat.mod_small|]. symmetry. apply (Nat.mod_unique _ _ 1); lia. }
  apply (nth_ext _ _ 0 0); [now rewrite !length_rot|]. intros x Hx. rewrite length_rot in Hx. set (j := if (i + k <? length r)%nat then _ else _).
  assert (j = i + k /\ (j < length r) \/ j + length r = i + k)%nat as Hj by (unfold j; destruct (Nat.ltb_spec (i + k) (length r)); lia). clearbody j.
  change (get (rot j r) x = get (rot k (rot i r)) x). rewrite (get_rot (rot i r)) by (rewrite length_rot; lia). rewrite !length_rot, !get_rot by lia.
  repeat match goal with |- context [(?a <? ?b)%nat] => destruct (Nat.ltb_spec a b); try lia end; try reflexivity; f_equal; lia.
Qed.

Lemma length_ring_store r i data : (i <= 2 * length r)%nat -> (length data <= length r)%nat -> length (ring_store r i data) = length r.
Proof.
  intros Hi Hd. unfold ring_store. set (j := if (i <? length r)%nat then i else (i - length r)%nat).
  assert (j <= length r)%nat by (unfold j; destruct (Nat.ltb_spec i (length r)); lia).
  assert (length (mem_copy r j (firstn (Nat.min (length data) (length r - j)) data)) = length r) as E by (apply length_mem_copy; rewrite length_firstn; lia).
  rewrite length_mem_copy; rewrite E; [reflexivity|]. rewrite length_skipn. lia.
Qed.

(** A store, seen from any position of the ring. *)
Lemma store_rot (r : list Z) i k data : (i < length r)%nat -> (k + length data <= length r)%nat ->
  rot i (ring_store r (i + k) data) = mem_copy (rot i r) k data.
Proof.
  intros Hi Hk. assert (length (ring_store r (i + k) data) = length r) as El by (apply length_ring_store; lia).
  apply (nth_ext _ _ 0 0). { rewrite length_mem_copy by (rewrite length_rot; lia). now rewrite !length_rot. }
  intros x Hx. rewrite length_rot, El in Hx. change (get (rot i (ring_store r (i + k) data)) x = get (mem_copy (rot i r) k data) x).
  rewrite get_ring_copy by (rewrite length_rot; lia). rewrite !get_rot by lia. rewrite El. clear El. unfold ring_store.
  set (j := if (i + k <? length r)%nat then (i + k)%nat else (i + k - length r)%nat).
  assert (j = i + k /\ (j < length r) \/ j + length r = i + k)%nat as Hj by (unfold j; destruct (Nat.ltb_spec (i + k) (length r)); lia).
  clearbody j. set (m := Nat.min (length data) (length r - j)).
  assert (m <= length data /\ j + m <= length r /\ (m = length data \/ j + m = length r))%nat as Hm by lia. clearbody m.
  assert (forall y, get (mem_copy (mem_copy r j (firstn m data)) 0 (skipn m data)) y
    = if (y <? length data - m)%nat then get data (m + y) else if (y <? j)%nat then get r y else if (y <? j + m)%nat then get data (y - j) else get r y) as E.
  { intros y. rewrite get_ring_copy by (rewrite length_mem_copy, length_skipn by (rewrite length_firstn; lia); lia).
    rewrite Nat.add_0_l, length_skipn, Nat.sub_0_r. change (y <? 0)%nat with false. cbv iota.
    destruct (Nat.ltb_spec y (length data - m)); [unfold get; apply nth_skipn|]. rewrite get_ring_copy by (rewrite length_firstn; lia).
    rewrite length_firstn, Nat.min_l by lia. destruct (Nat.ltb_spec y j); [reflexivity|]. destruct (Nat.ltb_spec y (j + m)); [|reflexivity]. apply get_firstn. lia. }
  rewrite !E. clear E.
  repeat match goal with |- context [(?a <? ?b)%nat] => destruct (Nat.ltb_spec a b); try lia end; try reflexivity; f_equal; lia.
Qed.

(** ** The packet format *)
Module Openssh.

Definition chacha (key nonce : list Z) (counter : Z) : list Z := Rfc8439.block key (le_split 8 counter ++ nonce).

(** [n] blocks of key stream over [l]. *)
Fixpoint xor_blocks (n : nat) (key nonce : list Z) (counter : Z) (l : list Z) : list Z :=
  match n with
  | O => []
  | S n => Rfc8439.zip Z.lxor (firstn 64 l) (chacha key nonce counter) ++ xor_blocks n key nonce (counter + 1) (skipn 64 l)
  end.

Definition blocks (l : list Z) : nat := ((length l + 63) / 64)%nat.

Record keys := Keys { main : list Z; header : list Z }.

(** Poly1305 under the first half of block 0; [poly1305] is the code's, which is the RFC's
    but for its last reduction ([Poly1305.v]). *)
Definition tag (key data : list Z) : list Z := packet_mac (repeat 0 16) key data.

(** PROTOCOL.chacha20poly1305: the length under one key, the rest under the other. *)
Definition seal (k : keys) (sequenceNumber : Z) (packet : list Z) : list Z :=
  let nonce := be_split 8 sequenceNumber in
  let c := Rfc8439.zip Z.lxor (firstn 4 packet) (chacha (header k) nonce 0)
    ++ xor_blocks (blocks (skipn 4 packet)) (main k) nonce 1 (skipn 4 packet) in
  c ++ tag (chacha (main k) nonce 0) c.

(** RFC 4253, section 6. *)
Definition binary_packet (payload padding : list Z) : list Z :=
  be_split 4 (1 + Z.of_nat (length payload) + Z.of_nat (length padding)) ++ [Z.of_nat (length padding)] ++ payload ++ padding.

Definition on_wire (e : client_encryption) (k : keys) (sequenceNumber : Z) (packet : list Z) : list Z :=
  match e with
  | encryption_NONE => packet
  | encryption_CHACHA20POLY1305 => seal k sequenceNumber packet
  end.
End Openssh.
Import Openssh.

Lemma length_zip f : forall l r, length (Rfc8439.zip f l r) = Nat.min (length l) (length r).
Proof. induction l as [|x l IH]; intros [|y r]; cbn [Rfc8439.zip List.length Nat.min]; [reflexivity..|]. now rewrite IH. Qed.

Lemma zip_app f : forall l1 l2 r1 r2, length l1 = length r1 -> Rfc8439.zip f (l1 ++ l2) (r1 ++ r2) = Rfc8439.zip f l1 r1 ++ Rfc8439.zip f l2 r2.
Proof. induction l1 as [|x l1 IH]; intros l2 [|y r1] r2 H; try discriminate; [reflexivity|]. cbn [app Rfc8439.zip]. f_equal. apply IH. now injection H. Qed.

Lemma zip_firstn f n : forall l r, (n <= length l)%nat -> Rfc8439.zip f (firstn n l) r = firstn n (Rfc8439.zip f l r).
Proof.
  induction n as [|n IH]; intros [|x l] [|y r] H; cbn [firstn Rfc8439.zip List.length] in *; try reflexivity; try lia. f_equal. apply IH. lia.
Qed.

Lemma zip_lxor_twice : forall l r, (length l <= length r)%nat -> Rfc8439.zip Z.lxor (Rfc8439.zip Z.lxor l r) r = l.
Proof.
  induction l as [|x l IH]; intros [|y r] H; cbn [Rfc8439.zip List.length] in *; try reflexivity; try lia.
  rewrite Z.lxor_assoc, Z.lxor_nilpotent, Z.lxor_0_r. f_equal. apply IH. lia.
Qed.

Lemma bytes_zip : forall l r, bytes l -> bytes r -> bytes (Rfc8439.zip Z.lxor l r).
Proof.
  induction l as [|x l IH]; intros [|y r] Hl Hr; cbn [Rfc8439.zip]; try constructor.
  - inversion_clear Hl. inversion_clear Hr. apply (lxor_bound 8); lia || assumption.
  - inversion_clear Hl. inversion_clear Hr. now apply IH.
Qed.

Lemma length_block key input : length (Rfc8439.block key input) = 64%nat.
Proof.
  unfold Rfc8439.block. set (s := Rfc8439.words 16 _). assert (length s = 16%nat) as Hs by reflexivity.
  pose proof (proj2 (chacha20_loop s 10 Hs)) as Hi.
  assert (length (Rfc8439.zip Rfc8439.add32 (Nat.iter 10 Rfc8439.inner s) s) = 16%nat) as Hz by (rewrite length_zip, Hi, Hs; reflexivity).
  destruct (list16 _ Hz) as (a & b & c & d & e & f & g & h & i & j & k & l & m & n & o & p & ->). reflexivity.
Qed.

Lemma length_chacha key nonce counter : length (chacha key nonce counter) = 64%nat.
Proof. apply length_block. Qed.

Lemma bytes_chacha key nonce counter : bytes (chacha key nonce counter).
Proof. unfold chacha, Rfc8439.block. apply Forall_flat_map, Forall_forall. intros x _. apply bytes_le_split. Qed.
#[export] Hint Rewrite length_zip length_chacha : lens.
#[export] Hint Resolve bytes_zip bytes_chacha : hc.

Lemma length_xor_blocks key nonce : forall n counter l, (length l <= 64 * n)%nat -> length (xor_blocks n key nonce counter l) = length l.
Proof.
  induction n as [|n IH]; intros counter l H; cbn [xor_blocks]; [cbn; lia|]. rewrite length_app, IH by (rewrite length_skipn; lia). lens.
Qed.

Lemma bytes_xor_blocks key nonce : forall n counter l, bytes l -> bytes (xor_blocks n key nonce counter l).
Proof. induction n as [|n IH]; intros counter l H; cbn [xor_blocks]; [constructor|]. apply bytes_app. auto with hc. Qed.

(** Decrypting is encrypting again. *)
Lemma xor_blocks_twice key nonce : forall n counter l, (length l <= 64 * n)%nat -> xor_blocks n key nonce counter (xor_blocks n key nonce counter l) = l.
Proof.
  induction n as [|n IH]; intros counter l H; cbn [xor_blocks]; [destruct l; [reflexivity|cbn in H; lia]|].
  destruct (Nat.le_gt_cases 64 (length l)) as [H1|H1].
  - rewrite firstn_app_l, (firstn_all2 (Rfc8439.zip _ _ _)), skipn_exact by lens. rewrite zip_lxor_twice, IH, firstn_skipn by (rewrite ?length_skipn, ?length_chacha, ?length_firstn; lia). reflexivity.
  - assert (forall c, xor_blocks n key nonce c [] = []) as E by (intros c; clear; revert c; induction n as [|n IH]; intros c; cbn [xor_blocks skipn firstn Rfc8439.zip app]; auto).
    rewrite (skipn_all2 l) by lia. rewrite E, app_nil_r, skipn_all2, E, app_nil_r, !firstn_all2 by lens. apply zip_lxor_twice. lens.
Qed.

Lemma firstn_add_skipn {A} n m (l : list A) : firstn (n + m) l = firstn n l ++ firstn m (skipn n l).
Proof. revert l. induction n as [|n IH]; intros [|x l]; cbn [Nat.add firstn skipn app]; [reflexivity..|now rewrite firstn_nil|]. f_equal. apply IH. Qed.

Lemma skipn_skipn_add {A} n m (l : list A) : skipn m (skipn n l) = skipn (n + m) l.
Proof. rewrite skipn_skipn. f_equal. lia. Qed.

Lemma le_split_lxor : forall a b, bytes a -> bytes b -> length a = length b -> le_split (length a) (le_combine a ^^ le_combine b) = Rfc8439.zip Z.lxor a b.
Proof.
  induction a as [|x a IH]; intros [|y b] Ha Hb Hl; try discriminate; [reflexivity|]. apply Forall_cons_iff in Ha as [Hx Ha]. apply Forall_cons_iff in Hb as [Hy Hb].
  unfold is_byte in Hx, Hy. cbn [List.length le_combine le_split Rfc8439.zip]. change 256 with (2 ^ 8). rewrite lxor_limb by lia.
  pose proof (lxor_bound 8 x y ltac:(lia) ltac:(lia) ltac:(lia)). rewrite (Z.mul_comm (2 ^ 8)), Z_mod_plus_full, Z.div_add, Z.mod_small, Z.div_small, Z.add_0_l by lia.
  f_equal. apply IH; [assumption..|]. now injection Hl.
Qed.

Lemma xor_words_zip : forall n data stream, bytes data -> bytes stream -> (4 * n <= length data)%nat -> (4 * n <= length stream)%nat ->
  xor_words n data stream = Rfc8439.zip Z.lxor (firstn (4 * n) data) (firstn (4 * n) stream).
Proof.
  induction n as [|n IH]; intros data stream Hd Hs Hld Hls; [reflexivity|]. cbn [xor_words].
  rewrite IH by (auto with hc; rewrite length_skipn; lia). unfold mem_loadU32.
  replace 4%nat with (length (firstn 4 data)) at 1 by (rewrite length_firstn; lia). rewrite le_split_lxor by (auto with hc; rewrite !length_firstn; lia).
  rewrite <- zip_app by (rewrite !length_firstn; lia). replace (4 * S n)%nat with (4 + 4 * n)%nat by lia. f_equal; symmetry; apply firstn_add_skipn.
Qed.

(** ** The ciphers *)

(** [union chacha20] with a key, a counter and a nonce in place. *)
Definition with_key (key : list Z) (counter : Z) (nonce : list Z) : list Z := str "expand 32-byte k" ++ key ++ le_split 8 counter ++ nonce.

Section Cipher.
Context (key nonce : list Z) (Hkey : length key = 32%nat) (Hnonce : length nonce = 8%nat).

Lemma block_with_key counter : chacha20_block (with_key key counter nonce) = chacha key nonce counter.
Proof using. rewrite chacha20_block_correct. unfold chacha, Rfc8439.block, with_key. reflexivity. Qed.

Lemma nonce_with_key counter s : cipher_nonce (with_key key counter nonce) s = with_key key counter (be_split 8 s).
Proof using Hkey Hnonce.
  unfold cipher_nonce, mem_storeU64BE, with_key. rewrite le_split_bswap, mem_copy_eq by lens.
  rewrite skipn_all2 by lens. rewrite app_nil_r, !app_assoc. f_equal.
  apply firstn_exact. lens.
Qed.

Lemma counter_with_key counter n : cipher_counter (with_key key counter nonce) n = with_key key n nonce.
Proof using Hkey Hnonce.
  unfold cipher_counter, mem_storeU64, with_key. rewrite mem_copy_eq by lens.
  rewrite !(app_assoc _ key). rewrite firstn_exact by lens. do 2 f_equal.
  rewrite app_assoc. apply skipn_exact. lens.
Qed.

Lemma blockCounter_with_key counter : 0 <= counter < 2 ^ 64 -> blockCounter (with_key key counter nonce) = counter.
Proof using Hkey Hnonce.
  intros Hc. unfold blockCounter, mem_loadU64, with_key. rewrite app_assoc, skipn_exact by lens.
  rewrite firstn_exact, le_combine_split by lens. apply Z.mod_small. exact Hc.
Qed.

(** The loop encrypts what lies between [pre] and [post]. *)
Lemma client_crypt_spec : forall n fuel counter pre data post,
  bytes (data ++ post) -> (length data mod 4 = 0)%nat -> (length data <= 64 * n)%nat -> (64 * n < length data + 64)%nat \/ n = 1%nat -> (0 < n)%nat -> (n <= fuel)%nat ->
  0 <= counter -> counter + Z.of_nat n < 2 ^ 64 ->
  client_crypt fuel (with_key key counter nonce) (pre ++ data ++ post) (length pre + length data) (length pre)
  = Some (with_key key (counter + Z.of_nat n) nonce, pre ++ xor_blocks n key nonce (counter + 1) data ++ post).
Proof using Hkey Hnonce.
  induction n as [|n IH]; intros fuel counter pre data post Hb H4 Hn Hn2 Hpos Hf Hc Hc2; [lia|]. destruct fuel as [|fuel]; [lia|]. cbn [client_crypt].
  rewrite blockCounter_with_key, (wrap_small 64), counter_with_key, block_with_key by lia. cbn [xor_blocks].
  replace (length pre + length data - length pre)%nat with (length data) by lia.
  set (iEnd := if (length data <? 64)%nat then length data else 64%nat).
  assert (iEnd = Nat.min 64 (length data)) as HiEnd by (unfold iEnd; destruct (Nat.ltb_spec (length data) 64); lia). clearbody iEnd.
  assert (4 * ((iEnd + 3) / 4) = iEnd)%nat as Hw.
  { assert (iEnd mod 4 = 0)%nat as Hm by (rewrite HiEnd; destruct (Nat.min_spec 64 (length data)) as [[_ ->]|[_ ->]]; [reflexivity|exact H4]).
    pose proof (Nat.div_mod_eq iEnd 4) as E. rewrite Hm in E. rewrite E at 1. replace (4 * (iEnd / 4) + 0 + 3)%nat with (3 + iEnd / 4 * 4)%nat by lia.
    rewrite Nat.div_add, Nat.div_small by lia. lia. }
  rewrite skipn_exact by reflexivity. assert (firstn iEnd (data ++ post) = firstn 64 data) as Ed.
  { rewrite firstn_app_l by lia. rewrite HiEnd. destruct (Nat.le_gt_cases 64 (length data)); [now rewrite Nat.min_l by lia|]. rewrite Nat.min_r, !firstn_all2 by lia. reflexivity. }
  rewrite xor_words_zip by (auto with hc; rewrite ?length_app, ?length_chacha; lia). rewrite Hw, Ed.
  assert (Rfc8439.zip Z.lxor (firstn 64 data) (firstn iEnd (chacha key nonce (counter + 1))) = Rfc8439.zip Z.lxor (firstn 64 data) (chacha key nonce (counter + 1))) as ->.
  { rewrite <- (firstn_skipn iEnd (chacha key nonce (counter + 1))) at 2. rewrite <- (app_nil_r (firstn 64 data)) at 2.
    rewrite zip_app by (rewrite !length_firstn, length_chacha; lia). cbn [Rfc8439.zip]. now rewrite app_nil_r. }
  set (z := Rfc8439.zip Z.lxor (firstn 64 data) _). assert (length z = iEnd) as Hz by (unfold z; rewrite length_zip, length_firstn, length_chacha; lia).
  rewrite mem_copy_eq by (rewrite !length_app; lia). rewrite firstn_exact by reflexivity. rewrite Hz, <- skipn_skipn_add, skipn_exact by reflexivity.
  rewrite skipn_app, (proj2 (Nat.sub_0_le iEnd (length data))), skipn_O by lia.
  assert (skipn iEnd data = skipn 64 data) as Es.
  { rewrite HiEnd. destruct (Nat.le_gt_cases 64 (length data)); [now rewrite Nat.min_l by lia|]. rewrite Nat.min_r, !skipn_all2 by lia. reflexivity. }
  rewrite Es. destruct (Nat.eqb_spec (length pre + iEnd) (length pre + length data)) as [E|E].
  - assert (n = 0)%nat as -> by lia. rewrite (skipn_all2 data) by lia. cbn [xor_blocks]. rewrite app_nil_r. reflexivity.
  - replace (pre ++ z ++ skipn 64 data ++ post) with ((pre ++ z) ++ skipn 64 data ++ post) by now rewrite <- !app_assoc.
    replace (length pre + iEnd)%nat with (length (pre ++ z)) by (rewrite length_app; lia).
    replace (length pre + length data)%nat with (length (pre ++ z) + length (skipn 64 data))%nat by (rewrite length_app, length_skipn; lia).
    rewrite IH; [|apply bytes_app in Hb as [? ?]; apply bytes_app; auto with hc| |rewrite length_skipn; lia|rewrite length_skipn; lia|lia..].
    + rewrite <- !app_assoc. do 3 f_equal. lia.
    + rewrite length_skipn. rewrite HiEnd in E. apply (Nat.Div0.mod_divides (length data) 4) in H4 as [q Hq]. apply Nat.Div0.mod_divides. exists (q - 16)%nat. lia.
Qed.
End Cipher.

(** [client_PADDING_SIZE] fills the packet up to a multiple of 64 bytes. *)
Lemma padding_spec n : 4 <= client_PADDING_SIZE n <= 67 /\ (5 + n + client_PADDING_SIZE n) mod 64 = 0.
Proof.
  unfold client_PADDING_SIZE, client_MIN_PADDING, client_MAX_BLOCK_SIZE. rewrite (land_mask 6) by (lia || reflexivity). change (2 ^ 6) with 64.
  pose proof (Z.mod_pos_bound (- (4 + 1 + n + 4)) 64 ltac:(lia)). split; [lia|].
  rewrite (Z.mod_eq (- (4 + 1 + n + 4)) 64) by lia. replace (5 + n + _) with (- (- (4 + 1 + n + 4) / 64) * 64) by lia. apply Z.mod_mul. lia.
Qed.

Lemma length_tag key data : length (tag key data) = 16%nat.
Proof. unfold tag, packet_mac, poly1305_finish. destruct (poly1305_carry _ _ _) as [[? ?] ?]. destruct (poly1305_select _ _ _) as [[? ?] ?]. unfold poly1305_tag. lens. Qed.

Lemma bytes_tag key data : bytes (tag key data).
Proof. unfold tag, packet_mac, poly1305_finish. destruct (poly1305_carry _ _ _) as [[? ?] ?]. destruct (poly1305_select _ _ _) as [[? ?] ?]. unfold poly1305_tag. apply bytes_app. auto with hc. Qed.

Lemma packet_mac_tag stack key data : (16 <= length stack)%nat -> packet_mac stack key data = tag key data.
Proof. intros H. apply poly1305_finish_ext; [cbn [Stream.buffer]; rewrite length_firstn; lia|reflexivity]. Qed.
#[export] Hint Rewrite length_tag : lens.
#[export] Hint Resolve bytes_tag : hc.

(** Ciphers [i] and [i + 1] hold the keys [k]. *)
Definition keyed (self : client) (i : nat) (k : keys) : Prop :=
  length (ciphers self) = 4%nat /\ length (main k) = 32%nat /\ length (header k) = 32%nat /\
  (exists n nonce, length nonce = 8%nat /\ cipher self i = with_key (main k) n nonce) /\
  (exists nonce, length nonce = 8%nat /\ cipher self (i + 1) = with_key (header k) 0 nonce).

Definition protected (self : client) (i : nat) (k : keys) : Prop :=
  match encryption self with encryption_NONE => True | encryption_CHACHA20POLY1305 => keyed self i k end.

(** Only the ciphers from [i] on have moved, under the same keys. *)
Record advanced (i : nat) (k : keys) (self self' : client) : Prop := {
  adv_ciphers : self' = with_ciphers self (ciphers self');
  adv_keys : protected self' i k;
  adv_length : length (ciphers self') = length (ciphers self);
  adv_others : forall j, j <> i -> j <> (i + 1)%nat -> cipher self' j = cipher self j;
  adv_none : encryption self = encryption_NONE -> ciphers self' = ciphers self }.

Lemma advanced_refl i k self : protected self i k -> advanced i k self self.
Proof. intros H. constructor; auto. now destruct self. Qed.

Lemma nth_set_eq {A} (l : list A) i v d : (i < length l)%nat -> nth i (set l i v) d = v.
Proof. revert i. induction l; intros [|i] H; cbn [List.length set nth] in *; try lia; [reflexivity|]. apply IHl. lia. Qed.

Lemma nth_set_ne {A} (l : list A) i j v d : i <> j -> nth j (set l i v) d = nth j l d.
Proof. revert i j. induction l; intros [|i] [|j] H; cbn [set nth]; try reflexivity; [congruence|]. apply IHl. lia. Qed.

Lemma length_binary_packet payload padding : length (binary_packet payload padding) = (5 + length payload + length padding)%nat.
Proof. unfold binary_packet. lens. Qed.

Lemma bytes_binary_packet payload padding : bytes payload -> bytes padding -> (length padding < 256)%nat -> bytes (binary_packet payload padding).
Proof.
  intros H1 H2 H3. unfold binary_packet. rewrite !bytes_app. repeat split; auto with hc. constructor; [unfold is_byte; lia|constructor].
Qed.

(** The head is filled in. *)
Lemma fill_head head payload tl paddingSize packetSize : length head = 5%nat -> paddingSize = Z.of_nat (length (firstn (Z.to_nat paddingSize) tl)) -> paddingSize < 256 ->
  packetSize = 5 + Z.of_nat (length payload) + paddingSize -> packetSize < 2 ^ 32 ->
  set (mem_storeU32 (head ++ payload ++ tl) 0 (bswap 4 (u32 (packetSize - 4)))) 4 (u8 paddingSize)
  = binary_packet payload (firstn (Z.to_nat paddingSize) tl) ++ skipn (Z.to_nat paddingSize) tl.
Proof.
  intros Hh Hp Hp2 Hs Hs2. unfold binary_packet. set (padding := firstn (Z.to_nat paddingSize) tl) in *. rewrite <- Hp, (wrap_small 8), (wrap_small 32) by lia.
  unfold mem_storeU32. rewrite le_split_bswap, mem_copy_eq by lens. cbn [firstn app Nat.add]. rewrite length_be_split.
  destruct head as [|h0 [|h1 [|h2 [|h3 [|h4 [|? ?]]]]]]; try discriminate. cbn [skipn app].
  replace (packetSize - 4) with (1 + Z.of_nat (length payload) + paddingSize) by lia. rewrite <- (firstn_skipn (Z.to_nat paddingSize) tl) at 1. fold padding.
  set (b := be_split 4 _). assert (length b = 4%nat) as Hb by apply length_be_split. clearbody b. destruct b as [|b0 [|b1 [|b2 [|b3 [|? ?]]]]]; try discriminate.
  cbn [app set]. now rewrite <- !app_assoc.
Qed.

Lemma crypt_spec key nonce counter pre data post w : length key = 32%nat -> length nonce = 8%nat -> bytes (data ++ post) -> (length data mod 4 = 0)%nat ->
  length pre = 4%nat -> 0 <= counter -> counter + Z.of_nat (blocks data) + 1 < 2 ^ 64 ->
  exists n, crypt (with_key key counter nonce) (pre ++ data ++ post) (length pre + length data) w
    = (Done (with_key key n nonce, pre ++ xor_blocks (blocks data) key nonce (counter + 1) data ++ post), w).
Proof.
  intros Hk Hn Hb H4 Hp Hc Hc2. unfold crypt.
  match goal with |- context [client_crypt ?f ?c ?p ?s 4] => replace (client_crypt f c p s 4) with (client_crypt f c p s (length pre)) by now rewrite Hp end.
  destruct (Nat.eq_dec (length data) 0) as [E|E].
  - rewrite (client_crypt_spec key nonce Hk Hn 1) by (assumption || lia). unfold blocks. rewrite E. apply length_zero_iff_nil in E. subst. cbn [xor_blocks app firstn skipn Rfc8439.zip]. eexists. reflexivity.
  - unfold blocks in *. pose proof (Nat.div_mod_eq (length data + 63) 64). pose proof (Nat.mod_upper_bound (length data + 63) 64 ltac:(lia)).
    rewrite (client_crypt_spec key nonce Hk Hn ((length data + 63) / 64)) by (assumption || lia). eexists. reflexivity.
Qed.

Lemma xor_size key nonce (packet : list Z) : bytes packet -> (4 <= length packet)%nat ->
  mem_storeU32 packet 0 (mem_loadU32 packet ^^ mem_loadU32 (chacha key nonce 0)) = Rfc8439.zip Z.lxor (firstn 4 packet) (chacha key nonce 0) ++ skipn 4 packet.
Proof.
  intros Hb Hl. unfold mem_storeU32, mem_loadU32. replace 4%nat with (length (firstn 4 packet)) at 1 by (rewrite length_firstn; lia).
  rewrite le_split_lxor by (auto with hc; rewrite !length_firstn, length_chacha; lia).
  assert (Rfc8439.zip Z.lxor (firstn 4 packet) (firstn 4 (chacha key nonce 0)) = Rfc8439.zip Z.lxor (firstn 4 packet) (chacha key nonce 0)) as ->.
  { rewrite <- (firstn_skipn 4 (chacha key nonce 0)) at 2. rewrite <- (app_nil_r (firstn 4 packet)) at 2.
    rewrite zip_app by (rewrite !length_firstn, length_chacha; lia). cbn [Rfc8439.zip]. now rewrite app_nil_r. }
  rewrite mem_copy_eq by lens. rewrite length_zip, length_firstn, length_chacha, !Nat.min_l by lia. reflexivity.
Qed.

Lemma get_at_length (pre : list Z) b post : get (pre ++ b :: post) (length pre) = b.
Proof. unfold get. rewrite app_nth2, Nat.sub_diag by lia. reflexivity. Qed.

Section Packets.
Context (stack : list Z) (Hstack : (16 <= length stack)%nat).

(** Sealing a packet in place. *)
Lemma seal_spec c0 c1 k s packet post w n nonce nonce' : length (main k) = 32%nat -> length (header k) = 32%nat -> length nonce = 8%nat -> length nonce' = 8%nat ->
  c0 = with_key (main k) n nonce -> c1 = with_key (header k) 0 nonce' ->
  bytes (packet ++ post) -> (length packet mod 4 = 0)%nat -> (4 <= length packet)%nat -> Z.of_nat (length packet) < 2 ^ 32 -> (16 <= length post)%nat ->
  exists m,
    crypt (cipher_counter (cipher_nonce c0 s) 0)
      (mem_storeU32 (packet ++ post) 0 (mem_loadU32 (packet ++ post) ^^ mem_loadU32 (chacha20_block (cipher_nonce c1 s)))) (length packet) w
    = (Done (with_key (main k) m (be_split 8 s), firstn (length packet) (seal k s packet) ++ post), w) /\
    packet_mac stack (chacha20_block (cipher_counter (with_key (main k) m (be_split 8 s)) 0)) (firstn (length packet) (seal k s packet))
    = skipn (length packet) (seal k s packet) /\ length (seal k s packet) = (length packet + 16)%nat.
Proof using Hstack.
  intros Hm Hh Hn Hn' -> -> Hb H4 Hl Hl2 Hpost. rewrite !nonce_with_key, counter_with_key, block_with_key by (assumption || apply length_be_split).
  rewrite xor_size by (rewrite ?length_app; assumption || lia). rewrite firstn_app_l by lia.
  rewrite skipn_app, (proj2 (Nat.sub_0_le 4 (length packet))), skipn_O by lia.
  set (pre := Rfc8439.zip Z.lxor (firstn 4 packet) _). assert (length pre = 4%nat) as Hp by (unfold pre; rewrite length_zip, length_firstn, length_chacha; lia).
  apply bytes_app in Hb as [Hb1 Hb2]. assert (length (skipn 4 packet) mod 4 = 0)%nat as H4'.
  { rewrite length_skipn. apply (Nat.Div0.mod_divides (length packet) 4) in H4 as [q Hq]. apply Nat.Div0.mod_divides. exists (q - 1)%nat. lia. }
  assert (Z.of_nat (blocks (skipn 4 packet)) < 2 ^ 40) as Hbl.
  { unfold blocks. rewrite length_skipn. pose proof (Nat.Div0.div_le_upper_bound (length packet - 4 + 63) 64 (length packet) ltac:(lia)). lia. }
  destruct (crypt_spec (main k) (be_split 8 s) 0 pre (skipn 4 packet) post w Hm (length_be_split _ _)) as [m Em]; [apply bytes_app; auto with hc|assumption..|lia|lia|].
  replace (length pre + length (skipn 4 packet))%nat with (length packet) in Em by (rewrite length_skipn; lia). exists m. rewrite Em.
  unfold seal. fold pre. change (0 + 1) with 1. set (enc := xor_blocks _ _ _ 1 _). assert (length enc = (length packet - 4)%nat) as Hel.
  { unfold enc. rewrite length_xor_blocks, length_skipn; [reflexivity|]. unfold blocks. rewrite length_skipn.
    pose proof (Nat.div_mod_eq (length packet - 4 + 63) 64). pose proof (Nat.mod_upper_bound (length packet - 4 + 63) 64 ltac:(lia)). lia. }
  rewrite (firstn_exact (pre ++ enc)), (skipn_exact (pre ++ enc)) by (rewrite length_app; lia).
  split; [now rewrite <- app_assoc|]. rewrite counter_with_key, block_with_key by (assumption || apply length_be_split).
  split; [now apply packet_mac_tag|]. rewrite !length_app, length_tag. lia.
Qed.
(** Opening a sealed packet in place: its tag is right, and all but the size is as before. *)
Lemma unseal_spec c k s packet w n nonce : length (main k) = 32%nat -> length nonce = 8%nat -> c = with_key (main k) n nonce ->
  bytes packet -> (length packet mod 4 = 0)%nat -> (4 <= length packet)%nat -> Z.of_nat (length packet) < 2 ^ 32 ->
  packet_mac stack (chacha20_block (cipher_counter (cipher_nonce c s) 0)) (firstn (length packet) (seal k s packet)) = skipn (length packet) (seal k s packet) /\
  exists m, crypt (cipher_counter (cipher_nonce c s) 0) (firstn (length packet) (seal k s packet)) (length packet) w
    = (Done (with_key (main k) m (be_split 8 s), firstn 4 (seal k s packet) ++ skipn 4 packet), w).
Proof using Hstack.
  intros Hm Hn -> Hb H4 Hl Hl2. rewrite !nonce_with_key, counter_with_key, block_with_key by (assumption || apply length_be_split). unfold seal.
  set (pre := Rfc8439.zip Z.lxor (firstn 4 packet) _). assert (length pre = 4%nat) as Hp by (unfold pre; rewrite length_zip, length_firstn, length_chacha; lia). clearbody pre.
  set (body := skipn 4 packet). assert (length body = (length packet - 4)%nat) as Hbl by apply length_skipn. assert (bytes body) as Hbb by (unfold body; auto with hc). clearbody body.
  assert (length body <= 64 * blocks body)%nat as Hbk by (unfold blocks; pose proof (Nat.div_mod_eq (length body + 63) 64); pose proof (Nat.mod_upper_bound (length body + 63) 64 ltac:(lia)); lia).
  assert (Z.of_nat (blocks body) < 2 ^ 40) as Hbk2 by (unfold blocks; pose proof (Nat.Div0.div_le_upper_bound (length body + 63) 64 (length body + 1) ltac:(lia)); lia).
  pose proof (bytes_xor_blocks (main k) (be_split 8 s) (blocks body) 1 body Hbb) as Heb. pose proof (length_xor_blocks (main k) (be_split 8 s) (blocks body) 1 body Hbk) as Hel.
  pose proof (xor_blocks_twice (main k) (be_split 8 s) (blocks body) 1 body Hbk) as Htw. set (enc := xor_blocks _ _ _ 1 body) in *. clearbody enc.
  rewrite (firstn_exact (pre ++ enc)), (skipn_exact (pre ++ enc)) by (rewrite length_app; lia). split; [now apply packet_mac_tag|].
  assert (blocks enc = blocks body) as Ebk by (unfold blocks; now rewrite Hel).
  destruct (crypt_spec (main k) (be_split 8 s) 0 pre enc [] w Hm (length_be_split _ _)) as [m Em]; [now rewrite app_nil_r| |exact Hp|lia|rewrite Ebk; lia|].
  { rewrite Hel, Hbl. apply (Nat.Div0.mod_divides _ 4) in H4 as [q Hq]. apply Nat.Div0.mod_divides. exists (q - 1)%nat. lia. }
  change (0 + 1) with 1 in Em. rewrite Ebk, Htw, !app_nil_r in Em. replace (length pre + length enc)%nat with (length packet) in Em by lia.
  exists m. rewrite Em, <- app_assoc. do 3 f_equal. now rewrite firstn_exact by (symmetry; exact Hp).
Qed.

(** [client_sendMessage]: one packet, in one call. *)
Lemma client_sendMessage_spec self k head payload tl w :
  length head = 5%nat -> bytes head -> bytes payload -> bytes tl -> length tl = Z.to_nat messageTail_SIZE -> Z.of_nat (length payload) < 2 ^ 31 -> protected self 0 k ->
  exists self', advanced 0 k self self' /\
    client_sendMessage stack self (head ++ payload ++ tl) (Z.of_nat (length payload)) w
    = (let packet := on_wire (encryption self) k (sendSequenceNumber self)
         (binary_packet payload (firstn (Z.to_nat (client_PADDING_SIZE (Z.of_nat (length payload)))) tl)) in
       let! numSent := sys_sendto (socketFd self) packet MSG_NOSIGNAL [] in
       if negb (numSent =? Z.of_nat (length packet)) then pure (-1, self')
       else pure (0, with_sequence self' (receiveSequenceNumber self) (u32 (sendSequenceNumber self + 1)))) w.
Proof using Hstack.
  intros Hh Hhb Hpb Htb Htl Hlen Hk. unfold client_sendMessage, messageHead_SIZE, messageTail_SIZE in *.
  destruct (padding_spec (Z.of_nat (length payload))) as [Hpad Hmod]. set (pad := client_PADDING_SIZE _) in *. clearbody pad.
  assert (length (firstn (Z.to_nat pad) tl) = Z.to_nat pad) as Hfl by (rewrite length_firstn; lia).
  rewrite fill_head by (rewrite ?Hfl; lia). set (packet := binary_packet payload (firstn (Z.to_nat pad) tl)). set (post := skipn (Z.to_nat pad) tl).
  assert (length packet = Z.to_nat (5 + Z.of_nat (length payload) + pad)) as Hpl by (unfold packet; rewrite length_binary_packet, Hfl; lia).
  assert (16 <= length post)%nat as Hpost by (unfold post; rewrite length_skipn; lia).
  assert (bytes (packet ++ post)) as Hb by (apply bytes_app; split; [apply bytes_binary_packet; auto with hc; lia|unfold post; auto with hc]).
  rewrite <- Hpl. unfold protected in Hk. destruct (encryption self) eqn:Ee; cbn [on_wire].
  - exists self. split; [apply advanced_refl; unfold protected; now rewrite Ee|]. rewrite bind_pure, <- Hpl, firstn_exact by reflexivity. rewrite Hpl, Z2Nat.id by lia. reflexivity.
  - destruct Hk as (Hc & Hm & Hhd & (n & nonce & Hn & E0) & (nonce' & Hn' & E1)).
    destruct (seal_spec _ _ k (sendSequenceNumber self) packet post w n nonce nonce' Hm Hhd Hn Hn' E0 E1 Hb) as (m & Ec & Et & El); [|lia|lia|lia|].
    { rewrite Hpl. apply Nat2Z.inj. rewrite Nat2Z.inj_mod, Z2Nat.id by lia. apply Z.mod_divide; [lia|]. apply Z.mod_divide in Hmod; [|lia]. destruct Hmod as [q Hq]. exists (16 * q). lia. }
    cbn [Nat.add] in E1. set (self' := set_cipher (set_cipher self 1 (with_key (header k) 0 (be_split 8 (sendSequenceNumber self)))) 0 (with_key (main k) 0 (be_split 8 (sendSequenceNumber self)))).
    exists self'. split.
    { constructor.
      - reflexivity.
      - unfold protected. cbn [self' set_cipher with_ciphers encryption]. rewrite Ee. unfold keyed, cipher. cbn [self' set_cipher with_ciphers ciphers Nat.add].
        split; [now rewrite !length_set|]. split; [exact Hm|]. split; [exact Hhd|]. split.
        + exists 0, (be_split 8 (sendSequenceNumber self)). split; [apply length_be_split|]. apply nth_set_eq. rewrite length_set. lia.
        + exists (be_split 8 (sendSequenceNumber self)). split; [apply length_be_split|]. rewrite nth_set_ne by lia. apply nth_set_eq. lia.
      - cbn. now rewrite !length_set.
      - intros j H0 H1. unfold cipher. cbn [self' set_cipher with_ciphers ciphers]. rewrite !nth_set_ne by (cbn in H1; lia). reflexivity.
      - rewrite Ee. discriminate. }
    rewrite bind_assoc, (bind_done _ _ _ _ _ Ec), bind_pure.
    rewrite firstn_exact by (rewrite length_firstn; lia). rewrite Et. rewrite counter_with_key by (assumption || apply length_be_split).
    rewrite E1, nonce_with_key by assumption. fold self'.
    assert (mem_copy (firstn (length packet) (seal k (sendSequenceNumber self) packet) ++ post) (length packet) (skipn (length packet) (seal k (sendSequenceNumber self) packet))
      = seal k (sendSequenceNumber self) packet ++ skipn 16 post) as ->.
    { rewrite mem_copy_eq by (rewrite length_app, length_firstn, length_skipn; lia). rewrite firstn_exact by (rewrite length_firstn; lia).
      rewrite <- skipn_skipn_add, skipn_exact by (rewrite length_firstn; lia). rewrite app_assoc, firstn_skipn. do 2 f_equal. rewrite length_skipn. lia. }
    replace (Z.to_nat (5 + Z.of_nat (length payload) + pad + 16)) with (length (seal k (sendSequenceNumber self) packet)) by lia. rewrite firstn_exact by reflexivity.
    replace (5 + Z.of_nat (length payload) + pad + 16) with (Z.of_nat (length (seal k (sendSequenceNumber self) packet))) by lia. reflexivity.
Qed.
End Packets.

(** ** Receiving *)

Record ring_ok (self : client) : Prop := {
  ok_length : Z.of_nat (length (ring self)) = bufferSize self;
  ok_size : client_MAX_PACKET_SIZE <= bufferSize self;
  ok_size4 : bufferSize self mod 4 = 0;
  ok_pos : 0 <= bufferPos self < bufferSize self;
  ok_pos4 : bufferPos self mod 4 = 0;
  ok_received : 0 <= receivedSize self <= bufferSize self;
  ok_bytes : bytes (ring self) }.

(** The ring from [bufferPos] on. *)
Abbreviation view self := (rot (Z.to_nat (bufferPos self)) (ring self)).

Lemma length_view self : ring_ok self -> Z.of_nat (length (view self)) = bufferSize self.
Proof. intros H. rewrite length_rot. apply H. Qed.

Lemma load_view self k n w : ring_ok self -> 0 <= k -> 0 <= n -> k + n <= bufferSize self ->
  buffer_load self (bufferPos self + k) n w = (Done (firstn (Z.to_nat n) (skipn (Z.to_nat k) (view self))), w).
Proof.
  intros [Hl Hs _ Hp _ _ _] Hk Hn Hkn. unfold buffer_load, in_buffer.
  rewrite (proj2 (Z.leb_le 0 (bufferPos self + k))), (proj2 (Z.leb_le 0 n)), (proj2 (Z.leb_le (bufferPos self + k + n) (2 * bufferSize self))) by lia. cbn [andb].
  rewrite Z2Nat.inj_add by lia. rewrite load_rot by lia. reflexivity.
Qed.

Lemma load_view0 self n w : ring_ok self -> 0 <= n -> n <= bufferSize self ->
  buffer_load self (bufferPos self) n w = (Done (firstn (Z.to_nat n) (view self)), w).
Proof. intros H Hn Hs. pose proof (load_view self 0 n w H ltac:(lia) Hn ltac:(lia)) as E. rewrite Z.add_0_r in E. exact E. Qed.

Lemma store_view self k data w : ring_ok self -> 0 <= k -> k + Z.of_nat (length data) <= bufferSize self -> bytes data ->
  exists r, buffer_store self (bufferPos self + k) data w = (Done (with_ring self r), w) /\ ring_ok (with_ring self r) /\
    rot (Z.to_nat (bufferPos self)) r = mem_copy (view self) (Z.to_nat k) data.
Proof.
  intros [Hl Hs H4 Hp Hp4 Hr Hb] Hk Hn Hd. unfold buffer_store, in_buffer.
  rewrite (proj2 (Z.leb_le 0 (bufferPos self + k))), (proj2 (Z.leb_le 0 (Z.of_nat (length data)))), (proj2 (Z.leb_le (bufferPos self + k + Z.of_nat (length data)) (2 * bufferSize self))) by lia. cbn [andb].
  rewrite Z2Nat.inj_add by lia. eexists. split; [reflexivity|]. split; [|apply store_rot; lia].
  constructor; cbn [with_ring ring bufferSize bufferPos receivedSize]; try assumption.
  - rewrite length_ring_store by lia. exact Hl.
  - unfold ring_store. auto with hc.
Qed.

(** Loads see through what is pending. *)
Lemma view_pending self : ring_ok self -> view self = pending self ++ skipn (Z.to_nat (receivedSize self)) (view self).
Proof. intros _. symmetry. apply firstn_skipn. Qed.

Lemma length_pending self : ring_ok self -> Z.of_nat (length (pending self)) = receivedSize self.
Proof. intros H. pose proof (length_view self H). destruct H as [_ _ _ _ _ Hr _]. unfold pending. rewrite length_firstn. lia. Qed.

Lemma length_on_wire e k s packet : (4 <= length packet)%nat -> length (on_wire e k s packet) = (length packet + Z.to_nat (client_macSize e))%nat.
Proof.
  intros H. destruct e; cbn [on_wire client_macSize]; [change (Z.to_nat 0) with 0%nat; lia|]. unfold seal. rewrite !length_app, length_tag, length_zip, length_firstn, length_chacha.
  rewrite length_xor_blocks, length_skipn; [lia|]. unfold blocks. rewrite length_skipn.
  pose proof (Nat.div_mod_eq (length packet - 4 + 63) 64). pose proof (Nat.mod_upper_bound (length packet - 4 + 63) 64 ltac:(lia)). lia.
Qed.

Lemma bytes_on_wire e k s packet : bytes packet -> bytes (on_wire e k s packet).
Proof. intros H. destruct e; [exact H|]. cbn [on_wire]. unfold seal. apply bytes_app. split; [apply bytes_app; split|]; auto using bytes_xor_blocks with hc. Qed.

Lemma le_combine_lxor a b : bytes a -> bytes b -> length a = length b -> le_combine a ^^ le_combine b = le_combine (Rfc8439.zip Z.lxor a b).
Proof.
  intros Ha Hb Hl. rewrite <- (le_split_lxor a b Ha Hb Hl), le_combine_split. symmetry. apply Z.mod_small.
  change 256 with (2 ^ 8). rewrite <- Z.pow_mul_r by lia. apply lxor_bound; [lia|..]; rewrite Z.pow_mul_r by lia; change (2 ^ 8) with 256; [|rewrite Hl]; now apply le_combine_bound.
Qed.

Lemma bswap_be_split n x : bswap n (le_combine (be_split n x)) = x mod 256 ^ Z.of_nat n.
Proof.
  unfold bswap. rewrite <- (length_be_split n x) at 1. rewrite le_split_combine by apply bytes_be_split. unfold be_split. rewrite rev_involutive. apply le_combine_split.
Qed.

(** A packet that the client accepts. *)
Record acceptable (e : client_encryption) (payload padding : list Z) : Prop := {
  acc_payload : payload <> []; acc_bytes : bytes payload; acc_padding : bytes padding; acc_short : (length padding < 256)%nat;
  acc_4 : ((5 + length payload + length padding) mod 4 = 0)%nat;
  acc_size : 5 + Z.of_nat (length payload) + Z.of_nat (length padding) + client_macSize e <= client_MAX_PACKET_SIZE }.

Definition packet_size (payload padding : list Z) : Z := 1 + Z.of_nat (length payload) + Z.of_nat (length padding).

Lemma firstn_prefix {A} (l v : list A) n : firstn (length l) v = l -> (n <= length l)%nat -> firstn n v = firstn n l.
Proof. intros <-. rewrite firstn_firstn, length_firstn. intros Hn. f_equal. lia. Qed.

Lemma skipn_prefix {A} (l v : list A) n : firstn (length l) v = l -> firstn (length l - n) (skipn n v) = skipn n l.
Proof. intros H. now rewrite <- H at 2; rewrite skipn_firstn_comm. Qed.

Lemma compare_self l n : (n <= length l)%nat -> mem_compareConstantTime l l n = 0.
Proof. intros H. now apply (mem_compareConstantTime_correct n l l H H). Qed.

Lemma macSize_nonneg e : 0 <= client_macSize e <= 16.
Proof. destruct e; cbn [client_macSize]; lia. Qed.

Section Peek.
Context (k : keys) (payload padding : list Z).
Abbreviation wire self := (on_wire (encryption self) k (receiveSequenceNumber self) (binary_packet payload padding)).

Lemma length_wire e s : Z.of_nat (length (on_wire e k s (binary_packet payload padding))) = 4 + packet_size payload padding + client_macSize e.
Proof using.
  rewrite length_on_wire by (rewrite length_binary_packet; lia). rewrite length_binary_packet. unfold packet_size. destruct e; cbn [client_macSize]; lia.
Qed.

(** Four bytes under the key stream, taken back. *)
Lemma unxor_word x ch : bytes x -> length x = 4%nat -> bytes ch -> length ch = 64%nat ->
  le_combine (firstn 4 (Rfc8439.zip Z.lxor x ch)) ^^ le_combine (firstn 4 ch) = le_combine x.
Proof using.
  intros Hx Hl Hc Hcl. rewrite firstn_all2 by (rewrite length_zip; lia).
  assert (Rfc8439.zip Z.lxor x ch = Rfc8439.zip Z.lxor x (firstn 4 ch)) as ->.
  { rewrite <- (firstn_skipn 4 ch) at 1. rewrite <- (app_nil_r x) at 1. rewrite zip_app by (rewrite length_firstn; lia). cbn [Rfc8439.zip]. apply app_nil_r. }
  rewrite le_combine_lxor by (auto with hc; rewrite length_zip, length_firstn; lia). rewrite zip_lxor_twice by (rewrite length_firstn; lia). reflexivity.
Qed.

Lemma decodeSize_spec self : protected self 2 k -> packet_size payload padding < 2 ^ 32 ->
  exists self', client_decodeSize self (firstn 4 (wire self)) = (packet_size payload padding, self') /\ advanced 2 k self self'.
Proof using.
  intros Hk Hlt. assert (0 <= packet_size payload padding) by (unfold packet_size; lia).
  assert (firstn 4 (binary_packet payload padding) = be_split 4 (packet_size payload padding)) as E4 by (apply firstn_exact; now rewrite length_be_split).
  unfold client_decodeSize, mem_loadU32. rewrite firstn_firstn. change (Nat.min 4 4) with 4%nat. unfold protected in Hk. destruct (encryption self) eqn:Ee; cbn [on_wire].
  - exists self. rewrite E4, bswap_be_split, Z.mod_small by lia. split; [reflexivity|]. apply advanced_refl. unfold protected. now rewrite Ee.
  - destruct Hk as (Hc & Hm & Hh & (n & nonce & Hn & E2) & (nonce' & Hn' & E3)). cbn [Nat.add] in E3. rewrite E3, nonce_with_key, block_with_key by assumption. eexists. split.
    + unfold seal. rewrite <- app_assoc, firstn_app_l, E4 by (rewrite length_zip, length_firstn, length_binary_packet, length_chacha; lia).
      rewrite unxor_word by (auto with hc; apply length_be_split || apply length_chacha). rewrite bswap_be_split, Z.mod_small by lia. reflexivity.
    + constructor.
      * reflexivity.
      * unfold protected. cbn [set_cipher with_ciphers encryption]. rewrite Ee. unfold keyed, cipher. cbn [set_cipher with_ciphers ciphers Nat.add].
        split; [now rewrite length_set|]. split; [exact Hm|]. split; [exact Hh|]. split; [exists n, nonce; rewrite nth_set_ne by lia; auto|].
        eexists. split; [apply length_be_split|]. apply nth_set_eq. lia.
      * cbn. now rewrite length_set.
      * intros j _ H3. unfold cipher. cbn. apply nth_set_ne. cbn in H3. lia.
      * rewrite Ee. discriminate.
Qed.

Lemma peekSize_spec self w : ring_ok self -> protected self 2 k -> acceptable (encryption self) payload padding ->
  nextSize self = packet_size payload padding \/
  nextSize self = 0 /\ 4 <= receivedSize self /\ firstn 4 (pending self) = firstn 4 (wire self) ->
  exists self', client_peekSize self w = (Done (None, self'), w) /\ advanced 2 k (with_received self (bufferPos self) (receivedSize self) (packet_size payload padding)) self'.
Proof using.
  intros Hok Hk Ha Hn. unfold client_peekSize. assert (0 < packet_size payload padding) as Hpos by (unfold packet_size; lia).
  destruct Hn as [En|(En & Hr & Hp)].
  { rewrite En. destruct (Z.eqb_spec (packet_size payload padding) 0); [lia|]. cbn [negb]. exists self. split; [reflexivity|].
    replace (with_received self _ _ _) with self; [now apply advanced_refl|]. rewrite <- En. now destruct self. }
  rewrite En, Z.eqb_refl. cbn [negb]. destruct (Z.ltb_spec (receivedSize self) 4); [lia|].
  pose proof (ok_received _ Hok). rewrite (bind_done _ _ _ _ _ (load_view0 self 4 w Hok ltac:(lia) ltac:(lia))).
  change (Z.to_nat 4) with 4%nat. rewrite (view_pending self Hok), firstn_app_l, Hp by (pose proof (length_pending self Hok); lia).
  destruct Ha as [_ _ _ _ H4 Hsz]. unfold client_MAX_PACKET_SIZE in *.
  destruct (decodeSize_spec self Hk) as (c3 & -> & [A1 A2 A3 A4 A5]); [pose proof (macSize_nonneg (encryption self)); unfold packet_size; lia|].
  assert (encryption c3 = encryption self) as -> by (rewrite A1; reflexivity). unfold packet_size in *. destruct (Z.ltb_spec (35000 - 4 - client_macSize (encryption self)) (1 + Z.of_nat (length payload) + Z.of_nat (length padding))); [lia|].
  rewrite (land_mask 2) by (lia || reflexivity). change (2 ^ 2) with 4.
  assert ((1 + Z.of_nat (length payload) + Z.of_nat (length padding)) mod 4 = 0) as ->.
  { apply (Nat.Div0.mod_divides _ 4) in H4 as [q Hq]. apply Z.mod_divide; [lia|]. exists (Z.of_nat q - 1). lia. }
  cbn [Z.eqb negb]. eexists. split; [reflexivity|]. constructor; [rewrite A1; reflexivity|exact A2|exact A3|exact A4|exact A5].
Qed.

(** Verification and decryption, in place in the ring. *)
Lemma client_open_spec stack self w : (16 <= length stack)%nat -> ring_ok self -> protected self 2 k -> acceptable (encryption self) payload padding ->
  firstn (length (wire self)) (view self) = wire self ->
  exists r self', client_open stack self (4 + packet_size payload padding) w = (Done (None, self'), w) /\ advanced 2 k (with_ring self r) self' /\ ring_ok (with_ring self r) /\
    skipn 4 (rot (Z.to_nat (bufferPos self)) r) = skipn 4 (binary_packet payload padding) ++ skipn (length (binary_packet payload padding)) (view self).
Proof using.
  intros Hs Hok Hk Ha Hv. pose proof (length_wire (encryption self) (receiveSequenceNumber self)) as Hlw. pose proof (length_view self Hok) as Hlv. pose proof (ok_size _ Hok) as Hsize.
  assert (packet_size payload padding = 1 + Z.of_nat (length payload) + Z.of_nat (length padding)) as Hps by reflexivity.
  destruct Ha as [_ Hpb Hdb Hd H4 Hsz]. unfold client_MAX_PACKET_SIZE in *.
  assert (bytes (binary_packet payload padding)) as Hb by now apply bytes_binary_packet.
  pose proof (length_binary_packet payload padding) as Hlb. revert Hb Hlb Hlw Hv. generalize (binary_packet payload padding). intros packet Hb Hlb Hlw Hv.
  unfold client_open, protected in *. destruct (encryption self) eqn:Ee; cbn [on_wire client_macSize] in *.
  - exists (ring self), self. split; [reflexivity|]. rewrite <- (firstn_skipn (length packet) (view self)) at 1. rewrite Hv.
    assert (with_ring self (ring self) = self) as -> by now destruct self. split; [apply advanced_refl; unfold protected; now rewrite Ee|]. split; [exact Hok|].
    rewrite skipn_app, (proj2 (Nat.sub_0_le 4 (length packet))), skipn_O by lia. reflexivity.
  - destruct Hk as (Hc & Hm & Hh & (n & nonce & Hn & E2) & (nonce' & Hn' & E3)). rewrite E2. set (s := receiveSequenceNumber self) in *. clearbody s.
    rewrite (bind_done _ _ _ _ _ (load_view0 self (4 + packet_size payload padding) w Hok ltac:(lia) ltac:(lia))).
    rewrite (bind_done _ _ _ _ _ (load_view self (4 + packet_size payload padding) 16 w Hok ltac:(lia) ltac:(lia) ltac:(lia))).
    replace (Z.to_nat (4 + packet_size payload padding)) with (length packet) by lia.
    rewrite (firstn_prefix _ _ (length packet) Hv) by lia. replace (Z.to_nat 16) with (length (seal k s packet) - length packet)%nat by lia. rewrite (skipn_prefix _ _ (length packet) Hv).
    assert (length packet mod 4 = 0)%nat as H4b by (rewrite Hlb; exact H4).
    destruct (unseal_spec stack Hs (with_key (main k) n nonce) k s packet w n nonce Hm Hn eq_refl Hb H4b ltac:(lia) ltac:(lia)) as (Et & m & Em). rewrite Et.
    rewrite compare_self by (rewrite length_skipn; lia). cbn [Z.eqb negb].
    rewrite (bind_done _ _ _ _ _ Em). set (c := with_key (main k) m (be_split 8 s)). set (data := firstn 4 (seal k s packet) ++ skipn 4 packet).
    assert (length (firstn 4 (seal k s packet)) = 4%nat) as H4l by (rewrite length_firstn; lia).
    assert (length data = length packet) as Hdl by (unfold data; rewrite length_app, H4l, length_skipn; lia).
    assert (bytes data) as Hdat by (unfold data; apply bytes_app; split; [apply bytes_firstn; exact (bytes_on_wire encryption_CHACHA20POLY1305 k s packet Hb)|auto with hc]).
    assert (ring_ok (set_cipher self 2 c)) as Hok2 by (destruct Hok; constructor; assumption).
    destruct (store_view (set_cipher self 2 c) 0 data w Hok2 ltac:(lia)) as (r & Er & Hr & Hv2); [cbn [set_cipher with_ciphers bufferSize]; lia|exact Hdat|].
    cbn [set_cipher with_ciphers bufferPos ring] in Er, Hv2. rewrite Z.add_0_r in Er. rewrite (bind_done _ _ _ _ _ Er). exists r. eexists. split; [reflexivity|]. split; [|split].
    + constructor; [reflexivity| |cbn; now rewrite length_set|intros j H2 _; unfold cipher; cbn; apply nth_set_ne; lia|cbn; rewrite Ee; discriminate].
      unfold protected. cbn [with_ring set_cipher with_ciphers encryption]. rewrite Ee. unfold keyed, cipher. cbn [with_ring set_cipher with_ciphers ciphers Nat.add].
      split; [now rewrite length_set|]. split; [exact Hm|]. split; [exact Hh|]. split; [exists m, (be_split 8 s); rewrite nth_set_eq by lia; split; [apply length_be_split|reflexivity]|].
      exists nonce'. split; [exact Hn'|]. rewrite nth_set_ne by lia. exact E3.
    + destruct Hr; constructor; assumption.
    + rewrite Hv2. change (Z.to_nat 0) with 0%nat. rewrite mem_copy_eq by lia. rewrite firstn_O, app_nil_l, Nat.add_0_l, Hdl. unfold data. rewrite <- app_assoc. apply skipn_exact. symmetry. exact H4l.
Qed.

(** *** One look at the buffer *)

(** The size is not yet known, or the one of the packet to come. *)
Definition size_known (self : client) : Prop := nextSize self = 0 \/ nextSize self = packet_size payload padding.

Record expects (self : client) (future rest : list Z) : Prop := {
  ex_ring : ring_ok self; ex_keys : protected self 2 k; ex_packet : acceptable (encryption self) payload padding;
  ex_size : size_known self; ex_stream : pending self ++ future = wire self ++ rest }.

Lemma expects_size self future rest : expects self future rest -> Z.of_nat (length (wire self)) <= client_MAX_PACKET_SIZE.
Proof using. intros [_ _ [_ _ _ _ _ Hsz] _ _]. rewrite length_wire. unfold packet_size. lia. Qed.

(** Enough of the packet for its size. *)
Lemma expects_peekSize self future rest w : expects self future rest -> 4 <= receivedSize self ->
  exists self', client_peekSize self w = (Done (None, self'), w) /\ advanced 2 k (with_received self (bufferPos self) (receivedSize self) (packet_size payload padding)) self'.
Proof using.
  intros [Hok Hk Ha Hn Hst] Hr. apply peekSize_spec; [assumption..|]. destruct Hn as [Hn|Hn]; [right|now left]. split; [exact Hn|]. split; [exact Hr|].
  pose proof (length_pending self Hok). pose proof (length_wire (encryption self) (receiveSequenceNumber self)). pose proof (macSize_nonneg (encryption self)). unfold packet_size in *.
  rewrite <- (firstn_app_l (pending self) future) by lia. rewrite Hst. apply firstn_app_l. lia.
Qed.

Lemma advanced_fields i self self' : advanced i k self self' ->
  ring self' = ring self /\ bufferPos self' = bufferPos self /\ receivedSize self' = receivedSize self /\ encryption self' = encryption self /\
  bufferSize self' = bufferSize self /\ nextSize self' = nextSize self /\ receiveSequenceNumber self' = receiveSequenceNumber self.
Proof using. intros [-> _ _ _ _]. cbn. auto 10. Qed.

Lemma advanced_trans i s1 s2 s3 : advanced i k s1 s2 -> advanced i k s2 s3 -> advanced i k s1 s3.
Proof using.
  intros [A1 A2 A3 A4 A5] [B1 B2 B3 B4 B5]. constructor; [rewrite B1, A1; reflexivity|exact B2|congruence|intros j H1 H2; rewrite B4, A4; auto|].
  intros H. rewrite B5, A5; [reflexivity|exact H|]. rewrite A1. exact H.
Qed.

Context (stack : list Z).

(** Too little has arrived: nothing is taken. *)
Lemma peek_waits self future rest w : expects self future rest -> receivedSize self < Z.of_nat (length (wire self)) ->
  exists self', client_peekMessage stack self w = (Done (0, 0, self'), w) /\
    advanced 2 k (with_received self (bufferPos self) (receivedSize self) (nextSize self')) self' /\ size_known self'.
Proof using.
  intros He Hlt. pose proof He as [Hok Hk Ha Hn Hst]. rewrite length_wire in Hlt. unfold client_peekMessage, assume_aligned. rewrite (ok_pos4 _ Hok). cbn [Z.eqb]. rewrite bind_pure.
  assert (0 < packet_size payload padding) as Hps by (unfold packet_size; lia). destruct (Z.ltb_spec (nextSize self) 0); [destruct Hn; lia|].
  destruct (Z.ltb_spec (receivedSize self) 4) as [H4|H4].
  - destruct Hn as [Hn|Hn].
    + exists self. unfold client_peekSize, bind, pure. rewrite Hn. cbn [Z.eqb negb]. destruct (Z.ltb_spec (receivedSize self) 4); [|lia]. split; [reflexivity|]. split; [|now left].
      replace (with_received self _ _ _) with self; [now apply advanced_refl|]. rewrite <- Hn. now destruct self.
    + exists self. unfold client_peekSize. rewrite Hn. destruct (Z.eqb_spec (packet_size payload padding) 0); [lia|]. cbn [negb]. rewrite bind_pure, Hn.
      destruct (Z.ltb_spec (receivedSize self) (4 + packet_size payload padding + client_macSize (encryption self))); [|lia]. split; [reflexivity|]. split; [|now right].
      replace (with_received self _ _ _) with self; [now apply advanced_refl|]. rewrite <- Hn. now destruct self.
  - destruct (expects_peekSize self future rest w He H4) as (self' & E & Hadv). rewrite (bind_done _ _ _ _ _ E).
    destruct (advanced_fields _ _ _ Hadv) as (_ & _ & Fr & _ & _ & Fn & _). cbn [with_received nextSize receivedSize] in Fr, Fn. rewrite Fn, Fr. exists self'.
    destruct (Z.ltb_spec (receivedSize self) (4 + packet_size payload padding + client_macSize (encryption self))); [|lia]. rewrite Fn. split; [reflexivity|]. split; [exact Hadv|now right].
Qed.

Context (Hstack : (16 <= length stack)%nat).

(** The client with a packet of [size] bytes opened in place. *)
Definition opened (self : client) (r : list Z) : client :=
  with_received (with_sequence (with_ring self r) (u32 (receiveSequenceNumber self + 1)) (sendSequenceNumber self)) (bufferPos self) (receivedSize self) (- packet_size payload padding).

Lemma peek_opens self future rest w : expects self future rest -> Z.of_nat (length (wire self)) <= receivedSize self ->
  exists r self', client_peekMessage stack self w = (Done (Z.of_nat (length payload), bufferPos self + 5, self'), w) /\
    advanced 2 k (opened self r) self' /\ ring_ok (with_ring self r) /\
    skipn 4 (rot (Z.to_nat (bufferPos self)) r) = skipn 4 (binary_packet payload padding) ++ skipn (length (binary_packet payload padding)) (view self).
Proof using Hstack.
  intros He Hle. pose proof He as [Hok Hk Ha Hn Hst]. pose proof (expects_size _ _ _ He) as Hmax. rewrite length_wire in Hle, Hmax. pose proof (macSize_nonneg (encryption self)).
  assert (packet_size payload padding = 1 + Z.of_nat (length payload) + Z.of_nat (length padding)) as Hps by reflexivity.
  pose proof (acc_payload _ _ _ Ha) as Hpl. assert (0 < length payload)%nat by (destruct payload; [congruence|cbn; lia]).
  unfold client_peekMessage, assume_aligned. rewrite (ok_pos4 _ Hok). cbn [Z.eqb]. rewrite bind_pure. destruct (Z.ltb_spec (nextSize self) 0); [destruct Hn; lia|].
  destruct (expects_peekSize self future rest w He ltac:(lia)) as (self1 & E & Hadv). rewrite (bind_done _ _ _ _ _ E).
  destruct (advanced_fields _ _ _ Hadv) as (Fg & Fp & Fr & Fe & Fs & Fn & Fq). cbn [with_received nextSize receivedSize bufferPos ring encryption bufferSize receiveSequenceNumber] in Fg, Fp, Fr, Fe, Fs, Fn, Fq. rewrite Fn, Fr.
  destruct (Z.ltb_spec (receivedSize self) (4 + packet_size payload padding + client_macSize (encryption self))); [lia|].
  assert (ring_ok self1) as Hok1 by (destruct Hok; constructor; rewrite ?Fg, ?Fp, ?Fr, ?Fs; assumption).
  destruct (client_open_spec stack self1 w Hstack Hok1 (adv_keys _ _ _ _ Hadv)) as (r & self2 & Eo & Ho & Hr & Hv); [now rewrite Fe| |].
  { rewrite Fe, Fq, Fp, Fg. rewrite (view_pending self Hok). pose proof (length_pending self Hok). pose proof (length_wire (encryption self) (receiveSequenceNumber self)).
    rewrite firstn_app_l by lia. rewrite <- (firstn_app_l (pending self) future), Hst by lia. apply firstn_exact. reflexivity. }
  rewrite (bind_done _ _ _ _ _ Eo). destruct (advanced_fields _ _ _ Ho) as (Gg & Gp & Gr & Ge & Gs & Gn & Gq). cbn [with_ring nextSize receivedSize bufferPos ring encryption bufferSize receiveSequenceNumber] in Gg, Gp, Gr, Ge, Gs, Gn, Gq.
  assert (ring_ok self2) as Hok2 by (destruct Hr; constructor; rewrite ?Gg, ?Gp, ?Gr, ?Gs; assumption). rewrite Fp, Fg in Hv.
  pose proof (ok_size _ Hok). unfold client_MAX_PACKET_SIZE in *. rewrite (bind_done _ _ _ _ _ (load_view self2 4 1 w Hok2 ltac:(lia) ltac:(lia) ltac:(rewrite Gs, Fs; lia))).
  change (Z.to_nat 4) with 4%nat. rewrite Gp, Gg, Fp, Hv, Gn, Fn. change (skipn 4 (binary_packet payload padding)) with (Z.of_nat (length padding) :: payload ++ padding).
  change (get _ 0) with (Z.of_nat (length padding)). destruct (Z.leb_spec (packet_size payload padding - Z.of_nat (length padding) - 1) 0); [lia|].
  cbn [with_sequence bufferPos receivedSize nextSize]. rewrite Gp, Fp, Gr, Fr, Gn, Fn.
  exists r. eexists. split; [|split; [|split]].
  - unfold pure. replace (Z.of_nat (length payload)) with (packet_size payload padding - Z.of_nat (length padding) - 1) by lia. reflexivity.
  - pose proof (advanced_trans 2 (with_ring (with_received self (bufferPos self) (receivedSize self) (packet_size payload padding)) r) (with_ring self1 r) self2) as Ht. destruct Ht as [T1 T2 T3 T4 T5]; [|exact Ho|].
    + destruct Hadv as [A1 A2 A3 A4 A5]. constructor; [rewrite A1; reflexivity|exact A2|exact A3|exact A4|exact A5].
    + constructor; [rewrite T1; reflexivity|exact T2|exact T3|exact T4|exact T5].
  - destruct Hr; constructor; cbn [with_ring ring bufferSize bufferPos receivedSize] in *; rewrite ?Fg, ?Fp, ?Fr, ?Fs in *; assumption.
  - exact Hv.
Qed.

(** *** Taking the packet *)

(** The client after the packet: its place in the ring is free. *)
Definition taken (self : client) (r : list Z) : client :=
  let total := Z.of_nat (length (wire self)) in
  with_received (with_sequence (with_ring self r) (u32 (receiveSequenceNumber self + 1)) (sendSequenceNumber self))
    ((bufferPos self + total) mod bufferSize self) (receivedSize self - total) 0.

Lemma taken_ring self r : ring_ok (with_ring self r) -> Z.of_nat (length (wire self)) <= receivedSize self -> ((5 + length payload + length padding) mod 4 = 0)%nat ->
  ring_ok (taken self r) /\ pending (taken self r) = skipn (length (wire self)) (firstn (Z.to_nat (receivedSize self)) (rot (Z.to_nat (bufferPos self)) r)).
Proof using Hstack.
  intros [Hl Hs H4 Hp Hp4 Hr Hb] Hle Ht4. cbn [with_ring ring bufferSize bufferPos receivedSize] in *.
  assert (Z.of_nat (length (wire self)) mod 4 = 0) as Hw4.
  { rewrite length_wire. unfold packet_size. apply Z.mod_divide; [lia|]. apply (Nat.Div0.mod_divides _ 4) in Ht4 as [q Hq].
    destruct (encryption self); cbn [client_macSize]; [exists (Z.of_nat q)|exists (Z.of_nat q + 4)]; lia. }
  unfold taken. set (total := length (wire self)) in *. clearbody total. unfold client_MAX_PACKET_SIZE in *. pose proof (Z.mod_pos_bound (bufferPos self + Z.of_nat total) (bufferSize self) ltac:(lia)). split.
  - constructor; cbn [with_received with_sequence with_ring ring bufferSize bufferPos receivedSize]; try assumption; try lia.
    apply Z.mod_divide in H4 as [a Ha]; [|lia]. apply Z.mod_divide in Hp4 as [b Hb2]; [|lia]. apply Z.mod_divide in Hw4 as [c Hc]; [|lia].
    assert ((bufferPos self + Z.of_nat total) mod bufferSize self = (b + c - a * ((bufferPos self + Z.of_nat total) / bufferSize self)) * 4) as -> by (rewrite Z.mod_eq by lia; nia).
    apply Z.mod_mul. lia.
  - unfold pending. cbn [with_received with_sequence with_ring ring bufferSize bufferPos receivedSize].
    rewrite Z2Nat.inj_mod, Z2Nat.inj_add by lia. rewrite <- Hl, !Nat2Z.id. rewrite rot_rot by lia. unfold rot at 1. rewrite firstn_app_l by (rewrite length_skipn, length_rot; lia).
    rewrite skipn_firstn_comm. f_equal. lia.
Qed.

Lemma buffer_load_ext self self' i n w : ring self' = ring self -> bufferSize self' = bufferSize self -> buffer_load self' i n w = buffer_load self i n w.
Proof using. intros H1 H2. unfold buffer_load, in_buffer. now rewrite H1, H2. Qed.

Lemma next_takes self future rest w : expects self future rest -> Z.of_nat (length (wire self)) <= receivedSize self ->
  exists r self', client_nextMessage stack self w = (Done (Z.of_nat (length payload), bufferPos self + 5, self'), w) /\
    advanced 2 k (taken self r) self' /\ ring_ok self' /\ pending self' ++ future = rest /\
    forall w, buffer_load self' (bufferPos self + 5) (Z.of_nat (length payload)) w = (Done payload, w).
Proof using Hstack.
  intros He Hle. destruct (peek_opens self future rest w He Hle) as (r & self1 & E & Hadv & Hok & Hv). pose proof He as [Hok0 _ Ha _ Hst].
  pose proof (length_wire (encryption self) (receiveSequenceNumber self)) as Hlw. pose proof (macSize_nonneg (encryption self)) as Hmac. pose proof (length_binary_packet payload padding) as Hlb.
  pose proof (expects_size _ _ _ He) as Hmax. pose proof (length_pending self Hok0) as Hlp. pose proof (ok_size _ Hok0) as Hbig. unfold packet_size in Hlw.
  pose proof (acc_payload _ _ _ Ha) as Hpl. assert (0 < length payload)%nat by (destruct payload; [congruence|cbn; lia]).
  unfold client_nextMessage. rewrite (bind_done _ _ _ _ _ E). destruct (Z.ltb_spec 0 (Z.of_nat (length payload))); [|lia]. exists r, (client_ackMessage self1).
  destruct (taken_ring self r Hok Hle (acc_4 _ _ _ Ha)) as [Hok' Hpend].
  assert (advanced 2 k (taken self r) (client_ackMessage self1)) as Hadv'.
  { destruct Hadv as [A1 A2 A3 A4 A5]. constructor; [|exact A2|exact A3|exact A4|exact A5]. rewrite A1. unfold client_ackMessage, opened, taken. rewrite Hlw. cbn [with_received with_sequence with_ring with_ciphers buffer ring bufferSize bufferPos receivedSize bufferMemFd receiveSequenceNumber sendSequenceNumber ciphers partialExchangeHash tempHash sessionId socketFd encryption nextSize]. unfold packet_size.
    unfold client_MAX_PACKET_SIZE in *. pose proof (ok_pos _ Hok0). set (size := 1 + Z.of_nat (length payload) + Z.of_nat (length padding)) in *.
    replace (- - size + 4 + client_macSize (encryption self)) with (4 + size + client_macSize (encryption self)) by lia. rewrite Z.rem_mod_nonneg by lia. reflexivity. }
  destruct (advanced_fields _ _ _ Hadv') as (Fg & Fp & Fr & Fe & Fs & _ & _). cbn [taken with_received with_sequence with_ring ring bufferSize bufferPos receivedSize encryption] in Fg, Fp, Fr, Fe, Fs.
  split; [reflexivity|]. split; [exact Hadv'|]. split; [|split].
  - destruct Hok'; constructor; cbn [taken with_received with_sequence with_ring ring bufferSize bufferPos receivedSize] in *; rewrite ?Fg, ?Fp, ?Fr, ?Fs; assumption.
  - assert (pending (client_ackMessage self1) = pending (taken self r)) as -> by (unfold pending; cbn [taken with_received with_sequence with_ring ring bufferPos receivedSize]; now rewrite Fg, Fp, Fr). rewrite Hpend.
    assert (skipn (length (wire self)) (rot (Z.to_nat (bufferPos self)) r) = skipn (length (wire self)) (view self)) as Es.
    { replace (length (wire self)) with (4 + (length (wire self) - 4))%nat by lia. rewrite <- skipn_skipn_add, Hv. rewrite skipn_app, length_skipn, skipn_all2, app_nil_l by (rewrite length_skipn; lia).
      rewrite skipn_skipn_add. f_equal. lia. }
    rewrite skipn_firstn_comm, Es, <- skipn_firstn_comm. fold (pending self).
    transitivity (skipn (length (wire self)) (pending self ++ future)); [|rewrite Hst; now apply skipn_exact].
    rewrite skipn_app, (proj2 (Nat.sub_0_le (length (wire self)) (length (pending self)))), skipn_O by lia. reflexivity.
  - intros w'. rewrite (buffer_load_ext (with_ring self r)) by assumption. change (bufferPos self) with (bufferPos (with_ring self r)) at 1. unfold client_MAX_PACKET_SIZE in *.
    rewrite load_view by (assumption || (cbn [with_ring bufferSize]; lia)). cbn [with_ring ring bufferPos]. change (Z.to_nat 5) with (4 + 1)%nat. rewrite <- skipn_skipn_add, Hv.
    change (skipn 4 (binary_packet payload padding)) with (Z.of_nat (length padding) :: payload ++ padding). cbn [app skipn]. rewrite Nat2Z.id, <- app_assoc, firstn_exact by reflexivity. reflexivity.
Qed.

(** *** Waiting for a packet *)

(** [n] bytes are needed, [p] are there; each chunk that arrives fits in the ring. *)
Inductive arrives (size : Z) (n : nat) : nat -> list (list Z) -> Prop :=
| arrived p : (n <= p)%nat -> arrives size n p []
| arriving p c cs : (p < n)%nat -> c <> [] -> bytes c -> Z.of_nat (p + length c) <= size -> arrives size n (p + length c) cs -> arrives size n p (c :: cs).

Definition chunk_answer (c : list Z) : answer := Answer (Z.of_nat (length c)) c.

(** Only the receiving side has moved. *)
Record same_session (self self' : client) : Prop := {
  ss_fields : self' = Client (buffer self) (ring self') (bufferSize self) (bufferPos self') (receivedSize self') (bufferMemFd self) (receiveSequenceNumber self') (sendSequenceNumber self)
    (ciphers self') (partialExchangeHash self) (tempHash self) (sessionId self) (socketFd self) (encryption self) (nextSize self');
  ss_length : length (ciphers self') = length (ciphers self);
  ss_ciphers : forall j, j <> 2%nat -> j <> 3%nat -> cipher self' j = cipher self j }.

Lemma same_session_trans s1 s2 s3 : same_session s1 s2 -> same_session s2 s3 -> same_session s1 s3.
Proof using.
  intros [A1 A2 A3] [B1 B2 B3]. constructor; [rewrite B1, A1; reflexivity|congruence|]. intros j H2 H3. rewrite B3, A3; auto.
Qed.

Lemma advanced_session base self self' : advanced 2 k base self' -> same_session self base -> same_session self self'.
Proof using.
  intros [A1 _ A3 A4 _] [B1 B2 B3]. constructor; [rewrite A1; rewrite B1; reflexivity|congruence|]. intros j H2 H3. rewrite A4, B3; auto.
Qed.

Lemma client_receive_spec self c answers t : ring_ok self -> c <> [] -> bytes c -> receivedSize self + Z.of_nat (length c) <= bufferSize self ->
  exists self' t', client_receive self (World (chunk_answer c :: answers) t) = (Done (Z.of_nat (length c), self'), World answers t') /\
    ring_ok self' /\ pending self' = pending self ++ c /\ receivedSize self' = receivedSize self + Z.of_nat (length c) /\
    self' = with_received (with_ring self (ring self')) (bufferPos self) (receivedSize self') (nextSize self).
Proof using Hstack.
  intros Hok Hne Hb Hfit. pose proof (ok_received _ Hok) as Hr. pose proof (length_view self Hok) as Hlv. unfold client_receive, sys_recvfrom, chunk_answer.
  rewrite (bind_done _ _ _ _ _ (syscall_in_answer _ (Z.to_nat (bufferSize self - receivedSize self)) (Z.of_nat (length c)) c _ _ ltac:(lia) Hb ltac:(lia))). set (t' := t ++ _). clearbody t'.
  destruct (store_view self (receivedSize self) c (World answers t') Hok ltac:(lia) Hfit Hb) as (r & E & Hok' & Hv). rewrite (bind_done _ _ _ _ _ E).
  eexists. exists t'. split; [reflexivity|]. cbn [with_received with_ring receivedSize ring bufferPos bufferSize nextSize]. split; [|split; [|split; reflexivity]].
  - destruct Hok'. constructor; cbn [with_received with_ring receivedSize ring bufferPos bufferSize] in *; try assumption. lia.
  - unfold pending. cbn [with_received with_ring receivedSize ring bufferPos]. rewrite Hv, mem_copy_eq by lia. rewrite Z2Nat.inj_add, Nat2Z.id by lia.
    rewrite app_assoc, firstn_app_l by (rewrite length_app, length_firstn; lia). apply firstn_all2. rewrite length_app, length_firstn. lia.
Qed.

Lemma expects_receives self c future rest self' : expects self (c ++ future) rest -> ring_ok self' -> pending self' = pending self ++ c ->
  self' = with_received (with_ring self (ring self')) (bufferPos self) (receivedSize self') (nextSize self) -> expects self' future rest.
Proof using.
  intros [_ Hk Ha Hn Hst] Hok Hp E. constructor; [exact Hok|now rewrite E|now rewrite E|unfold size_known; now rewrite E|].
  rewrite Hp, <- app_assoc, Hst, E. reflexivity.
Qed.

Lemma wait_takes : forall cs self fuel future rest answers t, expects self (concat cs ++ future) rest ->
  arrives (bufferSize self) (length (wire self)) (Z.to_nat (receivedSize self)) cs -> (length cs < fuel)%nat ->
  exists self' t', client_waitLoop stack fuel self (World (map chunk_answer cs ++ answers) t) = (Done (Z.of_nat (length payload), bufferPos self + 5, self'), World answers t') /\
    same_session self self' /\ ring_ok self' /\ protected self' 2 k /\ nextSize self' = 0 /\ receiveSequenceNumber self' = u32 (receiveSequenceNumber self + 1) /\
    pending self' ++ future = rest /\ forall w, buffer_load self' (bufferPos self + 5) (Z.of_nat (length payload)) w = (Done payload, w).
Proof using Hstack.
  induction cs as [|c cs IH]; intros self fuel future rest answers t He Harr Hf; inversion Harr; subst; (destruct fuel as [|fuel]; [cbn in Hf; lia|]); cbn [client_waitLoop].
  - pose proof (acc_payload _ _ _ (ex_packet _ _ _ He)) as Hpl. assert (0 < length payload)%nat by (destruct payload; [congruence|cbn; lia]).
    pose proof (ok_received _ (ex_ring _ _ _ He)) as Hr. cbn [map concat app] in *. destruct (next_takes self future rest (World answers t) He ltac:(lia)) as (r & self' & E & Hadv & Hok & Hp & Hm).
    rewrite (bind_done _ _ _ _ _ E). destruct (Z.ltb_spec 0 (Z.of_nat (length payload))); [|lia]. exists self', t. split; [reflexivity|].
    split; [apply (advanced_session (taken self r)); [exact Hadv|constructor; auto; reflexivity]|]. split; [exact Hok|]. split; [exact (adv_keys _ _ _ _ Hadv)|].
    destruct (advanced_fields _ _ _ Hadv) as (_ & _ & _ & _ & _ & Fn & Fq). rewrite Fn, Fq. auto.
  - cbn [map concat app] in *. rewrite <- app_assoc in He.
    destruct (peek_waits self _ _ (World (chunk_answer c :: map chunk_answer cs ++ answers) t) He ltac:(lia)) as (self1 & E & Hadv & Hn).
    unfold client_nextMessage. rewrite bind_assoc, (bind_done _ _ _ _ _ E). rewrite bind_pure. cbn [Z.ltb Z.compare].
    pose proof (ex_ring _ _ _ He) as Hok. pose proof (ok_received _ Hok) as Hr.
    assert (expects self1 (c ++ concat cs ++ future) rest) as He1.
    { destruct He as [_ Hk Ha _ Hst]. destruct Hadv as [A1 A2 _ _ _]. rewrite A1. constructor; [destruct Hok; constructor; assumption|rewrite A1 in A2; exact A2|exact Ha|unfold size_known in *; rewrite A1 in Hn; exact Hn|exact Hst]. }
    destruct (advanced_fields _ _ _ Hadv) as (_ & Fp & Fr & Fe & Fs & _ & Fq). cbn [with_received bufferPos receivedSize encryption bufferSize receiveSequenceNumber] in Fp, Fr, Fe, Fs, Fq.
    match goal with H : Z.of_nat (Z.to_nat _ + _) <= _ |- _ => rename H into Hfit end. match goal with H : c <> [] |- _ => rename H into Hne end. match goal with H : bytes c |- _ => rename H into Hb end.
    match goal with H : arrives _ _ _ cs |- _ => rename H into Harr2 end.
    destruct (client_receive_spec self1 c (map chunk_answer cs ++ answers) t (ex_ring _ _ _ He1) Hne Hb ltac:(rewrite Fr, Fs; lia)) as (self2 & t2 & E2 & Hok2 & Hp2 & Hr2 & Ef2).
    rewrite (bind_done _ _ _ _ _ E2). assert (0 < length c)%nat by (destruct c; [congruence|cbn; lia]). destruct (Z.leb_spec (Z.of_nat (length c)) 0); [lia|].
    pose proof (expects_receives _ _ _ _ _ He1 Hok2 Hp2 Ef2) as He2.
    assert (bufferSize self2 = bufferSize self /\ encryption self2 = encryption self /\ receiveSequenceNumber self2 = receiveSequenceNumber self /\ bufferPos self2 = bufferPos self) as (Gs & Ge & Gq & Gp) by (rewrite Ef2; cbn; auto).
    destruct (IH self2 fuel future rest answers t2 He2) as (self' & t' & E' & Hss & Hok' & Hk' & Hn' & Hq' & Hp' & Hm'); [rewrite Gs, Ge, Gq, Hr2, Fr, Z2Nat.inj_add, Nat2Z.id by lia; exact Harr2|cbn in Hf; lia|].
    exists self', t'. rewrite Gp in *. split; [exact E'|]. split; [|rewrite Gq in Hq'; tauto]. apply (same_session_trans _ self2); [|exact Hss].
    apply (advanced_session _ self) in Hadv; [|constructor; auto; reflexivity]. apply (same_session_trans _ self1); [exact Hadv|].
    constructor; [rewrite Ef2; reflexivity|rewrite Ef2; reflexivity|intros j _ _; rewrite Ef2; reflexivity].
Qed.
End Peek.

(** ** The theorems *)

(** What [client_sendMessage] sends can be accepted. *)
Lemma sent_acceptable e payload tl : payload <> [] -> bytes payload -> bytes tl -> length tl = Z.to_nat messageTail_SIZE -> Z.of_nat (length payload) <= 34900 ->
  acceptable e payload (firstn (Z.to_nat (client_PADDING_SIZE (Z.of_nat (length payload)))) tl).
Proof.
  intros Hne Hb Htb Htl Hlen. unfold messageTail_SIZE in Htl. destruct (padding_spec (Z.of_nat (length payload))) as [Hp Hm]. set (pad := client_PADDING_SIZE _) in *. clearbody pad.
  assert (length (firstn (Z.to_nat pad) tl) = Z.to_nat pad) as Hl by (rewrite length_firstn; lia). pose proof (macSize_nonneg e). unfold client_MAX_PACKET_SIZE.
  constructor; rewrite ?Hl; auto with hc; unfold client_MAX_PACKET_SIZE; try lia.
  apply Z.mod_divide in Hm as [q Hq]; [|lia]. apply Nat.Div0.mod_divides. exists (Z.to_nat (16 * q)). lia.
Qed.

Lemma mac_key self key data : poly1305_update (poly1305_init self key) data = poly1305_update (poly1305_init self (firstn 32 key)) data.
Proof.
  f_equal. unfold poly1305_init, mem_loadU64. rewrite !skipn_firstn_comm, !firstn_firstn. reflexivity.
Qed.


(** C10: a message that [client_sendMessage] sends is the message [client_waitForMessage]
    returns at a client that decrypts with the keys of the sender and has counted as many
    packets, in the clear or encrypted, wherever the packet lies in the circular buffer and
    however [recvfrom] cuts the stream; what follows the packet stays in the buffer, and
    nothing else of the receiver changes. *)
Theorem ssh_message_roundtrip stack stack' k sender receiver head payload tl w :
  (16 <= length stack)%nat -> (16 <= length stack')%nat -> length head = 5%nat -> bytes head -> payload <> [] -> bytes payload -> bytes tl ->
  length tl = Z.to_nat messageTail_SIZE -> Z.of_nat (length payload) <= 34900 ->
  protected sender 0 k -> protected receiver 2 k -> encryption receiver = encryption sender -> receiveSequenceNumber receiver = sendSequenceNumber sender ->
  ring_ok receiver -> nextSize receiver = 0 ->
  let padding := firstn (Z.to_nat (client_PADDING_SIZE (Z.of_nat (length payload)))) tl in
  let data := on_wire (encryption sender) k (sendSequenceNumber sender) (binary_packet payload padding) in
  exists sender',
    client_sendMessage stack sender (head ++ payload ++ tl) (Z.of_nat (length payload)) w
    = (let! numSent := sys_sendto (socketFd sender) data MSG_NOSIGNAL [] in
       if negb (numSent =? Z.of_nat (length data)) then pure (-1, sender')
       else pure (0, with_sequence sender' (receiveSequenceNumber sender) (u32 (sendSequenceNumber sender + 1)))) w /\
    forall cs future rest answers t,
      pending receiver ++ concat cs ++ future = data ++ rest -> arrives (bufferSize receiver) (length data) (Z.to_nat (receivedSize receiver)) cs ->
      exists receiver' t' message,
        client_waitForMessage stack' receiver (World (map chunk_answer cs ++ answers) t) = (Done (Z.of_nat (length payload), message, receiver'), World answers t') /\
        (forall w, buffer_load receiver' message (Z.of_nat (length payload)) w = (Done payload, w)) /\
        pending receiver' ++ future = rest /\ same_session receiver receiver' /\ ring_ok receiver' /\ protected receiver' 2 k /\ nextSize receiver' = 0 /\
        receiveSequenceNumber receiver' = u32 (receiveSequenceNumber receiver + 1).
Proof.
  intros Hs Hs' Hh Hhb Hne Hpb Htb Htl Hlen Hk Hk' He Hq Hok Hn padding data.
  destruct (client_sendMessage_spec stack Hs sender k head payload tl w) as (sender' & _ & E); [assumption..|lia|exact Hk|]. cbv zeta in E.
  exists sender'. split; [exact E|]. intros cs future rest answers t Hst Harr. clear E.
  pose proof (sent_acceptable (encryption receiver) payload tl Hne Hpb Htb Htl Hlen) as Ha. fold padding in Ha. unfold data in *. rewrite <- He, <- Hq in Hst, Harr.
  destruct (wait_takes k payload padding stack' Hs' cs receiver (S (length (map chunk_answer cs ++ answers))) future rest answers t) as (receiver' & t' & H1 & H2 & H3 & H4 & H5 & H6 & H7 & H8); [|exact Harr|rewrite length_app, length_map; lia|].
  - constructor; [exact Hok|exact Hk'|exact Ha|now left|exact Hst].
  - exists receiver', t', (bufferPos receiver + 5). auto 10.
Qed.

(** A message of five bytes under the sequence number 3, cut after three bytes, at a
    receiver whose ring ends four bytes further on. *)
Definition demo_keys : keys := Keys (repeat 7 32) (repeat 9 32).
Definition demo_client (cs : list (list Z)) : client :=
  Client 0x10000 (repeat 0 (Z.to_nat 36864)) 36864 36860 0 3 3 3 cs (Stream (ShaCore [] 0) (repeat 0 64) 0) (Stream (ShaCore [] 0) (repeat 0 64) 0) (repeat 0 32) 4 encryption_CHACHA20POLY1305 0.
Definition demo_ciphers : list (list Z) := [with_key (main demo_keys) 0 (repeat 0 8); with_key (header demo_keys) 0 (repeat 0 8)].
Definition demo_idle : list (list Z) := [repeat 0 64; repeat 0 64].
Definition demo_sender : client := demo_client (demo_ciphers ++ demo_idle).
Definition demo_receiver : client := demo_client (demo_idle ++ demo_ciphers).
Definition demo_data : list Z := on_wire encryption_CHACHA20POLY1305 demo_keys 3 (binary_packet (str "hello") (repeat 0 54)).

Lemma demo_data_eq : on_wire (encryption demo_sender) demo_keys (sendSequenceNumber demo_sender)
  (binary_packet (str "hello") (firstn (Z.to_nat (client_PADDING_SIZE (Z.of_nat (length (str "hello"))))) (repeat 0 83))) = demo_data.
Proof. vm_compute. reflexivity. Qed.

Lemma demo_protected : protected demo_sender 0 demo_keys /\ protected demo_receiver 2 demo_keys.
Proof. split; (repeat split; [exists 0, (repeat 0 8); split; reflexivity|exists (repeat 0 8); split; reflexivity]). Qed.

Lemma demo_ring : ring_ok demo_receiver.
Proof.
  constructor; cbn [demo_receiver demo_client ring bufferSize bufferPos receivedSize]; [|unfold client_MAX_PACKET_SIZE; lia|reflexivity|lia|reflexivity|lia|apply bytes_repeat; unfold is_byte; lia].
  rewrite repeat_length. apply Z2Nat.id. lia.
Qed.

Lemma ssh_message_roundtrip_witness :
  (exists sender' w', client_sendMessage (repeat 0 16) demo_sender (repeat 0 5 ++ str "hello" ++ repeat 0 83) 5 (World [Answer (Z.of_nat (length demo_data)) []] []) = (Done (0, sender'), w')) /\
  exists receiver' t' message,
    client_waitForMessage (repeat 1 16) demo_receiver (World (map chunk_answer [firstn 3 demo_data; skipn 3 demo_data]) []) = (Done (5, message, receiver'), World [] t') /\
    forall w, buffer_load receiver' message 5 w = (Done (str "hello"), w).
Proof.
  destruct (ssh_message_roundtrip (repeat 0 16) (repeat 1 16) demo_keys demo_sender demo_receiver (repeat 0 5) (str "hello") (repeat 0 83)
    (World [Answer (Z.of_nat (length demo_data)) []] [])) as (sender' & Hsend & Hwait);
    [cbn; lia|cbn; lia|reflexivity|apply bytes_repeat; unfold is_byte; lia|discriminate|repeat constructor; unfold is_byte; lia|apply bytes_repeat; unfold is_byte; lia|reflexivity|cbn; lia
    |apply demo_protected|apply demo_protected|reflexivity|reflexivity|apply demo_ring|reflexivity|].
  split.
  - eexists. eexists. etransitivity; [exact Hsend|]. unfold bind, sys_sendto. rewrite syscall_answer. rewrite demo_data_eq. rewrite Z.eqb_refl. reflexivity.
  - destruct (Hwait [firstn 3 demo_data; skipn 3 demo_data] [] [] [] []) as (receiver' & t' & message & H1 & H2 & _).
    + vm_compute. reflexivity.
    + assert (bytes demo_data) as Hb by (apply (bytes_on_wire encryption_CHACHA20POLY1305), bytes_binary_packet; [repeat constructor; unfold is_byte; lia|apply bytes_repeat; unfold is_byte; lia|vm_compute; lia]).
      assert (length demo_data = 80%nat) as Hl by (vm_compute; reflexivity). rewrite demo_data_eq. rewrite Hl. cbn [demo_receiver demo_client receivedSize bufferSize Z.to_nat].
      constructor; [lia|intros E; apply (f_equal (@List.length Z)) in E; rewrite length_firstn, Hl in E; discriminate|auto with hc|rewrite length_firstn, Hl; cbn; lia|].
      rewrite length_firstn, Hl. constructor; [cbn; lia|intros E; apply (f_equal (@List.length Z)) in E; rewrite length_skipn, Hl in E; discriminate|auto with hc|rewrite length_skipn, Hl; cbn; lia|].
      rewrite length_skipn, Hl. constructor. cbn. lia.
    + exists receiver', t', message. split; [exact H1|exact H2].
Defined.

