(* ===== verification/SshKex.v ===== *)
(** * The key exchange of the SSH client ([src/hc/examples/ssh/client.c], [ssh.c])

    From the connection to the accepted service request: identification lines, KEXINIT,
    curve25519-sha256 with an ssh-ed25519 host key, NEWKEYS, and the creation and release of
    the client.  A message of the server is read where it lies in the circular buffer.  The
    lengths and offsets of the packed structs are written out.  What [sha256_finish] leaves in
    [tempHash] is not kept: the next use starts with [sha256_init] or an assignment.  The page
    size, which [start] finds in the auxiliary vector, is an argument. *)
From Stdlib Require Import ZArith List Lia Bool String.
From S2P Require Import Prelude Mem Alloc Stream Sha Sha256 Chacha20 X25519 Ed25519 RouterSys Ssh.
Import ListNotations.

(** The supported algorithms. *)
Definition client_KEX_CURVE25519 : list Z := str "curve25519-sha256".
Definition client_KEX_CURVE25519_LIBSSH : list Z := str "curve25519-sha256@libssh.org".
Definition client_KEX_LIST : list Z := client_KEX_CURVE25519 ++ str "," ++ client_KEX_CURVE25519_LIBSSH.
Definition client_HOST_KEY_ED25519 : list Z := str "ssh-ed25519".
Definition client_CIPHER_CHACHA20POLY1305 : list Z := str "chacha20-poly1305@openssh.com".
Definition client_HELLO_IDENTIFICATION : list Z := str "SSH-2.0-hc".
Definition client_SERVICE_NAME : list Z := str "ssh-userauth".

(** [hc_BSWAP32] of a length, as it lies in memory. *)
Definition size_bytes (n : Z) : list Z := le_split 4 (bswap 4 (u32 n)).

(** A length and a list of names. *)
Definition name_list (names : list Z) : list Z := size_bytes (Z.of_nat (length names)) ++ names.

(** A [struct { head; message; tail }] whose other members are zero. *)
Definition packet_object (message : list Z) : list Z :=
  repeat 0 (Z.to_nat messageHead_SIZE) ++ message ++ repeat 0 (Z.to_nat messageTail_SIZE).

(** ** Identification *)

Definition identificationLine : list Z := client_HELLO_IDENTIFICATION ++ [13; 10].
Definition hello : list Z := size_bytes (Z.of_nat (length client_HELLO_IDENTIFICATION)) ++ identificationLine.

(** [for (; pos + 1 < end; ++pos)] up to a carriage return, and whether there is one. *)
Fixpoint hello_scan (n : nat) (self : client) (pos end_ : Z) : M (bool * Z) :=
  match n with
  | O => pure (false, pos)
  | S n =>
      if pos + 1 <? end_ then
        let! c := buffer_load self pos 1 in
        if get c 0 =? 13 then pure (true, pos) else hello_scan n self (pos + 1) end_
      else pure (false, pos)
  end.

(** The body of [if (self->buffer[pos] == '\r')]. *)
Definition hello_line (self : client) (pos received : Z) : M (Z * client) :=
  let! next := buffer_load self (pos + 1) 1 in
  if negb (get next 0 =? 10) then pure (-3, self)
  else
    let! start := buffer_load self 0 8 in
    if (pos <? 8) || negb (mem_compare start (str "SSH-2.0-") 8 =? 0) then pure (-4, self)
    else
      let! line := buffer_load self 0 pos in
      let partial := sha256_update (partialExchangeHash self) (size_bytes pos) in
      let partial := sha256_update partial line in
      let self := with_hashes self partial (tempHash self) in
      let bufferPos := pos + 2 in
      let receivedSize := received - bufferPos in
      let aligned := math_ALIGN_FORWARD bufferPos 4 in
      let self := with_received self aligned receivedSize (nextSize self) in
      if negb (aligned =? bufferPos) then
        let! rest := buffer_load self bufferPos receivedSize in
        let! self := buffer_store self aligned rest in
        pure (0, self)
      else pure (0, self).

Fixpoint hello_loop (fuel : nat) (self : client) (received pos : Z) : M (Z * client) :=
  match fuel with
  | O => unfinished
  | S fuel =>
      let! (numRead, data) := sys_recvfrom (socketFd self) (bufferSize self - received) 0 in
      let! self := buffer_store self pos data in
      if numRead <=? 0 then pure (-2, self)
      else
        let received := received + numRead in
        let end_ := if 255 <? received then 255 else received in
        let! (found, pos) := hello_scan (Z.to_nat (end_ - pos)) self pos end_ in
        if found then hello_line self pos received else hello_loop fuel self received pos
  end.

Definition client_doHello (self : client) : M (Z * client) :=
  let! numSent := sys_sendto (socketFd self) identificationLine MSG_NOSIGNAL [] in
  if negb (numSent =? Z.of_nat (length identificationLine)) then pure (-1, self)
  else
    let partial := sha256_init (partialExchangeHash self) in
    let partial := sha256_update partial (firstn (length hello - 2) hello) in
    let self := with_hashes self partial (tempHash self) in
    fun w => hello_loop (S (length (answers w))) self 0 0 w.

(** ** Algorithms *)

(** [sys_getrandom] into an object that holds [old]. *)
Definition getrandom (old : list Z) : M (Z * list Z) :=
  let! (status, data) := syscall_in (Sys_getrandom (Z.of_nat (length old)) 0) (length old) in
  pure (status, mem_copy old 0 data).

Definition keyExchangeInit_message (cookie : list Z) : list Z :=
  [proto_MSG_KEXINIT] ++ cookie ++ name_list client_KEX_LIST ++ name_list client_HOST_KEY_ED25519
  ++ name_list client_CIPHER_CHACHA20POLY1305 ++ name_list client_CIPHER_CHACHA20POLY1305
  ++ name_list [] ++ name_list [] ++ name_list (str "none") ++ name_list (str "none") ++ name_list [] ++ name_list []
  ++ [0] ++ le_split 4 0.

Section Kex.
Context (stack : list Z).

Definition client_sendKeyExchangeInit (self : client) : M (Z * client) :=
  let! (status, cookie) := getrandom (repeat 0 16) in
  if status <? 0 then pure (-1, self)
  else
    let message := keyExchangeInit_message cookie in
    let temp := partialExchangeHash self in
    let temp := sha256_update temp (size_bytes (Z.of_nat (length message))) in
    let temp := sha256_update temp message in
    let self := with_hashes self (partialExchangeHash self) temp in
    let! (status, self) := client_sendMessage stack self (packet_object message) (Z.of_nat (length message)) in
    if status <? 0 then pure (-2, self) else pure (0, self).

(** [for (; i < nameListSize; ++i)] up to and past a comma. *)
Fixpoint skip_name (n : nat) (nameList : list Z) (nameListSize i : Z) : Z :=
  match n with
  | O => i
  | S n => if i <? nameListSize then if get nameList (Z.to_nat i) =? 44 then i + 1 else skip_name n nameList nameListSize (i + 1) else i
  end.

Fixpoint nameListContains_loop (fuel : nat) (nameList : list Z) (nameListSize : Z) (string : list Z) (i : Z) : M bool :=
  match fuel with
  | O => unfinished
  | S fuel =>
      if u32 (nameListSize - i) <? Z.of_nat (length string) then pure false
      else if mem_compare (skipn (Z.to_nat i) nameList) string (length string) =? 0 then pure true
      else nameListContains_loop fuel nameList nameListSize string (skip_name (Z.to_nat (nameListSize - i)) nameList nameListSize i)
  end.

Definition client_nameListContains (nameList : list Z) (nameListSize : Z) (string : list Z) : M bool :=
  nameListContains_loop (S (Z.to_nat nameListSize)) nameList nameListSize string 0.

(** [for (; pos < 32; ++pos) if (secret[pos] != 0) break;] *)
Fixpoint skip_zeros (n : nat) (secret : list Z) (pos : nat) : nat :=
  match n with
  | O => pos
  | S n => if negb (get secret pos =? 0) then pos else skip_zeros n secret (S pos)
  end.

(** The shared secret as an mpint; [secret[32]] is outside the array. *)
Definition client_sha256UpdateSharedSecret (hash : sha256) (secret : list Z) : M sha256 :=
  let pos := skip_zeros 32 secret 0 in
  if (32 <=? pos)%nat then undefined
  else
    let extraZero := get secret pos >> 7 in
    let hash := sha256_update hash (size_bytes (32 - Z.of_nat pos + extraZero)) in
    let hash := if negb (extraZero =? 0) then sha256_update hash [0] else hash in
    pure (sha256_update hash (firstn (32 - pos) (skipn pos secret))).

(** ** Key exchange *)

Definition load32BE (self : client) (i : Z) : M Z := let! b := buffer_load self i 4 in pure (mem_loadU32BE b).

Fixpoint contains_one (nameList : list Z) (nameListSize : Z) (names : list (list Z)) : M bool :=
  match names with
  | [] => pure false
  | name :: names =>
      let! found := client_nameListContains nameList nameListSize name in
      if found then pure true else contains_one nameList nameListSize names
  end.

(** A list that must name one of [names]: the place after it, or the error. *)
Definition kex_list (self : client) (curr end_ : Z) (names : list (list Z)) (tooLong missing : Z) : M (Z + Z) :=
  let! size := load32BE self curr in
  let curr := curr + 4 in
  if end_ <? curr + size + 4 then pure (inl tooLong)
  else
    let! nameList := buffer_load self curr size in
    let! found := contains_one nameList size names in
    if negb found then pure (inl missing) else pure (inr (curr + size)).

Fixpoint skip_lists (n : nat) (self : client) (curr end_ : Z) : M (Z + Z) :=
  match n with
  | O => pure (inr curr)
  | S n =>
      if end_ <? curr + 4 then pure (inl (-9))
      else
        let! listSize := load32BE self curr in
        skip_lists n self (curr + u32 (4 + listSize)) end_
  end.

(** The server's KEXINIT is acceptable: 0, or the error. *)
Definition parse_serverInit (self : client) (serverInit serverInitSize : Z) : M Z :=
  if serverInitSize <? 1 + 16 + 4 then pure (-1)
  else
    let! opcode := buffer_load self serverInit 1 in
    if negb (get opcode 0 =? proto_MSG_KEXINIT) then pure (-2)
    else
      let end_ := serverInit + serverInitSize in
      let! r := kex_list self (serverInit + 17) end_ [client_KEX_CURVE25519; client_KEX_CURVE25519_LIBSSH] (-3) (-4) in
      match r with inl e => pure e | inr curr =>
      let! r := kex_list self curr end_ [client_HOST_KEY_ED25519] (-5) (-6) in
      match r with inl e => pure e | inr curr =>
      let! r := kex_list self curr end_ [client_CIPHER_CHACHA20POLY1305] (-7) (-8) in
      match r with inl e => pure e | inr curr =>
      let! r := kex_list self curr end_ [client_CIPHER_CHACHA20POLY1305] (-7) (-8) in
      match r with inl e => pure e | inr curr =>
      let! r := skip_lists 6 self curr end_ in
      match r with inl e => pure e | inr curr =>
      if negb (curr + 1 + 4 =? end_) then pure (-10)
      else
        let! firstKexPacketFollows := buffer_load self curr 1 in
        if negb (get firstKexPacketFollows 0 =? 0) then pure (-11) else pure 0
      end end end end end.

(** [ecdhReply]: its size, and the offsets of its members. *)
Definition ecdhReply_SIZE : Z := 179.
Definition reply_hostKey (reply : list Z) : list Z := firstn 32 (skipn 24 reply).
Definition reply_publicKey (reply : list Z) : list Z := firstn 32 (skipn 60 reply).
Definition reply_signature (reply : list Z) : list Z := firstn 64 (skipn 115 reply).
Definition field_is (reply : list Z) (offset : nat) (size : Z) : bool := mem_loadU32 (skipn offset reply) =? bswap 4 size.

Definition reply_wellformed (reply : list Z) : bool :=
  (get reply 0 =? proto_MSG_KEX_ECDH_REPLY) && field_is reply 1 51 && field_is reply 5 11
  && (mem_compare (skipn 9 reply) client_HOST_KEY_ED25519 11 =? 0) && field_is reply 20 32 && field_is reply 56 32 && field_is reply 92 83 && field_is reply 96 11
  && (mem_compare (skipn 100 reply) client_HOST_KEY_ED25519 11 =? 0) && field_is reply 111 64.

(** [sha256_finish(&self->tempHash, ...)] after the rest of the transcript. *)
Definition finish_exchangeHash (self : client) (reply publicKey sharedSecret : list Z) : M (list Z) :=
  let h := sha256_update (tempHash self) (firstn 55 (skipn 1 reply)) in
  let h := sha256_update h (size_bytes 32) in
  let h := sha256_update h publicKey in
  let h := sha256_update h (firstn 36 (skipn 56 reply)) in
  let! h := client_sha256UpdateSharedSecret h sharedSecret in
  pure (sha256_finish h).

(** [sha256_finish(..., &self->ciphers[i].orig.key)]. *)
Definition set_key (self : client) (i : nat) (key : list Z) : client := set_cipher self i (mem_copy (cipher self i) 16 key).

Definition derive_keys (self : client) (i : nat) (sharedSecret exchangeHash : list Z) : M client :=
  let h := sha256_init (tempHash self) in
  let! h := client_sha256UpdateSharedSecret h sharedSecret in
  let h := sha256_update h exchangeHash in
  let h := sha256_update h [u8 (67 + Z.of_nat i)] in
  let h := sha256_update h (sessionId self) in
  let self := set_key self (2 * i) (sha256_finish h) in
  let h := sha256_init (tempHash self) in
  let! h := client_sha256UpdateSharedSecret h sharedSecret in
  let h := sha256_update h exchangeHash in
  let h := sha256_update h (firstn 32 (skipn 16 (cipher self (2 * i)))) in
  pure (set_key self (2 * i + 1) (sha256_finish h)).

Definition client_doKeyExchange (self : client) (serverInit serverInitSize : Z) : M (Z * client) :=
  let! status := parse_serverInit self serverInit serverInitSize in
  if status <? 0 then pure (status, self)
  else
    let! serverInitBytes := buffer_load self serverInit serverInitSize in
    let temp := sha256_update (tempHash self) (size_bytes serverInitSize) in
    let temp := sha256_update temp serverInitBytes in
    let self := with_hashes self (partialExchangeHash self) temp in
    let! (status, secret) := getrandom (firstn 32 stack) in
    if status <? 0 then pure (-12, self)
    else
      let publicKey := x25519 secret x25519_ecdhBasepoint in
      let ecdhInit := [proto_MSG_KEX_ECDH_INIT] ++ size_bytes 32 ++ publicKey in
      let! (status, self) := client_sendMessage stack self (packet_object ecdhInit) (Z.of_nat (length ecdhInit)) in
      if status <? 0 then pure (-13, self)
      else
        let! (ecdhReplySize, ecdhReply, self) := client_waitForMessage stack self in
        if negb (ecdhReplySize =? ecdhReply_SIZE) then pure (-14, self)
        else
          let! reply := buffer_load self ecdhReply ecdhReply_SIZE in
          if negb (reply_wellformed reply) then pure (-15, self)
          else
            let sharedSecret := x25519 secret (reply_publicKey reply) in
            let! exchangeHash := finish_exchangeHash self reply publicKey sharedSecret in
            if negb (ed25519_verify stack exchangeHash (reply_hostKey reply) (reply_signature reply) =? 0) then pure (-16, self)
            else
              let self :=
                match encryption self with
                | encryption_NONE => with_session self exchangeHash encryption_NONE
                | encryption_CHACHA20POLY1305 => self
                end in
              let! (status, self) := client_sendMessage stack self (packet_object [proto_MSG_NEWKEYS]) 1 in
              if status <? 0 then pure (-17, self)
              else
                let! (serverNewKeysSize, serverNewKeys, self) := client_waitForMessage stack self in
                if negb (serverNewKeysSize =? 1) then pure (-18, self)
                else
                  let! opcode := buffer_load self serverNewKeys 1 in
                  if negb (get opcode 0 =? proto_MSG_NEWKEYS) then pure (-19, self)
                  else
                    let self := with_session self (sessionId self) encryption_CHACHA20POLY1305 in
                    let! self := derive_keys self 0 sharedSecret exchangeHash in
                    let! self := derive_keys self 1 sharedSecret exchangeHash in
                    pure (0, self).

Definition client_doServiceRequest (self : client) : M (Z * client) :=
  let message := [proto_MSG_SERVICE_REQUEST] ++ name_list client_SERVICE_NAME in
  let! (status, self) := client_sendMessage stack self (packet_object message) (Z.of_nat (length message)) in
  if status <? 0 then pure (-1, self)
  else
    let! (responseSize, response, self) := client_waitForMessage stack self in
    if negb (responseSize =? 17) then pure (-2, self)
    else
      let! r := buffer_load self response 17 in
      if negb (get r 0 =? proto_MSG_SERVICE_ACCEPT) || negb (field_is r 1 12) || negb (mem_compare (skipn 5 r) client_SERVICE_NAME 12 =? 0) then pure (-3, self)
      else pure (0, self).

(** ** Connecting *)

Definition client_connect (self : client) (sockaddr : list Z) : M (Z * client) :=
  let self := with_received self 0 0 0 in
  let self := with_sequence self 0 0 in
  let self := with_session self (sessionId self) encryption_NONE in
  let! status := syscall (Sys_connect (socketFd self) sockaddr) in
  if status <? 0 then pure (-1, self)
  else
    let! (status, self) := client_doHello self in
    if status <? 0 then pure (-2, self)
    else
      let! (status, self) := client_sendKeyExchangeInit self in
      if status <? 0 then pure (-3, self)
      else
        let! (serverMessageSize, serverMessage, self) := client_waitForMessage stack self in
        if serverMessageSize <=? 0 then pure (-4, self)
        else
          let! (status, self) := client_doKeyExchange self serverMessage serverMessageSize in
          if status <? 0 then
            debug_printNum (str "Key exchange failed") status;;
            pure (-5, self)
          else
            let! (status, self) := client_doServiceRequest self in
            if status <? 0 then pure (-6, self) else pure (0, self).

(** ** Creation and release *)

Definition MFD_CLOEXEC : Z := 1.
Definition MAP_SHARED : Z := 1.

Definition with_buffer (self : client) (address : Z) (r : list Z) (size memFd : Z) : client :=
  Client address r size (bufferPos self) (receivedSize self) memFd (receiveSequenceNumber self) (sendSequenceNumber self)
    (ciphers self) (partialExchangeHash self) (tempHash self) (sessionId self) (socketFd self) (encryption self) (nextSize self).
Definition with_socket (self : client) (fd : Z) : client :=
  Client (buffer self) (ring self) (bufferSize self) (bufferPos self) (receivedSize self) (bufferMemFd self) (receiveSequenceNumber self) (sendSequenceNumber self)
    (ciphers self) (partialExchangeHash self) (tempHash self) (sessionId self) fd (encryption self) (nextSize self).

(** [for (int32_t i = 0; i < 2; ++i)]: the file twice in a row; 0, or -4. *)
Fixpoint map_twice (n : nat) (i : Z) (address size memFd : Z) : M Z :=
  match n with
  | O => pure 0
  | S n =>
      let! mapped := syscall (Sys_mmap (address + i * size) size (PROT_READ .| PROT_WRITE) (MAP_FIXED .| MAP_SHARED) memFd 0) in
      if mapped <? 0 then pure (-4) else map_twice n (i + 1) address size memFd
  end.

Definition cleanup_bufferMemFd (self : client) (status : Z) : M (Z * client) :=
  sys_close (bufferMemFd self);; pure (status, self).
Definition cleanup_buffer (self : client) (status : Z) : M (Z * client) :=
  syscall (Sys_munmap (buffer self) (2 * bufferSize self));; cleanup_bufferMemFd self status.

Definition client_init (pageSize : Z) (self : client) (sockaddrFamily : Z) : M (Z * client) :=
  let self := with_ciphers self (map (fun c => cipher_counter (chacha20_init c) 0) (ciphers self)) in
  let! memFd := syscall (Sys_memfd_create [] MFD_CLOEXEC) in
  if memFd <? 0 then pure (-1, with_buffer self (buffer self) (ring self) (bufferSize self) memFd)
  else
    let size := math_ALIGN_FORWARD client_MAX_PACKET_SIZE pageSize in
    let self := with_buffer self (buffer self) (ring self) size memFd in
    let! status := syscall (Sys_ftruncate memFd size) in
    if status <? 0 then cleanup_bufferMemFd self (-2)
    else
      let! address := syscall (Sys_mmap 0 (2 * size) PROT_NONE (MAP_PRIVATE .| MAP_ANONYMOUS) (-1) 0) in
      let self := with_buffer self address (ring self) size memFd in
      if address <? 0 then cleanup_bufferMemFd self (-3)
      else
        let! status := map_twice 2 0 address size memFd in
        if status <? 0 then cleanup_buffer self status
        else
          (* the file holds zeros *)
          let self := with_buffer self address (repeat 0 (Z.to_nat size)) size memFd in
          let! socket := syscall (Sys_socket sockaddrFamily SOCK_STREAM 0) in
          let self := with_socket self socket in
          if socket <? 0 then cleanup_buffer self (-5) else pure (0, self).

Definition client_deinit (self : client) : M unit :=
  sys_close (socketFd self);;
  syscall (Sys_munmap (buffer self) (2 * bufferSize self));;
  sys_close (bufferMemFd self);;
  pure tt.

(** [start] of [ssh.c]; [client] is its static object. *)
Definition start (pageSize : Z) (client : client) : M Z :=
  let addr := sockaddr_in 2222 [127; 0; 0; 1] in
  let! (status, client) := client_init pageSize client AF_INET in
  if status <? 0 then
    debug_printNum (str "Failed to initialise client") status;;
    pure 1
  else
    let! (status, client) := client_connect client addr in
    if status <? 0 then
      debug_printNum (str "Failed to connect to server") status;;
      pure 1
    else
      client_deinit client;;
      pure 0.
End Kex.
