(* ===== verification/SshEnds.v ===== *)
(** * The SSH client's loops end

    [client_connect] comes to a result, or to what C leaves undefined, for every list of
    answers of the kernel: the fuel of each loop of [Ssh.v] and [SshKex.v] is enough
    ([connect_ends]).  The ciphers run over the packet, the search of a name over its list, and
    the two loops that receive over the answers.  Nothing on the way opens or closes a
    descriptor. *)
From Stdlib Require Import ZArith List Lia Bool String.
From S2P Require Import Prelude Mem Util Stream Sha Sha256 Chacha20 X25519 Ed25519 RouterSys Fds Ssh SshKex.
Import ListNotations.

Definition ends_at {A} (m : M A) (w : world) : Prop :=
  fst (m w) <> Unfinished /\ exists es, adds w (snd (m w)) es /\ Forall (fun e => neutral (fst e)) es.
Definition ends {A} (m : M A) : Prop := forall w, ends_at m w.

(** It returns or is undefined, and calls nothing. *)
Definition still {A} (m : M A) : Prop := forall w, fst (m w) <> Unfinished /\ snd (m w) = w.

(** What it returns. *)
Definition gives {A} (m : M A) (Q : A -> Prop) : Prop := forall w a w', m w = (Done a, w') -> Q a.

Lemma still_at {A} (m : M A) w : fst (m w) <> Unfinished -> snd (m w) = w -> ends_at m w.
Proof. intros H1 H2. split; [exact H1|]. exists []. rewrite H2. split; [apply adds_nil|constructor]. Qed.
Lemma still_pure {A} (a : A) : still (pure a).
Proof. intros w. split; [discriminate|reflexivity]. Qed.
Lemma still_undefined {A} : still (A := A) undefined.
Proof. intros w. split; [discriminate|reflexivity]. Qed.
Lemma still_ends {A} (m : M A) : still m -> ends m.
Proof. intros H w. destruct (H w). now apply still_at. Qed.
Lemma ends_pure {A} (a : A) : ends (pure a).
Proof. apply still_ends, still_pure. Qed.

Lemma ends_at_bind {A B} (m : M A) (f : A -> M B) w : ends_at m w -> (forall a w', m w = (Done a, w') -> ends_at (f a) w') -> ends_at (bind m f) w.
Proof.
  intros [Hm (es & H1 & F1)] Hf. unfold ends_at, bind in *. destruct (m w) as [[a| | |] w1]; cbn [fst snd] in *; try (split; [congruence|exists es; auto]; fail).
  destruct (Hf a w1 eq_refl) as [Hu (es2 & H2 & F2)]. split; [exact Hu|]. exists (es ++ es2). split; [exact (adds_app _ _ _ _ _ H1 H2)|]. apply Forall_app. auto.
Qed.

Lemma ends_seq {A B} (m : M A) (f : A -> M B) : ends m -> (forall a, ends (f a)) -> ends (bind m f).
Proof. intros Hm Hf w. apply ends_at_bind; [apply Hm|]. intros a w' _. apply Hf. Qed.

(** The world does not change where nothing is called. *)
Lemma still_then_at {A B} (m : M A) (f : A -> M B) w : still m -> (forall a, ends_at (f a) w) -> ends_at (bind m f) w.
Proof. intros Hm Hf. apply ends_at_bind; [now apply still_ends|]. intros a w' E. destruct (Hm w) as [_ H]. rewrite E in H. cbn in H. subst w'. apply Hf. Qed.

Lemma ends_syscall c : neutral c -> ends (syscall c).
Proof.
  intros Hn w. destruct (syscall_spec c w) as (r & w' & E & H). unfold ends_at. rewrite E. split; [discriminate|]. eexists. split; [exact H|]. constructor; [exact Hn|constructor].
Qed.

Lemma ends_syscall_in c n : neutral c -> ends (syscall_in c n).
Proof.
  intros Hn w. destruct (syscall_in_spec c n w) as (r & data & w' & E & H & _). unfold ends_at. rewrite E. split; [discriminate|]. eexists. split; [exact H|]. constructor; [exact Hn|constructor].
Qed.

Lemma neutral_io c : match c with Sys_sendto _ _ _ _ | Sys_recvfrom _ _ _ | Sys_getrandom _ _ | Sys_connect _ _ | Sys_write _ _ => True | _ => False end -> neutral c.
Proof. intros H a. destruct c; try destruct H; split; reflexivity. Qed.

Lemma still_bind {A B} (m : M A) (f : A -> M B) Q : still m -> gives m Q -> (forall a, Q a -> still (f a)) -> still (bind m f).
Proof.
  intros Hm Hg Hf w. specialize (Hm w). specialize (Hg w). unfold bind. destruct (m w) as [[a| | |] w1]; cbn in *; destruct Hm as [H1 H2]; subst w1; [|split; congruence..].
  apply (Hf a (Hg _ _ eq_refl)).
Qed.

Lemma still_then {A B} (m : M A) (f : A -> M B) : still m -> (forall a, still (f a)) -> still (bind m f).
Proof. intros Hm Hf. apply (still_bind _ _ (fun _ => True)); [exact Hm|exact (fun _ _ _ _ => I)|auto]. Qed.

Lemma still_if {A} (b : bool) (m n : M A) : still m -> still n -> still (if b then m else n).
Proof. now destruct b. Qed.

Lemma still_load self i n : still (buffer_load self i n).
Proof. unfold buffer_load. apply still_if; [apply still_pure|apply still_undefined]. Qed.
Lemma still_store self i data : still (buffer_store self i data).
Proof. unfold buffer_store. apply still_if; [apply still_pure|apply still_undefined]. Qed.

Create HintDb still.
#[local] Hint Resolve still_pure still_undefined still_load still_store : still.
Ltac stills := repeat first [apply still_then; [|intros ?] | apply still_if | match goal with |- still (let '(_, _) := ?x in _) => destruct x end | solve [eauto with still]].

(** ** The ciphers *)

Lemma client_crypt_some packetSize : forall fuel c packet offset, (offset <= packetSize)%nat -> (packetSize - offset < fuel)%nat -> client_crypt fuel c packet packetSize offset <> None.
Proof.
  induction fuel as [|fuel IH]; intros c packet offset Ho Hf; [lia|]. cbn [client_crypt]. set (iEnd := if (_ <? 64)%nat then _ else _).
  assert (iEnd <= packetSize - offset /\ (iEnd = packetSize - offset \/ 0 < iEnd))%nat as [H1 H2] by (unfold iEnd; destruct (Nat.ltb_spec (packetSize - offset) 64); lia). clearbody iEnd.
  destruct (Nat.eqb_spec (offset + iEnd) packetSize); [discriminate|]. apply IH; lia.
Qed.

Lemma still_crypt c packet packetSize : (4 <= packetSize)%nat -> still (crypt c packet packetSize).
Proof.
  intros H. unfold crypt. pose proof (client_crypt_some packetSize (S packetSize) c packet 4 H ltac:(lia)) as E. destruct (client_crypt _ _ _ _ _); [apply still_pure|congruence].
Qed.

Section Ends.
Context (stack : list Z).

(** ** Receiving *)

Lemma peekSize_still self : 0 <= nextSize self -> still (client_peekSize self) /\ gives (client_peekSize self) (fun r => 0 <= nextSize (snd r)).
Proof using.
  intros Hn. unfold client_peekSize. destruct (negb _).
  { split; [stills|]. intros w a w' E. injection E as <- _. exact Hn. }
  destruct (receivedSize self <? 4).
  { split; [stills|]. intros w a w' E. injection E as <- _. exact Hn. }
  split; [apply still_then; [stills|intros b; destruct (client_decodeSize self b); stills]|].
  intros w a w' E. unfold bind in E. destruct (buffer_load self (bufferPos self) 4 w) as [[b| | |] w1]; try discriminate.
  assert (forall x, 0 <= bswap 4 x) as Hs by (intros x; unfold bswap; apply le_combine_bound, Forall_rev, bytes_le_split).
  destruct (client_decodeSize self b) as [size self1] eqn:Ed. assert (0 <= size /\ nextSize self1 = nextSize self) as [Hz Hns] by (unfold client_decodeSize in Ed; destruct (encryption self); injection Ed as <- <-; split; auto).
  destruct (_ <? size); [injection E as <- _; cbn; lia|]. destruct (negb _); injection E as <- _; cbn; lia.
Qed.

Lemma open_still self packetSize : 4 <= packetSize -> still (client_open stack self packetSize).
Proof using.
  intros H. unfold client_open. destruct (encryption self); [stills|]. cbv zeta. stills. apply still_crypt. lia.
Qed.

Lemma peek_still self : still (client_peekMessage stack self).
Proof using.
  unfold client_peekMessage. apply still_then; [unfold assume_aligned; stills|]. intros _. destruct (Z.ltb_spec (nextSize self) 0); [stills|].
  destruct (peekSize_still self ltac:(lia)) as [Hs Hg]. apply (still_bind _ _ _ Hs Hg). intros [early self1] Hn. cbn [snd] in Hn. destruct early; [stills|]. cbv zeta. apply still_if; [stills|].
  apply still_then; [apply open_still; lia|]. intros [early self2]. destruct early; stills.
Qed.

Lemma next_still self : still (client_nextMessage stack self).
Proof using. unfold client_nextMessage. apply still_then; [apply peek_still|]. intros [[size message] self1]. stills. Qed.

(** A call that returns a positive number has used up an answer. *)
Lemma received_answer c n w r data w' : syscall_in c n w = (Done (r, data), w') -> 0 < r -> (length (answers w') < length (answers w))%nat.
Proof.
  unfold syscall_in, kernel, bind. intros E Hr. destruct (answers w) as [|a rest]; cbn in E; injection E as <- _ <-; [unfold EIO in Hr; cbn in Hr; lia|cbn; lia].
Qed.

Lemma ends_print text num : ends (debug_printNum text num).
Proof.
  assert (forall fd data, ends (writeAll fd data)) as H.
  { intros fd data w. destruct (writeAll_done fd data w) as (r & w' & es & E & H & _). unfold ends_at. rewrite E. split; [discriminate|].
    destruct (emits_writeAll (fun e => neutral (fst e)) fd data (fun data' a => neutral_io (Sys_write fd data') I) w) as (es' & H' & F). rewrite E in H'. eauto. }
  unfold debug_printNum. apply ends_seq; [apply H|]. intros _. cbv zeta. destruct (util_intToStr _ _ _) as [p pos]. apply ends_seq; [apply H|]. intros _. apply ends_pure.
Qed.

Lemma receive_ends self : ends (client_receive self).
Proof using.
  unfold client_receive. apply ends_seq; [apply ends_syscall_in, neutral_io, I|]. intros [r data]. apply ends_seq; [apply still_ends, still_store|]. intros self1. apply ends_pure.
Qed.

Lemma receive_answer self w r self' w' : client_receive self w = (Done (r, self'), w') -> 0 < r -> (length (answers w') < length (answers w))%nat.
Proof using.
  unfold client_receive, sys_recvfrom. intros E Hr. unfold bind in E. destruct (syscall_in _ _ w) as [[[n data]| | |] w1] eqn:E1; try discriminate.
  destruct (still_store self (bufferPos self + receivedSize self) data w1) as [_ H]. destruct (buffer_store _ _ _ w1) as [[self1| | |] w2]; try discriminate. injection E as <- _ <-. cbn in H. subst w2.
  exact (received_answer _ _ _ _ _ _ E1 Hr).
Qed.

Lemma wait_ends : forall fuel self w, (length (answers w) < fuel)%nat -> ends_at (client_waitLoop stack fuel self) w.
Proof using.
  induction fuel as [|fuel IH]; intros self w Hf; [lia|]. cbn [client_waitLoop]. apply still_then_at; [apply next_still|]. intros [[size message] self1].
  destruct (0 <? size); [apply ends_pure|]. destruct (size <? 0); [apply ends_seq; [apply ends_print|intros; apply ends_pure]|].
  apply ends_at_bind; [apply receive_ends|]. intros [r self2] w1 E. destruct (Z.leb_spec r 0); [apply ends_pure|].
  apply IH. pose proof (receive_answer _ _ _ _ _ E ltac:(lia)). lia.
Qed.

Lemma waitForMessage_ends self : ends (client_waitForMessage stack self).
Proof using. intros w. apply wait_ends. cbn. lia. Qed.

(** ** Sending *)

Lemma sendMessage_ends self packet n : 0 <= n -> ends (client_sendMessage stack self packet n).
Proof using.
  intros Hn. unfold client_sendMessage. cbv zeta. assert (0 <= client_PADDING_SIZE n) as Hp by (unfold client_PADDING_SIZE, client_MIN_PADDING; pose proof (Z.land_nonneg (- (4 + 1 + n + 4)) (client_MAX_BLOCK_SIZE - 1)) as [_ H]; unfold client_MAX_BLOCK_SIZE in *; lia).
  apply ends_seq.
  - destruct (encryption self); [apply ends_pure|]. apply still_ends. cbv zeta. apply still_then; [apply still_crypt; unfold messageHead_SIZE; lia|]. intros [c p]. stills.
  - intros [[self1 p] size]. apply ends_seq; [apply ends_syscall, neutral_io, I|].
    intros r. destruct (negb _); apply ends_pure.
Qed.
End Ends.

(** ** The identification line *)

Lemma hello_scan_still self : forall n pos end_, still (hello_scan n self pos end_).
Proof. induction n as [|n IH]; intros pos end_; cbn [hello_scan]; [stills|]. apply still_if; [|stills]. apply still_then; [stills|]. intros c. apply still_if; [stills|apply IH]. Qed.

Lemma hello_line_still self pos received : still (hello_line self pos received).
Proof. unfold hello_line. cbv zeta. stills. Qed.

Lemma hello_loop_ends : forall fuel self received pos w, (length (answers w) < fuel)%nat -> ends_at (hello_loop fuel self received pos) w.
Proof.
  induction fuel as [|fuel IH]; intros self received pos w Hf; [lia|]. cbn [hello_loop]. unfold sys_recvfrom.
  apply ends_at_bind; [apply ends_syscall_in, neutral_io, I|]. intros [r data] w1 E. apply still_then_at; [apply still_store|]. intros self1.
  destruct (Z.leb_spec r 0); [apply ends_pure|]. cbv zeta. apply still_then_at; [apply hello_scan_still|]. intros [found pos'].
  destruct found; [apply still_ends, hello_line_still|]. apply IH. pose proof (received_answer _ _ _ _ _ _ E). lia.
Qed.

Lemma hello_ends self : ends (client_doHello self).
Proof.
  unfold client_doHello. apply ends_seq; [apply ends_syscall, neutral_io, I|]. intros n. destruct (negb _); [apply ends_pure|]. cbv zeta. intros w. apply hello_loop_ends. cbn. lia.
Qed.

(** ** The algorithms *)

Lemma getrandom_ends old : ends (getrandom old).
Proof.
  unfold getrandom. apply ends_seq; [apply ends_syscall_in, neutral_io, I|]. intros [r data]. apply ends_pure.
Qed.

(** The search goes on after the next comma, or at the end of the list. *)
Lemma skip_name_bounds nameList size : forall n i, i <= size -> i <= skip_name n nameList size i <= size /\ ((0 < n)%nat -> i < size -> i < skip_name n nameList size i).
Proof.
  induction n as [|n IH]; intros i Hi; cbn [skip_name]; [split; lia|]. destruct (Z.ltb_spec i size); [|split; lia].
  destruct (_ =? 44); [split; lia|]. destruct (IH (i + 1) ltac:(lia)) as [H1 _]. split; lia.
Qed.

Lemma nameList_still nameList size string : (0 < length string)%nat -> forall fuel i, 0 <= i <= size -> (Z.to_nat (size - i) < fuel)%nat -> still (nameListContains_loop fuel nameList size string i).
Proof.
  intros Hs. induction fuel as [|fuel IH]; intros i Hi Hf; [lia|]. cbn [nameListContains_loop]. destruct (Z.ltb_spec (u32 (size - i)) (Z.of_nat (length string))) as [|Hl]; [stills|]. apply still_if; [stills|].
  assert (i < size) as Hlt by (destruct (Z.eq_dec i size) as [->|]; [rewrite Z.sub_diag in Hl; cbn in Hl; lia|lia]).
  destruct (skip_name_bounds nameList size (Z.to_nat (size - i)) i ltac:(lia)) as [H1 H2]. specialize (H2 ltac:(lia) Hlt). apply IH; lia.
Qed.

Lemma contains_still nameList size names : 0 <= size -> Forall (fun name => (0 < length name)%nat) names -> still (contains_one nameList size names).
Proof.
  intros Hs. induction 1 as [|name names Hn _ IH]; cbn [contains_one]; [stills|]. apply still_then; [unfold client_nameListContains; apply nameList_still; lia|]. intros found. apply still_if; [stills|exact IH].
Qed.

Lemma load32_spec self i : still (load32BE self i) /\ gives (load32BE self i) (fun size => 0 <= size).
Proof.
  unfold load32BE. split; [stills|]. intros w a w' E. unfold bind in E. destruct (buffer_load self i 4 w) as [[b| | |] w1]; try discriminate. injection E as <- _.
  unfold mem_loadU32BE, bswap. apply le_combine_bound, Forall_rev, bytes_le_split.
Qed.

Lemma kex_list_still self curr end_ names e1 e2 : Forall (fun name => (0 < length name)%nat) names -> still (kex_list self curr end_ names e1 e2).
Proof.
  intros Hn. unfold kex_list. destruct (load32_spec self curr) as [S1 G1]. apply (still_bind _ _ _ S1 G1). intros size Hs. apply still_if; [stills|]. apply still_then; [stills|]. intros l.
  apply still_then; [now apply contains_still|]. intros found. stills.
Qed.

Lemma skip_lists_still self end_ : forall n curr, still (skip_lists n self curr end_).
Proof.
  induction n as [|n IH]; intros curr; cbn [skip_lists]; [stills|]. apply still_if; [stills|]. apply still_then; [apply load32_spec|]. intros size. apply IH.
Qed.

Lemma parse_still self serverInit serverInitSize : still (parse_serverInit self serverInit serverInitSize).
Proof.
  unfold parse_serverInit. apply still_if; [stills|]. apply still_then; [stills|]. intros opcode. apply still_if; [stills|]. cbv zeta.
  do 4 (apply still_then; [apply kex_list_still; repeat constructor|]; intros [e|?curr]; [stills|]).
  apply still_then; [apply skip_lists_still|]. intros [e|?curr]; [stills|]. stills.
Qed.

Lemma secret_still h secret : still (client_sha256UpdateSharedSecret h secret).
Proof. unfold client_sha256UpdateSharedSecret. cbv zeta. apply still_if; [stills|]. destruct (negb _); stills. Qed.

Lemma derive_still self i secret H : still (derive_keys self i secret H).
Proof. unfold derive_keys. cbv zeta. apply still_then; [apply secret_still|]. intros h. apply still_then; [apply secret_still|]. intros h'. stills. Qed.

Lemma exchangeHash_still self reply public secret : still (finish_exchangeHash self reply public secret).
Proof. unfold finish_exchangeHash. cbv zeta. apply still_then; [apply secret_still|]. intros h. stills. Qed.

(** ** The connection *)

Section Connect.
Context (stack : list Z).

Lemma send_packet_ends self message : ends (client_sendMessage stack self (packet_object message) (Z.of_nat (length message))).
Proof using. apply sendMessage_ends. lia. Qed.

Ltac step := first [apply ends_pure | match goal with |- ends (if ?b then _ else _) => destruct b end].

Lemma kexInit_ends self : ends (client_sendKeyExchangeInit stack self).
Proof using.
  unfold client_sendKeyExchangeInit. apply ends_seq; [apply getrandom_ends|]. intros [status cookie]. destruct (_ <? 0); [apply ends_pure|]. cbv zeta.
  apply ends_seq; [apply send_packet_ends|]. intros [st self1]. destruct (_ <? 0); apply ends_pure.
Qed.

Lemma keyExchange_ends self serverInit serverInitSize : ends (client_doKeyExchange stack self serverInit serverInitSize).
Proof using.
  unfold client_doKeyExchange. apply ends_seq; [apply still_ends, parse_still|]. intros status. step; [step|]. apply ends_seq; [apply still_ends, still_load|]. intros bytes. cbv zeta.
  apply ends_seq; [apply getrandom_ends|]. intros [st secret]. step; [step|]. apply ends_seq; [apply send_packet_ends|]. intros [st1 self1]. step; [step|].
  apply ends_seq; [apply waitForMessage_ends|]. intros [[size message] self2]. step; [step|]. apply ends_seq; [apply still_ends, still_load|]. intros reply. step; [step|].
  apply ends_seq; [apply still_ends, exchangeHash_still|]. intros H. step; [step|]. apply ends_seq; [apply (send_packet_ends _ [_])|]. intros [st2 self3]. step; [step|].
  apply ends_seq; [apply waitForMessage_ends|]. intros [[size2 message2] self4]. step; [step|]. apply ends_seq; [apply still_ends, still_load|]. intros opcode. step; [step|].
  apply ends_seq; [apply still_ends, derive_still|]. intros self5. apply ends_seq; [apply still_ends, derive_still|]. intros self6. step.
Qed.

Lemma serviceRequest_ends self : ends (client_doServiceRequest stack self).
Proof using.
  unfold client_doServiceRequest. cbv zeta. apply ends_seq; [apply send_packet_ends|]. intros [st1 self1]. step; [step|].
  apply ends_seq; [apply waitForMessage_ends|]. intros [[size message] self2]. step; [step|]. apply ends_seq; [apply still_ends, still_load|]. intros r. step; step.
Qed.

Lemma connect_ends self sockaddr : ends (client_connect stack self sockaddr).
Proof using.
  unfold client_connect. cbv zeta. apply ends_seq; [apply ends_syscall, neutral_io, I|]. intros status. step; [step|].
  apply ends_seq; [apply hello_ends|]. intros [st1 self1]. step; [step|]. apply ends_seq; [apply kexInit_ends|]. intros [st2 self2]. step; [step|].
  apply ends_seq; [apply waitForMessage_ends|]. intros [[size message] self3]. step; [step|]. apply ends_seq; [apply keyExchange_ends|]. intros [st4 self4].
  step; [apply ends_seq; [apply ends_print|intros _; step]|]. apply ends_seq; [apply serviceRequest_ends|]. intros [st5 self5]. step; step.
Qed.
End Connect.
