(* ===== verification/SshSession.v ===== *)
(** * What the SSH client has agreed to when it is connected

    Whatever the kernel and the server do: if [client_connect] returns 0, then the server
    has proved that it holds a host key, over a hash of everything that was exchanged, and the
    keys of both directions are derived from that exchange ([ssh_connect_authenticated]).
    [Rfc] states the encodings and the hash of RFC 4251, 4253 and 5656; [yields] is
    what holds of a computation that returns, and of what it has sent. *)
From Stdlib Require Import ZArith List Lia Bool String.
From S2P Require Import Prelude Mem Util Alloc Stream Sha Sha256 Chacha20 X25519 Ed25519 RouterSys Ssh SshPacket SshKex SshEnds.
Import ListNotations.
Import Openssh.

(** ** Encodings *)
Module Rfc.

(** RFC 4251, section 5. *)
Definition string (s : list Z) : list Z := be_split 4 (Z.of_nat (length s)) ++ s.

Fixpoint strip (l : list Z) : list Z :=
  match l with
  | [] => []
  | b :: rest => if b =? 0 then strip rest else l
  end.

(** The mpint of a number in network byte order. *)
Definition mpint (l : list Z) : list Z :=
  match strip l with
  | [] => string []
  | b :: rest => string (if b <? 128 then b :: rest else 0 :: b :: rest)
  end.

(** The host key and the signature of RFC 8709. *)
Definition host_key (public : list Z) : list Z := string (str "ssh-ed25519") ++ string public.
Definition signature (s : list Z) : list Z := string (str "ssh-ed25519") ++ string s.

(** RFC 5656, section 4, with curve25519-sha256 (RFC 8731). *)
Definition exchange_hash (V_C V_S I_C I_S K_S Q_C Q_S K : list Z) : list Z :=
  fips_sha256 (string V_C ++ string V_S ++ string I_C ++ string I_S ++ string K_S ++ string Q_C ++ string Q_S ++ mpint K).

(** RFC 4253, section 7.2: 64 bytes of key. *)
Definition derive (K H session : list Z) (letter : Z) : keys :=
  let k1 := fips_sha256 (mpint K ++ H ++ [letter] ++ session) in
  Keys k1 (fips_sha256 (mpint K ++ H ++ k1)).
End Rfc.

Lemma size_bytes_be n : 0 <= n < 2 ^ 32 -> size_bytes n = be_split 4 n.
Proof. intros H. unfold size_bytes. now rewrite le_split_bswap, wrap_small by exact H. Qed.

Lemma name_list_string l : Z.of_nat (length l) < 2 ^ 32 -> name_list l = Rfc.string l.
Proof. intros H. unfold name_list, Rfc.string. now rewrite size_bytes_be by lia. Qed.

(** ** What a computation that returns has done *)

Definition sent (es : list event) : list (list Z) := flat_map (fun e => match fst e with Sys_sendto _ data _ _ => [data] | _ => [] end) es.

Definition yields {A} (m : M A) (Q : A -> list (list Z) -> Prop) : Prop :=
  forall w a w', m w = (Done a, w') -> exists es, adds w w' es /\ Q a (sent es).

Lemma yields_pure {A} (a : A) (Q : A -> list (list Z) -> Prop) : Q a [] -> yields (pure a) Q.
Proof. intros H w b w' E. injection E as <- <-. exists []. split; [apply adds_nil|exact H]. Qed.

Lemma yields_undefined {A} (Q : A -> list (list Z) -> Prop) : yields undefined Q.
Proof. intros w b w' E. discriminate. Qed.

Lemma yields_unfinished {A} (Q : A -> list (list Z) -> Prop) : yields unfinished Q.
Proof. intros w b w' E. discriminate. Qed.

Lemma yields_bind {A B} (m : M A) (f : A -> M B) P Q : yields m P -> (forall a ds, P a ds -> yields (f a) (fun b ds' => Q b (ds ++ ds'))) -> yields (bind m f) Q.
Proof.
  intros Hm Hf w b w' E. unfold bind in E. destruct (m w) as [[a| | |] w1] eqn:Em; try discriminate.
  destruct (Hm _ _ _ Em) as (es1 & A1 & Q1). destruct (Hf a _ Q1 _ _ _ E) as (es2 & A2 & Q2).
  exists (es1 ++ es2). split; [exact (adds_app _ _ _ _ _ A1 A2)|]. unfold sent. rewrite flat_map_app. exact Q2.
Qed.

Lemma yields_weaken {A} (m : M A) (P Q : A -> list (list Z) -> Prop) : yields m P -> (forall a ds, P a ds -> Q a ds) -> yields m Q.
Proof. intros Hm H w a w' E. destruct (Hm _ _ _ E) as (es & H1 & H2). eauto. Qed.

(** Steps that send nothing. *)
Definition quiet {A} (m : M A) (Q : A -> Prop) : Prop := yields m (fun a ds => ds = [] /\ Q a).

Lemma quiet_pure {A} (a : A) (Q : A -> Prop) : Q a -> quiet (pure a) Q.
Proof. intros H. apply yields_pure. auto. Qed.

Lemma quiet_undefined {A} (Q : A -> Prop) : quiet undefined Q.
Proof. apply yields_undefined. Qed.

Lemma quiet_bind {A B} (m : M A) (f : A -> M B) P Q : quiet m P -> (forall a, P a -> quiet (f a) Q) -> quiet (bind m f) Q.
Proof.
  intros Hm Hf. apply yields_bind with (1 := Hm). intros a ds [-> Ha]. apply (yields_weaken _ _ _ (Hf a Ha)). intros b ds [-> Hb]. auto.
Qed.

Lemma yields_quiet {A B} (m : M A) (f : A -> M B) P Q : quiet m P -> (forall a, P a -> yields (f a) Q) -> yields (bind m f) Q.
Proof. intros Hm Hf. apply yields_bind with (1 := Hm). intros a ds [-> Ha]. exact (Hf a Ha). Qed.

Lemma quiet_emits {A} (m : M A) : emits (fun e => match fst e with Sys_sendto _ _ _ _ => False | _ => True end) m -> quiet m (fun _ => True).
Proof.
  intros Hm w a w' E. destruct (Hm w) as (es & H1 & H2). rewrite E in H1. exists es. split; [exact H1|]. split; [|exact I].
  clear H1. unfold sent. induction H2 as [|[c r] es Hc _ IH]; [reflexivity|]. cbn [flat_map fst]. rewrite IH. destruct c; try reflexivity. destruct Hc.
Qed.

Lemma quiet_receive c n : (match c with Sys_sendto _ _ _ _ => False | _ => True end) -> quiet (syscall_in c n) (fun '(r, data) => bytes data /\ (length data <= n)%nat /\ (r < 0 /\ data = [] \/ r = Z.of_nat (length data))).
Proof.
  intros Hc w [r data] w' E. destruct (syscall_in_spec c n w) as (r1 & d1 & w1 & E1 & A1 & H). rewrite E1 in E. injection E as <- <- <-.
  exists [(c, Answer r1 d1)]. split; [exact A1|]. split; [|tauto]. destruct c; try reflexivity. destruct Hc.
Qed.

Lemma quiet_print text num : quiet (debug_printNum text num) (fun _ => True).
Proof.
  apply quiet_emits. unfold debug_printNum. apply emits_bind; [apply emits_writeAll; exact (fun _ _ => I)|]. intros _. destruct (util_intToStr _ _ _) as [b p].
  apply emits_bind; [apply emits_writeAll; exact (fun _ _ => I)|]. intros _. apply emits_pure.
Qed.

(** ** The ring, whatever it holds *)

Definition buffered (self : client) : Prop := Z.of_nat (length (ring self)) = bufferSize self /\ bytes (ring self).

Lemma length_mem_copy_any {A} (d : list A) off s : (off <= length d)%nat -> length (mem_copy d off s) = length d.
Proof. intros H. unfold mem_copy. rewrite !length_app, !length_firstn, length_skipn. lia. Qed.

Lemma quiet_load self i n : buffered self -> quiet (buffer_load self i n) (fun b => length b = Z.to_nat n /\ bytes b).
Proof.
  intros [Hl Hb] w b w' E. unfold buffer_load, in_buffer in E. destruct (Z.leb_spec 0 i), (Z.leb_spec 0 n), (Z.leb_spec (i + n) (2 * bufferSize self)); cbn [andb] in E; try discriminate.
  injection E as <- <-. exists []. split; [apply adds_nil|]. split; [reflexivity|]. split.
  - rewrite length_firstn, length_skipn, length_app. lia.
  - apply bytes_firstn, bytes_skipn, bytes_app. auto.
Qed.

Lemma quiet_store self i data : buffered self -> bytes data -> quiet (buffer_store self i data) (fun self' => self' = with_ring self (ring self') /\ buffered self').
Proof.
  intros [Hl Hb] Hd w s w' E. unfold buffer_store, in_buffer in E. destruct (Z.leb_spec 0 i), (Z.leb_spec 0 (Z.of_nat (length data))), (Z.leb_spec (i + Z.of_nat (length data)) (2 * bufferSize self)); cbn [andb] in E; try discriminate.
  injection E as <- <-. exists []. split; [apply adds_nil|]. split; [reflexivity|]. split; [reflexivity|]. unfold buffered. cbn [with_ring ring bufferSize]. split.
  - rewrite <- Hl. f_equal. unfold ring_store. set (j := if (_ <? _)%nat then _ else _). assert (j <= length (ring self))%nat by (unfold j; destruct (Nat.ltb_spec (Z.to_nat i) (length (ring self))); lia).
    rewrite !length_mem_copy_any; rewrite ?length_mem_copy_any; lia.
  - unfold ring_store. auto with hc.
Qed.

Lemma quiet_aligned i : quiet (assume_aligned i) (fun _ => True).
Proof. unfold assume_aligned. destruct (_ =? _); [now apply quiet_pure|apply quiet_undefined]. Qed.

(** ** Receiving, whatever arrives *)

(** Only the receiving side has moved, and its ciphers still have their keys. *)
Record moved (self self' : client) : Prop := {
  mv_session : same_session self self';
  mv_buffered : buffered self';
  mv_keys : forall k, keyed self 2 k -> keyed self' 2 k }.

Lemma moved_refl self : buffered self -> moved self self.
Proof. intros H. constructor; auto. constructor; auto. now destruct self. Qed.

Lemma moved_trans s1 s2 s3 : moved s1 s2 -> moved s2 s3 -> moved s1 s3.
Proof. intros [A1 A2 A3] [B1 B2 B3]. constructor; [exact (same_session_trans _ _ _ A1 B1)|exact B2|auto]. Qed.

Lemma moved_fields self self' : moved self self' ->
  encryption self' = encryption self /\ sendSequenceNumber self' = sendSequenceNumber self /\ sessionId self' = sessionId self /\ socketFd self' = socketFd self /\
  partialExchangeHash self' = partialExchangeHash self /\ tempHash self' = tempHash self /\ length (ciphers self') = length (ciphers self) /\
  cipher self' 0 = cipher self 0 /\ cipher self' 1 = cipher self 1.
Proof. intros [[E El Ec] _ _]. split; [now rewrite E|]. split; [now rewrite E|]. split; [now rewrite E|]. split; [now rewrite E|]. split; [now rewrite E|]. split; [now rewrite E|]. auto. Qed.

(** A change of positions, sizes or the receive sequence number. *)
Lemma moved_received self pos received next seq : buffered self -> moved self (with_sequence (with_received self pos received next) seq (sendSequenceNumber self)).
Proof. intros H. constructor; [constructor; auto; reflexivity|exact H|auto]. Qed.

Lemma moved_received' self pos received next : buffered self -> moved self (with_received self pos received next).
Proof. intros H. constructor; [constructor; auto; reflexivity|exact H|auto]. Qed.

Lemma moved_ring self self' : self' = with_ring self (ring self') -> buffered self' -> moved self self'.
Proof. intros E Hb. constructor; [constructor; rewrite E; auto; reflexivity|exact Hb|]. intros k Hk. rewrite E. exact Hk. Qed.

Definition same_key (c c' : list Z) : Prop := forall key n nonce, length key = 32%nat -> length nonce = 8%nat -> c = with_key key n nonce -> exists n' nonce', length nonce' = 8%nat /\ c' = with_key key n' nonce'.

Lemma moved_cipher2 self c : buffered self -> same_key (cipher self 2) c -> moved self (set_cipher self 2 c).
Proof.
  intros Hb Hc. constructor; [constructor|exact Hb|].
  - reflexivity.
  - cbn. apply length_set.
  - intros j H2 _. unfold cipher. cbn. apply nth_set_ne. congruence.
  - intros k Hk. destruct Hk as (Hl & Hm & Hh & (n & nonce & Hn & E2) & H3).
    unfold keyed, cipher in *. cbn [set_cipher with_ciphers ciphers]. split; [now rewrite length_set|]. split; [exact Hm|]. split; [exact Hh|]. split.
    + destruct (Hc (main k) n nonce Hm Hn E2) as (n' & nonce' & Hn' & E'). exists n', nonce'. rewrite nth_set_eq by lia. auto.
    + rewrite nth_set_ne by lia. exact H3.
Qed.

Lemma moved_cipher3 self s : buffered self -> moved self (set_cipher self 3 (cipher_nonce (cipher self 3) s)).
Proof.
  intros Hb. constructor; [constructor|exact Hb|].
  - reflexivity.
  - cbn. apply length_set.
  - intros j _ H3. unfold cipher. cbn. apply nth_set_ne. congruence.
  - intros k Hk. destruct Hk as (Hl & Hm & Hh & H2 & (nonce & Hn & E3)).
    unfold keyed, cipher in *. cbn [set_cipher with_ciphers ciphers Nat.add] in *. split; [now rewrite length_set|]. split; [exact Hm|]. split; [exact Hh|]. split.
    + rewrite nth_set_ne by lia. exact H2.
    + exists (be_split 8 s). rewrite nth_set_eq by lia. split; [apply length_be_split|]. rewrite E3. now apply nonce_with_key.
Qed.

Lemma same_key_refl c : same_key c c.
Proof. intros key n nonce _ Hn E. eauto. Qed.

Lemma same_key_nonce c c' s : same_key c c' -> same_key c (cipher_nonce c' s).
Proof. intros H key n nonce Hk Hn E. destruct (H key n nonce Hk Hn E) as (n' & nonce' & Hn' & ->). exists n', (be_split 8 s). split; [apply length_be_split|now apply nonce_with_key]. Qed.

Lemma same_key_counter c c' m : same_key c c' -> same_key c (cipher_counter c' m).
Proof. intros H key n nonce Hk Hn E. destruct (H key n nonce Hk Hn E) as (n' & nonce' & Hn' & ->). exists m, nonce'. split; [exact Hn'|now apply counter_with_key]. Qed.

Lemma bytes_xor_words n : forall data stream, bytes (xor_words n data stream).
Proof. induction n as [|n IH]; intros; cbn [xor_words]; [constructor|]. apply bytes_app. auto with hc. Qed.

Lemma client_crypt_any c0 packetSize : forall fuel c packet offset c' packet', same_key c0 c -> bytes packet -> client_crypt fuel c packet packetSize offset = Some (c', packet') -> same_key c0 c' /\ bytes packet'.
Proof.
  induction fuel as [|fuel IH]; intros c packet offset c' packet' Hc Hb E; cbn [client_crypt] in E; [discriminate|].
  pose proof (same_key_counter _ _ (u64 (blockCounter c + 1)) Hc) as Hc2. set (c2 := cipher_counter c _) in *. clearbody c2. set (iEnd := if (_ <? 64)%nat then _ else _) in *. clearbody iEnd.
  assert (bytes (mem_copy packet offset (xor_words ((iEnd + 3) / 4) (skipn offset packet) (chacha20_block c2)))) as Hb2 by (apply bytes_mem_copy; [exact Hb|apply bytes_xor_words]).
  destruct (_ =? _)%nat; [injection E as <- <-; auto|]. exact (IH _ _ _ _ _ Hc2 Hb2 E).
Qed.

Section Any.
Context (stack : list Z).

Lemma peekSize_any self : buffered self -> quiet (client_peekSize self) (fun r => moved self (snd r)).
Proof using.
  intros Hb. unfold client_peekSize. destruct (negb _); [apply quiet_pure; now apply moved_refl|]. destruct (_ <? 4); [apply quiet_pure; now apply moved_refl|].
  apply quiet_bind with (1 := quiet_load self _ _ Hb). intros sizeBytes _. unfold client_decodeSize.
  assert (forall size self', moved self self' -> quiet (if client_MAX_PACKET_SIZE - 4 - client_macSize (encryption self') <? size then pure (Some (-1), self')
    else if negb (size & 0x3 =? 0) then pure (Some (-2), self') else pure (None, with_received self' (bufferPos self') (receivedSize self') size)) (fun r : option Z * client => moved self (snd r))) as H.
  { intros size self' Hm. destruct (_ <? size); [now apply quiet_pure|]. destruct (negb _); [now apply quiet_pure|]. apply quiet_pure. apply (moved_trans _ _ _ Hm), moved_received', Hm. }
  destruct (encryption self) eqn:Ee; apply H; [now apply moved_refl|now apply moved_cipher3].
Qed.

Lemma open_any self packetSize : buffered self -> quiet (client_open stack self packetSize) (fun r => moved self (snd r)).
Proof using.
  intros Hb. unfold client_open. destruct (encryption self); [apply quiet_pure; now apply moved_refl|].
  apply quiet_bind with (1 := quiet_load self _ _ Hb). intros packet [_ Hpb]. apply quiet_bind with (1 := quiet_load self _ _ Hb). intros mac _.
  pose proof (same_key_counter _ _ 0 (same_key_nonce _ _ (receiveSequenceNumber self) (same_key_refl (cipher self 2)))) as Hc.
  destruct (negb _); [apply quiet_pure; now apply moved_cipher2|].
  apply quiet_bind with (P := fun r => same_key (cipher self 2) (fst r) /\ bytes (snd r)).
  { unfold crypt. destruct (client_crypt _ _ _ _ _) as [[c' packet']|] eqn:E; [|apply yields_unfinished]. apply quiet_pure. exact (client_crypt_any _ _ _ _ _ _ _ _ Hc Hpb E). }
  intros [c' packet'] [Hc' Hb']. cbn [fst snd] in *. assert (buffered (set_cipher self 2 c')) as Hbc by exact Hb.
  apply quiet_bind with (1 := quiet_store _ _ _ Hbc Hb'). intros self' [E Hb2]. apply quiet_pure. apply (moved_trans _ (set_cipher self 2 c')); [now apply moved_cipher2|now apply moved_ring].
Qed.

Lemma peek_any self : buffered self -> quiet (client_peekMessage stack self) (fun r => moved self (snd r)).
Proof using.
  intros Hb. unfold client_peekMessage. apply quiet_bind with (1 := quiet_aligned _). intros _ _. destruct (_ <? 0).
  { apply quiet_bind with (1 := quiet_load self _ _ Hb). intros b _. apply quiet_pure. now apply moved_refl. }
  apply quiet_bind with (1 := peekSize_any self Hb). intros [early self1] Hm1. cbn [snd] in Hm1. destruct early; [now apply quiet_pure|]. destruct (_ <? _); [now apply quiet_pure|].
  apply quiet_bind with (1 := open_any self1 _ (mv_buffered _ _ Hm1)). intros [early self2] Hm2. cbn [snd] in Hm2. pose proof (moved_trans _ _ _ Hm1 Hm2) as Hm. destruct early; [now apply quiet_pure|].
  apply quiet_bind with (1 := quiet_load self2 _ _ (mv_buffered _ _ Hm)). intros b _. destruct (_ <=? 0); [now apply quiet_pure|]. apply quiet_pure.
  apply (moved_trans _ _ _ Hm). cbn [snd]. constructor; [constructor; auto; reflexivity|exact (mv_buffered _ _ Hm)|auto].
Qed.

Lemma wait_any : forall fuel self, buffered self -> quiet (client_waitLoop stack fuel self) (fun r => moved self (snd r)).
Proof using.
  induction fuel as [|fuel IH]; intros self Hb; cbn [client_waitLoop]; [apply yields_unfinished|]. unfold client_nextMessage.
  apply quiet_bind with (P := fun r => moved self (snd r)).
  { apply quiet_bind with (1 := peek_any self Hb). intros [[size message] self1] Hm. cbn [snd] in Hm. apply quiet_pure. cbn [snd]. destruct (_ <? _); [|exact Hm].
    apply (moved_trans _ _ _ Hm). unfold client_ackMessage. apply moved_received', Hm. }
  intros [[size message] self1] Hm. cbn [snd] in Hm. destruct (0 <? size); [now apply quiet_pure|]. destruct (size <? 0).
  { apply quiet_bind with (1 := quiet_print _ _). intros _ _. now apply quiet_pure. }
  apply quiet_bind with (P := fun r => moved self (snd r)).
  { unfold client_receive, sys_recvfrom. eapply quiet_bind; [apply quiet_receive; exact I|]. intros [numRead data] (Hd & _). apply quiet_bind with (1 := quiet_store _ _ _ (mv_buffered _ _ Hm) Hd). intros self2 [E Hb2].
    apply quiet_pure. apply (moved_trans _ _ _ Hm). apply (moved_trans _ self2); [now apply moved_ring|]. apply moved_received', Hb2. }
  intros [n self2] Hm2. cbn [snd] in Hm2. destruct (n <=? 0); [now apply quiet_pure|].
  apply (yields_weaken _ _ _ (IH self2 (mv_buffered _ _ Hm2))). intros r ds [-> Hr]. split; [reflexivity|]. exact (moved_trans _ _ _ Hm2 Hr).
Qed.

Lemma waitForMessage_any self : buffered self -> quiet (client_waitForMessage stack self) (fun r => moved self (snd r)).
Proof using. intros Hb w. exact (wait_any _ self Hb w). Qed.
End Any.

(** ** Sending *)

(** A message as [client_sendMessage] pads it. *)
Definition padded (message : list Z) : list Z := binary_packet message (repeat 0 (Z.to_nat (client_PADDING_SIZE (Z.of_nat (length message))))).

(** The client after a packet, with the keys of the sending side [k]. *)
Record sends (k : keys) (self self' : client) : Prop := {
  sd_fields : self' = with_sequence (with_ciphers self (ciphers self')) (receiveSequenceNumber self) (u32 (sendSequenceNumber self + 1));
  sd_keys : keyed self' 0 k;
  sd_others : forall k2, keyed self 2 k2 -> keyed self' 2 k2 }.

Lemma send_any stack self k message : (16 <= length stack)%nat -> keyed self 0 k -> bytes message -> Z.of_nat (length message) < 2 ^ 31 ->
  yields (client_sendMessage stack self (packet_object message) (Z.of_nat (length message)))
    (fun r ds => fst r < 0 \/ fst r = 0 /\ ds = [on_wire (encryption self) k (sendSequenceNumber self) (padded message)] /\ sends k self (snd r)).
Proof.
  intros Hs Hk Hb Hl w [status self'] w' E. unfold packet_object in E.
  assert (protected self 0 k) as Hp by (unfold protected; destruct (encryption self); auto).
  destruct (client_sendMessage_spec stack Hs self k (repeat 0 (Z.to_nat messageHead_SIZE)) message (repeat 0 (Z.to_nat messageTail_SIZE)) w) as (self1 & [A1 A2 A3 A4 A5] & E1);
    [reflexivity|apply bytes_repeat; unfold is_byte; lia|exact Hb|apply bytes_repeat; unfold is_byte; lia|apply repeat_length|exact Hl|exact Hp|].
  rewrite E1 in E. clear E1. cbv zeta in E. rewrite firstn_repeat_le in E by (destruct (padding_spec (Z.of_nat (length message))); unfold messageTail_SIZE; lia). fold (padded message) in E.
  set (data := on_wire _ _ _ _) in *. clearbody data. unfold sys_sendto in E. destruct (syscall_spec (Sys_sendto (socketFd self) data MSG_NOSIGNAL []) w) as (r & w1 & Es & Hadd).
  rewrite (bind_done _ _ _ _ _ Es) in E. eexists. destruct (negb _); injection E as <- <- <-; (split; [exact Hadd|]); cbn [fst snd]; [now left|]. right. split; [reflexivity|]. split; [reflexivity|].
  constructor.
  - rewrite A1. reflexivity.
  - unfold protected in A2. assert (encryption self1 = encryption self) as Ee by now rewrite A1. rewrite Ee in A2. destruct (encryption self) eqn:En; [|exact A2].
    rewrite A1. unfold keyed, cipher in *. cbn. rewrite A5 by reflexivity. exact Hk.
  - intros k2 (L & M1 & M2 & M3 & M4). unfold keyed, cipher in *. cbn [with_sequence ciphers]. split; [congruence|]. split; [exact M1|]. split; [exact M2|]. split.
    + destruct M3 as (n & nonce & Hn & M3). exists n, nonce. split; [exact Hn|]. rewrite A4 by (cbn; lia). exact M3.
    + destruct M4 as (nonce & Hn & M4). exists nonce. split; [exact Hn|]. rewrite A4 by (cbn; lia). exact M4.
Qed.

(** ** The identification line *)

(** The descriptors of a client. *)
Definition descriptors (self : client) : list Z := [socketFd self; bufferMemFd self].

(** What the handshake relies on between its steps. *)
Record ready (h : list Z) (k0 k2 : keys) (self : client) : Prop := {
  rd_held : descriptors self = h;
  rd_buffered : buffered self; rd_size : bufferSize self < 2 ^ 31; rd_keys0 : keyed self 0 k0; rd_keys2 : keyed self 2 k2;
  rd_partial : length (Stream.buffer (partialExchangeHash self)) = 64%nat; rd_temp : length (Stream.buffer (tempHash self)) = 64%nat }.

Lemma ready_moved h k0 k2 self self' : ready h k0 k2 self -> moved self self' -> ready h k0 k2 self'.
Proof.
  intros [R0 R1 R2 R3 R4 R5 R6] Hm. pose proof (moved_fields _ _ Hm) as (_ & _ & _ & _ & Fp & Ft & Fl & F0 & F1). destruct Hm as [[E _ _] Hb Hk].
  constructor; [rewrite E; exact R0|exact Hb|rewrite E; exact R2| |auto|now rewrite Fp|now rewrite Ft]. unfold keyed in *. cbn [Nat.add] in *. rewrite F0, F1, Fl. exact R3.
Qed.

Lemma ready_sends h k0 k2 self self' : ready h k0 k2 self -> sends k0 self self' -> ready h k0 k2 self'.
Proof.
  intros [R0 R1 R2 R3 R4 R5 R6] [S1 S2 S3]. constructor; [rewrite S1; exact R0|rewrite S1; exact R1|rewrite S1; exact R2|exact S2|auto|rewrite S1; exact R5|rewrite S1; exact R6].
Qed.

Lemma load_eq self i n : buffered self -> quiet (buffer_load self i n) (fun b => b = firstn (Z.to_nat n) (skipn (Z.to_nat i) (ring self ++ ring self)) /\ length b = Z.to_nat n /\ bytes b /\ 0 <= n <= 2 * bufferSize self).
Proof.
  intros Hb w b w' E. destruct (quiet_load self i n Hb w b w' E) as (es & H1 & H2 & H3 & H4). exists es. split; [exact H1|]. split; [exact H2|].
  unfold buffer_load, in_buffer in E. destruct (Z.leb_spec 0 i), (Z.leb_spec 0 n), (Z.leb_spec (i + n) (2 * bufferSize self)); cbn [andb] in E; try discriminate.
  injection E as <- <-. split; [reflexivity|]. split; [exact H3|]. split; [exact H4|lia].
Qed.

Lemma hello_scan_any self : buffered self -> forall n pos end_, quiet (hello_scan n self pos end_) (fun r => pos <= snd r /\ (fst r = true -> snd r + 1 < end_)).
Proof.
  intros Hb. induction n as [|n IH]; intros pos end_; cbn [hello_scan]; [apply quiet_pure; cbn; split; [lia|discriminate]|].
  destruct (Z.ltb_spec (pos + 1) end_); [|apply quiet_pure; cbn; split; [lia|discriminate]].
  apply quiet_bind with (1 := quiet_load self _ _ Hb). intros c _. destruct (_ =? 13); [apply quiet_pure; cbn; split; [lia|auto]|].
  apply (yields_weaken _ _ _ (IH (pos + 1) end_)). intros r ds (-> & H1 & H2). split; [reflexivity|]. split; [lia|exact H2].
Qed.

(** An identification line of the server. *)
Definition identification (line : list Z) : Prop := bytes line /\ firstn 8 line = str "SSH-2.0-" /\ (8 <= length line <= 253)%nat.

(** Only the receiving side and the partial hash have changed. *)
Record greeted (self self' : client) : Prop := {
  gr_fields : self' = with_hashes (with_received (with_ring self (ring self')) (bufferPos self') (receivedSize self') (nextSize self)) (partialExchangeHash self') (tempHash self);
  gr_buffered : buffered self' }.

Lemma hello_line_any self msg pos received : buffered self -> hashed (partialExchangeHash self) msg -> 0 <= pos -> pos + 1 < 255 ->
  quiet (hello_line self pos received) (fun r => fst r < 0 \/ fst r = 0 /\ exists line, identification line /\ hashed (partialExchangeHash (snd r)) (msg ++ Rfc.string line) /\ greeted self (snd r)).
Proof.
  intros Hb Hh Hp0 Hp. unfold hello_line. apply quiet_bind with (1 := quiet_load self _ _ Hb). intros next _. destruct (negb _); [apply quiet_pure; left; cbn; lia|].
  apply quiet_bind with (1 := load_eq self _ _ Hb). intros start (Es & Hsl & _). destruct (Z.ltb_spec pos 8); cbn [orb]; [apply quiet_pure; left; cbn; lia|].
  destruct (Z.eqb_spec (mem_compare start (str "SSH-2.0-") 8) 0) as [Ec|_]; cbn [negb]; [|apply quiet_pure; left; cbn; lia].
  apply mem_compare_zero in Ec; [|rewrite Hsl; cbn; lia|cbn; lia]. apply quiet_bind with (1 := load_eq self _ _ Hb). intros line (El & Hll & Hlb & _).
  assert (identification line) as Hid.
  { split; [exact Hlb|]. split; [|lia]. rewrite El, firstn_firstn, Nat.min_l by lia. rewrite Es, firstn_firstn in Ec. exact Ec. }
  set (partial := sha256_update (sha256_update (partialExchangeHash self) (size_bytes pos)) line).
  assert (hashed partial (msg ++ Rfc.string line)) as Hpart.
  { unfold Rfc.string, partial. rewrite Hll, Z2Nat.id, <- size_bytes_be, app_assoc by lia. apply hashed_update, hashed_update, Hh. }
  set (aligned := math_ALIGN_FORWARD (pos + 2) 4). clearbody aligned partial. set (self1 := with_received (with_hashes self partial (tempHash self)) aligned (received - (pos + 2)) (nextSize (with_hashes self partial (tempHash self)))).
  assert (buffered self1) as Hb1 by exact Hb.
  destruct (negb _).
  - apply quiet_bind with (1 := quiet_load self1 _ _ Hb1). intros rest [_ Hr]. apply quiet_bind with (1 := quiet_store self1 _ _ Hb1 Hr). intros self2 [E2 Hb2].
    apply quiet_pure. right. cbn [fst snd]. split; [reflexivity|]. exists line. split; [exact Hid|]. split; [rewrite E2; exact Hpart|]. constructor; [rewrite E2; reflexivity|exact Hb2].
  - apply quiet_pure. right. cbn [fst snd]. split; [reflexivity|]. exists line. split; [exact Hid|]. split; [exact Hpart|]. constructor; [now destruct self|exact Hb1].
Qed.

Lemma greeted_ring s1 s2 s3 : s2 = with_ring s1 (ring s2) -> greeted s2 s3 -> greeted s1 s3.
Proof. intros E [G1 G2]. constructor; [rewrite G1, E; reflexivity|exact G2]. Qed.

Lemma hello_loop_any msg : forall fuel self received pos, buffered self -> hashed (partialExchangeHash self) msg -> 0 <= pos -> 0 <= received ->
  quiet (hello_loop fuel self received pos) (fun r => fst r < 0 \/ fst r = 0 /\ exists line, identification line /\ hashed (partialExchangeHash (snd r)) (msg ++ Rfc.string line) /\ greeted self (snd r)).
Proof.
  induction fuel as [|fuel IH]; intros self received pos Hb Hh Hp Hr; cbn [hello_loop]; [apply yields_unfinished|].
  unfold sys_recvfrom. eapply quiet_bind; [apply quiet_receive; exact I|]. intros [numRead data] (Hd & _). apply quiet_bind with (1 := quiet_store self _ _ Hb Hd). intros self1 [E1 Hb1].
  destruct (Z.leb_spec numRead 0); [apply quiet_pure; left; cbn; lia|]. set (end_ := if 255 <? received + numRead then 255 else received + numRead).
  assert (end_ <= 255) as He by (unfold end_; destruct (Z.ltb_spec 255 (received + numRead)); lia). clearbody end_.
  apply quiet_bind with (1 := hello_scan_any self1 Hb1 _ pos end_). intros [found pos'] [Hpos Hf]. cbn [fst snd] in Hpos, Hf.
  assert (hashed (partialExchangeHash self1) msg) as Hh1 by (rewrite E1; exact Hh). destruct found.
  - specialize (Hf eq_refl). apply (yields_weaken _ _ _ (hello_line_any self1 msg pos' _ Hb1 Hh1 ltac:(lia) ltac:(lia))).
    intros r ds (-> & H1). split; [reflexivity|]. destruct H1 as [H1|(H1 & line & H2 & H3 & H4)]; [now left|right]. split; [exact H1|]. exists line. split; [exact H2|]. split; [exact H3|exact (greeted_ring _ _ _ E1 H4)].
  - apply (yields_weaken _ _ _ (IH self1 (received + numRead) pos' Hb1 Hh1 ltac:(lia) ltac:(lia))).
    intros r ds (-> & H1). split; [reflexivity|]. destruct H1 as [H1|(H1 & line & H2 & H3 & H4)]; [now left|right]. split; [exact H1|]. exists line. split; [exact H2|]. split; [exact H3|exact (greeted_ring _ _ _ E1 H4)].
Qed.

Lemma quiet_then_sendto {A} fd data flags addr (f : Z -> M A) Q : (forall r, yields (f r) (fun a ds => Q a (data :: ds))) -> yields (let! r := sys_sendto fd data flags addr in f r) Q.
Proof.
  intros Hf. apply yields_bind with (P := fun _ ds => ds = [data]).
  - intros w r w' E. unfold sys_sendto in E. destruct (syscall_spec (Sys_sendto fd data flags addr) w) as (r1 & w1 & E1 & H1). rewrite E1 in E. injection E as <- <-. eexists. split; [exact H1|reflexivity].
  - intros r ds ->. apply Hf.
Qed.

Lemma hello_any h k0 k2 self : ready h k0 k2 self ->
  yields (client_doHello self) (fun r ds => fst r < 0 \/ fst r = 0 /\ ds = [identificationLine] /\ ready h k0 k2 (snd r) /\
    encryption (snd r) = encryption self /\ sendSequenceNumber (snd r) = sendSequenceNumber self /\ sessionId (snd r) = sessionId self /\
    exists V_S, identification V_S /\ hashed (partialExchangeHash (snd r)) (Rfc.string client_HELLO_IDENTIFICATION ++ Rfc.string V_S)).
Proof.
  intros [R0 R1 R2 R3 R4 R5 R6]. unfold client_doHello. apply quiet_then_sendto. intros numSent. destruct (negb _); [apply yields_pure; left; cbn; lia|].
  set (self1 := with_hashes self (sha256_update (sha256_init (partialExchangeHash self)) (firstn (length hello - 2) hello)) (tempHash self)).
  assert (hashed (partialExchangeHash self1) (Rfc.string client_HELLO_IDENTIFICATION)) as Hh.
  { replace (Rfc.string client_HELLO_IDENTIFICATION) with ([] ++ firstn (length hello - 2) hello) by reflexivity. apply hashed_update, hashed_init, R5. }
  intros w r w' E. destruct (hello_loop_any _ _ self1 0 0 R1 Hh ltac:(lia) ltac:(lia) w r w' E) as (es & H1 & H2 & H3). exists es. split; [exact H1|]. rewrite H2.
  destruct H3 as [H3|(H3 & V_S & H4 & H5 & [G1 G2])]; [now left|right]. split; [exact H3|]. split; [reflexivity|]. split; [|rewrite G1; eauto 10].
  constructor; [rewrite G1; exact R0|exact G2|rewrite G1; exact R2|rewrite G1; exact R3|rewrite G1; exact R4|exact (hashed_buffer _ _ H5)|rewrite G1; exact R6].
Qed.

(** ** KEXINIT *)

Lemma quiet_getrandom old : bytes old -> quiet (getrandom old) (fun r => length (snd r) = length old /\ bytes (snd r)).
Proof.
  intros Hb. unfold getrandom. eapply quiet_bind; [apply quiet_receive; exact I|]. intros [status data] (Hd & Hl & _). apply quiet_pure. cbn [snd]. split; [apply length_mem_copy; lia|now apply bytes_mem_copy].
Qed.

(** Closed texts are checked by evaluation. *)
Lemma bytes_check l : forallb (fun b => (0 <=? b) && (b <? 256)) l = true -> bytes l.
Proof.
  intros H. apply Forall_forall. intros b Hb. rewrite forallb_forall in H. specialize (H b Hb). apply andb_prop in H as [H1 H2]. unfold is_byte. lia.
Qed.

Lemma kexinit_message cookie : bytes cookie -> length cookie = 16%nat -> bytes (keyExchangeInit_message cookie) /\ length (keyExchangeInit_message cookie) = 185%nat.
Proof.
  intros Hb Hl. unfold keyExchangeInit_message. split.
  - apply bytes_app. split; [apply bytes_check; reflexivity|]. apply bytes_app. split; [exact Hb|]. apply bytes_check. vm_compute. reflexivity.
  - rewrite !length_app, Hl. reflexivity.
Qed.

(** ** The shared secret *)

Lemma skip_zeros_spec secret : forall n pos, (pos + n = length secret)%nat ->
  (pos <= skip_zeros n secret pos <= length secret)%nat /\ Rfc.strip (skipn pos secret) = skipn (skip_zeros n secret pos) secret /\
  ((skip_zeros n secret pos < length secret)%nat -> get secret (skip_zeros n secret pos) <> 0).
Proof.
  induction n as [|n IH]; intros pos H; cbn [skip_zeros].
  - split; [lia|]. split; [rewrite skipn_all2 by lia; reflexivity|lia].
  - destruct (skipn pos secret) as [|b rest] eqn:E; [apply (f_equal (@List.length Z)) in E; rewrite length_skipn in E; cbn in E; lia|].
    assert (get secret pos = b) as Eb by (rewrite <- (firstn_skipn pos secret), E; unfold get; rewrite app_nth2, length_firstn, Nat.min_l, Nat.sub_diag by (rewrite ?length_firstn; lia); reflexivity).
    assert (skipn (S pos) secret = rest) as Er by (replace (S pos) with (pos + 1)%nat by lia; rewrite <- skipn_skipn_add, E; reflexivity).
    rewrite Eb. cbn [Rfc.strip]. destruct (Z.eqb_spec b 0) as [->|Hb]; cbn [negb].
    + destruct (IH (S pos) ltac:(lia)) as (H1 & H2 & H3). rewrite Er in H2. split; [lia|]. split; [exact H2|exact H3].
    + split; [lia|]. split; [now rewrite E|]. intros _. now rewrite Eb.
Qed.

Lemma skipn_cons_get (l : list Z) p : (p < length l)%nat -> skipn p l = get l p :: skipn (S p) l.
Proof.
  intros H. destruct (skipn p l) as [|b rest] eqn:E; [apply (f_equal (@List.length Z)) in E; rewrite length_skipn in E; cbn in E; lia|].
  replace (S p) with (p + 1)%nat by lia. rewrite <- skipn_skipn_add, E. f_equal.
  rewrite <- (firstn_skipn p l), E. unfold get. rewrite app_nth2, length_firstn, Nat.min_l, Nat.sub_diag by (rewrite ?length_firstn; lia). reflexivity.
Qed.

(** The secret is hashed as an mpint; the secret zero is where C leaves the read undefined. *)
Lemma sharedSecret_spec h msg secret : hashed h msg -> length secret = 32%nat -> bytes secret ->
  match Rfc.strip secret with
  | [] => client_sha256UpdateSharedSecret h secret = undefined
  | _ :: _ => exists h', client_sha256UpdateSharedSecret h secret = pure h' /\ hashed h' (msg ++ Rfc.mpint secret)
  end.
Proof.
  intros Hh Hl Hb. destruct (skip_zeros_spec secret 32 0 ltac:(lia)) as (H1 & H2 & H3). rewrite skipn_O in H2. unfold client_sha256UpdateSharedSecret. set (p := skip_zeros 32 secret 0) in *. clearbody p.
  unfold Rfc.mpint. rewrite H2. destruct (Nat.leb_spec 32 p) as [Hp|Hp]; [rewrite skipn_all2 by lia; reflexivity|].
  assert (firstn (32 - p) (skipn p secret) = skipn p secret) as Ef by (apply firstn_all2; rewrite length_skipn; lia). rewrite Ef. clear Ef.
  rewrite (skipn_cons_get secret p) by lia. specialize (H3 ltac:(lia)). pose proof (get_byte_of secret p Hb) as Hy. set (b := get secret p) in *. unfold is_byte in Hy. eexists. split; [reflexivity|].
  rewrite shiftr_div by lia. change (2 ^ 7) with 128.
  destruct (Z.ltb_spec b 128) as [Hs|Hs].
  - rewrite (Z.div_small b) by lia. cbn [Z.eqb negb]. rewrite Z.add_0_r, size_bytes_be by lia. unfold Rfc.string. rewrite app_assoc. cbn [List.length]. rewrite length_skipn, Hl.
    replace (Z.of_nat (S (32 - S p))) with (32 - Z.of_nat p) by lia. apply hashed_update, hashed_update, Hh.
  - assert (b / 128 = 1) as -> by (symmetry; apply (Z.div_unique b 128 1 (b - 128)); lia). cbn [Z.eqb negb]. rewrite size_bytes_be by lia. unfold Rfc.string. rewrite app_assoc. cbn [List.length]. rewrite length_skipn, Hl.
    replace (Z.of_nat (S (S (32 - S p)))) with (32 - Z.of_nat p + 1) by lia. change (0 :: b :: skipn (S p) secret) with ([0] ++ b :: skipn (S p) secret). rewrite app_assoc. apply hashed_update, hashed_update, hashed_update, Hh.
Qed.

Lemma quiet_secret h msg secret : hashed h msg -> length secret = 32%nat -> bytes secret ->
  quiet (client_sha256UpdateSharedSecret h secret) (fun h' => hashed h' (msg ++ Rfc.mpint secret) /\ Rfc.strip secret <> []).
Proof.
  intros Hh Hl Hb. pose proof (sharedSecret_spec h msg secret Hh Hl Hb) as H. destruct (Rfc.strip secret) eqn:E; [rewrite H; apply quiet_undefined|].
  destruct H as (h' & -> & H). apply quiet_pure. split; [exact H|discriminate].
Qed.

(** ** The server's KEXINIT *)

Lemma nameList_any nameList size string : forall fuel i, quiet (nameListContains_loop fuel nameList size string i) (fun _ => True).
Proof.
  induction fuel as [|fuel IH]; intros i; cbn [nameListContains_loop]; [apply yields_unfinished|]. destruct (_ <? _); [now apply quiet_pure|]. destruct (_ =? 0); [now apply quiet_pure|]. apply IH.
Qed.

Lemma contains_any nameList size : forall names, quiet (contains_one nameList size names) (fun _ => True).
Proof.
  induction names as [|name names IH]; cbn [contains_one]; [now apply quiet_pure|]. apply quiet_bind with (1 := nameList_any _ _ _ _ _). intros found _. destruct found; [now apply quiet_pure|apply IH].
Qed.

Definition negative (r : Z + Z) : Prop := match r with inl e => e < 0 | inr _ => True end.

Lemma load32_any self i : buffered self -> quiet (load32BE self i) (fun _ => True).
Proof. intros Hb. unfold load32BE. apply quiet_bind with (1 := quiet_load self _ _ Hb). intros b _. now apply quiet_pure. Qed.

Lemma kex_list_any self curr end_ names e1 e2 : buffered self -> e1 < 0 -> e2 < 0 -> quiet (kex_list self curr end_ names e1 e2) negative.
Proof.
  intros Hb H1 H2. unfold kex_list. apply quiet_bind with (1 := load32_any _ _ Hb). intros size _. destruct (_ <? _); [now apply quiet_pure|].
  apply quiet_bind with (1 := quiet_load self _ _ Hb). intros l _. apply quiet_bind with (1 := contains_any _ _ _). intros found _. destruct (negb found); [now apply quiet_pure|exact (quiet_pure (inr (curr + 4 + size)) negative I)].
Qed.

Lemma skip_lists_any self end_ : buffered self -> forall n curr, quiet (skip_lists n self curr end_) negative.
Proof.
  intros Hb. induction n as [|n IH]; intros curr; cbn [skip_lists]; [exact (quiet_pure (inr curr) negative I)|]. destruct (_ <? _); [apply quiet_pure; cbn; lia|].
  apply quiet_bind with (1 := load32_any _ _ Hb). intros size _. apply IH.
Qed.

Lemma parse_any self serverInit serverInitSize : buffered self -> quiet (parse_serverInit self serverInit serverInitSize) (fun status => status < 0 \/ status = 0 /\ 21 <= serverInitSize).
Proof.
  intros Hb. unfold parse_serverInit. destruct (Z.ltb_spec serverInitSize (1 + 16 + 4)); [apply quiet_pure; lia|].
  apply quiet_bind with (1 := quiet_load self _ _ Hb). intros opcode _. destruct (negb _); [apply quiet_pure; lia|].
  do 4 (eapply quiet_bind; [apply kex_list_any; [exact Hb|lia|lia]|]; intros [e|?curr] ?Hn; [apply quiet_pure; left; assumption|]).
  apply quiet_bind with (1 := skip_lists_any self _ Hb _ _). intros [e|?curr] Hn4; [apply quiet_pure; left; exact Hn4|]. destruct (negb _); [apply quiet_pure; lia|].
  apply quiet_bind with (1 := quiet_load self _ _ Hb). intros first _. destruct (negb _); apply quiet_pure; lia.
Qed.

(** ** The server's reply *)

Lemma firstn_add {A} n m (l : list A) : firstn (n + m) l = firstn n l ++ firstn m (skipn n l).
Proof. revert l. induction n as [|n IH]; intros [|x l]; cbn [Nat.add firstn skipn app]; rewrite ?firstn_nil; try reflexivity. now rewrite IH. Qed.

Lemma field_spec reply offset size : bytes reply -> (offset + 4 <= length reply)%nat -> field_is reply offset size = true -> firstn 4 (skipn offset reply) = be_split 4 size.
Proof.
  intros Hb Hl H. unfold field_is, mem_loadU32 in H. apply Z.eqb_eq in H. rewrite <- le_split_bswap, <- H.
  assert (length (firstn 4 (skipn offset reply)) = 4%nat) as E by (rewrite length_firstn, length_skipn; lia). rewrite <- E at 2.
  symmetry. apply le_split_combine. auto with hc.
Qed.

Lemma text_spec reply offset text : (offset + length text <= length reply)%nat -> (mem_compare (skipn offset reply) text (length text) =? 0) = true -> firstn (length text) (skipn offset reply) = text.
Proof.
  intros Hl H. apply Z.eqb_eq, mem_compare_zero in H; [|rewrite length_skipn; lia|lia]. now rewrite (firstn_all text) in H.
Qed.

(** Where the fields of a well formed reply are. *)
Lemma reply_layout reply : bytes reply -> length reply = 179%nat -> reply_wellformed reply = true ->
  get reply 0 = proto_MSG_KEX_ECDH_REPLY /\
  firstn 55 (skipn 1 reply) = Rfc.string (Rfc.host_key (reply_hostKey reply)) /\
  firstn 36 (skipn 56 reply) = Rfc.string (reply_publicKey reply) /\
  skipn 92 reply = Rfc.string (Rfc.signature (reply_signature reply)).
Proof.
  intros Hb Hl H. unfold reply_wellformed in H. repeat (apply andb_prop in H as [H ?]).
  repeat match goal with F : field_is reply _ _ = true |- _ => apply (field_spec reply _ _ Hb) in F; [|lia] end.
  repeat match goal with F : (mem_compare _ client_HOST_KEY_ED25519 11 =? 0) = true |- _ => apply (text_spec reply _ client_HOST_KEY_ED25519) in F; [|rewrite Hl; cbn; lia] end.
  change (length client_HOST_KEY_ED25519) with 11%nat in *. apply Z.eqb_eq in H. split; [exact H|].
  assert (forall n m o, firstn (n + m) (skipn o reply) = firstn n (skipn o reply) ++ firstn m (skipn (o + n) reply)) as Hcut by (intros; rewrite firstn_add, skipn_skipn_add; reflexivity).
  assert (length (reply_hostKey reply) = 32%nat /\ length (reply_publicKey reply) = 32%nat /\ length (reply_signature reply) = 64%nat) as (L1 & L2 & L3)
    by (unfold reply_hostKey, reply_publicKey, reply_signature; rewrite !length_firstn, !length_skipn; lia).
  unfold Rfc.host_key, Rfc.signature, Rfc.string. rewrite !length_app, !length_be_split, L1, L2, L3. split; [|split].
  - change 55%nat with (4 + (4 + (11 + (4 + 32))))%nat. rewrite !Hcut. cbn [Nat.add].
    repeat match goal with F : firstn ?n (skipn ?o reply) = _ |- context [firstn ?n (skipn ?o reply)] => rewrite F end. rewrite <- !app_assoc. reflexivity.
  - change 36%nat with (4 + 32)%nat. rewrite !Hcut. cbn [Nat.add].
    repeat match goal with F : firstn ?n (skipn ?o reply) = _ |- context [firstn ?n (skipn ?o reply)] => rewrite F end. reflexivity.
  - rewrite <- (firstn_all2 (n := 4 + (4 + (11 + (4 + 64)))) (skipn 92 reply)) by (rewrite length_skipn; lia). rewrite !Hcut. cbn [Nat.add].
    repeat match goal with F : firstn ?n (skipn ?o reply) = _ |- context [firstn ?n (skipn ?o reply)] => rewrite F end. rewrite <- !app_assoc. reflexivity.
Qed.

(** ** Hashes and keys *)

Lemma bytes_string s : bytes s -> bytes (Rfc.string s).
Proof. intros H. unfold Rfc.string. apply bytes_app. auto with hc. Qed.

Lemma length_string s : length (Rfc.string s) = (4 + length s)%nat.
Proof. unfold Rfc.string. now rewrite length_app, length_be_split. Qed.

Lemma strip_suffix l : exists n, Rfc.strip l = skipn n l.
Proof.
  induction l as [|b l [n IH]]; [now exists 0%nat|]. cbn [Rfc.strip]. destruct (b =? 0); [exists (S n); exact IH|now exists 0%nat].
Qed.

Lemma mpint_bytes l : bytes l -> bytes (Rfc.mpint l) /\ (length (Rfc.mpint l) <= 5 + length l)%nat.
Proof.
  intros H. unfold Rfc.mpint. destruct (strip_suffix l) as [n E]. pose proof (bytes_skipn n l H) as Hb. pose proof (length_skipn n l) as Hl. rewrite <- E in Hb, Hl.
  destruct (Rfc.strip l) as [|b rest]; [split; [apply bytes_string; constructor|rewrite length_string; cbn; lia]|].
  assert (is_byte 0) as H0 by (unfold is_byte; lia). split; [apply bytes_string; destruct (b <? 128); [exact Hb|now constructor]|]. rewrite length_string. cbn [List.length] in Hl. destruct (b <? 128); cbn [List.length]; lia.
Qed.

Lemma length_x25519 secret public : length (x25519 secret public) = 32%nat.
Proof. unfold x25519. destruct (x25519_mul _ _) as [x z]. unfold Curve25519.curve25519_store. rewrite !length_app, !length_le_split. reflexivity. Qed.

Lemma bytes_x25519 secret public : bytes (x25519 secret public).
Proof. unfold x25519. destruct (x25519_mul _ _) as [x z]. unfold Curve25519.curve25519_store. rewrite !bytes_app. auto using bytes_le_split. Qed.

Lemma exchange_any self T reply public secret : hashed (tempHash self) T -> bytes T -> Z.of_nat (length T) < 2 ^ 60 ->
  bytes reply -> length reply = 179%nat -> reply_wellformed reply = true -> length public = 32%nat -> bytes public -> length secret = 32%nat -> bytes secret ->
  quiet (finish_exchangeHash self reply public secret) (fun H => Rfc.strip secret <> [] /\
    H = fips_sha256 (T ++ Rfc.string (Rfc.host_key (reply_hostKey reply)) ++ Rfc.string public ++ Rfc.string (reply_publicKey reply) ++ Rfc.mpint secret) /\
    length H = 32%nat /\ bytes H).
Proof.
  intros Hh Tb Tl Rb Rl Hw Pl Pb Sl Sb. destruct (reply_layout reply Rb Rl Hw) as (_ & E1 & E2 & _). unfold finish_exchangeHash. rewrite E1, E2. rewrite size_bytes_be by lia.
  pose proof (mpint_bytes secret Sb) as [Mb Ml].
  eapply quiet_bind. { apply quiet_secret; [|exact Sl|exact Sb]. apply hashed_update, hashed_update, hashed_update, hashed_update, Hh. }
  intros h (Hh' & Hs). apply quiet_pure. split; [exact Hs|]. split; [|split; [apply length_sha256|apply bytes_sha256]].
  assert (Rfc.string public = be_split 4 32 ++ public) as Ep by (unfold Rfc.string; rewrite Pl; reflexivity). rewrite Ep.
  rewrite <- !app_assoc in *. apply hashed_finish; [exact Hh'| |].
  - rewrite !bytes_app. split; [exact Tb|]. split; [rewrite <- E1; auto with hc|]. split; [auto with hc|]. split; [exact Pb|]. split; [rewrite <- E2; auto with hc|exact Mb].
  - rewrite !length_app, !length_be_split. rewrite <- E1, <- E2, !length_firstn, !length_skipn. lia.
Qed.

Lemma set_key_with key key' n nonce : length key = 32%nat -> length key' = 32%nat -> mem_copy (with_key key n nonce) 16 key' = with_key key' n nonce.
Proof.
  intros H1 H2. unfold with_key. rewrite mem_copy_eq by (rewrite !length_app, H2, H1; cbn; lia). change 16%nat with (length (str "expand 32-byte k")) at 1 2. rewrite firstn_exact by reflexivity. f_equal. f_equal.
  rewrite H2, <- skipn_skipn_add, skipn_exact by reflexivity. rewrite skipn_exact by now symmetry. reflexivity.
Qed.

Lemma key_with key n nonce : length key = 32%nat -> firstn 32 (skipn 16 (with_key key n nonce)) = key.
Proof. intros H. unfold with_key. rewrite skipn_exact by reflexivity. rewrite <- H. apply firstn_exact. reflexivity. Qed.

(** One direction has new keys, and nothing else has changed. *)
Record rekeyed (self self' : client) (i : nat) (k : keys) : Prop := {
  rk_fields : self' = with_ciphers self (ciphers self'); rk_keys : keyed self' i k;
  rk_others : forall j, j <> i -> j <> S i -> cipher self' j = cipher self j }.

Lemma set_keys_keyed self i k k1 k2 : keyed self (2 * i) k -> (i < 2)%nat -> length k1 = 32%nat -> length k2 = 32%nat ->
  rekeyed self (set_key (set_key self (2 * i) k1) (2 * i + 1) k2) (2 * i) (Keys k1 k2) /\ firstn 32 (skipn 16 (cipher (set_key self (2 * i) k1) (2 * i))) = k1.
Proof.
  intros (Hl & M1 & M2 & (n & nonce & N1 & E1) & (nonce' & N2 & E2)) Hi L1 L2.
  assert (cipher (set_key self (2 * i) k1) (2 * i) = with_key k1 n nonce) as F1 by (unfold set_key, cipher at 1; cbn [set_cipher with_ciphers ciphers]; rewrite nth_set_eq by lia; rewrite E1; now apply set_key_with).
  assert (cipher (set_key self (2 * i) k1) (2 * i + 1) = with_key (header k) 0 nonce') as F2 by (unfold set_key, cipher at 1; cbn [set_cipher with_ciphers ciphers]; rewrite nth_set_ne by lia; exact E2).
  split; [|rewrite F1; now apply key_with]. set (self1 := set_key self (2 * i) k1) in *. assert (length (ciphers self1) = 4%nat) as Hl1 by (unfold self1, set_key; cbn; now rewrite length_set).
  constructor.
  - reflexivity.
  - unfold keyed. cbn [main header]. split; [unfold set_key; cbn; rewrite length_set; exact Hl1|]. split; [exact L1|]. split; [exact L2|]. split.
    + exists n, nonce. split; [exact N1|]. unfold set_key at 1, cipher at 1. cbn [set_cipher with_ciphers ciphers]. rewrite nth_set_ne by lia. exact F1.
    + exists nonce'. split; [exact N2|]. unfold set_key at 1, cipher at 1. cbn [set_cipher with_ciphers ciphers]. rewrite nth_set_eq by lia. rewrite F2. now apply set_key_with.
  - intros j J1 J2. unfold set_key at 1, cipher at 1. cbn [set_cipher with_ciphers ciphers]. rewrite nth_set_ne by lia. unfold self1, set_key, cipher. cbn [set_cipher with_ciphers ciphers]. apply nth_set_ne. lia.
Qed.

Lemma derive_any self i k secret H : keyed self (2 * i) k -> (i < 2)%nat -> length (Stream.buffer (tempHash self)) = 64%nat -> length secret = 32%nat -> bytes secret ->
  length H = 32%nat -> bytes H -> length (sessionId self) = 32%nat -> bytes (sessionId self) ->
  quiet (derive_keys self i secret H) (fun self' => rekeyed self self' (2 * i) (Rfc.derive secret H (sessionId self) (67 + Z.of_nat i))).
Proof.
  intros Hk Hi Ht Sl Sb Hl Hb Il Ib. pose proof (mpint_bytes secret Sb) as [Mb Ml]. unfold derive_keys.
  assert (is_byte (67 + Z.of_nat i)) as Hy by (unfold is_byte; lia).
  eapply quiet_bind; [apply (quiet_secret _ [] secret); [apply hashed_init, Ht|exact Sl|exact Sb]|]. intros h1 [Hh1 _]. cbn [app] in Hh1.
  set (h1' := sha256_update (sha256_update (sha256_update h1 H) _) _).
  assert (hashed h1' (Rfc.mpint secret ++ H ++ [67 + Z.of_nat i] ++ sessionId self)) as Hh1'.
  { unfold h1'. rewrite !app_assoc, wrap_small by (unfold is_byte in Hy; lia). apply hashed_update, hashed_update, hashed_update, Hh1. }
  clearbody h1'. assert (sha256_finish h1' = fips_sha256 (Rfc.mpint secret ++ H ++ [67 + Z.of_nat i] ++ sessionId self)) as F1.
  { apply hashed_finish; [exact Hh1'|rewrite !bytes_app; repeat split; try assumption; repeat constructor; unfold is_byte in Hy; lia|rewrite !length_app; cbn; lia]. }
  set (K1 := sha256_finish h1') in *. assert (length K1 = 32%nat) as L1 by apply length_sha256. assert (bytes K1) as B1 by apply bytes_sha256.
  eapply quiet_bind; [apply (quiet_secret _ [] secret); [apply hashed_init, Ht|exact Sl|exact Sb]|]. intros h2 [Hh2 _]. cbn [app] in Hh2.
  destruct (set_keys_keyed self i k K1 K1 Hk Hi L1 L1) as [_ EK].
  rewrite EK. apply quiet_pure.
  assert (sha256_finish (sha256_update (sha256_update h2 H) K1) = fips_sha256 (Rfc.mpint secret ++ H ++ K1)) as F2.
  { apply hashed_finish; [rewrite app_assoc; apply hashed_update, hashed_update, Hh2|rewrite !bytes_app; auto|rewrite !length_app; lia]. }
  assert (length (fips_sha256 (Rfc.mpint secret ++ H ++ K1)) = 32%nat) as L2 by (rewrite <- F2; apply length_sha256). rewrite F2.
  unfold Rfc.derive. rewrite <- F1. exact (proj1 (set_keys_keyed self i k K1 _ Hk Hi L1 L2)).
Qed.

Section Handshake.
Context (stack : list Z) (Hstack : length stack = 128%nat) (Hbytes : bytes stack) (k0 k2 : keys) (h : list Z).

Lemma kexinit_any self V : ready h k0 k2 self -> encryption self = encryption_NONE -> hashed (partialExchangeHash self) V ->
  yields (client_sendKeyExchangeInit stack self) (fun r ds => fst r < 0 \/ fst r = 0 /\ ready h k0 k2 (snd r) /\ encryption (snd r) = encryption_NONE /\
    sendSequenceNumber (snd r) = u32 (sendSequenceNumber self + 1) /\ exists cookie, bytes cookie /\ length cookie = 16%nat /\ ds = [padded (keyExchangeInit_message cookie)] /\
      hashed (tempHash (snd r)) (V ++ Rfc.string (keyExchangeInit_message cookie))).
Proof using Hstack.
  intros Hr He Hv. unfold client_sendKeyExchangeInit. eapply yields_quiet; [apply quiet_getrandom, bytes_repeat; unfold is_byte; lia|]. intros [status cookie] [Hcl Hcb]. cbn [snd] in Hcl, Hcb. rewrite repeat_length in Hcl.
  destruct (Z.ltb_spec status 0); [apply yields_pure; left; cbn; lia|]. destruct (kexinit_message cookie Hcb Hcl) as [Hmb Hml].
  set (message := keyExchangeInit_message cookie) in *. set (temp := sha256_update _ message). assert (hashed temp (V ++ Rfc.string message)) as Ht.
  { unfold temp, Rfc.string. rewrite size_bytes_be by lia. rewrite app_assoc. apply hashed_update, hashed_update, Hv. }
  set (self1 := with_hashes self (partialExchangeHash self) temp). assert (ready h k0 k2 self1) as Hr1 by (destruct Hr; constructor; try assumption; exact (hashed_buffer _ _ Ht)).
  apply yields_bind with (1 := send_any stack self1 k0 message ltac:(lia) (rd_keys0 _ _ _ _ Hr1) Hmb ltac:(lia)). intros [st self2] ds Hy. cbn [fst snd] in Hy.
  destruct (Z.ltb_spec st 0); [apply yields_pure; left; cbn; lia|]. destruct Hy as [Hy|(-> & -> & Hs)]; [lia|]. apply yields_pure. right. cbn [fst snd]. split; [reflexivity|].
  pose proof (ready_sends _ _ _ _ _ Hr1 Hs) as Hr2. split; [exact Hr2|]. destruct Hs as [S1 _ _]. rewrite S1. cbn [with_sequence with_ciphers encryption sendSequenceNumber tempHash self1 with_hashes]. split; [exact He|]. split; [reflexivity|].
  exists cookie. split; [exact Hcb|]. split; [exact Hcl|]. split; [|exact Ht]. rewrite He. reflexivity.
Qed.
(** What a completed exchange has established, after the transcript [T]. *)
Definition exchanged (T : list Z) (secret : list Z) (r : client) (ds : list (list Z)) : Prop :=
  exists I_S K_S Q_S signature,
  let Q_C := x25519 secret x25519_ecdhBasepoint in
  let K := x25519 secret Q_S in
  let H := fips_sha256 (T ++ Rfc.string I_S ++ Rfc.string (Rfc.host_key K_S) ++ Rfc.string Q_C ++ Rfc.string Q_S ++ Rfc.mpint K) in
  bytes I_S /\ length Q_S = 32%nat /\ bytes Q_S /\ valid_signature H K_S signature /\ Rfc.strip K <> [] /\
  ds = [padded ([proto_MSG_KEX_ECDH_INIT] ++ Rfc.string Q_C); padded [proto_MSG_NEWKEYS]] /\
  sessionId r = H /\ encryption r = encryption_CHACHA20POLY1305 /\ ready h (Rfc.derive K H H 67) (Rfc.derive K H H 68) r.

(** The last steps, once the signature has been verified. *)
Definition newKeys (self : client) (H secret : list Z) : M (Z * client) :=
  let! (status, self) := client_sendMessage stack self (packet_object [proto_MSG_NEWKEYS]) 1 in
  if status <? 0 then pure (-17, self)
  else
    let! (serverNewKeysSize, serverNewKeys, self) := client_waitForMessage stack self in
    if negb (serverNewKeysSize =? 1) then pure (-18, self)
    else
      let! opcode := buffer_load self serverNewKeys 1 in
      if negb (get opcode 0 =? proto_MSG_NEWKEYS) then pure (-19, self)
      else
        let self := with_session self (sessionId self) encryption_CHACHA20POLY1305 in
        let! self := derive_keys self 0 secret H in
        let! self := derive_keys self 1 secret H in
        pure (0, self).

Lemma newKeys_any self H secret : ready h k0 k2 self -> encryption self = encryption_NONE -> length H = 32%nat -> bytes H -> length secret = 32%nat -> bytes secret ->
  sessionId self = H ->
  yields (newKeys self H secret)
    (fun r ds => fst r < 0 \/ fst r = 0 /\ ds = [padded [proto_MSG_NEWKEYS]] /\ sessionId (snd r) = H /\ encryption (snd r) = encryption_CHACHA20POLY1305 /\
       sendSequenceNumber (snd r) = u32 (sendSequenceNumber self + 1) /\ ready h (Rfc.derive secret H H 67) (Rfc.derive secret H H 68) (snd r)).
Proof using Hstack.
  intros Hr He Hl Hb Sl Sb Hid. unfold newKeys. assert (bytes [proto_MSG_NEWKEYS]) as Hmb by (apply bytes_check; reflexivity).
  apply yields_bind with (1 := send_any stack self k0 [proto_MSG_NEWKEYS] ltac:(lia) (rd_keys0 _ _ _ _ Hr) Hmb ltac:(cbn; lia)). intros [st self2] ds Hy. cbn [fst snd] in Hy.
  destruct (Z.ltb_spec st 0); [apply yields_pure; left; cbn; lia|]. destruct Hy as [Hy|(-> & -> & Hs)]; [lia|].
  pose proof (ready_sends _ _ _ _ _ Hr Hs) as Hr2. assert (sessionId self2 = H /\ sendSequenceNumber self2 = u32 (sendSequenceNumber self + 1) /\ encryption self2 = encryption_NONE) as (I2 & N2 & _) by (destruct Hs as [S1 _ _]; rewrite S1; cbn; auto).
  eapply yields_quiet; [apply waitForMessage_any, (rd_buffered _ _ _ _ Hr2)|]. intros [[size message] self3] Hm. cbn [snd] in Hm. pose proof (ready_moved _ _ _ _ _ Hr2 Hm) as Hr3.
  destruct (moved_fields _ _ Hm) as (_ & N3 & I3 & _). destruct (negb _); [apply yields_pure; left; cbn; lia|].
  eapply yields_quiet; [apply quiet_load, (rd_buffered _ _ _ _ Hr3)|]. intros opcode _. destruct (negb _); [apply yields_pure; left; cbn; lia|].
  rewrite I3, I2. set (self4 := with_session self3 H encryption_CHACHA20POLY1305). destruct Hr3 as [R0 R1 R2 R3 R4 R5 R6].
  eapply yields_quiet; [apply (derive_any self4 0 k0 secret H R3); auto; lia|]. intros self5 [D1 D2 D3].
  eapply yields_quiet.
  { apply (derive_any self5 1 k2 secret H); [|lia|rewrite D1; exact R6|exact Sl|exact Sb|exact Hl|exact Hb|rewrite D1; exact Hl|rewrite D1; exact Hb].
    destruct R4 as (L & M1 & M2 & M3 & M4). destruct D2 as (L5 & _). unfold keyed in *. cbn [Nat.mul Nat.add] in *. split; [exact L5|]. split; [exact M1|]. split; [exact M2|]. split.
    - destruct M3 as (n & nonce & Hn & M3). exists n, nonce. split; [exact Hn|]. rewrite D3 by lia. exact M3.
    - destruct M4 as (nonce & Hn & M4). exists nonce. split; [exact Hn|]. rewrite D3 by lia. exact M4. }
  intros self6 [F1 F2 F3]. apply yields_pure. right. cbn [fst snd]. split; [reflexivity|]. split; [rewrite He; reflexivity|].
  assert (sessionId self5 = H) as I5 by now rewrite D1. rewrite I5 in F2. replace (sessionId self4) with H in D2 by reflexivity.
  rewrite F1, D1. cbn [with_ciphers sessionId encryption sendSequenceNumber self4 with_session]. split; [reflexivity|]. split; [reflexivity|]. split; [congruence|].
  constructor; [exact R0|exact R1|exact R2| |exact F2|exact R5|exact R6].
  destruct D2 as (L & M1 & M2 & (n & nonce & Hn & M3) & (nonce' & Hn' & M4)). destruct F2 as (L6 & _). unfold keyed, cipher in *. cbn [with_ciphers ciphers Nat.mul Nat.add] in *.
  split; [exact L6|]. split; [exact M1|]. split; [exact M2|]. split; [exists n, nonce|exists nonce']; (split; [assumption|]); rewrite F3 by lia; assumption.
Qed.
Lemma keyExchange_any self T serverInit serverInitSize : ready h k0 k2 self -> encryption self = encryption_NONE ->
  hashed (tempHash self) T -> bytes T -> Z.of_nat (length T) < 2 ^ 59 ->
  yields (client_doKeyExchange stack self serverInit serverInitSize)
    (fun r ds => fst r < 0 \/ fst r = 0 /\ sendSequenceNumber (snd r) = u32 (u32 (sendSequenceNumber self + 1) + 1) /\
       exists secret, length secret = 32%nat /\ bytes secret /\ exchanged T secret (snd r) ds).
Proof using Hstack Hbytes.
  intros Hr He HT Tb Tl. unfold client_doKeyExchange.
  eapply yields_quiet; [apply parse_any, (rd_buffered _ _ _ _ Hr)|]. intros status Hst. destruct (Z.ltb_spec status 0); [apply yields_pure; left; exact H|]. destruct Hst as [Hst|[-> Hsz]]; [lia|]. clear H.
  eapply yields_quiet; [apply load_eq, (rd_buffered _ _ _ _ Hr)|]. intros I_S (_ & Il & Ib & Ibd). pose proof (rd_size _ _ _ _ Hr) as Hbs.
  set (temp := sha256_update _ I_S). assert (hashed temp (T ++ Rfc.string I_S)) as Htemp.
  { unfold temp, Rfc.string. rewrite app_assoc, Il, Z2Nat.id, size_bytes_be by lia. apply hashed_update, hashed_update, HT. }
  clearbody temp. set (self1 := with_hashes self (partialExchangeHash self) temp).
  assert (ready h k0 k2 self1) as Hr1 by (destruct Hr; constructor; try assumption; exact (hashed_buffer _ _ Htemp)).
  eapply yields_quiet; [apply quiet_getrandom, bytes_firstn, Hbytes|]. intros [st secret] [Sl Sb]. cbn [snd] in Sl, Sb. rewrite length_firstn, Hstack in Sl. cbn [Nat.min] in Sl.
  destruct (Z.ltb_spec st 0); [apply yields_pure; left; cbn; lia|]. cbv zeta.
  set (Q_C := x25519 secret x25519_ecdhBasepoint) in *. assert (length Q_C = 32%nat) as Ql by apply length_x25519. assert (bytes Q_C) as Qb by apply bytes_x25519.
  assert ([proto_MSG_KEX_ECDH_INIT] ++ size_bytes 32 ++ Q_C = [proto_MSG_KEX_ECDH_INIT] ++ Rfc.string Q_C) as Em by (unfold Rfc.string; rewrite Ql; reflexivity). rewrite Em. clear Em.
  set (ecdhInit := [proto_MSG_KEX_ECDH_INIT] ++ Rfc.string Q_C). assert (bytes ecdhInit) as Eb by (apply bytes_app; split; [apply bytes_check; reflexivity|apply bytes_string, Qb]).
  assert (length ecdhInit = 37%nat) as El by (unfold ecdhInit; rewrite length_app, length_string, Ql; reflexivity).
  apply yields_bind with (1 := send_any stack self1 k0 ecdhInit ltac:(lia) (rd_keys0 _ _ _ _ Hr1) Eb ltac:(lia)). intros [st2 self2] ds Hy. cbn [fst snd] in Hy.
  destruct (Z.ltb_spec st2 0); [apply yields_pure; left; cbn; lia|]. destruct Hy as [Hy|(-> & -> & Hs)]; [lia|].
  pose proof (ready_sends _ _ _ _ _ Hr1 Hs) as Hr2. assert (tempHash self2 = temp /\ sendSequenceNumber self2 = u32 (sendSequenceNumber self + 1) /\ encryption self2 = encryption_NONE) as (T2 & N2 & E2) by (destruct Hs as [S1 _ _]; rewrite S1; cbn; auto).
  eapply yields_quiet; [apply waitForMessage_any, (rd_buffered _ _ _ _ Hr2)|]. intros [[size message] self3] Hm. cbn [snd] in Hm. pose proof (ready_moved _ _ _ _ _ Hr2 Hm) as Hr3.
  destruct (moved_fields _ _ Hm) as (E3 & N3 & _ & _ & _ & T3 & _). destruct (negb _); [apply yields_pure; left; cbn; lia|].
  eapply yields_quiet; [apply quiet_load, (rd_buffered _ _ _ _ Hr3)|]. intros reply [Rl Rb]. change (Z.to_nat ecdhReply_SIZE) with 179%nat in Rl.
  destruct (reply_wellformed reply) eqn:Ew; cbn [negb]; [|apply yields_pure; left; cbn; lia].
  set (K := x25519 secret (reply_publicKey reply)) in *. assert (length K = 32%nat) as Kl by apply length_x25519. assert (bytes K) as Kb by apply bytes_x25519.
  eapply yields_quiet.
  { apply (exchange_any self3 (T ++ Rfc.string I_S) reply Q_C K); auto; [rewrite T3, T2; exact Htemp|apply bytes_app; split; [exact Tb|now apply bytes_string]|rewrite length_app, length_string, Il; lia]. }
  intros H1 (Kz & EH & Hl & Hb). rewrite <- app_assoc in EH. destruct (Z.eqb_spec (ed25519_verify stack H1 (reply_hostKey reply) (reply_signature reply)) 0) as [Ev|]; cbn [negb]; [|apply yields_pure; left; cbn; lia].
  rewrite E3, E2. set (self4 := with_session self3 H1 encryption_NONE). assert (ready h k0 k2 self4) as Hr4 by (destruct Hr3; constructor; assumption).
  apply (yields_weaken _ _ _ (newKeys_any self4 H1 K Hr4 eq_refl Hl Hb Kl Kb eq_refl)). intros r ds [Hn|(Z0 & -> & Hid & Hen & Hsn & Hrd)]; [now left|right].
  split; [exact Z0|]. split; [rewrite Hsn; cbn [self4 with_session sendSequenceNumber]; congruence|]. exists secret. split; [exact Sl|]. split; [exact Sb|].
  exists I_S, (reply_hostKey reply), (reply_publicKey reply), (reply_signature reply). cbv zeta. fold Q_C. fold K. rewrite <- EH.
  assert (length (reply_hostKey reply) = 32%nat /\ length (reply_publicKey reply) = 32%nat /\ length (reply_signature reply) = 64%nat) as (L1 & L2 & L3)
    by (unfold reply_hostKey, reply_publicKey, reply_signature; rewrite !length_firstn, !length_skipn; lia).
  split; [exact Ib|]. split; [exact L2|]. split; [unfold reply_publicKey; auto with hc|]. split.
  { apply (ed25519_verify_valid stack); auto; [unfold reply_hostKey; auto with hc|unfold reply_signature; auto with hc|rewrite Hl; lia]. }
  split; [exact Kz|]. split; [|auto]. unfold ecdhInit. cbn [app self1 with_hashes encryption]. rewrite He. reflexivity.
Qed.

Lemma serviceRequest_any self : ready h k0 k2 self ->
  yields (client_doServiceRequest stack self)
    (fun r ds => fst r < 0 \/ fst r = 0 /\ ds = [on_wire (encryption self) k0 (sendSequenceNumber self) (padded ([proto_MSG_SERVICE_REQUEST] ++ Rfc.string client_SERVICE_NAME))] /\
       sessionId (snd r) = sessionId self /\ encryption (snd r) = encryption self /\ sendSequenceNumber (snd r) = u32 (sendSequenceNumber self + 1) /\ ready h k0 k2 (snd r)).
Proof using Hstack.
  intros Hr. unfold client_doServiceRequest. assert (name_list client_SERVICE_NAME = Rfc.string client_SERVICE_NAME) as -> by reflexivity.
  set (message := _ ++ Rfc.string _). assert (bytes message) as Hb by (apply bytes_check; reflexivity).
  apply yields_bind with (1 := send_any stack self k0 message ltac:(lia) (rd_keys0 _ _ _ _ Hr) Hb ltac:(cbn; lia)). intros [st self2] ds Hy. cbn [fst snd] in Hy.
  destruct (Z.ltb_spec st 0); [apply yields_pure; left; cbn; lia|]. destruct Hy as [Hy|(-> & -> & Hs)]; [lia|].
  pose proof (ready_sends _ _ _ _ _ Hr Hs) as Hr2. assert (sessionId self2 = sessionId self /\ sendSequenceNumber self2 = u32 (sendSequenceNumber self + 1) /\ encryption self2 = encryption self) as (I2 & N2 & E2) by (destruct Hs as [S1 _ _]; rewrite S1; cbn; auto).
  eapply yields_quiet; [apply waitForMessage_any, (rd_buffered _ _ _ _ Hr2)|]. intros [[size reply] self3] Hm. cbn [snd] in Hm. pose proof (ready_moved _ _ _ _ _ Hr2 Hm) as Hr3.
  destruct (moved_fields _ _ Hm) as (E3 & N3 & I3 & _). destruct (negb _); [apply yields_pure; left; cbn; lia|].
  eapply yields_quiet; [apply quiet_load, (rd_buffered _ _ _ _ Hr3)|]. intros r _. destruct (_ || _); [apply yields_pure; left; cbn; lia|].
  apply yields_pure. right. cbn [fst snd app]. split; [reflexivity|]. split; [reflexivity|]. split; [congruence|]. split; [congruence|]. split; [congruence|exact Hr3].
Qed.
End Handshake.

(** ** The connection *)

(** What is agreed when [client_connect] has returned 0, and what has been sent. *)
Definition agreed (self : client) (datagrams : list (list Z)) : Prop :=
  exists V_S cookie secret I_S K_S Q_S signature,
  let V_C := client_HELLO_IDENTIFICATION in
  let I_C := keyExchangeInit_message cookie in
  let Q_C := Rfc7748.X25519 secret x25519_ecdhBasepoint in
  let K := Rfc7748.X25519 secret Q_S in
  let H := Rfc.exchange_hash V_C V_S I_C I_S (Rfc.host_key K_S) Q_C Q_S K in
  identification V_S /\ length cookie = 16%nat /\ length secret = 32%nat /\ length Q_S = 32%nat /\
  valid_signature H K_S signature /\ Rfc.strip K <> [] /\
  datagrams = [identificationLine; padded I_C; padded ([proto_MSG_KEX_ECDH_INIT] ++ Rfc.string Q_C); padded [proto_MSG_NEWKEYS];
               seal (Rfc.derive K H H 67) 3 (padded ([proto_MSG_SERVICE_REQUEST] ++ Rfc.string client_SERVICE_NAME))] /\
  sessionId self = H /\ encryption self = encryption_CHACHA20POLY1305 /\ sendSequenceNumber self = 4 /\
  keyed self 0 (Rfc.derive K H H 67) /\ keyed self 2 (Rfc.derive K H H 68).

Lemma connect_any stack self h k0 k2 sockaddr : length stack = 128%nat -> bytes stack -> ready h k0 k2 self ->
  yields (client_connect stack self sockaddr) (fun r ds => fst r < 0 \/ fst r = 0 /\ descriptors (snd r) = h /\ agreed (snd r) ds).
Proof.
  intros Hstack Hbytes Hr0. unfold client_connect. set (self0 := with_session _ _ encryption_NONE).
  assert (ready h k0 k2 self0) as Hr by (destruct Hr0; constructor; assumption).
  eapply yields_quiet; [apply quiet_emits, emits_syscall; exact (fun _ => I)|]. intros status _. destruct (Z.ltb_spec status 0); [apply yields_pure; left; cbn; lia|].
  apply yields_bind with (1 := hello_any h k0 k2 self0 Hr). intros [st1 self1] ds1 Hy. cbn [fst snd] in Hy. destruct (Z.ltb_spec st1 0); [apply yields_pure; left; cbn; lia|].
  destruct Hy as [Hy|(-> & -> & Hr1 & E1 & N1 & I1 & V_S & HV & Hh1)]; [lia|].
  apply yields_bind with (1 := kexinit_any stack Hstack k0 k2 h self1 _ Hr1 E1 Hh1). intros [st2 self2] ds2 Hy. cbn [fst snd] in Hy. destruct (Z.ltb_spec st2 0); [apply yields_pure; left; cbn; lia|].
  destruct Hy as [Hy|(-> & Hr2 & E2 & N2 & cookie & Cb & Cl & -> & Hh2)]; [lia|]. destruct (kexinit_message cookie Cb Cl) as [Mb Ml]. destruct HV as (Vb & V8 & Vl).
  eapply yields_quiet; [apply waitForMessage_any, (rd_buffered _ _ _ _ Hr2)|]. intros [[size message] self3] Hm. cbn [snd] in Hm. pose proof (ready_moved _ _ _ _ _ Hr2 Hm) as Hr3.
  destruct (moved_fields _ _ Hm) as (E3 & N3 & _ & _ & _ & T3 & _). destruct (Z.leb_spec size 0); [apply yields_pure; left; cbn; lia|].
  rewrite <- T3 in Hh2. rewrite E2 in E3. set (T := _ ++ Rfc.string (keyExchangeInit_message cookie)) in Hh2.
  assert (bytes T) as Tb by (unfold T; rewrite !bytes_app; repeat split; apply bytes_string; auto; apply bytes_check; reflexivity).
  assert (length T <= 1000)%nat as Tl by (unfold T; rewrite !length_app, !length_string, Ml; cbn [List.length client_HELLO_IDENTIFICATION]; cbn; lia).
  apply yields_bind with (1 := keyExchange_any stack Hstack Hbytes k0 k2 h self3 T message size Hr3 E3 Hh2 Tb ltac:(lia)). intros [st4 self4] ds4 Hy. cbn [fst snd] in Hy.
  destruct (Z.ltb_spec st4 0); [eapply yields_quiet; [apply quiet_print|]; intros _ _; apply yields_pure; left; cbn; lia|].
  destruct Hy as [Hy|(-> & N4 & secret & Sl & Sb & I_S & K_S & Q_S & signature & Ib & Ql & Qb & Hsig & HK & -> & I4 & E4 & Hr4)]; [lia|].
  apply yields_bind with (1 := serviceRequest_any stack Hstack _ _ h self4 Hr4). intros [st5 self5] ds5 Hy. cbn [fst snd] in Hy. destruct (Z.ltb_spec st5 0); [apply yields_pure; left; cbn; lia|].
  destruct Hy as [Hy|(-> & -> & I5 & E5 & N5 & Hr5)]; [lia|]. apply yields_pure. right. split; [reflexivity|]. split; [exact (rd_held _ _ _ _ Hr5)|].
  exists V_S, cookie, secret, I_S, K_S, Q_S, signature. cbv zeta. unfold Rfc.exchange_hash.
  assert (length x25519_ecdhBasepoint = 32%nat /\ bytes x25519_ecdhBasepoint) as [Bl Bb] by (split; [reflexivity|apply bytes_check; reflexivity]).
  rewrite <- (x25519_spec secret x25519_ecdhBasepoint Sl Sb Bl Bb), <- (x25519_spec secret Q_S Sl Sb Ql Qb). unfold T in *. rewrite <- !app_assoc in *. cbn [snd]. rewrite N4, N3, N2, N1 in N5. rewrite N4, N3, N2, N1, E4. rewrite I4 in I5. rewrite E4 in E5.
  split; [split; auto|]. split; [exact Cl|]. split; [exact Sl|]. split; [exact Ql|]. split; [exact Hsig|]. split; [exact HK|].
  split; [reflexivity|]. split; [exact I5|]. split; [exact E5|]. split; [exact N5|]. split; [exact (rd_keys0 _ _ _ _ Hr5)|exact (rd_keys2 _ _ _ _ Hr5)].
Qed.


(** A server that hangs up after its identification line. *)
Definition demo_greeter : client :=
  Client 0x10000 (repeat 0 (Z.to_nat 36864)) 36864 0 0 3 0 0 (repeat (with_key (repeat 0 32) 0 (repeat 0 8)) 4) (Stream (ShaCore [] 0) (repeat 0 64) 0) (Stream (ShaCore [] 0) (repeat 0 64) 0) (repeat 0 32) 4 encryption_NONE 0.
Definition demo_hangup : world := World [Answer 0 []; Answer 12 []; Answer 11 (str "SSH-2.0-x" ++ [13; 10]); Answer 16 (repeat 5 16); Answer 256 []; Answer 0 []] [].

