(* ===== verification/SshServer.v ===== *)
(** * An honest SSH server

    The other half of [SshSession.v]: a server that follows the protocol is accepted.
    [server] is what such a server chooses and how the kernel cuts its bytes; [script] are
    the answers the client then gets; [ssh_connect_completes] says that [client_connect]
    returns 0 with the keys of the exchange, for every such server, except when the shared
    secret is zero, where C leaves a read undefined. *)
From Stdlib Require Import ZArith List Lia Bool String.
From S2P Require Import Prelude Mem Util Alloc Stream Sha Sha256 Chacha20 X25519 Ed25519 RouterSys Ssh SshPacket SshKex SshEnds SshSession.
Import ListNotations.
Import Openssh.

(** ** The state between the steps *)

Record flows (h : list Z) (k0 k2 : keys) (self : client) : Prop := {
  fl_ready : ready h k0 k2 self; fl_ring : ring_ok self; fl_next : nextSize self = 0 }.

(** What lies at a place of the buffer. *)
Definition reads (self : client) (p : Z) (l : list Z) : Prop := forall w, buffer_load self p (Z.of_nat (length l)) w = (Done l, w).

Lemma reads_part self p l a n w : reads self p l -> 0 <= a -> 0 <= n -> a + n <= Z.of_nat (length l) ->
  buffer_load self (p + a) n w = (Done (firstn (Z.to_nat n) (skipn (Z.to_nat a) l)), w).
Proof.
  intros Hr Ha Hn Hl. specialize (Hr w). unfold buffer_load, in_buffer in *. destruct (Z.leb_spec 0 p), (Z.leb_spec 0 (Z.of_nat (length l))), (Z.leb_spec (p + Z.of_nat (length l)) (2 * bufferSize self)); cbn [andb] in Hr; try discriminate.
  destruct (Z.leb_spec 0 (p + a)), (Z.leb_spec 0 n), (Z.leb_spec (p + a + n) (2 * bufferSize self)); try lia. cbn [andb]. unfold pure in *. injection Hr as El. rewrite Nat2Z.id in El.
  f_equal. f_equal. transitivity (firstn (Z.to_nat n) (skipn (Z.to_nat a) (firstn (length l) (skipn (Z.to_nat p) (ring self ++ ring self))))); [|now rewrite El].
  rewrite skipn_firstn_comm, firstn_firstn, skipn_skipn_add. f_equal; [lia|]. f_equal. lia.
Qed.

Lemma reads_cut self p pre l post w : reads self p (pre ++ l ++ post) -> buffer_load self (p + Z.of_nat (length pre)) (Z.of_nat (length l)) w = (Done l, w).
Proof.
  intros Hr. rewrite (reads_part self p _ (Z.of_nat (length pre)) (Z.of_nat (length l)) w Hr) by (rewrite ?length_app; lia). rewrite !Nat2Z.id, skipn_exact, firstn_exact by reflexivity. reflexivity.
Qed.

Lemma send_takes stack h k0 k2 self message rest t : (16 <= length stack)%nat -> flows h k0 k2 self -> bytes message -> Z.of_nat (length message) < 2 ^ 31 ->
  exists self' t', client_sendMessage stack self (packet_object message) (Z.of_nat (length message))
      (World (Answer (Z.of_nat (length (on_wire (encryption self) k0 (sendSequenceNumber self) (padded message)))) [] :: rest) t) = (Done (0, self'), World rest t') /\
    flows h k0 k2 self' /\ self' = with_sequence (with_ciphers self (ciphers self')) (receiveSequenceNumber self) (u32 (sendSequenceNumber self + 1)).
Proof.
  intros Hs [Hr Hok Hn] Hb Hl. assert (protected self 0 k0) as Hp by (unfold protected; pose proof (rd_keys0 _ _ _ _ Hr); destruct (encryption self); auto).
  set (n := Z.of_nat (length (on_wire _ _ _ _))). set (w := World (Answer n [] :: rest) t).
  destruct (client_sendMessage_spec stack Hs self k0 (repeat 0 (Z.to_nat messageHead_SIZE)) message (repeat 0 (Z.to_nat messageTail_SIZE)) w) as (self1 & _ & E1);
    [reflexivity|apply bytes_repeat; unfold is_byte; lia|exact Hb|apply bytes_repeat; unfold is_byte; lia|apply repeat_length|exact Hl|exact Hp|].
  cbv zeta in E1. rewrite firstn_repeat_le in E1 by (destruct (padding_spec (Z.of_nat (length message))); unfold messageTail_SIZE; lia). fold (padded message) in E1. fold n in E1.
  unfold sys_sendto, w in E1. rewrite (bind_done _ _ _ _ _ (syscall_answer _ _ _ _ _)), Z.eqb_refl in E1. cbn [negb] in E1.
  eexists _, _. split; [exact E1|].
  destruct (send_any stack self k0 message Hs (rd_keys0 _ _ _ _ Hr) Hb Hl _ _ _ E1) as (es & _ & [Hf|(_ & _ & Hsd)]); [cbn in Hf; lia|]. cbn [snd] in Hsd.
  pose proof (ready_sends _ _ _ _ _ Hr Hsd) as Hr2. destruct Hsd as [S1 _ _]. split; [|exact S1]. constructor; [exact Hr2| |rewrite S1; exact Hn].
  rewrite S1. destruct Hok; constructor; assumption.
Qed.

Lemma wait_message stack h k0 k2 self payload padding cs future rest answers t : (16 <= length stack)%nat -> flows h k0 k2 self -> acceptable (encryption self) payload padding ->
  let data := on_wire (encryption self) k2 (receiveSequenceNumber self) (binary_packet payload padding) in
  pending self ++ concat cs ++ future = data ++ rest -> arrives (bufferSize self) (length data) (Z.to_nat (receivedSize self)) cs ->
  exists self' t' message, client_waitForMessage stack self (World (map chunk_answer cs ++ answers) t) = (Done (Z.of_nat (length payload), message, self'), World answers t') /\
    flows h k0 k2 self' /\ same_session self self' /\ receiveSequenceNumber self' = u32 (receiveSequenceNumber self + 1) /\ pending self' ++ future = rest /\ reads self' message payload.
Proof.
  intros Hs [Hr Hok Hn] Ha data Hst Harr. assert (protected self 2 k2) as Hp by (unfold protected; pose proof (rd_keys2 _ _ _ _ Hr); destruct (encryption self); auto).
  destruct (wait_takes k2 payload padding stack Hs cs self (S (length (map chunk_answer cs ++ answers))) future rest answers t) as (self' & t' & E & H1 & H2 & H3 & H4 & H5 & H6 & H7);
    [constructor; [exact Hok|exact Hp|exact Ha|now left|exact Hst]|exact Harr|rewrite length_app, length_map; lia|].
  exists self', t', (bufferPos self + 5). split; [exact E|]. split; [|split; [exact H1|]; split; [exact H5|]; split; [exact H6|exact H7]].
  constructor; [|exact H2|exact H4]. destruct (waitForMessage_any stack self (rd_buffered _ _ _ _ Hr) _ _ _ E) as (es & _ & _ & Hm). exact (ready_moved _ _ _ _ _ Hr Hm).
Qed.

(** ** The identification line *)

Lemma hello_scan_finds self line tail end_ : ~ In 13 line -> Z.of_nat (length line) + 1 < end_ -> (forall i, 0 <= i < end_ -> forall w, buffer_load self i 1 w = (Done [get (line ++ 13 :: tail) (Z.to_nat i)], w)) ->
  forall n pos w, 0 <= pos -> (Z.to_nat (Z.of_nat (length line) - pos) < n)%nat -> pos <= Z.of_nat (length line) ->
  hello_scan n self pos end_ w = (Done (true, Z.of_nat (length line)), w).
Proof.
  intros Hcr He Hl. induction n as [|n IH]; intros pos w Hp Hn Hle; [lia|]. cbn [hello_scan]. destruct (Z.ltb_spec (pos + 1) end_); [|lia].
  rewrite (bind_done _ _ _ _ _ (Hl pos ltac:(lia) w)). change (get [?x] 0) with x. destruct (Z.eq_dec pos (Z.of_nat (length line))) as [->|Hne].
  - rewrite Nat2Z.id. unfold get. rewrite app_nth2, Nat.sub_diag by lia. reflexivity.
  - assert (get (line ++ 13 :: tail) (Z.to_nat pos) <> 13) as Hx.
    { intros E. apply Hcr. rewrite <- E. unfold get. rewrite app_nth1 by lia. apply nth_In. lia. }
    destruct (Z.eqb_spec (get (line ++ 13 :: tail) (Z.to_nat pos)) 13) as [E|_]; [destruct (Hx E)|]. apply IH; lia.
Qed.

(** Loads from a ring that starts with [data]. *)
Lemma load_data self data k n w : ring_ok self -> bufferPos self = 0 -> firstn (length data) (view self) = data -> 0 <= k -> 0 <= n -> k + n <= Z.of_nat (length data) ->
  buffer_load self k n w = (Done (firstn (Z.to_nat n) (skipn (Z.to_nat k) data)), w).
Proof.
  intros Hok Hp Hv Hk Hn Hl. assert (length data <= length (view self))%nat as Hlv by (rewrite <- Hv, length_firstn; lia). pose proof (length_view self Hok) as Hlen.
  pose proof (load_view self k n w Hok Hk Hn ltac:(lia)) as E. rewrite Hp, Z.add_0_l in E. cbn [Z.to_nat] in E. rewrite Hp in Hv. cbn [Z.to_nat] in Hv. rewrite E.
  f_equal. f_equal. pose proof (skipn_firstn_comm (Z.to_nat k) (length data) (rot 0 (ring self))) as Ec. rewrite Hv in Ec. rewrite Ec, firstn_firstn. f_equal. lia.
Qed.

Lemma nth_skipn_get (l : list Z) i : (i < length l)%nat -> firstn 1 (skipn i l) = [get l i].
Proof. intros H. rewrite skipn_cons_get by exact H. reflexivity. Qed.

(** After the line: it is hashed, and the rest is moved to an aligned place. *)
Lemma line_takes self line early w : ring_ok self -> bufferPos self = 0 -> nextSize self = 0 -> firstn (length (line ++ [13; 10] ++ early)) (view self) = line ++ [13; 10] ++ early ->
  identification line -> bytes early -> Z.of_nat (length line) + 2 + Z.of_nat (length early) <= bufferSize self ->
  exists self', hello_line self (Z.of_nat (length line)) (Z.of_nat (length (line ++ [13; 10] ++ early))) w = (Done (0, self'), w) /\
    ring_ok self' /\ pending self' = early /\ receiveSequenceNumber self' = receiveSequenceNumber self /\ bufferSize self' = bufferSize self /\ nextSize self' = 0 /\
    partialExchangeHash self' = sha256_update (sha256_update (partialExchangeHash self) (size_bytes (Z.of_nat (length line)))) line.
Proof.
  intros Hok Hp Hn Hv (Lb & L8 & Ll) Eb Hfit. pose proof (ok_size _ Hok) as Hbs. unfold client_MAX_PACKET_SIZE in Hbs.
  assert (length (line ++ [13%Z; 10%Z] ++ early) = length line + 2 + length early)%nat as Dl by (rewrite !length_app; cbn; lia).
  set (data := line ++ [13; 10] ++ early) in *. pose proof (load_data self) as Hload. unfold hello_line.
  rewrite (bind_done _ _ _ _ _ (Hload data (Z.of_nat (length line) + 1) 1 w Hok Hp Hv ltac:(lia) ltac:(lia) ltac:(lia))).
  change (Z.to_nat 1) with 1%nat. rewrite nth_skipn_get by lia. assert (get data (Z.to_nat (Z.of_nat (length line) + 1)) = 10) as -> by (unfold data, get; rewrite app_nth2 by lia; replace (Z.to_nat (Z.of_nat (length line) + 1) - length line)%nat with 1%nat by lia; reflexivity).
  change (negb (get [10] 0 =? 10)) with false. cbv iota.
  rewrite (bind_done _ _ _ _ _ (Hload data 0 8 w Hok Hp Hv ltac:(lia) ltac:(lia) ltac:(lia))). change (Z.to_nat 0) with 0%nat. rewrite skipn_O. change (Z.to_nat 8) with 8%nat.
  assert (firstn 8 data = str "SSH-2.0-") as -> by (unfold data; rewrite firstn_app_l by lia; exact L8). destruct (Z.ltb_spec (Z.of_nat (length line)) 8); [lia|]. change (negb (mem_compare (str "SSH-2.0-") (str "SSH-2.0-") 8 =? 0)) with false. cbn [orb].
  rewrite (bind_done _ _ _ _ _ (Hload data 0 (Z.of_nat (length line)) w Hok Hp Hv ltac:(lia) ltac:(lia) ltac:(lia))). change (Z.to_nat 0) with 0%nat. rewrite skipn_O, Nat2Z.id. replace (firstn (length line) data) with line by (symmetry; apply firstn_exact; reflexivity).
  cbv zeta. set (partial := sha256_update (sha256_update _ _) line). set (pos := Z.of_nat (length line) + 2). set (aligned := math_ALIGN_FORWARD pos 4).
  destruct (align_forward_bound 2 pos ltac:(lia)) as [Ha1 [q Ha2]]. change (2 ^ 2) with 4 in Ha1, Ha2. fold aligned in Ha1, Ha2. clearbody aligned.
  replace (Z.of_nat (length data) - pos) with (Z.of_nat (length early)) by lia. set (selfA := with_received (with_hashes self partial (tempHash self)) aligned (Z.of_nat (length early)) (nextSize (with_hashes self partial (tempHash self)))).
  assert (ring_ok selfA) as HokA by (destruct Hok; constructor; cbn [selfA with_received with_hashes ring bufferSize bufferPos receivedSize]; try assumption; [lia|rewrite Ha2; apply Z_mod_mult|lia]).
  assert (pos = Z.of_nat (length line) + 2) as Epos by reflexivity. clearbody pos.
  assert (skipn (Z.to_nat pos) data = early) as Hsk by (unfold data; rewrite app_assoc; apply skipn_exact; rewrite length_app; cbn [List.length]; lia).
  destruct (Z.eqb_spec aligned pos) as [->|Hne]; cbn [negb].
  - exists selfA. split; [reflexivity|]. split; [exact HokA|]. split; [|auto 6]. unfold pending. cbn [selfA with_received with_hashes ring bufferPos receivedSize].
    rewrite Hp in Hv. unfold rot in *. change (Z.to_nat 0) with 0%nat in Hv. rewrite skipn_O, firstn_O, app_nil_r in Hv. pose proof (ok_length _ Hok) as Hlr.
    rewrite firstn_app_l by (rewrite length_skipn; lia). pose proof (skipn_firstn_comm (Z.to_nat pos) (length data) (ring self)) as Ec. rewrite Hv, Hsk in Ec. rewrite Nat2Z.id. etransitivity; [|symmetry; exact Ec]. f_equal. lia.
  - unfold bind at 1. rewrite (buffer_load_ext self selfA) by reflexivity. rewrite (load_data self data pos (Z.of_nat (length early)) w Hok Hp Hv ltac:(lia) ltac:(lia) ltac:(lia)), Hsk, Nat2Z.id, firstn_all.
    destruct (store_view selfA 0 early w HokA ltac:(lia) ltac:(cbn [selfA with_received with_hashes bufferSize]; lia) Eb) as (r & Es & HokB & Hr). cbn [selfA with_received with_hashes bufferPos ring] in Es, Hr. rewrite Z.add_0_r in Es.
    rewrite (bind_done _ _ _ _ _ Es). exists (with_ring selfA r). split; [reflexivity|]. split; [exact HokB|]. split; [|auto 6]. unfold pending. cbn [selfA with_received with_hashes with_ring ring bufferPos receivedSize].
    pose proof (length_view selfA HokA) as Hlv. cbn [selfA with_received with_hashes with_ring ring bufferPos bufferSize] in Hlv. rewrite Hr, mem_copy_eq by (change (Z.to_nat 0) with 0%nat; lia).
    change (Z.to_nat 0) with 0%nat. rewrite firstn_O, Nat2Z.id. cbn [app]. apply firstn_exact. reflexivity.
Qed.

(** The line in one chunk, with what the server has sent after it. *)
Lemma hello_takes h k0 k2 self line early more t : flows h k0 k2 self -> bufferPos self = 0 -> receivedSize self = 0 ->
  identification line -> ~ In 13 line -> bytes early -> Z.of_nat (length line) + 2 + Z.of_nat (length early) <= bufferSize self ->
  exists self' t', client_doHello self (World (Answer (Z.of_nat (length identificationLine)) [] :: chunk_answer (line ++ [13; 10] ++ early) :: more) t) = (Done (0, self'), World more t') /\
    flows h k0 k2 self' /\ encryption self' = encryption self /\ sendSequenceNumber self' = sendSequenceNumber self /\ receiveSequenceNumber self' = receiveSequenceNumber self /\
    bufferSize self' = bufferSize self /\ pending self' = early /\ hashed (partialExchangeHash self') (Rfc.string client_HELLO_IDENTIFICATION ++ Rfc.string line).
Proof.
  intros [Hr Hok Hn] Hp0 Hr0 (Lb & L8 & Ll) Hcr Eb Hfit. pose proof (ok_size _ Hok) as Hbs. unfold client_MAX_PACKET_SIZE in Hbs.
  set (data := line ++ [13; 10] ++ early). assert (bytes data) as Db by (unfold data; rewrite !bytes_app; repeat split; auto; apply bytes_check; reflexivity).
  assert (length data = length line + 2 + length early)%nat as Dl by (unfold data; rewrite !length_app; cbn; lia).
  set (n0 := Z.of_nat (length identificationLine)). set (w0 := World _ t).
  assert (exists self' t', client_doHello self w0 = (Done (0, self'), World more t') /\ ring_ok self' /\ pending self' = early /\ receiveSequenceNumber self' = receiveSequenceNumber self /\ bufferSize self' = bufferSize self /\ nextSize self' = 0 /\
    partialExchangeHash self' = sha256_update (sha256_update (sha256_update (sha256_init (partialExchangeHash self)) (firstn (length hello - 2) hello)) (size_bytes (Z.of_nat (length line)))) line) as (self' & t' & E & P3 & P4 & P5 & P6 & P7 & P8).
  2: { exists self', t'. split; [exact E|]. destruct (hello_any h k0 k2 self Hr _ _ _ E) as (es & _ & [Hf|(_ & _ & Hr2 & E2 & N2 & _)]); [cbn in Hf; lia|]. cbn [snd] in *.
    split; [constructor; assumption|]. split; [exact E2|]. split; [exact N2|]. split; [exact P5|]. split; [exact P6|]. split; [exact P4|]. rewrite P8.
    rewrite size_bytes_be by lia. replace (Rfc.string client_HELLO_IDENTIFICATION) with ([] ++ firstn (length hello - 2) hello) by reflexivity. unfold Rfc.string. rewrite !app_assoc.
    apply hashed_update, hashed_update, hashed_update, hashed_init, (rd_partial _ _ _ _ Hr). }
  unfold client_doHello, w0, sys_sendto. rewrite (bind_done _ _ _ _ _ (syscall_answer _ _ _ _ _)). unfold n0. rewrite Z.eqb_refl. cbn [negb]. cbv zeta.
  set (t1 := t ++ _). clearbody t1. set (partial := sha256_update (sha256_init _) _). clearbody partial. set (self1 := with_hashes self partial (tempHash self)).
  assert (ring_ok self1) as Hok1 by (destruct Hok; constructor; assumption). cbn [answers List.length hello_loop]. unfold sys_recvfrom, chunk_answer. fold data.
  rewrite (bind_done _ _ _ _ _ (syscall_in_answer _ (Z.to_nat (bufferSize self1 - 0)) (Z.of_nat (length data)) data _ _ ltac:(lia) Db ltac:(cbn [self1 with_hashes bufferSize]; lia))).
  set (t2 := t1 ++ _). clearbody t2. destruct (store_view self1 0 data (World more t2) Hok1 ltac:(lia) ltac:(cbn [self1 with_hashes bufferSize]; lia) Db) as (r & Es & Hok2 & Hv).
  change (bufferPos self1) with (bufferPos self) in Es. rewrite Hp0 in Es. change (0 + 0) with 0 in Es. rewrite (bind_done _ _ _ _ _ Es). set (self2 := with_ring self1 r) in *.
  destruct (Z.leb_spec (Z.of_nat (length data)) 0); [lia|]. rewrite Z.add_0_l. set (end_ := if 255 <? Z.of_nat (length data) then 255 else Z.of_nat (length data)).
  assert (Z.of_nat (length line) + 1 < end_ <= Z.of_nat (length data)) as He by (unfold end_; destruct (Z.ltb_spec 255 (Z.of_nat (length data))); lia). clearbody end_.
  assert (firstn (length data) (view self2) = data) as Hv2.
  { cbn [self2 self1 with_ring with_hashes ring bufferPos]. cbn [self1 with_hashes bufferPos ring] in Hv. rewrite Hv, Hp0. change (Z.to_nat 0) with 0%nat. rewrite mem_copy_eq by (rewrite length_rot; pose proof (ok_length _ Hok); lia).
    rewrite firstn_O. cbn [app]. apply firstn_exact. reflexivity. }
  rewrite (bind_done _ _ _ _ _ (hello_scan_finds self2 line ([10] ++ early) end_ Hcr (proj1 He)
    ltac:(intros i Hi w; rewrite (load_data self2 data i 1 w Hok2 Hp0 Hv2) by lia; change (Z.to_nat 1) with 1%nat; rewrite nth_skipn_get by lia; reflexivity)
    (Z.to_nat (end_ - 0)) 0 _ ltac:(lia) ltac:(lia) ltac:(lia))).
  destruct (line_takes self2 line early (World more t2) Hok2 Hp0 Hn Hv2 (conj Lb (conj L8 Ll)) Eb Hfit) as (self' & E & Q1 & Q2 & Q3 & Q4 & Q5 & Q6).
  exists self', t2. split; [exact E|]. auto 10.
Qed.

(** ** The lists of names *)

(** [name] starts a name of the list: it stands at the beginning or after a comma. *)
Definition separated (pre : list Z) : Prop := pre = [] \/ exists p, pre = p ++ [44].
Definition offers (nameList name : list Z) : Prop := exists pre post, nameList = pre ++ name ++ post /\ separated pre.

Lemma skip_name_spec nameList size : forall n i, 0 <= i <= size -> (Z.to_nat (size - i) <= n)%nat ->
  let j := skip_name n nameList size i in
  (forall x, i <= x < size -> get nameList (Z.to_nat x) = 44 -> j <= x + 1) /\ (j = size \/ i < j <= size /\ get nameList (Z.to_nat (j - 1)) = 44).
Proof.
  induction n as [|n IH]; intros i Hi Hn; cbn [skip_name]; [split; [intros; lia|left; lia]|]. destruct (Z.ltb_spec i size); [|split; [intros; lia|left; lia]].
  destruct (Z.eqb_spec (get nameList (Z.to_nat i)) 44) as [E|E].
  - split; [intros; lia|]. right. split; [lia|]. now replace (i + 1 - 1) with i by lia.
  - destruct (IH (i + 1) ltac:(lia) ltac:(lia)) as [H1 H2]. split; [|destruct H2 as [H2|[H2 H3]]; [now left|right; split; [lia|exact H3]]].
    intros x Hx Ex. destruct (Z.eq_dec x i) as [->|]; [destruct (E Ex)|apply H1; [lia|exact Ex]].
Qed.

Section Names.
Context (nameList name : list Z) (Hname : (0 < length name)%nat) (Hlist : Z.of_nat (length nameList) < 2 ^ 32).

Lemma match_offers i : (i <= length nameList)%nat -> separated (firstn i nameList) -> firstn (length name) (skipn i nameList) = name -> offers nameList name.
Proof using.
  intros Hi Hs E. exists (firstn i nameList), (skipn (length name) (skipn i nameList)). split; [|exact Hs].
  transitivity (firstn i nameList ++ skipn i nameList); [now rewrite firstn_skipn|]. f_equal. rewrite <- (firstn_skipn (length name) (skipn i nameList)) at 1. now rewrite E.
Qed.

Lemma contains_loop_spec : forall fuel i, 0 <= i <= Z.of_nat (length nameList) -> (Z.to_nat (Z.of_nat (length nameList) - i) < fuel)%nat ->
  (separated (firstn (Z.to_nat i) nameList) \/ i = Z.of_nat (length nameList)) ->
  (forall pre post, nameList = pre ++ name ++ post -> separated pre -> i <= Z.of_nat (length pre)) ->
  exists b, (forall w, nameListContains_loop fuel nameList (Z.of_nat (length nameList)) name i w = (Done b, w)) /\ (b = true <-> offers nameList name).
Proof using Hname Hlist.
  induction fuel as [|fuel IH]; intros i Hi Hf Hs Hno; [lia|]. cbn [nameListContains_loop]. rewrite wrap_small by lia.
  destruct (Z.ltb_spec (Z.of_nat (length nameList) - i) (Z.of_nat (length name))) as [Hlt|Hge].
  { exists false. split; [reflexivity|]. split; [discriminate|]. intros (pre & post & E & Hp). specialize (Hno pre post E Hp). apply (f_equal (@List.length Z)) in E. rewrite !length_app in E. lia. }
  assert (i < Z.of_nat (length nameList)) as Hil by lia. destruct Hs as [Hs|]; [|lia].
  pose proof (mem_compare_zero (length name) (skipn (Z.to_nat i) nameList) name ltac:(rewrite length_skipn; lia) ltac:(lia)) as Hc. rewrite (firstn_all name) in Hc.
  destruct (Z.eqb_spec (mem_compare (skipn (Z.to_nat i) nameList) name (length name)) 0) as [E|E].
  { exists true. split; [reflexivity|]. split; [intros _|auto]. apply (match_offers (Z.to_nat i)); [lia|exact Hs|now apply Hc]. }
  destruct (skip_name_spec nameList (Z.of_nat (length nameList)) (Z.to_nat (Z.of_nat (length nameList) - i)) i Hi ltac:(lia)) as [J1 J2].
  destruct (skip_name_bounds nameList (Z.of_nat (length nameList)) (Z.to_nat (Z.of_nat (length nameList) - i)) i ltac:(lia)) as [J3 J4]. specialize (J4 ltac:(lia) Hil).
  set (j := skip_name _ _ _ _) in *. clearbody j. apply IH; [lia|lia| |].
  - destruct J2 as [->|[J2 Ej]]; [now right|left]. right. exists (firstn (Z.to_nat (j - 1)) nameList). replace (Z.to_nat j) with (Z.to_nat (j - 1) + 1)%nat by lia. rewrite firstn_add. f_equal. rewrite nth_skipn_get by lia. now rewrite Ej.
  - intros pre post El Hp. specialize (Hno pre post El Hp). destruct Hp as [->|[p ->]].
    + exfalso. cbn [List.length] in Hno. assert (i = 0) as -> by lia. apply E, Hc. rewrite skipn_O, El. cbn [app]. now apply firstn_exact.
    + destruct (Z.eq_dec i (Z.of_nat (length (p ++ [44])))) as [->|Hne].
      * exfalso. apply E, Hc. rewrite Nat2Z.id, El, skipn_exact by reflexivity. now apply firstn_exact.
      * rewrite length_app in *. cbn [List.length] in *. assert (length nameList = length p + 1 + length name + length post)%nat as Ell by (rewrite El, !length_app; cbn [List.length]; lia).
        specialize (J1 (Z.of_nat (length p)) ltac:(lia)). rewrite Nat2Z.id, El, <- !app_assoc in J1. unfold get in J1. rewrite app_nth2, Nat.sub_diag in J1 by lia. specialize (J1 eq_refl). lia.
Qed.

Lemma nameListContains_spec : exists b, (forall w, client_nameListContains nameList (Z.of_nat (length nameList)) name w = (Done b, w)) /\ (b = true <-> offers nameList name).
Proof using Hname Hlist.
  unfold client_nameListContains. apply contains_loop_spec; [lia|lia|left; now left|intros; lia].
Qed.
End Names.

(** ** The server's KEXINIT *)

Definition kexinit (cookie : list Z) (lists : list (list Z)) : list Z := [proto_MSG_KEXINIT] ++ cookie ++ flat_map Rfc.string lists ++ [0; 0; 0; 0; 0].

(** A server the client can agree with. *)
Record compatible (cookie : list Z) (lists : list (list Z)) : Prop := {
  cp_cookie : length cookie = 16%nat; cp_bytes : bytes cookie /\ Forall bytes lists;
  cp_lists : exists kex hostKey cipher1 cipher2 more, lists = kex :: hostKey :: cipher1 :: cipher2 :: more /\ length more = 6%nat /\
    (offers kex client_KEX_CURVE25519 \/ offers kex client_KEX_CURVE25519_LIBSSH) /\ offers hostKey client_HOST_KEY_ED25519 /\
    offers cipher1 client_CIPHER_CHACHA20POLY1305 /\ offers cipher2 client_CIPHER_CHACHA20POLY1305;
  cp_size : Z.of_nat (length (kexinit cookie lists)) < 2 ^ 31 }.

Lemma contains_takes nameList names w : Z.of_nat (length nameList) < 2 ^ 32 -> Forall (fun name => (0 < length name)%nat) names -> Exists (offers nameList) names ->
  contains_one nameList (Z.of_nat (length nameList)) names w = (Done true, w).
Proof.
  intros Hl Hn He. induction names as [|name names IH]; [inversion He|]. inversion Hn; subst. cbn [contains_one].
  destruct (nameListContains_spec nameList name ltac:(assumption) Hl) as (b & Eb & Hb). rewrite (bind_done _ _ _ _ _ (Eb w)). destruct b; [reflexivity|]. apply IH; [assumption|].
  inversion He as [? ? Ho|]; subst; [apply Hb in Ho; discriminate|assumption].
Qed.

Lemma load_size self p pre l post w : reads self p (pre ++ Rfc.string l ++ post) -> Z.of_nat (length l) < 2 ^ 32 ->
  load32BE self (p + Z.of_nat (length pre)) w = (Done (Z.of_nat (length l)), w).
Proof.
  intros Hr Hl. unfold load32BE. unfold Rfc.string in Hr. rewrite <- app_assoc in Hr. pose proof (reads_cut self p pre (be_split 4 (Z.of_nat (length l))) (l ++ post) w Hr) as E. rewrite length_be_split in E. change (Z.of_nat 4) with 4 in E.
  rewrite (bind_done _ _ _ _ _ E). unfold pure. f_equal. f_equal. unfold mem_loadU32BE. rewrite firstn_all2 by (rewrite length_be_split; lia). rewrite bswap_be_split. apply Z.mod_small. change (256 ^ Z.of_nat 4) with (2 ^ 32). lia.
Qed.

Lemma kex_list_takes self p pre l post names e1 e2 w : reads self p (pre ++ Rfc.string l ++ post) -> (4 <= length post)%nat -> Z.of_nat (length l) < 2 ^ 32 ->
  Forall (fun name => (0 < length name)%nat) names -> Exists (offers l) names ->
  kex_list self (p + Z.of_nat (length pre)) (p + Z.of_nat (length (pre ++ Rfc.string l ++ post))) names e1 e2 w = (Done (inr (p + Z.of_nat (length (pre ++ Rfc.string l)))), w).
Proof.
  intros Hr Hp Hl Hn He. unfold kex_list. rewrite (bind_done _ _ _ _ _ (load_size self p pre l post w Hr Hl)). rewrite !length_app, length_string.
  destruct (Z.ltb_spec (p + Z.of_nat (length pre + (4 + length l + length post))) (p + Z.of_nat (length pre) + 4 + Z.of_nat (length l) + 4)); [lia|].
  assert (reads self p ((pre ++ be_split 4 (Z.of_nat (length l))) ++ l ++ post)) as Hr2 by (unfold Rfc.string in Hr; rewrite <- app_assoc in Hr |- *; exact Hr).
  pose proof (reads_cut self p _ l post w Hr2) as E. rewrite length_app, length_be_split, Nat2Z.inj_add, Z.add_assoc in E. change (Z.of_nat 4) with 4 in E. rewrite (bind_done _ _ _ _ _ E).
  rewrite (bind_done _ _ _ _ _ (contains_takes l names w Hl Hn He)). cbn [negb]. unfold pure. f_equal. f_equal. f_equal. lia.
Qed.

Lemma skip_lists_takes self p post w : (4 <= length post)%nat -> forall ls pre, reads self p (pre ++ flat_map Rfc.string ls ++ post) -> Z.of_nat (length (pre ++ flat_map Rfc.string ls ++ post)) < 2 ^ 31 ->
  skip_lists (length ls) self (p + Z.of_nat (length pre)) (p + Z.of_nat (length (pre ++ flat_map Rfc.string ls ++ post))) w = (Done (inr (p + Z.of_nat (length (pre ++ flat_map Rfc.string ls)))), w).
Proof.
  intros Hp. induction ls as [|l ls IH]; intros pre Hr Hl; cbn [flat_map List.length skip_lists] in *; [now rewrite app_nil_r|].
  rewrite <- app_assoc in *. assert (Z.of_nat (length l) < 2 ^ 31 - 4) as Hll by (rewrite !length_app, length_string in Hl; lia).
  destruct (Z.ltb_spec (p + Z.of_nat (length (pre ++ Rfc.string l ++ flat_map Rfc.string ls ++ post))) (p + Z.of_nat (length pre) + 4)); [rewrite !length_app, length_string in *; lia|].
  rewrite (bind_done _ _ _ _ _ (load_size self p pre l _ w Hr ltac:(lia))). rewrite wrap_small by lia.
  replace (p + Z.of_nat (length pre) + (4 + Z.of_nat (length l))) with (p + Z.of_nat (length (pre ++ Rfc.string l))) by (rewrite length_app, length_string; lia).
  rewrite !app_assoc in *. rewrite <- (app_assoc (pre ++ Rfc.string l)) in *. apply IH; assumption.
Qed.

Lemma parse_takes self p cookie lists w : compatible cookie lists -> reads self p (kexinit cookie lists) ->
  parse_serverInit self p (Z.of_nat (length (kexinit cookie lists))) w = (Done 0, w).
Proof.
  intros [Cl _ (kex & hostKey & c1 & c2 & more & -> & Hm & Ok & Oh & Oc1 & Oc2) Hs] Hr. unfold parse_serverInit, kexinit in *. cbn [flat_map] in *.
  set (post := [0; 0; 0; 0; 0]) in *. set (I_S := [proto_MSG_KEXINIT] ++ cookie ++ _) in *.
  set (p0 := [proto_MSG_KEXINIT] ++ cookie). assert (length p0 = 17%nat) as L0 by (unfold p0; rewrite length_app, Cl; reflexivity).
  assert (I_S = p0 ++ Rfc.string kex ++ (Rfc.string hostKey ++ Rfc.string c1 ++ Rfc.string c2 ++ flat_map Rfc.string more ++ post)) as E0 by (unfold I_S, p0; now rewrite <- !app_assoc).
  assert (I_S = (p0 ++ Rfc.string kex) ++ Rfc.string hostKey ++ (Rfc.string c1 ++ Rfc.string c2 ++ flat_map Rfc.string more ++ post)) as E1 by (rewrite E0; now rewrite <- !app_assoc).
  assert (I_S = ((p0 ++ Rfc.string kex) ++ Rfc.string hostKey) ++ Rfc.string c1 ++ (Rfc.string c2 ++ flat_map Rfc.string more ++ post)) as E2 by (rewrite E0; now rewrite <- !app_assoc).
  assert (I_S = (((p0 ++ Rfc.string kex) ++ Rfc.string hostKey) ++ Rfc.string c1) ++ Rfc.string c2 ++ (flat_map Rfc.string more ++ post)) as E3 by (rewrite E0; now rewrite <- !app_assoc).
  assert (I_S = ((((p0 ++ Rfc.string kex) ++ Rfc.string hostKey) ++ Rfc.string c1) ++ Rfc.string c2) ++ flat_map Rfc.string more ++ post) as E4 by (rewrite E0; now rewrite <- !app_assoc).
  assert (length post = 5%nat) as Lp by reflexivity. pose proof (length_app (flat_map Rfc.string more) post) as Lmp.
  assert (length I_S = length p0 + (4 + length kex) + (4 + length hostKey) + (4 + length c1) + (4 + length c2) + length (flat_map Rfc.string more ++ post))%nat as Ls by (rewrite E4, !length_app, !length_string; lia).
  assert (firstn 1 (skipn 0 I_S) = [proto_MSG_KEXINIT]) as Eop by reflexivity. clearbody I_S p0. destruct (Z.ltb_spec (Z.of_nat (length I_S)) (1 + 16 + 4)); [lia|].
  pose proof (reads_part self p I_S 0 1 w Hr ltac:(lia) ltac:(lia) ltac:(lia)) as Eload. rewrite Z.add_0_r in Eload. change (Z.to_nat 1) with 1%nat in Eload. change (Z.to_nat 0) with 0%nat in Eload. rewrite Eop in Eload.
  rewrite (bind_done _ _ _ _ _ Eload). change (negb (get [proto_MSG_KEXINIT] 0 =? proto_MSG_KEXINIT)) with false. cbv iota zeta.
  pose proof (kex_list_takes self p p0 kex _ [client_KEX_CURVE25519; client_KEX_CURVE25519_LIBSSH] (-3) (-4) w ltac:(rewrite <- E0; exact Hr) ltac:(rewrite !length_app, !length_string; lia) ltac:(lia) ltac:(repeat constructor) ltac:(destruct Ok; auto)) as K0.
  rewrite <- E0, L0 in K0. change (Z.of_nat 17) with 17 in K0. rewrite (bind_done _ _ _ _ _ K0).
  pose proof (kex_list_takes self p _ hostKey _ [client_HOST_KEY_ED25519] (-5) (-6) w ltac:(rewrite <- E1; exact Hr) ltac:(rewrite !length_app, !length_string; lia) ltac:(lia) ltac:(repeat constructor) ltac:(auto)) as K1.
  rewrite <- E1 in K1. rewrite (bind_done _ _ _ _ _ K1).
  pose proof (kex_list_takes self p _ c1 _ [client_CIPHER_CHACHA20POLY1305] (-7) (-8) w ltac:(rewrite <- E2; exact Hr) ltac:(rewrite !length_app, !length_string; lia) ltac:(lia) ltac:(repeat constructor) ltac:(auto)) as K2.
  rewrite <- E2 in K2. rewrite (bind_done _ _ _ _ _ K2).
  pose proof (kex_list_takes self p _ c2 _ [client_CIPHER_CHACHA20POLY1305] (-7) (-8) w ltac:(rewrite <- E3; exact Hr) ltac:(lia) ltac:(lia) ltac:(repeat constructor) ltac:(auto)) as K3.
  rewrite <- E3 in K3. rewrite (bind_done _ _ _ _ _ K3).
  pose proof (skip_lists_takes self p post w ltac:(lia) more _ ltac:(rewrite <- E4; exact Hr) ltac:(rewrite <- E4; exact Hs)) as K4.
  rewrite <- E4, Hm in K4. rewrite (bind_done _ _ _ _ _ K4). rewrite app_assoc in E4. set (pre := _ ++ flat_map Rfc.string more) in *.
  assert (length I_S = length pre + 5)%nat as Lpre by (rewrite E4, length_app; lia). destruct (Z.eqb_spec (p + Z.of_nat (length pre) + 1 + 4) (p + Z.of_nat (length I_S))); [|lia]. cbn [negb].
  pose proof (reads_cut self p pre [0] [0; 0; 0; 0] w ltac:(cbn [app]; fold post; rewrite <- E4; exact Hr)) as Elast. change (Z.of_nat (length [0])) with 1 in Elast. rewrite (bind_done _ _ _ _ _ Elast). reflexivity.
Qed.

(** ** The end of the key exchange *)

Lemma secret_runs secret h : Rfc.strip secret <> [] -> length secret = 32%nat -> exists h', forall w, client_sha256UpdateSharedSecret h secret w = (Done h', w).
Proof.
  intros Hs Hl. destruct (skip_zeros_spec secret 32 0 ltac:(lia)) as (H1 & H2 & _). rewrite skipn_O in H2. unfold client_sha256UpdateSharedSecret.
  destruct (Nat.leb_spec 32 (skip_zeros 32 secret 0)) as [Hp|Hp]; [|eexists; reflexivity]. rewrite H2, skipn_all2 in Hs by lia. congruence.
Qed.

Lemma secret_zero secret h : Rfc.strip secret = [] -> length secret = 32%nat -> client_sha256UpdateSharedSecret h secret = undefined.
Proof.
  intros Hs Hl. destruct (skip_zeros_spec secret 32 0 ltac:(lia)) as (H1 & H2 & _). rewrite skipn_O, Hs in H2. unfold client_sha256UpdateSharedSecret.
  destruct (Nat.leb_spec 32 (skip_zeros 32 secret 0)) as [Hp|Hp]; [reflexivity|]. apply (f_equal (@List.length Z)) in H2. rewrite length_skipn in H2. cbn [List.length] in H2. lia.
Qed.

Lemma derive_runs self i secret H : Rfc.strip secret <> [] -> length secret = 32%nat -> exists self', (forall w, derive_keys self i secret H w = (Done self', w)) /\ self' = with_ciphers self (ciphers self').
Proof.
  intros Hs Hl. unfold derive_keys. destruct (secret_runs secret (sha256_init (tempHash self)) Hs Hl) as [h1 E1]. cbv zeta. eexists. split. { intros w. rewrite (bind_done _ _ _ _ _ (E1 w)). set (self1 := set_key self (2 * i) _). change (tempHash self1) with (tempHash self). rewrite (bind_done _ _ _ _ _ (E1 w)). unfold self1. reflexivity. } { reflexivity. }
Qed.

(** The server's part of the Diffie-Hellman exchange. *)
Definition kexReply (K_S Q_S signature : list Z) : list Z :=
  [proto_MSG_KEX_ECDH_REPLY] ++ Rfc.string (Rfc.host_key K_S) ++ Rfc.string Q_S ++ Rfc.string (Rfc.signature signature).

Lemma kexReply_spec K_S Q_S signature : length K_S = 32%nat -> length Q_S = 32%nat -> length signature = 64%nat ->
  let reply := kexReply K_S Q_S signature in
  length reply = 179%nat /\ reply_wellformed reply = true /\ reply_hostKey reply = K_S /\ reply_publicKey reply = Q_S /\ reply_signature reply = signature.
Proof.
  intros H1 H2 H3. do 32 (destruct K_S as [|? K_S]; [discriminate H1|]). destruct K_S; [|discriminate H1]. do 32 (destruct Q_S as [|? Q_S]; [discriminate H2|]). destruct Q_S; [|discriminate H2].
  do 64 (destruct signature as [|? signature]; [discriminate H3|]). destruct signature; [|discriminate H3]. clear. split; [reflexivity|]. split; [vm_compute; reflexivity|]. repeat split; reflexivity.
Qed.

Lemma if_false {A} (b : bool) (x y : A) : b = false -> (if b then x else y) = y.
Proof. now intros ->. Qed.

Lemma if_true {A} (b : bool) (x y : A) : b = true -> (if b then x else y) = x.
Proof. now intros ->. Qed.

Lemma print_done text num w : exists w', debug_printNum text num w = (Done tt, w').
Proof.
  unfold debug_printNum. destruct (writeAll_done util_STDERR text w) as (r & w1 & es & E & _). rewrite (bind_done _ _ _ _ _ E). cbv zeta. destruct (util_intToStr _ _ _) as [print pos].
  match goal with |- context [bind (writeAll ?f ?d) _ _] => destruct (writeAll_done f d w1) as (r2 & w2 & es2 & E2 & _) end. rewrite (bind_done _ _ _ _ _ E2). eexists. reflexivity.
Qed.

Lemma finish_runs self reply public secret : Rfc.strip secret <> [] -> length secret = 32%nat -> exists H, forall w, finish_exchangeHash self reply public secret w = (Done H, w).
Proof.
  intros Hs Hl. unfold finish_exchangeHash. cbv zeta. match goal with |- context [client_sha256UpdateSharedSecret ?h _] => destruct (secret_runs secret h Hs Hl) as [h' E] end.
  eexists. intros w. rewrite (bind_done _ _ _ _ _ (E w)). reflexivity.
Qed.

Lemma finish_zero self reply public secret w : Rfc.strip secret = [] -> length secret = 32%nat -> finish_exchangeHash self reply public secret w = (Undefined, w).
Proof. intros Hs Hl. unfold finish_exchangeHash. cbv zeta. rewrite (secret_zero secret _ Hs Hl). reflexivity. Qed.

Section Takes.
Context (stack : list Z) (Hstack : length stack = 128%nat) (Hbytes : bytes stack) (h : list Z).

Lemma newKeys_takes k0 k2 self H secret padding cs future rest more t : flows h k0 k2 self -> encryption self = encryption_NONE -> sessionId self = H -> length H = 32%nat -> bytes H ->
  length secret = 32%nat -> bytes secret -> Rfc.strip secret <> [] -> acceptable encryption_NONE [proto_MSG_NEWKEYS] padding ->
  pending self ++ concat cs ++ future = binary_packet [proto_MSG_NEWKEYS] padding ++ rest -> arrives (bufferSize self) (length (binary_packet [proto_MSG_NEWKEYS] padding)) (Z.to_nat (receivedSize self)) cs ->
  exists self' t', newKeys stack self H secret (World (Answer (Z.of_nat (length (padded [proto_MSG_NEWKEYS]))) [] :: map chunk_answer cs ++ more) t) = (Done (0, self'), World more t') /\
    flows h (Rfc.derive secret H H 67) (Rfc.derive secret H H 68) self' /\ sessionId self' = H /\ encryption self' = encryption_CHACHA20POLY1305 /\
    sendSequenceNumber self' = u32 (sendSequenceNumber self + 1) /\ receiveSequenceNumber self' = u32 (receiveSequenceNumber self + 1) /\ bufferSize self' = bufferSize self /\ pending self' ++ future = rest.
Proof using Hstack.
  intros Hfl He Hid Hl Hb Sl Sb Hs Ha Hst Harr. unfold newKeys. assert (bytes [proto_MSG_NEWKEYS]) as Hmb by (apply bytes_check; reflexivity).
  destruct (send_takes stack h k0 k2 self [proto_MSG_NEWKEYS] (map chunk_answer cs ++ more) t ltac:(lia) Hfl Hmb ltac:(reflexivity)) as (self1 & t1 & E1 & Hfl1 & F1). rewrite He in E1. cbn [on_wire] in E1.
  assert (newKeys stack self H secret (World (Answer (Z.of_nat (length (padded [proto_MSG_NEWKEYS]))) [] :: map chunk_answer cs ++ more) t) = newKeys stack self H secret (World (Answer (Z.of_nat (length (padded [proto_MSG_NEWKEYS]))) [] :: map chunk_answer cs ++ more) t)) as Erun by reflexivity.
  unfold newKeys at 2 in Erun. change (client_sendMessage stack self (packet_object [proto_MSG_NEWKEYS]) 1) with (client_sendMessage stack self (packet_object [proto_MSG_NEWKEYS]) (Z.of_nat (length [proto_MSG_NEWKEYS]))) in Erun.
  rewrite (bind_done _ _ _ _ _ E1) in Erun. cbn [Z.ltb Z.compare] in Erun.
  assert (encryption self1 = encryption_NONE /\ pending self1 = pending self /\ bufferSize self1 = bufferSize self /\ receivedSize self1 = receivedSize self /\ receiveSequenceNumber self1 = receiveSequenceNumber self /\ sessionId self1 = H) as (G1 & G2 & G3 & G4 & G5 & G6) by (rewrite F1; cbn; auto 10).
  destruct (wait_message stack h k0 k2 self1 [proto_MSG_NEWKEYS] padding cs future rest more t1 ltac:(lia) Hfl1) as (self2 & t2 & message & E2 & Hfl2 & Hss & Hq2 & Hp2 & Hr2); [now rewrite G1|rewrite G1, G2; exact Hst|rewrite G1, G3, G4; exact Harr|].
  rewrite (bind_done _ _ _ _ _ E2) in Erun. cbn [List.length negb Z.eqb Z.of_nat Pos.of_succ_nat Pos.eqb] in Erun. rewrite (bind_done _ _ _ _ _ (Hr2 _)) in Erun. change (negb (get [proto_MSG_NEWKEYS] 0 =? proto_MSG_NEWKEYS)) with false in Erun. cbv iota zeta in Erun.
  set (self3 := with_session self2 (sessionId self2) encryption_CHACHA20POLY1305) in *.
  destruct (derive_runs self3 0 secret H Hs Sl) as (self4 & E4 & F4). rewrite (bind_done _ _ _ _ _ (E4 _)) in Erun. destruct (derive_runs self4 1 secret H Hs Sl) as (self5 & E5 & F5). rewrite (bind_done _ _ _ _ _ (E5 _)) in Erun.
  exists self5, t2. split; [exact Erun|].
  destruct (newKeys_any stack Hstack k0 k2 h self H secret (fl_ready _ _ _ _ Hfl) He Hl Hb Sl Sb Hid _ _ _ Erun) as (es & _ & [Hf|(_ & _ & I5 & N5 & Q5 & R5)]); [cbn in Hf; lia|]. cbn [snd] in *.
  destruct Hss as [S1 _ _]. assert (self5 = with_ciphers self3 (ciphers self5)) as F by (rewrite F5, F4; reflexivity). destruct Hfl2 as [_ Hok2 Hn2].
  assert (ring_ok self5) as Hok5 by (rewrite F; destruct Hok2; constructor; assumption).
  split; [constructor; [exact R5|exact Hok5|rewrite F; exact Hn2]|]. split; [exact I5|]. split; [exact N5|]. split; [exact Q5|].
  split; [rewrite F; cbn [with_ciphers receiveSequenceNumber self3 with_session]; congruence|]. split; [rewrite F; cbn [with_ciphers bufferSize self3 with_session]; rewrite S1; exact G3|]. rewrite F. exact Hp2.
Qed.
Lemma keyExchange_takes k0 k2 self T p cookie lists secret K_S Q_S signature pad2 pad3 cs2 cs3 future rest more t I_S Q_C K H :
  flows h k0 k2 self -> encryption self = encryption_NONE -> hashed (tempHash self) T -> bytes T -> Z.of_nat (length T) < 2 ^ 59 ->
  compatible cookie lists -> reads self p (kexinit cookie lists) -> length secret = 32%nat -> bytes secret ->
  length K_S = 32%nat -> length Q_S = 32%nat -> length signature = 64%nat ->
  kexinit cookie lists = I_S -> x25519 secret x25519_ecdhBasepoint = Q_C -> x25519 secret Q_S = K ->
  fips_sha256 (T ++ Rfc.string I_S ++ Rfc.string (Rfc.host_key K_S) ++ Rfc.string Q_C ++ Rfc.string Q_S ++ Rfc.mpint K) = H ->
  let wire2 := binary_packet (kexReply K_S Q_S signature) pad2 in
  let wire3 := binary_packet [proto_MSG_NEWKEYS] pad3 in
  let w := World (Answer 32 secret :: Answer (Z.of_nat (length (padded ([proto_MSG_KEX_ECDH_INIT] ++ Rfc.string Q_C)))) [] :: map chunk_answer cs2 ++
                  Answer (Z.of_nat (length (padded [proto_MSG_NEWKEYS]))) [] :: map chunk_answer cs3 ++ more) t in
  acceptable encryption_NONE (kexReply K_S Q_S signature) pad2 -> acceptable encryption_NONE [proto_MSG_NEWKEYS] pad3 ->
  pending self ++ concat cs2 ++ concat cs3 ++ future = wire2 ++ wire3 ++ rest ->
  arrives (bufferSize self) (length wire2) (Z.to_nat (receivedSize self)) cs2 ->
  arrives (bufferSize self) (length wire3) (Z.to_nat (receivedSize self) + length (concat cs2) - length wire2) cs3 ->
  (Rfc.strip K = [] -> fst (client_doKeyExchange stack self p (Z.of_nat (length I_S)) w) = Undefined) /\
  (Rfc.strip K <> [] ->
   if ed25519_verify stack H K_S signature =? 0 then
     exists self' t', client_doKeyExchange stack self p (Z.of_nat (length I_S)) w = (Done (0, self'), World more t') /\
       flows h (Rfc.derive K H H 67) (Rfc.derive K H H 68) self' /\ sessionId self' = H /\ encryption self' = encryption_CHACHA20POLY1305 /\
       sendSequenceNumber self' = u32 (u32 (sendSequenceNumber self + 1) + 1) /\ receiveSequenceNumber self' = u32 (u32 (receiveSequenceNumber self + 1) + 1) /\
       bufferSize self' = bufferSize self /\ pending self' ++ future = rest
   else exists self' w', client_doKeyExchange stack self p (Z.of_nat (length I_S)) w = (Done (-16, self'), w')).
Proof using Hstack Hbytes.
  intros Hfl He HT Tb Tl Hc Hreads Sl Sb KSl QSl Sgl EI EQ EK EHash wire2 wire3 w Ha2 Ha3 Hst Harr2 Harr3.
  pose proof (cp_size _ _ Hc) as Isz. pose proof (parse_takes self p cookie lists w Hc Hreads) as Eparse. rewrite EI in Isz, Hreads, Eparse. destruct (cp_bytes _ _ Hc) as [Cb Lb].
  assert (bytes I_S) as Ib. { rewrite <- EI. unfold kexinit. rewrite !bytes_app. repeat split; try (apply bytes_check; reflexivity); [exact Cb|]. apply Forall_flat_map. eapply Forall_impl; [|exact Lb]. intros l Hl. now apply bytes_string. }
  destruct (kexReply_spec K_S Q_S signature KSl QSl Sgl) as (Rl & Rw & R1 & R2 & R3). set (reply := kexReply K_S Q_S signature) in *.
  assert (length Q_C = 32%nat /\ bytes Q_C) as [Ql Qb] by (rewrite <- EQ; split; [apply length_x25519|apply bytes_x25519]). assert (length K = 32%nat /\ bytes K) as [Kl Kb] by (rewrite <- EK; split; [apply length_x25519|apply bytes_x25519]).
  destruct (client_doKeyExchange stack self p (Z.of_nat (length I_S)) w) as [o w'] eqn:Erun. pose proof Erun as Eany. unfold client_doKeyExchange in Erun. cbv zeta in Erun.
  rewrite (bind_done _ _ _ _ _ Eparse) in Erun. rewrite if_false in Erun by reflexivity. rewrite (bind_done _ _ _ _ _ (Hreads w)) in Erun.
  set (temp := sha256_update _ I_S) in Erun. assert (hashed temp (T ++ Rfc.string I_S)) as Htemp.
  { unfold temp, Rfc.string. rewrite app_assoc, size_bytes_be by lia. apply hashed_update, hashed_update, HT. }
  clearbody temp. set (self1 := with_hashes self (partialExchangeHash self) temp) in *.
  assert (flows h k0 k2 self1) as Hfl1 by (destruct Hfl as [[] [] ?]; constructor; [constructor; try assumption; exact (hashed_buffer _ _ Htemp)|constructor; assumption|assumption]).
  unfold getrandom, w in Erun. rewrite length_firstn, Hstack in Erun. cbn [Nat.min] in Erun. rewrite bind_assoc in Erun.
  rewrite (bind_done _ _ _ _ _ (syscall_in_answer _ 32 32 secret _ _ ltac:(lia) Sb ltac:(lia))), bind_pure in Erun.
  assert (mem_copy (firstn 32 stack) 0 secret = secret) as Ecopy by (rewrite mem_copy_eq by (rewrite length_firstn; lia); rewrite firstn_O, skipn_all2 by (rewrite length_firstn; lia); apply app_nil_r).
  rewrite Ecopy in Erun. rewrite if_false in Erun by (apply Z.ltb_ge; lia). rewrite EQ in Erun.
  assert ([proto_MSG_KEX_ECDH_INIT] ++ size_bytes 32 ++ Q_C = [proto_MSG_KEX_ECDH_INIT] ++ Rfc.string Q_C) as Em by (unfold Rfc.string; rewrite Ql; reflexivity). rewrite Em in Erun. clear Em.
  set (ecdhInit := [proto_MSG_KEX_ECDH_INIT] ++ Rfc.string Q_C) in *. assert (bytes ecdhInit) as Eb by (apply bytes_app; split; [apply bytes_check; reflexivity|apply bytes_string, Qb]).
  assert (length ecdhInit = 37%nat) as El by (unfold ecdhInit; rewrite length_app, length_string, Ql; reflexivity).
  match type of Erun with context [World (?a :: ?r) ?t0] => destruct (send_takes stack h k0 k2 self1 ecdhInit r t0 ltac:(lia) Hfl1 Eb ltac:(lia)) as (self2 & t2 & E2 & Hfl2 & F2) end.
  change (encryption self1) with (encryption self) in E2. rewrite He in E2. cbn [on_wire] in E2. rewrite (bind_done _ _ _ _ _ E2) in Erun. cbv beta iota in Erun. rewrite if_false in Erun by reflexivity.
  assert (encryption self2 = encryption_NONE /\ pending self2 = pending self /\ bufferSize self2 = bufferSize self /\ receivedSize self2 = receivedSize self /\ receiveSequenceNumber self2 = receiveSequenceNumber self /\ tempHash self2 = temp)
    as (G1 & G2 & G3 & G4 & G5 & G6) by (rewrite F2; cbn; auto 10).
  match type of Erun with context [World (map chunk_answer cs2 ++ ?r) ?t0] => destruct (wait_message stack h k0 k2 self2 reply pad2 cs2 (concat cs3 ++ future) (wire3 ++ rest) r t0 ltac:(lia) Hfl2) as (self3 & t3 & message & E3 & Hfl3 & Hss3 & Hq3 & Hp3 & Hr3) end;
    [now rewrite G1|rewrite G1, G2; exact Hst|rewrite G1, G3, G4; exact Harr2|].
  rewrite (bind_done _ _ _ _ _ E3) in Erun. cbv beta iota in Erun. rewrite Rl in Erun. rewrite if_false in Erun by reflexivity.
  pose proof (Hr3 (World (Answer (Z.of_nat (length (padded [proto_MSG_NEWKEYS]))) [] :: map chunk_answer cs3 ++ more) t3)) as El3. rewrite Rl in El3. change (Z.of_nat 179) with ecdhReply_SIZE in El3. rewrite (bind_done _ _ _ _ _ El3), if_false in Erun by (now rewrite Rw). rewrite R1, R2, R3 in Erun. rewrite EK in Erun.
  destruct Hss3 as [S3 _ _]. assert (encryption self3 = encryption_NONE /\ bufferSize self3 = bufferSize self /\ sendSequenceNumber self3 = u32 (sendSequenceNumber self + 1) /\ tempHash self3 = temp) as (J1 & J2 & J3 & J4) by (rewrite S3; cbn; rewrite F2; cbn; auto).
  split; intros HK.
  - unfold bind at 1 in Erun. rewrite (finish_zero self3 reply Q_C K _ HK Kl) in Erun. injection Erun as <- _. reflexivity.
  - destruct (finish_runs self3 reply Q_C K HK Kl) as [H' EH]. rewrite (bind_done _ _ _ _ _ (EH _)) in Erun.
    assert (bytes reply) as Rb by apply Ha2.
    destruct (exchange_any self3 (T ++ Rfc.string I_S) reply Q_C K) with (w := World more t) (a := H') (w' := World more t) as (es & _ & _ & _ & EH' & Hl & Hb); auto;
      [rewrite J4; exact Htemp|apply bytes_app; split; [exact Tb|now apply bytes_string]|rewrite length_app, length_string; lia|].
    rewrite R1, R2, <- app_assoc, EHash in EH'. rewrite EH' in *. clear H' EH'. destruct (ed25519_verify stack H K_S signature =? 0) eqn:Ev.
    2: { cbn [negb] in Erun. injection Erun as <- <-. eauto. }
    rewrite if_false in Erun by reflexivity. rewrite J1 in Erun.
    set (self4 := with_session self3 H encryption_NONE) in Erun. assert (flows h k0 k2 self4) as Hfl4 by (destruct Hfl3 as [[] [] ?]; constructor; [constructor; assumption|constructor; assumption|assumption]).
    assert (Z.to_nat (receivedSize self3) = Z.to_nat (receivedSize self) + length (concat cs2) - length wire2)%nat as Hrec.
    { clearbody wire2 wire3. pose proof (length_pending self3 (fl_ring _ _ _ _ Hfl3)) as P3. pose proof (length_pending self (fl_ring _ _ _ _ Hfl)) as P0.
      apply (f_equal (@List.length Z)) in Hst, Hp3. rewrite !length_app in Hst, Hp3. rewrite ?(length_app wire2), ?(length_app wire3) in Hst. lia. }
    destruct (newKeys_takes k0 k2 self4 H K pad3 cs3 future rest more t3 Hfl4 eq_refl eq_refl Hl Hb Kl Kb HK Ha3) as (self5 & t5 & E5 & N1 & N2 & N3 & N4 & N5 & N6 & N7);
      [exact Hp3|cbn [self4 with_session bufferSize receivedSize]; rewrite J2, Hrec; exact Harr3|].
    unfold newKeys in E5. change (Z.of_nat (length [proto_MSG_NEWKEYS])) with 1 in Erun. rewrite E5 in Erun. injection Erun as <- <-. exists self5, t5. split; [reflexivity|].
    split; [exact N1|]. split; [exact N2|]. split; [exact N3|]. cbn [self4 with_session sendSequenceNumber receiveSequenceNumber bufferSize] in N4, N5, N6. rewrite J3 in N4. rewrite Hq3, G5 in N5. rewrite J2 in N6. auto.
Qed.
Definition serviceAccept : list Z := [proto_MSG_SERVICE_ACCEPT] ++ Rfc.string client_SERVICE_NAME.
Definition serviceRequest : list Z := [proto_MSG_SERVICE_REQUEST] ++ Rfc.string client_SERVICE_NAME.

Lemma on_wire_sealed k n packet : on_wire encryption_CHACHA20POLY1305 k n packet = seal k n packet.
Proof using. reflexivity. Qed.

Lemma serviceRequest_takes k0 k2 self padding cs future rest more t : flows h k0 k2 self -> encryption self = encryption_CHACHA20POLY1305 ->
  acceptable encryption_CHACHA20POLY1305 serviceAccept padding ->
  let data := seal k2 (receiveSequenceNumber self) (binary_packet serviceAccept padding) in
  pending self ++ concat cs ++ future = data ++ rest -> arrives (bufferSize self) (length data) (Z.to_nat (receivedSize self)) cs ->
  exists self' t', client_doServiceRequest stack self
      (World (Answer (Z.of_nat (length (seal k0 (sendSequenceNumber self) (padded serviceRequest)))) [] :: map chunk_answer cs ++ more) t) = (Done (0, self'), World more t') /\
    flows h k0 k2 self' /\ sessionId self' = sessionId self /\ encryption self' = encryption_CHACHA20POLY1305 /\ sendSequenceNumber self' = u32 (sendSequenceNumber self + 1) /\
    receiveSequenceNumber self' = u32 (receiveSequenceNumber self + 1) /\ pending self' ++ future = rest.
Proof using Hstack.
  intros Hfl He Ha data Hst Harr. set (w := World _ t). destruct (client_doServiceRequest stack self w) as [o w'] eqn:Erun. unfold client_doServiceRequest in Erun. cbv zeta in Erun.
  assert ([proto_MSG_SERVICE_REQUEST] ++ name_list client_SERVICE_NAME = serviceRequest) as En by reflexivity. rewrite En in Erun. clear En. unfold w in Erun.
  assert (bytes serviceRequest /\ Z.of_nat (length serviceRequest) < 2 ^ 31) as [Hmb Hml] by (split; [apply bytes_check; reflexivity|reflexivity]). clear w. revert Erun Hmb Hml. generalize serviceRequest as message. intros request Erun Hmb Hml.
  destruct (send_takes stack h k0 k2 self request (map chunk_answer cs ++ more) t ltac:(lia) Hfl Hmb Hml) as (self1 & t1 & E1 & Hfl1 & F1). rewrite He, on_wire_sealed in E1.
  rewrite (bind_done _ _ _ _ _ E1) in Erun. cbv beta iota in Erun. rewrite if_false in Erun by reflexivity.
  assert (encryption self1 = encryption_CHACHA20POLY1305 /\ pending self1 = pending self /\ bufferSize self1 = bufferSize self /\ receivedSize self1 = receivedSize self /\ receiveSequenceNumber self1 = receiveSequenceNumber self /\ sessionId self1 = sessionId self /\ sendSequenceNumber self1 = u32 (sendSequenceNumber self + 1))
    as (G1 & G2 & G3 & G4 & G5 & G6 & G7) by (rewrite F1; cbn; auto 10).
  destruct (wait_message stack h k0 k2 self1 serviceAccept padding cs future rest more t1 ltac:(lia) Hfl1) as (self2 & t2 & message & E2 & Hfl2 & Hss & Hq2 & Hp2 & Hr2);
    [now rewrite G1|rewrite G1, on_wire_sealed, G2, G5; exact Hst|rewrite G1, on_wire_sealed, G3, G4, G5; exact Harr|].
  rewrite (bind_done _ _ _ _ _ E2) in Erun. cbv beta iota in Erun. rewrite if_false in Erun by reflexivity. specialize (Hr2 (World more t2)). change (Z.of_nat (length serviceAccept)) with 17 in Hr2. rewrite (bind_done _ _ _ _ _ Hr2) in Erun. rewrite if_false in Erun by reflexivity. injection Erun as <- <-.
  exists self2, t2. split; [reflexivity|]. split; [exact Hfl2|]. destruct Hss as [S1 _ _]. split; [rewrite S1; exact G6|]. split; [rewrite S1; exact G1|]. split; [rewrite S1; exact G7|]. split; [congruence|exact Hp2].
Qed.
End Takes.

(** ** The server *)

Record server := Server {
  line : list Z; early : list Z; serverCookie : list Z; nameLists : list (list Z); hostKey : list Z; ephemeral : list Z; signature : list Z;
  padding1 : list Z; padding2 : list Z; padding3 : list Z; padding4 : list Z }.

(** How the kernel delivers the stream: what [recvfrom] returns while the client waits for
    each of the four packets. *)
Record delivery := Delivery { chunks1 : list (list Z); chunks2 : list (list Z); chunks3 : list (list Z); chunks4 : list (list Z) }.

Section Server.
Context (s : server) (d : delivery) (cookie secret : list Z).

(** What the two sides compute. *)
Definition I_C : list Z := keyExchangeInit_message cookie.
Definition I_S : list Z := kexinit (serverCookie s) (nameLists s).
Definition Q_C : list Z := Rfc7748.X25519 secret x25519_ecdhBasepoint.
Definition sharedK : list Z := Rfc7748.X25519 secret (ephemeral s).
Definition exchangeH : list Z := Rfc.exchange_hash client_HELLO_IDENTIFICATION (line s) I_C I_S (Rfc.host_key (hostKey s)) Q_C (ephemeral s) sharedK.
Definition clientKeys : keys := Rfc.derive sharedK exchangeH exchangeH 67.
Definition serverKeys : keys := Rfc.derive sharedK exchangeH exchangeH 68.

(** The packets of the server. *)
Definition packet1 : list Z := binary_packet I_S (padding1 s).
Definition packet2 : list Z := binary_packet (kexReply (hostKey s) (ephemeral s) (signature s)) (padding2 s).
Definition packet3 : list Z := binary_packet [proto_MSG_NEWKEYS] (padding3 s).
Definition packet4 : list Z := seal serverKeys 3 (binary_packet serviceAccept (padding4 s)).

(** What the kernel answers: every packet of the client is taken whole. *)
Definition taken_whole (packet : list Z) : answer := Answer (Z.of_nat (length packet)) [].
Definition script (more : list answer) : list answer :=
  Answer 0 [] :: taken_whole identificationLine :: chunk_answer (line s ++ [13; 10] ++ early s) :: Answer 16 cookie :: taken_whole (padded I_C) :: map chunk_answer (chunks1 d) ++
  Answer 32 secret :: taken_whole (padded ([proto_MSG_KEX_ECDH_INIT] ++ Rfc.string Q_C)) :: map chunk_answer (chunks2 d) ++
  taken_whole (padded [proto_MSG_NEWKEYS]) :: map chunk_answer (chunks3 d) ++
  taken_whole (seal clientKeys 3 (padded serviceRequest)) :: map chunk_answer (chunks4 d) ++ more.

(** It speaks the protocol, and the kernel delivers each packet when it is waited for, in
    any pieces that fit into the buffer. *)
Record honest (size : Z) (later : list Z) : Prop := {
  hn_line : identification (line s) /\ ~ In 13 (line s) /\ bytes (early s) /\ Z.of_nat (length (line s)) + 2 + Z.of_nat (length (early s)) <= size;
  hn_random : length cookie = 16%nat /\ bytes cookie /\ length secret = 32%nat /\ bytes secret;
  hn_init : compatible (serverCookie s) (nameLists s);
  hn_keys : length (hostKey s) = 32%nat /\ length (ephemeral s) = 32%nat /\ bytes (ephemeral s) /\ length (signature s) = 64%nat;
  hn_packets : acceptable encryption_NONE I_S (padding1 s) /\ acceptable encryption_NONE (kexReply (hostKey s) (ephemeral s) (signature s)) (padding2 s) /\
    acceptable encryption_NONE [proto_MSG_NEWKEYS] (padding3 s) /\ acceptable encryption_CHACHA20POLY1305 serviceAccept (padding4 s);
  hn_stream : early s ++ concat (chunks1 d) ++ concat (chunks2 d) ++ concat (chunks3 d) ++ concat (chunks4 d) = packet1 ++ packet2 ++ packet3 ++ packet4 ++ later;
  hn_arrives1 : arrives size (length packet1) (length (early s)) (chunks1 d);
  hn_arrives2 : arrives size (length packet2) (length (early s ++ concat (chunks1 d)) - length packet1) (chunks2 d);
  hn_arrives3 : arrives size (length packet3) (length (early s ++ concat (chunks1 d) ++ concat (chunks2 d)) - length (packet1 ++ packet2)) (chunks3 d);
  hn_arrives4 : arrives size (length packet4) (length (early s ++ concat (chunks1 d) ++ concat (chunks2 d) ++ concat (chunks3 d)) - length (packet1 ++ packet2 ++ packet3)) (chunks4 d) }.
End Server.

Lemma packet4_sealed s cookie secret : packet4 s cookie secret = seal (serverKeys s cookie secret) 3 (binary_packet serviceAccept (padding4 s)).
Proof. reflexivity. Qed.

(** ** The connection *)

Lemma kexInit_takes stack h k0 k2 self V cookie rest t : length stack = 128%nat -> flows h k0 k2 self -> encryption self = encryption_NONE -> hashed (partialExchangeHash self) V ->
  bytes cookie -> length cookie = 16%nat ->
  exists self' t', client_sendKeyExchangeInit stack self (World (Answer 16 cookie :: taken_whole (padded (I_C cookie)) :: rest) t) = (Done (0, self'), World rest t') /\
    flows h k0 k2 self' /\ encryption self' = encryption_NONE /\ sendSequenceNumber self' = u32 (sendSequenceNumber self + 1) /\ receiveSequenceNumber self' = receiveSequenceNumber self /\
    bufferSize self' = bufferSize self /\ receivedSize self' = receivedSize self /\ pending self' = pending self /\ hashed (tempHash self') (V ++ Rfc.string (I_C cookie)).
Proof.
  intros Hs Hfl He Hv Cb Cl. destruct (kexinit_message cookie Cb Cl) as [Mb Ml]. fold (I_C cookie) in Mb, Ml. set (w := World _ t). destruct (client_sendKeyExchangeInit stack self w) as [o w'] eqn:Erun.
  unfold client_sendKeyExchangeInit in Erun. cbv zeta in Erun. fold (I_C cookie) in Erun. unfold getrandom, w in Erun. rewrite bind_assoc, repeat_length in Erun.
  rewrite (bind_done _ _ _ _ _ (syscall_in_answer _ 16 16 cookie _ _ ltac:(lia) Cb ltac:(lia))), bind_pure in Erun. cbv beta iota in Erun. rewrite if_false in Erun by (apply Z.ltb_ge; lia).
  assert (mem_copy (repeat 0 16) 0 cookie = cookie) as Ecopy by (rewrite mem_copy_eq by (rewrite repeat_length; lia); rewrite firstn_O, skipn_all2 by (rewrite repeat_length; lia); apply app_nil_r). rewrite Ecopy in Erun. fold (I_C cookie) in Erun. clear Ecopy w. revert Erun Mb Ml. generalize (I_C cookie) as message. intros message Erun Mb Ml.
  set (temp := sha256_update _ message) in Erun. assert (hashed temp (V ++ Rfc.string message)) as Ht by (unfold temp, Rfc.string; rewrite size_bytes_be by lia; rewrite app_assoc; apply hashed_update, hashed_update, Hv). clearbody temp.
  set (self1 := with_hashes self (partialExchangeHash self) temp) in *.
  assert (flows h k0 k2 self1) as Hfl1 by (destruct Hfl as [[] [] ?]; constructor; [constructor; try assumption; exact (hashed_buffer _ _ Ht)|constructor; assumption|assumption]).
  match type of Erun with context [World (?a :: ?r) ?t0] => destruct (send_takes stack h k0 k2 self1 message r t0 ltac:(lia) Hfl1 Mb ltac:(lia)) as (self2 & t2 & E2 & Hfl2 & F2) end.
  assert (forall k n p, on_wire encryption_NONE k n p = p) as Enone by reflexivity. change (encryption self1) with (encryption self) in E2. rewrite He, Enone in E2. unfold taken_whole in Erun. rewrite (bind_done _ _ _ _ _ E2) in Erun.
  cbv beta iota in Erun. rewrite if_false in Erun by reflexivity. injection Erun as <- <-. exists self2, t2. split; [reflexivity|]. split; [exact Hfl2|]. rewrite F2. cbn. auto 10.
Qed.

(** How much of the stream is buffered once a packet has been taken. *)
Lemma remaining_after {A} (p x y d r : list A) n : p ++ x ++ y = d ++ r -> n ++ y = r -> (length n = length p + length x - length d)%nat.
Proof. intros H1 H2. apply (f_equal (@List.length A)) in H1. apply (f_equal (@List.length A)) in H2. rewrite ?length_app in H1. rewrite ?length_app in H2. lia. Qed.

Lemma stream_lengths {A} (a c1 x p d1 y : list A) : a ++ c1 ++ x = d1 ++ y -> p ++ x = y -> (length p + length d1 = length a + length c1)%nat.
Proof. intros H1 H2. apply (f_equal (@List.length A)) in H1. apply (f_equal (@List.length A)) in H2. rewrite ?length_app in H1. rewrite ?length_app in H2. lia. Qed.

Section Completes.
Context (stack : list Z) (Hstack : length stack = 128%nat) (Hbytes : bytes stack) (self : client) (h : list Z) (k0 k2 : keys) (Hready : ready h k0 k2 self)
  (Hsize : client_MAX_PACKET_SIZE <= bufferSize self) (Hsize4 : bufferSize self mod 4 = 0)
  (s : server) (d : delivery) (cookie secret later : list Z) (Hs : honest s d cookie secret (bufferSize self) later).

(** The hash and the shared secret, as the client computes them. *)
Lemma client_computes : x25519 secret x25519_ecdhBasepoint = Q_C secret /\ x25519 secret (ephemeral s) = sharedK s secret /\
  fips_sha256 ((Rfc.string client_HELLO_IDENTIFICATION ++ Rfc.string (line s) ++ Rfc.string (I_C cookie)) ++ Rfc.string (I_S s) ++ Rfc.string (Rfc.host_key (hostKey s)) ++ Rfc.string (Q_C secret) ++
    Rfc.string (ephemeral s) ++ Rfc.mpint (sharedK s secret)) = exchangeH s cookie secret.
Proof using Hs.
  destruct (hn_random _ _ _ _ _ _ Hs) as (_ & _ & Sl & Sb). destruct (hn_keys _ _ _ _ _ _ Hs) as (_ & Ql & Qb & _).
  assert (length x25519_ecdhBasepoint = 32%nat /\ bytes x25519_ecdhBasepoint) as [Bl Bb] by (split; [reflexivity|apply bytes_check; reflexivity]).
  split; [exact (x25519_spec secret x25519_ecdhBasepoint Sl Sb Bl Bb)|]. split; [exact (x25519_spec secret (ephemeral s) Sl Sb Ql Qb)|]. unfold exchangeH, Rfc.exchange_hash. now rewrite <- !app_assoc.
Qed.

(** Up to the server's KEXINIT. *)
Lemma opening_takes sockaddr more t : exists self3 t3 message,
  let answers3 := Answer 32 secret :: taken_whole (padded ([proto_MSG_KEX_ECDH_INIT] ++ Rfc.string (Q_C secret))) :: map chunk_answer (chunks2 d) ++
    taken_whole (padded [proto_MSG_NEWKEYS]) :: map chunk_answer (chunks3 d) ++ taken_whole (seal (clientKeys s cookie secret) 3 (padded serviceRequest)) :: map chunk_answer (chunks4 d) ++ more in
  client_connect stack self sockaddr (World (script s d cookie secret more) t)
  = (let! (status, self) := client_doKeyExchange stack self3 message (Z.of_nat (length (I_S s))) in
     if status <? 0 then
       debug_printNum (str "Key exchange failed") status;;
       pure (-5, self)
     else
       let! (status, self) := client_doServiceRequest stack self in
       if status <? 0 then pure (-6, self) else pure (0, self)) (World answers3 t3) /\
  flows h k0 k2 self3 /\ encryption self3 = encryption_NONE /\ sendSequenceNumber self3 = 1 /\ receiveSequenceNumber self3 = 1 /\ bufferSize self3 = bufferSize self /\
  hashed (tempHash self3) (Rfc.string client_HELLO_IDENTIFICATION ++ Rfc.string (line s) ++ Rfc.string (I_C cookie)) /\ reads self3 message (I_S s) /\
  pending self3 ++ concat (chunks2 d) ++ concat (chunks3 d) ++ concat (chunks4 d) = packet2 s ++ packet3 s ++ packet4 s cookie secret ++ later /\
  length (pending self3) = (length (early s ++ concat (chunks1 d)) - length (packet1 s))%nat.
Proof using Hstack Hready Hsize Hsize4 Hs.
  pose proof (hn_line _ _ _ _ _ _ Hs) as (Hline & Hcr & Eb & Hfit). pose proof (hn_random _ _ _ _ _ _ Hs) as (Cl & Cb & _ & _). pose proof (hn_packets _ _ _ _ _ _ Hs) as (Ha1 & _).
  pose proof (hn_stream _ _ _ _ _ _ Hs) as Hst. pose proof (hn_arrives1 _ _ _ _ _ _ Hs) as Harr1. set (w := World _ t). destruct (client_connect stack self sockaddr w) as [o w'] eqn:Erun.
  unfold client_connect in Erun. cbv zeta in Erun. set (self0 := with_session _ _ encryption_NONE) in Erun. unfold w, script in Erun. clear w.
  assert (flows h k0 k2 self0) as Hfl0.
  { pose proof (rd_buffered _ _ _ _ Hready) as [Bl Bb]. unfold client_MAX_PACKET_SIZE in Hsize. constructor; [destruct Hready; constructor; assumption| |reflexivity].
    constructor; cbn [self0 with_session with_sequence with_received ring bufferSize bufferPos receivedSize]; try assumption; try reflexivity; unfold client_MAX_PACKET_SIZE; lia. }
  rewrite (bind_done _ _ _ _ _ (syscall_answer _ _ _ _ _)) in Erun. rewrite if_false in Erun by reflexivity. unfold taken_whole in Erun at 1.
  match type of Erun with context [World (?a :: ?b :: ?r) ?t0] => destruct (hello_takes h k0 k2 self0 (line s) (early s) r t0 Hfl0 eq_refl eq_refl Hline Hcr Eb Hfit) as (self1 & t1 & E1 & Hfl1 & X1 & X2 & X3 & X4 & X5 & X6) end.
  rewrite (bind_done _ _ _ _ _ E1) in Erun. cbv beta iota in Erun. rewrite if_false in Erun by reflexivity.
  match type of Erun with context [World (?a :: ?b :: ?r) ?t0] => destruct (kexInit_takes stack h k0 k2 self1 _ cookie r t0 Hstack Hfl1 X1 X6 Cb Cl) as (self2 & t2 & E2 & Hfl2 & Y1 & Y2 & Y3 & Y4 & Y5 & Y6 & Y7) end.
  rewrite (bind_done _ _ _ _ _ E2) in Erun. cbv beta iota in Erun. rewrite if_false in Erun by reflexivity.
  assert (receivedSize self1 = Z.of_nat (length (early s))) as Hrec1 by (rewrite <- X5; symmetry; apply length_pending, Hfl1).
  match type of Erun with context [World (map chunk_answer (chunks1 d) ++ ?r) ?t0] =>
    destruct (wait_message stack h k0 k2 self2 (I_S s) (padding1 s) (chunks1 d) (concat (chunks2 d) ++ concat (chunks3 d) ++ concat (chunks4 d)) (packet2 s ++ packet3 s ++ packet4 s cookie secret ++ later) r t0 ltac:(lia) Hfl2)
      as (self3 & t3 & message & E3 & Hfl3 & Hss & Hq & Hp & Hr) end;
    [now rewrite Y1|rewrite Y1, Y6, X5; exact Hst|rewrite Y1, Y4, Y5, X4, Hrec1, Nat2Z.id; exact Harr1|].
  rewrite (bind_done _ _ _ _ _ E3) in Erun. cbv beta iota in Erun. assert (0 < Z.of_nat (length (I_S s))) as Hpos by (unfold I_S, kexinit; rewrite length_app; cbn [List.length]; lia).
  rewrite if_false in Erun by (apply Z.leb_gt; exact Hpos). exists self3, t3, message. cbv zeta. split; [symmetry; exact Erun|]. destruct Hss as [S1 _ _]. split; [exact Hfl3|].
  split; [rewrite S1; exact Y1|]. split; [rewrite S1; cbn [sendSequenceNumber]; rewrite Y2, X2; reflexivity|]. split; [rewrite Hq, Y3, X3; reflexivity|]. split; [rewrite S1; cbn [bufferSize]; rewrite Y4, X4; reflexivity|].
  split; [rewrite S1; cbn [tempHash]; rewrite <- app_assoc in Y7; exact Y7|]. split; [exact Hr|]. split; [exact Hp|]. rewrite (length_app (early s)). exact (remaining_after _ _ _ _ _ _ Hst Hp).
Qed.
Lemma connect_takes sockaddr more t : let w := World (script s d cookie secret more) t in
  (Rfc.strip (sharedK s secret) = [] -> fst (client_connect stack self sockaddr w) = Undefined) /\
  (Rfc.strip (sharedK s secret) <> [] ->
   if ed25519_verify stack (exchangeH s cookie secret) (hostKey s) (signature s) =? 0 then
     exists self' t', client_connect stack self sockaddr w = (Done (0, self'), World more t') /\
       sessionId self' = exchangeH s cookie secret /\ encryption self' = encryption_CHACHA20POLY1305 /\ sendSequenceNumber self' = 4 /\ receiveSequenceNumber self' = 4 /\
       keyed self' 0 (clientKeys s cookie secret) /\ keyed self' 2 (serverKeys s cookie secret) /\ pending self' = later
   else exists self' w', client_connect stack self sockaddr w = (Done (-5, self'), w')).
Proof using Hstack Hbytes Hready Hsize Hsize4 Hs.
  intros w. destruct (opening_takes sockaddr more t) as (self3 & t3 & message & Erun & Hfl3 & Z1 & Z2 & Z3 & Z4 & Z5 & Z6 & Z7 & Z8). fold w in Erun. cbv zeta in Erun. clearbody w.
  pose proof (hn_line _ _ _ _ _ _ Hs) as ((Lb & _ & Ll) & _). pose proof (hn_random _ _ _ _ _ _ Hs) as (Cl & Cb & Sl & Sb). pose proof (hn_keys _ _ _ _ _ _ Hs) as (Kl & Ql & _ & Gl). pose proof (hn_packets _ _ _ _ _ _ Hs) as (_ & Ha2 & Ha3 & Ha4).
  destruct client_computes as (EQ & EK & EHash). destruct (kexinit_message cookie Cb Cl) as [Mb Ml]. fold (I_C cookie) in Mb, Ml.
  set (T := Rfc.string client_HELLO_IDENTIFICATION ++ Rfc.string (line s) ++ Rfc.string (I_C cookie)) in *. assert (bytes T) as Tb by (unfold T; rewrite !bytes_app; repeat split; apply bytes_string; auto; apply bytes_check; reflexivity).
  assert (length T <= 1000)%nat as Tl by (unfold T; rewrite !length_app, !length_string, Ml; change (length client_HELLO_IDENTIFICATION) with 10%nat; lia).
  pose proof (length_pending self3 (fl_ring _ _ _ _ Hfl3)) as P3. pose proof (hn_stream _ _ _ _ _ _ Hs) as Hst. pose proof (stream_lengths _ _ _ _ _ _ Hst Z7) as L3.
  destruct (keyExchange_takes stack Hstack Hbytes h k0 k2 self3 T message (serverCookie s) (nameLists s) secret (hostKey s) (ephemeral s) (signature s) (padding2 s) (padding3 s) (chunks2 d) (chunks3 d)
    (concat (chunks4 d)) (packet4 s cookie secret ++ later) (taken_whole (seal (clientKeys s cookie secret) 3 (padded serviceRequest)) :: map chunk_answer (chunks4 d) ++ more) t3
    (I_S s) (Q_C secret) (sharedK s secret) (exchangeH s cookie secret) Hfl3 Z1 Z5 Tb ltac:(lia) (hn_init _ _ _ _ _ _ Hs) Z6 Sl Sb Kl Ql Gl eq_refl EQ EK EHash Ha2 Ha3 Z7) as [Hzero Hrest].
  { rewrite Z4, <- P3, Nat2Z.id, Z8. exact (hn_arrives2 _ _ _ _ _ _ Hs). }
  { rewrite Z4, <- P3, Nat2Z.id. replace (length (pending self3) + length (concat (chunks2 d)) - _)%nat with (length (early s ++ concat (chunks1 d) ++ concat (chunks2 d)) - length (packet1 s ++ packet2 s))%nat
      by (unfold packet2 in *; rewrite !length_app; lia). exact (hn_arrives3 _ _ _ _ _ _ Hs). }
  unfold taken_whole in *. split; intros HK.
  - specialize (Hzero HK). rewrite Erun. unfold bind at 1. destruct (client_doKeyExchange _ _ _ _ _) as [o3 w4]. cbn [fst] in Hzero. subst o3. reflexivity.
  - specialize (Hrest HK). destruct (ed25519_verify _ _ _ _ =? 0).
    2: { destruct Hrest as (self4 & w4 & E4). rewrite (bind_done _ _ _ _ _ E4) in Erun. cbv beta iota in Erun. rewrite if_true in Erun by reflexivity.
      destruct (print_done (str "Key exchange failed") (-16) w4) as [w5 E5]. rewrite (bind_done _ _ _ _ _ E5) in Erun. rewrite Erun. eexists _, _. reflexivity. }
    destruct Hrest as (self4 & t4 & E4 & Hfl4 & N1 & N2 & N3 & N4 & N5 & N6). clear Hzero. rewrite (bind_done _ _ _ _ _ E4) in Erun. cbv beta iota in Erun. rewrite if_false in Erun by reflexivity.
    pose proof (length_pending self4 (fl_ring _ _ _ _ Hfl4)) as P4. pose proof (stream_lengths (pending self3) (concat (chunks2 d) ++ concat (chunks3 d)) (concat (chunks4 d)) (pending self4) (packet2 s ++ packet3 s) _ ltac:(rewrite <- !app_assoc; exact Z7) N6) as L4.
    rewrite Z2 in N3. rewrite Z3 in N4. change (u32 (u32 (1 + 1) + 1)) with 3 in N3, N4. fold (clientKeys s cookie secret) (serverKeys s cookie secret) in Hfl4.
    destruct (serviceRequest_takes stack Hstack h (clientKeys s cookie secret) (serverKeys s cookie secret) self4 (padding4 s) (chunks4 d) [] later more t4 Hfl4 N2 Ha4) as (self5 & t5 & E5 & Hfl5 & M1 & M2 & M3 & M4 & M5).
    { rewrite N4, app_nil_r. rewrite <- packet4_sealed. exact N6. }
    { rewrite N4, <- packet4_sealed, N5, Z4, <- P4, Nat2Z.id. replace (length (pending self4)) with (length (early s ++ concat (chunks1 d) ++ concat (chunks2 d) ++ concat (chunks3 d)) - length (packet1 s ++ packet2 s ++ packet3 s))%nat
        by (rewrite ?length_app in *; lia). exact (hn_arrives4 _ _ _ _ _ _ Hs). }
    rewrite N3 in E5. rewrite (bind_done _ _ _ _ _ E5) in Erun. cbv beta iota in Erun. rewrite if_false in Erun by reflexivity.
    exists self5, t5. split; [exact Erun|]. split; [congruence|]. split; [exact M2|]. split; [rewrite M3, N3; reflexivity|]. split; [rewrite M4, N4; reflexivity|].
    split; [exact (rd_keys0 _ _ _ _ (fl_ready _ _ _ _ Hfl5))|]. split; [exact (rd_keys2 _ _ _ _ (fl_ready _ _ _ _ Hfl5))|]. rewrite app_nil_r in M5. exact M5.
Qed.
End Completes.


(** A server with the client's own lists, each packet in one piece. *)
Definition demo_server : server :=
  Server (str "SSH-2.0-x") [] (repeat 1 16)
    [client_KEX_LIST; client_HOST_KEY_ED25519; client_CIPHER_CHACHA20POLY1305; client_CIPHER_CHACHA20POLY1305; []; []; str "none"; str "none"; []; []]
    (repeat 2 32) (9 :: repeat 0 31) (repeat 3 64) (repeat 0 6) (repeat 0 8) (repeat 0 6) (repeat 0 6).
Definition demo_delivery : delivery :=
  Delivery [packet1 demo_server] [packet2 demo_server] [packet3 demo_server] [packet4 demo_server (repeat 5 16) (repeat 7 32)].

Lemma arrives_whole size packet n : n = 0%nat -> packet <> [] -> bytes packet -> Z.of_nat (length packet) <= size -> arrives size (length packet) n [packet].
Proof.
  intros -> Hne Hb Hs. constructor; [destruct packet; [congruence|cbn; lia]|exact Hne|exact Hb|exact Hs|]. constructor. lia.
Qed.

(** Each packet in one piece. *)
Lemma delivered_whole p1 p2 p3 p4 size : bytes p1 /\ bytes p2 /\ bytes p3 /\ bytes p4 ->
  0 < Z.of_nat (length p1) <= size -> 0 < Z.of_nat (length p2) <= size -> 0 < Z.of_nat (length p3) <= size -> 0 < Z.of_nat (length p4) <= size ->
  [] ++ concat [p1] ++ concat [p2] ++ concat [p3] ++ concat [p4] = p1 ++ p2 ++ p3 ++ p4 ++ [] /\
  arrives size (length p1) (length (A := Z) []) [p1] /\ arrives size (length p2) (length ([] ++ concat [p1]) - length p1) [p2] /\
  arrives size (length p3) (length ([] ++ concat [p1] ++ concat [p2]) - length (p1 ++ p2)) [p3] /\
  arrives size (length p4) (length ([] ++ concat [p1] ++ concat [p2] ++ concat [p3]) - length (p1 ++ p2 ++ p3)) [p4].
Proof.
  intros (B1 & B2 & B3 & B4) L1 L2 L3 L4. assert (forall p : list Z, 0 < Z.of_nat (length p) -> p <> []) as Hne by (intros p Hp ->; cbn in Hp; lia).
  cbn [concat app]. rewrite !app_nil_r. split; [reflexivity|]. repeat split; apply arrives_whole; try assumption; try (apply Hne); try lia; reflexivity.
Qed.

(** Closed packets are checked by evaluation. *)
Lemma acceptable_check e payload padding :
  (0 <? length payload)%nat && forallb (fun b => (0 <=? b) && (b <? 256)) payload && forallb (fun b => (0 <=? b) && (b <? 256)) padding && (length padding <? 256)%nat &&
  ((5 + length payload + length padding) mod 4 =? 0)%nat && (5 + Z.of_nat (length payload) + Z.of_nat (length padding) + client_macSize e <=? client_MAX_PACKET_SIZE) = true -> acceptable e payload padding.
Proof.
  intros H. repeat (apply andb_prop in H as [H ?]). constructor; [intros ->; discriminate|now apply bytes_check|now apply bytes_check|now apply Nat.ltb_lt|now apply Nat.eqb_eq|now apply Z.leb_le].
Qed.

Lemma demo_packet4 : bytes (packet4 demo_server (repeat 5 16) (repeat 7 32)) /\ length (packet4 demo_server (repeat 5 16) (repeat 7 32)) = 44%nat.
Proof.
  rewrite packet4_sealed. assert (bytes (binary_packet serviceAccept (padding4 demo_server))) as Hb by (apply bytes_check; reflexivity).
  pose proof (bytes_on_wire encryption_CHACHA20POLY1305 (serverKeys demo_server (repeat 5 16) (repeat 7 32)) 3 _ Hb) as H1.
  pose proof (length_on_wire encryption_CHACHA20POLY1305 (serverKeys demo_server (repeat 5 16) (repeat 7 32)) 3 (binary_packet serviceAccept (padding4 demo_server)) ltac:(cbn; lia)) as H2.
  rewrite on_wire_sealed in H1, H2. split; [exact H1|exact H2].
Qed.

Lemma demo_honest size : client_MAX_PACKET_SIZE <= size -> honest demo_server demo_delivery (repeat 5 16) (repeat 7 32) size [].
Proof.
  intros Hs. unfold client_MAX_PACKET_SIZE in Hs. destruct demo_packet4 as [B4 L4].
  assert (bytes (packet1 demo_server) /\ bytes (packet2 demo_server) /\ bytes (packet3 demo_server)) as (B1 & B2 & B3) by (repeat split; apply bytes_check; vm_compute; reflexivity).
  assert (length (packet1 demo_server) = 196 /\ length (packet2 demo_server) = 192 /\ length (packet3 demo_server) = 12)%nat as (L1 & L2 & L3) by (vm_compute; auto).
  destruct (delivered_whole (packet1 demo_server) (packet2 demo_server) (packet3 demo_server) (packet4 demo_server (repeat 5 16) (repeat 7 32)) size) as (St & A1 & A2 & A3 & A4); [repeat split; assumption|lia..|].
  constructor; [| | | | |exact St|exact A1|exact A2|exact A3|exact A4].
  - split; [split; [apply bytes_check; reflexivity|split; [reflexivity|cbn; lia]]|]. split; [cbn; intuition discriminate|]. split; [constructor|cbn; lia].
  - repeat split; apply bytes_repeat; unfold is_byte; lia.
  - constructor; [reflexivity|split; [apply bytes_repeat; unfold is_byte; lia|repeat constructor; unfold is_byte; lia]| |vm_compute; reflexivity].
    exists client_KEX_LIST, client_HOST_KEY_ED25519, client_CIPHER_CHACHA20POLY1305, client_CIPHER_CHACHA20POLY1305, [[]; []; str "none"; str "none"; []; []].
    split; [reflexivity|]. split; [reflexivity|]. split; [left; exists [], (str "," ++ client_KEX_CURVE25519_LIBSSH); split; [reflexivity|now left]|].
    repeat split; (exists [], []; split; [reflexivity|now left]).
  - repeat split; apply bytes_check; reflexivity.
  - split; [|split; [|split]]; apply acceptable_check; vm_compute; reflexivity.
Qed.

