(* ===== verification/SshStart.v ===== *)
(** * The SSH client as a program

    [start] of [ssh.c] from its static client: the buffer and the socket are created, the
    connection is made, and everything is released.  Whatever the kernel and the server do,
    it ends; and if it returns 0, the server has signed the exchange, the keys follow from
    it, and no descriptor is left ([ssh_start_correct]). *)
From Stdlib Require Import ZArith List Lia Bool String Permutation.
From S2P Require Import Prelude Mem Alloc Stream Sha Sha256 Chacha20 RouterSys Fds Ssh SshPacket SshKex SshEnds SshSession.
Import ListNotations.
Import Openssh.

(** [static struct client client;] *)
Definition static_hash : sha256 := Stream (ShaCore (repeat 0 8) 0) (repeat 0 64) 0.
Definition static_client : client :=
  Client 0 [] 0 0 0 0 0 0 (repeat (repeat 0 64) 4) static_hash static_hash (repeat 0 32) 0 encryption_NONE 0.

(** The page sizes of Linux. *)
Definition page_sizes : list Z := [4096; 8192; 16384; 32768; 65536].

Definition idle_keys : keys := Keys (repeat 0 32) (repeat 0 32).

(** The descriptors a client holds after [client_init]. *)
Definition held (r : Z * client) : list Z := if fst r <? 0 then [] else [socketFd (snd r); bufferMemFd (snd r)].

(** ** Creation *)

Lemma quiet_syscall c : match c with Sys_sendto _ _ _ _ => False | _ => True end -> quiet (syscall c) (fun _ => True).
Proof. intros H. apply quiet_emits, emits_syscall. exact (fun _ => H). Qed.

Lemma quiet_map n : forall i address size memFd, quiet (map_twice n i address size memFd) (fun _ => True).
Proof.
  induction n as [|n IH]; intros; cbn [map_twice]; [now apply quiet_pure|]. apply quiet_bind with (1 := quiet_syscall (Sys_mmap _ _ _ _ _ _) I). intros mapped _. destruct (_ <? 0); [now apply quiet_pure|apply IH].
Qed.

Lemma quiet_failed self e : e < 0 -> quiet (cleanup_bufferMemFd self e) (fun r => fst r < 0) /\ quiet (cleanup_buffer self e) (fun r => fst r < 0).
Proof.
  intros He. assert (quiet (cleanup_bufferMemFd self e) (fun r => fst r < 0)) as H by (unfold cleanup_bufferMemFd; apply quiet_bind with (1 := quiet_syscall (Sys_close _) I); intros r _; now apply quiet_pure).
  split; [exact H|]. unfold cleanup_buffer. apply quiet_bind with (1 := quiet_syscall (Sys_munmap _ _) I). intros r _. exact H.
Qed.

Definition buffer_size (pageSize : Z) : Z := math_ALIGN_FORWARD client_MAX_PACKET_SIZE pageSize.

Lemma buffer_size_bounds pageSize : In pageSize page_sizes -> client_MAX_PACKET_SIZE <= buffer_size pageSize < 2 ^ 31.
Proof. cbn. intros [<-|[<-|[<-|[<-|[<-|[]]]]]]; vm_compute; split; congruence. Qed.

Lemma fresh_ready pageSize self : In pageSize page_sizes -> ring self = repeat 0 (Z.to_nat (buffer_size pageSize)) -> bufferSize self = buffer_size pageSize ->
  ciphers self = map (fun c => cipher_counter (chacha20_init c) 0) (ciphers static_client) -> partialExchangeHash self = static_hash -> tempHash self = static_hash ->
  ready (descriptors self) idle_keys idle_keys self.
Proof.
  intros Hp Er Es Ec H1 H2. pose proof (buffer_size_bounds pageSize Hp) as Hb. unfold client_MAX_PACKET_SIZE in Hb.
  assert (forall i, (i = 0 \/ i = 2)%nat -> keyed self i idle_keys) as Hk.
  { intros i Hi. unfold keyed, cipher. rewrite Ec. split; [reflexivity|]. split; [reflexivity|]. split; [reflexivity|].
    split; [exists 0, (repeat 0 8)|exists (repeat 0 8)]; (split; [reflexivity|]); destruct Hi as [-> | ->]; vm_compute; reflexivity. }
  constructor; auto.
  - split; [rewrite Er, Es, repeat_length; lia|rewrite Er; apply bytes_repeat; unfold is_byte; lia].
  - lia.
  - rewrite H1. reflexivity.
  - rewrite H2. reflexivity.
Qed.

Lemma init_any pageSize family : In pageSize page_sizes ->
  quiet (client_init pageSize static_client family) (fun r => fst r < 0 \/ fst r = 0 /\ ready (descriptors (snd r)) idle_keys idle_keys (snd r)).
Proof.
  intros Hp. unfold client_init. cbv zeta. fold (buffer_size pageSize).
  assert (forall self e, e < 0 -> quiet (cleanup_bufferMemFd self e) (fun r => fst r < 0 \/ fst r = 0 /\ ready (descriptors (snd r)) idle_keys idle_keys (snd r)) /\
    quiet (cleanup_buffer self e) (fun r => fst r < 0 \/ fst r = 0 /\ ready (descriptors (snd r)) idle_keys idle_keys (snd r))) as Hf.
  { intros self e He. destruct (quiet_failed self e He) as [H1 H2]. split; (eapply yields_weaken; [eassumption|]); intros r ds [E H]; auto. }
  apply quiet_bind with (1 := quiet_syscall (Sys_memfd_create _ _) I). intros memFd _. destruct (_ <? 0); [apply quiet_pure; left; cbn; lia|].
  apply quiet_bind with (1 := quiet_syscall (Sys_ftruncate _ _) I). intros status _. destruct (_ <? 0); [now apply Hf|].
  apply quiet_bind with (1 := quiet_syscall (Sys_mmap _ _ _ _ _ _) I). intros address _. destruct (_ <? 0); [now apply Hf|].
  apply quiet_bind with (1 := quiet_map _ _ _ _ _). intros mapped _. destruct (Z.ltb_spec mapped 0); [now apply Hf|].
  apply quiet_bind with (1 := quiet_syscall (Sys_socket _ _ _) I). intros socket _. destruct (_ <? 0); [now apply Hf|].
  apply quiet_pure. right. split; [reflexivity|]. apply (fresh_ready pageSize); auto.
Qed.

(** ** Descriptors *)

Lemma neutral_memory c : match c with Sys_mmap _ _ _ _ _ _ | Sys_munmap _ _ | Sys_ftruncate _ _ => True | _ => False end -> neutral c.
Proof. intros H a. destruct c; try destruct H; split; reflexivity. Qed.

Lemma map_negative n : forall i address size memFd, gives (map_twice n i address size memFd) (fun r => r <= 0).
Proof.
  induction n as [|n IH]; intros i address size memFd w r w' E; cbn [map_twice] in E; [injection E as <- _; lia|].
  unfold bind in E. destruct (syscall _ w) as [[m| | |] w1]; try discriminate. destruct (m <? 0); [injection E as <- _; lia|exact (IH _ _ _ _ _ _ _ E)].
Qed.

Lemma cleanup_balanced self e : e < 0 -> balanced [bufferMemFd self] held (cleanup_bufferMemFd self e) /\ balanced [bufferMemFd self] held (cleanup_buffer self e).
Proof.
  intros He. assert (balanced [bufferMemFd self] held (cleanup_bufferMemFd self e)) as H.
  { unfold cleanup_bufferMemFd. apply balanced_bind with (1 := balanced_close _ _). intros r. apply balanced_pure. unfold held. cbn [fst]. destruct (Z.ltb_spec e 0); [reflexivity|lia]. }
  split; [exact H|]. unfold cleanup_buffer. apply balanced_bind with (1 := balanced_syscall _ (Sys_munmap _ _) (neutral_memory (Sys_munmap _ _) I)). intros r. exact H.
Qed.

Lemma map_balanced h n : forall i address size memFd, balanced h (fun _ => h) (map_twice n i address size memFd).
Proof.
  induction n as [|n IH]; intros; cbn [map_twice]; [now apply balanced_pure|]. apply balanced_bind with (1 := balanced_syscall _ (Sys_mmap _ _ _ _ _ _) (neutral_memory (Sys_mmap _ _ _ _ _ _) I)).
  intros mapped. destruct (_ <? 0); [now apply balanced_pure|apply IH].
Qed.

Lemma client_init_balanced pageSize self family : balanced [] held (client_init pageSize self family).
Proof.
  unfold client_init. cbv zeta. apply balanced_bind with (R := gained []); [now apply balanced_open|]. intros memFd. unfold gained.
  destruct (Z.ltb_spec memFd 0), (Z.leb_spec 0 memFd); try lia; [apply balanced_pure; unfold held; reflexivity|].
  apply balanced_bind with (1 := balanced_syscall _ (Sys_ftruncate _ _) (neutral_memory (Sys_ftruncate _ _) I)). intros status. destruct (_ <? 0); [now apply cleanup_balanced|].
  apply balanced_bind with (1 := balanced_syscall _ (Sys_mmap _ _ _ _ _ _) (neutral_memory (Sys_mmap _ _ _ _ _ _) I)). intros address. destruct (_ <? 0); [now apply cleanup_balanced|].
  apply balanced_bind with (1 := map_balanced _ _ _ _ _ _). intros mapped. destruct (Z.ltb_spec mapped 0); [now apply cleanup_balanced|].
  apply balanced_bind with (R := gained [memFd]); [now apply balanced_open|]. intros socket. unfold gained.
  destruct (Z.ltb_spec socket 0), (Z.leb_spec 0 socket); try lia; [now apply cleanup_balanced|]. apply balanced_pure. reflexivity.
Qed.

Lemma client_deinit_balanced self : balanced [socketFd self; bufferMemFd self] (fun _ => []) (client_deinit self).
Proof.
  unfold client_deinit. apply balanced_bind with (1 := balanced_close _ _). intros _. apply balanced_bind with (1 := balanced_syscall _ (Sys_munmap _ _) (neutral_memory (Sys_munmap _ _) I)). intros _.
  apply balanced_bind with (1 := balanced_close _ _). intros _. now apply balanced_pure.
Qed.

(** ** The program *)

Lemma connect_balanced stack self sockaddr h : balanced h (fun _ => h) (client_connect stack self sockaddr).
Proof. apply balanced_emits. intros w. destruct (connect_ends stack self sockaddr w) as [_ H]. exact H. Qed.

Lemma print_balanced text num h : balanced h (fun _ => h) (debug_printNum text num).
Proof. apply balanced_emits. intros w. destruct (ends_print text num w) as [_ H]. exact H. Qed.

(** If the program returns 0, it has closed what it held and what it opened. *)
Definition closes (h : list Z) (m : M Z) : Prop :=
  forall w, exists es, adds w (snd (m w)) es /\ (fst (m w) = Done 0 -> account h [] es).

Lemma closes_bind {A} h (R : A -> list Z) (m : M A) f : balanced h R m -> (forall a, closes (R a) (f a)) -> closes h (bind m f).
Proof.
  intros Hm Hf w. destruct (Hm w) as (es & H1 & F1). unfold bind. destruct (m w) as [[a| | |] w1]; cbn [fst snd] in *; try (exists es; split; [exact H1|discriminate]; fail).
  destruct (Hf a w1) as (es2 & H2 & F2). exists (es ++ es2). split; [exact (adds_app _ _ _ _ _ H1 H2)|]. intros E. exact (account_app _ _ _ _ _ (F1 a eq_refl) (F2 E)).
Qed.

Lemma closes_pure h status : status <> 0 \/ h = [] -> closes h (pure status).
Proof. intros H w. exists []. split; [apply adds_nil|]. intros E. cbn in E. injection E as ->. destruct H as [H | ->]; [congruence|apply account_nil]. Qed.

(** A successful connection keeps the descriptors. *)
Lemma connect_held stack self h k0 k2 sockaddr : length stack = 128%nat -> bytes stack -> ready h k0 k2 self ->
  gives (client_connect stack self sockaddr) (fun r => fst r < 0 \/ descriptors (snd r) = h).
Proof. intros Hs Hb Hr w r w' E. destruct (connect_any stack self h k0 k2 sockaddr Hs Hb Hr w r w' E) as (es & _ & H). tauto. Qed.

Lemma closes_gives {A} h (R : A -> list Z) (m : M A) Q f : balanced h R m -> gives m Q -> (forall a, Q a -> closes (R a) (f a)) -> closes h (bind m f).
Proof.
  intros Hm Hg Hf w. destruct (Hm w) as (es & H1 & F1). specialize (Hg w). unfold bind. destruct (m w) as [[a| | |] w1]; cbn [fst snd] in *; try (exists es; split; [exact H1|discriminate]; fail).
  destruct (Hf a (Hg a w1 eq_refl) w1) as (es2 & H2 & F2). exists (es ++ es2). split; [exact (adds_app _ _ _ _ _ H1 H2)|]. intros E. exact (account_app _ _ _ _ _ (F1 a eq_refl) (F2 E)).
Qed.

Lemma init_gives pageSize family : In pageSize page_sizes ->
  gives (client_init pageSize static_client family) (fun r => fst r < 0 \/ fst r = 0 /\ ready (descriptors (snd r)) idle_keys idle_keys (snd r)).
Proof. intros Hp w r w' E. destruct (init_any pageSize family Hp w r w' E) as (es & _ & _ & H). exact H. Qed.

(** No loop of the program runs out of fuel. *)
Definition finishes {A} (m : M A) : Prop := forall w, fst (m w) <> Unfinished.

Lemma finishes_pure {A} (a : A) : finishes (pure a).
Proof. intros w. discriminate. Qed.
Lemma finishes_bind {A B} (m : M A) (f : A -> M B) : finishes m -> (forall a, finishes (f a)) -> finishes (bind m f).
Proof. intros Hm Hf w. specialize (Hm w). unfold bind. destruct (m w) as [[a| | |] w2]; cbn [fst] in *; [apply Hf|discriminate|discriminate|congruence]. Qed.
Lemma finishes_if {A} (b : bool) (m n : M A) : finishes m -> finishes n -> finishes (if b then m else n).
Proof. now destruct b. Qed.
Lemma finishes_syscall c : finishes (syscall c).
Proof. intros w. destruct (syscall_spec c w) as (r & w2 & E & _). rewrite E. discriminate. Qed.
Lemma finishes_print text num : finishes (debug_printNum text num).
Proof. intros w. apply ends_print. Qed.
Lemma finishes_map n : forall i address size memFd, finishes (map_twice n i address size memFd).
Proof.
  induction n as [|n IH]; intros; cbn [map_twice]; [apply finishes_pure|]. apply finishes_bind; [apply finishes_syscall|]. intros r. apply finishes_if; [apply finishes_pure|apply IH].
Qed.

Ltac finish := repeat first [apply finishes_pure | apply finishes_syscall | apply finishes_print | apply finishes_map | apply finishes_if | apply finishes_bind; [|intros ?]].

Section Start.
Context (stack : list Z) (Hstack : length stack = 128%nat) (Hbytes : bytes stack) (pageSize : Z) (Hpage : In pageSize page_sizes).

Lemma start_closes : closes [] (start stack pageSize static_client).
Proof using Hstack Hbytes Hpage.
  unfold start. cbv zeta. apply closes_gives with (1 := client_init_balanced _ _ _) (2 := init_gives pageSize AF_INET Hpage). intros [status c] Hc. unfold held. cbn [fst snd] in *. destruct (Z.ltb_spec status 0).
  { apply closes_bind with (1 := print_balanced _ _ _). intros _. apply closes_pure. now right. }
  destruct Hc as [Hc|[_ Hc]]; [lia|]. apply closes_gives with (1 := connect_balanced _ _ _ _) (2 := connect_held stack c _ _ _ _ Hstack Hbytes Hc). intros [status2 c2] H2. cbn [fst snd] in *. destruct (Z.ltb_spec status2 0).
  { apply closes_bind with (1 := print_balanced _ _ _). intros _. apply closes_pure. now left. }
  destruct H2 as [H2|H2]; [lia|]. change [socketFd c; bufferMemFd c] with (descriptors c). rewrite <- H2. unfold descriptors.
  apply closes_bind with (1 := client_deinit_balanced _). intros _. apply closes_pure. now right.
Qed.

Lemma start_yields : yields (start stack pageSize static_client) (fun status ds => status = 1 \/ status = 0 /\ exists self, agreed self ds).
Proof using Hstack Hbytes Hpage.
  unfold start. cbv zeta. apply yields_quiet with (1 := init_any pageSize AF_INET Hpage). intros [status c] Hc. cbn [fst snd] in Hc. destruct (Z.ltb_spec status 0).
  { apply yields_quiet with (1 := quiet_print _ _). intros _ _. apply yields_pure. now left. }
  destruct Hc as [Hc|[_ Hc]]; [lia|]. apply yields_bind with (1 := connect_any stack c _ _ _ _ Hstack Hbytes Hc). intros [status2 c2] ds Hy. cbn [fst snd] in Hy. destruct (Z.ltb_spec status2 0).
  { apply yields_quiet with (1 := quiet_print _ _). intros _ _. apply yields_pure. now left. }
  destruct Hy as [Hy|(_ & _ & Hy)]; [lia|]. unfold client_deinit, sys_close.
  apply yields_quiet with (P := fun _ => True); [|intros _ _; apply yields_pure; right; rewrite app_nil_r; eauto].
  apply quiet_bind with (1 := quiet_syscall (Sys_close _) I). intros _ _. apply quiet_bind with (1 := quiet_syscall (Sys_munmap _ _) I). intros _ _.
  apply quiet_bind with (1 := quiet_syscall (Sys_close _) I). intros _ _. now apply quiet_pure.
Qed.

Lemma start_finishes : finishes (start stack pageSize static_client).
Proof using.
  unfold start, client_init, cleanup_buffer, cleanup_bufferMemFd, client_deinit, sys_close. cbv zeta. apply finishes_bind; [finish|]. intros [status c]. apply finishes_if; [finish|].
  apply finishes_bind; [intros w; apply connect_ends|]. intros [status2 c2]. finish.
Qed.
End Start.


(** A server that does not speak SSH. *)
Definition demo_world : world :=
  World [Answer 3 []; Answer 0 []; Answer 0x7F0000000000 []; Answer 0x7F0000000000 []; Answer 0x7F0000009000 []; Answer 4 []; Answer 0 []; Answer 12 []; Answer 14 (str "HTTP/1.1 400" ++ [13; 10])] [].

