(* ===== verification/Init.v ===== *)
(** * The first process ([src/router/init/init.c])

    The kernel starts it: it mounts the file systems, starts the shell and the router, reports
    every process that ends, and powers the machine off when the router has ended with
    status 0; in every other case the machine is halted.  The system calls are those of
    [RouterSys.v].

    One process is modelled at a time.  Where [clone3] answers 0 this is the child, and the
    trace goes on with what the child does; [exit_group], after which nothing follows, ends
    in [Fatal].  [execveat] replaces the program when it succeeds: what comes after it in a
    trace is what happens when it fails. *)
From Stdlib Require Import ZArith List Lia Bool String.
From S2P Require Import Prelude Util Io RouterSys Config.
Import ListNotations.

Definition CLONE_VM : Z := 0x100.
Definition CLONE_VFORK : Z := 0x4000.
Definition P_ALL : Z := 0.
Definition WEXITED : Z := 4.
Definition WALL : Z := 0x40000000.
Definition CLD_EXITED : Z := 1.
Definition LINUX_REBOOT_MAGIC1 : Z := 0xfee1dead.
Definition LINUX_REBOOT_MAGIC2 : Z := 672274793.
Definition LINUX_REBOOT_CMD_HALT : Z := 0xCDEF0123.
Definition LINUX_REBOOT_CMD_POWER_OFF : Z := 0x4321FEDC.

(** ** Preparation *)

(** The file systems and the two settings of the memory management: 0, or which step
    failed. *)
Definition initialise : M Z :=
  let! r := syscall (Sys_mount [] (str "/proc") (str "proc") 0 []) in
  if r <? 0 then pure (-1)
  else
    let! fd := syscall (Sys_openat (-1) (str "/proc/sys/vm/overcommit_memory") O_WRONLY 0) in
    if fd <? 0 then pure (-2)
    else
      let! status := writeAll fd (str "2") in
      let! r := sys_close fd in
      if negb (r =? 0) then pure (-3)
      else if status <? 0 then pure (-4)
      else
        let! fd := syscall (Sys_openat (-1) (str "/proc/sys/vm/panic_on_oom") O_WRONLY 0) in
        if fd <? 0 then pure (-5)
        else
          let! status := writeAll fd (str "2") in
          let! r := sys_close fd in
          if negb (r =? 0) then pure (-6)
          else if status <? 0 then pure (-7)
          else
            let! r := syscall (Sys_mount [] (str "/sys") (str "sysfs") 0 []) in
            if r <? 0 then pure (-8)
            else
              let! r := syscall (Sys_mount [] (str "/dev") (str "devtmpfs") 0 []) in
              if r <? 0 then pure (-9)
              else
                let! r := syscall (Sys_mount [] (str "/devpts") (str "devpts") 0 (str "ptmxmode=0600")) in
                if r <? 0 then pure (-10) else pure 0.

(** ** Children *)

Definition newEnvp : list (list Z) := [str "HOME=/"; str "TERM=linux"].

Definition run (program : list Z) : M Z :=
  syscall (Sys_execveat program [program] newEnvp);;
  syscall (Sys_exit_group 1);;
  fatal.

(** The pid, or a negative error; the child calls [childfunc] and does not return. *)
Definition sys_clone3_func (flags : Z) (childfunc : list Z -> M Z) (childarg : list Z) : M Z :=
  let! r := syscall (Sys_clone3 flags) in
  if r =? 0 then childfunc childarg else pure r.

(** What [waitid] stores: [struct siginfo], [struct rusage] behind it, and their members. *)
Definition siginfo_SIZE : nat := 128.
Definition rusage_SIZE : nat := 144.
Definition si_code (o : list Z) : Z := i32 (uint_at 4 o 8).
Definition si_pid (o : list Z) : Z := i32 (uint_at 4 o 16).
Definition si_status (o : list Z) : Z := i32 (uint_at 4 o 24).
Definition ru_maxrss (o : list Z) : Z := i64 (uint_at 8 o (128 + 32)).

(** The sizes of the texts around the numbers, and of the numbers. *)
Definition print_SIZE : nat := 4 + 11 + 16 + 11 + 9 + 20 + 2.

Definition prepend_int (b : list Z * nat) (n : Z) : list Z * nat := util_intToStr (fst b) (snd b) n.

(** What is printed about a child, in a buffer that holds [print]. *)
Definition exit_line (print o : list Z) : list Z :=
  let b := prepend (print, print_SIZE) (str ")" ++ [10]) in
  let b := prepend_int b (ru_maxrss o) in
  let b := prepend b (str ", maxRss=") in
  let b := prepend_int b (si_status o) in
  let b := if si_code o =? CLD_EXITED then prepend b (str " exited (status=") else prepend b (str " killed (signal=") in
  let b := prepend_int b (si_pid o) in
  let b := prepend b (str "Pid ") in
  text_of b.

Definition router_exited (routerPid : Z) (o : list Z) : bool :=
  (si_pid o =? routerPid) && (si_code o =? CLD_EXITED) && (si_status o =? 0).

Section Stack.
(** What the uninitialised objects of each turn of the loop hold: [info] and [rusage], and
    [print]. *)
Context (objects prints : nat -> list Z).

Definition wait_call : call := Sys_waitid P_ALL 0 (WEXITED .| WALL).

(** The loop; the command for [sys_reboot]. *)
Fixpoint wait_loop (fuel : nat) (routerPid : Z) : M Z :=
  match fuel with
  | O => unfinished
  | S fuel =>
      let o := mem_copy (mem_copy (mem_copy (objects fuel) 24 (repeat 0 4)) 8 (repeat 0 4)) (siginfo_SIZE + 32) (repeat 0 8) in
      let! (status, stored) := syscall_out wait_call (siginfo_SIZE + rusage_SIZE) in
      let o := mem_copy o 0 stored in
      if status <? 0 then pure LINUX_REBOOT_CMD_HALT
      else
        let! written := writeAll util_STDERR (exit_line (prints fuel) o) in
        if written <? 0 then pure LINUX_REBOOT_CMD_HALT
        else if router_exited routerPid o then pure LINUX_REBOOT_CMD_POWER_OFF
        else wait_loop fuel routerPid
  end.

Definition halt (rebootCmd : Z) : M Z :=
  syscall Sys_sync;;
  syscall (Sys_reboot LINUX_REBOOT_MAGIC1 LINUX_REBOOT_MAGIC2 rebootCmd);;
  pure 0.

(** Every turn of the loop uses up an answer. *)
Definition start : M Z :=
  let! status := initialise in
  if status <? 0 then
    debug_printNum (str "Failed to initialise") status;;
    halt LINUX_REBOOT_CMD_HALT
  else
    let! shellPid := sys_clone3_func (CLONE_VM .| CLONE_VFORK) run (str "/shell") in
    if shellPid <? 0 then halt LINUX_REBOOT_CMD_HALT
    else
      let! routerPid := sys_clone3_func (CLONE_VM .| CLONE_VFORK) run (str "/router") in
      if routerPid <? 0 then halt LINUX_REBOOT_CMD_HALT
      else
        let! rebootCmd := fun w => wait_loop (S (length (answers w))) routerPid w in
        halt rebootCmd.
End Stack.

(** ** What it does *)

Definition is_write (fd : Z) (e : event) : Prop := exists data, fst e = Sys_write fd data.

(** What the kernel took of the writes. *)
Definition taken (es : list event) : list Z :=
  flat_map (fun e => match fst e with Sys_write _ data => firstn (Z.to_nat (ret (snd e))) data | _ => [] end) es.

(** A file was opened, its text written, and closed. *)
Definition wrote (path text : list Z) (es : list event) : Prop :=
  exists fd ws, es = (Sys_openat (-1) path O_WRONLY 0, Answer fd []) :: ws ++ [(Sys_close fd, Answer 0 [])] /\
    0 <= fd /\ Forall (is_write fd) ws /\ taken ws = text.

Definition mounted (target fs data : list Z) (es : list event) : Prop :=
  exists r, es = [(Sys_mount [] target fs 0 data, Answer r [])] /\ 0 <= r.

Definition prepared (es : list event) : Prop :=
  exists e1 e2 e3 e4 e5 e6, es = e1 ++ e2 ++ e3 ++ e4 ++ e5 ++ e6 /\
    mounted (str "/proc") (str "proc") [] e1 /\ wrote (str "/proc/sys/vm/overcommit_memory") (str "2") e2 /\
    wrote (str "/proc/sys/vm/panic_on_oom") (str "2") e3 /\ mounted (str "/sys") (str "sysfs") [] e4 /\
    mounted (str "/dev") (str "devtmpfs") [] e5 /\ mounted (str "/devpts") (str "devpts") (str "ptmxmode=0600") e6.

(** Some call of the preparation failed, and nothing else was called. *)
Definition preparing (c : call) : Prop :=
  match c with Sys_mount _ _ _ _ _ | Sys_openat _ _ _ _ | Sys_write _ _ | Sys_close _ => True | _ => False end.
Definition failure (e : event) : Prop := match fst e with Sys_close _ => ret (snd e) <> 0 | _ => ret (snd e) < 0 end.
Definition unprepared (es : list event) : Prop := Forall (fun e => preparing (fst e)) es /\ Exists failure es.

(** The text of a number, as [util_strToInt] reads it. *)
Definition number (n : Z) (text : list Z) : Prop :=
  forall rest, util_strToInt (text ++ rest) (Z.of_nat (length text)) = (Z.of_nat (length text), Some n).

Definition exit_text (o text : list Z) : Prop :=
  exists pid status maxRss, number (si_pid o) pid /\ number (si_status o) status /\ number (ru_maxrss o) maxRss /\
    text = str "Pid " ++ pid ++ str (if si_code o =? CLD_EXITED then " exited (status=" else " killed (signal=") ++ status
           ++ str ", maxRss=" ++ maxRss ++ str ")" ++ [10].

(** A child has ended, as [o] says, and this has been printed. *)
Definition turn (o : list Z) (es : list event) : Prop :=
  exists a ws, es = (wait_call, a) :: ws /\ 0 <= ret a /\ length o = 272%nat /\ firstn (length (out a)) o = out a /\
    Forall (is_write util_STDERR) ws /\ exit_text o (taken ws).

(** Waiting, or printing, has failed. *)
Definition interrupted (es : list event) : Prop :=
  exists a, es = [(wait_call, a)] /\ ret a < 0 \/
    exists ws data b, es = (wait_call, a) :: ws ++ [(Sys_write util_STDERR data, b)] /\ 0 <= ret a /\ Forall (is_write util_STDERR) ws /\ ret b < 0.

(** The router has ended, and with status 0. *)
Definition router_done (routerPid : Z) (o : list Z) : Prop := si_pid o = routerPid /\ si_code o = CLD_EXITED /\ si_status o = 0.

Definition supervised (routerPid cmd : Z) (es : list event) : Prop :=
  exists os turns last, es = concat turns ++ last /\ Forall2 turn os turns /\ Forall (fun o => ~ router_done routerPid o) os /\
    (cmd = LINUX_REBOOT_CMD_POWER_OFF /\ (exists o, turn o last /\ router_done routerPid o) \/
     cmd = LINUX_REBOOT_CMD_HALT /\ interrupted last).

(** ** Computations that return *)

(** It returns, with calls and a result as [Q] says. *)
Definition does {A} (m : M A) (Q : A -> list event -> Prop) : Prop :=
  forall w, exists a w' es, m w = (Done a, w') /\ adds w w' es /\ (length (answers w') <= length (answers w))%nat /\ Q a es.

Lemma does_pure {A} (a : A) Q : Q a [] -> does (pure a) Q.
Proof. intros H w. exists a, w, []. repeat split; auto using adds_nil. Qed.

Lemma does_bind {A B} (m : M A) (f : A -> M B) R Q : does m R -> (forall a es, R a es -> does (f a) (fun b es' => Q b (es ++ es'))) -> does (bind m f) Q.
Proof.
  intros Hm Hf w. destruct (Hm w) as (a & w1 & es1 & E1 & H1 & L1 & Ha). destruct (Hf a es1 Ha w1) as (b & w2 & es2 & E2 & H2 & L2 & Hb).
  exists b, w2, (es1 ++ es2). rewrite (bind_done _ _ _ _ _ E1). split; [exact E2|]. split; [exact (adds_app _ _ _ _ _ H1 H2)|]. split; [lia|exact Hb].
Qed.

Lemma does_syscall c Q : (forall r, Q r [(c, Answer r [])]) -> does (syscall c) Q.
Proof.
  intros H w. unfold syscall, kernel, bind, pure. destruct (answers w) as [|a rest]; do 3 eexists; (split; [reflexivity|]); (split; [reflexivity|]); cbn [answers List.length ret]; (split; [lia|apply H]).
Qed.

(** A call and what follows. *)
Lemma does_call {B} c (f : Z -> M B) Q : (forall r, does (f r) (fun b es => Q b ((c, Answer r []) :: es))) -> does (bind (syscall c) f) Q.
Proof. intros H. apply does_bind with (R := fun r es => es = [(c, Answer r [])]); [now apply does_syscall|]. intros r es ->. exact (H r). Qed.

Lemma does_weaken {A} (m : M A) (R Q : A -> list event -> Prop) : does m R -> (forall a es, R a es -> Q a es) -> does m Q.
Proof. intros Hm H w. destruct (Hm w) as (a & w' & es & ? & ? & ? & ?). exists a, w', es. auto. Qed.

Definition printed_all (fd : Z) (data : list Z) (r : Z) (es : list event) : Prop :=
  r = 0 /\ Forall (is_write fd) es /\ taken es = data \/
  r < 0 /\ exists ws d b, es = ws ++ [(Sys_write fd d, b)] /\ Forall (is_write fd) ws /\ ret b < 0.

Lemma printed_all_cons fd b data d a r es : printed_all fd (skipn (Z.to_nat (ret a)) (b :: data)) r es -> d = b :: data ->
  printed_all fd d r ((Sys_write fd d, a) :: es).
Proof.
  intros [(-> & H1 & H2)|(Hr & ws & d' & b' & -> & H1 & H2)] ->; [left|right].
  - split; [reflexivity|]. split; [constructor; [now eexists|exact H1]|]. cbn [taken flat_map fst snd]. fold (taken es). rewrite H2. apply firstn_skipn.
  - split; [exact Hr|]. exists ((Sys_write fd (b :: data), a) :: ws), d', b'. split; [reflexivity|]. split; [constructor; [now eexists|exact H1]|exact H2].
Qed.

Lemma util_writeAll_takes fd : forall fuel data w, (length (answers w) < fuel)%nat ->
  exists r w' es, util_writeAll fuel w fd data = (w', Some r) /\ adds w w' es /\ (length (answers w') <= length (answers w))%nat /\ printed_all fd data r es.
Proof.
  induction fuel as [|fuel IH]; intros data w Hf; [lia|]. cbn [util_writeAll]. destruct data as [|b data].
  { exists 0, w, []. split; [reflexivity|]. split; [apply adds_nil|]. split; [lia|]. left. repeat constructor. }
  cbn [List.length Nat.ltb Nat.leb]. unfold Io.sys_write, router_file_ops. destruct w as [as_ t]. unfold syscall, kernel, bind, pure. cbn [answers trace] in *.
  destruct as_ as [|a rest]; cbn [ret answers trace].
  { change (- EIO <? 0) with true. change (ix_ERRNO (- EIO) =? EINTR) with false. cbv iota. do 3 eexists. split; [reflexivity|]. split; [reflexivity|]. split; [cbn; lia|].
    right. split; [lia|]. exists []. do 2 eexists. split; [reflexivity|]. split; [constructor|cbn; unfold EIO; lia]. }
  cbn [List.length] in Hf. set (w1 := World rest (t ++ [(Sys_write fd (b :: data), Answer (ret a) [])])).
  assert (adds (World (a :: rest) t) w1 [(Sys_write fd (b :: data), Answer (ret a) [])]) as H0 by reflexivity.
  assert (forall r w' es, adds w1 w' es -> (length (answers w') <= length rest)%nat -> printed_all fd (skipn (Z.to_nat (ret a)) (b :: data)) r es ->
    exists es', adds (World (a :: rest) t) w' es' /\ (length (answers w') <= S (length rest))%nat /\ printed_all fd (b :: data) r es') as Hcat.
  { intros r w' es H1 L1 P1. eexists. split; [exact (adds_app _ _ _ _ _ H0 H1)|]. split; [lia|]. eapply printed_all_cons; [|reflexivity]. exact P1. }
  destruct (Z.ltb_spec (ret a) 0) as [Hn|Hn]; [destruct (ix_ERRNO (ret a) =? EINTR)|].
  - destruct (IH (b :: data) w1 ltac:(cbn; lia)) as (r & w' & es & E & H1 & L1 & P1). destruct (Hcat r w' es H1 L1) as (es' & ? & ? & ?); [|exists r, w', es'; auto].
    replace (Z.to_nat (ret a)) with 0%nat by lia. exact P1.
  - exists (-1), w1, [(Sys_write fd (b :: data), Answer (ret a) [])]. split; [reflexivity|]. split; [exact H0|]. split; [cbn; lia|]. right. split; [lia|].
    exists [], (b :: data), (Answer (ret a) []). auto.
  - destruct (IH (skipn (Z.to_nat (ret a)) (b :: data)) w1 ltac:(cbn; lia)) as (r & w' & es & E & H1 & L1 & P1). destruct (Hcat r w' es H1 L1 P1) as (es' & ? & ? & ?). exists r, w', es'. auto.
Qed.

Lemma writeAll_does fd data : does (writeAll fd data) (printed_all fd data).
Proof.
  intros w. unfold writeAll. destruct (util_writeAll_takes fd (S (S (length (answers w)) + length data)) data w ltac:(lia)) as (r & w' & es & E & H).
  rewrite E. exists r, w', es. auto.
Qed.

(** ** What is printed *)

Lemma swrap_bound w x : 0 < w -> - 2 ^ (w - 1) <= swrap w x < 2 ^ (w - 1).
Proof.
  intros Hw. unfold swrap. pose proof (Z.mod_pos_bound (x + 2 ^ (w - 1)) (2 ^ w) ltac:(lia)).
  assert (2 ^ w = 2 * 2 ^ (w - 1)) by (rewrite <- Z.pow_succ_r by lia; f_equal; lia). lia.
Qed.

(** A buffer of [n] bytes that ends with [text] and has at least [room] bytes before it. *)
Definition tails (n room : nat) (b : list Z * nat) (text : list Z) : Prop :=
  text_of b = text /\ (room <= snd b <= n)%nat /\ length (fst b) = n.

Lemma tails_prepend n room b text t : tails n (length t + room) b text -> tails n room (prepend b t) (t ++ text).
Proof.
  intros (<- & Hr & Hl). destruct (text_prepend b t) as (H1 & H2 & H3); [lia..|]. split; [exact H1|]. lia.
Qed.

Lemma tails_int k n room b text x : (0 < k < 20)%nat -> Z.abs x < 10 ^ Z.of_nat k -> - 2 ^ 63 <= x < 2 ^ 63 -> tails n (S k + room) b text ->
  exists t, number x t /\ tails n room (prepend_int b x) (t ++ text).
Proof.
  intros Hk Hx Hx' (<- & Hr & Hl). destruct (util_intToStr_digits k (fst b) (snd b) x) as (t & [P1 P2] & Ht & Hn); [lia|exact Hx|exact Hx'|destruct (x <? 0); lia|].
  exists t. split; [exact Hn|]. assert (length t <= S k)%nat by (destruct (x <? 0); lia). unfold prepend_int, tails, text_of. rewrite P2.
  rewrite skipn_exact by (rewrite length_firstn; lia). split; [reflexivity|]. rewrite !length_app, length_firstn, length_skipn. lia.
Qed.

(** The line is what was promised, and it fits. *)
Lemma exit_line_text print o : length print = print_SIZE -> exit_text o (exit_line print o).
Proof.
  intros Hp. pose proof (swrap_bound 32 (uint_at 4 o 16) ltac:(lia)) as B1. pose proof (swrap_bound 32 (uint_at 4 o 24) ltac:(lia)) as B2.
  pose proof (swrap_bound 64 (uint_at 8 o (128 + 32)) ltac:(lia)) as B3. fold (si_pid o) in B1. fold (si_status o) in B2. fold (ru_maxrss o) in B3.
  assert (tails print_SIZE print_SIZE (print, print_SIZE) []) as H0 by (split; [unfold text_of; cbn [fst snd]; rewrite <- Hp; apply skipn_all|cbn [fst snd]; lia]).
  apply (tails_prepend print_SIZE 71 _ _ (str ")" ++ [10])) in H0. apply (tails_int 19 _ 51 _ _ (ru_maxrss o)) in H0 as (t3 & N3 & H0); [|lia..].
  apply (tails_prepend _ 42 _ _ (str ", maxRss=")) in H0. apply (tails_int 10 _ 31 _ _ (si_status o)) in H0 as (t2 & N2 & H0); [|lia..].
  unfold exit_line. cbv zeta. revert H0. generalize (prepend_int (prepend (prepend_int (prepend (print, print_SIZE) (str ")" ++ [10])) (ru_maxrss o)) (str ", maxRss=")) (si_status o)) as b. intros b H0.
  assert (tails print_SIZE 15 (if si_code o =? CLD_EXITED then prepend b (str " exited (status=") else prepend b (str " killed (signal="))
    (str (if si_code o =? CLD_EXITED then " exited (status=" else " killed (signal=") ++ t2 ++ str ", maxRss=" ++ t3 ++ (str ")" ++ [10]) ++ [])) as H1.
  { destruct (si_code o =? CLD_EXITED); now apply tails_prepend. }
  apply (tails_int 10 _ 4 _ _ (si_pid o)) in H1 as (t1 & N1 & H1); [|lia..]. apply (tails_prepend _ 0 _ _ (str "Pid ")) in H1 as (H1 & _).
  exists t1, t2, t3. rewrite H1, app_nil_r. auto.
Qed.

(** ** Preparation *)

Definition fails (Q : Z -> list event -> Prop) : Prop := forall r es, r < 0 -> unprepared es -> Q r es.

Lemma fails_after Q es : fails Q -> Forall (fun e => preparing (fst e)) es -> fails (fun r es' => Q r (es ++ es')).
Proof. intros HQ He r es' Hr [H1 H2]. apply HQ; [exact Hr|]. split; [now apply Forall_app|now apply Exists_app; right]. Qed.

Lemma mount_then Q target fs data error f : error < 0 -> fails Q ->
  (forall es, mounted target fs data es -> fails (fun r es' => Q r (es ++ es')) -> does f (fun r es' => Q r (es ++ es'))) ->
  does (let! r := syscall (Sys_mount [] target fs 0 data) in if r <? 0 then pure error else f) Q.
Proof.
  intros He HQ Hf. apply does_call. intros r. destruct (Z.ltb_spec r 0) as [Hr|Hr].
  - apply does_pure, HQ; [exact He|]. repeat constructor. exact Hr.
  - apply (Hf [(Sys_mount [] target fs 0 data, Answer r [])]); [now exists r|]. apply fails_after; [exact HQ|repeat constructor].
Qed.

Lemma preparing_writes fd ws : Forall (is_write fd) ws -> Forall (fun e => preparing (fst e)) ws.
Proof. apply Forall_impl. intros e [d ->]. exact I. Qed.

Lemma write_then Q path text e1 e2 e3 f : e1 < 0 -> e2 < 0 -> e3 < 0 -> fails Q ->
  (forall es, wrote path text es -> fails (fun r es' => Q r (es ++ es')) -> does f (fun r es' => Q r (es ++ es'))) ->
  does (let! fd := syscall (Sys_openat (-1) path O_WRONLY 0) in
        if fd <? 0 then pure e1
        else
          let! status := writeAll fd text in
          let! r := sys_close fd in
          if negb (r =? 0) then pure e2 else if status <? 0 then pure e3 else f) Q.
Proof.
  intros H1 H2 H3 HQ Hf. apply does_call. intros fd. destruct (Z.ltb_spec fd 0) as [Hfd|Hfd].
  { apply does_pure, HQ; [exact H1|]. repeat constructor. exact Hfd. }
  eapply does_bind; [apply writeAll_does|]. intros status ws Hw. apply does_call. intros r.
  assert (Forall (fun e => preparing (fst e)) ws) as Hp.
  { destruct Hw as [(_ & Hw & _)|(_ & ws' & d & b & -> & Hw & _)]; [now apply preparing_writes in Hw|]. apply Forall_app. split; [now apply preparing_writes in Hw|repeat constructor]. }
  set (o := (Sys_openat (-1) path O_WRONLY 0, Answer fd [])). set (c := (Sys_close fd, Answer r [])).
  assert (Forall (fun e => preparing (fst e)) (o :: ws ++ [c])) as Hall by (constructor; [exact I|apply Forall_app; split; [exact Hp|repeat constructor]]).
  destruct (Z.eqb_spec r 0) as [->|Hr]; cbn [negb].
  - destruct Hw as [(-> & Hw & Ht)|(Hs & ws' & d & b & -> & Hw & Hb)].
    + change (0 <? 0) with false. cbv iota. eapply does_weaken; [apply (Hf (o :: ws ++ [c])); [exists fd, ws; auto|now apply fails_after]|].
      intros a es. cbn beta. now rewrite app_comm_cons, <- app_assoc.
    + rewrite (proj2 (Z.ltb_lt _ _) Hs). apply does_pure, HQ; [exact H3|]. split; [exact Hall|].
      apply Exists_cons_tl, Exists_app. left. apply Exists_app. right. now constructor.
  - apply does_pure, HQ; [exact H2|]. split; [exact Hall|]. apply Exists_cons_tl, Exists_app. right. now constructor.
Qed.

Lemma initialise_does : does initialise (fun r es => r = 0 /\ prepared es \/ r < 0 /\ unprepared es).
Proof.
  unfold initialise. apply mount_then; [lia|right; auto|]. intros es1 M1 F1. apply write_then; [lia..|exact F1|]. intros es2 M2 F2.
  apply write_then; [lia..|exact F2|]. intros es3 M3 F3. apply mount_then; [lia|exact F3|]. intros es4 M4 F4.
  apply mount_then; [lia|exact F4|]. intros es5 M5 F5. apply mount_then; [lia|exact F5|]. intros es6 M6 F6.
  apply does_pure. left. split; [reflexivity|]. exists es1, es2, es3, es4, es5, es6. rewrite app_nil_r. auto 10.
Qed.

(** ** Supervision *)

Section Supervision.
Context (objects prints : nat -> list Z).
Hypothesis objects_length : forall n, length (objects n) = 272%nat.
Hypothesis prints_length : forall n, length (prints n) = print_SIZE.

(** A member is set to zero. *)
Lemma zeroed (o : list Z) i n k : (i + k <=? n)%nat = true -> length o = n -> length (mem_copy o i (repeat 0 k)) = n.
Proof. intros H%Nat.leb_le <-. apply length_mem_copy. now rewrite repeat_length. Qed.

Lemma router_exited_spec routerPid o : reflect (router_done routerPid o) (router_exited routerPid o).
Proof.
  unfold router_exited, router_done. destruct (Z.eqb_spec (si_pid o) routerPid), (Z.eqb_spec (si_code o) CLD_EXITED), (Z.eqb_spec (si_status o) 0); constructor; intuition.
Qed.

Lemma wait_loop_takes routerPid : forall fuel w, (length (answers w) < fuel)%nat ->
  exists cmd w' es, wait_loop objects prints fuel routerPid w = (Done cmd, w') /\ adds w w' es /\ supervised routerPid cmd es.
Proof using objects_length prints_length.
  induction fuel as [|fuel IH]; intros w Hf; [lia|]. cbn [wait_loop].
  set (o0 := mem_copy (mem_copy _ _ _) (siginfo_SIZE + 32) (repeat 0 8)). assert (length o0 = 272%nat) as Ho0.
  { unfold o0. do 3 (apply zeroed; [reflexivity|]). apply objects_length. }
  clearbody o0.
  assert (exists a w1, syscall_out wait_call (siginfo_SIZE + rusage_SIZE) w = (Done (ret a, out a), w1) /\ adds w w1 [(wait_call, a)] /\ (length (out a) <= 272)%nat /\
    (length (answers w1) <= pred (length (answers w)))%nat /\ (0 <= ret a -> S (length (answers w1)) = length (answers w))) as (a & w1 & E1 & A1 & L1 & N1 & P1).
  { unfold syscall_out, kernel, bind, pure. destruct (answers w) as [|x rest]; do 2 eexists; (split; [reflexivity|]); (split; [reflexivity|]); cbn [ret out answers List.length]; (split; [apply length_stored|]); (split; [cbn; lia|]); [cbn [ret]; unfold EIO; lia|reflexivity]. }
  rewrite (bind_done _ _ _ _ _ E1). destruct (Z.ltb_spec (ret a) 0) as [Ha|Ha].
  { exists LINUX_REBOOT_CMD_HALT, w1, [(wait_call, a)]. split; [reflexivity|]. split; [exact A1|]. exists [], [], [(wait_call, a)]. split; [reflexivity|]. split; [constructor|]. split; [constructor|].
    right. split; [reflexivity|]. exists a. now left. }
  specialize (P1 Ha). set (o := mem_copy o0 0 (out a)). assert (length o = 272%nat) as Ho by (unfold o; rewrite length_mem_copy; lia).
  assert (firstn (length (out a)) o = out a) as Hf0 by (unfold o; rewrite <- (Nat.add_0_l (length (out a))), firstn_mem_copy by lia; reflexivity). clearbody o.
  destruct (writeAll_does util_STDERR (exit_line (prints fuel) o) w1) as (written & w2 & ws & E2 & A2 & L2 & Hw). rewrite (bind_done _ _ _ _ _ E2).
  pose proof (adds_app _ _ _ _ _ A1 A2) as A12. cbn [app] in A12.
  destruct Hw as [(-> & Hw & Ht)|(Hn & ws' & d & b & -> & Hw & Hb)].
  - change (0 <? 0) with false. cbv iota. assert (turn o ((wait_call, a) :: ws)) as Hturn.
    { exists a, ws. split; [reflexivity|]. do 4 (split; [assumption|]). rewrite Ht. now apply exit_line_text. }
    destruct (router_exited_spec routerPid o) as [Er|Er].
    + exists LINUX_REBOOT_CMD_POWER_OFF, w2, ((wait_call, a) :: ws). split; [reflexivity|]. split; [exact A12|]. exists [], [], ((wait_call, a) :: ws).
      split; [reflexivity|]. split; [constructor|]. split; [constructor|]. left. split; [reflexivity|]. now exists o.
    + destruct (IH w2 ltac:(lia)) as (cmd & w' & es & E & A & os & turns & last & -> & H1 & H2 & H3). exists cmd, w', (((wait_call, a) :: ws) ++ concat turns ++ last).
      split; [exact E|]. split; [exact (adds_app _ _ _ _ _ A12 A)|]. exists (o :: os), (((wait_call, a) :: ws) :: turns), last.
      split; [cbn [concat]; now rewrite <- app_assoc|]. split; [now constructor|]. split; [now constructor|exact H3].
  - rewrite (proj2 (Z.ltb_lt _ _) Hn). eexists LINUX_REBOOT_CMD_HALT, w2, _. split; [reflexivity|]. split; [exact A12|]. exists [], []. eexists. split; [reflexivity|]. split; [constructor|]. split; [constructor|].
    right. split; [reflexivity|]. exists a. right. exists ws', d, b. auto.
Qed.

Definition clone (r : Z) : event := (Sys_clone3 (CLONE_VM .| CLONE_VFORK), Answer r []).

(** Up to where the machine is halted without a router. *)
Definition not_started (es : list event) : Prop :=
  (exists es1 es2, es = es1 ++ es2 /\ unprepared es1 /\ Forall (is_write util_STDERR) es2) \/
  exists es1 shellPid routerPid, prepared es1 /\ (es = es1 ++ [clone shellPid] /\ shellPid < 0 \/ es = es1 ++ [clone shellPid; clone routerPid] /\ 0 < shellPid /\ routerPid < 0).

(** What the child does: [program] is started, and if that fails it exits. *)
Definition became (program : list Z) (es : list event) : Prop :=
  exists a b, es = [clone 0; (Sys_execveat program [program] newEnvp, a); (Sys_exit_group 1, b)].

Lemma halt_done cmd w : exists w' a b, halt cmd w = (Done 0, w') /\ adds w w' [(Sys_sync, a); (Sys_reboot LINUX_REBOOT_MAGIC1 LINUX_REBOOT_MAGIC2 cmd, b)].
Proof.
  unfold halt. call a w1 H1. call b w2 H2. exists w2, (Answer a []), (Answer b []). split; [reflexivity|]. exact (adds_cons _ _ _ _ _ H1 H2).
Qed.

Lemma run_becomes program w : exists w' a b, run program w = (Fatal, w') /\ adds w w' [(Sys_execveat program [program] newEnvp, a); (Sys_exit_group 1, b)].
Proof.
  unfold run. call a w1 H1. call b w2 H2. exists w2, (Answer a []), (Answer b []). split; [reflexivity|]. exact (adds_cons _ _ _ _ _ H1 H2).
Qed.

Lemma printNum_writes text n w : exists w' es, debug_printNum text n w = (Done tt, w') /\ adds w w' es /\ Forall (is_write util_STDERR) es.
Proof.
  assert (forall fd data, does (writeAll fd data) (fun _ es => Forall (is_write fd) es)) as Hw.
  { intros fd data. eapply does_weaken; [apply writeAll_does|]. intros r es [(_ & H & _)|(_ & ws & d & b & -> & H & _)]; [exact H|]. apply Forall_app. split; [exact H|]. constructor; [now eexists|constructor]. }
  unfold debug_printNum. destruct (Hw util_STDERR text w) as (r1 & w1 & es1 & E1 & A1 & _ & H1). rewrite (bind_done _ _ _ _ _ E1). cbv zeta. destruct (util_intToStr _ _ _) as [p pos].
  destruct (Hw util_STDERR (skipn (pos - 2) (mem_copy p (pos - 2) [32; 40])) w1) as (r2 & w2 & es2 & E2 & A2 & _ & H2). rewrite (bind_done _ _ _ _ _ E2).
  exists w2, (es1 ++ es2). split; [reflexivity|]. split; [exact (adds_app _ _ _ _ _ A1 A2)|now apply Forall_app].
Qed.

(** [start] from any state: how it ends. *)
Definition booted (r : outcome Z) (es : list event) : Prop :=
  match r with
  | Done status => status = 0 /\ exists es1 cmd a b, es = es1 ++ [(Sys_sync, a); (Sys_reboot LINUX_REBOOT_MAGIC1 LINUX_REBOOT_MAGIC2 cmd, b)] /\
      (cmd = LINUX_REBOOT_CMD_HALT /\ not_started es1 \/
       exists es2 shellPid routerPid es3, es1 = es2 ++ [clone shellPid; clone routerPid] ++ es3 /\ prepared es2 /\ 0 < shellPid /\ 0 < routerPid /\ supervised routerPid cmd es3)
  | Fatal => exists es1 es2, es = es1 ++ es2 /\
      (prepared es1 /\ became (str "/shell") es2 \/
       exists es0 shellPid, es1 = es0 ++ [clone shellPid] /\ prepared es0 /\ 0 < shellPid /\ became (str "/router") es2)
  | _ => False
  end.

Lemma start_boots w : exists r w' es, start objects prints w = (r, w') /\ adds w w' es /\ booted r es.
Proof using objects_length prints_length.
  unfold start. destruct (initialise_does w) as (status & w1 & es1 & E1 & A1 & _ & H1). rewrite (bind_done _ _ _ _ _ E1).
  destruct H1 as [[-> H1]|[Hs H1]].
  2:{ rewrite (proj2 (Z.ltb_lt _ _) Hs). destruct (printNum_writes (str "Failed to initialise") status w1) as (w2 & es2 & E2 & A2 & H2). rewrite (bind_done _ _ _ _ _ E2).
      destruct (halt_done LINUX_REBOOT_CMD_HALT w2) as (w3 & a & b & -> & A3). do 3 eexists. split; [reflexivity|]. split; [exact (adds_app _ _ _ _ _ A1 (adds_app _ _ _ _ _ A2 A3))|]. split; [reflexivity|].
      exists (es1 ++ es2). do 3 eexists. split; [now rewrite <- app_assoc|]. left. split; [reflexivity|]. left. now exists es1, es2. }
  change (0 <? 0) with false. cbv iota. unfold sys_clone3_func, bind at 1 2. destruct (syscall_spec (Sys_clone3 (CLONE_VM .| CLONE_VFORK)) w1) as (shellPid & w2 & E2 & A2). rewrite E2.
  fold (clone shellPid) in A2. pose proof (adds_app _ _ _ _ _ A1 A2) as A12. destruct (Z.eqb_spec shellPid 0) as [->|Hz1].
  { destruct (run_becomes (str "/shell") w2) as (w3 & a & b & E3 & A3). rewrite E3. do 3 eexists. split; [reflexivity|]. split; [exact (adds_app _ _ _ _ _ A12 A3)|]. exists es1. eexists. split; [now rewrite <- app_assoc|]. left. split; [exact H1|]. now exists a, b. }
  unfold pure at 1. destruct (Z.ltb_spec shellPid 0) as [Hn1|Hn1].
  { destruct (halt_done LINUX_REBOOT_CMD_HALT w2) as (w3 & a & b & -> & A3). do 3 eexists. split; [reflexivity|]. split; [exact (adds_app _ _ _ _ _ A12 A3)|]. split; [reflexivity|].
    exists (es1 ++ [clone shellPid]). do 3 eexists. split; [reflexivity|]. left. split; [reflexivity|]. right. exists es1, shellPid, 0. auto. }
  unfold bind at 1 2. destruct (syscall_spec (Sys_clone3 (CLONE_VM .| CLONE_VFORK)) w2) as (routerPid & w3 & E3 & A3). rewrite E3.
  fold (clone routerPid) in A3. pose proof (adds_app _ _ _ _ _ A12 A3) as A123. destruct (Z.eqb_spec routerPid 0) as [->|Hz2].
  { destruct (run_becomes (str "/router") w3) as (w4 & a & b & E4 & A4). rewrite E4. do 3 eexists. split; [reflexivity|]. split; [exact (adds_app _ _ _ _ _ A123 A4)|]. exists (es1 ++ [clone shellPid]). eexists. split; [now rewrite <- (app_assoc (es1 ++ _))|].
    right. exists es1, shellPid. split; [reflexivity|]. split; [exact H1|]. split; [lia|]. now exists a, b. }
  unfold pure at 1. destruct (Z.ltb_spec routerPid 0) as [Hn2|Hn2].
  { destruct (halt_done LINUX_REBOOT_CMD_HALT w3) as (w4 & a & b & -> & A4). do 3 eexists. split; [reflexivity|]. split; [exact (adds_app _ _ _ _ _ A123 A4)|]. split; [reflexivity|].
    exists (es1 ++ [clone shellPid; clone routerPid]). do 3 eexists. split; [now rewrite <- !app_assoc|]. left. split; [reflexivity|]. right. exists es1, shellPid, routerPid. split; [exact H1|]. right. split; [reflexivity|]. lia. }
  destruct (wait_loop_takes routerPid (S (length (answers w3))) w3 ltac:(lia)) as (cmd & w4 & es4 & E4 & A4 & H4). unfold bind at 1. rewrite E4.
  destruct (halt_done cmd w4) as (w5 & a & b & -> & A5). do 3 eexists. split; [reflexivity|]. split; [exact (adds_app _ _ _ _ _ A123 (adds_app _ _ _ _ _ A4 A5))|]. split; [reflexivity|].
  exists (es1 ++ [clone shellPid; clone routerPid] ++ es4), cmd, a, b. split; [now rewrite <- !app_assoc|]. right. exists es1, shellPid, routerPid, es4. repeat split; auto; lia.
Qed.
End Supervision.

(** C12: whatever the kernel answers, the first process comes to an end in one of two ways.
    As the parent it syncs the disks and reboots, last of all, with the command to power off
    exactly when the router was reported to have exited with status 0, and that report was
    printed; before that the file systems and the memory settings were all made, the shell
    and then the router started, and every other child that ended was reported by a line
    with its pid, status and memory in decimal.  In every other case it halts the
    machine, and then a call has failed: of the preparation, of the two starts, of waiting
    or of printing.  As a child it starts its program and exits if that fails; the
    shell's and the router's child are told apart by what was called before.  Nothing it
    does is undefined, and no line overruns its buffer. *)
Theorem init_start_correct objects prints w :
  (forall n, length (objects n) = 272%nat) -> (forall n, length (prints n) = print_SIZE) ->
  match start objects prints w with
  | (Done status, w') => status = 0 /\ exists es cmd a b, adds w w' (es ++ [(Sys_sync, a); (Sys_reboot LINUX_REBOOT_MAGIC1 LINUX_REBOOT_MAGIC2 cmd, b)]) /\
      (cmd = LINUX_REBOOT_CMD_HALT /\ not_started es \/
       exists es1 shellPid routerPid es2, es = es1 ++ [clone shellPid; clone routerPid] ++ es2 /\ prepared es1 /\ 0 < shellPid /\ 0 < routerPid /\ supervised routerPid cmd es2)
  | (Fatal, w') => exists es1 es2, adds w w' (es1 ++ es2) /\
      (prepared es1 /\ became (str "/shell") es2 \/
       exists es0 shellPid, es1 = es0 ++ [clone shellPid] /\ prepared es0 /\ 0 < shellPid /\ became (str "/router") es2)
  | _ => False
  end.
Proof.
  intros Ho Hp. destruct (start_boots objects prints Ho Hp w) as (r & w' & es & -> & H & Hb). destruct r as [status| | |]; [| |destruct Hb..].
  - destruct Hb as (-> & es1 & cmd & a & b & -> & H1). split; [reflexivity|]. exists es1, cmd, a, b. auto.
  - destruct Hb as (es1 & es2 & -> & Hb). exists es1, es2. auto.
Qed.

(** The shell is killed, then the router exits. *)
Definition demo_siginfo (code pid status : Z) : list Z :=
  repeat 0 8 ++ le_split 4 code ++ repeat 0 4 ++ le_split 4 pid ++ repeat 0 4 ++ le_split 4 status ++ repeat 0 100 ++ repeat 0 32 ++ le_split 8 2048 ++ repeat 0 104.
Definition demo_boot : world :=
  World (map (fun r => Answer r []) [0; 3; 1; 0; 3; 1; 0; 0; 0; 0; 7; 8] ++
    [Answer 0 (demo_siginfo 2 7 9); Answer 37 []; Answer 0 (demo_siginfo 1 8 0); Answer 37 []; Answer 0 []; Answer 0 []]) [].
Definition demo_objects (n : nat) : list Z := repeat 165 272.
Definition demo_prints (n : nat) : list Z := repeat 165 print_SIZE.

Lemma init_start_correct_witness :
  map fst (skipn 12 (trace (snd (start demo_objects demo_prints demo_boot)))) =
    [wait_call; Sys_write 2 (str "Pid 7 killed (signal=9, maxRss=2048)" ++ [10]); wait_call; Sys_write 2 (str "Pid 8 exited (status=0, maxRss=2048)" ++ [10]);
     Sys_sync; Sys_reboot LINUX_REBOOT_MAGIC1 LINUX_REBOOT_MAGIC2 LINUX_REBOOT_CMD_POWER_OFF] /\
  match start demo_objects demo_prints demo_boot with
  | (Done status, w') => status = 0 /\ exists es cmd a b, adds demo_boot w' (es ++ [(Sys_sync, a); (Sys_reboot LINUX_REBOOT_MAGIC1 LINUX_REBOOT_MAGIC2 cmd, b)]) /\
      (cmd = LINUX_REBOOT_CMD_HALT /\ not_started es \/
       exists es1 shellPid routerPid es2, es = es1 ++ [clone shellPid; clone routerPid] ++ es2 /\ prepared es1 /\ 0 < shellPid /\ 0 < routerPid /\ supervised routerPid cmd es2)
  | (Fatal, w') => exists es1 es2, adds demo_boot w' (es1 ++ es2) /\
      (prepared es1 /\ became (str "/shell") es2 \/
       exists es0 shellPid, es1 = es0 ++ [clone shellPid] /\ prepared es0 /\ 0 < shellPid /\ became (str "/router") es2)
  | _ => False
  end.
Proof.
  split; [vm_compute; reflexivity|]. apply (init_start_correct demo_objects demo_prints demo_boot); intros n; reflexivity.
Defined.
